(* ===== verification/_CoqProject ===== *)
-Q . S2P
Prelude.v
PyBytes.v
Sha256.v
PyText.v
PyStr.v
PyRegex.v
PyDict.v
BuildComposite.v
ComposeInitial.v
BuildModule.v
FirmwareImage.v
Elf.v
ExportResident.v
BuildStatefulProof.v
ComposeStateful.v
PyJson.v
Effects.v
FmgoUpload.v
CheckpointFlash.v
Ipv4.v
PyHttp.v
Stateful.v
Stages.v
Handlers.v
UartSmoke.v
Soak.v
Sockets.v
Smoke.v
AttachChecks.v
Attach.v
SessionSmoke.v
Bench.v
PicoPeer.v
UartPeer.v
UartOverrun.v
UartFormat.v
BenchSmoke.v
Upload.v
Release.v
Dev.v
NcmBurst.v
ManagedSmoke.v
ResidentSource.v
ResidentExport.v
StatefulLayout.v
StatefulExport.v
Shell.v
UsbCore.v
DevTools.v
ManagedProfile.v
Build.v
ResidentBuild.v
FlashInitial.v
PicoFixture.v
RomImages.v
ModuleBuild.v
ProofBuild.v
CheckpointProof.v
Overlap.v
InstallProbes.v
UploadCommand.v
VerifyStream.v
SdkContract.v
Coexistence.v
DevCommands.v
FaultTest.v
UploadWire.v
