(* ===== verification/Prelude.v ===== *)
(** * Firmingo host tools: a verification library

    Firmingo is RP2040 firmware that offers a local USB network and a bounded byte stream; its Python tools
    build, compose, flash, upload to and test the boards. This library models those tools, and the two
    firmware validators whose verdict the build tools predict, as Rocq functions, and proves what each tool
    promises. Paths below are relative to the repository; [MS] is experiments/managed_sketch.

    ** The parts of the program

    - Images. A _resident_ is a UF2 file of 256-byte blocks in flash; a _capsule_ (FMS1, or FMS2 with state) is a
      module the resident runs. [MS]/build_resident.py builds a resident, [MS]/build_module.py and
      [MS]/build_stateful_proof.py write capsules for it, [MS]/build_composite.py holds the two gates
      [checked_resident_bytes] and [checked_capsule] and appends a capsule to a resident, as
      [MS]/compose_initial.py and [MS]/compose_stateful_initial.py do for pinned images. [MS]/export_resident.py and
      [MS]/export_stateful.py export residents that are bound to a commit, and [MS]/image.cpp and
      [MS]/stateful_image.cpp decide on the board.
    - Builds. tools/dev.py compiles the firmware profiles against the core mirror of tools/usb_core.py, and
      tools/managed_profile.py the managed resident; tools/pico_peer.py builds and flashes the test fixture,
      [MS]/flash_initial.py installs a composite over the ROM bootloader. tools/package_release.py publishes.
    - Sessions. A device speaks FMGO frames on a TCP socket; tools/session_smoke.py has the codec and the
      [Probe] class. The staged upload ([MS]/fmgo_upload.py), its fault test ([MS]/checkpoint_flash.py), the soak
      (tools/soak.py), the check of a managed resident ([MS]/smoke.py), the burst of tools/ncm_burst.py, the overlap
      checks of docs/evidence and the UART tools are clients of a probe. [MS]/upload.py, probe_pause.py and
      probe_stall.py use a second port, on which a board takes or refuses a capsule.
    - Benches. tools/uart_peer_smoke.py, tools/uart_overrun.py and tools/uart_format_matrix.py drive a Pico over a
      serial line and one or two sessions at once. tools/attach.py watches the host while a board is replugged.

    ** The files

    Foundations:
    - Prelude: exceptions with their classes, the [result] monad, lists and options.
    - PyBytes, PyText, PyStr, PyHttp, PyRegex, PyDict, PyJson, Sha256, Ipv4: what the tools use of Python. Bytes,
      slices and [struct]; strings of 8-bit characters; [int], [split], [strip]; regular expressions as a
      backtracking matcher with its declarative reading; dictionaries in insertion order; JSON values with
      Python's equality; SHA-256, executable; dotted quads.
    - Effects: a program is a function of an environment and of the calls made so far. The environment answers
      each call as it likes, or raises. [runs] relates a program to its result and its calls.
    - Stateful: programs with local state that survives an exception, and Hoare triples ([triple]) with one
      postcondition for returning and one for raising. Handlers: a program whose calls are handled by other programs.
      Stages: what a run saw as a list of stages in order, each a predicate of its own calls and their answers.
    - Sockets: connecting, [select], [recv], [send], serial ports and the clock as calls; [Socket] and [Clock] are
      the classes that say what a device and a monotonic clock may answer; [Reads] is the interface of a bounded
      read loop, proved once. A [sendall] that raises has put some first part of its bytes on the wire, which only the
      environment knows ([Flushed]). Bench: several devices at once, and sessions on them.
    - Shell: files, links, a report and processes. An operation on the disk may be refused and has no effect then; a
      process is answered with its exit code, its output and the files it leaves, which may be any.

    Images:
    - BuildComposite (build_composite.py): both gates with declarative characterisations, and the composition.
    - ComposeInitial, ComposeStateful (compose_initial.py, compose_stateful_initial.py): the pinned composers.
    - BuildModule (build_module.py): the FMS1 writer; BuildStatefulProof (build_stateful_proof.py): the ELF
      reader, the resident contract, the upload facts and the FMS2 writer.
    - Elf, ExportResident (export_resident.py): the ELF tables, [resident_elf] and [check_uf2].
    - FirmwareImage (image.cpp, stateful_image.cpp): both [validate_image] functions.
    - ResidentSource, ResidentExport (export_resident.py): bounded files, unique keys and committed sources; the
      verified resident, the compiler contract and the export. StatefulLayout, StatefulExport (export_stateful.py):
      the layout document, the bound candidate and the export.
    - ResidentBuild (build_resident.py), ModuleBuild (build_module.py), RomImages (the commands of build_composite.py,
      compose_initial.py and compose_stateful_initial.py), ProofBuild (build_stateful_proof.py), CheckpointProof
      (checkpoint_flash.py: the review of a proof, and the journal), FlashInitial (flash_initial.py): each [main]
      from its arguments to its report.
    - SdkContract (export_sdk_contract.py): the bundle of documents and fixtures.

    Builds:
    - UsbCore (usb_core.py): the mirror with its links. DevTools, Build and Dev (dev.py): the tools and doctor; the
      compilation with its report; manifests, baselines and [flash]. ManagedProfile (managed_profile.py),
      PicoFixture (pico_peer.py). Release (version.py, package_release.py). DevCommands (dev.py: smoke, package and the
      exit code).

    Sessions:
    - SessionSmoke (session_smoke.py): frames, [Probe], the full-duplex echo. BenchSmoke: the two-session tests of
      session_smoke.py and uart_smoke.py. UartSmoke (uart_smoke.py): the channel check. ManagedSmoke
      ([MS]/smoke.py): the three sessions of the check of a managed resident.
    - FmgoUpload, CheckpointFlash: [snapshot], [reconcile], [transfer] and the journalled transfer. UploadCommand: both
      actions of fmgo_upload.py. UploadWire: the staged upload over the sockets of SessionSmoke. FaultTest:
      checkpoint_flash.py as a whole, with CheckpointProof's review and journal.
    - Upload (inspect_hello.py, upload.py), InstallProbes (the commands of upload.py, probe_pause.py, probe_stall.py).
    - Smoke (smoke.py): the record source, the byte echo and the identity page of the prototype; VerifyStream
      (verify_stream.py): the earlier check of the same records.
    - Soak (soak.py): argument checks, diagnostics and the traffic loop. Overlap (the overlap checks of
      docs/evidence), Coexistence (the scripts before them, in the same frame).

    Benches:
    - PicoPeer and UartPeer (uart_peer_smoke.py): the byte pattern, the line protocol, and the check. The Pico's bytes that
      were received and not read yet are handed from one stage to the next ([told], [reported]), so that each reply is
      the next line that came.
    - UartOverrun (uart_overrun.py), UartFormat (uart_format_matrix.py), NcmBurst (ncm_burst.py: an echo and a
      burst of refused requests at once).
    - AttachChecks and Attach (attach.py): what a registry, a route, a lease and the diagnostics must say; the
      waits, the traffic and the cycles, whose report entries are functions of what the stages of the run saw.

    A definition has the name of the function it models where that is possible; a long function is split
    at its loops, and the pieces are composed in the order of the code. A loop body is named [*_turn].

    ** What the theorems show

    - The host and the board agree: an FMS1 gate accepts what the firmware accepts, an FMS2 capsule that the
      writer emits for a checked resident passes the firmware's validator, the exported layout describes exactly these
      capsules, and the gates accept exactly the formats they describe (BuildComposite, FirmwareImage,
      BuildStatefulProof, StatefulLayout, ExportResident).
    - Composition keeps the resident's pages and writes the capsule after them (BuildComposite, ComposeInitial,
      ComposeStateful); assembling and checking a capsule are inverse (BuildModule).
    - The tools fit together: of what the resident and module builders leave the composer refuses only a resident of
      another variant or a UF2 of another form, and the pinned composers publish only reviewed images (ModuleBuild,
      RomImages); of what a checkpoint proof leaves the fault test refuses only a proof whose two records differ about a
      source (CheckpointProof); a build can be flashed (Build, PicoFixture); installing takes only a rebuilt, reviewed
      composite (FlashInitial).
    - Builds claim what they did: a report says "passed" only after its checks, a failed build leaves none that says so
      (Build, ManagedProfile, ResidentBuild, ProofBuild), and the mirror never reaches the installed core (UsbCore).
    - Transfers are exact: a successful echo, source, upload or UART transfer has carried exactly its bytes, read
      off the calls that were made (SessionSmoke, Smoke, VerifyStream, Upload, UartPeer, UartFormat, InstallProbes).
    - Irreversible steps are guarded: at most one commit, only after a verified stage and a saved intent
      (FmgoUpload, CheckpointFlash, UploadCommand), which holds of the frames on the wire as well (UploadWire), and in
      the fault test only for the reviewed capsule, with the records of the run on the disk (FaultTest); the upload port
      is opened at most once, only for a reviewed capsule and a board that identified itself (InstallProbes); nothing is
      flashed, published or exported that was not verified (Dev, Release, ResidentExport, StatefulExport, SdkContract). A
      release is all or nothing but for two failures of its clean-up, which Release names.
    - Reports tell the truth: after every way out, the evidence that a long check saved agrees with what it did,
      and its sessions are closed (Soak, UartOverrun, UartFormat, Attach, NcmBurst, Overlap, Coexistence). One tool
      writes over evidence that exists already, and NcmBurst states it.
    - Loops end: each modelled loop stops within its fuel, from a clock that advances or a read that makes
      progress (Smoke, SessionSmoke, Soak, PicoPeer, Attach, NcmBurst).
    - Checks are exact: the target address, the USB entry, the DHCP lease, the diagnostics and the UART
      configurations that are accepted are characterised (Ipv4, AttachChecks, Soak, UartFormat).

    ** Bounds and fuel

    Instants and durations are integers in nanoseconds; where the code keeps seconds in a float, the model keeps
    the exact number. A loop under a deadline has a fuel, and running out of it would raise [KOutOfFuel], which
    is no Python class: the termination theorems exclude it. A read of [count] bytes needs [count + 2] turns, since
    each takes a byte or ends. A loop that asks a clock which moves by at least one nanosecond per
    turn needs its timeout plus two (Attach) or three (PicoPeer) turns; an event wait of the Pico needs one turn
    per line that is not an event, and so has no bound of its own. The recursion of the mirror descends one directory at
    a time, so one more than the length of the longest modified name is enough.
    Words of the image formats are integers with their 8-, 16- or 32-bit bounds and wrap-around written out.

    ** Parameters

    Code outside the repository is a parameter: [Json] (json.loads, json.dumps), [Packing] (indented JSON and the
    zip writer), [JsonPairs] and [ExportText] (pairs of an object, UTF-8, sorted JSON), [Git] (the output of a git
    command), [Machine] (symbolic links and opened files), [Host] (plistlib, [repr] of values that are not
    strings), [resolve] (the resolution of a path), the paths of Python and of the tools, the native capsule checker, and
    every device, clock, file, process and thread, which are calls answered by an arbitrary environment. Theorems quantify
    over all of them; the hypotheses a theorem needs are classes ([Socket], [Clock], [AttachClock], [Bench],
    [EndingBench], [BoardSocket]) or laws about a process ([leaves], [spares]: the files it does not touch), with an instance at the end
    of the file that uses them.

    ** Conventions

    An exception is its class and the literal part of its message. Files are a store of paths relative to the
    repository, and a directory exists when it has a file; an operation that changes the disk asks it first, and may be
    refused. [pr_output] is the stream that the caller reads. A thread pool whose results are all awaited is one call
    per thread, answered with the thread's result, or, where the threads talk to different devices, the two
    programs one after the other, each seeing its own device (NcmBurst.both, Overlap.beside). What a tool prints is not
    modelled; where it prints its result, the model returns it.

    ** What is not modelled, and why

    Argument parsers, whose results are records; printing; the C++ firmware except its capsule validators; three scripts
    under docs/evidence, each the record of one hardware session (two sessions in application-v3-hardware-check.py, urllib in
    the place of curl in backend attempt 4, a second probe beside the transfer in attempt 6); the format of archives, YAML and property lists; vendored code; the tests.

    ** Plan

    What is left are the three scripts above, and the operations of the probe in FaultTest on the sockets of SessionSmoke, as
    UploadWire has them for FmgoUpload. *)

From stdpp Require Import base tactics list strings.
From Stdlib Require Import ZArith Lia.

Local Open Scope Z_scope.

(** ** Python exceptions

    The exception classes the modelled code raises or catches. [KOutOfFuel] is
    not a Python class: it marks the artificial end of a bounded loop, and the
    theorems about loops show that it is never the outcome. *)
Inductive exn_kind : Set :=
| KValueError | KUnicodeError
| KRuntimeError | KVerificationError
| KOSError | KTimeoutError | KBlockingIOError | KConnectionResetError | KFileExistsError
| KLookupError | KKeyError | KIndexError
| KZeroDivisionError | KOverflowError | KTypeError | KAttributeError | KStructError | KAssertionError | KStopIteration
| KTimeoutExpired | KCalledProcessError | KSystemExit | KKeyboardInterrupt | KOutOfFuel.

(** An exception value: its class and the literal text of its message (the
    interpolated parts of an f-string are left out). *)
Record exn : Set := Exn { ekind : exn_kind; emsg : string }.

#[export] Instance exn_kind_eq_dec : EqDecision exn_kind.
Proof. solve_decision. Defined.

#[export] Instance exn_eq_dec : EqDecision exn.
Proof. solve_decision. Defined.

(** The direct base class, and [issubclass] on the classes above. *)
Definition kind_base (k : exn_kind) : option exn_kind :=
  match k with
  | KUnicodeError => Some KValueError
  | KVerificationError => Some KRuntimeError
  | KTimeoutError | KBlockingIOError | KConnectionResetError | KFileExistsError => Some KOSError
  | KKeyError | KIndexError => Some KLookupError
  | _ => None
  end.

Definition is_a (k : exn_kind) (e : exn) : bool :=
  bool_decide (ekind e = k) || bool_decide (kind_base (ekind e) = Some k).

(** [except (A, B, ...)] *)
Definition is_any (ks : list exn_kind) (e : exn) : bool := existsb (fun k => is_a k e) ks.

(** [except Exception]: everything but the exits and the artificial marker. *)
Definition is_exception (e : exn) : bool :=
  match ekind e with
  | KSystemExit | KKeyboardInterrupt | KOutOfFuel => false
  | _ => true
  end.

Definition ValueError := Exn KValueError.
Definition UnicodeError := Exn KUnicodeError.
Definition RuntimeError := Exn KRuntimeError.
Definition VerificationError := Exn KVerificationError.
Definition OSError := Exn KOSError.
Definition TimeoutError := Exn KTimeoutError.
Definition KeyError := Exn KKeyError.
Definition IndexError := Exn KIndexError.
Definition TypeError := Exn KTypeError.
Definition AttributeError := Exn KAttributeError.
Definition StructError := Exn KStructError.
Definition AssertionError := Exn KAssertionError.
Definition StopIteration := Exn KStopIteration.
Definition ZeroDivisionError := Exn KZeroDivisionError.
Definition OverflowError := Exn KOverflowError.

(** [type(exc).__name__] *)
Definition type_name (e : exn) : string :=
  match ekind e with
  | KValueError => "ValueError" | KUnicodeError => "UnicodeError" | KRuntimeError => "RuntimeError"
  | KVerificationError => "VerificationError" | KOSError => "OSError" | KTimeoutError => "TimeoutError"
  | KBlockingIOError => "BlockingIOError" | KConnectionResetError => "ConnectionResetError"
  | KFileExistsError => "FileExistsError" | KLookupError => "LookupError" | KKeyError => "KeyError"
  | KIndexError => "IndexError" | KZeroDivisionError => "ZeroDivisionError" | KOverflowError => "OverflowError"
  | KTypeError => "TypeError" | KAttributeError => "AttributeError" | KStructError => "error"
  | KAssertionError => "AssertionError" | KTimeoutExpired => "TimeoutExpired" | KCalledProcessError => "CalledProcessError"
  | KStopIteration => "StopIteration" | KSystemExit => "SystemExit"
  | KKeyboardInterrupt => "KeyboardInterrupt" | KOutOfFuel => ""
  end.

(** [f"{type(exc).__name__}: {exc}"] *)
Definition describe (e : exn) : string := (type_name e ++ ": " ++ emsg e)%string.

Definition OutOfFuel := Exn KOutOfFuel "".

(** ** The error monad of pure code *)
Inductive result (A : Type) : Type :=
| Ok (a : A)
| Raise (e : exn).
Arguments Ok {A} a.
Arguments Raise {A} e.

#[export] Instance result_ret : MRet result := fun A a => Ok a.
#[export] Instance result_bind : MBind result := fun A B f m =>
  match m with Ok a => f a | Raise e => Raise e end.

#[export] Instance result_fmap : FMap result := fun A B f m =>
  match m with Ok a => Ok (f a) | Raise e => Raise e end.

Definition is_ok {A} (m : result A) : bool := match m with Ok _ => true | Raise _ => false end.

(** [if c: raise e] *)
Definition raise_when (c : bool) (e : exn) : result unit := if c then Raise e else Ok tt.

(** [raise e] when an optional value is absent *)
Definition some_or {A} (o : option A) (e : exn) : result A :=
  match o with Some a => Ok a | None => Raise e end.

(** [for x in l: s = f(s, x)], stopping at the first exception *)
Fixpoint foldM {S A} (f : S -> A -> result S) (s : S) (l : list A) : result S :=
  match l with
  | [] => Ok s
  | x :: l => s' ← f s x; foldM f s' l
  end.

(** [for x in l: f(x)] with no state *)
Definition for_each {A} (f : A -> result unit) (l : list A) : result unit :=
  foldM (fun _ x => f x) tt l.
Arguments for_each : simpl never.

(** A computation that can only fail with exceptions satisfying [P]. *)
Definition raises {A} (P : exn -> Prop) (m : result A) : Prop := forall e, m = Raise e -> P e.

Definition is_value_error (e : exn) : Prop := is_a KValueError e = true.
Notation ValueError_only m := (raises is_value_error m).

(** ** Laws of the error monad *)
Lemma bind_Ok {A B} (m : result A) (f : A -> result B) b :
  (m ≫= f) = Ok b <-> exists a, m = Ok a /\ f a = Ok b.
Proof. destruct m; simpl; naive_solver. Qed.

Lemma bind_Raise {A B} (m : result A) (f : A -> result B) e :
  (m ≫= f) = Raise e <-> m = Raise e \/ exists a, m = Ok a /\ f a = Raise e.
Proof. destruct m; simpl; naive_solver. Qed.

Lemma fmap_Ok {A B} (f : A -> B) (m : result A) b : f <$> m = Ok b <-> exists a, m = Ok a /\ b = f a.
Proof. destruct m; simpl; naive_solver. Qed.

Lemma raise_when_Ok c e u : raise_when c e = Ok u <-> c = false.
Proof. destruct c, u; simpl; naive_solver. Qed.

Lemma raise_when_bind {B} c e (k : result B) b :
  (raise_when c e;; k) = Ok b <-> c = false /\ k = Ok b.
Proof. destruct c; simpl; naive_solver. Qed.

Lemma Ok_Ok {A} (a b : A) : Ok a = Ok b <-> a = b.
Proof. naive_solver. Qed.

Lemma some_or_Ok {A} (o : option A) e a : some_or o e = Ok a <-> o = Some a.
Proof. destruct o; simpl; naive_solver. Qed.

Lemma mret_Ok {A} (a b : A) : (mret a : result A) = Ok b <-> a = b.
Proof. unfold mret, result_ret. naive_solver. Qed.

Lemma foldM_app {S A} (f : S -> A -> result S) s l1 l2 :
  foldM f s (l1 ++ l2) = (s' ← foldM f s l1; foldM f s' l2).
Proof.
  revert s. induction l1 as [|x l1 IH]; intros s; simpl; [done|].
  destruct (f s x); simpl; [apply IH | done].
Qed.

(** Loop invariant indexed by the elements already visited. *)
Lemma foldM_inv {S A} (P : list A -> S -> Prop) (f : S -> A -> result S) l s s' :
  P [] s ->
  (forall pre x s1 s2, P pre s1 -> f s1 x = Ok s2 -> P (pre ++ [x]) s2) ->
  foldM f s l = Ok s' -> P l s'.
Proof.
  intros H0 Hstep. change l with ([] ++ l) at 2.
  revert s H0. generalize (@nil A) as pre.
  induction l as [|x l IH]; intros pre s Hs Hf; simpl in Hf.
  - rewrite app_nil_r. naive_solver.
  - apply bind_Ok in Hf as (s1 & H1 & H2).
    rewrite cons_middle, app_assoc. eapply IH; [|exact H2]. by eapply Hstep.
Qed.

Lemma for_each_Ok {A} (f : A -> result unit) l u :
  for_each f l = Ok u <-> Forall (fun x => f x = Ok tt) l.
Proof.
  unfold for_each. destruct u. induction l as [|x l IH]; simpl.
  - naive_solver.
  - rewrite bind_Ok, Forall_cons, <- IH. split.
    + intros ([] & ? & ?). done.
    + naive_solver.
Qed.

Lemma for_each_2 {A} (f : A -> result unit) a b :
  for_each f [a; b] = Ok tt <-> f a = Ok tt /\ f b = Ok tt.
Proof. rewrite for_each_Ok, !Forall_cons. naive_solver. Qed.

Lemma bind_unit {B} (m : result unit) (k : result B) b : (m;; k) = Ok b <-> m = Ok tt /\ k = Ok b.
Proof. destruct m as [[]|]; simpl; naive_solver. Qed.

Lemma mapM_Ok {A B} (f : A -> result B) l k :
  mapM f l = Ok k <-> Forall2 (fun x y => f x = Ok y) l k.
Proof.
  revert k. induction l as [|x l IH]; intros k; simpl.
  - rewrite mret_Ok. split; [intros <-; constructor | by inversion 1].
  - rewrite bind_Ok. setoid_rewrite bind_Ok. setoid_rewrite mret_Ok. setoid_rewrite IH. split.
    + intros (y & Hy & k' & Hk & <-). by constructor.
    + inversion 1; subst. eauto 6.
Qed.

Lemma mapM_app {A B} (f : A -> result B) l1 l2 :
  mapM f (l1 ++ l2) = (k1 ← mapM f l1; k2 ← mapM f l2; Ok (k1 ++ k2)).
Proof.
  induction l1 as [|x l1 IH]; cbn [app mapM mbind result_bind mret result_ret].
  - by destruct (mapM f l2).
  - destruct (f x); [|done]. cbn [mbind result_bind] in *. rewrite IH. destruct (mapM f l1); [|done].
    cbn [mbind result_bind]. by destruct (mapM f l2).
Qed.

(** ** Which exceptions a computation can raise *)
Create HintDb raises.

Lemma raises_ok {A} P (a : A) : raises P (Ok a).
Proof. by intros e ?. Qed.

Lemma raises_raise {A} (P : exn -> Prop) e : P e -> raises P (Raise (A := A) e).
Proof. by intros ? ? [= <-]. Qed.

Lemma raises_weaken {A} (P Q : exn -> Prop) (m : result A) : raises P m -> (forall e, P e -> Q e) -> raises Q m.
Proof. intros H HPQ e He. by apply HPQ, H. Qed.

Lemma raises_bind {A B} P (m : result A) (f : A -> result B) :
  raises P m -> (forall a, m = Ok a -> raises P (f a)) -> raises P (m ≫= f).
Proof. intros Hm Hf e [?|(a & ? & ?)]%bind_Raise; [by apply Hm | by eapply Hf]. Qed.

Lemma raises_fmap {A B} P (f : A -> B) (m : result A) : raises P m -> raises P (f <$> m).
Proof. intros Hm e. destruct m; simpl; [done|]. intros [= <-]. by apply Hm. Qed.

Lemma raises_when (P : exn -> Prop) c e : P e -> raises P (raise_when c e).
Proof. intros He. destruct c; simpl; [by apply raises_raise | by apply raises_ok]. Qed.

Lemma raises_some_or {A} (P : exn -> Prop) (o : option A) e : P e -> raises P (some_or o e).
Proof. intros He. destruct o; simpl; [by apply raises_ok | by apply raises_raise]. Qed.

Lemma raises_foldM {S A} P (f : S -> A -> result S) s l :
  (forall s x, x ∈ l -> raises P (f s x)) -> raises P (foldM f s l).
Proof.
  revert s. induction l as [|x l IH]; intros s Hf; simpl; [by apply raises_ok|].
  apply raises_bind; [apply Hf; left|]. intros s' _. apply IH. intros. apply Hf. by right.
Qed.

Lemma raises_for_each {A} P (f : A -> result unit) l :
  (forall x, x ∈ l -> raises P (f x)) -> raises P (for_each f l).
Proof. intros. apply raises_foldM. eauto. Qed.

Lemma raises_mapM {A B} P (f : A -> result B) l :
  (forall x, x ∈ l -> raises P (f x)) -> raises P (mapM f l).
Proof.
  induction l as [|x l IH]; intros Hf; simpl; [by apply raises_ok|].
  apply raises_bind; [apply Hf; left|]. intros y _.
  apply raises_bind; [apply IH; intros; apply Hf; by right|]. intros ys _. apply raises_ok.
Qed.

#[export] Hint Resolve raises_ok raises_raise raises_bind raises_fmap raises_when raises_some_or raises_foldM
  raises_for_each raises_mapM : raises.

(** ** Tactics *)

(** Turn boolean tests in the context into propositions. *)
Ltac breflect_in H :=
  rewrite ?orb_false_iff, ?andb_true_iff, ?negb_false_iff, ?negb_true_iff, ?orb_true_iff,
    ?andb_false_iff, ?Z.leb_le, ?Z.ltb_lt, ?Z.eqb_eq, ?Z.leb_gt, ?Z.ltb_ge, ?Z.eqb_neq,
    ?bool_decide_eq_true, ?bool_decide_eq_false, ?existsb_exists in H.

Ltac breflect := repeat match goal with
  | H : _ = true |- _ => progress breflect_in H
  | H : _ = false |- _ => progress breflect_in H
  | H : context [(_ || _) = false] |- _ => progress breflect_in H
  | H : context [(_ && _) = true] |- _ => progress breflect_in H
  end.

Ltac breflect_goal := repeat (progress
  rewrite ?orb_false_iff, ?andb_true_iff, ?negb_false_iff, ?negb_true_iff, ?orb_true_iff,
    ?andb_false_iff, ?Z.leb_le, ?Z.ltb_lt, ?Z.eqb_eq, ?Z.leb_gt, ?Z.ltb_ge, ?Z.eqb_neq,
    ?bool_decide_eq_true, ?bool_decide_eq_false).

(** Open the successful runs in the context. *)
Ltac inv_ok_step := match goal with
  | H : (_ ≫= _) = Ok _ |- _ => apply bind_Ok in H as (? & ? & ?)
  | H : raise_when _ _ = Ok _ |- _ => apply raise_when_Ok in H
  | H : some_or _ _ = Ok _ |- _ => apply some_or_Ok in H
  | H : Ok _ = Ok _ |- _ => injection H as H
  | H : mret _ = Ok _ |- _ => apply mret_Ok in H
  | H : Raise _ = Ok _ |- _ => discriminate H
  | H : for_each _ _ = Ok _ |- _ => apply for_each_Ok in H
  end.

Ltac inv_ok := repeat (inv_ok_step; simpl in * ).

(** Reduce only the monad in the goal. *)
Ltac run_ok := cbn [mbind result_bind raise_when some_or mret result_ret].

(** Walk a computation for the exceptions it can raise; the reads that need a
    bound are left to the caller. *)
Ltac raises_step := match goal with
  | |- raises _ (Ok _) => apply raises_ok
  | |- raises _ (Raise _) => apply raises_raise; done
  | |- raises _ (raise_when _ _) => apply raises_when; done
  | |- raises _ (some_or _ _) => apply raises_some_or; done
  | |- raises _ (_ ≫= _) => apply raises_bind; [|intros ? ?]
  | |- raises _ (_ <$> _) => apply raises_fmap
  | |- raises _ (foldM _ _ _) => apply raises_foldM; intros ? ? ?
  | |- raises _ (for_each _ _) => apply raises_for_each; intros ? ?
  | |- raises _ (mapM _ _) => apply raises_mapM; intros ? ?
  | |- raises _ (if ?c then _ else _) => destruct c eqn:?
  | |- raises _ (match ?x with _ => _ end) => first [is_var x; destruct x | destruct x eqn:?]
  | |- raises _ _ => solve [eauto with raises]
  end.

Ltac raises_tac := repeat (raises_step; cbn beta iota).
