(* ===== verification/PyBytes.v ===== *)
(** * Byte strings and the [struct] module

    Python [bytes] as lists of bytes, slicing, fixed-width integers in both byte
    orders, and [struct.pack]/[struct.unpack_from] for typed format strings. The
    laws are the two round trips and the compositions that every component with a
    binary format uses. *)

From stdpp Require Import base tactics list list_numbers strings.
From Stdlib Require Import ZArith Lia Strings.Byte.
From S2P Require Import Prelude.

Local Open Scope Z_scope.

Notation byte := Init.Byte.byte.
Notation bytes := (list byte).

#[export] Instance byte_eq_dec : EqDecision byte := Byte.byte_eq_dec.

(** ** Bytes as integers *)
Definition b2z (b : byte) : Z := Z.of_N (Byte.to_N b).
Definition z2b (z : Z) : byte :=
  match Byte.of_N (Z.to_N (z mod 256)) with Some b => b | None => "000"%byte end.

(** [len(data)] *)
Definition blen {A} (l : list A) : Z := Z.of_nat (length l).

(** [data[i:j]] for nonnegative bounds *)
Definition slice {A} (i j : Z) (l : list A) : list A :=
  take (Z.to_nat (j - i)) (drop (Z.to_nat i) l).

(** [block[i:i+len(v)] = v] on a bytearray *)
Definition splice {A} (l : list A) (i : Z) (v : list A) : list A :=
  take (Z.to_nat i) l ++ v ++ drop (Z.to_nat i + length v) l.

(** [bytes([b]) * n], and [bytes(n)] *)
Definition fill (b : byte) (n : Z) : bytes := replicate (Z.to_nat n) b.
Definition zeros (n : Z) : bytes := fill "000"%byte n.

(** [range(start, stop, step)] for a positive step *)
Definition range (start stop step : Z) : list Z :=
  (fun k => start + step * k) <$> seqZ 0 ((stop - start + step - 1) / step).

(** ASCII literals, [b"FMS1"] *)
Fixpoint ascii (s : string) : bytes :=
  match s with
  | EmptyString => []
  | String c s => Ascii.byte_of_ascii c :: ascii s
  end.

(** ** Integers of a fixed width *)
Fixpoint le_bytes (n : nat) (z : Z) : bytes :=
  match n with
  | O => []
  | S n => z2b z :: le_bytes n (z / 256)
  end.

Fixpoint le_val (l : bytes) : Z :=
  match l with
  | [] => 0
  | b :: l => b2z b + 256 * le_val l
  end.

Definition be_bytes (n : nat) (z : Z) : bytes := reverse (le_bytes n z).
Definition be_val (l : bytes) : Z := le_val (reverse l).

(** ** struct *)
Inductive endian := LE | BE.

(** A field of a format: an unsigned integer of some bytes, or an [Ns] string. *)
Inductive field := FU (n : nat) | FS (n : nat).

Definition fsize (f : field) : nat := match f with FU n => n | FS n => n end.
Definition fty (f : field) : Type := match f with FU _ => Z | FS _ => bytes end.

Fixpoint fmt_ty (l : list field) : Type :=
  match l with [] => unit | f :: l => (fty f * fmt_ty l)%type end.

Fixpoint calcsize (l : list field) : nat :=
  match l with [] => 0 | f :: l => fsize f + calcsize l end.

Definition int_val (en : endian) (b : bytes) : Z :=
  match en with LE => le_val b | BE => be_val b end.
Definition int_bytes (en : endian) (n : nat) (z : Z) : bytes :=
  match en with LE => le_bytes n z | BE => be_bytes n z end.

Definition fdecode (en : endian) (f : field) (b : bytes) : fty f :=
  match f with FU _ => int_val en b | FS _ => b end.

Definition fencode (en : endian) (f : field) : fty f -> result bytes :=
  match f with
  | FU n => fun z =>
      if (0 <=? z) && (z <? 256 ^ Z.of_nat n) then Ok (int_bytes en n z)
      else Raise (StructError "integer out of range for format")
  | FS n => fun b => Ok (take n b ++ replicate (n - length b) "000"%byte)
  end.

Fixpoint unpack (en : endian) (l : list field) (b : bytes) : fmt_ty l :=
  match l with
  | [] => tt
  | f :: l => (fdecode en f (take (fsize f) b), unpack en l (drop (fsize f) b))
  end.

(** [struct.unpack_from(fmt, buf, off)] for a nonnegative offset *)
Definition unpack_from (en : endian) (l : list field) (buf : bytes) (off : Z)
    : result (fmt_ty l) :=
  if (0 <=? off) && (off + Z.of_nat (calcsize l) <=? blen buf)
  then Ok (unpack en l (drop (Z.to_nat off) buf))
  else Raise (StructError "unpack_from requires a larger buffer").

(** [struct.unpack(fmt, buf)] *)
Definition unpack_exact (en : endian) (l : list field) (buf : bytes) : result (fmt_ty l) :=
  if blen buf =? Z.of_nat (calcsize l) then Ok (unpack en l buf)
  else Raise (StructError "unpack requires a buffer of the exact size").

Fixpoint pack (en : endian) (l : list field) : fmt_ty l -> result bytes :=
  match l with
  | [] => fun _ => Ok []
  | f :: l => fun v => b ← fencode en f (fst v); r ← pack en l (snd v); Ok (b ++ r)
  end.

(** [struct.pack_into(fmt, buf, off, ...)] for a nonnegative offset *)
Definition pack_into (en : endian) (l : list field) (buf : bytes) (off : Z) (v : fmt_ty l)
    : result bytes :=
  if (0 <=? off) && (off + Z.of_nat (calcsize l) <=? blen buf)
  then b ← pack en l v; Ok (splice buf off b)
  else Raise (StructError "pack_into requires a larger buffer").

Abbreviation u8 := (FU 1).
Abbreviation u16 := (FU 2).
Abbreviation u32 := (FU 4).

(** The values a format represents exactly: in range, strings of the exact length. *)
Definition fexact (f : field) : fty f -> Prop :=
  match f with
  | FU n => fun z => 0 <= z < 256 ^ Z.of_nat n
  | FS n => fun b => length b = n
  end.

Fixpoint exact (l : list field) : fmt_ty l -> Prop :=
  match l with
  | [] => fun _ => True
  | f :: l => fun v => fexact f (fst v) /\ exact l (snd v)
  end.

(** ** Bytes and integers *)
Lemma b2z_range b : 0 <= b2z b < 256.
Proof. unfold b2z. pose proof (Byte.to_N_bounded b). lia. Qed.

Lemma z2b_b2z b : z2b (b2z b) = b.
Proof.
  unfold z2b. rewrite Z.mod_small by apply b2z_range. unfold b2z.
  rewrite N2Z.id, Byte.of_to_N. done.
Qed.

Lemma b2z_z2b z : b2z (z2b z) = z mod 256.
Proof.
  unfold z2b, b2z. pose proof (Z.mod_pos_bound z 256 eq_refl) as Hz.
  destruct (Byte.of_N _) as [b|] eqn:E.
  - apply Byte.to_of_N in E. rewrite E. lia.
  - apply Byte.of_N_None_iff in E. lia.
Qed.

Lemma b2z_inj a b : b2z a = b2z b -> a = b.
Proof. intros H. by rewrite <- (z2b_b2z a), <- (z2b_b2z b), H. Qed.

Lemma blen_nonneg {A} (l : list A) : 0 <= blen l.
Proof. unfold blen. lia. Qed.

Lemma blen_app {A} (l k : list A) : blen (l ++ k) = blen l + blen k.
Proof. unfold blen. rewrite length_app. lia. Qed.

Lemma blen_fill b n : 0 <= n -> blen (fill b n) = n.
Proof. intros. unfold blen, fill. rewrite length_replicate. lia. Qed.

Lemma length_slice {A} i j (l : list A) :
  0 <= i <= j -> j <= blen l -> length (slice i j l) = Z.to_nat (j - i).
Proof. unfold slice, blen. intros. rewrite length_take, length_drop. lia. Qed.

Lemma blen_zeros n : 0 <= n -> blen (zeros n) = n.
Proof. apply blen_fill. Qed.

Lemma blen_slice {A} i j (l : list A) : 0 <= i <= j -> j <= blen l -> blen (slice i j l) = j - i.
Proof. intros. unfold blen. rewrite length_slice; [lia|done..]. Qed.

Lemma slice_full {A} (l : list A) : slice 0 (blen l) l = l.
Proof. unfold slice, blen. rewrite drop_0, take_ge; [done|lia]. Qed.

Lemma slice_app_l {A} (l k : list A) j : 0 <= j <= blen l -> slice 0 j (l ++ k) = slice 0 j l.
Proof. unfold slice, blen. intros. rewrite !drop_0, take_app_le; [done|lia]. Qed.

Lemma slice_app_r {A} (l k : list A) i j :
  blen l <= i -> slice i j (l ++ k) = slice (i - blen l) (j - blen l) k.
Proof.
  unfold slice, blen. intros. rewrite drop_app_ge by lia. f_equal; [lia|]. f_equal. lia.
Qed.

Lemma slice_mid {A} (a b c : list A) i j : blen a = i -> blen b = j - i -> slice i j (a ++ b ++ c) = b.
Proof.
  unfold slice, blen. intros <- Hb. rewrite Nat2Z.id, drop_app_length.
  rewrite take_app_length'; [done|lia].
Qed.

Lemma slice_slice {A} (l : list A) a b i j :
  0 <= a -> 0 <= i -> a + j <= b -> slice i j (slice a b l) = slice (a + i) (a + j) l.
Proof.
  unfold slice. intros. rewrite skipn_firstn_comm, drop_drop, take_take. f_equal; [lia|].
  f_equal. lia.
Qed.

Lemma slice_split {A} (l : list A) a b c :
  0 <= a <= b -> b <= c -> slice a c l = slice a b l ++ slice b c l.
Proof.
  intros ? ?. unfold slice.
  replace (Z.to_nat b) with (Z.to_nat a + Z.to_nat (b - a))%nat by lia.
  rewrite <- drop_drop.
  replace (Z.to_nat (c - a)) with (Z.to_nat (b - a) + Z.to_nat (c - b))%nat by lia.
  set (m := drop _ l). rewrite <- (take_drop (Z.to_nat (b - a)) m) at 1.
  rewrite take_app, take_take. rewrite length_take.
  destruct (decide (Z.to_nat (b - a) <= length m)%nat).
  - f_equal; [f_equal; lia|]. f_equal. lia.
  - rewrite (drop_ge m) by lia. rewrite !take_nil, !app_nil_r. f_equal. lia.
Qed.

Lemma slice_empty {A} (l : list A) a : slice a a l = [].
Proof. unfold slice. by rewrite Z.sub_diag. Qed.

Lemma lookup_slice {A} (l : list A) a b i :
  0 <= a -> (i < Z.to_nat (b - a))%nat -> slice a b l !! i = l !! (Z.to_nat a + i)%nat.
Proof. intros. unfold slice. rewrite lookup_take_lt by done. by rewrite lookup_drop. Qed.

Lemma length_ascii s : length (ascii s) = String.length s.
Proof. induction s; simpl; auto. Qed.

(** ** Fixed-width integers: the two round trips *)
Lemma length_le_bytes n z : length (le_bytes n z) = n.
Proof. revert z. induction n; simpl; auto. Qed.

Lemma length_be_bytes n z : length (be_bytes n z) = n.
Proof. unfold be_bytes. by rewrite length_reverse, length_le_bytes. Qed.

Lemma pow256_S n : 256 ^ Z.of_nat (S n) = 256 * 256 ^ Z.of_nat n.
Proof. rewrite Nat2Z.inj_succ, Z.pow_succ_r by lia. done. Qed.

Lemma le_val_bytes n z : 0 <= z < 256 ^ Z.of_nat n -> le_val (le_bytes n z) = z.
Proof.
  revert z. induction n as [|n IH]; intros z Hz; simpl.
  - change (256 ^ Z.of_nat 0) with 1 in Hz. lia.
  - rewrite pow256_S in Hz. rewrite b2z_z2b, IH.
    + pose proof (Z.div_mod z 256). lia.
    + split; [apply Z.div_pos; lia | apply Z.div_lt_upper_bound; lia].
Qed.

Lemma le_val_range l : 0 <= le_val l < 256 ^ blen l.
Proof.
  unfold blen. induction l as [|b l IH]; [simpl; lia|].
  simpl length. rewrite pow256_S. simpl. pose proof (b2z_range b). lia.
Qed.

Lemma le_bytes_val l : le_bytes (length l) (le_val l) = l.
Proof.
  induction l as [|b l IH]; simpl; [done|]. pose proof (b2z_range b).
  rewrite (Z.add_comm (b2z b)), (Z.mul_comm 256), Z.div_add_l by lia.
  rewrite (Z.div_small (b2z b)), Z.add_0_r, IH by done. f_equal.
  apply b2z_inj. rewrite b2z_z2b, Z.add_comm, Z.mod_add, Z.mod_small by lia. done.
Qed.

Lemma le_val_inj a b : length a = length b -> le_val a = le_val b -> a = b.
Proof. intros Hl Hv. by rewrite <- (le_bytes_val a), <- (le_bytes_val b), Hl, Hv. Qed.

Lemma int_val_bytes en n z : 0 <= z < 256 ^ Z.of_nat n -> int_val en (int_bytes en n z) = z.
Proof.
  intros. destruct en; simpl; [by apply le_val_bytes|].
  unfold be_val, be_bytes. rewrite reverse_involutive. by apply le_val_bytes.
Qed.

Lemma int_bytes_val en l : int_bytes en (length l) (int_val en l) = l.
Proof.
  destruct en; simpl; [apply le_bytes_val|].
  unfold be_val, be_bytes. rewrite <- (length_reverse l), le_bytes_val, reverse_involutive. done.
Qed.

Lemma int_val_range en l : 0 <= int_val en l < 256 ^ blen l.
Proof.
  destruct en; simpl; [apply le_val_range|]. unfold be_val, blen.
  rewrite <- (length_reverse l). apply le_val_range.
Qed.

Lemma length_int_bytes en n z : length (int_bytes en n z) = n.
Proof. destruct en; [apply length_le_bytes | apply length_be_bytes]. Qed.

(** ** struct: the two round trips *)
Lemma fencode_exact en f v : fexact f v ->
  exists b, fencode en f v = Ok b /\ length b = fsize f /\ fdecode en f b = v.
Proof.
  destruct f as [n|n]; simpl in *; intros Hv.
  - rewrite (proj2 (Z.leb_le _ _)), (proj2 (Z.ltb_lt _ _)) by lia. simpl.
    eexists. split; [done|]. split; [apply length_int_bytes | by apply int_val_bytes].
  - eexists. split; [done|]. subst n. rewrite Nat.sub_diag, app_nil_r, firstn_all. done.
Qed.

Lemma pack_exact en l v : exact l v ->
  exists b, pack en l v = Ok b /\ length b = calcsize l /\ forall k, unpack en l (b ++ k) = v.
Proof.
  revert v. induction l as [|f l IH]; simpl; intros v Hv.
  - clear Hv. destruct v. exists []. done.
  - destruct v as [x v]. destruct Hv as [Hx Hv]. simpl in *.
    destruct (fencode_exact en f x Hx) as (b & -> & Hb & Hd).
    destruct (IH v Hv) as (r & -> & Hr & Hu). simpl.
    exists (b ++ r). split; [done|]. split; [rewrite length_app; lia|]. intros k.
    rewrite <- app_assoc, <- Hb, take_app_length, drop_app_length, Hu, Hd. done.
Qed.

Lemma fdecode_exact en f b : length b = fsize f -> fexact f (fdecode en f b).
Proof.
  destruct f as [n|n]; simpl; intros Hb; [|done].
  pose proof (int_val_range en b) as H. unfold blen in H. by rewrite Hb in H.
Qed.

Lemma unpack_is_exact en l b : (calcsize l <= length b)%nat -> exact l (unpack en l b).
Proof.
  revert b. induction l as [|f l IH]; simpl; intros b Hb; [done|]. split.
  - apply fdecode_exact. rewrite length_take. lia.
  - apply IH. rewrite length_drop. lia.
Qed.

Lemma fencode_fdecode en f b : length b = fsize f -> fencode en f (fdecode en f b) = Ok b.
Proof.
  destruct f as [n|n]; simpl; intros Hb.
  - pose proof (int_val_range en b) as H. unfold blen in H. rewrite Hb in H.
    rewrite (proj2 (Z.leb_le _ _)), (proj2 (Z.ltb_lt _ _)) by lia. simpl.
    rewrite <- Hb, int_bytes_val. done.
  - subst n. by rewrite Nat.sub_diag, app_nil_r, firstn_all.
Qed.

Lemma pack_unpack en l b : (calcsize l <= length b)%nat ->
  pack en l (unpack en l b) = Ok (take (calcsize l) b).
Proof.
  revert b. induction l as [|f l IH]; simpl; intros b Hb; [by rewrite take_0|].
  rewrite fencode_fdecode by (rewrite length_take; lia). simpl.
  rewrite IH by (rewrite length_drop; lia). simpl. f_equal.
  rewrite <- (take_drop (fsize f) (take (fsize f + calcsize l) b)), take_take, skipn_firstn_comm.
  f_equal; f_equal; lia.
Qed.

Lemma unpack_from_Ok en l buf off v :
  unpack_from en l buf off = Ok v <->
  0 <= off /\ off + Z.of_nat (calcsize l) <= blen buf /\ v = unpack en l (drop (Z.to_nat off) buf).
Proof.
  unfold unpack_from. destruct (_ && _) eqn:E.
  - breflect. split; [intros [= <-]; naive_solver | naive_solver].
  - apply andb_false_iff in E. rewrite Z.leb_gt, Z.leb_gt in E. split; [done | lia].
Qed.

Lemma unpack_from_in_bounds en l buf off :
  0 <= off -> off + Z.of_nat (calcsize l) <= blen buf ->
  unpack_from en l buf off = Ok (unpack en l (drop (Z.to_nat off) buf)).
Proof. intros. by apply unpack_from_Ok. Qed.

Lemma raises_unpack_from P en l buf off :
  0 <= off -> off + Z.of_nat (calcsize l) <= blen buf -> raises P (unpack_from en l buf off).
Proof. intros. rewrite unpack_from_in_bounds by done. apply raises_ok. Qed.

Lemma unpack_exact_in_bounds en l buf :
  blen buf = Z.of_nat (calcsize l) -> unpack_exact en l buf = Ok (unpack en l buf).
Proof. intros H. unfold unpack_exact. by rewrite H, Z.eqb_refl. Qed.

Lemma raises_pack P en l v : (forall m, P (StructError m)) -> raises P (pack en l v).
Proof.
  intros HP. induction l as [|f l IH]; cbn [pack]; [apply raises_ok|].
  apply raises_bind; [|intros b _; apply raises_bind; [apply IH|intros; apply raises_ok]].
  destruct f as [n|n]; simpl; [|apply raises_ok]. destruct (_ && _); [apply raises_ok|by apply raises_raise].
Qed.

(** Unpacking inverts packing of exactly representable values. *)
Lemma unpack_exact_iff en l buf v :
  unpack_exact en l buf = Ok v <-> exact l v /\ pack en l v = Ok buf.
Proof.
  unfold unpack_exact, blen. split.
  - destruct (Z.eqb_spec (Z.of_nat (length buf)) (Z.of_nat (calcsize l))) as [E|]; [|done].
    intros [= <-]. assert (length buf = calcsize l) as Hl by lia. split; [apply unpack_is_exact; lia|].
    rewrite pack_unpack by lia. by rewrite <- Hl, firstn_all.
  - intros [Hv Hp]. destruct (pack_exact en l v Hv) as (b & Hb & Hl & Hu). rewrite Hp in Hb.
    injection Hb as <-. rewrite Hl, Z.eqb_refl. f_equal. rewrite <- (app_nil_r buf). apply Hu.
Qed.

Lemma length_splice {A} (l : list A) i v :
  0 <= i -> i + blen v <= blen l -> length (splice l i v) = length l.
Proof.
  unfold splice, blen. intros. rewrite !length_app, length_take, length_drop. lia.
Qed.

(** ** 32-bit words of a buffer

    [word off buf] is the little-endian word at a byte offset; the component specs
    speak about binary headers with it. *)
Definition word (off : nat) (buf : bytes) : Z := le_val (take 4 (drop off buf)).
Definition half (off : nat) (buf : bytes) : Z := le_val (take 2 (drop off buf)).

Lemma word_range off buf : 0 <= word off buf < 2 ^ 32.
Proof.
  unfold word. pose proof (le_val_range (take 4 (drop off buf))) as H. split; [lia|].
  eapply Z.lt_le_trans; [apply H|]. change (2 ^ 32) with (256 ^ 4).
  apply Z.pow_le_mono_r; [lia|]. unfold blen. rewrite length_take. lia.
Qed.

Lemma word_app_l off l k : (off + 4 <= length l)%nat -> word off (l ++ k) = word off l.
Proof.
  intros. unfold word. rewrite drop_app_le, take_app_le by (rewrite ?length_drop; lia). done.
Qed.

Lemma word_app_r off l k : (length l <= off)%nat -> word off (l ++ k) = word (off - length l) k.
Proof. intros. unfold word. by rewrite drop_app_ge by lia. Qed.

(** ** Cutting a buffer into pieces of equal size *)
(** [[data[i:i + n] for i in range(0, len(data), n)]] *)
Definition pieces {A} (n : Z) (l : list A) : list (list A) :=
  (fun i => slice i (i + n) l) <$> range 0 (blen l) n.

Lemma seqZ_0_cons m : 0 < m -> seqZ 0 m = 0 :: (Z.succ <$> seqZ 0 (m - 1)).
Proof.
  intros. rewrite seqZ_cons by lia. f_equal. rewrite <- (fmap_add_seqZ 1 0).
  rewrite Z.pred_succ || idtac. replace (Z.pred m) with (m - 1) by lia.
  apply list_fmap_ext. intros. lia.
Qed.

Lemma pieces_cons {A} n (l : list A) : 0 < n -> l <> [] ->
  pieces n l = take (Z.to_nat n) l :: pieces n (drop (Z.to_nat n) l).
Proof.
  intros Hn Hl. unfold pieces, range.
  assert (Hb : 0 < blen l) by (unfold blen; destruct l; [done|simpl; lia]).
  set (m := (blen l - 0 + n - 1) / n).
  assert (Hm : 0 < m) by (apply Z.div_str_pos; lia).
  rewrite seqZ_0_cons by done. rewrite !fmap_cons, <- !list_fmap_compose. f_equal.
  { unfold slice. rewrite Z.mul_0_r, Z.add_0_l, drop_0. f_equal. lia. }
  assert (Hm' : m - 1 = (blen (drop (Z.to_nat n) l) - 0 + n - 1) / n).
  { unfold m, blen in *. rewrite length_drop. destruct (Z.le_gt_cases n (Z.of_nat (length l))).
    - replace (Z.of_nat (length l) - 0 + n - 1)
        with ((Z.of_nat (length l - Z.to_nat n) - 0 + n - 1) + 1 * n) by lia.
      rewrite Z.div_add by lia. lia.
    - rewrite (Z.div_small (Z.of_nat (length l - Z.to_nat n) - 0 + n - 1)) by lia.
      rewrite <- (Z.div_unique_pos (Z.of_nat (length l) - 0 + n - 1) n 1 (Z.of_nat (length l) - 1));
        lia. }
  rewrite Hm'. apply list_fmap_ext. intros i k Hk%list_elem_of_lookup_2%elem_of_seqZ. simpl.
  unfold slice. rewrite drop_drop. f_equal; [lia|]. f_equal. nia.
Qed.

Lemma pieces_nil {A} n : 0 < n -> pieces n ([] : list A) = [].
Proof.
  intros. unfold pieces, range, blen. simpl. rewrite Z.div_small by lia. done.
Qed.

Lemma pieces_concat {A} n (l : list A) : 0 < n -> concat (pieces n l) = l.
Proof.
  intros Hn. remember (length l) as m eqn:Hm. revert l Hm.
  induction (lt_wf m) as [m _ IH]. intros l ->.
  destruct l as [|x l]; [by rewrite pieces_nil|].
  rewrite pieces_cons by done. cbn [concat].
  rewrite (IH (length (drop (Z.to_nat n) (x :: l)))); [|rewrite length_drop; simpl; lia|done].
  apply take_drop.
Qed.

Lemma pieces_app {A} n (p l : list A) : 0 < n -> blen p = n -> pieces n (p ++ l) = p :: pieces n l.
Proof.
  intros Hn Hp. assert (Z.to_nat n = length p) as Hl by (unfold blen in Hp; lia).
  rewrite pieces_cons; [|done|destruct p; [unfold blen in Hp; simpl in Hp; lia|done]].
  by rewrite Hl, take_app_length, drop_app_length.
Qed.

Lemma pieces_of_concat {A} n (ps : list (list A)) :
  0 < n -> Forall (fun p => blen p = n) ps -> pieces n (concat ps) = ps.
Proof.
  intros Hn. induction 1 as [|p ps Hp _ IH]; cbn [concat]; [by apply pieces_nil|].
  by rewrite pieces_app, IH.
Qed.

Lemma pieces_length {A} n (l : list A) p :
  0 < n -> blen l mod n = 0 -> p ∈ pieces n l -> blen p = n.
Proof.
  intros Hn. remember (length l) as m eqn:Hm. revert l Hm.
  induction (lt_wf m) as [m _ IH]. intros l -> Hmod.
  destruct l as [|x l]; [rewrite pieces_nil by done; by intros ?%elem_of_nil|].
  assert (n <= blen (x :: l)).
  { assert (0 < blen (x :: l)) by (unfold blen; simpl; lia).
    destruct (Z.lt_ge_cases (blen (x :: l)) n); [|done]. rewrite Z.mod_small in Hmod; lia. }
  rewrite pieces_cons by done. intros [->|Hp]%elem_of_cons.
  - unfold blen in *. rewrite length_take. lia.
  - eapply IH; [|reflexivity| |exact Hp]; [rewrite length_drop; simpl; lia|].
    unfold blen in *. rewrite length_drop.
    replace (Z.of_nat (length (x :: l) - Z.to_nat n)) with (Z.of_nat (length (x :: l)) + (-1) * n) by lia.
    by rewrite Z.mod_add by lia.
Qed.

Lemma length_pieces {A} n k (l : list A) : 0 < n -> blen l = n * k -> blen (pieces n l) = k.
Proof.
  intros Hn Hl. unfold pieces, range, blen at 1. rewrite !length_fmap, length_seqZ.
  pose proof (blen_nonneg l). assert (0 <= k) by (apply (Z.mul_nonneg_cancel_l n); lia).
  replace (blen l - 0 + n - 1) with (n - 1 + k * n) by lia.
  rewrite Z.div_add, Z.div_small by lia. lia.
Qed.

(** ** Reading a buffer after a splice *)
Lemma window_splice_before {A} (b v : list A) i a n :
  (a + n <= Z.to_nat i)%nat -> (Z.to_nat i <= length b)%nat ->
  take n (drop a (splice b i v)) = take n (drop a b).
Proof.
  intros. unfold splice. rewrite drop_app_le by (rewrite length_take; lia).
  rewrite take_app_le by (rewrite length_drop, length_take; lia).
  rewrite skipn_firstn_comm, take_take. f_equal. lia.
Qed.

Lemma window_splice_after {A} (b v : list A) i a n :
  (Z.to_nat i + length v <= a)%nat -> (Z.to_nat i + length v <= length b)%nat ->
  take n (drop a (splice b i v)) = take n (drop a b).
Proof.
  intros. unfold splice. rewrite drop_app_ge by (rewrite length_take; lia).
  rewrite drop_app_ge by (rewrite length_take; lia). rewrite drop_drop, length_take.
  do 2 f_equal. lia.
Qed.

Lemma window_splice_at {A} (b v : list A) i a n :
  (Z.to_nat i <= a)%nat -> (a + n <= Z.to_nat i + length v)%nat -> (Z.to_nat i <= length b)%nat ->
  take n (drop a (splice b i v)) = take n (drop (a - Z.to_nat i) v).
Proof.
  intros. unfold splice. rewrite drop_app_ge by (rewrite length_take; lia).
  rewrite length_take, Nat.min_l by lia.
  rewrite drop_app_le by lia. rewrite take_app_le by (rewrite length_drop; lia). done.
Qed.

(** Writing exact values succeeds and only touches its own window. *)
Lemma pack_into_exact en l buf off v :
  0 <= off -> off + Z.of_nat (calcsize l) <= blen buf -> exact l v ->
  exists b, pack_into en l buf off v = Ok (splice buf off b) /\ length b = calcsize l /\ unpack en l b = v.
Proof.
  intros Ho Hb He. destruct (pack_exact en l v He) as (b & Hp & Hl & Hu).
  exists b. unfold pack_into. rewrite (proj2 (Z.leb_le _ _)), (proj2 (Z.leb_le _ _)) by done.
  simpl. rewrite Hp. split; [done|]. split; [done|]. specialize (Hu []). by rewrite app_nil_r in Hu.
Qed.

Arguments unpack : simpl never.
Arguments pack : simpl never.

(** ** Thumb entries: [entry & 1], [entry & ~1] and [address | 1] *)
Lemma land_1_odd z : Z.land z 1 = if Z.odd z then 1 else 0.
Proof.
  change 1 with (Z.ones 1). rewrite Z.land_ones by lia. change (2 ^ 1) with 2.
  rewrite Zmod_odd. done.
Qed.

Lemma land_lnot_1 z : Z.land z (Z.lnot 1) = z - (if Z.odd z then 1 else 0).
Proof.
  rewrite <- land_1_odd, <- Z.ldiff_land. pose proof (Z.sub_nocarry_ldiff z (Z.land z 1)) as H.
  rewrite H.
  - apply Z.bits_inj'. intros n Hn. rewrite !Z.ldiff_spec, Z.land_spec.
    destruct (Z.testbit z n), (Z.testbit 1 n); done.
  - apply Z.bits_inj'. intros n Hn. rewrite Z.ldiff_spec, Z.land_spec, Z.bits_0.
    destruct (Z.testbit z n), (Z.testbit 1 n); done.
Qed.

Lemma lor_1_odd z : Z.lor z 1 = z + (if Z.odd z then 0 else 1).
Proof.
  assert (E : Z.lor z 1 = Z.ldiff z 1 + 1).
  { rewrite Z.add_nocarry_lxor.
    - apply Z.bits_inj'. intros n Hn. rewrite Z.lor_spec, Z.lxor_spec, Z.ldiff_spec.
      destruct (Z.testbit z n), (Z.testbit 1 n); done.
    - apply Z.bits_inj'. intros n Hn. rewrite Z.land_spec, Z.ldiff_spec, Z.bits_0.
      destruct (Z.testbit z n), (Z.testbit 1 n); done. }
  rewrite E, Z.ldiff_land, land_lnot_1. destruct (Z.odd z); lia.
Qed.

Lemma existsb_zero (l : bytes) :
  existsb (fun b => negb (b2z b =? 0)) l = false <-> l = zeros (blen l).
Proof.
  unfold zeros, fill, blen. rewrite Nat2Z.id. induction l as [|b l IH]; simpl; [done|].
  rewrite orb_false_iff, IH, negb_false_iff, Z.eqb_eq. split.
  - intros [Hb ->]. rewrite length_replicate. f_equal. by apply b2z_inj.
  - intros [= -> ->]. rewrite length_replicate. done.
Qed.

(** These compute by [vm_compute] in witnesses; [simpl] must leave them alone. *)
Arguments range : simpl never.
Arguments fill : simpl never.
Arguments zeros : simpl never.
Arguments pieces : simpl never.
Arguments slice : simpl never.
Arguments splice : simpl never.
Arguments le_bytes : simpl never.
Arguments int_bytes : simpl never.
