(* ===== verification/Sha256.v ===== *)
(** * SHA-256 and hexadecimal text

    [hashlib.sha256(data).digest()] and [.hexdigest()], executable on 32-bit words
    held as integers with their wrap-around written out, and [bytes.hex()]. The
    components compare digests as 64-digit strings; [hex_inj] is what makes such a
    comparison a comparison of bytes. *)

From stdpp Require Import base tactics list list_numbers strings.
From Stdlib Require Import ZArith Lia Strings.Byte.
From S2P Require Import Prelude.
From S2P Require Import PyBytes.

Local Open Scope Z_scope.

(** ** 32-bit words *)
(** The low 32 bits: the word that a sum wraps around to *)
Definition w32 (z : Z) : Z := Z.land z 0xffffffff.
Definition add32 (a b : Z) : Z := w32 (a + b).
Definition rotr (n x : Z) : Z := Z.lor (Z.shiftr x n) (w32 (Z.shiftl x (32 - n))).
Definition xor3 (a b c : Z) : Z := Z.lxor a (Z.lxor b c).

Definition ch (x y z : Z) : Z := Z.lxor (Z.land x y) (Z.land (Z.lxor x 0xffffffff) z).
Definition maj (x y z : Z) : Z := xor3 (Z.land x y) (Z.land x z) (Z.land y z).
Definition bsig0 (x : Z) : Z := xor3 (rotr 2 x) (rotr 13 x) (rotr 22 x).
Definition bsig1 (x : Z) : Z := xor3 (rotr 6 x) (rotr 11 x) (rotr 25 x).
Definition ssig0 (x : Z) : Z := xor3 (rotr 7 x) (rotr 18 x) (Z.shiftr x 3).
Definition ssig1 (x : Z) : Z := xor3 (rotr 17 x) (rotr 19 x) (Z.shiftr x 10).

(** The constants come from the primes: the first 32 bits of the fractional parts of the cube roots of
    the first 64, and of the square roots of the first eight for the initial state. *)
Definition is_prime (n : Z) : bool := forallb (fun d => negb (n mod d =? 0)) (seqZ 2 (n - 2)).
Definition primes : list Z := List.filter is_prime (seqZ 2 310).

(** The integer cube root by bisection on [bits] bits. *)
Fixpoint cube_root (bits : nat) (r n : Z) : Z :=
  match bits with
  | O => r
  | S k => let r' := r + 2 ^ Z.of_nat k in cube_root k (if r' * r' * r' <=? n then r' else r) n
  end.

Definition k256 : list Z := Eval vm_compute in (fun p => w32 (cube_root 36 0 (p * 2 ^ 96))) <$> primes.
Definition square_roots : list Z :=
  Eval vm_compute in (fun p => w32 (Z.sqrt (p * 2 ^ 64))) <$> take 8 primes.

(** The eight working variables. *)
Record hstate := H { ha : Z; hb : Z; hc : Z; hd : Z; he : Z; hf : Z; hg : Z; hh : Z }.

Definition h256 : hstate :=
  match square_roots with
  | [a; b; c; d; e; f; g; h] => H a b c d e f g h
  | _ => H 0 0 0 0 0 0 0 0
  end.

(** ** Message schedule and compression

    The schedule is kept newest word first. *)
Definition next_word (w : list Z) : Z :=
  add32 (ssig1 (nth 1 w 0)) (add32 (nth 6 w 0) (add32 (ssig0 (nth 14 w 0)) (nth 15 w 0))).

Fixpoint extend (n : nat) (w : list Z) : list Z :=
  match n with O => w | S n => extend n (next_word w :: w) end.

Definition round (s : hstate) (kw : Z * Z) : hstate :=
  let t1 := add32 (hh s) (add32 (bsig1 (he s)) (add32 (ch (he s) (hf s) (hg s)) (add32 kw.1 kw.2))) in
  let t2 := add32 (bsig0 (ha s)) (maj (ha s) (hb s) (hc s)) in
  H (add32 t1 t2) (ha s) (hb s) (hc s) (add32 (hd s) t1) (he s) (hf s) (hg s).

Fixpoint words (n : nat) (b : bytes) : list Z :=
  match n with O => [] | S n => be_val (take 4 b) :: words n (drop 4 b) end.

Definition compress (s : hstate) (block : bytes) : hstate :=
  let w := reverse (extend 48 (reverse (words 16 block))) in
  let r := fold_left round (zip k256 w) s in
  H (add32 (ha s) (ha r)) (add32 (hb s) (hb r)) (add32 (hc s) (hc r)) (add32 (hd s) (hd r))
    (add32 (he s) (he r)) (add32 (hf s) (hf r)) (add32 (hg s) (hg r)) (add32 (hh s) (hh r)).

Fixpoint blocks (n : nat) (b : bytes) : list bytes :=
  match n with O => [] | S n => take 64 b :: blocks n (drop 64 b) end.

Definition pad (m : bytes) : bytes :=
  m ++ ["128"%byte] ++ zeros ((55 - blen m) mod 64) ++ be_bytes 8 (8 * blen m).

(** [hashlib.sha256(m).digest()] *)
Definition sha256 (m : bytes) : bytes :=
  let p := pad m in
  let s := fold_left compress (blocks (length p / 64)%nat p) h256 in
  concat (be_bytes 4 <$> [ha s; hb s; hc s; hd s; he s; hf s; hg s; hh s]).
Arguments sha256 : simpl never.

(** ** Hexadecimal text *)
Definition hex_digit (z : Z) : Ascii.ascii :=
  Ascii.ascii_of_N (Z.to_N (if z <? 10 then 48 + z else 87 + z)).

(** [data.hex()] *)
Fixpoint hex (b : bytes) : string :=
  match b with
  | [] => EmptyString
  | x :: b => String (hex_digit (b2z x / 16)) (String (hex_digit (b2z x mod 16)) (hex b))
  end.

(** [hashlib.sha256(data).hexdigest()] *)
Definition sha (data : bytes) : string := hex (sha256 data).
Arguments sha : simpl never.

(** ** Laws *)
Lemma length_sha256 m : length (sha256 m) = 32%nat.
Proof.
  unfold sha256. generalize (fold_left compress (blocks (length (pad m) / 64)%nat (pad m)) h256).
  intros s. cbn [fmap list_fmap concat]. by rewrite !length_app, !length_be_bytes.
Qed.

Lemma hex_digit_inj a b : 0 <= a < 16 -> 0 <= b < 16 -> hex_digit a = hex_digit b -> a = b.
Proof.
  unfold hex_digit. intros Ha Hb Heq.
  apply (f_equal Ascii.N_of_ascii) in Heq. rewrite !Ascii.N_ascii_embedding in Heq.
  - destruct (Z.ltb_spec a 10), (Z.ltb_spec b 10); lia.
  - destruct (Z.ltb_spec b 10); lia.
  - destruct (Z.ltb_spec a 10); lia.
Qed.

Lemma hex_inj a b : hex a = hex b -> a = b.
Proof.
  revert b. induction a as [|x a IH]; intros [|y b]; simpl; try done. intros [= H1 H2 H3].
  pose proof (b2z_range x). pose proof (b2z_range y).
  apply hex_digit_inj in H1; [|split; [apply Z.div_pos; lia | apply Z.div_lt_upper_bound; lia]..].
  apply hex_digit_inj in H2; [|apply Z.mod_pos_bound; lia..].
  f_equal; [|by apply IH]. apply b2z_inj.
  rewrite (Z.div_mod (b2z x) 16), (Z.div_mod (b2z y) 16) by lia. congruence.
Qed.

Lemma sha_hex m d : sha m = hex d <-> sha256 m = d.
Proof. unfold sha. split; [apply hex_inj | by intros ->]. Qed.

(** ** The published test vectors *)
Example sha256_abc : sha (ascii "abc") =
  "ba7816bf8f01cfea414140de5dae2223b00361a396177a9cb410ff61f20015ad"%string.
Proof. vm_compute. reflexivity. Qed.

Example sha256_empty : sha [] =
  "e3b0c44298fc1c149afbf4c8996fb92427ae41e4649b934ca495991b7852b855"%string.
Proof. vm_compute. reflexivity. Qed.

Example sha256_two_blocks : sha (ascii "abcdbcdecdefdefgefghfghighijhijkijkljklmklmnlmnomnopnopq") =
  "248d6a61d20638b8e5c026930c3e6039a33ce45964ff2167f6ecedd419db06c1"%string.
Proof. vm_compute. reflexivity. Qed.
