(* ===== verification/PyText.v ===== *)
(** * Text: character classes, [re.fullmatch] of repeated classes, [str.lower]

    Python [str] values are modelled as strings of 8-bit characters; every pattern
    and literal the modelled code uses is ASCII. *)

From stdpp Require Import base tactics list strings.
From Stdlib Require Import ZArith Lia.
From S2P Require Import Prelude.
From S2P Require Import PyBytes.
From S2P Require Import Sha256.

Local Open Scope Z_scope.

Definition code (c : Ascii.ascii) : Z := Z.of_N (Ascii.N_of_ascii c).
Definition between (lo hi : Z) (c : Ascii.ascii) : bool := (lo <=? code c) && (code c <=? hi).

(** The classes [[0-9]], [[0-9a-f]], [[0-9a-fA-F]] *)
Definition is_digit : Ascii.ascii -> bool := between 48 57.
Definition is_hex_lower (c : Ascii.ascii) : bool := is_digit c || between 97 102 c.
Definition is_hex (c : Ascii.ascii) : bool := is_hex_lower c || between 65 70 c.

Fixpoint string_forallb (f : Ascii.ascii -> bool) (s : string) : bool :=
  match s with EmptyString => true | String c s => f c && string_forallb f s end.

(** [re.fullmatch("[class]{n}", s)] *)
Definition fullmatch (f : Ascii.ascii -> bool) (n : nat) (s : string) : bool :=
  (String.length s =? n)%nat && string_forallb f s.

(** [s.lower()] on ASCII *)
Definition lower_char (c : Ascii.ascii) : Ascii.ascii :=
  if between 65 90 c then Ascii.ascii_of_N (Ascii.N_of_ascii c + 32) else c.

Fixpoint lower (s : string) : string :=
  match s with EmptyString => EmptyString | String c s => String (lower_char c) (lower s) end.

(** ** Digests are 64 lowercase hexadecimal digits *)
Lemma hex_digit_class z : 0 <= z < 16 -> is_hex_lower (hex_digit z) = true.
Proof.
  intros Hz. assert (Hs : z ∈ seqZ 0 16) by (apply elem_of_seqZ; lia).
  revert z Hz Hs. assert (H : Forall (fun z => is_hex_lower (hex_digit z) = true) (seqZ 0 16)).
  { repeat constructor. }
  rewrite Forall_forall in H. auto.
Qed.

Lemma hex_class b : string_forallb is_hex_lower (hex b) = true.
Proof.
  induction b as [|x b IH]; simpl; [done|]. pose proof (b2z_range x).
  rewrite !hex_digit_class, IH; [done|apply Z.mod_pos_bound; lia|].
  split; [apply Z.div_pos; lia | apply Z.div_lt_upper_bound; lia].
Qed.

Lemma length_hex b : String.length (hex b) = (2 * length b)%nat.
Proof. induction b; simpl; lia. Qed.

Lemma sha_fullmatch m : fullmatch is_hex_lower 64 (sha m) = true.
Proof. unfold fullmatch, sha. by rewrite length_hex, length_sha256, hex_class. Qed.

Lemma lower_idem_hex s : string_forallb is_hex_lower s = true -> lower s = s.
Proof.
  induction s as [|c s IH]; simpl; [done|]. intros [Hc Hs]%andb_true_iff.
  rewrite IH by done. f_equal. unfold lower_char.
  destruct (between 65 90 c) eqn:E; [|done]. unfold is_hex_lower, is_digit, between in *. breflect.
  lia.
Qed.

Lemma lower_char_hex c : is_hex c = true -> is_hex_lower (lower_char c) = true.
Proof. destruct c as [[] [] [] [] [] [] [] []]; vm_compute; done. Qed.

Lemma lower_hex s : string_forallb is_hex s = true -> string_forallb is_hex_lower (lower s) = true.
Proof.
  induction s as [|c s IH]; simpl; [done|]. intros [Hc Hs]%andb_true_iff.
  by rewrite lower_char_hex, IH.
Qed.

Lemma length_lower s : String.length (lower s) = String.length s.
Proof. induction s; simpl; auto. Qed.
