(* ===== verification/PyStr.v ===== *)
(** * Text that crosses a byte stream

    [str.encode('ascii')], [bytes.decode('ascii')], [str.split()], [int(s)] and [str(n)] as the line
    protocols use them. *)

From stdpp Require Import base tactics list list_numbers strings pretty.
From Stdlib Require Import ZArith Lia.
From Stdlib Require Import Ascii.
From S2P Require Import Prelude.
From S2P Require Import PyBytes.
From S2P Require Import Sha256.
From S2P Require Import PyText.

Local Open Scope Z_scope.

(** [s.encode("ascii")] *)
Definition encode_ascii (s : string) : result bytes :=
  raise_when (negb (string_forallb (fun c => code c <? 128) s)) (UnicodeError "ordinal not in range(128)");;
  mret (ascii s).

(** The text whose characters are the given bytes *)
Fixpoint text (b : bytes) : string :=
  match b with [] => EmptyString | x :: b => String (ascii_of_byte x) (text b) end.

(** [b.decode("ascii")] *)
Definition decode_ascii (b : bytes) : result string :=
  raise_when (negb (forallb (fun x => b2z x <? 128) b)) (UnicodeError "ordinal not in range(128)");;
  mret (text b).

(** [s.split()]: the maximal runs of characters that are not blank *)
Definition is_blank (c : Ascii.ascii) : bool := between 9 13 c || between 28 32 c.

Definition cons_word (w : string) (l : list string) : list string :=
  if bool_decide (w = "") then l else w :: l.

Fixpoint words_from (s : string) : string * list string :=
  match s with
  | EmptyString => ("", [])
  | String c s =>
      let '(w, l) := words_from s in
      if is_blank c then ("", cons_word w l) else (String c w, l)
  end.
Definition words (s : string) : list string := let '(w, l) := words_from s in cons_word w l.

(** [item.split('=', 1)] when ['='] occurs *)
Fixpoint partition_at (sep : Ascii.ascii) (s : string) : option (string * string) :=
  match s with
  | EmptyString => None
  | String c s =>
      if bool_decide (c = sep) then Some ("", s)
      else match partition_at sep s with Some (a, b) => Some (String c a, b) | None => None end
  end.

(** [int(s)] on text without blanks: a sign, digits with single underscores between them *)
Fixpoint read_digits (acc : Z) (after_digit : bool) (s : string) : option Z :=
  match s with
  | EmptyString => if after_digit then Some acc else None
  | String c s =>
      if is_digit c then read_digits (10 * acc + (code c - 48)) true s
      else if bool_decide (c = "_"%char) && after_digit then read_digits acc false s
      else None
  end.

Definition read_int (s : string) : result Z :=
  some_or (match s with
           | String "-" s => Z.opp <$> read_digits 0 false s
           | String "+" s => read_digits 0 false s
           | _ => read_digits 0 false s
           end) (ValueError "invalid literal for int()").

(** [str(n)] *)
Definition str_int (n : Z) : string := pretty n.

(** ** Laws *)
Lemma encode_ascii_Ok s b : encode_ascii s = Ok b <-> b = ascii s /\ string_forallb (fun c => code c <? 128) s = true.
Proof. unfold encode_ascii. rewrite raise_when_bind, mret_Ok, negb_false_iff. naive_solver. Qed.

Lemma ascii_text b : ascii (text b) = b.
Proof. induction b as [|x b IH]; simpl; [done|]. by rewrite byte_of_ascii_of_byte, IH. Qed.

Lemma decode_ascii_Ok b s : decode_ascii b = Ok s -> ascii s = b.
Proof.
  unfold decode_ascii. rewrite raise_when_bind, mret_Ok. intros [_ <-]. apply ascii_text.
Qed.

Lemma partition_at_Some sep s a b : partition_at sep s = Some (a, b) -> s = (a +:+ String sep b)%string.
Proof.
  revert a. induction s as [|c s IH]; intros a; simpl; [done|]. case_bool_decide; [by intros [= <- <-]; subst|].
  destruct (partition_at sep s) as [[a' b']|]; [|done]. intros [= <- <-]. rewrite (IH a') by done. done.
Qed.

Example words_blanks : words " OK  rx=1	tx=2 " = ["OK"; "rx=1"; "tx=2"].
Proof. reflexivity. Qed.

Example int_forms : read_int "+1_0" = Ok 10 /\ read_int "-7" = Ok (-7) /\ read_int "1__0" = Raise (ValueError "invalid literal for int()")
  /\ str_int (-120) = "-120".
Proof. by vm_compute. Qed.

(** ** [repr] of a string and of an exception *)
Definition repr_char (q c : Ascii.ascii) : string :=
  let n := Z.of_N (N_of_ascii c) in
  if bool_decide (c = q) || (n =? 92) then String "\"%char (String c "")
  else if n =? 9 then "\t" else if n =? 10 then "\n" else if n =? 13 then "\r"
  else if (n <? 32) || ((127 <=? n) && (n <=? 160)) || (n =? 173) then
    "\x" +:+ String (hex_digit (n / 16)) (String (hex_digit (n mod 16)) "")
  else String c "".

Fixpoint repr_chars (q : Ascii.ascii) (s : string) : string :=
  match s with EmptyString => "" | String c s => repr_char q c +:+ repr_chars q s end.

(** Single quotes, unless the text has those and no double ones. *)
Definition py_repr (s : string) : string :=
  let lacks q := string_forallb (fun c => negb (bool_decide (c = q))) s in
  let q := if negb (lacks "'"%char) && lacks "034"%char then "034"%char else "'"%char in
  String q (repr_chars q s +:+ String q "").

(** [repr(exc)] of an exception with one argument, its message *)
Definition repr_exn (e : exn) : string := type_name e +:+ "(" +:+ py_repr (emsg e) +:+ ")".

Example repr_exn_demo : repr_exn (RuntimeError "it's 1\2") = "RuntimeError(" +:+ String "034" ("it's 1\\2" +:+ String "034" ")").
Proof. vm_compute. reflexivity. Qed.
