(* ===== verification/PyRegex.v ===== *)
(** * Regular expressions: [re.search] and [re.findall]

    The patterns the tools use on the output of host commands: literal text, greedy repetition of one
    character class, alternation, groups that are not nested, and the assertions [^] and [$] (with [re.M]) and [\b]. [rmatch] is
    the backtracking matcher, with what follows the pattern as a continuation; [Matches] reads a pattern
    declaratively, and the two agree. *)

From stdpp Require Import base tactics list strings.
From Stdlib Require Import ZArith Lia.
From S2P Require Import Prelude.
From S2P Require Import PyBytes.
From S2P Require Import PyText.

Local Open Scope Z_scope.

(** ** Patterns *)
Inductive regex :=
| Lit (s : string)
| Many (f : Ascii.ascii -> bool) (least : nat)
| Cat (r1 r2 : regex)
| Alt (r1 r2 : regex)
| Group (r : regex)
| LineStart
| LineEnd
| WordEdge.

Infix "⊙" := Cat (at level 40, left associativity).
Infix "⊕" := Alt (at level 50, left associativity).

(** The classes [\s], [\S], [\d] and [.], and the word characters, on ASCII text *)
Definition re_space (c : Ascii.ascii) : bool := between 9 13 c || between 28 32 c.
Definition re_not_space (c : Ascii.ascii) : bool := negb (re_space c).
Definition re_dot (c : Ascii.ascii) : bool := negb (between 10 10 c).
Definition re_word (c : Ascii.ascii) : bool := is_digit c || between 65 90 c || between 97 122 c || between 95 95 c.

(** ** Matching

    A place in the text: the character before it, the text ahead, the groups captured so far. *)
Record spot := Spot { before : option Ascii.ascii; ahead : string; groups : list string }.

Definition at_line_start (p : spot) : bool := match before p with None => true | Some c => between 10 10 c end.

Definition at_line_end (p : spot) : bool := match ahead p with EmptyString => true | String c _ => between 10 10 c end.

Definition at_word_edge (p : spot) : bool :=
  let left := match before p with None => false | Some c => re_word c end in
  let right := match ahead p with EmptyString => false | String c _ => re_word c end in
  xorb left right.

(** The text between two places *)
Definition consumed (p q : spot) : string := String.substring 0 (String.length (ahead p) - String.length (ahead q)) (ahead p).

Definition capture (p q : spot) : spot := Spot (before q) (ahead q) (groups q ++ [consumed p q]).

Section Matcher.
Context {A : Type}.

Fixpoint match_lit (s : string) (k : spot -> option A) (b : option Ascii.ascii) (t : string) (g : list string) : option A :=
  match s with
  | EmptyString => k (Spot b t g)
  | String c s =>
      match t with
      | String d t => if decide (c = d) then match_lit s k (Some d) t g else None
      | EmptyString => None
      end
  end.

Fixpoint match_many (f : Ascii.ascii -> bool) (least : nat) (k : spot -> option A) (b : option Ascii.ascii)
    (t : string) (g : list string) {struct t} : option A :=
  let stop := match least with O => k (Spot b t g) | S _ => None end in
  match t with
  | EmptyString => stop
  | String c t =>
      if f c then match match_many f (pred least) k (Some c) t g with Some a => Some a | None => stop end else stop
  end.

Fixpoint rmatch (r : regex) (k : spot -> option A) (p : spot) : option A :=
  match r with
  | Lit s => match_lit s k (before p) (ahead p) (groups p)
  | Many f least => match_many f least k (before p) (ahead p) (groups p)
  | Cat r1 r2 => rmatch r1 (rmatch r2 k) p
  | Alt r1 r2 => match rmatch r1 k p with Some a => Some a | None => rmatch r2 k p end
  | Group r => rmatch r (fun q => k (capture p q)) p
  | LineStart => if at_line_start p then k p else None
  | LineEnd => if at_line_end p then k p else None
  | WordEdge => if at_word_edge p then k p else None
  end.
End Matcher.

(** [re.search(r, s)]: the groups of the first match *)
Fixpoint search_from (r : regex) (b : option Ascii.ascii) (t : string) : option (list string) :=
  match rmatch r Some (Spot b t []) with
  | Some q => Some (groups q)
  | None => match t with EmptyString => None | String c t => search_from r (Some c) t end
  end.
Definition search (r : regex) (s : string) : option (list string) := search_from r None s.
Definition found (r : regex) (s : string) : bool := bool_decide (is_Some (search r s)).

(** [re.findall(r, s)] for a pattern that matches no empty text: the groups of every match, each search
    starting where the last match ended; [skip] characters are still part of that match. *)
Fixpoint findall_from (r : regex) (b : option Ascii.ascii) (t : string) (skip : nat) : list (list string) :=
  match t with
  | EmptyString => []
  | String c t' =>
      match skip with
      | S skip => findall_from r (Some c) t' skip
      | O =>
          match rmatch r Some (Spot b t []) with
          | Some q => groups q :: findall_from r (Some c) t' (String.length t' - String.length (ahead q))
          | None => findall_from r (Some c) t' 0
          end
      end
  end.
Definition findall (r : regex) (s : string) : list (list string) := findall_from r None s 0.

(** [sub in s] and [s.partition(sub)[2]] *)
Definition contains (sub s : string) : bool := found (Lit sub) s.

Fixpoint after_first (sub s : string) : string :=
  match rmatch (Lit sub) Some (Spot None s []) with
  | Some q => ahead q
  | None => match s with EmptyString => EmptyString | String _ s => after_first sub s end
  end.

(** [s.strip()] on ASCII text *)
Fixpoint lstrip_text (s : string) : string :=
  match s with EmptyString => EmptyString | String c t => if re_space c then lstrip_text t else s end.
Fixpoint rstrip_text (s : string) : string :=
  match s with
  | EmptyString => EmptyString
  | String c t =>
      let u := rstrip_text t in
      if re_space c && bool_decide (u = EmptyString) then EmptyString else String c u
  end.
Definition strip_text (s : string) : string := rstrip_text (lstrip_text s).

(** ** The declarative reading *)
Inductive Matches : regex -> spot -> spot -> Prop :=
| lit_end p : Matches (Lit "") p p
| lit_more c s b t g q : Matches (Lit s) (Spot (Some c) t g) q -> Matches (Lit (String c s)) (Spot b (String c t) g) q
| many_stop f p : Matches (Many f 0) p p
| many_more f least c b t g q : f c = true -> Matches (Many f (pred least)) (Spot (Some c) t g) q ->
    Matches (Many f least) (Spot b (String c t) g) q
| cat_both r1 r2 p q q' : Matches r1 p q -> Matches r2 q q' -> Matches (Cat r1 r2) p q'
| alt_left r1 r2 p q : Matches r1 p q -> Matches (Alt r1 r2) p q
| alt_right r1 r2 p q : Matches r2 p q -> Matches (Alt r1 r2) p q
| group_done r p q : Matches r p q -> Matches (Group r) p (capture p q)
| line_start p : at_line_start p = true -> Matches LineStart p p
| line_end p : at_line_end p = true -> Matches LineEnd p p
| word_edge p : at_word_edge p = true -> Matches WordEdge p p.

Section Agreement.
Context {A : Type}.
Implicit Types k : spot -> option A.

Lemma match_lit_sound s k b t g a : match_lit s k b t g = Some a ->
  exists q, Matches (Lit s) (Spot b t g) q /\ k q = Some a.
Proof.
  revert b t. induction s as [|c s IH]; intros b t; simpl; [eauto using lit_end|].
  destruct t as [|d t]; [done|]. case_decide; [|done]. subst d. intros (q & Hq & Hk)%IH. eauto using lit_more.
Qed.

Lemma match_many_sound f least k b t g a : match_many f least k b t g = Some a ->
  exists q, Matches (Many f least) (Spot b t g) q /\ k q = Some a.
Proof.
  revert least b. induction t as [|c t IH]; intros least b; simpl.
  - destruct least; [eauto using many_stop|done].
  - destruct (f c) eqn:Ef.
    + destruct (match_many f (pred least) k (Some c) t g) eqn:E.
      * intros [= ->]. apply IH in E as (q & Hq & Hk). eauto using many_more.
      * destruct least; [eauto using many_stop|done].
    + destruct least; [eauto using many_stop|done].
Qed.

Lemma rmatch_sound r k p a : rmatch r k p = Some a -> exists q, Matches r p q /\ k q = Some a.
Proof.
  revert k p. induction r as [s|f least|r1 IH1 r2 IH2|r1 IH1 r2 IH2|r IH| | |]; intros k p; simpl.
  - destruct p. apply match_lit_sound.
  - destruct p. apply match_many_sound.
  - intros (q & H1 & (q' & H2 & Hk)%IH2)%IH1. eauto using cat_both.
  - destruct (rmatch r1 k p) eqn:E.
    + intros [= ->]. apply IH1 in E as (q & Hq & Hk). eauto using alt_left.
    + intros (q & Hq & Hk)%IH2. eauto using alt_right.
  - intros (q & Hq & Hk)%IH. eauto using group_done.
  - destruct (at_line_start p) eqn:E; [|done]. eauto using line_start.
  - destruct (at_line_end p) eqn:E; [|done]. eauto using line_end.
  - destruct (at_word_edge p) eqn:E; [|done]. eauto using word_edge.
Qed.

(** Some continuation succeeds at the end of a match, so the matcher finds one. *)
Lemma rmatch_complete r k p q : Matches r p q -> is_Some (k q) -> is_Some (rmatch r k p).
Proof.
  intros H. revert k. induction H as [p|c s b t g q H IH|f p|f least c b t g q Hf H IH|r1 r2 p q q' H1 IH1 H2 IH2
    |r1 r2 p q H IH|r1 r2 p q H IH|r p q H IH|p Hp|p Hp|p Hp]; intros k Hk; simpl.
  - by destruct p.
  - rewrite decide_True by done. exact (IH k Hk).
  - destruct p as [b [|c t] g]; simpl in *; [done|]. destruct (f c); [|done].
    destruct (match_many f 0 k (Some c) t g); [eauto|done].
  - rewrite Hf. specialize (IH k Hk). simpl in IH. destruct (match_many f (pred least) k (Some c) t g); [eauto|].
    by destruct IH.
  - apply IH1, IH2, Hk.
  - specialize (IH k Hk). destruct (rmatch r1 k p); [eauto|by destruct IH].
  - destruct (rmatch r1 k p); [eauto|]. by apply IH.
  - apply IH, Hk.
  - by rewrite Hp.
  - by rewrite Hp.
  - by rewrite Hp.
Qed.
End Agreement.

(** The last character of [s], or [b] *)
Fixpoint last_char (b : option Ascii.ascii) (s : string) : option Ascii.ascii :=
  match s with EmptyString => b | String c s => last_char (Some c) s end.

(** A pattern occurs in a text, capturing [g]. *)
Definition occurs (r : regex) (s : string) (g : list string) : Prop :=
  exists a t q, s = (a +:+ t)%string /\ Matches r (Spot (last_char None a) t []) q /\ g = groups q.

Lemma search_from_sound r b t g : search_from r b t = Some g ->
  exists a t' q, t = (a +:+ t')%string /\ Matches r (Spot (last_char b a) t' []) q /\ g = groups q.
Proof.
  revert b. induction t as [|c t IH]; intros b; cbn [search_from]; destruct (rmatch r Some _) as [q|] eqn:E; try done.
  - intros [= <-]. apply rmatch_sound in E as (q' & H & [= ->]). by exists "", "", q.
  - intros [= <-]. apply rmatch_sound in E as (q' & H & [= ->]). by exists "", (String c t), q.
  - intros (a & t' & q & -> & H & Hg)%IH. by exists (String c a), t', q.
Qed.

Lemma search_sound r s g : search r s = Some g -> occurs r s g.
Proof. apply search_from_sound. Qed.

Lemma search_from_complete r b a t q : Matches r (Spot (last_char b a) t []) q -> search_from r b (a +:+ t) <> None.
Proof.
  revert b. induction a as [|c a IH]; intros b H.
  - destruct (rmatch_complete r (A := spot) Some _ _ H ltac:(by exists q)) as [x Hx].
    change ("" +:+ t)%string with t. destruct t; cbn [search_from last_char] in *; by rewrite Hx.
  - change (String c a +:+ t)%string with (String c (a +:+ t)). cbn [search_from].
    destruct (rmatch r Some _); [done|]. by apply IH.
Qed.

Lemma found_iff r s : found r s = true <-> exists g, occurs r s g.
Proof.
  unfold found. rewrite bool_decide_eq_true. split.
  - intros [g H]. exists g. by apply search_sound.
  - intros (g & a & t & q & -> & H & _). apply search_from_complete in H. unfold search.
    destruct (search_from r None (a +:+ t)); [eauto|done].
Qed.

(** ** How many groups a match has *)
Fixpoint captures (r : regex) : nat :=
  match r with
  | Cat r1 r2 => captures r1 + captures r2
  | Alt r1 _ => captures r1
  | Group r => S (captures r)
  | _ => 0
  end%nat.

(** Both branches of an alternation capture the same number of groups. *)
Fixpoint balanced (r : regex) : bool :=
  match r with
  | Cat r1 r2 => balanced r1 && balanced r2
  | Alt r1 r2 => balanced r1 && balanced r2 && (captures r1 =? captures r2)%nat
  | Group r => balanced r
  | _ => true
  end.

Lemma matches_groups r p q : Matches r p q -> balanced r = true ->
  length (groups q) = (length (groups p) + captures r)%nat.
Proof.
  induction 1 as [|c s b t g q H IH| |f least c b t g q Hf H IH|r1 r2 p q q' H1 IH1 H2 IH2|r1 r2 p q H IH|r1 r2 p q H IH|r p q H IH| | |];
    cbn [balanced captures] in *; rewrite ?andb_true_iff; intros Hb.
  - lia.
  - exact (IH eq_refl).
  - lia.
  - exact (IH eq_refl).
  - rewrite IH2, IH1 by tauto. lia.
  - tauto.
  - destruct Hb as [[_ Hb] He%Nat.eqb_eq]. rewrite He. auto.
  - cbn [capture groups]. rewrite length_app, IH by done. simpl. lia.
  - lia.
  - lia.
  - lia.
Qed.

Lemma occurs_length r s g : occurs r s g -> balanced r = true -> length g = captures r.
Proof. intros (a & t & q & _ & H & ->) Hb. by apply matches_groups in H. Qed.

Definition line_break : Ascii.ascii := Ascii.ascii_of_N 10.

Example search_groups : search (LineStart ⊙ Lit "xid = " ⊙ Group (Many re_not_space 1)) ("op = 1" +:+ String line_break "xid = 0x1f secs") = Some ["0x1f"].
Proof. reflexivity. Qed.

Example findall_pairs :
  findall (LineStart ⊙ Many re_space 0 ⊙ Group (Lit "a" ⊕ Lit "b") ⊙ Lit ":" ⊙ Many re_space 0 ⊙ Group (Many re_not_space 1))
    ("a: 1" +:+ String line_break " b:x y a: 2") = [["a"; "1"]; ["b"; "x"]].
Proof. reflexivity. Qed.
