(* ===== verification/PyDict.v ===== *)
(** * Dictionaries in insertion order

    A Python [dict] with string keys, as the association list of its items in
    insertion order: iteration order is observable where the code loops over it. *)

From stdpp Require Import base tactics list strings.
From S2P Require Import Prelude.

Definition dict (A : Type) : Type := list (string * A).

(** [d.get(key)] *)
Fixpoint dget {A} (d : dict A) (key : string) : option A :=
  match d with
  | [] => None
  | (k, v) :: d => if decide (k = key) then Some v else dget d key
  end.

(** [d[key] = value]: in place when the key is there, at the end when it is new *)
Fixpoint dset {A} (d : dict A) (key : string) (value : A) : dict A :=
  match d with
  | [] => [(key, value)]
  | (k, v) :: d => if decide (k = key) then (k, value) :: d else (k, v) :: dset d key value
  end.

(** [del d[key]] of a key that is there *)
Fixpoint ddel {A} (d : dict A) (key : string) : dict A :=
  match d with [] => [] | (k, v) :: d => if decide (k = key) then d else (k, v) :: ddel d key end.

(** [key in d] and [d[key]] *)
Definition has_key {A} (d : dict A) (key : string) : bool := bool_decide (is_Some (dget d key)).
Definition ditem {A} (d : dict A) (key : string) : result A := some_or (dget d key) (KeyError key).

Definition keys {A} (d : dict A) : list string := fst <$> d.

(** ** Laws *)
Lemma dget_dset {A} (d : dict A) k k' v :
  dget (dset d k v) k' = if decide (k = k') then Some v else dget d k'.
Proof. induction d as [|[k0 v0] d IH]; simpl; repeat (case_decide; simpl); congruence. Qed.

Lemma dget_ddel_other {A} (d : dict A) k k' : k <> k' -> dget (ddel d k) k' = dget d k'.
Proof. intros Hk. induction d as [|[k0 v0] d IH]; simpl; repeat (case_decide; simpl); congruence. Qed.

Lemma dget_In {A} (d : dict A) k v : dget d k = Some v -> (k, v) ∈ d.
Proof.
  induction d as [|[k0 v0] d IH]; simpl; [done|]. case_decide; subst.
  - intros [= ->]. left.
  - intros. right. auto.
Qed.

Lemma dget_None {A} (d : dict A) k : dget d k = None <-> k ∉ keys d.
Proof.
  induction d as [|[k0 v0] d IH]; simpl.
  - split; [intros _ H; inversion H|done].
  - rewrite not_elem_of_cons. case_decide; subst; naive_solver.
Qed.

Lemma dget_NoDup {A} (d : dict A) k v : NoDup (keys d) -> (k, v) ∈ d -> dget d k = Some v.
Proof.
  induction d as [|[k0 v0] d IH]; simpl; intros Hd Hin; [inversion Hin|].
  apply NoDup_cons in Hd as [Hn Hd]. apply elem_of_cons in Hin as [[= -> ->]|Hin].
  - by case_decide.
  - case_decide; subst; [|auto]. exfalso. apply Hn, list_elem_of_fmap. by exists (k, v).
Qed.

Lemma has_key_spec {A} (d : dict A) k : has_key d k = true <-> k ∈ keys d.
Proof.
  unfold has_key. rewrite bool_decide_eq_true. destruct (dget d k) eqn:E.
  - split; [|eauto]. intros _. apply list_elem_of_fmap. exists (k, a). split; [done|by apply dget_In].
  - apply dget_None in E. split; [by intros []|done].
Qed.

Lemma ditem_raises {A} P (d : dict A) k : P (KeyError k) -> raises P (ditem d k).
Proof. apply raises_some_or. Qed.

Lemma Forall_dset {A} (P : string * A -> Prop) d k v :
  P (k, v) -> Forall P d -> Forall P (dset d k v).
Proof.
  intros Hk Hd. induction Hd as [|[k0 v0] d H0 Hd IH]; simpl.
  - by apply Forall_singleton.
  - case_decide; subst; by constructor.
Qed.
