(* ===== verification/BuildComposite.v ===== *)
(** * experiments/managed_sketch/build_composite.py

    The UF2 block format of the resident image, the FMS1 capsule format, and the
    composition of both into one ROM image. [checked_resident_bytes] and
    [checked_capsule] are the two gates every later tool relies on; each is shown
    equivalent to a declarative description of the format. *)

From stdpp Require Import base tactics list list_numbers strings gmap.
From Stdlib Require Import ZArith Lia Strings.Byte.
From S2P Require Import Prelude.
From S2P Require Import PyBytes.
From S2P Require Import Sha256.

Local Open Scope Z_scope.

Definition MAGIC_START : Z * Z := (0x0A324655, 0x9E5D5157).
Definition MAGIC_END : Z := 0x0AB16F30.
Definition FAMILY : Z := 0xE48BFF56.
Definition SLOT : Z := 0x10200000.
Definition SLOT_END : Z := 0x10600000.

(** ["<8I"] and ["<I"] *)
Definition uf2_words : list field := [u32; u32; u32; u32; u32; u32; u32; u32].
Definition one_word : list field := [u32].
Definition two_words : list field := [u32; u32].

Definition enumerate {A} (l : list A) : list (Z * A) := zip (seqZ 0 (blen l)) l.

(** The body of the loop of [checked_resident_bytes]; [count] is [len(blocks)]. *)
Definition check_block (count : Z) (addresses : gset Z) (entry : Z * bytes) : result (gset Z) :=
  let '(index, block) := entry in
  ' (a, (b, (flags, (address, (payload, (block_number, (total, (family, _)))))))) ←
    unpack_from LE uf2_words block 0;
  ' (magic_end, _) ← unpack_from LE one_word block 508;
  raise_when (negb ((a =? MAGIC_START.1) && (b =? MAGIC_START.2)) || negb (magic_end =? MAGIC_END))
    (ValueError "resident UF2 magic is invalid");;
  raise_when (negb ((flags =? 0x2000) && (payload =? 256) && (family =? FAMILY)))
    (ValueError "resident UF2 profile is invalid");;
  raise_when (negb (block_number =? index) || negb (total =? count))
    (ValueError "resident UF2 block ordering is invalid");;
  raise_when (negb ((0x10000000 <=? address) && (address <? 0x10200000)) || negb (address mod 256 =? 0))
    (ValueError "resident UF2 writes outside its reservation");;
  raise_when (bool_decide (address ∈ addresses))
    (ValueError "resident UF2 has duplicate addresses");;
  Ok ({[address]} ∪ addresses).

Definition checked_resident_bytes (data : bytes) : result (list bytes) :=
  raise_when ((blen data =? 0) || negb (blen data mod 512 =? 0))
    (ValueError "resident UF2 size is invalid");;
  let blocks := pieces 512 data in
  foldM (check_block (blen blocks)) ∅ (enumerate blocks);;
  Ok blocks.

(** ["<4sHHIIIIII"] *)
Definition fms1_fields : list field := [FS 4; u16; u16; u32; u32; u32; u32; u32; u32].

(** [entry & ~1] and [entry & 1] *)
Definition clear_thumb (z : Z) : Z := Z.land z (Z.lnot 1).
Definition thumb_bit (z : Z) : bool := negb (Z.land z 1 =? 0).

Definition nonzero_byte (b : byte) : bool := negb (b2z b =? 0).

Definition checked_capsule (data : bytes) : result Z :=
  raise_when ((blen data <? 257) || (SLOT_END - SLOT <? blen data))
    (ValueError "module capsule is outside the sketch slot");;
  ' (magic, (abi, (header, (board, (api, (code_at, (code_bytes, (setup, (loop, _))))))))) ←
    unpack_from LE fms1_fields data 0;
  raise_when (negb (bool_decide (magic = ascii "FMS1") && (abi =? 1) && (header =? 64)
                    && (board =? 0x4F4E414E) && (code_at =? SLOT + 256)))
    (ValueError "module header does not match the Nano proof");;
  raise_when (negb ((0x10000000 <=? api) && (api <? 0x10200000)) || negb (api mod 4 =? 0))
    (ValueError "module API address is outside resident flash");;
  raise_when ((code_bytes =? 0) || negb (blen data =? code_bytes + 256))
    (ValueError "module code length is invalid");;
  raise_when (negb (bool_decide (sha (slice 256 (blen data) data) = hex (slice 32 64 data))))
    (ValueError "module SHA-256 mismatch");;
  for_each (fun entry =>
    raise_when (negb (thumb_bit entry)
                || negb ((code_at <=? clear_thumb entry) && (clear_thumb entry <? code_at + code_bytes)))
      (ValueError "module entry is outside its code")) [setup; loop];;
  raise_when (existsb nonzero_byte (slice 64 256 data))
    (ValueError "module padding is not zero");;
  Ok api.

(** [struct.pack_into("<II", block, 20, index, total)] over the resident blocks *)
Definition renumber (total : Z) (blocks : list bytes) : result (list bytes) :=
  mapM (fun entry : Z * bytes => pack_into LE two_words entry.2 20 (entry.1, (total, tt)))
    (enumerate blocks).

(** One new UF2 block: a zeroed bytearray, its header, payload and end magic. *)
Definition new_block (address index total : Z) (payload : bytes) : result bytes :=
  block ← pack_into LE uf2_words (zeros 512) 0
    (MAGIC_START.1, (MAGIC_START.2, (0x2000, (address, (256, (index, (total, (FAMILY, tt))))))));
  pack_into LE one_word (take 32 block ++ payload ++ drop 288 block) 508 (MAGIC_END, tt).

(** [blocks.append(block)] for the payload of [padded] at [offset] *)
Definition append_block (total : Z) (padded : bytes) (blocks : list bytes) (offset : Z)
    : result (list bytes) :=
  block ← new_block (SLOT + offset) (blen blocks) total (slice offset (offset + 256) padded);
  Ok (blocks ++ [block]).

(** The composition in [main]: pad the capsule to whole payloads, renumber the
    resident blocks, append one block per payload, joined into the image. *)
Definition composite (blocks : list bytes) (capsule : bytes) : result bytes :=
  let padded := capsule ++ fill "255"%byte ((- blen capsule) mod 256) in
  let total := blen blocks + blen padded / 256 in
  resident ← renumber total blocks;
  final ← foldM (fun blocks offset =>
      raise_when (SLOT_END <? SLOT + offset + 256) (ValueError "module UF2 would exceed sketch slot");;
      append_block total padded blocks offset)
    resident (range 0 (blen padded) 256);
  Ok (concat final).

(** ** The UF2 format, declaratively *)
Record uf2_block (count index : Z) (block : bytes) : Prop := {
  ub_length : length block = 512%nat;
  ub_magic0 : word 0 block = MAGIC_START.1;
  ub_magic1 : word 4 block = MAGIC_START.2;
  ub_flags : word 8 block = 0x2000;
  ub_payload : word 16 block = 256;
  ub_number : word 20 block = index;
  ub_total : word 24 block = count;
  ub_family : word 28 block = FAMILY;
  ub_end : word 508 block = MAGIC_END }.

Definition uf2_address (block : bytes) : Z := word 12 block.
Definition uf2_payload (block : bytes) : bytes := slice 32 288 block.

Definition resident_address (a : Z) : Prop := 0x10000000 <= a < 0x10200000 /\ a mod 256 = 0.

(** A numbered sequence of blocks. *)
Definition uf2_image (blocks : list bytes) : Prop :=
  forall i b, blocks !! i = Some b -> uf2_block (blen blocks) (Z.of_nat i) b.

Record valid_resident (data : bytes) (blocks : list bytes) : Prop := {
  vr_data : concat blocks = data;
  vr_nonempty : blocks <> [];
  vr_image : uf2_image blocks;
  vr_address : Forall (fun b => resident_address (uf2_address b)) blocks;
  vr_distinct : NoDup (uf2_address <$> blocks) }.

(** What programming an image does: the payload written at each address. *)
Definition flash_writes (image : bytes) : list (Z * bytes) :=
  (fun b => (uf2_address b, uf2_payload b)) <$> pieces 512 image.

(** ** Blocks *)
Lemma unpack_uf2 b : unpack LE uf2_words b =
  (word 0 b, (word 4 b, (word 8 b, (word 12 b, (word 16 b, (word 20 b, (word 24 b, (word 28 b, tt)))))))).
Proof. unfold word. cbv [unpack uf2_words fdecode fsize int_val]. by rewrite !drop_drop, drop_0. Qed.

Lemma unpack_one b : unpack LE one_word b = (word 0 b, tt).
Proof. unfold word. by rewrite drop_0. Qed.

Lemma word_drop n k b : word n (drop k b) = word (k + n) b.
Proof. unfold word. by rewrite drop_drop. Qed.

Lemma check_block_Ok count addrs index block addrs' : length block = 512%nat ->
  check_block count addrs (index, block) = Ok addrs' <->
  uf2_block count index block /\ resident_address (uf2_address block) /\
  uf2_address block ∉ addrs /\ addrs' = {[uf2_address block]} ∪ addrs.
Proof.
  intros Hlen. unfold check_block, resident_address, uf2_address.
  rewrite !unpack_from_in_bounds by (unfold blen; rewrite ?Hlen; simpl; lia).
  rewrite unpack_one, unpack_uf2, !word_drop. simpl.
  rewrite !raise_when_bind, Ok_Ok. breflect_goal. split.
  - intros ([[? ?] ?] & [[? ?] ?] & [? ?] & [? ?] & ? & <-). split_and!; first [by constructor | lia | done].
  - intros ([] & [[] ?] & ? & ->). split_and!; done.
Qed.

Lemma check_blocks_Ok count k addrs blocks addrs' :
  Forall (fun b => length b = 512%nat) blocks ->
  foldM (check_block count) addrs (zip (seqZ k (blen blocks)) blocks) = Ok addrs' ->
  (forall i b, blocks !! i = Some b -> uf2_block count (k + Z.of_nat i) b) /\
  Forall (fun b => resident_address (uf2_address b)) blocks /\
  NoDup (uf2_address <$> blocks) /\ (forall b, b ∈ blocks -> uf2_address b ∉ addrs).
Proof.
  intros Hlen. revert k addrs. induction Hlen as [|b blocks Hb Hlen IH]; intros k addrs.
  { intros _. split_and!; [done|constructor..|]. by intros ? ?%elem_of_nil. }
  unfold blen. simpl length. rewrite seqZ_cons by lia. cbn [zip zip_with foldM].
  replace (Z.pred (Z.of_nat (S (length blocks)))) with (blen blocks) by (unfold blen; lia).
  intros (addrs1 & (Hu & Ha & Hn & ->)%check_block_Ok & Hf)%bind_Ok; [|done].
  apply IH in Hf as (Hu' & Ha' & Hd' & Hn'). split_and!.
  - intros [|i] b' Hi; [simplify_eq/=; by rewrite Z.add_0_r|].
    apply Hu' in Hi. by replace (k + Z.of_nat (S i)) with (Z.succ k + Z.of_nat i) by lia.
  - by constructor.
  - rewrite fmap_cons. constructor; [|done]. intros (b' & Heq & Hb')%list_elem_of_fmap.
    apply Hn' in Hb'. set_solver.
  - intros b' [->|Hb']%elem_of_cons; [done|]. apply Hn' in Hb'. set_solver.
Qed.

Lemma check_blocks_complete count k addrs blocks :
  (forall i b, blocks !! i = Some b -> uf2_block count (k + Z.of_nat i) b) ->
  Forall (fun b => resident_address (uf2_address b)) blocks ->
  NoDup (uf2_address <$> blocks) -> (forall b, b ∈ blocks -> uf2_address b ∉ addrs) ->
  exists addrs', foldM (check_block count) addrs (zip (seqZ k (blen blocks)) blocks) = Ok addrs'.
Proof.
  revert k addrs. induction blocks as [|b blocks IH]; intros k addrs Hu Ha Hd Hn; [by eexists|].
  inversion_clear Ha. rewrite fmap_cons in Hd. inversion_clear Hd as [|? ? Hni Hd'].
  unfold blen. simpl length. rewrite seqZ_cons by lia. cbn [zip zip_with foldM].
  replace (Z.pred (Z.of_nat (S (length blocks)))) with (blen blocks) by (unfold blen; lia).
  pose proof (Hu 0%nat b eq_refl) as Hb. rewrite Z.add_0_r in Hb.
  destruct (IH (Z.succ k) ({[uf2_address b]} ∪ addrs)) as (addrs' & HIH); [|done|done| |].
  - intros i b' Hi. replace (Z.succ k + Z.of_nat i) with (k + Z.of_nat (S i)) by lia. by apply Hu.
  - intros b' Hb'. assert (uf2_address b' <> uf2_address b).
    { intros Heq. apply Hni. rewrite <- Heq. by apply list_elem_of_fmap_2. }
    specialize (Hn b'). set_solver.
  - exists addrs'. rewrite (proj2 (check_block_Ok count addrs k b _ (ub_length _ _ _ Hb)))
      by (split_and!; [done|done| |done]; apply Hn; left). done.
Qed.

(** ** Writing blocks *)
Definition u32_ok (z : Z) : Prop := 0 <= z < 2 ^ 32.

(** Solve reads of a window of a spliced buffer. *)
Ltac windows := unfold word, uf2_payload, slice in *; rewrite ?length_splice by (unfold blen in *; lia);
  rewrite ?window_splice_before, ?window_splice_after by (unfold blen in *; simpl in *; lia).

Lemma new_block_Ok address index total payload :
  u32_ok address -> u32_ok index -> u32_ok total -> length payload = 256%nat ->
  exists b, new_block address index total payload = Ok b /\ uf2_block total index b /\
    uf2_address b = address /\ uf2_payload b = payload.
Proof.
  unfold u32_ok. intros Ha Hi Ht Hp. unfold new_block.
  destruct (pack_into_exact LE uf2_words (zeros 512) 0
    (MAGIC_START.1, (MAGIC_START.2, (0x2000, (address, (256, (index, (total, (FAMILY, tt)))))))))
    as (h & -> & Hh & Hu); [done|done|unfold MAGIC_START, FAMILY; simpl; lia|].
  rewrite unpack_uf2 in Hu. injection Hu as W0 W4 W8 W12 W16 W20 W24 W28.
  simpl. change (calcsize uf2_words) with 32%nat in Hh.
  assert (Hs : splice (zeros 512) 0 h = h ++ drop 32 (zeros 512)) by (unfold splice; by rewrite Hh).
  rewrite Hs, take_app_length', drop_app_ge, drop_drop by (rewrite ?Hh; lia).
  set (body := h ++ payload ++ _).
  assert (Hbody : length body = 512%nat).
  { unfold body. rewrite !length_app, Hh, Hp. done. }
  destruct (pack_into_exact LE one_word body 508 (MAGIC_END, tt)) as (e & -> & He & Hue);
    [done|unfold blen; rewrite Hbody; done|unfold MAGIC_END; simpl; lia|].
  rewrite unpack_one in Hue. injection Hue as Hue. change (calcsize one_word) with 4%nat in He.
  eexists. split; [done|].
  assert (Hw : forall k, (k + 4 <= 32)%nat -> word k (splice body 508 e) = word k h).
  { intros k Hk. unfold word. rewrite window_splice_before by (simpl; lia).
    change (word k body = word k h). unfold body. apply word_app_l. lia. }
  unfold uf2_address. split; [constructor; rewrite ?Hw by lia; try done|split].
  - rewrite length_splice; unfold blen; lia.
  - unfold word. rewrite window_splice_at by (simpl; lia). by rewrite Nat.sub_diag.
  - by rewrite Hw by lia.
  - unfold uf2_payload, slice. rewrite window_splice_before by (simpl; lia).
    unfold body. rewrite drop_app_length' by (rewrite Hh; done).
    by rewrite take_app_length' by (rewrite Hp; done).
Qed.

(** [b'] is [b] with another number and total. *)
Definition renumbered (b b' : bytes) (index total : Z) : Prop :=
  uf2_block total index b' /\ uf2_address b' = uf2_address b /\ uf2_payload b' = uf2_payload b.

Lemma renumber_one count k b index total :
  uf2_block count k b -> u32_ok index -> u32_ok total ->
  exists b', pack_into LE two_words b 20 (index, (total, tt)) = Ok b' /\ renumbered b b' index total.
Proof.
  unfold u32_ok. intros [Hl H0 H4 H8 H16 H20 H24 H28 He] Hi Ht.
  destruct (pack_into_exact LE two_words b 20 (index, (total, tt))) as (v & -> & Hv & Hu);
    [done|unfold blen; rewrite Hl; done|simpl; lia|].
  change (unpack LE two_words v) with (le_val (take 4 v), (le_val (take 4 (drop 4 v)), tt)) in Hu.
  injection Hu as <- <-. change (calcsize two_words) with 8%nat in Hv.
  eexists. split; [done|]. unfold renumbered, uf2_address.
  split; [constructor|split]; try (windows; first [done | lia]).
  - unfold word. rewrite window_splice_at by (simpl; lia). by rewrite Nat.sub_diag.
  - unfold word. rewrite window_splice_at by (simpl; lia). done.
Qed.

Lemma renumber_Ok total blocks :
  uf2_image blocks -> blen blocks < 2 ^ 32 -> u32_ok total ->
  exists blocks', renumber total blocks = Ok blocks' /\ length blocks' = length blocks /\
    forall i b b', blocks !! i = Some b -> blocks' !! i = Some b' ->
      renumbered b b' (Z.of_nat i) total.
Proof.
  intros Hu Hn Ht. unfold renumber, enumerate.
  assert (Hk : forall k l, 0 <= k -> k + blen l < 2 ^ 32 ->
    (forall i b, l !! i = Some b -> exists c n, uf2_block c n b) ->
    exists l', mapM (fun entry : Z * bytes => pack_into LE two_words entry.2 20 (entry.1, (total, tt)))
        (zip (seqZ k (blen l)) l) = Ok l' /\ length l' = length l /\
      forall i b b', l !! i = Some b -> l' !! i = Some b' -> renumbered b b' (k + Z.of_nat i) total).
  { clear Hu Hn. intros k l. revert k. induction l as [|b l IH]; intros k Hk Hl Hb.
    { exists []. split_and!; [done..|]. by intros i ? ?. }
    assert (Hbl : blen (b :: l) = 1 + blen l) by (unfold blen; simpl; lia).
    rewrite Hbl, seqZ_cons by (pose proof (blen_nonneg l); lia).
    replace (Z.pred (1 + blen l)) with (blen l) by lia. cbn [zip zip_with mapM].
    destruct (Hb 0%nat b eq_refl) as (c & n & Hbb).
    destruct (renumber_one c n b k total Hbb) as (b' & Hp & Hr);
      [unfold u32_ok; pose proof (blen_nonneg l); lia|done|].
    cbn [fst snd]. rewrite Hp.
    destruct (IH (Z.succ k)) as (l' & Hm & Hl' & Hr'); [lia|lia| |].
    { intros i b1 Hi. by apply (Hb (S i)). }
    simpl. rewrite Hm. exists (b' :: l'). split_and!; [done|simpl; lia|].
    intros [|i] b1 b2 H1 H2; simplify_eq/=; [by rewrite Z.add_0_r|].
    replace (k + Z.of_nat (S i)) with (Z.succ k + Z.of_nat i) by lia. by eapply Hr'. }
  destruct (Hk 0 blocks) as (l' & ? & ? & Hr); [lia|lia| |].
  - intros i b Hi. eauto.
  - exists l'. split_and!; [done..|]. exact Hr.
Qed.

(** ** The composed image *)

(** The writes into the sketch slot that the padded capsule asks for. *)
Definition slot_writes (padded : bytes) : list (Z * bytes) :=
  (fun i => (SLOT + i, slice i (i + 256) padded)) <$> range 0 (blen padded) 256.

Definition write_of (b : bytes) : Z * bytes := (uf2_address b, uf2_payload b).

Lemma append_loop f total padded blocks offs :
  u32_ok total -> blen blocks + blen offs < 2 ^ 32 ->
  Forall (fun i => 0 <= i /\ i + 256 <= blen padded /\ SLOT + i < 2 ^ 32) offs ->
  (forall blocks i, i ∈ offs -> f blocks i = append_block total padded blocks i) ->
  exists news, foldM f blocks offs = Ok (blocks ++ news) /\
    write_of <$> news = (fun i => (SLOT + i, slice i (i + 256) padded)) <$> offs /\
    (forall j b, news !! j = Some b -> uf2_block total (blen blocks + Z.of_nat j) b).
Proof.
  intros Ht. revert blocks. induction offs as [|i offs IH]; intros blocks Hn Ho Hf.
  { exists []. simpl. rewrite app_nil_r. split_and!; [done..|]. by intros ? ?. }
  inversion_clear Ho as [|? ? (Hi0 & Hi1 & Hi2) Ho'].
  assert (Hbl : blen (i :: offs) = 1 + blen offs) by (unfold blen; simpl; lia).
  pose proof (blen_nonneg offs). pose proof (blen_nonneg blocks).
  destruct (new_block_Ok (SLOT + i) (blen blocks) total (slice i (i + 256) padded))
    as (b & Hb & Hu & Ha & Hp); [split; [unfold SLOT|]; lia|split; lia|done|
      rewrite length_slice; lia|].
  cbn [foldM]. rewrite Hf by left. unfold append_block. rewrite Hb. simpl.
  destruct (IH (blocks ++ [b])) as (news & Hn' & Hw & Hu'); [|done|intros; apply Hf; by right|].
  { rewrite blen_app. unfold blen at 2. simpl. lia. }
  exists (b :: news). rewrite Hn', <- app_assoc. split_and!; [done| |].
  - rewrite !fmap_cons, Hw. unfold write_of at 1. by rewrite Ha, Hp.
  - intros [|j] b' Hj; simplify_eq/=; [by rewrite Z.add_0_r|].
    apply Hu' in Hj. rewrite blen_app in Hj. unfold blen at 2 in Hj. simpl in Hj.
    by replace (blen blocks + Z.of_nat (S j)) with (blen blocks + 1 + Z.of_nat j) by lia.
Qed.

Lemma uf2_image_pieces blocks : uf2_image blocks -> pieces 512 (concat blocks) = blocks.
Proof.
  intros Hu. apply pieces_of_concat; [done|]. apply Forall_lookup. intros i b Hb.
  apply Hu in Hb. unfold blen. by rewrite (ub_length _ _ _ Hb).
Qed.

Lemma blen_image blocks : uf2_image blocks -> blen (concat blocks) = blen blocks * 512.
Proof.
  intros Hu. assert (Hl : Forall (fun b => length b = 512%nat) blocks).
  { apply Forall_lookup. intros i b Hb. by eapply ub_length, Hu. }
  unfold blen. clear -Hl. induction Hl as [|b l Hb Hl IH]; [done|].
  cbn [concat]. rewrite length_app, Hb. simpl length. lia.
Qed.

Lemma flash_writes_image blocks : uf2_image blocks -> flash_writes (concat blocks) = write_of <$> blocks.
Proof. intros Hu. unfold flash_writes. by rewrite uf2_image_pieces. Qed.

(** Renumbering and appending: the shared core of every composer. *)
Lemma compose_core f blocks padded total n :
  uf2_image blocks -> blen padded = 256 * n -> 0 <= n -> total = blen blocks + n -> total < 2 ^ 32 ->
  SLOT + 256 * n <= 2 ^ 32 ->
  (forall blocks i, 0 <= i -> i + 256 <= blen padded -> f blocks i = append_block total padded blocks i) ->
  exists final, (resident ← renumber total blocks; foldM f resident (range 0 (blen padded) 256)) = Ok final /\
    uf2_image final /\ blen final = total /\
    flash_writes (concat final) = flash_writes (concat blocks) ++ slot_writes padded.
Proof.
  intros Hu Hp Hn -> Ht Hs Hf. pose proof (blen_nonneg blocks).
  destruct (renumber_Ok (blen blocks + n) blocks) as (res & -> & Hl & Hr); [done|lia|split; lia|].
  assert (Hoff : range 0 (blen padded) 256 = (fun k => 0 + 256 * k) <$> seqZ 0 n).
  { unfold range. do 2 f_equal. rewrite Hp.
    replace (256 * n - 0 + 256 - 1) with (255 + n * 256) by lia. by rewrite Z.div_add. }
  assert (Hoffs : Forall (fun i => 0 <= i /\ i + 256 <= blen padded /\ SLOT + i < 2 ^ 32)
    (range 0 (blen padded) 256)).
  { rewrite Hoff. apply Forall_fmap, Forall_forall. intros k Hk%elem_of_seqZ. simpl. lia. }
  assert (Hlo : blen (range 0 (blen padded) 256) = n).
  { rewrite Hoff. unfold blen. rewrite length_fmap, length_seqZ. lia. }
  assert (Hbl : blen res = blen blocks) by (unfold blen; lia).
  destruct (append_loop f (blen blocks + n) padded res (range 0 (blen padded) 256))
    as (news & Hfold & Hw & Hnu); [split; lia|lia|done| |].
  { rewrite Forall_forall in Hoffs. intros bs i Hi. apply Hoffs in Hi as (? & ? & ?). by apply Hf. }
  assert (Hln : blen news = n).
  { unfold blen. rewrite <- (length_fmap write_of), Hw, length_fmap. exact Hlo. }
  assert (Htot : blen (res ++ news) = blen blocks + n) by (rewrite blen_app; lia).
  assert (Hfu : uf2_image (res ++ news)).
  { intros i b [Hi|[Hge Hi]]%lookup_app_Some; rewrite Htot.
    - destruct (lookup_lt_is_Some_2 blocks i) as [b0 Hb0]; [rewrite <- Hl; by eapply lookup_lt_Some|].
      by apply (Hr _ _ _ Hb0 Hi).
    - apply Hnu in Hi. by replace (Z.of_nat i) with (blen res + Z.of_nat (i - length res))
        by (unfold blen; lia). }
  exists (res ++ news). simpl. split_and!; [done..|].
  rewrite !flash_writes_image by done. rewrite fmap_app, Hw. f_equal.
  apply list_eq_same_length with (length blocks); [by rewrite length_fmap|by rewrite length_fmap|].
  intros i x y Hi Hx Hy. rewrite list_lookup_fmap in Hx, Hy.
  destruct (res !! i) as [b'|] eqn:E1, (blocks !! i) as [b|] eqn:E2; simplify_eq/=.
  destruct (Hr _ _ _ E2 E1) as (_ & Ha & Hpl). unfold write_of. congruence.
Qed.

(** ** The FMS1 capsule, declaratively *)

(** An odd (Thumb) entry whose instruction address lies in the code. *)
Definition thumb_entry (code_at code_bytes entry : Z) : Prop :=
  Z.odd entry = true /\ code_at <= entry - 1 < code_at + code_bytes.

Lemma odd_lor_1 z : Z.odd (Z.lor z 1) = true.
Proof. rewrite lor_1_odd. destruct (Z.odd z) eqn:E; rewrite ?Z.add_0_r, ?Z.odd_add, E; done. Qed.

Lemma clear_thumb_lor_1 z : clear_thumb (Z.lor z 1) = Z.lor z 1 - 1.
Proof. unfold clear_thumb. by rewrite land_lnot_1, odd_lor_1. Qed.

Record valid_capsule (data : bytes) (api : Z) : Prop := {
  vc_size : 257 <= blen data <= SLOT_END - SLOT;
  vc_magic : take 4 data = ascii "FMS1";
  vc_abi : half 4 data = 1;
  vc_header : half 6 data = 64;
  vc_board : word 8 data = 0x4F4E414E;
  vc_api : word 12 data = api;
  vc_api_range : 0x10000000 <= api < 0x10200000 /\ api mod 4 = 0;
  vc_code_at : word 16 data = SLOT + 256;
  vc_code_bytes : word 20 data = blen data - 256;
  vc_setup : thumb_entry (SLOT + 256) (blen data - 256) (word 24 data);
  vc_loop : thumb_entry (SLOT + 256) (blen data - 256) (word 28 data);
  vc_digest : sha256 (drop 256 data) = slice 32 64 data;
  vc_padding : slice 64 256 data = zeros 192 }.

Lemma unpack_fms1 b : unpack LE fms1_fields b =
  (take 4 b, (half 4 b, (half 6 b, (word 8 b, (word 12 b, (word 16 b, (word 20 b,
    (word 24 b, (word 28 b, tt))))))))).
Proof. unfold word, half. cbv [unpack fms1_fields fdecode fsize int_val]. by rewrite !drop_drop. Qed.

Lemma slice_to_end {A} (l : list A) i : 0 <= i <= blen l -> slice i (blen l) l = drop (Z.to_nat i) l.
Proof. intros. unfold slice. apply take_ge. rewrite length_drop. unfold blen in *. lia. Qed.

Lemma entry_check code_at n entry :
  negb (thumb_bit entry) || negb ((code_at <=? clear_thumb entry) && (clear_thumb entry <? code_at + n)) = false
  <-> thumb_entry code_at n entry.
Proof.
  unfold thumb_entry, thumb_bit, clear_thumb. rewrite land_1_odd, land_lnot_1. breflect_goal.
  destruct (Z.odd entry); naive_solver lia.
Qed.

(** ** The gates against the formats *)
Lemma checked_resident_bytes_iff data blocks :
  checked_resident_bytes data = Ok blocks <-> valid_resident data blocks.
Proof.
  unfold checked_resident_bytes. rewrite raise_when_bind. breflect_goal. split.
  - intros ([Hn Hm] & (addrs & Hf & [= <-])%bind_Ok).
    assert (Hlen : Forall (fun b => length b = 512%nat) (pieces 512 data)).
    { apply Forall_forall. intros b Hb%pieces_length; [unfold blen in Hb; lia|done|done]. }
    apply check_blocks_Ok in Hf as (Hu & Ha & Hd & _); [|done]. constructor; [|..|done|done].
    + by apply pieces_concat.
    + intros Hp. apply (f_equal (concat (A := byte))) in Hp. rewrite pieces_concat in Hp by done. by subst.
    + intros i b Hi. by apply Hu.
  - intros [<- Hne Hu Ha Hd]. rewrite uf2_image_pieces by done.
    pose proof (blen_image blocks Hu) as Hb.
    split; [split|].
    + rewrite Hb. destruct blocks; [done|]. unfold blen. simpl. lia.
    + rewrite Hb. by apply Z.mod_mul.
    + destruct (check_blocks_complete (blen blocks) 0 ∅ blocks) as (addrs & Hf);
        [done..|set_solver|]. unfold enumerate. by rewrite Hf.
Qed.

Lemma resident_blocks_le data blocks :
  checked_resident_bytes data = Ok blocks -> 1 <= blen blocks <= 8192.
Proof.
  intros [Hd Hne Hu Ha Hdis]%checked_resident_bytes_iff. split.
  { destruct blocks; [done|]. unfold blen. simpl. lia. }
  assert (Hsub : (uf2_address <$> blocks) ⊆+ ((fun k => 0x10000000 + 256 * k) <$> seqZ 0 8192)).
  { apply NoDup_submseteq; [done|]. intros a (b & -> & Hb)%list_elem_of_fmap.
    rewrite Forall_forall in Ha. apply Ha in Hb as [Hr Hm]. apply list_elem_of_fmap.
    exists ((uf2_address b - 0x10000000) / 256).
    assert (Hm' : (uf2_address b - 0x10000000) mod 256 = 0).
    { rewrite Zminus_mod, Hm. done. }
    apply Z.div_exact in Hm'; [|lia]. rewrite elem_of_seqZ. lia. }
  apply submseteq_length in Hsub. rewrite !length_fmap, length_seqZ in Hsub. unfold blen. lia.
Qed.

Lemma checked_capsule_iff data api :
  checked_capsule data = Ok api <-> valid_capsule data api.
Proof.
  unfold checked_capsule. rewrite raise_when_bind. breflect_goal. split.
  - intros [[Hl1 Hl2] H].
    rewrite unpack_from_in_bounds in H by (simpl; lia).
    rewrite drop_0, unpack_fms1 in H. simpl in H.
    rewrite !raise_when_bind, bind_unit, raise_when_bind, Ok_Ok, for_each_2 in H.
    rewrite !raise_when_Ok, !entry_check, slice_to_end in H by lia. repeat (progress breflect_in H).
    rewrite sha_hex in H. destruct H as (Hm & [Ha1 Ha2] & [Hc1 Hc2] & Hs & (He1 & He2) & Hz & <-).
    destruct Hm as [[[[? ?] ?] ?] ?].
    assert (Hcb : word 20 data = blen data - 256) by lia.
    assert (Hca : word 16 data = SLOT + 256) by done. rewrite Hcb, Hca in He1, He2.
    apply existsb_zero in Hz. rewrite blen_slice in Hz by lia.
    constructor; done.
  - intros [[? ?] Hm ? ? ? <- [[? ?] ?] Hca Hcb He1 He2 Hd Hz].
    split; [lia|]. rewrite unpack_from_in_bounds by (simpl; lia).
    rewrite drop_0, unpack_fms1. simpl.
    rewrite !raise_when_bind, bind_unit, raise_when_bind, Ok_Ok, for_each_2.
    rewrite !raise_when_Ok, !entry_check, slice_to_end by lia.
    rewrite Hcb, Hca, Hz. breflect_goal. rewrite sha_hex.
    split_and!; try first [done | lia]; by vm_compute.
Qed.

Lemma composite_succeeds data blocks capsule api :
  checked_resident_bytes data = Ok blocks -> checked_capsule capsule = Ok api ->
  let padded := capsule ++ fill "255"%byte ((- blen capsule) mod 256) in
  exists image final, composite blocks capsule = Ok image /\ image = concat final /\
    uf2_image final /\ blen final = blen blocks + blen padded / 256 /\
    flash_writes image = flash_writes data ++ slot_writes padded.
Proof.
  intros Hr Hc padded.
  pose proof (resident_blocks_le _ _ Hr) as Hbd.
  apply checked_resident_bytes_iff in Hr as [<- _ Hu _ _].
  apply checked_capsule_iff, vc_size in Hc. unfold SLOT_END, SLOT in Hc.
  assert (Hp : blen padded = 256 * ((blen capsule + 255) / 256)).
  { unfold padded. pose proof (Z.mod_pos_bound (- blen capsule) 256 eq_refl).
    rewrite blen_app, blen_fill by lia. Z.to_euclidean_division_equations. lia. }
  assert (Hq : 0 <= (blen capsule + 255) / 256 <= 16384).
  { Z.to_euclidean_division_equations. lia. }
  destruct (compose_core (fun bs offset =>
      raise_when (SLOT_END <? SLOT + offset + 256) (ValueError "module UF2 would exceed sketch slot");;
      append_block (blen blocks + blen padded / 256) padded bs offset)
    blocks padded (blen blocks + blen padded / 256) ((blen capsule + 255) / 256))
    as (final & Hf & Hfu & Hl & Hw); [done|done|lia| | |unfold SLOT; lia| |].
  - by rewrite Hp, Z.mul_comm, Z.div_mul.
  - rewrite Hp, Z.mul_comm, Z.div_mul; lia.
  - intros bs i Hi0 Hi1. assert (Hg : (SLOT_END <? SLOT + i + 256) = false)
      by (apply Z.ltb_ge; unfold SLOT_END, SLOT; lia). by rewrite Hg.
  - exists (concat final), final. unfold composite. fold padded.
    apply bind_Ok in Hf as (res & -> & Hf). simpl. by rewrite Hf.
Qed.

(** ** Properties *)

(** C4: [checked_resident_bytes] accepts exactly the well-formed resident images and
    returns their 512-byte blocks: every block carries the UF2 magics, profile and its
    own number, writes an aligned 256-byte page of the resident half of flash, and no
    page is written twice. *)
Theorem checked_resident_bytes_correct data blocks :
  checked_resident_bytes data = Ok blocks <-> valid_resident data blocks.
Proof. apply checked_resident_bytes_iff. Qed.

(** A resident image never has more than 8192 blocks, so the block counts and
    numbers written back into UF2 headers always fit their 32-bit fields. *)
Theorem resident_block_bound data blocks :
  checked_resident_bytes data = Ok blocks -> 1 <= blen blocks <= 8192.
Proof. apply resident_blocks_le. Qed.

(** [checked_capsule] accepts exactly the well-formed FMS1 capsules for this board
    and returns the API address of their header: exact code length, SHA-256 of the code,
    zero padding, and two Thumb entries inside the code. *)
Theorem checked_capsule_correct data api :
  checked_capsule data = Ok api <-> valid_capsule data api.
Proof. apply checked_capsule_iff. Qed.

(** C5: Composing an accepted resident with an accepted capsule always succeeds; the ROM
    image is a consecutively numbered UF2 that writes every resident page unchanged and then
    the padded capsule, page by page, from the start of the sketch slot. *)
Theorem composite_correct data blocks capsule api :
  checked_resident_bytes data = Ok blocks -> checked_capsule capsule = Ok api ->
  let padded := capsule ++ fill "255"%byte ((- blen capsule) mod 256) in
  exists image final, composite blocks capsule = Ok image /\ image = concat final /\
    uf2_image final /\ blen final = blen blocks + blen padded / 256 /\
    flash_writes image = flash_writes data ++ slot_writes padded.
Proof. apply composite_succeeds. Qed.

(** ** A concrete resident and capsule *)
Definition or_empty (r : result bytes) : bytes := match r with Ok b => b | Raise _ => [] end.

(** Two resident pages, numbered. *)
Definition demo_resident_blocks : list bytes :=
  (fun i => or_empty (new_block (0x10000000 + 256 * i) i 2 (fill (z2b (65 + i)) 256))) <$> [0; 1].

Definition demo_code : bytes := ascii "thumbinstruction".

(** An FMS1 capsule around [demo_code], with entries at its first two halfwords. *)
Definition demo_capsule : bytes :=
  or_empty (pack LE [FS 4; u16; u16; u32; u32; u32; u32; u32; u32; FS 32]
    (ascii "FMS1", (1, (64, (0x4F4E414E, (0x10001000, (SLOT + 256, (blen demo_code,
      (SLOT + 257, (SLOT + 259, (sha256 demo_code, tt)))))))))))
  ++ zeros 192 ++ demo_code.

Lemma resident_block_bound_witness :
  checked_resident_bytes (concat demo_resident_blocks) = Ok demo_resident_blocks /\
  1 <= blen demo_resident_blocks <= 8192.
Proof.
  assert (H : checked_resident_bytes (concat demo_resident_blocks) = Ok demo_resident_blocks)
    by (vm_compute; reflexivity).
  split; [exact H | exact (resident_block_bound _ _ H)].
Defined.

Lemma composite_correct_witness : exists image final,
  composite demo_resident_blocks demo_capsule = Ok image /\ image = concat final /\ blen final = 4.
Proof.
  destruct (composite_correct (concat demo_resident_blocks) demo_resident_blocks demo_capsule 0x10001000)
    as (image & final & H1 & H2 & _ & H3 & _); [vm_compute; reflexivity..|].
  exists image, final. split; [exact H1|]. split; [exact H2|]. rewrite H3. vm_compute. reflexivity.
Defined.
