(* ===== verification/ComposeInitial.v ===== *)
(** * experiments/managed_sketch/compose_initial.py

    The offline composer: pinned inputs, one resident, one capsule, one fully
    initialised 4 KiB managed sector. *)

From stdpp Require Import base tactics list list_numbers strings.
From Stdlib Require Import ZArith Lia Strings.Byte.
From S2P Require Import Prelude.
From S2P Require Import PyBytes.
From S2P Require Import Sha256.
From S2P Require Import PyText.
From S2P Require Import BuildComposite.

Local Open Scope Z_scope.

Definition SECTOR_BYTES : Z := 4096.

(** [contents] is the file behind [path]; at most [maximum + 1] bytes of it are read. *)
Definition pinned_bytes (contents : bytes) (expected : string) (maximum : Z) : result bytes :=
  raise_when (negb (fullmatch is_hex_lower 64 expected))
    (ValueError "expected SHA-256 must be 64 lowercase hexadecimal digits");;
  let data := slice 0 (maximum + 1) contents in
  raise_when ((maximum <? blen data) || negb (bool_decide (sha data = expected)))
    (ValueError "input size or independently selected SHA-256 differs");;
  Ok data.

Definition compose (resident capsule : bytes) (expected_api : Z) : result bytes :=
  blocks ← checked_resident_bytes resident;
  raise_when (SECTOR_BYTES <? blen capsule)
    (ValueError "capsule exceeds the resident's 4096-byte upload limit");;
  api ← checked_capsule capsule;
  raise_when (negb (api =? expected_api))
    (ValueError "capsule does not bind the selected resident API address");;
  let sector := capsule ++ fill "255"%byte (SECTOR_BYTES - blen capsule) in
  let total := blen blocks + SECTOR_BYTES / 256 in
  numbered ← renumber total blocks;
  final ← foldM (append_block total sector) numbered (range 0 SECTOR_BYTES 256);
  Ok (concat final).

(** ** Lemmas *)
Lemma slot_writes_payloads padded : concat (snd <$> slot_writes padded) = padded.
Proof.
  unfold slot_writes. rewrite <- list_fmap_compose.
  rewrite (list_fmap_ext _ (fun i => slice i (i + 256) padded) _) by done.
  by apply (pieces_concat 256).
Qed.

Lemma compose_succeeds resident blocks capsule api :
  valid_resident resident blocks -> valid_capsule capsule api -> blen capsule <= SECTOR_BYTES ->
  exists final, compose resident capsule api = Ok (concat final) /\ uf2_image final /\
    blen final = blen blocks + 16 /\
    flash_writes (concat final) =
      flash_writes resident ++ slot_writes (capsule ++ fill "255"%byte (SECTOR_BYTES - blen capsule)).
Proof.
  intros Hr Hc Hs. unfold SECTOR_BYTES in *.
  pose proof (proj2 (checked_resident_bytes_iff _ _) Hr) as Hr'.
  pose proof (proj2 (checked_capsule_iff _ _) Hc) as Hc'.
  pose proof (resident_blocks_le _ _ Hr').
  destruct Hr as [<- _ Hu _ _]. set (sector := capsule ++ _).
  assert (Hl : blen sector = 256 * 16).
  { unfold sector. rewrite blen_app, blen_fill; lia. }
  destruct (compose_core (append_block (blen blocks + 16) sector) blocks sector (blen blocks + 16) 16)
    as (final & Hf & Hfu & Hfl & Hw); [done|done|lia|done|lia|done|done|].
  exists final. split; [|done]. unfold compose. rewrite Hr'. run_ok.
  unfold SECTOR_BYTES. rewrite (proj2 (Z.ltb_ge _ _)) by lia. run_ok. rewrite Hc'. run_ok.
  rewrite Z.eqb_refl. cbn [negb]. run_ok. fold sector. rewrite Hl in Hf.
  change (256 * 16) with 4096 in Hf. change (4096 / 256) with 16.
  apply bind_Ok in Hf as (res & Hres & Hf). rewrite Hres. run_ok. by rewrite Hf.
Qed.

Lemma compose_inv resident capsule api image :
  compose resident capsule api = Ok image ->
  exists blocks, valid_resident resident blocks /\ valid_capsule capsule api /\
    blen capsule <= SECTOR_BYTES.
Proof.
  unfold compose. intros (blocks & Hb & H)%bind_Ok. apply raise_when_bind in H as [Hs H].
  apply bind_Ok in H as (a & Hc & H). apply raise_when_bind in H as [Ha _]. breflect. subst a.
  exists blocks. by rewrite <- checked_resident_bytes_iff, <- checked_capsule_iff.
Qed.

(** ** Properties *)

(** [pinned_bytes] returns the whole file exactly when it is within the bound and has the
    selected SHA-256; nothing else is ever returned. *)
Theorem pinned_bytes_correct contents expected maximum data :
  0 <= maximum ->
  pinned_bytes contents expected maximum = Ok data <->
  data = contents /\ blen contents <= maximum /\ sha contents = expected.
Proof.
  intros Hm. unfold pinned_bytes. rewrite !raise_when_bind, Ok_Ok. breflect_goal.
  assert (Hs : blen (slice 0 (maximum + 1) contents) <= maximum ->
    slice 0 (maximum + 1) contents = contents).
  { unfold slice, blen. rewrite drop_0, length_take. intros. apply take_ge. lia. }
  split.
  - intros (_ & [Hl Hh] & <-). rewrite Hs in * by done. done.
  - intros (-> & Hl & <-). split; [apply sha_fullmatch|].
    assert (E : slice 0 (maximum + 1) contents = contents).
    { unfold slice, blen in *. rewrite drop_0. apply take_ge. lia. }
    by rewrite E.
Qed.

(** [compose] succeeds exactly on a well-formed resident and a well-formed capsule of at most
    one sector that binds the selected API address. *)
Theorem compose_accepts resident capsule api :
  is_ok (compose resident capsule api) = true <->
  (exists blocks, valid_resident resident blocks) /\ valid_capsule capsule api /\
  blen capsule <= SECTOR_BYTES.
Proof.
  split.
  - destruct (compose resident capsule api) as [image|] eqn:H; [|done]. intros _.
    apply compose_inv in H as (blocks & ? & ? & ?). eauto.
  - intros ([blocks Hb] & Hc & Hs).
    by destruct (compose_succeeds _ _ _ _ Hb Hc Hs) as (final & -> & _).
Qed.

(** The image [compose] returns is a consecutively numbered UF2 that writes all resident pages
    unchanged and then 16 pages from the start of the sketch slot, whose contents read back as the
    capsule followed by 0xff. *)
Theorem compose_image resident capsule api image :
  compose resident capsule api = Ok image ->
  exists final sector, image = concat final /\ uf2_image final /\
    blen final = blen resident / 512 + 16 /\
    flash_writes image = flash_writes resident ++ slot_writes sector /\
    concat (snd <$> slot_writes sector) = capsule ++ fill "255"%byte (SECTOR_BYTES - blen capsule).
Proof.
  intros H. pose proof H as (blocks & Hb & Hc & Hs)%compose_inv.
  destruct (compose_succeeds _ _ _ _ Hb Hc Hs) as (final & Hf & Hu & Hl & Hw).
  rewrite H in Hf. injection Hf as ->. exists final. eexists. split_and!; [done..| |exact Hw|].
  - destruct Hb as [<- _ Hi _ _]. rewrite (blen_image blocks) by done. rewrite Z.div_mul by done. done.
  - apply slot_writes_payloads.
Qed.

(** ** A concrete composition *)
Lemma pinned_bytes_correct_witness :
  pinned_bytes demo_capsule (sha demo_capsule) 4096 = Ok demo_capsule.
Proof.
  apply (pinned_bytes_correct demo_capsule (sha demo_capsule) 4096); [lia|].
  split_and!; [reflexivity | vm_compute; discriminate | reflexivity].
Defined.

Lemma compose_image_witness : exists image final,
  compose (concat demo_resident_blocks) demo_capsule 0x10001000 = Ok image /\
  image = concat final /\ blen final = 18.
Proof.
  destruct (compose (concat demo_resident_blocks) demo_capsule 0x10001000) as [image|] eqn:E;
    [|vm_compute in E; discriminate E].
  destruct (compose_image _ _ _ _ E) as (final & sector & H1 & _ & H2 & _).
  exists image, final. split; [reflexivity|]. split; [exact H1|]. rewrite H2. vm_compute. reflexivity.
Defined.
