(* ===== verification/BuildModule.v ===== *)
(** * experiments/managed_sketch/build_module.py

    The FMS1 capsule writer: the part of [main] after the compiler and linker have
    produced the code bytes and the two entry symbols, which are its arguments. *)

From stdpp Require Import base tactics list list_numbers strings.
From Stdlib Require Import ZArith Lia Strings.Byte.
From S2P Require Import Prelude.
From S2P Require Import PyBytes.
From S2P Require Import Sha256.
From S2P Require Import BuildComposite.
From S2P Require Import ComposeInitial.

Local Open Scope Z_scope.

Definition CODE_ADDRESS : Z := 0x10200100.
Definition SLOT_BYTES : Z := 4 * 1024 * 1024.
Definition NANO_TAG : Z := 0x4F4E414E.

(** ["<4sHHIIIIII32s"] *)
Definition capsule_header : list field := [FS 4; u16; u16; u32; u32; u32; u32; u32; u32; FS 32].

(** The API table address check; [parser.error] exits. *)
Definition check_api_address (api_address : Z) : result unit :=
  raise_when (negb ((0x10000000 <=? api_address) && (api_address <? 0x10200000))
              || negb (api_address mod 4 =? 0))
    (Exn KSystemExit "resident API table is outside aligned resident flash").

(** The size check after the link *)
Definition check_code_size (code : bytes) : result unit :=
  raise_when ((blen code =? 0) || (Z.min SLOT_BYTES 4096 - 256 <? blen code))
    (RuntimeError "module size exceeds the 4 KiB install capsule limit").

(** Header, padding and code, with both entries inside the code *)
Definition pack_capsule (api_address : Z) (code : bytes) (setup loop : Z) : result bytes :=
  for_each (fun address =>
    raise_when (negb ((CODE_ADDRESS <=? clear_thumb address)
                      && (clear_thumb address <? CODE_ADDRESS + blen code)))
      (RuntimeError "address is outside generated code")) [setup; loop];;
  header ← pack LE capsule_header
    (ascii "FMS1", (1, (64, (NANO_TAG, (api_address, (CODE_ADDRESS, (blen code, (setup, (loop,
      (sha256 code, tt))))))))));
  raise_when (negb (blen header =? 64)) (AssertionError "");;
  Ok (header ++ zeros (256 - blen header) ++ code).

Definition assemble_capsule (api_address : Z) (code : bytes) (setup_symbol loop_symbol : Z)
    : result bytes :=
  check_code_size code;;
  pack_capsule api_address code (Z.lor setup_symbol 1) (Z.lor loop_symbol 1).

(** ** Lemmas *)
Lemma assembled_entry (code : bytes) symbol :
  raise_when (negb ((CODE_ADDRESS <=? clear_thumb (Z.lor symbol 1))
                    && (clear_thumb (Z.lor symbol 1) <? CODE_ADDRESS + blen code)))
      (RuntimeError "address is outside generated code") = Ok tt
  <-> thumb_entry (SLOT + 256) (blen code) (Z.lor symbol 1).
Proof.
  rewrite raise_when_Ok, clear_thumb_lor_1. breflect_goal.
  unfold thumb_entry. rewrite odd_lor_1. change CODE_ADDRESS with (SLOT + 256). naive_solver.
Qed.

(** The layout of header, padding and code read back by the field accessors. *)
Lemma capsule_layout api (code : bytes) setup loop :
  0x10000000 <= api < 0x10200000 /\ api mod 4 = 0 -> 1 <= blen code <= 4096 - 256 ->
  thumb_entry (SLOT + 256) (blen code) setup -> thumb_entry (SLOT + 256) (blen code) loop ->
  exists header, pack LE capsule_header
    (ascii "FMS1", (1, (64, (NANO_TAG, (api, (CODE_ADDRESS, (blen code, (setup, (loop,
      (sha256 code, tt)))))))))) = Ok header /\ length header = 64%nat /\
    valid_capsule (header ++ zeros 192 ++ code) api.
Proof.
  unfold thumb_entry, SLOT. intros Ha Hc Hs Hl.
  destruct (pack_exact LE capsule_header (ascii "FMS1", (1, (64, (NANO_TAG, (api, (CODE_ADDRESS,
    (blen code, (setup, (loop, (sha256 code, tt))))))))))) as (header & Hp & Hh & Hu).
  { unfold CODE_ADDRESS, NANO_TAG. simpl. lia. }
  exists header. split; [done|]. split; [done|]. change (calcsize capsule_header) with 64%nat in Hh.
  specialize (Hu (zeros 192 ++ code)). set (c := header ++ zeros 192 ++ code) in *.
  assert (Hbl : blen c = blen code + 256).
  { unfold c. rewrite !blen_app. rewrite blen_zeros by lia. unfold blen. lia. }
  assert (Hu' : unpack LE capsule_header c = (take 4 c, (half 4 c, (half 6 c, (word 8 c,
    (word 12 c, (word 16 c, (word 20 c, (word 24 c, (word 28 c, (take 32 (drop 32 c), tt))))))))))).
  { unfold word, half. cbv [unpack capsule_header fdecode fsize int_val]. by rewrite !drop_drop. }
  rewrite Hu' in Hu. injection Hu as ? ? ? ? ? ? ? ? ? Hd.
  assert (Hz : length (zeros 192) = 192%nat) by done.
  constructor; rewrite ?Hbl; unfold thumb_entry, SLOT_END, SLOT; try first [done | lia].
  - rewrite H6. split; [tauto|lia].
  - rewrite H7. split; [tauto|lia].
  - change (slice 32 64 c) with (take 32 (drop 32 c)). rewrite Hd. unfold c. rewrite app_assoc, drop_app_length'; [done|].
    rewrite length_app, Hh, Hz. done.
  - unfold slice, c. rewrite drop_app_length' by (rewrite Hh; done).
    by rewrite take_app_length' by (rewrite Hz; done).
Qed.

Lemma assembled_capsule api code setup_symbol loop_symbol capsule :
  check_api_address api = Ok tt ->
  assemble_capsule api code setup_symbol loop_symbol = Ok capsule ->
  checked_capsule capsule = Ok api /\ blen capsule <= SECTOR_BYTES /\ drop 256 capsule = code.
Proof.
  unfold check_api_address, assemble_capsule, check_code_size, pack_capsule.
  intros Ha. rewrite raise_when_bind, bind_unit, for_each_2, !assembled_entry.
  intros (Hl & [Hs Hlp] & (header & Hp & H)%bind_Ok).
  apply raise_when_Ok in Ha. repeat (progress breflect_in Ha). repeat (progress breflect_in Hl).
  change (Z.min SLOT_BYTES 4096) with 4096 in Hl. pose proof (blen_nonneg code).
  destruct (capsule_layout api code (Z.lor setup_symbol 1) (Z.lor loop_symbol 1))
    as (h & Hp' & Hh & Hv); [tauto|lia|done|done|].
  rewrite Hp in Hp'. injection Hp' as ->.
  assert (Hb : blen h = 64) by (unfold blen; lia). rewrite Hb in H.
  apply raise_when_bind in H as [_ <-%Ok_Ok]. change (256 - 64) with 192. split_and!.
  - by apply checked_capsule_iff.
  - rewrite !blen_app, Hb. unfold SECTOR_BYTES. rewrite blen_zeros by lia. lia.
  - rewrite app_assoc, drop_app_length'; [done|].
    rewrite length_app, Hh. done.
Qed.

(** ** Properties *)

(** A capsule is assembled exactly when the code fits the install limit and both entry symbols
    lie in it; the capsule then passes the composer's own gate with the API address it was built
    for, carries the code unchanged, and fits one managed sector. *)
Theorem assemble_capsule_accepted api code setup_symbol loop_symbol capsule :
  check_api_address api = Ok tt ->
  assemble_capsule api code setup_symbol loop_symbol = Ok capsule ->
  checked_capsule capsule = Ok api /\ blen capsule <= SECTOR_BYTES /\ drop 256 capsule = code.
Proof. apply assembled_capsule. Qed.

(** Assembly succeeds on every code of 1 to 3840 bytes with both entry symbols inside it: no
    header field overflows its width and the header assertion never fails. *)
Theorem assemble_capsule_total api code setup_symbol loop_symbol :
  check_api_address api = Ok tt -> 1 <= blen code <= 3840 ->
  CODE_ADDRESS <= Z.lor setup_symbol 1 - 1 < CODE_ADDRESS + blen code ->
  CODE_ADDRESS <= Z.lor loop_symbol 1 - 1 < CODE_ADDRESS + blen code ->
  is_ok (assemble_capsule api code setup_symbol loop_symbol) = true.
Proof.
  unfold check_api_address, assemble_capsule, check_code_size, pack_capsule. rewrite raise_when_Ok. breflect_goal.
  intros Ha Hc Hs Hl. unfold blen in Ha.
  destruct (capsule_layout api code (Z.lor setup_symbol 1) (Z.lor loop_symbol 1))
    as (h & Hp & Hh & _); [tauto|lia|by split; [apply odd_lor_1|]..|].
  rewrite (proj2 (raise_when_Ok _ _ tt)) by
    (breflect_goal; change (Z.min SLOT_BYTES 4096) with 4096; lia). run_ok.
  rewrite (proj2 (for_each_2 _ _ _)) by
    (rewrite !assembled_entry; split; split; [apply odd_lor_1|done|apply odd_lor_1|done]).
  run_ok. rewrite Hp. run_ok. assert (Hb : blen h = 64) by (unfold blen; lia). rewrite Hb. done.
Qed.

(** ** A concrete capsule *)
Lemma assemble_capsule_accepted_witness :
  exists capsule, assemble_capsule 0x10001000 demo_code CODE_ADDRESS (CODE_ADDRESS + 2) = Ok capsule /\
    checked_capsule capsule = Ok 0x10001000.
Proof.
  destruct (assemble_capsule 0x10001000 demo_code CODE_ADDRESS (CODE_ADDRESS + 2)) as [c|] eqn:E;
    [|vm_compute in E; discriminate E].
  exists c. split; [reflexivity|].
  apply (assemble_capsule_accepted 0x10001000 demo_code CODE_ADDRESS (CODE_ADDRESS + 2));
    [reflexivity | exact E].
Defined.

Lemma assemble_capsule_total_witness :
  is_ok (assemble_capsule 0x10001000 demo_code CODE_ADDRESS (CODE_ADDRESS + 2)) = true.
Proof.
  apply assemble_capsule_total; [reflexivity | ..]; vm_compute; split;
    first [discriminate | reflexivity].
Defined.
