(* ===== verification/FirmwareImage.v ===== *)
(** * experiments/managed_sketch/image.cpp and stateful_image.cpp

    The validators that run on the board, modelled so that the host tools can be
    related to them: FMS1 [validate_image], and the FMS2 [validate_image] of the
    stateful namespace with its contract check. Integers are 32-bit words of the
    capsule; where the C++ adds or subtracts them the wrap-around is written out. *)

From stdpp Require Import base tactics list list_numbers strings.
From Stdlib Require Import ZArith Lia Strings.Byte.
From S2P Require Import Prelude.
From S2P Require Import PyBytes.
From S2P Require Import Sha256.
From S2P Require Import BuildComposite.

Local Open Scope Z_scope.

Definition kNanoBoardTag : Z := 0x4f4e414e.
Definition kAbiVersion : Z := 1.
Definition kSlotAddress : Z := 0x10200000.
Definition kSlotBytes : Z := 4 * 1024 * 1024.
Definition kCodeOffset : Z := 256.
Definition kHeaderBytes : Z := 64.

Inductive ImageError :=
| image_ok | short_header | bad_magic | unsupported_abi | bad_header_size | wrong_board | wrong_api
| wrong_code_address | bad_size | bad_entry | nonzero_padding | short_image | hash_mismatch.

Record ImageInfo := { code_bytes : Z; setup_address : Z; loop_address : Z }.

(** [a - b] and [a + b] on [std::uint32_t] *)
Definition sub_u32 (a b : Z) : Z := (a - b) mod 2 ^ 32.
Definition add_u32 (a b : Z) : Z := (a + b) mod 2 ^ 32.

(** [address & ~std::uint32_t(1)] *)
Definition instruction (address : Z) : Z := Z.land address 0xfffffffe.

Definition entry_in_code (address code_start bytes : Z) : bool :=
  if Z.land address 1 =? 0 then false
  else (code_start <=? instruction address) && (sub_u32 (instruction address) code_start <? bytes).

(** [for i in [from, to): if (image[i]) return error] *)
Definition any_nonzero (image : bytes) (from to : Z) : bool := existsb nonzero_byte (slice from to image).

(** [return error;] when [c] holds *)
Definition reject {E A} (c : bool) (error : E) (k : E * option A) : E * option A :=
  if c then (error, None) else k.

Definition validate_image (image : bytes) (expected_api_address : Z) : ImageError * option ImageInfo :=
  let available := blen image in
  reject (available <? kCodeOffset) short_header (
  reject (negb (bool_decide (take 4 image = ascii "FMS1"))) bad_magic (
  reject (negb (half 4 image =? kAbiVersion)) unsupported_abi (
  reject (negb (half 6 image =? kHeaderBytes)) bad_header_size (
  reject (negb (word 8 image =? kNanoBoardTag)) wrong_board (
  reject (negb (word 12 image =? expected_api_address)) wrong_api (
  let code_address := add_u32 kSlotAddress kCodeOffset in
  reject (negb (word 16 image =? code_address)) wrong_code_address (
  let code := word 20 image in
  reject ((code =? 0) || (kSlotBytes - kCodeOffset <? code)) bad_size (
  let setup := word 24 image in
  let loop := word 28 image in
  reject (negb (entry_in_code setup code_address code) || negb (entry_in_code loop code_address code))
    bad_entry (
  reject (any_nonzero image kHeaderBytes kCodeOffset) nonzero_padding (
  reject (available - kCodeOffset <? code) short_image (
  let digest := sha256 (slice kCodeOffset (kCodeOffset + code) image) in
  reject (negb (bool_decide (digest = slice 32 64 image))) hash_mismatch
    (image_ok, Some {| code_bytes := code; setup_address := setup; loop_address := loop |})))))))))))).

(** ** stateful_image.cpp *)
Definition kImageVersion : Z := 2.
Definition kStatefulHeaderBytes : Z := 128.
Definition kMaximumCapsuleBytes : Z := 4096.

Record Contract := {
  api_address : Z; state_address : Z; state_capacity_bytes : Z; maximum_capsule_bytes : Z }.

Inductive Error :=
| ok | invalid_contract | s_short_header | s_bad_magic | unsupported_version | s_bad_header_size
| s_wrong_board | s_wrong_api | s_wrong_code_address | bad_code_size | s_bad_entry | bad_data_layout
| bad_state_layout | bad_image_size | nonzero_reserved | header_hash_mismatch | payload_hash_mismatch
| wrong_arena | overlapping_storage | active_generation | bad_generation.

Record StatefulInfo := {
  s_image_bytes : Z; s_code_bytes : Z; s_setup_address : Z; s_loop_address : Z;
  s_data_load_offset : Z; s_data_bytes : Z; s_bss_bytes : Z }.

Definition valid_contract (c : Contract) : bool :=
  let start := 0x20000000 in
  let end_ := 0x20040000 in
  (0x10000000 <=? api_address c) && (api_address c <? kSlotAddress) && (api_address c mod 4 =? 0)
  && (start <=? state_address c) && (state_address c <? end_) && (state_address c mod 4 =? 0)
  && (0 <? state_capacity_bytes c) && (state_capacity_bytes c mod 4 =? 0)
  && (state_capacity_bytes c <=? sub_u32 end_ (state_address c))
  && (kCodeOffset + 4 <=? maximum_capsule_bytes c)
  && (maximum_capsule_bytes c <=? kMaximumCapsuleBytes).

Definition entry (address bytes : Z) : bool :=
  let base := add_u32 kSlotAddress kCodeOffset in
  negb (Z.land address 1 =? 0) && (base <=? instruction address)
  && (sub_u32 (instruction address) base <? bytes)
  && (2 <=? sub_u32 bytes (sub_u32 (instruction address) base)).

Definition hash_matches (data expected : bytes) : bool := bool_decide (sha256 data = expected).

Definition validate_stateful (image : bytes) (contract : Contract) : Error * option StatefulInfo :=
  let size := blen image in
  let maximum := maximum_capsule_bytes contract in
  reject (negb (valid_contract contract)) invalid_contract (
  reject (size <? kCodeOffset) s_short_header (
  reject (maximum <? size) bad_image_size (
  reject (negb (bool_decide (take 4 image = ascii "FMS2"))) s_bad_magic (
  reject (negb (half 4 image =? kImageVersion)) unsupported_version (
  reject (negb (half 6 image =? kStatefulHeaderBytes)) s_bad_header_size (
  reject (negb (word 8 image =? kNanoBoardTag)) s_wrong_board (
  reject (negb (word 12 image =? api_address contract)) s_wrong_api (
  reject (negb (word 16 image =? add_u32 kSlotAddress kCodeOffset)) s_wrong_code_address (
  let code := word 20 image in
  reject ((code =? 0) || negb (code mod 4 =? 0) || (sub_u32 maximum kCodeOffset <? code)) bad_code_size (
  let setup := word 24 image in
  let loop := word 28 image in
  reject (negb (entry setup code) || negb (entry loop code)) s_bad_entry (
  let data := word 36 image in
  let bss := word 44 image in
  reject (negb (word 32 image =? state_address contract) || negb (data mod 4 =? 0)
          || negb (bss mod 4 =? 0) || (state_capacity_bytes contract <? data)
          || (sub_u32 (state_capacity_bytes contract) data <? bss)
          || negb (word 40 image =? add_u32 (state_address contract) data)) bad_state_layout (
  let load := add_u32 kCodeOffset code in
  reject (negb (word 48 image =? load) || (sub_u32 maximum load <? data)) bad_data_layout (
  let total := add_u32 load data in
  reject (negb (word 52 image =? total) || negb (size =? total)) bad_image_size (
  reject (negb (word 56 image =? 0) || negb (word 60 image =? 0)) nonzero_reserved (
  reject (any_nonzero image kStatefulHeaderBytes kCodeOffset) nonzero_reserved (
  reject (negb (hash_matches (slice 0 96 image) (slice 96 128 image))) header_hash_mismatch (
  reject (negb (hash_matches (slice kCodeOffset total image) (slice 64 96 image))) payload_hash_mismatch
    (ok, Some {| s_image_bytes := total; s_code_bytes := code; s_setup_address := setup;
                 s_loop_address := loop; s_data_load_offset := load; s_data_bytes := data;
                 s_bss_bytes := bss |})))))))))))))))))).

(** ** Lemmas *)
Lemma reject_Some {E A} c (e : E) (k : E * option A) e' (i : A) :
  reject c e k = (e', Some i) <-> c = false /\ k = (e', Some i).
Proof. destruct c; simpl; naive_solver. Qed.

Lemma instruction_clear address : 0 <= address < 2 ^ 32 -> instruction address = clear_thumb address.
Proof.
  intros Ha. unfold instruction, clear_thumb.
  replace address with (Z.land address (Z.ones 32)) at 2
    by (rewrite Z.land_ones, Z.mod_small by lia; done).
  rewrite <- Z.land_assoc. f_equal.
Qed.

Lemma sub_u32_small a b : 0 <= b <= a -> a < 2 ^ 32 -> sub_u32 a b = a - b.
Proof. intros. unfold sub_u32. apply Z.mod_small. lia. Qed.

Lemma add_u32_small a b : 0 <= a -> 0 <= b -> a + b < 2 ^ 32 -> add_u32 a b = a + b.
Proof. intros. unfold add_u32. apply Z.mod_small. lia. Qed.

Lemma land_1_zero a : (Z.land a 1 =? 0) = negb (Z.odd a).
Proof. rewrite land_1_odd. by destruct (Z.odd a). Qed.

Lemma instruction_odd address :
  0 <= address < 2 ^ 32 -> Z.odd address = true -> instruction address = address - 1.
Proof. intros H Ho. rewrite instruction_clear by done. unfold clear_thumb. by rewrite land_lnot_1, Ho. Qed.

Lemma entry_in_code_spec address start n :
  0 <= address < 2 ^ 32 -> 0 <= start ->
  entry_in_code address start n = true <-> thumb_entry start n address.
Proof.
  intros Ha Hs. unfold entry_in_code, thumb_entry. rewrite land_1_zero.
  destruct (Z.odd address) eqn:E; simpl; [|naive_solver].
  rewrite instruction_odd by done. breflect_goal. split.
  - intros [H1 H2]. rewrite sub_u32_small in H2 by lia. lia.
  - intros [_ H]. rewrite sub_u32_small by lia. lia.
Qed.

(** ** Properties *)

(** C3: The host gate and the firmware validator agree: [checked_capsule] accepts a capsule for an
    API address exactly when the address lies in resident flash, the board's [validate_image] accepts
    the capsule for it, and no byte trails the code the header declares. *)
Theorem checked_capsule_agrees_with_firmware data api :
  checked_capsule data = Ok api <->
  (0x10000000 <= api < 0x10200000 /\ api mod 4 = 0) /\ blen data = word 20 data + 256 /\
  validate_image data api = (image_ok, Some {| code_bytes := word 20 data;
    setup_address := word 24 data; loop_address := word 28 data |}).
Proof.
  rewrite checked_capsule_iff. unfold validate_image. rewrite !reject_Some. breflect_goal.
  rewrite !entry_in_code_spec by first [apply word_range | done].
  unfold any_nonzero. split.
  - intros [Hs ? ? ? ? Ha ? ? Hn ? ? Hd Hz]. rewrite Hn.
    unfold kCodeOffset, kSlotBytes, kHeaderBytes, SLOT_END, SLOT in *.
    rewrite Hz, Z.add_sub_assoc, Z.add_sub_swap, Z.sub_diag, Z.add_0_l, slice_to_end by lia.
    split_and!; first [done | lia | by vm_compute].
  - intros (Ha & Hn & ? & ? & ? & ? & ? & Hw & ? & [? ?] & [He1 He2] & Hz & ? & Hd & _).
    unfold kCodeOffset, kSlotBytes, kHeaderBytes in *.
    apply existsb_zero in Hz. rewrite blen_slice in Hz by lia.
    rewrite <- (Z.add_comm _ 256), <- Hn, slice_to_end in Hd by lia.
    assert (Hb : word 20 data = blen data - 256) by lia. rewrite Hb in He1, He2.
    constructor; unfold SLOT_END, SLOT; first [done | lia].
Qed.

(** ** A concrete capsule at the validator *)
Lemma checked_capsule_agrees_with_firmware_witness :
  (validate_image demo_capsule 0x10001000).1 = image_ok.
Proof.
  destruct (proj1 (checked_capsule_agrees_with_firmware demo_capsule 0x10001000)) as (_ & _ & H);
    [vm_compute; reflexivity|].
  rewrite H. reflexivity.
Defined.
