(* ===== verification/Elf.v ===== *)
(** * ELF32: the tables both readers walk

    [export_resident.resident_elf] and [build_stateful_proof.Elf] read the same
    structures: section and program headers, symbol tables and NUL-terminated
    names. Their formats, the bounded reads and the lemmas on them are here. *)

From stdpp Require Import base tactics list list_numbers strings.
From Stdlib Require Import ZArith Lia Strings.Byte.
From S2P Require Import Prelude.
From S2P Require Import PyBytes.

Local Open Scope Z_scope.

(** ["<16sHHIIIIIHHHHHH"], ["<10I"], ["<8I"] and ["<IIIBBH"] *)
Definition ehdr_fields : list field :=
  [FS 16; u16; u16; u32; u32; u32; u32; u32; u16; u16; u16; u16; u16; u16].
Definition shdr_fields : list field := [u32; u32; u32; u32; u32; u32; u32; u32; u32; u32].
Definition phdr_fields : list field := [u32; u32; u32; u32; u32; u32; u32; u32].
Definition sym_fields : list field := [u32; u32; u32; u8; u8; u16].

(** The section header tuple; the code reads it by position 0 to 9. *)
Record section := {
  sh_name : Z; sh_type : Z; sh_flags : Z; sh_addr : Z; sh_offset : Z;
  sh_size : Z; sh_link : Z; sh_info : Z; sh_addralign : Z; sh_entsize : Z }.

(** The program header tuple *)
Record segment := {
  p_type : Z; p_offset : Z; p_vaddr : Z; p_paddr : Z;
  p_filesz : Z; p_memsz : Z; p_flags : Z; p_align : Z }.

(** A symbol table row: name offset, address, size, info, other, section index *)
Record sym := { st_name : Z; st_value : Z; st_size : Z; st_info : Z; st_other : Z; st_shndx : Z }.

#[export] Instance section_eq_dec : EqDecision section.
Proof. solve_decision. Defined.

Definition read_section (data : bytes) (off : Z) : result section :=
  ' (a, (b, (c, (d, (e, (f, (g, (h, (i, (j, _)))))))))) ← unpack_from LE shdr_fields data off;
  Ok {| sh_name := a; sh_type := b; sh_flags := c; sh_addr := d; sh_offset := e;
        sh_size := f; sh_link := g; sh_info := h; sh_addralign := i; sh_entsize := j |}.

Definition read_segment (data : bytes) (off : Z) : result segment :=
  ' (a, (b, (c, (d, (e, (f, (g, (h, _)))))))) ← unpack_from LE phdr_fields data off;
  Ok {| p_type := a; p_offset := b; p_vaddr := c; p_paddr := d;
        p_filesz := e; p_memsz := f; p_flags := g; p_align := h |}.

Definition read_sym (table : bytes) (off : Z) : result sym :=
  ' (a, (b, (c, (d, (e, (f, _)))))) ← unpack_from LE sym_fields table off;
  Ok {| st_name := a; st_value := b; st_size := c; st_info := d; st_other := e; st_shndx := f |}.

(** The two header tables *)
Definition read_sections (data : bytes) (shoff shcount : Z) : result (list section) :=
  mapM (fun i => read_section data (shoff + i * 40)) (seqZ 0 shcount).
Definition read_segments (data : bytes) (phoff phcount : Z) : result (list segment) :=
  mapM (fun i => read_segment data (phoff + i * 32)) (seqZ 0 phcount).

(** The bounded slice, with the reader's own message *)
Definition extent (message : string) (data : bytes) (offset count : Z) : result bytes :=
  raise_when (negb ((0 <=? offset) && (offset <=? blen data))
              || negb ((0 <=? count) && (count <=? blen data - offset)))
    (ValueError message);;
  Ok (slice offset (offset + count) data).

(** [data.find(b"\0", start)] for [0 <= start], and -1 when there is none *)
Fixpoint zero_index (l : bytes) : option Z :=
  match l with
  | [] => None
  | b :: l => if b2z b =? 0 then Some 0 else Z.succ <$> zero_index l
  end.

Definition find_zero (data : bytes) (start : Z) : Z :=
  match zero_index (drop (Z.to_nat start) data) with Some i => start + i | None => -1 end.

(** [l[index]] for a nonnegative index *)
Definition nth_item {A} (l : list A) (index : Z) : result A :=
  some_or (l !! Z.to_nat index) (IndexError "list index out of range").

(** The bytes a list of LOAD segments puts at an address. *)
Definition load_at (flash : list (Z * bytes)) (a : Z) (b : byte) : Prop :=
  exists base payload, (base, payload) ∈ flash /\ base <= a /\ payload !! Z.to_nat (a - base) = Some b.

(** ** Lemmas *)
Lemma extent_Ok m data o c b :
  extent m data o c = Ok b <->
  0 <= o /\ 0 <= c /\ o + c <= blen data /\ b = slice o (o + c) data.
Proof. unfold extent. rewrite raise_when_bind, Ok_Ok. breflect_goal. naive_solver lia. Qed.

Lemma extent_blen m data o c b : extent m data o c = Ok b -> blen b = c.
Proof. intros (?&?&?&->)%extent_Ok. rewrite blen_slice; lia. Qed.

Lemma extent_raises m data o c : ValueError_only (extent m data o c).
Proof. unfold extent. apply raises_bind; [by apply raises_when|intros; apply raises_ok]. Qed.

Lemma read_section_in_bounds P data off :
  0 <= off -> off + 40 <= blen data -> raises P (read_section data off).
Proof.
  intros. unfold read_section. rewrite unpack_from_in_bounds by (simpl; lia). simpl. apply raises_ok.
Qed.

Lemma read_segment_in_bounds P data off :
  0 <= off -> off + 32 <= blen data -> raises P (read_segment data off).
Proof.
  intros. unfold read_segment. rewrite unpack_from_in_bounds by (simpl; lia). simpl. apply raises_ok.
Qed.

Lemma read_sym_in_bounds P data off :
  0 <= off -> off + 16 <= blen data -> raises P (read_sym data off).
Proof.
  intros. unfold read_sym. rewrite unpack_from_in_bounds by (simpl; lia). simpl. apply raises_ok.
Qed.

Lemma read_sections_raises P data shoff n :
  0 <= shoff -> shoff + n * 40 <= blen data -> raises P (read_sections data shoff n).
Proof.
  intros. apply raises_mapM. intros i Hi%elem_of_seqZ. apply read_section_in_bounds; lia.
Qed.

Lemma read_segments_raises P data phoff n :
  0 <= phoff -> phoff + n * 32 <= blen data -> raises P (read_segments data phoff n).
Proof.
  intros. apply raises_mapM. intros i Hi%elem_of_seqZ. apply read_segment_in_bounds; lia.
Qed.

Lemma read_sections_length data shoff n l :
  0 <= n -> read_sections data shoff n = Ok l -> blen l = n.
Proof.
  intros Hn H%mapM_Ok. apply Forall2_length in H. rewrite length_seqZ in H. unfold blen. lia.
Qed.

(** Every field of a header read from a file is an unsigned 32-bit word. *)
Definition u32_word (z : Z) : Prop := 0 <= z < 2 ^ 32.
Definition section_words (s : section) : Prop :=
  u32_word (sh_addr s) /\ u32_word (sh_offset s) /\ u32_word (sh_size s).

Lemma read_section_words data off s : read_section data off = Ok s -> section_words s.
Proof.
  unfold read_section. intros (v & (H0 & H1 & ->)%(unpack_from_Ok LE shdr_fields) & H)%bind_Ok.
  pose proof (unpack_is_exact LE shdr_fields (drop (Z.to_nat off) data)) as Hx.
  rewrite length_drop in Hx. unfold blen in H1. specialize (Hx ltac:(lia)). revert H Hx.
  generalize (unpack LE shdr_fields (drop (Z.to_nat off) data)).
  intros (a & b & c & d & e & f & g & h & i & j & []) [= <-]. cbn. unfold section_words, u32_word. simpl. lia.
Qed.

Lemma read_sections_words data shoff n l :
  read_sections data shoff n = Ok l -> Forall section_words l.
Proof.
  intros H%mapM_Ok. induction H; constructor; [by eapply read_section_words|done].
Qed.

Lemma read_sym_words table off s : read_sym table off = Ok s ->
  u32_word (st_value s) /\ u32_word (st_name s) /\ u32_word (st_size s).
Proof.
  unfold read_sym. intros (v & (H0 & H1 & ->)%(unpack_from_Ok LE sym_fields) & H)%bind_Ok.
  pose proof (unpack_is_exact LE sym_fields (drop (Z.to_nat off) table)) as Hx.
  rewrite length_drop in Hx. unfold blen in H1. specialize (Hx ltac:(lia)). revert H Hx.
  generalize (unpack LE sym_fields (drop (Z.to_nat off) table)).
  intros (a & b & c & d & e & f & []) [= <-]. cbn. unfold u32_word. simpl. lia.
Qed.

(** A table of whole rows is walked row by row. *)
Lemma range_rows n k off : 0 < k -> n mod k = 0 -> off ∈ range 0 n k -> 0 <= off /\ off + k <= n.
Proof.
  unfold range. intros Hk Hm (i & -> & Hi%elem_of_seqZ)%list_elem_of_fmap.
  apply Z.div_exact in Hm; [|lia].
  assert ((n - 0 + k - 1) / k = n / k).
  { rewrite Hm at 1. replace (k * (n / k) - 0 + k - 1) with (k - 1 + (n / k) * k) by lia.
    rewrite Z.div_add, Z.div_small by lia. lia. }
  nia.
Qed.

Lemma nth_item_raises {A} P (l : list A) i : 0 <= i < blen l -> raises P (nth_item l i).
Proof.
  unfold nth_item, blen. intros Hi. destruct (lookup_lt_is_Some_2 l (Z.to_nat i)) as [x ->]; [lia|].
  apply raises_ok.
Qed.

Lemma nth_item_Ok {A} (l : list A) i x : nth_item l i = Ok x <-> l !! Z.to_nat i = Some x.
Proof. apply some_or_Ok. Qed.

#[export] Hint Resolve extent_raises nth_item_raises : raises.

Lemma read_row_raises P table off n :
  off ∈ range 0 (blen table) 16 -> blen table = n -> n mod 16 = 0 -> raises P (read_sym table off).
Proof.
  intros Ho <- Hm. apply range_rows in Ho as [? ?]; [|done..]. by apply read_sym_in_bounds.
Qed.

(** ** A small ELF writer for concrete examples *)
Record demo_section := {
  ds_name : string; ds_type : Z; ds_flags : Z; ds_addr : Z; ds_size : Z; ds_bytes : bytes;
  ds_link : Z; ds_entsize : Z }.

Definition strtab (names : list string) : bytes :=
  "000"%byte :: concat ((fun n => ascii n ++ ["000"%byte]) <$> names).
Definition str_offset (names : list string) (i : nat) : Z :=
  1 + blen (concat ((fun n => ascii n ++ ["000"%byte]) <$> take i names)).

Definition le_words (l : list Z) : bytes := concat (le_bytes 4 <$> l).

(** [loads] are (section index, virtual address, physical address); the section names are in the
    last section. *)
Definition make_elf (loads : list (nat * Z * Z)) (secs : list demo_section) : bytes :=
  let names := ds_name <$> secs in
  let np := blen loads in
  let ns := blen secs in
  let shstr := strtab names in
  let contents := ds_bytes <$> secs in
  let offset (i : nat) := 52 + 32 * np + 40 * ns + blen (concat (take i contents)) in
  let size (i : nat) := default 0 ((fun s => ds_size s) <$> secs !! i) in
  ["127"; "069"; "076"; "070"; "001"; "001"; "001"; "000"]%byte ++ zeros 8
  ++ le_bytes 2 2 ++ le_bytes 2 40 ++ le_words [1; 0; 52; 52 + 32 * np; 0x05000000]
  ++ concat (le_bytes 2 <$> [52; 32; np; 40; ns; ns - 1])
  ++ concat ((fun '(i, v, p) => le_words [1; offset i; v; p; size i; size i; 5; 4]) <$> loads)
  ++ concat (imap (fun i s => le_words [str_offset names i; ds_type s; ds_flags s; ds_addr s; offset i;
                      ds_size s; ds_link s; 0; 4; ds_entsize s]) secs)
  ++ concat contents.

Definition null_section : demo_section := Build_demo_section "" 0 0 0 0 [] 0 0.
Definition bytes_section (name : string) (kind flags addr : Z) (b : bytes) : demo_section :=
  Build_demo_section name kind flags addr (blen b) b 0 0.
Definition string_section (name : string) (names : list string) : demo_section :=
  bytes_section name 3 0 0 (strtab names).

(** A symbol table over the names of section [link]: (value, size, info, section index). *)
Definition symtab_section (link : Z) (names : list string) (rows : list (Z * Z * Z * Z)) : demo_section :=
  let b := concat (imap (fun i '(value, size, info, index) =>
    le_words [str_offset names i; value; size] ++ le_bytes 1 info ++ le_bytes 1 0 ++ le_bytes 2 index) rows) in
  Build_demo_section ".symtab" 2 0 0 (blen b) b link 16.
