(* ===== verification/ExportResident.v ===== *)
(** * experiments/managed_sketch/export_resident.py

    The resident verifier: the ELF reader that extracts the API table and the
    flash LOAD bytes, and the comparison of those bytes with the UF2 image. *)

From stdpp Require Import base tactics list list_numbers strings gmap.
From Stdlib Require Import ZArith Lia Strings.Byte.
From S2P Require Import Prelude.
From S2P Require Import PyBytes.
From S2P Require Import Sha256.
From S2P Require Import BuildComposite.
From S2P Require Import Elf.

Local Open Scope Z_scope.

Definition ELF_LIMIT : Z := 8 * 1024 * 1024.
Definition UF2_LIMIT : Z := 4 * 1024 * 1024.
Definition SOURCE_LIMIT : Z := 2 * 1024 * 1024.

(** ["<IHH8I"] *)
Definition api_fields : list field := [u32; u16; u16; u32; u32; u32; u32; u32; u32; u32; u32].

Definition elf_ident : bytes := ["127"; "069"; "076"; "070"; "001"; "001"; "001"; "000"]%byte.

(** The dictionary [resident_elf] returns *)
Record resident_facts := {
  apiAddress : Z; residentABI : Z; apiTableBytes : Z; apiTableSHA256 : string;
  functionAddresses : list Z; loadFlags : Z }.

Definition elf_extent : bytes -> Z -> Z -> result bytes := extent "truncated resident ELF extent".

(** The header checks and the two header tables. *)
Definition resident_headers (data : bytes) : result (list section * list segment) :=
  raise_when (negb ((52 <=? blen data) && (blen data <=? ELF_LIMIT)))
    (ValueError "resident ELF size is invalid");;
  ' (ident, (kind, (machine, (version, (_, (phoff, (shoff, (flags, (ehsize, (phsize, (phcount,
      (shsize, (shcount, _))))))))))))) ← unpack_from LE ehdr_fields data 0;
  raise_when (negb (bool_decide (take 8 ident = elf_ident))
      || negb ((kind =? 2) && (machine =? 40) && (version =? 1) && (ehsize =? 52) && (phsize =? 32)
               && (shsize =? 40)))
    (ValueError "resident must be ordinary ELF32 little-endian ARM executable");;
  raise_when (negb (Z.shiftr flags 24 =? 5) || negb (Z.land flags 0x400 =? 0)
      || negb ((1 <=? phcount) && (phcount <=? 128)) || negb ((1 <=? shcount) && (shcount <=? 512)))
    (ValueError "unsupported resident ELF ABI or table limits");;
  elf_extent data phoff (phcount * 32);;
  elf_extent data shoff (shcount * 40);;
  sections ← read_sections data shoff shcount;
  segments ← read_segments data phoff phcount;
  Ok (sections, segments).

(** One row of a symbol table: the matches so far, with this row's (address, index). *)
Definition scan_symbol (shcount : Z) (names table : bytes) (matches : list (Z * Z)) (offset : Z)
    : result (list (Z * Z)) :=
  s ← read_sym table offset;
  raise_when (blen names <=? st_name s) (ValueError "invalid resident symbol name");;
  let end_ := find_zero names (st_name s) in
  raise_when (end_ <? 0) (ValueError "unterminated resident symbol name");;
  if bool_decide (slice (st_name s) end_ names = ascii "firmingo_sketch_api") then
    raise_when (negb (st_info s =? 0x11) || negb (st_other s =? 0) || negb (st_size s =? 40)
                || negb ((0 <? st_shndx s) && (st_shndx s <? shcount)))
      (ValueError "invalid global resident API table symbol");;
    Ok (matches ++ [(st_value s, st_shndx s)])
  else Ok matches.

Definition scan_section (data : bytes) (sections : list section) (matches : list (Z * Z))
    (section : section) : result (list (Z * Z)) :=
  let shcount := blen sections in
  if negb (sh_type section =? 2) then Ok matches else
  raise_when (negb (sh_entsize section =? 16) || negb (sh_size section mod 16 =? 0)
              || (65536 <? sh_size section / 16)
              || negb ((0 <? sh_link section) && (sh_link section <? shcount)))
    (ValueError "invalid resident symbol table");;
  strings ← nth_item sections (sh_link section);
  raise_when (negb (sh_type strings =? 3) || (SOURCE_LIMIT <? sh_size strings))
    (ValueError "invalid resident symbol strings");;
  names ← elf_extent data (sh_offset strings) (sh_size strings);
  table ← elf_extent data (sh_offset section) (sh_size section);
  foldM (scan_symbol shcount names table) matches (range 0 (blen table) 16).

(** [s[2] & 6 == 6 and s[3] <= entry < s[3] + s[5]] *)
Definition executable_at (entry : Z) (s : section) : bool :=
  (Z.land (sh_flags s) 6 =? 6) && (sh_addr s <=? entry) && (entry <? sh_addr s + sh_size s).

Definition check_api_function (sections : list section) (function : Z) : result unit :=
  let entry := clear_thumb function in
  raise_when (negb (thumb_bit function)
      || negb (((0x10000000 <=? entry) && (entry <? 0x10200000))
               || ((0x20000000 <=? entry) && (entry <? 0x20042000)))
      || negb (existsb (executable_at entry) sections))
    (ValueError "resident API function is not a Thumb executable-section entry").

(** The body of the segment loop, on [(flash, table_mappings)]. *)
Definition check_load (data : bytes) (address : Z) (api : bytes)
    (state : list (Z * bytes) * list Z) (s : segment) : result (list (Z * bytes) * list Z) :=
  let '(flash, table_mappings) := state in
  let virtual := p_vaddr s in
  let physical := p_paddr s in
  let permissions := p_flags s in
  if negb (p_type s =? 1) || (p_filesz s =? 0) then Ok state else
  payload ← elf_extent data (p_offset s) (p_filesz s);
  raise_when ((p_memsz s <? p_filesz s)
      || negb ((0x10000000 <=? physical) && (physical <? physical + p_filesz s)
               && (physical + p_filesz s <=? 0x10200000)))
    (ValueError "resident ELF LOAD bytes exceed resident flash");;
  let flash := flash ++ [(physical, payload)] in
  if (virtual <=? address) && (address + 40 <=? virtual + p_filesz s) then
    raise_when (negb (physical + address - virtual =? address) || (Z.land permissions 4 =? 0)
        || negb (Z.land permissions (Z.lnot 7) =? 0)
        || negb (bool_decide (slice (address - virtual) (address - virtual + 40) payload = api)))
      (ValueError "resident API has inconsistent flash LOAD mapping");;
    Ok (flash, table_mappings ++ [permissions])
  else Ok (flash, table_mappings).

Definition resident_elf (data : bytes) : result (resident_facts * list (Z * bytes)) :=
  ' (sections, segments) ← resident_headers data;
  matches ← foldM (scan_section data sections) [] sections;
  raise_when (negb (blen matches =? 1)) (ValueError "expected one resident API table symbol");;
  ' (address, index) ← nth_item matches 0;
  section ← nth_item sections index;
  raise_when (negb (address mod 4 =? 0)
      || negb ((0x10000000 <=? address) && (address <=? 0x10200000 - 40))
      || negb (sh_type section =? 1) || negb (Z.land (sh_flags section) 3 =? 2))
    (ValueError "resident API table is not readonly allocated flash");;
  let relative := address - sh_addr section in
  raise_when ((relative <? 0) || (sh_size section <? relative + 40))
    (ValueError "resident API table exceeds its section");;
  api ← elf_extent data (sh_offset section + relative) 40;
  ' (magic, (abi, (size, (f0, (f1, (f2, (f3, (f4, (f5, (f6, (f7, _)))))))))))
    ← unpack_exact LE api_fields api;
  raise_when (negb ((magic =? 0x49504146) && (abi =? 1) && (size =? 40)))
    (ValueError "resident API table does not match FAPI ABI one");;
  let functions := [f0; f1; f2; f3; f4; f5; f6; f7] in
  for_each (check_api_function sections) functions;;
  ' (flash, table_mappings) ← foldM (check_load data address api) ([], []) segments;
  raise_when (bool_decide (flash = []) || negb (blen table_mappings =? 1))
    (ValueError "resident API lacks a unique flash LOAD mapping");;
  load_flags ← nth_item table_mappings 0;
  Ok ({| apiAddress := address; residentABI := abi; apiTableBytes := size; apiTableSHA256 := sha api;
         functionAddresses := functions; loadFlags := load_flags |}, flash).

(** [{address: block[32:288] for block in blocks}] *)
Definition uf2_memory (blocks : list bytes) : gmap Z bytes :=
  foldl (fun image block => <[uf2_address block := uf2_payload block]> image) ∅ blocks.

(** [position & ~255] and [position & 255] *)
Definition page_of (position : Z) : Z := Z.land position (Z.lnot 255).
Definition in_page (position : Z) : Z := Z.land position 255.

Definition check_position (image : gmap Z bytes) (position : Z) (b : byte) : result unit :=
  match image !! page_of position with
  | None => Raise (ValueError "resident UF2 differs from ELF flash LOAD bytes")
  | Some block =>
      c ← nth_item block (in_page position);
      raise_when (negb (bool_decide (c = b)))
        (ValueError "resident UF2 differs from ELF flash LOAD bytes")
  end.

Definition check_uf2 (data : bytes) (flash : list (Z * bytes)) : result Z :=
  blocks ← checked_resident_bytes data;
  let image := uf2_memory blocks in
  foldM (fun compared '(address, payload) =>
      for_each (fun '(offset, b) => check_position image (address + offset) b) (enumerate payload);;
      Ok (compared + blen payload))
    0 flash.

(** ** Only [ValueError] *)
Lemma elf_extent_Ok data o c b : elf_extent data o c = Ok b <->
  0 <= o /\ 0 <= c /\ o + c <= blen data /\ b = slice o (o + c) data.
Proof. apply extent_Ok. Qed.

Lemma elf_extent_blen data o c b : elf_extent data o c = Ok b -> blen b = c.
Proof. apply extent_blen. Qed.

(** The facts about sizes that the bounded reads establish. *)
Ltac extents := repeat match goal with
  | H : elf_extent _ _ _ = Ok _ |- _ =>
      pose proof (elf_extent_blen _ _ _ _ H); apply elf_extent_Ok in H as (? & ? & ? & ?)
  | H : raise_when _ _ = Ok _ |- _ => apply raise_when_Ok in H; breflect
  end.

Lemma resident_headers_raises data : ValueError_only (resident_headers data).
Proof.
  unfold resident_headers. raises_tac; extents; breflect.
  - apply (raises_unpack_from _ LE ehdr_fields); simpl; lia.
  - apply read_sections_raises; lia.
  - apply read_segments_raises; lia.
Qed.

Lemma scan_section_raises data sections matches s :
  ValueError_only (scan_section data sections matches s).
Proof.
  unfold scan_section. raises_tac; extents; breflect.
  - apply nth_item_raises. lia.
  - unfold scan_symbol. raises_tac. eapply read_row_raises; [done..|naive_solver].
Qed.

(** A loop invariant that does not depend on the elements visited. *)
Lemma scan_section_indices data sections matches s matches' :
  Forall (fun m : Z * Z => 0 < m.2 < blen sections) matches ->
  scan_section data sections matches s = Ok matches' ->
  Forall (fun m : Z * Z => 0 < m.2 < blen sections) matches'.
Proof.
  unfold scan_section. intros Hm. destruct (negb _); [by intros [= <-]|].
  intros ([] & _ & (st & _ & ([] & _ & (names & _ & (table & _ & Hf)%bind_Ok)%bind_Ok)%bind_Ok)%bind_Ok)%bind_Ok.
  revert Hf. apply (foldM_inv (fun _ m => Forall (fun m : Z * Z => 0 < m.2 < blen sections) m)); [done|].
  intros _ off m1 m2 Hm1. unfold scan_symbol. intros (y & _ & H)%bind_Ok.
  apply raise_when_bind in H as [_ H]. apply raise_when_bind in H as [_ H].
  destruct (bool_decide _); [|by injection H as <-].
  apply raise_when_bind in H as [Hc [= <-]]. apply Forall_app. split; [done|].
  repeat constructor; breflect; naive_solver.
Qed.

Lemma scan_indices data sections matches :
  foldM (scan_section data sections) [] sections = Ok matches ->
  Forall (fun m : Z * Z => 0 < m.2 < blen sections) matches.
Proof.
  apply (foldM_inv (fun _ m => Forall (fun m : Z * Z => 0 < m.2 < blen sections) m)); [constructor|].
  intros _ s m1 m2. apply scan_section_indices.
Qed.

Lemma check_load_raises data address api state s : ValueError_only (check_load data address api state s).
Proof. unfold check_load. raises_tac. Qed.

Lemma resident_elf_value_errors data : ValueError_only (resident_elf data).
Proof.
  unfold resident_elf. raises_tac; extents.
  - apply resident_headers_raises.
  - apply scan_section_raises.
  - apply nth_item_raises. lia.
  - apply scan_indices in H0. apply nth_item_Ok in H2. rewrite Forall_forall in H0.
    specialize (H0 _ (list_elem_of_lookup_2 _ _ _ H2)). simpl in H0. apply nth_item_raises. lia.
  - rewrite unpack_exact_in_bounds by (simpl; lia). apply raises_ok.
  - apply raises_when. done.
  - apply check_load_raises.
  - apply nth_item_raises. lia.
Qed.

(** ** What an accepted ELF guarantees *)
Definition flash_extent (entry : Z * bytes) : Prop :=
  0x10000000 <= entry.1 < entry.1 + blen entry.2 /\ entry.1 + blen entry.2 <= 0x10200000.

(** A LOAD segment that holds [table] at [address]. *)
Definition load_covers (flash : list (Z * bytes)) (address : Z) (table : bytes) : Prop :=
  exists base payload, (base, payload) ∈ flash /\ base <= address /\
    address + blen table <= base + blen payload /\
    slice (address - base) (address - base + blen table) payload = table.

(** An odd entry whose instruction is in resident flash or RAM and in an executable section. *)
Definition api_function (sections : list section) (function : Z) : Prop :=
  Z.odd function = true /\
  (0x10000000 <= function - 1 < 0x10200000 \/ 0x20000000 <= function - 1 < 0x20042000) /\
  exists s, s ∈ sections /\ Z.land (sh_flags s) 6 = 6 /\
    sh_addr s <= function - 1 < sh_addr s + sh_size s.

Lemma check_api_function_Ok sections f :
  check_api_function sections f = Ok tt <-> api_function sections f.
Proof.
  unfold check_api_function, api_function. rewrite raise_when_Ok. unfold thumb_bit, clear_thumb.
  rewrite land_1_odd, land_lnot_1. breflect_goal. rewrite existsb_exists. unfold executable_at.
  setoid_rewrite andb_true_iff. setoid_rewrite andb_true_iff.
  setoid_rewrite Z.eqb_eq. setoid_rewrite Z.leb_le. setoid_rewrite Z.ltb_lt.
  setoid_rewrite <- list_elem_of_In.
  destruct (Z.odd f); simpl; [|naive_solver]. split.
  - intros [[_ Hr] (s & ? & ?)]. split; [done|]. split; [lia|]. exists s. naive_solver lia.
  - intros (_ & Hr & s & ? & ?). split; [split; [done|lia]|]. exists s. naive_solver lia.
Qed.

Lemma load_covers_at flash address table i b :
  load_covers flash address table -> table !! i = Some b -> load_at flash (address + Z.of_nat i) b.
Proof.
  intros (base & payload & Hin & Hb & Hl & Hs) Hi. exists base, payload.
  split_and!; [done|lia|]. pose proof (lookup_lt_Some _ _ _ Hi) as Hlt.
  rewrite <- Hs in Hi. rewrite lookup_slice in Hi by (unfold blen in *; lia). rewrite <- Hi. f_equal. lia.
Qed.

Lemma check_load_inv data address api state s state' :
  blen api = 40 ->
  Forall flash_extent state.1 -> (state.2 <> [] -> load_covers state.1 address api) ->
  check_load data address api state s = Ok state' ->
  Forall flash_extent state'.1 /\ (state'.2 <> [] -> load_covers state'.1 address api).
Proof.
  intros Hapi Hf Hm. unfold check_load. destruct state as [flash maps]. simpl in Hf, Hm.
  destruct (_ || _); [by intros [= <-]|].
  intros (payload & Hp & H)%bind_Ok. apply raise_when_bind in H as [Hr H]. breflect.
  pose proof (elf_extent_blen _ _ _ _ Hp) as Hpl.
  assert (Hf' : Forall flash_extent (flash ++ [(p_paddr s, payload)])).
  { apply Forall_app. split; [done|]. repeat constructor; simpl; lia. }
  assert (Hmono : load_covers flash address api ->
    load_covers (flash ++ [(p_paddr s, payload)]) address api).
  { intros (b & p & Hin & ?). exists b, p. split; [|done]. apply elem_of_app. by left. }
  destruct (_ && _) eqn:E; [|injection H as <-; simpl; auto].
  apply raise_when_bind in H as [Hc [= <-]]. breflect. simpl. split; [done|]. intros _.
  destruct Hc as [[[Hv _] _] Hs]. exists (p_paddr s), payload.
  replace (p_vaddr s) with (p_paddr s) in * by lia. rewrite Hapi.
  split_and!; try lia; [|done]. apply elem_of_app. right. by left.
Qed.

Lemma check_loads_inv data address api segments flash maps :
  blen api = 40 -> foldM (check_load data address api) ([], []) segments = Ok (flash, maps) ->
  Forall flash_extent flash /\ (maps <> [] -> load_covers flash address api).
Proof.
  intros Hapi H. revert H.
  apply (foldM_inv (fun _ st => Forall flash_extent st.1 /\ (st.2 <> [] -> load_covers st.1 address api)));
    [done|]. intros _ s m1 m2 [? ?]. by apply check_load_inv.
Qed.

(** The FAPI version-one table in 40 bytes. *)
Definition fapi_table (functions : list Z) (api : bytes) : Prop :=
  blen api = 40 /\ word 0 api = 0x49504146 /\ half 4 api = 1 /\ half 6 api = 40 /\
  functions = (fun i => word (8 + 4 * i) api) <$> seq 0 8.

Lemma unpack_api b : unpack LE api_fields b =
  (word 0 b, (half 4 b, (half 6 b, (word 8 b, (word 12 b, (word 16 b, (word 20 b, (word 24 b,
    (word 28 b, (word 32 b, (word 36 b, tt))))))))))).
Proof.
  unfold word, half. cbv [unpack api_fields fdecode fsize int_val]. by rewrite !drop_drop, drop_0.
Qed.

Lemma resident_elf_inv data facts flash :
  resident_elf data = Ok (facts, flash) ->
  exists sections segments api, resident_headers data = Ok (sections, segments) /\
    (apiAddress facts mod 4 = 0 /\ 0x10000000 <= apiAddress facts <= 0x10200000 - 40) /\
    fapi_table (functionAddresses facts) api /\ apiTableSHA256 facts = sha api /\
    Forall (api_function sections) (functionAddresses facts) /\
    Forall flash_extent flash /\ load_covers flash (apiAddress facts) api.
Proof.
  unfold resident_elf. intros ([sections segments] & Hh & H)%bind_Ok.
  apply bind_Ok in H as (matches & _ & H). apply raise_when_bind in H as [_ H].
  apply bind_Ok in H as ([address index] & _ & H). apply bind_Ok in H as (s & _ & H).
  apply raise_when_bind in H as [Ha H]. apply raise_when_bind in H as [_ H].
  apply bind_Ok in H as (api & Hapi & H). apply elf_extent_blen in Hapi.
  rewrite unpack_exact_in_bounds, unpack_api in H by (simpl; lia). cbn in H.
  apply raise_when_bind in H as [Hmagic H]. apply bind_unit in H as [Hfs H].
  apply bind_Ok in H as ([fl maps] & Hl & H). apply raise_when_bind in H as [Hmaps H].
  apply bind_Ok in H as (lf & _ & [= <- <-]). breflect.
  apply (check_loads_inv _ _ _ _ _ _ Hapi) in Hl as [Hf Hc].
  exists sections, segments, api. cbn. split_and!; try done; try tauto.
  - split_and!; tauto.
  - apply for_each_Ok in Hfs. eapply Forall_impl; [exact Hfs|]. intros f. apply check_api_function_Ok.
  - apply Hc. intros ->. destruct Hmaps as [_ Hm]. done.
Qed.

(** ** The UF2 comparison *)
Definition uf2_byte (blocks : list bytes) (a : Z) (b : byte) : Prop :=
  exists block, block ∈ blocks /\ uf2_address block <= a < uf2_address block + 256 /\
    uf2_payload block !! Z.to_nat (a - uf2_address block) = Some b.

Lemma uf2_memory_lookup blocks a p : NoDup (uf2_address <$> blocks) ->
  uf2_memory blocks !! a = Some p <->
  exists block, block ∈ blocks /\ uf2_address block = a /\ uf2_payload block = p.
Proof.
  unfold uf2_memory. induction blocks as [|b blocks IH] using rev_ind; intros Hd.
  { simpl. rewrite lookup_empty. split; [done|]. by intros (? & ?%elem_of_nil & _). }
  rewrite fmap_app in Hd. apply NoDup_app in Hd as (Hd & Hn & _).
  rewrite foldl_app. simpl. setoid_rewrite elem_of_app. setoid_rewrite list_elem_of_singleton.
  destruct (decide (uf2_address b = a)) as [<-|Hne].
  - rewrite lookup_insert_eq. split; [intros [= <-]; eauto|].
    intros (b' & [Hb'| ->] & Heq & <-); [|done]. exfalso. apply (Hn (uf2_address b)); [|by left].
    rewrite <- Heq. by apply list_elem_of_fmap_2.
  - rewrite lookup_insert_ne, IH by done. naive_solver.
Qed.

Lemma page_of_mod a : page_of a = a - a mod 256.
Proof.
  unfold page_of. rewrite <- Z.ldiff_land. change 255 with (Z.ones 8).
  rewrite Z.ldiff_ones_r, Z.shiftl_mul_pow2, Z.shiftr_div_pow2 by lia.
  change (2 ^ 8) with 256. Z.to_euclidean_division_equations. lia.
Qed.

Lemma in_page_mod a : in_page a = a mod 256.
Proof. unfold in_page. change 255 with (Z.ones 8). by rewrite Z.land_ones. Qed.

Lemma length_payload total i b : uf2_block total i b -> blen (uf2_payload b) = 256.
Proof. intros [Hl _ _ _ _ _ _ _ _]. unfold uf2_payload. rewrite blen_slice; unfold blen; lia. Qed.

Lemma check_position_Ok data blocks position b : valid_resident data blocks ->
  check_position (uf2_memory blocks) position b = Ok tt <-> uf2_byte blocks position b.
Proof.
  intros [_ _ _ Ha Hd]. unfold check_position, uf2_byte. rewrite page_of_mod, in_page_mod.
  rewrite Forall_forall in Ha. split.
  - destruct (uf2_memory blocks !! _) as [p|] eqn:E; [|done].
    apply uf2_memory_lookup in E as (block & Hin & Hadr & <-); [|done].
    intros (c & Hc%nth_item_Ok & He%raise_when_Ok)%bind_Ok. breflect. subst c.
    exists block. split; [done|]. rewrite Hadr. Z.to_euclidean_division_equations.
    split; [lia|]. rewrite <- Hc. f_equal. lia.
  - intros (block & Hin & Hr & Hl). pose proof (Ha _ Hin) as [_ Hm].
    assert (Hpage : uf2_address block = position - position mod 256).
    { Z.to_euclidean_division_equations. lia. }
    rewrite (proj2 (uf2_memory_lookup blocks _ (uf2_payload block) Hd)) by eauto.
    replace (position mod 256) with (position - uf2_address block) by lia.
    unfold nth_item. rewrite Hl. simpl. by rewrite bool_decide_eq_true_2.
Qed.

Lemma Forall_enumerate {A} (P : Z * A -> Prop) (l : list A) :
  Forall P (enumerate l) <-> forall i x, l !! i = Some x -> P (Z.of_nat i, x).
Proof.
  unfold enumerate. rewrite Forall_lookup. split.
  - intros H i x Hi. apply (H i). apply lookup_zip_Some. split; [|done].
    apply lookup_lt_Some in Hi. apply lookup_seqZ. unfold blen. lia.
  - intros H i [z x] (Hz & Hx)%lookup_zip_Some. apply lookup_seqZ in Hz as [-> _]. by apply H.
Qed.

(** The number of compared bytes. *)
Definition load_bytes (flash : list (Z * bytes)) : Z := foldr (fun e n => blen e.2 + n) 0 flash.

Lemma load_at_cons address payload flash (P : Z -> byte -> Prop) :
  (forall a b, load_at ((address, payload) :: flash) a b -> P a b) <->
  (forall i x, payload !! i = Some x -> P (address + Z.of_nat i) x) /\
  (forall a b, load_at flash a b -> P a b).
Proof.
  split.
  - intros H. split.
    + intros i x Hi. apply H. exists address, payload. split; [by left|]. split; [lia|].
      rewrite <- Hi. f_equal. lia.
    + intros a b (base & p & ? & ?). apply H. exists base, p. split; [by right|done].
  - intros [H1 H2] a b (base & p & [[= -> ->]|Hin]%elem_of_cons & Hb & Hl).
    + apply H1 in Hl. by replace a with (address + Z.of_nat (Z.to_nat (a - address))) by lia.
    + apply H2. by exists base, p.
Qed.

Lemma compare_loop data blocks flash k n : valid_resident data blocks ->
  foldM (fun compared '(address, payload) =>
    for_each (fun '(offset, b) => check_position (uf2_memory blocks) (address + offset) b)
      (enumerate payload);; Ok (compared + blen payload)) k flash = Ok n <->
  n = k + load_bytes flash /\ forall a b, load_at flash a b -> uf2_byte blocks a b.
Proof.
  intros Hv. revert k. induction flash as [|[address payload] fl IH]; intros k.
  { simpl. rewrite Ok_Ok, Z.add_0_r. split; [|naive_solver].
    intros <-. split; [done|]. by intros a b (? & ? & ?%elem_of_nil & _). }
  cbn [foldM]. rewrite bind_Ok. setoid_rewrite bind_unit. setoid_rewrite IH.
  setoid_rewrite Ok_Ok. setoid_rewrite for_each_Ok. setoid_rewrite Forall_enumerate.
  setoid_rewrite check_position_Ok; [|done]. rewrite load_at_cons. simpl. split.
  - intros (? & [? <-] & -> & ?). split; [lia|done].
  - intros (-> & ? & ?). eexists. split; [split; [done|reflexivity]|]. split; [lia|done].
Qed.

Lemma check_uf2_iff data flash n : check_uf2 data flash = Ok n <->
  n = load_bytes flash /\ exists blocks, valid_resident data blocks /\
    forall a b, load_at flash a b -> uf2_byte blocks a b.
Proof.
  unfold check_uf2. rewrite bind_Ok. setoid_rewrite checked_resident_bytes_iff. split.
  - intros (blocks & Hv & H). apply (compare_loop data) in H as [-> H]; [|done]. split; [lia|eauto].
  - intros (-> & blocks & Hv & H). exists blocks. split; [done|]. by apply (compare_loop data).
Qed.

(** ** Properties *)

(** [resident_elf] never fails with anything but [ValueError], whatever bytes it is given: every
    struct read, section lookup and list index is in bounds once the checks before it have passed. *)
Theorem resident_elf_raises data : ValueError_only (resident_elf data).
Proof. apply resident_elf_value_errors. Qed.

(** C17: An accepted ELF describes a real API table: at an aligned resident flash address a LOAD
    segment holds a 40-byte FAPI version-one table with the reported digest, whose eight functions
    are Thumb entries in executable sections of resident flash or RAM; all LOAD bytes lie in
    resident flash. *)
Theorem resident_elf_sound data facts flash :
  resident_elf data = Ok (facts, flash) ->
  exists sections segments api, resident_headers data = Ok (sections, segments) /\
    (apiAddress facts mod 4 = 0 /\ 0x10000000 <= apiAddress facts <= 0x10200000 - 40) /\
    fapi_table (functionAddresses facts) api /\ apiTableSHA256 facts = sha api /\
    Forall (api_function sections) (functionAddresses facts) /\
    Forall flash_extent flash /\ load_covers flash (apiAddress facts) api.
Proof. apply resident_elf_inv. Qed.

(** C18: [check_uf2] accepts exactly when the UF2 is a well-formed resident image that programs every
    LOAD byte of the ELF at its address, and it returns the number of bytes compared. *)
Theorem check_uf2_correct data flash n :
  check_uf2 data flash = Ok n <->
  n = load_bytes flash /\ exists blocks, valid_resident data blocks /\
    forall a b, load_at flash a b -> uf2_byte blocks a b.
Proof. apply check_uf2_iff. Qed.

(** An ELF and a UF2 that both pass bind the flash image to the API: programming the UF2 puts
    the whole checked FAPI table at the reported API address. *)
Theorem verified_image_holds_api elf uf2 facts flash n :
  resident_elf elf = Ok (facts, flash) -> check_uf2 uf2 flash = Ok n ->
  exists blocks api, valid_resident uf2 blocks /\ fapi_table (functionAddresses facts) api /\
    sha api = apiTableSHA256 facts /\
    forall i b, api !! i = Some b -> uf2_byte blocks (apiAddress facts + Z.of_nat i) b.
Proof.
  intros (_ & _ & api & _ & _ & Hapi & Hs & _ & _ & Hc)%resident_elf_inv (_ & blocks & Hv & H)%check_uf2_iff.
  exists blocks, api. split_and!; [done..|]. intros i b Hi. apply H. by eapply load_covers_at.
Qed.

(** ** A concrete resident: one page of flash whose first 40 bytes are the table *)
Definition demo_page_address : Z := 0x10000000.

Definition demo_api : bytes :=
  or_empty (pack LE api_fields (0x49504146, (1, (40, (demo_page_address + 65, (demo_page_address + 67,
    (demo_page_address + 69, (demo_page_address + 71, (demo_page_address + 73,
    (demo_page_address + 75, (demo_page_address + 77, (demo_page_address + 79, tt)))))))))))).

Definition demo_page : bytes := demo_api ++ zeros 216.

Definition demo_words (l : list Z) : bytes := concat (le_bytes 4 <$> l).

(** Header, one LOAD segment, four section headers, the page, the symbol names and two symbols. *)
Definition demo_elf : bytes :=
  or_empty (pack LE ehdr_fields (elf_ident ++ zeros 8, (2, (40, (1, (0, (52, (84, (0x05000000,
    (52, (32, (1, (40, (4, (0, tt)))))))))))))))
  ++ demo_words [1; 244; demo_page_address; demo_page_address; 256; 256; 5; 4]
  ++ demo_words (replicate 10 0)
  ++ demo_words [0; 1; 6; demo_page_address; 244; 256; 0; 0; 4; 0]
  ++ demo_words [0; 2; 0; 0; 521; 32; 3; 0; 4; 16]
  ++ demo_words [0; 3; 0; 0; 500; 21; 0; 0; 1; 0]
  ++ demo_page
  ++ "000"%byte :: ascii "firmingo_sketch_api" ++ ["000"%byte]
  ++ zeros 16 ++ demo_words [1; demo_page_address; 40] ++ ["017"; "000"; "001"; "000"]%byte.

Definition demo_uf2 : bytes := or_empty (new_block demo_page_address 0 1 demo_page).

Definition demo_facts : resident_facts :=
  match resident_elf demo_elf with
  | Ok (facts, _) => facts
  | Raise _ => Build_resident_facts 0 0 0 "" [] 0
  end.

Example demo_elf_accepted :
  resident_elf demo_elf = Ok (demo_facts, [(demo_page_address, demo_page)]).
Proof. vm_compute. reflexivity. Qed.

Lemma resident_elf_sound_witness : exists api,
  fapi_table (functionAddresses demo_facts) api /\ apiTableSHA256 demo_facts = sha api /\
  load_covers [(demo_page_address, demo_page)] (apiAddress demo_facts) api.
Proof.
  destruct (resident_elf_sound demo_elf demo_facts [(demo_page_address, demo_page)])
    as (sections & segments & api & _ & _ & H1 & H2 & _ & _ & H3); [vm_compute; reflexivity|].
  exists api. split; [exact H1|]. split; [exact H2|exact H3].
Defined.

Lemma verified_image_holds_api_witness : exists blocks api,
  fapi_table (functionAddresses demo_facts) api /\
  forall i b, api !! i = Some b -> uf2_byte blocks (apiAddress demo_facts + Z.of_nat i) b.
Proof.
  destruct (verified_image_holds_api demo_elf demo_uf2 demo_facts [(demo_page_address, demo_page)] 256)
    as (blocks & api & _ & H1 & _ & H2); [vm_compute; reflexivity..|].
  exists blocks, api. split; [exact H1|exact H2].
Defined.
