(* ===== verification/BuildStatefulProof.v ===== *)
(** * experiments/managed_sketch/build_stateful_proof.py

    The stateful (FMS2) proof build: the ELF reader with named sections and
    symbols, the resident contract read from a candidate resident, the upload
    facts, and the FMS2 capsule writer. The main theorem links the writer to the
    validator on the board: what [module_capsule] emits for a contract that
    [resident_contract] accepted passes the firmware's own checks. *)

From stdpp Require Import base tactics list list_numbers strings.
From Stdlib Require Import ZArith Lia Strings.Byte.
From S2P Require Import Prelude.
From S2P Require Import PyBytes.
From S2P Require Import PyDict.
From S2P Require Import Sha256.
From S2P Require Import PyText.
From S2P Require Import BuildComposite.
From S2P Require Import FirmwareImage.
From S2P Require Import Elf.
From S2P Require Import ExportResident.

Local Open Scope Z_scope.

Definition CODE_ADDRESS : Z := 0x10200100.

(** [data.decode("ascii")] *)
Fixpoint string_of_bytes (b : bytes) : string :=
  match b with [] => EmptyString | x :: b => String (Ascii.ascii_of_byte x) (string_of_bytes b) end.

Definition decode_ascii (b : bytes) : result string :=
  raise_when (existsb (fun x => 128 <=? b2z x) b) (UnicodeError "ordinal not in range(128)");;
  Ok (string_of_bytes b).

(** The instance attributes of [Elf]; a symbol is (address, size, info, other, index). *)
Definition symbol_row : Type := Z * Z * Z * Z * Z.
Record Elf := {
  elf_data : bytes; sections : list section; segments : list segment;
  named : dict section; symbols : dict (list symbol_row) }.

Definition elf_string (data : bytes) (offset : Z) : result string :=
  raise_when (negb ((0 <=? offset) && (offset <? blen data)) || (find_zero data offset <? 0))
    (ValueError "invalid ELF string");;
  decode_ascii (slice offset (find_zero data offset) data).

Definition proof_extent : bytes -> Z -> Z -> result bytes := extent "truncated ELF extent".

Definition section_bytes (data : bytes) (sec : section) : result bytes :=
  raise_when (sh_type sec =? 8) (ValueError "NOBITS has no file contents");;
  proof_extent data (sh_offset sec) (sh_size sec).

(** [self.named]: the names of all sections but the first *)
Definition name_section (names : bytes) (named : dict section) (sec : section)
    : result (dict section) :=
  name ← elf_string names (sh_name sec);
  raise_when (has_key named name) (ValueError "duplicate ELF section name");;
  Ok (dset named name sec).

(** [self.symbols.setdefault(name, []).append(row)] *)
Definition add_symbol (symbols : dict (list symbol_row)) (name : string) (row : symbol_row)
    : dict (list symbol_row) :=
  dset symbols name (default [] (dget symbols name) ++ [row]).

Definition read_row (names table : bytes) (symbols : dict (list symbol_row)) (offset : Z)
    : result (dict (list symbol_row)) :=
  s ← read_sym table offset;
  name ← elf_string names (st_name s);
  Ok (add_symbol symbols name (st_value s, st_size s, st_info s, st_other s, st_shndx s)).

Definition read_symbols (data : bytes) (sections : list section) (symbols : dict (list symbol_row))
    (sec : section) : result (dict (list symbol_row)) :=
  if negb (sh_type sec =? 2) then Ok symbols else
  raise_when (negb (sh_entsize sec =? 16) || negb (sh_size sec mod 16 =? 0)
              || (65536 <? sh_size sec / 16)
              || negb ((0 <? sh_link sec) && (sh_link sec <? blen sections)))
    (ValueError "invalid symbol table");;
  strings_section ← nth_item sections (sh_link sec);
  raise_when (negb (sh_type strings_section =? 3)) (ValueError "invalid symbol names");;
  names ← section_bytes data strings_section;
  table ← section_bytes data sec;
  foldM (read_row names table) symbols (range 0 (blen table) 16).

(** [Elf(data)] *)
Definition elf_init (data : bytes) : result Elf :=
  raise_when (negb ((52 <=? blen data) && (blen data <=? ELF_LIMIT)))
    (ValueError "ELF size outside proof limit");;
  ' (ident, (kind, (machine, (version, (_, (phoff, (shoff, (flags, (ehsize, (phsize, (phcount,
      (shsize, (shcount, (strings, _)))))))))))))) ← unpack_from LE ehdr_fields data 0;
  raise_when (negb (bool_decide (take 8 ident = elf_ident))
      || negb ((kind =? 2) && (machine =? 40) && (version =? 1) && (ehsize =? 52) && (phsize =? 32)
               && (shsize =? 40))
      || negb (Z.shiftr flags 24 =? 5) || negb (Z.land flags 0x400 =? 0)
      || negb ((1 <=? phcount) && (phcount <=? 128)) || negb ((1 <=? shcount) && (shcount <=? 512)))
    (ValueError "expected bounded ELF32 ARM EABI5 executable");;
  proof_extent data phoff (phcount * 32);;
  proof_extent data shoff (shcount * 40);;
  sections ← read_sections data shoff shcount;
  segments ← read_segments data phoff phcount;
  raise_when (negb ((0 <? strings) && (strings <? shcount))) (ValueError "missing section names");;
  strings_section ← nth_item sections strings;
  raise_when (negb (sh_type strings_section =? 3)) (ValueError "missing section names");;
  names ← section_bytes data strings_section;
  named ← foldM (name_section names) [] (drop 1 sections);
  symbols ← foldM (read_symbols data sections) [] sections;
  Ok {| elf_data := data; sections := sections; segments := segments; named := named; symbols := symbols |}.

Definition elf_symbol (elf : Elf) (name : string) : result symbol_row :=
  match default [] (dget (symbols elf) name) with
  | [row] => Ok row
  | _ => Raise (ValueError "expected one ELF symbol: ")
  end.

Definition elf_object (elf : Elf) (name : string) (size kind flags : Z) : result (Z * section) :=
  ' (address, actual_size, info, other, index) ← elf_symbol elf name;
  raise_when (negb (actual_size =? size) || negb (info =? 0x11) || negb (other =? 0)
              || negb ((0 <? index) && (index <? blen (sections elf))))
    (ValueError "invalid global ELF object: ");;
  sec ← nth_item (sections elf) index;
  raise_when (negb (sh_type sec =? kind) || negb (sh_flags sec =? flags)
      || negb (address mod 4 =? 0)
      || negb ((sh_addr sec <=? address) && (address <=? sh_addr sec + sh_size sec - size)))
    (ValueError "ELF object outside expected section: ");;
  Ok (address, sec).

(** [elf.extent(sec[4] + address - sec[3], size)] *)
Definition object_bytes (elf : Elf) (address size : Z) (sec : section) : result bytes :=
  proof_extent (elf_data elf) (sh_offset sec + address - sh_addr sec) size.

(** [[payload[address - base:address - base + size] for base, payload in flash if ...]] *)
Definition load_mappings (flash : list (Z * bytes)) (address size : Z) : list bytes :=
  omap (fun '(base, payload) =>
    if (base <=? address) && (address + size <=? base + blen payload)
    then Some (slice (address - base) (address - base + size) payload) else None) flash.

(** ["<IHH4I16s16s"], ["<IHH11I"] and ["<4I"] *)
Definition fup2_fields : list field := [u32; u16; u16; u32; u32; u32; u32; FS 16; FS 16].
Definition api_v2_fields : list field :=
  [u32; u16; u16; u32; u32; u32; u32; u32; u32; u32; u32; u32; u32; u32].
Definition checkpoint_fields : list field := [u32; u32; u32; u32].

(** The dictionary [upload_facts] returns. *)
Record upload_target := {
  u_id : Z; u_format : string; u_max_size : Z; u_max_chunk : Z; u_authorization : string;
  u_stagingTimeoutMs : Z; u_tableAddress : Z; u_tableSHA256 : string }.

Definition fup2_words : fmt_ty fup2_fields :=
  (0x32505546, (1, (56, (2, (4096, (1024, (30000,
    (ascii "nano-managed-v2" ++ ["000"%byte], (ascii "physical-d2-gnd" ++ ["000"%byte], tt))))))))).

Definition upload_facts (elf : Elf) (flash : list (Z * bytes)) : result upload_target :=
  ' (address, sec) ← elf_object elf "firmingo_stateful_upload_contract" 56 1 2;
  table ← object_bytes elf address 56 sec;
  ' (magic, (version, (size, (id, (max_size, (max_chunk, (timeout, (format, (auth, u)))))))))
    ← unpack_exact LE fup2_fields table;
  raise_when (negb (bool_decide ((magic, (version, (size, (id, (max_size, (max_chunk, (timeout,
      (format, (auth, u))))))))) = fup2_words))) (ValueError "unsupported FUP2 upload contract");;
  raise_when (negb (bool_decide (load_mappings flash address 56 = [table])))
    (ValueError "upload contract differs from flash LOAD bytes");;
  format ← decode_ascii (take 15 format);
  auth ← decode_ascii (take 15 auth);
  Ok {| u_id := id; u_format := format; u_max_size := max_size; u_max_chunk := max_chunk;
        u_authorization := auth; u_stagingTimeoutMs := timeout; u_tableAddress := address;
        u_tableSHA256 := sha table |}.

(** The dictionary [resident_contract] returns, without its constant entries. *)
Record resident_facts_v2 := {
  rc_apiAddress : Z; rc_apiTableSHA256 : string; rc_stateAddress : Z; rc_stateCapacityBytes : Z;
  rc_maximumCapsuleBytes : Z; rc_residentELFSHA256 : string; rc_linkerBounds : dict Z;
  rc_nominalHeapSpanBytes : Z; rc_runtimeEnabled : bool; rc_networkUploadsEnabled : bool;
  rc_uploadTarget : option upload_target; rc_flashCheckpoint : option Z }.

(** The overlap test of one symbol row with the state arena. *)
Definition overlaps_arena (elf : Elf) (state capacity : Z) (name : string) (row : symbol_row)
    : result unit :=
  let '(start, count, info, _, index) := row in
  if negb (bool_decide (name = "firmingo_sketch_state")) && negb (count =? 0)
     && (Z.land info 15 =? 1) && (0 <? index) && (index <? blen (sections elf)) then
    sec ← nth_item (sections elf) index;
    raise_when (negb (Z.land (sh_flags sec) 2 =? 0) && (start <? state + capacity)
                && (state <? start + count))
      (ValueError "resident object overlaps state arena: ")
  else Ok tt.

Definition bound_names : list string :=
  ["__bss_start__"; "__bss_end__"; "__end__"; "__HeapLimit"; "__StackOneBottom"; "__StackOneTop";
   "__StackBottom"; "__StackTop"].

Definition linker_bounds (elf : Elf) : result (dict Z) :=
  mapM (fun name => ' (address, _, _, _, _) ← elf_symbol elf name; Ok (name, address)) bound_names.

(** The optional boot-runtime marker. *)
Definition check_boot_marker (elf : Elf) (flash : list (Z * bytes)) : result unit :=
  ' (marker, sec) ← elf_object elf "firmingo_stateful_boot_mode" 4 1 2;
  value ← object_bytes elf marker 4 sec;
  raise_when (negb (bool_decide (value = le_bytes 4 1))
              || negb (bool_decide (load_mappings flash marker 4 = [value])))
    (ValueError "invalid boot runtime marker or LOAD mapping").

(** The optional flash checkpoint; its kind is 1 (erase) or 2 (first-page). *)
Definition checkpoint_marker (elf : Elf) (flash : list (Z * bytes)) (upload : option upload_target)
    : result Z :=
  ' (marker, sec) ← elf_object elf "firmingo_flash_checkpoint_contract" 16 1 2;
  value ← object_bytes elf marker 16 sec;
  ' (magic, (version, (kind, (hold_ms, _)))) ← unpack_exact LE checkpoint_fields value;
  raise_when (bool_decide (upload = None)
      || negb ((magic =? 0x31504346) && (version =? 1) && (hold_ms =? 60000))
      || negb ((kind =? 1) || (kind =? 2)) || negb (bool_decide (load_mappings flash marker 16 = [value])))
    (ValueError "invalid flash checkpoint marker or LOAD mapping");;
  Ok kind.

Definition resident_contract (data : bytes) : result (resident_facts_v2 * list (Z * bytes)) :=
  ' (legacy, flash) ← resident_elf data;
  elf ← elf_init data;
  ' (address, sec) ← elf_object elf "firmingo_sketch_api_v2" 52 1 2;
  raise_when (negb ((0x10000000 <=? address) && (address <=? 0x10200000 - 52)))
    (ValueError "candidate API outside resident flash");;
  table ← object_bytes elf address 52 sec;
  ' (magic, (version, (size, (f0, (f1, (f2, (f3, (f4, (f5, (f6, (f7, (state, (capacity, (maximum,
      _)))))))))))))) ← unpack_exact LE api_v2_fields table;
  raise_when (negb ((magic =? 0x49504146) && (version =? 2) && (size =? 52))
      || negb (bool_decide ([f0; f1; f2; f3; f4; f5; f6; f7] = functionAddresses legacy)))
    (ValueError "candidate API version, layout or calls differ");;
  ' (allocation, _) ← elf_object elf "firmingo_sketch_state" 4096 8 3;
  raise_when (negb (state =? allocation) || negb (capacity =? 4096) || negb (maximum =? 4096)
      || negb ((0x20000000 <=? state) && (state <? state + capacity) && (state + capacity <=? 0x20040000)))
    (ValueError "candidate API does not describe its actual 4 KiB BSS allocation");;
  raise_when (negb (bool_decide (load_mappings flash address 52 = [table])))
    (ValueError "candidate API differs from flash LOAD bytes");;
  for_each (fun '(name, rows) => for_each (overlaps_arena elf state capacity name) rows) (symbols elf);;
  bounds ← linker_bounds elf;
  bss_start ← ditem bounds "__bss_start__"; bss_end ← ditem bounds "__bss_end__";
  end_ ← ditem bounds "__end__"; heap_limit ← ditem bounds "__HeapLimit";
  one_bottom ← ditem bounds "__StackOneBottom"; one_top ← ditem bounds "__StackOneTop";
  bottom ← ditem bounds "__StackBottom"; top ← ditem bounds "__StackTop";
  raise_when (negb ((bss_start <=? state) && (state <? state + capacity) && (state + capacity <=? bss_end)
      && (bss_end <=? end_) && (end_ <? heap_limit) && (heap_limit =? 0x20040000)
      && (0x20040000 <=? one_bottom) && (one_bottom <? one_top)
      && (one_top <=? bottom) && (bottom <? top) && (top <=? 0x20042000)))
    (ValueError "candidate arena/heap/stack linker extents overlap");;
  let runtime_enabled := has_key (symbols elf) "firmingo_stateful_boot_mode" in
  (if runtime_enabled then check_boot_marker elf flash else Ok tt);;
  upload ← (if has_key (symbols elf) "firmingo_stateful_upload_contract"
            then Some <$> upload_facts elf flash else Ok None);
  raise_when (negb (bool_decide (upload = None)) && negb runtime_enabled)
    (ValueError "FMS2 uploads require the boot runtime");;
  checkpoint ← (if has_key (symbols elf) "firmingo_flash_checkpoint_contract"
                then Some <$> checkpoint_marker elf flash upload else Ok None);
  Ok ({| rc_apiAddress := address; rc_apiTableSHA256 := sha table; rc_stateAddress := state;
         rc_stateCapacityBytes := capacity; rc_maximumCapsuleBytes := maximum;
         rc_residentELFSHA256 := sha data; rc_linkerBounds := bounds;
         rc_nominalHeapSpanBytes := heap_limit - end_; rc_runtimeEnabled := runtime_enabled;
         rc_networkUploadsEnabled := negb runtime_enabled || negb (bool_decide (upload = None));
         rc_uploadTarget := upload; rc_flashCheckpoint := checkpoint |}, flash).

Record module_extents := {
  codeBytes : Z; dataBytes : Z; bssBytes : Z; setupAddress : Z; loopAddress : Z }.

Definition allowed : dict (Z * Z) := [(".text", (1, 6)); (".data", (1, 3)); (".bss", (8, 3))].

Definition check_module_section (item : string * section) : result unit :=
  let '(name, sec) := item in
  raise_when (negb (Z.land (sh_flags sec) 2 =? 0) && negb (sh_size sec =? 0)
      && match dget allowed name with
         | None => true
         | Some kind => negb (bool_decide ((sh_type sec, sh_flags sec) = kind))
         end)
    (ValueError "unsupported allocated module section: ");;
  raise_when (((sh_type sec =? 4) || (sh_type sec =? 9)) && negb (sh_size sec =? 0))
    (ValueError "module has unresolved relocations").

Definition undefined_symbol (row : symbol_row) : bool :=
  let '(_, _, info, _, index) := row in negb (Z.shiftr info 4 =? 0) && (index =? 0).

(** The entry loop body: the Thumb address of an entry symbol of the code sec. *)
Definition module_entry (elf : Elf) (text : section) (code : bytes) (name : string) : result Z :=
  ' (address, _, info, _, index) ← elf_symbol elf name;
  let address := Z.lor address 1 in
  raise_when (negb (info =? 0x12) || negb ((0 <? index) && (index <? blen (sections elf))))
    (ValueError "module entry outside executable code");;
  sec ← nth_item (sections elf) index;
  raise_when (negb (bool_decide (sec = text))
      || negb ((CODE_ADDRESS <=? clear_thumb address)
               && (clear_thumb address <=? CODE_ADDRESS + blen code - 2)))
    (ValueError "module entry outside executable code");;
  Ok address.

(** ["<4sHH14I"] *)
Definition fms2_fields : list field :=
  [FS 4; u16; u16; u32; u32; u32; u32; u32; u32; u32; u32; u32; u32; u32; u32; u32; u32].

(** The header fields for [n] code and [m] initialized bytes. *)
Definition fms2_values (api_address base bss_bytes setup loop n m : Z) : fmt_ty fms2_fields :=
  (ascii "FMS2", (2, (128, (0x4f4e414e, (api_address, (CODE_ADDRESS, (n, (setup, (loop, (base, (m,
    (base + m, (bss_bytes, (256 + n, (256 + n + m, (0, (0, tt))))))))))))))))).

(** The header and payload written once all extents are checked. *)
Definition emit_fms2 (api_address base bss_bytes setup loop : Z) (code initialized : bytes)
    : result bytes :=
  header ← pack_into LE fms2_fields (zeros 256) 0
    (fms2_values api_address base bss_bytes setup loop (blen code) (blen initialized));
  let payload := code ++ initialized in
  let header := splice header 64 (sha256 payload) in
  let header := splice header 96 (sha256 (slice 0 96 header)) in
  Ok (header ++ payload).

Definition module_capsule (data : bytes) (contract : resident_facts_v2)
    : result (bytes * module_extents) :=
  elf ← elf_init data;
  for_each check_module_section (named elf);;
  for_each (fun '(_, rows) => raise_when (existsb undefined_symbol rows)
    (ValueError "module has an undefined symbol")) (symbols elf);;
  text ← ditem (named elf) ".text";
  data_section ← ditem (named elf) ".data";
  bss ← ditem (named elf) ".bss";
  code ← section_bytes (elf_data elf) text;
  initialized ← section_bytes (elf_data elf) data_section;
  let base := rc_stateAddress contract in
  raise_when (negb (sh_addr text =? CODE_ADDRESS) || (blen code =? 0) || negb (blen code mod 4 =? 0)
      || negb (sh_addr data_section =? base) || negb (sh_addr bss =? base + blen initialized)
      || negb (blen initialized mod 4 =? 0) || negb (sh_size bss mod 4 =? 0)
      || (rc_stateCapacityBytes contract <? blen initialized + sh_size bss)
      || (rc_maximumCapsuleBytes contract <? 256 + blen code + blen initialized))
    (ValueError "module flash/RAM extent mismatch");;
  let expected_loads :=
    (if blen code =? 0 then [] else [(CODE_ADDRESS, CODE_ADDRESS, code)])
    ++ (if blen initialized =? 0 then [] else [(base, CODE_ADDRESS + blen code, initialized)]) in
  loads ← mapM (fun s => payload ← proof_extent (elf_data elf) (p_offset s) (p_filesz s);
                         Ok (p_vaddr s, p_paddr s, payload))
    (List.filter (fun s => (p_type s =? 1) && negb (p_filesz s =? 0)) (segments elf));
  raise_when (negb (bool_decide (loads = expected_loads)))
    (ValueError "module LOAD bytes do not match code and initialized-data extents");;
  setup ← module_entry elf text code "firmingo_sketch_setup";
  loop ← module_entry elf text code "firmingo_sketch_loop";
  capsule ← emit_fms2 (rc_apiAddress contract) base (sh_size bss) setup loop code initialized;
  Ok (capsule, {| codeBytes := blen code; dataBytes := blen initialized; bssBytes := sh_size bss;
                  setupAddress := setup; loopAddress := loop |}).

(** ** The emitted capsule at the firmware validator *)
Lemma entry_spec address bytes : u32_word address -> 0 <= bytes < 2 ^ 20 ->
  entry address bytes = true <->
  Z.odd address = true /\ CODE_ADDRESS <= address - 1 <= CODE_ADDRESS + bytes - 2.
Proof.
  unfold u32_word. intros Ha Hb. unfold entry. rewrite land_1_zero.
  change (add_u32 kSlotAddress kCodeOffset) with CODE_ADDRESS.
  destruct (Z.odd address) eqn:E; simpl; [|naive_solver].
  rewrite instruction_odd by done. breflect_goal. unfold CODE_ADDRESS in *. split.
  - intros [[H1 H2] H3]. rewrite (sub_u32_small (address - 1)) in * by lia.
    rewrite sub_u32_small in H3 by lia. lia.
  - intros [_ H]. rewrite (sub_u32_small (address - 1)) by lia. rewrite sub_u32_small by lia. lia.
Qed.

Lemma unpack_fms2 b : unpack LE fms2_fields b =
  (take 4 b, (half 4 b, (half 6 b, (word 8 b, (word 12 b, (word 16 b, (word 20 b, (word 24 b,
    (word 28 b, (word 32 b, (word 36 b, (word 40 b, (word 44 b, (word 48 b, (word 52 b, (word 56 b,
    (word 60 b, tt))))))))))))))))).
Proof. unfold word, half. cbv [unpack fms2_fields fdecode fsize int_val]. by rewrite !drop_drop. Qed.

(** The capsule as its five regions. *)
Definition fms2_regions (h code initialized : bytes) : bytes :=
  let d1 := sha256 (code ++ initialized) in
  h ++ d1 ++ sha256 (h ++ d1) ++ zeros 128 ++ code ++ initialized.

Lemma emit_fms2_regions api base bss setup loop code initialized :
  let v := fms2_values api base bss setup loop (blen code) (blen initialized) in
  exact fms2_fields v ->
  exists h, emit_fms2 api base bss setup loop code initialized = Ok (fms2_regions h code initialized) /\
    length h = 64%nat /\ forall k, unpack LE fms2_fields (h ++ k) = v.
Proof.
  intros v Hx. destruct (pack_exact LE fms2_fields v Hx) as (h & Hp & Hh & Hu).
  change (calcsize fms2_fields) with 64%nat in Hh. exists h. split; [|done].
  unfold emit_fms2. fold v. unfold pack_into. rewrite Hp. run_ok.
  assert (E : (0 <=? 0) && (0 + Z.of_nat (calcsize fms2_fields) <=? blen (zeros 256)) = true) by done.
  rewrite E. run_ok. f_equal. unfold fms2_regions. set (d1 := sha256 (code ++ initialized)).
  assert (Hd1 : length d1 = 32%nat) by apply length_sha256.
  assert (E0 : splice (zeros 256) 0 h = h ++ zeros 192).
  { unfold splice. rewrite Hh. done. }
  assert (E1 : splice (h ++ zeros 192) 64 d1 = (h ++ d1) ++ zeros 160).
  { unfold splice. rewrite take_app_length' by done. rewrite drop_app_ge by lia.
    rewrite Hh, Hd1, <- app_assoc. done. }
  assert (Hhd : length (h ++ d1) = 96%nat) by (rewrite length_app; lia).
  rewrite E0, E1. rewrite slice_app_l by (unfold blen; lia).
  replace (slice 0 96 (h ++ d1)) with (h ++ d1)
    by (symmetry; unfold slice; rewrite drop_0, take_ge; [done|lia]).
  set (d2 := sha256 (h ++ d1)). assert (Hd2 : length d2 = 32%nat) by apply length_sha256.
  unfold splice. rewrite take_app_length' by done. rewrite drop_app_ge by lia.
  rewrite Hhd, Hd2, <- !app_assoc. done.
Qed.

Lemma regions_slices h code initialized : length h = 64%nat ->
  let image := fms2_regions h code initialized in
  let d1 := sha256 (code ++ initialized) in
  blen image = 256 + blen code + blen initialized /\
  slice 0 96 image = h ++ d1 /\ slice 96 128 image = sha256 (h ++ d1) /\ slice 64 96 image = d1 /\
  slice 128 256 image = zeros 128 /\
  slice 256 (256 + blen code + blen initialized) image = code ++ initialized.
Proof.
  intros Hh image d1. assert (Hd1 : blen d1 = 32) by (unfold blen, d1; by rewrite length_sha256).
  assert (Hd2 : blen (sha256 (h ++ d1)) = 32) by (unfold blen; by rewrite length_sha256).
  assert (Hb : blen h = 64) by (unfold blen; lia).
  assert (Hz : blen (zeros 128) = 128) by done.
  unfold image, fms2_regions. fold d1. split_and!.
  - rewrite !blen_app. lia.
  - rewrite app_assoc. apply (slice_mid [] (h ++ d1)); [done|]. rewrite blen_app. lia.
  - rewrite app_assoc. apply slice_mid; rewrite ?blen_app; lia.
  - apply slice_mid; lia.
  - rewrite (app_assoc h), (app_assoc (h ++ d1)). apply slice_mid; rewrite ?blen_app; lia.
  - rewrite (app_assoc h), (app_assoc (h ++ d1)), (app_assoc ((h ++ d1) ++ _)).
    rewrite <- (app_nil_r (_ ++ code ++ initialized)), <- (app_assoc _ (code ++ initialized)).
    apply slice_mid; rewrite ?blen_app; lia.
Qed.

Lemma validate_regions api base bss setup loop h code initialized contract :
  (forall k, unpack LE fms2_fields (h ++ k) =
    fms2_values api base bss setup loop (blen code) (blen initialized)) ->
  length h = 64%nat -> valid_contract contract = true ->
  api_address contract = api -> state_address contract = base -> maximum_capsule_bytes contract = 4096 ->
  0 < blen code -> blen code mod 4 = 0 -> blen initialized mod 4 = 0 -> bss mod 4 = 0 -> 0 <= bss ->
  blen initialized + bss <= state_capacity_bytes contract ->
  256 + blen code + blen initialized <= 4096 ->
  entry setup (blen code) = true -> entry loop (blen code) = true ->
  validate_stateful (fms2_regions h code initialized) contract =
    (ok, Some {| s_image_bytes := 256 + blen code + blen initialized; s_code_bytes := blen code;
                 s_setup_address := setup; s_loop_address := loop;
                 s_data_load_offset := 256 + blen code; s_data_bytes := blen initialized;
                 s_bss_bytes := bss |}).
Proof.
  intros Hu Hh Hc Ha Hs Hm Hn0 Hn4 Hm4 Hb4 Hb0 Hcap Htot Hse Hle.
  set (image := fms2_regions h code initialized).
  assert (Hi : image = h ++ drop 64 image) by (unfold image, fms2_regions; by rewrite drop_app_length').
  specialize (Hu (drop 64 image)). rewrite <- Hi, unpack_fms2 in Hu. unfold fms2_values in Hu.
  injection Hu as W0 W4 W6 W8 W12 W16 W20 W24 W28 W32 W36 W40 W44 W48 W52 W56 W60.
  pose proof (blen_nonneg initialized).
  destruct (regions_slices h code initialized Hh) as (Hl & S1 & S2 & S3 & S4 & S5). fold image in Hl, S1, S2, S3, S4, S5.
  unfold validate_stateful. rewrite !Ha, !Hs, !Hm, Hc, !Hl, W0, W4, W6, W8, W12, W16, W20, W24, W28, W32, W36,
    W40, W44, W48, W52, W56, W60.
  assert (Hcc : state_capacity_bytes contract <= 2 ^ 18 /\ 0x20000000 <= base < 0x20040000).
  { unfold valid_contract in Hc. breflect. rewrite Hs in Hc. rewrite sub_u32_small in Hc by lia. lia. }
  unfold kCodeOffset. rewrite !(add_u32_small 256), !(add_u32_small base), !(add_u32_small (256 + _)),
    !(sub_u32_small 4096), !(sub_u32_small (state_capacity_bytes _)) by lia.
  unfold any_nonzero, hash_matches, kStatefulHeaderBytes, kCodeOffset. rewrite S1, S2, S3, S4, S5, Hse, Hle.
  rewrite !reject_Some. breflect_goal. split_and!; first [done | lia].
Qed.

(** What the firmware's contract check needs of the resident facts. *)
Definition firmware_contract (c : resident_facts_v2) : Contract :=
  {| api_address := rc_apiAddress c; state_address := rc_stateAddress c;
     state_capacity_bytes := rc_stateCapacityBytes c; maximum_capsule_bytes := rc_maximumCapsuleBytes c |}.

(** What [resident_contract] promises about the addresses it returns. *)
Record contract_facts (c : resident_facts_v2) : Prop := {
  cf_api : 0x10000000 <= rc_apiAddress c <= 0x10200000 - 52;
  cf_api_aligned : rc_apiAddress c mod 4 = 0;
  cf_state : 0x20000000 <= rc_stateAddress c;
  cf_state_end : rc_stateAddress c + 4096 <= 0x20040000;
  cf_state_aligned : rc_stateAddress c mod 4 = 0;
  cf_capacity : rc_stateCapacityBytes c = 4096;
  cf_maximum : rc_maximumCapsuleBytes c = 4096 }.

Lemma contract_facts_valid c : contract_facts c -> valid_contract (firmware_contract c) = true.
Proof.
  intros [? ? ? ? ? Hc Hm]. unfold valid_contract, firmware_contract. simpl. rewrite Hc, Hm.
  rewrite sub_u32_small by lia. unfold kSlotAddress, kCodeOffset, kMaximumCapsuleBytes.
  breflect_goal. split_and!; first [done | lia].
Qed.

Lemma elf_object_inv elf name size kind flags address sec :
  elf_object elf name size kind flags = Ok (address, sec) ->
  address mod 4 = 0 /\ sec ∈ sections elf /\ sh_type sec = kind /\ sh_flags sec = flags /\
  sh_addr sec <= address <= sh_addr sec + sh_size sec - size.
Proof.
  unfold elf_object. intros ([[[[a b] c] d] e] & _ & H)%bind_Ok.
  apply raise_when_bind in H as [_ H]. apply bind_Ok in H as (s & Hs & H).
  apply raise_when_bind in H as [Hc [= <- <-]]. apply nth_item_Ok, list_elem_of_lookup_2 in Hs.
  breflect. naive_solver.
Qed.

Lemma proof_extent_blen data o c b : proof_extent data o c = Ok b -> blen b = c.
Proof. apply extent_blen. Qed.

Lemma unpack_api_v2 b : unpack LE api_v2_fields b =
  (word 0 b, (half 4 b, (half 6 b, (word 8 b, (word 12 b, (word 16 b, (word 20 b, (word 24 b,
    (word 28 b, (word 32 b, (word 36 b, (word 40 b, (word 44 b, (word 48 b, tt)))))))))))))).
Proof.
  unfold word, half. cbv [unpack api_v2_fields fdecode fsize int_val]. by rewrite !drop_drop, drop_0.
Qed.

Lemma load_mappings_covers flash address size table : blen table = size ->
  load_mappings flash address size = [table] -> load_covers flash address table.
Proof.
  intros <- Hm. assert (Hin : table ∈ load_mappings flash address (blen table)).
  { rewrite Hm. by left. }
  unfold load_mappings in Hin. apply list_elem_of_omap in Hin as ([base payload] & Hin & Hs).
  destruct (_ && _) eqn:E; [|done]. injection Hs as Hs. breflect. exists base, payload.
  split_and!; [done|lia|lia|done].
Qed.

(** The version-two API table in 52 bytes. *)
Record fapi_v2_table (c : resident_facts_v2) (functions : list Z) (table : bytes) : Prop := {
  v2_size : blen table = 52;
  v2_magic : word 0 table = 0x49504146;
  v2_version : half 4 table = 2;
  v2_bytes : half 6 table = 52;
  v2_functions : functions = (fun i => word (8 + 4 * i) table) <$> seq 0 8;
  v2_state : word 40 table = rc_stateAddress c;
  v2_capacity : word 44 table = rc_stateCapacityBytes c;
  v2_maximum : word 48 table = rc_maximumCapsuleBytes c }.

(** An object symbol other than the arena itself stays clear of it. *)
Definition arena_owned (elf : Elf) (c : resident_facts_v2) : Prop :=
  forall name rows start count info other index sec,
    (name, rows) ∈ symbols elf -> (start, count, info, other, index) ∈ rows ->
    name <> "firmingo_sketch_state" -> count <> 0 -> Z.land info 15 = 1 -> 0 < index ->
    sections elf !! Z.to_nat index = Some sec -> Z.land (sh_flags sec) 2 <> 0 ->
    rc_stateAddress c + rc_stateCapacityBytes c <= start \/ start + count <= rc_stateAddress c.

Lemma overlaps_Ok elf c :
  for_each (fun '(name, rows) => for_each (overlaps_arena elf (rc_stateAddress c)
    (rc_stateCapacityBytes c) name) rows) (symbols elf) = Ok tt -> arena_owned elf c.
Proof.
  intros Hf%for_each_Ok name rows start count info other index sec Hn Hr Hne Hc Hi H0 Hs Hfl.
  rewrite Forall_forall in Hf. apply Hf in Hn. cbn beta iota in Hn.
  rewrite for_each_Ok, Forall_forall in Hn. apply Hn in Hr. unfold overlaps_arena in Hr.
  assert (Hb : index < blen (sections elf)).
  { apply lookup_lt_Some in Hs. unfold blen. lia. }
  rewrite (bool_decide_eq_false_2 _ Hne), (proj2 (Z.eqb_neq count 0) Hc), Hi,
    (proj2 (Z.ltb_lt _ _) H0), (proj2 (Z.ltb_lt _ _) Hb) in Hr. simpl in Hr.
  unfold nth_item in Hr. rewrite Hs in Hr. simpl in Hr. apply raise_when_Ok in Hr.
  rewrite (proj2 (Z.eqb_neq _ _) Hfl) in Hr. simpl in Hr.
  apply andb_false_iff in Hr. rewrite !Z.ltb_ge in Hr. lia.
Qed.

(** Everything [resident_contract] establishes, for the ELF reader's view of the file. *)
Lemma resident_contract_inv data c flash : resident_contract data = Ok (c, flash) ->
  contract_facts c /\
  exists elf legacy table, elf_init data = Ok elf /\ resident_elf data = Ok (legacy, flash) /\
    fapi_v2_table c (functionAddresses legacy) table /\ load_covers flash (rc_apiAddress c) table /\
    rc_apiTableSHA256 c = sha table /\ arena_owned elf c /\
    (rc_uploadTarget c <> None -> rc_runtimeEnabled c = true).
Proof.
  unfold resident_contract. intros ([legacy fl] & Hl & H)%bind_Ok.
  apply bind_Ok in H as (elf & He & H). apply bind_Ok in H as ([address sec] & Ho & H).
  apply raise_when_bind in H as [Ha H]. apply bind_Ok in H as (table & Ht & H).
  apply proof_extent_blen in Ht. rewrite unpack_exact_in_bounds, unpack_api_v2 in H by (simpl; lia).
  cbn [mbind result_bind] in H. apply raise_when_bind in H as [Hm H].
  apply bind_Ok in H as ([allocation s2] & Hal & H). apply raise_when_bind in H as [Hst H].
  apply raise_when_bind in H as [Hmap H]. apply bind_unit in H as [Hover H].
  apply bind_Ok in H as (bounds & _ & H).
  do 8 (apply bind_Ok in H as (? & _ & H)). apply raise_when_bind in H as [_ H].
  apply bind_unit in H as [_ H]. apply bind_Ok in H as (up & _ & H).
  apply raise_when_bind in H as [Hup H]. apply bind_Ok in H as (cp & _ & [= <- <-]).
  apply elf_object_inv in Ho as (Hal4 & _). apply elf_object_inv in Hal as (Hs4 & _).
  breflect. destruct Hst as [[[Hsa Hcap] Hmax] Hrange].
  split; [constructor; simpl; first [done | lia | congruence]|].
  exists elf, legacy, table. split_and!; [done..| | |done| |].
  - constructor; simpl; try tauto; try done. by symmetry; apply Hm.
  - simpl. by apply load_mappings_covers with 52.
  - by apply overlaps_Ok.
  - simpl. destruct up; [|done]. intros _. destruct (has_key _ _); [done|]. naive_solver.
Qed.

(** ** What [module_capsule] establishes before it writes *)
Lemma name_section_words names named sec named' :
  section_words sec -> Forall (fun item => section_words item.2) named ->
  name_section names named sec = Ok named' -> Forall (fun item => section_words item.2) named'.
Proof.
  unfold name_section. intros Hs Hn (name & _ & H)%bind_Ok.
  apply raise_when_bind in H as [_ [= <-]]. by apply Forall_dset.
Qed.

Lemma elf_init_words data elf : elf_init data = Ok elf ->
  elf_data elf = data /\ Forall (fun item => section_words item.2) (named elf).
Proof.
  unfold elf_init. intros ([] & _ & H)%bind_Ok. apply bind_Ok in H as (v & _ & H).
  repeat match type of H with (let '(_, _) := ?x in _) = _ => destruct x as [? x] end.
  apply raise_when_bind in H as [_ H]. do 2 (apply bind_Ok in H as (? & _ & H)).
  apply bind_Ok in H as (secs & Hsec & H). apply bind_Ok in H as (segs & _ & H).
  apply raise_when_bind in H as [_ H]. apply bind_Ok in H as (ss & _ & H).
  apply raise_when_bind in H as [_ H]. apply bind_Ok in H as (names & _ & H).
  apply bind_Ok in H as (nm & Hn & H). apply bind_Ok in H as (sy & _ & [= <-]).
  split; [done|]. simpl. apply read_sections_words, (Forall_drop _ 1) in Hsec.
  revert Hn. generalize (@nil (string * section)), (Forall_nil_2 (fun item : string * section => section_words item.2)).
  induction Hsec as [|s l1 Hs Hl1 IH]; intros nm0 H0; simpl; [by intros [= <-]|].
  intros (nm1 & H1 & H2)%bind_Ok. eapply IH; [|done]. by eapply name_section_words.
Qed.

Lemma module_entry_Ok elf text code name address :
  module_entry elf text code name = Ok address -> 
  Z.odd address = true /\ CODE_ADDRESS <= address - 1 <= CODE_ADDRESS + blen code - 2.
Proof.
  unfold module_entry. intros ([[[[a b] c] d] e] & _ & H)%bind_Ok.
  apply raise_when_bind in H as [_ H]. apply bind_Ok in H as (s & _ & H).
  apply raise_when_bind in H as [Hc [= <-]]. rewrite clear_thumb_lor_1 in Hc. breflect.
  split; [apply odd_lor_1|]. tauto.
Qed.

Lemma module_capsule_inv data c capsule x : module_capsule data c = Ok (capsule, x) ->
  exists code initialized setup loop bss,
    emit_fms2 (rc_apiAddress c) (rc_stateAddress c) bss setup loop code initialized = Ok capsule /\
    x = {| codeBytes := blen code; dataBytes := blen initialized; bssBytes := bss;
           setupAddress := setup; loopAddress := loop |} /\
    (0 < blen code /\ blen code mod 4 = 0 /\ blen initialized mod 4 = 0 /\ bss mod 4 = 0 /\ 0 <= bss) /\
    blen initialized + bss <= rc_stateCapacityBytes c /\
    256 + blen code + blen initialized <= rc_maximumCapsuleBytes c /\
    (Z.odd setup = true /\ CODE_ADDRESS <= setup - 1 <= CODE_ADDRESS + blen code - 2) /\
    (Z.odd loop = true /\ CODE_ADDRESS <= loop - 1 <= CODE_ADDRESS + blen code - 2).
Proof.
  unfold module_capsule. intros (elf & He & H)%bind_Ok. apply elf_init_words in He as [_ Hw].
  do 2 apply bind_unit in H as [_ H]. apply bind_Ok in H as (text & _ & H).
  apply bind_Ok in H as (dsec & _ & H). apply bind_Ok in H as (bss & Hbss & H).
  apply bind_Ok in H as (code & _ & H). apply bind_Ok in H as (ini & _ & H).
  apply raise_when_bind in H as [Hc H]. apply bind_Ok in H as (loads & _ & H).
  apply raise_when_bind in H as [_ H]. apply bind_Ok in H as (setup & Hs & H).
  apply bind_Ok in H as (loop & Hl & H). apply bind_Ok in H as (cap & Hcap & [= <- <-]).
  apply some_or_Ok, dget_In in Hbss. rewrite Forall_forall in Hw. apply Hw in Hbss as (_ & _ & [Hb _]).
  apply module_entry_Ok in Hs, Hl. pose proof (blen_nonneg code). breflect.
  exists code, ini, setup, loop, (sh_size bss). split_and!; try done; try tauto; lia.
Qed.

Lemma fms2_values_exact c bss setup loop n m :
  contract_facts c -> 0 <= n -> 0 <= m -> 0 <= bss -> m + bss <= rc_stateCapacityBytes c ->
  256 + n + m <= rc_maximumCapsuleBytes c ->
  CODE_ADDRESS <= setup - 1 <= CODE_ADDRESS + n - 2 -> CODE_ADDRESS <= loop - 1 <= CODE_ADDRESS + n - 2 ->
  exact fms2_fields (fms2_values (rc_apiAddress c) (rc_stateAddress c) bss setup loop n m).
Proof.
  intros [Ha _ Hst Hse _ Hc Hm] Hn Hm0 Hb. rewrite Hc, Hm. unfold fms2_values, CODE_ADDRESS.
  intros. simpl. lia.
Qed.

(** ** Which exceptions are possible *)
Lemma elf_string_raises data offset : ValueError_only (elf_string data offset).
Proof. unfold elf_string, decode_ascii. raises_tac. Qed.

Lemma section_bytes_raises data sec : ValueError_only (section_bytes data sec).
Proof. unfold section_bytes, proof_extent. raises_tac. Qed.

Lemma section_bytes_blen data sec b : section_bytes data sec = Ok b -> blen b = sh_size sec.
Proof. unfold section_bytes. intros [_ H]%raise_when_bind. by eapply proof_extent_blen. Qed.

#[export] Hint Resolve elf_string_raises section_bytes_raises : raises.

Lemma read_symbols_raises data sections symbols sec :
  ValueError_only (read_symbols data sections symbols sec).
Proof.
  unfold read_symbols. raises_tac.
  - apply nth_item_raises. inv_ok. breflect. lia.
  - unfold read_row. raises_tac. eapply read_row_raises; [done|by eapply section_bytes_blen|].
    inv_ok. breflect. naive_solver.
Qed.

Ltac proof_extents := repeat match goal with
  | H : extent _ _ _ _ = Ok _ |- _ => apply extent_Ok in H as (? & ? & ? & _)
  | H : raise_when _ _ = Ok _ |- _ => apply raise_when_Ok in H; breflect
  end.

Lemma elf_init_raises data : ValueError_only (elf_init data).
Proof.
  unfold elf_init, proof_extent. raises_tac; proof_extents.
  - apply (raises_unpack_from _ LE ehdr_fields); simpl; lia.
  - apply read_sections_raises; lia.
  - apply read_segments_raises; lia.
  - apply nth_item_raises. apply read_sections_length in H4; lia.
  - unfold name_section. raises_tac.
  - apply read_symbols_raises.
Qed.

Lemma elf_symbol_raises elf name : ValueError_only (elf_symbol elf name).
Proof. unfold elf_symbol. raises_tac. Qed.

#[export] Hint Resolve elf_init_raises elf_symbol_raises : raises.

Lemma elf_object_raises elf name size kind flags : ValueError_only (elf_object elf name size kind flags).
Proof. unfold elf_object. raises_tac. apply nth_item_raises. proof_extents. lia. Qed.

Lemma object_bytes_raises elf address size sec : ValueError_only (object_bytes elf address size sec).
Proof. unfold object_bytes, proof_extent. raises_tac. Qed.

Lemma decode_ascii_raises b : ValueError_only (decode_ascii b).
Proof. unfold decode_ascii. raises_tac. Qed.

#[export] Hint Resolve elf_object_raises object_bytes_raises decode_ascii_raises : raises.

Lemma object_bytes_blen elf address size sec b : object_bytes elf address size sec = Ok b -> blen b = size.
Proof. apply extent_blen. Qed.

(** The unpacking of an object read at its own size. *)
Lemma raises_unpack_object P l elf address size sec b :
  object_bytes elf address size sec = Ok b -> Z.of_nat (calcsize l) = size ->
  raises P (unpack_exact LE l b).
Proof. intros <-%object_bytes_blen Hs. rewrite unpack_exact_in_bounds by done. apply raises_ok. Qed.

Lemma upload_facts_raises elf flash : ValueError_only (upload_facts elf flash).
Proof. unfold upload_facts. raises_tac. by apply (raises_unpack_object _ fup2_fields _ _ _ _ _ H0). Qed.

Lemma checkpoint_marker_raises elf flash upload : ValueError_only (checkpoint_marker elf flash upload).
Proof.
  unfold checkpoint_marker. raises_tac. by apply (raises_unpack_object _ checkpoint_fields _ _ _ _ _ H0).
Qed.

Lemma overlaps_raises elf state capacity name row : ValueError_only (overlaps_arena elf state capacity name row).
Proof. unfold overlaps_arena. raises_tac. apply nth_item_raises. breflect. lia. Qed.

Lemma check_boot_marker_raises elf flash : ValueError_only (check_boot_marker elf flash).
Proof. unfold check_boot_marker. raises_tac. Qed.

#[export] Hint Resolve upload_facts_raises checkpoint_marker_raises overlaps_raises
  check_boot_marker_raises resident_elf_value_errors : raises.

Lemma linker_bounds_keys elf bounds : linker_bounds elf = Ok bounds -> keys bounds = bound_names.
Proof.
  unfold linker_bounds, keys. intros H%mapM_Ok. induction H as [|name b names bs Hb _ IH]; [done|].
  apply bind_Ok in Hb as ([[[[a ?] ?] ?] ?] & _ & [= <-]). rewrite fmap_cons, IH. done.
Qed.

Lemma bound_present P elf bounds name :
  linker_bounds elf = Ok bounds -> name ∈ bound_names -> raises P (ditem bounds name).
Proof.
  intros Hk%linker_bounds_keys Hn. rewrite <- Hk, <- has_key_spec in Hn. unfold has_key in Hn.
  apply bool_decide_eq_true in Hn as [v Hv]. unfold ditem. rewrite Hv. apply raises_ok.
Qed.

Lemma resident_contract_value_errors data : ValueError_only (resident_contract data).
Proof.
  unfold resident_contract. raises_tac; eauto with raises; [|unfold linker_bounds; raises_tac|..].
  { by apply (raises_unpack_object _ api_v2_fields _ _ _ _ _ H3). }
  all: eapply bound_present; [eassumption|]; apply (bool_decide_unpack _); reflexivity.
Qed.

(** The only failures of [module_capsule] besides [ValueError]: a missing section. *)
Definition missing_section (e : exn) : Prop :=
  e = KeyError ".text" \/ e = KeyError ".data" \/ e = KeyError ".bss".

Lemma module_entry_raises elf text code name : ValueError_only (module_entry elf text code name).
Proof. unfold module_entry. raises_tac. apply nth_item_raises. proof_extents. lia. Qed.

Lemma module_capsule_errors data c : contract_facts c ->
  raises (fun e => is_value_error e \/ missing_section e) (module_capsule data c).
Proof.
  intros Hf. assert (Hw : forall A (m : result A), ValueError_only m ->
    raises (fun e => is_value_error e \/ missing_section e) m).
  { intros A m Hm. eapply raises_weaken; [done|]. auto. }
  unfold module_capsule. raises_tac; try (apply raises_when; by left);
    try (apply Hw, module_entry_raises); try (apply raises_some_or; right; unfold missing_section; auto).
  - apply Hw. unfold check_module_section. raises_tac.
  - apply elf_init_words in H as [_ Hall]. rewrite Forall_forall in Hall. proof_extents.
    match goal with Hb : ditem _ ".bss" = Ok _ |- _ =>
      apply some_or_Ok, dget_In, Hall in Hb as (_ & _ & [Hb _]) end.
    repeat match goal with He : module_entry _ _ _ _ = Ok _ |- _ => apply module_entry_Ok in He end.
    destruct (emit_fms2_regions (rc_apiAddress c) (rc_stateAddress c) (sh_size a4) a10 a11 a5 a6)
      as (h & -> & _); [|apply raises_ok].
    apply fms2_values_exact; try done; try apply blen_nonneg; tauto.
Qed.

(** ** Properties *)

(** C1: A capsule that [module_capsule] writes for a contract read from an accepted resident passes
    the validator on the board, for the contract the resident carries: same code, data and BSS sizes,
    same entries, and both hashes verify. *)
Theorem module_capsule_valid_on_board resident c flash data capsule x :
  resident_contract resident = Ok (c, flash) -> module_capsule data c = Ok (capsule, x) ->
  validate_stateful capsule (firmware_contract c) =
    (ok, Some {| s_image_bytes := blen capsule; s_code_bytes := codeBytes x;
                 s_setup_address := setupAddress x; s_loop_address := loopAddress x;
                 s_data_load_offset := 256 + codeBytes x; s_data_bytes := dataBytes x;
                 s_bss_bytes := bssBytes x |}).
Proof.
  intros [Hf _]%resident_contract_inv (code & ini & setup & loop & bss & He & -> & Hn & Hcap & Hmax & Hs & Hl)%module_capsule_inv.
  pose proof (contract_facts_valid _ Hf) as Hv. pose proof (blen_nonneg code). pose proof (blen_nonneg ini).
  destruct (emit_fms2_regions (rc_apiAddress c) (rc_stateAddress c) bss setup loop code ini)
    as (h & He' & Hh & Hu); [by apply fms2_values_exact; tauto|].
  destruct Hf as [Ha _ Hst Hse _ Hc Hm]. rewrite Hc in Hcap. rewrite Hm in Hmax.
  unfold CODE_ADDRESS in Hs, Hl.
  rewrite He in He'. injection He' as ->. simpl.
  destruct (regions_slices h code ini Hh) as (Hbl & _). rewrite Hbl.
  eapply validate_regions; simpl; try done; try lia; rewrite ?Hc; try lia;
    apply entry_spec; unfold u32_word, CODE_ADDRESS; first [tauto | lia].
Qed.

(** C19: What an accepted candidate resident guarantees: its version-two API table carries the eight
    version-one functions and the state contract, a LOAD segment programs the table at the reported
    address, the state arena is 4 KiB of aligned SRAM that no other object symbol overlaps, and FMS2
    uploads are only offered with the boot runtime. *)
Theorem resident_contract_sound data c flash : resident_contract data = Ok (c, flash) ->
  contract_facts c /\
  exists elf legacy table, elf_init data = Ok elf /\ resident_elf data = Ok (legacy, flash) /\
    fapi_v2_table c (functionAddresses legacy) table /\ load_covers flash (rc_apiAddress c) table /\
    rc_apiTableSHA256 c = sha table /\ arena_owned elf c /\
    (rc_uploadTarget c <> None -> rc_runtimeEnabled c = true).
Proof. apply resident_contract_inv. Qed.

(** [resident_contract] fails with nothing but [ValueError] on any bytes: no struct read, section
    index or linker symbol lookup can fail in another way. *)
Theorem resident_contract_raises data : ValueError_only (resident_contract data).
Proof. apply resident_contract_value_errors. Qed.

(** C20: For a contract read from an accepted resident, [module_capsule] fails on a module ELF with
    [ValueError], or with [KeyError] when one of the three sections is missing; no header field
    overflows its width. *)
Theorem module_capsule_raises resident c flash data : resident_contract resident = Ok (c, flash) ->
  raises (fun e => is_value_error e \/ missing_section e) (module_capsule data c).
Proof. intros [Hf _]%resident_contract_inv. by apply module_capsule_errors. Qed.

(** ** A concrete resident and module *)
Definition demo_rodata_address : Z := 0x10001000.
Definition demo_state : Z := 0x20008000.

Definition demo_functions : list Z := (fun i => 0x10002001 + 2 * i) <$> seqZ 0 8.

Definition demo_rodata : bytes :=
  le_words [0x49504146] ++ le_bytes 2 1 ++ le_bytes 2 40 ++ le_words demo_functions
  ++ le_words [0x49504146] ++ le_bytes 2 2 ++ le_bytes 2 52
  ++ le_words (demo_functions ++ [demo_state; 4096; 4096]).

Definition demo_resident_names : list string :=
  ["firmingo_sketch_api"; "firmingo_sketch_api_v2"; "firmingo_sketch_state"] ++ bound_names.

Definition demo_resident_elf : bytes :=
  let secs := [
    null_section;
    bytes_section ".rodata" 1 2 demo_rodata_address demo_rodata;
    bytes_section ".text" 1 6 0x10002000 (fill "001"%byte 64);
    Build_demo_section ".bss" 8 3 demo_state 4096 [] 0 0;
    string_section ".strtab" demo_resident_names;
    symtab_section 4 demo_resident_names ([
      (demo_rodata_address, 40, 0x11, 1); (demo_rodata_address + 40, 52, 0x11, 1);
      (demo_state, 4096, 0x11, 3)] ++ ((fun a => (a, 0, 0x10, 3)) <$>
        [demo_state; demo_state + 4096; demo_state + 4096; 0x20040000; 0x20040000; 0x20041000;
         0x20041000; 0x20042000]))] in
  let names := (ds_name <$> secs) ++ [".shstrtab"] in
  make_elf [(1%nat, demo_rodata_address, demo_rodata_address); (2%nat, 0x10002000, 0x10002000)]
    (secs ++ [string_section ".shstrtab" names]).

Definition demo_module_names : list string := ["firmingo_sketch_setup"; "firmingo_sketch_loop"].

Definition demo_module_elf : bytes :=
  let code := fill "191"%byte 16 in
  let secs := [
    null_section;
    bytes_section ".text" 1 6 CODE_ADDRESS code;
    bytes_section ".data" 1 3 demo_state (le_words [7]);
    Build_demo_section ".bss" 8 3 (demo_state + 4) 4 [] 0 0;
    string_section ".strtab" demo_module_names;
    symtab_section 4 demo_module_names [(CODE_ADDRESS + 1, 4, 0x12, 1); (CODE_ADDRESS + 5, 4, 0x12, 1)]] in
  let names := (ds_name <$> secs) ++ [".shstrtab"] in
  make_elf [(1%nat, CODE_ADDRESS, CODE_ADDRESS); (2%nat, demo_state, CODE_ADDRESS + 16)]
    (secs ++ [string_section ".shstrtab" names]).


Definition empty_facts : resident_facts_v2 :=
  Build_resident_facts_v2 0 "" 0 0 0 "" [] 0 false false None None.

Definition demo_contract : resident_facts_v2 :=
  match resident_contract demo_resident_elf with Ok (c, _) => c | Raise _ => empty_facts end.
Definition demo_flash : list (Z * bytes) :=
  [(demo_rodata_address, demo_rodata); (0x10002000, fill "001"%byte 64)].

Definition demo_fms2 : bytes :=
  match module_capsule demo_module_elf demo_contract with Ok (b, _) => b | Raise _ => [] end.

Lemma module_capsule_valid_on_board_witness :
  (validate_stateful demo_fms2 (firmware_contract demo_contract)).1 = ok.
Proof.
  rewrite (module_capsule_valid_on_board demo_resident_elf demo_contract demo_flash demo_module_elf
    demo_fms2 (Build_module_extents 16 4 4 0x10200101 0x10200105)); [reflexivity|..];
    vm_compute; reflexivity.
Defined.

Lemma resident_contract_sound_witness : contract_facts demo_contract.
Proof.
  destruct (resident_contract_sound demo_resident_elf demo_contract demo_flash) as [H _];
    [vm_compute; reflexivity|exact H].
Defined.

Lemma module_capsule_raises_witness :
  raises (fun e => is_value_error e \/ missing_section e) (module_capsule demo_resident_elf demo_contract).
Proof.
  apply (module_capsule_raises demo_resident_elf demo_contract demo_flash). vm_compute. reflexivity.
Defined.
