(* ===== verification/ComposeStateful.v ===== *)
(** * experiments/managed_sketch/compose_stateful_initial.py

    The pinned FMS2 composer. The native capsule checker it runs is a parameter,
    [native_check]: return code, standard output and standard error of one run, or the exception of a
    checker that is missing or takes too long. *)

From stdpp Require Import base tactics list list_numbers strings gmap.
From Stdlib Require Import ZArith Lia Strings.Byte.
From S2P Require Import Prelude.
From S2P Require Import PyBytes.
From S2P Require Import PyText.
From S2P Require Import PyRegex.
From S2P Require Import BuildComposite.
From S2P Require Import ComposeInitial.
From S2P Require Import FirmwareImage.
From S2P Require Import ExportResident.

Local Open Scope Z_scope.

(** ["<IHH"] and ["<3I"] *)
Definition table_head : list field := [u32; u16; u16].
Definition three_words : list field := [u32; u32; u32].

(** [{address + i: b[32 + i] for b in blocks for i in range(256)}] *)
Definition block_memory (memory : gmap Z byte) (block : bytes) : gmap Z byte :=
  foldl (fun m '(i, x) => <[uf2_address block + i := x]> m) memory (enumerate (uf2_payload block)).
Definition resident_memory (blocks : list bytes) : gmap Z byte := foldl block_memory ∅ blocks.

(** [bytes(memory[api + i] for i in range(n))]; a missing address is the [ValueError]. *)
Definition read_memory (memory : gmap Z byte) (api n : Z) : result bytes :=
  mapM (fun i => some_or (memory !! (api + i)) (ValueError "Selected resident API is absent from UF2"))
    (seqZ 0 n).

Section Compose.
Context (native_check : bytes -> Z -> Z -> Z -> result (Z * string * string)).

Definition compose_stateful (resident capsule : bytes) (api state capacity : Z)
    : result (bytes * string) :=
  blocks ← checked_resident_bytes resident;
  table ← read_memory (resident_memory blocks) api 52;
  ' (magic, (version, (size, _))) ← unpack_from LE table_head table 0;
  ' (s, (c, (m, _))) ← unpack_from LE three_words table 40;
  raise_when (negb ((magic =? 0x49504146) && (version =? 2) && (size =? 52))
              || negb ((s =? state) && (c =? capacity) && (m =? 4096)))
    (ValueError "Selected API/state facts do not match the actual resident");;
  raise_when (negb ((260 <=? blen capsule) && (blen capsule <=? 4096)))
    (ValueError "FMS2 capsule exceeds initial sector limit");;
  ' (returncode, stdout, stderr) ← native_check capsule api state capacity;
  raise_when (negb (returncode =? 0) || (8192 <? Z.of_nat (String.length stdout)) || (8192 <? Z.of_nat (String.length stderr)))
    (ValueError "Production FMS2 checker rejected the selected capsule: ");;
  let sector := capsule ++ fill "255"%byte (4096 - blen capsule) in
  let total := blen blocks + 16 in
  numbered ← renumber total blocks;
  final ← foldM (append_block total sector) numbered (range 0 4096 256);
  Ok (concat final, strip_text stdout).
End Compose.

(** ** The byte map of a resident *)
Lemma insert_run (m : gmap Z byte) k base (l : bytes) a :
  foldl (fun m '(i, x) => <[base + i := x]> m) m (zip (seqZ k (blen l)) l) !! a =
  if decide (base + k <= a < base + k + blen l) then l !! Z.to_nat (a - base - k) else m !! a.
Proof.
  revert m k. induction l as [|x l IH]; intros m k.
  { unfold blen. simpl. rewrite decide_False by lia. done. }
  unfold blen. simpl length. rewrite seqZ_cons by lia. cbn [zip zip_with foldl].
  replace (Z.pred (Z.of_nat (S (length l)))) with (blen l) by (unfold blen; lia).
  rewrite IH. unfold blen. destruct (decide (a = base + k)) as [->|Hne].
  - rewrite decide_False, decide_True, lookup_insert_eq by lia.
    by replace (Z.to_nat (base + k - base - k)) with 0%nat by lia.
  - rewrite lookup_insert_ne by done. repeat case_decide; try lia; [|done].
    by replace (Z.to_nat (a - base - k)) with (S (Z.to_nat (a - base - Z.succ k))) by lia.
Qed.

Lemma block_memory_lookup m b a : length b = 512%nat ->
  block_memory m b !! a = if decide (uf2_address b <= a < uf2_address b + 256)
    then uf2_payload b !! Z.to_nat (a - uf2_address b) else m !! a.
Proof.
  intros Hb. unfold block_memory, enumerate. rewrite insert_run, Z.add_0_r.
  replace (blen (uf2_payload b)) with 256
    by (unfold uf2_payload; rewrite blen_slice; unfold blen; lia).
  case_decide; [|done]. f_equal. lia.
Qed.

(** Aligned pages that share a byte have the same address. *)
Lemma same_page x y a : x mod 256 = 0 -> y mod 256 = 0 -> x <= a < x + 256 -> y <= a < y + 256 -> x = y.
Proof. intros. Z.to_euclidean_division_equations. lia. Qed.

Lemma resident_memory_lookup data blocks a b : valid_resident data blocks ->
  resident_memory blocks !! a = Some b <-> uf2_byte blocks a b.
Proof.
  intros [_ _ Hu Ha Hd]. assert (Hl : Forall (fun b => length b = 512%nat) blocks).
  { apply Forall_lookup. intros i x Hx. by eapply ub_length, Hu. }
  clear Hu. unfold resident_memory, uf2_byte. induction blocks as [|x l IH] using rev_ind.
  { simpl. rewrite lookup_empty. split; [done|]. by intros (? & ?%elem_of_nil & _). }
  apply Forall_app in Ha as [Ha [Hx _]%Forall_cons], Hl as [Hl [Hxl _]%Forall_cons].
  rewrite fmap_app in Hd. apply NoDup_app in Hd as (Hd & Hn & _).
  rewrite foldl_app. simpl. rewrite block_memory_lookup by done.
  setoid_rewrite elem_of_app. setoid_rewrite list_elem_of_singleton.
  case_decide as Hr; [split|].
  2: { intros (y & [Hy| ->] & Hr' & Hb); [|done]. exfalso. apply (Hn (uf2_address y)).
    - by apply list_elem_of_fmap_2.
    - simpl. rewrite Forall_forall in Ha. destruct (Ha _ Hy), Hx.
      rewrite (same_page (uf2_address y) (uf2_address x) a) by done. left. }
  { intros Hb. exists x. auto. }
  rewrite IH by done. split; intros (y & Hy & Hr' & Hb); [by exists y; auto|].
  destruct Hy as [Hy| ->]; [by exists y|done].
Qed.

Lemma read_memory_Ok memory api n table : 0 <= n -> read_memory memory api n = Ok table ->
  blen table = n /\ forall i b, table !! i = Some b -> memory !! (api + Z.of_nat i) = Some b.
Proof.
  unfold read_memory. intros Hn H%mapM_Ok. split.
  - apply Forall2_length in H. rewrite length_seqZ in H. unfold blen. lia.
  - intros i b Hb. destruct (Forall2_lookup_r _ _ _ _ _ H Hb) as (k & Hk & Hs).
    apply lookup_seqZ in Hk as [-> _]. apply some_or_Ok in Hs. by rewrite Z.add_0_l in Hs.
Qed.

Lemma unpack_table_head b : unpack LE table_head b = (word 0 b, (half 4 b, (half 6 b, tt))).
Proof. unfold word, half. cbv [unpack table_head fdecode fsize int_val]. by rewrite !drop_drop, drop_0. Qed.

Lemma unpack_three b : unpack LE three_words b = (word 0 b, (word 4 b, (word 8 b, tt))).
Proof. unfold word. cbv [unpack three_words fdecode fsize int_val]. by rewrite !drop_drop, drop_0. Qed.

(** ** Properties *)
Section Properties.
Context (native_check : bytes -> Z -> Z -> Z -> result (Z * string * string)).

Lemma compose_stateful_inv resident capsule api state capacity image out :
  compose_stateful native_check resident capsule api state capacity = Ok (image, out) ->
  exists blocks table final, valid_resident resident blocks /\
    (blen table = 52 /\ word 0 table = 0x49504146 /\ half 4 table = 2 /\ half 6 table = 52 /\
     word 40 table = state /\ word 44 table = capacity /\ word 48 table = 4096) /\
    (forall i b, table !! i = Some b -> uf2_byte blocks (api + Z.of_nat i) b) /\
    (exists stdout err, native_check capsule api state capacity = Ok (0, stdout, err) /\ out = strip_text stdout) /\
    image = concat final /\ uf2_image final /\ blen final = blen blocks + 16 /\
    flash_writes image =
      flash_writes resident ++ slot_writes (capsule ++ fill "255"%byte (4096 - blen capsule)).
Proof.
  unfold compose_stateful. intros (blocks & Hr%checked_resident_bytes_iff & H)%bind_Ok.
  apply bind_Ok in H as (table & Ht & H). apply read_memory_Ok in Ht as [Hl Ht]; [|done].
  rewrite !unpack_from_in_bounds in H by (simpl; lia).
  rewrite unpack_table_head, unpack_three, drop_0, !word_drop in H.
  cbn [mbind result_bind] in H. apply raise_when_bind in H as [Hf H]. apply raise_when_bind in H as [Hs H].
  apply bind_Ok in H as ([[code out'] err] & E & H).
  apply raise_when_bind in H as [Hc H]. breflect.
  assert (Hbd : blen blocks <= 8192) by (eapply resident_blocks_le, checked_resident_bytes_iff; done).
  set (sector := capsule ++ _) in *.
  assert (Hsl : blen sector = 256 * 16).
  { unfold sector. rewrite blen_app, blen_fill; lia. }
  pose proof Hr as [Hcat _ Hu _ _].
  destruct (compose_core (append_block (blen blocks + 16) sector) blocks sector (blen blocks + 16) 16)
    as (final & Hfin & Hfu & Hfl & Hw); [done|done|lia|done|lia|done|done|].
  apply bind_Ok in H as (res & Hres & H). rewrite Hres in Hfin. rewrite Hsl in Hfin.
  change (256 * 16) with 4096 in Hfin. cbn [mbind result_bind] in Hfin. rewrite Hfin in H.
  cbn [mbind result_bind] in H. injection H as <- <-.
  exists blocks, table, final. rewrite Hcat in Hw. split_and!; try done; try tauto.
  - intros i b Hb. apply (resident_memory_lookup resident); [done|]. by apply Ht.
  - exists out', err. destruct Hc as [[-> _] _]. done.
Qed.

(** The stateful composer succeeds only when the UF2 itself holds a version-two API table with
    the selected state facts at the selected address and the native checker accepted the capsule;
    the image is then a consecutively numbered UF2 that writes the resident pages unchanged and the
    capsule padded to one sector at the start of the sketch slot. *)
Theorem compose_stateful_correct resident capsule api state capacity image out :
  compose_stateful native_check resident capsule api state capacity = Ok (image, out) ->
  exists blocks table final, valid_resident resident blocks /\
    (blen table = 52 /\ word 0 table = 0x49504146 /\ half 4 table = 2 /\ half 6 table = 52 /\
     word 40 table = state /\ word 44 table = capacity /\ word 48 table = 4096) /\
    (forall i b, table !! i = Some b -> uf2_byte blocks (api + Z.of_nat i) b) /\
    (exists stdout err, native_check capsule api state capacity = Ok (0, stdout, err) /\ out = strip_text stdout) /\
    image = concat final /\ uf2_image final /\ blen final = blen blocks + 16 /\
    flash_writes image =
      flash_writes resident ++ slot_writes (capsule ++ fill "255"%byte (4096 - blen capsule)).
Proof. apply compose_stateful_inv. Qed.
End Properties.

(** ** A concrete composition *)
Definition demo_v2_state : Z := 0x20008000.
Definition demo_v2_resident : bytes :=
  let table := le_bytes 4 0x49504146 ++ le_bytes 2 2 ++ le_bytes 2 52 ++ zeros 32
    ++ le_bytes 4 demo_v2_state ++ le_bytes 4 4096 ++ le_bytes 4 4096 in
  or_empty (new_block 0x10000000 0 1 (table ++ zeros 204)).
Definition demo_v2_capsule : bytes := zeros 260.

Lemma compose_stateful_correct_witness :
  let check := fun (_ : bytes) (_ _ _ : Z) => Ok (0, "ok", "") in
  exists image final, compose_stateful check demo_v2_resident demo_v2_capsule 0x10000000 demo_v2_state 4096
    = Ok (image, "ok") /\ image = concat final /\ blen final = 17.
Proof.
  intros check.
  destruct (compose_stateful check demo_v2_resident demo_v2_capsule 0x10000000 demo_v2_state 4096)
    as [[image out]|] eqn:E; [|vm_compute in E; discriminate E].
  assert (Ho : out = "ok") by (vm_compute in E; injection E as _ <-; reflexivity). subst out.
  destruct (compose_stateful_correct check _ _ _ _ _ _ _ E)
    as (blocks & table & final & Hr & _ & _ & _ & H1 & _ & H2 & _).
  exists image, final. split; [reflexivity|]. split; [exact H1|]. rewrite H2.
  destruct Hr as [Hcat _ Hu _ _]. apply blen_image in Hu. rewrite Hcat in Hu.
  change (blen demo_v2_resident) with (1 * 512) in Hu. apply Z.mul_reg_r in Hu; [|discriminate].
  rewrite <- Hu. reflexivity.
Defined.
