(* ===== verification/PyJson.v ===== *)
(** * JSON values as Python sees them

    The values [json.loads] returns and [json.dumps] takes, with Python's own equality:
    a boolean equals the integer it stands for, an integer equals a float of the same
    value, and two dictionaries are equal whatever the order of their items. *)

From stdpp Require Import base tactics list strings.
From Stdlib Require Import ZArith Lia Floats.SpecFloat.
From S2P Require Import Prelude.
From S2P Require Import PyBytes.
From S2P Require Import PyDict.

Local Open Scope Z_scope.

Inductive json : Type :=
| JNull
| JBool (b : bool)
| JInt (z : Z)
| JFloat (f : spec_float)
| JStr (s : string)
| JArr (l : list json)
| JObj (d : dict json).

Definition zbool (b : bool) : Z := if b then 1 else 0.

(** [z == f] and [f == g] for floats, by value *)
Definition float_is (z : Z) (f : spec_float) : bool :=
  match f with
  | S754_zero _ => z =? 0
  | S754_finite s m e =>
      let m := if s then Zneg m else Zpos m in
      if 0 <=? e then z =? m * 2 ^ e else z * 2 ^ (- e) =? m
  | _ => false
  end.

(** The number a value stands for in a comparison. *)
Definition as_int (v : json) : option Z :=
  match v with JBool b => Some (zbool b) | JInt z => Some z | _ => None end.

(** [v == w] *)
Fixpoint py_eq (v w : json) {struct v} : bool :=
  match v, w with
  | JNull, JNull => true
  | JStr s, JStr t => bool_decide (s = t)
  | JFloat f, JFloat g => SFeqb f g
  | JArr l, JArr k =>
      (fix go (l k : list json) : bool :=
         match l, k with
         | [], [] => true
         | x :: l, y :: k => py_eq x y && go l k
         | _, _ => false
         end) l k
  | JObj d, JObj e =>
      (length d =? length e)%nat &&
      (fix go (d : dict json) : bool :=
         match d with
         | [] => true
         | (key, x) :: d => match dget e key with Some y => py_eq x y | None => false end && go d
         end) d
  | JFloat f, _ => match as_int w with Some z => float_is z f | None => false end
  | _, JFloat f => match as_int v with Some z => float_is z f | None => false end
  | _, _ => match as_int v, as_int w with Some a, Some b => a =? b | _, _ => false end
  end.

(** ** Order

    [v < w] ([strict]) and [v <= w]: numbers by value, strings and lists in lexicographic order; any
    other pair raises [TypeError]. *)
Definition z_order (strict : bool) (a b : Z) : bool := if strict then a <? b else a <=? b.

(** An integer against a float of finite value [m * 2 ^ e]; [int_left] says which one is on the left. *)
Definition float_order (strict int_left : bool) (z : Z) (f : spec_float) : bool :=
  let order a b := if int_left then z_order strict a b else z_order strict b a in
  match f with
  | S754_zero _ => order z 0
  | S754_infinity s => Bool.eqb s (negb int_left)
  | S754_nan => false
  | S754_finite s m e =>
      let m := if s then Zneg m else Zpos m in
      if 0 <=? e then order z (m * 2 ^ e) else order (z * 2 ^ (- e)) m
  end.

Definition string_order (strict : bool) (s t : string) : bool :=
  match String.compare s t with Lt => true | Eq => negb strict | Gt => false end.

Definition unordered : exn := TypeError "not supported between instances".

Fixpoint py_order (strict : bool) (v w : json) {struct v} : result bool :=
  match v, w with
  | JStr s, JStr t => Ok (string_order strict s t)
  | JArr l, JArr k =>
      (fix go (l k : list json) : result bool :=
         match l, k with
         | [], [] => Ok (negb strict)
         | [], _ => Ok true
         | _, [] => Ok false
         | x :: l, y :: k => if py_eq x y then go l k else py_order strict x y
         end) l k
  | JFloat f, JFloat g => Ok (if strict then SFltb f g else SFleb f g)
  | JFloat f, _ => match as_int w with Some z => Ok (float_order strict false z f) | None => Raise unordered end
  | _, JFloat f => match as_int v with Some z => Ok (float_order strict true z f) | None => Raise unordered end
  | _, _ => match as_int v, as_int w with Some a, Some b => Ok (z_order strict a b) | _, _ => Raise unordered end
  end.

(** [d.get(key, value)] *)
Definition jget_or (d : dict json) (key : string) (value : json) : json := default value (dget d key).

(** [bool(v)] *)
Definition truthy (v : json) : bool :=
  match v with
  | JNull => false
  | JBool b => b
  | JInt z => negb (z =? 0)
  | JFloat f => match f with S754_zero _ => false | _ => true end
  | JStr s => negb (bool_decide (s = ""))
  | JArr l => negb (length l =? 0)%nat
  | JObj d => negb (length d =? 0)%nat
  end.

(** [type(v) is int], [type(v) is bool] and [isinstance(v, ...)] *)
Definition type_is_int (v : json) : bool := match v with JInt _ => true | _ => false end.
Definition type_is_bool (v : json) : bool := match v with JBool _ => true | _ => false end.
Definition is_int_instance (v : json) : bool := match v with JInt _ | JBool _ => true | _ => false end.
Definition is_str (v : json) : bool := match v with JStr _ => true | _ => false end.
Definition is_dict (v : json) : bool := match v with JObj _ => true | _ => false end.
Definition is_list (v : json) : bool := match v with JArr _ => true | _ => false end.

(** The attributes of a dictionary: anything else has none of them. *)
Definition as_dict (v : json) : result (dict json) :=
  match v with JObj d => Ok d | _ => Raise (AttributeError "object has no attribute 'get'") end.

(** The integer behind a value whose type is known to be [int]. *)
Definition int_of (v : json) : Z := match v with JInt z => z | JBool b => zbool b | _ => 0 end.

(** [type(v) is int and low <= v <= high] *)
Definition int_within (low high : Z) (v : json) : bool :=
  match v with JInt z => (low <=? z) && (z <=? high) | _ => false end.

(** [d.get(key)] with Python's default of [None] *)
Definition jget (d : dict json) (key : string) : json := default JNull (dget d key).

(** ** Text form

    [json.loads(data)] and [json.dumps(value, separators=(',', ':')).encode()], whose text format the
    programs never look into. *)
Class Json := { json_loads : bytes -> result json; json_dumps : dict json -> bytes }.

(** ** Equality with a literal *)
Lemma py_eq_str v s : py_eq v (JStr s) = true <-> v = JStr s.
Proof.
  destruct v; simpl; try (split; congruence). rewrite bool_decide_eq_true. split; congruence.
Qed.

Lemma py_eq_str_l v s : py_eq (JStr s) v = true -> v = JStr s.
Proof. destruct v; try done. simpl. by intros ->%bool_decide_eq_true. Qed.

Lemma py_eq_bool_true v : py_eq v (JBool true) = true ->
  v = JBool true \/ v = JInt 1 \/ exists f, v = JFloat f.
Proof.
  destruct v as [|b|z|f|s|l|d]; simpl; try done; [destruct b; [auto|done]| |eauto].
  intros ->%Z.eqb_eq. auto.
Qed.

Lemma py_eq_int v z : type_is_int v = true -> py_eq v (JInt z) = (int_of v =? z).
Proof. by destruct v. Qed.

Lemma type_is_int_spec v : type_is_int v = true <-> exists z, v = JInt z.
Proof. destruct v; simpl; naive_solver. Qed.

Lemma int_within_spec low high v : int_within low high v = true <-> exists z, v = JInt z /\ low <= z <= high.
Proof.
  destruct v; simpl; try (split; [done|naive_solver]).
  rewrite andb_true_iff, !Z.leb_le. naive_solver.
Qed.

(** A key whose value is not [None] is there. *)
Lemma jget_dget d k v : jget d k = v -> v <> JNull -> dget d k = Some v.
Proof. unfold jget. destruct (dget d k); simpl; naive_solver. Qed.

(** [s == d.get(k)] *)
Lemma str_eq_jget d k s : py_eq (JStr s) (jget d k) = true -> dget d k = Some (JStr s).
Proof. unfold jget. destruct (dget d k) as [v|]; [|done]. destruct v; try done. simpl. by intros ->%bool_decide_eq_true. Qed.

