(* ===== verification/Effects.v ===== *)
(** * Programs that talk to a device, a clock and the file system

    A call signature lists what a program can ask of its environment, with the type of
    each answer. A program is a function of the environment and of the calls made so
    far; it yields a result and the calls it made itself. The environment may answer,
    or raise, as it likes, depending on all earlier calls: theorems about programs
    quantify over every environment. *)

From stdpp Require Import base tactics list strings.
From Stdlib Require Import ZArith Lia.
From S2P Require Import Prelude.

Section Programs.
Context {call : Type} (ret : call -> Type).

(** The answer to a call, given the calls before it (oldest first). *)
Definition environment : Type := list call -> forall c : call, result (ret c).

Definition io (A : Type) : Type := environment -> list call -> result A * list call.
End Programs.
Arguments environment {call} ret.
Arguments io {call} ret A.

Section Operations.
Context {call : Type} {ret : call -> Type}.

Definition io_pure {A} (m : result A) : io ret A := fun _ _ => (m, []).

Definition io_bind {A B} (m : io ret A) (f : A -> io ret B) : io ret B := fun env h =>
  let '(r, n) := m env h in
  match r with
  | Ok a => let '(r, n') := f a env (h ++ n) in (r, n ++ n')
  | Raise e => (Raise e, n)
  end.

(** One call. *)
Definition ask (c : call) : io ret (ret c) := fun env h => (env h c, [c]).

(** [try: m except <handled>: handler] *)
Definition try_except {A} (m : io ret A) (handled : exn -> bool) (handler : exn -> io ret A) : io ret A :=
  fun env h =>
  let '(r, n) := m env h in
  match r with
  | Ok a => (Ok a, n)
  | Raise e => if handled e then let '(r, n') := handler e env (h ++ n) in (r, n ++ n') else (Raise e, n)
  end.

(** [try: m finally: f]; an exception of [f] replaces the outcome. *)
Definition try_finally {A} (m : io ret A) (f : io ret unit) : io ret A := fun env h =>
  let '(r, n) := m env h in
  let '(q, n') := f env (h ++ n) in
  (match q with Ok _ => r | Raise e => Raise e end, n ++ n').

(** [for x in l: s = f(s, x)] *)
Fixpoint io_fold {S X} (f : S -> X -> io ret S) (s : S) (l : list X) : io ret S :=
  match l with
  | [] => io_pure (Ok s)
  | x :: l => io_bind (f s x) (fun s => io_fold f s l)
  end.

(** [while True: s = body(s)] until the body leaves with a value; [OutOfFuel] when it has not
    left after [fuel] turns. *)
Fixpoint io_loop {S A} (fuel : nat) (body : S -> io ret (S + A)) (s : S) : io ret A :=
  match fuel with
  | O => io_pure (Raise OutOfFuel)
  | Datatypes.S fuel =>
      io_bind (body s) (fun o => match o with inl s => io_loop fuel body s | inr a => io_pure (Ok a) end)
  end.
End Operations.

#[export] Instance io_ret {call} (ret : call -> Type) : MRet (io ret) := fun A a => io_pure (Ok a).
#[export] Instance io_mbind {call} (ret : call -> Type) : MBind (io ret) := fun A B f m => io_bind m f.

(** [raise e] and [if c: raise e] in a program *)
Notation io_raise e := (io_pure (Raise e)).
Notation io_when c e := (io_pure (raise_when c e)).

(** ** Runs

    [runs env h m r n]: from the history [h], [m] ends with [r] after the calls [n]. *)
Section Runs.
Context {call : Type} {ret : call -> Type} (env : environment ret).

Definition runs {A} (h : list call) (m : io ret A) (r : result A) (n : list call) : Prop :=
  m env h = (r, n).

Lemma runs_pure {A} h (m r : result A) n : runs h (io_pure m) r n <-> r = m /\ n = [].
Proof. unfold runs, io_pure. naive_solver. Qed.

Lemma runs_ask h c r n : runs h (ask c) r n <-> r = env h c /\ n = [c].
Proof. unfold runs, ask. naive_solver. Qed.

Lemma runs_bind {A B} h (m : io ret A) (f : A -> io ret B) r n :
  runs h (m ≫= f) r n <->
  (exists e, runs h m (Raise e) n /\ r = Raise e) \/
  (exists a n1 n2, runs h m (Ok a) n1 /\ runs (h ++ n1) (f a) r n2 /\ n = n1 ++ n2).
Proof.
  unfold runs, mbind, io_mbind, io_bind. destruct (m env h) as [[a|e] n1]; simpl.
  - destruct (f a env (h ++ n1)) as [r2 n2] eqn:E. split.
    + intros [= <- <-]. right. by exists a, n1, n2.
    + intros [(e & [=] & _)|(a' & m1 & m2 & [= <- <-] & H2 & ->)]. congruence.
  - split.
    + intros [= <- <-]. left. by exists e.
    + intros [(e' & [= <- <-] & ->)|(a' & m1 & m2 & [=] & _)]. done.
Qed.

Lemma runs_bind_Ok {A B} h (m : io ret A) (f : A -> io ret B) b n :
  runs h (m ≫= f) (Ok b) n <->
  exists a n1 n2, runs h m (Ok a) n1 /\ runs (h ++ n1) (f a) (Ok b) n2 /\ n = n1 ++ n2.
Proof. rewrite runs_bind. naive_solver. Qed.

Lemma runs_ret {A} h (a : A) r n : runs h (mret a) r n <-> r = Ok a /\ n = [].
Proof. apply runs_pure. Qed.

Lemma runs_try {A} h (m : io ret A) handled handler r n :
  runs h (try_except m handled handler) r n <->
  (runs h m r n /\ match r with Ok _ => True | Raise e => handled e = false end) \/
  (exists e n1 n2, runs h m (Raise e) n1 /\ handled e = true /\ runs (h ++ n1) (handler e) r n2 /\ n = n1 ++ n2).
Proof.
  unfold runs, try_except. destruct (m env h) as [[a|e] n1]; simpl.
  - split; [intros [= <- <-]; by left|]. intros [[? _]|(e & m1 & m2 & [=] & _)]. done.
  - destruct (handled e) eqn:Eh.
    + destruct (handler e env (h ++ n1)) as [r2 n2] eqn:E. split.
      * intros [= <- <-]. right. by exists e, n1, n2.
      * intros [[[= <- <-] ?]|(e' & m1 & m2 & [= <- <-] & _ & H2 & ->)]; congruence.
    + split; [intros [= <- <-]; by left|].
      intros [[? _]|(e' & m1 & m2 & [= <- <-] & ? & _)]; [done|congruence].
Qed.

Lemma runs_finally {A} h (m : io ret A) f r n :
  runs h (try_finally m f) r n <->
  exists q r1 n1 n2, runs h m r1 n1 /\ runs (h ++ n1) f q n2 /\ n = n1 ++ n2 /\
    r = match q with Ok _ => r1 | Raise e => Raise e end.
Proof.
  unfold runs, try_finally. destruct (m env h) as [r1 n1]. destruct (f env (h ++ n1)) as [q n2] eqn:E.
  split; [intros [= <- <-]; by exists q, r1, n1, n2|].
  intros (q' & r1' & m1 & m2 & [= <- <-] & H2 & -> & ->). rewrite E in H2. by injection H2 as <- <-.
Qed.

Lemma runs_det {A} h (m : io ret A) r n r' n' : runs h m r n -> runs h m r' n' -> r = r' /\ n = n'.
Proof. unfold runs. intros -> [= -> ->]. done. Qed.

(** Every program ends, with some result and calls. *)
Lemma runs_total {A} h (m : io ret A) : exists r n, runs h m r n.
Proof. unfold runs. destruct (m env h) as [r n]. eauto. Qed.

(** ** Which calls a program can make *)
Definition calls_only {A} (P : call -> Prop) (m : io ret A) : Prop :=
  forall h r n, runs h m r n -> Forall P n.

Lemma calls_pure {A} P (m : result A) : calls_only P (io_pure m).
Proof. intros h r n [_ ->]%runs_pure. constructor. Qed.

Lemma calls_ask (P : call -> Prop) c : P c -> calls_only P (ask c).
Proof. intros Hc h r n [_ ->]%runs_ask. by repeat constructor. Qed.

Lemma calls_bind {A B} P (m : io ret A) (f : A -> io ret B) :
  calls_only P m -> (forall a, calls_only P (f a)) -> calls_only P (m ≫= f).
Proof.
  intros Hm Hf h r n [(e & H & _)|(a & n1 & n2 & H1 & H2 & ->)]%runs_bind; [by eapply Hm|].
  apply Forall_app. split; [by eapply Hm|by eapply Hf].
Qed.

Lemma calls_try {A} P (m : io ret A) handled handler :
  calls_only P m -> (forall e, calls_only P (handler e)) -> calls_only P (try_except m handled handler).
Proof.
  intros Hm Hf h r n [[H _]|(e & n1 & n2 & H1 & _ & H2 & ->)]%runs_try; [by eapply Hm|].
  apply Forall_app. split; [by eapply Hm|by eapply Hf].
Qed.

Lemma calls_finally {A} P (m : io ret A) f :
  calls_only P m -> calls_only P f -> calls_only P (try_finally m f).
Proof.
  intros Hm Hf h r n (q & r1 & n1 & n2 & H1 & H2 & -> & _)%runs_finally.
  apply Forall_app. split; [by eapply Hm|by eapply Hf].
Qed.

Lemma calls_fold {S X} P (f : S -> X -> io ret S) s l :
  (forall s x, x ∈ l -> calls_only P (f s x)) -> calls_only P (io_fold f s l).
Proof.
  revert s. induction l as [|x l IH]; intros s Hf; simpl; [apply calls_pure|].
  apply calls_bind; [apply Hf; left|]. intros s'. apply IH. intros. apply Hf. by right.
Qed.

Lemma calls_loop {S A} P fuel (body : S -> io ret (S + A)) s :
  (forall s, calls_only P (body s)) -> calls_only P (io_loop fuel body s).
Proof.
  intros Hb. revert s. induction fuel as [|fuel IH]; intros s; simpl; [apply calls_pure|].
  apply calls_bind; [apply Hb|]. intros [s'|a]; [apply IH|apply calls_pure].
Qed.
End Runs.

Create HintDb calls.
#[export] Hint Resolve calls_pure calls_ask calls_bind calls_try calls_finally calls_fold calls_loop : calls.

(** Walk a program for the calls it can make. *)
Ltac calls_step := match goal with
  | |- calls_only _ _ (mret _) => apply calls_pure
  | |- calls_only _ _ (io_pure _) => apply calls_pure
  | |- calls_only ?env ?P (ask ?c) => refine (calls_ask env P c _)
  | |- calls_only _ _ (_ ≫= _) => apply calls_bind; [|intros ?]
  | |- calls_only _ _ (try_except _ _ _) => apply calls_try; [|intros ?]
  | |- calls_only _ _ (try_finally _ _) => apply calls_finally
  | |- calls_only _ _ (io_fold _ _ _) => apply calls_fold; intros ? ? ?
  | |- calls_only _ _ (io_loop _ _ _) => apply calls_loop; intros ?
  | |- calls_only _ _ (if ?c then _ else _) => destruct c
  | |- calls_only _ _ (match ?x with _ => _ end) => destruct x
  | |- calls_only _ _ _ => solve [eauto with calls]
  end.
Ltac calls_tac := repeat (calls_step; cbn beta iota).

(** Open a successful run into its steps. *)
Ltac runs_step := match goal with
  | H : runs _ _ (_ ≫= _) (Ok _) _ |- _ => apply runs_bind_Ok in H as (? & ? & ? & ? & H & ->)
  | H : runs _ _ (io_pure _) _ _ |- _ => apply runs_pure in H as [? ->]
  | H : runs _ _ (mret _) _ _ |- _ => apply runs_ret in H as [? ->]
  | H : runs ?env ?h (ask ?c) ?r ?n |- _ => apply (runs_ask env h c r n) in H as [? ->]
  | H : Ok _ = raise_when _ _ |- _ => symmetry in H; apply raise_when_Ok in H
  end.

(** ** Counting calls *)
Section Counting.
Context {call : Type} {ret : call -> Type} (env : environment ret) (p : call -> bool).

Definition count (n : list call) : nat := length (List.filter p n).

Definition at_most {A} (k : nat) (m : io ret A) : Prop := forall h r n, runs env h m r n -> (count n <= k)%nat.

Lemma count_app n1 n2 : count (n1 ++ n2) = (count n1 + count n2)%nat.
Proof. unfold count. by rewrite List.filter_app, length_app. Qed.

Lemma count_none n : Forall (fun c => p c = false) n -> count n = 0%nat.
Proof.
  unfold count. induction 1 as [|c n Hc Hn IH]; simpl; [done|]. by rewrite Hc.
Qed.

Lemma at_most_none {A} (m : io ret A) : calls_only env (fun c => p c = false) m -> at_most 0 m.
Proof. intros Hm h r n Hr. rewrite count_none; [lia|by eapply Hm]. Qed.

Lemma at_most_ask c : at_most (if p c then 1 else 0) (ask c).
Proof. intros h r n [_ ->]%runs_ask. unfold count. simpl. destruct (p c); simpl; lia. Qed.

Lemma at_most_bind {A B} k1 k2 (m : io ret A) (f : A -> io ret B) :
  at_most k1 m -> (forall a, at_most k2 (f a)) -> at_most (k1 + k2) (m ≫= f).
Proof.
  intros Hm Hf h r n [(e & H & _)|(a & n1 & n2 & H1 & H2 & ->)]%runs_bind.
  - apply Hm in H. lia.
  - apply Hm in H1. apply Hf in H2. rewrite count_app. lia.
Qed.

Lemma at_most_try {A} k1 k2 (m : io ret A) handled handler :
  at_most k1 m -> (forall e, at_most k2 (handler e)) -> at_most (k1 + k2) (try_except m handled handler).
Proof.
  intros Hm Hf h r n [[H _]|(e & n1 & n2 & H1 & _ & H2 & ->)]%runs_try.
  - apply Hm in H. lia.
  - apply Hm in H1. apply Hf in H2. rewrite count_app. lia.
Qed.

Lemma at_most_finally {A} k1 k2 (m : io ret A) f :
  at_most k1 m -> at_most k2 f -> at_most (k1 + k2) (try_finally m f).
Proof.
  intros Hm Hf h r n (q & r1 & n1 & n2 & H1 & H2 & -> & _)%runs_finally.
  apply Hm in H1. apply Hf in H2. rewrite count_app. lia.
Qed.

Lemma at_most_weaken {A} k k' (m : io ret A) : at_most k m -> (k <= k')%nat -> at_most k' m.
Proof. intros Hm Hk h r n Hr. apply Hm in Hr. lia. Qed.
End Counting.

(** ** Loops whose body makes one call per element *)
Lemma runs_fold_calls {call} {ret : call -> Type} (env : environment ret) {S X}
    (f : S -> X -> io ret S) (g : X -> call) s l h r n :
  (forall s x h r n, runs env h (f s x) r n -> n = [g x]) ->
  runs env h (io_fold f s l) r n ->
  exists k, n = g <$> take k l /\ (is_ok r = true -> k = length l).
Proof.
  intros Hf. revert s h n. induction l as [|x l IH]; intros s h n; simpl.
  - intros [-> ->]%runs_pure. by exists 0%nat.
  - intros [(e & H & ->)|(a & n1 & n2 & H1 & H2 & ->)]%runs_bind.
    + apply Hf in H as ->. by exists 1%nat.
    + apply Hf in H1 as ->. apply IH in H2 as (k & -> & Hk). exists (Datatypes.S k). simpl.
      split; [done|]. intros Hr. f_equal. auto.
Qed.

(** A property of every step of a loop that finishes. *)
Lemma runs_fold_Ok {call} {ret : call -> Type} (env : environment ret) {S X}
    (f : S -> X -> io ret S) (P : S -> X -> list call -> Prop) s l h s' n :
  (forall s x h s' n, runs env h (f s x) (Ok s') n -> P s x h) ->
  runs env h (io_fold f s l) (Ok s') n ->
  forall i x, l !! i = Some x -> exists s0 n1, P s0 x (h ++ n1) /\ n1 `prefix_of` n /\
    exists s1, runs env h (io_fold f s (take i l)) (Ok s1) n1.
Proof.
  intros Hf. revert s h n. induction l as [|y l IH]; intros s h n H i x Hi; [done|]. simpl in H.
  apply runs_bind_Ok in H as (s1 & n1 & n2 & H1 & H2 & ->). destruct i as [|i]; simpl in Hi.
  - injection Hi as <-. exists s, []. rewrite app_nil_r. split; [by eapply Hf|]. split; [apply prefix_nil|].
    exists s. by apply runs_pure.
  - destruct (IH _ _ _ H2 i x Hi) as (s0 & m & HP & [k ->] & s2 & Hm). exists s0, (n1 ++ m).
    rewrite app_assoc. split; [done|]. split; [exists k; by rewrite app_assoc|]. exists s2. simpl.
    apply runs_bind_Ok. eauto 8.
Qed.

(** All the ways a run can go, ending early included. *)
Ltac runs_all := repeat first
  [ runs_step
  | match goal with
    | H : runs _ _ (_ ≫= _) _ _ |- _ => apply runs_bind in H as [(? & H & ?)|(? & ? & ? & ? & H & ->)]
    end ].

(** What a bounded loop returns is what one of its turns left with. *)
Lemma runs_loop_Ok {call} {ret : call -> Type} (env : environment ret) {S A}
    fuel (body : S -> io ret (S + A)) (P : A -> Prop) s h a n :
  (forall s h a n, runs env h (body s) (Ok (inr a)) n -> P a) ->
  runs env h (io_loop fuel body s) (Ok a) n -> P a.
Proof.
  intros Hb. revert s h n. induction fuel as [|fuel IH]; intros s h n; cbn [io_loop].
  - by intros [[=] _]%runs_pure.
  - intros (o & n1 & n2 & H1 & H2 & ->)%runs_bind_Ok. destruct o as [s'|a'].
    + by eapply IH.
    + apply runs_pure in H2 as [[= <-] _]. by eapply Hb.
Qed.

(** Loop invariant over the state and the calls so far. *)
Lemma runs_loop_inv {call} {ret : call -> Type} (env : environment ret) {S A}
    fuel (body : S -> io ret (S + A)) (I : S -> list call -> Prop) (Q : A -> list call -> Prop) h s m a n :
  (forall s m o k, I s m -> runs env (h ++ m) (body s) (Ok o) k ->
     match o with inl s' => I s' (m ++ k) | inr a => Q a (m ++ k) end) ->
  I s m -> runs env (h ++ m) (io_loop fuel body s) (Ok a) n -> Q a (m ++ n).
Proof.
  intros Hb. revert s m n. induction fuel as [|fuel IH]; intros s m n HI; cbn [io_loop].
  - by intros [[=] _]%runs_pure.
  - intros (o & n1 & n2 & H1 & H2 & ->)%runs_bind_Ok. apply Hb in H1; [|done]. destruct o as [s'|a'].
    + rewrite app_assoc. rewrite <- app_assoc in H2. by eapply IH.
    + apply runs_pure in H2 as [[= <-] ->]. by rewrite app_nil_r.
Qed.

(** A loop whose turns lower a measure, and whose own exceptions are real ones, never exhausts its fuel. *)
Lemma runs_loop_ends {call} {ret : call -> Type} (env : environment ret) {S A}
    fuel (body : S -> io ret (S + A)) (I : S -> list call -> Prop) (mu : S -> list call -> Z) s h r n :
  (forall s h o k, I s h -> runs env h (body s) o k -> o <> Raise OutOfFuel /\
     forall s', o = Ok (inl s') -> I s' (h ++ k) /\ (mu s' (h ++ k) < mu s h)%Z /\ (0 <= mu s h)%Z) ->
  I s h -> (mu s h + 1 < Z.of_nat fuel)%Z -> (1 <= Z.of_nat fuel)%Z ->
  runs env h (io_loop fuel body s) r n -> r <> Raise OutOfFuel.
Proof.
  intros Hb. revert s h r n. induction fuel as [|fuel IH]; intros s h r n HI Hmu Hf; [lia|]. cbn [io_loop].
  intros [(e & H & ->)|(o & n1 & n2 & H1 & H2 & ->)]%runs_bind.
  - apply Hb in H as [H _]; [|done]. congruence.
  - apply Hb in H1 as [_ H1]; [|done]. destruct o as [s'|a].
    + destruct (H1 s' eq_refl) as (HI' & Hlt & H0). destruct fuel as [|fuel]; [lia|].
      eapply (IH s' (h ++ n1)); [done|lia|lia|done].
    + apply runs_pure in H2 as [-> _]. done.
Qed.

(** ** The exceptions a program can end with *)
Section Failing.
Context {call : Type} {ret : call -> Type} (env : environment ret) (P : exn -> Prop).

Definition fails_with {A} (m : io ret A) : Prop := forall h e n, runs env h m (Raise e) n -> P e.

Lemma fails_pure {A} (m : result A) : raises P m -> fails_with (io_pure m).
Proof. intros Hm h e n [He _]%runs_pure. by apply Hm. Qed.

Lemma fails_ask c : (forall h e, env h c = Raise e -> P e) -> fails_with (ask c).
Proof. intros Hc h e n [He _]%runs_ask. by eapply Hc. Qed.

Lemma fails_bind {A B} (m : io ret A) (f : A -> io ret B) :
  fails_with m -> (forall a, fails_with (f a)) -> fails_with (m ≫= f).
Proof.
  intros Hm Hf h e n [(e' & H & [= ->])|(a & n1 & n2 & H1 & H2 & ->)]%runs_bind; [by eapply Hm|by eapply Hf].
Qed.

Lemma fails_finally {A} (m : io ret A) f : fails_with m -> fails_with f -> fails_with (try_finally m f).
Proof.
  intros Hm Hf h e n (q & r1 & n1 & n2 & H1 & H2 & -> & Hr)%runs_finally.
  destruct q as [u|e']; [|injection Hr as ->; by eapply Hf]. subst r1. by eapply Hm.
Qed.

Lemma fails_try {A} (m : io ret A) handled handler :
  fails_with m -> (forall e, fails_with (handler e)) -> fails_with (try_except m handled handler).
Proof.
  intros Hm Hf h e n [[H _]|(e' & n1 & n2 & H1 & _ & H2 & ->)]%runs_try; [by eapply Hm|by eapply Hf].
Qed.

Lemma fails_fold {S X} (f : S -> X -> io ret S) s l :
  (forall s x, x ∈ l -> fails_with (f s x)) -> fails_with (io_fold f s l).
Proof.
  revert s. induction l as [|x l IH]; intros s Hf; simpl; [apply fails_pure, raises_ok|].
  apply fails_bind; [apply Hf; left|]. intros s'. apply IH. intros. apply Hf. by right.
Qed.
End Failing.

(** Walk a program for the exceptions it can end with. *)
Ltac fails_step := match goal with
  | |- fails_with _ _ (mret _) => apply fails_pure, raises_ok
  | |- fails_with _ _ (io_pure _) => apply fails_pure; solve [raises_tac]
  | |- fails_with ?env ?P (ask ?c) => refine (fails_ask env P c _)
  | |- fails_with _ _ (_ ≫= _) => apply fails_bind; [|intros ?]
  | |- fails_with _ _ (try_finally _ _) => apply fails_finally
  | |- fails_with _ _ (try_except _ _ _) => apply fails_try; [|intros ?]
  | |- fails_with _ _ (io_fold _ _ _) => apply fails_fold; intros ? ? ?
  | |- fails_with _ _ (if ?c then _ else _) => destruct c
  | |- fails_with _ _ (match ?x with _ => _ end) => destruct x
  end.
Ltac fails_tac := repeat (fails_step; cbn beta iota).

(** ** Ending from a given history

    Where the bound of a loop depends on the clock, the history matters. *)
Section Ending.
Context {call : Type} {ret : call -> Type} (env : environment ret).

Definition ends_at (h : list call) {A} (m : io ret A) : Prop :=
  forall r n, runs env h m r n -> r <> Raise OutOfFuel.

Lemma ends_fails {A} h (m : io ret A) : fails_with env (fun e => e <> OutOfFuel) m -> ends_at h m.
Proof. intros Hm [a|e] n Hr; [done|]. intros [= ->]. by apply Hm in Hr. Qed.

Lemma ends_ret {A} h (a : A) : ends_at h (mret a : io ret A).
Proof. intros r n [-> _]%runs_pure. done. Qed.

Lemma ends_bind {A B} h (m : io ret A) (f : A -> io ret B) :
  ends_at h m -> (forall a n, runs env h m (Ok a) n -> ends_at (h ++ n) (f a)) -> ends_at h (m ≫= f).
Proof.
  intros Hm Hf r n [(e & H & ->)|(a & n1 & n2 & H1 & H2 & ->)]%runs_bind.
  - apply Hm in H. congruence.
  - by eapply Hf.
Qed.

Lemma ends_try {A} h (m : io ret A) handled handler :
  ends_at h m -> (forall e n, runs env h m (Raise e) n -> ends_at (h ++ n) (handler e)) ->
  ends_at h (try_except m handled handler).
Proof.
  intros Hm Hf r n [[H _]|(e & n1 & n2 & H1 & _ & H2 & ->)]%runs_try; [by eapply Hm|by eapply Hf].
Qed.

Lemma ends_finally {A} h (m : io ret A) f :
  ends_at h m -> (forall r n, runs env h m r n -> ends_at (h ++ n) f) -> ends_at h (try_finally m f).
Proof.
  intros Hm Hf r n (q & r1 & n1 & n2 & H1 & H2 & -> & ->)%runs_finally.
  apply (Hf _ _ H1) in H2. apply Hm in H1. destruct q; [done|congruence].
Qed.
End Ending.

(** ** Running a program on a concrete environment *)
Definition outcome {call} {ret : call -> Type} {A} (env : environment ret) (m : io ret A) : result A := fst (m env []).
Definition calls {call} {ret : call -> Type} {A} (env : environment ret) (m : io ret A) : list call := snd (m env []).

Lemma runs_outcome {call} {ret : call -> Type} {A} (env : environment ret) (m : io ret A) r :
  outcome env m = r -> runs env [] m r (calls env m).
Proof. unfold runs, outcome, calls. intros <-. by destruct (m env []). Qed.
