(* ===== verification/FmgoUpload.v ===== *)
(** * experiments/managed_sketch/fmgo_upload.py

    The staged install over an open FMGO session: [snapshot], [reconcile] and [transfer],
    written against the operations of a probe (tools/session_smoke.py), the clock and
    [time.sleep]. Instants are nanoseconds. A [with factory() as probe] block opens one
    session and closes it on every way out. *)

From stdpp Require Import base tactics list list_numbers strings.
From Stdlib Require Import ZArith Lia.
From S2P Require Import Prelude.
From S2P Require Import PyBytes.
From S2P Require Import PyDict.
From S2P Require Import PyJson.
From S2P Require Import Sha256.
From S2P Require Import Effects.

Local Open Scope Z_scope.

(** ** The probe interface *)
Inductive probe_call :=
| Open
| Command (op : string) (fields : dict json)
| UploadChunk (upload_id offset : Z) (data : bytes)
| Finish
| Close
| Now
| Sleep (nanoseconds : Z).

(** [Open] answers with the hello of the new session. *)
Definition probe_ret (c : probe_call) : Type :=
  match c with
  | Open | Command _ _ | UploadChunk _ _ _ => dict json
  | Now => Z
  | Finish | Close | Sleep _ => unit
  end.

Abbreviation pio := (io probe_ret).

Definition second : Z := 1000000000.
Definition tenth : Z := 100000000.

(** [with factory() as probe: body] *)
Definition with_probe {A} (body : dict json -> pio A) : pio A :=
  (hello ← ask Open; try_finally (body hello) (ask Close)) : pio A.

(** [TARGET] *)
Definition TARGET_max_size : Z := 4096.
Definition TARGET_max_chunk : Z := 1024.
Definition TARGET_format : string := "nano-managed-v1".

Definition upload_states : list string :=
  ["accepted"; "verified"; "committing"; "installed"; "boot_confirmed"; "failed"; "aborted"].

(** [v in ("a", "b", ...)] *)
Definition in_strings (v : json) (l : list string) : bool := existsb (fun s => py_eq v (JStr s)) l.

Definition snapshot (value : json) (upload_id : Z) (digest : string) (size : Z) : result (dict json) :=
  match value with
  | JObj d =>
      raise_when
        (negb (type_is_int (jget d "upload_id")) || negb (py_eq (jget d "upload_id") (JInt upload_id))
         || negb (py_eq (jget d "sha256") (JStr digest))
         || negb (type_is_int (jget d "size")) || negb (py_eq (jget d "size") (JInt size))
         || negb (int_within 0 size (jget d "received"))
         || negb (type_is_bool (jget d "slot_touched"))
         || negb (in_strings (jget d "state") upload_states)
         || negb (is_str (jget d "error")))
        (RuntimeError "upload status does not match selected transaction");;
      Ok d
  | _ => Raise (RuntimeError "upload status does not match selected transaction")
  end.

Definition status_fields (upload_id : Z) : dict json := [("target_id", JInt 1); ("upload_id", JInt upload_id)].

(** The loop body of [reconcile]. *)
Definition reconcile_turn (deadline upload_id : Z) (digest : string) (size : Z) (_ : unit)
    : pio (unit + dict json) :=
  value ← ask (Command "flash.status" (status_fields upload_id));
  result ← io_pure (snapshot (JObj value) upload_id digest size);
  state ← io_pure (ditem result "state");
  if in_strings state ["boot_confirmed"; "failed"; "aborted"] then
    ask Finish;; mret (inr result)
  else
    now ← ask Now;
    if deadline <=? now then ask Finish;; mret (inr result)
    else ask (Sleep tenth);; mret (inl tt).

Definition reconcile (fuel : nat) (boot_id : json) (upload_id : Z) (digest : string) (size timeout : Z)
    : pio (dict json) :=
  start ← ask Now;
  let deadline := start + timeout in
  with_probe (fun hello =>
    boot ← io_pure (ditem hello "boot_id");
    io_when (negb (py_eq boot boot_id))
      (RuntimeError "boot changed; RAM transaction record is lost; inspect slot, do not replay commit");;
    io_loop fuel (reconcile_turn deadline upload_id digest size) tt).

(** [value['state'] != state or value['received'] != received or value['slot_touched']] *)
Definition stage_differs (value : dict json) (state : string) (received : Z) : result bool :=
  s ← ditem value "state";
  if negb (py_eq s (JStr state)) then Ok true else
  r ← ditem value "received";
  if negb (py_eq r (JInt received)) then Ok true else
  t ← ditem value "slot_touched";
  Ok (truthy t).

(** [value['state'] != state or value['slot_touched']] *)
Definition state_differs (value : dict json) (state : string) : result bool :=
  s ← ditem value "state";
  if negb (py_eq s (JStr state)) then Ok true else
  t ← ditem value "slot_touched";
  Ok (truthy t).

(** [min(TARGET['max_chunk'], hello['max_payload'] - 8)]; the probe has checked that the payload
    limit is an integer. *)
Definition chunk_size_of (hello : dict json) : result Z :=
  limit ← ditem hello "max_payload";
  match as_int limit with
  | Some n => Ok (Z.min TARGET_max_chunk (n - 8))
  | None => Raise (TypeError "unsupported operand type(s) for -")
  end.

(** [range(0, n, step)] *)
Definition py_range (n step : Z) : result (list Z) :=
  if step =? 0 then Raise (ValueError "range() arg 3 must not be zero")
  else Ok (if step <? 0 then [] else range 0 n step).

Definition begin_fields (capsule : bytes) (digest : string) : dict json :=
  [("target_id", JInt 1); ("board_id", JStr "nano_rp2040_connect"); ("format", JStr TARGET_format);
   ("size", JInt (blen capsule)); ("sha256", JStr digest)].

(** The chunk loop body. *)
Definition send_chunk (upload_id : Z) (digest : string) (capsule : bytes) (chunk_size : Z) (_ : unit) (offset : Z)
    : pio unit :=
  let data := slice offset (offset + chunk_size) capsule in
  reply ← ask (UploadChunk upload_id offset data);
  value ← io_pure (snapshot (JObj reply) upload_id digest (blen capsule));
  differs ← io_pure (stage_differs value "accepted" (offset + blen data));
  io_when differs (RuntimeError "chunk acknowledgement does not match the staged offset").

(** The commit request with its acknowledgement check; the outcome is [commit_reply_lost]. *)
Definition commit_once (upload_id : Z) (digest : string) (capsule : bytes) : pio bool :=
  try_except
    (reply ← ask (Command "flash.commit" (status_fields upload_id));
     value ← io_pure (snapshot (JObj reply) upload_id digest (blen capsule));
     state ← io_pure (ditem value "state");
     io_when (negb (py_eq state (JStr "committing"))) (RuntimeError "unexpected commit acknowledgement");;
     mret false)
    (is_any [KOSError; KRuntimeError])
    (fun _ => ask Close;; mret true).

(** The body of the first session up to the verified RAM stage: the boot ID and the transaction. *)
Definition stage (capsule : bytes) (digest : string) (hello : dict json) : pio (json * Z) :=
  boot_id ← io_pure (ditem hello "boot_id");
  begin ← ask (Command "flash.begin" (begin_fields capsule digest));
  let upload_id := jget begin "upload_id" in
  io_when (negb (int_within 1 0xffffffff upload_id))
    (RuntimeError "begin response has an invalid transaction ID");;
  let upload_id := int_of upload_id in
  io_pure (snapshot (JObj begin) upload_id digest (blen capsule));;
  differs ← io_pure (stage_differs begin "accepted" 0);
  io_when differs (RuntimeError "begin did not acknowledge a new RAM stage");;
  chunk_size ← io_pure (chunk_size_of hello);
  offsets ← io_pure (py_range (blen capsule) chunk_size);
  io_fold (send_chunk upload_id digest capsule chunk_size) tt offsets;;
  reply ← ask (Command "flash.finish" (status_fields upload_id));
  value ← io_pure (snapshot (JObj reply) upload_id digest (blen capsule));
  differs ← io_pure (state_differs value "verified");
  io_when differs (RuntimeError "finish did not verify the RAM stage");;
  mret (boot_id, upload_id).

(** The whole first session: the stage, then the commit or the deliberate disconnect. *)
Definition session (capsule : bytes) (digest : string) (install : bool) (hello : dict json) : pio (json * Z * bool) :=
  ' (boot_id, upload_id) ← stage capsule digest hello;
  lost ← (if install then commit_once upload_id digest capsule else mret false);
  (if negb lost then ask Finish else mret tt);;
  mret (boot_id, upload_id, lost).

Record transfer_result := {
  boot_id : json; transaction : dict json; commit_reply_lost : bool; requested_action : string }.

Definition transfer (fuel : nat) (capsule : bytes) (install : bool) : pio transfer_result :=
  let digest := sha capsule in
  io_when (negb ((256 <? blen capsule) && (blen capsule <=? TARGET_max_size)))
    (ValueError "capsule is outside the advertised stage limit");;
  ' (boot, upload_id, lost) ← with_probe (session capsule digest install);
  final ← reconcile fuel boot upload_id digest (blen capsule) (5 * second);
  differs ← io_pure (if install then Ok false else state_differs final "aborted");
  io_when differs (RuntimeError "pre-commit disconnect did not dispose the RAM stage");;
  mret {| boot_id := boot; transaction := final; commit_reply_lost := lost;
          requested_action := if install then "install" else "stage_then_disconnect" |}.

(** ** What an accepted status says *)
Record selected_status (d : dict json) (upload_id : Z) (digest : string) (size : Z) : Prop := {
  ss_upload_id : jget d "upload_id" = JInt upload_id;
  ss_sha256 : jget d "sha256" = JStr digest;
  ss_size : jget d "size" = JInt size;
  ss_received : exists n, jget d "received" = JInt n /\ 0 <= n <= size;
  ss_touched : exists b, jget d "slot_touched" = JBool b;
  ss_state : exists s, jget d "state" = JStr s /\ s ∈ upload_states;
  ss_error : exists s, jget d "error" = JStr s }.

Lemma type_int_eq v z : type_is_int v = true -> py_eq v (JInt z) = true -> v = JInt z.
Proof. destruct v; simpl; try done. by intros _ ->%Z.eqb_eq. Qed.

Lemma in_strings_spec v l : in_strings v l = true <-> exists s, v = JStr s /\ s ∈ l.
Proof.
  unfold in_strings. rewrite existsb_exists. setoid_rewrite <- list_elem_of_In.
  setoid_rewrite py_eq_str. naive_solver.
Qed.

#[global] Opaque in_strings.

Lemma is_str_spec v : is_str v = true <-> exists s, v = JStr s.
Proof. destruct v; simpl; naive_solver. Qed.

Lemma type_is_bool_spec v : type_is_bool v = true <-> exists b, v = JBool b.
Proof. destruct v; simpl; naive_solver. Qed.

Lemma snapshot_Ok value upload_id digest size d :
  snapshot value upload_id digest size = Ok d <->
  value = JObj d /\ selected_status d upload_id digest size.
Proof.
  destruct value as [| | | | | |d']; simpl; try (split; [done|naive_solver]).
  rewrite raise_when_bind, Ok_Ok. breflect_goal. split.
  - intros [[[[[[[[[H1 H2] H3] H4] H5] H6] H7] H8] H9] <-]. split; [done|].
    constructor; [by apply type_int_eq|by apply py_eq_str|by apply type_int_eq|..].
    + by apply int_within_spec.
    + by apply type_is_bool_spec.
    + by apply in_strings_spec.
    + by apply is_str_spec.
  - intros [[= ->] [H1 H2 H3 H4 H5 H6 H7]]. split; [|done].
    apply int_within_spec in H4. apply type_is_bool_spec in H5. apply in_strings_spec in H6.
    apply is_str_spec in H7. rewrite H1, H2, H3, H4, H5, H6, H7.
    split_and!; try done; [by apply Z.eqb_eq|by apply py_eq_str|by apply Z.eqb_eq].
Qed.

Lemma ditem_jget d k v : jget d k = v -> v <> JNull -> ditem d k = Ok v.
Proof. unfold jget, ditem. destruct (dget d k); simpl; naive_solver. Qed.

Lemma state_differs_Ok d state upload_id digest size : selected_status d upload_id digest size ->
  state_differs d state = Ok false <-> jget d "state" = JStr state /\ jget d "slot_touched" = JBool false.
Proof.
  intros [_ _ _ _ [t Ht] [s [Hs _]] _]. unfold state_differs.
  rewrite (ditem_jget _ _ _ Hs), (ditem_jget _ _ _ Ht) by done. simpl. rewrite Hs, Ht.
  case_bool_decide; simpl; naive_solver.
Qed.

Lemma stage_differs_Ok d state received upload_id digest size : selected_status d upload_id digest size ->
  stage_differs d state received = Ok false <->
  jget d "state" = JStr state /\ jget d "received" = JInt received /\ jget d "slot_touched" = JBool false.
Proof.
  intros [_ _ _ [n [Hn _]] [t Ht] [s [Hs _]] _]. unfold stage_differs.
  rewrite (ditem_jget _ _ _ Hs), (ditem_jget _ _ _ Hn), (ditem_jget _ _ _ Ht) by done. simpl.
  rewrite Hs, Hn, Ht. case_bool_decide; simpl; [|naive_solver].
  destruct (Z.eqb_spec n received); simpl; naive_solver.
Qed.

(** ** Commits *)
Definition is_commit (c : probe_call) : bool :=
  match c with Command op _ => bool_decide (op = "flash.commit") | _ => false end.

(** What [reconcile] may send. *)
Definition status_only (c : probe_call) : Prop :=
  match c with
  | Command op _ => op = "flash.status"
  | UploadChunk _ _ _ => False
  | _ => True
  end.

Section Transfer.
Context (env : environment probe_ret).

Lemma reconcile_calls fuel boot id digest size timeout :
  calls_only env status_only (reconcile fuel boot id digest size timeout).
Proof. unfold reconcile, with_probe, reconcile_turn. calls_tac; done. Qed.

Lemma stage_no_commit capsule digest hello : calls_only env (fun c => is_commit c = false) (stage capsule digest hello).
Proof. unfold stage, send_chunk. calls_tac; done. Qed.

Lemma commit_at_most_once upload_id digest capsule : at_most env is_commit 1 (commit_once upload_id digest capsule).
Proof.
  unfold commit_once. apply (at_most_try env is_commit 1 0).
  - apply (at_most_bind env is_commit 1 0); [apply (at_most_ask env is_commit (Command "flash.commit" _))|]. intros reply.
    apply at_most_none. calls_tac.
  - intros e. apply at_most_none. calls_tac. done.
Qed.

(** The calls of a successful stage: the begin request, one chunk per offset and the finish request,
    whose reply reports the verified, untouched stage. *)
Definition chunk_call (upload_id : Z) (capsule : bytes) (chunk_size offset : Z) : probe_call :=
  UploadChunk upload_id offset (slice offset (offset + chunk_size) capsule).

Definition stage_calls (upload_id chunk_size : Z) (capsule : bytes) (digest : string) (offsets : list Z) : list probe_call :=
  Command "flash.begin" (begin_fields capsule digest) :: (chunk_call upload_id capsule chunk_size <$> offsets)
  ++ [Command "flash.finish" (status_fields upload_id)].

Definition verified_stage (d : dict json) (upload_id : Z) (capsule : bytes) (digest : string) : Prop :=
  selected_status d upload_id digest (blen capsule) /\
  jget d "state" = JStr "verified" /\ jget d "slot_touched" = JBool false.

Lemma send_chunk_calls upload_id digest capsule chunk_size s offset h r n :
  runs env h (send_chunk upload_id digest capsule chunk_size s offset) r n ->
  n = [chunk_call upload_id capsule chunk_size offset].
Proof.
  unfold send_chunk, chunk_call. intros H. by runs_all.
Qed.

Lemma stage_Ok capsule digest hello h boot id n :
  runs env h (stage capsule digest hello) (Ok (boot, id)) n ->
  ditem hello "boot_id" = Ok boot /\ 1 <= id <= 0xffffffff /\
  exists chunk_size offsets pre reply, chunk_size_of hello = Ok chunk_size /\
    py_range (blen capsule) chunk_size = Ok offsets /\
    n = stage_calls id chunk_size capsule digest offsets /\
    n = pre ++ [Command "flash.finish" (status_fields id)] /\
    env (h ++ pre) (Command "flash.finish" (status_fields id)) = Ok reply /\
    verified_stage reply id capsule digest.
Proof.
  unfold stage. intros H. repeat runs_step. rewrite ?app_nil_r, ?app_nil_l in *. injection H as -> ->.
  match goal with Hc : negb (int_within _ _ _) = false |- _ =>
    apply negb_false_iff, int_within_spec in Hc as (z & Hz & Hr); rewrite Hz in *; cbn [int_of] in * end.
  match goal with Hc : runs _ _ (io_fold _ _ _) _ _ |- _ =>
    apply (runs_fold_calls env _ (chunk_call z capsule x10)) in Hc as (k & -> & Hk);
      [|intros ? ? ? ? ? Hx; by apply send_chunk_calls in Hx] end.
  rewrite (Hk eq_refl), firstn_all in *. split; [done|]. split; [done|].
  symmetry in H10. apply snapshot_Ok in H10 as [[= ->] Hsel]. rewrite H12 in H11. symmetry in H11.
  apply (state_differs_Ok _ _ _ _ _ Hsel) in H11 as [Hst Hto].
  exists x10, x12, (Command "flash.begin" (begin_fields capsule digest) :: (chunk_call z capsule x10 <$> x12)), x18.
  rewrite <- app_assoc in H9. split_and!; done.
Qed.

Definition commit_call (upload_id : Z) : probe_call := Command "flash.commit" (status_fields upload_id).

Lemma commit_once_calls upload_id digest capsule h r n :
  runs env h (commit_once upload_id digest capsule) r n ->
  n = [commit_call upload_id] \/ n = [commit_call upload_id; Close].
Proof.
  unfold commit_once, commit_call.
  intros [[H _]|(e & n1 & n2 & H & _ & H2 & ->)]%runs_try; runs_all; simpl; auto.
Qed.

Lemma not_in_none n i c : Forall (fun c => is_commit c = false) n -> n !! i = Some c -> is_commit c = true -> False.
Proof. intros Hf Hi Hc. rewrite Forall_lookup in Hf. apply Hf in Hi. congruence. Qed.

Definition commit_free (n : list probe_call) : Prop := Forall (fun c => is_commit c = false) n.

(** What a session does after the stage: at most one commit, first. *)
Definition after_stage (boot : json) (id : Z) (digest : string) (capsule : bytes) (install : bool) : pio (json * Z * bool) :=
  lost ← (if install then commit_once id digest capsule else mret false);
  (if negb lost then ask Finish else mret tt);;
  mret (boot, id, lost).

Lemma after_stage_calls boot id digest capsule install h r n :
  runs env h (after_stage boot id digest capsule install) r n ->
  commit_free n \/ (install = true /\ exists rest, n = commit_call id :: rest /\ commit_free rest).
Proof.
  unfold after_stage, commit_free. intros [(e & H & _)|(lost & n1 & n2 & H & H2 & ->)]%runs_bind.
  - destruct install; [|by apply runs_ret in H as [??]]. right. split; [done|].
    apply commit_once_calls in H as [->| ->]; eexists; split; try done; by repeat constructor.
  - assert (Hn2 : Forall (fun c => is_commit c = false) n2).
    { revert H2. apply (calls_bind env); [destruct lost; calls_tac; done|intros; calls_tac]. }
    destruct install; [|apply runs_ret in H as [_ ->]; by left]. right. split; [done|].
    apply commit_once_calls in H as [->| ->]; eexists; split; try done; by repeat constructor.
Qed.

(** A commit in a session comes right after a complete stage. *)
Lemma session_commit capsule digest install hello h r n i c :
  runs env h (session capsule digest install hello) r n -> n !! i = Some c -> is_commit c = true ->
  install = true /\ exists boot id n1, runs env h (stage capsule digest hello) (Ok (boot, id)) n1 /\
    c = commit_call id /\ take i n = n1.
Proof.
  unfold session. intros H Hi Hc. apply runs_bind in H as [(e & H & _)|([boot id] & n1 & n2 & H & H2 & ->)].
  { exfalso. eapply not_in_none; [eapply stage_no_commit|..]; done. }
  destruct (le_lt_dec (length n1) i) as [Hge|].
  2:{ exfalso. rewrite lookup_app_l in Hi by done. eapply not_in_none; [eapply stage_no_commit|..]; done. }
  rewrite lookup_app_r in Hi by done.
  apply after_stage_calls in H2 as [Hn|(-> & rest & -> & Hn)]; [exfalso; by eapply not_in_none|].
  destruct (i - length n1)%nat as [|k] eqn:Ek; [|exfalso; by eapply not_in_none].
  injection Hi as <-. split; [done|]. exists boot, id, n1. split; [done|]. split; [done|].
  replace i with (length n1) by lia. by rewrite take_app_length.
Qed.

Lemma session_commits capsule digest (install : bool) hello :
  at_most env is_commit (if install then 1%nat else 0%nat) (session capsule digest install hello).
Proof.
  intros h r n H. unfold session in H.
  apply runs_bind in H as [(e & H & _)|([boot id] & n1 & n2 & H & H2 & ->)].
  - rewrite count_none; [lia|by eapply stage_no_commit].
  - rewrite count_app, (count_none is_commit n1) by (by eapply stage_no_commit).
    apply after_stage_calls in H2 as [Hn|(-> & rest & -> & Hn)]; [rewrite count_none by done; lia|].
    unfold count. simpl. fold (count is_commit rest). rewrite count_none by done. lia.
Qed.

Lemma status_only_free n : Forall status_only n -> commit_free n.
Proof.
  intros Hn. eapply Forall_impl; [done|]. intros [|op f| | | | |]; simpl; try done. by intros ->.
Qed.

Lemma reconcile_free fuel boot id digest size timeout h r n :
  runs env h (reconcile fuel boot id digest size timeout) r n -> commit_free n.
Proof. intros H. by eapply status_only_free, reconcile_calls. Qed.

(** The calls of a transfer: nothing, or the opening of the session, the session, its closing and the
    reconciliation. *)
Lemma transfer_runs fuel capsule install h r n :
  runs env h (transfer fuel capsule install) r n ->
  commit_free n \/ exists hello r1 n1 n2, env h Open = Ok hello /\
    runs env (h ++ [Open]) (session capsule (sha capsule) install hello) r1 n1 /\ n = Open :: n1 ++ n2 /\ commit_free n2.
Proof.
  unfold transfer, with_probe, commit_free. intros H.
  apply runs_bind in H as [(e & H & _)|(u & m & n0 & H & H2 & ->)]; runs_step; [by left|].
  rewrite app_nil_l, app_nil_r in *.
  apply runs_bind in H2 as [(e & H2 & _)|([[boot id] lost] & n1 & n2 & H2 & H3 & ->)].
  - apply runs_bind in H2 as [(e' & H2 & _)|(hello & m1 & m2 & H2 & H3 & ->)]; runs_step;
      [left; by repeat constructor|].
    apply runs_finally in H3 as (q & r1 & k1 & k2 & H4 & H5 & -> & _). runs_step.
    right. exists hello, r1, k1, [Close]. split_and!; [done..|]. by repeat constructor.
  - apply runs_bind in H2 as [(e' & H2 & [=])|(hello & m1 & m2 & H2 & H4 & ->)]. runs_step.
    apply runs_finally in H4 as (q & r1 & k1 & k2 & H4 & H5 & -> & _). runs_step.
    right. exists hello, r1, k1, ([Close] ++ n2). rewrite <- !app_assoc. split_and!; [done..|].
    constructor; [done|]. apply runs_bind in H3 as [(e & H3 & _)|(final & m1 & m2 & H3 & H5 & ->)].
    + by eapply reconcile_free.
    + apply Forall_app. split; [by eapply reconcile_free|]. runs_all; by repeat constructor.
Qed.
End Transfer.

(** ** The result of a reconciliation *)
Section Reconcile.
Context (env : environment probe_ret).

Lemma with_probe_Ok {A} (body : dict json -> pio A) h a n :
  runs env h (with_probe body) (Ok a) n ->
  exists hello n1, env h Open = Ok hello /\ runs env (h ++ [Open]) (body hello) (Ok a) n1 /\
    n = Open :: n1 ++ [Close].
Proof.
  unfold with_probe. intros (hello & n1 & n2 & H & H2 & ->)%runs_bind_Ok. runs_step.
  apply runs_finally in H2 as (q & r1 & k1 & k2 & H4 & H5 & -> & Hr). runs_step.
  destruct q; [|done]. subst r1. by exists hello, k1.
Qed.

Lemma reconcile_Ok fuel boot id digest size timeout h d n :
  runs env h (reconcile fuel boot id digest size timeout) (Ok d) n -> selected_status d id digest size.
Proof.
  unfold reconcile. intros (start & n1 & n2 & H & H2 & ->)%runs_bind_Ok. runs_step.
  apply with_probe_Ok in H2 as (hello & m & _ & H2 & ->).
  do 2 (apply runs_bind_Ok in H2 as (? & ? & ? & _ & H2 & ->)).
  apply (runs_loop_Ok env fuel _ (fun d => selected_status d id digest size)) in H2; [done|].
  clear. intros [] h a n Ha. unfold reconcile_turn in Ha.
  repeat runs_step. symmetry in H0. apply snapshot_Ok in H0 as [_ Hs].
  destruct (in_strings _ _).
  - repeat runs_step. by simplify_eq.
  - repeat runs_step. destruct (_ <=? _); repeat runs_step; by simplify_eq.
Qed.

Lemma transfer_Ok fuel capsule install h res n :
  runs env h (transfer fuel capsule install) (Ok res) n ->
  exists id, 1 <= id <= 0xffffffff /\ selected_status (transaction res) id (sha capsule) (blen capsule) /\
    (install = false -> jget (transaction res) "state" = JStr "aborted" /\
       jget (transaction res) "slot_touched" = JBool false).
Proof.
  unfold transfer. intros (u & n1 & n2 & _ & H & ->)%runs_bind_Ok.
  apply runs_bind_Ok in H as ([[boot id] lost] & n3 & n4 & Hs & H & ->).
  apply runs_bind_Ok in H as (final & n5 & n6 & Hf & H & ->). apply reconcile_Ok in Hf.
  apply with_probe_Ok in Hs as (hello & m & _ & Hs & _). unfold session in Hs.
  apply runs_bind_Ok in Hs as ([boot' id'] & k1 & k2 & Hst & Hs & _). apply stage_Ok in Hst as (_ & Hid & _).
  repeat runs_step. simplify_eq. exists id'. simpl. split; [done|]. split; [done|]. intros ->.
  by eapply state_differs_Ok.
Qed.
End Reconcile.

(** ** Termination of the polling loop *)
Section Clock.
Context (env : environment probe_ret) (t : list probe_call -> Z).
Hypothesis clock : forall h, env h Now = Ok (t h).
Hypothesis clock_monotone : forall h n, t h <= t (h ++ n).
Hypothesis sleep_advances : forall h d, env h (Sleep d) = Ok tt -> t h + d <= t (h ++ [Sleep d]).
Hypothesis real_exceptions : forall h c e, env h c = Raise e -> e <> OutOfFuel.

Definition not_fuel (e : exn) : Prop := e <> OutOfFuel.

Lemma snapshot_raises value id digest size : raises not_fuel (snapshot value id digest size).
Proof. unfold snapshot. raises_tac. Qed.

Lemma ditem_not_fuel {A} (d : dict A) k : raises not_fuel (ditem d k).
Proof. by apply raises_some_or. Qed.

#[local] Hint Resolve snapshot_raises ditem_not_fuel : raises.

Lemma turn_fails deadline id digest size s :
  fails_with env not_fuel (reconcile_turn deadline id digest size s).
Proof. unfold reconcile_turn. fails_tac; intros h e He; by eapply real_exceptions. Qed.

(** A turn that goes round again has slept before the deadline. *)
Lemma turn_again deadline id digest size h n :
  runs env h (reconcile_turn deadline id digest size tt) (Ok (inl tt)) n ->
  t h < deadline /\ t h + tenth <= t (h ++ n).
Proof.
  unfold reconcile_turn. intros H. repeat runs_step. destruct (in_strings _ _); repeat runs_step; [done|].
  rewrite ?app_nil_r, ?app_nil_l, clock in *. simplify_eq.
  destruct (Z.leb_spec deadline (t (h ++ [Command "flash.status" (status_fields id)]))); repeat runs_step; [done|].
  match goal with Hs : Ok _ = env _ (Sleep _) |- _ => symmetry in Hs end.
  match goal with Hs : env ?hh (Sleep ?d) = Ok ?u |- _ =>
    destruct u; apply sleep_advances in Hs; pose proof (clock_monotone (h ++ [Command "flash.status" (status_fields id)]) [Now]) end.
  pose proof (clock_monotone h [Command "flash.status" (status_fields id)]).
  rewrite <- !app_assoc in *. simpl in *. lia.
Qed.

Lemma polling_ends deadline id digest size fuel h r n :
  1 <= Z.of_nat fuel -> deadline - t h <= (Z.of_nat fuel - 1) * tenth ->
  runs env h (io_loop fuel (reconcile_turn deadline id digest size) tt) r n -> r <> Raise OutOfFuel.
Proof.
  revert h r n. induction fuel as [|fuel IH]; intros h r n Hf Hd; [lia|]. cbn [io_loop].
  intros [(e & H & ->)|(o & n1 & n2 & H1 & H2 & ->)]%runs_bind.
  - intros [= ->]. by eapply turn_fails.
  - destruct o as [[]|d]; [|by apply runs_pure in H2 as [-> _]].
    apply turn_again in H1 as [Hlt Hadv]. unfold tenth in *. eapply IH; [| |exact H2];  lia.
Qed.

Lemma env_error h c : Raise OutOfFuel = env h c -> False.
Proof. intros H. by eapply real_exceptions. Qed.

Lemma reconcile_ends fuel boot id digest size timeout h r n :
  0 <= timeout -> timeout / tenth + 2 <= Z.of_nat fuel ->
  runs env h (reconcile fuel boot id digest size timeout) r n -> r <> Raise OutOfFuel.
Proof.
  intros Ht Hf H. unfold reconcile in H.
  apply runs_bind in H as [(e & H & ->)|(start & n1 & n2 & H & H2 & ->)]; runs_step.
  { intros [= ->]. exact (env_error _ Now H). }
  rewrite clock in *. simplify_eq. unfold with_probe in H2.
  apply runs_bind in H2 as [(e & H2 & ->)|(hello & m1 & m2 & H2 & H3 & ->)]; runs_step.
  { intros [= ->]. match goal with Ho : Raise OutOfFuel = env _ Open |- _ => exact (env_error _ Open Ho) end. }
  apply runs_finally in H3 as (q & r1 & k1 & k2 & H4 & H5 & -> & ->). runs_step. subst q.
  destruct (env _ Close) as [u|e] eqn:Ec; [|intros [= ->]; by apply (real_exceptions _ _ _ Ec)].
  apply runs_bind in H4 as [(e & H4 & ->)|(b & j1 & j2 & H4 & H6 & ->)]; runs_step.
  { intros [= ->]. eapply ditem_not_fuel; by symmetry. }
  apply runs_bind in H6 as [(e & H6 & ->)|(b' & i1 & i2 & H6 & H7 & ->)]; runs_step.
  { intros [= ->]. by destruct (negb (py_eq b boot)). }
  unfold tenth in *.
  pose proof (Z.div_mod timeout 100000000 ltac:(done)). pose proof (Z.mod_pos_bound timeout 100000000 eq_refl).
  pose proof (clock_monotone h ([Now] ++ [Open] ++ [] ++ [])) as Hm. rewrite !app_assoc in Hm.
  eapply polling_ends; [| |exact H7]; unfold tenth; lia.
Qed.
End Clock.

(** ** Properties *)

(** Whatever the device answers, a transfer sends the commit request at most once, and never
    without [install]: a lost reply, a refusal or a failed reconciliation never leads to a second. *)
Theorem transfer_commits_once env fuel capsule (install : bool) h r n :
  runs env h (transfer fuel capsule install) r n ->
  (count is_commit n <= if install then 1%nat else 0%nat)%nat.
Proof.
  intros [Hn|(hello & r1 & n1 & n2 & _ & Hs & -> & Hn)]%transfer_runs; [rewrite count_none by done; lia|].
  apply session_commits in Hs. change (Open :: n1 ++ n2) with ([Open] ++ n1 ++ n2).
  rewrite !count_app, (count_none is_commit n2) by done. change (count is_commit [Open]) with 0%nat. lia.
Qed.

(** The bytes a list of calls has uploaded. *)
Definition uploaded (n : list probe_call) : bytes :=
  concat (omap (fun c => match c with UploadChunk _ _ data => Some data | _ => None end) n).

Lemma uploaded_chunks id chunk_size capsule offsets n :
  uploaded ((chunk_call id capsule chunk_size <$> offsets) ++ n) =
  concat ((fun i => slice i (i + chunk_size) capsule) <$> offsets) ++ uploaded n.
Proof.
  induction offsets as [|o l IH]; [done|]. rewrite !fmap_cons. cbn [concat]. rewrite <- app_assoc, <- IH.
  done.
Qed.

Lemma uploaded_stage id chunk_size capsule digest : 0 < chunk_size ->
  uploaded (stage_calls id chunk_size capsule digest (range 0 (blen capsule) chunk_size)) = capsule.
Proof.
  intros Hc. unfold stage_calls. rewrite app_comm_cons.
  change (uploaded (Command "flash.begin" (begin_fields capsule digest) :: ?l ++ ?k)) with (uploaded (l ++ k)).
  cbn [app]. change (uploaded (Command "flash.begin" (begin_fields capsule digest) :: ?l)) with (uploaded l).
  rewrite uploaded_chunks. change (uploaded [_]) with (@nil byte). rewrite app_nil_r.
  by apply (pieces_concat chunk_size).
Qed.

(** A commit is only ever sent after a complete stage of the same transaction: the calls before it
    are the opening of the session, the begin request, the chunks and the finish request that the
    device answered with the verified, untouched stage; with the payload limit the probe has checked,
    the uploaded chunks are exactly the capsule, in order. *)
Theorem transfer_commit_after_stage env fuel capsule install h r n i c :
  runs env h (transfer fuel capsule install) r n -> n !! i = Some c -> is_commit c = true ->
  install = true /\ exists hello id chunk_size offsets before reply,
    env h Open = Ok hello /\ c = commit_call id /\ 1 <= id <= 0xffffffff /\
    take i n = Open :: stage_calls id chunk_size capsule (sha capsule) offsets /\
    Open :: stage_calls id chunk_size capsule (sha capsule) offsets = before ++ [Command "flash.finish" (status_fields id)] /\
    env (h ++ before) (Command "flash.finish" (status_fields id)) = Ok reply /\
    verified_stage reply id capsule (sha capsule) /\
    (jget hello "max_payload" = JInt 4096 -> chunk_size = 1024 /\ uploaded (take i n) = capsule).
Proof.
  intros [Hn|(hello & r1 & n1 & n2 & Ho & Hs & -> & Hn)]%transfer_runs Hi Hc.
  { exfalso. by eapply not_in_none. }
  destruct i as [|i]; [by injection Hi as <-|]. simpl in Hi.
  apply lookup_app_Some in Hi as [Hi|[_ Hi]]; [|exfalso; by eapply not_in_none].
  pose proof (lookup_lt_Some _ _ _ Hi) as Hlt.
  apply (session_commit _ _ _ _ _ _ _ _ _ _ Hs Hi) in Hc as (-> & boot & id & m & Hst & -> & Ht).
  apply stage_Ok in Hst as (_ & Hid & cs & offs & pre & reply & Hcs & Hoffs & Hm & Hpre & He & Hv).
  split; [done|]. exists hello, id, cs, offs, (Open :: pre), reply. simpl.
  rewrite take_app_le by lia. rewrite Ht, <- Hm, Hpre. rewrite <- app_assoc in He.
  split_and!; try done; try lia. intros Hp. unfold chunk_size_of in Hcs.
  rewrite (ditem_jget _ _ _ Hp) in Hcs by done. simpl in Hcs. injection Hcs as <-.
  split; [done|]. rewrite <- Hpre, Hm. injection Hoffs as <-. unfold uploaded. simpl.
  fold (uploaded (stage_calls id 1024 capsule (sha capsule) (range 0 (blen capsule) 1024))). by apply (uploaded_stage id 1024 capsule (sha capsule)).
Qed.

(** The reconciliation only reads: it sends no request but the status query, never uploads, and
    what it returns is a status of the selected transaction. *)
Theorem reconcile_reads_only env fuel boot id digest size timeout h r n :
  runs env h (reconcile fuel boot id digest size timeout) r n ->
  Forall status_only n /\ (forall d, r = Ok d -> selected_status d id digest size).
Proof.
  intros H. split; [by eapply reconcile_calls|]. intros d ->. by eapply reconcile_Ok.
Qed.

(** The polling loop ends: with a clock that never runs backwards and a sleep that lasts at least
    as long as asked, 52 turns cover the five-second timeout, so the outcome is never exhausted fuel. *)
Theorem reconcile_terminates (env : environment probe_ret) (t : list probe_call -> Z) fuel boot id digest size timeout h r n :
  (forall h, env h Now = Ok (t h)) -> (forall h n, t h <= t (h ++ n)) ->
  (forall h d, env h (Sleep d) = Ok tt -> t h + d <= t (h ++ [Sleep d])) ->
  (forall h c e, env h c = Raise e -> e <> OutOfFuel) ->
  0 <= timeout -> timeout / tenth + 2 <= Z.of_nat fuel ->
  runs env h (reconcile fuel boot id digest size timeout) r n -> r <> Raise OutOfFuel.
Proof. intros H1 H2 H3 H4. by eapply reconcile_ends. Qed.

(** A transfer that returns reports a status of its own transaction and capsule; after a
    deliberate disconnect that status is an aborted stage with the slot untouched. *)
Theorem transfer_result_checked env fuel capsule install h res n :
  runs env h (transfer fuel capsule install) (Ok res) n ->
  exists id, 1 <= id <= 0xffffffff /\ selected_status (transaction res) id (sha capsule) (blen capsule) /\
    (install = false -> jget (transaction res) "state" = JStr "aborted" /\
       jget (transaction res) "slot_touched" = JBool false).
Proof. apply transfer_Ok. Qed.

(** ** A concrete device

    It acknowledges every request of one transaction; the final state is the parameter. *)
Definition demo_status (state : string) (received : Z) (size : Z) (digest : string) : dict json :=
  [("upload_id", JInt 7); ("sha256", JStr digest); ("size", JInt size); ("received", JInt received);
   ("slot_touched", JBool false); ("state", JStr state); ("error", JStr "")].

Definition demo_elapsed (h : list probe_call) : Z :=
  foldr (fun c t => match c with Sleep d => Z.max 0 d + t | _ => t end) 0 h.

Definition demo_env (size : Z) (digest final : string) : environment probe_ret := fun h c =>
  match c with
  | Open => Ok [("boot_id", JStr "0123456789abcdef"); ("max_payload", JInt 4096)]
  | Command op _ => Ok
      (if decide (op = "flash.begin") then demo_status "accepted" 0 size digest
       else if decide (op = "flash.finish") then demo_status "verified" size size digest
       else if decide (op = "flash.commit") then demo_status "committing" size size digest
       else demo_status final size size digest)
  | UploadChunk _ offset data => Ok (demo_status "accepted" (offset + blen data) size digest)
  | Now => Ok (demo_elapsed h)
  | Finish | Close | Sleep _ => Ok tt
  end.

Definition demo_upload : bytes := zeros 257.
Definition demo_digest : string := Eval vm_compute in sha demo_upload.
Definition demo_device : environment probe_ret := demo_env 257 demo_digest "boot_confirmed".

Definition demo_calls (install : bool) : list probe_call :=
  (transfer 60 demo_upload install
    (demo_env 257 demo_digest (if install then "boot_confirmed" else "aborted")) []
    : result transfer_result * list probe_call).2.

Lemma transfer_commits_once_witness :
  count is_commit (demo_calls true) = 1%nat /\ (count is_commit (demo_calls true) <= 1)%nat.
Proof.
  split; [vm_compute; reflexivity|].
  apply (transfer_commits_once demo_device 60 demo_upload true [] (transfer 60 demo_upload true demo_device []).1).
  vm_compute. reflexivity.
Defined.

Lemma transfer_commit_after_stage_witness :
  demo_calls true !! 4%nat = Some (commit_call 7) /\ uploaded (take 4 (demo_calls true)) = demo_upload.
Proof.
  split; [vm_compute; reflexivity|].
  destruct (transfer_commit_after_stage demo_device 60 demo_upload true []
    (transfer 60 demo_upload true demo_device []).1 (demo_calls true) 4 (commit_call 7))
    as (_ & hello & id & cs & offs & before & reply & Ho & _ & _ & _ & _ & _ & _ & Hu);
    [vm_compute; reflexivity..|].
  apply Hu. injection Ho as <-. reflexivity.
Defined.

Lemma reconcile_reads_only_witness : exists d n,
  runs demo_device [] (reconcile 60 (JStr "0123456789abcdef") 7 demo_digest 257 (5 * second)) (Ok d) n /\
  Forall status_only n /\ selected_status d 7 demo_digest 257.
Proof.
  eexists _, _. split; [vm_compute; reflexivity|].
  destruct (reconcile_reads_only demo_device 60 (JStr "0123456789abcdef") 7 demo_digest 257 (5 * second) []
    _ _ eq_refl) as [H1 H2]. split; [exact H1|]. apply H2. vm_compute. reflexivity.
Defined.

Lemma demo_elapsed_app h n : demo_elapsed h <= demo_elapsed (h ++ n).
Proof.
  assert (Hn : 0 <= demo_elapsed n) by (induction n as [|[] n IH]; simpl; lia).
  induction h as [|c h IH]; simpl; [done|]. destruct c; lia.
Qed.

Lemma demo_elapsed_sleep h d : demo_elapsed h + d <= demo_elapsed (h ++ [Sleep d]).
Proof. induction h as [|c h IH]; simpl; [lia|]. destruct c; lia. Qed.

Lemma reconcile_terminates_witness : exists r n,
  runs (demo_env 257 demo_digest "installed") []
    (reconcile 52 (JStr "0123456789abcdef") 7 demo_digest 257 (5 * second)) r n /\ r <> Raise OutOfFuel.
Proof.
  eexists _, _. split; [reflexivity|].
  apply (reconcile_terminates (demo_env 257 demo_digest "installed") demo_elapsed 52
    (JStr "0123456789abcdef") 7 demo_digest 257 (5 * second) [] _
    (reconcile 52 (JStr "0123456789abcdef") 7 demo_digest 257 (5 * second)
      (demo_env 257 demo_digest "installed") []).2).
  - reflexivity.
  - exact demo_elapsed_app.
  - intros h d _. apply demo_elapsed_sleep.
  - intros h c e. destruct c; discriminate.
  - vm_compute. discriminate.
  - vm_compute. discriminate.
  - unfold runs. apply surjective_pairing.
Defined.

Lemma transfer_result_checked_witness : exists res,
  (transfer 60 demo_upload false (demo_env 257 demo_digest "aborted") []).1 = Ok res /\
  jget (transaction res) "state" = JStr "aborted".
Proof.
  eexists. split; [vm_compute; reflexivity|].
  destruct (transfer_result_checked (demo_env 257 demo_digest "aborted") 60 demo_upload false [] _
    (demo_calls false) ltac:(vm_compute; reflexivity)) as (id & _ & _ & H).
  apply H. reflexivity.
Defined.
