(* ===== verification/CheckpointFlash.v ===== *)
(** * experiments/managed_sketch/checkpoint_flash.py

    The fault-test transfer: the same staged upload as fmgo_upload.py on target 2, with a
    journal record written before the single commit request. The journal is the [save]
    argument of the code; its writes are calls of the environment like the probe's. *)

From stdpp Require Import base tactics list list_numbers strings.
From Stdlib Require Import ZArith Lia.
From S2P Require Import Prelude.
From S2P Require Import PyBytes.
From S2P Require Import PyDict.
From S2P Require Import PyJson.
From S2P Require Import Sha256.
From S2P Require Import Effects.
From S2P Require Import FmgoUpload.

Local Open Scope Z_scope.

Inductive journal_call :=
| Request (op : string) (fields : dict json)
| Chunk (upload_id offset : Z) (data : bytes)
| CloseProbe
| Save (record : dict json).

Definition journal_ret (c : journal_call) : Type :=
  match c with Request _ _ | Chunk _ _ _ => dict json | CloseProbe | Save _ => unit end.

Abbreviation jio := (io journal_ret).

Definition target2_fields (upload_id : Z) : dict json := [("target_id", JInt 2); ("upload_id", JInt upload_id)].

Definition begin2_fields (capsule : bytes) (digest : string) : dict json :=
  [("target_id", JInt 2); ("board_id", JStr "nano_rp2040_connect"); ("format", JStr "nano-managed-v2");
   ("size", JInt (blen capsule)); ("sha256", JStr digest)].

(** [dict(bootID=..., capsuleSHA256=..., ...)] *)
Definition base_record (boot : json) (digest : string) (size : Z) : dict json :=
  [("bootID", boot); ("capsuleSHA256", JStr digest); ("capsuleBytes", JInt size);
   ("state", JStr "staging"); ("commitAttempts", JInt 0); ("automaticReplay", JBool false)].

(** [base.update(state='commitIntent', uploadID=upload_id, commitAttempts=1)] *)
Definition intent_record (base : dict json) (upload_id : Z) : dict json :=
  dset (dset (dset base "state" (JStr "commitIntent")) "uploadID" (JInt upload_id)) "commitAttempts" (JInt 1).

(** [value['state'] != 'accepted' or value['received'] or value['slot_touched']] *)
Definition begin_differs (value : dict json) : result bool :=
  s ← ditem value "state";
  if negb (py_eq s (JStr "accepted")) then Ok true else
  r ← ditem value "received";
  if truthy r then Ok true else
  t ← ditem value "slot_touched";
  Ok (truthy t).

Definition send_part (upload_id : Z) (digest : string) (capsule : bytes) (_ : unit) (offset : Z) : jio unit :=
  let part := slice offset (offset + 1024) capsule in
  reply ← ask (Chunk upload_id offset part);
  value ← io_pure (snapshot (JObj reply) upload_id digest (blen capsule));
  differs ← io_pure (stage_differs value "accepted" (offset + blen part));
  io_when differs (RuntimeError "chunk acknowledgement differs from selected stage").

(** Everything before the commit intent. *)
Definition stage_part (capsule : bytes) (digest : string) (base : dict json) : jio Z :=
  ask (Save base);;
  value ← ask (Request "flash.begin" (begin2_fields capsule digest));
  let upload_id := jget value "upload_id" in
  io_when (negb (int_within 1 0xffffffff upload_id)) (RuntimeError "invalid transaction ID");;
  let upload_id := int_of upload_id in
  io_pure (snapshot (JObj value) upload_id digest (blen capsule));;
  differs ← io_pure (begin_differs value);
  io_when differs (RuntimeError "begin did not acknowledge a new RAM stage");;
  io_fold (send_part upload_id digest capsule) tt (range 0 (blen capsule) 1024);;
  reply ← ask (Request "flash.finish" (target2_fields upload_id));
  value ← io_pure (snapshot (JObj reply) upload_id digest (blen capsule));
  differs ← io_pure (state_differs value "verified");
  io_when differs (RuntimeError "RAM verification did not pass");;
  mret upload_id.

(** The commit request; the new [base]. *)
Definition commit_part (capsule : bytes) (digest : string) (base : dict json) (upload_id : Z) : jio (dict json) :=
  try_except
    (reply ← ask (Request "flash.commit" (target2_fields upload_id));
     value ← io_pure (snapshot (JObj reply) upload_id digest (blen capsule));
     state ← io_pure (ditem value "state");
     io_when (negb (py_eq state (JStr "committing")))
       (RuntimeError "unexpected commit reply; preserve uncertainty");;
     mret (dset (dset base "state" (JStr "committing")) "reply" (JObj value)))
    (is_any [KOSError; KRuntimeError])
    (fun error => mret (dset (dset base "state" (JStr "outcomeUnknown"))
       "cause" (JStr (String.substring 0 512 (emsg error))))).

Definition transfer_body (hello : dict json) (capsule : bytes) (digest : string) : jio (dict json) :=
  boot ← io_pure (ditem hello "boot_id");
  let base := base_record boot digest (blen capsule) in
  upload_id ← stage_part capsule digest base;
  let base := intent_record base upload_id in
  ask (Save base);;
  base ← commit_part capsule digest base upload_id;
  ask (Save base);;
  mret base.

(** [transfer(probe, capsule, save)] for a connected probe with its [hello] *)
Definition transfer (hello : dict json) (capsule : bytes) : jio (dict json) :=
  let digest := sha capsule in
  try_finally (transfer_body hello capsule digest) (ask CloseProbe).

(** ** Lemmas *)
Definition is_commit2 (c : journal_call) : bool :=
  match c with Request op _ => bool_decide (op = "flash.commit") | _ => false end.

Definition commit2 (upload_id : Z) : journal_call := Request "flash.commit" (target2_fields upload_id).

Definition no_commit2 (n : list journal_call) : Prop := Forall (fun c => is_commit2 c = false) n.

Section Transfer.
Context (env : environment journal_ret).

Lemma stage_part_calls capsule digest base :
  calls_only env (fun c => is_commit2 c = false) (stage_part capsule digest base).
Proof. unfold stage_part, send_part. calls_tac; done. Qed.

Lemma commit_part_runs capsule digest base id h r n :
  runs env h (commit_part capsule digest base id) r n ->
  n = [commit2 id] /\ forall b, r = Ok b -> jget b "state" = JStr "committing" \/
    jget b "state" = JStr "outcomeUnknown".
Proof.
  assert (Hg : forall (d : dict json) k s v, k <> "state" -> jget (dset (dset d "state" (JStr s)) k v) "state" = JStr s).
  { intros d k s v Hk. unfold jget. rewrite dget_dset, decide_False, dget_dset, decide_True by done. done. }
  unfold commit_part, commit2. intros [[H _]|(e & n1 & n2 & H & _ & H2 & ->)]%runs_try; runs_all;
    (split; [done|]); intros b Hb; simplify_eq; rewrite Hg by done; auto.
Qed.

(** The calls of the body: none of the commit, or one right after its intent was saved. *)
Definition journalled (h n : list journal_call) : Prop :=
  no_commit2 n \/ exists base id n1 n2,
    n = n1 ++ [Save (intent_record base id); commit2 id] ++ n2 /\ no_commit2 n1 /\ no_commit2 n2 /\
    env (h ++ n1) (Save (intent_record base id)) = Ok tt.

Lemma transfer_body_runs hello capsule digest h r n :
  runs env h (transfer_body hello capsule digest) r n -> journalled h n.
Proof.
  unfold transfer_body, journalled, no_commit2. intros H.
  apply runs_bind in H as [(e & H & _)|(boot & m & n0 & H & H2 & ->)]; runs_step; [by left|].
  rewrite app_nil_l, app_nil_r in *.
  apply runs_bind in H2 as [(e & H2 & _)|(id & n1 & n2 & H1 & H2 & ->)]; [left; by eapply stage_part_calls|].
  apply stage_part_calls in H1. set (base := intent_record _ _) in *.
  apply runs_bind in H2 as [(e & H2 & _)|(u & m1 & m2 & H2 & H3 & ->)]; runs_step.
  { left. apply Forall_app. split; [done|]. by repeat constructor. }
  right. exists (base_record boot digest (blen capsule)), id, n1. fold base. destruct u.
  apply runs_bind in H3 as [(e & H3 & _)|(b & k1 & k2 & H3 & H4 & ->)];
    apply commit_part_runs in H3 as [-> _].
  - exists []. split_and!; done.
  - exists k2. split_and!; try done. runs_all; by repeat constructor.
Qed.

Lemma flash_transfer_runs hello capsule h r n : runs env h (transfer hello capsule) r n -> journalled h n.
Proof.
  unfold transfer, journalled. intros (q & r1 & n1 & n2 & H1 & H2 & -> & _)%runs_finally. runs_step.
  apply transfer_body_runs in H1 as [Hn|(base & id & m1 & m2 & -> & H1 & H2 & H3)].
  - left. apply Forall_app. split; [done|]. by repeat constructor.
  - right. exists base, id, m1, (m2 ++ [CloseProbe]). rewrite <- !app_assoc. split_and!; try done.
    apply Forall_app. split; [done|]. by repeat constructor.
Qed.

Lemma transfer_saved hello capsule h res n :
  runs env h (transfer hello capsule) (Ok res) n ->
  (jget res "state" = JStr "committing" \/ jget res "state" = JStr "outcomeUnknown") /\
  exists n1, n = n1 ++ [Save res; CloseProbe].
Proof.
  unfold transfer. intros (q & r1 & n1 & n2 & H1 & H2 & -> & Hr)%runs_finally. runs_step.
  destruct q as [u|]; [|done]. subst r1. unfold transfer_body in H1.
  apply runs_bind_Ok in H1 as (boot & m1 & k1 & _ & H1 & ->).
  apply runs_bind_Ok in H1 as (id & m2 & k2 & _ & H1 & ->).
  apply runs_bind_Ok in H1 as (u' & m3 & k3 & _ & H1 & ->).
  apply runs_bind_Ok in H1 as (b & m4 & k4 & Hc & H1 & ->). apply commit_part_runs in Hc as [_ Hb].
  repeat runs_step. simplify_eq. split; [by apply Hb|].
  exists (m1 ++ m2 ++ m3 ++ m4). by rewrite <- !app_assoc.
Qed.
End Transfer.

(** ** Properties *)

(** The journal comes first: a transfer sends the commit request at most once, and only right after
    the record of the commit intent was saved; when that save fails nothing is committed. *)
Theorem commit_follows_saved_intent env hello capsule h r n :
  runs env h (transfer hello capsule) r n ->
  Forall (fun c => is_commit2 c = false) n \/ exists base id n1 n2,
    n = n1 ++ [Save (intent_record base id); commit2 id] ++ n2 /\
    Forall (fun c => is_commit2 c = false) n1 /\ Forall (fun c => is_commit2 c = false) n2 /\
    env (h ++ n1) (Save (intent_record base id)) = Ok tt.
Proof. apply flash_transfer_runs. Qed.

(** What a transfer returns is what it saved last, and it claims no more than an acknowledged
    commit or an unknown outcome. *)
Theorem transfer_returns_saved_record env hello capsule h res n :
  runs env h (transfer hello capsule) (Ok res) n ->
  (jget res "state" = JStr "committing" \/ jget res "state" = JStr "outcomeUnknown") /\
  exists n1, n = n1 ++ [Save res; CloseProbe].
Proof. apply transfer_saved. Qed.

(** ** A concrete device whose commit reply is lost *)
Definition demo_journal_env : environment journal_ret := fun h c =>
  match c with
  | Request op _ =>
      if decide (op = "flash.begin") then Ok (demo_status "accepted" 0 257 demo_digest)
      else if decide (op = "flash.finish") then Ok (demo_status "verified" 257 257 demo_digest)
      else Raise (RuntimeError "FMGO disconnected")
  | Chunk _ offset data => Ok (demo_status "accepted" (offset + blen data) 257 demo_digest)
  | CloseProbe | Save _ => Ok tt
  end.

Definition demo_hello : dict json := [("boot_id", JStr "0123456789abcdef")].
Definition demo_run : result (dict json) * list journal_call :=
  transfer demo_hello demo_upload demo_journal_env [].

Lemma commit_follows_saved_intent_witness : exists base id n1 n2,
  demo_run.2 = n1 ++ [Save (intent_record base id); commit2 id] ++ n2.
Proof.
  destruct (commit_follows_saved_intent demo_journal_env demo_hello demo_upload [] demo_run.1 demo_run.2)
    as [H|(base & id & n1 & n2 & H & _)].
  - vm_compute. reflexivity.
  - exfalso. apply (Forall_lookup_1 _ _ 5%nat (commit2 7)) in H; vm_compute in *; congruence.
  - exists base, id, n1, n2. exact H.
Defined.

Lemma transfer_returns_saved_record_witness : exists res,
  demo_run.1 = Ok res /\ (jget res "state" = JStr "committing" \/ jget res "state" = JStr "outcomeUnknown").
Proof.
  eexists. split; [vm_compute; reflexivity|].
  eapply (transfer_returns_saved_record demo_journal_env demo_hello demo_upload [] _ demo_run.2).
  vm_compute. reflexivity.
Defined.
