(* ===== verification/Ipv4.v ===== *)
(** * Numeric IPv4 addresses

    [ipaddress.IPv4Address] as the tools use it: a dotted quad with no leading zero, and the
    rule that a hardware test names one unicast board (tools/smoke.py, [validate_target]). *)

From stdpp Require Import base tactics list list_numbers strings.
From Stdlib Require Import ZArith Lia Ascii.
From S2P Require Import Prelude.
From S2P Require Import PyBytes.
From S2P Require Import PyText.

Local Open Scope Z_scope.

(** ** Decimal digits *)
Definition digit_char (d : Z) : Ascii.ascii := Ascii.ascii_of_N (Z.to_N (48 + d)).

(** [str(n)] for [0 <= n < 1000] *)
Definition decimal (n : Z) : string :=
  if n <? 10 then String (digit_char n) ""
  else if n <? 100 then String (digit_char (n / 10)) (String (digit_char (n mod 10)) "")
  else String (digit_char (n / 100)) (String (digit_char (n / 10 mod 10)) (String (digit_char (n mod 10)) "")).

(** [int(s, 10)] on a string of digits *)
Fixpoint digits_value (acc : Z) (s : string) : Z :=
  match s with EmptyString => acc | String c s => digits_value (10 * acc + (code c - 48)) s end.

(** [s.split(sep)] and [sep.join(l)] for one separator character *)
Fixpoint split_on (sep : Ascii.ascii) (s : string) : list string :=
  match s with
  | EmptyString => [""]
  | String c s =>
      if bool_decide (c = sep) then "" :: split_on sep s
      else match split_on sep s with x :: l => String c x :: l | [] => [String c ""] end
  end.

Fixpoint join_with (sep : Ascii.ascii) (l : list string) : string :=
  match l with
  | [] => ""
  | [x] => x
  | x :: l => x +:+ String sep (join_with sep l)
  end.

(** ** Parsing and printing *)
Definition AddressValueError := ValueError.

Definition parse_octet (s : string) : result Z :=
  raise_when (bool_decide (s = "")) (AddressValueError "Empty octet not permitted");;
  raise_when (negb (string_forallb is_digit s)) (AddressValueError "Only decimal digits permitted");;
  raise_when (3 <? String.length s)%nat (AddressValueError "At most 3 characters permitted");;
  raise_when (negb (bool_decide (s = "0")) && bool_decide (String.get 0 s = Some "0"%char))
    (AddressValueError "Leading zeros are not permitted");;
  raise_when (255 <? digits_value 0 s) (AddressValueError "Octet (> 255) not permitted");;
  mret (digits_value 0 s).

(** The address as its four octets, most significant first. *)
Definition IPv4Address (s : string) : result (list Z) :=
  let octets := split_on "."%char s in
  raise_when (negb (length octets =? 4)%nat) (AddressValueError "Expected 4 octets");;
  mapM parse_octet octets.

Definition str_address (octets : list Z) : string := join_with "."%char (decimal <$> octets).
Definition is_multicast (octets : list Z) : bool := Z.land (hd 0 octets) 0xf0 =? 224.
Definition is_unspecified (octets : list Z) : bool := bool_decide (octets = [0; 0; 0; 0]).

Definition validate_target (address : string) : result string :=
  target ← IPv4Address address;
  raise_when (is_multicast target || is_unspecified target
      || bool_decide (str_address target = "255.255.255.255"))
    (ValueError "select one unicast board IPv4 address");;
  mret (str_address target).

(** ** Octets *)
Definition octet (n : Z) : Prop := 0 <= n < 256.

Lemma octet_in n : octet n -> n ∈ seqZ 0 256.
Proof. unfold octet. rewrite elem_of_seqZ. lia. Qed.

Lemma forall_octets (P : Z -> bool) : forallb P (seqZ 0 256) = true -> forall n, octet n -> P n = true.
Proof. intros HP n Hn%octet_in%list_elem_of_In. by eapply forallb_forall in HP. Qed.

Lemma parse_decimal n : octet n -> parse_octet (decimal n) = Ok n.
Proof.
  intros Hn. apply (forall_octets (fun n => match parse_octet (decimal n) with Ok m => m =? n | Raise _ => false end)) in Hn.
  - destruct (parse_octet (decimal n)); [|done]. by apply Z.eqb_eq in Hn as ->.
  - vm_compute. reflexivity.
Qed.

Lemma decimal_dotless n : octet n -> string_forallb is_digit (decimal n) = true.
Proof. apply (forall_octets (fun n => string_forallb is_digit (decimal n))). vm_compute. reflexivity. Qed.

Definition digit_chars : list Ascii.ascii := digit_char <$> seqZ 0 10.

Lemma digit_char_in c : is_digit c = true -> c ∈ digit_chars.
Proof.
  intros H. apply (bool_decide_unpack (c ∈ digit_chars)). revert H.
  destruct c as [[] [] [] [] [] [] [] []]; vm_compute; done.
Qed.

(** A parsed octet is its own decimal notation. *)
Definition canonical (s : string) : bool :=
  match parse_octet s with
  | Ok n => (0 <=? n) && (n <? 256) && bool_decide (s = decimal n)
  | Raise _ => true
  end.

Definition short_digits : list string :=
  let one := (fun c => String c "") <$> digit_chars in
  let more l := c ← digit_chars; String c <$> l in
  one ++ more one ++ more (more one).

Lemma canonical_short : forallb canonical short_digits = true.
Proof. vm_compute. reflexivity. Qed.

Lemma short_digits_complete s : s <> "" -> string_forallb is_digit s = true -> (String.length s <= 3)%nat ->
  s ∈ short_digits.
Proof.
  intros Hne Hd Hl. unfold short_digits. rewrite !elem_of_app.
  destruct s as [|a s]; [done|]. simpl in Hd. apply andb_true_iff in Hd as [Ha%digit_char_in Hd].
  destruct s as [|b s]; [left; apply list_elem_of_fmap; eauto|]. right.
  simpl in Hd. apply andb_true_iff in Hd as [Hb%digit_char_in Hd].
  destruct s as [|c s].
  - left. apply list_elem_of_bind. exists a. split; [|done]. apply list_elem_of_fmap. eexists. split; [done|].
    apply list_elem_of_fmap. eauto.
  - right. simpl in Hd. apply andb_true_iff in Hd as [Hc%digit_char_in _].
    destruct s as [|d s]; [|simpl in Hl; lia].
    apply list_elem_of_bind. exists a. split; [|done]. apply list_elem_of_fmap. eexists. split; [done|].
    apply list_elem_of_bind. exists b. split; [|done]. apply list_elem_of_fmap. eexists. split; [done|].
    apply list_elem_of_fmap. eauto.
Qed.

Lemma parse_octet_Ok s n : parse_octet s = Ok n <-> octet n /\ s = decimal n.
Proof.
  split; [|intros [Hn ->]; by apply parse_decimal].
  intros H. assert (Hs : s ∈ short_digits).
  { unfold parse_octet in H. rewrite !raise_when_bind in H. destruct H as (H1 & H2 & H3 & _).
    apply short_digits_complete; [by apply bool_decide_eq_false in H1|by apply negb_false_iff in H2|].
    apply Nat.ltb_ge in H3. lia. }
  apply list_elem_of_In in Hs. pose proof canonical_short as Hc. rewrite forallb_forall in Hc.
  apply Hc in Hs. unfold canonical in Hs. rewrite H in Hs. unfold octet. breflect.
  destruct Hs as [[? ?] ?]. split; [lia|done].
Qed.

(** ** Splitting and joining *)
Lemma split_on_nonempty sep s : split_on sep s <> [].
Proof. destruct s as [|c s]; simpl; [done|]. case_bool_decide; [done|]. by destruct (split_on sep s). Qed.

Lemma join_split sep s : join_with sep (split_on sep s) = s.
Proof.
  induction s as [|c s IH]; [done|]. cbn [split_on]. case_bool_decide as Hc.
  - subst. pose proof (split_on_nonempty sep s). destruct (split_on sep s); [done|]. simpl in *. by rewrite IH.
  - destruct (split_on sep s) as [|x [|y l]]; simpl in *; by rewrite <- IH.
Qed.

(** A part has no separator, and is the first part of what follows it. *)
Lemma split_on_part sep s x : x ∈ split_on sep s -> split_on sep x = [x].
Proof.
  revert x. induction s as [|c s IH]; intros x; cbn [split_on]; [by intros ->%list_elem_of_singleton|].
  case_bool_decide as Hc.
  - intros [->|Hx]%elem_of_cons; [done|by apply IH].
  - destruct (split_on sep s) as [|y l] eqn:E; [by apply split_on_nonempty in E|].
    intros [->|Hx]%elem_of_cons; [|apply IH; by right]. cbn [split_on]. rewrite bool_decide_false by done.
    rewrite IH by left. done.
Qed.

Lemma split_on_app sep x s : split_on sep x = [x] -> split_on sep (x +:+ String sep s) = x :: split_on sep s.
Proof.
  induction x as [|c x IH]; simpl; [by rewrite bool_decide_true|]. case_bool_decide as Hc; [done|].
  destruct (split_on sep x) as [|y l] eqn:E; [by apply split_on_nonempty in E|]. intros [= -> ->]. by rewrite IH.
Qed.

Lemma split_on_free sep x : (forall c, is_digit c = true -> c <> sep) -> string_forallb is_digit x = true ->
  split_on sep x = [x].
Proof.
  intros Hsep. induction x as [|c x IH]; [done|]. simpl. intros [Hc Hx]%andb_true_iff.
  rewrite bool_decide_false by auto. by rewrite IH.
Qed.

Lemma split_on_cons sep x s : (forall c, is_digit c = true -> c <> sep) -> string_forallb is_digit x = true ->
  split_on sep (x +:+ String sep s) = x :: split_on sep s.
Proof.
  intros Hsep. induction x as [|c x IH]; simpl.
  - intros _. by rewrite bool_decide_true.
  - intros [Hc Hx]%andb_true_iff. rewrite bool_decide_false by auto. by rewrite IH.
Qed.

Lemma split_join sep l : (forall c, is_digit c = true -> c <> sep) -> l <> [] ->
  Forall (fun x => string_forallb is_digit x = true) l -> split_on sep (join_with sep l) = l.
Proof.
  intros Hsep Hne Hl. induction Hl as [|x l Hx Hl IH]; [done|]. destruct l as [|y l].
  - by apply split_on_free.
  - change (join_with sep (x :: y :: l)) with (x +:+ String sep (join_with sep (y :: l))).
    by rewrite split_on_cons, IH.
Qed.

Lemma digit_not_dot c : is_digit c = true -> c <> "."%char.
Proof. by intros H ->. Qed.

(** ** Addresses *)
Definition quad (octets : list Z) : Prop := length octets = 4%nat /\ Forall octet octets.

Lemma IPv4Address_Ok s octets : IPv4Address s = Ok octets <-> quad octets /\ s = str_address octets.
Proof.
  unfold IPv4Address, quad, str_address. rewrite raise_when_bind, mapM_Ok, negb_false_iff, Nat.eqb_eq. split.
  - intros [Hl Hp]. apply Forall2_length in Hp as Hl'. assert (Ho : Forall octet octets /\ split_on "."%char s = decimal <$> octets).
    { clear Hl Hl'. induction Hp as [|x n l k Hx Hp [IH1 IH2]]; [done|]. apply parse_octet_Ok in Hx as [Hn ->].
      split; [by constructor|]. simpl. by rewrite IH2. }
    destruct Ho as [Ho <-]. rewrite join_split. split; [|done]. split; [congruence|done].
  - intros [[Hl Ho] ->]. rewrite split_join; [|exact digit_not_dot|by destruct octets|].
    + rewrite length_fmap. split; [done|]. clear Hl. induction Ho as [|n l Hn Ho IH]; constructor; [|done].
      by apply parse_decimal.
    + apply Forall_fmap. eapply Forall_impl; [exact Ho|]. intros n. apply decimal_dotless.
Qed.

Lemma str_address_inj a b : quad a -> quad b -> str_address a = str_address b -> a = b.
Proof.
  intros Ha Hb E. assert (Ha' := proj2 (IPv4Address_Ok _ _) (conj Ha eq_refl)).
  assert (Hb' := proj2 (IPv4Address_Ok _ _) (conj Hb eq_refl)). rewrite E in Ha'. congruence.
Qed.

(** One board's unicast address: not 224.0.0.0/4, not unspecified, not the limited broadcast. *)
Definition unicast (octets : list Z) : Prop :=
  (hd 0 octets < 224 \/ 240 <= hd 0 octets) /\ octets <> [0; 0; 0; 0] /\ octets <> [255; 255; 255; 255].

Lemma is_multicast_spec n : octet n -> (Z.land n 0xf0 =? 224) = (224 <=? n) && (n <? 240).
Proof.
  intros Hn. apply eqb_true_iff.
  apply (forall_octets (fun n => Bool.eqb (Z.land n 0xf0 =? 224) ((224 <=? n) && (n <? 240)))); [|done].
  vm_compute. reflexivity.
Qed.

(** The target check accepts exactly the dotted quads of a unicast address, each octet in plain
    decimal without leading zeros, and returns the string unchanged. *)
Theorem validate_target_exact address target :
  validate_target address = Ok target <->
  target = address /\ exists octets, quad octets /\ unicast octets /\ address = str_address octets.
Proof.
  unfold validate_target. rewrite bind_Ok.
  assert (Hu : forall o, quad o -> (is_multicast o || is_unspecified o
      || bool_decide (str_address o = "255.255.255.255")) = false <-> unicast o).
  { intros o Ho. unfold is_multicast, is_unspecified, unicast. pose proof Ho as [Hl Hf].
    destruct Hf as [|a l Ha Hf]; [done|]. simpl. rewrite is_multicast_spec by done. breflect_goal.
    assert (H255 : str_address (a :: l) = "255.255.255.255" <-> a :: l = [255; 255; 255; 255]).
    { split; [|by intros ->]. intros E. apply str_address_inj; [done| |exact E].
      split; [done|]. repeat constructor; lia. }
    rewrite H255. clear H255. tauto. }
  split.
  - intros (o & [Ho ->]%IPv4Address_Ok & [Hc [= <-]]%raise_when_bind). apply Hu in Hc; [|done]. eauto 6.
  - intros (-> & o & Ho & Hun & ->). exists o. rewrite IPv4Address_Ok, raise_when_bind, Hu by done. auto.
Qed.

Example board_address : validate_target "192.168.7.1" = Ok "192.168.7.1".
Proof. reflexivity. Qed.

Example leading_zero : is_ok (validate_target "192.168.07.1") = false.
Proof. reflexivity. Qed.
