(* ===== verification/PyHttp.v ===== *)
(** * Byte-string parsing

    The [bytes] methods the HTTP identity check uses: [split], [startswith], [strip], [lower] and [int]. *)

From stdpp Require Import base tactics list list_numbers strings.
From Stdlib Require Import ZArith Lia.
From S2P Require Import Prelude.
From S2P Require Import PyBytes.

Local Open Scope Z_scope.

Fixpoint startswith (prefix b : bytes) : bool :=
  match prefix, b with
  | [], _ => true
  | x :: prefix, y :: b => bool_decide (x = y) && startswith prefix b
  | _, [] => false
  end.

(** [b.split(sep, 1)]: the part before the first separator, and the rest when there is one *)
Fixpoint split_once (sep b : bytes) : bytes * option bytes :=
  match b with
  | [] => ([], None)
  | x :: r =>
      if startswith sep b then ([], Some (drop (length sep) b))
      else let '(a, o) := split_once sep r in (x :: a, o)
  end.

(** [b.split(sep)]; every turn removes a separator *)
Fixpoint split_turns (fuel : nat) (sep b : bytes) : list bytes :=
  match fuel with
  | O => []
  | S fuel => match split_once sep b with (a, None) => [a] | (a, Some r) => a :: split_turns fuel sep r end
  end.
Definition split (sep b : bytes) : list bytes := split_turns (S (length b)) sep b.

(** [a, b = data.split(sep, 1)] *)
Definition split_pair (sep b : bytes) : result (bytes * bytes) :=
  match split_once sep b with
  | (a, Some r) => Ok (a, r)
  | (_, None) => Raise (ValueError "not enough values to unpack")
  end.

Definition is_space (b : byte) : bool := existsb (Z.eqb (b2z b)) [9; 10; 11; 12; 13; 32].

Fixpoint lstrip (b : bytes) : bytes :=
  match b with x :: r => if is_space x then lstrip r else b | [] => [] end.
Definition strip (b : bytes) : bytes := reverse (lstrip (reverse (lstrip b))).

Definition lower_byte (b : byte) : byte :=
  if (65 <=? b2z b) && (b2z b <=? 90) then z2b (b2z b + 32) else b.
Definition lower_bytes (b : bytes) : bytes := lower_byte <$> b.

(** [int(b)]: blanks around, a sign, digits with single underscores between them *)
Fixpoint int_digits (acc : Z) (after_digit : bool) (b : bytes) : option Z :=
  match b with
  | [] => if after_digit then Some acc else None
  | x :: r =>
      let z := b2z x in
      if (48 <=? z) && (z <=? 57) then int_digits (10 * acc + (z - 48)) true r
      else if (z =? 95) && after_digit then int_digits acc false r
      else None
  end.

Definition py_int (b : bytes) : result Z :=
  some_or (match strip b with
           | x :: r =>
               if b2z x =? 45 then Z.opp <$> int_digits 0 false r
               else if b2z x =? 43 then int_digits 0 false r
               else int_digits 0 false (x :: r)
           | [] => None
           end) (ValueError "invalid literal for int()").

Lemma startswith_spec p b : startswith p b = true <-> exists r, b = p ++ r.
Proof.
  revert b. induction p as [|x p IH]; intros b; simpl; [naive_solver|]. destruct b as [|y b].
  - split; [done|naive_solver].
  - rewrite andb_true_iff, bool_decide_eq_true, IH. naive_solver.
Qed.

Lemma split_once_Some sep b a r : split_once sep b = (a, Some r) -> b = a ++ sep ++ r.
Proof.
  revert a. induction b as [|x b IH]; intros a; [done|]. cbn [split_once].
  destruct (startswith sep (x :: b)) eqn:E.
  - intros [= <- <-]. apply startswith_spec in E as [k E]. rewrite E. simpl. by rewrite drop_app_length.
  - destruct (split_once sep b) as [a' o]. intros [= <- ->]. simpl. f_equal. by apply IH.
Qed.

Lemma split_pair_Ok sep b a r : split_pair sep b = Ok (a, r) -> b = a ++ sep ++ r.
Proof.
  unfold split_pair. destruct (split_once sep b) as [a' [r'|]] eqn:E; [|done]. intros [= -> ->].
  by apply split_once_Some.
Qed.

Example content_length : py_int (ascii " 1_024 ") = Ok 1024.
Proof. reflexivity. Qed.

Definition crlf : bytes := [Byte.x0d; Byte.x0a].

Example header_lines : split crlf (ascii "a" ++ crlf ++ ascii "b: c") = [ascii "a"; ascii "b: c"].
Proof. reflexivity. Qed.
