(* ===== verification/Stateful.v ===== *)
(** * Programs with local state that survives exceptions

    A long check mutates its report while it talks to devices, and saves the report in a [finally]
    clause whatever happened. Such a program carries a state of its own: an exception keeps the state it
    left. [triple] is a Hoare triple over the state and the calls made so far, with one postcondition for
    returning and one for raising. *)

From stdpp Require Import base tactics list strings.
From Stdlib Require Import ZArith Lia.
From S2P Require Import Prelude.
From S2P Require Import Effects.

Section Stateful.
Context {call : Type} (ret : call -> Type) (S : Type).

Definition st (A : Type) : Type := environment ret -> list call -> S -> S * result A * list call.
End Stateful.
Arguments st {call} ret S A.

Section Operations.
Context {call : Type} {ret : call -> Type} {S : Type}.

Definition st_pure {A} (m : result A) : st ret S A := fun _ _ s => (s, m, []).
Definition st_raise {A} (e : exn) : st ret S A := st_pure (Raise e).
Definition st_get : st ret S S := fun _ _ s => (s, Ok s, []).
Definition st_modify (f : S -> S) : st ret S unit := fun _ _ s => (f s, Ok tt, []).
Definition st_io {A} (m : io ret A) : st ret S A := fun env h s => let '(r, n) := m env h in (s, r, n).
Definition st_ask (c : call) : st ret S (ret c) := st_io (ask c).

Definition st_bind {A B} (m : st ret S A) (f : A -> st ret S B) : st ret S B := fun env h s =>
  let '(s1, r, n) := m env h s in
  match r with
  | Ok a => let '(s2, q, k) := f a env (h ++ n) s1 in (s2, q, n ++ k)
  | Raise e => (s1, Raise e, n)
  end.

Definition st_try {A} (m : st ret S A) (handled : exn -> bool) (handler : exn -> st ret S A) : st ret S A :=
  fun env h s =>
  let '(s1, r, n) := m env h s in
  match r with
  | Ok a => (s1, Ok a, n)
  | Raise e => if handled e then let '(s2, q, k) := handler e env (h ++ n) s1 in (s2, q, n ++ k) else (s1, Raise e, n)
  end.

Definition st_finally {A} (m : st ret S A) (f : st ret S unit) : st ret S A := fun env h s =>
  let '(s1, r, n) := m env h s in
  let '(s2, q, k) := f env (h ++ n) s1 in
  (s2, match q with Ok _ => r | Raise e => Raise e end, n ++ k).

(** [for x in l: s = f(s, x)] *)
Fixpoint st_fold {X Y} (f : X -> Y -> st ret S X) (x : X) (l : list Y) : st ret S X :=
  match l with [] => st_pure (Ok x) | y :: l => st_bind (f x y) (fun x => st_fold f x l) end.

(** [while True: body()] until the body leaves with a value *)
Fixpoint st_loop {A} (fuel : nat) (body : st ret S (option A)) : st ret S A :=
  match fuel with
  | O => st_raise OutOfFuel
  | Datatypes.S fuel =>
      st_bind body (fun o => match o with None => st_loop fuel body | Some a => st_pure (Ok a) end)
  end.
End Operations.

#[export] Instance st_ret {call} (ret : call -> Type) S : MRet (st ret S) := fun A a => st_pure (Ok a).
#[export] Instance st_mbind {call} (ret : call -> Type) S : MBind (st ret S) := fun A B f m => st_bind m f.

(** [if c: m] *)
Notation st_when c m := (if c then m else mret tt).

(** The two ways a sequence can go *)
Lemma st_bind_inv {call} {ret : call -> Type} {S A B} (env : environment ret) (m : st ret S A) (f : A -> st ret S B)
    h s s' r n : (m ≫= f) env h s = (s', r, n) ->
  (exists e, m env h s = (s', Raise e, n) /\ r = Raise e) \/
  (exists a s1 n1 n2, m env h s = (s1, Ok a, n1) /\ f a env (h ++ n1) s1 = (s', r, n2) /\ n = n1 ++ n2).
Proof.
  unfold mbind, st_mbind, st_bind. destruct (m env h s) as [[s1 [a|e]] n1].
  - destruct (f a env (h ++ n1) s1) as [[s2 q] n2] eqn:E. intros [= <- <- <-]. right. exists a, s1, n1, n2. by rewrite E.
  - intros [= <- <- <-]. left. by exists e.
Qed.

Section Triples.
Context {call : Type} {ret : call -> Type} {S : Type} (env : environment ret) (h : list call).

Definition triple {A} (P : S -> list call -> Prop) (m : st ret S A)
    (Q : A -> S -> list call -> Prop) (E : exn -> S -> list call -> Prop) : Prop :=
  forall s k, P s k ->
  match m env (h ++ k) s with
  | (s', Ok a, n) => Q a s' (k ++ n)
  | (s', Raise e, n) => E e s' (k ++ n)
  end.

Lemma triple_pure {A} (P : S -> list call -> Prop) (m : result A) Q E :
  (forall s k, P s k -> match m with Ok a => Q a s k | Raise e => E e s k end) -> triple P (st_pure m) Q E.
Proof. intros H s k HP. unfold st_pure. rewrite app_nil_r. apply H in HP. by destruct m. Qed.

Lemma triple_ret {A} (P : S -> list call -> Prop) (a : A) Q E :
  (forall s k, P s k -> Q a s k) -> triple P (mret a) Q E.
Proof. intros H. by apply triple_pure. Qed.

Lemma triple_raise {A} (P : S -> list call -> Prop) e (Q : A -> S -> list call -> Prop) E :
  (forall s k, P s k -> E e s k) -> triple P (st_raise e) Q E.
Proof. intros H. by apply triple_pure. Qed.

Lemma triple_get (P : S -> list call -> Prop) Q E : (forall s k, P s k -> Q s s k) -> triple P st_get Q E.
Proof. intros H s k HP. unfold st_get. rewrite app_nil_r. by apply H. Qed.

Lemma triple_modify (P : S -> list call -> Prop) f Q E :
  (forall s k, P s k -> Q tt (f s) k) -> triple P (st_modify f) Q E.
Proof. intros H s k HP. unfold st_modify. rewrite app_nil_r. by apply H. Qed.

Lemma triple_ask (P : S -> list call -> Prop) c Q E :
  (forall s k, P s k -> match env (h ++ k) c with Ok a => Q a s (k ++ [c]) | Raise e => E e s (k ++ [c]) end) ->
  triple P (st_ask c) Q E.
Proof. intros H s k HP. apply H in HP. unfold st_ask, st_io, ask. by destruct (env (h ++ k) c). Qed.

Lemma triple_io {A} (P : S -> list call -> Prop) (m : io ret A) Q E :
  (forall s k r n, P s k -> runs env (h ++ k) m r n ->
     match r with Ok a => Q a s (k ++ n) | Raise e => E e s (k ++ n) end) ->
  triple P (st_io m) Q E.
Proof.
  intros H s k HP. unfold st_io. destruct (m env (h ++ k)) as [r n] eqn:Em. apply (H s k r n) in HP; [|done].
  by destruct r.
Qed.

Lemma triple_bind {A B} (P : S -> list call -> Prop) (m : st ret S A) (f : A -> st ret S B) R Q E :
  triple P m R E -> (forall a, triple (R a) (f a) Q E) -> triple P (m ≫= f) Q E.
Proof.
  intros Hm Hf s k HP. apply Hm in HP. unfold mbind, st_mbind, st_bind.
  destruct (m env (h ++ k) s) as [[s1 [a|e]] n]; [|done]. apply Hf in HP. rewrite app_assoc in HP.
  destruct (f a env ((h ++ k) ++ n) s1) as [[s2 [b|e]] n2]; by rewrite app_assoc.
Qed.

Lemma triple_weaken {A} (P P' : S -> list call -> Prop) (m : st ret S A) Q Q' E E' :
  triple P' m Q' E' -> (forall s k, P s k -> P' s k) -> (forall a s k, Q' a s k -> Q a s k) ->
  (forall e s k, E' e s k -> E e s k) -> triple P m Q E.
Proof.
  intros Hm HP HQ HE s k Hs. specialize (Hm s k (HP s k Hs)).
  destruct (m env (h ++ k) s) as [[s1 [a|e]] n]; auto.
Qed.

(** From one state and one history at a time *)
Lemma triple_from {A} (P : S -> list call -> Prop) (m : st ret S A) Q E :
  (forall s0 k0, P s0 k0 -> triple (fun s k => s = s0 /\ k = k0) m Q E) -> triple P m Q E.
Proof. intros H s k HP. by apply (H s k HP). Qed.

(** What only the calls decide stays true as more are made. *)
Lemma triple_grows {A} (P : S -> list call -> Prop) (m : st ret S A) Q E (X : list call -> Prop) :
  (forall k n, X k -> X (k ++ n)) -> triple P m Q E ->
  triple (fun s k => P s k /\ X k) m (fun a s k => Q a s k /\ X k) (fun e s k => E e s k /\ X k).
Proof.
  intros HX Hm s k [HP Hk]. specialize (Hm s k HP). destruct (m env (h ++ k) s) as [[s1 [a|e]] n]; by auto.
Qed.

Lemma triple_and {A} (P P' : S -> list call -> Prop) (m : st ret S A) Q Q' E E' :
  triple P m Q E -> triple P' m Q' E' ->
  triple (fun s k => P s k /\ P' s k) m (fun a s k => Q a s k /\ Q' a s k) (fun e s k => E e s k /\ E' e s k).
Proof.
  intros Hm Hm' s k [HP HP']. specialize (Hm s k HP). specialize (Hm' s k HP'). by destruct (m env (h ++ k) s) as [[s1 [a|e]] n].
Qed.

Lemma triple_try {A} (P : S -> list call -> Prop) (m : st ret S A) handled handler Q R E :
  triple P m Q R -> (forall e, handled e = false -> forall s k, R e s k -> E e s k) ->
  (forall e, handled e = true -> triple (R e) (handler e) Q E) -> triple P (st_try m handled handler) Q E.
Proof.
  intros Hm Hn Hh s k HP. apply Hm in HP. unfold st_try.
  destruct (m env (h ++ k) s) as [[s1 [a|e]] n]; [done|]. destruct (handled e) eqn:He; [|by apply Hn].
  apply (Hh e He) in HP. rewrite app_assoc in HP.
  destruct (handler e env ((h ++ k) ++ n) s1) as [[s2 [b|e']] n2]; by rewrite app_assoc.
Qed.

Lemma triple_finally {A} (P : S -> list call -> Prop) (m : st ret S A) f Q R (Q' : A -> S -> list call -> Prop)
    (E : exn -> S -> list call -> Prop) :
  triple P m Q R ->
  (forall a, triple (Q a) f (fun _ => Q' a) E) -> (forall e, triple (R e) f (fun _ => E e) E) ->
  triple P (st_finally m f) Q' E.
Proof.
  intros Hm Hf He s k HP. apply Hm in HP. unfold st_finally.
  destruct (m env (h ++ k) s) as [[s1 [a|e]] n]; [apply Hf in HP|apply He in HP]; rewrite app_assoc in HP;
    destruct (f env ((h ++ k) ++ n) s1) as [[s2 [b|e']] n2]; by rewrite app_assoc.
Qed.

(** [I done x] holds after the turns for [done]. *)
Lemma triple_fold {X Y} (I : list Y -> X -> S -> list call -> Prop) (f : X -> Y -> st ret S X) E x l :
  (forall done x y rest, l = done ++ y :: rest -> triple (I done x) (f x y) (I (done ++ [y])) E) ->
  triple (I [] x) (st_fold f x l) (I l) E.
Proof.
  intros Hf. assert (H : forall rest done x, l = done ++ rest -> triple (I done x) (st_fold f x rest) (I l) E).
  { induction rest as [|y rest IH]; intros done x' El; cbn [st_fold].
    - rewrite app_nil_r in El. subst done. by apply triple_pure.
    - change (st_bind ?m ?g) with (m ≫= g). eapply triple_bind; [by eapply Hf|]. intros x''.
      apply IH. by rewrite El, <- app_assoc. }
  exact (H l [] x eq_refl).
Qed.

Lemma triple_loop {A} (I : S -> list call -> Prop) fuel (body : st ret S (option A)) Q E :
  triple I body (fun o => match o with None => I | Some a => Q a end) E ->
  (forall s k, I s k -> E OutOfFuel s k) -> triple I (st_loop fuel body) Q E.
Proof.
  intros Hb HE. induction fuel as [|fuel IH]; cbn [st_loop]; [by apply triple_raise|].
  eapply triple_bind; [exact Hb|]. intros [a|]; [by apply triple_pure|exact IH].
Qed.
End Triples.

(** ** One invariant at every point

    [keeps I m]: whatever happens, [I] holds after [m] when it held before. *)
Section Invariants.
Context {call : Type} {ret : call -> Type} {S : Type} (env : environment ret) (h : list call)
  (I : S -> list call -> Prop).

Definition keeps {A} (m : st ret S A) : Prop := triple env h I m (fun _ => I) (fun _ => I).

Lemma keeps_pure {A} (m : result A) : keeps (st_pure m).
Proof. apply triple_pure. intros. by destruct m. Qed.

Lemma keeps_ret {A} (a : A) : keeps (mret a).
Proof. by apply triple_ret. Qed.

Lemma keeps_get : keeps st_get.
Proof. by apply triple_get. Qed.

Lemma keeps_modify f : (forall s k, I s k -> I (f s) k) -> keeps (st_modify f).
Proof. intros H. by apply triple_modify. Qed.

Lemma keeps_ask c : (forall s k, I s k -> I s (k ++ [c])) -> keeps (st_ask c).
Proof. intros H. apply triple_ask. intros s k Hs. apply H in Hs. by destruct (env (h ++ k) c). Qed.

Lemma keeps_bind {A B} (m : st ret S A) (f : A -> st ret S B) : keeps m -> (forall a, keeps (f a)) -> keeps (m ≫= f).
Proof. intros Hm Hf. eapply triple_bind; [exact Hm|exact Hf]. Qed.

Lemma keeps_try {A} (m : st ret S A) handled handler :
  keeps m -> (forall e, keeps (handler e)) -> keeps (st_try m handled handler).
Proof. intros Hm Hh. eapply triple_try; [exact Hm|done|]. intros e _. apply Hh. Qed.

Lemma keeps_finally {A} (m : st ret S A) f : keeps m -> keeps f -> keeps (st_finally m f).
Proof. intros Hm Hf. eapply triple_finally; [exact Hm|intros; apply Hf|intros; apply Hf]. Qed.

Lemma keeps_fold {X Y} (f : X -> Y -> st ret S X) x l : (forall x y, keeps (f x y)) -> keeps (st_fold f x l).
Proof. intros Hf. apply (triple_fold env h (fun _ _ => I)). intros. apply Hf. Qed.

Lemma keeps_loop {A} fuel (body : st ret S (option A)) : keeps body -> keeps (st_loop fuel body).
Proof.
  intros Hb. apply triple_loop; [|done]. eapply triple_weaken; [exact Hb|done| |done]. by intros [a|].
Qed.
End Invariants.

Create HintDb keeps.

(** Walk a program, leaving the calls and the assignments that matter. *)
Ltac keeps_step := match goal with
  | |- keeps _ _ _ (mret _) => apply keeps_ret
  | |- keeps _ _ _ (st_pure _) => apply keeps_pure
  | |- keeps _ _ _ (st_raise _) => apply keeps_pure
  | |- keeps _ _ _ st_get => apply keeps_get
  | |- keeps _ _ _ (st_modify _) => apply keeps_modify; intros ? ? ?
  | |- keeps ?env ?h ?I (st_ask ?c) => refine (keeps_ask env h I c _); intros ? ? ?
  | |- keeps _ _ _ (_ ≫= _) => apply keeps_bind; [|intros ?]
  | |- keeps _ _ _ (st_try _ _ _) => apply keeps_try; [|intros ?]
  | |- keeps _ _ _ (st_finally _ _) => apply keeps_finally
  | |- keeps _ _ _ (st_loop _ _) => apply keeps_loop
  | |- keeps _ _ _ (st_fold _ _ _) => apply keeps_fold; intros ? ?
  | |- keeps _ _ _ (if ?c then _ else _) => destruct c
  | |- keeps _ _ _ (match ?x with _ => _ end) => destruct x
  | |- keeps _ _ _ _ => solve [eauto with keeps]
  end.
Ltac keeps_tac := repeat (keeps_step; cbn beta iota).

(** A quantity accumulated over the calls of a run; the step sees the calls before. *)
Section Scan.
Context {call B : Type} (f : list call -> B -> call -> B).

Fixpoint scan_from (h : list call) (b : B) (k : list call) : B :=
  match k with [] => b | c :: k => scan_from (h ++ [c]) (f h b c) k end.
Definition scan (b : B) (k : list call) : B := scan_from [] b k.

Lemma scan_from_snoc h b k c : scan_from h b (k ++ [c]) = f (h ++ k) (scan_from h b k) c.
Proof.
  revert b h. induction k as [|x k IH]; intros b h; simpl; [by rewrite app_nil_r|].
  rewrite IH. by rewrite <- app_assoc.
Qed.

Lemma scan_snoc b k c : scan b (k ++ [c]) = f k (scan b k) c.
Proof. apply scan_from_snoc. Qed.
End Scan.

(** ** Never out of fuel

    [st_ends h m]: from the history [h], no outcome of [m] is the artificial end of a loop. *)
Section Ends.
Context {call : Type} {ret : call -> Type} {S : Type} (env : environment ret).

Definition st_ends (h : list call) {A} (m : st ret S A) : Prop :=
  forall s s' e n, m env h s = (s', Raise e, n) -> e <> OutOfFuel.

Lemma st_ends_pure {A} h (m : result A) : raises (fun e => e <> OutOfFuel) m -> st_ends h (st_pure m).
Proof. intros Hm s s' e n [= _ He _]. by apply Hm. Qed.

Lemma st_ends_ret {A} h (a : A) : st_ends h (mret a).
Proof. by intros s s' e n [=]. Qed.

Lemma st_ends_get h : st_ends h st_get.
Proof. by intros s s' e n [=]. Qed.

Lemma st_ends_modify h f : st_ends h (st_modify f).
Proof. by intros s s' e n [=]. Qed.

Lemma st_ends_ask h c : (forall h e, env h c = Raise e -> e <> OutOfFuel) -> st_ends h (st_ask c).
Proof. intros Hc s s' e n [= _ He _]. by eapply Hc. Qed.

Lemma st_ends_bind_at {A B} h (m : st ret S A) (f : A -> st ret S B) :
  st_ends h m -> (forall a s s1 n, m env h s = (s1, Ok a, n) -> st_ends (h ++ n) (f a)) -> st_ends h (m ≫= f).
Proof.
  intros Hm Hf s s' e n. unfold mbind, st_mbind, st_bind. destruct (m env h s) as [[s1 [a|e1]] n1] eqn:E.
  - destruct (f a env (h ++ n1) s1) as [[s2 r] n2] eqn:E2. intros [= <- -> <-]. by eapply Hf.
  - intros [= <- <- <-]. by eapply Hm.
Qed.

Lemma st_ends_bind {A B} h (m : st ret S A) (f : A -> st ret S B) :
  st_ends h m -> (forall h a, st_ends h (f a)) -> st_ends h (m ≫= f).
Proof. intros Hm Hf. apply st_ends_bind_at; auto. Qed.

Lemma st_ends_fold {X Y} h (f : X -> Y -> st ret S X) x l :
  (forall h x y, y ∈ l -> st_ends h (f x y)) -> st_ends h (st_fold f x l).
Proof.
  revert h x. induction l as [|y l IH]; intros h x Hf; cbn [st_fold]; [by apply st_ends_ret|].
  change (st_bind ?m ?g) with (m ≫= g). apply st_ends_bind; [apply Hf; left|]. intros h' x'. apply IH.
  intros h2 x2 y2 Hy. apply Hf. by right.
Qed.

Lemma st_ends_try {A} h (m : st ret S A) handled handler :
  st_ends h m -> (forall h e, st_ends h (handler e)) -> st_ends h (st_try m handled handler).
Proof.
  intros Hm Hf s s' e n. unfold st_try. destruct (m env h s) as [[s1 [a|e1]] n1] eqn:E; [done|].
  destruct (handled e1).
  - destruct (handler e1 env (h ++ n1) s1) as [[s2 r] n2] eqn:E2. intros [= <- -> <-]. by eapply Hf.
  - intros [= <- <- <-]. by eapply Hm.
Qed.

Lemma st_ends_finally {A} h (m : st ret S A) f :
  st_ends h m -> (forall h, st_ends h f) -> st_ends h (st_finally m f).
Proof.
  intros Hm Hf s s' e n. unfold st_finally. destruct (m env h s) as [[s1 r1] n1] eqn:E.
  destruct (f env (h ++ n1) s1) as [[s2 [u|e2]] n2] eqn:E2.
  - intros [= <- -> <-]. by eapply Hm.
  - intros [= <- <- <-]. by eapply Hf.
Qed.
End Ends.

Ltac st_ends_step := match goal with
  | |- st_ends _ _ (mret _) => apply st_ends_ret
  | |- st_ends _ _ (st_pure _) => apply st_ends_pure; solve [raises_tac]
  | |- st_ends _ _ (st_raise _) => apply st_ends_pure; solve [raises_tac]
  | |- st_ends _ _ st_get => apply st_ends_get
  | |- st_ends _ _ (st_modify _) => apply st_ends_modify
  | |- st_ends ?env ?h (st_ask ?c) => refine (st_ends_ask env h c _)
  | |- st_ends _ _ (_ ≫= _) => apply st_ends_bind; [|intros ? ?]
  | |- st_ends _ _ (st_try _ _ _) => apply st_ends_try; [|intros ? ?]
  | |- st_ends _ _ (st_finally _ _) => apply st_ends_finally; [|intros ?]
  | |- st_ends _ _ (if ?c then _ else _) => destruct c
  | |- st_ends _ _ (match ?x with _ => _ end) => destruct x
  end.
Ltac st_ends_tac := repeat (st_ends_step; cbn beta iota).

(** Run a stateful program from a first state. *)
Definition st_run {call} {ret : call -> Type} {S A} (m : st ret S A) (s : S) (env : environment ret) :
    S * result A * list call := m env [] s.
