(* ===== verification/Stages.v ===== *)
(** * Stages of a run

    [stages] says that parts of a run happened, in order, whatever else happened between them: each stage is
    a predicate of the calls before it and of its own calls, so that it can say what the environment
    answered. [staged] is the same of a program that keeps a state. *)

From stdpp Require Import base tactics list.
From S2P Require Import Prelude.
From S2P Require Import Effects.
From S2P Require Import Stateful.

(** ** Stages of a run *)
Section Stages.
Context {call : Type} (h : list call).

Definition stage : Type := list call -> list call -> Prop.

(** [stages n l]: the calls [n], made after [h], contain the stages [l] one after the other. *)
Inductive stages : list call -> list stage -> Prop :=
| stages_nil : stages [] []
| stages_skip n k l : stages n l -> stages (n ++ k) l
| stages_step n k l (Q : stage) : stages n l -> Q (h ++ n) k -> stages (n ++ k) (l ++ [Q]).

Lemma stages_none n : stages n [].
Proof. apply (stages_skip [] n). constructor. Qed.

Lemma stages_prefix n l1 l2 : stages n (l1 ++ l2) -> exists k m, n = k ++ m /\ stages k l1.
Proof.
  remember (l1 ++ l2) as l eqn:El. intros H. revert l2 El.
  induction H as [|n k l H IH|n k l Q H IH HQ]; intros l2 El.
  - symmetry in El. apply app_eq_nil in El as [-> ->]. exists [], []. split; [done|constructor].
  - destruct (IH l2 El) as (k1 & m & -> & Hk). exists k1, (m ++ k). by rewrite app_assoc.
  - destruct l2 as [|Q' l2'] using rev_ind.
    + rewrite app_nil_r in El. subst l1. exists (n ++ k), []. rewrite app_nil_r. split; [done|]. by constructor.
    + rewrite app_assoc in El. apply app_inj_tail in El as [-> ->]. destruct (IH l2' eq_refl) as (k1 & m & -> & Hk).
      exists k1, (m ++ k). by rewrite app_assoc.
Qed.

(** Each stage is a segment of the run, after the stages before it. *)
Lemma stages_segment n l1 Q l2 : stages n (l1 ++ Q :: l2) ->
  exists n1 n2 n3, n = n1 ++ n2 ++ n3 /\ stages n1 l1 /\ Q (h ++ n1) n2.
Proof.
  rewrite cons_middle, app_assoc. intros (k & m & -> & H)%stages_prefix.
  remember (l1 ++ [Q]) as l eqn:El. revert m El. induction H as [|n k l H IH|n k l Q' H IH HQ]; intros m El.
  - by destruct l1.
  - destruct (IH k El) as (n1 & n2 & n3 & E & Hs & Hq). exists n1, n2, (n3 ++ m).
    rewrite E, <- !app_assoc. done.
  - apply app_inj_tail in El as [-> ->]. exists n, k, m. rewrite <- app_assoc. done.
Qed.
End Stages.

(** Stages compose like the runs they describe. *)
Lemma stages_app {call} (h n1 n2 : list call) l1 l2 :
  stages h n1 l1 -> stages (h ++ n1) n2 l2 -> stages h (n1 ++ n2) (l1 ++ l2).
Proof.
  intros H1 H2. induction H2 as [|n k l H IH|n k l Q H IH HQ].
  - by rewrite !app_nil_r.
  - rewrite app_assoc. by constructor.
  - rewrite !app_assoc. constructor; [done|]. by rewrite <- app_assoc in HQ.
Qed.

(** What holds of more stages holds of the first ones. *)
Lemma stages_first {call} (h n : list call) l1 l2 : stages h n (l1 ++ l2) -> stages h n l1.
Proof. intros (k & m & -> & H)%stages_prefix. by apply stages_skip. Qed.

Lemma stages_one {call} (h n : list call) (Q : stage) : Q h n -> stages h n [Q].
Proof. intros H. apply (stages_step h [] n [] Q); [constructor|]. by rewrite app_nil_r. Qed.

Lemma stages_cons {call} (h n1 n2 : list call) (Q : stage) l : Q h n1 -> stages (h ++ n1) n2 l -> stages h (n1 ++ n2) (Q :: l).
Proof. intros HQ H. change (Q :: l) with ([Q] ++ l). by apply stages_app; [apply stages_one|]. Qed.

(** ** Programs that keep a report and a device's state

    [staged m Q]: when [m] returns [a], its calls contain a list of stages that [Q] describes. *)
Section Staged.
Context {call : Type} {ret : call -> Type} {S : Type} (env : environment ret).

Definition staged {A} (m : st ret S A) (Q : A -> list (@stage call) -> Prop) : Prop :=
  forall h s s' a n, m env h s = (s', Ok a, n) -> exists l, Q a l /\ stages h n l.

Lemma staged_weaken {A} (m : st ret S A) (Q Q' : A -> list stage -> Prop) :
  staged m Q -> (forall a l, Q a l -> Q' a l) -> staged m Q'.
Proof. intros Hm HQ h s s' a n H. destruct (Hm _ _ _ _ _ H) as (l & Hl & Hs). eauto. Qed.

(** Anything can be left out of the stages. *)
Lemma staged_skip {A} (m : st ret S A) : staged m (fun _ l => l = []).
Proof. intros h s s' a n _. exists []. split; [done|apply stages_none]. Qed.

Lemma staged_pure {A} (m : result A) : staged (st_pure m) (fun a l => m = Ok a /\ l = []).
Proof. intros h s s' a n [= _ -> _]. exists []. split; [done|apply stages_none]. Qed.

Lemma staged_ret {A} (a : A) : staged (mret a) (fun b l => b = a /\ l = []).
Proof. intros h s s' b n [= _ -> _]. exists []. split; [done|apply stages_none]. Qed.

Lemma staged_bind {A B} (m : st ret S A) (f : A -> st ret S B) Q1 (Q : B -> list stage -> Prop) :
  staged m Q1 -> (forall a l1, Q1 a l1 -> staged (f a) (fun b l2 => Q b (l1 ++ l2))) -> staged (m ≫= f) Q.
Proof.
  intros Hm Hf h s s' b n. unfold mbind, st_mbind, st_bind.
  destruct (m env h s) as [[s1 [a|e]] n1] eqn:E; [|done].
  destruct (f a env (h ++ n1) s1) as [[s2 r] n2] eqn:E2. intros [= <- -> <-].
  destruct (Hm _ _ _ _ _ E) as (l1 & HQ & H1). destruct (Hf a l1 HQ _ _ _ _ _ E2) as (l2 & HQ2 & H2).
  exists (l1 ++ l2). split; [done|]. by apply stages_app.
Qed.

Lemma staged_finally {A} (m : st ret S A) f Q : staged m Q -> staged (st_finally m f) Q.
Proof.
  intros Hm h s s' a n. unfold st_finally. destruct (m env h s) as [[s1 r] n1] eqn:E.
  destruct (f env (h ++ n1) s1) as [[s2 [u|e]] n2] eqn:E2; [|done]. intros [= <- -> <-].
  destruct (Hm _ _ _ _ _ E) as (l & HQ & H). exists l. split; [done|]. by constructor.
Qed.

(** A handler that never returns *)
Lemma staged_try {A} (m : st ret S A) handled handler Q :
  staged m Q -> (forall e h s s' a n, handler e env h s <> (s', Ok a, n)) -> staged (st_try m handled handler) Q.
Proof.
  intros Hm Hh h s s' a n. unfold st_try. destruct (m env h s) as [[s1 [b|e]] n1] eqn:E.
  - intros [= <- <- <-]. by eapply Hm.
  - destruct (handled e); [|done]. destruct (handler e env (h ++ n1) s1) as [[s2 r] n2] eqn:E2.
    intros [= <- -> <-]. by apply Hh in E2.
Qed.

(** A call that did what [Q] says is one stage. *)
Lemma staged_io {A} (m : io ret A) (Q : A -> stage) (F : A -> Prop) :
  (forall h a n, runs env h m (Ok a) n -> Q a h n /\ F a) -> staged (st_io m) (fun a l => l = [Q a] /\ F a).
Proof.
  intros H h s s' a n. unfold st_io. destruct (m env h) as [r k] eqn:E. intros [= _ -> <-].
  apply H in E as [HQ HF]. exists [Q a]. split; [done|]. by apply stages_one.
Qed.

Lemma staged_fold {X Y} (f : X -> Y -> st ret S X) (I : X -> Prop) (Q : Y -> list stage -> Prop) x l :
  I x -> (forall x y, I x -> y ∈ l -> staged (f x y) (fun x' k => I x' /\ Q y k)) ->
  staged (st_fold f x l) (fun x' k => I x' /\ exists ks, Forall2 Q l ks /\ k = concat ks).
Proof.
  revert x. induction l as [|y l IH]; intros x Hx Hf; cbn [st_fold].
  - eapply staged_weaken; [apply staged_pure|]. intros x' k [[= <-] ->]. split; [done|]. exists []. by split; [constructor|].
  - change (st_bind ?m ?g) with (m ≫= g). eapply staged_bind; [apply Hf; [done|left]|]. intros x1 k1 [Hx1 H1].
    eapply staged_weaken; [apply IH; [done|intros; apply Hf; [done|by right]]|].
    intros x2 k2 (Hx2 & ks & H2 & ->). split; [done|]. exists (k1 :: ks). by split; [constructor|].
Qed.

Lemma staged_loop {A} fuel (body : st ret S (option A)) (I : list stage -> Prop) (Q : A -> list stage -> Prop) :
  I [] -> (forall l, I l -> staged body (fun o l' => match o with None => I (l ++ l') | Some a => Q a (l ++ l') end)) ->
  staged (st_loop fuel body) Q.
Proof.
  intros H0 Hb. assert (H : forall l, I l -> staged (st_loop fuel body) (fun a l' => Q a (l ++ l'))).
  { induction fuel as [|fuel IH]; intros l Hl; cbn [st_loop]; [by intros h s s' a n [=]|].
    apply staged_bind with (Q1 := fun o l' => match o with None => I (l ++ l') | Some a => Q a (l ++ l') end); [auto|].
    intros [a|] l1 H1.
    - eapply staged_weaken; [apply staged_pure|]. intros b l2 [[= <-] ->]. by rewrite app_nil_r.
    - eapply staged_weaken; [apply (IH _ H1)|]. intros b l2. by rewrite app_assoc. }
  exact (H [] H0).
Qed.
End Staged.

(** Open one step of a program, keeping its stages or leaving them out. *)
Ltac staged_leave := eapply staged_bind; [apply staged_skip|]; intros ? ? ->.
Ltac staged_value x H := eapply staged_bind; [apply staged_pure|]; intros x ? [H ->].
Ltac staged_check H := eapply staged_bind; [apply staged_pure|]; intros ? ? [H ->].
