(* ===== verification/Handlers.v ===== *)
(** * Programs whose calls are handled by other programs

    A function of the repository that is given a callback is a program with a call for it. A handler says what each call
    of one signature does in another, where it may keep a state; [st_handle] runs a program over a handler. *)

From stdpp Require Import base tactics list.
From S2P Require Import Prelude.
From S2P Require Import Effects.
From S2P Require Import Stateful.

Section Handlers.
Context {C D : Type} {from : C -> Type} {to : D -> Type} {S : Type} (hd : forall c : C, st to S (from c)).

(** The state and the calls that handling the calls [k] leaves *)
Fixpoint handled (env : environment to) (h : list D) (s : S) (k : list C) : S * list D :=
  match k with
  | [] => (s, [])
  | c :: k =>
      let '(s1, _, n) := hd c env h s in
      let '(s2, m) := handled env (h ++ n) s1 k in
      (s2, n ++ m)
  end.

(** What the handled program sees *)
Definition handled_view (env : environment to) (h : list D) (s : S) : environment from := fun k c =>
  let '(s1, n) := handled env h s k in (hd c env (h ++ n) s1).1.2.

Definition st_handle {A} (m : io from A) : st to S A := fun env h s =>
  let '(r, k) := m (handled_view env h s) [] in
  let '(s1, n) := handled env h s k in
  (s1, r, n).

(** ** Laws *)
Lemma handled_app env h s k1 k2 : handled env h s (k1 ++ k2) =
  let '(s1, n1) := handled env h s k1 in let '(s2, n2) := handled env (h ++ n1) s1 k2 in (s2, n1 ++ n2).
Proof.
  revert h s. induction k1 as [|c k1 IH]; intros h s; cbn [app handled].
  - rewrite app_nil_r. by destruct (handled env h s k2).
  - destruct (hd c env h s) as [[s1 q] n]. rewrite IH. destruct (handled env (h ++ n) s1 k1) as [s2 n1].
    rewrite <- app_assoc. destruct (handled env (h ++ n ++ n1) s2 k2). by rewrite <- app_assoc.
Qed.

Lemma handled_view_at env h s k s1 n c : handled env h s k = (s1, n) -> handled_view env h s k c = (hd c env (h ++ n) s1).1.2.
Proof. unfold handled_view. by intros ->. Qed.

Lemma handle_ret {A} (a : A) env h s : st_handle (mret a) env h s = (s, Ok a, []).
Proof. done. Qed.

Lemma handle_ask c env h s : st_handle (ask c) env h s = hd c env h s.
Proof.
  unfold st_handle, ask, handled_view. cbn [handled]. rewrite app_nil_r. destruct (hd c env h s) as [[s1 q] n]. by rewrite app_nil_r.
Qed.

(** A program looks at its history through its environment only. *)
Definition uniform {A} (m : io from A) : Prop := forall env env' h k,
  (forall j c, env (h ++ j) c = env' j c) -> m env (h ++ k) = m env' k.

(** Handling a sequence is the sequence of what is handled. *)
Lemma handle_bind {A B} (m : io from A) (f : A -> io from B) env h s : (forall a, uniform (f a)) ->
  st_handle (m ≫= f) env h s = (st_handle m ≫= fun a => st_handle (f a)) env h s.
Proof.
  intros Hf. unfold st_handle, mbind, io_mbind, io_bind, st_mbind, st_bind.
  destruct (m (handled_view env h s) []) as [[a|e] k1]; [|by destruct (handled env h s k1)].
  destruct (handled env h s k1) as [s1 n1] eqn:E1.
  assert (H : f a (handled_view env h s) k1 = f a (handled_view env (h ++ n1) s1) []).
  { rewrite <- (Hf a (handled_view env h s) _ k1 []); [by rewrite app_nil_r|]. intros j c. unfold handled_view. rewrite handled_app, E1.
    destruct (handled env (h ++ n1) s1 j) as [s2 n2]. by rewrite app_assoc. }
  cbn [app]. rewrite H. destruct (f a _ []) as [r k2]. rewrite handled_app, E1. by destruct (handled env (h ++ n1) s1 k2).
Qed.
End Handlers.
