(* ===== verification/UartSmoke.v ===== *)
(** * UART sessions: tools/uart_smoke.py

    The check of the UART channel a hello advertises, and the configuration the loopback tests open. *)

From stdpp Require Import base tactics list strings.
From Stdlib Require Import ZArith Lia.
From S2P Require Import Prelude.
From S2P Require Import PyDict.
From S2P Require Import PyJson.

Local Open Scope Z_scope.

Definition TEST_CONFIGURATION : dict json :=
  [("baud", JInt 115200); ("data_bits", JInt 8); ("parity", JStr "none"); ("stop_bits", JInt 1);
   ("flow_control", JStr "none")].

(** [v in (a, b, ...)] *)
Definition one_of (v : json) (l : list json) : bool := existsb (py_eq v) l.

Definition validate_channel (channel : dict json) : result unit :=
  config ← (if negb (py_eq (jget channel "id") (JInt 1)) || negb (py_eq (jget channel "backend") (JStr "uart"))
      || negb (py_eq (jget channel "controls") (JArr []))
      || negb (py_eq (jget channel "rx_queue") (JInt 256)) || negb (py_eq (jget channel "tx_queue") (JInt 256))
      || negb (py_eq (jget channel "configurable")
           (JArr [JStr "baud"; JStr "data_bits"; JStr "parity"; JStr "stop_bits"]))
      || negb (py_eq (jget channel "baud_min") (JInt 300)) || negb (py_eq (jget channel "baud_max") (JInt 2000000))
    then Raise (RuntimeError "UART capability mismatch")
    else match jget channel "config" with
         | JObj config => Ok config
         | _ => Raise (RuntimeError "UART capability mismatch")
         end);
  raise_when (negb (int_within 300 2000000 (jget config "baud")))
    (RuntimeError "UART current configuration mismatch");;
  raise_when (negb (int_within 5 8 (jget config "data_bits"))
      || negb (one_of (jget config "parity") [JStr "none"; JStr "even"; JStr "odd"])
      || negb (one_of (jget config "stop_bits") [JInt 1; JInt 2])
      || negb (py_eq (jget config "flow_control") (JStr "none")))
    (RuntimeError "UART current configuration mismatch");;
  raise_when (match jget config "actual_baud" with JInt z => z <=? 0 | _ => true end)
    (RuntimeError "UART actual baud is invalid").

(** [hello["channels"][0]]; the code then reads it as a dictionary *)
Definition first_channel (hello : dict json) : result (dict json) :=
  match jget hello "channels" with
  | JArr (JObj channel :: _) => Ok channel
  | _ => Raise (TypeError "channel is not an object")
  end.

(** The line a validated channel describes. *)
Record uart_line (channel : dict json) : Prop := {
  ul_backend : dget channel "backend" = Some (JStr "uart");
  ul_config : exists config baud bits parity actual,
    dget channel "config" = Some (JObj config) /\
    dget config "baud" = Some (JInt baud) /\ 300 <= baud <= 2000000 /\
    dget config "data_bits" = Some (JInt bits) /\ 5 <= bits <= 8 /\
    dget config "parity" = Some (JStr parity) /\ parity ∈ ["none"; "even"; "odd"] /\
    dget config "flow_control" = Some (JStr "none") /\
    dget config "actual_baud" = Some (JInt actual) /\ 0 < actual }.

Lemma jget_some d k v : jget d k = v -> v <> JNull -> dget d k = Some v.
Proof. unfold jget. destruct (dget d k); simpl; naive_solver. Qed.

Lemma one_of_strings v l : one_of v (JStr <$> l) = true <-> exists s, v = JStr s /\ s ∈ l.
Proof.
  unfold one_of. rewrite existsb_exists. split.
  - intros (x & Hx%list_elem_of_In & He). apply list_elem_of_fmap in Hx as (s & -> & Hs).
    apply py_eq_str in He. eauto.
  - intros (s & -> & Hs). exists (JStr s). split; [apply list_elem_of_In, list_elem_of_fmap; eauto|].
    by apply py_eq_str.
Qed.

Lemma validate_channel_Ok channel : validate_channel channel = Ok tt -> uart_line channel.
Proof.
  unfold validate_channel. intros (config & Hc & H)%bind_Ok.
  destruct (_ || _) eqn:E; [done|]. rewrite !orb_false_iff, !negb_false_iff in E.
  destruct E as [[[[[[[_ Hb] _] _] _] _] _] _].
  destruct (jget channel "config") as [| | | | | |c] eqn:Ec; try done. injection Hc as ->.
  rewrite !raise_when_bind, raise_when_Ok in H. destruct H as (H1 & H2 & H3).
  rewrite !orb_false_iff, !negb_false_iff in H2. destruct H2 as [[[H2 H4] _] H5].
  apply negb_false_iff, int_within_spec in H1 as (baud & Eb & Hbaud).
  apply int_within_spec in H2 as (bits & Ebits & Hbits).
  apply (one_of_strings _ ["none"; "even"; "odd"]) in H4 as (parity & Ep & Hp).
  destruct (jget config "actual_baud") as [| |actual| | | |] eqn:Ea; try done. apply Z.leb_gt in H3.
  apply py_eq_str in Hb, H5. constructor; [by apply jget_some|].
  exists config, baud, bits, parity, actual. split_and!; try (by apply jget_some); done || lia.
Qed.
