(* ===== verification/Soak.v ===== *)
(** * The soak test: tools/soak.py

    Argument checks, the device diagnostics, and the traffic loop with its saved report. The loop is written
    against the operations of a session (SessionSmoke), the clock and the evidence file; an exception keeps
    the report as far as it was filled in. Durations are nanoseconds except the two argument fields that
    the source takes in seconds. *)

From stdpp Require Import base tactics list list_numbers strings.
From Stdlib Require Import ZArith Lia.
From S2P Require Import Prelude.
From S2P Require Import PyBytes.
From S2P Require Import PyText.
From S2P Require Import PyDict.
From S2P Require Import PyJson.
From S2P Require Import Effects.
From S2P Require Import Stateful.
From S2P Require Import Ipv4.
From S2P Require Import UartSmoke.

Local Open Scope Z_scope.

Definition MAX_SAMPLES : Z := 64.
Definition second : Z := 1000000000.

(** ** Arguments *)
Record args := {
  a_address : string; a_device_id : string; a_board : string; a_firmware_sha256 : string; a_firmware : string;
  a_duration : Z; a_byte_count : Z; a_batch_timeout : Z; a_reconnect_every : Z; a_seed : Z;
  a_output : string; a_diagnostics : bool }.

Definition lower_device (a : args) : args := {|
  a_address := a_address a; a_device_id := lower (a_device_id a); a_board := a_board a;
  a_firmware_sha256 := a_firmware_sha256 a; a_firmware := a_firmware a; a_duration := a_duration a;
  a_byte_count := a_byte_count a; a_batch_timeout := a_batch_timeout a; a_reconnect_every := a_reconnect_every a;
  a_seed := a_seed a; a_output := a_output a; a_diagnostics := a_diagnostics a |}.

Definition validate (a : args) : result args :=
  _ ← validate_target (a_address a);
  raise_when (negb (fullmatch is_hex 16 (a_device_id a))) (ValueError "device ID must be exactly 16 hexadecimal digits");;
  let a := lower_device a in
  raise_when (negb (fullmatch is_hex_lower 64 (a_firmware_sha256 a)))
    (ValueError "declared firmware SHA-256 must be 64 lowercase hex digits");;
  raise_when (negb (bool_decide (a_firmware a ∈ ["application"; "uart"]))) (ValueError "firmware must be application or uart");;
  for_each (fun '(value, low, high) =>
    raise_when (negb ((low <=? value) && (value <=? high))) (ValueError "must be an integer"))
    [(a_duration a, 1, 3600); (a_byte_count a, 1, 262144); (a_batch_timeout a, 1, 60);
     (a_reconnect_every a, 1, 1000); (a_seed a, 0, 0xffffffff)];;
  mret a.

(** ** Diagnostics *)
Definition base_fields : list string :=
  ["samples"; "heap_free"; "heap_min"; "stack_free"; "stack_min"; "peak_to_backend"; "peak_to_peer"].
Definition application_fields : list string :=
  ["application_rx_pending"; "application_tx_pending"; "application_rx_peak"; "application_tx_peak";
   "application_rx_discarded"; "application_tx_discarded"].
Definition uart_fields : list string :=
  ["uart_rx_pending"; "uart_rx_discarded"; "uart_rx_overrun_events"; "uart_rx_lost_bytes_minimum"; "uart_tx_throttles"].
Definition transport_narrow : list string :=
  ["ncm_worker_runs"; "ncm_rx_frames"; "ncm_rx_deferred"; "ncm_rx_batch_peak"; "ncm_mutex_contentions";
   "ncm_budget_exhaustions"; "ncm_wake_requests"; "tcp_accepts"; "tcp_rx_callbacks"; "tcp_sent_callbacks"; "tcp_errors"].
Definition transport_wide : list string := ["tcp_rx_bytes"; "tcp_sent_bytes"].
Definition transport_fields : list string := transport_narrow ++ transport_wide.

(** [tuple(k for k in fields if k in value)] *)
Definition present_in (value : dict json) (fields : list string) : list string :=
  List.filter (has_key value) fields.

Definition all_in (value : dict json) (fields : list string) : bool := forallb (has_key value) fields.
Definition nonempty {A} (l : list A) : bool := negb (length l =? 0)%nat.

(** [previous and bool(present) != all(k in previous for k in fields)] *)
Definition availability_changed (previous : dict json) (present fields : list string) : bool :=
  nonempty previous && negb (Bool.eqb (nonempty present) (all_in previous fields)).

(** The integer a checked field holds. *)
Definition count_of (d : dict json) (key : string) : Z := int_of (jget d key).

Definition U32 : Z := 0xffffffff.
Definition U64 : Z := 0xffffffffffffffff.

(** [diagnostics] after its command: [previous] is the result of an earlier call, or empty. *)
Definition check_diagnostics (value previous : dict json) : result (dict json) :=
  let present := present_in value application_fields in
  let uart_present := present_in value uart_fields in
  let transport_present := present_in value transport_fields in
  raise_when (nonempty present && negb (bool_decide (present = application_fields)))
    (RuntimeError "incomplete application diagnostics");;
  raise_when (availability_changed previous present application_fields)
    (RuntimeError "application diagnostics availability changed");;
  raise_when (nonempty uart_present && negb (bool_decide (uart_present = uart_fields)))
    (RuntimeError "incomplete UART diagnostics");;
  raise_when (nonempty present && nonempty uart_present) (RuntimeError "multiple backend diagnostics");;
  raise_when (availability_changed previous uart_present uart_fields)
    (RuntimeError "UART diagnostics availability changed");;
  raise_when (nonempty transport_present && negb (bool_decide (transport_present = transport_fields)))
    (RuntimeError "incomplete transport diagnostics");;
  raise_when (availability_changed previous transport_present transport_fields)
    (RuntimeError "transport diagnostics availability changed");;
  let fields := base_fields ++ present ++ uart_present ++ transport_present in
  let narrow := base_fields ++ take 4 present ++ take 1 uart_present ++ slice 2 3 uart_present
                ++ drop 4 uart_present ++ take (length transport_narrow) transport_present in
  let wide := drop 4 present ++ slice 1 2 uart_present ++ drop 3 uart_present
              ++ drop (length transport_narrow) transport_present in
  raise_when (negb (forallb (fun k => int_within 0 U32 (jget value k)) narrow)
      || negb (forallb (fun k => int_within 0 U64 (jget value k)) wide)
      || (count_of value "samples" =? 0)
      || match dget value "lwip_free" with Some JNull => false | _ => true end)
    (RuntimeError "invalid firmware diagnostics");;
  raise_when ((count_of value "heap_free" <? count_of value "heap_min")
      || (count_of value "stack_free" <? count_of value "stack_min")
      || (256 <? count_of value "peak_to_backend") || (256 <? count_of value "peak_to_peer")
      || existsb (fun k => 256 <? count_of value k) (take 4 present)
      || existsb (fun k => 256 <? count_of value k) (take 1 uart_present)
      || (has_key value "ncm_rx_batch_peak" && (10 <? count_of value "ncm_rx_batch_peak"))
      || existsb (fun k => U64 <? count_of value k) (drop 4 present))
    (RuntimeError "inconsistent firmware diagnostics");;
  let fell k := has_key previous k && (count_of value k <? count_of previous k) in
  raise_when (nonempty previous
      && ((count_of value "samples" <? count_of previous "samples")
          || existsb (fun k => count_of previous k <? count_of value k) ["heap_min"; "stack_min"]
          || existsb (fun k => count_of value k <? count_of previous k) ["peak_to_backend"; "peak_to_peer"]
          || existsb fell (drop 2 present) || existsb fell (drop 1 uart_present) || existsb fell transport_present))
    (RuntimeError "firmware diagnostics lifetime counters changed");;
  mret ((fun k => (k, jget value k)) <$> fields ++ ["lwip_free"]).

(** ** What accepted diagnostics say *)

(** The counters that never fall are those present of three groups. *)
Definition lifetime : list string := drop 2 application_fields ++ drop 1 uart_fields ++ transport_fields.

Record sound_diagnostics (previous out : dict json) : Prop := {
  sd_keys : exists app uart transport,
    keys out = base_fields ++ app ++ uart ++ transport ++ ["lwip_free"] /\
    (app = [] \/ app = application_fields) /\ (uart = [] \/ uart = uart_fields) /\ (app = [] \/ uart = []) /\
    (transport = [] \/ transport = transport_fields);
  sd_counts : forall k, k ∈ keys out -> k <> "lwip_free" -> exists z, dget out k = Some (JInt z) /\ 0 <= z <= U64;
  sd_samples : 0 < count_of out "samples";
  sd_memory : count_of out "heap_min" <= count_of out "heap_free" /\ count_of out "stack_min" <= count_of out "stack_free";
  sd_peaks : count_of out "peak_to_backend" <= 256 /\ count_of out "peak_to_peer" <= 256;
  sd_history : previous <> [] ->
    count_of previous "samples" <= count_of out "samples" /\
    count_of out "heap_min" <= count_of previous "heap_min" /\
    count_of out "stack_min" <= count_of previous "stack_min" /\
    (forall k, k ∈ keys out -> has_key previous k = true ->
     k ∈ lifetime -> count_of previous k <= count_of out k) }.

Lemma dget_table (f : string -> json) (l : list string) k :
  k ∈ l -> dget ((fun k => (k, f k)) <$> l : dict json) k = Some (f k).
Proof.
  induction l as [|x l IH]; [by intros ?%elem_of_nil|]. simpl. intros [->|Hk]%elem_of_cons.
  - by rewrite decide_True.
  - case_decide as E; [by subst|]. by apply IH.
Qed.

Lemma keys_table (f : string -> json) (l : list string) : keys ((fun k => (k, f k)) <$> l : dict json) = l.
Proof. unfold keys. rewrite <- list_fmap_compose. apply list_fmap_id. Qed.

Lemma nonempty_spec {A} (l : list A) : nonempty l = false <-> l = [].
Proof. by destruct l. Qed.

Lemma whole_or_none (present fields : list string) : nonempty present && negb (bool_decide (present = fields)) = false ->
  present = [] \/ present = fields.
Proof.
  intros [H|H]%andb_false_iff; [by left; apply nonempty_spec|]. right.
  by apply negb_false_iff, bool_decide_eq_true in H.
Qed.

Lemma existsb_false {A} (f : A -> bool) l x : existsb f l = false -> x ∈ l -> f x = false.
Proof.
  intros H Hx%list_elem_of_In. destruct (f x) eqn:E; [|done]. rewrite <- H. symmetry. apply existsb_exists. eauto.
Qed.

Lemma narrow_or_wide (app uart transport : list string) k :
  (app = [] \/ app = application_fields) -> (uart = [] \/ uart = uart_fields) ->
  (transport = [] \/ transport = transport_fields) -> k ∈ base_fields ++ app ++ uart ++ transport ->
  k ∈ base_fields ++ take 4 app ++ take 1 uart ++ slice 2 3 uart ++ drop 4 uart ++ take (length transport_narrow) transport
  \/ k ∈ drop 4 app ++ slice 1 2 uart ++ drop 3 uart ++ drop (length transport_narrow) transport.
Proof.
  intros [->| ->] [->| ->] [->| ->]; revert k; apply Forall_forall; apply (bool_decide_unpack _); vm_compute; done.
Qed.

Lemma lifetime_present (app uart transport : list string) k :
  (app = [] \/ app = application_fields) -> (uart = [] \/ uart = uart_fields) ->
  (transport = [] \/ transport = transport_fields) ->
  k ∈ lifetime -> k ∈ base_fields ++ app ++ uart ++ transport ++ ["lwip_free"] ->
  k ∈ drop 2 app ++ drop 1 uart ++ transport.
Proof.
  intros [->| ->] [->| ->] [->| ->]; revert k; refine (proj1 (Forall_forall _ lifetime) _);
    apply (bool_decide_unpack _); vm_compute; done.
Qed.

(** Membership of a literal in a literal list *)
Ltac in_list := apply (bool_decide_unpack _); vm_compute; exact I.

Section Diagnostics.
Context (value previous out : dict json) (Hout : check_diagnostics value previous = Ok out).

Lemma check_diagnostics_Ok : sound_diagnostics previous out.
Proof.
  unfold check_diagnostics in Hout. set (app := present_in value application_fields) in *.
  set (uart := present_in value uart_fields) in *. set (transport := present_in value transport_fields) in *.
  rewrite !raise_when_bind in Hout.
  destruct Hout as (Happ%whole_or_none & _ & Huart%whole_or_none & Hboth & _ & Htr%whole_or_none & _ & H1 & H2 & H3 & Ho).
  apply (proj1 (mret_Ok _ _)) in Ho. rewrite !orb_false_iff in H1, H2. rewrite !negb_false_iff in H1. destruct H1 as [[[Hn Hw] Hs] _].
  repeat rewrite orb_false_iff in H2. destruct H2 as [[[[[[[Hh Hst] Hpb] Hpp] _] _] _] _].
  assert (Hb : app = [] \/ uart = []).
  { apply andb_false_iff in Hboth as [?%nonempty_spec|?%nonempty_spec]; auto. }
  set (fields := base_fields ++ app ++ uart ++ transport) in *.
  assert (Hk : keys out = fields ++ ["lwip_free"]) by (rewrite <- Ho; apply keys_table).
  assert (Hc : forall k, k ∈ keys out -> dget out k = Some (jget value k)).
  { intros k. rewrite Hk, <- Ho. apply dget_table. }
  assert (Hi : forall k, k ∈ fields -> exists z, jget value k = JInt z /\ 0 <= z <= U64).
  { intros k Hin. rewrite forallb_forall in Hn, Hw. unfold U32, U64 in *.
    destruct (narrow_or_wide app uart transport k) as [H|H]; [done..| |]; apply list_elem_of_In in H;
      [apply Hn in H|apply Hw in H]; apply int_within_spec in H as (z & -> & Hz); exists z; (split; [done|lia]). }
  assert (Hv : forall k, k ∈ keys out -> count_of out k = count_of value k).
  { intros k Hin. unfold count_of, jget at 1. by rewrite (Hc k Hin). }
  assert (Hbase : forall k, k ∈ base_fields -> k ∈ keys out).
  { intros k Hin. rewrite Hk. unfold fields. rewrite !elem_of_app. auto. }
  apply Z.eqb_neq in Hs. apply Z.ltb_ge in Hh, Hst, Hpb, Hpp.
  assert (Hs0 : 0 <= count_of value "samples").
  { destruct (Hi "samples") as (z & E & Hz); [unfold fields; rewrite elem_of_app; left; by left|].
    unfold count_of. rewrite E. simpl. lia. }
  constructor.
  - exists app, uart, transport. rewrite Hk. unfold fields. rewrite <- !app_assoc. done.
  - intros k Hin Hne. rewrite (Hc k Hin). rewrite Hk, elem_of_app, list_elem_of_singleton in Hin.
    destruct Hin as [Hin|Hin]; [|done]. destruct (Hi k Hin) as (z & -> & Hz). eauto.
  - rewrite Hv by (apply Hbase; by left). lia.
  - rewrite !Hv by (apply Hbase; in_list). done.
  - rewrite !Hv by (apply Hbase; in_list). done.
  - intros Hp. apply andb_false_iff in H3 as [H3|H3]; [by apply nonempty_spec in H3|].
    rewrite !orb_false_iff in H3. destruct H3 as [[[[[Ha Hm] _] Hf1] Hf2] Hf3]. apply Z.ltb_ge in Ha.
    assert (Hfell : forall l k, existsb (fun k => has_key previous k && (count_of value k <? count_of previous k)) l = false ->
      k ∈ l -> has_key previous k = true -> count_of previous k <= count_of value k).
    { intros l k Hl Hin Hkey. apply (existsb_false _ _ _ Hl) in Hin. rewrite Hkey in Hin. by apply Z.ltb_ge in Hin. }
    rewrite !Hv by (apply Hbase; in_list). split; [done|].
    split; [apply Z.ltb_ge, (existsb_false _ _ _ Hm); by left|].
    split; [apply Z.ltb_ge, (existsb_false _ _ _ Hm); right; by left|].
    intros k Hin Hkey Hm'. rewrite Hv by done. rewrite Hk in Hin.
    unfold fields in Hin. rewrite <- !app_assoc in Hin.
    pose proof (lifetime_present app uart transport k Happ Huart Htr Hm' Hin) as Hl. rewrite !elem_of_app in Hl.
    destruct Hl as [Hl|[Hl|Hl]]; [eapply (Hfell (drop 2 app))|eapply (Hfell (drop 1 uart))|eapply (Hfell transport)]; done.
Qed.
End Diagnostics.

(** ** The traffic loop *)

(** What one exact echo reports. *)
Record echo_report := { e_bytes : Z; e_seconds : Z }.

Record sample := { sm_batch : Z; sm_echo : echo_report; sm_diagnostics : option (dict json) }.

(** [report], without the fields that repeat the arguments or keep the latest hello, status and diagnostics
    a second time. *)
Record report := {
  r_status : string; r_error : option exn; r_hello : option (dict json);
  r_completed_batches : Z; r_completed_sessions : Z; r_exact_bytes : Z;
  r_samples : list sample; r_omitted_samples : Z; r_in_progress : option (Z * Z); r_last_sample : option sample;
  r_elapsed : Z; r_finished : bool }.

Inductive soak_call :=
| Now
| CreateOutput (path : string)
| Save (r : report)
| CurrentVersion
| OpenPeer (address device_id board : string) (timeout : Z) (firmware_version backend : string)
| Command (op : string) (fields : dict json)
| Echo (byte_count : Z) (slow_read : bool) (seed : Z)
| FinishPeer
| ClosePeer.

(** [OpenPeer] answers with the hello of the new session. *)
Definition soak_ret (c : soak_call) : Type :=
  match c with
  | Now => Z
  | CurrentVersion => string
  | OpenPeer _ _ _ _ _ _ | Command _ _ => dict json
  | Echo _ _ _ => echo_report
  | CreateOutput _ | Save _ | FinishPeer | ClosePeer => unit
  end.

Record soak_state := {
  s_peer : option (dict json); s_boot : option json; s_session_bytes : Z;
  s_last_diagnostics : dict json; s_report : report }.

Abbreviation soak := (st soak_ret soak_state).

Definition set_peer (p : option (dict json)) (s : soak_state) : soak_state := {|
  s_peer := p; s_boot := s_boot s; s_session_bytes := s_session_bytes s;
  s_last_diagnostics := s_last_diagnostics s; s_report := s_report s |}.
Definition set_boot (b : json) (s : soak_state) : soak_state := {|
  s_peer := s_peer s; s_boot := Some b; s_session_bytes := s_session_bytes s;
  s_last_diagnostics := s_last_diagnostics s; s_report := s_report s |}.
Definition set_session_bytes (n : Z) (s : soak_state) : soak_state := {|
  s_peer := s_peer s; s_boot := s_boot s; s_session_bytes := n;
  s_last_diagnostics := s_last_diagnostics s; s_report := s_report s |}.
Definition set_last_diagnostics (d : dict json) (s : soak_state) : soak_state := {|
  s_peer := s_peer s; s_boot := s_boot s; s_session_bytes := s_session_bytes s;
  s_last_diagnostics := d; s_report := s_report s |}.
Definition set_report (f : report -> report) (s : soak_state) : soak_state := {|
  s_peer := s_peer s; s_boot := s_boot s; s_session_bytes := s_session_bytes s;
  s_last_diagnostics := s_last_diagnostics s; s_report := f (s_report s) |}.

Definition with_status (status : string) (error : option exn) (r : report) : report := {|
  r_status := status; r_error := error; r_hello := r_hello r; r_completed_batches := r_completed_batches r;
  r_completed_sessions := r_completed_sessions r; r_exact_bytes := r_exact_bytes r; r_samples := r_samples r;
  r_omitted_samples := r_omitted_samples r; r_in_progress := r_in_progress r; r_last_sample := r_last_sample r;
  r_elapsed := r_elapsed r; r_finished := r_finished r |}.
Definition with_hello (hello : dict json) (r : report) : report := {|
  r_status := r_status r; r_error := r_error r; r_hello := Some hello; r_completed_batches := r_completed_batches r;
  r_completed_sessions := r_completed_sessions r; r_exact_bytes := r_exact_bytes r; r_samples := r_samples r;
  r_omitted_samples := r_omitted_samples r; r_in_progress := r_in_progress r; r_last_sample := r_last_sample r;
  r_elapsed := r_elapsed r; r_finished := r_finished r |}.
Definition with_session (r : report) : report := {|
  r_status := r_status r; r_error := r_error r; r_hello := r_hello r; r_completed_batches := r_completed_batches r;
  r_completed_sessions := r_completed_sessions r + 1; r_exact_bytes := r_exact_bytes r; r_samples := r_samples r;
  r_omitted_samples := r_omitted_samples r; r_in_progress := r_in_progress r; r_last_sample := r_last_sample r;
  r_elapsed := r_elapsed r; r_finished := r_finished r |}.
Definition with_progress (p : option (Z * Z)) (r : report) : report := {|
  r_status := r_status r; r_error := r_error r; r_hello := r_hello r; r_completed_batches := r_completed_batches r;
  r_completed_sessions := r_completed_sessions r; r_exact_bytes := r_exact_bytes r; r_samples := r_samples r;
  r_omitted_samples := r_omitted_samples r; r_in_progress := p; r_last_sample := r_last_sample r;
  r_elapsed := r_elapsed r; r_finished := r_finished r |}.
Definition with_time (elapsed : Z) (finished : bool) (r : report) : report := {|
  r_status := r_status r; r_error := r_error r; r_hello := r_hello r; r_completed_batches := r_completed_batches r;
  r_completed_sessions := r_completed_sessions r; r_exact_bytes := r_exact_bytes r; r_samples := r_samples r;
  r_omitted_samples := r_omitted_samples r; r_in_progress := r_in_progress r; r_last_sample := r_last_sample r;
  r_elapsed := elapsed; r_finished := finished |}.

(** One more completed batch: the first 64 samples are kept, later ones counted. *)
Definition with_batch (bytes : Z) (x : sample) (r : report) : report := {|
  r_status := r_status r; r_error := r_error r; r_hello := r_hello r;
  r_completed_batches := r_completed_batches r + 1; r_completed_sessions := r_completed_sessions r;
  r_exact_bytes := r_exact_bytes r + bytes;
  r_samples := if blen (r_samples r) <? MAX_SAMPLES then r_samples r ++ [x] else r_samples r;
  r_omitted_samples := if blen (r_samples r) <? MAX_SAMPLES then r_omitted_samples r else r_omitted_samples r + 1;
  r_in_progress := None; r_last_sample := Some x; r_elapsed := r_elapsed r; r_finished := r_finished r |}.

Definition first_report : report := {|
  r_status := "running"; r_error := None; r_hello := None; r_completed_batches := 0; r_completed_sessions := 0;
  r_exact_bytes := 0; r_samples := []; r_omitted_samples := 0; r_in_progress := None; r_last_sample := None;
  r_elapsed := 0; r_finished := false |}.

(** [save()] *)
Definition save (started : Z) : soak unit :=
  now ← st_ask Now;
  st_modify (set_report (fun r => with_time (now - started) (r_finished r) r));;
  s ← st_get;
  st_ask (Save (s_report s)).

(** [diagnostics(peer, last_diagnostics)] *)
Definition diagnostics : soak (dict json) :=
  value ← st_ask (Command "device.diagnostics" []);
  s ← st_get;
  st_pure (check_diagnostics value (s_last_diagnostics s)).

Definition uart_losses (firmware : string) (d : dict json) : bool :=
  bool_decide (firmware = "uart")
  && (truthy (jget d "uart_rx_overrun_events") || truthy (jget d "uart_rx_lost_bytes_minimum")).

Definition open_session (a : args) (version : string) : soak (dict json) :=
  hello ← st_ask (OpenPeer (a_address a) (a_device_id a) (a_board a) (a_batch_timeout a * second) version (a_firmware a));
  st_modify (set_peer (Some hello));;
  mret hello.

(** Open a session when there is none. *)
Definition connect_peer (a : args) : soak unit :=
  s ← st_get;
  match s_peer s with
  | Some _ => mret tt
  | None =>
      version ← st_ask CurrentVersion;
      hello ← open_session a version;
      observed ← st_pure (ditem hello "boot_id");
      s ← st_get;
      boot ← match s_boot s with
             | Some boot => mret boot
             | None =>
                 st_modify (set_boot observed);; st_modify (set_report (with_hello hello));; mret observed
             end;
      st_pure (raise_when (negb (py_eq observed boot)) (RuntimeError "boot changed: expected , observed"));;
      (if a_diagnostics a then
         d ← diagnostics;
         st_modify (set_last_diagnostics d);;
         st_pure (raise_when (uart_losses (a_firmware a) d) (RuntimeError "UART overrun/loss already reported"))
       else mret tt);;
      (if bool_decide (a_firmware a = "uart") then
         channel ← st_pure (first_channel hello);
         st_pure (validate_channel channel);;
         _ ← st_ask (Command "serial.open" [("channel_id", JInt 1); ("config", JObj TEST_CONFIGURATION)]);
         mret tt
       else
         _ ← st_ask (Command "serial.open" [("channel_id", JInt 1)]);
         mret tt);;
      st_modify (set_session_bytes 0)
  end.

(** [peer.command('serial.close', ...); peer.finish(); peer = None] *)
Definition close_session : soak unit :=
  _ ← st_ask (Command "serial.close" [("channel_id", JInt 1)]);
  _ ← st_ask FinishPeer;
  st_modify (set_peer None);;
  st_modify (set_report with_session).

Definition batch_seed (a : args) (batch : Z) : Z := Z.land (a_seed a + batch * 0x9e3779b9) 0xffffffff.

Definition counters_differ (status : dict json) (bytes : Z) : bool :=
  negb (py_eq (jget status "backend_rx_bytes") (JInt bytes)) || negb (py_eq (jget status "backend_tx_bytes") (JInt bytes))
  || negb (py_eq (jget status "pending_to_backend") (JInt 0)) || negb (py_eq (jget status "pending_to_peer") (JInt 0)).

(** One batch: an exact echo, the backend counters, the diagnostics. *)
Definition one_batch (a : args) (started : Z) : soak unit :=
  s ← st_get;
  let batch := r_completed_batches (s_report s) in
  let seed := batch_seed a batch in
  st_modify (set_report (with_progress (Some (batch + 1, seed))));;
  save started;;
  echo ← st_ask (Echo (a_byte_count a) (batch mod 2 =? 1) seed);
  st_pure (raise_when (negb (e_bytes echo =? a_byte_count a)) (RuntimeError "echo count mismatch: expected , observed"));;
  st_modify (fun s => set_session_bytes (s_session_bytes s + a_byte_count a) s);;
  status ← st_ask (Command "serial.status" [("channel_id", JInt 1)]);
  s ← st_get;
  st_pure (raise_when (counters_differ status (s_session_bytes s)) (RuntimeError "backend counters/queues mismatch"));;
  d ← (if a_diagnostics a then
         d ← diagnostics;
         st_modify (set_last_diagnostics d);;
         st_pure (raise_when (uart_losses (a_firmware a) d) (RuntimeError "UART loopback overrun/loss reported"));;
         mret (Some d)
       else mret None);
  st_modify (set_report (with_batch (a_byte_count a) {| sm_batch := batch + 1; sm_echo := echo; sm_diagnostics := d |}));;
  (if (batch + 1) mod a_reconnect_every a =? 0 then close_session else mret tt).

Definition soak_turn (a : args) (started deadline : Z) : soak (option unit) :=
  now ← st_ask Now;
  if now <? deadline then
    connect_peer a;; one_batch a started;; save started;; mret None
  else mret (Some tt).

Definition traffic (fuel : nat) (a : args) (started deadline : Z) : soak unit :=
  st_loop fuel (soak_turn a started deadline);;
  s ← st_get;
  match s_peer s with Some _ => close_session | None => mret tt end;;
  s ← st_get;
  st_pure (raise_when (r_completed_batches (s_report s) =? 0) (RuntimeError "no byte-integrity batch completed"));;
  st_modify (set_report (with_status "passed" (r_error (s_report s)))).

(** The two handlers around the traffic. *)
Definition soak_failed (e : exn) : bool := is_a KKeyboardInterrupt e || is_any [KOSError; KValueError; KRuntimeError] e.

Definition soak_handler (e : exn) : soak unit :=
  st_modify (set_report (with_status (if is_a KKeyboardInterrupt e then "interrupted" else "failed") (Some e))).

Definition soak_finally (started : Z) : soak unit :=
  s ← st_get;
  match s_peer s with Some _ => st_ask ClosePeer | None => mret tt end;;
  st_modify (set_report (fun r => with_time (r_elapsed r) true r));;
  save started.

(** [run] after the arguments are validated, which comes first. *)
Definition run (fuel : nat) (a : args) : soak Z :=
  a ← st_pure (validate a);
  _ ← st_ask (CreateOutput (a_output a));
  started ← st_ask Now;
  let deadline := started + a_duration a * second in
  save started;;
  st_finally (st_try (traffic fuel a started deadline) soak_failed soak_handler) (soak_finally started);;
  s ← st_get;
  mret (if bool_decide (r_status (s_report s) = "passed") then 0 else 1).

Definition first_state : soak_state := {|
  s_peer := None; s_boot := None; s_session_bytes := 0; s_last_diagnostics := []; s_report := first_report |}.

(** ** What a soak run did *)
Definition echo_call (a : args) (batch : Z) : soak_call := Echo (a_byte_count a) (batch mod 2 =? 1) (batch_seed a batch).

Definition is_echo (c : soak_call) : bool := match c with Echo _ _ _ => true | _ => false end.
Definition echoes (k : list soak_call) : list soak_call := List.filter is_echo k.

Section Traffic.
Context (env : environment soak_ret).

(** Whether a session is open after some calls. *)
Definition session_step (h : list soak_call) (open : bool) (c : soak_call) : bool :=
  match c with
  | OpenPeer address id board timeout version backend => is_ok (env h (OpenPeer address id board timeout version backend)) || open
  | FinishPeer | ClosePeer => false
  | _ => open
  end.
Definition session_open (k : list soak_call) : bool := scan session_step false k.

(** How many echoes came back with exactly the bytes sent. *)
Definition exact_step (a : args) (h : list soak_call) (n : Z) (c : soak_call) : Z :=
  match c with
  | Echo count slow seed =>
      match env h (Echo count slow seed) with Ok e => if e_bytes e =? a_byte_count a then n + 1 else n | Raise _ => n end
  | _ => n
  end.
Definition exact_echoes (a : args) (k : list soak_call) : Z := scan (exact_step a) 0 k.

Context (a : args).

Definition completed (s : soak_state) : Z := r_completed_batches (s_report s).

(** The report counts whole batches; the echoes made are those of the first batches in order. *)
Record counted (s : soak_state) (k : list soak_call) : Prop := {
  ct_nonneg : 0 <= completed s;
  ct_bytes : r_exact_bytes (s_report s) = a_byte_count a * completed s;
  ct_samples : blen (r_samples (s_report s)) + r_omitted_samples (s_report s) = completed s;
  ct_session : s_peer s = None -> session_open k = false }.

(** Between batches, after the echo of the next one, and whenever an exception ends the run. *)
Definition at_rest (s : soak_state) (k : list soak_call) : Prop :=
  counted s k /\ echoes k = echo_call a <$> seqZ 0 (completed s) /\ completed s <= exact_echoes a k.
Definition after_echo (s : soak_state) (k : list soak_call) : Prop :=
  counted s k /\ echoes k = echo_call a <$> seqZ 0 (completed s + 1) /\ completed s + 1 <= exact_echoes a k.
Definition stopped (s : soak_state) (k : list soak_call) : Prop :=
  counted s k /\ (exists d, 0 <= d <= 1 /\ echoes k = echo_call a <$> seqZ 0 (completed s + d)) /\
  completed s <= exact_echoes a k.

Lemma at_rest_stopped s k : at_rest s k -> stopped s k.
Proof. intros (Hc & He & Hx). split; [done|]. split; [|done]. exists 0. by rewrite Z.add_0_r. Qed.

Lemma after_echo_stopped s k : after_echo s k -> stopped s k.
Proof. intros (Hc & He & Hx). split; [done|]. split; [|lia]. by exists 1. Qed.

(** Calls other than echoes and openings. *)
Definition plain (c : soak_call) : bool := match c with Echo _ _ _ | OpenPeer _ _ _ _ _ _ => false | _ => true end.

Lemma echoes_plain k c : is_echo c = false -> echoes (k ++ [c]) = echoes k.
Proof. intros Hc. unfold echoes. rewrite List.filter_app. simpl. rewrite Hc. apply app_nil_r. Qed.

Lemma exact_echoes_plain k c : is_echo c = false -> exact_echoes a (k ++ [c]) = exact_echoes a k.
Proof. intros Hc. unfold exact_echoes. rewrite scan_snoc. by destruct c. Qed.

Lemma counted_plain s k c : counted s k -> plain c = true -> counted s (k ++ [c]).
Proof.
  intros [H1 H2 H3 H4] Hc. split; [done..|]. intros Hp. unfold session_open. rewrite scan_snoc.
  apply H4 in Hp. unfold session_open in Hp. rewrite Hp. by destruct c.
Qed.

Lemma plain_echo c : plain c = true -> is_echo c = false.
Proof. by destruct c. Qed.

Lemma at_rest_plain s k c : plain c = true -> at_rest s k -> at_rest s (k ++ [c]).
Proof.
  intros Hc (H1 & H2 & H3). pose proof (plain_echo c Hc). split; [by apply counted_plain|].
  by rewrite echoes_plain, exact_echoes_plain.
Qed.

Lemma after_echo_plain s k c : plain c = true -> after_echo s k -> after_echo s (k ++ [c]).
Proof.
  intros Hc (H1 & H2 & H3). pose proof (plain_echo c Hc). split; [by apply counted_plain|].
  by rewrite echoes_plain, exact_echoes_plain.
Qed.

(** Assignments that leave the counters and the session alone. *)
Definition same_counts (f : soak_state -> soak_state) : Prop := forall s,
  completed (f s) = completed s /\ r_exact_bytes (s_report (f s)) = r_exact_bytes (s_report s) /\
  r_samples (s_report (f s)) = r_samples (s_report s) /\
  r_omitted_samples (s_report (f s)) = r_omitted_samples (s_report s) /\ (s_peer (f s) = s_peer s).

Lemma counted_same f s k : same_counts f -> counted s k -> counted (f s) k.
Proof. intros Hf [H1 H2 H3 H4]. destruct (Hf s) as (E1 & E2 & E3 & E4 & E5). split; by rewrite ?E1, ?E2, ?E3, ?E4, ?E5. Qed.

Lemma at_rest_same f s k : same_counts f -> at_rest s k -> at_rest (f s) k.
Proof.
  intros Hf (H1 & H2 & H3). split; [by apply counted_same|]. destruct (Hf s) as (-> & _). done.
Qed.

Lemma after_echo_same f s k : same_counts f -> after_echo s k -> after_echo (f s) k.
Proof.
  intros Hf (H1 & H2 & H3). split; [by apply counted_same|]. destruct (Hf s) as (-> & _). done.
Qed.

Lemma open_session_keeps version : keeps env [] at_rest (open_session a version).
Proof.
  intros s k (H1 & H2 & H3). unfold open_session, mbind, st_mbind, st_bind, st_ask, st_io, ask. cbn [app].
  set (c := OpenPeer _ _ _ _ _ _). destruct (env k c) as [hello|e] eqn:Ec; cbn.
  - split; [|by rewrite echoes_plain, exact_echoes_plain]. destruct H1 as [C1 C2 C3 C4]. by split.
  - split; [|by rewrite echoes_plain, exact_echoes_plain]. destruct H1 as [C1 C2 C3 C4]. split; [done..|].
    intros Hp. apply C4 in Hp. unfold session_open in *. rewrite scan_snoc. simpl. fold c. by rewrite Ec, Hp.
Qed.

#[local] Hint Resolve open_session_keeps : keeps.

Ltac rest_tac := keeps_tac; try (by apply at_rest_plain); try (by apply at_rest_same).

Lemma connect_peer_keeps : keeps env [] at_rest (connect_peer a).
Proof. unfold connect_peer, diagnostics. rest_tac. Qed.

Lemma save_keeps started : keeps env [] at_rest (save started).
Proof. unfold save. rest_tac. Qed.

Lemma close_session_rest :
  triple env [] at_rest close_session (fun _ s k => at_rest s k /\ s_peer s = None) (fun _ => at_rest).
Proof.
  unfold close_session. eapply triple_bind; [apply keeps_ask; intros; by apply at_rest_plain|intros ?; cbn beta].
  eapply triple_bind with (R := fun _ s k => at_rest s k /\ session_open k = false).
  { apply triple_ask. intros s k Hs. assert (Hf : session_open (k ++ [FinishPeer]) = false)
      by (unfold session_open; by rewrite scan_snoc). apply (at_rest_plain _ _ FinishPeer) in Hs; [|done].
    by destruct (env _ _). }
  intros ?. eapply triple_bind with (R := fun _ s k => at_rest s k /\ s_peer s = None).
  { apply triple_modify.
    intros s k [([C1 C2 C3 C4] & H2 & H3) Hf]. split; [|done]. by split. }
  intros ?. apply triple_modify. intros s k [Hs Hp]. split; [by apply at_rest_same|done].
Qed.

(** The same, at a known batch. *)
Definition rest_at (b : Z) (s : soak_state) (k : list soak_call) : Prop := at_rest s k /\ completed s = b.
Definition echoed_at (b : Z) (s : soak_state) (k : list soak_call) : Prop := after_echo s k /\ completed s = b.

Lemma rest_at_plain b s k c : plain c = true -> rest_at b s k -> rest_at b s (k ++ [c]).
Proof. intros Hc [H Hb]. split; [by apply at_rest_plain|done]. Qed.

Lemma rest_at_same b f s k : same_counts f -> rest_at b s k -> rest_at b (f s) k.
Proof. intros Hf [H Hb]. split; [by apply at_rest_same|]. by destruct (Hf s) as (-> & _). Qed.

Lemma echoed_at_plain b s k c : plain c = true -> echoed_at b s k -> echoed_at b s (k ++ [c]).
Proof. intros Hc [H Hb]. split; [by apply after_echo_plain|done]. Qed.

Lemma echoed_at_same b f s k : same_counts f -> echoed_at b s k -> echoed_at b (f s) k.
Proof. intros Hf [H Hb]. split; [by apply after_echo_same|]. by destruct (Hf s) as (-> & _). Qed.

Lemma save_keeps_rest b started : keeps env [] (rest_at b) (save started).
Proof. unfold save. keeps_tac; (by apply rest_at_plain) || (by apply rest_at_same). Qed.

Lemma echo_step b :
  triple env [] (rest_at b) (st_ask (Echo (a_byte_count a) (b mod 2 =? 1) (batch_seed a b)))
    (fun e s k => completed s = b /\ (e_bytes e = a_byte_count a -> after_echo s k) /\ stopped s k)
    (fun _ => stopped).
Proof.
  apply triple_ask. intros s k [(H1 & H2 & H3) Hb]. cbn [app]. set (c := Echo _ _ _).
  assert (Hc : counted s (k ++ [c])).
  { destruct H1 as [C1 C2 C3 C4]. split; [done..|]. intros Hp. unfold session_open. rewrite scan_snoc. by apply C4. }
  assert (He : echoes (k ++ [c]) = echo_call a <$> seqZ 0 (completed s + 1)).
  { unfold echoes in *. rewrite List.filter_app, H2, seqZ_app, fmap_app by (destruct H1; lia). f_equal.
    rewrite Z.add_0_l. simpl. unfold c, echo_call. by rewrite Hb. }
  assert (Hx : exact_echoes a (k ++ [c]) =
    match env k c with Ok e => if e_bytes e =? a_byte_count a then exact_echoes a k + 1 else exact_echoes a k
    | Raise _ => exact_echoes a k end) by (unfold exact_echoes; by rewrite scan_snoc).
  assert (Hs : completed s <= exact_echoes a (k ++ [c])).
  { rewrite Hx. destruct (env k c) as [e0|e0]; [destruct (e_bytes e0 =? a_byte_count a)|]; lia. }
  assert (Hst : stopped s (k ++ [c])) by (split; [done|]; split; [by exists 1|done]).
  destruct (env k c) as [e|e]; [|done]. split; [done|]. split; [|done]. intros Eq.
  split; [done|]. split; [done|]. rewrite Hx, (proj2 (Z.eqb_eq _ _) Eq). lia.
Qed.

Lemma with_batch_step b x s k : 0 <= a_byte_count a -> echoed_at b s k ->
  at_rest (set_report (with_batch (a_byte_count a) x) s) k.
Proof.
  intros Hn [([C1 C2 C3 C4] & H2 & H3) Hb]. unfold completed in *. split; [|done].
  split; simpl; unfold completed; simpl; [lia|lia| |done].
  destruct (_ <? _); [rewrite blen_app; unfold blen at 2; simpl|]; lia.
Qed.

Lemma batch_diagnostics_keeps b :
  keeps env [] (echoed_at b) (if a_diagnostics a then
    d ← diagnostics;
    st_modify (set_last_diagnostics d);;
    st_pure (raise_when (uart_losses (a_firmware a) d) (RuntimeError "UART loopback overrun/loss reported"));;
    mret (Some d)
  else mret None).
Proof. unfold diagnostics. keeps_tac; (by apply echoed_at_plain) || (by apply echoed_at_same). Qed.

Lemma one_batch_triple started : 0 <= a_byte_count a ->
  triple env [] at_rest (one_batch a started) (fun _ => at_rest) (fun _ => stopped).
Proof.
  intros Hn. unfold one_batch.
  eapply triple_bind with (R := fun s0 s k => rest_at (completed s0) s k); [by apply triple_get|]. intros s0.
  fold (completed s0). set (b := completed s0).
  assert (Hrest : forall s k, rest_at b s k -> stopped s k) by (intros s k [H _]; by apply at_rest_stopped).
  assert (Hecho : forall s k, echoed_at b s k -> stopped s k) by (intros s k [H _]; by apply after_echo_stopped).
  eapply triple_bind with (R := fun _ => rest_at b).
  { apply triple_modify. intros s k H. by apply rest_at_same. }
  intros ?. eapply triple_bind with (R := fun _ => rest_at b).
  { eapply triple_weaken; [apply (save_keeps_rest b)|done|done|by intros ?]. }
  intros ?. eapply triple_bind; [apply (echo_step b)|]. intros e.
  eapply triple_bind with (R := fun _ => echoed_at b).
  { apply triple_pure. intros s k (Hb & He & Hs). destruct (Z.eqb_spec (e_bytes e) (a_byte_count a)); simpl; [|done].
    split; auto. }
  intros ?. eapply triple_bind with (R := fun _ => echoed_at b).
  { apply triple_modify. intros s k H. by apply echoed_at_same. }
  intros ?. eapply triple_bind with (R := fun _ => echoed_at b).
  { eapply triple_weaken; [refine (keeps_ask env [] (echoed_at b) _ _); intros; by apply echoed_at_plain|done|done|by intros ?]. }
  intros status. eapply triple_bind with (R := fun _ => echoed_at b); [by apply triple_get|]. intros s1.
  eapply triple_bind with (R := fun _ => echoed_at b).
  { apply triple_pure. intros s k H. destruct (counters_differ _ _); simpl; auto. }
  intros ?. eapply triple_bind with (R := fun _ => echoed_at b).
  { eapply triple_weaken with (Q' := fun _ => echoed_at b) (E' := fun _ => echoed_at b);
      [apply (batch_diagnostics_keeps b)|done|done|by intros ?]. }
  intros d. eapply triple_bind with (R := fun _ => at_rest).
  { apply triple_modify. intros s k H. by eapply with_batch_step. }
  intros ?. destruct (_ =? 0).
  - eapply triple_weaken; [apply close_session_rest|done|by intros ? ? ? [? _]|intros; by apply at_rest_stopped].
  - by apply triple_ret.
Qed.

Lemma soak_turn_triple started deadline : 0 <= a_byte_count a ->
  triple env [] at_rest (soak_turn a started deadline) (fun _ => at_rest) (fun _ => stopped).
Proof.
  intros Hn. unfold soak_turn.
  assert (Hk : forall A (m : soak A), keeps env [] at_rest m -> triple env [] at_rest m (fun _ => at_rest) (fun _ => stopped)).
  { intros A m Hm. eapply triple_weaken; [exact Hm|done|done|intros; by apply at_rest_stopped]. }
  eapply triple_bind with (R := fun _ => at_rest); [apply Hk; keeps_tac; by apply at_rest_plain|].
  intros now. destruct (_ <? _); [|by apply triple_ret].
  eapply triple_bind with (R := fun _ => at_rest); [apply Hk, connect_peer_keeps|]. intros ?.
  eapply triple_bind with (R := fun _ => at_rest); [by apply one_batch_triple|]. intros ?.
  eapply triple_bind with (R := fun _ => at_rest); [apply Hk, save_keeps|]. intros ?. by apply triple_ret.
Qed.

(** A run that passes: whole batches only, at least one, and no session left. *)
Definition passed (s : soak_state) (k : list soak_call) : Prop :=
  at_rest s k /\ s_peer s = None /\ completed s <> 0 /\ r_status (s_report s) = "passed".

Lemma traffic_triple fuel started deadline : 0 <= a_byte_count a ->
  triple env [] at_rest (traffic fuel a started deadline) (fun _ => passed) (fun _ => stopped).
Proof.
  intros Hn. unfold traffic. eapply triple_bind with (R := fun _ => at_rest).
  { apply triple_loop; [|intros; by apply at_rest_stopped].
    eapply triple_weaken; [by apply soak_turn_triple|done|by intros [?|]|done]. }
  intros ?. eapply triple_bind with (R := fun s0 s k => at_rest s k /\ s = s0); [by apply triple_get|]. intros s0.
  eapply triple_bind with (R := fun _ s k => at_rest s k /\ s_peer s = None).
  { destruct (s_peer s0) eqn:Ep; [|apply triple_ret; by intros s k [? ->]].
    eapply triple_weaken; [apply close_session_rest|by intros s k [? _]|done|intros; by apply at_rest_stopped]. }
  intros ?. eapply triple_bind with (R := fun s1 s k => (at_rest s k /\ s_peer s = None) /\ s = s1); [by apply triple_get|].
  intros s1. eapply triple_bind with (R := fun _ s k => (at_rest s k /\ s_peer s = None) /\ completed s <> 0).
  { apply triple_pure. intros s k [[Hs Hp] ->]. fold (completed s1). destruct (Z.eqb_spec (completed s1) 0); simpl;
      [by apply at_rest_stopped|done]. }
  intros ?. apply triple_modify. intros s k [[Hs Hp] Hc]. split; [by apply at_rest_same|]. done.
Qed.

(** The end of a run, however it ended: no session is open. *)
Definition finished (s : soak_state) (k : list soak_call) : Prop := stopped s k /\ session_open k = false.

Lemma stopped_plain s k c : plain c = true -> stopped s k -> stopped s (k ++ [c]).
Proof.
  intros Hc (H1 & H2 & H3). pose proof (plain_echo c Hc). split; [by apply counted_plain|].
  by rewrite echoes_plain, exact_echoes_plain.
Qed.

Lemma stopped_same f s k : same_counts f -> stopped s k -> stopped (f s) k.
Proof.
  intros Hf (H1 & H2 & H3). split; [by apply counted_same|]. destruct (Hf s) as (-> & _). done.
Qed.

Lemma session_closed_plain k c : plain c = true -> session_open k = false -> session_open (k ++ [c]) = false.
Proof. unfold session_open. rewrite scan_snoc. intros Hc ->. by destruct c. Qed.

Lemma finished_plain s k c : plain c = true -> finished s k -> finished s (k ++ [c]).
Proof. intros Hc [H1 H2]. split; [by apply stopped_plain|by apply session_closed_plain]. Qed.

Lemma finished_same f s k : same_counts f -> finished s k -> finished (f s) k.
Proof. intros Hf [H1 H2]. split; [by apply stopped_same|done]. Qed.

Lemma passed_finished s k : passed s k -> finished s k.
Proof. intros (H & Hp & _ & _). split; [by apply at_rest_stopped|]. by apply H. Qed.

Lemma passed_plain s k c : plain c = true -> passed s k -> passed s (k ++ [c]).
Proof. intros Hc (H1 & H2 & H3 & H4). split; [by apply at_rest_plain|done]. Qed.

Lemma passed_time g h s k : passed s k -> passed (set_report (fun r => with_time (g r) (h r) r) s) k.
Proof. intros (H1 & H2 & H3 & H4). split; [by apply at_rest_same|done]. Qed.

Lemma soak_finally_stopped started : triple env [] stopped (soak_finally started) (fun _ => finished) (fun _ => finished).
Proof.
  unfold soak_finally. eapply triple_bind with (R := fun s0 s k => stopped s k /\ s = s0); [by apply triple_get|]. intros s0.
  eapply triple_bind with (R := fun _ => finished).
  { destruct (s_peer s0) eqn:Ep.
    - apply triple_ask. intros s k [Hs _]. assert (finished s (k ++ [ClosePeer])); [|by destruct (env _ _)].
      split; [by apply stopped_plain|]. unfold session_open. by rewrite scan_snoc.
    - apply triple_ret. intros s k [Hs ->]. split; [done|]. by apply Hs. }
  intros ?. change (keeps env [] finished (st_modify (set_report (fun r => with_time (r_elapsed r) true r));; save started)).
  unfold save. keeps_tac; (by apply finished_plain) || (by apply finished_same).
Qed.

Lemma soak_finally_passed started : triple env [] passed (soak_finally started) (fun _ => passed) (fun _ => finished).
Proof.
  unfold soak_finally. eapply triple_bind with (R := fun s0 s k => passed s k /\ s = s0); [by apply triple_get|]. intros s0.
  eapply triple_bind with (R := fun _ => passed).
  { destruct (s_peer s0) eqn:Ep; [|apply triple_ret; by intros s k [? _]].
    apply triple_ask. intros s k [(_ & Hp & _) ->]. congruence. }
  intros ?. eapply triple_weaken with (Q' := fun _ => passed) (E' := fun _ => passed);
    [|done|done|intros; by apply passed_finished].
  change (keeps env [] passed (st_modify (set_report (fun r => with_time (r_elapsed r) true r));; save started)).
  unfold save. keeps_tac; (by apply passed_plain) || (by apply passed_time).
Qed.

Lemma soak_finally_status started status :
  keeps env [] (fun s _ => r_status (s_report s) = status) (soak_finally started).
Proof. unfold soak_finally, save. keeps_tac; done. Qed.

(** How the guarded traffic ends. *)
Definition run_end (s : soak_state) (k : list soak_call) : Prop :=
  finished s k /\ (r_status (s_report s) = "passed" -> passed s k).

Lemma guarded_triple fuel started deadline : 0 <= a_byte_count a ->
  triple env [] at_rest
    (st_finally (st_try (traffic fuel a started deadline) soak_failed soak_handler) (soak_finally started))
    (fun _ => run_end) (fun _ => finished).
Proof.
  intros Hn.
  assert (Ht : triple env [] at_rest (st_try (traffic fuel a started deadline) soak_failed soak_handler)
    (fun _ s k => passed s k \/ stopped s k /\ r_status (s_report s) <> "passed") (fun _ => stopped)).
  { eapply triple_try with (R := fun _ => stopped); [|done|].
    - eapply triple_weaken; [by apply traffic_triple|done|by left|done].
    - intros e _. unfold soak_handler. apply triple_modify. intros s k Hs. right. split; [by apply stopped_same|].
      simpl. by destruct (is_a _ e). }
  eapply triple_finally; [exact Ht| |intros e; apply soak_finally_stopped].
  intros u s k [Hs|[Hs Hne]].
  - pose proof (soak_finally_passed started s k Hs) as H. destruct (soak_finally started env ([] ++ k) s) as [[s' [v|e]] n];
      [split; [by apply passed_finished|done]|done].
  - pose proof (soak_finally_stopped started s k Hs) as H.
    pose proof (soak_finally_status started (r_status (s_report s)) s k eq_refl) as Hst.
    destruct (soak_finally started env ([] ++ k) s) as [[s' [v|e]] n]; [|done].
    split; [done|]. intros E. by rewrite Hst in E.
Qed.
End Traffic.

Lemma length_echoes_exact env a k : exact_echoes env a k <= blen (echoes k).
Proof.
  induction k as [|c k IH] using rev_ind; [done|]. unfold exact_echoes, echoes in *.
  rewrite scan_snoc, List.filter_app, blen_app. unfold exact_step at 1.
  assert (0 <= blen (List.filter is_echo [c])) by apply blen_nonneg.
  destruct c as [| | | | | |count slow seed| |]; simpl in *; try lia.
  unfold blen at 2. simpl. destruct (env k (Echo count slow seed)) as [e|e]; [destruct (_ =? _)|]; lia.
Qed.

Lemma validate_Ok a a' : validate a = Ok a' ->
  a' = lower_device a /\ 1 <= a_byte_count a' <= 262144 /\ 1 <= a_duration a' <= 3600.
Proof.
  unfold validate. intros (t & _ & H)%bind_Ok. rewrite !raise_when_bind, bind_unit in H.
  destruct H as (_ & _ & _ & Hf & Ha). apply (proj1 (mret_Ok _ _)) in Ha. subst a'. apply for_each_Ok in Hf.
  rewrite !Forall_cons in Hf. destruct Hf as (H1 & H2 & _). apply raise_when_Ok in H1, H2. breflect. done.
Qed.

(** The state in which the run begins. *)
Lemma first_state_rest env a : at_rest env a first_state [].
Proof. split; [|done]. split; simpl; unfold completed; simpl; lia || done. Qed.

Lemma run_triple env fuel a a' : validate a = Ok a' ->
  triple env [] (fun s k => s = first_state /\ k = []) (run fuel a)
    (fun r s k => finished env a' s k /\ (r = 0 -> passed env a' s k) /\ (r = 0 \/ r = 1)) (fun _ => finished env a').
Proof.
  intros Hv. destruct (validate_Ok _ _ Hv) as (_ & Hn & _). unfold run. rewrite Hv.
  set (I := fun s k => at_rest env a' s k /\ s_peer s = None).
  assert (HI : forall s k, I s k -> finished env a' s k).
  { intros s k [Hs Hp]. split; [by apply at_rest_stopped|]. by apply Hs. }
  assert (Hk : forall A (m : soak A), keeps env [] I m -> triple env [] I m (fun _ => I) (fun _ => finished env a')).
  { intros A m Hm. eapply triple_weaken; [exact Hm|done|done|intros; by apply HI]. }
  assert (Hplain : forall s k c, plain c = true -> I s k -> I s (k ++ [c])).
  { intros s k c Hc [Hs Hp]. split; [by apply at_rest_plain|done]. }
  assert (Hsame : forall f s k, same_counts f -> I s k -> I (f s) k).
  { intros f s k Hf [Hs Hp]. split; [by apply at_rest_same|]. destruct (Hf s) as (_ & _ & _ & _ & ->). done. }
  eapply triple_bind with (R := fun x s k => I s k /\ x = a').
  { apply triple_pure. intros s k [-> ->]. split; [|done]. split; [apply first_state_rest|done]. }
  intros x. eapply triple_bind with (R := fun _ s k => I s k /\ x = a').
  { intros s k [Hs ->]. pose proof (Hk _ (st_ask (CreateOutput (a_output a'))) ltac:(keeps_tac; by apply Hplain) s k Hs) as H.
    by destruct (st_ask (CreateOutput (a_output a')) env ([] ++ k) s) as [[s' [v|e]] n]. }
  intros ?. assert (Hx : forall A (m : args -> soak A) Q, triple env [] I (m a') Q (fun _ => finished env a') ->
    triple env [] (fun s k => I s k /\ x = a') (m x) Q (fun _ => finished env a')).
  { intros A m Q Hm s k [Hs ->]. by apply Hm. }
  apply (Hx _ (fun a0 => started ← st_ask Now; _)). clear Hx.
  eapply triple_bind with (R := fun _ => I); [apply Hk; keeps_tac; by apply Hplain|]. intros started.
  eapply triple_bind with (R := fun _ => I).
  { apply Hk. unfold save. keeps_tac; (by apply Hplain) || (by apply Hsame). }
  intros ?. eapply triple_bind with (R := fun _ => run_end env a').
  { eapply triple_weaken; [by apply guarded_triple; lia|by intros s k [? _]|done|done]. }
  intros ?. eapply triple_bind with (R := fun s0 s k => run_end env a' s k /\ s = s0); [by apply triple_get|].
  intros s0. apply triple_ret. intros s k [[Hf Hp] ->]. split; [done|]. case_bool_decide as Hs; split; auto; lia.
Qed.

(** ** The run ends *)
Section Ending.
Context (env : environment soak_ret) (t : list soak_call -> Z).
Hypothesis clock : forall h, env h Now = Ok (t h).
Hypothesis clock_forward : forall h n, t h <= t (h ++ n).
Hypothesis clock_advances : forall h n, t h < t (h ++ Now :: n).
Hypothesis real_exceptions : forall h c e, env h c = Raise e -> e <> OutOfFuel.

Ltac soak_ends := st_ends_tac; try (by intros ? ?; apply real_exceptions).

Lemma validate_channel_ends c : raises (fun e => e <> OutOfFuel) (validate_channel c).
Proof. unfold validate_channel. raises_tac. Qed.

Lemma check_diagnostics_ends value previous : raises (fun e => e <> OutOfFuel) (check_diagnostics value previous).
Proof. unfold check_diagnostics. raises_tac. Qed.

Lemma ditem_ends {A} (d : dict A) k : raises (fun e => e <> OutOfFuel) (ditem d k).
Proof. by apply ditem_raises. Qed.

Lemma first_channel_ends d : raises (fun e => e <> OutOfFuel) (first_channel d).
Proof. unfold first_channel. raises_tac. Qed.

#[local] Hint Resolve validate_channel_ends check_diagnostics_ends ditem_ends first_channel_ends : raises.

Lemma soak_turn_ends a started deadline h : st_ends env h (soak_turn a started deadline).
Proof. unfold soak_turn, connect_peer, open_session, one_batch, save, diagnostics, close_session. soak_ends. Qed.

Lemma soak_turn_advances a started deadline h s s' n :
  soak_turn a started deadline env h s = (s', Ok None, n) -> t h < t (h ++ n) /\ t h < deadline.
Proof.
  unfold soak_turn. unfold mbind at 1, st_mbind at 1, st_bind at 1, st_ask at 1, st_io at 1, ask at 1.
  rewrite clock. destruct (Z.ltb_spec (t h) deadline) as [Hlt|].
  - match goal with |- (match ?x with _ => _ end) = _ -> _ => destruct x as [[s2 r] k] end.
    intros [= _ _ <-]. split; [apply clock_advances|done].
  - intros [=].
Qed.

Lemma soak_loop_ends a started deadline fuel h :
  1 <= Z.of_nat fuel -> deadline - t h + 1 < Z.of_nat fuel -> st_ends env h (st_loop fuel (soak_turn a started deadline)).
Proof.
  revert h. induction fuel as [|fuel IH]; intros h H1 Hf; [lia|]. cbn [st_loop].
  apply st_ends_bind_at; [apply soak_turn_ends|]. intros o s s1 n Ho. destruct o as [[]|].
  - by apply st_ends_pure, raises_ok.
  - apply soak_turn_advances in Ho as [Ha Hd]. apply IH; lia.
Qed.

Lemma validate_ends a : raises (fun e => e <> OutOfFuel) (validate a).
Proof. unfold validate, validate_target, IPv4Address, parse_octet. raises_tac. Qed.

Lemma run_ends fuel a h : a_duration a * second + 1 < Z.of_nat fuel -> st_ends env h (run fuel a).
Proof.
  intros Hf. unfold run. apply st_ends_bind_at; [apply st_ends_pure, validate_ends|].
  intros a' s s1 n Ha. assert (Hd : a_duration a' = a_duration a /\ 1 <= a_duration a').
  { unfold st_pure in Ha. injection Ha as _ Ha _. apply validate_Ok in Ha as (-> & _ & H). split; [done|lia]. }
  apply st_ends_bind; [soak_ends|intros h1 ?].
  apply st_ends_bind_at; [soak_ends|]. intros started s2 s3 n2 Hnow.
  assert (started = t h1) as ->.
  { unfold st_ask, st_io, ask in Hnow. rewrite clock in Hnow. by injection Hnow as _ <- _. }
  apply st_ends_bind_at; [unfold save; soak_ends|]. intros _ s4 s5 n3 _.
  apply st_ends_bind; [|intros; soak_ends].
  apply st_ends_finally; [|intros; unfold soak_finally, save; soak_ends].
  apply st_ends_try; [|intros; unfold soak_handler; soak_ends].
  unfold traffic. apply st_ends_bind; [|intros; unfold close_session; soak_ends].
  destruct Hd as [Ed Hd]. rewrite <- Ed in Hf. unfold second in *. apply soak_loop_ends; [lia|]. pose proof (clock_forward h1 n2). pose proof (clock_forward (h1 ++ n2) n3). lia.
Qed.
End Ending.

(** ** Properties *)

(** Diagnostics that are accepted hold complete groups of counters, each an integer in its range, with
    the minima below the current values and the peaks within the queue size; compared with earlier accepted
    diagnostics the samples and the lifetime counters have not fallen and the memory minima have not risen. *)
Theorem diagnostics_sound value previous out :
  check_diagnostics value previous = Ok out -> sound_diagnostics previous out.
Proof. apply check_diagnostics_Ok. Qed.

(** C24: Whatever happens during a soak run, invalid arguments make no call at all; otherwise the report
    counts whole batches only, its byte count is their number times the batch size, at least so many echoes
    came back exact, the echoes made are the first batches in order with their own seeds, and no session is
    left open; a run that returns 0 reports a pass, has completed at least one batch, and made no other echo. *)
Theorem soak_outcome env fuel a :
  let '(s, r, n) := st_run (run fuel a) first_state env in
  match validate a with
  | Raise e => r = Raise e /\ n = []
  | Ok a' =>
      r_exact_bytes (s_report s) = a_byte_count a' * completed s /\ completed s <= exact_echoes env a' n /\
      (exists d, 0 <= d <= 1 /\ echoes n = echo_call a' <$> seqZ 0 (completed s + d)) /\
      session_open env n = false /\ (forall z, r = Ok z -> z = 0 \/ z = 1) /\
      (r = Ok 0 -> r_status (s_report s) = "passed" /\ 1 <= completed s /\
         echoes n = echo_call a' <$> seqZ 0 (completed s) /\ exact_echoes env a' n = completed s)
  end.
Proof.
  unfold st_run. destruct (run fuel a env [] first_state) as [[s r] n] eqn:E. destruct (validate a) as [a'|e] eqn:Hv.
  2:{ unfold run in E. rewrite Hv in E. by injection E as <- <- <-. }
  pose proof (run_triple env fuel a a' Hv first_state [] (conj eq_refl eq_refl)) as H. cbn [app] in H. rewrite E in H.
  assert (Hf : finished env a' s n) by (destruct r; [apply H|done]).
  destruct Hf as [([C1 C2 C3 _] & Hd & Hx) Ho]. split_and!; [done..| |].
  - intros z ->. by destruct H as (_ & _ & Hz).
  - intros ->. destruct H as (_ & Hp & _). destruct (Hp eq_refl) as (([_ _ _ _] & He & Hx') & _ & Hc & Hs).
    split; [done|]. split; [lia|]. split; [done|]. pose proof (length_echoes_exact env a' n) as Hl. rewrite He in Hl.
    unfold blen in Hl. rewrite length_fmap, length_seqZ in Hl. lia.
Qed.

(** A soak run ends: with a clock that advances from one reading to the next, a fuel of one more turn
    than the selected duration has nanoseconds is never used up. *)
Theorem soak_terminates (env : environment soak_ret) (t : list soak_call -> Z) fuel a s r n :
  (forall h, env h Now = Ok (t h)) -> (forall h n, t h <= t (h ++ n)) -> (forall h n, t h < t (h ++ Now :: n)) ->
  (forall h c e, env h c = Raise e -> e <> OutOfFuel) ->
  a_duration a * second + 1 < Z.of_nat fuel -> st_run (run fuel a) first_state env = (s, r, n) -> r <> Raise OutOfFuel.
Proof.
  intros Hc Hf Ha Hr Hfuel H -> . by eapply (run_ends env t Hc Hf Ha Hr fuel a [] Hfuel) in H.
Qed.

(** ** The theorems on concrete inputs *)
Definition demo_diagnostics : dict json :=
  ((fun k => (k, JInt 100)) <$> base_fields) ++ ((fun k => (k, JInt 3)) <$> uart_fields) ++ [("lwip_free", JNull)].

Lemma diagnostics_sound_witness :
  check_diagnostics demo_diagnostics demo_diagnostics = Ok demo_diagnostics /\
  sound_diagnostics demo_diagnostics demo_diagnostics.
Proof.
  split; [vm_compute; reflexivity|]. apply (diagnostics_sound demo_diagnostics demo_diagnostics). vm_compute. reflexivity.
Defined.

Definition demo_args : args := {|
  a_address := "192.168.7.1"; a_device_id := "503533303030ABCD"; a_board := "nano_rp2040_connect";
  a_firmware_sha256 := "0123456789abcdef0123456789abcdef0123456789abcdef0123456789abcdef"; a_firmware := "application";
  a_duration := 2; a_byte_count := 4; a_batch_timeout := 5; a_reconnect_every := 2; a_seed := 0;
  a_output := "soak.json"; a_diagnostics := false |}.

(** Every call takes a tenth of a second; the device counts the bytes of the session it is in. *)
Definition demo_clock (h : list soak_call) : Z := 100000000 * blen h.

Definition session_bytes (h : list soak_call) : Z :=
  scan (fun _ n c => match c with OpenPeer _ _ _ _ _ _ => 0 | Echo count _ _ => n + count | _ => n end) 0 h.

Definition demo_env : environment soak_ret := fun h c =>
  match c with
  | Now => Ok (demo_clock h)
  | CurrentVersion => Ok "0.3.0"
  | OpenPeer _ _ _ _ _ _ => Ok [("boot_id", JStr "0123456789abcdef")]
  | Command _ _ => Ok [("backend_rx_bytes", JInt (session_bytes h)); ("backend_tx_bytes", JInt (session_bytes h));
                       ("pending_to_backend", JInt 0); ("pending_to_peer", JInt 0)]
  | Echo count _ _ => Ok {| e_bytes := count; e_seconds := 1 |}
  | CreateOutput _ | Save _ | FinishPeer | ClosePeer => Ok tt
  end.

(** Two batches fit the two seconds, in one session. *)
Example demo_run_passes :
  let '(s, r, n) := st_run (run 50 demo_args) first_state demo_env in
  r = Ok 0 /\ completed s = 2 /\ r_exact_bytes (s_report s) = 8 /\ r_completed_sessions (s_report s) = 1.
Proof. vm_compute. done. Qed.

Lemma soak_terminates_witness : exists s r n,
  st_run (run (Z.to_nat 2000000002) demo_args) first_state demo_env = (s, r, n) /\ r <> Raise OutOfFuel.
Proof.
  destruct (st_run (run (Z.to_nat 2000000002) demo_args) first_state demo_env) as [[s r] n] eqn:E.
  exists s, r, n. split; [reflexivity|].
  refine (soak_terminates demo_env demo_clock (Z.to_nat 2000000002) demo_args s r n _ _ _ _ _ E).
  - done.
  - intros h k. unfold demo_clock. rewrite blen_app. pose proof (blen_nonneg k). lia.
  - intros h k. unfold demo_clock. rewrite blen_app. unfold blen at 3. simpl. lia.
  - intros h c e. by destruct c.
  - unfold demo_args, second. simpl. lia.
Defined.
