(* ===== verification/Sockets.v ===== *)
(** * Sockets and the monotonic clock

    The calls the device tools make: one TCP connection or one raw serial port ([OpenSerial] opens and
    configures it, [Recv] and [Send] are then [os.read] and [os.write]), [select], and
    [time.monotonic]. Instants and timeouts are nanoseconds. What was sent and
    received on a run is read off its calls and the environment's answers. No program makes the call
    [Flushed data]: its answer is what only the transport knows, how many bytes of [data] it had put on
    the wire when [sendall(data)] raised. *)

From stdpp Require Import base tactics list list_numbers strings.
From Stdlib Require Import ZArith Lia.
From S2P Require Import Prelude.
From S2P Require Import PyBytes.
From S2P Require Import Effects.

Local Open Scope Z_scope.

Inductive sock_call :=
| Connect (address : string) (port timeout : Z)
| OpenSerial (path : string)
| SetTimeout (timeout : Z)
| SetBlocking (blocking : bool)
| SendAll (data : bytes)
| Send (data : bytes)
| Recv (count : Z)
| Select (read write : bool) (timeout : Z)
| ShutdownWrite
| Fileno
| CloseSocket
| Monotonic
| Pause (duration : Z)
| Flushed (data : bytes).

Definition sock_ret (c : sock_call) : Type :=
  match c with
  | Recv _ => bytes
  | Send _ | Fileno | Monotonic | Flushed _ => Z
  | Select _ _ _ => bool * bool
  | _ => unit
  end.

Abbreviation sio := (io sock_ret).

(** Documented behaviour of the socket: [recv(n)] returns at most [n] bytes and [send(data)] accepts
    between none and all of its bytes. *)
Class Socket (env : environment sock_ret) : Prop := {
  recv_bounded : forall h n b, env h (Recv n) = Ok b -> blen b <= n;
  send_bounded : forall h d k, env h (Send d) = Ok k -> 0 <= k <= blen d;
  real_socket : forall h c e, env h c = Raise e -> e <> OutOfFuel }.

(** A clock whose readings [t] never go back and advance from one reading to the next. *)
Class Clock (env : environment sock_ret) (t : list sock_call -> Z) : Prop := {
  clock_reads : forall h, env h Monotonic = Ok (t h);
  clock_forward : forall h n, t h <= t (h ++ n);
  clock_advances : forall h n, t h < t (h ++ Monotonic :: n) }.

(** Walk a program whose outcome is never the artificial end of a loop. *)
Lemma ends_ask env c `{!Socket env} : fails_with env (fun e => e <> OutOfFuel) (ask c).
Proof. apply fails_ask. intros h e. apply real_socket. Qed.

Ltac ends_tac := repeat first
  [ match goal with |- fails_with ?env _ (ask ?c) => exact (ends_ask env c) end
  | fails_step; cbn beta iota ].

(** The bytes of a [sendall] that raised that were sent all the same, some first part of them *)
Definition flushed (env : environment sock_ret) (h : list sock_call) (d : bytes) : bytes :=
  match env h (Flushed d) with Ok k => take (Z.to_nat k) d | Raise _ => [] end.

(** The bytes one call put on the wire, and took from it. *)
Definition sent_by (env : environment sock_ret) (h : list sock_call) (c : sock_call) : bytes :=
  match c with
  | SendAll d => if is_ok (env h (SendAll d)) then d else flushed env h d
  | Send d => match env h (Send d) with Ok k => take (Z.to_nat k) d | Raise _ => [] end
  | _ => []
  end.

Definition received_by (env : environment sock_ret) (h : list sock_call) (c : sock_call) : bytes :=
  match c with
  | Recv n => match env h (Recv n) with Ok b => b | Raise _ => [] end
  | _ => []
  end.

(** A byte stream accumulated over a run. *)
Fixpoint stream (f : list sock_call -> sock_call -> bytes) (h n : list sock_call) : bytes :=
  match n with [] => [] | c :: n => f h c ++ stream f (h ++ [c]) n end.

Definition sent (env : environment sock_ret) : list sock_call -> list sock_call -> bytes :=
  stream (sent_by env).
Definition received (env : environment sock_ret) : list sock_call -> list sock_call -> bytes :=
  stream (received_by env).

Lemma stream_app f h n1 n2 : stream f h (n1 ++ n2) = stream f h n1 ++ stream f (h ++ n1) n2.
Proof.
  revert h. induction n1 as [|c n1 IH]; intros h; simpl; [by rewrite app_nil_r|].
  rewrite IH, <- !app_assoc. done.
Qed.

Lemma sent_app env h n1 n2 : sent env h (n1 ++ n2) = sent env h n1 ++ sent env (h ++ n1) n2.
Proof. apply stream_app. Qed.

Lemma received_app env h n1 n2 : received env h (n1 ++ n2) = received env h n1 ++ received env (h ++ n1) n2.
Proof. apply stream_app. Qed.

Lemma sent_one env h c : sent env h [c] = sent_by env h c.
Proof. apply app_nil_r. Qed.

Lemma received_one env h c : received env h [c] = received_by env h c.
Proof. apply app_nil_r. Qed.

Lemma sent_by_all (env : environment sock_ret) h d : Ok tt = env h (SendAll d) -> sent_by env h (SendAll d) = d.
Proof. intros H. simpl. by destruct (env h (SendAll d)). Qed.

(** [with socket.create_connection(...) as connection: body] *)
Definition with_connection {A} (address : string) (port timeout : Z) (body : sio A) : sio A :=
  _ ← ask (Connect address port timeout);
  try_finally body (ask CloseSocket).

(** The calls that carry no data *)
Definition silent (c : sock_call) : bool :=
  match c with SendAll _ | Send _ | Recv _ => false | _ => true end.

Lemma sent_silent env h n : Forall (fun c => silent c = true) n -> sent env h n = [].
Proof.
  intros Hn. revert h. unfold sent. induction Hn as [|c n Hc Hn IH]; intros h; simpl; [done|].
  rewrite IH. by destruct c.
Qed.

Lemma received_silent env h n : Forall (fun c => silent c = true) n -> received env h n = [].
Proof.
  intros Hn. revert h. unfold received. induction Hn as [|c n Hc Hn IH]; intros h; simpl; [done|].
  rewrite IH. by destruct c.
Qed.

Lemma recv_after env h p k b : Forall (fun c => silent c = true) p -> env (h ++ p) (Recv k) = Ok b ->
  received env h (p ++ [Recv k]) = b /\ sent env h (p ++ [Recv k]) = [].
Proof.
  intros Hp Hb. rewrite received_app, sent_app, received_silent, sent_silent, received_one, sent_one by done.
  simpl. by rewrite Hb.
Qed.

Lemma with_connection_Ok {A} env h address port timeout (body : sio A) a n :
  runs env h (with_connection address port timeout body) (Ok a) n ->
  exists k, n = Connect address port timeout :: k ++ [CloseSocket] /\
    runs env (h ++ [Connect address port timeout]) body (Ok a) k.
Proof.
  unfold with_connection. intros (u & n1 & n2 & H1 & H2 & ->)%runs_bind_Ok. runs_step.
  apply runs_finally in H2 as (q & r1 & m1 & m2 & H2 & H3 & -> & Hr). repeat runs_step. subst q.
  destruct (env _ CloseSocket); [|done]. subst r1. by exists m1.
Qed.

(** Silent calls around a run leave its streams as they are. *)
Lemma streams_between env h p n q :
  Forall (fun c => silent c = true) p -> Forall (fun c => silent c = true) q ->
  received env h (p ++ n ++ q) = received env (h ++ p) n /\ sent env h (p ++ n ++ q) = sent env (h ++ p) n.
Proof.
  intros Hp Hq. rewrite !received_app, !sent_app, !(received_silent _ _ p), !(sent_silent _ _ p),
    !(received_silent _ _ q), !(sent_silent _ _ q), !app_nil_r by done. done.
Qed.

(** Put the calls of a run in one list. *)
Ltac calls_norm := repeat rewrite <- ?app_assoc, ?app_nil_r in *; cbn [app] in *.

(** A nonempty chunk read after silent calls is a turn of the loop below. *)
Lemma chunk_after env h p k data chunk count : Socket env ->
  Forall (fun c => silent c = true) p -> Ok chunk = env (h ++ p) (Recv (count - blen data)) ->
  bool_decide (chunk = []) = false -> k = p ++ [Recv (count - blen data)] ->
  data ++ chunk = data ++ received env h k /\ received env h k <> [] /\ blen (data ++ chunk) <= count /\
  sent env h k = [].
Proof.
  intros Hs Hp Hc Hne%bool_decide_eq_false ->. symmetry in Hc. pose proof (recv_bounded _ _ _ Hc).
  destruct (recv_after env h p _ chunk Hp Hc) as [-> ->]. rewrite blen_app. split_and!; [done..|lia|done].
Qed.

(** ** Reading exactly [count] bytes

    The three tools read a fixed number of bytes with the same loop: a turn checks the deadline, sets
    the timeout, and appends one nonempty chunk of at most the missing bytes. [Reads turn] states what
    such a turn does; the loop over it is correct for every such turn. *)
Definition read_all (turn : bytes -> sio bytes) (count : Z) : sio bytes :=
  io_loop (S (Z.to_nat count)) (fun data =>
    if blen data <? count then data ← turn data; mret (inl data) else mret (inr data)) [].

Class Reads (env : environment sock_ret) (count : Z) (turn : bytes -> sio bytes) : Prop := {
  reads_chunk : forall data h data' n, blen data < count -> runs env h (turn data) (Ok data') n ->
    data' = data ++ received env h n /\ received env h n <> [] /\ blen data' <= count /\ sent env h n = [];
  reads_error : forall data, fails_with env (fun e => e <> OutOfFuel) (turn data) }.

Section ReadAll.
Context (env : environment sock_ret) (count : Z) (turn : bytes -> sio bytes) `{!Reads env count turn}.

Lemma read_loop fuel data h r n :
  blen data <= count -> count - blen data < Z.of_nat fuel ->
  runs env h (io_loop fuel (fun data =>
    if blen data <? count then data ← turn data; mret (inl data) else mret (inr data)) data) r n ->
  r <> Raise OutOfFuel /\
  forall out, r = Ok out -> out = data ++ received env h n /\ blen out = count /\ sent env h n = [].
Proof.
  revert data h r n. induction fuel as [|fuel IH]; intros data h r n Hd Hf; [lia|]. cbn [io_loop].
  destruct (Z.ltb_spec (blen data) count) as [Hlt|Hge].
  - intros [(e & H & ->)|(o & n1 & n2 & H1 & H2 & ->)]%runs_bind.
    + apply runs_bind in H as [(e' & H & [= ->])|(d & ? & ? & H & H2 & ->)]; [|by repeat runs_step].
      split; [|done]. intros [= ->]. exact (reads_error _ _ _ _ H eq_refl).
    + apply runs_bind_Ok in H1 as (d & m1 & m2 & H1 & H3 & ->). repeat runs_step. simplify_eq.
      rewrite app_nil_r in *. apply reads_chunk in H1 as (-> & Hne & Hle & Hsent); [|done].
      rewrite blen_app in *. assert (0 < blen (received env h m1)).
      { destruct (received env h m1); [done|]. unfold blen. simpl. lia. }
      eapply IH in H2 as [Ho Hr]; [|rewrite blen_app; lia..]. split; [done|]. intros out ->.
      destruct (Hr out eq_refl) as (-> & Hl & Hs). rewrite received_app, sent_app, Hsent, Hs, app_assoc. done.
  - intros [(e & H & ->)|(o & n1 & n2 & H1 & H2 & ->)]%runs_bind; repeat runs_step; simplify_eq;
      repeat runs_step. subst r. split; [discriminate|]. intros out [= <-]. simpl.
    rewrite app_nil_r. split_and!; [done|lia|done].
Qed.

Lemma read_all_spec h r n : 0 <= count -> runs env h (read_all turn count) r n ->
  r <> Raise OutOfFuel /\
  forall out, r = Ok out -> out = received env h n /\ blen out = count /\ sent env h n = [].
Proof. intros Hc H. eapply (read_loop (S (Z.to_nat count)) []) in H; [done|done|unfold blen; simpl; lia]. Qed.
End ReadAll.

(** ** A peer

    A concrete environment for examples: the peer answers every message at once, knowing the calls made
    before it, and each call takes a nanosecond. [initial] is what it sends by itself; with [eof] it
    closes after its last byte, otherwise further reads time out. *)
Definition peer_clock (h : list sock_call) : Z := Z.of_nat (length h).

Section Peer.
Context (eof : bool) (initial : bytes) (reply : list sock_call -> bytes -> bytes).

Definition peer_step (s : bytes * list sock_call) (c : sock_call) : bytes * list sock_call :=
  let '(pending, before) := s in
  (match c with
   | Send d | SendAll d => pending ++ reply before d
   | Recv n => drop (Z.to_nat n) pending
   | _ => pending
   end, before ++ [c]).

Definition peer_pending (h : list sock_call) : bytes := fst (foldl peer_step (initial, []) h).

Definition talk_env : environment sock_ret := fun h c =>
  match c with
  | Monotonic => Ok (peer_clock h)
  | Recv n =>
      if n <? 0 then Raise (ValueError "negative buffersize in recv")
      else if bool_decide (peer_pending h = []) then if eof then Ok [] else Raise (TimeoutError "timed out")
      else Ok (take (Z.to_nat n) (peer_pending h))
  | Send d => Ok (blen d)
  | Select _ _ _ => Ok (negb (bool_decide (peer_pending h = [])), true)
  | Fileno => Ok 3
  | Flushed _ => Ok 0
  | Connect _ _ _ | OpenSerial _ | SetTimeout _ | SetBlocking _ | SendAll _ | ShutdownWrite | CloseSocket | Pause _ => Ok tt
  end.

#[export] Instance talk_socket : Socket talk_env.
Proof.
  constructor; simpl.
  - intros h n b. destruct (Z.ltb_spec n 0); [done|].
    case_bool_decide; [destruct eof; [by intros [= <-]|done]|]. intros [= <-].
    unfold blen. rewrite length_take. lia.
  - intros h d k [= <-]. pose proof (blen_nonneg d). lia.
  - intros h c e. destruct c; simpl; try done. repeat case_match; intros; by simplify_eq.
Qed.

#[export] Instance talk_has_clock : Clock talk_env peer_clock.
Proof. constructor; intros; unfold peer_clock; simpl; rewrite ?length_app; simpl; [done|lia|lia]. Qed.
End Peer.

(** The same peer when its answer depends on the message alone. *)
Definition peer_env (eof : bool) (initial : bytes) (reply : bytes -> bytes) : environment sock_ret :=
  talk_env eof initial (fun _ => reply).

#[export] Instance peer_socket eof initial reply : Socket (peer_env eof initial reply).
Proof. apply talk_socket. Qed.

#[export] Instance peer_has_clock eof initial reply : Clock (peer_env eof initial reply) peer_clock.
Proof. apply talk_has_clock. Qed.
