(* ===== verification/Smoke.v ===== *)
(** * Prototype smoke checks: tools/smoke.py

    A record source, a byte echo and an HTTP identity page, each under one total deadline. *)

From stdpp Require Import base tactics list list_numbers strings.
From Stdlib Require Import ZArith Lia.
From S2P Require Import Prelude.
From S2P Require Import PyBytes.
From S2P Require Import PyText.
From S2P Require Import PyDict.
From S2P Require Import PyJson.
From S2P Require Import PyHttp.
From S2P Require Import Effects.
From S2P Require Import Ipv4.
From S2P Require Import Sockets.

Local Open Scope Z_scope.

(** ** Deadlines and connections *)
Definition remaining (deadline : Z) : sio Z :=
  now ← ask Monotonic;
  io_when (deadline - now <=? 0) (TimeoutError "total test deadline expired");;
  mret (deadline - now).

Definition connect {A} (address : string) (port deadline : Z) (body : sio A) : sio A :=
  seconds ← remaining deadline;
  with_connection address port seconds body.

Definition receive_turn (size deadline : Z) (data : bytes) : sio bytes :=
  chunk ← try_except
    (seconds ← remaining deadline; _ ← ask (SetTimeout seconds); ask (Recv (size - blen data)))
    (is_a KTimeoutError) (fun _ => io_raise (TimeoutError "; expected bytes, received"));
  io_when (bool_decide (chunk = [])) (VerificationError "EOF: expected bytes, received");;
  mret (data ++ chunk).

Definition receive_exact (size deadline : Z) : sio bytes := read_all (receive_turn size deadline) size.

(** ** Comparing bytes and records *)
Definition compare_bytes (actual expected : bytes) : result unit :=
  for_each (fun '(observed, wanted) =>
    raise_when (negb (bool_decide (observed = wanted))) (VerificationError "first mismatch at byte"))
    (zip actual expected);;
  raise_when (negb (blen actual =? blen expected)) (VerificationError "length mismatch at byte").

Definition record_fields : list field := [FS 4; FU 4; FU 4; FU 2; FU 2].

(** [bytes(i ^ (sequence & 255) for i in range(256))] *)
Definition record_pattern (sequence : Z) : bytes :=
  (fun i => z2b (Z.lxor i (Z.land sequence 255))) <$> range 0 256 1.

Definition verify_record (record : bytes) (sequence : Z) : result unit :=
  raise_when (negb (blen record =? 272)) (VerificationError "record: expected 272 bytes, observed");;
  ' (magic, (observed, (_, (size, (flags, _))))) ← unpack_exact LE record_fields (slice 0 16 record);
  raise_when (negb (bool_decide ((magic, observed, size, flags) = (ascii "PICO", Z.land sequence 0xffffffff, 256, 0))))
    (VerificationError "record: expected header, observed");;
  compare_bytes (drop 16 record) (record_pattern sequence).

(** ** Reports *)

(** [round(n / d, k)] in units of [10 ** -k], for [n * 10 ** k = num] and [d = den]: half to even *)
Definition round_half_even (num den : Z) : Z :=
  let q := num / den in
  let r := num mod den in
  if (2 * r <? den) || ((2 * r =? den) && Z.even q) then q else q + 1.

(** Elapsed time in microseconds and the rate in tenths of a byte per second. *)
Record report_result := { r_test : string; r_bytes : Z; r_seconds : Z; r_bytes_per_second : Z }.

Definition report (name : string) (byte_count start : Z) : sio report_result :=
  now ← ask Monotonic;
  let elapsed := now - start in
  mret {| r_test := name; r_bytes := byte_count; r_seconds := round_half_even elapsed 1000;
          r_bytes_per_second := round_half_even (byte_count * 10000000000) (Z.max elapsed 1) |}.

(** [except (...) as exc: raise VerificationError(...) from exc] *)
Definition reraise {A} (kinds : list exn_kind) (message : string) (m : sio A) : sio A :=
  try_except m (is_any kinds) (fun _ => io_raise (VerificationError message)).

(** ** Record source *)
Definition source (address : string) (records timeout port : Z) : sio report_result :=
  start ← ask Monotonic;
  let deadline := start + timeout in
  reraise [KTimeoutError; KOSError; KVerificationError] "source record"
    (connect address port deadline
      (io_fold (fun _ sequence =>
         record ← receive_exact 272 deadline;
         io_pure (verify_record record sequence)) tt (range 0 records 1)));;
  report "source" (records * 272) start.

(** ** Byte echo *)
Definition echo_payload (byte_count : Z) : bytes :=
  (fun i => z2b (Z.land (Z.lxor (Z.lxor (i * 73) (Z.shiftr i 8)) (Z.shiftr i 16)) 255)) <$> range 0 byte_count 1.

Definition fragments : list Z := [1; 7; 255; 256; 1023].

Record echo_state := { e_sent : Z; e_received : Z; e_fragment : Z }.

Definition hundred_ms : Z := 100000000.
Definition ten_ms : Z := 10000000.

(** [try: m except BlockingIOError: v] *)
Definition or_blocked {A} (m : sio A) (v : A) : sio A := try_except m (is_a KBlockingIOError) (fun _ => mret v).

Definition echo_write (payload : bytes) (s : echo_state) : sio echo_state :=
  let size := nth (Z.to_nat (e_fragment s mod 5)) fragments 0 in
  count ← or_blocked (ask (Send (slice (e_sent s) (e_sent s + size) payload))) 0;
  mret {| e_sent := e_sent s + count; e_received := e_received s; e_fragment := e_fragment s + 1 |}.

Definition echo_read (payload : bytes) (s : echo_state) : sio echo_state :=
  data ← or_blocked (data ← ask (Recv 4096); mret (Some data)) None;
  match data with
  | None => mret s
  | Some data =>
      io_when (bool_decide (data = [])) (VerificationError "echo EOF after");;
      io_when (e_sent s <? e_received s + blen data) (VerificationError "unsolicited echo data at byte");;
      io_pure (compare_bytes data (slice (e_received s) (e_received s + blen data) payload));;
      mret {| e_sent := e_sent s; e_received := e_received s + blen data; e_fragment := e_fragment s |}
  end.

Definition echo_turn (payload : bytes) (byte_count deadline read_after : Z) (s : echo_state) :
    sio (echo_state + echo_state) :=
  if e_received s <? byte_count then
    now ← ask Monotonic;
    if (now <? read_after) && (e_sent s =? byte_count) then
      seconds ← remaining deadline;
      _ ← ask (Pause (Z.min ten_ms seconds));
      mret (inl s)
    else
      seconds ← remaining deadline;
      ' (readable, writable) ← ask (Select (negb (now <? read_after)) (negb (e_sent s =? byte_count))
                                     (Z.min hundred_ms seconds));
      s ← (if writable && (e_sent s <? byte_count) then echo_write payload s else mret s);
      s ← (if (readable : bool) then echo_read payload s else mret s);
      mret (inl s)
  else mret (inr s).

Definition echo (fuel : nat) (address : string) (byte_count timeout port : Z) (slow_read : bool) : sio report_result :=
  let payload := echo_payload byte_count in
  start ← ask Monotonic;
  let deadline := start + timeout in
  s ← reraise [KTimeoutError; KOSError] "echo: sent, received" (connect address port deadline (
    _ ← ask (SetBlocking false);
    now ← ask Monotonic;
    let read_after := now + (if slow_read then 150000000 else 0) in
    s ← io_loop fuel (echo_turn payload byte_count deadline read_after)
          {| e_sent := 0; e_received := 0; e_fragment := 0 |};
    seconds ← remaining deadline;
    _ ← ask (SetTimeout (Z.min hundred_ms seconds));
    extra ← try_except (ask (Recv 1)) (is_a KTimeoutError) (fun _ => mret []);
    io_when (negb (bool_decide (extra = []))) (VerificationError "unexpected extra byte at offset");;
    mret s));
  report "echo" (e_received s) start.

(** ** The identity page *)
Definition identity_request (address : string) : bytes :=
  ascii "GET /diagnostics HTTP/1.1" ++ crlf ++ ascii "Host: " ++ ascii address ++ crlf
  ++ ascii "Connection: close" ++ crlf ++ crlf.

Definition response_turn (deadline : Z) (response : bytes) : sio (bytes + bytes) :=
  seconds ← remaining deadline;
  _ ← ask (SetTimeout seconds);
  chunk ← ask (Recv (Z.min 512 (4097 - blen response)));
  if bool_decide (chunk = []) then mret (inr response)
  else
    io_when (4096 <? blen (response ++ chunk)) (VerificationError "identity response exceeds 4096-byte limit");;
    mret (inl (response ++ chunk)).

(** A dictionary with [bytes] keys *)
Fixpoint bget (d : list (bytes * bytes)) (key : bytes) : option bytes :=
  match d with
  | [] => None
  | (k, v) :: d => if bool_decide (k = key) then Some v else bget d key
  end.

Definition header_field (fields : list (bytes * bytes)) (line : bytes) : result (list (bytes * bytes)) :=
  ' (name, value) ← split_pair (ascii ":") line;
  let name := lower_bytes (strip name) in
  raise_when (bool_decide (is_Some (bget fields name))) (VerificationError "duplicate identity HTTP header");;
  mret (fields ++ [(name, strip value)]).

Section Identity.
Context `{!Json}.

Definition parse_identity (device_id board : string) (response : bytes) : result (dict json) :=
  ' (headers, body) ← split_pair (crlf ++ crlf) response;
  raise_when (negb (startswith (ascii "HTTP/1.1 200 ") (fst (split_once crlf headers))))
    (VerificationError "identity endpoint did not return HTTP 200");;
  raise_when (2048 <? blen body) (VerificationError "identity body exceeds 2048-byte limit");;
  fields ← foldM header_field [] (drop 1 (split crlf headers));
  length ← (if bool_decide (is_Some (bget fields (ascii "transfer-encoding"))) then Ok None
            else Some <$> py_int (default (ascii "-1") (bget fields (ascii "content-length"))));
  raise_when (negb (bool_decide (length = Some (blen body))))
    (VerificationError "identity response requires an exact Content-Length");;
  reported ← json_loads body;
  match reported with
  | JObj reported =>
      let observed := default (JStr "") (dget reported "device_id") in
      raise_when (match observed with JStr s => negb (bool_decide (lower s = lower device_id)) | _ => true end
          || negb (py_eq (jget reported "board") (JStr board)))
        (VerificationError "identity mismatch: expected , observed");;
      mret reported
  | _ => Raise (VerificationError "identity response is not an object")
  end.

Definition identity (address device_id board : string) (timeout port : Z) : sio (dict json) :=
  address ← io_pure (validate_target address);
  io_when (negb (fullmatch is_hex 16 device_id)) (ValueError "device ID must be exactly 16 hexadecimal digits");;
  now ← ask Monotonic;
  let deadline := now + timeout in
  reraise [KTimeoutError; KOSError; KValueError] "identity verification failed" (
    response ← connect address port deadline (
      seconds ← remaining deadline;
      _ ← ask (SetTimeout seconds);
      _ ← ask (SendAll (identity_request address));
      io_loop 4098 (response_turn deadline) []);
    io_pure (parse_identity device_id board response)).
End Identity.

(** ** Comparison *)
Lemma zip_all_equal (a b : bytes) :
  Forall (fun '(x, y) => x = y) (zip a b) -> length a = length b -> a = b.
Proof.
  revert b. induction a as [|x a IH]; intros [|y b]; simpl; try done. inversion 1; subst.
  intros [= Hl]. f_equal. by apply IH.
Qed.

Lemma zip_self (a : bytes) : Forall (fun '(x, y) => x = y) (zip a a).
Proof. induction a; simpl; by constructor. Qed.

Lemma compare_bytes_iff actual expected : compare_bytes actual expected = Ok tt <-> actual = expected.
Proof.
  unfold compare_bytes. rewrite bind_unit, for_each_Ok, raise_when_Ok, negb_false_iff, Z.eqb_eq. split.
  - intros [Hf Hl]. unfold blen in Hl. apply zip_all_equal; [|lia]. eapply Forall_impl; [exact Hf|].
    intros [x y]. rewrite raise_when_Ok, negb_false_iff. by intros ?%bool_decide_eq_true.
  - intros ->. split; [|done]. eapply Forall_impl; [apply zip_self|]. intros [x y] ->.
    by rewrite bool_decide_true.
Qed.

(** The record with a sequence number and an uptime. *)
Definition pico_record (sequence uptime : Z) : bytes :=
  ascii "PICO" ++ le_bytes 4 (Z.land sequence 0xffffffff) ++ le_bytes 4 uptime ++ le_bytes 2 256 ++ le_bytes 2 0
  ++ record_pattern sequence.

Lemma length_range a b : length (range a b 1) = Z.to_nat (b - a).
Proof. unfold range. rewrite length_fmap, length_seqZ. f_equal. rewrite Z.div_1_r. lia. Qed.

Lemma blen_record_pattern sequence : blen (record_pattern sequence) = 256.
Proof. reflexivity. Qed.

Lemma land_u32 z : 0 <= Z.land z 0xffffffff < 2 ^ 32.
Proof. change 0xffffffff with (Z.ones 32). rewrite Z.land_ones by lia. apply Z.mod_pos_bound. lia. Qed.

Lemma record_header sequence uptime : 0 <= uptime < 2 ^ 32 ->
  pack LE record_fields (ascii "PICO", (Z.land sequence 0xffffffff, (uptime, (256, (0, tt))))) =
  Ok (ascii "PICO" ++ le_bytes 4 (Z.land sequence 0xffffffff) ++ le_bytes 4 uptime ++ le_bytes 2 256 ++ le_bytes 2 0).
Proof.
  intros Hu. pose proof (land_u32 sequence) as Hs. revert Hs. generalize (Z.land sequence 0xffffffff).
  intros z Hz. unfold record_fields, pack, fencode. cbn [fst snd]. change (256 ^ Z.of_nat 4) with (2 ^ 32).
  rewrite !(proj2 (Z.leb_le 0 _)), !(proj2 (Z.ltb_lt _ _)) by lia. reflexivity.
Qed.

Lemma verify_record_iff record sequence :
  verify_record record sequence = Ok tt <->
  exists uptime, 0 <= uptime < 2 ^ 32 /\ record = pico_record sequence uptime.
Proof.
  unfold verify_record, pico_record. rewrite raise_when_bind, negb_false_iff, Z.eqb_eq. split.
  - intros [Hl (v & Hv & H)%bind_Ok]. apply (unpack_exact_iff LE record_fields) in Hv as [Hx Hp].
    destruct v as (magic & observed & uptime & size & flags & []).
    apply raise_when_bind in H as [Hh Hc]. apply negb_false_iff, bool_decide_eq_true in Hh.
    simplify_eq. apply compare_bytes_iff in Hc. destruct Hx as (_ & _ & Hu & _). exists uptime.
    split; [exact Hu|]. rewrite record_header in Hp by exact Hu. rewrite Ok_Ok in Hp.
    rewrite <- (take_drop 16 record), Hc, !app_assoc. rewrite !app_assoc in Hp. by rewrite Hp.
  - intros (uptime & Hu & ->). pose proof (record_header sequence uptime Hu) as Hp.
    set (header := _ ++ _ ++ _ ++ _ ++ _) in Hp.
    assert (Hh : blen header = 16).
    { unfold header, blen. rewrite !length_app, !length_le_bytes. done. }
    assert (E : forall r, ascii "PICO" ++ le_bytes 4 (Z.land sequence 0xffffffff) ++ le_bytes 4 uptime
      ++ le_bytes 2 256 ++ le_bytes 2 0 ++ r = header ++ r) by (intros; unfold header; by rewrite <- !app_assoc).
    rewrite E. clear E. split; [by rewrite blen_app, Hh, blen_record_pattern|].
    rewrite slice_app_l, <- Hh, slice_full by lia. apply bind_Ok.
    exists (ascii "PICO", (Z.land sequence 0xffffffff, (uptime, (256, (0, tt))))). split.
    + apply (unpack_exact_iff LE record_fields). split; [|exact Hp]. split; [done|]. split; [apply land_u32|]. split; [exact Hu|].
      repeat split; simpl; lia.
    + apply raise_when_bind. rewrite bool_decide_true by done. split; [done|]. apply compare_bytes_iff.
      unfold blen in Hh. assert (length header = 16%nat) as <- by lia. apply drop_app_length.
Qed.

(** ** Receiving *)
#[export] Instance receive_reads env size deadline `{!Socket env} : Reads env size (receive_turn size deadline).
Proof.
  constructor.
  - intros data h data' n Hlt (chunk & n1 & n2 & H1 & H2 & ->)%runs_bind_Ok.
    apply runs_try in H1 as [[H1 _]|(e & m1 & m2 & _ & _ & H1 & _)]; [|by runs_step].
    unfold remaining in H1. repeat runs_step. simplify_eq.
    eapply (chunk_after env h [Monotonic; SetTimeout (deadline - _)]); [done|by repeat constructor|..|done|].
    + calls_norm. done.
    + calls_norm. done.
  - intros data. unfold receive_turn, remaining. ends_tac.
Qed.

Lemma remaining_Ok env h deadline seconds n :
  runs env h (remaining deadline) (Ok seconds) n -> n = [Monotonic] /\ 0 < seconds /\
  env h Monotonic = Ok (deadline - seconds).
Proof.
  unfold remaining. intros H. repeat runs_step. simplify_eq. breflect. calls_norm.
  split; [done|]. split; [lia|]. match goal with H : Ok ?x = env h Monotonic |- _ => rewrite <- H end. f_equal. lia.
Qed.

Lemma connect_Ok {A} env h address port deadline (body : sio A) a n :
  runs env h (connect address port deadline body) (Ok a) n ->
  exists seconds k, n = [Monotonic; Connect address port seconds] ++ k ++ [CloseSocket] /\
    runs env (h ++ [Monotonic; Connect address port seconds]) body (Ok a) k.
Proof.
  unfold connect. intros (seconds & n1 & n2 & H1 & H2 & ->)%runs_bind_Ok.
  apply remaining_Ok in H1 as (-> & _ & _). apply with_connection_Ok in H2 as (k & -> & H2).
  rewrite <- app_assoc in H2. by exists seconds, k.
Qed.

Lemma reraise_Ok {A} env h kinds message (m : sio A) a n :
  runs env h (reraise kinds message m) (Ok a) n <-> runs env h m (Ok a) n.
Proof.
  unfold reraise. rewrite runs_try. split; [|by left].
  intros [[H _]|(e & n1 & n2 & _ & _ & H & _)]; [done|]. by runs_step.
Qed.

Lemma report_Ok env h name byte_count start rep n : runs env h (report name byte_count start) (Ok rep) n ->
  n = [Monotonic] /\ r_test rep = name /\ r_bytes rep = byte_count.
Proof. unfold report. intros H. repeat runs_step. by simplify_eq. Qed.

(** ** The record source *)
Definition u32_value (z : Z) : Prop := 0 <= z < 2 ^ 32.

Lemma source_loop env deadline `{!Socket env} l h u n :
  runs env h (io_fold (fun _ sequence =>
    record ← receive_exact 272 deadline; io_pure (verify_record record sequence)) tt l) (Ok u) n ->
  exists uptimes, length uptimes = length l /\ Forall u32_value uptimes /\
    received env h n = concat (zip_with pico_record l uptimes) /\ sent env h n = [].
Proof.
  revert h n. induction l as [|x l IH]; intros h n; cbn [io_fold].
  - intros H. runs_step. exists []. split_and!; [done|constructor|done|done].
  - intros ([] & n1 & n2 & H1 & H2 & ->)%runs_bind_Ok. apply IH in H2 as (ups & Hl & Hu & Hr & Hs).
    apply runs_bind_Ok in H1 as (record & m1 & m2 & H1 & H3 & ->).
    apply read_all_spec in H1 as [_ H1]; [|exact _|lia]. destruct (H1 _ eq_refl) as (-> & _ & Hs1).
    runs_step. symmetry in H. apply verify_record_iff in H as (up & Hup & Hrec).
    rewrite app_nil_r in *. exists (up :: ups). rewrite received_app, sent_app, Hr, Hs, Hs1, Hrec. simpl.
    split_and!; [by rewrite Hl|by constructor|done|done].
Qed.

(** A source check that reports success has received exactly the requested number of 272-byte
    records, each with its sequence number, the fixed header fields and the full byte pattern, in
    order and with nothing between them, has sent nothing, and reports 272 bytes per record. *)
Theorem source_receives_records env address records timeout port h rep n `{!Socket env} :
  0 <= records ->
  runs env h (source address records timeout port) (Ok rep) n ->
  r_bytes rep = records * 272 /\ sent env h n = [] /\
  exists uptimes, blen uptimes = records /\ Forall u32_value uptimes /\
    received env h n = concat (zip_with pico_record (range 0 records 1) uptimes).
Proof.
  intros Hn. unfold source. intros (start & n1 & n2 & H1 & H2 & ->)%runs_bind_Ok.
  apply (runs_ask env h Monotonic) in H1 as [_ ->]. apply runs_bind_Ok in H2 as (u & n1 & n3 & H2 & H3 & ->). apply report_Ok in H3 as (-> & _ & ->).
  apply reraise_Ok, connect_Ok in H2 as (s & k & -> & H2).
  apply source_loop in H2 as (ups & Hl & Hu & Hr & Hs); [|exact _].
  destruct (streams_between env h ([Monotonic] ++ [Monotonic; Connect address port s]) k ([CloseSocket] ++ [Monotonic]))
    as [E1 E2]; [by repeat constructor..|]. rewrite <- !app_assoc in *. rewrite E1, E2, Hs, Hr. split_and!; [done..|].
  exists ups. split_and!; [|done..]. unfold blen. rewrite Hl, length_range. lia.
Qed.

(** ** The echo *)
Lemma or_blocked_Ok {A} env h (m : sio A) v a n :
  runs env h (or_blocked m v) (Ok a) n ->
  runs env h m (Ok a) n \/ a = v /\ exists e, runs env h m (Raise e) n.
Proof.
  unfold or_blocked. intros [[H _]|(e & n1 & n2 & H & _ & H2 & ->)]%runs_try; [by left|].
  right. runs_step. rewrite app_nil_r. simplify_eq. eauto.
Qed.

Lemma blen_payload byte_count : 0 <= byte_count -> blen (echo_payload byte_count) = byte_count.
Proof. intros. unfold echo_payload, blen. rewrite length_fmap, length_range. lia. Qed.

Section Echo.
Context (env : environment sock_ret) (payload : bytes) `{!Socket env}.

(** What has gone out and come back so far are prefixes of the payload, the second no longer than the first. *)
Record echo_inv (h : list sock_call) (s : echo_state) (m : list sock_call) : Prop := {
  ei_order : 0 <= e_received s <= e_sent s;
  ei_bound : e_sent s <= blen payload;
  ei_sent : sent env h m = slice 0 (e_sent s) payload;
  ei_received : received env h m = slice 0 (e_received s) payload }.

Lemma echo_write_Ok s h s' n : 0 <= e_sent s <= blen payload ->
  runs env h (echo_write payload s) (Ok s') n ->
  e_received s' = e_received s /\ e_sent s <= e_sent s' <= blen payload /\
  received env h n = [] /\ sent env h n = slice (e_sent s) (e_sent s') payload.
Proof.
  intros Hs (count & n1 & n2 & H1 & H2 & ->)%runs_bind_Ok. runs_step. simplify_eq. simpl. rewrite app_nil_r.
  set (d := slice _ _ _) in H1. apply or_blocked_Ok in H1 as [H1|[-> [e H1]]];
    apply (runs_ask env h (Send d)) in H1 as [H1 ->]; symmetry in H1; rewrite sent_one, received_one; simpl; rewrite H1.
  - apply send_bounded in H1 as Hb. unfold d, blen, slice in Hb.
    rewrite length_take, length_drop in Hb. unfold blen in Hs.
    split; [done|]. split; [unfold blen; lia|]. split; [done|]. unfold d, slice. rewrite take_take. f_equal. lia.
  - rewrite Z.add_0_r, slice_empty. split_and!; [done|lia..|done|done].
Qed.

Lemma echo_read_Ok s h s' n : 0 <= e_received s <= e_sent s -> e_sent s <= blen payload ->
  runs env h (echo_read payload s) (Ok s') n ->
  e_sent s' = e_sent s /\ e_received s <= e_received s' <= e_sent s /\
  sent env h n = [] /\ received env h n = slice (e_received s) (e_received s') payload.
Proof.
  intros Hr Hs (data & n1 & n2 & H1 & H2 & ->)%runs_bind_Ok. apply or_blocked_Ok in H1 as [H1|[-> [e H1]]].
  - apply runs_bind_Ok in H1 as (d & m1 & m2 & H1 & H3 & ->). runs_step. simplify_eq.
    apply (runs_ask env h (Recv 4096)) in H1 as [H1 ->]. symmetry in H1. repeat runs_step. simplify_eq. simpl.
    rewrite sent_one, received_one. simpl. rewrite H1. breflect.
    match goal with H : Ok ?u = compare_bytes _ _ |- _ => destruct u; symmetry in H; apply compare_bytes_iff in H end.
    pose proof (blen_nonneg d). split_and!; [done|lia..|done|done].
  - runs_step. simplify_eq. apply runs_bind in H1 as [(e' & H1 & _)|(d & m1 & m2 & H1 & H3 & ->)]; [|by runs_step].
    apply (runs_ask env h (Recv 4096)) in H1 as [H1 ->]. symmetry in H1. rewrite app_nil_r, sent_one, received_one.
    simpl. rewrite H1, slice_empty. split_and!; [done|lia..|done|done].
Qed.

Lemma echo_inv_silent h s m k : echo_inv h s m -> Forall (fun c => silent c = true) k -> echo_inv h s (m ++ k).
Proof.
  intros [Ho Hb Hs Hr] Hk. split; [done|done|rewrite sent_app, (sent_silent _ _ k)|
    rewrite received_app, (received_silent _ _ k)]; by rewrite ?app_nil_r.
Qed.

Lemma echo_inv_write (w : bool) h s m s' k : echo_inv h s m ->
  runs env (h ++ m) (if w then echo_write payload s else mret s) (Ok s') k -> echo_inv h s' (m ++ k).
Proof.
  intros [Ho Hb Hs Hr] H. destruct w; [|runs_step; simplify_eq; by apply echo_inv_silent].
  apply echo_write_Ok in H as (E1 & E2 & E3 & E4); [|lia]. split; [lia|lia| |].
  - rewrite sent_app, Hs, E4. symmetry. apply slice_split; lia.
  - by rewrite received_app, Hr, E3, E1, app_nil_r.
Qed.

Lemma echo_inv_read (r : bool) h s m s' k : echo_inv h s m ->
  runs env (h ++ m) (if r then echo_read payload s else mret s) (Ok s') k -> echo_inv h s' (m ++ k).
Proof.
  intros [Ho Hb Hs Hr] H. destruct r; [|runs_step; simplify_eq; by apply echo_inv_silent].
  apply echo_read_Ok in H as (E1 & E2 & E3 & E4); [|lia..]. split; [lia|lia| |].
  - by rewrite sent_app, Hs, E3, E1, app_nil_r.
  - rewrite received_app, Hr, E4. symmetry. apply slice_split; lia.
Qed.

Lemma echo_turn_inv deadline read_after h s m o k :
  echo_inv h s m -> runs env (h ++ m) (echo_turn payload (blen payload) deadline read_after s) (Ok o) k ->
  match o with
  | inl s' => echo_inv h s' (m ++ k)
  | inr s' => echo_inv h s' (m ++ k) /\ blen payload <= e_received s'
  end.
Proof.
  intros HI. unfold echo_turn. destruct (Z.ltb_spec (e_received s) (blen payload)) as [Hlt|Hge].
  2:{ intros H. runs_step. simplify_eq. split; [by apply echo_inv_silent|done]. }
  intros (now & n1 & n2 & H1 & H2 & ->)%runs_bind_Ok. apply (runs_ask env (h ++ m) Monotonic) in H1 as [_ ->].
  rewrite app_assoc. rewrite <- app_assoc in H2. destruct (_ && _).
  all: apply runs_bind_Ok in H2 as (sec & n3 & n4 & [-> _]%remaining_Ok & H2 & ->).
  all: apply (echo_inv_silent h s m [Monotonic]) in HI; [|by repeat constructor].
  all: apply (echo_inv_silent h s _ [Monotonic]) in HI; [|by repeat constructor].
  all: rewrite app_assoc; rewrite <- app_assoc in H2; revert H2 HI; generalize ((m ++ [Monotonic]) ++ [Monotonic]);
    intros m' H2 HI.
  - repeat runs_step. simplify_eq. apply echo_inv_silent; [done|by repeat constructor].
  - apply runs_bind_Ok in H2 as ([readable writable] & n5 & n6 & H3 & H2 & ->).
    apply (runs_ask env _ (Select _ _ _)) in H3 as [_ ->].
    apply runs_bind_Ok in H2 as (s1 & n7 & n8 & H3 & H2 & ->).
    apply runs_bind_Ok in H2 as (s2 & n9 & n10 & H4 & H2 & ->). runs_step. simplify_eq.
    rewrite app_nil_r, (app_assoc m'), app_assoc. rewrite <- (app_assoc h) in H3. rewrite <- !(app_assoc h) in H4.
    eapply echo_inv_read; [|exact H4]. eapply echo_inv_write; [|exact H3].
    apply echo_inv_silent; [done|by repeat constructor].
Qed.
End Echo.

Lemma nothing_extra env h handled n :
  runs env h (try_except (ask (Recv 1)) handled (fun _ => mret [])) (Ok []) n ->
  received env h n = [] /\ sent env h n = [].
Proof.
  intros [[H _]|(e & n1 & n2 & H & _ & H2 & ->)]%runs_try; apply (runs_ask env h (Recv 1)) in H as [E ->].
  - rewrite received_one, sent_one. simpl. by rewrite <- E.
  - runs_step. rewrite app_nil_r, received_one, sent_one. simpl. by rewrite <- E.
Qed.

(** An echo check that reports success has put exactly the test payload on the wire, has received
    exactly the same bytes back and nothing more, and reports the byte count. *)
Theorem echo_round_trip env fuel address byte_count timeout port slow_read h rep n `{!Socket env} :
  0 <= byte_count ->
  runs env h (echo fuel address byte_count timeout port slow_read) (Ok rep) n ->
  sent env h n = echo_payload byte_count /\ received env h n = echo_payload byte_count /\
  r_bytes rep = byte_count.
Proof.
  intros Hc. unfold echo. set (payload := echo_payload byte_count).
  assert (Hl : blen payload = byte_count) by by apply blen_payload.
  intros (start & n1 & n2 & H1 & H2 & ->)%runs_bind_Ok. apply (runs_ask env h Monotonic) in H1 as [_ ->].
  apply runs_bind_Ok in H2 as (s & n1 & n3 & H2 & H3 & ->). apply report_Ok in H3 as (-> & _ & ->).
  apply reraise_Ok, connect_Ok in H2 as (sec & k & -> & H2).
  destruct (streams_between env h ([Monotonic] ++ [Monotonic; Connect address port sec]) k ([CloseSocket] ++ [Monotonic]))
    as [E1 E2]; [by repeat constructor..|]. rewrite <- !app_assoc in *. rewrite E1, E2. clear E1 E2.
  revert H2. generalize (h ++ [Monotonic] ++ [Monotonic; Connect address port sec]). clear h. intros h H.
  apply runs_bind_Ok in H as (u & n1 & n2 & H1 & H & ->). apply (runs_ask env h (SetBlocking false)) in H1 as [_ ->].
  apply runs_bind_Ok in H as (now & n1 & n3 & H1 & H & ->). apply (runs_ask env _ Monotonic) in H1 as [_ ->].
  apply runs_bind_Ok in H as (s1 & n4 & n5 & Hloop & H & ->). rewrite <- Hl in Hloop.
  rewrite <- app_assoc in Hloop.
  apply (runs_loop_inv env _ _ (echo_inv env payload h)
    (fun s m => echo_inv env payload h s m /\ blen payload <= e_received s)) in Hloop as [HI Hge].
  2:{ intros s0 m o k' HI Hk. apply echo_turn_inv in Hk; [|done|done]. by destruct o. }
  2:{ split; simpl; [lia|apply blen_nonneg|done..]. }
  apply runs_bind_Ok in H as (sec2 & n6 & n7 & [-> _]%remaining_Ok & H & ->).
  apply runs_bind_Ok in H as (u2 & n8 & n9 & H1 & H & ->). apply (runs_ask env _ (SetTimeout _)) in H1 as [_ ->].
  apply runs_bind_Ok in H as (extra & n8 & n10 & H1 & H & ->). 
  apply runs_bind_Ok in H as ([] & n11 & n12 & H2 & H & ->). apply runs_pure in H2 as [He ->].
  destruct extra as [|b extra]; [|done]. apply runs_ret in H as [[= ->] ->].
  apply nothing_extra in H1 as [Er Es]. destruct HI as [Ho Hb Hs Hr].
  rewrite !sent_app, !received_app, !sent_one, !received_one in *. cbn [sent_by received_by app] in *.
  calls_norm. rewrite Er, Es, Hs, Hr, !app_nil_r.
  assert (e_received s1 = blen payload /\ e_sent s1 = blen payload) as [-> ->] by lia.
  by rewrite slice_full.
Qed.

(** ** The echo ends *)
Section EchoEnds.
Context (env : environment sock_ret) (t : list sock_call -> Z) `{!Socket env, !Clock env t}.

Lemma compare_bytes_raises a b : raises (fun e => e <> OutOfFuel) (compare_bytes a b).
Proof. unfold compare_bytes. raises_tac. Qed.

Lemma echo_turn_ends payload byte_count deadline read_after s :
  fails_with env (fun e => e <> OutOfFuel) (echo_turn payload byte_count deadline read_after s).
Proof.
  unfold echo_turn, remaining, echo_write, echo_read, or_blocked. ends_tac.
  apply fails_pure, compare_bytes_raises.
Qed.

Lemma echo_turn_advances payload byte_count deadline read_after s h s' n :
  runs env h (echo_turn payload byte_count deadline read_after s) (Ok (inl s')) n ->
  t h < t (h ++ n) /\ t h < deadline.
Proof.
  unfold echo_turn. destruct (_ <? _); [|intros H; repeat runs_step; done].
  intros (now & n1 & n2 & H1 & H2 & ->)%runs_bind_Ok. apply (runs_ask env h Monotonic) in H1 as [_ ->].
  split; [apply clock_advances|]. pose proof (clock_forward (env := env) h [Monotonic]).
  destruct (_ && _); apply runs_bind_Ok in H2 as (sec & n3 & n4 & (_ & Hpos & Hr)%remaining_Ok & _);
    rewrite clock_reads in Hr; injection Hr as Hr; lia.
Qed.

Lemma echo_loop_ends fuel payload byte_count deadline read_after s h :
  deadline - t h + 1 < Z.of_nat fuel -> 1 <= Z.of_nat fuel ->
  ends_at env h (io_loop fuel (echo_turn payload byte_count deadline read_after) s).
Proof.
  intros Hf H1 r n. apply (runs_loop_ends env _ _ (fun _ _ => True) (fun _ h => deadline - t h)); [|done..].
  intros s0 h0 o k _ Hr. split.
  - intros ->. by apply echo_turn_ends in Hr.
  - intros s' ->. apply echo_turn_advances in Hr. split; [done|lia].
Qed.

Lemma connect_ends {A} address port deadline (body : sio A) h :
  (forall h', t h <= t h' -> ends_at env h' body) -> ends_at env h (connect address port deadline body).
Proof.
  intros Hb. unfold connect, with_connection. apply ends_bind; [apply ends_fails; unfold remaining; ends_tac|].
  intros s n (-> & _ & _)%remaining_Ok. apply ends_bind; [apply ends_fails; ends_tac|].
  intros u n _. apply ends_finally.
  - apply Hb. rewrite <- app_assoc. apply clock_forward.
  - intros. apply ends_fails. ends_tac.
Qed.
End EchoEnds.

(** The echo check ends: with a clock that advances between readings, a fuel of one more turn than
    the timeout has nanoseconds is never used up, whatever the peer and the socket do. *)
Theorem echo_terminates env t fuel address byte_count timeout port slow_read h r n `{!Socket env, !Clock env t} :
  0 <= timeout -> timeout + 1 < Z.of_nat fuel ->
  runs env h (echo fuel address byte_count timeout port slow_read) r n -> r <> Raise OutOfFuel.
Proof.
  intros Ht Hf. revert r n. change (ends_at env h (echo fuel address byte_count timeout port slow_read)).
  unfold echo. apply ends_bind; [apply ends_fails; ends_tac|].
  intros start n Hs. apply (runs_ask env h Monotonic) in Hs as [Hs ->]. rewrite clock_reads in Hs. injection Hs as ->.
  apply ends_bind; [|intros; apply ends_fails; unfold report; ends_tac].
  apply ends_try; [|intros; apply ends_fails; ends_tac]. apply (connect_ends env t).
  intros h' Hle. pose proof (clock_forward (env := env) h [Monotonic]).
  apply ends_bind; [apply ends_fails; ends_tac|]. intros u n _.
  apply ends_bind; [apply ends_fails; ends_tac|]. intros now n' _. pose proof (clock_forward (env := env) h' n).
  pose proof (clock_forward (env := env) (h' ++ n) n').
  apply ends_bind; [apply (echo_loop_ends env t); lia|]. intros s m _. apply ends_fails. unfold remaining. ends_tac.
Qed.

(** ** The identity page *)
Section IdentityPage.
Context `{codec : !Json} (env : environment sock_ret) `{!Socket env}.

Lemma response_turn_Ok deadline response h o k :
  runs env h (response_turn deadline response) (Ok o) k ->
  sent env h k = [] /\
  match o with
  | inl r => r = response ++ received env h k /\ blen response < blen r <= 4096
  | inr r => r = response /\ received env h k = []
  end.
Proof.
  unfold response_turn. intros (s & n1 & n2 & [-> _]%remaining_Ok & H & ->)%runs_bind_Ok.
  apply runs_bind_Ok in H as (u & n3 & n4 & H1 & H & ->). apply (runs_ask env _ (SetTimeout _)) in H1 as [_ ->].
  apply runs_bind_Ok in H as (chunk & n5 & n6 & H1 & H & ->). apply (runs_ask env _ (Recv _)) in H1 as [Hc ->].
  assert (n6 = []) as -> by (destruct (bool_decide _); repeat runs_step; done).
  symmetry in Hc. rewrite <- app_assoc in Hc. apply (recv_after env h) in Hc as [Hr Hs]; [|by repeat constructor].
  calls_norm. rewrite Hr. split; [done|]. destruct (bool_decide_reflect (chunk = [])) as [->|Hne].
  - by apply runs_ret in H as [[= ->] _].
  - apply runs_bind_Ok in H as ([] & ? & ? & [H _]%runs_pure & [[= ->] _]%runs_ret & _).
    symmetry in H. apply raise_when_Ok in H. breflect. split; [done|].
    rewrite blen_app in *. destruct chunk; [done|]. unfold blen in *. simpl in *. lia.
Qed.

Lemma response_turn_ends deadline response :
  fails_with env (fun e => e <> OutOfFuel) (response_turn deadline response).
Proof. unfold response_turn, remaining. ends_tac. Qed.

Lemma response_loop_ends deadline h r n :
  runs env h (io_loop 4098 (response_turn deadline) []) r n -> r <> Raise OutOfFuel.
Proof.
  intros H. refine (runs_loop_ends env 4098 _ (fun r _ => blen r <= 4096) (fun r _ => 4096 - blen r) [] h r n _ _ _ _ H);
    [|done..]. intros s h' o k Hs Hk. split; [intros ->; by apply response_turn_ends in Hk|].
  intros s' ->. apply response_turn_Ok in Hk as [_ [-> Hk]]. lia.
Qed.

Lemma response_loop_Ok deadline h response n :
  runs env h (io_loop 4098 (response_turn deadline) []) (Ok response) n ->
  received env h n = response /\ sent env h n = [] /\ blen response <= 4096.
Proof.
  intros H. rewrite <- (app_nil_r h) in H.
  apply (runs_loop_inv env _ _ (fun s m => s = received env h m /\ sent env h m = [] /\ blen s <= 4096)
    (fun s m => received env h m = s /\ sent env h m = [] /\ blen s <= 4096)) in H; [done| |done].
  intros s m o k (Hs & Hm & Hl) Hk. apply response_turn_Ok in Hk as [Hk Ho].
  rewrite sent_app, received_app, Hm, Hk, <- Hs. destruct o as [r|r].
  - destruct Ho as [-> [_ ?]]. done.
  - destruct Ho as [-> ->]. by rewrite app_nil_r.
Qed.

(** What an accepted page says. *)
Record identity_page (device_id board : string) (response : bytes) (reported : dict json) : Prop := {
  ip_text : exists headers body, response = headers ++ crlf ++ crlf ++ body /\
    startswith (ascii "HTTP/1.1 200 ") headers = true /\ blen body <= 2048 /\
    json_loads body = Ok (JObj reported);
  ip_device : exists s, dget reported "device_id" = Some (JStr s) /\ lower s = lower device_id;
  ip_board : dget reported "board" = Some (JStr board) }.

Lemma startswith_split_once p sep b : startswith p (fst (split_once sep b)) = true -> startswith p b = true.
Proof.
  rewrite !startswith_spec. intros [r Hr]. destruct (split_once sep b) as [a [k|]] eqn:E; simpl in Hr; subst a.
  - apply split_once_Some in E as ->. rewrite <- app_assoc. eauto.
  - exists r. revert E. generalize (p ++ r). clear. induction b as [|x b IH]; intros a; [by intros [= <-]|].
    cbn [split_once]. destruct (startswith sep (x :: b)); [done|].
    destruct (split_once sep b) as [a' o]. intros [= <- ->]. f_equal. by apply IH.
Qed.

Lemma parse_identity_Ok device_id board response reported :
  fullmatch is_hex 16 device_id = true ->
  parse_identity device_id board response = Ok reported -> identity_page device_id board response reported.
Proof.
  intros Hid. unfold parse_identity. intros ([headers body] & Hp & H)%bind_Ok. apply split_pair_Ok in Hp.
  rewrite !raise_when_bind in H. destruct H as (H1 & H2 & (fields & _ & (len & _ & H)%bind_Ok)%bind_Ok).
  rewrite raise_when_bind in H. destruct H as (_ & (v & Hv & H)%bind_Ok). destruct v as [| | | | | |d]; try done.
  apply raise_when_bind in H as [H [= ->]]. apply orb_false_iff in H as [Hd Hb].
  apply negb_false_iff in H1. apply negb_false_iff in Hb. apply py_eq_str in Hb. apply Z.ltb_ge in H2. constructor.
  - exists headers, body. rewrite <- app_assoc in Hp. split_and!; [done| |done|done].
    by eapply startswith_split_once.
  - destruct (dget reported "device_id") as [o|]; simpl in Hd.
    + destruct o; try done. apply negb_false_iff in Hd; apply bool_decide_eq_true in Hd. eauto.
    + apply negb_false_iff in Hd; apply bool_decide_eq_true in Hd. destruct device_id; [done|]. done.
  - unfold jget in Hb. destruct (dget reported "board"); simpl in *; [by subst|done].
Qed.

Lemma parse_identity_ends device_id board response : (forall b, json_loads b <> Raise OutOfFuel) ->
  raises (fun e => e <> OutOfFuel) (parse_identity device_id board response).
Proof.
  assert (Hs : forall sep b, raises (fun e => e <> OutOfFuel) (split_pair sep b)).
  { intros sep b. unfold split_pair. destruct (split_once sep b) as [a [r|]]; raises_tac. }
  intros Hl. unfold parse_identity, header_field, py_int. raises_tac; [done..|].
  intros e He ->. by apply (Hl l0).
Qed.

Lemma identity_ends address device_id board timeout port h :
  (forall b, json_loads b <> Raise OutOfFuel) -> ends_at env h (identity address device_id board timeout port).
Proof.
  intros Hl. unfold identity, connect, with_connection.
  apply ends_bind; [apply ends_fails, fails_pure; unfold validate_target, IPv4Address, parse_octet; raises_tac|
    intros target n _].
  apply ends_bind; [apply ends_fails; ends_tac|intros _ n1 _].
  apply ends_bind; [apply ends_fails; ends_tac|intros now n2 _].
  apply ends_try; [|intros; apply ends_fails; ends_tac].
  apply ends_bind; [|intros; apply ends_fails, fails_pure, parse_identity_ends; done].
  apply ends_bind; [apply ends_fails; unfold remaining; ends_tac|intros s n3 _].
  apply ends_bind; [apply ends_fails; ends_tac|intros u n4 _].
  apply ends_finally; [|intros; apply ends_fails; ends_tac].
  apply ends_bind; [apply ends_fails; unfold remaining; ends_tac|intros s' n5 _].
  apply ends_bind; [apply ends_fails; ends_tac|intros u' n6 _].
  apply ends_bind; [apply ends_fails; ends_tac|intros u'' n7 _].
  intros r k Hr. by eapply response_loop_ends.
Qed.
End IdentityPage.

Lemma identity_Ok `{codec : !Json} env address device_id board timeout port h reported n `{!Socket env} :
  runs env h (identity address device_id board timeout port) (Ok reported) n ->
  validate_target address = Ok address /\ fullmatch is_hex 16 device_id = true /\
  sent env h n = identity_request address /\ blen (received env h n) <= 4096 /\
  identity_page device_id board (received env h n) reported.
Proof.
  intros H. unfold identity in H. apply runs_bind_Ok in H as (target & n1 & n2 & [Ht ->]%runs_pure & H & ->).
  symmetry in Ht. assert (target = address) as -> by by apply validate_target_exact in Ht as [-> _].
  apply runs_bind_Ok in H as ([] & n1 & n3 & [Hd ->]%runs_pure & H & ->).
  symmetry in Hd. apply raise_when_Ok, negb_false_iff in Hd.
  apply runs_bind_Ok in H as (now & n1 & n4 & H1 & H & ->). apply (runs_ask env _ Monotonic) in H1 as [_ ->].
  apply reraise_Ok in H. apply runs_bind_Ok in H as (response & n1 & n5 & H1 & [Hp ->]%runs_pure & ->).
  symmetry in Hp. apply parse_identity_Ok in Hp; [|done].
  apply connect_Ok in H1 as (s & k & -> & H1). rewrite !app_nil_l, !app_nil_r in *.
  rewrite <- app_assoc in H1. apply runs_bind_Ok in H1 as (s1 & m1 & m2 & [-> _]%remaining_Ok & H1 & ->).
  apply runs_bind_Ok in H1 as (u & m1 & m3 & H2 & H1 & ->). apply (runs_ask env _ (SetTimeout _)) in H2 as [_ ->].
  apply runs_bind_Ok in H1 as (u2 & m1 & m4 & H2 & H1 & ->). apply (runs_ask env _ (SendAll _)) in H2 as [Hs ->].
  apply response_loop_Ok in H1 as (Hr & Hs1 & Hb).
  rewrite !sent_app, !received_app. unfold sent, received in *. cbn [stream sent_by received_by app] in *.
  calls_norm. rewrite Hr, Hs1, <- Hs. cbn [is_ok app]. rewrite ?app_nil_r. done.
Qed.

(** The identity check always ends, and one that reports success was given a valid unicast address
    and a 16-digit device ID, has sent exactly one GET request, has received at most 4096 bytes that are
    an HTTP 200 page whose body of at most 2048 bytes is a JSON object naming that device, whatever the
    case of its digits, and that board, and returns this object. *)
Theorem identity_checked `{codec : !Json} env address device_id board timeout port h r n `{!Socket env} :
  (forall b, json_loads b <> Raise OutOfFuel) ->
  runs env h (identity address device_id board timeout port) r n ->
  r <> Raise OutOfFuel /\
  forall reported, r = Ok reported ->
    validate_target address = Ok address /\ fullmatch is_hex 16 device_id = true /\
    sent env h n = identity_request address /\ blen (received env h n) <= 4096 /\
    identity_page device_id board (received env h n) reported.
Proof.
  intros Hl H. split; [by eapply identity_ends|]. intros reported ->. by apply (identity_Ok env) in H.
Qed.

(** ** The theorems on concrete runs *)
Definition source_peer : environment sock_ret :=
  peer_env false (pico_record 0 17 ++ pico_record 1 23) (fun _ => []).
Definition echo_peer : environment sock_ret := peer_env false [] id.

Lemma source_receives_records_witness : exists rep n,
  runs source_peer [] (source "192.168.7.1" 2 5000000000 5000) (Ok rep) n /\ r_bytes rep = 544.
Proof.
  set (m := source "192.168.7.1" 2 5000000000 5000).
  assert (H := runs_outcome source_peer m (Ok {| r_test := "source"; r_bytes := 544; r_seconds := 0;
    r_bytes_per_second := 544000000000 |}) ltac:(vm_compute; reflexivity)).
  eexists _, _. split; [exact H|].
  by destruct (source_receives_records source_peer "192.168.7.1" 2 5000000000 5000 [] _ _ ltac:(lia) H) as [-> _].
Defined.

Lemma echo_round_trip_witness : exists rep n,
  runs echo_peer [] (echo 40 "192.168.7.1" 600 5000 5001 false) (Ok rep) n /\ sent echo_peer [] n = echo_payload 600.
Proof.
  set (m := echo 40 "192.168.7.1" 600 5000 5001 false).
  assert (exists rep, outcome echo_peer m = Ok rep) as [rep Hrep].
  { destruct (outcome echo_peer m) eqn:E; [eauto|]. vm_compute in E. discriminate. }
  apply runs_outcome in Hrep as H. exists rep, (calls echo_peer m). split; [exact H|].
  by destruct (echo_round_trip echo_peer 40 "192.168.7.1" 600 5000 5001 false [] rep _ ltac:(lia) H) as [-> _].
Defined.

(** A peer that never answers: the deadline ends the check. *)
Lemma echo_terminates_witness : exists n,
  runs (peer_env false [] (fun _ => [])) [] (echo 62 "192.168.7.1" 600 60 5001 false)
    (Raise (VerificationError "echo: sent, received")) n /\
  Raise (A := report_result) (VerificationError "echo: sent, received") <> Raise OutOfFuel.
Proof.
  set (env := peer_env false [] (fun _ => [])). set (m := echo 62 "192.168.7.1" 600 60 5001 false).
  assert (H := runs_outcome env m (Raise (VerificationError "echo: sent, received")) ltac:(vm_compute; reflexivity)).
  exists (calls env m). split; [exact H|].
  apply (echo_terminates env peer_clock 62 "192.168.7.1" 600 60 5001 false [] _ _ ltac:(lia) ltac:(lia) H).
Defined.

Definition page_body : bytes := ascii "{..}".
Definition page_value : dict json :=
  [("board", JStr "nano_rp2040_connect"); ("device_id", JStr "503533303030ABCD")].

#[local] Instance page_codec : Json := {
  json_loads b := if bool_decide (b = page_body) then Ok (JObj page_value) else Raise (ValueError "Expecting value");
  json_dumps _ := page_body }.

Definition page : bytes :=
  ascii "HTTP/1.1 200 OK" ++ crlf ++ ascii "Content-Length: 4" ++ crlf ++ crlf ++ page_body.

(** A server that answers the request with one page and closes. *)
Definition page_peer : environment sock_ret := peer_env true [] (fun _ => page).

Lemma identity_checked_witness : exists n,
  runs page_peer [] (identity "192.168.7.1" "503533303030abcd" "nano_rp2040_connect" 5000000000 80) (Ok page_value) n /\
  sent page_peer [] n = identity_request "192.168.7.1".
Proof.
  set (m := identity "192.168.7.1" "503533303030abcd" "nano_rp2040_connect" 5000000000 80).
  assert (H := runs_outcome page_peer m (Ok page_value) ltac:(vm_compute; reflexivity)).
  exists (calls page_peer m). split; [exact H|].
  assert (Hl : forall b, json_loads b <> Raise OutOfFuel) by (intros b; unfold json_loads; simpl; by case_bool_decide).
  destruct (identity_checked page_peer "192.168.7.1" "503533303030abcd" "nano_rp2040_connect" 5000000000 80 [] _ _
    Hl H) as [_ Hr].
  by destruct (Hr _ eq_refl) as (_ & _ & -> & _).
Defined.
