(* ===== verification/AttachChecks.v ===== *)
(** * What the attach check accepts: tools/attach.py, lines 25-105

    The USB registry tree, the route and DHCP texts and the startup diagnostics, read and judged by pure
    functions. A property list is a value of [plist]; its text form, the [repr] of a value that is not a
    string and UTF-8 decoding are parameters ([Host]). *)

From stdpp Require Import base tactics list list_numbers sorting strings.
From Stdlib Require Import ZArith Lia Floats.SpecFloat.
From S2P Require Import Prelude.
From S2P Require Import PyBytes.
From S2P Require Import PyText.
From S2P Require Import PyStr.
From S2P Require Import PyRegex.
From S2P Require Import PyDict.
From S2P Require Import PyJson.
From S2P Require Import Ipv4.
From S2P Require Import Soak.

Local Open Scope Z_scope.

(** ** Property lists *)
Inductive plist :=
| PBool (b : bool)
| PInt (z : Z)
| PReal (f : spec_float)
| PStr (s : string)
| PData (b : bytes)
| PDate (t : Z)
| PUid (z : Z)
| PArr (l : list plist)
| PDict (d : dict plist).

Definition plist_int (v : plist) : option Z :=
  match v with PBool b => Some (zbool b) | PInt z => Some z | _ => None end.

(** [v == w] *)
Fixpoint plist_eq (v w : plist) {struct v} : bool :=
  match v, w with
  | PStr s, PStr t => bool_decide (s = t)
  | PData a, PData b => bool_decide (a = b)
  | PDate a, PDate b => a =? b
  | PUid a, PUid b => a =? b
  | PReal f, PReal g => SFeqb f g
  | PArr l, PArr k =>
      (fix go (l k : list plist) : bool :=
         match l, k with
         | [], [] => true
         | x :: l, y :: k => plist_eq x y && go l k
         | _, _ => false
         end) l k
  | PDict d, PDict e =>
      (length d =? length e)%nat &&
      (fix go (d : dict plist) : bool :=
         match d with
         | [] => true
         | (key, x) :: d => match dget e key with Some y => plist_eq x y | None => false end && go d
         end) d
  | PReal f, _ => match plist_int w with Some z => float_is z f | None => false end
  | _, PReal f => match plist_int v with Some z => float_is z f | None => false end
  | _, _ => match plist_int v, plist_int w with Some a, Some b => a =? b | _, _ => false end
  end.

(** [plistlib.loads(data)], [str(v)] of a real number, data, date or container, and
    [data.decode('utf-8', errors='replace')], which is the text itself on ASCII data. *)
Class Host := {
  plist_loads : bytes -> result plist;
  plist_repr : plist -> string;
  utf8_text : bytes -> string;
  utf8_ascii : forall b, forallb (fun x => b2z x <? 128) b = true -> utf8_text b = PyStr.text b }.

(** [d.get(key) == value] *)
Definition holds (node : dict plist) (key : string) (value : plist) : bool :=
  match dget node key with Some v => plist_eq v value | None => false end.

Record usb_entry := { u_device_id : plist; u_registry_id : plist }.

(** ** The selected USB device *)
Section Usb.
Context `{host : !Host} (device_id : string).

(** [str(v)] *)
Definition plist_str (v : plist) : string :=
  match v with
  | PStr s => s
  | PInt z => str_int z
  | PBool b => if b then "True" else "False"
  | _ => plist_repr v
  end.

Definition is_selected (node : dict plist) : bool :=
  holds node "IOObjectClass" (PStr "IOUSBHostDevice") && holds node "idVendor" (PInt 0x2341)
  && holds node "idProduct" (PInt 0x005e)
  && bool_decide (lower (plist_str (default (PStr "") (dget node "USB Serial Number"))) = lower device_id).

Definition entry_of (node : dict plist) : result usb_entry :=
  serial ← ditem node "USB Serial Number";
  registry ← ditem node "IORegistryEntryID";
  mret {| u_device_id := serial; u_registry_id := registry |}.

Fixpoint visit (entries : list usb_entry) (node : plist) {struct node} : result (list usb_entry) :=
  match node with
  | PArr l =>
      (fix each (entries : list usb_entry) (l : list plist) {struct l} : result (list usb_entry) :=
         match l with
         | [] => Ok entries
         | child :: l => entries ← visit entries child; each entries l
         end) entries l
  | PDict d =>
      entries ← (if is_selected d then entry ← entry_of d; mret (entries ++ [entry]) else mret entries);
      (fix children (e : dict plist) : result (list usb_entry) :=
         match e with
         | [] => Ok entries
         | (k, v) :: e => if decide (k = "IORegistryEntryChildren") then visit entries v else children e
         end) d
  | _ => Ok entries
  end.

Definition selected_usb (tree : plist) : result (option usb_entry) :=
  entries ← visit [] tree;
  raise_when (1 <? length entries)%nat (VerificationError "multiple USB devices match the selected Nano identity");;
  mret (head entries).
End Usb.

(** ** Routes and the DHCP lease *)
Definition route_pattern : regex :=
  LineStart ⊙ Many re_space 0 ⊙ Group (Lit "interface" ⊕ Lit "gateway") ⊙ Lit ":" ⊙ Many re_space 0
  ⊙ Group (Many re_not_space 1).

Definition route_fields (output : string) : dict string :=
  foldl (fun d g => match g with [name; value] => dset d name value | _ => d end) [] (findall route_pattern output).

(** [\d+\.\d+\.\d+\.\d+] *)
Definition quad_pattern : regex :=
  Many is_digit 1 ⊙ Lit "." ⊙ Many is_digit 1 ⊙ Lit "." ⊙ Many is_digit 1 ⊙ Lit "." ⊙ Many is_digit 1.

Definition host_pattern : regex :=
  WordEdge ⊙ Lit "inet " ⊙ Group quad_pattern ⊙ Lit " netmask " ⊙ Group (Lit "0x" ⊙ Many is_hex 1).

Definition routing_pattern : regex :=
  LineStart ⊙ Many re_space 0
  ⊙ Group (Lit "router" ⊕ Lit "domain_name_server" ⊕ Lit "classless_static_route" ⊕ Lit "static_route")
  ⊙ Many re_space 0 ⊙ Lit "(".

Definition server_pattern : regex :=
  LineStart ⊙ Many re_space 0 ⊙ Lit "server_identifier (ip):" ⊙ Many re_space 0 ⊙ Group (Many re_not_space 1).

Definition ack_pattern : regex := Lit "dhcp_message_type " ⊙ Many re_dot 0 ⊙ Lit ": ACK" ⊙ WordEdge.
Definition mask_pattern : regex := Lit "subnet_mask (ip): 255.255.255.0".
Definition lease_pattern : regex := Lit "lease_time (uint32):".
Definition xid_pattern : regex := LineStart ⊙ Lit "xid = " ⊙ Group (Many re_not_space 1).

(** [m[k]] for a group of a match *)
Definition group (g : list string) (k : nat) : string := nth (pred k) g "".

(** [int(s, 16)] of ["0x"] and hexadecimal digits *)
Definition hex_value (s : string) : Z :=
  (fix go (acc : Z) (s : string) : Z :=
     match s with
     | EmptyString => acc
     | String c s => go (16 * acc + (if is_digit c then code c - 48 else if between 97 102 c then code c - 87 else code c - 55)) s
     end) 0 (String.substring 2 (String.length s - 2) s).

(** [ipaddress.IPv4Network(address + '/24', strict=False)]: its first three octets; then [ip in network],
    and whether [ip] is its network or its broadcast address *)
Definition network_24 (address : string) : result (list Z) := octets ← IPv4Address address; mret (take 3 octets).
Definition in_subnet (ip subnet : list Z) : bool := bool_decide (take 3 ip = subnet).
Definition at_subnet_end (ip subnet : list Z) : bool :=
  bool_decide (ip = subnet ++ [0]) || bool_decide (ip = subnet ++ [255]).

Record lease := { n_host : string; n_xid : option string; n_interface : string; n_packet : string }.

Definition network_ready (interface_output packet address : string) : result (option lease) :=
  match search host_pattern interface_output with
  | None => mret None
  | Some host =>
      if negb (contains "status: active" interface_output) || bool_decide (strip_text packet = "") then mret None
      else
        let options := after_first "options:" packet in
        raise_when (bool_decide (options = "")) (VerificationError "host DHCP packet lacks decoded options");;
        raise_when (found routing_pattern options)
          (VerificationError "DHCP advertises router, DNS or routes; local-only check failed");;
        raise_when (negb (bool_decide ((fun g => group g 1) <$> search server_pattern options = Some address)))
          (VerificationError "DHCP server identifier does not match selected board address");;
        if negb (found ack_pattern options) then mret None
        else
          raise_when (negb (hex_value (group host 2) =? 0xffffff00) || negb (found mask_pattern options))
            (VerificationError "qualification requires a /24 DHCP mask");;
          raise_when (negb (found lease_pattern options)) (VerificationError "DHCP lease information missing");;
          subnet ← network_24 address;
          host_ip ← IPv4Address (group host 1);
          raise_when (negb (in_subnet host_ip subnet) || bool_decide (group host 1 = address) || at_subnet_end host_ip subnet)
            (VerificationError "host address does not match the selected local-only subnet");;
          mret (Some {| n_host := group host 1; n_xid := (fun g => group g 1) <$> search xid_pattern packet;
                        n_interface := interface_output; n_packet := packet |})
  end.

(** ** Startup diagnostics *)
Definition startup_names : list string :=
  ["setup_ms"; "dhcp_ready_ms"; "ncm_ready_ms"; "services_ready_ms"; "attach_requested_ms"].

Definition count_ms (v : json) : bool := type_is_int v && (0 <=? int_of v).

Definition diagnostics_ready (snapshot : dict json) : result unit :=
  raise_when (negb (py_eq (jget snapshot "usb_profile") (JStr "ncm-only"))
      || negb (match jget snapshot "usb_initialized_at_setup" with JBool false => true | _ => false end))
    (VerificationError "unexpected USB profile or controller already initialized before setup");;
  let values := jget snapshot <$> startup_names in
  raise_when (existsb (fun v => negb (count_ms v)) values
      || negb (bool_decide (int_of <$> values = merge_sort Z.le (int_of <$> values))))
    (VerificationError "invalid service-before-attach startup timestamps").

(** ** The selected device is the only selected node of the tree *)
Lemma plist_rect_nested (P : plist -> Prop) :
  (forall v, (forall l, v <> PArr l) -> (forall d, v <> PDict d) -> P v) ->
  (forall l, Forall P l -> P (PArr l)) -> (forall d, Forall (fun kv => P kv.2) d -> P (PDict d)) -> forall v, P v.
Proof.
  intros Hleaf Harr Hdict. fix IH 1. intros [b|z|f|s|b|t|z|l|d]; try (apply Hleaf; done).
  - apply Harr. induction l; constructor; [apply IH|done].
  - apply Hdict. induction d as [|[k v] d IHd]; constructor; [apply IH|done].
Qed.

(** The dictionaries of a tree, parents first; children are found under one key. *)
Fixpoint nodes (v : plist) : list (dict plist) :=
  match v with
  | PArr l => (fix each (l : list plist) := match l with [] => [] | x :: l => nodes x ++ each l end) l
  | PDict d =>
      d :: (fix children (e : dict plist) :=
              match e with
              | [] => []
              | (k, x) :: e => if decide (k = "IORegistryEntryChildren") then nodes x else children e
              end) d
  | _ => []
  end.

Section SelectedUsb.
Context `{host : !Host} (device_id : string).

(** The selected nodes of a tree *)
Definition selected_nodes (v : plist) : list (dict plist) := List.filter (is_selected device_id) (nodes v).

Lemma visit_nodes v entries :
  visit device_id entries v = (es ← mapM entry_of (selected_nodes v); Ok (entries ++ es)).
Proof.
  unfold selected_nodes. revert entries. induction v as [v Hl Hd|l IH|d IH] using plist_rect_nested; intros entries.
  - destruct v as [b|z|f|s|b|t|z|l|d]; try by cbn; rewrite app_nil_r.
    + by destruct (Hl l).
    + by destruct (Hd d).
  - revert entries. induction IH as [|x l Hx Hl IH]; intros entries; [by cbn; rewrite app_nil_r|].
    cbn [visit nodes]. rewrite List.filter_app, mapM_app, Hx.
    destruct (mapM entry_of (List.filter _ (nodes x))) as [es|e]; [|done]. cbn [mbind result_bind] in *.
    specialize (IH (entries ++ es)). cbn [visit nodes] in IH. rewrite IH.
    destruct (mapM entry_of (List.filter _ _)) as [fs|e]; [|done]. cbn. by rewrite app_assoc.
  - cbn [visit nodes List.filter].
    assert (Hc : forall es, (fix children (e : dict plist) : result (list usb_entry) :=
         match e with
         | [] => Ok es
         | (k, v) :: e => if decide (k = "IORegistryEntryChildren") then visit device_id es v else children e
         end) d = (fs ← mapM entry_of (List.filter (is_selected device_id) ((fix children (e : dict plist) :=
              match e with
              | [] => []
              | (k, x) :: e => if decide (k = "IORegistryEntryChildren") then nodes x else children e
              end) d)); Ok (es ++ fs))).
    { clear -IH. intros es. induction IH as [|[k v] d Hv Hd IH]; [by cbn; rewrite app_nil_r|].
      cbn in Hv. case_decide; [by rewrite Hv|exact IH]. }
    destruct (is_selected device_id d); cbn [mapM].
    + destruct (entry_of d) as [e|e]; [|done]. cbn [mbind result_bind mret result_ret]. rewrite Hc.
      destruct (mapM entry_of _); [|done]. cbn. by rewrite <- app_assoc.
    + cbn [mbind result_bind mret result_ret]. by rewrite Hc.
Qed.

(** The selected device is the one the tree names: [selected_usb] answers nothing exactly when no node of the
    registry tree is the selected Nano, answers an entry exactly when one node is, and its entry is that node's
    serial number and registry id; two matching nodes are never resolved by picking one. *)
Theorem selected_usb_exact (tree : plist) :
  (selected_usb device_id tree = Ok None <-> selected_nodes tree = []) /\
  (forall e, selected_usb device_id tree = Ok (Some e) <-> exists d, selected_nodes tree = [d] /\ entry_of d = Ok e) /\
  ((2 <= length (selected_nodes tree))%nat -> exists e, selected_usb device_id tree = Raise e /\
     (e = VerificationError "multiple USB devices match the selected Nano identity" \/ ekind e = KKeyError)).
Proof.
  unfold selected_usb. rewrite visit_nodes. cbn [app].
  destruct (mapM entry_of (selected_nodes tree)) as [es|e] eqn:E; cbn [mbind result_bind].
  - apply mapM_Ok in E. pose proof (Forall2_length _ _ _ E) as Hl. unfold raise_when.
    destruct E as [|d e' ds es' He Hes]; cbn in *; [split_and!; [done|naive_solver|lia]|].
    destruct Hes as [|d2 e2 ds es'' He2 Hes]; cbn in *.
    + split_and!; [done| |lia]. intros e. split; [intros [= <-]; eauto|]. intros (d' & [= <-] & Hd). rewrite He in Hd. by injection Hd as ->.
    + split_and!; [done|naive_solver|]. intros _. eexists. split; [reflexivity|auto].
  - assert (He : raises (fun e => ekind e = KKeyError) (mapM entry_of (selected_nodes tree))).
    { unfold entry_of. apply raises_mapM. intros d _. raises_tac; by apply ditem_raises. }
    rewrite E in He. specialize (He e eq_refl). split_and!.
    + split; [done|]. intros H. rewrite H in E. done.
    + intros e'. split; [done|]. intros (d & H & Hd). rewrite H in E. cbn in E. by rewrite Hd in E.
    + intros _. eauto.
Qed.

Lemma selected_usb_ends (tree : plist) : raises (fun e => e <> OutOfFuel) (selected_usb device_id tree).
Proof.
  unfold selected_usb. rewrite visit_nodes. unfold entry_of. raises_tac; by apply ditem_raises.
Qed.
End SelectedUsb.

(** ** An accepted network is local *)
Definition in_24 (a b : list Z) : Prop := take 3 a = take 3 b.

Record local_network (interface_output packet address : string) (l : lease) : Prop := {
  lease_kept : n_interface l = interface_output /\ n_packet l = packet;
  lease_active : occurs (Lit "status: active") interface_output [];
  lease_host : exists mask, occurs host_pattern interface_output [n_host l; mask] /\ hex_value mask = 0xffffff00;
  lease_unrouted : forall g, ~ occurs routing_pattern (after_first "options:" packet) g;
  lease_server : occurs server_pattern (after_first "options:" packet) [address];
  lease_acknowledged : exists g, occurs ack_pattern (after_first "options:" packet) g;
  lease_subnet : exists board host, IPv4Address address = Ok board /\ IPv4Address (n_host l) = Ok host /\
    in_24 host board /\ host <> board /\ host <> take 3 board ++ [0] /\ host <> take 3 board ++ [255] }.

Lemma network_24_Ok address subnet : network_24 address = Ok subnet ->
  exists board, IPv4Address address = Ok board /\ subnet = take 3 board.
Proof. unfold network_24. intros (board & H & Hr)%bind_Ok. apply mret_Ok in Hr as <-. eauto. Qed.

Lemma network_ready_Ok interface_output packet address l :
  network_ready interface_output packet address = Ok (Some l) -> local_network interface_output packet address l.
Proof.
  unfold network_ready. destruct (search host_pattern interface_output) as [host|] eqn:Eh; [|done].
  destruct (negb _ || _) eqn:Ea; [done|]. apply orb_false_iff in Ea as [Ha%negb_false_iff _].
  rewrite !raise_when_bind. intros (_ & Hr & Hs & H).
  apply negb_false_iff, bool_decide_eq_true in Hs.
  destruct (found ack_pattern _) eqn:Eack; [|done]. cbn [negb] in H. rewrite !raise_when_bind in H.
  destruct H as ([Hm _]%orb_false_iff & _ & H). apply negb_false_iff, Z.eqb_eq in Hm.
  apply bind_Ok in H as (subnet & Hn & H). apply bind_Ok in H as (ip & Hip & H).
  rewrite raise_when_bind in H. destruct H as [[[Hin Hne]%orb_false_iff Hend]%orb_false_iff H].
  apply mret_Ok in H as [= <-]. apply network_24_Ok in Hn as (board & Hb & ->).
  apply search_sound in Eh. pose proof (occurs_length _ _ _ Eh eq_refl) as Hl.
  destruct host as [|h [|m [|]]]; try done. cbn [group nth pred] in *.
  apply found_iff in Ha as [g Ha]. pose proof (occurs_length _ _ _ Ha eq_refl) as Hg. destruct g; [|done].
  apply fmap_Some in Hs as (g & Hs & ->). apply search_sound in Hs. pose proof (occurs_length _ _ _ Hs eq_refl) as Hlen.
  destruct g as [|x [|]]; try done. apply found_iff in Eack.
  constructor; cbn [n_host n_interface n_packet group nth pred]; eauto.
  - intros g Hg'. assert (found routing_pattern (after_first "options:" packet) = true) by (apply found_iff; eauto). congruence.
  - apply negb_false_iff, bool_decide_eq_true in Hin. apply bool_decide_eq_false in Hne.
    apply orb_false_iff in Hend as [H0%bool_decide_eq_false H255%bool_decide_eq_false].
    exists board, ip. split_and!; try done. intros ->. apply Hne.
    apply IPv4Address_Ok in Hb as [_ ->]. by apply IPv4Address_Ok in Hip as [_ ->].
Qed.

(** A network that is accepted is local-only: the interface is active with a /24 mask, the decoded DHCP
    options carry an ACK from the board itself and advertise no router, DNS server or static route, and the
    host's address is another address of the board's /24, neither its network nor its broadcast address. *)
Theorem network_ready_local interface_output packet address l :
  network_ready interface_output packet address = Ok (Some l) -> local_network interface_output packet address l.
Proof. apply network_ready_Ok. Qed.

(** ** Services before attach *)
Record ready_before_attach (snapshot : dict json) : Prop := {
  ncm_only : dget snapshot "usb_profile" = Some (JStr "ncm-only");
  not_initialized : dget snapshot "usb_initialized_at_setup" = Some (JBool false);
  in_order : exists times, Forall2 (fun name t => dget snapshot name = Some (JInt t) /\ 0 <= t) startup_names times /\
    StronglySorted Z.le times }.

Lemma jget_is d key v : v <> JNull -> jget d key = v <-> dget d key = Some v.
Proof. unfold jget. intros Hv. destruct (dget d key); cbn; split; congruence. Qed.

Lemma merge_sorted l : l = merge_sort Z.le l <-> StronglySorted Z.le l.
Proof.
  split; [intros ->; apply StronglySorted_merge_sort; apply _|]. intros H.
  apply (StronglySorted_unique Z.le); [done|apply StronglySorted_merge_sort; apply _|by rewrite merge_sort_Permutation].
Qed.

Lemma counts_ms (d : dict json) names times :
  Forall2 (fun name t => dget d name = Some (JInt t) /\ 0 <= t) names times <->
  existsb (fun v => negb (count_ms v)) (jget d <$> names) = false /\ times = int_of <$> (jget d <$> names).
Proof.
  revert times. induction names as [|name names IH]; intros times; cbn.
  - split; [intros H; by inversion H|intros [_ ->]; constructor].
  - split.
    + intros H. inversion H as [|? t ? ts [Hd Ht] Hts]; subst. apply IH in Hts as [He ->].
      assert (Hj : jget d name = JInt t) by (unfold jget; by rewrite Hd). rewrite Hj. cbn. split; [|done].
      apply orb_false_iff. split; [by apply negb_false_iff, Z.leb_le|done].
    + intros [[Hn He]%orb_false_iff ->]. constructor; [|by apply IH]. apply negb_false_iff, andb_true_iff in Hn as [Hi Ht].
      apply type_is_int_spec in Hi as [z Hz]. rewrite Hz in *. cbn in *. apply Z.leb_le in Ht. by apply jget_is in Hz.
Qed.

Lemma diagnostics_ready_iff snapshot : diagnostics_ready snapshot = Ok tt <-> ready_before_attach snapshot.
Proof.
  unfold diagnostics_ready.
  rewrite raise_when_bind, raise_when_Ok, !orb_false_iff, !negb_false_iff, bool_decide_eq_true, py_eq_str, merge_sorted. split.
  - intros [[Hp Hi] [Hv Hs]]. constructor.
    + by apply jget_is.
    + apply jget_is; [done|]. destruct (jget snapshot "usb_initialized_at_setup") as [|[]| | | | |]; done.
    + eexists. split; [by apply counts_ms|done].
  - intros [Hp Hi (times & [Hv ->]%counts_ms & Hs)]. apply jget_is in Hp, Hi; [|done..]. rewrite Hp, Hi. auto.
Qed.

(** The startup diagnostics are accepted exactly when the firmware runs the NCM-only profile, had not
    initialized USB before its setup, and reports the five startup times as non-negative integers that never go
    back from setup to the attach request; anything else raises [VerificationError]. *)
Theorem diagnostics_ready_exact snapshot :
  (diagnostics_ready snapshot = Ok tt <-> ready_before_attach snapshot) /\
  raises (fun e => ekind e = KVerificationError) (diagnostics_ready snapshot).
Proof. split; [apply diagnostics_ready_iff|unfold diagnostics_ready; raises_tac; done]. Qed.

(** ** Examples *)
Definition demo_route : string :=
  "   route to: default" +:+ String line_break "    gateway: 192.168.1.1" +:+ String line_break "  interface: en0".

Example route_demo : route_fields demo_route = [("gateway", "192.168.1.1"); ("interface", "en0")].
Proof. reflexivity. Qed.

Definition demo_ifconfig : string :=
  "en5: flags" +:+ String line_break "inet 192.168.77.16 netmask 0xffffff00 broadcast" +:+ String line_break "status: active".

Definition demo_packet : string :=
  "op = BOOTREPLY" +:+ String line_break "xid = 0x1f2e" +:+ String line_break "options:" +:+
  String line_break "dhcp_message_type (uint8): ACK 0x5" +:+ String line_break "server_identifier (ip): 192.168.77.1" +:+
  String line_break "lease_time (uint32): 0x15180" +:+ String line_break "subnet_mask (ip): 255.255.255.0".

Example network_demo : network_ready demo_ifconfig demo_packet "192.168.77.1" =
  Ok (Some {| n_host := "192.168.77.16"; n_xid := Some "0x1f2e"; n_interface := demo_ifconfig; n_packet := demo_packet |}).
Proof. vm_compute. reflexivity. Qed.

Example routed_demo :
  network_ready demo_ifconfig (demo_packet +:+ String line_break "router (ip_mult): {192.168.77.1}") "192.168.77.1" =
  Raise (VerificationError "DHCP advertises router, DNS or routes; local-only check failed").
Proof. vm_compute. reflexivity. Qed.

Lemma network_ready_local_witness : local_network demo_ifconfig demo_packet "192.168.77.1"
  {| n_host := "192.168.77.16"; n_xid := Some "0x1f2e"; n_interface := demo_ifconfig; n_packet := demo_packet |}.
Proof. apply network_ready_local. vm_compute. reflexivity. Defined.
