(* ===== verification/Attach.v ===== *)
(** * The USB reattachment check: tools/attach.py

    The macOS check watches the selected Nano leave and return, waits for its network, and runs the byte
    checks beside two Internet requests. The host's commands, the two traffic threads and the evidence file
    are calls; the board is one socket device, so that [identity] and [echo] run unchanged ([board]). The
    report lives in the state, its cycles apart, and an exception keeps what was recorded. What a run saw is a list of
    stages of its calls ([preflight_stages], [cycle_stages]): each says what was asked and what was answered, and the
    report's entries are functions of the same facts ([preflight_entry], [cycle_record]). *)

From stdpp Require Import base tactics list list_numbers strings.
From Stdlib Require Import ZArith Lia Ascii.
From S2P Require Import Prelude.
From S2P Require Import PyBytes.
From S2P Require Import PyText.
From S2P Require Import PyStr.
From S2P Require Import PyRegex.
From S2P Require Import PyDict.
From S2P Require Import PyJson.
From S2P Require Import Effects.
From S2P Require Import Ipv4.
From S2P Require Import Stateful.
From S2P Require Import Stages.
From S2P Require Import Soak.
From S2P Require Import Sockets.
From S2P Require Import Smoke.
From S2P Require Import AttachChecks.

Local Open Scope Z_scope.

(** ** What the check asks of its environment *)
Record completed_process := { returncode : Z; stdout : bytes; stderr : bytes }.

(** [result.returncode, result.stdout, result.stderr] of [curl], as text *)
Record curl_result := { curl_exit : Z; curl_output : string; curl_error : string }.

Inductive worker := EchoWorker | SourceWorker.

Record timed := { begin_at : Z; end_at : Z; result_of : report_result }.

Record observation := { sample_start : Z; sample_end : Z; last_negative : option Z }.

Record request := { q_options : list string; q_begin : Z; q_end : Z; q_result : curl_result }.

Record traffic_result := {
  x_echo : timed; x_source : timed; x_https : list request; x_reconnect : report_result;
  x_access : bool; x_overlap : bool }.

(** A value of the report *)
Inductive entry :=
| Text (s : string)
| Flag (b : bool)
| Int (n : Z)
| Microseconds (n : Z)
| Seen (o : observation)
| Usb (u : usb_entry)
| Network (l : lease)
| Snapshot (d : dict json)
| Traffic (t : traffic_result)
| Fields (d : list (string * entry)).

(** The report and its list of cycles *)
Record evidence := { ev_report : dict entry; ev_cycles : list (dict entry) }.

(** [Say] is a [print]; a measured time in its text is left out. *)
Inductive attach_call :=
| Board (c : sock_call)
| Command (argv : list string)
| Curl (options : list string) (stamp : Z)
| TimeNs
| Submit (w : worker) (address : string)
| WorkerResult (w : worker)
| ClosePool
| System
| OutputExists (path : string)
| UtcNow
| Say (text : string)
| MakeParent (path : string)
| WriteText (path : string) (e : evidence)
| Replace (path target : string).

Definition attach_ret (c : attach_call) : Type :=
  match c with
  | Board c => sock_ret c
  | Command _ => completed_process
  | Curl _ _ => curl_result
  | TimeNs => Z
  | WorkerResult _ => timed
  | System | UtcNow => string
  | OutputExists _ => bool
  | _ => unit
  end.

Abbreviation aio := (io attach_ret).

(** A program for the board, on its own device *)
Definition board_env (env : environment attach_ret) (h : list attach_call) : environment sock_ret :=
  fun k c => env (h ++ (Board <$> k)) (Board c).

Definition board {A} (m : sio A) : aio A := fun env h => let '(r, k) := m (board_env env h) [] in (r, Board <$> k).

Definition now : aio Z := ask (Board Monotonic).

(** ** Observations of the host *)
Section Observe.
Context `{host : !Host}.

Definition command (argv : list string) : aio completed_process := ask (Command argv).
Definition text (result : completed_process) : string := utf8_text (stdout result).

Definition successful (argv : list string) : aio string :=
  result ← command argv;
  io_when (negb (returncode result =? 0)) (VerificationError "host observation failed");;
  mret (text result).

Definition usb (device_id : string) : aio (option usb_entry) :=
  result ← command ["ioreg"; "-r"; "-c"; "IOUSBHostDevice"; "-a"];
  io_when (negb (returncode result =? 0)) (VerificationError "USB registry observation failed; not interpreted as unplugged");;
  io_pure (tree ← plist_loads (stdout result); selected_usb device_id tree).

Definition network (interface address : string) : aio (option lease) :=
  result ← command ["ifconfig"; interface];
  if negb (returncode result =? 0) then
    if contains "does not exist" (utf8_text (stderr result)) then mret None
    else io_raise (VerificationError "cannot observe network interface")
  else
    packet ← command ["ipconfig"; "getpacket"; interface];
    io_pure (network_ready (text result) (text packet) address).
End Observe.

(** ** Bounded polling

    [probe] answers [None] for "not yet". The state is the start of the last negative sample. *)
Definition fifth : Z := 200000000.

Definition wait_turn {A} (probe : aio (option A)) (timeout start : Z) (last : option Z) :
    aio (option Z + option (A * observation)) :=
  t ← now;
  if t - start <? timeout then
    first ← now;
    value ← probe;
    finish ← now;
    if timeout <=? finish - start then mret (inr None)
    else match value with
         | Some value => mret (inr (Some (value, {| sample_start := first; sample_end := finish; last_negative := last |})))
         | None =>
             t ← now;
             _ ← ask (Board (Pause (Z.min fifth (Z.max 0 (timeout - (t - start))))));
             mret (inl (Some first))
         end
  else mret (inr None).

(** Enough turns: the clock advances in each. *)
Definition wait_turns (timeout : Z) : nat := S (S (Z.to_nat timeout)).

Definition wait_for {A} (probe : aio (option A)) (timeout : Z) : aio (A * observation) :=
  start ← now;
  outcome ← io_loop (wait_turns timeout) (wait_turn probe timeout start) None;
  io_pure (some_or outcome (TimeoutError "observation deadline expired")).

(** [lambda: not usb(device_id)] *)
Definition gone `{host : !Host} (device_id : string) : aio (option unit) :=
  present ← usb device_id;
  mret (match present with Some _ => None | None => Some tt end).

(** ** Traffic *)
Definition https_request (options : list string) : aio request :=
  first ← now;
  stamp ← ask TimeNs;
  result ← ask (Curl options stamp);
  finish ← now;
  mret {| q_options := options; q_begin := first; q_end := finish; q_result := result |}.

Definition within (r : request) (w : timed) : bool :=
  (begin_at w <=? q_begin r) && (q_begin r <=? q_end r) && (q_end r <=? end_at w).

Definition traffic (fuel : nat) (address : string) : aio traffic_result :=
  ' (echoed, sourced, requests) ← try_finally (
    _ ← ask (Submit EchoWorker address);
    _ ← ask (Submit SourceWorker address);
    requests ← io_fold (fun requests family => r ← https_request family; mret (requests ++ [r])) [] [["-4"]; []];
    echoed ← ask (WorkerResult EchoWorker);
    sourced ← ask (WorkerResult SourceWorker);
    mret (echoed, sourced, requests)) (ask ClosePool);
  again ← board (echo fuel address 4096 (5 * second) 5001 false);
  mret {| x_echo := echoed; x_source := sourced; x_https := requests; x_reconnect := again;
          x_access := forallb (fun r => curl_exit (q_result r) =? 0) requests;
          x_overlap := forallb (fun r => within r echoed && within r sourced) requests |}.

(** ** The report *)
Record attach_args := {
  a_board : string; a_address : string; a_device_id : string; a_interface : string; a_output : string;
  a_firmware_sha256 : string; a_connection_details : string; a_start_cycle : Z; a_cycles : Z;
  a_unplug_timeout : Z; a_plug_timeout : Z; a_ready_timeout : Z }.

Abbreviation attach A := (st attach_ret evidence A).

(** [report[key] = value]; [cycle[key] = value] for the cycle appended last; [report['cycles'].append(cycle)] *)
Definition put (key : string) (value : entry) : attach unit :=
  st_modify (fun e => {| ev_report := dset (ev_report e) key value; ev_cycles := ev_cycles e |}).

Fixpoint set_last {A} (f : A -> A) (l : list A) : list A :=
  match l with [] => [] | [x] => [f x] | x :: l => x :: set_last f l end.

Definition put_cycle (key : string) (value : entry) : attach unit :=
  st_modify (fun e => {| ev_report := ev_report e; ev_cycles := set_last (fun c => dset c key value) (ev_cycles e) |}).

Definition append_cycle (cycle : dict entry) : attach unit :=
  st_modify (fun e => {| ev_report := ev_report e; ev_cycles := ev_cycles e ++ [cycle] |}).

Definition save (path : string) : attach unit :=
  _ ← st_ask (MakeParent path);
  e ← st_get;
  _ ← st_ask (WriteText (path +:+ ".tmp") e);
  st_ask (Replace (path +:+ ".tmp") path).

Definition first_cycle (number : Z) : dict entry :=
  [("cycle", Int number); ("status", Text "waiting_for_unplug"); ("usb_detach_reattach_observed", Flag false)].

Definition first_report (a : attach_args) (address utc model os : string) : dict entry :=
  [("utc", Text utc); ("board", Text (a_board a)); ("address", Text address); ("device_id", Text (lower (a_device_id a)));
   ("interface", Text (a_interface a)); ("firmware_sha256_user_selected", Text (a_firmware_sha256 a));
   ("connection_details_user_reported", Text (a_connection_details a));
   ("host", Fields [("model", Text model); ("os", Text os)]);
   ("timing_basis", Text "host-observed USB serial appearance, NOT physical insertion or packet-level lease time");
   ("authorization", Text "not automatically observed; annotate per cycle after user report");
   ("status", Text "preflight")].

(** ** The arguments *)
Definition is_interface (s : string) : bool :=
  match s with String "e"%char (String "n"%char s) => negb (bool_decide (s = "")) && string_forallb is_digit s | _ => false end.

Definition check_args (a : attach_args) : result string :=
  address ← validate_target (a_address a);
  raise_when (negb (fullmatch is_hex 16 (a_device_id a))) (ValueError "select the expected 16-hex-digit Nano ID");;
  raise_when (negb (fullmatch is_hex 64 (a_firmware_sha256 a))) (ValueError "select the SHA-256 of the flashed UF2");;
  raise_when ((a_start_cycle a <? 1) || negb ((1 <=? a_cycles a) && (a_cycles a <=? 20)))
    (ValueError "cycle number must be positive; select 1 through 20 cycles");;
  raise_when (existsb (fun value => negb ((0 <? value) && (value <=? 600 * second)))
      [a_unplug_timeout a; a_plug_timeout a; a_ready_timeout a])
    (ValueError "observation timeouts must be greater than zero and at most 600 seconds");;
  subnet ← network_24 address;
  ip ← IPv4Address address;
  raise_when (at_subnet_end ip subnet) (ValueError "select a unicast board address within its /24");;
  raise_when (negb (is_interface (a_interface a))) (ValueError "select the actual Nano Ethernet interface, such as en5");;
  mret address.

(** ** One run *)
Section Run.
Context `{host : !Host} `{codec : !Json} (fuel : nat) (a : attach_args) (address : string).

(** [d == e] for dictionaries of strings *)
Definition same_fields (d e : dict string) : bool :=
  (length d =? length e)%nat && forallb (fun '(k, v) => bool_decide (dget e k = Some v)) d.

Definition board_route : aio string := successful ["route"; "-n"; "get"; address].
Definition default_route : aio string := successful ["route"; "-n"; "get"; "default"].

(** [route_fields(output).get('interface') == args.interface] *)
Definition through_board (fields : dict string) : bool := bool_decide (dget fields "interface" = Some (a_interface a)).

(** The connected device, its network and the Internet route before the first cycle *)
Definition preflight : attach (usb_entry * lease * dict string) :=
  present ← st_io (usb (a_device_id a));
  previous ← st_pure (some_or present (VerificationError "selected Nano must be connected before arming this check"));
  ready ← st_io (network (a_interface a) address);
  initial ← st_pure (some_or ready (VerificationError "selected interface is not DHCP-ready before arming"));
  to_board ← st_io board_route;
  to_internet ← st_io default_route;
  st_pure (raise_when (negb (through_board (route_fields to_board)) || through_board (route_fields to_internet))
    (VerificationError "preflight routes do not separate the board from Internet access"));;
  snapshot ← st_io (board (identity address (a_device_id a) (a_board a) (5 * second) 80));
  st_pure (diagnostics_ready snapshot);;
  put "preflight" (Fields [("usb", Usb previous); ("network", Network initial); ("diagnostics", Snapshot snapshot);
                           ("board_route", Text to_board); ("internet_route", Text to_internet)]);;
  put "status" (Text "armed");;
  save (a_output a);;
  mret (previous, initial, route_fields to_internet).

Definition armed_message (number : Z) : string :=
  "Cycle " +:+ str_int number +:+ ": armed. Unplug the Nano USB cable; then reconnect it. Do not press RESET or change IP settings.".

Definition await_unplug (number : Z) : attach unit :=
  append_cycle (first_cycle number);;
  save (a_output a);;
  st_ask (Say (armed_message number));;
  ' (_, detached) ← st_io (wait_for (gone (a_device_id a)) (a_unplug_timeout a));
  put_cycle "status" (Text "waiting_for_plug");;
  put_cycle "detached_observation" (Seen detached);;
  save (a_output a).

Definition await_plug (previous : usb_entry) : attach (usb_entry * observation) :=
  st_ask (Say "Selected Nano disappeared. Waiting for USB appearance.");;
  ' (present, arrived) ← st_io (wait_for (usb (a_device_id a)) (a_plug_timeout a));
  put_cycle "status" (Text "waiting_for_network");;
  put_cycle "usb_detach_reattach_observed" (Flag true);;
  put_cycle "usb" (Usb present);;
  put_cycle "arrived_observation" (Seen arrived);;
  save (a_output a);;
  st_pure (raise_when (plist_eq (u_registry_id present) (u_registry_id previous))
    (VerificationError "USB instance did not change; no new attachment established"));;
  mret (present, arrived).

(** What is left of the readiness timeout *)
Definition budget (arrived : observation) (message : string) : aio Z :=
  t ← now;
  let budget := a_ready_timeout a - (t - sample_end arrived) in
  io_when (budget <=? 0) (TimeoutError message);;
  mret budget.

Definition await_network (arrived : observation) (baseline : dict string) : attach lease :=
  left ← st_io (budget arrived "network readiness deadline expired");
  ' (ready, observed) ← st_io (wait_for (network (a_interface a) address) left);
  put_cycle "network" (Network ready);;
  put_cycle "host_address_observation" (Seen observed);;
  put_cycle "observed_usb_to_address_seconds"
    (Microseconds (round_half_even (sample_end observed - sample_end arrived) 1000));;
  to_board ← st_io board_route;
  to_internet ← st_io default_route;
  put_cycle "board_route" (Text to_board);;
  put_cycle "internet_route" (Text to_internet);;
  st_pure (raise_when (negb (through_board (route_fields to_board)) || negb (same_fields (route_fields to_internet) baseline))
    (VerificationError "board or Internet route changed from expected preflight state"));;
  mret ready.

Definition await_identity (arrived : observation) (ready initial : lease) : attach unit :=
  left ← st_io (budget arrived "identity readiness deadline expired");
  snapshot ← st_io (board (identity address (a_device_id a) (a_board a) left 80));
  st_pure (diagnostics_ready snapshot);;
  t ← st_io now;
  st_pure (raise_when (a_ready_timeout a <=? t - sample_end arrived)
    (TimeoutError "network/identity readiness deadline expired"));;
  put_cycle "diagnostics" (Snapshot snapshot);;
  t ← st_io now;
  put_cycle "observed_usb_to_identity_seconds" (Microseconds (round_half_even (t - sample_end arrived) 1000));;
  put_cycle "dhcp_xid_changed" (Flag (negb (bool_decide (n_xid ready = n_xid initial))));;
  put_cycle "status" (Text "checking_bytes_and_internet");;
  save (a_output a).

Definition check_traffic : attach unit :=
  t ← st_io (traffic fuel address);
  put_cycle "traffic" (Traffic t);;
  st_pure (raise_when (negb (x_access t) || negb (x_overlap t))
    (VerificationError "Internet request failed or was not concurrent with both streams"));;
  put_cycle "status" (Text "functional_pass").

Definition one_cycle (baseline : dict string) (before : usb_entry * lease) (number : Z) : attach (usb_entry * lease) :=
  let '(previous, initial) := before in
  await_unplug number;;
  ' (present, arrived) ← await_plug previous;
  ready ← await_network arrived baseline;
  await_identity arrived ready initial;;
  check_traffic;;
  save (a_output a);;
  st_ask (Say "functional PASS. Approval prompt remains a manual observation.");;
  mret (present, ready).

Definition attach_body : attach Z :=
  ' (previous, initial, baseline) ← preflight;
  _ ← st_fold (one_cycle baseline) (previous, initial) (range (a_start_cycle a) (a_start_cycle a + a_cycles a) 1);
  put "status" (Text "complete");;
  save (a_output a);;
  mret 0.

(** ** Failure *)
Definition attach_handled (e : exn) : bool := is_exception e || is_a KKeyboardInterrupt e.

(** [cycle == text] and the truth of a flag *)
Definition says (cycle : dict entry) (key value : string) : bool :=
  match dget cycle key with Some (Text s) => bool_decide (s = value) | _ => false end.
Definition flag (cycle : dict entry) (key : string) : bool :=
  match dget cycle key with Some (Flag b) => b | _ => false end.

Definition fail_cycle (error : entry) (cycle : dict entry) : dict entry :=
  if says cycle "status" "functional_pass" then cycle
  else
    let cycle := dset cycle "failed_stage" (default (Text "") (dget cycle "status")) in
    let cycle := dset cycle "status" (Text (if flag cycle "usb_detach_reattach_observed" then "failed" else "not_started")) in
    dset cycle "error" error.

Definition attach_failed (e : exn) : attach Z :=
  put "status" (Text "incomplete");;
  put "error" (Text (describe e));;
  st_modify (fun s => {| ev_report := ev_report s; ev_cycles := set_last (fail_cycle (Text (describe e))) (ev_cycles s) |});;
  save (a_output a);;
  st_raise e.
End Run.

Definition run `{host : !Host} `{codec : !Json} (fuel : nat) (a : attach_args) : attach Z :=
  system ← st_ask System;
  st_pure (raise_when (negb (bool_decide (system = "Darwin")))
    (RuntimeError "attach currently supports macOS only; it cannot qualify iOS"));;
  address ← st_pure (check_args a);
  already ← st_ask (OutputExists (a_output a));
  st_pure (raise_when (already : bool) (RuntimeError "output already exists; select a new file to preserve prior evidence"));;
  utc ← st_ask UtcNow;
  model ← st_io (successful ["sysctl"; "-n"; "hw.model"]);
  os ← st_io (successful ["sw_vers"]);
  st_modify (fun _ => {| ev_report := first_report a address utc (strip_text model) (strip_text os); ev_cycles := [] |});;
  save (a_output a);;
  st_try (attach_body fuel a address) attach_handled (attach_failed a).

(** ** Polling ends, with a sample inside the deadline *)

(** A clock that never goes back and advances with every reading. *)
Class AttachClock (env : environment attach_ret) (t : list attach_call -> Z) : Prop := {
  attach_reads : forall h, env h (Board Monotonic) = Ok (t h);
  attach_forward : forall h n, t h <= t (h ++ n);
  attach_advances : forall h n, t h < t (h ++ Board Monotonic :: n) }.

Section Polling.
Context (env : environment attach_ret) (t : list attach_call -> Z) `{!AttachClock env t}.
Context {A : Type} (probe : aio (option A)) (timeout : Z).

Abbreviation tick := (Board Monotonic).

Lemma now_runs h r n : runs env h now r n <-> r = Ok (t h) /\ n = [tick].
Proof. unfold now. rewrite (runs_ask env h tick r n). by rewrite attach_reads. Qed.

(** A value [v] of the probe, sampled after the calls [m] and within the deadline counted from [start] *)
Record sampled (start : Z) (h m : list attach_call) (v : A) (o : observation) : Prop := {
  sample_run : exists m1 k, m = m1 ++ tick :: k ++ [tick] /\ runs env (h ++ m1 ++ [tick]) probe (Ok (Some v)) k /\
    sample_start o = t (h ++ m1) /\ sample_end o = t (h ++ m1 ++ tick :: k);
  sample_in_time : sample_end o - start < timeout;
  sample_after_negative : forall x, last_negative o = Some x -> t h <= x < sample_start o }.

Lemma wait_turn_runs start last h o n : runs env h (wait_turn probe timeout start last) (Ok o) n ->
  match o with
  | inl last' => t h < t (h ++ n) /\ t h - start < timeout /\ exists x, last' = Some x /\ t h <= x < t (h ++ n)
  | inr None => True
  | inr (Some (v, ob)) => exists k, n = [tick; tick] ++ k ++ [tick] /\
      runs env (h ++ [tick; tick]) probe (Ok (Some v)) k /\ sample_start ob = t (h ++ [tick]) /\
      sample_end ob = t (h ++ [tick; tick] ++ k) /\ sample_end ob - start < timeout /\ last_negative ob = last
  end.
Proof.
  unfold wait_turn. intros (x & n1 & n2 & [[= ->] ->]%now_runs & H & ->)%runs_bind_Ok.
  destruct (Z.ltb_spec (t h - start) timeout) as [Hlt|]; [|by apply runs_ret in H as [[= ->] _]].
  apply runs_bind_Ok in H as (first & n1 & n3 & [[= ->] ->]%now_runs & H & ->).
  apply runs_bind_Ok in H as (value & k & n4 & Hp & H & ->). rewrite <- app_assoc in Hp. cbn [app] in Hp.
  apply runs_bind_Ok in H as (finish & n1 & n5 & [[= ->] ->]%now_runs & H & ->).
  destruct (Z.leb_spec timeout (t (((h ++ [tick]) ++ [tick]) ++ k) - start)) as [|Hin];
    [by apply runs_ret in H as [[= ->] _]|].
  rewrite <- !app_assoc in *. cbn [app] in *. destruct value as [v|].
  - apply runs_ret in H as [[= ->] ->]. exists k. split_and!; done.
  - apply runs_bind_Ok in H as (y & n1 & n6 & [[= ->] ->]%now_runs & H & ->).
    apply runs_bind_Ok in H as (u & n7 & n8 & Hu & [[= ->] ->]%runs_ret & ->).
    split; [apply attach_advances|]. split; [done|]. eexists. split; [reflexivity|].
    split; [apply attach_forward|].
    pose proof (attach_advances (h ++ [tick]) (k ++ tick :: tick :: n7 ++ [])) as Ha. rewrite <- app_assoc in Ha. exact Ha.
Qed.

Lemma wait_for_sampled h v o n : runs env h (wait_for probe timeout) (Ok (v, o)) n ->
  exists m, n = tick :: m /\ sampled (t h) (h ++ [tick]) m v o.
Proof.
  unfold wait_for. intros (start & n1 & n2 & [[= ->] ->]%now_runs & H & ->)%runs_bind_Ok.
  apply runs_bind_Ok in H as (out & m & n3 & H & [Hout ->]%runs_pure & ->). rewrite app_nil_r.
  symmetry in Hout. apply some_or_Ok in Hout as ->. exists m. split; [done|].
  rewrite <- (app_nil_r (h ++ [tick])) in H. apply (runs_loop_inv env _ _
    (fun last m => forall x, last = Some x -> t (h ++ [tick]) <= x < t ((h ++ [tick]) ++ m))
    (fun out m => match out with Some (v, o) => sampled (t h) (h ++ [tick]) m v o | None => True end) (h ++ [tick]) None []) in H.
  - exact H.
  - intros last k out k' HI Hr. apply wait_turn_runs in Hr. destruct out as [last'|[[v' o']|]].
    + destruct Hr as (_ & _ & x & -> & Hx). intros y [= <-]. rewrite app_assoc.
      pose proof (attach_forward (h ++ [tick]) k). lia.
    + destruct Hr as (q & -> & Hp & Hs & He & Hin & Hl). constructor.
      * exists (k ++ [tick]), q. rewrite <- !app_assoc in *. cbn [app] in *. done.
      * done.
      * intros x Hx. rewrite Hl in Hx. apply HI in Hx. rewrite Hs.
        pose proof (attach_forward ((h ++ [tick]) ++ k) [tick]). lia.
    + done.
  - done.
Qed.

Lemma wait_turn_ends start last h : (forall h, ends_at env h probe) ->
  (forall h d e, env h (Board (Pause d)) = Raise e -> e <> OutOfFuel) ->
  ends_at env h (wait_turn probe timeout start last).
Proof.
  intros Hp Hs. assert (Hn : forall h, ends_at env h now) by (by intros h0 r n [-> _]%now_runs).
  unfold wait_turn. repeat (apply ends_bind; [auto|intros ? ? _] || case_match); try apply ends_ret.
  intros r n' [-> _]%(runs_ask env _ (Board (Pause _))). intros Hr. by apply Hs in Hr.
Qed.

Lemma wait_for_ends h : (forall h, ends_at env h probe) ->
  (forall h d e, env h (Board (Pause d)) = Raise e -> e <> OutOfFuel) -> ends_at env h (wait_for probe timeout).
Proof.
  intros Hp Hs r n. unfold wait_for. intros [(e & [[=] _]%now_runs & _)|(start & n1 & n2 & [[= ->] ->]%now_runs & H & _)]%runs_bind.
  apply runs_bind in H as [(e & H & ->)|(out & n3 & n4 & _ & [-> _]%runs_pure & _)]; [|by destruct out].
  assert (Hne : Raise (A := option (A * observation)) e <> Raise OutOfFuel); [|congruence].
  apply (runs_loop_ends env (wait_turns timeout) (wait_turn probe timeout (t h)) (fun _ h' => t h < t h') (fun _ h' => timeout - (t h' - t h)) (@None Z) (h ++ [tick]) _ n2); [| | | |exact H].
  - intros last h' o k Hlt Hr. split; [by eapply wait_turn_ends in Hr|]. intros last' ->.
    apply wait_turn_runs in Hr as (Ha & Hb & _). lia.
  - apply attach_advances.
  - pose proof (attach_advances h []). unfold wait_turns. lia.
  - unfold wait_turns. lia.
Qed.
End Polling.

(** ** What a run leaves in its calls

    Each stage says what was asked and what the environment answered. *)

(** The board's calls are those of a socket. *)
Class BoardSocket (env : environment attach_ret) : Prop := board_socket : forall h, Socket (board_env env h).
#[export] Existing Instance board_socket.

Lemma runs_board {A} (env : environment attach_ret) h (m : sio A) r n :
  runs env h (board m) r n <-> exists k, n = Board <$> k /\ runs (board_env env h) [] m r k.
Proof.
  unfold runs, board. destruct (m (board_env env h) []) as [r' k']. split.
  - intros [= <- <-]. eauto.
  - by intros (k & -> & [= -> ->]).
Qed.

Section Observed.
Context `{host : !Host} `{codec : !Json} (env : environment attach_ret) `{!BoardSocket env}.
Context (fuel : nat) (a : attach_args) (address : string).

Abbreviation tick := (Board Monotonic).
Abbreviation astage := (@stage attach_call).

Definition asked (c : attach_call) : astage := fun h n => n = [c].

(** The clock was read. *)
Definition clock_read (t : Z) : astage := fun h n => n = [tick] /\ env h tick = Ok t.

(** A command of the host succeeded and said this text. *)
Definition command_said (argv : list string) (said : string) : astage := fun h n =>
  n = [Command argv] /\ exists result, env h (Command argv) = Ok result /\ returncode result = 0 /\ said = text result.

(** The USB registry was read: the selected device is in it, or it is not. *)
Definition registry_read (present : option usb_entry) : astage := fun h n =>
  let ioreg := Command ["ioreg"; "-r"; "-c"; "IOUSBHostDevice"; "-a"] in
  n = [ioreg] /\ exists result tree, env h ioreg = Ok result /\ returncode result = 0 /\
    plist_loads (stdout result) = Ok tree /\ selected_usb (a_device_id a) tree = Ok present.

(** The interface and its packet were read, and they show this lease of a local-only network. *)
Definition lease_read (l : lease) : astage := fun h n =>
  let show := Command ["ifconfig"; a_interface a] in
  let get := Command ["ipconfig"; "getpacket"; a_interface a] in
  n = [show; get] /\ exists out packet, env h show = Ok out /\ returncode out = 0 /\ env (h ++ [show]) get = Ok packet /\
    local_network (text out) (text packet) address l.

(** They do not show one yet. *)
Definition no_lease : astage := fun h n => runs env h (network (a_interface a) address) (Ok None) n.

(** Polling: the last sample [yes], taken between two readings of the clock, ended before the deadline; the
    sample before it, if there was one, was [no], and started when the observation says. *)
Definition polled (timeout : Z) (yes no : astage) (o : observation) : astage := fun h n =>
  exists start m q, n = tick :: m ++ tick :: q ++ [tick] /\ env h tick = Ok start /\
    env (h ++ tick :: m) tick = Ok (sample_start o) /\ yes (h ++ tick :: m ++ [tick]) q /\
    env (h ++ tick :: m ++ tick :: q) tick = Ok (sample_end o) /\ sample_end o - start < timeout /\
    match last_negative o with
    | None => m = [tick]
    | Some x => exists m1 q1 d, m = m1 ++ tick :: q1 ++ [tick; tick; Board (Pause d); tick] /\
        env (h ++ tick :: m1) tick = Ok x /\ no (h ++ tick :: m1 ++ [tick]) q1
    end.

(** The device left, and came back as [u]. *)
Definition left_usb (o : observation) : astage :=
  polled (a_unplug_timeout a) (registry_read None) (fun h n => exists u, registry_read (Some u) h n) o.
Definition returned_usb (u : usb_entry) (o : observation) : astage :=
  polled (a_plug_timeout a) (registry_read (Some u)) (registry_read None) o.

(** What is left of the readiness timeout, counted from the device's appearance *)
Definition budget_left (arrived : observation) (left : Z) : astage := fun h n =>
  exists t, clock_read t h n /\ left = a_ready_timeout a - (t - sample_end arrived) /\ 0 < left.

(** The board's page named the selected device and board. *)
Definition board_named (d : dict json) : astage := fun h n =>
  exists k, n = Board <$> k /\ sent (board_env env h) [] k = identity_request address /\
    identity_page (a_device_id a) (a_board a) (received (board_env env h) [] k) d.

(** A request was made; its times are readings of the clock around it. *)
Definition request_made (r : request) : astage := fun h n =>
  exists stamp, let curl := Curl (q_options r) stamp in n = [tick; TimeNs; curl; tick] /\
    env h tick = Ok (q_begin r) /\ env (h ++ [tick]) TimeNs = Ok stamp /\
    env (h ++ [tick; TimeNs]) curl = Ok (q_result r) /\ env (h ++ [tick; TimeNs; curl]) tick = Ok (q_end r).

(** A thread of the byte checks ended with this result. *)
Definition worker_ended (w : worker) (r : timed) : astage := fun h n =>
  n = [WorkerResult w] /\ env h (WorkerResult w) = Ok r.

(** A new connection carried the test bytes there and back. *)
Definition echoed_back (r : report_result) : astage := fun h n =>
  exists k, n = Board <$> k /\ sent (board_env env h) [] k = echo_payload 4096 /\
    received (board_env env h) [] k = echo_payload 4096 /\ r_bytes r = 4096.

(** Both threads were started, then the two requests made, and then the threads' results taken. *)
Definition traffic_done (t : traffic_result) : astage := fun h n =>
  exists first second, x_https t = [first; second] /\ q_options first = ["-4"] /\ q_options second = [] /\
  stages h n [asked (Submit EchoWorker address); asked (Submit SourceWorker address);
    request_made first; request_made second; worker_ended EchoWorker (x_echo t); worker_ended SourceWorker (x_source t);
    asked ClosePool; echoed_back (x_reconnect t)].

(** *** The steps leave these stages *)
Lemma successful_said argv said h n : runs env h (successful argv) (Ok said) n -> command_said argv said h n.
Proof.
  unfold successful, command. intros (result & n1 & n2 & H1 & H & ->)%runs_bind_Ok.
  apply (runs_ask env h (Command argv)) in H1 as [H1 ->].
  apply runs_bind_Ok in H as ([] & m1 & m2 & [Hc ->]%runs_pure & [[= ->] ->]%runs_ret & ->).
  symmetry in Hc. apply raise_when_Ok, negb_false_iff, Z.eqb_eq in Hc. split; [done|]. by exists result.
Qed.

Lemma usb_read present h n : runs env h (usb (a_device_id a)) (Ok present) n -> registry_read present h n.
Proof.
  unfold usb, command. intros (result & n1 & n2 & H1 & H & ->)%runs_bind_Ok.
  apply (runs_ask env h (Command _)) in H1 as [H1 ->].
  apply runs_bind_Ok in H as ([] & m1 & m2 & [Hc ->]%runs_pure & [Ht ->]%runs_pure & ->).
  symmetry in Hc, Ht. apply raise_when_Ok, negb_false_iff, Z.eqb_eq in Hc. apply bind_Ok in Ht as (tree & Ht & Hs).
  split; [done|]. by exists result, tree.
Qed.

Lemma gone_read o h n : runs env h (gone (a_device_id a)) (Ok o) n ->
  exists present, registry_read present h n /\ (o = Some tt <-> present = None).
Proof.
  unfold gone. intros (present & n1 & n2 & H%usb_read & [[= ->] ->]%runs_ret & ->)%runs_bind_Ok.
  exists present. rewrite app_nil_r. split; [done|]. by destruct present.
Qed.

Lemma network_read l h n : runs env h (network (a_interface a) address) (Ok (Some l)) n -> lease_read l h n.
Proof.
  unfold network, command. intros (out & n1 & n2 & H1 & H & ->)%runs_bind_Ok.
  apply (runs_ask env h (Command _)) in H1 as [H1 ->]. destruct (Z.eqb_spec (returncode out) 0) as [Hz|]; cbn [negb] in H.
  2: { destruct (contains _ _); [by apply runs_ret in H as [[=] _]|by apply runs_pure in H as [[=] _]]. }
  apply runs_bind_Ok in H as (packet & n3 & n4 & H2 & [Hn ->]%runs_pure & ->).
  apply (runs_ask env _ (Command _)) in H2 as [H2 ->]. symmetry in Hn. apply network_ready_Ok in Hn.
  split; [done|]. by exists out, packet.
Qed.

Lemma budget_read arrived message left h n : runs env h (budget a arrived message) (Ok left) n -> budget_left arrived left h n.
Proof.
  unfold budget, now. intros (t & n1 & n2 & H1 & H & ->)%runs_bind_Ok. apply (runs_ask env h tick) in H1 as [H1 ->].
  apply runs_bind_Ok in H as ([] & m1 & m2 & [Hc ->]%runs_pure & [[= ->] ->]%runs_ret & ->).
  symmetry in Hc. apply raise_when_Ok, Z.leb_gt in Hc. exists t. by split_and!.
Qed.

Lemma now_read t h n : runs env h now (Ok t) n -> clock_read t h n.
Proof. unfold now. intros [H ->]%(runs_ask env h tick). by split. Qed.

Lemma identity_named d timeout h n :
  runs env h (board (identity address (a_device_id a) (a_board a) timeout 80)) (Ok d) n -> board_named d h n.
Proof.
  intros (k & -> & H)%runs_board. apply identity_Ok in H as (_ & _ & Hs & _ & Hp); [|exact (board_socket h)]. by exists k.
Qed.

Lemma request_runs options r h n : runs env h (https_request options) (Ok r) n -> q_options r = options /\ request_made r h n.
Proof.
  unfold https_request, now. intros (first & n1 & n2 & H1 & H & ->)%runs_bind_Ok. apply (runs_ask env h tick) in H1 as [H1 ->].
  apply runs_bind_Ok in H as (stamp & m1 & m2 & H2 & H & ->). apply (runs_ask env _ TimeNs) in H2 as [H2 ->].
  apply runs_bind_Ok in H as (result & m1 & m3 & H3 & H & ->). apply (runs_ask env _ (Curl _ _)) in H3 as [H3 ->].
  apply runs_bind_Ok in H as (finish & m1 & m4 & H4 & [[= ->] ->]%runs_ret & ->). apply (runs_ask env _ tick) in H4 as [H4 ->].
  rewrite <- !app_assoc in *. split; [done|]. by exists stamp.
Qed.

Lemma wait_for_polled {A} (probe : aio (option A)) timeout (yes : A -> astage) (no : astage) v o h n :
  (forall h n v, runs env h probe (Ok (Some v)) n -> yes v h n) -> (forall h n, runs env h probe (Ok None) n -> no h n) ->
  runs env h (wait_for probe timeout) (Ok (v, o)) n -> polled timeout (yes v) no o h n.
Proof.
  intros Hyes Hno. unfold wait_for, now. intros (start & n1 & n2 & Hs & H & ->)%runs_bind_Ok.
  apply (runs_ask env h tick) in Hs as [Hs ->]. apply runs_bind_Ok in H as (out & m & n3 & H & [Hout ->]%runs_pure & ->).
  rewrite app_nil_r. symmetry in Hout. apply some_or_Ok in Hout as ->.
  pose (J (last : option Z) (m : list attach_call) := match last with
    | None => m = []
    | Some x => exists m1 q1 d, m = m1 ++ tick :: q1 ++ [tick; tick; Board (Pause d)] /\
        env (h ++ tick :: m1) tick = Ok x /\ no (h ++ tick :: m1 ++ [tick]) q1 end).
  pose (F (out : option (A * observation)) m := forall v o, out = Some (v, o) -> polled timeout (yes v) no o h ([tick] ++ m)).
  rewrite <- (app_nil_r (h ++ [tick])) in H.
  apply (runs_loop_inv env _ _ J F (h ++ [tick]) None []) in H; [exact (H v o eq_refl)| |done].
  clear v o H m. intros last m out q HJ H. unfold wait_turn, now in H. rewrite <- !app_assoc in H. cbn [app] in H.
  apply runs_bind_Ok in H as (t & n1 & n2 & H1 & H & ->). apply (runs_ask env _ tick) in H1 as [_ ->].
  destruct (_ <? _); [|by apply runs_ret in H as [[= ->] ->]]. rewrite <- app_assoc in H. cbn [app] in H.
  apply runs_bind_Ok in H as (first & n1 & n3 & H1 & H & ->). apply (runs_ask env _ tick) in H1 as [Hf ->].
  rewrite <- app_assoc in H. cbn [app] in H. apply runs_bind_Ok in H as (value & p & n4 & Hp & H & ->).
  apply runs_bind_Ok in H as (finish & n1 & n5 & H1 & H & ->). apply (runs_ask env _ tick) in H1 as [He ->].
  destruct (Z.leb_spec timeout (finish - start)) as [|Hin]; [by apply runs_ret in H as [[= ->] ->]|].
  rewrite <- ?app_assoc in *. cbn [app] in *. destruct value as [v|].
  - apply runs_ret in H as [[= ->] ->]. intros v' o' [= <- <-]. exists start, (m ++ [tick]), p. cbn [sample_start sample_end last_negative].
    rewrite <- ?app_assoc. cbn [app]. rewrite <- ?app_assoc in *. cbn [app] in *. split_and!; [done..|by apply Hyes|done|done|].
    destruct last as [x|]; [|by rewrite HJ]. destruct HJ as (m1 & q1 & d & -> & Hx & Hn). exists m1, q1, d.
    rewrite <- !app_assoc. cbn [app]. rewrite <- ?app_assoc. done.
  - apply runs_bind_Ok in H as (t' & n1 & n6 & H1 & H & ->). apply (runs_ask env _ tick) in H1 as [_ ->].
    apply runs_bind_Ok in H as (u & n1 & n7 & H1 & [[= ->] ->]%runs_ret & ->). apply (runs_ask env _ (Board (Pause _))) in H1 as [_ ->].
    eexists (m ++ [tick]), p, _. rewrite <- !app_assoc. cbn [app]. split_and!; [done|done|by apply Hno].
Qed.

Ltac assoc_right := repeat first [rewrite <- app_assoc | progress simpl app].

Lemma traffic_runs t h n : runs env h (traffic fuel address) (Ok t) n ->
  traffic_done t h n /\
  x_access t = forallb (fun r => curl_exit (q_result r) =? 0) (x_https t) /\
  x_overlap t = forallb (fun r => within r (x_echo t) && within r (x_source t)) (x_https t).
Proof.
  unfold traffic. intros ([[echoed sourced] requests] & n1 & n2 & H1 & H & ->)%runs_bind_Ok.
  apply runs_bind_Ok in H as (again & n3 & n4 & H2 & [[= ->] ->]%runs_ret & ->). rewrite app_nil_r.
  apply runs_finally in H1 as (q & r1 & m1 & m2 & H1 & Hc & -> & Hr). destruct q; [|done]. subst r1.
  apply (runs_ask env _ ClosePool) in Hc as [_ ->].
  apply runs_bind_Ok in H1 as (u & k1 & k2 & Hu & H1 & ->). apply (runs_ask env _ (Submit _ _)) in Hu as [_ ->].
  apply runs_bind_Ok in H1 as (u2 & k1 & k3 & Hu & H1 & ->). apply (runs_ask env _ (Submit _ _)) in Hu as [_ ->].
  apply runs_bind_Ok in H1 as (l & k1 & k4 & Hq & H1 & ->). cbn [io_fold] in Hq.
  apply runs_bind_Ok in Hq as (l1 & j1 & j2 & Hq1 & Hq & ->). apply runs_bind_Ok in Hq1 as (first & j3 & j4 & Hf & [[= ->] ->]%runs_ret & ->).
  apply runs_bind_Ok in Hq as (l2 & j5 & j6 & Hq2 & [[= ->] ->]%runs_pure & ->).
  apply runs_bind_Ok in Hq2 as (second & j7 & j8 & Hs & [[= ->] ->]%runs_ret & ->).
  apply runs_bind_Ok in H1 as (e & j1 & j2 & He & H1 & ->). apply (runs_ask env _ (WorkerResult _)) in He as [He ->].
  apply runs_bind_Ok in H1 as (s & j1 & j4 & Hx & [[= -> -> ->] ->]%runs_ret & ->). apply (runs_ask env _ (WorkerResult _)) in Hx as [Hx ->].
  apply request_runs in Hf as [Of Hf]. apply request_runs in Hs as [Os Hs].
  apply runs_board in H2 as (k & -> & H2). apply echo_round_trip in H2 as (E1 & E2 & E3); [|exact (board_socket _)|lia].
  split; [|done]. exists first, second. split_and!; [done..|]. cbn [app x_echo x_source x_reconnect].
  rewrite ?app_nil_r in *. rewrite <- ?app_assoc in *. cbn [app] in *.
  do 2 (apply (stages_cons _ [_]); [done|assoc_right]). do 2 (apply stages_cons; [assumption|assoc_right]).
  do 3 (apply (stages_cons _ [_]); [by repeat split|assoc_right]). apply stages_one. by exists k.
Qed.


End Observed.

(** ** What a passing cycle did

    Its observations, what it recorded of them, and the stages it left in the calls. *)
Record cycle_facts := {
  cf_detached : observation; cf_arrived : observation; cf_usb : usb_entry; cf_left : Z; cf_addressed : observation;
  cf_lease : lease; cf_board_route : string; cf_internet_route : string; cf_identity_left : Z; cf_snapshot : dict json;
  cf_checked : Z; cf_identified : Z; cf_traffic : traffic_result }.

Definition cycle_of (number : Z) (status : string) (seen : bool) (rest : dict entry) : dict entry :=
  [("cycle", Int number); ("status", Text status); ("usb_detach_reattach_observed", Flag seen)] ++ rest.

(** The entry of a passing cycle *)
Definition cycle_record (number : Z) (initial : lease) (f : cycle_facts) : dict entry :=
  cycle_of number "functional_pass" true
    [("detached_observation", Seen (cf_detached f)); ("usb", Usb (cf_usb f)); ("arrived_observation", Seen (cf_arrived f));
     ("network", Network (cf_lease f)); ("host_address_observation", Seen (cf_addressed f));
     ("observed_usb_to_address_seconds",
        Microseconds (round_half_even (sample_end (cf_addressed f) - sample_end (cf_arrived f)) 1000));
     ("board_route", Text (cf_board_route f)); ("internet_route", Text (cf_internet_route f));
     ("diagnostics", Snapshot (cf_snapshot f));
     ("observed_usb_to_identity_seconds", Microseconds (round_half_even (cf_identified f - sample_end (cf_arrived f)) 1000));
     ("dhcp_xid_changed", Flag (negb (bool_decide (n_xid (cf_lease f) = n_xid initial))));
     ("traffic", Traffic (cf_traffic f))].

Section Cycle.
Context `{host : !Host} `{codec : !Json} (env : environment attach_ret) (a : attach_args) (address : string).

Abbreviation astage := (@stage attach_call).

(** What was seen is a new attachment of the selected board to the host alone, and the requests succeeded while
    both threads were at work. *)
Record cycle_sound (baseline : dict string) (before : usb_entry) (f : cycle_facts) : Prop := {
  new_instance : plist_eq (u_registry_id (cf_usb f)) (u_registry_id before) = false;
  board_routed : through_board a (route_fields (cf_board_route f)) = true;
  internet_routed : same_fields (route_fields (cf_internet_route f)) baseline = true;
  identified_in_time : cf_checked f - sample_end (cf_arrived f) < a_ready_timeout a;
  started_in_order : ready_before_attach (cf_snapshot f);
  internet_reached : Forall (fun r => curl_exit (q_result r) = 0) (x_https (cf_traffic f));
  internet_beside : Forall (fun r => Forall (fun w => begin_at w <= q_begin r <= q_end r /\ q_end r <= end_at w)
    [x_echo (cf_traffic f); x_source (cf_traffic f)]) (x_https (cf_traffic f)) }.

(** The device left, came back, got its lease, was routed and named, and carried the bytes, in this order. *)
Definition cycle_stages (f : cycle_facts) : list astage :=
  [left_usb env a (cf_detached f); returned_usb env a (cf_usb f) (cf_arrived f);
   budget_left env a (cf_arrived f) (cf_left f);
   polled env (cf_left f) (lease_read env a address (cf_lease f)) (no_lease env a address) (cf_addressed f);
   command_said env ["route"; "-n"; "get"; address] (cf_board_route f);
   command_said env ["route"; "-n"; "get"; "default"] (cf_internet_route f);
   budget_left env a (cf_arrived f) (cf_identity_left f); board_named env a address (cf_snapshot f);
   clock_read env (cf_checked f); clock_read env (cf_identified f); traffic_done env address (cf_traffic f)].

(** Consecutive passing cycles from the device and lease [first] on, with their stages *)
Inductive passed_cycles (start : Z) (baseline : dict string) (first : usb_entry * lease) :
    list (dict entry) -> usb_entry * lease -> list astage -> Prop :=
| passed_none : passed_cycles start baseline first [] first []
| passed_more l last k f : passed_cycles start baseline first l last k -> cycle_sound baseline last.1 f ->
    passed_cycles start baseline first (l ++ [cycle_record (start + blen l) last.2 f]) (cf_usb f, cf_lease f)
      (k ++ cycle_stages f).

(** A cycle is being worked on. *)
Definition in_progress (number : Z) (c : dict entry) : Prop :=
  dget c "cycle" = Some (Int number) /\ exists status, dget c "status" = Some (Text status) /\ status <> "functional_pass".

(** ** Work on one cycle

    [works l c m Q]: [m] changes nothing but the cycle [c] appended last, whose stages so far are [l], after
    those of the run before it; when it raises, that cycle is in progress or has passed. *)
Context (fuel : nat) (report : dict entry) (done : list (dict entry)) (before : list astage).
Context (number : Z) (baseline : dict string) (previous : usb_entry) (initial : lease).

(** The last cycle, after the calls [k]: what it claims to have observed was observed. *)
Definition open_cycle (k : list attach_call) (c : dict entry) : Prop :=
  stages [] k before /\ in_progress number c /\
    (flag c "usb_detach_reattach_observed" = true -> exists o u o', stages [] k (before ++ [left_usb env a o; returned_usb env a u o'])) \/
  exists f, c = cycle_record number initial f /\ cycle_sound baseline previous f /\ stages [] k (before ++ cycle_stages f).

Definition holding (c : dict entry) : evidence := {| ev_report := report; ev_cycles := done ++ [c] |}.

Definition works {A} (l : list astage) (c : dict entry) (m : attach A) (Q : A -> list astage -> dict entry -> Prop) : Prop :=
  triple env [] (fun s k => s = holding c /\ stages [] k (before ++ l)) m
    (fun x s k => exists l' c', s = holding c' /\ stages [] k (before ++ l') /\ Q x l' c')
    (fun _ s k => exists c', s = holding c' /\ open_cycle k c').

(** Whatever is called next, the cycle is open. *)
Definition openable (l : list astage) (c : dict entry) : Prop := forall k, stages [] k (before ++ l) -> open_cycle k c.

Lemma works_bind {A B} l c (m : attach A) (f : A -> attach B) Q1 Q :
  works l c m Q1 -> (forall x l' c', Q1 x l' c' -> works l' c' (f x) Q) -> works l c (m ≫= f) Q.
Proof.
  intros Hm Hf. eapply triple_bind; [exact Hm|]. intros x s k (l' & c' & -> & Hk & Hx).
  by apply (Hf x l' c' Hx (holding c') k).
Qed.

Lemma works_weaken {A} l c (m : attach A) (Q Q' : A -> list astage -> dict entry -> Prop) :
  works l c m Q -> (forall x l' c', Q x l' c' -> Q' x l' c') -> works l c m Q'.
Proof. intros Hm HQ. eapply triple_weaken; [exact Hm|done| |done]. naive_solver. Qed.

(** A step that is a stage *)
Lemma works_io {A} l c (m : aio A) (T : A -> astage) (F : A -> Prop) : openable l c ->
  (forall h x n, runs env h m (Ok x) n -> T x h n /\ F x) -> works l c (st_io m) (fun x l' c' => l' = l ++ [T x] /\ c' = c /\ F x).
Proof.
  intros Ho HT. apply triple_io. intros s k [x|e] n [-> Hk] Hr.
  - apply HT in Hr as [Hx HF]. exists (l ++ [T x]), c. split_and!; [done| |done..]. rewrite app_assoc. by apply stages_step.
  - exists c. split; [done|]. apply Ho. by apply stages_skip.
Qed.

(** A step that is left out *)
Lemma works_ask l c q : openable l c -> works l c (st_ask q) (fun _ l' c' => l' = l /\ c' = c).
Proof.
  intros Ho. apply triple_ask. intros s k [-> Hk]. pose proof (stages_skip _ k [q] _ Hk). destruct (env _ q); [|eauto].
  by exists l, c.
Qed.

Lemma works_pure {A} l c (m : result A) : openable l c -> works l c (st_pure m) (fun x l' c' => m = Ok x /\ l' = l /\ c' = c).
Proof. intros Ho. apply triple_pure. intros s k [-> Hk]. destruct m; [by exists l, c|eauto]. Qed.

Lemma works_ret {A} l c (x : A) : works l c (mret x) (fun y l' c' => y = x /\ l' = l /\ c' = c).
Proof. apply triple_ret. intros s k [-> Hk]. by exists l, c. Qed.

Lemma set_last_snoc {A} (f : A -> A) (l : list A) x : set_last f (l ++ [x]) = l ++ [f x].
Proof. induction l as [|y l IH]; [done|]. cbn [app set_last]. rewrite IH. by destruct l. Qed.

Lemma works_put l c key value : works l c (put_cycle key value) (fun _ l' c' => l' = l /\ c' = dset c key value).
Proof.
  apply triple_modify. intros s k [-> Hk]. exists l, (dset c key value). split; [|done]. unfold holding. cbn. by rewrite set_last_snoc.
Qed.

Lemma works_save l c path : openable l c -> works l c (save path) (fun _ l' c' => l' = l /\ c' = c).
Proof.
  intros Ho. unfold save. eapply works_bind; [by apply works_ask|]. intros _ ? ? [-> ->].
  eapply works_bind with (Q1 := fun _ l' c' => l' = l /\ c' = c); [apply triple_get; intros s k [-> Hk]; by exists l, c|].
  intros e ? ? [-> ->]. eapply works_bind; [by apply works_ask|]. intros _ ? ? [-> ->].
  exact (works_ask l c (Replace (path +:+ ".tmp") path) Ho).
Qed.

(** A cycle that claims nothing yet, and one whose first two stages are the device leaving and coming back *)
Lemma openable_waiting l c : in_progress number c -> flag c "usb_detach_reattach_observed" = false -> openable l c.
Proof. intros Hc Hf k Hk. left. split; [by eapply stages_first|]. split; [done|]. by rewrite Hf. Qed.

Lemma openable_observed o u o' l c : in_progress number c ->
  openable ([left_usb env a o; returned_usb env a u o'] ++ l) c.
Proof.
  intros Hc k Hk. left. split; [by eapply stages_first|]. split; [done|]. intros _. exists o, u, o'.
  rewrite app_assoc in Hk. by eapply stages_first.
Qed.

Ltac in_work := split; [reflexivity|eexists; split; [reflexivity|discriminate]].
Ltac cycle_open := first
  [ apply openable_waiting; [in_work|reflexivity] | eapply (openable_observed _ _ _ (_ :: _)); in_work
  | eapply (openable_observed _ _ _ []); in_work ].

(** Follow one step of a part. *)
Ltac cycle_step := match goal with
  | |- works _ _ (_ ≫= _) _ => eapply works_bind; [cycle_step|cbn beta]
  | |- works _ _ (put_cycle _ _) _ => apply works_put
  | |- works _ _ (save _) _ => apply works_save; cycle_open
  | |- works ?l ?c (st_ask ?q) _ => refine (works_ask l c q _); cycle_open
  | |- works _ _ (st_pure _) _ => apply works_pure; cycle_open
  | |- works _ _ (mret _) _ => apply works_ret
  end.
Ltac cycle_next := cycle_step; intros ? ? ? [-> ->].
Ltac cycle_seen T F := eapply works_bind; [apply (works_io _ _ _ T F); [cycle_open|]|].

(** ** The parts of a cycle *)
Definition detached_cycle (o : observation) : dict entry :=
  cycle_of number "waiting_for_plug" false [("detached_observation", Seen o)].

Lemma await_unplug_works :
  works [] (first_cycle number) (save (a_output a);; st_ask (Say (armed_message number));;
    ' (_, detached) ← st_io (wait_for (gone (a_device_id a)) (a_unplug_timeout a));
    put_cycle "status" (Text "waiting_for_plug");;
    put_cycle "detached_observation" (Seen detached);;
    save (a_output a)) (fun _ l' c' => exists o, l' = [left_usb env a o] /\ c' = detached_cycle o).
Proof.
  cycle_next. cycle_next. cycle_seen (fun x : unit * observation => left_usb env a x.2) (fun _ : unit * observation => True).
  { intros h [[] o] n H. split; [|done]. apply (wait_for_polled env _ _ (fun _ => registry_read env a None)
      (fun h n => exists u, registry_read env a (Some u) h n)) in H; [done|..].
    - intros h' n' [] (p & Hr & Hp)%(gone_read env). by rewrite (proj1 Hp eq_refl) in Hr.
    - intros h' n' (p & Hr & Hp)%(gone_read env). destruct p as [u|]; [eauto|]. by pose proof (proj2 Hp eq_refl). }
  intros [[] o] ? ? (-> & -> & _). do 2 cycle_next. eapply works_weaken; [cycle_step|]. intros _ ? ? [-> ->]. by exists o.
Qed.


Definition plugged_cycle (o : observation) (u : usb_entry) (o' : observation) (status : string) (rest : dict entry) : dict entry :=
  cycle_of number status true ([("detached_observation", Seen o); ("usb", Usb u); ("arrived_observation", Seen o')] ++ rest).

Lemma await_plug_works o :
  works [left_usb env a o] (detached_cycle o) (await_plug a previous) (fun '(u, o') l' c' =>
    l' = [left_usb env a o; returned_usb env a u o'] /\ c' = plugged_cycle o u o' "waiting_for_network" [] /\
    plist_eq (u_registry_id u) (u_registry_id previous) = false).
Proof.
  unfold await_plug. cycle_next.
  cycle_seen (fun x : usb_entry * observation => returned_usb env a x.1 x.2) (fun _ : usb_entry * observation => True).
  { intros h [u o'] n H. split; [|done].
    apply (wait_for_polled env _ _ (fun u => registry_read env a (Some u)) (registry_read env a None)) in H; [done|..];
      intros *; apply (usb_read env). }
  intros [u o'] ? ? (-> & -> & _). cbn [app fst snd]. do 5 cycle_next.
  cycle_step. intros ? ? ? (Hr%raise_when_Ok & -> & ->).
  eapply works_weaken; [apply works_ret|]. by intros ? ? ? (-> & -> & ->).
Qed.

(** What the network part adds *)
Definition network_entries (o' observed : observation) (ready : lease) (to_board to_internet : string) : dict entry :=
  [("network", Network ready); ("host_address_observation", Seen observed);
   ("observed_usb_to_address_seconds", Microseconds (round_half_even (sample_end observed - sample_end o') 1000));
   ("board_route", Text to_board); ("internet_route", Text to_internet)].

Definition network_stages (o' observed : observation) (left : Z) (ready : lease) (to_board to_internet : string) : list astage :=
  [budget_left env a o' left; polled env left (lease_read env a address ready) (no_lease env a address) observed;
   command_said env ["route"; "-n"; "get"; address] to_board; command_said env ["route"; "-n"; "get"; "default"] to_internet].

Lemma await_network_works o u o' :
  works [left_usb env a o; returned_usb env a u o'] (plugged_cycle o u o' "waiting_for_network" [])
    (await_network a address o' baseline) (fun ready l' c' => exists observed left to_board to_internet,
      l' = [left_usb env a o; returned_usb env a u o'] ++ network_stages o' observed left ready to_board to_internet /\
      c' = plugged_cycle o u o' "waiting_for_network" (network_entries o' observed ready to_board to_internet) /\
      through_board a (route_fields to_board) = true /\ same_fields (route_fields to_internet) baseline = true).
Proof.
  unfold await_network. cycle_seen (fun x => budget_left env a o' x) (fun _ : Z => True).
  { intros h v n H. split; [by eapply (budget_read env)|done]. }
  intros left ? ? (-> & -> & _). cbn [app].
  cycle_seen (fun x : lease * observation => polled env left (lease_read env a address x.1) (no_lease env a address) x.2)
    (fun _ : lease * observation => True).
  { intros h [v w] n H. split; [|done].
    by apply (wait_for_polled env _ _ (lease_read env a address) (no_lease env a address)) in H; [|intros *; apply (network_read env)|]. }
  intros [ready observed] ? ? (-> & -> & _). cbn [app fst snd]. do 3 cycle_next.
  cycle_seen (fun x => command_said env ["route"; "-n"; "get"; address] x) (fun _ : string => True).
  { intros h v n H. split; [by apply (successful_said env)|done]. }
  intros to_board ? ? (-> & -> & _). cbn [app].
  cycle_seen (fun x => command_said env ["route"; "-n"; "get"; "default"] x) (fun _ : string => True).
  { intros h v n H. split; [by apply (successful_said env)|done]. }
  intros to_internet ? ? (-> & -> & _). cbn [app]. do 2 cycle_next. cycle_step. intros ? ? ? (Hr%raise_when_Ok & -> & ->).
  apply orb_false_iff in Hr as [H1%negb_false_iff H2%negb_false_iff].
  eapply works_weaken; [apply works_ret|]. intros ? ? ? (-> & -> & ->). by exists observed, left, to_board, to_internet.
Qed.

(** What the identity part adds *)
Definition identity_entries (o' : observation) (ready : lease) (d : dict json) (identified : Z) : dict entry :=
  [("diagnostics", Snapshot d);
   ("observed_usb_to_identity_seconds", Microseconds (round_half_even (identified - sample_end o') 1000));
   ("dhcp_xid_changed", Flag (negb (bool_decide (n_xid ready = n_xid initial))))].

Definition identity_stages (o' : observation) (left : Z) (d : dict json) (checked identified : Z) : list astage :=
  [budget_left env a o' left; board_named env a address d; clock_read env checked; clock_read env identified].

Lemma await_identity_works o u o' observed left ready to_board to_internet `{!BoardSocket env} :
  let l := [left_usb env a o; returned_usb env a u o'] ++ network_stages o' observed left ready to_board to_internet in
  let es := network_entries o' observed ready to_board to_internet in
  works l (plugged_cycle o u o' "waiting_for_network" es)
    (await_identity a address o' ready initial) (fun _ l' c' => exists left2 d checked identified,
      l' = l ++ identity_stages o' left2 d checked identified /\
      c' = plugged_cycle o u o' "checking_bytes_and_internet" (es ++ identity_entries o' ready d identified) /\
      checked - sample_end o' < a_ready_timeout a /\ ready_before_attach d).
Proof.
  cbn zeta. unfold await_identity, network_stages. cbn [app]. cycle_seen (fun x => budget_left env a o' x) (fun _ : Z => True).
  { intros h v n H. split; [by eapply (budget_read env)|done]. }
  intros left2 ? ? (-> & -> & _). cbn [app]. cycle_seen (fun x => board_named env a address x) (fun _ : dict json => True).
  { intros h v n H. split; [by eapply (identity_named env)|done]. }
  intros d ? ? (-> & -> & _). cbn [app]. cycle_step. intros [] ? ? (Hd%diagnostics_ready_iff & -> & ->).
  cycle_seen (fun x => clock_read env x) (fun _ : Z => True); [intros h v n H; split; [by apply now_read|done]|].
  intros checked ? ? (-> & -> & _). cbn [app]. cycle_step. intros ? ? ? (Ht%raise_when_Ok%Z.leb_gt & -> & ->). cycle_next.
  cycle_seen (fun x => clock_read env x) (fun _ : Z => True); [intros h v n H; split; [by apply now_read|done]|].
  intros identified ? ? (-> & -> & _). cbn [app]. do 3 cycle_next. eapply works_weaken; [cycle_step|].
  intros ? ? ? [-> ->]. exists left2, d, checked, identified. done.
Qed.

Lemma within_times r w : within r w = true -> begin_at w <= q_begin r <= q_end r /\ q_end r <= end_at w.
Proof. unfold within. intros H. breflect. lia. Qed.

Lemma check_traffic_works o u o' observed left ready to_board to_internet left2 d checked identified `{!BoardSocket env} :
  let l := [left_usb env a o; returned_usb env a u o'] ++ network_stages o' observed left ready to_board to_internet ++
    identity_stages o' left2 d checked identified in
  let es := network_entries o' observed ready to_board to_internet ++ identity_entries o' ready d identified in
  works l (plugged_cycle o u o' "checking_bytes_and_internet" es) (check_traffic fuel address) (fun _ l' c' => exists t,
    l' = l ++ [traffic_done env address t] /\ c' = plugged_cycle o u o' "functional_pass" (es ++ [("traffic", Traffic t)]) /\
    Forall (fun r => curl_exit (q_result r) = 0) (x_https t) /\
    Forall (fun r => Forall (fun w => begin_at w <= q_begin r <= q_end r /\ q_end r <= end_at w) [x_echo t; x_source t]) (x_https t)).
Proof.
  cbn zeta. unfold check_traffic, network_stages, identity_stages. cbn [app].
  cycle_seen (fun x => traffic_done env address x) (fun t => x_access t = forallb (fun r => curl_exit (q_result r) =? 0) (x_https t) /\
    x_overlap t = forallb (fun r => within r (x_echo t) && within r (x_source t)) (x_https t)).
  { intros h v n H. by eapply (traffic_runs env). }
  intros t ? ? (-> & -> & Ha & Ho). cbn [app]. cycle_next. cycle_step. intros ? ? ? (Ht%raise_when_Ok & -> & ->).
  rewrite Ha, Ho in Ht. apply orb_false_iff in Ht as [H1%negb_false_iff H2%negb_false_iff].
  eapply works_weaken; [apply works_put|]. intros ? ? ? [-> ->]. exists t. split_and!; [done|done|..].
  - rewrite forallb_forall in H1. apply Forall_forall. intros r Hr%list_elem_of_In%H1. by apply Z.eqb_eq in Hr.
  - rewrite forallb_forall in H2. apply Forall_forall. intros r Hr%list_elem_of_In%H2.
    apply andb_true_iff in Hr as [He%within_times Hs%within_times]. by do 2 (constructor; [done|]).
Qed.

(** After the device left: the rest of a cycle, which then has passed *)
Lemma cycle_rest_works o `{!BoardSocket env} :
  works [left_usb env a o] (detached_cycle o)
    (' (present, arrived) ← await_plug a previous;
     ready ← await_network a address arrived baseline;
     await_identity a address arrived ready initial;;
     check_traffic fuel address;;
     save (a_output a);;
     st_ask (Say "functional PASS. Approval prompt remains a manual observation.");;
     mret (present, ready))
    (fun x l c => exists f, l = cycle_stages f /\ c = cycle_record number initial f /\ cycle_sound baseline previous f /\
       x = (cf_usb f, cf_lease f)).
Proof.
  eapply works_bind; [apply await_plug_works|]. intros [u o'] ? ? (-> & -> & Hu).
  eapply works_bind; [apply await_network_works|]. intros ready ? ? (observed & left & to_board & to_internet & -> & -> & Hb & Hi).
  eapply works_bind; [by apply await_identity_works|]. intros _ ? ? (left2 & d & checked & identified & -> & -> & Hc & Hd).
  rewrite <- app_assoc. eapply works_bind; [by apply check_traffic_works|]. intros _ ? ? (t & -> & -> & H1 & H2).
  set (f := {| cf_detached := o; cf_arrived := o'; cf_usb := u; cf_left := left; cf_addressed := observed; cf_lease := ready;
    cf_board_route := to_board; cf_internet_route := to_internet; cf_identity_left := left2; cf_snapshot := d;
    cf_checked := checked; cf_identified := identified; cf_traffic := t |}).
  assert (Hs : cycle_sound baseline previous f) by by constructor.
  change (works (cycle_stages f) (cycle_record number initial f) (save (a_output a);;
    st_ask (Say "functional PASS. Approval prompt remains a manual observation.");; mret (u, ready))
    (fun x l c => exists f, l = cycle_stages f /\ c = cycle_record number initial f /\ cycle_sound baseline previous f /\
       x = (cf_usb f, cf_lease f))).
  assert (Ho : openable (cycle_stages f) (cycle_record number initial f)) by (intros k Hk; right; by exists f).
  eapply works_bind; [by apply works_save|]. intros _ ? ? [-> ->].
  eapply works_bind; [exact (works_ask _ _ (Say _) Ho)|]. intros _ ? ? [-> ->].
  eapply works_weaken; [apply works_ret|]. intros x ? ? (-> & -> & ->). by exists f.
Qed.
End Cycle.

Section Cycles.
Context `{host : !Host} `{codec : !Json} (env : environment attach_ret) `{!BoardSocket env}.
Context (fuel : nat) (a : attach_args) (address : string).

(** One cycle appends one entry, which has passed when the cycle returns. *)
Lemma one_cycle_triple report done before number u l baseline :
  triple env [] (fun s k => s = {| ev_report := report; ev_cycles := done |} /\ stages [] k before)
    (one_cycle fuel a address baseline (u, l) number)
    (fun x s k => exists f, s = holding report done (cycle_record number l f) /\ stages [] k (before ++ cycle_stages env a address f) /\
       cycle_sound a baseline u f /\ x = (cf_usb f, cf_lease f))
    (fun _ s k => exists c, s = holding report done c /\ open_cycle env a address before number baseline u l k c).
Proof.
  unfold one_cycle. eapply triple_bind with (R := fun _ s k => exists l' c, s = holding report done c /\
    stages [] k (before ++ l') /\ exists o, l' = [left_usb env a o] /\ c = detached_cycle number o).
  - unfold await_unplug. eapply triple_bind with (R := fun _ s k => s = holding report done (first_cycle number) /\ stages [] k (before ++ [])).
    + apply triple_modify. intros s k [-> Hk]. by rewrite app_nil_r.
    + intros _. apply (await_unplug_works env a address report done before number baseline u l).
  - intros _. apply triple_from. intros s k (l' & c & -> & Hk & o & -> & ->).
    eapply triple_weaken; [by apply (cycle_rest_works env a address fuel report done before number baseline u l)|by intros ? ? [-> ->]| |by intros].
    intros x s n (l' & c & -> & Hn & f & -> & -> & Hs & ->). by exists f.
Qed.

(** Where the work stops: some cycles have passed, the next one may be open. *)
Definition stopped_in (report : dict entry) (before : list (@stage attach_call)) (start : Z) (baseline : dict string)
    (first : usb_entry * lease) (s : evidence) (k : list attach_call) : Prop :=
  exists done last ks, passed_cycles env a address start baseline first done last ks /\ stages [] k (before ++ ks) /\
    (s = {| ev_report := report; ev_cycles := done |} \/
     exists c, s = holding report done c /\
       open_cycle env a address (before ++ ks) (start + blen done) baseline last.1 last.2 k c).

Lemma range_seqZ start stop : range start stop 1 = seqZ start (stop - start).
Proof.
  unfold range. replace ((stop - start + 1 - 1) / 1) with (stop - start) by (rewrite Z.div_1_r; lia).
  rewrite <- (Z.add_0_r start) at 2. rewrite <- fmap_add_seqZ. apply list_fmap_ext. intros. lia.
Qed.

Lemma open_stages before number baseline u l k c : open_cycle env a address before number baseline u l k c -> stages [] k before.
Proof. intros [[H _]|(f & _ & _ & H)]; [done|by eapply stages_first]. Qed.

Lemma cycles_triple report before start baseline first n : forall done last ks,
  passed_cycles env a address start baseline first done last ks ->
  triple env [] (fun s k => s = {| ev_report := report; ev_cycles := done |} /\ stages [] k (before ++ ks))
    (st_fold (one_cycle fuel a address baseline) last (seqZ (start + blen done) (Z.of_nat n)))
    (fun _ s k => exists done' last' ks', s = {| ev_report := report; ev_cycles := done' |} /\
       passed_cycles env a address start baseline first done' last' ks' /\ blen done' = blen done + Z.of_nat n /\
       stages [] k (before ++ ks'))
    (fun _ s k => stopped_in report before start baseline first s k).
Proof.
  induction n as [|n IH]; intros done [u l] ks Hd.
  - rewrite seqZ_nil by lia. apply triple_pure. intros s k [-> Hk]. exists done, (u, l), ks. split_and!; [done..|lia|done].
  - rewrite seqZ_cons by lia. cbn [st_fold]. change (st_bind ?m ?g) with (m ≫= g).
    eapply triple_bind.
    + eapply triple_weaken; [apply (one_cycle_triple report done (before ++ ks))|done|intros x s k H; exact H|].
      intros e s k (c & -> & Hc). exists done, (u, l), ks. split; [done|]. split; [by eapply open_stages|]. right. eauto.
    + intros x. apply triple_from. intros s k (f & -> & Hk & Hs & ->).
      pose proof (passed_more _ _ _ _ _ _ _ _ _ _ Hd Hs) as Hd'. cbn [snd] in Hd'. specialize (IH _ _ _ Hd').
      assert (Hl : blen (done ++ [cycle_record (start + blen done) l f]) = Z.succ (blen done))
        by (unfold blen; rewrite length_app; simpl; lia).
      rewrite Hl in IH. replace (start + Z.succ (blen done)) with (Z.succ (start + blen done)) in IH by lia.
      replace (Z.pred (Z.of_nat (S n))) with (Z.of_nat n) by lia.
      eapply triple_weaken; [exact IH| | |done].
      * intros ? ? [-> ->]. split; [done|]. by rewrite app_assoc.
      * intros x s1 k1 (d' & last' & ks' & -> & Hp & Hb & Hk'). exists d', last', ks'. split_and!; [done..|lia|done].
Qed.
End Cycles.

(** ** How a run ends *)

(** What was seen before the first cycle *)
Record preflight_facts := {
  pf_usb : usb_entry; pf_lease : lease; pf_board_route : string; pf_internet_route : string; pf_snapshot : dict json }.

Definition preflight_entry (p : preflight_facts) : entry :=
  Fields [("usb", Usb (pf_usb p)); ("network", Network (pf_lease p)); ("diagnostics", Snapshot (pf_snapshot p));
          ("board_route", Text (pf_board_route p)); ("internet_route", Text (pf_internet_route p))].

Section Ending.
Context `{host : !Host} `{codec : !Json} (env : environment attach_ret) `{!BoardSocket env}.
Context (fuel : nat) (a : attach_args) (address : string).

(** The evidence file was last written with [s] and put in place. *)
Definition saved_last (s : evidence) (k : list attach_call) : Prop :=
  let temporary := (a_output a +:+ ".tmp")%string in
  exists k0, k = k0 ++ [MakeParent (a_output a); WriteText temporary s; Replace temporary (a_output a)].

Record preflight_sound (p : preflight_facts) : Prop := {
  pf_to_board : through_board a (route_fields (pf_board_route p)) = true;
  pf_to_internet : through_board a (route_fields (pf_internet_route p)) = false;
  pf_in_order : ready_before_attach (pf_snapshot p) }.

Definition preflight_stages (p : preflight_facts) : list (@stage attach_call) :=
  [registry_read env a (Some (pf_usb p)); lease_read env a address (pf_lease p);
   command_said env ["route"; "-n"; "get"; address] (pf_board_route p);
   command_said env ["route"; "-n"; "get"; "default"] (pf_internet_route p); board_named env a address (pf_snapshot p)].

(** The run was armed: the report names what was seen first, and these cycles have passed since. *)
Definition armed (p : preflight_facts) (report : dict entry) (cycles : list (dict entry)) (last : usb_entry * lease)
    (ks : list (@stage attach_call)) (k : list attach_call) : Prop :=
  dget report "preflight" = Some (preflight_entry p) /\ preflight_sound p /\
  passed_cycles env a address (a_start_cycle a) (route_fields (pf_internet_route p)) (pf_usb p, pf_lease p) cycles last ks /\
  stages [] k (preflight_stages p ++ ks).

Record failed_cycle (before : list (@stage attach_call)) (number : Z) (error : string) (k : list attach_call) (c : dict entry) : Prop := {
  failed_number : dget c "cycle" = Some (Int number);
  failed_status : dget c "status" = Some (Text (if flag c "usb_detach_reattach_observed" then "failed" else "not_started"));
  failed_stage : exists stage, dget c "failed_stage" = Some (Text stage) /\ stage <> "functional_pass";
  failed_error : dget c "error" = Some (Text error);
  failed_observed : flag c "usb_detach_reattach_observed" = true ->
    exists o u o', stages [] k (before ++ [left_usb env a o; returned_usb env a u o']) }.

(** The report of a completed run *)
Definition complete (s : evidence) (k : list attach_call) : Prop :=
  dget (ev_report s) "status" = Some (Text "complete") /\ blen (ev_cycles s) = a_cycles a /\
  exists p last ks, armed p (ev_report s) (ev_cycles s) last ks k.

(** The report of a run that [e] stopped: before the first cycle, between two cycles, or in one *)
Definition incomplete (e : exn) (s : evidence) (k : list attach_call) : Prop :=
  dget (ev_report s) "status" = Some (Text "incomplete") /\ dget (ev_report s) "error" = Some (Text (describe e)) /\
  (ev_cycles s = [] \/ exists p done last ks, armed p (ev_report s) done last ks k /\
     (ev_cycles s = done \/ exists c, ev_cycles s = done ++ [c] /\
        failed_cycle (preflight_stages p ++ ks) (a_start_cycle a + blen done) (describe e) k c)).

Definition stopped (s : evidence) (k : list attach_call) : Prop :=
  ev_cycles s = [] \/ exists p, dget (ev_report s) "preflight" = Some (preflight_entry p) /\ preflight_sound p /\
    stopped_in env a address (ev_report s) (preflight_stages p) (a_start_cycle a) (route_fields (pf_internet_route p))
      (pf_usb p, pf_lease p) s k.

(** More calls change none of this. *)
Definition lasts (I : evidence -> list attach_call -> Prop) : Prop := forall s k n, I s k -> I s (k ++ n).

Lemma armed_lasts p report cycles last ks k n : armed p report cycles last ks k -> armed p report cycles last ks (k ++ n).
Proof. intros (H1 & H2 & H3 & H4). split_and!; [done..|]. by apply stages_skip. Qed.

Lemma complete_lasts : lasts complete.
Proof. intros s k n (H1 & H2 & p & last & ks & H). split_and!; [done..|]. exists p, last, ks. by apply armed_lasts. Qed.

Lemma incomplete_lasts e : lasts (incomplete e).
Proof.
  intros s k n (H1 & H2 & [H|(p & d & last & ks & H & Hc)]); (split_and!; [done..|]); [by left|right].
  exists p, d, last, ks. split; [by apply armed_lasts|]. destruct Hc as [Hc|(c & Hc & [F1 F2 F3 F4 F5])]; [by left|right].
  exists c. split; [done|]. constructor; [done..|]. intros (o & u & o' & Ho)%F5. exists o, u, o'. by apply stages_skip.
Qed.

(** Saving changes nothing, and ends with the three calls or with the one that failed. *)
Lemma save_triple (I : evidence -> list attach_call -> Prop) : lasts I ->
  triple env [] I (save (a_output a)) (fun _ s k => I s k /\ saved_last s k)
    (fun e s k => I s k /\ exists h c, last k = Some c /\ env h c = Raise e).
Proof.
  intros HI s k Hs. unfold save, mbind, st_mbind, st_bind, st_ask, st_io, ask, st_get. cbn [app].
  destruct (env k (MakeParent (a_output a))) as [[]|e] eqn:E1;
    [|split; [by apply HI|]; eexists _, _; split; [by rewrite last_app|done]].
  destruct (env _ (WriteText _ s)) as [[]|e] eqn:E2.
  - destruct (env _ (Replace _ _)) as [[]|e] eqn:E3.
    + split; [by apply HI|]. by exists k.
    + split; [by apply HI|]. eexists _, _. split; [|done]. by rewrite last_app.
  - split; [by apply HI|]. eexists _, _. split; [|exact E2]. by rewrite last_app.
Qed.

(** One step before the first cycle, seen or not *)
Lemma preflight_io {A} l (m : aio A) (T : A -> @stage attach_call) :
  (forall h x n, runs env h m (Ok x) n -> T x h n) ->
  triple env [] (fun s k => ev_cycles s = [] /\ stages [] k l) (st_io m) (fun x s k => ev_cycles s = [] /\ stages [] k (l ++ [T x]))
    (fun _ s _ => ev_cycles s = []).
Proof.
  intros HT. apply triple_io. intros s k [x|e] n [Hs Hk] Hr; [|done]. split; [done|]. apply stages_step; [done|by apply HT].
Qed.

Lemma preflight_pure {A} l (m : result A) :
  triple env [] (fun s k => ev_cycles s = [] /\ stages [] k l) (st_pure m) (fun x s k => m = Ok x /\ ev_cycles s = [] /\ stages [] k l)
    (fun _ s _ => ev_cycles s = []).
Proof. apply triple_pure. intros s k [Hs Hk]. by destruct m. Qed.

(** The observation itself, or nothing *)
Definition if_seen {A} (T : A -> @stage attach_call) (o : option A) : @stage attach_call :=
  fun h n => match o with Some x => T x h n | None => True end.

Ltac seen_step T := eapply triple_bind; [apply (preflight_io _ _ T)|].

Lemma triple_pre {A} (P P' : evidence -> list attach_call -> Prop) (m : attach A) Q E :
  (forall s k, P s k -> P' s k) -> triple env [] P' m Q E -> triple env [] P m Q E.
Proof. intros HP Hm. by eapply triple_weaken. Qed.

Lemma preflight_triple :
  triple env [] (fun s k => ev_cycles s = []) (preflight a address)
    (fun x s k => ev_cycles s = [] /\ exists p, x = (pf_usb p, pf_lease p, route_fields (pf_internet_route p)) /\
       dget (ev_report s) "preflight" = Some (preflight_entry p) /\ preflight_sound p /\ stages [] k (preflight_stages p))
    (fun _ s _ => ev_cycles s = []).
Proof.
  apply triple_pre with (P' := fun s k => ev_cycles s = [] /\ stages [] k []); [intros s k H; split; [done|apply stages_none]|].
  unfold preflight. seen_step (registry_read env a); [intros h x n; apply usb_read|]. intros present.
  eapply triple_bind; [apply preflight_pure|]. intros u. apply triple_from. intros s1 k1 (->%some_or_Ok & Hs1 & Hk1).
  apply triple_pre with (P' := fun s k => ev_cycles s = [] /\ stages [] k [registry_read env a (Some u)]); [by intros ? ? [-> ->]|].
  clear s1 k1 Hs1 Hk1. seen_step (if_seen (lease_read env a address)); [intros h [x|] n; [apply network_read|done]|]. intros ready.
  eapply triple_bind; [apply preflight_pure|]. intros l. apply triple_from. intros s1 k1 (->%some_or_Ok & Hs1 & Hk1).
  apply triple_pre with (P' := fun s k => ev_cycles s = [] /\ stages [] k [registry_read env a (Some u); lease_read env a address l]);
    [by intros ? ? [-> ->]|].
  clear s1 k1 Hs1 Hk1. unfold board_route, default_route.
  seen_step (command_said env ["route"; "-n"; "get"; address]); [intros h x n; apply successful_said|]. intros to_board.
  seen_step (command_said env ["route"; "-n"; "get"; "default"]); [intros h x n; apply successful_said|]. intros to_internet.
  eapply triple_bind; [apply preflight_pure|]. intros []. apply triple_from. intros s1 k1 (Hr%raise_when_Ok & Hs1 & Hk1).
  apply orb_false_iff in Hr as [Hr1%negb_false_iff Hr2].
  apply triple_pre with (P' := fun s k => ev_cycles s = [] /\ stages [] k [registry_read env a (Some u);
    lease_read env a address l; command_said env ["route"; "-n"; "get"; address] to_board;
    command_said env ["route"; "-n"; "get"; "default"] to_internet]); [by intros ? ? [-> ->]|].
  seen_step (board_named env a address); [intros h x n; by apply (identity_named env)|]. intros d.
  eapply triple_bind; [apply preflight_pure|]. intros []. apply triple_from. intros s2 k2 (Hd%diagnostics_ready_iff & Hs2 & Hk2).
  set (p := {| pf_usb := u; pf_lease := l; pf_board_route := to_board; pf_internet_route := to_internet; pf_snapshot := d |}).
  pose (I := fun s k => ev_cycles s = [] /\ dget (ev_report s) "preflight" = Some (preflight_entry p) /\ stages [] k (preflight_stages p)).
  assert (HI : lasts I) by (intros s k n (? & ? & ?); split_and!; [done..|by apply stages_skip]).
  eapply triple_bind with (R := fun _ s k => I s k).
  { apply triple_modify. intros s k [-> ->]. split_and!; [done| |exact Hk2]. cbn. by rewrite dget_dset, decide_True. }
  intros ?. eapply triple_bind with (R := fun _ s k => I s k).
  { apply triple_modify. intros s k (H1 & H2 & H3). split_and!; [done| |done]. cbn. by rewrite dget_dset, decide_False. }
  intros ?. eapply triple_bind; [eapply triple_weaken; [by apply (save_triple I)|done|intros ? s k H; exact H|by intros e s k [[? _] _]]|].
  intros ?. apply triple_ret. intros s k [(H1 & H2 & H3) _]. split; [done|]. by exists p.
Qed.

Lemma attach_body_triple : 0 <= a_cycles a ->
  triple env [] (fun s _ => ev_cycles s = []) (attach_body fuel a address)
    (fun code s k => code = 0 /\ complete s k /\ saved_last s k) (fun _ s k => stopped s k).
Proof.
  intros Hn. unfold attach_body. eapply triple_bind.
  { eapply triple_weaken; [apply preflight_triple|done|intros x s k H; exact H|]. intros e s k Hs. by left. }
  intros [[first l] baseline]. apply triple_from. intros [R cycles] k0 (Hs & p & Ep & Hr & Hp & Hk). cbn in Hs, Hr. subst cycles.
  injection Ep as -> -> ->.
  eapply triple_bind with (R := fun _ s k => ev_report s = R /\ blen (ev_cycles s) = a_cycles a /\
    exists last ks, armed p R (ev_cycles s) last ks k).
  { pose proof (cycles_triple env fuel a address R (preflight_stages p) (a_start_cycle a) (route_fields (pf_internet_route p))
      (pf_usb p, pf_lease p) (Z.to_nat (a_cycles a)) [] (pf_usb p, pf_lease p) [] ltac:(constructor)) as H.
    change (blen []) with 0 in H. rewrite Z.add_0_r, Z2Nat.id in H by done.
    rewrite range_seqZ. replace (a_start_cycle a + a_cycles a - a_start_cycle a) with (a_cycles a) by lia.
    eapply triple_weaken; [exact H|intros ? ? [-> ->]; by rewrite app_nil_r| |].
    - intros x s k (d & last & ks & -> & Hc & Hb & Hst). cbn. split; [done|]. split; [done|]. exists last, ks. by split_and!.
    - intros e s k Hst. right. exists p. assert (ev_report s = R) as E by (by destruct Hst as (d & u & ks & _ & _ & [->|(c & -> & _)])).
      by rewrite E. }
  intros x. eapply triple_bind with (R := fun _ s k => complete s k).
  { apply triple_modify. intros s k (E & Hb & last & ks & _ & Ha). rewrite E.
    split; [cbn; by rewrite dget_dset, decide_True|]. split; [done|]. exists p, last, ks. split; [|done]. cbn. by rewrite dget_dset, decide_False. }
  intros _. eapply triple_bind; [eapply triple_weaken; [by apply (save_triple complete complete_lasts)|done|intros ? s k H; exact H|]|].
  - intros e s k [(_ & _ & p' & last & ks & Hpre & Hs' & Hc & Hst) _]. right. exists p'. split_and!; [done..|].
    exists (ev_cycles s), last, ks. split_and!; [done..|]. left. by destruct s.
  - intros ?. apply triple_ret. intros s k [H1 H2]. by split_and!.
Qed.

(** ** The handler *)
Lemma fail_passed error number l f : fail_cycle error (cycle_record number l f) = cycle_record number l f.
Proof. reflexivity. Qed.

Lemma fail_progress text before number k c : in_progress number c ->
  (flag c "usb_detach_reattach_observed" = true -> exists o u o', stages [] k (before ++ [left_usb env a o; returned_usb env a u o'])) ->
  failed_cycle before number text k (fail_cycle (Text text) c).
Proof.
  intros [Hc (status & Hs & Hne)] Ho. unfold fail_cycle, says. rewrite Hs, bool_decide_false by done. cbn [default].
  constructor; unfold flag in *; rewrite !dget_dset; cbn; try done. eauto.
Qed.

Lemma fail_last text s k : stopped s k ->
  let cycles := set_last (fail_cycle (Text text)) (ev_cycles s) in
  cycles = [] \/ exists p done last ks, armed p (ev_report s) done last ks k /\
     (cycles = done \/ exists c, cycles = done ++ [c] /\
        failed_cycle (preflight_stages p ++ ks) (a_start_cycle a + blen done) text k c).
Proof.
  cbn zeta. intros [->|(p & Hr & Hp & d & [u l] & ks & Hc & Hk & Hs)]; [by left|right]. exists p.
  destruct Hs as [->|(c & -> & [(_ & Hg & Ho)|(f & -> & Hf & Hst)])]; cbn [ev_cycles holding ev_report].
  - exists d, (u, l), ks. split; [by split_and!|left]. destruct Hc as [|d' last k' f Hc Hf]; [done|].
    by rewrite set_last_snoc, fail_passed.
  - exists d, (u, l), ks. split; [by split_and!|right]. exists (fail_cycle (Text text) c). rewrite set_last_snoc.
    split; [done|by apply fail_progress].
  - eexists _, _, _. split; [split_and!; [done|done|exact (passed_more _ _ _ _ _ _ _ _ _ f Hc Hf)|by rewrite app_assoc]|left].
    cbn [snd]. by rewrite set_last_snoc, fail_passed.
Qed.

(** The run was stopped by [e0]; [e] is what it raises. *)
Definition reported (e : exn) (s : evidence) (k : list attach_call) : Prop :=
  exists e0, incomplete e0 s k /\
    (e = e0 /\ saved_last s k \/ exists h c, last k = Some c /\ env h c = Raise e).

Lemma stopped_put key value s k : key <> "preflight" -> stopped s k ->
  stopped {| ev_report := dset (ev_report s) key value; ev_cycles := ev_cycles s |} k.
Proof.
  intros Hk [Hs|(p & Hr & Hp & d & last & ks & Hc & Hst & Hs)]; [by left|right]. exists p.
  split; [cbn; by rewrite dget_dset, decide_False|]. split; [done|]. exists d, last, ks. split_and!; [done..|].
  destruct Hs as [->|(c & -> & Hc')]; [by left|right; by exists c].
Qed.

Lemma attach_failed_triple e :
  triple env [] (fun s k => stopped s k) (attach_failed a e) (fun _ _ _ => False) reported.
Proof.
  unfold attach_failed.
  eapply triple_bind with (R := fun _ s k => stopped s k /\ dget (ev_report s) "status" = Some (Text "incomplete")).
  { apply triple_modify. intros s k Hs. split; [by apply stopped_put|]. cbn. by rewrite dget_dset, decide_True. }
  intros _. eapply triple_bind with (R := fun _ s k => stopped s k /\ dget (ev_report s) "status" = Some (Text "incomplete")
    /\ dget (ev_report s) "error" = Some (Text (describe e))).
  { apply triple_modify. intros s k [Hs Hst]. split; [by apply stopped_put|]. cbn. rewrite !dget_dset. by split. }
  intros _. eapply triple_bind with (R := fun _ s k => incomplete e s k).
  { apply triple_modify. intros s k (Hs & Hst & He). split_and!; [done..|]. exact (fail_last _ s k Hs). }
  intros _. eapply triple_bind; [eapply triple_weaken; [by apply (save_triple (incomplete e) (incomplete_lasts e))|done|intros ? s k H; exact H|]|].
  - intros e' s k [Hi Hc]. exists e. split; [done|by right].
  - intros ?. apply triple_raise. intros s k [Hi Hc]. exists e. split; [done|by left].
Qed.

(** Nothing was started: the report, if there is one, is the first report. *)
Definition not_started (s0 s : evidence) : Prop :=
  s = s0 \/ exists utc model os, s = {| ev_report := first_report a address utc model os; ev_cycles := [] |}.
End Ending.

Lemma check_args_cycles a address : check_args a = Ok address -> 1 <= a_cycles a <= 20.
Proof.
  unfold check_args. intros (address' & _ & H)%bind_Ok. rewrite !raise_when_bind in H.
  destruct H as (_ & _ & H & _). breflect. lia.
Qed.

(** Every outcome of a run started in the state [s0] *)
Definition attach_end `{host : !Host} `{codec : !Json} (env : environment attach_ret) (a : attach_args) (s0 s : evidence) (r : result Z)
    (k : list attach_call) : Prop :=
  match r with
  | Ok code => code = 0 /\ exists address, check_args a = Ok address /\ complete env a address s k /\ saved_last a s k
  | Raise e =>
      attach_handled e = false \/ (exists address, not_started a address s0 s) \/
      exists address, check_args a = Ok address /\ reported env a address e s k
  end.

Lemma not_begun `{host : !Host} `{codec : !Json} (env : environment attach_ret) a address s0 s e k :
  not_started a address s0 s -> attach_end env a s0 s (Raise e) k.
Proof. intros H. right. left. by exists address. Qed.

(** One step before the report exists *)
Ltac start_step := first
  [ apply triple_ask; intros ? k' [-> ?] || intros ? k' ->; case_match; [done|]
  | apply triple_io; intros ? ? [] ? [-> ?] _ || intros ? ? [] ? -> _; [done|]
  | apply triple_pure; intros ? ? [-> ?] || intros ? ? ->; case_match; [done|] ];
  by apply not_begun with (address := ""); left.

Lemma run_attach_end `{host : !Host} `{codec : !Json} (env : environment attach_ret) `{!BoardSocket env} fuel a s0 s r k :
  run fuel a env [] s0 = (s, r, k) -> attach_end env a s0 s r k.
Proof.
  intros H. assert (Ht : triple env [] (fun s k => s = s0) (run fuel a) (fun code s k => attach_end env a s0 s (Ok code) k)
    (fun e s k => attach_end env a s0 s (Raise e) k)).
  2: { specialize (Ht s0 [] eq_refl). cbn [app] in Ht. rewrite H in Ht. by destruct r. }
  clear H s r k. unfold run.
  eapply triple_bind with (R := fun _ s _ => s = s0); [start_step|intros system].
  eapply triple_bind with (R := fun _ s _ => s = s0); [start_step|intros _].
  eapply triple_bind with (R := fun address s _ => s = s0 /\ check_args a = Ok address).
  { apply triple_pure. intros s k ->. destruct (check_args a); [done|]. by apply not_begun with (address := "x"); left. }
  intros address. apply triple_from. intros s k [-> Ha].
  do 5 (eapply triple_bind with (R := fun _ s _ => s = s0); [start_step|intros ?]).
  set (begun := fun s => exists utc model os, s = {| ev_report := first_report a address utc model os; ev_cycles := [] |}).
  eapply triple_bind with (R := fun _ s _ => begun s); [apply triple_modify; unfold begun; eauto|].
  intros _. eapply triple_bind with (R := fun _ s _ => begun s).
  { eapply triple_weaken; [apply (save_triple env a (fun s _ => begun s)); by intros ? ? ?|done|by intros ? s1 k1 [? _]|].
    intros e s1 k1 [Hs _]. eapply not_begun. by right. }
  intros _. eapply triple_try with (Q := fun code s k => attach_end env a s0 s (Ok code) k) (R := fun _ s k => stopped env a address s k).
  - assert (Hn : 0 <= a_cycles a) by (apply check_args_cycles in Ha; lia).
    eapply triple_weaken; [exact (attach_body_triple env fuel a address Hn)|by intros s1 k1 (? & ? & ? & ->)| |by intros].
    intros code s1 k1 (-> & Hc & Hs). split; [done|]. by exists address.
  - intros e He s1 k1 _. by left.
  - intros e He. eapply triple_weaken; [apply (attach_failed_triple env a address)|done|done|]. intros e' s1 k1 Hr. right. right. by exists address.
Qed.

(** C31: However a run of the attach check ends, its report tells what was observed. A run that returns has
    written and put in place a report with status "complete" whose cycles, numbered from the selected one,
    are exactly the records of what the calls of the run saw, in this order: before the first, the selected device in
    the USB registry, its lease, separate routes, and the selected board's page; then in each cycle a registry
    without the device, read before the unplug deadline, a registry with it as a new USB instance, read before
    the plug deadline, a lease of a local-only network within the readiness timeout, the expected routes, the
    board's page with its startup order, and both threads started, the two requests made and the threads' results taken,
    where each request succeeded and lies between the times each thread reported, and then an exact echo.
    A run that raises after arming has recorded the error and status "incomplete"; every cycle before the last passed
    in the same sense, and the last one either passed too or is marked failed or not started, with its stage: failed only
    when the device was seen to leave and come back; that report is the one saved, unless saving itself raised. *)
Theorem attach_outcome `{host : !Host} `{codec : !Json} (env : environment attach_ret) fuel a s0 `{!BoardSocket env} :
  let '(s, r, k) := run fuel a env [] s0 in attach_end env a s0 s r k.
Proof. destruct (run fuel a env [] s0) as [[s r] k] eqn:E. by eapply run_attach_end. Qed.

(** Polling is bounded: on a clock that advances, [wait_for] ends; what it answers was answered by one probe
    that started and ended after the polling began and before its deadline, and the last negative sample it reports
    started before that probe did. *)
Theorem wait_for_bounded (env : environment attach_ret) t {A} (probe : aio (option A)) timeout h r n
    `{!AttachClock env t} :
  (forall h, ends_at env h probe) -> (forall h d e, env h (Board (Pause d)) = Raise e -> e <> OutOfFuel) ->
  runs env h (wait_for probe timeout) r n ->
  r <> Raise OutOfFuel /\ forall v o, r = Ok (v, o) ->
    exists m, n = Board Monotonic :: m /\ sampled env t probe timeout (t h) (h ++ [Board Monotonic]) m v o.
Proof.
  intros Hp Hs H. split; [by eapply wait_for_ends in H|]. intros v o ->. by apply wait_for_sampled.
Qed.

(** ** A bench for the check

    The device is seen once, is gone for the third and fourth samples and returns under a new registry id;
    the board serves its page and echoes. *)
Module Demo.
Definition serial : string := "503533303030abcd".

#[export] Instance host : Host := {
  plist_loads b :=
    if bool_decide (b = []) then Ok (PArr [])
    else Ok (PArr [PDict [("IOObjectClass", PStr "IOUSBHostDevice"); ("idVendor", PInt 0x2341); ("idProduct", PInt 0x005e);
                          ("USB Serial Number", PStr "503533303030ABCD"); ("IORegistryEntryID", PInt (blen b))]]);
  plist_repr _ := "";
  utf8_text := PyStr.text;
  utf8_ascii _ _ := eq_refl }.

Definition snapshot : dict json :=
  [("board", JStr "nano_rp2040_connect"); ("device_id", JStr serial); ("usb_profile", JStr "ncm-only");
   ("usb_initialized_at_setup", JBool false); ("setup_ms", JInt 1); ("dhcp_ready_ms", JInt 2); ("ncm_ready_ms", JInt 2);
   ("services_ready_ms", JInt 3); ("attach_requested_ms", JInt 4)].

#[export] Instance codec : Json := {
  json_loads b := if bool_decide (b = page_body) then Ok (JObj snapshot) else Raise (ValueError "Expecting value");
  json_dumps _ := page_body }.

Definition arguments : attach_args := {|
  a_board := "nano_rp2040_connect"; a_address := "192.168.77.1"; a_device_id := serial; a_interface := "en5";
  a_output := "evidence.json"; a_firmware_sha256 := "abababababababababababababababababababababababababababababababab"; a_connection_details := "bench";
  a_start_cycle := 1; a_cycles := 1; a_unplug_timeout := 1000; a_plug_timeout := 1000;
  a_ready_timeout := 1000 |}.

Definition clock (h : list attach_call) : Z := blen h.

Definition is_ioreg (c : attach_call) : bool :=
  match c with Command (name :: _) => bool_decide (name = "ioreg") | _ => false end.

(** What the registry holds at its n-th reading *)
Definition registry (n : nat) : bytes := match n with 0%nat | 1%nat => ascii "1" | 2%nat | 3%nat => [] | _ => ascii "22" end.

Definition answer (h : list attach_call) (argv : list string) : bytes :=
  match argv with
  | name :: rest =>
      if bool_decide (name = "ioreg") then registry (length (List.filter is_ioreg h))
      else if bool_decide (name = "ifconfig") then ascii demo_ifconfig
      else if bool_decide (name = "ipconfig") then ascii demo_packet
      else if bool_decide (name = "route") then
        ascii ("interface: " +:+ if bool_decide (last rest = Some "default") then "en0" else "en5")
      else ascii "Mac"
  | [] => []
  end.

(** The calls of the last connection, and its port *)
Fixpoint connection (port : Z) (k : list sock_call) (h : list attach_call) : Z * list sock_call :=
  match h with
  | [] => (port, k)
  | Board (Connect address port timeout) :: h => connection port [Connect address port timeout] h
  | Board c :: h => connection port (k ++ [c]) h
  | _ :: h => connection port k h
  end.

Definition env : environment attach_ret := fun h c =>
  match c with
  | Board Monotonic => Ok (clock h)
  | Board c =>
      let '(port, k) := connection 0 [] h in
      if port =? 80 then page_peer k c else echo_peer k c
  | Command argv => Ok {| returncode := 0; stdout := answer h argv; stderr := [] |}
  | Curl _ _ => Ok {| curl_exit := 0; curl_output := "200"; curl_error := "" |}
  | TimeNs => Ok (clock h)
  | WorkerResult _ => Ok {| begin_at := 0; end_at := clock h;
      result_of := {| r_test := "echo"; r_bytes := 65536; r_seconds := 1; r_bytes_per_second := 1 |} |}
  | System => Ok "Darwin"
  | UtcNow => Ok "2026-01-01T00:00:00+00:00"
  | OutputExists _ => Ok false
  | _ => Ok tt
  end.

#[export] Instance env_clock : AttachClock env clock.
Proof.
  constructor; intros; unfold clock, blen; [done|..]; rewrite length_app; simpl; lia.
Qed.

#[export] Instance env_board : BoardSocket env.
Proof.
  intros h. constructor; unfold board_env, env; intros k; intros *; destruct (connection _ _ _) as [port k']; destruct (port =? 80).
  1,2: apply recv_bounded.
  1,2: apply send_bounded.
  all: intros H; destruct c; try done; revert H; apply real_socket.
Qed.

Definition nothing : evidence := {| ev_report := []; ev_cycles := [] |}.
End Demo.
#[local] Existing Instances Demo.host Demo.codec Demo.env_clock Demo.env_board.

(** The check passes on this bench, with one cycle. *)
Lemma attach_outcome_witness : exists s k, run 64 Demo.arguments Demo.env [] Demo.nothing = (s, Ok 0, k) /\
  exists address, check_args Demo.arguments = Ok address /\ complete Demo.env Demo.arguments address s k /\ saved_last Demo.arguments s k.
Proof.
  assert (H : (run 64 Demo.arguments Demo.env [] Demo.nothing).1.2 = Ok 0) by (vm_compute; reflexivity).
  pose proof (attach_outcome Demo.env 64 Demo.arguments Demo.nothing) as Ho.
  destruct (run 64 Demo.arguments Demo.env [] Demo.nothing) as [[s r] k]. cbn in H. subst r.
  exists s, k. split; [done|]. by destruct Ho as [_ Ho].
Defined.

(** Waiting for the first reading of the registry that names the device *)
Lemma wait_for_bounded_witness : exists n o,
  runs Demo.env [] (wait_for (usb Demo.serial) 1000) (Ok ({| u_device_id := PStr "503533303030ABCD"; u_registry_id := PInt 1 |}, o)) n /\
  o = {| sample_start := 2; sample_end := 4; last_negative := None |} /\
  exists m, n = Board Monotonic :: m /\
    sampled Demo.env Demo.clock (usb Demo.serial) 1000 0 [Board Monotonic] m
      {| u_device_id := PStr "503533303030ABCD"; u_registry_id := PInt 1 |} o.
Proof.
  set (m := wait_for (usb Demo.serial) 1000). set (o := {| sample_start := 2; sample_end := 4; last_negative := None |}).
  set (u := {| u_device_id := PStr "503533303030ABCD"; u_registry_id := PInt 1 |}).
  assert (H : runs Demo.env [] m (Ok (u, o)) (calls Demo.env m)) by (apply runs_outcome; vm_compute; reflexivity).
  revert H. generalize (calls Demo.env m) as n. intros n H. exists n, o. split; [exact H|]. split; [done|].
  assert (Hp : forall h, ends_at Demo.env h (usb Demo.serial)).
  { intros h. apply ends_fails. unfold usb, command. fails_tac; [by intros ? ? [=]|].
    apply fails_pure, raises_bind; [unfold plist_loads; cbn; by case_bool_decide|intros; apply selected_usb_ends]. }
  assert (Hs : forall h d e, Demo.env h (Board (Pause d)) = Raise e -> e <> OutOfFuel).
  { intros h d e. cbn. repeat case_match; intros Hr; by simplify_eq. }
  exact (proj2 (wait_for_bounded Demo.env Demo.clock (usb Demo.serial) 1000 [] (Ok (u, o)) n Hp Hs H) u o eq_refl).
Defined.
