(* ===== verification/SessionSmoke.v ===== *)
(** * FMGO sessions: tools/session_smoke.py

    Frames and their header check, and the [Probe] class: connecting and checking the hello, request and
    response, upload chunks, the full-duplex echo, and an observed close. A request that raises leaves no
    probe behind: every caller then closes the session. *)

From stdpp Require Import base tactics list list_numbers strings.
From Stdlib Require Import ZArith Lia QArith.
From S2P Require Import Prelude.
From S2P Require Import PyBytes.
From S2P Require Import PyText.
From S2P Require Import PyDict.
From S2P Require Import PyJson.
From S2P Require Import Effects.
From S2P Require Import Ipv4.
From S2P Require Import Sockets.

Local Open Scope Z_scope.

Definition MAX_PAYLOAD : Z := 4096.
Definition second : Z := 1000000000.
Definition fifty_ms : Z := 50000000.

(** ** Frames *)
Definition HEADER : list field := [FS 4; u8; u8; u16; u32; u32].

Definition header_values (kind request size : Z) : fmt_ty HEADER :=
  (ascii "FMGO", (1, (kind, (0, (request, (size, tt)))))).

Definition frame (kind request : Z) (payload : bytes) : result bytes :=
  raise_when (MAX_PAYLOAD <? blen payload) (RuntimeError "test frame exceeds device payload limit");;
  header ← pack BE HEADER (header_values kind request (blen payload));
  mret (header ++ payload).

Definition decode_header (header : bytes) : result (Z * Z * Z) :=
  ' (magic, (version, (kind, (flags, (request, (size, _)))))) ← unpack_exact BE HEADER header;
  raise_when (negb (bool_decide (magic = ascii "FMGO")) || negb (version =? 1) || negb (flags =? 0)
      || (MAX_PAYLOAD <? size) || negb ((kind =? 2) || (kind =? 3))
      || negb (Bool.eqb (kind =? 2) (negb (request =? 0))))
    (RuntimeError "invalid firmware frame header");;
  mret (kind, request, size).

(** ** A session *)
Record probe := { p_timeout : Z; p_next_request : Z; p_hello : dict json }.

Definition exact_turn (count deadline : Z) (data : bytes) : sio bytes :=
  now ← ask Monotonic;
  io_when (deadline - now <=? 0) (RuntimeError "FMGO timeout: expected bytes, received");;
  _ ← ask (SetTimeout (deadline - now));
  chunk ← ask (Recv (count - blen data));
  io_when (bool_decide (chunk = [])) (RuntimeError "FMGO disconnected: expected bytes, received");;
  mret (data ++ chunk).

(** [Probe._exact] *)
Definition _exact (count deadline : Z) : sio bytes := read_all (exact_turn count deadline) count.

(** [a.get(key) is True] and [is False] *)
Definition is_bool (b : bool) (v : json) : bool := match v with JBool c => Bool.eqb b c | _ => false end.

(** The two ways a response is read: an error with the expected (nonempty) code, or a result. *)
Definition check_response (expected_error : option string) (response : json) : result (dict json) :=
  match response with
  | JObj response =>
      match expected_error with
      | Some code =>
          match jget response "error" with
          | JObj error =>
              raise_when (negb (is_bool false (jget response "ok")) || negb (py_eq (jget error "code") (JStr code)))
                (RuntimeError "expected , received");;
              mret error
          | _ => Raise (RuntimeError "expected , received")
          end
      | None =>
          match jget response "result" with
          | JObj value =>
              raise_when (negb (is_bool true (jget response "ok"))) (RuntimeError "command failed");; mret value
          | _ => Raise (RuntimeError "command failed")
          end
      end
  | _ => Raise (RuntimeError "expected JSON response object")
  end.

Section Probe.
Context `{codec : !Json}.

Definition request_frame (p : probe) (kind : Z) (payload : bytes) (expected_error : option string) :
    sio (dict json * probe) :=
  let request := p_next_request p in
  let p := {| p_timeout := p_timeout p; p_next_request := request + 1; p_hello := p_hello p |} in
  now ← ask Monotonic;
  let deadline := now + p_timeout p in
  _ ← ask (SetTimeout (p_timeout p));
  message ← io_pure (frame kind request payload);
  _ ← ask (SendAll message);
  header ← _exact 16 deadline;
  ' (kind, actual_request, count) ← io_pure (decode_header header);
  io_when (negb (kind =? 2) || negb (actual_request =? request))
    (RuntimeError "expected response ID , received type , ID");;
  response ← try_except (data ← _exact count deadline; io_pure (json_loads data))
    (is_any [KValueError; KUnicodeError]) (fun _ => io_raise (RuntimeError "firmware response is not valid JSON"));
  value ← io_pure (check_response expected_error response);
  mret (value, p).

Definition command (p : probe) (op : string) (expected_error : option string) (fields : dict json) :
    sio (dict json * probe) :=
  request_frame p 1 (json_dumps (("op", JStr op) :: fields)) expected_error.

Definition upload_chunk (p : probe) (upload_id offset : Z) (data : bytes) : sio (dict json * probe) :=
  io_when (negb ((1 <=? upload_id) && (upload_id <=? 0xffffffff))
      || negb ((0 <=? offset) && (offset <=? 0xffffffff)) || bool_decide (data = []))
    (ValueError "invalid upload ID, offset, or empty chunk");;
  fields ← io_pure (pack BE [u32; u32] (upload_id, (offset, tt)));
  request_frame p 4 (fields ++ data) None.

(** [re.fullmatch('[0-9a-f]{16}', str(v))]: a string, or an integer of 16 decimal digits; the text of
    every other value has a sign, a point, a bracket or a letter outside the class. *)
Definition str_is_hex16 (v : json) : bool :=
  match v with
  | JStr s => fullmatch is_hex_lower 16 s
  | JInt z => (10 ^ 15 <=? z) && (z <? 10 ^ 16)
  | _ => false
  end.

Definition hello_mismatch (value : dict json) (device_id board firmware_version backend : string)
    (targets : list json) : bool :=
  negb (py_eq (jget value "device_id") (JStr device_id)) || negb (py_eq (jget value "board_id") (JStr board))
  || negb (py_eq (jget value "firmware_version") (JStr firmware_version))
  || negb (py_eq (jget value "protocol_major") (JInt 1))
  || negb (str_is_hex16 (jget value "boot_id"))
  || negb (type_is_int (jget value "max_payload"))
  || negb (py_eq (jget value "max_payload") (JInt MAX_PAYLOAD))
  || negb (py_eq (jget value "auth_mode") (JStr "open-development"))
  || negb (py_eq (jget value "targets") (JArr targets))
  || match jget value "channels" with
     | JArr [JObj channel] =>
         negb (py_eq (jget channel "id") (JInt 1)) || negb (py_eq (jget channel "backend") (JStr backend))
         || negb (py_eq (jget channel "controls") (JArr []))
     | _ => true
     end.

Definition close : sio unit := ask CloseSocket.

(** [Probe.__init__] *)
Definition open_probe (address device_id board : string) (port timeout : Z)
    (firmware_version backend : string) (targets : list json) : sio probe :=
  address ← io_pure (validate_target address);
  io_when (negb (fullmatch is_hex 16 device_id))
    (RuntimeError "expected device ID must be exactly 16 hexadecimal digits");;
  let device_id := lower device_id in
  _ ← ask (Connect address port timeout);
  try_except
    (' (value, p) ← command {| p_timeout := timeout; p_next_request := 1; p_hello := [] |} "hello" None
                      [("max_payload", JInt MAX_PAYLOAD)];
     io_when (hello_mismatch value device_id board firmware_version backend targets)
       (RuntimeError "firmware identity/capabilities mismatch");;
     mret {| p_timeout := timeout; p_next_request := p_next_request p; p_hello := value |})
    is_exception (fun e => close;; io_raise e).

Definition finish (p : probe) : sio unit :=
  fd ← ask Fileno;
  if fd <? 0 then mret tt
  else try_finally
    (_ ← ask ShutdownWrite;
     _ ← ask (SetTimeout (Z.min (p_timeout p) (3 * second)));
     trailing ← try_except (ask (Recv 1)) (is_any [KConnectionResetError; KTimeoutError])
       (fun e => if is_a KConnectionResetError e then mret []
                 else io_raise (RuntimeError "peer TCP closure was not observed before deadline"));
     io_when (negb (bool_decide (trailing = []))) (RuntimeError "unexpected trailing application data at TCP close"))
    close.
End Probe.

(** ** The full-duplex echo *)
Definition channel_prefix : bytes := be_bytes 4 1.

(** The frames that carry the test bytes, 2048 at a time. *)
Definition echo_wire (expected : bytes) : result bytes :=
  frames ← mapM (fun i => frame 3 0 (channel_prefix ++ slice i (i + 2048) expected)) (range 0 (blen expected) 2048);
  mret (concat frames).

Definition echo_pattern (byte_count : Z) : bytes :=
  (fun i => z2b (Z.land (Z.lxor (i * 73) (Z.shiftr i 8)) 255)) <$> range 0 byte_count 1.

Definition fragments : list Z := [1; 7; 19; 128; 511].

Record echo_state := { s_sent : Z; s_turn : Z; s_incoming : bytes; s_received : bytes }.

(** Take every complete frame out of [incoming]; each one is at least a header long. *)
Fixpoint drain (fuel : nat) (expected_length : Z) (incoming received : bytes) : result (bytes * bytes) :=
  match fuel with
  | O => Raise OutOfFuel
  | S fuel =>
      if blen incoming <? 16 then Ok (incoming, received)
      else
        ' (kind, request, size) ← decode_header (slice 0 16 incoming);
        if blen incoming <? 16 + size then Ok (incoming, received)
        else
          let payload := slice 16 (16 + size) incoming in
          let incoming := drop (Z.to_nat (16 + size)) incoming in
          raise_when (negb (kind =? 3) || negb (request =? 0) || (size <=? 4)
              || negb (bool_decide (slice 0 4 payload = channel_prefix)))
            (RuntimeError "unexpected frame/channel during binary echo");;
          let received := received ++ drop 4 payload in
          raise_when (expected_length <? blen received) (RuntimeError "firmware returned extra application bytes");;
          drain fuel expected_length incoming received
  end.

(** [try: m except BlockingIOError: v except OSError as exc: raise RuntimeError(...)] *)
Definition nonblocking {A} (m : sio A) (v : A) (message : string) : sio A :=
  try_except m (is_a KOSError) (fun e => if is_a KBlockingIOError e then mret v else io_raise (RuntimeError message)).

Definition echo_send (wire : bytes) (s : echo_state) : sio echo_state :=
  let size := nth (Z.to_nat (s_turn s mod 5)) fragments 0 in
  count ← nonblocking (k ← ask (Send (slice (s_sent s) (s_sent s + size) wire)); mret (Some k)) None
            "echo socket send failed";
  mret match count with
       | Some k => {| s_sent := s_sent s + k; s_turn := s_turn s + 1; s_incoming := s_incoming s; s_received := s_received s |}
       | None => s
       end.

Definition echo_receive (expected : bytes) (s : echo_state) : sio echo_state :=
  chunk ← nonblocking (b ← ask (Recv 4096); mret (Some b)) None "echo socket receive failed";
  match chunk with
  | None => mret s
  | Some chunk =>
      io_when (bool_decide (chunk = [])) (RuntimeError "echo disconnected after bytes");;
      let incoming := s_incoming s ++ chunk in
      ' (incoming, received) ← io_pure (drain (S (length incoming)) (blen expected) incoming (s_received s));
      mret {| s_sent := s_sent s; s_turn := s_turn s; s_incoming := incoming; s_received := received |}
  end.

Definition echo_turn (wire expected : bytes) (slow_read : bool) (read_delay started deadline : Z) (s : echo_state) :
    sio (echo_state + echo_state) :=
  if (s_sent s <? blen wire) || (blen (s_received s) <? blen expected) then
    now ← ask Monotonic;
    io_when (deadline - now <=? 0) (RuntimeError "echo timeout: expected bytes, received, sent wire");;
    let read_now := negb slow_read || (read_delay <=? now - started) in
    ' (readable, writable) ← ask (Select read_now (s_sent s <? blen wire) (Z.min (deadline - now) fifty_ms));
    s ← (if (writable : bool) then echo_send wire s else mret s);
    s ← (if (readable : bool) then echo_receive expected s else mret s);
    mret (inl s)
  else mret (inr s).

(** The index of the first difference, if any *)
Fixpoint first_difference (i : Z) (a b : bytes) : option Z :=
  match a, b with
  | x :: a, y :: b => if bool_decide (x = y) then first_difference (i + 1) a b else Some i
  | _, _ => None
  end.

(** [bytes_per_second] is the exact quotient of which the code computes a float. *)
Record echo_result := {
  er_bytes : Z; er_elapsed : Z; er_bytes_per_second : Q; er_fragmented_sends : Z;
  er_slow_read : bool; er_read_delay : Z; er_seed : option Z }.

Definition echo_transfer (fuel : nat) (expected wire : bytes) (slow_read : bool) (seed : option Z)
    (read_delay started deadline : Z) : sio echo_result :=
  s ← io_loop fuel (echo_turn wire expected slow_read read_delay started deadline)
        {| s_sent := 0; s_turn := 0; s_incoming := []; s_received := [] |};
  io_when (negb (bool_decide (s_incoming s = []))) (RuntimeError "unexpected trailing partial frame after echo");;
  io_when (negb (bool_decide (s_received s = expected)))
    (match first_difference 0 expected (s_received s) with
     | Some _ => RuntimeError "echo first mismatch at byte"
     | None => StopIteration ""
     end);;
  now ← ask Monotonic;
  let elapsed := now - started in
  io_when (elapsed =? 0) (ZeroDivisionError "division by zero");;
  mret {| er_bytes := blen (s_received s); er_elapsed := elapsed;
          er_bytes_per_second := (inject_Z (blen (s_received s) * second) / inject_Z elapsed)%Q;
          er_fragmented_sends := s_turn s; er_slow_read := slow_read; er_read_delay := read_delay; er_seed := seed |}.

(** [randbytes seed n] is [random.Random(seed).randbytes(n)]. *)
Definition echo_expected (randbytes : Z -> Z -> bytes) (byte_count : Z) (seed : option Z) : bytes :=
  match seed with Some seed => randbytes seed byte_count | None => echo_pattern byte_count end.

Definition echo (randbytes : Z -> Z -> bytes) (fuel : nat) (p : probe) (byte_count : Z) (slow_read : bool)
    (seed : option Z) (read_delay : Z) : sio echo_result :=
  io_when (negb ((1 <=? byte_count) && (byte_count <=? 262144))) (RuntimeError "echo size must be 1..262144 bytes");;
  io_when (match seed with Some seed => negb ((0 <=? seed) && (seed <=? 0xffffffff)) | None => false end)
    (RuntimeError "echo seed must be an unsigned 32-bit integer");;
  io_when (negb ((0 <=? read_delay) && (read_delay <=? 10 * second))) (RuntimeError "read delay must be 0..10 seconds");;
  let expected := echo_expected randbytes byte_count seed in
  wire ← io_pure (echo_wire expected);
  started ← ask Monotonic;
  let deadline := started + p_timeout p in
  _ ← ask (SetBlocking false);
  try_finally (echo_transfer fuel expected wire slow_read seed read_delay started deadline)
    (ask (SetTimeout (p_timeout p))).

(** ** Frames and headers *)
Definition header_bytes (kind request size : Z) : bytes :=
  ascii "FMGO" ++ be_bytes 1 1 ++ be_bytes 1 kind ++ be_bytes 2 0 ++ be_bytes 4 request ++ be_bytes 4 size.

Definition u32_value (z : Z) : Prop := 0 <= z < 2 ^ 32.

(** The kinds a device sends: a response to a request, or stream data outside any request. *)
Definition from_device (kind request : Z) : Prop := kind = 2 /\ request <> 0 \/ kind = 3 /\ request = 0.

Lemma blen_header_bytes kind request size : blen (header_bytes kind request size) = 16.
Proof. unfold header_bytes, blen. rewrite !length_app, !length_be_bytes. done. Qed.

Lemma pack_header kind request size : 0 <= kind < 256 -> u32_value request -> u32_value size ->
  pack BE HEADER (header_values kind request size) = Ok (header_bytes kind request size).
Proof.
  intros Hk Hr Hs. unfold HEADER, header_values, pack, fencode. cbn [fst snd]. unfold u32_value in *.
  change (256 ^ Z.of_nat 4) with (2 ^ 32). change (256 ^ Z.of_nat 1) with 256.
  rewrite !(proj2 (Z.leb_le 0 _)), !(proj2 (Z.ltb_lt _ _)) by lia. unfold header_bytes. reflexivity.
Qed.

Lemma header_exact kind request size : 0 <= kind < 256 -> u32_value request -> u32_value size ->
  exact HEADER (header_values kind request size).
Proof. intros Hk Hr Hs. repeat split; simpl; try lia; apply Hr || apply Hs. Qed.

Lemma decode_header_Ok header kind request size :
  decode_header header = Ok (kind, request, size) <->
  header = header_bytes kind request size /\ from_device kind request /\ u32_value request /\
  0 <= size <= MAX_PAYLOAD.
Proof.
  unfold decode_header, from_device. split.
  - intros (v & Hv & H)%bind_Ok. apply (unpack_exact_iff BE HEADER) in Hv as [Hx Hp].
    destruct v as (magic & version & k & flags & r & z & []).
    apply raise_when_bind in H as [H [= -> -> ->]]. breflect. destruct H as [[[[[-> ->] ->] Hz] Hk] Hr].
    destruct Hx as (_ & _ & Hkr & _ & Hrr & Hzr & _). simpl in Hkr, Hrr, Hzr.
    change (256 ^ Z.of_nat 4) with (2 ^ 32) in *. fold (header_values kind request size) in Hp.
    rewrite pack_header in Hp by (unfold u32_value; lia). injection Hp as <-. split; [done|].
    split; [|split; [exact Hrr|unfold MAX_PAYLOAD in *; lia]].
    apply eqb_prop in Hr. destruct Hk as [->| ->]; simpl in Hr; symmetry in Hr; breflect; auto.
  - intros (-> & Hd & Hr & Hs). unfold MAX_PAYLOAD in Hs. assert (Hs' : u32_value size) by (unfold u32_value; lia).
    assert (Hk : 0 <= kind < 256) by lia. apply bind_Ok. exists (header_values kind request size). split.
    + apply (unpack_exact_iff BE HEADER). split; [by apply header_exact|by apply pack_header].
    + unfold header_values. apply raise_when_bind. split; [|done]. rewrite bool_decide_true by done.
      breflect_goal. unfold MAX_PAYLOAD. split_and!; try done; [lia|lia|].
      apply eqb_true_iff. destruct Hd as [[-> Hd]|[-> ->]]; [|done]. symmetry. by apply negb_true_iff, Z.eqb_neq.
Qed.

Lemma frame_Ok kind request payload wire : 0 <= kind < 256 -> u32_value request ->
  frame kind request payload = Ok wire <->
  blen payload <= MAX_PAYLOAD /\ wire = header_bytes kind request (blen payload) ++ payload.
Proof.
  intros Hk Hr. unfold frame. rewrite raise_when_bind, Z.ltb_ge. pose proof (blen_nonneg payload).
  assert (E : blen payload <= MAX_PAYLOAD -> pack BE HEADER (header_values kind request (blen payload)) =
    Ok (header_bytes kind request (blen payload))).
  { intros Hl. unfold MAX_PAYLOAD in Hl. apply pack_header; [done..|unfold u32_value; lia]. }
  split; intros [Hl H1]; (split; [done|]); rewrite (E Hl) in *.
  - by injection H1 as <-.
  - by rewrite H1.
Qed.

(** ** Requests *)
Lemma exact_turn_ends env count deadline data `{!Socket env} :
  fails_with env (fun e => e <> OutOfFuel) (exact_turn count deadline data).
Proof. unfold exact_turn. ends_tac. Qed.

#[export] Instance exact_reads env count deadline `{!Socket env} : Reads env count (exact_turn count deadline).
Proof.
  constructor; [|intros; by apply exact_turn_ends].
  intros data h data' n Hlt H. unfold exact_turn in H.
  apply runs_bind_Ok in H as (now & n1 & n2 & H1 & H & ->). apply (runs_ask env h Monotonic) in H1 as [_ ->].
  repeat runs_step. simplify_eq. eapply (chunk_after env h [Monotonic; SetTimeout (deadline - now)]); calls_norm;
    try done. by repeat constructor.
Qed.

Lemma _exact_Ok env count deadline h data n `{!Socket env} : 0 <= count ->
  runs env h (_exact count deadline) (Ok data) n ->
  received env h n = data /\ sent env h n = [] /\ blen data = count.
Proof. intros Hc H. apply (read_all_spec env count (exact_turn count deadline)) in H as [_ H]; [|done]. by destruct (H _ eq_refl) as (-> & ? & ?). Qed.

Lemma _exact_ends env count deadline h `{!Socket env} : 0 <= count -> ends_at env h (_exact count deadline).
Proof. intros Hc r n H. by apply (read_all_spec env count (exact_turn count deadline)) in H as [H _]. Qed.

Lemma decode_header_ends header : raises (fun e => e <> OutOfFuel) (decode_header header).
Proof. unfold decode_header, unpack_exact. raises_tac. Qed.

(** How a response object answers a request. *)
Definition accepted (expected_error : option string) (response value : dict json) : Prop :=
  match expected_error with
  | None => dget response "ok" = Some (JBool true) /\ dget response "result" = Some (JObj value)
  | Some code =>
      dget response "ok" = Some (JBool false) /\ dget response "error" = Some (JObj value) /\
      dget value "code" = Some (JStr code)
  end.

Lemma is_bool_true b v : is_bool b v = true <-> v = JBool b.
Proof. destruct v as [|c| | | | |]; simpl; try done. rewrite eqb_true_iff. split; [by intros ->|by intros [= ->]]. Qed.

Lemma check_response_Ok expected_error response value :
  check_response expected_error response = Ok value <->
  exists d, response = JObj d /\ accepted expected_error d value.
Proof.
  unfold check_response, accepted. destruct response as [| | | | | |d]; try (split; [done|naive_solver]).
  destruct expected_error as [code|].
  - split.
    + destruct (jget d "error") eqn:E; try done. intros [H [= ->]]%raise_when_bind.
      apply orb_false_iff in H as [H1%negb_false_iff%is_bool_true H2%negb_false_iff%py_eq_str].
      exists d. split; [done|]. by split_and!; apply jget_dget.
    + intros (d' & [= <-] & H1 & H2 & H3). unfold jget. rewrite H1, H2. simpl. rewrite H3. simpl.
      by rewrite bool_decide_true.
  - split.
    + destruct (jget d "result") eqn:E; try done. intros [H [= ->]]%raise_when_bind.
      apply negb_false_iff, is_bool_true in H. exists d. split; [done|]. by split; apply jget_dget.
    + intros (d' & [= <-] & H1 & H2). unfold jget. by rewrite H1, H2.
Qed.

Section Requests.
Context `{codec : !Json} (env : environment sock_ret) `{!Socket env}.

Lemma request_frame_Ok p kind payload expected_error h value p' n :
  runs env h (request_frame p kind payload expected_error) (Ok (value, p')) n ->
  p' = {| p_timeout := p_timeout p; p_next_request := p_next_request p + 1; p_hello := p_hello p |} /\
  frame kind (p_next_request p) payload = Ok (sent env h n) /\
  exists text response, received env h n = header_bytes 2 (p_next_request p) (blen text) ++ text /\
    p_next_request p <> 0 /\ blen text <= MAX_PAYLOAD /\
    json_loads text = Ok (JObj response) /\ accepted expected_error response value.
Proof.
  unfold request_frame. intros (now & n1 & n2 & H1 & H & ->)%runs_bind_Ok.
  apply (runs_ask env h Monotonic) in H1 as [_ ->].
  apply runs_bind_Ok in H as (u & m1 & m2 & H1 & H & ->). apply (runs_ask env _ (SetTimeout _)) in H1 as [_ ->].
  apply runs_bind_Ok in H as (message & m1 & m3 & [Hf ->]%runs_pure & H & ->). symmetry in Hf.
  apply runs_bind_Ok in H as (u2 & m1 & m4 & H1 & H & ->). apply (runs_ask env _ (SendAll _)) in H1 as [Hs ->].
  apply runs_bind_Ok in H as (header & m1 & m5 & H1 & H & ->). apply (_exact_Ok env) in H1 as (Hr1 & Hs1 & Hl1); [|exact _|done].
  apply runs_bind_Ok in H as ([[k r] count] & m6 & m7 & [Hd ->]%runs_pure & H & ->).
  symmetry in Hd. apply decode_header_Ok in Hd as (-> & Hfrom & _ & Hcount).
  apply runs_bind_Ok in H as ([] & m6 & m8 & [Hw ->]%runs_pure & H & ->). symmetry in Hw.
  apply raise_when_Ok in Hw. breflect. destruct Hw as [-> ->].
  apply runs_bind_Ok in H as (response & m6 & m9 & H1 & H & ->).
  apply runs_try in H1 as [[H1 _]|(e & ? & ? & _ & _ & H1 & _)]; [|by runs_step].
  apply runs_bind_Ok in H1 as (text & m10 & m11 & H1 & [Hj ->]%runs_pure & ->).
  apply (_exact_Ok env) in H1 as (Hr2 & Hs2 & Hl2); [|exact _|lia].
  apply runs_bind_Ok in H as (v & m12 & m13 & [Hc ->]%runs_pure & [[= -> ->] ->]%runs_ret & ->).
  symmetry in Hc. apply check_response_Ok in Hc as (d & -> & Hacc).
  split; [done|]. rewrite !app_nil_r, ?app_nil_l in *.
  cbn [p_timeout p_next_request] in *. rewrite !sent_app, !received_app. unfold sent, received in *.
  cbn [stream sent_by received_by app] in *. calls_norm. rewrite Hr1, Hr2, Hs1, Hs2, <- Hs, ?app_nil_r.
  split; [exact Hf|]. exists text, d. rewrite Hl2. destruct Hfrom as [[_ ?]|[? _]]; [|done].
  split_and!; [done..|lia|done|done].
Qed.

Lemma pack_command_fields upload_id offset : 1 <= upload_id <= 0xffffffff -> 0 <= offset <= 0xffffffff ->
  pack BE [u32; u32] (upload_id, (offset, tt)) = Ok (be_bytes 4 upload_id ++ be_bytes 4 offset).
Proof.
  intros Hu Ho. unfold pack, fencode. cbn [fst snd]. change (256 ^ Z.of_nat 4) with (2 ^ 32).
  rewrite !(proj2 (Z.leb_le 0 _)), !(proj2 (Z.ltb_lt _ _)) by lia. reflexivity.
Qed.

Lemma upload_chunk_Ok p upload_id offset data h value p' n :
  runs env h (upload_chunk p upload_id offset data) (Ok (value, p')) n ->
  1 <= upload_id <= 0xffffffff /\ 0 <= offset <= 0xffffffff /\ data <> [] /\
  frame 4 (p_next_request p) (be_bytes 4 upload_id ++ be_bytes 4 offset ++ data) = Ok (sent env h n).
Proof.
  unfold upload_chunk. intros ([] & n1 & n2 & [Hc ->]%runs_pure & H & ->)%runs_bind_Ok.
  symmetry in Hc. apply raise_when_Ok in Hc. breflect. destruct Hc as [[[H1 H2] [H3 H4]] H5].
  apply runs_bind_Ok in H as (fields & m1 & m2 & [Hp ->]%runs_pure & H & ->).
  rewrite pack_command_fields, Ok_Ok in Hp by done. subst fields.
  apply request_frame_Ok in H as (_ & H & _). rewrite !app_nil_r, <- app_assoc in H. done.
Qed.

(** ** Opening and closing *)

(** What the hello of an opened session says. *)
Record hello_ok (value : dict json) (device_id board firmware_version backend : string) (targets : list json) : Prop := {
  ho_device : dget value "device_id" = Some (JStr device_id);
  ho_board : dget value "board_id" = Some (JStr board);
  ho_firmware : dget value "firmware_version" = Some (JStr firmware_version);
  ho_auth : dget value "auth_mode" = Some (JStr "open-development");
  ho_payload : dget value "max_payload" = Some (JInt MAX_PAYLOAD);
  ho_boot : exists v, dget value "boot_id" = Some v /\ str_is_hex16 v = true;
  ho_targets : py_eq (jget value "targets") (JArr targets) = true;
  ho_channel : exists channel, dget value "channels" = Some (JArr [JObj channel]) /\
    dget channel "backend" = Some (JStr backend) }.

(** The bytes of a response to the first request that report this value. *)
Definition hello_received `{codec : !Json} (taken : bytes) (value : dict json) : Prop :=
  exists text response, taken = header_bytes 2 1 (blen text) ++ text /\
    json_loads text = Ok (JObj response) /\ accepted None response value.

Lemma dget_str d k s : py_eq (jget d k) (JStr s) = true -> dget d k = Some (JStr s).
Proof. intros H%py_eq_str. by apply jget_dget. Qed.

Lemma dget_int d k z : type_is_int (jget d k) = true -> py_eq (jget d k) (JInt z) = true -> dget d k = Some (JInt z).
Proof. intros Ht He. rewrite py_eq_int in He by done. apply jget_dget; [|done]. destruct (jget d k); try done. by apply Z.eqb_eq in He as <-. Qed.

Lemma hello_mismatch_false value device_id board firmware_version backend targets :
  hello_mismatch value device_id board firmware_version backend targets = false ->
  hello_ok value device_id board firmware_version backend targets.
Proof.
  unfold hello_mismatch. rewrite !orb_false_iff, !negb_false_iff.
  intros [[[[[[[[[H1 H2] H3] _] H5] H6] H7] H8] H9] H10].
  constructor; [by apply dget_str..|by apply dget_int| |done|].
  - unfold jget in H5. destruct (dget value "boot_id") as [v|]; [|done]. by exists v.
  - destruct (jget value "channels") as [| | | | |l|] eqn:E; try done.
    destruct l as [|[| | | | | |c] [|]]; try done. rewrite !orb_false_iff, !negb_false_iff in H10.
    destruct H10 as [[_ H] _]. exists c. split; [by apply jget_dget|by apply dget_str].
Qed.

Lemma open_probe_Ok address device_id board port timeout firmware_version backend targets h p n :
  runs env h (open_probe address device_id board port timeout firmware_version backend targets) (Ok p) n ->
  validate_target address = Ok address /\ fullmatch is_hex 16 device_id = true /\
  p_timeout p = timeout /\ p_next_request p = 2 /\
  frame 1 1 (json_dumps [("op", JStr "hello"); ("max_payload", JInt MAX_PAYLOAD)]) = Ok (sent env h n) /\
  hello_ok (p_hello p) (lower device_id) board firmware_version backend targets /\
  hello_received (received env h n) (p_hello p).
Proof.
  unfold open_probe. intros (target & n1 & n2 & [Ht ->]%runs_pure & H & ->)%runs_bind_Ok.
  symmetry in Ht. assert (target = address) as -> by by apply validate_target_exact in Ht as [-> _].
  apply runs_bind_Ok in H as ([] & n1 & n3 & [Hd ->]%runs_pure & H & ->).
  symmetry in Hd. apply raise_when_Ok, negb_false_iff in Hd.
  apply runs_bind_Ok in H as (u & n1 & n4 & H1 & H & ->). apply (runs_ask env _ (Connect _ _ _)) in H1 as [_ ->].
  apply runs_try in H as [[H _]|(e & m1 & m2 & _ & _ & H & _)].
  2:{ apply runs_bind_Ok in H as (u' & m3 & m4 & _ & H & _). by runs_step. }
  apply runs_bind_Ok in H as ([value p'] & m1 & m2 & H1 & H & ->). apply request_frame_Ok in H1 as (-> & Hf & text & response & Hr & _ & _ & Hj & Ha).
  apply runs_bind_Ok in H as ([] & m3 & m4 & [Hm ->]%runs_pure & [[= ->] ->]%runs_ret & ->).
  symmetry in Hm. apply raise_when_Ok, hello_mismatch_false in Hm. simpl. rewrite !app_nil_r in *.
  unfold sent, received in *. cbn [stream sent_by received_by app] in *. split_and!; [done..|]. by exists text, response.
Qed.

Lemma open_probe_raises address device_id board port timeout firmware_version backend targets h e n :
  runs env h (open_probe address device_id board port timeout firmware_version backend targets) (Raise e) n ->
  is_exception e = true ->
  last n = Some CloseSocket \/ n = [] \/ exists target, n = [Connect target port timeout] /\
    env h (Connect target port timeout) = Raise e.
Proof.
  intros H He. unfold open_probe in H. apply runs_bind in H as [(e1 & [_ ->]%runs_pure & _)|H]; [by right; left|].
  destruct H as (target & n1 & n2 & [_ ->]%runs_pure & H & ->).
  apply runs_bind in H as [(e1 & [_ ->]%runs_pure & _)|H]; [by right; left|].
  destruct H as ([] & n1 & n3 & [_ ->]%runs_pure & H & ->). rewrite !app_nil_r in H.
  apply runs_bind in H as [(e1 & H & [= <-])|(u & n1 & n4 & _ & H & ->)].
  - apply (runs_ask env h (Connect target port timeout)) in H as [H ->]. right. right. eauto.
  - left. apply runs_try in H as [[_ H]|(e1 & m1 & m2 & _ & _ & H & ->)]; [congruence|].
    assert (m2 = [CloseSocket]) as ->.
    { apply runs_bind in H as [(e2 & H & _)|(x & k1 & k2 & H & [_ ->]%runs_pure & ->)];
        apply (runs_ask env _ CloseSocket) in H as [_ ->]; done. }
    rewrite !app_assoc. apply last_snoc.
Qed.

Lemma finish_closes p h r n : runs env h (finish p) r n ->
  forall fd, env h Fileno = Ok fd ->
  (0 <= fd -> last n = Some CloseSocket) /\
  (r = Ok tt -> received env h n = [] /\ (0 <= fd -> ShutdownWrite ∈ n)).
Proof.
  unfold finish. intros [(e & H & ->)|(fd & n1 & n2 & H1 & H & ->)]%runs_bind fd' Hfd.
  { apply (runs_ask env h Fileno) in H as [H _]. rewrite Hfd in H. done. }
  apply (runs_ask env h Fileno) in H1 as [H1 ->]. rewrite Hfd in H1. injection H1 as ->.
  destruct (Z.ltb_spec fd' 0) as [Hlt|Hge].
  { apply runs_ret in H as [-> ->]. split; [lia|]. intros _. split; [done|lia]. }
  apply runs_finally in H as (q & r1 & m1 & m2 & H & Hc & -> & ->).
  apply (runs_ask env _ CloseSocket) in Hc as [_ ->]. split.
  { intros _. rewrite app_assoc. apply last_snoc. }
  intros Hr. destruct q; [|done]. subst r1.
  apply runs_bind_Ok in H as (u & k1 & k2 & H1 & H & ->). apply (runs_ask env _ ShutdownWrite) in H1 as [_ ->].
  split; [|by right; left].
  apply runs_bind_Ok in H as (u2 & k1 & k3 & H1 & H & ->). apply (runs_ask env _ (SetTimeout _)) in H1 as [_ ->].
  apply runs_bind_Ok in H as (trailing & k1 & k4 & H1 & H & ->).
  apply runs_pure in H as [Hx ->]. symmetry in Hx. apply raise_when_Ok in Hx. breflect. subst trailing.
  assert (Hk : received env ((((h ++ [Fileno]) ++ [ShutdownWrite]) ++ [SetTimeout (p_timeout p `min` (3 * second))])) k1 = []).
  { apply runs_try in H1 as [[H _]|(e & j1 & j2 & H & _ & H1 & ->)].
    - apply (runs_ask env _ (Recv 1)) in H as [H ->]. rewrite received_one. simpl. by rewrite <- H.
    - apply (runs_ask env _ (Recv 1)) in H as [H ->]. destruct (is_a _ e).
      + apply runs_ret in H1 as [_ ->]. rewrite app_nil_r, received_one. simpl. by rewrite <- H.
      + by apply runs_pure in H1 as [? _]. }
  unfold received in *. cbn [stream received_by app] in *. rewrite !stream_app, Hk. done.
Qed.
End Requests.

(** ** The echo *)

(** The stream frame that carries some bytes on channel 1. *)
Definition data_frame (chunk : bytes) : bytes :=
  header_bytes 3 0 (4 + blen chunk) ++ channel_prefix ++ chunk.

Definition carried (chunk : bytes) : Prop := 0 < blen chunk <= MAX_PAYLOAD - 4.

Lemma blen_channel_prefix : blen channel_prefix = 4.
Proof. reflexivity. Qed.

Lemma echo_wire_Ok expected wire : echo_wire expected = Ok wire ->
  wire = concat (data_frame <$> pieces 2048 expected).
Proof.
  unfold echo_wire, pieces. intros (frames & Hf & [= <-])%bind_Ok. apply mapM_Ok in Hf. f_equal.
  induction Hf as [|i f l k Hi Hf IH]; [done|]. rewrite !fmap_cons, IH. f_equal.
  apply frame_Ok in Hi as [_ ->]; [|lia|unfold u32_value; lia]. unfold data_frame.
  by rewrite blen_app, blen_channel_prefix.
Qed.

Lemma drain_frame incoming kind request size payload :
  decode_header (slice 0 16 incoming) = Ok (kind, request, size) -> 16 + size <= blen incoming ->
  payload = slice 16 (16 + size) incoming ->
  kind = 3 -> slice 0 4 payload = channel_prefix -> 4 < size ->
  incoming = data_frame (drop 4 payload) ++ drop (Z.to_nat (16 + size)) incoming /\ carried (drop 4 payload).
Proof.
  intros Hd Hl Hp -> Hc Hs. apply decode_header_Ok in Hd as (Hh & Hf & _ & Hsz).
  assert (request = 0) as -> by (destruct Hf as [[? _]|[_ ?]]; [done|done]).
  assert (Hlp : blen payload = size) by (subst payload; rewrite blen_slice; lia).
  assert (Hd4 : blen (drop 4 payload) = size - 4).
  { unfold blen in *. rewrite length_drop. lia. }
  split; [|unfold carried; lia]. unfold data_frame. rewrite Hd4. replace (4 + (size - 4)) with size by lia.
  rewrite <- Hh, <- Hc. replace (slice 0 4 payload ++ drop 4 payload) with payload.
  2:{ unfold slice. rewrite drop_0. symmetry. apply take_drop. }
  rewrite Hp, <- slice_split by lia. unfold slice. rewrite drop_0, Z.sub_0_r. symmetry. apply take_drop.
Qed.

Lemma drain_Ok fuel limit incoming received i' r' :
  drain fuel limit incoming received = Ok (i', r') ->
  exists chunks, Forall carried chunks /\ incoming = concat (data_frame <$> chunks) ++ i' /\
    r' = received ++ concat chunks /\ (blen received <= limit -> blen r' <= limit).
Proof.
  revert incoming received. induction fuel as [|fuel IH]; intros incoming received; [done|]. cbn [drain].
  destruct (_ <? 16).
  { intros [= <- <-]. exists []. simpl. rewrite app_nil_r. split; [constructor|done]. }
  intros ([[kind request] size] & Hd & H)%bind_Ok. destruct (Z.ltb_spec (blen incoming) (16 + size)) as [|Hl].
  { injection H as <- <-. exists []. simpl. rewrite app_nil_r. split; [constructor|done]. }
  apply raise_when_bind in H as [Hc H]. apply raise_when_bind in H as [Hm H].
  apply IH in H as (chunks & Hcar & Hi & Hr & Hlim). breflect. destruct Hc as [[[-> ->] Hs] Hch].
  set (payload := slice 16 (16 + size) incoming) in *.
  destruct (drain_frame incoming 3 0 size payload) as [E Ec]; [done..|].
  exists (drop 4 payload :: chunks). split; [by constructor|]. split; [|split].
  - rewrite fmap_cons. simpl. rewrite <- app_assoc, <- Hi. exact E.
  - rewrite Hr. simpl. by rewrite app_assoc.
  - intros _. by apply Hlim.
Qed.

Lemma drain_fuel fuel limit incoming received :
  (length incoming < fuel)%nat -> drain fuel limit incoming received <> Raise OutOfFuel.
Proof.
  revert incoming received. induction fuel as [|fuel IH]; intros incoming received Hf; [lia|]. cbn [drain].
  destruct (Z.ltb_spec (blen incoming) 16) as [|H16]; [done|].
  destruct (decode_header _) as [[[kind request] size]|e] eqn:Ed.
  - apply decode_header_Ok in Ed as (_ & _ & _ & Hs). cbn [mbind result_bind].
    destruct (_ <? _); [done|]. destruct (negb _ || _ || _ || _); [done|].
    destruct (limit <? _); [done|]. apply IH. rewrite length_drop. unfold blen in H16. lia.
  - simpl. intros [= ->]. revert Ed. unfold decode_header, unpack_exact. clear.
    destruct (_ =? _); [|done]. simpl. destruct (negb _ || _ || _ || _ || _ || _); done.
Qed.

Lemma nonblocking_Ok {A} env h (m : sio A) v message a n :
  runs env h (nonblocking m v message) (Ok a) n ->
  runs env h m (Ok a) n \/ a = v /\ exists e, runs env h m (Raise e) n.
Proof.
  unfold nonblocking. intros [[H _]|(e & n1 & n2 & H & _ & H2 & ->)]%runs_try; [by left|].
  right. destruct (is_a KBlockingIOError e); runs_step; [|done]. rewrite app_nil_r. simplify_eq. eauto.
Qed.

Section Echo.
Context (env : environment sock_ret) `{!Socket env} (wire expected : bytes).

(** A prefix of the wire has gone out; what came back is whole data frames, whose bytes have been
    collected, and the beginning of the next frame. *)
Record echo_inv (h : list sock_call) (s : echo_state) (m : list sock_call) : Prop := {
  ei_bound : 0 <= s_sent s <= blen wire;
  ei_sent : sent env h m = slice 0 (s_sent s) wire;
  ei_limit : blen (s_received s) <= blen expected;
  ei_frames : exists chunks, Forall carried chunks /\
    received env h m = concat (data_frame <$> chunks) ++ s_incoming s /\ s_received s = concat chunks }.

Lemma session_echo_inv_silent h s m k : echo_inv h s m -> Forall (fun c => silent c = true) k -> echo_inv h s (m ++ k).
Proof.
  intros [Hb Hs Hl Hf] Hk. split; [done|by rewrite sent_app, (sent_silent _ _ k), app_nil_r|done|].
  by rewrite received_app, (received_silent _ _ k), app_nil_r.
Qed.

Lemma echo_send_Ok s h s' n : 0 <= s_sent s <= blen wire ->
  runs env h (echo_send wire s) (Ok s') n ->
  s_incoming s' = s_incoming s /\ s_received s' = s_received s /\ s_sent s <= s_sent s' <= blen wire /\
  received env h n = [] /\ sent env h n = slice (s_sent s) (s_sent s') wire.
Proof.
  intros Hs (count & n1 & n2 & H1 & H2 & ->)%runs_bind_Ok. apply runs_ret in H2 as [[= ->] ->]. rewrite app_nil_r.
  set (d := slice _ _ _) in H1. apply nonblocking_Ok in H1 as [H1|[-> [e H1]]].
  - apply runs_bind_Ok in H1 as (k & m1 & m2 & H1 & [[= ->] ->]%runs_ret & ->). rewrite app_nil_r.
    apply (runs_ask env h (Send d)) in H1 as [H1 ->]. symmetry in H1. rewrite sent_one, received_one. simpl. rewrite H1.
    apply send_bounded in H1 as Hb. unfold d, blen, slice in Hb. rewrite length_take, length_drop in Hb. unfold blen in Hs.
    split_and!; [done..|lia|unfold blen; lia|done|]. unfold d, slice. rewrite take_take. f_equal. lia.
  - apply runs_bind in H1 as [(e' & H1 & _)|(k & m1 & m2 & H1 & H3 & ->)]; [|by runs_step].
    apply (runs_ask env h (Send d)) in H1 as [H1 ->]. rewrite sent_one, received_one. simpl. rewrite <- H1, slice_empty.
    split_and!; [done..|lia|lia|done|done].
Qed.

Lemma echo_receive_Ok s h s' n : blen (s_received s) <= blen expected ->
  runs env h (echo_receive expected s) (Ok s') n ->
  s_sent s' = s_sent s /\ sent env h n = [] /\ blen (s_received s') <= blen expected /\
  exists chunks, Forall carried chunks /\
    s_incoming s ++ received env h n = concat (data_frame <$> chunks) ++ s_incoming s' /\
    s_received s' = s_received s ++ concat chunks.
Proof.
  intros Hl (chunk & n1 & n2 & H1 & H2 & ->)%runs_bind_Ok. apply nonblocking_Ok in H1 as [H1|[-> [e H1]]].
  - apply runs_bind_Ok in H1 as (b & m1 & m2 & H1 & [[= ->] ->]%runs_ret & ->).
    apply (runs_ask env h (Recv 4096)) in H1 as [H1 ->]. symmetry in H1.
    apply runs_bind_Ok in H2 as ([] & k1 & k2 & [_ ->]%runs_pure & H2 & ->).
    apply runs_bind_Ok in H2 as ([i r] & k1 & k3 & [Hd ->]%runs_pure & [[= ->] ->]%runs_ret & ->).
    symmetry in Hd. apply drain_Ok in Hd as (chunks & Hc & Hi & Hr & Hlim). simpl.
    rewrite sent_one, received_one. simpl. rewrite H1. split; [done|]. split; [done|]. split; [by apply Hlim|]. eauto.
  - apply runs_ret in H2 as [[= ->] ->]. rewrite app_nil_r.
    apply runs_bind in H1 as [(e' & H1 & _)|(d & m1 & m2 & H1 & H3 & ->)]; [|by runs_step].
    apply (runs_ask env h (Recv 4096)) in H1 as [H1 ->]. rewrite sent_one, received_one. simpl. rewrite <- H1.
    split_and!; [done..|]. exists []. simpl. rewrite !app_nil_r. split; [constructor|done].
Qed.

Lemma session_echo_turn_inv slow_read read_delay started deadline h s m o k :
  echo_inv h s m -> runs env (h ++ m) (echo_turn wire expected slow_read read_delay started deadline s) (Ok o) k ->
  match o with
  | inl s' => echo_inv h s' (m ++ k)
  | inr s' => echo_inv h s' (m ++ k) /\ blen wire <= s_sent s' /\ blen expected <= blen (s_received s')
  end.
Proof.
  intros HI. unfold echo_turn. destruct (_ || _) eqn:Ew.
  2:{ intros [[= ->] ->]%runs_ret. rewrite app_nil_r. breflect. done. }
  intros (now & n1 & n2 & H1 & H & ->)%runs_bind_Ok. apply (runs_ask env _ Monotonic) in H1 as [_ ->].
  apply runs_bind_Ok in H as ([] & n1 & n3 & [_ ->]%runs_pure & H & ->).
  apply runs_bind_Ok in H as ([readable writable] & n1 & n4 & H1 & H & ->).
  apply (runs_ask env _ (Select _ _ _)) in H1 as [_ ->].
  apply runs_bind_Ok in H as (s1 & n5 & n6 & H1 & H & ->).
  apply runs_bind_Ok in H as (s2 & n7 & n8 & H2 & [[= ->] ->]%runs_ret & ->).
  set (sel := Select _ _ _) in *. calls_norm. rewrite ?app_nil_r in *.
  apply (session_echo_inv_silent h s m [Monotonic; sel]) in HI; [|by repeat constructor].
  replace (m ++ Monotonic :: sel :: n5 ++ n7) with (((m ++ [Monotonic; sel]) ++ n5) ++ n7) by by rewrite <- !app_assoc.
  replace (h ++ m ++ Monotonic :: sel :: n5) with (h ++ (m ++ [Monotonic; sel]) ++ n5) in H2 by by rewrite <- !app_assoc.
  revert HI H1 H2. generalize (m ++ [Monotonic; sel]). clear - Socket0. intros m HI H1 H2.
  assert (HI1 : echo_inv h s1 (m ++ n5)).
  { destruct writable; [|apply runs_ret in H1 as [[= ->] ->]; by rewrite app_nil_r].
    destruct HI as [Hb Hs Hl Hf]. apply echo_send_Ok in H1 as (E1 & E2 & E3 & E4 & E5); [|done].
    split; [lia| |by rewrite E2|].
    - rewrite sent_app, Hs, E5. symmetry. apply slice_split; lia.
    - by rewrite received_app, E4, app_nil_r, E1, E2. }
  destruct readable; [|apply runs_ret in H2 as [[= ->] ->]; by rewrite app_nil_r].
  destruct HI1 as [Hb Hs Hl (chunks & Hc & Hf & Hr)].
  apply echo_receive_Ok in H2 as (E1 & E2 & E3 & new & E4 & E5 & E6); [|done].
  split; [lia|by rewrite sent_app, Hs, E2, app_nil_r, E1|done|].
  exists (chunks ++ new). rewrite received_app, Hf, E6, Hr, fmap_app, !concat_app, <- !app_assoc, E5.
  split; [by apply Forall_app|done].
Qed.

Lemma echo_transfer_Ok fuel slow_read seed read_delay started deadline h res n :
  runs env h (echo_transfer fuel expected wire slow_read seed read_delay started deadline) (Ok res) n ->
  sent env h n = wire /\ er_bytes res = blen expected /\ er_seed res = seed /\ 0 <> er_elapsed res /\
  exists chunks, Forall carried chunks /\ received env h n = concat (data_frame <$> chunks) /\ concat chunks = expected.
Proof.
  unfold echo_transfer. intros (s & n1 & n2 & Hloop & H & ->)%runs_bind_Ok. rewrite <- (app_nil_r h) in Hloop.
  apply (runs_loop_inv env _ _ (echo_inv h) (fun s m => echo_inv h s m /\
    blen wire <= s_sent s /\ blen expected <= blen (s_received s))) in Hloop as ([Hb Hs Hl (chunks & Hc & Hf & Hr)] & Hw & He).
  2:{ intros s0 m o k HI Hk. apply session_echo_turn_inv in Hk; [|done]. by destruct o. }
  2:{ pose proof (blen_nonneg wire). pose proof (blen_nonneg expected). split; simpl; [lia|done|done|]. by exists []. }
  apply runs_bind_Ok in H as ([] & m1 & m2 & [H1 ->]%runs_pure & H & ->).
  apply runs_bind_Ok in H as ([] & m1 & m3 & [H2 ->]%runs_pure & H & ->).
  apply runs_bind_Ok in H as (now & m1 & m4 & H3 & H & ->). apply (runs_ask env _ Monotonic) in H3 as [_ ->].
  apply runs_bind_Ok in H as ([] & m1 & m5 & [H4 ->]%runs_pure & [[= ->] ->]%runs_ret & ->).
  symmetry in H1, H2, H4. apply raise_when_Ok in H1, H2, H4. breflect. rewrite H1, app_nil_r in Hf. simpl.
  calls_norm. rewrite sent_app, received_app, sent_one, received_one. simpl. rewrite !app_nil_r, Hs, Hf, H2.
  split_and!; [|done|done|lia|].
  - assert (s_sent s = blen wire) as -> by lia. apply slice_full.
  - exists chunks. by rewrite <- Hr.
Qed.
End Echo.

(** ** The echo ends *)
Section EchoEnds.
Context (env : environment sock_ret) (t : list sock_call -> Z) `{!Socket env, !Clock env t}.

Lemma session_echo_turn_ends wire expected slow_read read_delay started deadline s :
  fails_with env (fun e => e <> OutOfFuel) (echo_turn wire expected slow_read read_delay started deadline s).
Proof.
  unfold echo_turn, echo_send, echo_receive, nonblocking. ends_tac.
  apply fails_pure. intros e He ->. by apply drain_fuel in He; [|lia].
Qed.

Lemma session_echo_turn_advances wire expected slow_read read_delay started deadline s h s' n :
  runs env h (echo_turn wire expected slow_read read_delay started deadline s) (Ok (inl s')) n ->
  t h < t (h ++ n) /\ t h < deadline.
Proof.
  unfold echo_turn. destruct (_ || _); [|intros H; repeat runs_step; done].
  intros (now & n1 & n2 & H1 & H2 & ->)%runs_bind_Ok. apply (runs_ask env h Monotonic) in H1 as [H1 ->].
  split; [apply clock_advances|]. rewrite clock_reads in H1. injection H1 as ->.
  apply runs_bind_Ok in H2 as ([] & m1 & m2 & [Hd _]%runs_pure & _). symmetry in Hd. apply raise_when_Ok in Hd.
  breflect. lia.
Qed.

Lemma echo_transfer_ends fuel expected wire slow_read seed read_delay started deadline h :
  deadline - t h + 1 < Z.of_nat fuel -> 1 <= Z.of_nat fuel ->
  ends_at env h (echo_transfer fuel expected wire slow_read seed read_delay started deadline).
Proof.
  intros Hf H1. unfold echo_transfer. apply ends_bind.
  - intros r n. apply (runs_loop_ends env _ _ (fun _ _ => True) (fun _ h => deadline - t h)); [|done..].
    intros s0 h0 o k _ Hr. split; [intros ->; by apply session_echo_turn_ends in Hr|].
    intros s' ->. apply session_echo_turn_advances in Hr. split; [done|lia].
  - intros s n _. apply ends_fails. ends_tac. apply fails_pure, raises_when.
    by destruct (first_difference _ _ _).
Qed.

Lemma echo_wire_ends expected : raises (fun e => e <> OutOfFuel) (echo_wire expected).
Proof.
  unfold echo_wire, frame. raises_tac. by apply raises_pack.
Qed.

Lemma echo_ends randbytes fuel p byte_count slow_read seed read_delay h :
  p_timeout p + 1 < Z.of_nat fuel -> 1 <= Z.of_nat fuel ->
  ends_at env h (echo randbytes fuel p byte_count slow_read seed read_delay).
Proof.
  intros Hf H1. unfold echo.
  apply ends_bind; [apply ends_fails; ends_tac|intros _ n1 _].
  apply ends_bind; [apply ends_fails; ends_tac|intros _ n2 _].
  apply ends_bind; [apply ends_fails; ends_tac|intros _ n3 _].
  apply ends_bind; [apply ends_fails, fails_pure, echo_wire_ends|intros wire n4 _].
  set (h' := _ ++ n4). clearbody h'.
  apply ends_bind; [apply ends_fails; ends_tac|intros started n5 Hs].
  apply (runs_ask env h' Monotonic) in Hs as [Hs ->]. rewrite clock_reads in Hs. injection Hs as ->.
  apply ends_bind; [apply ends_fails; ends_tac|intros u n6 _].
  pose proof (clock_forward (env := env) h' [Monotonic]). pose proof (clock_forward (env := env) (h' ++ [Monotonic]) n6).
  apply ends_finally; [apply echo_transfer_ends; lia|]. intros r n _. apply ends_fails. ends_tac.
Qed.
End EchoEnds.

(** ** Requests and sessions end *)
Section RequestEnds.
Context `{codec : !Json} (env : environment sock_ret) `{!Socket env}.
Context (Hjson : forall b, json_loads b <> Raise OutOfFuel).

Lemma json_ends b : raises (fun e => e <> OutOfFuel) (json_loads b).
Proof. intros e He ->. by apply (Hjson b). Qed.

Lemma frame_ends kind request payload : raises (fun e => e <> OutOfFuel) (frame kind request payload).
Proof. unfold frame. raises_tac. by apply raises_pack. Qed.

Lemma command_ends p op expected_error fields h : ends_at env h (command p op expected_error fields).
Proof.
  unfold command, request_frame.
  apply ends_bind; [apply ends_fails; ends_tac|intros now n1 _].
  apply ends_bind; [apply ends_fails; ends_tac|intros u n2 _].
  apply ends_bind; [apply ends_fails, fails_pure, frame_ends|intros message n3 _].
  apply ends_bind; [apply ends_fails; ends_tac|intros u2 n4 _].
  apply ends_bind; [by apply _exact_ends|intros header n5 _].
  apply ends_bind; [apply ends_fails, fails_pure, decode_header_ends|intros [[kind request] size] n6 [Hd _]%runs_pure].
  symmetry in Hd. apply decode_header_Ok in Hd as (_ & _ & _ & Hs).
  apply ends_bind; [apply ends_fails; ends_tac|intros u3 n7 _].
  apply ends_bind.
  { apply ends_try; [|intros e n8 _; apply ends_fails; ends_tac].
    apply ends_bind; [apply _exact_ends; [exact _|lia]|intros data n8 _]. apply ends_fails, fails_pure, json_ends. }
  intros response n8 _. apply ends_fails. ends_tac.
  apply fails_pure. unfold check_response. raises_tac.
Qed.

Lemma open_probe_ends address device_id board port timeout firmware_version backend targets h :
  ends_at env h (open_probe address device_id board port timeout firmware_version backend targets).
Proof.
  unfold open_probe.
  apply ends_bind; [apply ends_fails, fails_pure|intros target n1 _].
  { unfold validate_target, IPv4Address, parse_octet. raises_tac. }
  apply ends_bind; [apply ends_fails; ends_tac|intros u n2 _].
  apply ends_bind; [apply ends_fails; ends_tac|intros u2 n3 _].
  assert (Hin : forall h v b, ends_at env h
    (' (value, p) ← command {| p_timeout := timeout; p_next_request := 1; p_hello := [] |} "hello" None v;
     io_when (b value : bool) (RuntimeError "firmware identity/capabilities mismatch");;
     mret {| p_timeout := timeout; p_next_request := p_next_request p; p_hello := value |})).
  { intros h' v b. apply ends_bind; [apply command_ends|intros [value p] n4 _]. apply ends_fails. ends_tac. }
  apply ends_try; [apply Hin|]. intros e n4 He.
  apply ends_bind; [apply ends_fails; unfold close; ends_tac|intros u3 n5 _].
  intros r n [-> _]%runs_pure [= ->]. by apply Hin in He.
Qed.

Lemma finish_ends p h : ends_at env h (finish p).
Proof. apply ends_fails. unfold finish, close. ends_tac. Qed.
End RequestEnds.

Lemma session_echo_Ok env randbytes fuel p byte_count slow_read seed read_delay h res n `{!Socket env} :
  runs env h (echo randbytes fuel p byte_count slow_read seed read_delay) (Ok res) n ->
  let expected := echo_expected randbytes byte_count seed in
  1 <= byte_count <= 262144 /\ er_bytes res = blen expected /\ er_elapsed res <> 0 /\
  sent env h n = concat (data_frame <$> pieces 2048 expected) /\
  exists chunks, Forall carried chunks /\ received env h n = concat (data_frame <$> chunks) /\ concat chunks = expected.
Proof.
  unfold echo. set (expected := echo_expected _ _ _).
  intros ([] & n1 & n2 & [Hb ->]%runs_pure & H & ->)%runs_bind_Ok.
  apply runs_bind_Ok in H as ([] & n1 & n3 & [_ ->]%runs_pure & H & ->).
  apply runs_bind_Ok in H as ([] & n1 & n4 & [_ ->]%runs_pure & H & ->).
  apply runs_bind_Ok in H as (wire & n1 & n5 & [Hw ->]%runs_pure & H & ->).
  symmetry in Hb, Hw. apply raise_when_Ok in Hb. apply echo_wire_Ok in Hw. breflect. rewrite !app_nil_r in H.
  apply runs_bind_Ok in H as (started & n1 & n6 & H1 & H & ->). apply (runs_ask env _ Monotonic) in H1 as [_ ->].
  apply runs_bind_Ok in H as (u & n1 & n7 & H1 & H & ->). apply (runs_ask env _ (SetBlocking false)) in H1 as [_ ->].
  apply runs_finally in H as (q & r1 & m1 & m2 & H & Hq & -> & Hr). destruct q; [|done]. subst r1.
  apply (runs_ask env _ (SetTimeout _)) in Hq as [_ ->]. apply (echo_transfer_Ok env) in H as (Hs & Hn & _ & He & chunks & Hc & Hf & Hx).
  destruct (streams_between env h [Monotonic; SetBlocking false] m1 [SetTimeout (p_timeout p)]) as [E1 E2];
    [by repeat constructor..|]. calls_norm. rewrite E1, E2, Hs, Hf, Hw. split_and!; [lia|lia|done|lia|done|by exists chunks].
Qed.

(** ** Properties *)

(** C25: For the two kinds of frame a device sends, building and decoding are inverse: a byte string is
    the frame built from a kind, a request and a payload exactly when its first 16 bytes decode to the
    kind, the request and the payload's length and its other bytes are the payload; a header with another
    magic, version, flag, kind or size, or with a request number that does not fit its kind, is refused. *)
Theorem header_round_trip kind request payload wire :
  frame kind request payload = Ok wire /\ from_device kind request /\ u32_value request <->
  decode_header (slice 0 16 wire) = Ok (kind, request, blen payload) /\ drop 16 wire = payload.
Proof.
  split.
  - intros (Hf & Hd & Hr). apply frame_Ok in Hf as [Hl ->]; [|destruct Hd; lia|done].
    pose proof (blen_header_bytes kind request (blen payload)) as Hh. pose proof (blen_nonneg payload).
    split.
    + rewrite slice_app_l, <- Hh, slice_full by lia. by apply decode_header_Ok.
    + unfold blen in Hh. replace 16%nat with (length (header_bytes kind request (blen payload))) by (unfold blen; lia).
      apply drop_app_length.
  - intros [(Hh & Hd & Hr & Hs)%decode_header_Ok Hp]. split; [|done].
    apply frame_Ok; [destruct Hd; lia|done|]. split; [lia|]. rewrite <- Hh, <- Hp. unfold slice.
    rewrite drop_0. symmetry. apply take_drop.
Qed.

(** A request that succeeds has sent exactly one frame, with the session's next request number, and
    has received exactly one response frame with the same number, whose payload is a JSON object that
    reports success with the returned result, or failure with the expected code and the returned error;
    the next request gets the next number. *)
Theorem request_answered `{codec : !Json} env p kind payload expected_error h value p' n `{!Socket env} :
  runs env h (request_frame p kind payload expected_error) (Ok (value, p')) n ->
  p' = {| p_timeout := p_timeout p; p_next_request := p_next_request p + 1; p_hello := p_hello p |} /\
  frame kind (p_next_request p) payload = Ok (sent env h n) /\
  exists text response, received env h n = header_bytes 2 (p_next_request p) (blen text) ++ text /\
    p_next_request p <> 0 /\ blen text <= MAX_PAYLOAD /\
    json_loads text = Ok (JObj response) /\ accepted expected_error response value.
Proof. intros H. by eapply (request_frame_Ok env). Qed.

(** A session that opens has a checked target, has sent one hello request and nothing else, and its
    hello names the selected device, board, firmware version and backend, the open development mode, the
    4096-byte payload limit and a 16-digit boot ID; it is the value the one response that came in reports;
    the next request number is 2. *)
Theorem session_opens_checked `{codec : !Json} env address device_id board port timeout firmware_version backend targets
    h p n `{!Socket env} :
  runs env h (open_probe address device_id board port timeout firmware_version backend targets) (Ok p) n ->
  validate_target address = Ok address /\ fullmatch is_hex 16 device_id = true /\
  p_timeout p = timeout /\ p_next_request p = 2 /\
  frame 1 1 (json_dumps [("op", JStr "hello"); ("max_payload", JInt MAX_PAYLOAD)]) = Ok (sent env h n) /\
  hello_ok (p_hello p) (lower device_id) board firmware_version backend targets /\
  hello_received (received env h n) (p_hello p).
Proof. intros H. by eapply (open_probe_Ok env). Qed.

(** No session is left open: opening that fails either never connected or closed the socket as its
    last call, and finishing an open session always closes it last, reporting success only when the
    peer's end of stream was seen with no byte before it. *)
Theorem session_always_closed `{codec : !Json} env address device_id board port timeout firmware_version backend targets
    p h `{!Socket env} :
  (forall e n, runs env h (open_probe address device_id board port timeout firmware_version backend targets) (Raise e) n ->
   is_exception e = true ->
   last n = Some CloseSocket \/ n = [] \/ exists target, n = [Connect target port timeout] /\
     env h (Connect target port timeout) = Raise e) /\
  (forall fd r n, env h Fileno = Ok fd -> runs env h (finish p) r n ->
   (0 <= fd -> last n = Some CloseSocket) /\
   (r = Ok tt -> received env h n = [] /\ (0 <= fd -> ShutdownWrite ∈ n))).
Proof.
  split.
  - intros e n H He. by eapply open_probe_raises.
  - intros fd r n Hfd H. by eapply finish_closes.
Qed.

(** C21: An echo that reports success has sent exactly the test bytes, cut into frames of at most 2048
    bytes on channel 1, and has received whole frames on channel 1 and nothing else, whose bytes in order
    are exactly the test bytes, however the stream was split on the way; it reports their number, and
    the elapsed time it divides by is not zero. *)
Theorem session_echo_exact env randbytes fuel p byte_count slow_read seed read_delay h res n `{!Socket env} :
  runs env h (echo randbytes fuel p byte_count slow_read seed read_delay) (Ok res) n ->
  let expected := echo_expected randbytes byte_count seed in
  1 <= byte_count <= 262144 /\ er_bytes res = blen expected /\ er_elapsed res <> 0 /\
  sent env h n = concat (data_frame <$> pieces 2048 expected) /\
  exists chunks, Forall carried chunks /\ received env h n = concat (data_frame <$> chunks) /\ concat chunks = expected.
Proof. intros H. by apply (session_echo_Ok env) in H. Qed.

(** The echo ends: with a clock that advances between readings, a fuel of one more turn than the
    session's timeout has nanoseconds is never used up, whatever the device and the socket do. *)
Theorem session_echo_terminates env t randbytes fuel p byte_count slow_read seed read_delay h r n
    `{!Socket env, !Clock env t} :
  0 <= p_timeout p -> p_timeout p + 1 < Z.of_nat fuel ->
  runs env h (echo randbytes fuel p byte_count slow_read seed read_delay) r n -> r <> Raise OutOfFuel.
Proof. intros Hp Hf H. eapply (echo_ends env t); [exact Hf|lia|exact H]. Qed.

(** ** The theorems on concrete runs *)
Definition demo_text : bytes := ascii "{}".
Definition demo_hello : dict json :=
  [("device_id", JStr "503533303030abcd"); ("board_id", JStr "nano_rp2040_connect");
   ("firmware_version", JStr "0.3.0"); ("protocol_major", JInt 1); ("boot_id", JStr "0123456789abcdef");
   ("max_payload", JInt 4096); ("auth_mode", JStr "open-development"); ("targets", JArr []);
   ("channels", JArr [JObj [("id", JInt 1); ("backend", JStr "application"); ("controls", JArr [])]])].

#[local] Instance demo_codec : Json := {
  json_loads b :=
    if bool_decide (b = demo_text) then Ok (JObj [("ok", JBool true); ("result", JObj demo_hello)])
    else Raise (ValueError "Expecting value");
  json_dumps _ := ascii "{...}" }.

(** A device that answers every request with the text above, and one that echoes every byte. *)
Definition demo_reply (request : bytes) : bytes :=
  header_bytes 2 (be_val (slice 8 12 request)) (blen demo_text) ++ demo_text.
Definition demo_device : environment sock_ret := peer_env true [] demo_reply.
Definition echo_device : environment sock_ret := peer_env false [] id.

Definition demo_probe : probe := {| p_timeout := 5000; p_next_request := 2; p_hello := demo_hello |}.

Lemma request_answered_witness : exists n,
  let p' := {| p_timeout := 5000; p_next_request := 3; p_hello := demo_hello |} in
  runs demo_device [] (request_frame demo_probe 1 (ascii "{...}") None) (Ok (demo_hello, p')) n /\
  frame 1 2 (ascii "{...}") = Ok (sent demo_device [] n).
Proof.
  set (m := request_frame demo_probe 1 (ascii "{...}") None).
  assert (H := runs_outcome demo_device m (Ok (demo_hello, {| p_timeout := 5000; p_next_request := 3; p_hello := demo_hello |}))
    ltac:(vm_compute; reflexivity)).
  exists (calls demo_device m). split; [exact H|].
  by destruct (request_answered demo_device demo_probe 1 (ascii "{...}") None [] _ _ _ H) as (_ & Hf & _).
Defined.

Lemma session_opens_checked_witness : exists p n,
  runs demo_device [] (open_probe "192.168.7.1" "503533303030ABCD" "nano_rp2040_connect" 7420 5000 "0.3.0" "application" [])
    (Ok p) n /\ p_next_request p = 2.
Proof.
  set (m := open_probe "192.168.7.1" "503533303030ABCD" "nano_rp2040_connect" 7420 5000 "0.3.0" "application" []).
  assert (H := runs_outcome demo_device m (Ok demo_probe) ltac:(vm_compute; reflexivity)).
  eexists _, _. split; [exact H|].
  by destruct (session_opens_checked demo_device _ _ _ _ _ _ _ _ [] _ _ H) as (_ & _ & _ & -> & _ & _).
Defined.

Lemma session_echo_exact_witness : exists res n,
  runs echo_device [] (echo (fun _ _ => []) 40 demo_probe 600 false None 0) (Ok res) n /\ er_bytes res = 600.
Proof.
  set (m := echo (fun _ _ => []) 40 demo_probe 600 false None 0).
  assert (exists res, outcome echo_device m = Ok res) as [res Hres].
  { destruct (outcome echo_device m) eqn:E; [eauto|]. vm_compute in E. discriminate. }
  apply runs_outcome in Hres as H. exists res, (calls echo_device m). split; [exact H|].
  by destruct (session_echo_exact echo_device (fun _ _ => []) 40 demo_probe 600 false None 0 [] res _ H) as (_ & -> & _).
Defined.

(** A device that never echoes: the timeout ends the echo. *)
Lemma session_echo_terminates_witness : exists n,
  let p := {| p_timeout := 60; p_next_request := 2; p_hello := [] |} in
  runs (peer_env false [] (fun _ => [])) [] (echo (fun _ _ => []) 62 p 600 false None 0)
    (Raise (RuntimeError "echo timeout: expected bytes, received, sent wire")) n /\
  Raise (A := echo_result) (RuntimeError "echo timeout: expected bytes, received, sent wire") <> Raise OutOfFuel.
Proof.
  set (env := peer_env false [] (fun _ => [])).
  set (m := echo (fun _ _ => []) 62 {| p_timeout := 60; p_next_request := 2; p_hello := [] |} 600 false None 0).
  assert (H := runs_outcome env m (Raise (RuntimeError "echo timeout: expected bytes, received, sent wire"))
    ltac:(vm_compute; reflexivity)).
  exists (calls env m). split; [exact H|].
  refine (session_echo_terminates env peer_clock (fun _ _ => []) 62 {| p_timeout := 60; p_next_request := 2; p_hello := [] |}
    600 false None 0 [] _ _ _ _ H); simpl; lia.
Defined.

Lemma session_always_closed_witness : exists n,
  runs demo_device [] (open_probe "192.168.7.1" "503533303030ABCD" "arduino_nano_esp32" 7420 5000 "0.3.0" "application" [])
    (Raise (RuntimeError "firmware identity/capabilities mismatch")) n /\ last n = Some CloseSocket.
Proof.
  set (m := open_probe "192.168.7.1" "503533303030ABCD" "arduino_nano_esp32" 7420 5000 "0.3.0" "application" []).
  assert (H := runs_outcome demo_device m (Raise (RuntimeError "firmware identity/capabilities mismatch"))
    ltac:(vm_compute; reflexivity)).
  exists (calls demo_device m). split; [exact H|].
  destruct (session_always_closed demo_device "192.168.7.1" "503533303030ABCD" "arduino_nano_esp32" 7420 5000 "0.3.0"
    "application" [] demo_probe []) as [Ho _].
  destruct (Ho _ _ H eq_refl) as [Hl|[Hn|(target & Hn & _)]];
    [exact Hl|exfalso; vm_compute in Hn; discriminate..].
Defined.
