(* ===== verification/Bench.v ===== *)
(** * A bench of several devices

    The UART tools drive a serial peer and one or two network sessions at once, and keep a report. A call
    names the device it goes to; a program for one device runs unchanged on the bench ([on]), seeing only
    its own calls. *)

From stdpp Require Import base tactics list strings.
From Stdlib Require Import ZArith Lia.
From S2P Require Import Prelude.
From S2P Require Import PyBytes.
From S2P Require Import PyDict.
From S2P Require Import PyText.
From S2P Require Import PyJson.
From S2P Require Import Effects.
From S2P Require Import Stateful.
From S2P Require Import Stages.
From S2P Require Import Sockets.
From S2P Require Import SessionSmoke.

Local Open Scope Z_scope.

Inductive device := Host | Pico | Nano | Observer.

#[export] Instance device_eq_dec : EqDecision device.
Proof. solve_decision. Defined.

(** A call to a device, or on the evidence file; [R] is the report that is saved. *)
Inductive bench_call (R : Type) :=
| Dev (d : device) (c : sock_call)
| OutputExists (path : string)
| CreateNew (path : string)
| UtcTime
| MakeParent (path : string)
| SaveReport (path : string) (r : R).
Arguments Dev {R} d c.
Arguments OutputExists {R} path.
Arguments CreateNew {R} path.
Arguments UtcTime {R}.
Arguments MakeParent {R} path.
Arguments SaveReport {R} path r.

Definition bench_ret {R} (c : bench_call R) : Type :=
  match c with Dev _ c => sock_ret c | OutputExists _ => bool | UtcTime => string | _ => unit end.

(** ** One device's part of a run *)
Section View.
Context {R : Type}.

Definition tag (d : device) (n : list sock_call) : list (bench_call R) := Dev d <$> n.

(** What device [d] answers after the history [h]. *)
Definition view (env : environment bench_ret) (h : list (bench_call R)) (d : device) : environment sock_ret :=
  fun k c => env (h ++ tag d k) (Dev d c).

Definition on {A} (d : device) (m : sio A) : io bench_ret A := fun env h =>
  let '(r, k) := m (view env h d) [] in (r, tag d k).

Lemma runs_on {A} (env : environment bench_ret) h d (m : sio A) r n :
  runs env h (on d m) r n <-> exists k, n = tag d k /\ runs (view env h d) [] m r k.
Proof.
  unfold runs, on. destruct (m (view env h d) []) as [r' k']. split.
  - intros [= <- <-]. eauto.
  - by intros (k & -> & [= -> ->]).
Qed.

Lemma tag_app d k1 k2 : tag d (k1 ++ k2) = tag d k1 ++ tag d k2.
Proof. apply fmap_app. Qed.

(** Every device keeps the promises of a socket, from any point of a run on. *)
Class Bench (env : environment (bench_ret (R := R))) : Prop := { bench_socket : forall h d, Socket (view env h d) }.
End View.
#[export] Existing Instance bench_socket.

(** Independent devices: each answers its own calls. *)
Section Devices.
Context {R : Type} (devices : device -> environment sock_ret) (exists_already : bool).

Fixpoint own (d : device) (h : list (bench_call R)) : list sock_call :=
  match h with
  | [] => []
  | Dev d' c :: h => if decide (d' = d) then c :: own d h else own d h
  | _ :: h => own d h
  end.

Definition bench_env : environment (bench_ret (R := R)) := fun h c =>
  match c with
  | Dev d c => devices d (own d h) c
  | OutputExists _ => Ok exists_already
  | CreateNew _ => if exists_already then Raise (Exn KFileExistsError "File exists") else Ok tt
  | UtcTime => Ok ""
  | MakeParent _ | SaveReport _ _ => Ok tt
  end.

Lemma own_app d h1 h2 : own d (h1 ++ h2) = own d h1 ++ own d h2.
Proof.
  induction h1 as [|[d' c| | | | |] h1 IH]; simpl; [done| |done..]. case_decide; [|done]. simpl. by rewrite IH.
Qed.

Lemma own_tag d k : own d (tag d k) = k.
Proof. induction k as [|c k IH]; [done|]. simpl. rewrite decide_True by done. f_equal. exact IH. Qed.

#[export] Instance bench_env_bench : (forall d, Socket (devices d)) -> Bench bench_env.
Proof.
  intros Hd. constructor. intros h d. constructor; unfold view; cbn [bench_env]; intros k; rewrite own_app, own_tag.
  - intros n b. apply recv_bounded.
  - intros x n. apply send_bounded.
  - intros c e. apply real_socket.
Qed.
End Devices.

(** ** Sessions on the bench *)

(** What names a network session: [Probe(args.address, args.device_id, args.board, **options)]. *)
Record target := {
  t_address : string; t_device_id : string; t_board : string; t_port : Z; t_version : string; t_backend : string;
  t_timeout : Z; t_targets : list json }.

Section Sessions.
Context `{codec : !Json} {R S : Type}.
Local Abbreviation bench_ret := (bench_ret (R := R)).

Definition dev {A} (d : device) (m : sio A) : st bench_ret S A := st_io (on d m).

(** [with Probe(...) as p: body] *)
Definition with_probe {A} (d : device) (a : target) (body : probe -> st bench_ret S A) : st bench_ret S A :=
  p ← dev d (open_probe (t_address a) (t_device_id a) (t_board a) (t_port a) (t_timeout a) (t_version a) (t_backend a)
    (t_targets a));
  st_finally (body p) (dev d close).

Definition probe_command (d : device) (p : probe) (op : string) (expected_error : option string) (fields : dict json) :
    st bench_ret S (dict json * probe) := dev d (command p op expected_error fields).

(** [other.hello["boot_id"] != owner.hello["boot_id"]] *)
Definition same_boot (message : string) (owner other : probe) : result unit :=
  a ← ditem (p_hello other) "boot_id";
  b ← ditem (p_hello owner) "boot_id";
  raise_when (negb (py_eq a b)) (RuntimeError message).
End Sessions.

(** What a step of a session leaves in the calls *)
Section SessionStages.
Context `{codec : !Json} {R S : Type} (env : environment (bench_ret (R := R))) `{!Bench env}.

Local Abbreviation bstage := (@stage (bench_call R)).

(** A session with the selected device opened; its hello is what the device answered. *)
Definition opened (d : device) (a : target) (p : probe) : bstage := fun h n =>
  exists k, n = tag d k /\ hello_ok (p_hello p) (lower (t_device_id a)) (t_board a) (t_version a) (t_backend a) (t_targets a) /\
    frame 1 1 (json_dumps [("op", JStr "hello"); ("max_payload", JInt MAX_PAYLOAD)]) = Ok (sent (view env h d) [] k) /\
    hello_received (received (view env h d) [] k) (p_hello p).

(** A request was answered. *)
Definition answered (d : device) (op : string) (expected_error : option string) (fields value : dict json) : bstage := fun h n =>
  exists k request text response, n = tag d k /\
    frame 1 request (json_dumps (("op", JStr op) :: fields)) = Ok (sent (view env h d) [] k) /\
    received (view env h d) [] k = header_bytes 2 request (blen text) ++ text /\
    json_loads text = Ok (JObj response) /\ accepted expected_error response value.

Lemma staged_dev {A} d (m : sio A) (Q : A -> bstage) (F : A -> Prop) :
  (forall h k a, runs (view env h d) [] m (Ok a) k -> Q a h (tag d k) /\ F a) ->
  staged env (dev (S := S) d m) (fun a l => l = [Q a] /\ F a).
Proof.
  intros H. unfold dev. apply staged_io. intros h a n (k & -> & Hk)%runs_on. by apply H.
Qed.

(** The session after one more request *)
Definition next_probe (p : probe) : probe :=
  {| p_timeout := p_timeout p; p_next_request := p_next_request p + 1; p_hello := p_hello p |}.

Lemma probe_command_numbered d p op expected_error fields :
  staged env (probe_command (S := S) d p op expected_error fields)
    (fun '(value, p') l => l = [answered d op expected_error fields value] /\ p' = next_probe p).
Proof.
  unfold probe_command. eapply staged_weaken.
  - apply staged_dev with (Q := fun '(value, _) => answered d op expected_error fields value)
      (F := fun '(_, p') => p' = next_probe p).
    intros h k [value p'] H. unfold command in H. apply (request_frame_Ok (view env h d)) in H
      as (-> & Hf & text & response & Hr & _ & _ & Hj & Ha).
    split; [|done]. by exists k, (p_next_request p), text, response.
  - by intros [value p'] l.
Qed.

Lemma probe_command_staged d p op expected_error fields :
  staged env (probe_command (S := S) d p op expected_error fields)
    (fun '(value, p') l => l = [answered d op expected_error fields value] /\ p_hello p' = p_hello p).
Proof.
  eapply staged_weaken; [apply probe_command_numbered|]. by intros [value p'] l [-> ->].
Qed.

(** What is known of a session that has just opened. *)
Definition fresh (a : target) (p : probe) : Prop :=
  hello_ok (p_hello p) (lower (t_device_id a)) (t_board a) (t_version a) (t_backend a) (t_targets a) /\
  p_timeout p = t_timeout a /\ p_next_request p = 2.

Lemma with_probe_fresh {A} d a (body : probe -> st bench_ret S A) (Q : A -> list bstage -> Prop) :
  (forall p, fresh a p -> staged env (body p) (fun b l => Q b (opened d a p :: l))) ->
  staged env (with_probe d a body) Q.
Proof.
  intros Hb. unfold with_probe. eapply staged_bind.
  { apply staged_dev with (Q := opened d a) (F := fresh a).
    intros h k p H. apply (open_probe_Ok (view env h d)) in H as (_ & _ & Ht & Hn & Hs & Hh & Hr).
    split; [|done]. by exists k. }
  intros p l1 [-> Hh]. apply staged_finally. by apply Hb.
Qed.

Lemma with_probe_staged {A} d a (body : probe -> st bench_ret S A) (Q : A -> list bstage -> Prop) :
  (forall p, hello_ok (p_hello p) (lower (t_device_id a)) (t_board a) (t_version a) (t_backend a) (t_targets a) ->
   staged env (body p) (fun b l => Q b (opened d a p :: l))) ->
  staged env (with_probe d a body) Q.
Proof. intros Hb. apply with_probe_fresh. intros p [Hh _]. by apply Hb. Qed.

Lemma same_boot_Ok message owner other u : same_boot message owner other = Ok u ->
  py_eq (jget (p_hello other) "boot_id") (jget (p_hello owner) "boot_id") = true.
Proof.
  unfold same_boot, jget. intros (a & Ha & H)%bind_Ok. apply bind_Ok in H as (b & Hb & H).
  apply some_or_Ok in Ha, Hb. apply raise_when_Ok, negb_false_iff in H. by rewrite Ha, Hb.
Qed.
End SessionStages.

(** ** Bench programs end

    A call that fails raises an exception of Python, and every device has a clock. *)
Class EndingBench {R} (env : environment (bench_ret (R := R))) : Prop := {
  bench_real : forall h c e, env h c = Raise e -> e <> OutOfFuel;
  bench_clock : forall h d, exists t, Clock (view env h d) t }.

#[export] Instance bench_env_ending {R} (devices : device -> environment sock_ret) exists_already :
  (forall d, Socket (devices d)) -> (forall d, exists t, Clock (devices d) t) ->
  EndingBench (bench_env (R := R) devices exists_already).
Proof.
  intros Hs Hc. constructor.
  - intros h c e. destruct c; simpl; [apply real_socket|..]; try done. destruct exists_already; [by intros [= <-]|done].
  - intros h d. destruct (Hc d) as [t Ht]. exists (fun k => t (own d h ++ k)).
    constructor; unfold view; cbn [bench_env]; intros; rewrite ?own_app, ?own_tag, ?app_assoc.
    + apply clock_reads.
    + apply (clock_forward (env := devices d)).
    + apply (clock_advances (env := devices d)).
Qed.

Section BenchEnds.
Context `{codec : !Json} {R S : Type} (env : environment (bench_ret (R := R))) `{!Bench env, !EndingBench env}.
Context (Hjson : forall b, json_loads b <> Raise OutOfFuel).

Lemma st_ends_dev {A} d (m : sio A) h : ends_at (view env h d) [] m -> st_ends env h (dev (S := S) d m).
Proof.
  intros Hm s s' e n. unfold dev, st_io. destruct (on d m env h) as [r k] eqn:E. intros [= _ -> _] ->.
  apply runs_on in E as (k' & -> & E). by apply Hm in E.
Qed.

Lemma st_ends_probe_command d p op expected_error fields h : st_ends env h (probe_command (S := S) d p op expected_error fields).
Proof. apply st_ends_dev. by apply (command_ends (view env h d)). Qed.

Lemma st_ends_with_probe {A} d a (body : probe -> st bench_ret S A) h :
  (forall p h1, p_timeout p = t_timeout a -> p_next_request p = 2 -> st_ends env h1 (body p)) ->
  st_ends env h (with_probe d a body).
Proof.
  intros Hb. unfold with_probe. apply st_ends_bind_at; [apply st_ends_dev; by apply (open_probe_ends (view env h d))|].
  intros p s s1 n H. unfold dev, st_io in H. destruct (on d _ env h) as [r k] eqn:E. injection H as _ -> _.
  apply runs_on in E as (k' & -> & E). apply (open_probe_Ok (view env h d)) in E as (_ & _ & Ht & Hn & _).
  apply st_ends_finally; [by apply Hb|]. intros h1. apply st_ends_dev, ends_fails. unfold close. ends_tac.
Qed.
End BenchEnds.
