(* ===== verification/PicoPeer.v ===== *)
(** * The Pico fixture and serial data: tools/uart_peer_smoke.py

    The deterministic byte pattern, the line protocol of the Pico, and serial frames over a session.
    UartPeer holds the check that uses them. *)

From stdpp Require Import base tactics list list_numbers strings.
From Stdlib Require Import ZArith Lia Ascii.
From S2P Require Import Prelude.
From S2P Require Import PyBytes.
From S2P Require Import PyText.
From S2P Require Import PyStr.
From S2P Require Import PyDict.
From S2P Require Import PyJson.
From S2P Require Import Effects.
From S2P Require Import Sockets.
From S2P Require Import SessionSmoke.

Local Open Scope Z_scope.

Definition PEER_VERSION : string := "pico-uart-peer-v2".

(** ** The pattern *)
Definition next_state (state : Z) : Z := Z.land (state * 1664525 + 1013904223) 0xffffffff.

Fixpoint pattern_from (count : nat) (state mask : Z) : bytes :=
  match count with
  | O => []
  | S count => let state := next_state state in z2b (Z.land (Z.shiftr state 24) mask) :: pattern_from count state mask
  end.

Definition pattern (count seed data_bits : Z) : result bytes :=
  raise_when (negb ((1 <=? count) && (count <=? 262144)) || negb ((0 <=? seed) && (seed <=? 0xffffffff))
      || negb ((5 <=? data_bits) && (data_bits <=? 8))) (ValueError "invalid deterministic pattern request");;
  let mask := Z.shiftl 1 data_bits - 1 in
  mret (pattern_from (Z.to_nat count) seed mask).

(** ** Fields of a line *)
Definition add_field (result : dict string) (item : string) : dict string :=
  match partition_at "=" item with Some (key, value) => dset result key value | None => result end.

Definition fields (line : string) : dict string := foldl add_field [] (words line).

(** [value.get(name) != text] for a text *)
Definition field_differs (value : dict string) (name text : string) : bool := negb (bool_decide (dget value name = Some text)).

(** ** The serial port of the Pico *)
Module PicoPort.
Record pico := { pe_timeout : Z; pe_buffer : bytes }.

Definition open (path : string) (timeout : Z) : sio pico :=
  _ ← ask (OpenSerial path);
  mret {| pe_timeout := timeout; pe_buffer := [] |}.

Definition close : sio unit := ask CloseSocket.

Definition newline : byte := Byte.x0a.

(** The first line in the buffer, without its newline, and what follows it. *)
Fixpoint take_line (b : bytes) : option (bytes * bytes) :=
  match b with
  | [] => None
  | x :: b =>
      if bool_decide (x = newline) then Some ([], b)
      else match take_line b with Some (line, rest) => Some (x :: line, rest) | None => None end
  end.

(** [raw.rstrip(b"\r")] *)
Fixpoint skip_returns (b : bytes) : bytes :=
  match b with x :: r => if bool_decide (x = Byte.x0d) then skip_returns r else b | [] => [] end.
Definition rstrip_returns (b : bytes) : bytes := reverse (skip_returns (reverse b)).

(** [try: m except BlockingIOError: no value] *)
Definition unless_blocking {A} (m : sio A) : sio (option A) :=
  try_except (a ← m; mret (Some a)) (is_a KBlockingIOError) (fun _ => mret None).

Definition line_turn (deadline : Z) (buffer : bytes) : sio (bytes + bytes * bytes) :=
  match take_line buffer with
  | Some (raw, rest) => mret (inr (raw, rest))
  | None =>
      now ← ask Monotonic;
      io_when (deadline - now <=? 0) (RuntimeError "Pico USB response timeout");;
      ' (readable, _) ← ask (Select true false (deadline - now));
      if (readable : bool) then
        chunk ← unless_blocking (ask (Recv 4096));
        match chunk with
        | None => mret (inl buffer)
        | Some chunk =>
            io_when (bool_decide (chunk = [])) (RuntimeError "Pico USB control disconnected");;
            mret (inl (buffer ++ chunk))
        end
      else mret (inl buffer)
  end.

(** A turn that goes on has read the clock before the deadline, and the clock advances. *)
Definition turns (timeout : Z) : nat := (Z.to_nat timeout + 3)%nat.

Definition _line (p : pico) (timeout : option Z) : sio (string * pico) :=
  now ← ask Monotonic;
  let timeout := default (pe_timeout p) timeout in
  let deadline := now + timeout in
  ' (raw, rest) ← io_loop (turns timeout) (line_turn deadline) (pe_buffer p);
  line ← try_except (io_pure (decode_ascii (rstrip_returns raw))) (is_a KUnicodeError)
           (fun _ => io_raise (RuntimeError "non-ASCII Pico response"));
  mret (line, {| pe_timeout := pe_timeout p; pe_buffer := rest |}).

Definition write_turn (deadline : Z) (payload : bytes) (sent : Z) : sio (Z + unit) :=
  if sent <? blen payload then
    now ← ask Monotonic;
    io_when (deadline - now <=? 0) (RuntimeError "Pico USB command write timeout");;
    ' (_, writable) ← ask (Select false true (deadline - now));
    if (writable : bool) then
      count ← unless_blocking (ask (Send (drop (Z.to_nat sent) payload)));
      mret (inl (sent + default 0 count))
    else mret (inl sent)
  else mret (inr tt).

Definition line_feed : string := String "010"%char "".

Definition command (p : pico) (text : string) (expected_error : option string) : sio (string * pico) :=
  payload ← io_pure (encode_ascii (text +:+ line_feed));
  now ← ask Monotonic;
  let deadline := now + pe_timeout p in
  io_loop (turns (pe_timeout p)) (write_turn deadline payload) 0;;
  ' (line, p) ← _line p None;
  match expected_error with
  | Some expected_error =>
      io_when (negb (bool_decide (line = "ERR " +:+ expected_error))) (RuntimeError "Pico command expected , received");;
      mret (line, p)
  | None =>
      io_when (negb (String.prefix "OK" line)) (RuntimeError "Pico command failed");;
      mret (line, p)
  end.

(** Every line that is not an event restarts the timeout. *)
Definition event_turn (expected : string) (timeout : Z) (p : pico) : sio (pico + string * pico) :=
  ' (line, p) ← _line p (Some timeout);
  if String.prefix expected line then mret (inr (line, p))
  else
    io_when (String.prefix "EVENT " line) (RuntimeError "unexpected Pico event");;
    mret (inl p).

Definition event (fuel : nat) (p : pico) (name : string) (timeout : Z) : sio (string * pico) :=
  io_loop fuel (event_turn ("EVENT " +:+ name) timeout) p.
End PicoPort.

(** ** Serial data over a session *)
Definition uart_config (baud data_bits : Z) (parity : string) (stop_bits : Z) : dict json :=
  [("baud", JInt baud); ("data_bits", JInt data_bits); ("parity", JStr parity); ("stop_bits", JInt stop_bits);
   ("flow_control", JStr "none")].

Definition send_piece (data : bytes) (offset : Z) : sio unit :=
  message ← io_pure (frame 3 0 (channel_prefix ++ slice offset (offset + 2048) data));
  ask (SendAll message).

Definition send_serial (data : bytes) : sio unit :=
  io_fold (fun _ => send_piece data) tt (range 0 (blen data) 2048).

Definition receive_turn (count deadline : Z) (received : bytes) : sio (bytes + bytes) :=
  if blen received <? count then
    header ← _exact 16 deadline;
    ' (kind, request, size) ← io_pure (decode_header header);
    payload ← _exact size deadline;
    io_when (negb (kind =? 3) || negb (request =? 0) || (size <=? 4)
        || negb (bool_decide (slice 0 4 payload = channel_prefix)))
      (RuntimeError "unexpected FMGO frame during Pico-to-Nano transfer");;
    let received := received ++ drop 4 payload in
    io_when (count <? blen received) (RuntimeError "Nano returned extra Pico UART bytes");;
    mret (inl received)
  else mret (inr received).

(** Every turn adds at least one byte. *)
Definition receive_serial (p : probe) (count : Z) : sio bytes :=
  now ← ask Monotonic;
  let deadline := now + p_timeout p in
  io_loop (Z.to_nat count + 2)%nat (receive_turn count deadline) [].

Definition require_peer_event (line : string) (count : Z) : result Z :=
  let value := fields line in
  raise_when (field_differs value "overruns" "0" || field_differs value "mismatches" "0"
      || field_differs value "expect_remaining" "0" || field_differs value "send_remaining" "0")
    (RuntimeError "Pico reported transfer failure");;
  mret count.

(** ** Lines *)
Lemma take_line_Some b line rest : PicoPort.take_line b = Some (line, rest) ->
  b = line ++ PicoPort.newline :: rest /\ PicoPort.newline ∉ line.
Proof.
  revert line. induction b as [|x b IH]; intros line; simpl; [done|]. case_bool_decide as Hx.
  - intros [= <- <-]. subst x. split; [done|apply not_elem_of_nil].
  - destruct (PicoPort.take_line b) as [[l r]|]; [|done]. intros [= <- <-].
    destruct (IH l eq_refl) as [-> Hn]. split; [done|]. by apply not_elem_of_cons.
Qed.

Lemma take_line_None b : PicoPort.take_line b = None <-> PicoPort.newline ∉ b.
Proof.
  induction b as [|x b IH]; simpl; [split; [intros _; apply not_elem_of_nil|done]|].
  rewrite not_elem_of_cons. case_bool_decide as Hx; [split; [done|naive_solver]|].
  destruct (PicoPort.take_line b) as [[l r]|]; naive_solver.
Qed.

Lemma take_line_app line rest : PicoPort.newline ∉ line ->
  PicoPort.take_line (line ++ PicoPort.newline :: rest) = Some (line, rest).
Proof.
  induction line as [|x line IH]; simpl; [done|]. rewrite not_elem_of_cons. intros [Hx Hl].
  rewrite bool_decide_eq_false_2 by congruence. by rewrite (IH Hl).
Qed.

(** The line a text was decoded from: its bytes with the carriage returns at the end. *)
Definition line_of (raw : bytes) (line : string) : Prop :=
  PicoPort.newline ∉ raw /\ decode_ascii (PicoPort.rstrip_returns raw) = Ok line.

Section PeerRuns.
Context (env : environment sock_ret) `{!Socket env}.

Lemma unless_blocking_recv h k o n : runs env h (PicoPort.unless_blocking (ask (Recv k))) (Ok o) n ->
  n = [Recv k] /\ sent env h n = [] /\ received env h n = default [] o.
Proof.
  intros [[H _]|(e & n1 & n2 & H & _ & H2 & ->)]%runs_try.
  - apply runs_bind_Ok in H as (b & m1 & m2 & H & H2 & ->). apply (runs_ask env h (Recv k)) in H as [H ->].
    apply runs_ret in H2 as [[= ->] ->]. rewrite app_nil_r, sent_one, received_one. simpl. by rewrite <- H.
  - apply runs_bind in H as [(e' & H & [= <-])|(b & m1 & m2 & _ & [H _]%runs_pure & _)]; [|done].
    apply (runs_ask env h (Recv k)) in H as [H ->]. apply runs_ret in H2 as [[= ->] ->].
    rewrite app_nil_r, sent_one, received_one. simpl. by rewrite <- H.
Qed.

Lemma unless_blocking_send h d o n : runs env h (PicoPort.unless_blocking (ask (Send d))) (Ok o) n ->
  n = [Send d] /\ received env h n = [] /\ sent env h n = take (Z.to_nat (default 0 o)) d /\ 0 <= default 0 o <= blen d.
Proof.
  pose proof (blen_nonneg d) as Hd.
  intros [[H _]|(e & n1 & n2 & H & _ & H2 & ->)]%runs_try.
  - apply runs_bind_Ok in H as (b & m1 & m2 & H & H2 & ->). apply (runs_ask env h (Send d)) in H as [H ->].
    apply runs_ret in H2 as [[= ->] ->]. symmetry in H. rewrite app_nil_r, sent_one, received_one. simpl. rewrite H.
    split_and!; [done..| |]; by apply send_bounded in H as [? ?].
  - apply runs_bind in H as [(e' & H & [= <-])|(b & m1 & m2 & _ & [H _]%runs_pure & _)]; [|done].
    apply (runs_ask env h (Send d)) in H as [H ->]. apply runs_ret in H2 as [[= ->] ->].
    rewrite app_nil_r, sent_one, received_one. simpl. rewrite <- H. split_and!; [done..|lia|lia].
Qed.

Lemma line_turn_Ok deadline buffer h o n : runs env h (PicoPort.line_turn deadline buffer) (Ok o) n ->
  sent env h n = [] /\
  match o with
  | inl buffer' => buffer' = buffer ++ received env h n
  | inr (raw, rest) => n = [] /\ buffer = raw ++ PicoPort.newline :: rest /\ PicoPort.newline ∉ raw
  end.
Proof.
  unfold PicoPort.line_turn. destruct (PicoPort.take_line buffer) as [[raw rest]|] eqn:E.
  { intros [[= ->] ->]%runs_ret. apply take_line_Some in E. done. }
  intros (now & n1 & n2 & H1 & H & ->)%runs_bind_Ok. apply (runs_ask env h Monotonic) in H1 as [_ ->].
  apply runs_bind_Ok in H as ([] & m1 & m2 & [_ ->]%runs_pure & H & ->).
  apply runs_bind_Ok in H as ([readable w] & m1 & m3 & H1 & H & ->).
  apply (runs_ask env _ (Select true false _)) in H1 as [_ ->]. destruct readable.
  2:{ apply runs_ret in H as [[= ->] ->]. rewrite app_nil_r.
      split; [apply sent_silent|rewrite received_silent, app_nil_r; [done|]]; by repeat constructor. }
  apply runs_bind_Ok in H as (chunk & m1 & m4 & H1 & H & ->). apply unless_blocking_recv in H1 as (-> & _ & Hr).
  unfold sent, received in *. destruct chunk as [chunk|].
  - apply runs_bind_Ok in H as ([] & m5 & m6 & [_ ->]%runs_pure & [[= ->] ->]%runs_ret & ->).
    cbn [app stream sent_by received_by] in *. rewrite !app_nil_r in *. calls_norm. split; [done|]. by rewrite Hr.
  - apply runs_ret in H as [[= ->] ->].
    cbn [app stream sent_by received_by] in *. rewrite !app_nil_r in *. calls_norm. split; [done|].
    rewrite Hr. simpl. by rewrite app_nil_r.
Qed.

Lemma _line_Ok p timeout h line p' n : runs env h (PicoPort._line p timeout) (Ok (line, p')) n ->
  sent env h n = [] /\ PicoPort.pe_timeout p' = PicoPort.pe_timeout p /\
  exists raw, line_of raw line /\
    PicoPort.pe_buffer p ++ received env h n = raw ++ PicoPort.newline :: PicoPort.pe_buffer p'.
Proof.
  unfold PicoPort._line. intros (now & n1 & n2 & H1 & H & ->)%runs_bind_Ok.
  apply (runs_ask env h Monotonic) in H1 as [_ ->].
  apply runs_bind_Ok in H as ([raw rest] & m1 & m2 & Hl & H & ->).
  apply runs_bind_Ok in H as (l & m3 & m4 & H1 & [[= -> ->] ->]%runs_ret & ->). rewrite app_nil_r.
  apply runs_try in H1 as [[[H1 ->]%runs_pure _]|(e & ? & ? & _ & _ & [H1 _]%runs_pure & _)]; [|done].
  set (buffer := PicoPort.pe_buffer p) in *.
  pose (I (b : bytes) m := sent env (h ++ [Monotonic]) m = [] /\ b = buffer ++ received env (h ++ [Monotonic]) m).
  assert (Hi : sent env (h ++ [Monotonic]) m1 = [] /\
    buffer ++ received env (h ++ [Monotonic]) m1 = raw ++ PicoPort.newline :: rest /\ PicoPort.newline ∉ raw).
  { pose (Q (a : bytes * bytes) m := sent env (h ++ [Monotonic]) m = [] /\
      buffer ++ received env (h ++ [Monotonic]) m = a.1 ++ PicoPort.newline :: a.2 /\ PicoPort.newline ∉ a.1).
    change (Q (raw, rest) m1). rewrite <- (app_nil_l m1).
    eapply (runs_loop_inv env _ _ I Q (h ++ [Monotonic]) buffer []); [|split; [done|by rewrite app_nil_r]|by rewrite app_nil_r].
    intros b m o k [Hs Hb] Hr. apply line_turn_Ok in Hr as [Hs' Ho]. unfold I, Q.
    rewrite !sent_app, !received_app, Hs, Hs'. destruct o as [b'|[r1 r2]].
    - split; [done|]. by rewrite Ho, Hb, app_assoc.
    - destruct Ho as (-> & Hb' & Hn). simpl. rewrite app_nil_r, <- Hb. done. }
  destruct Hi as (Hs & Hb & Hn). rewrite !sent_app, !received_app, !sent_one, !received_one, app_nil_r. simpl.
  rewrite app_nil_r, Hs. split; [done|]. split; [done|]. exists raw. split; [by split|done].
Qed.

Lemma write_turn_Ok deadline payload s h o n : 0 <= s <= blen payload ->
  runs env h (PicoPort.write_turn deadline payload s) (Ok o) n ->
  received env h n = [] /\
  match o with
  | inl s' => s <= s' <= blen payload /\ sent env h n = slice s s' payload
  | inr _ => n = [] /\ s = blen payload
  end.
Proof.
  intros Hs. unfold PicoPort.write_turn. destruct (Z.ltb_spec s (blen payload)) as [Hlt|Hge].
  2:{ intros [[= ->] ->]%runs_ret. split_and!; [done..|lia]. }
  intros (now & n1 & n2 & H1 & H & ->)%runs_bind_Ok. apply (runs_ask env h Monotonic) in H1 as [_ ->].
  apply runs_bind_Ok in H as ([] & m1 & m2 & [_ ->]%runs_pure & H & ->).
  apply runs_bind_Ok in H as ([w writable] & m1 & m3 & H1 & H & ->).
  apply (runs_ask env _ (Select false true _)) in H1 as [_ ->]. unfold sent, received in *. destruct writable.
  2:{ apply runs_ret in H as [[= ->] ->]. cbn [app stream sent_by received_by]. rewrite slice_empty. split_and!; done || lia. }
  apply runs_bind_Ok in H as (count & m1 & m4 & H1 & H & ->). apply runs_ret in H as [[= ->] ->].
  apply unless_blocking_send in H1 as (-> & _ & Hw & Hc). unfold sent in Hw. cbn [app stream sent_by received_by] in *.
  rewrite !app_nil_r in *. calls_norm. rewrite Hw. split; [done|]. unfold blen in *. rewrite length_drop in Hc.
  split; [lia|]. unfold slice. do 2 f_equal. lia.
Qed.

Lemma write_all_Ok fuel deadline payload h u n :
  runs env h (io_loop fuel (PicoPort.write_turn deadline payload) 0) (Ok u) n ->
  sent env h n = payload /\ received env h n = [].
Proof.
  intros H.
  pose (I s m := 0 <= s <= blen payload /\ sent env h m = slice 0 s payload /\ received env h m = []).
  pose (Q (_ : unit) m := sent env h m = payload /\ received env h m = []).
  change (Q u n). rewrite <- (app_nil_l n).
  eapply (runs_loop_inv env _ _ I Q h 0 []); [| |by rewrite app_nil_r].
  - intros s m o k (Hs & Hm & Hr) Hk. apply write_turn_Ok in Hk as [Hr' Ho]; [|done]. unfold I, Q.
    rewrite !sent_app, !received_app, Hm, Hr, Hr'. destruct o as [s'|u'].
    + destruct Ho as [Hle ->]. split; [lia|]. split; [|done]. symmetry. apply slice_split; lia.
    + destruct Ho as [-> ->]. simpl. rewrite app_nil_r, slice_full. done.
  - pose proof (blen_nonneg payload). split; [lia|]. by rewrite slice_empty.
Qed.
End PeerRuns.

(** ** Commands, events and serial data *)
Section PeerOperations.
Context (env : environment sock_ret) `{!Socket env}.

(** A line at the head of some bytes, the text it says, and what is left. *)
Definition line_taken (b : bytes) (line : string) (rest : bytes) : Prop :=
  exists raw, line_of raw line /\ b = raw ++ PicoPort.newline :: rest.

(** The first event at the head of some bytes: the lines before it are not events. *)
Inductive event_taken (name : string) : bytes -> string -> bytes -> Prop :=
| event_first b line rest : line_taken b line rest -> String.prefix ("EVENT " +:+ name) line = true ->
    event_taken name b line rest
| event_later b other b' line rest : line_taken b other b' -> String.prefix ("EVENT " +:+ name) other = false ->
    String.prefix "EVENT " other = false -> event_taken name b' line rest -> event_taken name b line rest.

(** The text a line is read as, from what was buffered and received. *)
Definition read_line (p : PicoPort.pico) (taken : bytes) (line : string) (p' : PicoPort.pico) : Prop :=
  PicoPort.pe_timeout p' = PicoPort.pe_timeout p /\
  line_taken (PicoPort.pe_buffer p ++ taken) line (PicoPort.pe_buffer p').

(** The head of some bytes is one line only. *)
Lemma line_taken_functional b l1 r1 l2 r2 : line_taken b l1 r1 -> line_taken b l2 r2 -> l1 = l2 /\ r1 = r2.
Proof.
  intros (x & [Hx Dx] & ->) (y & [Hy Dy] & E). apply (f_equal PicoPort.take_line) in E.
  rewrite !take_line_app in E by done. injection E as -> ->. split; [congruence|done].
Qed.

Lemma line_taken_app b line rest more : line_taken b line rest -> line_taken (b ++ more) line (rest ++ more).
Proof. intros (raw & Hl & ->). exists raw. split; [done|]. by rewrite <- app_assoc. Qed.

(** So is the event: the lines before it are told from it. *)
Lemma event_taken_functional name b l1 r1 l2 r2 : event_taken name b l1 r1 -> event_taken name b l2 r2 -> l1 = l2 /\ r1 = r2.
Proof.
  intros H. revert l2 r2. induction H as [b l1 r1 H1 P1|b o1 b1 l1 r1 H1 P1 N1 E1 IH]; intros l2 r2 H2;
    inversion H2 as [b' l' r' H3 P3|b' o3 b3 l' r' H3 P3 N3 E3]; subst;
    destruct (line_taken_functional _ _ _ _ _ H1 H3) as [-> ->]; try congruence; auto.
Qed.

Lemma event_taken_prefix name b line rest : event_taken name b line rest -> String.prefix ("EVENT " +:+ name) line = true.
Proof. by induction 1. Qed.

Lemma command_Ok p text expected_error h line p' n :
  runs env h (PicoPort.command p text expected_error) (Ok (line, p')) n ->
  encode_ascii (text +:+ PicoPort.line_feed) = Ok (sent env h n) /\ read_line p (received env h n) line p' /\
  match expected_error with Some e => line = ("ERR " +:+ e)%string | None => String.prefix "OK" line = true end.
Proof.
  unfold PicoPort.command. intros (payload & n1 & n2 & [Hp ->]%runs_pure & H & ->)%runs_bind_Ok.
  apply runs_bind_Ok in H as (now & n1 & n3 & H1 & H & ->). apply (runs_ask env _ Monotonic) in H1 as [_ ->].
  apply runs_bind_Ok in H as (u & m1 & m2 & H1 & H & ->). apply (write_all_Ok env) in H1 as [Hs Hr].
  apply runs_bind_Ok in H as ([l q] & m3 & m4 & H1 & H & ->).
  apply (_line_Ok env) in H1 as (Hs2 & Ht & raw & Hl & Hb).
  assert (Hq : l = line /\ q = p' /\ m4 = [] /\
    match expected_error with Some e => l = ("ERR " +:+ e)%string | None => String.prefix "OK" l = true end).
  { destruct expected_error as [e|]; apply runs_bind_Ok in H as ([] & m5 & m6 & [Hc ->]%runs_pure & H & ->);
      apply runs_ret in H as [[= -> ->] ->]; symmetry in Hc; apply raise_when_Ok in Hc; by breflect. }
  destruct Hq as (-> & -> & -> & He). rewrite !app_nil_r in *. simpl in Hs, Hr, Hs2, Hb.
  destruct (streams_between env h [Monotonic] (m1 ++ m3) []) as [E1 E2]; [by repeat constructor..|].
  rewrite app_nil_r in E1, E2. cbn [app] in *. rewrite E1, E2, sent_app, received_app, Hs, Hr, Hs2, app_nil_r.
  split; [done|]. split; [|done]. split; [done|]. by exists raw.
Qed.

Lemma event_Ok fuel p name timeout h line p' n :
  runs env h (PicoPort.event fuel p name timeout) (Ok (line, p')) n ->
  sent env h n = [] /\ event_taken name (PicoPort.pe_buffer p ++ received env h n) line (PicoPort.pe_buffer p').
Proof.
  unfold PicoPort.event. revert p h n. induction fuel as [|fuel IH]; intros p h n; cbn [io_loop].
  { by intros [? _]%runs_pure. }
  intros (o & n1 & n2 & H1 & H & ->)%runs_bind_Ok. unfold PicoPort.event_turn in H1.
  apply runs_bind_Ok in H1 as ([l q] & m1 & m2 & H1 & H2 & ->).
  apply (_line_Ok env) in H1 as (Hs & _ & Hl). fold (line_taken (PicoPort.pe_buffer p ++ received env h m1) l (PicoPort.pe_buffer q)) in Hl.
  destruct (String.prefix ("EVENT " +:+ name) l) eqn:E.
  - apply runs_ret in H2 as [[= ->] ->]. apply runs_pure in H as [[= -> ->] ->]. rewrite !app_nil_r. split; [done|].
    by apply event_first.
  - apply runs_bind_Ok in H2 as ([] & m3 & m4 & [Hx ->]%runs_pure & [[= ->] ->]%runs_ret & ->).
    symmetry in Hx. apply raise_when_Ok in Hx. rewrite !app_nil_r in *. apply IH in H as [Hs2 He].
    rewrite sent_app, received_app, Hs, Hs2. split; [done|].
    apply (event_later _ _ l (PicoPort.pe_buffer q ++ received env (h ++ m1) n2)); [|done..].
    rewrite app_assoc. by apply line_taken_app.
Qed.

Lemma send_pieces_Ok data l h u n :
  runs env h (io_fold (fun _ => send_piece data) tt l) (Ok u) n ->
  received env h n = [] /\ sent env h n = concat ((fun o => data_frame (slice o (o + 2048) data)) <$> l).
Proof.
  revert h n. induction l as [|o l IH]; intros h n; cbn [io_fold].
  { by intros [_ ->]%runs_pure. }
  intros ([] & n1 & n2 & H1 & H & ->)%runs_bind_Ok. apply IH in H as [Hr Hs].
  unfold send_piece in H1. apply runs_bind_Ok in H1 as (message & m1 & m2 & [Hf ->]%runs_pure & H1 & ->).
  symmetry in Hf. apply frame_Ok in Hf as [_ ->]; [|lia|unfold u32_value; lia].
  apply (runs_ask env _ (SendAll _)) in H1 as [H1 ->]. rewrite app_nil_r in H1. rewrite app_nil_l in *.
  rewrite sent_app, received_app, Hr, Hs, sent_one, received_one, (sent_by_all _ _ _ H1). split; [done|].
  rewrite fmap_cons. cbn [concat].
  unfold data_frame. rewrite blen_app, blen_channel_prefix. by rewrite <- app_assoc.
Qed.

Lemma send_serial_Ok data h u n : runs env h (send_serial data) (Ok u) n ->
  received env h n = [] /\ sent env h n = concat (data_frame <$> pieces 2048 data).
Proof.
  unfold send_serial. intros H. apply send_pieces_Ok in H as [Hr Hs]. split; [exact Hr|].
  rewrite Hs. f_equal. unfold pieces.
  exact (list_fmap_compose (fun o => slice o (o + 2048) data) data_frame _).
Qed.

Lemma receive_turn_Ok count deadline data h o n : runs env h (receive_turn count deadline data) (Ok o) n ->
  sent env h n = [] /\
  match o with
  | inl data' => exists chunk, carried chunk /\ received env h n = data_frame chunk /\ data' = data ++ chunk /\
      blen data < count /\ blen data' <= count
  | inr out => n = [] /\ out = data /\ count <= blen data
  end.
Proof.
  unfold receive_turn. destruct (Z.ltb_spec (blen data) count) as [Hlt|Hge].
  2:{ intros [[= ->] ->]%runs_ret. done. }
  intros (header & n1 & n2 & H1 & H & ->)%runs_bind_Ok. apply (_exact_Ok env) in H1 as (Hr1 & Hs1 & Hl1); [|exact _|done].
  apply runs_bind_Ok in H as ([[kind request] size] & m1 & m2 & [Hd ->]%runs_pure & H & ->). symmetry in Hd.
  apply decode_header_Ok in Hd as (-> & Hfrom & _ & Hsz).
  apply runs_bind_Ok in H as (payload & m1 & m3 & H1 & H & ->).
  apply (_exact_Ok env) in H1 as (Hr2 & Hs2 & Hl2); [|exact _|lia].
  apply runs_bind_Ok in H as ([] & m4 & m5 & [Hc ->]%runs_pure & H & ->).
  apply runs_bind_Ok in H as ([] & m4 & m6 & [Hx ->]%runs_pure & [[= ->] ->]%runs_ret & ->).
  symmetry in Hc, Hx. apply raise_when_Ok in Hc, Hx. breflect. destruct Hc as [[[-> ->] Hs] Hp].
  rewrite !app_nil_r, ?app_nil_l in *. rewrite !sent_app, !received_app, Hs1, Hs2, Hr1, Hr2. split; [done|].
  assert (Hd4 : blen (drop 4 payload) = size - 4).
  { unfold blen in *. rewrite length_drop. lia. }
  exists (drop 4 payload). unfold carried, data_frame. rewrite Hd4.
  replace (4 + (size - 4)) with size by lia. split_and!; [lia..| |done|lia|lia].
  f_equal. rewrite <- Hp. unfold slice. rewrite drop_0. symmetry. apply take_drop.
Qed.

Lemma receive_serial_Ok p count h data n : 0 <= count -> runs env h (receive_serial p count) (Ok data) n ->
  sent env h n = [] /\ blen data = count /\
  exists chunks, Forall carried chunks /\ received env h n = concat (data_frame <$> chunks) /\ concat chunks = data.
Proof.
  intros Hc. unfold receive_serial. intros (now & n1 & n2 & H1 & H & ->)%runs_bind_Ok.
  apply (runs_ask env h Monotonic) in H1 as [_ ->]. set (h' := h ++ [Monotonic]) in *.
  pose (I (d : bytes) m := sent env h' m = [] /\ blen d <= count /\
    exists chunks, Forall carried chunks /\ received env h' m = concat (data_frame <$> chunks) /\ concat chunks = d).
  assert (Hi : I data n2 /\ count <= blen data).
  { pose (Q (d : bytes) m := I d m /\ count <= blen d). change (Q data n2). rewrite <- (app_nil_l n2).
    eapply (runs_loop_inv env _ _ I Q h' [] []); [| |by rewrite app_nil_r].
    - intros d m o k (Hs & Hb & chunks & Hf & Hr & Hcat) Hk. apply receive_turn_Ok in Hk as [Hs' Ho].
      unfold Q, I. rewrite !sent_app, !received_app, Hs, Hs'. destruct o as [d'|out].
      + destruct Ho as (chunk & Hcar & Hr' & -> & _ & Hle). split; [done|]. split; [done|].
        exists (chunks ++ [chunk]). rewrite fmap_app, !concat_app, Hr, Hr', Hcat. simpl. rewrite !app_nil_r.
        split_and!; [|done..]. apply Forall_app. split; [done|by constructor].
      + destruct Ho as (-> & -> & Hge). simpl. rewrite app_nil_r. split; [|done]. split_and!; [done..|]. by exists chunks.
    - split; [done|]. split; [done|]. exists []. done. }
  destruct Hi as [(Hs & Hle & chunks & Hf & Hr & Hcat) Hge].
  rewrite sent_app, received_app, sent_one, received_one. fold h'. rewrite Hs, Hr. simpl.
  split_and!; [done|lia|]. by exists chunks.
Qed.
End PeerOperations.

(** ** The peer's operations end

    A line is awaited no longer than its timeout. An event is awaited as long as lines that are not
    events keep coming: each turn takes one. *)
Section PeerEnds.
Context (env : environment sock_ret) (t : list sock_call -> Z) `{!Socket env, !Clock env t}.

Lemma line_turn_ends deadline buffer : fails_with env (fun e => e <> OutOfFuel) (PicoPort.line_turn deadline buffer).
Proof.
  unfold PicoPort.line_turn, PicoPort.unless_blocking. destruct (PicoPort.take_line buffer) as [[]|]; ends_tac.
Qed.

Lemma write_turn_ends deadline payload s : fails_with env (fun e => e <> OutOfFuel) (PicoPort.write_turn deadline payload s).
Proof. unfold PicoPort.write_turn, PicoPort.unless_blocking. ends_tac. Qed.

(** A turn that goes on has read the clock before the deadline. *)
Lemma polled {A} (deadline : Z) e (k : Z -> sio A) h r n :
  runs env h (now ← ask Monotonic; io_when (deadline - now <=? 0) e;; k now) (Ok r) n ->
  t h < t (h ++ n) /\ t h < deadline.
Proof.
  intros (now & n1 & n2 & H1 & H2 & ->)%runs_bind_Ok. apply (runs_ask env h Monotonic) in H1 as [H1 ->].
  split; [apply clock_advances|]. rewrite clock_reads in H1. injection H1 as ->.
  apply runs_bind_Ok in H2 as ([] & m1 & m2 & [Hd _]%runs_pure & _). symmetry in Hd. apply raise_when_Ok in Hd.
  breflect. lia.
Qed.

Lemma line_loop_ends timeout now h buffer : now <= t h ->
  ends_at env h (io_loop (PicoPort.turns timeout) (PicoPort.line_turn (now + timeout)) buffer).
Proof.
  intros H1 r n.
  apply (runs_loop_ends env _ _ (fun _ _ => True) (fun _ h' => now + timeout - t h')); [|done|unfold PicoPort.turns; lia..].
  intros b h0 o k _ Hr. split; [intros ->; by apply line_turn_ends in Hr|]. intros b' ->.
  unfold PicoPort.line_turn in Hr. destruct (PicoPort.take_line b) as [[]|]; [by apply runs_ret in Hr as [[=] _]|].
  apply (polled _ _ (fun now => _)) in Hr as [? ?]. split; [done|lia].
Qed.

Lemma write_loop_ends timeout now h payload : now <= t h ->
  ends_at env h (io_loop (PicoPort.turns timeout) (PicoPort.write_turn (now + timeout) payload) 0).
Proof.
  intros H1 r n.
  apply (runs_loop_ends env _ _ (fun _ _ => True) (fun _ h' => now + timeout - t h')); [|done|unfold PicoPort.turns; lia..].
  intros s h0 o k _ Hr. split; [intros ->; by apply write_turn_ends in Hr|]. intros s' ->.
  unfold PicoPort.write_turn in Hr. destruct (_ <? _); [|by apply runs_ret in Hr as [[=] _]].
  apply (polled _ _ (fun now => _)) in Hr as [? ?]. split; [done|lia].
Qed.

(** Reading the clock, then a program that starts no earlier than the reading *)
Lemma ends_now {A} (f : Z -> sio A) h :
  (forall now h, now <= t h -> ends_at env h (f now)) -> ends_at env h (now ← ask Monotonic; f now).
Proof.
  intros Hf. apply ends_bind; [apply ends_fails; ends_tac|]. intros now n Hn.
  apply (runs_ask env h Monotonic) in Hn as [Hn ->]. rewrite clock_reads in Hn. injection Hn as ->.
  apply Hf. apply clock_forward.
Qed.

Lemma decode_line_ends raw : fails_with env (fun e => e <> OutOfFuel)
  (try_except (io_pure (decode_ascii raw)) (is_a KUnicodeError)
     (fun _ => io_raise (RuntimeError "non-ASCII Pico response"))).
Proof. unfold decode_ascii. ends_tac. Qed.

Lemma _line_ends p timeout h : ends_at env h (PicoPort._line p timeout).
Proof.
  unfold PicoPort._line. apply ends_now. intros now h' Hnow.
  apply ends_bind; [by apply line_loop_ends|]. intros [raw rest] n _.
  apply ends_fails. apply fails_bind; [apply decode_line_ends|]. intros l. ends_tac.
Qed.

Lemma peer_command_ends p text expected_error h : ends_at env h (PicoPort.command p text expected_error).
Proof.
  unfold PicoPort.command, encode_ascii. apply ends_bind; [apply ends_fails; ends_tac|]. intros payload n _.
  apply ends_now. intros now h' Hnow. apply ends_bind; [by apply write_loop_ends|]. intros u n1 _.
  apply ends_bind; [apply _line_ends|]. intros [line p'] n2 _. apply ends_fails. ends_tac.
Qed.

(** Waiting for an event uses up its turns only when the peer sent that many whole lines. *)
Definition lines_in (b : bytes) : nat := length (List.filter (fun x => bool_decide (x = PicoPort.newline)) b).

Lemma lines_app a b : lines_in (a ++ b) = (lines_in a + lines_in b)%nat.
Proof. unfold lines_in. by rewrite List.filter_app, length_app. Qed.

Lemma event_waits fuel p name timeout h n :
  runs env h (PicoPort.event fuel p name timeout) (Raise OutOfFuel) n ->
  (fuel <= lines_in (PicoPort.pe_buffer p ++ received env h n))%nat.
Proof.
  unfold PicoPort.event. revert p h n. induction fuel as [|fuel IH]; intros p h n; cbn [io_loop]; [lia|].
  intros [(e & H & [= <-])|(o & n1 & n2 & H1 & H2 & ->)]%runs_bind.
  - unfold PicoPort.event_turn in H. apply runs_bind in H as [(e & H & [= <-])|([line p'] & n1 & n2 & _ & H & _)].
    + by apply _line_ends in H.
    + destruct (String.prefix _ line); [by apply runs_ret in H as [[=] _]|].
      apply runs_bind in H as [(e & [H _]%runs_pure & [= <-])|(u & m1 & m2 & _ & H & _)];
        [|by apply runs_ret in H as [[=] _]].
      by destruct (String.prefix "EVENT " line).
  - unfold PicoPort.event_turn in H1. apply runs_bind_Ok in H1 as ([line p'] & m1 & m2 & H1 & H & ->).
    apply (_line_Ok env) in H1 as (_ & _ & raw & _ & Hb).
    destruct (String.prefix _ line); [apply runs_ret in H as [[= ->] ->]; by apply runs_pure in H2 as [? _]|].
    apply runs_bind_Ok in H as ([] & m3 & m4 & [_ ->]%runs_pure & [[= ->] ->]%runs_ret & ->).
    rewrite !app_nil_r in *. apply IH in H2. rewrite received_app, app_assoc, Hb, <- app_assoc, lines_app.
    cbn [app]. change (PicoPort.newline :: ?l) with ([PicoPort.newline] ++ l). rewrite lines_app.
    change (lines_in [PicoPort.newline]) with 1%nat. lia.
Qed.

Lemma receive_turn_ends count deadline data h : ends_at env h (receive_turn count deadline data).
Proof.
  unfold receive_turn. destruct (_ <? _); [|apply ends_fails; ends_tac].
  apply ends_bind; [by apply _exact_ends|]. intros header n _.
  apply ends_bind; [apply ends_fails, fails_pure, decode_header_ends|]. intros [[kind request] size] n1 [Hd _]%runs_pure.
  symmetry in Hd. apply decode_header_Ok in Hd as (_ & _ & _ & Hs).
  apply ends_bind; [apply _exact_ends; [exact _|lia]|]. intros payload n2 _. apply ends_fails. ends_tac.
Qed.

Lemma receive_serial_ends p count h : ends_at env h (receive_serial p count).
Proof.
  unfold receive_serial. apply ends_now. intros now h' _ r n.
  apply (runs_loop_ends env _ _ (fun _ _ => True) (fun d _ => count - blen d)); [|done|unfold blen; simpl; lia..].
  intros d h0 o k _ Hr. split; [intros ->; by apply receive_turn_ends in Hr|]. intros d' ->.
  apply (receive_turn_Ok env) in Hr as (_ & chunk & [Hc _] & _ & -> & Hlt & _). rewrite blen_app. split; [done|lia].
Qed.
End PeerEnds.

(** ** The generator *)

(** One step of the generator, as arithmetic on 32-bit numbers. *)
Definition lcg (s : Z) : Z := (1664525 * s + 1013904223) mod 2 ^ 32.

Lemma land_ones_mask z n : 0 <= n -> Z.land z (2 ^ n - 1) = z mod 2 ^ n.
Proof. intros Hn. rewrite <- Z.land_ones by done. f_equal. rewrite Z.ones_equiv. lia. Qed.

Lemma next_state_lcg s : next_state s = lcg s.
Proof.
  unfold next_state, lcg. change 0xffffffff with (2 ^ 32 - 1). rewrite land_ones_mask by lia. f_equal. lia.
Qed.

(** A step can be undone: two seeds never lead to the same state. *)
Lemma lcg_injective s s' : 0 <= s < 2 ^ 32 -> 0 <= s' < 2 ^ 32 -> lcg s = lcg s' -> s = s'.
Proof.
  intros Hs Hs' H. unfold lcg in H.
  assert (Hi : forall x, 0 <= x < 2 ^ 32 -> (4276115653 * ((1664525 * x + 1013904223) mod 2 ^ 32 - 1013904223)) mod 2 ^ 32 = x).
  { intros x Hx. rewrite Z.mul_mod, Zminus_mod_idemp_l by lia.
    replace (1664525 * x + 1013904223 - 1013904223) with (1664525 * x) by lia.
    rewrite <- Z.mul_mod, Z.mul_assoc by lia. rewrite <- Z.mul_mod_idemp_l by lia.
    change (4276115653 * 1664525 mod 2 ^ 32) with 1. rewrite Z.mul_1_l. by apply Z.mod_small. }
  rewrite <- (Hi s Hs), <- (Hi s' Hs'). by rewrite H.
Qed.

Lemma lookup_pattern count seed bits i b : 0 <= bits <= 8 ->
  pattern_from count seed (2 ^ bits - 1) !! i = Some b ->
  b2z b = Nat.iter (S i) lcg seed / 2 ^ 24 mod 2 ^ bits.
Proof.
  intros Hb. revert seed i. induction count as [|count IH]; intros seed i; [done|]. cbn [pattern_from].
  destruct i as [|i].
  - intros [= <-]. rewrite next_state_lcg, land_ones_mask, Z.shiftr_div_pow2, b2z_z2b by lia. apply Z.mod_small.
    assert (0 < 2 ^ bits) by (apply Z.pow_pos_nonneg; lia).
    assert (2 ^ bits <= 256) by (apply (Z.pow_le_mono_r 2 bits 8); lia).
    split; [apply Z.mod_pos_bound; lia|]. eapply Z.lt_le_trans; [apply Z.mod_pos_bound; lia|lia].
  - intros H. apply IH in H. rewrite H, next_state_lcg. by rewrite <- Nat.iter_succ_r.
Qed.

Lemma length_pattern count seed mask : length (pattern_from count seed mask) = count.
Proof. revert seed. induction count as [|count IH]; intros seed; simpl; auto. Qed.

(** ** Properties *)

(** C29: The pattern is made exactly for 1 to 262144 bytes, a 32-bit seed and 5 to 8 data bits, and any
    other request raises ValueError; it has the requested length, its byte [i] is the top byte of the
    generator's state after [i + 1] steps cut to the data bits, so every byte fits the UART's format; and
    two seeds never meet: after the same number of steps their states differ. *)
Theorem pattern_bounds count seed bits :
  (forall data, pattern count seed bits = Ok data ->
   1 <= count <= 262144 /\ 0 <= seed < 2 ^ 32 /\ 5 <= bits <= 8 /\ blen data = count /\
   forall i b, data !! i = Some b -> b2z b = Nat.iter (S i) lcg seed / 2 ^ 24 mod 2 ^ bits /\ 0 <= b2z b < 2 ^ bits) /\
  (forall e, pattern count seed bits = Raise e -> ekind e = KValueError /\
   ~ (1 <= count <= 262144 /\ 0 <= seed < 2 ^ 32 /\ 5 <= bits <= 8)) /\
  (forall seed' n, 0 <= seed < 2 ^ 32 -> 0 <= seed' < 2 ^ 32 ->
   Nat.iter n lcg seed = Nat.iter n lcg seed' -> seed = seed').
Proof.
  split_and!.
  - intros data. unfold pattern. rewrite raise_when_bind, mret_Ok, !orb_false_iff, !negb_false_iff, !andb_true_iff, !Z.leb_le.
    intros [[[Hc Hs] Hb] <-]. unfold blen. rewrite length_pattern. split_and!; try lia.
    intros i b. rewrite Z.shiftl_1_l. intros H. apply lookup_pattern in H; [|lia]. rewrite H. split; [done|].
    apply Z.mod_pos_bound, Z.pow_pos_nonneg; lia.
  - intros e. unfold pattern. destruct (_ || _) eqn:E; [|done]. intros [= <-]. split; [done|].
    rewrite !orb_true_iff, !negb_true_iff, !andb_false_iff, !Z.leb_gt in E. lia.
  - intros seed' n Hs Hs'. revert seed seed' Hs Hs'. induction n as [|n IH]; intros s s' Hs Hs'; [done|].
    rewrite !Nat.iter_succ_r. intros H. apply lcg_injective; [done..|].
    apply IH in H; [done|unfold lcg; apply Z.mod_pos_bound; lia..].
Qed.

(** C30: Waiting for an event always ends, in a returned line or an exception, unless the peer keeps
    sending: with a clock that advances, running out of [fuel] turns means at least [fuel] whole lines
    came in. A command that succeeds wrote exactly its text and a newline, whatever the pieces, and read
    exactly one line; neither can wait past its timeout. *)
Theorem event_liveness env t fuel p name timeout text expected_error h `{!Socket env, !Clock env t} :
  (forall n, runs env h (PicoPort.event fuel p name timeout) (Raise OutOfFuel) n ->
   (fuel <= lines_in (PicoPort.pe_buffer p ++ received env h n))%nat) /\
  (forall r n, runs env h (PicoPort.command p text expected_error) r n -> r <> Raise OutOfFuel /\
   forall line p', r = Ok (line, p') ->
     encode_ascii (text +:+ PicoPort.line_feed) = Ok (sent env h n) /\ read_line p (received env h n) line p').
Proof.
  split.
  - intros n. by apply (event_waits env t).
  - intros r n H. split; [by apply (peer_command_ends env t) in H|]. intros line p' ->.
    by apply (command_Ok env) in H as (? & ? & _).
Qed.

(** A peer that acknowledges every command. *)
Definition acknowledging : environment sock_ret := peer_env false [] (fun _ => ascii "OK" ++ ascii PicoPort.line_feed).
Definition acknowledged : PicoPort.pico := {| PicoPort.pe_timeout := 1000; PicoPort.pe_buffer := [] |}.

Lemma event_liveness_witness : exists n,
  runs acknowledging [] (PicoPort.command acknowledged "PING" None) (Ok ("OK", acknowledged)) n /\
  sent acknowledging [] n = ascii ("PING" +:+ PicoPort.line_feed).
Proof.
  set (m := PicoPort.command acknowledged "PING" None).
  assert (H := runs_outcome acknowledging m (Ok ("OK", acknowledged)) ltac:(vm_compute; reflexivity)).
  exists (calls acknowledging m). split; [exact H|].
  destruct (event_liveness acknowledging peer_clock 2 acknowledged "send_done" 9 "PING" None []) as [_ Hc].
  apply Hc in H as [_ H]. destruct (H _ _ eq_refl) as [Hs _]. by apply encode_ascii_Ok in Hs as [? _].
Defined.
