(* ===== verification/UartPeer.v ===== *)
(** * The UART check against the Pico: tools/uart_peer_smoke.py

    The programs of the check, on a bench of the Pico, the Nano and an observing session; what a passing
    run leaves in the calls; and the pieces the format matrix and the overrun check share. *)

From stdpp Require Import base tactics list list_numbers strings.
From Stdlib Require Import ZArith Lia Ascii.
From S2P Require Import Prelude.
From S2P Require Import PyBytes.
From S2P Require Import PyText.
From S2P Require Import PyStr.
From S2P Require Import PyDict.
From S2P Require Import PyJson.
From S2P Require Import Effects.
From S2P Require Import Stateful.
From S2P Require Import Stages.
From S2P Require Import UartSmoke.
From S2P Require Import Sockets.
From S2P Require Import SessionSmoke.
From S2P Require Import Bench.
From S2P Require Import PicoPeer.

Local Open Scope Z_scope.

(** ** Programs on the bench

    The state is the serial peer with its unread bytes, and the report of the tool. *)
Record bench (R : Type) := { b_peer : PicoPort.pico; b_report : R }.
Arguments b_peer {R} b.
Arguments b_report {R} b.

(** [options = dict(port=..., firmware_version=FIRMWARE_VERSION, backend="uart", timeout=...)] *)
Definition uart_options (a : target) : target := {|
  t_address := t_address a; t_device_id := t_device_id a; t_board := t_board a; t_port := t_port a;
  t_version := t_version a; t_backend := "uart"; t_timeout := t_timeout a; t_targets := t_targets a |}.

Section Programs.
Context `{codec : !Json} {R : Type}.

Definition bp (A : Type) : Type := st (bench_ret (R := R)) (bench R) A.

Definition set_peer (peer : PicoPort.pico) (s : bench R) : bench R := {| b_peer := peer; b_report := b_report s |}.

(** [with PicoPeer(...) as peer: body] *)
Definition with_peer {A} (path : string) (timeout : Z) (body : bp A) : bp A :=
  peer ← dev Pico (PicoPort.open path timeout);
  st_modify (set_peer peer);;
  st_finally body (dev Pico PicoPort.close).

Definition peer_command (text : string) (expected_error : option string) : bp string :=
  s ← st_get;
  ' (line, peer) ← dev Pico (PicoPort.command (b_peer s) text expected_error);
  st_modify (set_peer peer);;
  mret line.

Definition peer_event (fuel : nat) (name : string) (timeout : Z) : bp string :=
  s ← st_get;
  ' (line, peer) ← dev Pico (PicoPort.event fuel (b_peer s) name timeout);
  st_modify (set_peer peer);;
  mret line.

(** [validate_channel(p.hello["channels"][0])]; the channel *)
Definition check_channel (p : probe) : result (dict json) :=
  channel ← first_channel (p_hello p);
  validate_channel channel;;
  mret channel.

Definition channel_config (channel : dict json) : result (dict json) :=
  match jget channel "config" with JObj config => Ok config | _ => Raise (TypeError "config is not an object") end.

Definition differs (d : dict json) (key : string) (v : json) : bool := negb (py_eq (jget d key) v).

Definition verify_nano_configuration (a : target) (boot_id : json) (baud actual_baud : Z) : bp unit :=
  with_probe Observer a (fun observer =>
    st_pure (raise_when (differs (p_hello observer) "boot_id" boot_id)
      (RuntimeError "Nano rebooted while verifying UART configuration"));;
    channel ← st_pure (check_channel observer);
    config ← st_pure (channel_config channel);
    st_pure (raise_when (differs config "baud" (JInt baud) || differs config "actual_baud" (JInt actual_baud))
      (RuntimeError "Nano UART configuration mismatch"));;
    dev Observer (finish observer)).

(** The Pico expects [count] bytes; the Nano sends them. *)
Definition send_to_pico (fuel : nat) (timeout count seed : Z) (data : result bytes) : bp unit :=
  _ ← peer_command ("EXPECT " +:+ str_int count +:+ " " +:+ str_int seed) None;
  data ← st_pure data;
  dev Nano (send_serial data);;
  event ← peer_event fuel "expect_done" timeout;
  _ ← st_pure (require_peer_event event count);
  mret tt.

(** [next(i for i, pair in enumerate(zip(received, expected)) if pair[0] != pair[1])] and its report *)
Definition mismatch (received expected : bytes) (message : string) : exn :=
  match first_difference 0 received expected with Some _ => RuntimeError message | None => StopIteration "" end.

(** The Pico sends [count] bytes of its own pattern; the Nano returns them. *)
Definition receive_from_pico (fuel : nat) (timeout count seed : Z) (nano : probe) (message : string) : bp unit :=
  expected ← st_pure (pattern count seed 8);
  _ ← peer_command ("SEND " +:+ str_int count +:+ " " +:+ str_int seed) None;
  received ← dev Nano (receive_serial nano count);
  event ← peer_event fuel "send_done" timeout;
  _ ← st_pure (require_peer_event event count);
  st_pure (raise_when (negb (bool_decide (received = expected))) (mismatch received expected message)).

Definition counters_wrong (status : dict json) (count : Z) : bool :=
  differs status "backend_rx_bytes" (JInt count) || differs status "backend_tx_bytes" (JInt count)
  || differs status "pending_to_backend" (JInt 0) || differs status "pending_to_peer" (JInt 0).

Definition stable_diagnostics (message : string) (current baseline : dict json) : result unit :=
  for_each (fun name => raise_when (differs current name (jget baseline name)) (RuntimeError "Nano diagnostic changed"))
    ["uart_rx_overrun_events"; "uart_rx_lost_bytes_minimum"; "tcp_errors"];;
  regressed ← py_order true (jget_or current "uart_rx_discarded" (JInt 0)) (jget_or baseline "uart_rx_discarded" (JInt 0));
  raise_when regressed (RuntimeError message).

Definition peer_counters_wrong (line : string) (count : Z) : bool :=
  let values := fields line in
  field_differs values "rx" (str_int count) || field_differs values "tx" (str_int count)
  || field_differs values "overruns" "0" || field_differs values "mismatches" "0".

Definition channel_1 (config : dict json) : dict json := [("channel_id", JInt 1); ("config", JObj config)].

(** The Pico answers as the expected fixture. *)
Definition identify_peer : bp string :=
  identity ← peer_command "PING" None;
  st_pure (raise_when (field_differs (fields identity) "peer" PEER_VERSION) (RuntimeError "unexpected Pico identity"));;
  mret identity.

Definition read_baseline (a : target) : bp (dict json) :=
  with_probe Nano a (fun p =>
    _ ← st_pure (check_channel p);
    ' (baseline, p) ← probe_command Nano p "device.diagnostics" None [];
    dev Nano (finish p);;
    mret baseline).

Definition open_uart (a : target) (nano : probe) (baud actual_baud : Z) : bp probe :=
  _ ← st_pure (check_channel nano);
  ' (_, nano) ← probe_command Nano nano "serial.open" None (channel_1 (uart_config baud 8 "none" 1));
  boot_id ← st_pure (ditem (p_hello nano) "boot_id");
  verify_nano_configuration a boot_id baud actual_baud;;
  _ ← peer_command "CLEAR" None;
  _ ← peer_command "MODE SINK" None;
  mret nano.

Definition close_uart (nano : probe) : bp unit :=
  ' (_, nano) ← probe_command Nano nano "serial.close" None [("channel_id", JInt 1)];
  dev Nano (finish nano).

Definition flip_bits (seed : Z) : Z := Z.lxor seed 0xffffffff.

Definition run_115200 (fuel : nat) (a : target) (byte_count seed : Z) : bp unit :=
  _ ← peer_command "BAUD 115200" None;
  with_probe Nano a (fun nano =>
    nano ← open_uart a nano 115200 115207;
    _ ← st_pure (ditem (p_hello nano) "firmware_version");
    data ← st_pure (pattern byte_count seed 8);
    send_to_pico fuel (t_timeout a) byte_count seed (Ok data);;
    receive_from_pico fuel (t_timeout a) byte_count (flip_bits seed) nano "Pico-to-Nano mismatch at offset";;
    ' (status, nano) ← probe_command Nano nano "serial.status" None [("channel_id", JInt 1)];
    st_pure (raise_when (counters_wrong status byte_count) (RuntimeError "unexpected Nano 115200 counters"));;
    close_uart nano).

Definition run_57600 (fuel : nat) (a : target) (byte_count seed : Z) (baseline : dict json) : bp unit :=
  _ ← peer_command "BAUD 57600" None;
  with_probe Nano a (fun nano =>
    nano ← open_uart a nano 57600 57597;
    let low_count := byte_count / 2 in
    let low_seed := Z.lxor seed 0x5a5a5a5a in
    send_to_pico fuel (t_timeout a) low_count low_seed (pattern low_count low_seed 8);;
    receive_from_pico fuel (t_timeout a) low_count (flip_bits low_seed) nano "57600 Pico-to-Nano mismatch at offset";;
    ' (status, nano) ← probe_command Nano nano "serial.status" None [("channel_id", JInt 1)];
    st_pure (raise_when (counters_wrong status low_count) (RuntimeError "unexpected Nano UART counters"));;
    ' (diagnostics, nano) ← probe_command Nano nano "device.diagnostics" None [];
    st_pure (stable_diagnostics "Nano diagnostic failure" diagnostics baseline);;
    peer_stats ← peer_command "STATS" None;
    st_pure (raise_when (peer_counters_wrong peer_stats low_count) (RuntimeError "unexpected Pico counters"));;
    close_uart nano).

Definition run (fuel : nat) (a : target) (peer_port : string) (byte_count seed : Z) : bp Z :=
  let a := uart_options a in
  with_peer peer_port (t_timeout a) (
    _ ← identify_peer;
    baseline ← read_baseline a;
    run_115200 fuel a byte_count seed;;
    run_57600 fuel a byte_count seed baseline;;
    mret 0).
End Programs.

(** ** Programs that read from the Pico

    A line of the Pico may come in with an earlier one, so what a program reads depends on the bytes left
    unread before it. [reading b m Q]: when [m] starts with [b] unread and returns [a], its calls contain a
    list of stages that [Q] describes, with what is unread then. *)
Section Reading.
Context {R : Type} (env : environment (bench_ret (R := R))).

Abbreviation bstage := (@stage (bench_call R)).

Definition unread (s : bench R) : bytes := PicoPort.pe_buffer (b_peer s).

Definition reading {A} (b : bytes) (m : bp A) (Q : A -> bytes -> list bstage -> Prop) : Prop :=
  forall h s s' a n, unread s = b -> m env h s = (s', Ok a, n) -> exists l, Q a (unread s') l /\ stages h n l.

(** The Pico's bytes are left alone. *)
Definition untouched {A} (m : bp A) : Prop := forall b, keeps env [] (fun s _ => unread s = b) m.

Lemma reading_weaken {A} b (m : bp A) (Q Q' : A -> bytes -> list bstage -> Prop) :
  reading b m Q -> (forall a b' l, Q a b' l -> Q' a b' l) -> reading b m Q'.
Proof. intros Hm HQ h s s' a n Hs H. destruct (Hm _ _ _ _ _ Hs H) as (l & Hl & Hn). eauto. Qed.

Lemma reading_untouched {A} b (m : bp A) Q : untouched m -> staged env m Q ->
  reading b m (fun a b' l => b' = b /\ Q a l).
Proof.
  intros Hu Hm h s s' a n Hs H. destruct (Hm _ _ _ _ _ H) as (l & Hl & Hn). exists l. split; [|done]. split; [|done].
  pose proof (Hu b s h Hs) as Hk. cbn [app] in Hk. by rewrite H in Hk.
Qed.

(** A step that leaves the Pico alone and is left out of the stages *)
Lemma reading_skip {A} b (m : bp A) : untouched m -> reading b m (fun _ b' l => b' = b /\ l = []).
Proof. intros Hu. apply reading_untouched; [done|apply staged_skip]. Qed.

Lemma reading_pure {A} b (m : result A) : reading b (st_pure m) (fun a b' l => m = Ok a /\ b' = b /\ l = []).
Proof. intros h s s' a n Hs [= <- -> <-]. exists []. split; [done|constructor]. Qed.

Lemma reading_ret {A} b (a : A) : reading b (mret a) (fun x b' l => x = a /\ b' = b /\ l = []).
Proof. intros h s s' x n Hs [= <- <- <-]. exists []. split; [done|constructor]. Qed.

Lemma reading_bind {A B} b (m : bp A) (f : A -> bp B) Q1 (Q : B -> bytes -> list bstage -> Prop) :
  reading b m Q1 -> (forall a b1 l1, Q1 a b1 l1 -> reading b1 (f a) (fun x b2 l2 => Q x b2 (l1 ++ l2))) ->
  reading b (m ≫= f) Q.
Proof.
  intros Hm Hf h s s' x n Hs. unfold mbind, st_mbind, st_bind.
  destruct (m env h s) as [[s1 [a|e]] n1] eqn:E; [|done].
  destruct (f a env (h ++ n1) s1) as [[s2 r] n2] eqn:E2. intros [= <- -> <-].
  destruct (Hm _ _ _ _ _ Hs E) as (l1 & HQ & H1). destruct (Hf a _ l1 HQ _ _ _ _ _ eq_refl E2) as (l2 & HQ2 & H2).
  exists (l1 ++ l2). split; [done|]. by apply stages_app.
Qed.

Lemma reading_finally {A} b (m : bp A) f Q : untouched f -> reading b m Q -> reading b (st_finally m f) Q.
Proof.
  intros Hf Hm h s s' a n Hs. unfold st_finally. destruct (m env h s) as [[s1 r] n1] eqn:E.
  destruct (f env (h ++ n1) s1) as [[s2 [u|e]] n2] eqn:E2; [|done]. intros [= <- -> <-].
  destruct (Hm _ _ _ _ _ Hs E) as (l & HQ & H). exists l. split; [|by constructor].
  pose proof (Hf (unread s1) s1 (h ++ n1) eq_refl) as Hk. cbn [app] in Hk. rewrite E2 in Hk. by rewrite Hk.
Qed.

(** A handler that never returns *)
Lemma reading_try {A} b (m : bp A) handled handler Q :
  reading b m Q -> (forall e h s s' a n, handler e env h s <> (s', Ok a, n)) -> reading b (st_try m handled handler) Q.
Proof.
  intros Hm Hh h s s' a n Hs. unfold st_try. destruct (m env h s) as [[s1 [x|e]] n1] eqn:E.
  - intros [= <- <- <-]. by eapply Hm.
  - destruct (handled e); [|done]. destruct (handler e env (h ++ n1) s1) as [[s2 r] n2] eqn:E2.
    intros [= <- -> <-]. by apply Hh in E2.
Qed.

(** One part for each element, each starting with what the one before left unread *)
Inductive chain {Y} (Q : Y -> bytes -> bytes -> list bstage -> Prop) : bytes -> list Y -> bytes -> list bstage -> Prop :=
| chain_nil b : chain Q b [] b []
| chain_cons b b1 b2 y l k k' : Q y b b1 k -> chain Q b1 l b2 k' -> chain Q b (y :: l) b2 (k ++ k').

Lemma reading_fold {X Y} (f : X -> Y -> bp X) (Q : Y -> bytes -> bytes -> list bstage -> Prop) b x l :
  (forall b x y, y ∈ l -> reading b (f x y) (fun _ b' k => Q y b b' k)) ->
  reading b (st_fold f x l) (fun _ b' k => chain Q b l b' k).
Proof.
  revert b x. induction l as [|y l IH]; intros b x Hf; cbn [st_fold].
  - eapply reading_weaken; [apply reading_pure|]. intros x' b' k (_ & -> & ->). constructor.
  - change (st_bind ?m ?g) with (m ≫= g). eapply reading_bind; [apply Hf; left|]. intros x1 b1 k1 H1.
    eapply reading_weaken; [apply IH; intros; apply Hf; by right|]. intros x2 b2 k2 H2. exact (chain_cons Q b b1 b2 y l k1 k2 H1 H2).
Qed.

Lemma untouched_dev {A} d (m : sio A) : untouched (dev d m).
Proof. intros b. unfold keeps, dev. apply triple_io. intros s k [a|e] n Hs _; exact Hs. Qed.

Lemma keeps_unread_dev {A} d (m : sio A) b : keeps env [] (fun s _ => unread s = b) (dev d m).
Proof. apply untouched_dev. Qed.

Lemma reading_with_probe `{codec : !Json} `{!Bench env} {A} b d a (body : probe -> bp A) (Q : A -> bytes -> list bstage -> Prop) :
  (forall p, hello_ok (p_hello p) (lower (t_device_id a)) (t_board a) (t_version a) (t_backend a) (t_targets a) ->
   reading b (body p) (fun x b' l => Q x b' (opened env d a p :: l))) ->
  reading b (with_probe d a body) Q.
Proof.
  intros Hb. unfold with_probe. eapply reading_bind.
  { apply reading_untouched; [apply untouched_dev|]. apply staged_dev with (Q := opened env d a)
      (F := fun p => hello_ok (p_hello p) (lower (t_device_id a)) (t_board a) (t_version a) (t_backend a) (t_targets a)).
    intros h k p H. apply (open_probe_Ok (view env h d)) in H as (_ & _ & _ & _ & Hs & Hh & Hr).
    split; [|done]. by exists k. }
  intros p b1 l1 (-> & -> & Hh). apply reading_finally; [apply untouched_dev|by apply Hb].
Qed.

(** Nothing is unread when the port has just been opened. *)
Lemma staged_with_peer {A} path timeout (body : bp A) (Q : A -> bytes -> list bstage -> Prop) :
  reading [] body Q -> staged env (with_peer path timeout body) (fun a l => exists b, Q a b l).
Proof.
  intros Hb h s s' a n. unfold with_peer. rewrite <- (app_nil_l n). unfold mbind at 1, st_mbind at 1, st_bind at 1.
  destruct (dev Pico (PicoPort.open path timeout) env h s) as [[s1 [p|e]] n1] eqn:E; [|done].
  assert (Hp : PicoPort.pe_buffer p = []).
  { unfold dev, st_io in E. destruct (on Pico _ env h) as [r k] eqn:Ho. injection E as _ -> _.
    apply runs_on in Ho as (k' & _ & Ho). unfold PicoPort.open in Ho.
    apply runs_bind_Ok in Ho as (u & m1 & m2 & _ & Hr & _). by apply runs_ret in Hr as [[= ->] _]. }
  unfold mbind at 1, st_mbind at 1, st_bind at 1, st_modify.
  destruct (st_finally body (dev Pico PicoPort.close) env ((h ++ n1) ++ []) (set_peer p s1)) as [[s2 r] n2] eqn:E2.
  intros [= <- -> <-]. rewrite app_nil_r in E2.
  eapply (reading_finally []) in E2 as (l & HQ & Hl); [|apply untouched_dev|exact Hb|exact Hp].
  exists l. split; [eauto|]. cbn [app]. change l with ([] ++ l). apply stages_app; [apply stages_none|exact Hl].
Qed.
End Reading.

#[export] Hint Resolve keeps_unread_dev : keeps.

(** Open one step of a program that reads from the Pico. *)
Ltac untouched_tac := let b := fresh in intros b; unfold with_probe, probe_command; keeps_tac; done.
Ltac reading_leave := eapply reading_bind; [apply reading_skip; untouched_tac|]; intros ? ? ? [-> ->].
Ltac reading_check H := eapply reading_bind; [apply reading_pure|]; intros ? ? ? (H & -> & ->).
Ltac probe_reading := eapply reading_bind; [apply reading_untouched; [apply untouched_dev|eapply probe_command_staged; exact _]|].
Ltac reading_value x H := eapply reading_bind; [apply reading_pure|]; intros x ? ? (H & -> & ->).

(** ** What each step of a bench program leaves in the calls *)
Section Specs.
Context `{codec : !Json} {R : Type} (env : environment (bench_ret (R := R))) `{!Bench env}.

Abbreviation bstage := (@stage (bench_call R)).

(** The Pico was told [text], and the next line that came from it, first of all of what was unread before,
    is the OK line [reply]; [after] is what then was unread. *)
Definition told (before : bytes) (text reply : string) (after : bytes) : bstage := fun h n =>
  exists k, n = tag Pico k /\ sent (view env h Pico) [] k = ascii (text +:+ PicoPort.line_feed) /\
    line_taken (before ++ received (view env h Pico) [] k) reply after /\ String.prefix "OK" reply = true.

(** Nothing was written, and the next event that came from the Pico is [line], of the expected name. *)
Definition reported (before : bytes) (name line : string) (after : bytes) : bstage := fun h n =>
  exists k, n = tag Pico k /\ sent (view env h Pico) [] k = [] /\
    event_taken name (before ++ received (view env h Pico) [] k) line after.

(** The Nano's session carried exactly [data], one way or the other. *)
Definition nano_sent (data : bytes) : bstage := fun h n =>
  exists k, n = tag Nano k /\ sent (view env h Nano) [] k = concat (data_frame <$> pieces 2048 data) /\
    received (view env h Nano) [] k = [].

Definition nano_received (data : bytes) : bstage := fun h n =>
  exists k chunks, n = tag Nano k /\ sent (view env h Nano) [] k = [] /\ Forall carried chunks /\
    received (view env h Nano) [] k = concat (data_frame <$> chunks) /\ concat chunks = data.

(** The event line reports a transfer without fault. *)
Definition clean (line : string) : Prop :=
  Forall (fun name => dget (fields line) name = Some "0") ["overruns"; "mismatches"; "expect_remaining"; "send_remaining"].

Lemma field_differs_false value name text : field_differs value name text = false <-> dget value name = Some text.
Proof. unfold field_differs. by rewrite negb_false_iff, bool_decide_eq_true. Qed.

Lemma require_peer_event_Ok line count c : require_peer_event line count = Ok c <-> clean line /\ c = count.
Proof.
  unfold require_peer_event, clean. rewrite raise_when_bind, mret_Ok, !orb_false_iff, !field_differs_false,
    !Forall_cons, Forall_nil. naive_solver.
Qed.

Lemma peer_runs {A} d (Q : bytes -> A -> bytes -> bstage) b
    (f : bench R -> sio (A * PicoPort.pico)) :
  (forall s h k a p, unread s = b -> runs (view env h d) [] (f s) (Ok (a, p)) k ->
   Q b a (PicoPort.pe_buffer p) h (tag d k)) ->
  reading env b (s ← st_get; ' (a, p) ← dev d (f s); st_modify (set_peer p);; mret a)
    (fun a b' l => l = [Q b a b']).
Proof.
  intros H h s s' a n Hs. unfold mbind, st_mbind, st_bind, st_get, dev, st_io, st_modify, mret, st_ret, st_pure. cbn [app].
  rewrite app_nil_r. destruct (on d (f s) env h) as [[[x p]|e] k] eqn:E; [|done]. intros [= <- <- <-].
  apply runs_on in E as (k' & -> & E). apply (H s h k' x p Hs) in E.
  exists [Q b x (PicoPort.pe_buffer p)]. rewrite !app_nil_r. split; [done|]. by apply stages_one.
Qed.

Lemma peer_command_reading b text :
  reading env b (peer_command text None) (fun reply b' l => l = [told b text reply b']).
Proof.
  unfold peer_command. apply (peer_runs Pico (fun b reply b' => told b text reply b')).
  intros s h k reply p' <- H. apply (command_Ok (view env h Pico)) in H as (He & [_ Hl] & Hp).
  apply encode_ascii_Ok in He as [He _]. by exists k.
Qed.

Lemma peer_event_reading b fuel name timeout :
  reading env b (peer_event fuel name timeout) (fun line b' l => l = [reported b name line b']).
Proof.
  unfold peer_event. apply (peer_runs Pico (fun b line b' => reported b name line b')).
  intros s h k line p' <- H. apply (event_Ok (view env h Pico)) in H as [Hs He]. by exists k.
Qed.

Lemma send_serial_staged data : staged env (dev (S := bench R) Nano (send_serial data)) (fun _ l => l = [nano_sent data] /\ True).
Proof.
  apply staged_dev with (Q := fun _ => nano_sent data). intros h k u H.
  apply (send_serial_Ok (view env h Nano)) in H as [Hr Hs]. split; [|done]. by exists k.
Qed.

Lemma receive_serial_staged p count : 0 <= count ->
  staged env (dev (S := bench R) Nano (receive_serial p count)) (fun data l => l = [nano_received data] /\ blen data = count).
Proof.
  intros Hc. apply staged_dev. intros h k data H.
  apply (receive_serial_Ok (view env h Nano)) in H as (Hs & Hl & chunks & Hf & Hr & Hcat); [|done].
  split; [|done]. by exists k, chunks.
Qed.

End Specs.

Section RunSpecs.
Context `{codec : !Json} {R : Type} (env : environment (bench_ret (R := R))) `{!Bench env}.

Abbreviation rstage := (@stage (bench_call R)).

(** One direction after the other: what the Nano sent, what it received, and the Pico's word on both. *)
Definition to_pico (count seed : Z) (b b' : bytes) (l : list rstage) : Prop :=
  exists data reply event b1, pattern count seed 8 = Ok data /\ clean event /\
    l = [told env b ("EXPECT " +:+ str_int count +:+ " " +:+ str_int seed) reply b1; nano_sent env data;
         reported env b1 "expect_done" event b'].

Definition from_pico (count seed : Z) (b b' : bytes) (l : list rstage) : Prop :=
  exists data reply event b1, pattern count seed 8 = Ok data /\ clean event /\
    l = [told env b ("SEND " +:+ str_int count +:+ " " +:+ str_int seed) reply b1; nano_received env data;
         reported env b1 "send_done" event b'].

Lemma pattern_Ok count seed bits data : pattern count seed bits = Ok data <->
  1 <= count <= 262144 /\ 0 <= seed <= 0xffffffff /\ 5 <= bits <= 8 /\
  data = pattern_from (Z.to_nat count) seed (Z.shiftl 1 bits - 1).
Proof.
  unfold pattern. rewrite raise_when_bind, mret_Ok, !orb_false_iff, !negb_false_iff, !andb_true_iff, !Z.leb_le. naive_solver.
Qed.

Lemma send_to_pico_reading b fuel timeout count seed data :
  data = pattern count seed 8 ->
  reading env b (send_to_pico fuel timeout count seed data) (fun _ b' l => to_pico count seed b b' l).
Proof.
  intros ->. unfold send_to_pico. eapply reading_bind; [apply (peer_command_reading env)|]. intros reply b1 l1 ->.
  reading_check Hd. eapply reading_bind; [apply reading_untouched; [apply untouched_dev|apply (send_serial_staged env)]|].
  intros [] b2 l2 (-> & -> & _). eapply reading_bind; [apply (peer_event_reading env)|]. intros event b3 l3 ->.
  reading_check He. apply require_peer_event_Ok in He as [He ->].
  eapply reading_weaken; [apply reading_ret|]. intros [] b4 l4 (_ & -> & ->). simpl. by eexists _, _, _, _.
Qed.

Lemma receive_from_pico_reading b fuel timeout count seed nano message :
  reading env b (receive_from_pico fuel timeout count seed nano message) (fun _ b' l => from_pico count seed b b' l).
Proof.
  unfold receive_from_pico. reading_check Hd. assert (Hc : 0 <= count) by (apply pattern_Ok in Hd; lia).
  eapply reading_bind; [apply (peer_command_reading env)|]. intros reply b1 l1 ->.
  eapply reading_bind; [apply reading_untouched; [apply untouched_dev|by apply (receive_serial_staged env)]|].
  intros data b2 l2 (-> & -> & _). eapply reading_bind; [apply (peer_event_reading env)|]. intros event b3 l3 ->.
  reading_check He. apply require_peer_event_Ok in He as [He ->].
  eapply reading_weaken; [apply reading_pure|]. intros u b4 l4 (Hm%raise_when_Ok & -> & ->). breflect. subst data.
  simpl. by eexists _, _, _, _.
Qed.

(** What an observing session saw of the Nano's configuration. *)
Definition observed (boot_id : json) (baud actual_baud : Z) (observer : probe) : Prop :=
  py_eq (jget (p_hello observer) "boot_id") boot_id = true /\
  exists channel config, first_channel (p_hello observer) = Ok channel /\ uart_line channel /\
    dget channel "config" = Some (JObj config) /\
    py_eq (jget config "baud") (JInt baud) = true /\ py_eq (jget config "actual_baud") (JInt actual_baud) = true.

Lemma differs_false d key v : differs d key v = false <-> py_eq (jget d key) v = true.
Proof. unfold differs. by rewrite negb_false_iff. Qed.

Lemma check_channel_Ok p channel : check_channel p = Ok channel -> first_channel (p_hello p) = Ok channel /\ uart_line channel.
Proof.
  unfold check_channel. intros (c & Hc & H)%bind_Ok. apply bind_Ok in H as ([] & Hv & Hr).
  apply (proj1 (mret_Ok _ _)) in Hr as ->. split; [done|]. by apply validate_channel_Ok.
Qed.

Lemma channel_config_Ok channel config : channel_config channel = Ok config -> dget channel "config" = Some (JObj config).
Proof.
  unfold channel_config. destruct (jget channel "config") eqn:E; try done. rewrite Ok_Ok. intros ->. by apply jget_some.
Qed.

Lemma verify_nano_staged a boot_id baud actual_baud :
  staged env (verify_nano_configuration a boot_id baud actual_baud)
    (fun _ l => exists observer, l = [opened env Observer a observer] /\ observed boot_id baud actual_baud observer).
Proof.
  unfold verify_nano_configuration. apply (with_probe_staged env). intros observer _.
  staged_check Hb. staged_check Hc. staged_check Hf. staged_check Hd.
  eapply staged_weaken; [apply staged_skip|]. intros ? l1 ->. exists observer. split; [done|].
  apply raise_when_Ok in Hb, Hd. apply orb_false_iff in Hd as [H1 H2]. rewrite differs_false in Hb, H1, H2.
  apply check_channel_Ok in Hc as [Hc Hl]. apply channel_config_Ok in Hf. split; [done|]. by eexists _, _.
Qed.

Lemma verify_nano_untouched a boot_id baud actual_baud :
  untouched env (verify_nano_configuration (R := R) a boot_id baud actual_baud).
Proof. unfold verify_nano_configuration. untouched_tac. Qed.

(** The session's hello shows the UART as the tool expects it. *)
Definition shows_uart (p : probe) : Prop := exists channel, first_channel (p_hello p) = Ok channel /\ uart_line channel.

(** The Nano's UART opened, was seen at the expected rate by another session of the same boot, and the
    Pico was cleared. *)
Definition uart_opened (a : target) (nano : probe) (baud actual_baud : Z) (b b' : bytes) (l : list rstage) : Prop :=
  exists value boot_id observer r1 r2 b1, shows_uart nano /\ dget (p_hello nano) "boot_id" = Some boot_id /\
    observed boot_id baud actual_baud observer /\
    l = [answered env Nano "serial.open" None (channel_1 (uart_config baud 8 "none" 1)) value;
         opened env Observer a observer; told env b "CLEAR" r1 b1; told env b1 "MODE SINK" r2 b'].

Lemma open_uart_reading b a nano baud actual_baud :
  reading env b (open_uart a nano baud actual_baud)
    (fun nano' b' l => p_hello nano' = p_hello nano /\ uart_opened a nano baud actual_baud b b' l).
Proof.
  unfold open_uart. reading_check Hc. apply check_channel_Ok in Hc as [Hc Hl]. probe_reading. intros [value nano'] b1 l1 (-> & -> & Hh).
  reading_check Hb. apply some_or_Ok in Hb. rewrite Hh in Hb.
  eapply reading_bind; [apply reading_untouched; [apply verify_nano_untouched|apply verify_nano_staged]|].
  intros ? b2 l2 (-> & observer & -> & Ho).
  eapply reading_bind; [apply (peer_command_reading env)|]. intros r1 b3 l3 ->.
  eapply reading_bind; [apply (peer_command_reading env)|]. intros r2 b4 l4 ->.
  eapply reading_weaken; [apply reading_ret|]. intros nano'' b5 l5 (-> & -> & ->). split; [done|]. simpl.
  eexists _, _, _, _, _, _. split; [by eexists|done].
Qed.

(** The device's own count of the bytes of a phase *)
Definition counters_right (status : dict json) (count : Z) : Prop :=
  Forall (fun '(key, n) => py_eq (jget status key) (JInt n) = true)
    [("backend_rx_bytes", count); ("backend_tx_bytes", count); ("pending_to_backend", 0); ("pending_to_peer", 0)].

Lemma counters_wrong_false status count : counters_wrong status count = false <-> counters_right status count.
Proof.
  unfold counters_wrong, counters_right. rewrite !orb_false_iff, !differs_false, !Forall_cons, Forall_nil. naive_solver.
Qed.

Definition status_read (count : Z) (l : list rstage) : Prop :=
  exists status, counters_right status count /\ l = [answered env Nano "serial.status" None [("channel_id", JInt 1)] status].

(** The channel was given back. *)
Definition uart_closed (l : list rstage) : Prop :=
  exists value, l = [answered env Nano "serial.close" None [("channel_id", JInt 1)] value].

Lemma close_uart_staged nano : staged env (close_uart (R := R) nano) (fun _ => uart_closed).
Proof.
  unfold close_uart. eapply staged_bind; [apply (probe_command_staged env)|]. intros [v nano'] l1 [-> _].
  eapply staged_weaken; [apply staged_skip|]. intros ? l2 ->. by exists v.
Qed.

Lemma close_uart_reading b nano : reading env b (close_uart nano) (fun _ b' l => b' = b /\ uart_closed l).
Proof. apply reading_untouched; [unfold close_uart; untouched_tac|apply close_uart_staged]. Qed.

(** One phase: the Pico set to a rate, a session opened at it, and both directions. *)
Definition phase (a : target) (rate : string) (baud actual_baud count seed : Z) (b b' : bytes) (l : list rstage) : Prop :=
  exists reply nano b1 b2 b3 l1 l2 l3 l4, uart_opened a nano baud actual_baud b1 b2 l1 /\ to_pico count seed b2 b3 l2 /\
    from_pico count (flip_bits seed) b3 b' l3 /\ status_read count l4 /\
    l = told env b ("BAUD " +:+ rate) reply b1 :: opened env Nano a nano :: l1 ++ l2 ++ l3 ++ l4.

Lemma run_115200_reading b fuel a byte_count seed :
  reading env b (run_115200 fuel a byte_count seed) (fun _ b' l => exists l1 l2,
    phase a "115200" 115200 115207 byte_count seed b b' l1 /\ uart_closed l2 /\ l = l1 ++ l2).
Proof.
  unfold run_115200. eapply reading_bind; [apply (peer_command_reading env)|]. intros reply b1 l0 ->.
  apply (reading_with_probe env). intros nano _.
  eapply reading_bind; [apply open_uart_reading|]. intros nano' b2 l1 [_ H1]. reading_check Hv. reading_check Hd.
  eapply reading_bind; [by apply send_to_pico_reading|]. intros ? b3 l2 H2.
  eapply reading_bind; [apply receive_from_pico_reading|]. intros ? b4 l3 H3.
  probe_reading. intros [status nano''] b5 l4 (-> & -> & _).
  reading_check Hc. apply raise_when_Ok, counters_wrong_false in Hc.
  eapply reading_weaken; [apply close_uart_reading|]. intros ? b6 l5 [-> H5].
  eexists _, l5. split_and!; [|done|].
  - exists reply, nano, b1, b2, b3, l1, l2, l3. eexists. split_and!; [done..|by eexists|done].
  - simpl. by rewrite <- ?app_assoc.
Qed.

(** The Nano's error counters are those of the baseline, and its count of discarded bytes is no lower. *)
Definition steady (diagnostics baseline : dict json) : Prop :=
  Forall (fun name => py_eq (jget diagnostics name) (jget baseline name) = true)
    ["uart_rx_overrun_events"; "uart_rx_lost_bytes_minimum"; "tcp_errors"] /\
  py_order true (jget_or diagnostics "uart_rx_discarded" (JInt 0)) (jget_or baseline "uart_rx_discarded" (JInt 0)) = Ok false.

(** So they are after the second phase, and the Pico's own count is right. *)
Record quiet (diagnostics baseline : dict json) (stats : string) (count : Z) : Prop := {
  qu_steady : steady diagnostics baseline;
  qu_rx : dget (fields stats) "rx" = Some (str_int count);
  qu_tx : dget (fields stats) "tx" = Some (str_int count);
  qu_overruns : dget (fields stats) "overruns" = Some "0";
  qu_mismatches : dget (fields stats) "mismatches" = Some "0" }.

Lemma stable_diagnostics_Ok message current baseline u : stable_diagnostics message current baseline = Ok u ->
  steady current baseline.
Proof.
  unfold stable_diagnostics. destruct u. rewrite bind_unit, for_each_Ok, bind_Ok. intros (H & regressed & Ho & Hr).
  apply raise_when_Ok in Hr as ->. split; [|done].
  eapply Forall_impl; [exact H|]. intros name Hn. cbv beta in Hn. by apply raise_when_Ok, differs_false in Hn.
Qed.

Lemma peer_counters_right line count : peer_counters_wrong line count = false <->
  dget (fields line) "rx" = Some (str_int count) /\ dget (fields line) "tx" = Some (str_int count) /\
  dget (fields line) "overruns" = Some "0" /\ dget (fields line) "mismatches" = Some "0".
Proof. unfold peer_counters_wrong. rewrite !orb_false_iff, !field_differs_false. naive_solver. Qed.

(** The checks after the transfers *)
Definition quiet_end (baseline : dict json) (count : Z) (b b' : bytes) (l : list rstage) : Prop :=
  exists diagnostics stats, quiet diagnostics baseline stats count /\
    l = [answered env Nano "device.diagnostics" None [] diagnostics; told env b "STATS" stats b'].

Lemma run_57600_reading b fuel a byte_count seed baseline :
  reading env b (run_57600 fuel a byte_count seed baseline) (fun _ b' l => exists b1 l1 l2 l3,
    phase a "57600" 57600 57597 (byte_count / 2) (Z.lxor seed 0x5a5a5a5a) b b1 l1 /\
    quiet_end baseline (byte_count / 2) b1 b' l2 /\ uart_closed l3 /\ l = l1 ++ l2 ++ l3).
Proof.
  unfold run_57600. eapply reading_bind; [apply (peer_command_reading env)|]. intros reply b1 l0 ->.
  apply (reading_with_probe env). intros nano _.
  eapply reading_bind; [apply open_uart_reading|]. intros nano' b2 l1 [_ H1].
  eapply reading_bind; [by apply send_to_pico_reading|]. intros ? b3 l2 H2.
  eapply reading_bind; [apply receive_from_pico_reading|]. intros ? b4 l3 H3.
  probe_reading. intros [status nano''] b5 l4 (-> & -> & _).
  reading_check Hc. apply raise_when_Ok, counters_wrong_false in Hc.
  probe_reading. intros [diagnostics nano3] b6 l5 (-> & -> & _).
  reading_check Hs. apply stable_diagnostics_Ok in Hs.
  eapply reading_bind; [apply (peer_command_reading env)|]. intros stats b7 l6 ->.
  reading_check Hp. apply raise_when_Ok, peer_counters_right in Hp as (? & ? & ? & ?).
  eapply reading_weaken; [apply close_uart_reading|]. intros ? b8 l7 [-> H7].
  eexists b4, _, _, l7. split_and!.
  - exists reply, nano, b1, b2, b3, l1, l2, l3. eexists. split_and!; [done..|by eexists|done].
  - exists diagnostics, stats. split; [by constructor|done].
  - done.
  - simpl. by rewrite <- ?app_assoc.
Qed.

Lemma identify_peer_reading b :
  reading env b identify_peer (fun identity b' l =>
    dget (fields identity) "peer" = Some PEER_VERSION /\ l = [told env b "PING" identity b']).
Proof.
  unfold identify_peer. eapply reading_bind; [apply (peer_command_reading env)|]. intros reply b1 l1 ->.
  reading_check Hp. apply raise_when_Ok, field_differs_false in Hp.
  eapply reading_weaken; [apply reading_ret|]. by intros identity b2 l (-> & -> & ->).
Qed.

Definition baseline_read (a : target) (baseline : dict json) (l : list rstage) : Prop :=
  exists session, shows_uart session /\
    l = [opened env Nano a session; answered env Nano "device.diagnostics" None [] baseline].

Lemma read_baseline_staged a : staged env (read_baseline a) (baseline_read a).
Proof.
  unfold read_baseline. apply (with_probe_staged env). intros session _. staged_check Hc.
  apply check_channel_Ok in Hc as [Hc Hl].
  eapply staged_bind; [apply (probe_command_staged env)|]. intros [baseline p'] l1 [-> _].
  staged_leave. eapply staged_weaken; [apply staged_ret|]. intros b l2 [-> ->]. exists session. split; [by eexists|done].
Qed.

(** The stages of a run that passes. *)
Definition passing_run (a : target) (byte_count seed : Z) (l : list rstage) : Prop :=
  exists identity baseline b1 b2 b3 b4 l0 l1 l2 l3 l4 l5,
    dget (fields identity) "peer" = Some PEER_VERSION /\ baseline_read a baseline l0 /\
    phase a "115200" 115200 115207 byte_count seed b1 b2 l1 /\ uart_closed l2 /\
    phase a "57600" 57600 57597 (byte_count / 2) (Z.lxor seed 0x5a5a5a5a) b2 b3 l3 /\
    quiet_end baseline (byte_count / 2) b3 b4 l4 /\ uart_closed l5 /\
    l = told env [] "PING" identity b1 :: l0 ++ l1 ++ l2 ++ l3 ++ l4 ++ l5.

Lemma run_staged fuel a peer_port byte_count seed :
  staged env (run fuel a peer_port byte_count seed) (fun _ => passing_run (uart_options a) byte_count seed).
Proof.
  unfold run. cbv zeta. eapply staged_weaken.
  { apply staged_with_peer with (Q := fun _ _ => passing_run (uart_options a) byte_count seed).
    eapply reading_bind; [apply identify_peer_reading|]. intros identity b1 l0 [Hid ->].
    eapply reading_bind; [apply reading_untouched; [unfold read_baseline; untouched_tac|apply read_baseline_staged]|].
    intros baseline b1' l1 [-> H1].
    eapply reading_bind; [apply run_115200_reading|]. intros ? b2 l2 (l2a & l2b & H2a & H2b & ->).
    eapply reading_bind; [apply run_57600_reading|]. intros ? b4 l3 (b3 & l3a & l3b & l3c & H3a & H3b & H3c & ->).
    eapply reading_weaken; [apply reading_ret|]. intros ? b5 l4 (-> & -> & ->). rewrite app_nil_r.
    exists identity, baseline, b1, b2, b3, b4, l1, l2a, l2b, l3a, l3b, l3c. split_and!; [done..|].
    simpl. by rewrite <- ?app_assoc. }
  by intros ? l [_ H].
Qed.
End RunSpecs.

(** ** Properties *)

(** C26: A run of the check that passes has done the following, in this order: the Pico named itself as
    the expected fixture; a session whose hello showed the UART read the baseline diagnostics; then at 115200 baud, with the
    requested count and seed, and at 57600 baud, with half the count and another seed: the Pico was set to the rate,
    the Nano's UART opened and was seen at the expected effective rate by a second session of the same
    boot, the Nano's connection carried exactly the pattern the Pico had been told to expect, the Pico
    reported it received without fault, the Pico was told to send the pattern of the flipped seed, the
    Nano's connection brought in exactly that pattern and nothing else, the Pico reported it sent without
    fault, the Nano counted exactly those bytes, and the channel was closed; before the last close the
    Nano's error counters were those of the baseline, its count of discarded bytes no lower, and the Pico's
    counts exactly right with no overrun and no mismatch. Every reply of the Pico is the next line of the bytes received from it since the
    first command, and every event the next event among them; every hello and answer of the Nano is the frame received. *)
Theorem peer_run_exact `{codec : !Json} {R} env fuel a peer_port byte_count seed s s' n `{!Bench env} :
  run (R := R) fuel a peer_port byte_count seed env [] s = (s', Ok 0, n) ->
  exists l, passing_run env (uart_options a) byte_count seed l /\ stages [] n l.
Proof. intros H. exact (run_staged env fuel a peer_port byte_count seed [] s s' 0 n H). Qed.

(** ** The theorem on a concrete bench

    A Pico that answers every command and reports every transfer at once; a Nano whose responses name the
    operation, and that returns the pattern of the flipped seed for the bytes it is given. *)
Module Demo.
Definition a : target := {|
  t_address := "192.168.7.1"; t_device_id := "503533303030ABCD"; t_board := "nano_rp2040_connect";
  t_port := 7420; t_version := "0.3.0"; t_backend := "uart"; t_timeout := 400; t_targets := [] |}.

Definition line (s : string) : bytes := ascii (s +:+ PicoPort.line_feed).
Definition fault_free (event : string) : bytes :=
  line ("EVENT " +:+ event +:+ " overruns=0 mismatches=0 expect_remaining=0 send_remaining=0").

(** The count of the latest EXPECT *)
Definition last_count (before : list sock_call) : string :=
  foldl (fun n c => match c with
    | Send d => match words (text d) with ["EXPECT"; count; _] => count | _ => n end
    | _ => n end) "0" before.

Definition pico_reply (before : list sock_call) (d : bytes) : bytes :=
  match words (text d) with
  | ["PING"] => line "OK peer=pico-uart-peer-v2"
  | ["EXPECT"; _; _] => line "OK" ++ fault_free "expect_done"
  | ["SEND"; _; _] => line "OK" ++ fault_free "send_done"
  | ["STATS"] => line ("OK rx=" +:+ last_count before +:+ " tx=" +:+ last_count before +:+ " overruns=0 mismatches=0")
  | _ => line "OK"
  end.

Definition config (baud actual : Z) : dict json :=
  [("baud", JInt baud); ("data_bits", JInt 8); ("parity", JStr "none"); ("stop_bits", JInt 1);
   ("flow_control", JStr "none"); ("actual_baud", JInt actual)].

Definition hello (baud actual : Z) : dict json :=
  [("device_id", JStr "503533303030abcd"); ("board_id", JStr "nano_rp2040_connect");
   ("firmware_version", JStr "0.3.0"); ("protocol_major", JInt 1); ("boot_id", JStr "0123456789abcdef");
   ("max_payload", JInt 4096); ("auth_mode", JStr "open-development"); ("targets", JArr []);
   ("channels", JArr [JObj [("id", JInt 1); ("backend", JStr "uart"); ("controls", JArr []);
      ("rx_queue", JInt 256); ("tx_queue", JInt 256);
      ("configurable", JArr [JStr "baud"; JStr "data_bits"; JStr "parity"; JStr "stop_bits"]);
      ("baud_min", JInt 300); ("baud_max", JInt 2000000); ("config", JObj (config baud actual))]])].

Definition status (count : Z) : dict json :=
  [("backend_rx_bytes", JInt count); ("backend_tx_bytes", JInt count); ("pending_to_backend", JInt 0);
   ("pending_to_peer", JInt 0)].

Definition ok (value : dict json) : result json := Ok (JObj [("ok", JBool true); ("result", JObj value)]).

(** A message is the operation it names, and a response that operation with its numbers. *)
#[local] Instance codec : Json := {
  json_loads b :=
    match words (text b) with
    | ["hello"; baud; actual] => baud ← read_int baud; actual ← read_int actual; ok (hello baud actual)
    | ["serial.status"; count] => count ← read_int count; ok (status count)
    | _ => ok []
    end;
  json_dumps d := match dget d "op" with Some (JStr op) => ascii op | _ => [] end }.

Definition sessions (before : list sock_call) : nat :=
  length (List.filter (fun c => match c with Connect _ _ _ => true | _ => false end) before).

Definition respond (request : bytes) (s : string) : bytes :=
  header_bytes 2 (be_val (slice 8 12 request)) (blen (ascii s)) ++ ascii s.

(** [rates] and [traffic] by session: the rate a hello shows, and the count and seed of a transfer *)
Definition nano_reply (rates : nat -> Z * Z) (traffic : nat -> Z * Z) (before : list sock_call) (d : bytes) : bytes :=
  let '(count, seed) := traffic (sessions before) in
  if slice 5 6 d is [Byte.x03] then data_frame (pattern_from (Z.to_nat count) (flip_bits seed) 255)
  else
    let op := text (drop 16 d) in
    if bool_decide (op = "hello") then
      let '(baud, actual) := rates (sessions before) in respond d ("hello " +:+ str_int baud +:+ " " +:+ str_int actual)
    else if bool_decide (op = "serial.status") then respond d ("serial.status " +:+ str_int count)
    else respond d op.

Definition seed : Z := 7.

Definition devices (d : device) : environment sock_ret :=
  match d with
  | Host => peer_env true [] id
  | Pico => talk_env false [] pico_reply
  | Nano => talk_env true [] (nano_reply (fun _ => (115200, 115207))
      (fun session => match session with 3%nat => (1, Z.lxor seed 0x5a5a5a5a) | _ => (2, seed) end))
  | Observer => talk_env true [] (nano_reply
      (fun session => match session with 1%nat => (115200, 115207) | _ => (57600, 57597) end) (fun _ => (2, seed)))
  end.

#[local] Instance devices_socket d : Socket (devices d).
Proof. destruct d; apply _. Qed.

Definition bench_run : environment (bench_ret (R := unit)) := bench_env devices false.

Definition first : bench unit := {| b_peer := {| PicoPort.pe_timeout := 0; PicoPort.pe_buffer := [] |}; b_report := tt |}.

Definition program : bp (R := unit) Z := run 3 a "/dev/cu.usbmodem1" 2 seed.
End Demo.
#[local] Existing Instances Demo.codec Demo.devices_socket.

Lemma peer_run_exact_witness : exists s' n,
  Demo.program Demo.bench_run [] Demo.first = (s', Ok 0, n) /\
  exists l, passing_run Demo.bench_run (uart_options Demo.a) 2 Demo.seed l /\ stages [] n l.
Proof.
  assert (H : (Demo.program Demo.bench_run [] Demo.first).1.2 = Ok 0) by (vm_compute; reflexivity).
  destruct (Demo.program Demo.bench_run [] Demo.first) as [[s' r] n] eqn:E. cbn in H. subst r.
  exists s', n. split; [reflexivity|].
  exact (peer_run_exact Demo.bench_run 3 Demo.a "/dev/cu.usbmodem1" 2 Demo.seed Demo.first s' n E).
Defined.
