(* ===== verification/UartOverrun.v ===== *)
(** * The overrun check: tools/uart_overrun.py

    The Pico overruns the unread UART on purpose; the Nano must report it, drain the stale bytes when a
    session takes the UART, and then carry exact bytes both ways. The report is saved whatever happens;
    [evidence] is that frame, shared with the format matrix. *)

From stdpp Require Import base tactics list list_numbers strings.
From Stdlib Require Import ZArith Lia.
From S2P Require Import Prelude.
From S2P Require Import PyBytes.
From S2P Require Import PyText.
From S2P Require Import PyStr.
From S2P Require Import PyDict.
From S2P Require Import PyJson.
From S2P Require Import Effects.
From S2P Require Import Stateful.
From S2P Require Import Stages.
From S2P Require Import Sockets.
From S2P Require Import SessionSmoke.
From S2P Require Import Bench.
From S2P Require Import PicoPeer.
From S2P Require Import UartPeer.

Local Open Scope Z_scope.

(** ** A check with a saved report

    The report is the dictionary the tool fills in. *)
Section Evidence.
Context `{codec : !Json}.

Abbreviation rp A := (bp (R := dict json) A).

Definition set_report (f : dict json -> dict json) (s : bench (dict json)) : bench (dict json) :=
  {| b_peer := b_peer s; b_report := f (b_report s) |}.

(** [report[key] = value] and [report[key]] *)
Definition put (key : string) (value : json) : rp unit := st_modify (set_report (fun r => dset r key value)).
Definition fetch (key : string) : rp json := s ← st_get; st_pure (ditem (b_report s) key).

(** The handler and the [finally] clause around the body of a check. *)
Definition record_error {A} (e : exn) : rp A := put "error" (JStr (describe e));; st_raise e.

Definition write_report (output : string) : rp unit :=
  _ ← st_ask (MakeParent output);
  s ← st_get;
  _ ← st_ask (SaveReport output (b_report s));
  mret tt.

Definition evidence (output : string) (first : dict json) (body : rp unit) : rp Z :=
  already ← st_ask (OutputExists output);
  st_pure (raise_when (already : bool) (RuntimeError "output already exists"));;
  st_modify (set_report (fun _ => first));;
  st_finally (st_try body is_exception record_error) (write_report output);;
  mret 0.
End Evidence.

(** The report is not the Pico's line. *)
Lemma put_unread `{codec : !Json} (env : environment (bench_ret (R := dict json))) key value b :
  keeps env [] (fun s _ => unread s = b) (put key value).
Proof. by apply keeps_modify. Qed.
#[export] Hint Resolve put_unread : keeps.

(** ** The check *)
Record overrun_args := {
  o_target : target; o_peer_port : string; o_burst_bytes : Z; o_recovery_bytes : Z; o_seed : Z; o_output : string }.

(** The same arguments with the session options of the UART backend. *)
Definition overrun_options (a : overrun_args) : overrun_args := {|
  o_target := uart_options (o_target a); o_peer_port := o_peer_port a; o_burst_bytes := o_burst_bytes a;
  o_recovery_bytes := o_recovery_bytes a; o_seed := o_seed a; o_output := o_output a |}.

Definition overrun_report (a : overrun_args) : dict json :=
  [("status", JStr "failed"); ("board", JStr (t_board (o_target a))); ("address", JStr (t_address (o_target a)));
   ("device_id", JStr (t_device_id (o_target a))); ("peer_port", JStr (o_peer_port a));
   ("burst_bytes", JInt (o_burst_bytes a)); ("recovery_bytes", JInt (o_recovery_bytes a)); ("seed", JInt (o_seed a))].

Section Overrun.
Context `{codec : !Json}.

Abbreviation rp A := (bp (R := dict json) A).

(** [value.get(key, 0) <= other.get(key, 0)]: the counter has not grown *)
Definition not_grown (value other : dict json) (key : string) : result bool :=
  py_order false (jget_or value key (JInt 0)) (jget_or other key (JInt 0)).

(** [low <= v <= high] *)
Definition between_le (low high : Z) (v : json) : result bool :=
  above ← py_order false (JInt low) v;
  if (above : bool) then py_order false v (JInt high) else mret false.

Definition check_burst (overflow baseline : dict json) : result unit :=
  same_events ← not_grown overflow baseline "uart_rx_overrun_events";
  raise_when same_events (RuntimeError "intentional burst did not report an overrun");;
  same_loss ← not_grown overflow baseline "uart_rx_lost_bytes_minimum";
  raise_when same_loss (RuntimeError "intentional burst did not report minimum loss");;
  bounded ← between_le 1 256 (jget_or overflow "uart_rx_pending" (JInt 0));
  raise_when (negb bounded) (RuntimeError "intentional burst did not leave bounded RX pending").

Definition check_acquired (acquired overflow baseline : dict json) : result unit :=
  raise_when (differs acquired "uart_rx_pending" (JInt 0)) (RuntimeError "acquisition did not drain stale RX");;
  same ← not_grown acquired baseline "uart_rx_discarded";
  raise_when same (RuntimeError "acquisition did not count discarded RX");;
  for_each (fun name => raise_when (differs acquired name (jget overflow name))
      (RuntimeError "counter did not persist through acquisition"))
    ["uart_rx_overrun_events"; "uart_rx_lost_bytes_minimum"].

Definition check_recovery (status final acquired : dict json) (count : Z) : result unit :=
  raise_when (counters_wrong status count) (RuntimeError "recovery counters failed");;
  for_each (fun name => raise_when (differs final name (jget acquired name)) (RuntimeError "recovery changed a counter"))
    ["uart_rx_overrun_events"; "uart_rx_lost_bytes_minimum"; "uart_rx_discarded"; "tcp_errors"].

Definition channel_id : dict json := [("channel_id", JInt 1)].

(** A session empties the UART and reads the baseline. *)
Definition overrun_cleanup (a : overrun_args) : rp (dict json) :=
  with_probe Nano (o_target a) (fun cleanup =>
    _ ← st_pure (check_channel cleanup);
    put "nano_hello" (JObj (p_hello cleanup));;
    ' (_, cleanup) ← probe_command Nano cleanup "serial.open" None channel_id;
    ' (_, cleanup) ← probe_command Nano cleanup "serial.close" None channel_id;
    ' (baseline, cleanup) ← probe_command Nano cleanup "device.diagnostics" None [];
    put "baseline" (JObj baseline);;
    dev Nano (finish cleanup);;
    mret baseline).

Definition overrun_observe (a : overrun_args) : rp (dict json) :=
  with_probe Observer (o_target a) (fun observer =>
    ' (overflow, observer) ← probe_command Observer observer "device.diagnostics" None [];
    put "after_burst" (JObj overflow);;
    dev Observer (finish observer);;
    mret overflow).

Definition overrun_recover (fuel : nat) (a : overrun_args) (overflow baseline : dict json) : rp unit :=
  with_probe Nano (o_target a) (fun nano =>
    ' (_, nano) ← probe_command Nano nano "serial.open" None channel_id;
    ' (after_acquire, nano) ← probe_command Nano nano "device.diagnostics" None [];
    put "after_acquire" (JObj after_acquire);;
    st_pure (check_acquired after_acquire overflow baseline);;
    _ ← peer_command "CLEAR" None;
    _ ← peer_command "MODE SINK" None;
    let receive_seed := Z.lxor (o_seed a) 0xa5a5a5a5 in
    send_to_pico fuel (t_timeout (o_target a)) (o_recovery_bytes a) receive_seed (pattern (o_recovery_bytes a) receive_seed 8);;
    receive_from_pico fuel (t_timeout (o_target a)) (o_recovery_bytes a) (flip_bits receive_seed) nano
      "recovery mismatch at offset";;
    ' (status, nano) ← probe_command Nano nano "serial.status" None channel_id;
    ' (final, nano) ← probe_command Nano nano "device.diagnostics" None [];
    put "recovery_status" (JObj status);;
    put "final_diagnostics" (JObj final);;
    peer_final ← peer_command "STATS" None;
    put "peer_final" (JStr peer_final);;
    st_pure (check_recovery status final after_acquire (o_recovery_bytes a));;
    close_uart nano).

Definition overrun_body (fuel : nat) (a : overrun_args) : rp unit :=
  with_peer (o_peer_port a) (t_timeout (o_target a)) (
    identity ← identify_peer;
    put "peer_identity" (JStr identity);;
    _ ← peer_command "CLEAR" None;
    baseline ← overrun_cleanup a;
    _ ← peer_command ("SEND " +:+ str_int (o_burst_bytes a) +:+ " " +:+ str_int (o_seed a)) None;
    burst_event ← peer_event fuel "send_done" (t_timeout (o_target a));
    put "burst_event" (JStr burst_event);;
    dev Host (ask (Pause 250000000));;
    overflow ← overrun_observe a;
    st_pure (check_burst overflow baseline);;
    overrun_recover fuel a overflow baseline;;
    put "status" (JStr "passed")).

Definition overrun_run (fuel : nat) (a : overrun_args) : rp Z :=
  evidence (o_output a) (overrun_report a) (overrun_body fuel (overrun_options a)).
End Overrun.

(** ** What a bench program does to the report *)
Section Keeps.
Context `{codec : !Json} {R : Type} (env : environment (bench_ret (R := R))) (I : R -> Prop).

Definition reports {A} (m : bp (R := R) A) : Prop := keeps env [] (fun s _ => I (b_report s)) m.

Lemma reports_dev {A} d (m : sio A) : reports (dev d m).
Proof.
  unfold reports, keeps, dev. apply triple_io. intros s k [a|e] n Hs _; exact Hs.
Qed.

Lemma reports_bind {A B} (m : bp A) (f : A -> bp B) : reports m -> (forall a, reports (f a)) -> reports (m ≫= f).
Proof. apply keeps_bind. Qed.

Lemma reports_finally {A} (m : bp A) f : reports m -> reports f -> reports (st_finally m f).
Proof. apply keeps_finally. Qed.

Lemma reports_try {A} (m : bp A) handled handler : reports m -> (forall e, reports (handler e)) -> reports (st_try m handled handler).
Proof. apply keeps_try. Qed.

Lemma reports_pure {A} (m : result A) : reports (st_pure m).
Proof. apply keeps_pure. Qed.

Lemma reports_ret {A} (a : A) : reports (mret a).
Proof. apply keeps_ret. Qed.

Lemma reports_get : reports st_get.
Proof. apply keeps_get. Qed.

Lemma reports_set_peer p : reports (st_modify (set_peer p)).
Proof. apply keeps_modify. done. Qed.

Lemma reports_peer_command text expected_error : reports (peer_command text expected_error).
Proof.
  apply reports_bind; [apply reports_get|]. intros s. apply reports_bind; [apply reports_dev|]. intros [line p].
  apply reports_bind; [apply reports_set_peer|]. intros _. apply reports_ret.
Qed.

Lemma reports_peer_event fuel name timeout : reports (peer_event fuel name timeout).
Proof.
  apply reports_bind; [apply reports_get|]. intros s. apply reports_bind; [apply reports_dev|]. intros [line p].
  apply reports_bind; [apply reports_set_peer|]. intros _. apply reports_ret.
Qed.

Lemma reports_with_probe {A} d a (body : probe -> bp A) : (forall p, reports (body p)) -> reports (with_probe d a body).
Proof.
  intros Hb. apply reports_bind; [apply reports_dev|]. intros p. apply reports_finally; [apply Hb|apply reports_dev].
Qed.

Lemma reports_with_peer {A} path timeout (body : bp A) : reports body -> reports (with_peer path timeout body).
Proof.
  intros Hb. apply reports_bind; [apply reports_dev|]. intros p. apply reports_bind; [apply reports_set_peer|]. intros _.
  apply reports_finally; [done|apply reports_dev].
Qed.
End Keeps.

Create HintDb reports.
#[export] Hint Resolve reports_dev reports_pure reports_ret reports_get reports_set_peer reports_peer_command
  reports_peer_event : reports.

(** Walk a bench program, leaving the assignments to the report. *)
Ltac reports_step := match goal with
  | |- reports _ _ (st_modify (set_peer _)) => apply reports_set_peer
  | |- reports _ _ (with_probe _ _ _) => apply reports_with_probe; intros ?
  | |- reports _ _ (with_peer _ _ _) => apply reports_with_peer
  | |- reports _ _ (st_finally _ _) => apply reports_finally
  | |- reports _ _ (st_try _ _ _) => apply reports_try; [|intros ?]
  | |- reports _ _ (_ ≫= _) => apply reports_bind; [|intros ?]
  | |- reports _ _ (if ?c then _ else _) => destruct c
  | |- reports _ _ (match ?x with _ => _ end) => destruct x
  | |- reports _ _ _ => solve [eauto with reports]
  end.
Ltac reports_tac := repeat (reports_step; cbn beta iota).

Section Shared.
Context `{codec : !Json} {R : Type} (env : environment (bench_ret (R := R))) (I : R -> Prop).

Lemma reports_identify : reports env I identify_peer.
Proof. unfold identify_peer. reports_tac. Qed.

Lemma reports_send fuel timeout count seed data : reports env I (send_to_pico fuel timeout count seed data).
Proof. unfold send_to_pico. reports_tac. Qed.

Lemma reports_receive fuel timeout count seed nano message :
  reports env I (receive_from_pico fuel timeout count seed nano message).
Proof. unfold receive_from_pico. reports_tac. Qed.

Lemma reports_probe_command d p op expected_error fields : reports env I (probe_command d p op expected_error fields).
Proof. apply reports_dev. Qed.

Lemma reports_close_uart nano : reports env I (close_uart nano).
Proof. unfold close_uart, probe_command. reports_tac. Qed.
End Shared.
#[export] Hint Resolve reports_identify reports_send reports_receive reports_probe_command reports_close_uart : reports.

(** ** The frame of a check *)
Ltac last_tac := repeat first [rewrite last_app | rewrite last_cons | progress cbn [app last]]; reflexivity.

Section Frame.
Context `{codec : !Json} (env : environment (bench_ret (R := dict json))).

(** No error has been recorded. *)
Definition unrecorded (r : dict json) : Prop := dget r "error" = None.

Lemma reports_put key value : key <> "error" -> reports env unrecorded (put key value).
Proof.
  intros Hk. apply keeps_modify. intros s _ Hs. unfold unrecorded in *. simpl. rewrite dget_dset.
  by rewrite decide_False.
Qed.

(** What is saved when a body that records no error itself ends. *)
Definition saved_report (output : string) (r : result Z) (n : list (bench_call (dict json))) : Prop :=
  match r with
  | Ok v => v = 0 /\ exists report, last n = Some (SaveReport output report) /\ unrecorded report /\
      dget report "status" = Some (JStr "passed")
  | Raise e => n = [OutputExists output] \/ last n = Some (MakeParent output) \/
      exists report, last n = Some (SaveReport output report) /\
        ((exists k, env k (SaveReport output report) = Raise e) \/
         is_exception e = false \/ dget report "error" = Some (JStr (describe e)))
  end.

Lemma write_report_runs output h s s' r n : write_report output env h s = (s', r, n) ->
  s' = s /\
  match r with
  | Ok _ => n = [MakeParent output; SaveReport output (b_report s)]
  | Raise e => n = [MakeParent output] \/
      n = [MakeParent output; SaveReport output (b_report s)] /\ exists k, env k (SaveReport output (b_report s)) = Raise e
  end.
Proof.
  unfold write_report, mbind, st_mbind, st_bind, st_ask, st_io, ask, st_get, mret, st_ret, st_pure.
  destruct (env h (MakeParent output)) as [u|e]; [|intros [= <- <- <-]; auto].
  destruct (env ((h ++ [MakeParent output]) ++ []) (SaveReport output (b_report s))) as [v|e] eqn:E;
    intros [= <- <- <-]; [done|]. split; [done|]. right. eauto.
Qed.

Lemma evidence_saved output first (body : bp unit) :
  unrecorded first -> reports env unrecorded body ->
  (forall h s s' u n, body env h s = (s', Ok u, n) -> dget (b_report s') "status" = Some (JStr "passed")) ->
  forall s s' r n, evidence output first body env [] s = (s', r, n) -> saved_report output r n.
Proof.
  intros Hf Hb Hp s s' r n. unfold evidence. unfold mbind at 1, st_mbind at 1, st_bind at 1, st_ask at 1, st_io at 1, ask at 1.
  destruct (env [] (OutputExists output)) as [already|e]; [|intros [= _ <- <-]; by left].
  destruct already; [intros [= _ <- <-]; by left|].
  unfold raise_when, mbind, st_mbind, st_bind, st_pure, st_modify, st_finally, st_try.
  set (s0 := set_report (fun _ => first) s). set (h := _ ++ _). 
  destruct (body env h s0) as [[s1 rb] nb] eqn:Eb.
  assert (Hu : unrecorded (b_report s1)).
  { pose proof (Hb s0 h Hf) as Hk. cbn [app] in Hk. rewrite Eb in Hk. by destruct rb. }
  destruct rb as [u|e].
  - apply Hp in Eb. destruct (write_report output env (h ++ nb) s1) as [[s2 rw] nw] eqn:Ew.
    apply write_report_runs in Ew as [-> Hw]. destruct rw as [[]|e].
    + subst nw. intros [= _ <- <-]. split; [done|]. exists (b_report s1). split; [last_tac|done].
    + intros [= _ <- <-]. right. destruct Hw as [->|[-> Hk]]; [left; last_tac|right].
      exists (b_report s1). split; [last_tac|by left].
  - set (s2 := if is_exception e then set_report (fun r => dset r "error" (JStr (describe e))) s1 else s1).
    assert (Et : (if is_exception e then
        let '(s3, q, k) := record_error e env (h ++ nb) s1 in (s3, q, nb ++ k) else (s1, Raise (A := unit) e, nb)) = (s2, Raise e, nb)).
    { unfold s2. destruct (is_exception e); [|done]. unfold record_error, put, st_modify, st_raise, st_pure, mbind, st_mbind, st_bind.
      cbn. by rewrite app_nil_r. }
    rewrite Et. assert (Hs2 : is_exception e = false \/ dget (b_report s2) "error" = Some (JStr (describe e))).
    { unfold s2. destruct (is_exception e); [right|by left]. simpl. by rewrite dget_dset, decide_True. }
    destruct (write_report output env (h ++ nb) s2) as [[s3 rw] nw] eqn:Ew.
    apply write_report_runs in Ew as [-> Hw]. destruct rw as [[]|e'].
    + subst nw. intros [= _ <- <-]. right. right. exists (b_report s2). split; [last_tac|by right].
    + intros [= _ <- <-]. right. destruct Hw as [->|[-> Hk]]; [left; last_tac|right].
      exists (b_report s2). split; [last_tac|by left].
Qed.
End Frame.

(** What the report says when a program returns *)
Section Leaves.
Context `{codec : !Json} {R : Type} (env : environment (bench_ret (R := R))) (F : R -> Prop).

Definition leaves {A} (m : bp (R := R) A) : Prop := forall h s s' a n, m env h s = (s', Ok a, n) -> F (b_report s').

Lemma leaves_bind {A B} (m : bp A) (f : A -> bp B) : (forall a, leaves (f a)) -> leaves (m ≫= f).
Proof.
  intros Hf h s s' b n. unfold mbind, st_mbind, st_bind. destruct (m env h s) as [[s1 [a|e]] n1]; [|done].
  destruct (f a env (h ++ n1) s1) as [[s2 q] n2] eqn:E. intros [= <- -> <-]. by eapply Hf.
Qed.

Lemma leaves_close {A} (m : bp A) d c : leaves m -> leaves (st_finally m (dev d c)).
Proof.
  intros Hm h s s' a n. unfold st_finally, dev, st_io. destruct (m env h s) as [[s1 r1] n1] eqn:E.
  destruct (on d c env (h ++ n1)) as [[u|e] n2]; [|done]. intros [= <- -> <-]. by eapply Hm.
Qed.

Lemma leaves_with_peer {A} path timeout (body : bp A) : leaves body -> leaves (with_peer path timeout body).
Proof.
  intros Hb. unfold with_peer. apply leaves_bind. intros p. apply leaves_bind. intros _. by apply leaves_close.
Qed.
End Leaves.

Lemma leaves_put `{codec : !Json} (env : environment (bench_ret (R := dict json))) key value :
  leaves env (fun r => dget r key = Some value) (put key value).
Proof. intros h s s' u n [= <- _ _]. simpl. by rewrite dget_dset, decide_True. Qed.

(** ** The overrun check *)
Section OverrunRuns.
Context `{codec : !Json} (env : environment (bench_ret (R := dict json))) `{!Bench env}.

Lemma overrun_body_reports fuel a : reports env unrecorded (overrun_body fuel a).
Proof.
  unfold overrun_body, overrun_cleanup, overrun_observe, overrun_recover. reports_tac; by apply reports_put.
Qed.

Lemma overrun_body_passes fuel a : leaves env (fun r => dget r "status" = Some (JStr "passed")) (overrun_body fuel a).
Proof. unfold overrun_body. apply leaves_with_peer. repeat (apply leaves_bind; intros ?). apply leaves_put. Qed.

(** A counter of [value] is beyond the one of [other]. *)
Definition grew (value other : dict json) (key : string) : Prop := not_grown value other key = Ok false.

(** What the diagnostics said at each point of a passing run. *)
Record overrun_seen (baseline overflow acquired status final : dict json) (count : Z) : Prop := {
  os_events : grew overflow baseline "uart_rx_overrun_events";
  os_loss : grew overflow baseline "uart_rx_lost_bytes_minimum";
  os_pending : between_le 1 256 (jget_or overflow "uart_rx_pending" (JInt 0)) = Ok true;
  os_drained : py_eq (jget acquired "uart_rx_pending") (JInt 0) = true;
  os_discarded : grew acquired baseline "uart_rx_discarded";
  os_persist : Forall (fun name => py_eq (jget acquired name) (jget overflow name) = true)
    ["uart_rx_overrun_events"; "uart_rx_lost_bytes_minimum"];
  os_counters : counters_right status count;
  os_quiet : Forall (fun name => py_eq (jget final name) (jget acquired name) = true)
    ["uart_rx_overrun_events"; "uart_rx_lost_bytes_minimum"; "uart_rx_discarded"; "tcp_errors"] }.

Lemma each_same value other names e u :
  for_each (fun name => raise_when (differs value name (jget other name)) e) names = Ok u ->
  Forall (fun name => py_eq (jget value name) (jget other name) = true) names.
Proof.
  rewrite for_each_Ok. intros H. eapply Forall_impl; [exact H|]. intros name Hn. cbv beta in Hn.
  by apply raise_when_Ok, differs_false in Hn.
Qed.

Lemma check_burst_Ok overflow baseline u : check_burst overflow baseline = Ok u ->
  grew overflow baseline "uart_rx_overrun_events" /\ grew overflow baseline "uart_rx_lost_bytes_minimum" /\
  between_le 1 256 (jget_or overflow "uart_rx_pending" (JInt 0)) = Ok true.
Proof.
  unfold check_burst, grew. intros (b1 & H1 & H)%bind_Ok. apply raise_when_bind in H as [-> H].
  apply bind_Ok in H as (b2 & H2 & H). apply raise_when_bind in H as [-> H].
  apply bind_Ok in H as (b3 & H3 & H). apply raise_when_Ok, negb_false_iff in H as ->. done.
Qed.

Lemma check_acquired_Ok acquired overflow baseline u : check_acquired acquired overflow baseline = Ok u ->
  py_eq (jget acquired "uart_rx_pending") (JInt 0) = true /\ grew acquired baseline "uart_rx_discarded" /\
  Forall (fun name => py_eq (jget acquired name) (jget overflow name) = true)
    ["uart_rx_overrun_events"; "uart_rx_lost_bytes_minimum"].
Proof.
  unfold check_acquired, grew. intros [H1%differs_false H]%raise_when_bind. apply bind_Ok in H as (b & H2 & H).
  apply raise_when_bind in H as [-> H]. split_and!; [done..|]. by eapply each_same.
Qed.

Lemma check_recovery_Ok status final acquired count u : check_recovery status final acquired count = Ok u ->
  counters_right status count /\ Forall (fun name => py_eq (jget final name) (jget acquired name) = true)
    ["uart_rx_overrun_events"; "uart_rx_lost_bytes_minimum"; "uart_rx_discarded"; "tcp_errors"].
Proof.
  unfold check_recovery. intros [H1%counters_wrong_false H]%raise_when_bind. split; [done|]. by eapply each_same.
Qed.

Abbreviation ostage := (@stage (bench_call (dict json))).

Lemma overrun_cleanup_staged a :
  staged env (overrun_cleanup a) (fun baseline l => exists p v1 v2, l =
    [opened env Nano (o_target a) p; answered env Nano "serial.open" None channel_id v1;
     answered env Nano "serial.close" None channel_id v2; answered env Nano "device.diagnostics" None [] baseline]).
Proof.
  unfold overrun_cleanup. apply (with_probe_staged env). intros p _. staged_check Hc. staged_leave.
  eapply staged_bind; [apply (probe_command_staged env)|]. intros [v1 p1] l1 [-> _].
  eapply staged_bind; [apply (probe_command_staged env)|]. intros [v2 p2] l2 [-> _].
  eapply staged_bind; [apply (probe_command_staged env)|]. intros [baseline p3] l3 [-> _].
  staged_leave. staged_leave. eapply staged_weaken; [apply staged_ret|]. intros b l4 [-> ->]. by exists p, v1, v2.
Qed.

Lemma overrun_observe_staged a :
  staged env (overrun_observe a) (fun overflow l => exists p, l =
    [opened env Observer (o_target a) p; answered env Observer "device.diagnostics" None [] overflow]).
Proof.
  unfold overrun_observe. apply (with_probe_staged env). intros p _.
  eapply staged_bind; [apply (probe_command_staged env)|]. intros [overflow p1] l1 [-> _].
  staged_leave. staged_leave. eapply staged_weaken; [apply staged_ret|]. intros b l2 [-> ->]. by exists p.
Qed.

(** The recovery: the UART is taken, and exact bytes go both ways. *)
Definition recovered (a : overrun_args) (overflow baseline : dict json) (b b' : bytes) (l : list ostage) : Prop :=
  exists nano v acquired r1 r2 l1 l2 status final stats b1 b2 b3 b4,
    let seed := Z.lxor (o_seed a) 0xa5a5a5a5 in
    overrun_seen baseline overflow acquired status final (o_recovery_bytes a) /\
    to_pico env (o_recovery_bytes a) seed b2 b3 l1 /\ from_pico env (o_recovery_bytes a) (flip_bits seed) b3 b4 l2 /\
    l = [opened env Nano (o_target a) nano; answered env Nano "serial.open" None channel_id v;
         answered env Nano "device.diagnostics" None [] acquired; told env b "CLEAR" r1 b1; told env b1 "MODE SINK" r2 b2]
        ++ l1 ++ l2 ++
        [answered env Nano "serial.status" None channel_id status;
         answered env Nano "device.diagnostics" None [] final; told env b4 "STATS" stats b'].

Lemma overrun_recover_reading b fuel a overflow baseline :
  check_burst overflow baseline = Ok tt ->
  reading env b (overrun_recover fuel a overflow baseline) (fun _ b' l => recovered a overflow baseline b b' l).
Proof.
  intros Hb. apply check_burst_Ok in Hb as (Hb1 & Hb2 & Hb3).
  unfold overrun_recover. apply (reading_with_probe env). intros nano _.
  probe_reading. intros [v nano1] b0 l1 (-> & -> & _). probe_reading. intros [acquired nano2] b0 l2 (-> & -> & _).
  reading_leave. reading_check Ha. apply check_acquired_Ok in Ha as (Ha1 & Ha2 & Ha3).
  eapply reading_bind; [apply (peer_command_reading env)|]. intros r1 b1 l3 ->.
  eapply reading_bind; [apply (peer_command_reading env)|]. intros r2 b2 l4 ->.
  eapply reading_bind; [by apply (send_to_pico_reading env)|]. intros ? b3 l5 H5.
  eapply reading_bind; [apply (receive_from_pico_reading env)|]. intros ? b4 l6 H6.
  probe_reading. intros [status nano3] b0' l7 (-> & -> & _). probe_reading. intros [final nano4] b0' l8 (-> & -> & _).
  reading_leave. reading_leave.
  eapply reading_bind; [apply (peer_command_reading env)|]. intros stats b5 l9 ->.
  reading_leave. reading_check Hr. apply check_recovery_Ok in Hr as [Hr1 Hr2].
  eapply reading_weaken; [apply reading_skip; unfold close_uart; untouched_tac|]. intros ? b6 l10 [-> ->].
  exists nano, v, acquired, r1, r2, l5, l6, status, final, stats, b1, b2, b3, b4. cbn zeta. split; [by constructor|].
  split_and!; done.
Qed.
End OverrunRuns.

Lemma evidence_staged `{codec : !Json} (env : environment (bench_ret (R := dict json))) output first (body : bp unit)
    (Q : list (@stage (bench_call (dict json))) -> Prop) :
  staged env body (fun _ => Q) -> staged env (evidence output first body) (fun _ => Q).
Proof.
  intros Hb. unfold evidence. staged_leave. staged_leave. staged_leave. eapply staged_bind.
  { apply staged_finally, staged_try; [exact Hb|]. intros e h s s' b n. unfold record_error. by intros [=]. }
  intros ? l Hl. eapply staged_weaken; [apply staged_ret|]. intros ? l2 [_ ->]. by rewrite app_nil_r.
Qed.

Section OverrunStages.
Context `{codec : !Json} (env : environment (bench_ret (R := dict json))) `{!Bench env}.

(** The stages of an overrun check that passes. *)
Definition passing_overrun (a : overrun_args) (l : list (@stage (bench_call (dict json)))) : Prop :=
  exists identity r1 p v1 v2 baseline r2 event observer overflow b1 b2 b3 b4 b5 l1,
    dget (fields identity) "peer" = Some PEER_VERSION /\ recovered env a overflow baseline b4 b5 l1 /\
    l = [told env [] "PING" identity b1; told env b1 "CLEAR" r1 b2; opened env Nano (o_target a) p;
         answered env Nano "serial.open" None channel_id v1; answered env Nano "serial.close" None channel_id v2;
         answered env Nano "device.diagnostics" None [] baseline;
         told env b2 ("SEND " +:+ str_int (o_burst_bytes a) +:+ " " +:+ str_int (o_seed a)) r2 b3;
         reported env b3 "send_done" event b4; opened env Observer (o_target a) observer;
         answered env Observer "device.diagnostics" None [] overflow] ++ l1.

Lemma overrun_run_staged fuel a : staged env (overrun_run fuel a) (fun _ => passing_overrun (overrun_options a)).
Proof.
  unfold overrun_run. set (a' := overrun_options a). clearbody a'. apply evidence_staged. unfold overrun_body.
  eapply staged_weaken.
  { apply staged_with_peer with (Q := fun _ _ => passing_overrun a').
    eapply reading_bind; [apply (identify_peer_reading env)|]. intros identity b1 l1 [Hid ->]. reading_leave.
    eapply reading_bind; [apply (peer_command_reading env)|]. intros r1 b2 l2 ->.
    eapply reading_bind; [apply reading_untouched; [unfold overrun_cleanup; untouched_tac|apply (overrun_cleanup_staged env)]|].
    intros baseline b0 l3 (-> & p & v1 & v2 & ->).
    eapply reading_bind; [apply (peer_command_reading env)|]. intros r2 b3 l4 ->.
    eapply reading_bind; [apply (peer_event_reading env)|]. intros event b4 l5 ->. reading_leave. reading_leave.
    eapply reading_bind; [apply reading_untouched; [unfold overrun_observe; untouched_tac|apply (overrun_observe_staged env)]|].
    intros overflow b0 l6 (-> & observer & ->).
    eapply reading_bind; [apply reading_pure|]. intros [] b0 l7 (Hb & -> & ->).
    eapply reading_bind; [by apply (overrun_recover_reading env)|]. intros ? b5 l8 H8.
    eapply reading_weaken; [apply reading_skip; untouched_tac|]. intros ? b6 l9 [_ ->]. rewrite !app_nil_r.
    exists identity, r1, p, v1, v2, baseline, r2, event, observer, overflow, b1, b2, b3, b4, b5, l8. done. }
  by intros ? l [_ H].
Qed.
End OverrunStages.

(** ** Properties *)

(** An overrun check that returns saved, as its last act, a report that says it passed and has no
    error; one that raises saved, as its last act, a report with that error, unless the report existed
    before, its directory could not be made, or saving itself failed. A check that passes has seen, in
    this order: the Pico identified, the UART emptied and the baseline read, the burst sent, the overrun
    and the loss counted by the Nano with at most 256 bytes pending, the stale bytes drained and counted
    when a session took the UART, the error counters kept, exactly the two patterns carried, one each
    way, with the Nano's own counts right, and no further error counted. *)
Theorem overrun_outcome `{codec : !Json} env fuel a s s' r n `{!Bench env} :
  overrun_run fuel a env [] s = (s', r, n) ->
  saved_report env (o_output a) r n /\
  (r = Ok 0 -> exists l, passing_overrun env (overrun_options a) l /\ stages [] n l).
Proof.
  intros H. split.
  - refine (evidence_saved env _ (overrun_report a) (overrun_body fuel (overrun_options a)) eq_refl _ _ s s' r n H);
      [apply overrun_body_reports|apply overrun_body_passes].
  - intros ->. exact (overrun_run_staged env fuel a [] s s' 0 n H).
Qed.

(** A Nano whose counters move as the check expects: by session, the overruns, the pending and the
    discarded bytes its diagnostics show. *)
Module OverrunDemo.
Definition a : overrun_args := {|
  o_target := Demo.a; o_peer_port := "/dev/cu.usbmodem1"; o_burst_bytes := 4096; o_recovery_bytes := 3; o_seed := 7;
  o_output := "overrun.json" |}.

#[local] Instance codec : Json := {
  json_loads b :=
    match words (text b) with
    | ["hello"; baud; actual] => baud ← read_int baud; actual ← read_int actual; Demo.ok (Demo.hello baud actual)
    | ["serial.status"; count] => count ← read_int count; Demo.ok (Demo.status count)
    | ["device.diagnostics"; overruns; pending; discarded] =>
        overruns ← read_int overruns; pending ← read_int pending; discarded ← read_int discarded;
        Demo.ok [("uart_rx_overrun_events", JInt overruns); ("uart_rx_lost_bytes_minimum", JInt overruns);
            ("uart_rx_pending", JInt pending); ("uart_rx_discarded", JInt discarded); ("tcp_errors", JInt 0)]
    | _ => Demo.ok []
    end;
  json_dumps d := match dget d "op" with Some (JStr op) => ascii op | _ => [] end }.

Definition reply (diagnostics : nat -> string) (before : list sock_call) (d : bytes) : bytes :=
  if bool_decide (text (drop 16 d) = "device.diagnostics") then Demo.respond d (diagnostics (Demo.sessions before))
  else Demo.nano_reply (fun _ => (115200, 115207)) (fun _ => (3, Z.lxor 7 0xa5a5a5a5)) before d.

Definition devices (d : device) : environment sock_ret :=
  match d with
  | Host => peer_env true [] id
  | Pico => talk_env false [] Demo.pico_reply
  | Nano => talk_env true [] (reply (fun session => match session with
      1%nat => "device.diagnostics 0 0 0" | _ => "device.diagnostics 1 0 256" end))
  | Observer => talk_env true [] (reply (fun _ => "device.diagnostics 1 256 0"))
  end.

#[local] Instance devices_socket d : Socket (devices d).
Proof. destruct d; apply _. Qed.

Definition bench_run : environment (bench_ret (R := dict json)) := bench_env devices false.
Definition first : bench (dict json) := {| b_peer := b_peer Demo.first; b_report := [] |}.
Definition program : bp (R := dict json) Z := overrun_run 3 a.
End OverrunDemo.
#[local] Existing Instances OverrunDemo.codec OverrunDemo.devices_socket.

Lemma overrun_outcome_witness : exists s' n,
  OverrunDemo.program OverrunDemo.bench_run [] OverrunDemo.first = (s', Ok 0, n) /\
  exists l, passing_overrun OverrunDemo.bench_run (overrun_options OverrunDemo.a) l /\ stages [] n l.
Proof.
  assert (H : (OverrunDemo.program OverrunDemo.bench_run [] OverrunDemo.first).1.2 = Ok 0) by (vm_compute; reflexivity).
  destruct (OverrunDemo.program OverrunDemo.bench_run [] OverrunDemo.first) as [[s' r] n] eqn:E. cbn in H. subst r.
  exists s', n. split; [reflexivity|].
  destruct (overrun_outcome OverrunDemo.bench_run 3 OverrunDemo.a OverrunDemo.first s' (Ok 0) n E) as [_ Hp].
  exact (Hp eq_refl).
Defined.
