(* ===== verification/UartFormat.v ===== *)
(** * The UART format matrix: tools/uart_format_matrix.py

    Every advertised format against the Pico: the configurations both sides must refuse, then 26 accepted
    ones, each with an exact transfer both ways. The report's [seconds] are nanoseconds here. *)

From stdpp Require Import base tactics list list_numbers strings.
From Stdlib Require Import ZArith Lia.
From S2P Require Import Prelude.
From S2P Require Import PyBytes.
From S2P Require Import PyText.
From S2P Require Import PyStr.
From S2P Require Import PyDict.
From S2P Require Import PyJson.
From S2P Require Import Effects.
From S2P Require Import Stateful.
From S2P Require Import Stages.
From S2P Require Import UartSmoke.
From S2P Require Import Sockets.
From S2P Require Import SessionSmoke.
From S2P Require Import Bench.
From S2P Require Import PicoPeer.
From S2P Require Import UartPeer.
From S2P Require Import UartOverrun.

Local Open Scope Z_scope.

(** ** Formats *)
Record format := { f_baud : Z; f_data_bits : Z; f_parity : string; f_stop_bits : Z }.

Definition config_of (f : format) : dict json := uart_config (f_baud f) (f_data_bits f) (f_parity f) (f_stop_bits f).

(** [uart_config(baud)] with its defaults *)
Definition plain (baud : Z) : format := {| f_baud := baud; f_data_bits := 8; f_parity := "none"; f_stop_bits := 1 |}.

Definition parities : list string := ["none"; "even"; "odd"].

Definition format_cases (baud : Z) : list format :=
  bits ← [5; 6; 7; 8]; parity ← parities; stops ← [1; 2];
  [{| f_baud := baud; f_data_bits := bits; f_parity := parity; f_stop_bits := stops |}].

Definition configuration_command (f : format) : string :=
  "CONFIG " +:+ str_int (f_baud f) +:+ " " +:+ str_int (f_data_bits f) +:+ " " +:+ f_parity f +:+ " "
  +:+ str_int (f_stop_bits f).

(** [int(values[key])] *)
Definition int_field (values : dict string) (key : string) : result Z :=
  value ← ditem values key; read_int value.

(** What the Pico says of its own configuration. *)
Record peer_configuration := { pc_format : format; pc_actual_baud : Z }.

#[export] Instance format_eq_dec : EqDecision format.
Proof. solve_decision. Defined.

#[export] Instance peer_configuration_eq_dec : EqDecision peer_configuration.
Proof. solve_decision. Defined.

Definition invalid_response : exn := RuntimeError "invalid Pico configuration response".

(** [except (KeyError, ValueError) as exc: raise RuntimeError(...)] *)
Definition invalid_unless {A} (m : result A) : result A :=
  match m with
  | Ok a => Ok a
  | Raise e => if is_any [KKeyError; KValueError] e then Raise invalid_response else Raise e
  end.

Definition parse_peer_configuration (line : string) : result peer_configuration :=
  let values := fields line in
  config ← invalid_unless (
    baud ← int_field values "baud"; actual_baud ← int_field values "actual_baud";
    data_bits ← int_field values "data_bits"; parity ← ditem values "parity";
    stop_bits ← int_field values "stop_bits";
    mret {| pc_format := {| f_baud := baud; f_data_bits := data_bits; f_parity := parity; f_stop_bits := stop_bits |};
            pc_actual_baud := actual_baud |});
  let f := pc_format config in
  raise_when (negb ((300 <=? f_baud f) && (f_baud f <=? 2000000)) || (pc_actual_baud config <=? 0)
      || negb ((5 <=? f_data_bits f) && (f_data_bits f <=? 8)) || negb (bool_decide (f_parity f ∈ parities))
      || negb (bool_decide (f_stop_bits f ∈ [1; 2]))) invalid_response;;
  mret config.

Definition assert_effective_configuration (result : dict json) (requested : format) (actual_baud : Z) : Prelude.result unit :=
  let expected := dset (config_of requested) "actual_baud" (JInt actual_baud) in
  raise_when (negb (py_eq (JObj result) (JObj expected))) (RuntimeError "Nano effective configuration mismatch").

Definition assert_stable_diagnostics : dict json -> dict json -> result unit :=
  stable_diagnostics "Nano discarded-byte counter regressed".

Definition first_mismatch (actual expected : bytes) : result Z :=
  some_or (first_difference 0 actual expected) (StopIteration "").

Record matrix_args := {
  m_target : target; m_peer_port : string; m_format_bytes : Z; m_boundary_bytes : Z; m_high_speed_bytes : Z;
  m_seed : Z; m_output : string }.

(** The same arguments with the session options of the UART backend. *)
Definition matrix_options (a : matrix_args) : matrix_args := {|
  m_target := uart_options (m_target a); m_peer_port := m_peer_port a; m_format_bytes := m_format_bytes a;
  m_boundary_bytes := m_boundary_bytes a; m_high_speed_bytes := m_high_speed_bytes a; m_seed := m_seed a;
  m_output := m_output a |}.

Section Matrix.
Context `{codec : !Json}.

Abbreviation rp A := (bp (R := dict json) A).

Definition boot_id_differs (p : probe) (boot_id : json) : bool := differs (p_hello p) "boot_id" boot_id.

Definition observe_nano_configuration (a : target) (boot_id : json) : rp (dict json) :=
  with_probe Observer a (fun observer =>
    st_pure (raise_when (boot_id_differs observer boot_id) (RuntimeError "Nano rebooted while observing UART configuration"));;
    channel ← st_pure (check_channel observer);
    result ← st_pure (channel_config channel);
    dev Observer (finish observer);;
    mret result).

Definition peer_configuration_now (text : string) : rp peer_configuration :=
  line ← peer_command text None; st_pure (parse_peer_configuration line).

Definition peer_invalid : list string :=
  ["CONFIG 299 8 none 1"; "CONFIG 2000001 8 none 1"; "CONFIG 115200 4 none 1"; "CONFIG 115200 9 none 1";
   "CONFIG 115200 8 mark 1"; "CONFIG 115200 8 none 3"; "CONFIG 115200 8 none 1 extra"].

Definition check_peer_invalid_configurations : rp Z :=
  before ← peer_configuration_now "STATS";
  st_fold (fun _ command =>
    _ ← peer_command command (Some "invalid_config");
    after ← peer_configuration_now "STATS";
    st_pure (raise_when (negb (bool_decide (after = before))) (RuntimeError "Pico invalid configuration changed state")))
    tt peer_invalid;;
  mret (blen peer_invalid).

Definition with_field (config : dict json) (key : string) (value : json) : dict json := dset config key value.

Definition nano_invalid (requested : dict json) : list (dict json) :=
  [with_field requested "baud" (JInt 299); with_field requested "baud" (JInt 2000001);
   with_field requested "data_bits" (JInt 4); with_field requested "data_bits" (JInt 9);
   with_field requested "parity" (JStr "mark"); with_field requested "stop_bits" (JInt 3);
   with_field requested "flow_control" (JStr "rts_cts")].

(** One refused configuration: the error is [invalid_argument], and nothing changed. *)
Definition refuse_configuration (a : target) (boot_id : json) (requested : format) (actual_baud : Z) (nano : probe)
    (config : dict json) : rp probe :=
  ' (_, nano) ← probe_command Nano nano "serial.configure" (Some "invalid_argument") (channel_1 config);
  actual ← observe_nano_configuration a boot_id;
  st_pure (assert_effective_configuration actual requested actual_baud);;
  mret nano.

(** A session of the expected boot takes the UART with a configuration, and another session sees it. *)
Definition take_uart (a : target) (boot_id : json) (message : string) (nano : probe) (requested : format)
    (actual_baud : Z) : rp probe :=
  st_pure (raise_when (boot_id_differs nano boot_id) (RuntimeError message));;
  _ ← st_pure (check_channel nano);
  ' (_, nano) ← probe_command Nano nano "serial.open" None (channel_1 (config_of requested));
  effective ← observe_nano_configuration a boot_id;
  st_pure (assert_effective_configuration effective requested actual_baud);;
  mret nano.

Definition check_nano_invalid_configurations (a : target) (boot_id : json) (baseline : dict json) : rp Z :=
  let requested := plain 115200 in
  peer_effective ← peer_configuration_now (configuration_command requested);
  let actual_baud := pc_actual_baud peer_effective in
  with_probe Nano a (fun nano =>
    nano ← take_uart a boot_id "Nano rebooted during invalid-configuration checks" nano requested actual_baud;
    _ ← peer_command "CLEAR" None;
    let invalid := nano_invalid (config_of requested) in
    nano ← st_fold (refuse_configuration a boot_id requested actual_baud) nano invalid;
    ' (diagnostics, nano) ← probe_command Nano nano "device.diagnostics" None [];
    st_pure (assert_stable_diagnostics diagnostics baseline);;
    close_uart nano;;
    mret (blen invalid)).

(** [except (OSError, RuntimeError, TimeoutError) as exc: raise RuntimeError(...) from exc] *)
Definition explain {A} (message : string) (m : rp A) : rp A :=
  st_try m (is_any [KOSError; KRuntimeError; KTimeoutError]) (fun _ => st_raise (RuntimeError message)).

Definition run_case (fuel : nat) (a : target) (boot_id : json) (baseline : dict json) (config : format) (count seed : Z) :
    rp json :=
  peer_effective ← peer_configuration_now (configuration_command config);
  st_pure (raise_when (negb (bool_decide (pc_format peer_effective = config))) (RuntimeError "Pico configuration mismatch"));;
  let actual_baud := pc_actual_baud peer_effective in
  started ← dev Host (ask Monotonic);
  ' (status, diagnostics, peer_stats_line) ← with_probe Nano a (fun nano =>
    nano ← take_uart a boot_id "Nano rebooted during UART format matrix" nano config actual_baud;
    _ ← peer_command "CLEAR" None;
    _ ← peer_command "MODE SINK" None;
    expected ← st_pure (pattern count seed (f_data_bits config));
    _ ← peer_command ("EXPECT " +:+ str_int count +:+ " " +:+ str_int seed) None;
    dev Nano (send_serial expected);;
    _ ← explain "Nano-to-Pico transfer failed" (
      event ← peer_event fuel "expect_done" (t_timeout a); st_pure (require_peer_event event count));
    let reverse_seed := flip_bits seed in
    reverse ← st_pure (pattern count reverse_seed (f_data_bits config));
    _ ← peer_command ("SEND " +:+ str_int count +:+ " " +:+ str_int reverse_seed) None;
    received ← explain "Pico-to-Nano transfer failed" (
      received ← dev Nano (receive_serial nano count);
      event ← peer_event fuel "send_done" (t_timeout a);
      _ ← st_pure (require_peer_event event count);
      mret received);
    st_pure (if bool_decide (received = reverse) then Ok tt
             else _ ← first_mismatch received reverse; Raise (RuntimeError "Pico-to-Nano mismatch at"));;
    ' (status, nano) ← probe_command Nano nano "serial.status" None [("channel_id", JInt 1)];
    st_pure (raise_when (counters_wrong status count) (RuntimeError "unexpected Nano UART counters"));;
    ' (diagnostics, nano) ← probe_command Nano nano "device.diagnostics" None [];
    st_pure (assert_stable_diagnostics diagnostics baseline);;
    peer_stats_line ← peer_command "STATS" None;
    st_pure (raise_when (peer_counters_wrong peer_stats_line count) (RuntimeError "unexpected Pico counters"));;
    close_uart nano;;
    mret (status, diagnostics, peer_stats_line));
  finished ← dev Host (ask Monotonic);
  mret (JObj [("config", JObj (config_of config)); ("actual_baud", JInt actual_baud);
    ("bytes_each_direction", JInt count); ("seed", JInt seed); ("seconds", JInt (finished - started));
    ("nano_status", JObj status); ("nano_diagnostics", JObj diagnostics); ("peer_stats", JStr peer_stats_line)]).

Definition matrix_report (a : matrix_args) : dict json :=
  [("status", JStr "failed"); ("board", JStr (t_board (m_target a))); ("address", JStr (t_address (m_target a)));
   ("device_id", JStr (t_device_id (m_target a))); ("peer_port", JStr (m_peer_port a)); ("seed", JInt (m_seed a));
   ("cases", JArr [])].

(** [report["cases"].append(result)] *)
Definition append_case (result : json) (r : dict json) : dict json :=
  match jget r "cases" with JArr l => dset r "cases" (JArr (l ++ [result])) | _ => r end.

(** The formats of the matrix with their byte counts, and their index. *)
Definition matrix_cases (a : matrix_args) : list (format * Z) :=
  (plain 300, m_boundary_bytes a) :: ((fun f => (f, m_format_bytes a)) <$> format_cases 57600)
  ++ [(plain 2000000, m_high_speed_bytes a)].

Definition case_seed (a : matrix_args) (index : Z) : Z := Z.land (m_seed a + index * 0x9e3779b9) 0xffffffff.

Definition numbered_cases (a : matrix_args) : list (Z * (format * Z)) :=
  zip (seqZ 0 (blen (matrix_cases a))) (matrix_cases a).

Definition matrix_case (fuel : nat) (a : matrix_args) (boot_id : json) (baseline : dict json) (last : json)
    (item : Z * (format * Z)) : rp json :=
  let '(index, (config, count)) := item in
  let seed := case_seed a index in
  put "active_case" (JObj [("config", JObj (config_of config)); ("bytes_each_direction", JInt count); ("seed", JInt seed)]);;
  result ← run_case fuel (m_target a) boot_id baseline config count seed;
  st_modify (set_report (append_case result));;
  st_modify (set_report (fun r => ddel r "active_case"));;
  mret result.

(** [report["cases"][-1]["nano_diagnostics"]] *)
Definition case_diagnostics (result : json) : json :=
  match result with JObj d => jget d "nano_diagnostics" | _ => JNull end.

Definition matrix_baseline (a : target) : rp (dict json * dict json) :=
  with_probe Observer a (fun observer =>
    _ ← st_pure (check_channel observer);
    put "nano_hello" (JObj (p_hello observer));;
    ' (baseline, observer) ← probe_command Observer observer "device.diagnostics" None [];
    put "baseline_diagnostics" (JObj baseline);;
    dev Observer (finish observer);;
    mret (p_hello observer, baseline)).

Definition matrix_body (fuel : nat) (a : matrix_args) : rp unit :=
  with_peer (m_peer_port a) (t_timeout (m_target a)) (
    identity ← identify_peer;
    put "peer_identity" (JStr identity);;
    refused ← check_peer_invalid_configurations;
    put "peer_invalid_rejections" (JInt refused);;
    ' (hello, baseline) ← matrix_baseline (m_target a);
    boot_id ← st_pure (ditem hello "boot_id");
    refused ← check_nano_invalid_configurations (m_target a) boot_id baseline;
    put "nano_invalid_rejections" (JInt refused);;
    last ← st_fold (matrix_case fuel a boot_id baseline) JNull (numbered_cases a);
    put "final_diagnostics" (case_diagnostics last);;
    put "status" (JStr "passed")).

Definition matrix_run (fuel : nat) (a : matrix_args) : rp Z :=
  evidence (m_output a) (matrix_report a) (matrix_body fuel (matrix_options a)).
End Matrix.

(** ** Formats and the Pico's answers *)
Definition supported (f : format) : Prop :=
  300 <= f_baud f <= 2000000 /\ 5 <= f_data_bits f <= 8 /\ f_parity f ∈ parities /\ f_stop_bits f ∈ [1; 2].

Lemma elem_format_cases baud f : f ∈ format_cases baud <->
  f_baud f = baud /\ 5 <= f_data_bits f <= 8 /\ f_parity f ∈ parities /\ f_stop_bits f ∈ [1; 2].
Proof.
  unfold format_cases. rewrite list_elem_of_bind. setoid_rewrite list_elem_of_bind. setoid_rewrite list_elem_of_bind.
  setoid_rewrite list_elem_of_singleton. split.
  - intros (bits & (parity & (stops & -> & Hs) & Hp) & Hb). simpl. split_and!; [done| | |done|done];
      rewrite !elem_of_cons, elem_of_nil in Hb; lia.
  - intros (<- & Hb & Hp & Hs). destruct f as [b bits parity stops]. simpl in *. exists bits. split; [|].
    + exists parity. split; [|done]. exists stops. done.
    + rewrite !elem_of_cons. assert (bits = 5 \/ bits = 6 \/ bits = 7 \/ bits = 8) as [->|[->|[->| ->]]] by lia; auto.
Qed.

Lemma supported_plain baud : 300 <= baud <= 2000000 -> supported (plain baud).
Proof. intros Hb. unfold supported. simpl. split_and!; try lia; left. Qed.

Lemma invalid_unless_raises {A} (m : result A) :
  raises (fun e => is_any [KKeyError; KValueError] e = true) m -> forall e, invalid_unless m = Raise e -> e = invalid_response.
Proof. intros Hm e. destruct m as [a|e']; cbn [invalid_unless]; [done|]. rewrite (Hm e' eq_refl). by intros [= <-]. Qed.

Lemma parse_peer_Ok line config : parse_peer_configuration line = Ok config ->
  supported (pc_format config) /\ 0 < pc_actual_baud config.
Proof.
  unfold parse_peer_configuration. intros (c & _ & H)%bind_Ok. apply raise_when_bind in H as [H Hr].
  apply (proj1 (mret_Ok _ _)) in Hr as ->. breflect. destruct H as [[[[H1 H2] H3] H4] H5]. unfold supported. lia || (split_and!; try done; lia).
Qed.

(** C28: An answer of the Pico is read as a configuration only when every field is there and well formed,
    in range: a supported format and a positive actual rate; anything else, a missing field included,
    raises RuntimeError and nothing else. The matrix covers each supported format at 57600 baud exactly
    once, in 24 cases, and the slowest and the fastest rate. *)
Theorem peer_configuration_typed :
  (forall line config, parse_peer_configuration line = Ok config -> supported (pc_format config) /\ 0 < pc_actual_baud config) /\
  (forall line e, parse_peer_configuration line = Raise e -> e = invalid_response) /\
  (forall f, supported f -> f_baud f = 57600 <-> f ∈ format_cases 57600) /\
  NoDup (format_cases 57600) /\ length (format_cases 57600) = 24%nat /\
  (forall a, Forall (fun '(f, _) => supported f) (matrix_cases a) /\ length (matrix_cases a) = 26%nat).
Proof.
  split_and!.
  - apply parse_peer_Ok.
  - intros line e. unfold parse_peer_configuration. intros [H|(c & _ & H)]%bind_Raise.
    + refine (invalid_unless_raises _ _ e H). unfold int_field, ditem, read_int. raises_tac.
    + destruct (_ || _) in H; [by injection H as <-|done].
  - intros f (_ & Hb & Hp & Hs). rewrite elem_format_cases. naive_solver.
  - apply (bool_decide_unpack _). vm_compute. exact I.
  - reflexivity.
  - intros a. split; [|reflexivity]. unfold matrix_cases. apply Forall_cons.
    split; [by apply supported_plain|]. apply Forall_app. split; [|constructor; [by apply supported_plain|constructor]].
    apply Forall_fmap, Forall_forall. intros f Hf. apply elem_format_cases in Hf as (Hf & ? & ? & ?). simpl. unfold supported.
    rewrite Hf. split_and!; [lia..|done|done].
Qed.

(** ** The stages of a matrix that passes *)
Section MatrixStages.
Context `{codec : !Json} (env : environment (bench_ret (R := dict json))) `{!Bench env}.

Abbreviation mstage := (@stage (bench_call (dict json))).

(** The Pico was told [text], and the next line that came from it is the refusal with this code. *)
Definition refused (before : bytes) (text code : string) (after : bytes) : mstage := fun h n =>
  exists k, n = tag Pico k /\ sent (view env h Pico) [] k = ascii (text +:+ PicoPort.line_feed) /\
    line_taken (before ++ received (view env h Pico) [] k) ("ERR " +:+ code) after.

Lemma peer_refused_reading b text code :
  reading env b (peer_command text (Some code)) (fun _ b' l => l = [refused b text code b']).
Proof.
  unfold peer_command. apply (peer_runs env Pico (fun b _ b' => refused b text code b')).
  intros s h k reply p' <- H. apply (command_Ok (view env h Pico)) in H as (He & [_ Hl] & ->).
  apply encode_ascii_Ok in He as [He _]. by exists k.
Qed.

Lemma configuration_now_reading b text :
  reading env b (peer_configuration_now text) (fun config b' l => exists line,
    parse_peer_configuration line = Ok config /\ l = [told env b text line b']).
Proof.
  unfold peer_configuration_now. eapply reading_bind; [apply (peer_command_reading env)|]. intros line b1 l1 ->.
  eapply reading_weaken; [apply reading_pure|]. intros config b2 l2 (Hp & -> & ->). by exists line.
Qed.

(** Another session of the boot [boot_id] saw the Nano's UART in exactly this configuration. *)
Definition seen (a : target) (boot_id : json) (f : format) (actual_baud : Z) (l : list mstage) : Prop :=
  exists observer channel config, l = [opened env Observer a observer] /\
    py_eq (jget (p_hello observer) "boot_id") boot_id = true /\ first_channel (p_hello observer) = Ok channel /\
    uart_line channel /\ dget channel "config" = Some (JObj config) /\
    py_eq (JObj config) (JObj (dset (config_of f) "actual_baud" (JInt actual_baud))) = true.

Lemma observe_staged a boot_id :
  staged env (observe_nano_configuration a boot_id) (fun config l => exists observer channel,
    l = [opened env Observer a observer] /\ py_eq (jget (p_hello observer) "boot_id") boot_id = true /\
    first_channel (p_hello observer) = Ok channel /\ uart_line channel /\ dget channel "config" = Some (JObj config)).
Proof.
  unfold observe_nano_configuration. apply (with_probe_staged env). intros observer _.
  staged_check Hb. staged_check Hc. staged_check Hf. staged_leave.
  eapply staged_weaken; [apply staged_ret|]. intros config l1 [-> ->].
  apply raise_when_Ok in Hb. unfold boot_id_differs in Hb. rewrite differs_false in Hb.
  apply check_channel_Ok in Hc as [Hc Hl]. apply channel_config_Ok in Hf. by eexists _, _.
Qed.

Lemma effective_Ok config requested actual_baud u : assert_effective_configuration config requested actual_baud = Ok u ->
  py_eq (JObj config) (JObj (dset (config_of requested) "actual_baud" (JInt actual_baud))) = true.
Proof. unfold assert_effective_configuration. by intros H%raise_when_Ok%negb_false_iff. Qed.

(** A session of the boot [boot_id], whose hello shows the UART as expected *)
Definition same_session (boot_id : json) (nano : probe) : Prop :=
  py_eq (jget (p_hello nano) "boot_id") boot_id = true /\ shows_uart nano.

Lemma take_uart_staged a boot_id message nano requested actual_baud :
  staged env (take_uart a boot_id message nano requested actual_baud) (fun _ l => exists value l1,
    same_session boot_id nano /\ seen a boot_id requested actual_baud l1 /\
    l = answered env Nano "serial.open" None (channel_1 (config_of requested)) value :: l1).
Proof.
  unfold take_uart. staged_check Hb. staged_check Hc. apply check_channel_Ok in Hc as [Hc Hl].
  eapply staged_bind; [apply (probe_command_staged env)|].
  intros [value nano'] l1 [-> _]. eapply staged_bind; [apply observe_staged|].
  intros config l2 (observer & channel & -> & H1 & H2 & H3 & H4). staged_check He.
  eapply staged_weaken; [apply staged_ret|]. intros nano'' l3 [-> ->].
  apply raise_when_Ok in Hb. unfold boot_id_differs in Hb. rewrite differs_false in Hb. apply effective_Ok in He.
  eexists value, _. split_and!; [by split; [|eexists]| |done]. by exists observer, channel, config.
Qed.

Lemma take_uart_reading b a boot_id message nano requested actual_baud :
  reading env b (take_uart a boot_id message nano requested actual_baud) (fun _ b' l => b' = b /\ exists value l1,
    same_session boot_id nano /\ seen a boot_id requested actual_baud l1 /\
    l = answered env Nano "serial.open" None (channel_1 (config_of requested)) value :: l1).
Proof.
  apply reading_untouched; [unfold take_uart, observe_nano_configuration; untouched_tac|apply take_uart_staged].
Qed.

(** The two transfers of a case, in the format's data bits. *)
Definition case_transfers (f : format) (count seed : Z) (b b' : bytes) (l : list mstage) : Prop :=
  exists out back r1 r2 e1 e2 b1 b2 b3, pattern count seed (f_data_bits f) = Ok out /\
    pattern count (flip_bits seed) (f_data_bits f) = Ok back /\ clean e1 /\ clean e2 /\
    l = [told env b ("EXPECT " +:+ str_int count +:+ " " +:+ str_int seed) r1 b1; nano_sent env out;
         reported env b1 "expect_done" e1 b2;
         told env b2 ("SEND " +:+ str_int count +:+ " " +:+ str_int (flip_bits seed)) r2 b3; nano_received env back;
         reported env b3 "send_done" e2 b'].

(** A case: both sides take the format, the transfers are exact, and every counter agrees. *)
Definition case_done (a : target) (boot_id : json) (baseline : dict json) (f : format) (count seed : Z)
    (b b' : bytes) (l : list mstage) : Prop :=
  exists line peer nano value r1 r2 status diagnostics stats b1 b2 b3 b4 l1 l2 l3,
    parse_peer_configuration line = Ok peer /\ pc_format peer = f /\ same_session boot_id nano /\
    seen a boot_id f (pc_actual_baud peer) l1 /\ case_transfers f count seed b3 b4 l2 /\
    counters_right status count /\ quiet diagnostics baseline stats count /\ uart_closed env l3 /\
    l = [told env b (configuration_command f) line b1; opened env Nano a nano;
         answered env Nano "serial.open" None (channel_1 (config_of f)) value] ++ l1 ++
        [told env b1 "CLEAR" r1 b2; told env b2 "MODE SINK" r2 b3] ++ l2 ++
        [answered env Nano "serial.status" None [("channel_id", JInt 1)] status;
         answered env Nano "device.diagnostics" None [] diagnostics; told env b4 "STATS" stats b'] ++ l3.

Lemma explain_reading {A} b message (m : bp A) (Q : A -> bytes -> list mstage -> Prop) :
  reading env b m Q -> reading env b (explain message m) Q.
Proof. intros Hm. apply reading_try; [done|]. intros e h s s' a n. unfold st_raise, st_pure. by intros [=]. Qed.

Lemma expect_event_reading b fuel timeout count :
  reading env b (explain "Nano-to-Pico transfer failed" (
      event ← peer_event fuel "expect_done" timeout; st_pure (require_peer_event event count)))
    (fun _ b' l => exists event, clean event /\ l = [reported env b "expect_done" event b']).
Proof.
  apply explain_reading. eapply reading_bind; [apply (peer_event_reading env)|]. intros event b1 l1 ->.
  eapply reading_weaken; [apply reading_pure|]. intros c b2 l2 (Hc & -> & ->). apply require_peer_event_Ok in Hc as [Hc _].
  by exists event.
Qed.

Lemma returned_reading b fuel timeout count nano : 0 <= count ->
  reading env b (explain "Pico-to-Nano transfer failed" (
      received ← dev Nano (receive_serial nano count);
      event ← peer_event fuel "send_done" timeout;
      _ ← st_pure (require_peer_event event count);
      mret received))
    (fun data b' l => exists event, clean event /\ l = [nano_received env data; reported env b "send_done" event b']).
Proof.
  intros Hn. apply explain_reading.
  eapply reading_bind; [apply reading_untouched; [apply untouched_dev|by apply (receive_serial_staged env)]|].
  intros data b1 l1 (-> & -> & _).
  eapply reading_bind; [apply (peer_event_reading env)|]. intros event b2 l2 ->. reading_check Hc.
  apply require_peer_event_Ok in Hc as [Hc _].
  eapply reading_weaken; [apply reading_ret|]. intros x b3 l3 (-> & -> & ->). by exists event.
Qed.

Lemma run_case_reading b fuel a boot_id baseline f count seed :
  reading env b (run_case fuel a boot_id baseline f count seed)
    (fun _ b' l => case_done a boot_id baseline f count seed b b' l).
Proof.
  unfold run_case. eapply reading_bind; [apply configuration_now_reading|]. intros peer b1 l1 (line & Hp & ->).
  reading_check Hf. apply raise_when_Ok in Hf. breflect. reading_leave.
  eapply reading_bind with (Q1 := fun _ b' l =>
    case_done a boot_id baseline f count seed b b' (told env b (configuration_command f) line b1 :: l)).
  2:{ intros [[status diagnostics] stats] b2 l2 H2. reading_leave.
      eapply reading_weaken; [apply reading_ret|]. intros result b3 l3 (_ & -> & ->). rewrite !app_nil_r. exact H2. }
  apply (reading_with_probe env). intros nano _.
  eapply reading_bind; [apply take_uart_reading|]. intros nano1 b0 l2 (-> & value & l2' & Hn & Hs & ->).
  eapply reading_bind; [apply (peer_command_reading env)|]. intros r1 b2 l3 ->.
  eapply reading_bind; [apply (peer_command_reading env)|]. intros r2 b3 l4 ->.
  reading_value out Hd. assert (Hc : 0 <= count) by (apply pattern_Ok in Hd; lia).
  eapply reading_bind; [apply (peer_command_reading env)|]. intros r3 b4 l5 ->.
  eapply reading_bind; [apply reading_untouched; [apply untouched_dev|apply (send_serial_staged env)]|].
  intros [] b0 l6 (-> & -> & _).
  eapply reading_bind; [apply expect_event_reading|]. intros ? b5 l7 (e1 & He1 & ->). reading_value back Hb.
  eapply reading_bind; [apply (peer_command_reading env)|]. intros r4 b6 l8 ->.
  eapply reading_bind; [by apply returned_reading|]. intros data b7 l9 (e2 & He2 & ->).
  reading_check Hm. assert (data = back) as ->.
  { case_bool_decide; [done|]. by apply bind_Ok in Hm as (? & _ & ?). }
  probe_reading. intros [status nano2] b0 l10 (-> & -> & _).
  reading_check Hw. apply raise_when_Ok, counters_wrong_false in Hw.
  probe_reading. intros [diagnostics nano3] b0 l11 (-> & -> & _).
  reading_check Hq. apply stable_diagnostics_Ok in Hq.
  eapply reading_bind; [apply (peer_command_reading env)|]. intros stats b8 l12 ->.
  reading_check Hx. apply raise_when_Ok, peer_counters_right in Hx as (? & ? & ? & ?).
  eapply reading_bind; [apply (close_uart_reading env)|]. intros ? b0 l13 (-> & Hcl).
  eapply reading_weaken; [apply reading_ret|]. intros ? b9 l14 (_ & -> & ->).
  eexists line, peer, nano, value, r1, r2, status, diagnostics, stats, b1, b2, b3, b7, l2', _, l13.
  split_and!; [done..| |done|by constructor|done|].
  - exists out, back, r3, r4, e1, e2, b4, b5, b6. split_and!; done.
  - simpl. by rewrite <- ?app_assoc, ?app_nil_r.
Qed.
End MatrixStages.

Section MatrixRun.
Context `{codec : !Json} (env : environment (bench_ret (R := dict json))) `{!Bench env}.

Abbreviation mstage := (@stage (bench_call (dict json))).

(** The Pico refused each of these commands with [invalid_config], and said before and after that its
    configuration is the same. *)
Definition pico_refused (b b' : bytes) (l : list mstage) : Prop :=
  exists before line b1 k, parse_peer_configuration line = Ok before /\
    chain (fun command c c' l => exists after c1, parse_peer_configuration after = Ok before /\
        l = [refused env c command "invalid_config" c1; told env c1 "STATS" after c'])
      b1 ["CONFIG 299 8 none 1"; "CONFIG 2000001 8 none 1"; "CONFIG 115200 4 none 1"; "CONFIG 115200 9 none 1";
          "CONFIG 115200 8 mark 1"; "CONFIG 115200 8 none 3"; "CONFIG 115200 8 none 1 extra"] b' k /\
    l = told env b "STATS" line b1 :: k.

Lemma pico_refused_reading b :
  reading env b check_peer_invalid_configurations (fun count b' l => count = 7 /\ pico_refused b b' l).
Proof.
  unfold check_peer_invalid_configurations. eapply reading_bind; [apply (configuration_now_reading env)|].
  intros before b1 l1 (line & Hp & ->). eapply reading_bind.
  { apply (reading_fold env) with (Q := fun command c c' k => exists after c1,
      parse_peer_configuration after = Ok before /\
      k = [refused env c command "invalid_config" c1; told env c1 "STATS" after c']).
    intros c [] command _. eapply reading_bind; [apply (peer_refused_reading env)|]. intros reply c1 l2 ->.
    eapply reading_bind; [apply (configuration_now_reading env)|]. intros config c2 l3 (after & Ha & ->).
    eapply reading_weaken; [apply reading_pure|]. intros u c3 l4 (Hu%raise_when_Ok & -> & ->). breflect. subst config.
    by exists after, c1. }
  intros ? b2 k Hk. eapply reading_weaken; [apply reading_ret|]. intros count b3 l3 (-> & -> & ->).
  split; [done|]. exists before, line, b1, k. rewrite app_nil_r. done.
Qed.

(** The Nano refused each of these configurations with [invalid_argument], with its UART at 115200 baud in the default
    format throughout, and counted no error since the baseline. *)
Definition nano_refused (a : target) (boot_id : json) (baseline : dict json) (b b' : bytes) (l : list mstage) : Prop :=
  exists line peer nano value reply diagnostics b1 l1 l2 ks, parse_peer_configuration line = Ok peer /\
    same_session boot_id nano /\ seen env a boot_id (plain 115200) (pc_actual_baud peer) l1 /\
    Forall2 (fun config k => exists error k', seen env a boot_id (plain 115200) (pc_actual_baud peer) k' /\
      k = answered env Nano "serial.configure" (Some "invalid_argument") (channel_1 config) error :: k')
      [uart_config 299 8 "none" 1; uart_config 2000001 8 "none" 1; uart_config 115200 4 "none" 1;
       uart_config 115200 9 "none" 1; uart_config 115200 8 "mark" 1; uart_config 115200 8 "none" 3;
       dset (uart_config 115200 8 "none" 1) "flow_control" (JStr "rts_cts")] ks /\
    steady diagnostics baseline /\ uart_closed env l2 /\
    l = [told env b (configuration_command (plain 115200)) line b1; opened env Nano a nano;
         answered env Nano "serial.open" None (channel_1 (config_of (plain 115200))) value] ++ l1 ++
        [told env b1 "CLEAR" reply b'] ++ concat ks ++
        answered env Nano "device.diagnostics" None [] diagnostics :: l2.

Lemma refuse_staged a boot_id requested actual_baud nano config :
  staged env (refuse_configuration a boot_id requested actual_baud nano config) (fun _ k => True /\
    exists error k', seen env a boot_id requested actual_baud k' /\
      k = answered env Nano "serial.configure" (Some "invalid_argument") (channel_1 config) error :: k').
Proof.
  unfold refuse_configuration. eapply staged_bind; [apply (probe_command_staged env)|]. intros [error nano'] l1 [-> _].
  eapply staged_bind; [apply (observe_staged env)|]. intros actual l2 (observer & channel & -> & H1 & H2 & H3 & H4).
  staged_check He. apply effective_Ok in He. eapply staged_weaken; [apply staged_ret|]. intros n l3 [-> ->].
  split; [done|]. eexists error, _. split; [|done]. by exists observer, channel, actual.
Qed.

Lemma nano_refused_reading b a boot_id baseline :
  reading env b (check_nano_invalid_configurations a boot_id baseline)
    (fun count b' l => count = 7 /\ nano_refused a boot_id baseline b b' l).
Proof.
  unfold check_nano_invalid_configurations. eapply reading_bind; [apply (configuration_now_reading env)|].
  intros peer b1 l1 (line & Hp & ->). apply (reading_with_probe env). intros nano _.
  eapply reading_bind; [apply (take_uart_reading env)|]. intros nano1 b0 l2 (-> & value & l2' & Hn & Hs & ->).
  eapply reading_bind; [apply (peer_command_reading env)|]. intros reply b2 l3 ->.
  eapply reading_bind.
  { apply reading_untouched; [unfold refuse_configuration, observe_nano_configuration; untouched_tac|].
    apply (staged_fold env _ (fun _ => True)); [done|]; intros; apply refuse_staged. }
  intros nano2 b0 l4 (-> & _ & ks & Hk & ->).
  probe_reading. intros [diagnostics nano3] b0 l5 (-> & -> & _). reading_check Hd. apply stable_diagnostics_Ok in Hd.
  eapply reading_bind; [apply (close_uart_reading env)|].
  intros ? b0 l6 (-> & Hc). eapply reading_weaken; [apply reading_ret|]. intros ? b3 l7 (-> & -> & ->).
  split; [done|]. exists line, peer, nano, value, reply, diagnostics, b1, l2', l6, ks. split_and!; [done..|].
  simpl. by rewrite <- ?app_assoc, ?app_nil_r.
Qed.

(** The stages of a matrix that passes: the refusals, the baseline, and then every case in order. *)
Definition passing_matrix (a : matrix_args) (l : list mstage) : Prop :=
  exists identity observer boot_id baseline b1 b2 b3 b4 l1 l2 l3,
    dget (fields identity) "peer" = Some PEER_VERSION /\ shows_uart observer /\
    dget (p_hello observer) "boot_id" = Some boot_id /\
    pico_refused b1 b2 l1 /\ nano_refused (m_target a) boot_id baseline b2 b3 l2 /\
    chain (fun '(index, (f, count)) => case_done env (m_target a) boot_id baseline f count (case_seed a index))
      b3 (numbered_cases a) b4 l3 /\
    l = [told env [] "PING" identity b1] ++ l1 ++
        [opened env Observer (m_target a) observer; answered env Observer "device.diagnostics" None [] baseline]
        ++ l2 ++ l3.

Lemma matrix_baseline_staged a : staged env (matrix_baseline a) (fun '(hello, baseline) l => exists observer,
  hello = p_hello observer /\ shows_uart observer /\
  l = [opened env Observer a observer; answered env Observer "device.diagnostics" None [] baseline]).
Proof.
  unfold matrix_baseline. apply (with_probe_staged env). intros observer _. staged_check Hc.
  apply check_channel_Ok in Hc as [Hc Hl]. staged_leave.
  eapply staged_bind; [apply (probe_command_staged env)|]. intros [baseline p] l1 [-> Hh]. staged_leave. staged_leave.
  eapply staged_weaken; [apply staged_ret|]. intros [hello b] l2 [[= -> ->] ->]. exists observer.
  split_and!; [done|by eexists|done].
Qed.

Lemma matrix_case_reading b fuel a boot_id baseline last index f count :
  reading env b (matrix_case fuel a boot_id baseline last (index, (f, count)))
    (fun _ b' l => case_done env (m_target a) boot_id baseline f count (case_seed a index) b b' l).
Proof.
  unfold matrix_case. reading_leave. eapply reading_bind; [apply (run_case_reading env)|]. intros result b1 l1 H1.
  reading_leave. reading_leave. eapply reading_weaken; [apply reading_ret|]. intros r b2 l2 (_ & -> & ->).
  by rewrite !app_nil_r.
Qed.

Lemma matrix_run_staged fuel a : staged env (matrix_run fuel a) (fun _ => passing_matrix (matrix_options a)).
Proof.
  unfold matrix_run. set (a' := matrix_options a). clearbody a'. apply evidence_staged. unfold matrix_body.
  eapply staged_weaken.
  { apply staged_with_peer with (Q := fun _ _ => passing_matrix a').
    eapply reading_bind; [apply (identify_peer_reading env)|]. intros identity b1 l1 [Hid ->]. reading_leave.
    eapply reading_bind; [apply pico_refused_reading|]. intros refused b2 l2 [_ H2]. reading_leave.
    eapply reading_bind; [apply reading_untouched; [unfold matrix_baseline; untouched_tac|apply matrix_baseline_staged]|].
    intros [hello baseline] b0 l3 (-> & observer & -> & Hu & ->).
    reading_value boot_id Hb. apply some_or_Ok in Hb.
    eapply reading_bind; [apply nano_refused_reading|]. intros refused2 b3 l4 [_ H4]. reading_leave.
    eapply reading_bind.
    { apply (reading_fold env) with (Q := fun '(index, (f, count)) =>
        case_done env (m_target a') boot_id baseline f count (case_seed a' index)).
      intros b last [index [f count]] _. apply matrix_case_reading. }
    intros last b4 l5 Hk. reading_leave. eapply reading_weaken; [apply reading_skip; untouched_tac|]. intros ? b5 l6 [_ ->].
    rewrite !app_nil_r. exists identity, observer, boot_id, baseline, b1, b2, b3, b4, l2, l4, l5. split_and!; done. }
  by intros ? l [_ H].
Qed.

Lemma reports_case result : reports env unrecorded (st_modify (set_report (append_case result))).
Proof.
  apply keeps_modify. intros s _ Hs. unfold unrecorded in *. simpl. unfold append_case.
  destruct (jget _ _); try done. rewrite dget_dset. by rewrite decide_False.
Qed.

Lemma reports_done : reports env unrecorded (st_modify (set_report (fun r => ddel r "active_case"))).
Proof. apply keeps_modify. intros s _ Hs. unfold unrecorded in *. simpl. by rewrite dget_ddel_other. Qed.

Lemma reports_fold {X Y} (f : X -> Y -> bp (R := dict json) X) x l :
  (forall x y, reports env unrecorded (f x y)) -> reports env unrecorded (st_fold f x l).
Proof.
  intros Hf. revert x. induction l as [|y l IH]; intros x; cbn [st_fold]; [apply reports_pure|].
  apply reports_bind; [apply Hf|]. intros x'. apply IH.
Qed.

Lemma matrix_body_reports fuel a : reports env unrecorded (matrix_body fuel a).
Proof.
  assert (Hc : forall text, reports env unrecorded (peer_configuration_now text)).
  { intros text. unfold peer_configuration_now. reports_tac. }
  assert (Ho : forall a boot_id, reports env unrecorded (observe_nano_configuration a boot_id)).
  { intros. unfold observe_nano_configuration. reports_tac. }
  unfold matrix_body, check_peer_invalid_configurations, matrix_baseline, check_nano_invalid_configurations, take_uart.
  repeat first [reports_step | apply Hc | apply Ho | apply reports_fold; intros ? ? | by apply reports_put]; cbn beta iota.
  - unfold refuse_configuration. repeat first [reports_step | apply Ho].
  - unfold matrix_case, run_case, take_uart, explain, st_raise.
    repeat first [reports_step | apply Hc | apply Ho | by apply reports_put | apply reports_case | apply reports_done].
Qed.

Lemma matrix_body_passes fuel a : leaves env (fun r => dget r "status" = Some (JStr "passed")) (matrix_body fuel a).
Proof.
  unfold matrix_body. apply leaves_with_peer. repeat (apply leaves_bind; intros ?).
  case_match. repeat (apply leaves_bind; intros ?). apply leaves_put.
Qed.
End MatrixRun.

(** C27: A format matrix that returns saved, as its last act, a report that says it passed and has no
    error; one that raises saved a report with that error, unless the report existed before, its
    directory could not be made, or saving itself failed. A matrix that passes has seen, in this order:
    the Pico identified; each of the seven wrong configurations refused by the Pico, with the line
    [ERR invalid_config] and nothing else, and its own configuration the same before and after each; the
    baseline read; each of the seven wrong configurations refused by the Nano with [invalid_argument],
    and its UART in the same format for a second session of the same boot after each, with no error
    counted; and for each of the 26 formats with its own seed, both sides in that format, exactly the two
    patterns of its data bits carried, one each way, every counter right, no error counted since the
    baseline, and the channel closed. Every line and event of the Pico is the next one of the bytes received from it since
    the first command; every hello and answer of the Nano is the frame received. *)
Theorem matrix_outcome `{codec : !Json} env fuel a s s' r n `{!Bench env} :
  matrix_run fuel a env [] s = (s', r, n) ->
  saved_report env (m_output a) r n /\
  (r = Ok 0 -> exists l, passing_matrix env (matrix_options a) l /\ stages [] n l).
Proof.
  intros H. split.
  - refine (evidence_saved env _ (matrix_report a) (matrix_body fuel (matrix_options a)) eq_refl _ _ s s' r n H);
      [apply matrix_body_reports|apply matrix_body_passes].
  - intros ->. exact (matrix_run_staged env fuel a [] s s' 0 n H).
Qed.

(** ** The theorem on a concrete bench

    The Pico and the Nano of this bench know each other's last words: every answer is a function of the
    latest commands. *)
Module MatrixDemo.
Abbreviation history := (list (bench_call (dict json))).

(** Searches go back from the latest call. *)
Fixpoint latest {A} (f : bench_call (dict json) -> option A) (back : history) : option A :=
  match back with [] => None | c :: back => match f c with Some a => Some a | None => latest f back end end.

Definition said (f : list string -> option (list string)) (c : bench_call (dict json)) : option (list string) :=
  match c with Dev Pico (Send d) => f (words (text d)) | _ => None end.

Definition valid_config (l : list string) : option (list string) :=
  match l with
  | ["CONFIG"; baud; bits; parity; stops] =>
      match read_int baud, read_int bits, read_int stops with
      | Ok b, Ok d, Ok s =>
          if (300 <=? b) && (b <=? 2000000) && (5 <=? d) && (d <=? 8) && bool_decide (parity ∈ parities) && (s <=? 2)
          then Some [baud; bits; parity; stops] else None
      | _, _, _ => None
      end
  | _ => None
  end.

Definition expected (l : list string) : option (list string) :=
  match l with ["EXPECT"; count; seed] => Some [count; seed] | _ => None end.

Definition current (back : history) : list string := default ["115200"; "8"; "none"; "1"] (latest (said valid_config) back).
Definition transfer (back : history) : list string := default ["0"; "0"] (latest (said expected) back).

Definition config_text (l : list string) : string :=
  match l with
  | [baud; bits; parity; stops] =>
      "baud=" +:+ baud +:+ " actual_baud=" +:+ baud +:+ " data_bits=" +:+ bits +:+ " parity=" +:+ parity +:+ " stop_bits=" +:+ stops
  | _ => ""
  end.

Definition pico_reply (back : history) (d : bytes) : bytes :=
  let l := words (text d) in
  match l with
  | ["PING"] => Demo.line "OK peer=pico-uart-peer-v2"
  | "CONFIG" :: _ =>
      match valid_config l with Some c => Demo.line ("OK " +:+ config_text c) | None => Demo.line "ERR invalid_config" end
  | ["EXPECT"; _; _] => Demo.line "OK" ++ Demo.fault_free "expect_done"
  | ["SEND"; _; _] => Demo.line "OK" ++ Demo.fault_free "send_done"
  | ["STATS"] =>
      let count := default "0" (head (transfer back)) in
      Demo.line ("OK " +:+ config_text (current back) +:+ " rx=" +:+ count +:+ " tx=" +:+ count +:+ " overruns=0 mismatches=0")
  | _ => Demo.line "OK"
  end.

Definition number (s : string) : Z := match read_int s with Ok z => z | Raise _ => 0 end.

Definition nano_reply (back : history) (d : bytes) : bytes :=
  if slice 5 6 d is [Byte.x03] then
    match transfer back, current back with
    | [count; seed], [_; bits; _; _] =>
        data_frame (pattern_from (Z.to_nat (number count)) (flip_bits (number seed)) (2 ^ number bits - 1))
    | _, _ => []
    end
  else
    match words (text (drop 16 d)) with
    | ["hello"] => Demo.respond d ("hello " +:+ String.concat " " (current back))
    | ["serial.status"] => Demo.respond d ("serial.status " +:+ default "0" (head (transfer back)))
    | ["serial.configure"] => Demo.respond d "refused"
    | _ => Demo.respond d ""
    end.

Definition hello (baud bits : Z) (parity : string) (stops : Z) : dict json :=
  match Demo.hello baud baud with
  | d => dset d "channels" (JArr [JObj [("id", JInt 1); ("backend", JStr "uart"); ("controls", JArr []);
      ("rx_queue", JInt 256); ("tx_queue", JInt 256);
      ("configurable", JArr [JStr "baud"; JStr "data_bits"; JStr "parity"; JStr "stop_bits"]);
      ("baud_min", JInt 300); ("baud_max", JInt 2000000);
      ("config", JObj (dset (uart_config baud bits parity stops) "actual_baud" (JInt baud)))]])
  end.

#[local] Instance codec : Json := {
  json_loads b :=
    match words (text b) with
    | ["hello"; baud; bits; parity; stops] => Demo.ok (hello (number baud) (number bits) parity (number stops))
    | ["serial.status"; count] => Demo.ok (Demo.status (number count))
    | ["refused"] => Ok (JObj [("ok", JBool false); ("error", JObj [("code", JStr "invalid_argument")])])
    | _ => Demo.ok []
    end;
  json_dumps d := match dget d "op" with Some (JStr op) => ascii op | _ => [] end }.

(** What device [d] has ready: its answer to the latest message, less what was read since. *)
Fixpoint ready (d : device) (back : history) (taken : Z) : bytes :=
  match back with
  | [] => []
  | Dev d' (Recv n) :: back => ready d back (if decide (d' = d) then taken + n else taken)
  | Dev d' (Send m) :: back | Dev d' (SendAll m) :: back =>
      if decide (d' = d) then drop (Z.to_nat taken) (if decide (d = Pico) then pico_reply back m else nano_reply back m)
      else ready d back taken
  | _ :: back => ready d back taken
  end.

Definition bench_run : environment (bench_ret (R := dict json)) := fun h c =>
  match c with
  | Dev d c =>
      let pending := ready d (rev_append h []) 0 in
      match c with
      | Monotonic => Ok (Z.of_nat (length h))
      | Recv n => if n <? 0 then Raise (ValueError "negative buffersize in recv") else Ok (take (Z.to_nat n) pending)
      | Send m => Ok (blen m)
      | Select _ _ _ => Ok (negb (bool_decide (pending = [])), true)
      | Fileno => Ok 3
      | Flushed _ => Ok 0
      | Connect _ _ _ | OpenSerial _ | SetTimeout _ | SetBlocking _ | SendAll _ | ShutdownWrite | CloseSocket | Pause _ => Ok tt
      end
  | OutputExists _ => Ok false
  | UtcTime => Ok ""
  | CreateNew _ | MakeParent _ | SaveReport _ _ => Ok tt
  end.

#[local] Instance bench_run_bench : Bench bench_run.
Proof.
  constructor. intros h d. constructor; unfold view; cbn [bench_run]; intros k.
  - intros n b. destruct (Z.ltb_spec n 0); [done|]. intros [= <-]. unfold blen. rewrite length_take. lia.
  - intros m n [= <-]. pose proof (blen_nonneg m). lia.
  - intros c e. destruct c; try done. destruct (_ <? 0); [|done]. by intros [= <-].
Qed.

Definition a : matrix_args := {|
  m_target := {| t_address := "192.168.7.1"; t_device_id := "503533303030ABCD"; t_board := "nano_rp2040_connect";
                 t_port := 7420; t_version := "0.3.0"; t_backend := "uart"; t_timeout := 9000; t_targets := [] |};
  m_peer_port := "/dev/cu.usbmodem1"; m_format_bytes := 1; m_boundary_bytes := 2; m_high_speed_bytes := 1;
  m_seed := 7; m_output := "matrix.json" |}.

Definition first : bench (dict json) := {| b_peer := b_peer Demo.first; b_report := [] |}.
Definition program : bp (R := dict json) Z := matrix_run 3 a.
End MatrixDemo.
#[local] Existing Instances MatrixDemo.codec MatrixDemo.bench_run_bench.

Lemma matrix_outcome_witness : exists s' n,
  MatrixDemo.program MatrixDemo.bench_run [] MatrixDemo.first = (s', Ok 0, n) /\
  exists l, passing_matrix MatrixDemo.bench_run (matrix_options MatrixDemo.a) l /\ stages [] n l.
Proof.
  assert (H : (MatrixDemo.program MatrixDemo.bench_run [] MatrixDemo.first).1.2 = Ok 0) by (vm_compute; reflexivity).
  destruct (MatrixDemo.program MatrixDemo.bench_run [] MatrixDemo.first) as [[s' r] n] eqn:E. cbn in H. subst r.
  exists s', n. split; [reflexivity|].
  destruct (matrix_outcome MatrixDemo.bench_run 3 MatrixDemo.a MatrixDemo.first s' (Ok 0) n E) as [_ Hp].
  exact (Hp eq_refl).
Defined.
