(* ===== verification/BenchSmoke.v ===== *)
(** * The smoke tests with two sessions: tools/session_smoke.py and tools/uart_smoke.py, [smoke]

    An owner takes the channel, a second session of the same boot is refused it, exact bytes are echoed,
    the counters are checked, and ownership is handed over. The owner is the bench's [Nano], the second
    session its [Observer]. *)

From stdpp Require Import base tactics list list_numbers strings.
From Stdlib Require Import ZArith Lia.
From S2P Require Import Prelude.
From S2P Require Import PyBytes.
From S2P Require Import PyText.
From S2P Require Import PyDict.
From S2P Require Import PyJson.
From S2P Require Import Effects.
From S2P Require Import Stateful.
From S2P Require Import Stages.
From S2P Require Import UartSmoke.
From S2P Require Import Sockets.
From S2P Require Import SessionSmoke.
From S2P Require Import Bench.
From S2P Require Import PicoPeer.
From S2P Require Import UartPeer.

Local Open Scope Z_scope.

(** [Probe(address, device_id, board, port, ...)] with its default timeout *)
Definition session_target (address device_id board : string) (port : Z) (firmware_version backend : string) : target := {|
  t_address := address; t_device_id := device_id; t_board := board; t_port := port; t_version := firmware_version;
  t_backend := backend; t_timeout := 10 * second; t_targets := [] |}.

Definition channel_only : dict json := [("channel_id", JInt 1)].
Definition default_read_delay : Z := 150000000.

Section Smokes.
Context `{codec : !Json} (randbytes : Z -> Z -> bytes) (fuel : nat).

Abbreviation sp A := (bp (R := unit) A).

Definition probe_echo (d : device) (p : probe) (byte_count : Z) (slow_read : bool) (seed : option Z) : sp echo_result :=
  dev d (echo randbytes fuel p byte_count slow_read seed default_read_delay).

Definition byte_counters_wrong (status : dict json) (count : Z) : bool :=
  differs status "backend_rx_bytes" (JInt count) || differs status "backend_tx_bytes" (JInt count).

(** session_smoke.py, the second session *)
Definition session_smoke_other (owner other : probe) : sp (echo_result * probe) :=
  st_pure (same_boot "boot ID changed between concurrent sessions" owner other);;
  ' (_, other) ← probe_command Observer other "serial.open" (Some "busy") channel_only;
  _ ← probe_echo Nano owner 16384 false None;
  _ ← probe_echo Nano owner 4096 true None;
  ' (status, owner) ← probe_command Nano owner "serial.status" None channel_only;
  st_pure (raise_when (byte_counters_wrong status 20480) (RuntimeError "unexpected backend byte counters"));;
  ' (_, owner) ← probe_command Nano owner "device.reset" (Some "unsupported") [("scope", JStr "device")];
  ' (_, owner) ← probe_command Nano owner "serial.close" None channel_only;
  ' (_, other) ← probe_command Observer other "serial.open" None channel_only;
  transferred ← probe_echo Observer other 4096 false None;
  ' (_, other) ← probe_command Observer other "serial.close" None channel_only;
  dev Observer (finish other);;
  mret (transferred, owner).

Definition session_smoke (address device_id board : string) (port : Z) (firmware_version : string) : sp Z :=
  let a := session_target address device_id board port firmware_version "application" in
  with_probe Nano a (fun owner =>
    ' (_, owner) ← probe_command Nano owner "serial.open" None channel_only;
    ' (_, owner) ← with_probe Observer a (session_smoke_other owner);
    dev Nano (finish owner));;
  with_probe Nano a (fun reconnected =>
    ' (_, reconnected) ← probe_command Nano reconnected "serial.open" None channel_only;
    _ ← probe_echo Nano reconnected 4096 false None;
    ' (_, reconnected) ← probe_command Nano reconnected "serial.close" None channel_only;
    dev Nano (finish reconnected));;
  mret 0.

(** uart_smoke.py *)
Definition changed : dict json := uart_config 57600 8 "none" 1.

Definition check_acknowledged (result : dict json) : Prelude.result unit :=
  for_each (fun '(key, value) => raise_when (differs result key value) (RuntimeError "UART configuration acknowledgement mismatch"))
    changed;;
  raise_when (match jget result "actual_baud" with JInt z => z <=? 0 | _ => true end) (RuntimeError "UART actual baud is invalid").

Definition check_no_loss (diagnostics : dict json) : result unit :=
  for_each (fun field => raise_when (negb (type_is_int (jget diagnostics field))) (RuntimeError "missing UART diagnostic"))
    ["uart_rx_overrun_events"; "uart_rx_lost_bytes_minimum"; "uart_tx_throttles"];;
  raise_when (truthy (jget diagnostics "uart_rx_overrun_events") || truthy (jget diagnostics "uart_rx_lost_bytes_minimum"))
    (RuntimeError "UART loopback overrun/loss reported").

Definition uart_smoke (address device_id board : string) (port : Z) (firmware_version : string) : sp Z :=
  let a := session_target address device_id board port firmware_version "uart" in
  with_probe Nano a (fun owner =>
    _ ← st_pure (check_channel owner);
    ' (_, owner) ← probe_command Nano owner "serial.open" None (channel_1 TEST_CONFIGURATION);
    with_probe Observer a (fun other =>
      st_pure (same_boot "boot ID changed between concurrent sessions" owner other);;
      _ ← probe_command Observer other "serial.open" (Some "busy") channel_only;
      mret tt);;
    _ ← probe_echo Nano owner 16384 false None;
    ' (result, owner) ← probe_command Nano owner "serial.configure" None (channel_1 changed);
    st_pure (check_acknowledged result);;
    _ ← probe_echo Nano owner 4096 true None;
    ' (status, owner) ← probe_command Nano owner "serial.status" None channel_only;
    st_pure (raise_when (byte_counters_wrong status 20480) (RuntimeError "unexpected UART byte counters"));;
    ' (diagnostics, owner) ← probe_command Nano owner "device.diagnostics" None [];
    st_pure (check_no_loss diagnostics);;
    ' (_, owner) ← probe_command Nano owner "serial.close" None channel_only;
    dev Nano (finish owner));;
  mret 0.
End Smokes.

(** ** What a passing smoke test leaves in the calls *)
Section SmokeStages.
Context `{codec : !Json} (randbytes : Z -> Z -> bytes) (fuel : nat).
Context (env : environment (bench_ret (R := unit))) `{!Bench env}.

Local Abbreviation staged := (staged (S := bench unit)).
Abbreviation sstage := (@stage (bench_call unit)).

(** The session of [d] sent and received exactly the echo pattern, or the seeded bytes. *)
Definition echoed (d : device) (seed : option Z) (byte_count : Z) : sstage := fun h n =>
  exists k chunks, n = tag d k /\
    sent (view env h d) [] k = concat (data_frame <$> pieces 2048 (echo_expected randbytes byte_count seed)) /\
    Forall carried chunks /\ received (view env h d) [] k = concat (data_frame <$> chunks) /\
    concat chunks = echo_expected randbytes byte_count seed.

Lemma probe_echo_staged d p byte_count slow_read seed :
  staged env (probe_echo randbytes fuel d p byte_count slow_read seed) (fun _ l => l = [echoed d seed byte_count] /\ True).
Proof.
  unfold probe_echo. apply (staged_dev env) with (Q := fun _ => echoed d seed byte_count). intros h k res H.
  destruct (session_echo_Ok (view env h d) _ _ _ _ _ _ _ [] _ _ H) as (_ & _ & _ & Hs & chunks & Hc & Hr & Hx).
  split; [|done]. by exists k, chunks.
Qed.

(** A request of [d] that succeeded, or failed with the expected code. *)
Definition asked (d : device) (op : string) (expected_error : option string) (fields : dict json) (Q : sstage) : Prop :=
  exists value, Q = answered env d op expected_error fields value.

(** What the second session did while the owner held the channel and after it let go. *)
Definition shared_channel (owner : probe) (l : list sstage) : Prop :=
  exists other busy status unsupported closed open2 closed2 a,
    py_eq (jget (p_hello other) "boot_id") (jget (p_hello owner) "boot_id") = true /\
    py_eq (jget status "backend_rx_bytes") (JInt 20480) = true /\ py_eq (jget status "backend_tx_bytes") (JInt 20480) = true /\
    l = [opened env Observer a other; answered env Observer "serial.open" (Some "busy") channel_only busy;
         echoed Nano None 16384; echoed Nano None 4096; answered env Nano "serial.status" None channel_only status;
         answered env Nano "device.reset" (Some "unsupported") [("scope", JStr "device")] unsupported;
         answered env Nano "serial.close" None channel_only closed;
         answered env Observer "serial.open" None channel_only open2; echoed Observer None 4096;
         answered env Observer "serial.close" None channel_only closed2].

Lemma byte_counters_right status count : byte_counters_wrong status count = false ->
  py_eq (jget status "backend_rx_bytes") (JInt count) = true /\ py_eq (jget status "backend_tx_bytes") (JInt count) = true.
Proof. unfold byte_counters_wrong. rewrite orb_false_iff, !differs_false. done. Qed.

Lemma shared_channel_staged a owner :
  staged env (with_probe Observer a (session_smoke_other randbytes fuel owner)) (fun _ => shared_channel owner).
Proof.
  apply (with_probe_staged env). intros other _. unfold session_smoke_other. staged_check Hb. apply same_boot_Ok in Hb.
  eapply staged_bind; [apply (probe_command_staged env)|]. intros [busy other1] l1 [-> _].
  eapply staged_bind; [apply probe_echo_staged|]. intros ? l2 [-> _].
  eapply staged_bind; [apply probe_echo_staged|]. intros ? l3 [-> _].
  eapply staged_bind; [apply (probe_command_staged env)|]. intros [status owner1] l4 [-> _].
  staged_check Hc. apply raise_when_Ok, byte_counters_right in Hc as [Hc1 Hc2].
  eapply staged_bind; [apply (probe_command_staged env)|]. intros [unsupported owner2] l5 [-> _].
  eapply staged_bind; [apply (probe_command_staged env)|]. intros [closed owner3] l6 [-> _].
  eapply staged_bind; [apply (probe_command_staged env)|]. intros [open2 other2] l7 [-> _].
  eapply staged_bind; [apply probe_echo_staged|]. intros ? l8 [-> _].
  eapply staged_bind; [apply (probe_command_staged env)|]. intros [closed2 other3] l9 [-> _].
  staged_leave. eapply staged_weaken; [apply staged_ret|]. intros ? l10 [_ ->].
  exists other, busy, status, unsupported, closed, open2, closed2, a. split_and!; done.
Qed.

(** The stages of the application smoke test. *)
Definition passing_session_smoke (a : target) (l : list sstage) : Prop :=
  exists owner open1 l1 again open2 closed2, shared_channel owner l1 /\
    l = [opened env Nano a owner; answered env Nano "serial.open" None channel_only open1] ++ l1 ++
        [opened env Nano a again; answered env Nano "serial.open" None channel_only open2; echoed Nano None 4096;
         answered env Nano "serial.close" None channel_only closed2].

Lemma shared_channel_hello owner owner' l : p_hello owner' = p_hello owner -> shared_channel owner' l -> shared_channel owner l.
Proof. intros E. unfold shared_channel. by rewrite E. Qed.

Theorem session_smoke_exact address device_id board port version s s' n :
  session_smoke randbytes fuel address device_id board port version env [] s = (s', Ok 0, n) ->
  exists l, passing_session_smoke (session_target address device_id board port version "application") l /\ stages [] n l.
Proof.
  set (a := session_target _ _ _ _ _ _). assert (H : staged env (session_smoke randbytes fuel address device_id board port version)
    (fun _ => passing_session_smoke a)); [|intros Hr; exact (H [] s s' 0 n Hr)].
  unfold session_smoke. fold a. eapply staged_bind with (Q1 := fun _ l => exists owner open1 l1, shared_channel owner l1 /\
    l = [opened env Nano a owner; answered env Nano "serial.open" None channel_only open1] ++ l1).
  { apply (with_probe_staged env). intros owner _. eapply staged_bind; [apply (probe_command_staged env)|].
    intros [open1 owner1] l1 [-> Hh]. eapply staged_bind; [apply shared_channel_staged|]. intros [res owner2] l2 H2.
    eapply staged_weaken; [apply staged_skip|]. intros ? l3 ->. exists owner, open1, l2. rewrite app_nil_r.
    split; [by eapply shared_channel_hello|done]. }
  intros ? l (owner & open1 & l1 & H1 & ->). eapply staged_bind with (Q1 := fun _ l => exists again open2 closed2,
    l = [opened env Nano a again; answered env Nano "serial.open" None channel_only open2; echoed Nano None 4096;
         answered env Nano "serial.close" None channel_only closed2]).
  { apply (with_probe_staged env). intros again _. eapply staged_bind; [apply (probe_command_staged env)|].
    intros [open2 p1] l2 [-> _]. eapply staged_bind; [apply probe_echo_staged|]. intros ? l3 [-> _].
    eapply staged_bind; [apply (probe_command_staged env)|]. intros [closed2 p2] l4 [-> _].
    eapply staged_weaken; [apply staged_skip|]. intros ? l5 ->. by exists again, open2, closed2. }
  intros ? l2 (again & open2 & closed2 & ->). eapply staged_weaken; [apply staged_ret|]. intros ? l3 [_ ->].
  exists owner, open1, l1, again, open2, closed2. split; [done|]. by rewrite <- ?app_assoc, ?app_nil_r.
Qed.

(** The stages of the UART smoke test. *)
Definition passing_uart_smoke (a : target) (l : list sstage) : Prop :=
  exists owner open1 other busy configured status diagnostics closed,
    py_eq (jget (p_hello other) "boot_id") (jget (p_hello owner) "boot_id") = true /\
    Forall (fun '(key, value) => py_eq (jget configured key) value = true) changed /\
    py_eq (jget status "backend_rx_bytes") (JInt 20480) = true /\ py_eq (jget status "backend_tx_bytes") (JInt 20480) = true /\
    (forall field, field ∈ ["uart_rx_overrun_events"; "uart_rx_lost_bytes_minimum"] -> dget diagnostics field = Some (JInt 0)) /\
    l = [opened env Nano a owner; answered env Nano "serial.open" None (channel_1 TEST_CONFIGURATION) open1;
         opened env Observer a other; answered env Observer "serial.open" (Some "busy") channel_only busy;
         echoed Nano None 16384; answered env Nano "serial.configure" None (channel_1 changed) configured;
         echoed Nano None 4096; answered env Nano "serial.status" None channel_only status;
         answered env Nano "device.diagnostics" None [] diagnostics;
         answered env Nano "serial.close" None channel_only closed].

Lemma check_acknowledged_Ok result u : check_acknowledged result = Ok u ->
  Forall (fun '(key, value) => py_eq (jget result key) value = true) changed.
Proof.
  unfold check_acknowledged. destruct u. rewrite bind_unit, for_each_Ok. intros [H _].
  eapply Forall_impl; [exact H|]. intros [key value] Hk. by apply raise_when_Ok, differs_false in Hk.
Qed.

Lemma check_no_loss_Ok diagnostics u : check_no_loss diagnostics = Ok u ->
  forall field, field ∈ ["uart_rx_overrun_events"; "uart_rx_lost_bytes_minimum"] -> dget diagnostics field = Some (JInt 0).
Proof.
  unfold check_no_loss. destruct u. rewrite bind_unit, for_each_Ok, !Forall_cons.
  intros [(H1%raise_when_Ok%negb_false_iff & H2%raise_when_Ok%negb_false_iff & _) H] field Hf.
  apply raise_when_Ok, orb_false_iff in H as [H3 H4].
  assert (Hz : forall v, type_is_int v = true -> truthy v = false -> v = JInt 0).
  { intros v [z ->]%type_is_int_spec Hz. simpl in Hz. apply negb_false_iff, Z.eqb_eq in Hz as ->. done. }
  rewrite !elem_of_cons, elem_of_nil in Hf. destruct Hf as [->|[->|[]]]; apply jget_some; auto; done.
Qed.

Lemma busy_staged a owner :
  staged env (with_probe Observer a (fun other =>
      st_pure (same_boot "boot ID changed between concurrent sessions" owner other);;
      _ ← probe_command Observer other "serial.open" (Some "busy") channel_only;
      mret tt)) (fun _ l => exists other busy,
    py_eq (jget (p_hello other) "boot_id") (jget (p_hello owner) "boot_id") = true /\
    l = [opened env Observer a other; answered env Observer "serial.open" (Some "busy") channel_only busy]).
Proof.
  apply (with_probe_staged env). intros other _. staged_check Hb. apply same_boot_Ok in Hb.
  eapply staged_bind; [apply (probe_command_staged env)|]. intros [busy other1] l1 [-> _].
  eapply staged_weaken; [apply staged_ret|]. intros ? l2 [_ ->]. by exists other, busy.
Qed.

Theorem uart_smoke_exact address device_id board port version s s' n :
  uart_smoke randbytes fuel address device_id board port version env [] s = (s', Ok 0, n) ->
  exists l, passing_uart_smoke (session_target address device_id board port version "uart") l /\ stages [] n l.
Proof.
  set (a := session_target _ _ _ _ _ _). assert (H : staged env (uart_smoke randbytes fuel address device_id board port version)
    (fun _ => passing_uart_smoke a)); [|intros Hr; exact (H [] s s' 0 n Hr)].
  unfold uart_smoke. fold a. eapply staged_bind with (Q1 := fun _ => passing_uart_smoke a).
  2:{ intros ? l H. eapply staged_weaken; [apply staged_ret|]. intros ? l3 [_ ->]. by rewrite app_nil_r. }
  apply (with_probe_staged env). intros owner _. staged_leave.
  eapply staged_bind; [apply (probe_command_staged env)|]. intros [open1 owner1] l1 [-> Hh].
  eapply staged_bind; [apply busy_staged|]. intros ? l2 (other & busy & Hb & ->). rewrite Hh in Hb.
  eapply staged_bind; [apply probe_echo_staged|]. intros ? l3 [-> _].
  eapply staged_bind; [apply (probe_command_staged env)|]. intros [configured owner2] l4 [-> _].
  staged_check Ha. apply check_acknowledged_Ok in Ha.
  eapply staged_bind; [apply probe_echo_staged|]. intros ? l5 [-> _].
  eapply staged_bind; [apply (probe_command_staged env)|]. intros [status owner3] l6 [-> _].
  staged_check Hc. apply raise_when_Ok, byte_counters_right in Hc as [Hc1 Hc2].
  eapply staged_bind; [apply (probe_command_staged env)|]. intros [diagnostics owner4] l7 [-> _].
  staged_value u Hd. pose proof (check_no_loss_Ok _ _ Hd) as Hd'.
  eapply staged_bind; [apply (probe_command_staged env)|]. intros [closed owner5] l8 [-> _].
  eapply staged_weaken; [apply staged_skip|]. intros ? l9 ->.
  exists owner, open1, other, busy, configured, status, diagnostics, closed. split_and!; done.
Qed.
End SmokeStages.
