(* ===== verification/Upload.v ===== *)
(** * One-shot managed uploads

    experiments/managed_sketch/inspect_hello.py reads one hello from a numeric address;
    experiments/managed_sketch/upload.py checks a capsule against its recorded build and sends it over
    the private upload port. *)

From stdpp Require Import base tactics list list_numbers strings.
From Stdlib Require Import ZArith Lia.
From S2P Require Import Prelude.
From S2P Require Import PyBytes.
From S2P Require Import Sha256.
From S2P Require Import PyText.
From S2P Require Import PyStr.
From S2P Require Import PyDict.
From S2P Require Import BuildComposite.
From S2P Require Import PyJson.
From S2P Require Import Effects.
From S2P Require Import Ipv4.
From S2P Require Import Sockets.
From S2P Require Import SessionSmoke.

Local Open Scope Z_scope.

(** ** inspect_hello.py *)
Definition hello_turn (count deadline : Z) (data : bytes) : sio bytes :=
  now ← ask Monotonic;
  io_when (deadline - now <=? 0) (TimeoutError "hello timed out after bytes");;
  _ ← ask (SetTimeout (deadline - now));
  chunk ← ask (Recv (count - blen data));
  io_when (bool_decide (chunk = [])) (RuntimeError "hello closed after bytes");;
  mret (data ++ chunk).

(** [exact] *)
Definition hello_exact (count deadline : Z) : sio bytes := read_all (hello_turn count deadline) count.

Definition quoted (s : string) : bytes := [Byte.x22] ++ ascii s ++ [Byte.x22].
Definition hello_payload : bytes := ascii "{" ++ quoted "op" ++ ascii ":" ++ quoted "hello" ++ ascii "}".

Section Hello.
Context `{codec : !Json}.

Definition read_hello (address : string) (timeout : Z) : sio (dict json) :=
  octets ← io_pure (IPv4Address address);
  io_when (is_multicast octets || is_unspecified octets || bool_decide (octets = [255; 255; 255; 255]))
    (ValueError "address must be a unicast IPv4 address");;
  io_when (negb ((second <=? timeout) && (timeout <=? 30 * second))) (ValueError "timeout must be 1..30 seconds");;
  now ← ask Monotonic;
  let deadline := now + timeout in
  header ← io_pure (pack BE HEADER (header_values 1 1 (blen hello_payload)));
  response ← with_connection (str_address octets) 7420 timeout
    (now ← ask Monotonic;
     _ ← ask (SetTimeout (Z.max 1000000 (deadline - now)));
     _ ← ask (SendAll (header ++ hello_payload));
     header ← hello_exact 16 deadline;
     ' (magic, (version, (kind, (flags, (request_id, (size, _)))))) ← io_pure (unpack_exact BE HEADER header);
     io_when (negb (bool_decide ((magic, version, kind, flags, request_id) = (ascii "FMGO", 1, 2, 0, 1))))
       (RuntimeError "unexpected FMGO hello response header");;
     io_when (4096 <? size) (RuntimeError "hello response exceeds the protocol payload limit");;
     data ← hello_exact size deadline;
     io_pure (json_loads data));
  match response with
  | JObj response =>
      match jget response "result" with
      | JObj value => if is_bool true (jget response "ok") then mret value else io_raise (RuntimeError "hello failed")
      | _ => io_raise (RuntimeError "hello failed")
      end
  | _ => io_raise (RuntimeError "hello failed")
  end.

(** [selected_hello]; [current_version] is the release version of the checkout. *)
Definition selected_hello (current_version address device_id : string) : sio (dict json) :=
  hello ← read_hello address (5 * second);
  io_when (negb (py_eq (jget hello "device_id") (JStr device_id))
      || negb (py_eq (jget hello "board_id") (JStr "nano_rp2040_connect"))
      || negb (py_eq (jget hello "firmware_version") (JStr (current_version +:+ "-m7exp3"))))
    (RuntimeError "unexpected board identity or resident version");;
  mret hello.
End Hello.

(** ** The recorded build *)

(** A read-only view of the checkout: [file] reads a path, [in_tree] says whether the resolved path is a
    file inside the repository. *)
Record checkout := { file : string -> result bytes; in_tree : string -> bool }.

Section Recorded.
Context `{codec : !Json}.

(** [json.loads(path.read_text())] *)
Definition read_report (c : checkout) (path : string) : result (dict json) :=
  data ← file c path; v ← json_loads data; as_dict v.

Definition check_source (c : checkout) (entry : string * json) : result unit :=
  let '(name, expected) := entry in
  raise_when (negb (in_tree c name)) (ValueError "source changed since build");;
  data ← file c name;
  raise_when (negb (py_eq (JStr (sha data)) expected)) (ValueError "source changed since build").

Definition check_sources (c : checkout) (report : dict json) : result unit :=
  sources ← as_dict (default (JObj []) (dget report "source_sha256"));
  for_each (check_source c) sources.

Definition verified_capsule (c : checkout) (resident module sketch expected_resident expected_capsule : string)
    : result bytes :=
  resident_report ← read_report c (resident +:+ "/report.json");
  module_report ← read_report c (module +:+ "/report.json");
  raise_when (negb (py_eq (jget resident_report "board") (JStr "nano_rp2040_connect")))
    (ValueError "resident report is for a different board");;
  raise_when (negb (py_eq (jget resident_report "status") (JStr "compile-tested experimental resident; not flashed")))
    (ValueError "unexpected resident report status");;
  raise_when (negb (py_eq (jget resident_report "uf2_sha256") (JStr expected_resident)))
    (ValueError "resident UF2 does not match the selected exact hash");;
  uf2 ← file c (resident +:+ "/artifacts/firmingo_managed_resident.ino.uf2");
  raise_when (negb (bool_decide (sha uf2 = expected_resident))) (ValueError "resident UF2 changed since its report");;
  elf ← file c (resident +:+ "/artifacts/firmingo_managed_resident.ino.elf");
  elf_sha256 ← ditem resident_report "elf_sha256";
  raise_when (negb (py_eq (JStr (sha elf)) elf_sha256)) (ValueError "resident ELF changed since its report");;
  raise_when (negb (py_eq (jget module_report "resident_elf_sha256") elf_sha256))
    (ValueError "capsule was built for a different resident ELF");;
  raise_when (negb (py_eq (jget module_report "board") (JStr "nano_rp2040_connect"))
      || negb (py_eq (jget module_report "sketch") (JStr sketch))
      || negb (py_eq (jget module_report "status") (JStr "compile-tested module only; no resident or hardware proof")))
    (ValueError "unexpected module report identity");;
  for_each (check_sources c) [resident_report; module_report];;
  capsule ← file c (module +:+ "/" +:+ sketch +:+ ".fms");
  raise_when (negb (bool_decide (sha capsule = expected_capsule))
      || negb (py_eq (jget module_report "capsule_sha256") (JStr expected_capsule)))
    (ValueError "capsule does not match the selected exact hash");;
  raise_when (negb ((256 <? blen capsule) && (blen capsule <=? 4096)))
    (ValueError "capsule exceeds the resident's 4 KiB proof stage");;
  checked_capsule capsule;;
  mret capsule.
End Recorded.

(** ** The private upload *)

(** [n.to_bytes(4, "little")] *)
Definition to_bytes_le4 (n : Z) : result bytes :=
  raise_when (2 ^ 32 <=? n) (OverflowError "int too big to convert");; mret (le_bytes 4 n).

Definition upload_header (capsule : bytes) (device_id : string) : result bytes :=
  size ← to_bytes_le4 (blen capsule);
  device ← encode_ascii device_id;
  let header := ascii "FMSU" ++ [z2b 1; z2b 0; z2b 0; z2b 0] ++ size ++ sha256 capsule ++ device in
  raise_when (negb (blen header =? 60)) (AssertionError "private upload header length changed");;
  mret header.

Definition send_piece (deadline : Z) (piece : bytes) : sio unit :=
  now ← ask Monotonic;
  io_when (deadline - now <=? 0) (TimeoutError "upload send deadline expired");;
  _ ← ask (SetTimeout (deadline - now));
  ask (SendAll piece).

Definition upload (address device_id : string) (capsule : bytes) (timeout : Z) (expected_response : bytes) : sio bytes :=
  header ← io_pure (upload_header capsule device_id);
  let frame := header ++ capsule ++ ascii "GO!!" in
  now ← ask Monotonic;
  let deadline := now + timeout in
  response ← with_connection address 7421 timeout
    (_ ← io_fold (fun _ offset => send_piece deadline (slice offset (offset + 128) frame)) tt (range 0 (blen frame) 128);
     _ ← ask ShutdownWrite;
     now ← ask Monotonic;
     io_when (deadline - now <=? 0) (TimeoutError "upload result deadline expired");;
     _ ← ask (SetTimeout (deadline - now));
     ask (Recv 1));
  io_when (negb (bool_decide (response = expected_response))) (RuntimeError "unexpected install response");;
  mret response.

(** ** What an accepted capsule is bound to *)
Section Accepted.
Context `{codec : !Json} (c : checkout).

(** Every source a report records is an unchanged file of the checkout. *)
Definition sources_unchanged (report : dict json) : Prop :=
  forall sources, dget report "source_sha256" = Some (JObj sources) ->
  forall name expected, (name, expected) ∈ sources ->
  in_tree c name = true /\ exists data, file c name = Ok data /\ expected = JStr (sha data).

Record bound_capsule (resident module sketch expected_resident expected_capsule : string) (capsule : bytes) : Prop := {
  bc_capsule : file c (module +:+ "/" +:+ sketch +:+ ".fms") = Ok capsule /\ sha capsule = expected_capsule /\
    256 < blen capsule <= 4096 /\ exists api, checked_capsule capsule = Ok api;
  bc_resident : exists uf2, file c (resident +:+ "/artifacts/firmingo_managed_resident.ino.uf2") = Ok uf2 /\
    sha uf2 = expected_resident;
  bc_reports : exists resident_report module_report elf,
    read_report c (resident +:+ "/report.json") = Ok resident_report /\
    read_report c (module +:+ "/report.json") = Ok module_report /\
    file c (resident +:+ "/artifacts/firmingo_managed_resident.ino.elf") = Ok elf /\
    dget resident_report "uf2_sha256" = Some (JStr expected_resident) /\
    dget resident_report "elf_sha256" = Some (JStr (sha elf)) /\
    dget module_report "resident_elf_sha256" = Some (JStr (sha elf)) /\
    dget module_report "sketch" = Some (JStr sketch) /\
    dget module_report "capsule_sha256" = Some (JStr expected_capsule) /\
    sources_unchanged resident_report /\ sources_unchanged module_report }.

Lemma check_sources_Ok report : check_sources c report = Ok tt -> sources_unchanged report.
Proof.
  unfold check_sources. intros (sources & Hs & Hf)%bind_Ok sources' Hd name expected Hin.
  rewrite Hd in Hs. simpl in Hs. injection Hs as <-. apply for_each_Ok in Hf. rewrite Forall_forall in Hf.
  apply Hf in Hin. unfold check_source in Hin. apply raise_when_bind in Hin as [Ht Hin].
  apply negb_false_iff in Ht. split; [done|]. apply bind_Ok in Hin as (data & Hr & He).
  exists data. split; [done|]. apply raise_when_Ok, negb_false_iff in He. destruct expected; try done.
  simpl in He. by apply bool_decide_eq_true in He as ->.
Qed.

Lemma verified_capsule_Ok resident module sketch expected_resident expected_capsule capsule :
  verified_capsule c resident module sketch expected_resident expected_capsule = Ok capsule ->
  bound_capsule resident module sketch expected_resident expected_capsule capsule.
Proof.
  unfold verified_capsule. intros (rr & Hrr & H)%bind_Ok. apply bind_Ok in H as (mr & Hmr & H).
  rewrite !raise_when_bind in H. destruct H as (_ & _ & H1 & (uf2 & Hu & H)%bind_Ok).
  apply raise_when_bind in H as [H2 H]. apply bind_Ok in H as (elf & He & H).
  apply bind_Ok in H as (es & Hes & H). rewrite !raise_when_bind in H. destruct H as (H3 & H4 & H5 & H).
  apply bind_unit in H as [Hsrc H]. apply for_each_2 in Hsrc as [Hs1 Hs2].
  apply bind_Ok in H as (cap & Hc & H). rewrite !raise_when_bind in H. destruct H as (H6 & H7 & H).
  apply bind_Ok in H as (api & Ha & [= <-]). apply some_or_Ok in Hes.
  rewrite !orb_false_iff, !negb_false_iff in *. destruct H5 as [[_ H5] _]. destruct H6 as [H6 H6'].
  apply bool_decide_eq_true in H2, H6. apply py_eq_str_l in H3 as ->. rewrite andb_true_iff, Z.ltb_lt, Z.leb_le in H7.
  constructor.
  - by eauto 6.
  - by eauto.
  - exists rr, mr, elf. split_and!; try done; try (by apply dget_str); by apply check_sources_Ok.
Qed.
End Accepted.

(** ** What goes over the wire *)
Section Wire.
Context (env : environment sock_ret).

Lemma install_pieces_Ok deadline frame l h u n :
  runs env h (io_fold (fun _ offset => send_piece deadline (slice offset (offset + 128) frame)) tt l) (Ok u) n ->
  sent env h n = concat ((fun offset => slice offset (offset + 128) frame) <$> l) /\ received env h n = [].
Proof.
  revert h n. induction l as [|offset l IH]; intros h n; cbn [io_fold]; [by intros [_ ->]%runs_pure|].
  intros ([] & n1 & n2 & H1 & H2 & ->)%runs_bind_Ok. apply IH in H2 as [Hs Hr].
  unfold send_piece in H1. apply runs_bind_Ok in H1 as (now & m1 & m2 & H & H1 & ->).
  apply (runs_ask env _ Monotonic) in H as [_ ->].
  apply runs_bind_Ok in H1 as ([] & m1 & m3 & [_ ->]%runs_pure & H1 & ->).
  apply runs_bind_Ok in H1 as (u' & m1 & m4 & H & H1 & ->). apply (runs_ask env _ (SetTimeout _)) in H as [_ ->].
  apply (runs_ask env _ (SendAll _)) in H1 as [H1 ->].
  rewrite sent_app, received_app, Hs, Hr, fmap_cons. unfold sent, received. calls_norm.
  cbn [stream sent_by received_by concat]. calls_norm. by rewrite <- H1.
Qed.

Lemma upload_Ok address device_id capsule timeout expected_response h response n :
  runs env h (upload address device_id capsule timeout expected_response) (Ok response) n ->
  response = expected_response /\ received env h n = expected_response /\
  exists header, upload_header capsule device_id = Ok header /\ sent env h n = header ++ capsule ++ ascii "GO!!".
Proof.
  unfold upload. intros (header & n1 & n2 & [Hh ->]%runs_pure & H & ->)%runs_bind_Ok.
  set (frame := header ++ _) in H. rewrite app_nil_r in H.
  apply runs_bind_Ok in H as (now & n1 & n3 & H1 & H & ->). apply (runs_ask env _ Monotonic) in H1 as [_ ->].
  apply runs_bind_Ok in H as (r & n1 & n4 & H1 & H & ->).
  apply runs_bind_Ok in H as ([] & m1 & m2 & [Hr ->]%runs_pure & [[= ->] ->]%runs_ret & ->).
  symmetry in Hr. apply raise_when_Ok, negb_false_iff, bool_decide_eq_true in Hr.
  apply with_connection_Ok in H1 as (k & -> & H1).
  apply runs_bind_Ok in H1 as (u & k1 & k2 & H2 & H1 & ->). apply install_pieces_Ok in H2 as [Hs1 Hr1].
  apply runs_bind_Ok in H1 as (u2 & k3 & k4 & H2 & H1 & ->). apply (runs_ask env _ ShutdownWrite) in H2 as [_ ->].
  apply runs_bind_Ok in H1 as (now2 & k3 & k5 & H2 & H1 & ->). apply (runs_ask env _ Monotonic) in H2 as [_ ->].
  apply runs_bind_Ok in H1 as ([] & k3 & k6 & [_ ->]%runs_pure & H1 & ->).
  apply runs_bind_Ok in H1 as (u3 & k3 & k7 & H2 & H1 & ->). apply (runs_ask env _ (SetTimeout _)) in H2 as [_ ->].
  apply (runs_ask env _ (Recv 1)) in H1 as [H1 ->]. split; [done|].
  change ((fun offset => slice offset (offset + 128) frame) <$> range 0 (blen frame) 128) with (pieces 128 frame) in Hs1.
  rewrite pieces_concat in Hs1 by lia. symmetry in H1. calls_norm.
  set (conn := Connect _ _ _) in *. set (st := SetTimeout _) in *.
  destruct (streams_between env h [Monotonic; conn] (k1 ++ [ShutdownWrite; Monotonic; st; Recv 1]) [CloseSocket]) as [E1 E2];
    [by repeat constructor..|]. calls_norm. rewrite E1, E2. rewrite sent_app, received_app, Hs1, Hr1.
  unfold sent, received. cbn [stream]. cbn [sent_by received_by st]. calls_norm. rewrite H1, Hr. eauto.
Qed.
End Wire.

Lemma upload_header_Ok capsule device_id header : upload_header capsule device_id = Ok header ->
  header = ascii "FMSU" ++ [z2b 1; z2b 0; z2b 0; z2b 0] ++ le_bytes 4 (blen capsule) ++ sha256 capsule ++ ascii device_id /\
  String.length device_id = 16%nat /\ blen capsule < 2 ^ 32.
Proof.
  unfold upload_header. intros (size & Hs & H)%bind_Ok. apply bind_Ok in H as (device & Hd & H).
  apply raise_when_bind in Hs as [Hl [= <-]]. apply raise_when_bind in Hd as [_ [= <-]].
  apply raise_when_bind in H as [Hb Hh]. apply mret_Ok in Hh as <-. apply Z.leb_gt in Hl.
  apply negb_false_iff, Z.eqb_eq in Hb. split; [done|]. split; [|done]. unfold blen in Hb.
  rewrite !length_app, length_le_bytes, length_sha256, !length_ascii in Hb. simpl in Hb. lia.
Qed.

(** ** Properties *)

(** A capsule the uploader accepts is the recorded build's file with the selected hash, of 257 to 4096
    bytes and valid for the composer; the resident UF2 on disk has the selected hash; both reports name the
    ELF on disk; and every source either report records is an unchanged file inside the checkout. *)
Theorem verified_capsule_bound `{codec : !Json} c resident module sketch expected_resident expected_capsule capsule :
  verified_capsule c resident module sketch expected_resident expected_capsule = Ok capsule ->
  bound_capsule c resident module sketch expected_resident expected_capsule capsule.
Proof. apply verified_capsule_Ok. Qed.

(** An upload that succeeds has sent exactly one private frame: the magic and version, the capsule's
    length and SHA-256 digest, the 16 characters of the selected device ID, the capsule and the closing
    word, however it was cut for sending; the single byte it received is the expected response. *)
Theorem upload_sends_capsule env address device_id capsule timeout expected_response h response n :
  runs env h (upload address device_id capsule timeout expected_response) (Ok response) n ->
  response = expected_response /\ received env h n = response /\ String.length device_id = 16%nat /\
  sent env h n = (ascii "FMSU" ++ [z2b 1; z2b 0; z2b 0; z2b 0] ++ le_bytes 4 (blen capsule) ++ sha256 capsule
    ++ ascii device_id) ++ capsule ++ ascii "GO!!".
Proof.
  intros (-> & Hr & header & (-> & Hl & _)%upload_header_Ok & Hs)%upload_Ok. done.
Qed.

(** ** The theorems on concrete inputs *)
Definition install_peer : environment sock_ret :=
  peer_env true [] (fun piece => if bool_decide (drop (length piece - 4) piece = ascii "GO!!") then ascii "K" else []).

Lemma upload_sends_capsule_witness : exists n,
  runs install_peer [] (upload "192.168.7.1" "503533303030abcd" (ascii "code") 5000 (ascii "K")) (Ok (ascii "K")) n /\
  received install_peer [] n = ascii "K".
Proof.
  set (m := upload "192.168.7.1" "503533303030abcd" (ascii "code") 5000 (ascii "K")).
  assert (H := runs_outcome install_peer m (Ok (ascii "K")) ltac:(vm_compute; reflexivity)).
  exists (calls install_peer m). split; [exact H|].
  by destruct (upload_sends_capsule install_peer "192.168.7.1" "503533303030abcd" (ascii "code") 5000 (ascii "K") [] _ _ H)
    as (_ & -> & _).
Defined.

Definition recorded_capsule : bytes := Eval vm_compute in demo_capsule.
Definition recorded_capsule_sha : string := Eval vm_compute in sha recorded_capsule.
Definition recorded_sha : string := Eval vm_compute in sha (ascii "image").

(** Two reports, told apart by their text, and a checkout whose other files all hold the same bytes. *)
#[local] Instance report_codec : Json := {
  json_loads b :=
    if bool_decide (b = ascii "resident") then Ok (JObj [
      ("board", JStr "nano_rp2040_connect"); ("status", JStr "compile-tested experimental resident; not flashed");
      ("uf2_sha256", JStr recorded_sha); ("elf_sha256", JStr recorded_sha)])
    else Ok (JObj [
      ("board", JStr "nano_rp2040_connect"); ("sketch", JStr "blink_a");
      ("status", JStr "compile-tested module only; no resident or hardware proof");
      ("resident_elf_sha256", JStr recorded_sha); ("capsule_sha256", JStr recorded_capsule_sha)]);
  json_dumps _ := [] }.

Definition recorded_checkout : checkout := {|
  file path := Ok (if bool_decide (path = "r/report.json") then ascii "resident"
                   else if bool_decide (path = "m/report.json") then ascii "module"
                   else if bool_decide (path = "m/blink_a.fms") then recorded_capsule else ascii "image");
  in_tree _ := true |}.

Lemma verified_capsule_bound_witness :
  verified_capsule recorded_checkout "r" "m" "blink_a" recorded_sha recorded_capsule_sha = Ok recorded_capsule /\
  256 < blen recorded_capsule <= 4096.
Proof.
  assert (H : verified_capsule recorded_checkout "r" "m" "blink_a" recorded_sha recorded_capsule_sha = Ok recorded_capsule)
    by (vm_compute; reflexivity).
  split; [exact H|].
  by destruct (verified_capsule_bound recorded_checkout "r" "m" "blink_a" recorded_sha recorded_capsule_sha
    recorded_capsule H) as [(_ & _ & Hl & _) _ _].
Defined.
