(* ===== verification/Release.v ===== *)
(** * Release packages: tools/version.py and tools/package_release.py

    The repository is a store of files under root-relative paths; [in_tree] says which paths resolve inside
    it. Every operation that changes the disk first asks it ([Disk]), which may fail, and then has changed nothing
    (a real rmtree that fails may have removed a part); a file that is missing fails to be read. The package is staged apart and published by two renames. *)

From stdpp Require Import base tactics list list_numbers strings gmap sorting.
From Stdlib Require Import ZArith Lia Ascii.
From S2P Require Import Prelude.
From S2P Require Import PyBytes.
From S2P Require Import Sha256.
From S2P Require Import PyText.
From S2P Require Import PyStr.
From S2P Require Import PyRegex.
From S2P Require Import PyDict.
From S2P Require Import PyJson.
From S2P Require Import Effects.
From S2P Require Import Ipv4.
From S2P Require Import Stateful.

Local Open Scope Z_scope.

(** ** Files *)
Abbreviation files := (gmap string bytes).

(** [path.read_bytes()] *)
Definition read (f : files) (path : string) : result bytes := some_or (f !! path) (OSError "No such file or directory").

(** [digest(path)] *)
Definition digest (f : files) (path : string) : result string := sha <$> read f path.

(** [s.removeprefix(p)] when [p] is a prefix *)
Fixpoint after_prefix (p s : string) : option string :=
  match p, s with
  | EmptyString, _ => Some s
  | String c p, String d s => if decide (c = d) then after_prefix p s else None
  | _, _ => None
  end.

(** A path strictly below a directory, and whether a file or directory exists there *)
Definition under (directory path : string) : bool := bool_decide (is_Some (after_prefix (directory +:+ "/") path)).
Definition exists_path (f : files) (path : string) : bool :=
  bool_decide (is_Some (f !! path)) || existsb (fun kv => under path kv.1) (map_to_list f).

(** ** tools/version.py *)
Definition quote : string := String (ascii_of_nat 34) EmptyString.

Definition version_pattern : regex :=
  LineStart ⊙ Lit "#define FIRMINGO_VERSION " ⊙ Lit quote
  ⊙ Group (Many is_digit 1 ⊙ Lit "." ⊙ Many is_digit 1 ⊙ Lit "." ⊙ Many is_digit 1) ⊙ Lit quote ⊙ LineEnd.

Definition current_version (f : files) : result string :=
  header ← read f "src/core/version.h";
  version ← match search version_pattern (PyStr.text header) with
            | Some [version] => mret version
            | _ => Raise (RuntimeError "src/core/version.h has no valid FIRMINGO_VERSION")
            end;
  properties ← read f "library.properties";
  raise_when (negb (contains ("version=" +:+ version +:+ String line_break EmptyString) (PyStr.text properties)))
    (RuntimeError "library.properties version differs from src/core/version.h");;
  mret version.

(** ** Verified inputs *)
Definition BOARDS : list string := ["nano_rp2040_connect"; "raspberry_pi_pico"].

Definition SKETCH_NAMES : dict string := [("application", "firmingo_application"); ("uart", "firmingo_uart")].

(** [json.dumps(index, indent=2)] with its final newline, and a ZIP archive of named members, whose formats
    are never looked into *)
Class Packing := { json_pretty : dict json -> bytes; zip_file : list (string * bytes) -> bytes }.

Definition image_name (profile : string) : result string :=
  sketch ← ditem SKETCH_NAMES profile; mret (sketch +:+ ".ino.uf2").
Definition build_dir (board profile : string) : string := "build/firmware/" +:+ board +:+ "/" +:+ profile.

Section Release.
Context `{codec : !Json} `{packing : !Packing} (in_tree : string -> bool).

(** [json.loads(path.read_text())], used as a dictionary *)
Definition load (f : files) (path : string) : result (dict json) :=
  data ← read f path; value ← json_loads data; as_dict value.

Definition check_release_source (f : files) (source : string * json) : result unit :=
  let '(name, expected) := source in
  same ← match f !! name with
         | Some data => mret (in_tree name && py_eq (JStr (sha data)) expected)
         | None => mret false
         end;
  raise_when (negb same) (RuntimeError "source changed since build").

(** [type(used) is not int or used <= 0 or used > manifest[budget]] *)
Definition over_budget (manifest report : dict json) (field budget : string) : result bool :=
  let used := jget report field in
  if negb (type_is_int used) || (int_of used <=? 0) then mret true
  else limit ← ditem manifest budget; py_order true limit used.

Definition collect (f : files) (board profile : string) : result (string * dict json) :=
  manifest ← load f ("boards/" +:+ board +:+ "/baseline.json");
  raise_when (negb (py_eq (jget manifest "board") (JStr board))) (RuntimeError "board manifest identity mismatch");;
  report ← load f (build_dir board profile +:+ "/report.json");
  raise_when (negb (py_eq (jget report "status") (JStr "compile-tested")) || negb (py_eq (jget report "firmware") (JStr profile)))
    (RuntimeError "successful current build required");;
  raise_when (negb (py_eq (jget report "manifest") (JObj manifest)))
    (RuntimeError "build board settings differ from current manifest");;
  sources ← match jget report "source_sha256" with
            | JObj (x :: l) => mret (x :: l)
            | _ => Raise (RuntimeError "source hashes missing")
            end;
  for_each (check_release_source f) sources;;
  for_each (fun '(field, budget) =>
      over ← over_budget manifest report field budget;
      raise_when over (RuntimeError "field is absent or exceeds budget"))
    [("flash_bytes", "flash_budget_bytes"); ("static_ram_bytes", "static_ram_budget_bytes")];;
  name ← image_name profile;
  let image := build_dir board profile +:+ "/artifacts/" +:+ name in
  artifacts ← as_dict (jget_or report "artifacts" (JObj []));
  match jget artifacts name, f !! image with
  | JObj entry, Some data =>
      raise_when (negb (py_eq (JInt (blen data)) (jget entry "bytes")) || negb (py_eq (JStr (sha data)) (jget entry "sha256")))
        (RuntimeError "UF2 size or SHA-256 differs from build report");;
      mret (image, report)
  | _, _ => Raise (RuntimeError "UF2 artifact missing")
  end.

(** ** Staging and publishing *)
Record release := { rl_files : files; rl_stage : files; rl_archive : option bytes }.

Inductive disk_call := Disk (operation path : string).
Definition disk_ret (c : disk_call) : Type := unit.
Abbreviation rel A := (st disk_ret release A).

(** One operation on the disk, and its effect when it succeeds *)
Definition disk (operation path : string) (effect : release -> release) : rel unit :=
  _ ← st_ask (Disk operation path);
  st_modify effect.

Definition staged_file (path : string) (data : bytes) (s : release) : release :=
  {| rl_files := rl_files s; rl_stage := <[path := data]> (rl_stage s); rl_archive := rl_archive s |}.
Definition with_archive (data : bytes) (s : release) : release :=
  {| rl_files := rl_files s; rl_stage := rl_stage s; rl_archive := Some data |}.
Definition unstaged (s : release) : release :=
  {| rl_files := rl_files s; rl_stage := ∅; rl_archive := None |}.

(** [stage.rename(destination)], [archive.rename(target)] and [shutil.rmtree(destination)] *)
Definition publish (destination : string) (s : release) : release :=
  {| rl_files := kmap (fun path => destination +:+ "/" +:+ path) (rl_stage s) ∪ rl_files s; rl_stage := ∅; rl_archive := rl_archive s |}.
Definition publish_archive (target : string) (s : release) : release :=
  {| rl_files := match rl_archive s with Some data => <[target := data]> (rl_files s) | None => rl_files s end;
     rl_stage := rl_stage s; rl_archive := None |}.
Definition remove_tree (destination : string) (s : release) : release :=
  {| rl_files := filter (fun kv => under destination kv.1 = false) (rl_files s); rl_stage := rl_stage s; rl_archive := rl_archive s |}.

Definition input := (string * string * string * dict json)%type.

Definition relative_path (version board profile : string) : string :=
  board +:+ "/" +:+ profile +:+ "/firmingo-" +:+ version +:+ "-" +:+ board +:+ "-" +:+ profile +:+ ".uf2".

(** [report[a][b]...] through nested dictionaries *)
Fixpoint deep (d : dict json) (key : string) (more : list string) : result json :=
  v ← ditem d key;
  match more with
  | [] => mret v
  | k :: more => d ← match v with JObj d => mret d | _ => Raise (TypeError "object is not subscriptable") end; deep d k more
  end.

Definition stage_image (version : string) (index : list json) (x : input) : rel (list json) :=
  let '(board, profile, image, report) := x in
  let relative := relative_path version board profile in
  disk "mkdir" relative id;;
  s ← st_get;
  data ← st_pure (read (rl_files s) image);
  disk "copy" relative (staged_file relative data);;
  s ← st_get;
  copied ← st_pure (read (rl_stage s) relative);
  name ← st_pure (image_name profile);
  expected ← st_pure (deep report "artifacts" [name; "sha256"]);
  st_pure (raise_when (negb (py_eq (JStr (sha copied)) expected)) (RuntimeError "staged UF2 integrity failed"));;
  fqbn ← st_pure (deep report "manifest" ["fqbn"]);
  flash ← st_pure (ditem report "flash_bytes");
  ram ← st_pure (ditem report "static_ram_bytes");
  build_report ← st_pure (digest (rl_files s) (build_dir board profile +:+ "/report.json"));
  mret (index ++ [JObj [
    ("path", JStr relative); ("board_id", JStr board); ("profile", JStr profile); ("firmware_version", JStr version);
    ("bytes", JInt (blen copied)); ("sha256", JStr (sha copied)); ("fqbn", fqbn); ("flash_bytes", flash);
    ("static_ram_bytes", ram); ("qualification", JStr "compile-tested"); ("build_report_sha256", JStr build_report)]]).

Definition release_index (version : string) (index : list json) : dict json :=
  [("schema_version", JInt 1); ("product", JStr "Firmingo"); ("version", JStr version); ("release_channel", JStr "beta");
   ("artifact_format", JStr "UF2"); ("files", JArr index)].

Definition readme (version : string) : bytes :=
  ascii ("# Firmingo " +:+ version +:+ " beta artifacts" +:+ String line_break (String line_break
    "Select the UF2 whose `board_id` and `profile` match your hardware and intended backend. ") +:+
    "Verify `bytes` and `sha256` in `manifest.json` before installation. " +:+
    "These images passed compilation and packaging checks only; hardware qualification " +:+
    "of this exact build is not implied. See repository `docs/releasing.md` for release gates." +:+
    String line_break EmptyString).

(** [sorted(stage.rglob('*'))]: paths compare part by part *)
Fixpoint parts_leb (a b : list string) : bool :=
  match a, b with
  | [], _ => true
  | _, [] => false
  | x :: a, y :: b => match String.compare x y with Lt => true | Gt => false | Eq => parts_leb a b end
  end.
Definition path_le (a b : string * bytes) : Prop := parts_leb (split_on "/"%char a.1) (split_on "/"%char b.1) = true.
#[export] Instance path_le_dec : RelDecision path_le.
Proof. intros a b. unfold path_le. apply _. Defined.

Definition members (name : string) (stage : files) : list (string * bytes) :=
  (fun kv => (name +:+ "/" +:+ kv.1, kv.2)) <$> merge_sort path_le (map_to_list stage).

Definition fill_stage (name version : string) (inputs : list input) : rel unit :=
  disk "mkdir" name id;;
  index ← st_fold (stage_image version) [] inputs;
  disk "write" "manifest.json" (staged_file "manifest.json" (json_pretty (release_index version index)));;
  disk "write" "README.md" (staged_file "README.md" (readme version));;
  s ← st_get;
  disk "write" (name +:+ ".zip") (with_archive (zip_file (members name (rl_stage s)))).

Definition publish_all (destination : string) : rel unit :=
  disk "rename" destination (publish destination);;
  st_try (disk "rename" (destination +:+ ".zip") (publish_archive (destination +:+ ".zip"))) (is_a KOSError)
    (fun e => disk "rmtree" destination (remove_tree destination);; st_raise e).

Definition distinct_in (l : list string) (known : list string) : bool :=
  negb (bool_decide (l = [])) && forallb (fun x => bool_decide (x ∈ known)) l && bool_decide (NoDup l).

Definition package (boards profiles : list string) : rel string :=
  s ← st_get;
  version ← st_pure (current_version (rl_files s));
  st_pure (raise_when (negb (distinct_in boards BOARDS)) (RuntimeError "select distinct supported board IDs"));;
  st_pure (raise_when (negb (distinct_in profiles (keys SKETCH_NAMES))) (RuntimeError "select distinct release profiles"));;
  let name := "firmingo-" +:+ version in
  let destination := "dist/" +:+ name in
  st_pure (raise_when (exists_path (rl_files s) destination || exists_path (rl_files s) (destination +:+ ".zip"))
    (RuntimeError "release package exists; move it before repackaging"));;
  inputs ← st_pure (mapM (fun '(board, profile) =>
      ' (image, report) ← collect (rl_files s) board profile; mret (board, profile, image, report))
    (board ← boards; profile ← profiles; [(board, profile)]));
  disk "mkdir" "dist" id;;
  disk "mkdtemp" "dist" id;;
  st_finally (fill_stage name version inputs;; publish_all destination) (disk "rmtree" "dist/.firmingo-package" unstaged);;
  mret destination.
End Release.

(** ** Paths *)
Lemma after_prefix_Some p s t : after_prefix p s = Some t <-> s = (p +:+ t)%string.
Proof.
  revert s. induction p as [|c p IH]; intros s; cbn [after_prefix].
  - split; [by intros [= ->]|by intros ->].
  - destruct s as [|d s]; [done|]. case_decide as E.
    + subst d. rewrite IH. split; [by intros ->|by intros [= ->]].
    + split; [done|]. by intros [= -> _].
Qed.

Lemma append_assoc (a b c : string) : ((a +:+ b) +:+ c = a +:+ b +:+ c)%string.
Proof. induction a as [|x a IH]; [done|]. change (String x ((a +:+ b) +:+ c) = String x (a +:+ b +:+ c))%string. by rewrite IH. Qed.

Lemma length_append (a b : string) : String.length (a +:+ b) = (String.length a + String.length b)%nat.
Proof. induction a as [|x a IH]; [done|]. change (S (String.length (a +:+ b)) = S (String.length a + String.length b))%nat. by rewrite IH. Qed.

Lemma under_app d p : under d (d +:+ "/" +:+ p) = true.
Proof. apply bool_decide_eq_true. exists p. apply after_prefix_Some. by rewrite append_assoc. Qed.

Lemma under_inv d p : under d p = true -> exists q, p = (d +:+ "/" +:+ q)%string.
Proof. intros [q Hq%after_prefix_Some]%bool_decide_eq_true. exists q. by rewrite Hq, append_assoc. Qed.

Lemma exists_path_false f d : exists_path f d = false -> f !! d = None /\ forall p, under d p = true -> f !! p = None.
Proof.
  intros [H1%bool_decide_eq_false H2]%orb_false_iff. split; [by apply eq_None_not_Some|]. intros p Hp.
  destruct (f !! p) as [data|] eqn:E; [|done]. apply elem_of_map_to_list in E.
  assert (existsb (fun kv => under d kv.1) (map_to_list f) = true); [|congruence].
  apply existsb_exists. exists (p, data). split; [by apply list_elem_of_In|done].
Qed.

#[export] Instance below_inj d : Inj (=) (=) (fun path => d +:+ "/" +:+ path)%string.
Proof. intros p q H. apply (inj (String.append d)) in H. by apply (inj (String.append "/")) in H. Qed.

(** Below the destination a published store holds the stage; elsewhere it is as it was. *)
Lemma published_at d s q : rl_files s !! (d +:+ "/" +:+ q)%string = None ->
  rl_files (publish d s) !! (d +:+ "/" +:+ q)%string = rl_stage s !! q.
Proof.
  intros Hn. cbn. rewrite lookup_union, Hn, (right_id_L None _). apply (lookup_kmap (fun path => d +:+ "/" +:+ path)%string).
Qed.

Lemma published_off d s p : under d p = false -> rl_files (publish d s) !! p = rl_files s !! p.
Proof.
  intros Hu. cbn. rewrite lookup_union. replace (kmap _ (rl_stage s) !! p) with (@None bytes); [by rewrite (left_id_L None _)|].
  symmetry. apply lookup_kmap_None; [apply _|]. intros q ->. by rewrite under_app in Hu.
Qed.

(** Removing what was published gives the store back. *)
Lemma unpublished d s : (forall p, under d p = true -> rl_files s !! p = None) ->
  rl_files (remove_tree d (publish d s)) = rl_files s.
Proof.
  intros Hn. apply map_eq. intros p. cbn [remove_tree rl_files]. destruct (under d p) eqn:Hu.
  - rewrite Hn by done. apply map_lookup_filter_None. right. intros data _ H. cbn in H. congruence.
  - rewrite <- (published_off d s p Hu). destruct (rl_files (publish d s) !! p) as [data|] eqn:E.
    + by apply map_lookup_filter_Some.
    + apply map_lookup_filter_None. by left.
Qed.

(** ** What a release does to the store *)
Section Outcome.
Context `{codec : !Json} `{packing : !Packing} (in_tree : string -> bool) (env : environment disk_ret) (f : files).

(** The call was made in the run, and it raised [e]. *)
Definition failed (k : list disk_call) (c : disk_call) (e : exn) : Prop := exists h n, k = h ++ c :: n /\ env h c = Raise e.

Lemma failed_lasts k n c e : failed k c e -> failed (k ++ n) c e.
Proof. intros (h & m & -> & He). exists h, (m ++ n). by rewrite <- app_assoc. Qed.

Definition intact (s : release) : Prop := rl_files s = f.

Lemma disk_triple (P : release -> Prop) (Q : release -> Prop) operation path effect :
  (forall s, P s -> Q (effect s)) ->
  triple env [] (fun s _ => P s) (disk operation path effect) (fun _ s _ => Q s)
    (fun e s k => P s /\ failed k (Disk operation path) e).
Proof.
  intros HQ. unfold disk. eapply triple_bind with (R := fun _ s _ => P s); [|intros _; apply triple_modify; auto].
  apply triple_ask. intros s k Hs. cbn [app]. destruct (env k _) as [[]|e] eqn:E1; [done|]. split; [done|]. by exists k, [].
Qed.

Lemma disk_Ok operation path effect h s s' n u : disk operation path effect env h s = (s', Ok u, n) -> s' = effect s.
Proof.
  unfold disk. intros [(e & _ & [=])|(x & s1 & n1 & n2 & H & H2 & _)]%st_bind_inv.
  unfold st_ask, st_io, ask in H. destruct (env h _); [|done]. injection H as <- _. by injection H2 as <-.
Qed.

(** What the index says of one image of the release *)
Record described (version board profile : string) (data : bytes) (entry : dict json) : Prop := {
  described_path : dget entry "path" = Some (JStr (relative_path version board profile));
  described_board : dget entry "board_id" = Some (JStr board);
  described_profile : dget entry "profile" = Some (JStr profile);
  described_bytes : dget entry "bytes" = Some (JInt (blen data));
  described_sha : dget entry "sha256" = Some (JStr (sha data)) }.

(** Open a successful stateful run into its steps. *)
Ltac st_steps := repeat match goal with
  | H : (_ ≫= _) _ _ _ = (_, Ok _, _) |- _ =>
      apply st_bind_inv in H as [(? & _ & [=])|(? & ? & ? & ? & ? & H & _)]
  | H : disk _ _ _ _ _ _ = (_, Ok _, _) |- _ => apply disk_Ok in H; subst
  | H : st_get _ _ _ = (_, Ok _, _) |- _ => injection H as <- <- <-
  | H : st_pure _ _ _ _ = (_, Ok _, _) |- _ => let E := fresh "E" in injection H as <- E <-
  | H : mret _ _ _ _ = (_, Ok _, _) |- _ => let E := fresh "E" in injection H as <- E <-
  end.

Lemma stage_image_Ok version index board profile image report h s s' index' n :
  stage_image version index (board, profile, image, report) env h s = (s', Ok index', n) ->
  exists data entry, rl_files s !! image = Some data /\
    s' = staged_file (relative_path version board profile) data s /\
    index' = index ++ [JObj entry] /\ described version board profile data entry.
Proof.
  unfold stage_image. intros H. st_steps.
  repeat match goal with E : read _ _ = Ok _ |- _ => apply some_or_Ok in E end. cbn [staged_file rl_stage rl_files id] in *.
  match goal with E : <[_ := _]> _ !! _ = Some _ |- _ => rewrite lookup_insert_eq in E; injection E as -> end.
  eexists _, _. split_and!; [eassumption|done|by symmetry|]. by constructor.
Qed.

Lemma intact_disk operation path effect : (forall s, rl_files (effect s) = rl_files s) ->
  keeps env [] (fun s _ => intact s) (disk operation path effect).
Proof.
  intros He. apply keeps_bind; [by apply keeps_ask|]. intros _. apply keeps_modify. intros s _ Hs.
  unfold intact in *. by rewrite He.
Qed.

Lemma stage_image_intact version index x : keeps env [] (fun s _ => intact s) (stage_image version index x).
Proof. destruct x as [[[board profile] image] report]. unfold stage_image. repeat (keeps_step || by apply intact_disk). Qed.

(** ** The stage *)
Definition well_formed (x : input) : Prop :=
  let '(board, profile, image, _) := x in
  board ∈ BOARDS /\ exists sketch, (profile, sketch) ∈ SKETCH_NAMES /\
    image = (build_dir board profile +:+ "/artifacts/" +:+ sketch +:+ ".ino.uf2")%string.

Definition staged_input (version : string) (stage : files) (x : input) (entry : json) : Prop :=
  let '(board, profile, image, _) := x in
  exists data d, f !! image = Some data /\ stage !! relative_path version board profile = Some data /\
    entry = JObj d /\ described version board profile data d.

(** Every supported image has a path of its own, which is no other file of the stage. *)
Lemma relative_path_inj version b1 p1 k1 b2 p2 k2 : b1 ∈ BOARDS -> b2 ∈ BOARDS -> (p1, k1) ∈ SKETCH_NAMES -> (p2, k2) ∈ SKETCH_NAMES ->
  relative_path version b1 p1 = relative_path version b2 p2 -> b1 = b2 /\ (p1, k1) = (p2, k2).
Proof.
  unfold BOARDS, SKETCH_NAMES. rewrite !elem_of_cons, !elem_of_nil.
  intros [->|[->|[]]] [->|[->|[]]] [[= -> ->]|[[= -> ->]|[]]] [[= -> ->]|[[= -> ->]|[]]]; simpl; auto; discriminate.
Qed.

Lemma relative_path_own version b p : b ∈ BOARDS -> relative_path version b p <> "manifest.json" /\ relative_path version b p <> "README.md".
Proof. unfold BOARDS. rewrite !elem_of_cons, !elem_of_nil. by intros [->|[->|[]]]. Qed.

Lemma staged_insert version stage x entry path data : staged_input version stage x entry ->
  (path <> (let '(b, p, _, _) := x in relative_path version b p) \/ f !! (let '(_, _, image, _) := x in image) = Some data) ->
  staged_input version (<[path := data]> stage) x entry.
Proof.
  destruct x as [[[b p] image] report]. intros (d & e & Hi & Hs & He & Hd) Hp. exists d, e. split_and!; [done| |done..].
  destruct (decide (path = relative_path version b p)) as [->|]; [|by rewrite lookup_insert_ne].
  destruct Hp as [|Hp]; [done|]. rewrite lookup_insert_eq. congruence.
Qed.

Definition staged_inputs (version : string) (inputs : list input) (index : list json) (s : release) : Prop :=
  intact s /\ Forall2 (staged_input version (rl_stage s)) inputs index.

Lemma stage_image_triple version index done x : Forall well_formed (done ++ [x]) ->
  triple env [] (fun s _ => staged_inputs version done index s) (stage_image version index x)
    (fun index' s _ => staged_inputs version (done ++ [x]) index' s) (fun _ s _ => intact s).
Proof.
  intros Hw s k [Hi Hs]. pose proof (stage_image_intact version index x s k Hi) as Hk.
  destruct (stage_image version index x env ([] ++ k) s) as [[s' [index'|e]] n] eqn:E; [|done].
  destruct x as [[[b p] image] report]. apply stage_image_Ok in E as (data & entry & Hd & -> & -> & He).
  unfold intact in Hi. rewrite Hi in Hd. apply Forall_app in Hw as [Hw Hx]. inversion Hx as [|? ? Hxw _]; subst.
  split; [done|]. cbn [staged_file rl_stage]. apply Forall2_app.
  - clear -Hs Hw Hxw Hd. induction Hs as [|y e ys es Hy Hs IH]; [done|]. inversion Hw; subst. constructor; [|auto].
    apply staged_insert; [done|]. destruct y as [[[b' p'] image'] report']. destruct Hxw as (Hb & k & Hk & ->).
    destruct (decide (relative_path version b p = relative_path version b' p')) as [Heq|]; [right|by left].
    match goal with H : well_formed _ |- _ => destruct H as (Hb' & k' & Hk' & ->) end.
    by destruct (relative_path_inj _ _ _ _ _ _ _ Hb Hb' Hk Hk' Heq) as [<- [= <- <-]].
  - constructor; [|constructor]. exists data, entry. split_and!; [done| |done..]. apply lookup_insert_eq.
Qed.

(** A full stage: the images, the index that describes them, and the archive of all members *)
Definition filled (name version : string) (inputs : list input) (s : release) : Prop :=
  intact s /\ exists index, Forall2 (staged_input version (rl_stage s)) inputs index /\
    rl_stage s !! "manifest.json" = Some (json_pretty (release_index version index)) /\
    rl_archive s = Some (zip_file (members name (rl_stage s))).

Lemma fill_stage_triple name version inputs : Forall well_formed inputs ->
  triple env [] (fun s _ => intact s /\ rl_stage s = ∅) (fill_stage name version inputs)
    (fun _ s _ => filled name version inputs s) (fun _ s _ => intact s).
Proof.
  intros Hw. assert (Hown : forall path data index s, (forall b p, b ∈ BOARDS -> path <> relative_path version b p) ->
    staged_inputs version inputs index s -> staged_inputs version inputs index (staged_file path data s)).
  { intros path data index s Hp [Hi Hs]. split; [done|]. cbn. clear -Hw Hs Hp. induction Hs as [|y e ys es Hy Hs IH]; [done|].
    inversion Hw as [|? ? Hy' ?]; subst. constructor; [|auto]. apply staged_insert; [done|left].
    destruct y as [[[b p] image] report]. by apply Hp, Hy'. }
  unfold fill_stage. eapply triple_bind with (R := fun _ s _ => staged_inputs version [] [] s).
  { eapply triple_weaken; [apply (disk_triple (staged_inputs version [] []) (staged_inputs version [] []))| |done|].
    - done.
    - intros s k [Hi _]. split; [done|constructor].
    - by intros e s k [[Hi _] _]. }
  intros _. eapply triple_bind with (R := fun index s _ => staged_inputs version inputs index s).
  { eapply triple_weaken; [apply (triple_fold env [] (fun done index s _ => staged_inputs version done index s)
      (stage_image version) (fun _ s _ => intact s) [] inputs)|done|done|done].
    intros d x y rest ->. apply stage_image_triple. apply Forall_app in Hw as [? Hw]. inversion Hw; subst. apply Forall_app. by auto. }
  intros index. set (indexed := fun s => staged_inputs version inputs index s /\
    rl_stage s !! "manifest.json" = Some (json_pretty (release_index version index))).
  eapply triple_bind with (R := fun _ s _ => indexed s).
  { eapply triple_weaken; [apply (disk_triple (staged_inputs version inputs index) indexed)|done|done|by intros e s k [[? _] _]].
    intros s Hs. split; [apply Hown; [|done]; intros b p Hb E; symmetry in E; by destruct (relative_path_own version b p Hb)|cbn; apply lookup_insert_eq]. }
  intros _. eapply triple_bind with (R := fun _ s _ => indexed s).
  { eapply triple_weaken; [apply (disk_triple indexed indexed)|done|done|by intros e s k [[[? _] _] _]].
    intros s [Hs Hm]. split; [apply Hown; [|done]; intros b p Hb E; symmetry in E; by destruct (relative_path_own version b p Hb)|].
    cbn. by rewrite lookup_insert_ne. }
  intros _. apply triple_from. intros s k [[Hi Hs] Hm].
  eapply triple_bind with (R := fun s1 s2 _ => s1 = s /\ s2 = s); [apply triple_get; naive_solver|]. intros s1.
  eapply triple_weaken; [apply (disk_triple (fun s2 => s1 = s /\ s2 = s) (filled name version inputs))|done|done|].
  - intros s2 [-> ->]. split; [done|]. by exists index.
  - by intros e s2 k2 [[_ ->] _].
Qed.

Lemma zip_not_under d : under d (d +:+ ".zip") = false.
Proof.
  apply bool_decide_eq_false. intros [q Hq%after_prefix_Some]. rewrite append_assoc in Hq. by apply (inj (String.append d)) in Hq.
Qed.

(** The tree was published and stayed there: the archive's rename was interrupted, or it failed and so did taking the
    tree back. *)
Definition stranded (d : string) (k : list disk_call) (e : exn) : Prop :=
  exists e0, failed k (Disk "rename" (d +:+ ".zip")) e0 /\
    (is_a KOSError e0 = false /\ e = e0 \/ is_a KOSError e0 = true /\ failed k (Disk "rmtree" d) e).

Lemma stranded_lasts d k n e : stranded d k e -> stranded d (k ++ n) e.
Proof.
  intros (e0 & H & H2). exists e0. split; [by apply failed_lasts|]. destruct H2 as [|[? H2]]; [by left|right].
  split; [done|by apply failed_lasts].
Qed.

Lemma publish_all_triple s d : intact s -> (forall p, under d p = true -> f !! p = None) ->
  triple env [] (fun s' _ => s' = s) (publish_all d)
    (fun _ s' _ => s' = publish_archive (d +:+ ".zip") (publish d s))
    (fun e s' k => intact s' \/ s' = publish d s /\ stranded d k e).
Proof.
  intros Hi Hd. unfold publish_all. eapply triple_bind with (R := fun _ s' _ => s' = publish d s).
  { eapply triple_weaken; [apply (disk_triple (fun s' => s' = s) (fun s' => s' = publish d s)); by intros s' ->|done|done|].
    intros e s' k [-> _]. by left. }
  intros _. eapply triple_try with (R := fun e s' k => s' = publish d s /\ failed k (Disk "rename" (d +:+ ".zip")) e).
  - eapply triple_weaken; [apply (disk_triple (fun s' => s' = publish d s)
      (fun s' => s' = publish_archive (d +:+ ".zip") (publish d s))); by intros s' ->|done|done|done].
  - intros e He s' k [-> Hr]. right. split; [done|]. exists e. auto.
  - intros e He. eapply triple_bind with (R := fun _ s' _ => intact s'); [|intros _; apply triple_raise; auto].
    assert (Hback : forall s', s' = publish d s -> intact (remove_tree d s')).
    { intros s' ->. unfold intact. rewrite unpublished; [done|]. intros p Hp. rewrite Hi. auto. }
    pose proof (disk_triple _ intact "rmtree" d (remove_tree d) Hback) as Ht.
    eapply triple_weaken; [exact (triple_grows env [] _ _ _ _ (fun k => failed k (Disk "rename" (d +:+ ".zip")) e)
      (fun k n => failed_lasts k n _ e) Ht)|done|by intros ? s' k [? _]|].
    intros e' s' k [[-> Hr] Hk]. right. split; [done|]. exists e. auto.
Qed.

(** The accepted build of one image *)
Record collected (board profile image : string) (report : dict json) : Prop := {
  col_image : exists sketch, (profile, sketch) ∈ SKETCH_NAMES /\
    image = (build_dir board profile +:+ "/artifacts/" +:+ sketch +:+ ".ino.uf2")%string;
  col_manifest : exists manifest, load f ("boards/" +:+ board +:+ "/baseline.json") = Ok manifest /\
    jget manifest "board" = JStr board /\ py_eq (jget report "manifest") (JObj manifest) = true /\
    Forall (fun '(field, budget) => exists used limit, jget report field = JInt used /\ 0 < used /\
        ditem manifest budget = Ok limit /\ py_order true limit (JInt used) = Ok false)
      [("flash_bytes", "flash_budget_bytes"); ("static_ram_bytes", "static_ram_budget_bytes")];
  col_report : load f (build_dir board profile +:+ "/report.json") = Ok report;
  col_status : jget report "status" = JStr "compile-tested" /\ jget report "firmware" = JStr profile;
  col_sources : exists sources, jget report "source_sha256" = JObj sources /\ sources <> [] /\
    Forall (fun '(name, expected) => in_tree name = true /\
      exists data, f !! name = Some data /\ py_eq (JStr (sha data)) expected = true) sources;
  col_artifact : exists name entry artifacts data, image_name profile = Ok name /\ jget_or report "artifacts" (JObj []) = JObj artifacts /\
    jget artifacts name = JObj entry /\ f !! image = Some data /\
    py_eq (JInt (blen data)) (jget entry "bytes") = true /\ py_eq (JStr (sha data)) (jget entry "sha256") = true }.

Lemma over_budget_false manifest report field budget : over_budget manifest report field budget = Ok false ->
  exists used limit, jget report field = JInt used /\ 0 < used /\ ditem manifest budget = Ok limit /\
    py_order true limit (JInt used) = Ok false.
Proof.
  unfold over_budget. destruct (negb _ || _) eqn:E; [done|]. apply orb_false_iff in E as [Ht%negb_false_iff Hu%Z.leb_gt].
  apply type_is_int_spec in Ht as [z Hz]. rewrite Hz in *. intros (limit & Hl & Ho)%bind_Ok. exists z, limit. auto.
Qed.

Lemma check_release_source_Ok name expected : check_release_source in_tree f (name, expected) = Ok tt ->
  in_tree name = true /\ exists data, f !! name = Some data /\ py_eq (JStr (sha data)) expected = true.
Proof.
  unfold check_release_source. destruct (f !! name) as [data|]; [|done]. cbn. rewrite raise_when_Ok, negb_false_iff, andb_true_iff.
  naive_solver.
Qed.

Lemma collect_Ok board profile image report : collect in_tree f board profile = Ok (image, report) ->
  collected board profile image report.
Proof.
  unfold collect. intros (manifest & Hm & H)%bind_Ok. rewrite raise_when_bind in H. destruct H as [Hb H].
  apply bind_Ok in H as (report' & Hr & H). rewrite !raise_when_bind in H. destruct H as (Hs & Hman & H).
  apply bind_Ok in H as (sources & Hsrc & H). apply bind_unit in H as [Hall H]. apply bind_unit in H as [Hbud H].
  apply orb_false_iff in Hs as [Hst%negb_false_iff%py_eq_str Hfw%negb_false_iff%py_eq_str].
  apply negb_false_iff, py_eq_str in Hb. apply negb_false_iff in Hman.
  apply bind_Ok in H as (name & Hn & H). apply bind_Ok in H as (artifacts & Ha & H).
  destruct (jget artifacts name) as [| | | | | |entry] eqn:Ee; try done. destruct (f !! _) as [data|] eqn:Ed; [|done].
  rewrite raise_when_bind in H. destruct H as [[Hl%negb_false_iff Hsha%negb_false_iff]%orb_false_iff [= <- <-]%mret_Ok].
  constructor.
  - unfold image_name in Hn. apply bind_Ok in Hn as (sketch & Hk%some_or_Ok & [= <-]%mret_Ok). exists sketch. split; [|done].
    by apply dget_In.
  - exists manifest. split_and!; [done..|]. apply for_each_Ok in Hbud. eapply Forall_impl; [exact Hbud|].
    intros [field budget] (over & Ho & Hw)%bind_Ok. apply raise_when_Ok in Hw as ->. by eapply over_budget_false.
  - done.
  - done.
  - destruct (jget report' "source_sha256") as [| | | | | |[|x l]] eqn:Es; try done. injection Hsrc as <-.
    exists (x :: l). split_and!; [done..|]. apply for_each_Ok in Hall. eapply Forall_impl; [exact Hall|].
    intros [name' expected]. apply check_release_source_Ok.
  - exists name, entry, artifacts, data. destruct (jget_or report' "artifacts" _); try done. injection Ha as ->. split_and!; done.
Qed.

Lemma inputs_well_formed boards profiles inputs : Forall (fun b => b ∈ BOARDS) boards ->
  mapM (fun '(board, profile) => '(image, report) ← collect in_tree f board profile; mret (board, profile, image, report))
    (board ← boards; profile ← profiles; [(board, profile)]) = Ok inputs ->
  Forall well_formed inputs /\
  Forall2 (fun '(board, profile) '(b, p, image, report) => b = board /\ p = profile /\ collected board profile image report)
    (board ← boards; profile ← profiles; [(board, profile)]) inputs.
Proof.
  intros Hb Hm. apply mapM_Ok in Hm.
  assert (H2 : Forall2 (fun '(board, profile) '(b, p, image, report) => b = board /\ p = profile /\ collected board profile image report)
    (board ← boards; profile ← profiles; [(board, profile)]) inputs).
  { eapply Forall2_impl; [exact Hm|]. intros [board profile] [[[b p] image] report] ([image' report'] & Hc & Hr)%bind_Ok.
    apply mret_Ok in Hr as [= <- <- <- <-]. split_and!; [done..|by apply collect_Ok]. }
  split; [|exact H2]. assert (Hin : Forall (fun '(board, _) => board ∈ BOARDS) (board ← boards; profile ← profiles; [(board, profile)])).
  { apply Forall_forall. intros [board profile] (b & (q & [= -> ->]%list_elem_of_singleton & _)%list_elem_of_bind & Hin)%list_elem_of_bind.
    rewrite Forall_forall in Hb. auto. }
  clear -H2 Hin. induction H2 as [|[board profile] [[[b p] image] report] l k (-> & -> & Hc) H2 IH]; [done|].
  inversion Hin; subst. constructor; [|auto]. split; [done|]. exact (col_image _ _ _ _ Hc).
Qed.

(** A published release: every selected image is there, byte for byte the verified one, the index describes them in
    order, the archive holds every file of the release, and the rest of the store is as it was. *)
Record released (version : string) (boards profiles : list string) (g : files) : Prop := {
  rel_version : current_version f = Ok version;
  rel_images : exists index stage,
    Forall2 (fun '(board, profile) entry => exists image report data d, collected board profile image report /\
        f !! image = Some data /\ stage !! relative_path version board profile = Some data /\
        entry = JObj d /\ described version board profile data d)
      (board ← boards; profile ← profiles; [(board, profile)]) index /\
    stage !! "manifest.json" = Some (json_pretty (release_index version index)) /\
    (forall q, g !! ("dist/firmingo-" +:+ version +:+ "/" +:+ q)%string = stage !! q) /\
    g !! ("dist/firmingo-" +:+ version +:+ ".zip")%string = Some (zip_file (members ("firmingo-" +:+ version) stage));
  rel_elsewhere : forall p, under ("dist/firmingo-" +:+ version) p = false -> p <> ("dist/firmingo-" +:+ version +:+ ".zip")%string ->
    g !! p = f !! p }.

Lemma archived version inputs name d s : filled name version inputs s ->
  rl_files (publish_archive (d +:+ ".zip") (publish d s)) =
    <[(d +:+ ".zip")%string := zip_file (members name (rl_stage s))]> (rl_files (publish d s)).
Proof. intros [_ (index & _ & _ & Ha)]. unfold publish_archive. cbn [publish rl_archive]. by rewrite Ha. Qed.

Lemma published_released version boards profiles inputs s :
  let d := ("dist/firmingo-" +:+ version)%string in
  current_version f = Ok version -> (forall p, under d p = true -> f !! p = None) ->
  Forall2 (fun '(board, profile) '(b, p, image, report) => b = board /\ p = profile /\ collected board profile image report)
    (board ← boards; profile ← profiles; [(board, profile)]) inputs ->
  filled ("firmingo-" +:+ version) version inputs s ->
  released version boards profiles (rl_files (publish_archive (d +:+ ".zip") (publish d s))).
Proof.
  cbn zeta. intros Hv Hd H2 Hfl. set (d := ("dist/firmingo-" +:+ version)%string) in *.
  rewrite (archived _ _ _ d _ Hfl). destruct Hfl as [Hi (index & Hs & Hm & Ha)]. constructor; [done| |].
  - exists index, (rl_stage s). split_and!; [|done| |].
    + clear -H2 Hs. revert index Hs. induction H2 as [|[board profile] [[[b p] image] report] l k (-> & -> & Hc) H2 IH]; intros index Hs.
      * inversion Hs. constructor.
      * inversion Hs as [|? ? ? ? Hx Hs']; subst. destruct Hx as (data & e & He). constructor; [|auto]. by exists image, report, data, e.
    + intros q. rewrite lookup_insert_ne.
      * change ("dist/firmingo-" +:+ version +:+ "/" +:+ q)%string with (d +:+ "/" +:+ q)%string. rewrite published_at; [done|].
        rewrite Hi. apply Hd, under_app.
      * intros Eq. pose proof (zip_not_under d) as Hz. rewrite Eq in Hz.
        change ("dist/firmingo-" +:+ version +:+ "/" +:+ q)%string with (d +:+ "/" +:+ q)%string in Hz. by rewrite under_app in Hz.
    + apply lookup_insert_eq.
  - intros p Hu Hp. rewrite lookup_insert_ne by (intros Eq; apply Hp; by rewrite <- Eq). rewrite published_off by done. by rewrite Hi.
Qed.

(** The release but for its archive *)
Definition without_archive (version : string) (boards profiles : list string) (g : files) : Prop :=
  let archive := ("dist/firmingo-" +:+ version +:+ ".zip")%string in
  g !! archive = None /\ exists data, released version boards profiles (<[archive := data]> g).

(** Taking the temporary directory away failed. *)
Definition temporary_kept (k : list disk_call) (e : exn) : Prop := failed k (Disk "rmtree" "dist/.firmingo-package") e.

(** What a run that raised [e] can leave behind: the whole release, when only the temporary directory could not be taken
    away; the release without its archive, when the tree was stranded. *)
Inductive unclean (boards profiles : list string) (k : list disk_call) (e : exn) (g : files) : Prop :=
| unclean_temporary version : released version boards profiles g -> temporary_kept k e -> unclean boards profiles k e g
| unclean_stranded version e0 : without_archive version boards profiles g -> stranded ("dist/firmingo-" +:+ version) k e0 ->
    e = e0 \/ temporary_kept k e -> unclean boards profiles k e g.

Lemma package_triple boards profiles :
  triple env [] (fun s _ => s = {| rl_files := f; rl_stage := ∅; rl_archive := None |}) (package in_tree boards profiles)
    (fun d s _ => exists version, d = ("dist/firmingo-" +:+ version)%string /\ released version boards profiles (rl_files s))
    (fun e s k => intact s \/ unclean boards profiles k e (rl_files s)).
Proof.
  unfold package. eapply triple_bind with (R := fun s0 s _ => s0 = {| rl_files := f; rl_stage := ∅; rl_archive := None |} /\ s = s0).
  { apply triple_get. naive_solver. }
  intros s0. apply triple_from. intros s1 k1 [-> ->]. cbn [rl_files]. set (s0 := {| rl_files := f |}).
  assert (Hpure : forall A (m : result A) (P : release -> list disk_call -> Prop), (forall s k, P s k -> s = s0) ->
    triple env [] P (st_pure m) (fun a s _ => s = s0 /\ m = Ok a) (fun e s k => intact s \/ unclean boards profiles k e (rl_files s))).
  { intros A m P HP. apply triple_pure. intros s k ->%HP. destruct m; auto. by left. }
  assert (Hdisk : forall operation path, triple env [] (fun s _ => s = s0) (disk operation path id) (fun _ s _ => s = s0)
    (fun e s k => intact s \/ unclean boards profiles k e (rl_files s))).
  { intros operation path. eapply triple_weaken; [apply (disk_triple (fun s => s = s0) (fun s => s = s0)); by intros s ->|done|done|].
    intros e s k [-> _]. by left. }
  eapply triple_bind; [apply Hpure; tauto|]. intros version. apply triple_from. intros ? k2 [-> Hv].
  eapply triple_bind; [apply Hpure; tauto|]. intros ?. apply triple_from. intros ? k3 [-> Hb%raise_when_Ok].
  eapply triple_bind; [apply Hpure; tauto|]. intros ?. apply triple_from. intros ? k4 [-> Hp%raise_when_Ok].
  eapply triple_bind; [apply Hpure; tauto|]. intros ?. apply triple_from. intros ? k5 [-> Hf%raise_when_Ok].
  eapply triple_bind; [apply Hpure; tauto|]. intros inputs. apply triple_from. intros ? k6 [-> Hin].
  apply inputs_well_formed in Hin as [Hw H2].
  2: { apply negb_false_iff, andb_true_iff in Hb as [Hb _]. apply andb_true_iff in Hb as [_ Hb]. apply Forall_forall. intros b Hin'.
       rewrite forallb_forall in Hb. by apply list_elem_of_In, Hb, bool_decide_eq_true in Hin'. }
  apply orb_false_iff in Hf as [Hf Hz]. apply exists_path_false in Hf as [_ Hfresh]. apply exists_path_false in Hz as [Hz _].
  eapply triple_bind with (R := fun _ s _ => s = s0); [eapply triple_weaken; [apply Hdisk|naive_solver|done|done]|intros _].
  eapply triple_bind with (R := fun _ s _ => s = s0); [apply Hdisk|intros _].
  eapply triple_bind with (R := fun _ s _ => released version boards profiles (rl_files s)).
  2: { intros _. apply triple_ret. intros s k Hr. by exists version. }
  set (d := ("dist/firmingo-" +:+ version)%string) in *.
  eapply triple_finally with (Q := fun _ s _ => released version boards profiles (rl_files s))
    (R := fun e s k => intact s \/ without_archive version boards profiles (rl_files s) /\ stranded d k e).
  - eapply triple_bind with (R := fun _ s _ => filled ("firmingo-" +:+ version) version inputs s).
    { eapply triple_weaken; [by apply fill_stage_triple|by intros s k ->|done|by left]. }
    intros _. apply triple_from. intros s k Hs. pose proof (published_released version boards profiles inputs s Hv Hfresh H2 Hs) as Hr.
    eapply triple_weaken; [apply (publish_all_triple s d (proj1 Hs) Hfresh)|by intros ? ? [-> _]|by intros ? ? ? ->|].
    intros e s' k' [Hi|[-> Hst]]; [by left|right]. split; [|done]. split.
    + rewrite <- append_assoc. fold d. rewrite published_off by apply zip_not_under. by rewrite (proj1 Hs).
    + eexists. rewrite <- append_assoc. fold d. cbv zeta in Hr. fold d in Hr. rewrite (archived _ _ _ d _ Hs) in Hr. exact Hr.
  - intros _. eapply triple_weaken; [apply (disk_triple (fun s => released version boards profiles (rl_files s))
      (fun s => released version boards profiles (rl_files s))); done|done|done|].
    intros e s k [Hr He]. right. by eapply unclean_temporary.
  - intros e. apply triple_from. intros s k [Hi|[Hw' Hst]].
    + eapply triple_weaken; [apply (disk_triple intact intact); done|by intros ? ? [-> _]|by left|by intros e' s' k' [Hi' _]; left].
    + pose proof (disk_triple (fun s => without_archive version boards profiles (rl_files s))
        (fun s => without_archive version boards profiles (rl_files s)) "rmtree" "dist/.firmingo-package" unstaged ltac:(done)) as Ht.
      eapply triple_weaken; [exact (triple_grows env [] _ _ _ _ (fun k => stranded d k e) (fun k n => stranded_lasts d k n e) Ht)|..].
      * by intros ? ? [-> ->].
      * intros _ s' k' [H1 H2']. right. eapply unclean_stranded; eauto.
      * intros e' s' k' [[H1 H3] H2']. right. eapply unclean_stranded; eauto.
Qed.
End Outcome.

(** C32: Packaging a release is all or nothing, with two exceptions. When it returns, the release holds, for every
    selected board and profile, exactly the bytes of the image whose current build report was verified, an index that
    describes them in order and an archive of the same files, and every file outside the release is unchanged. When it
    raises, the files are as they were, but for these cases: the whole release is there, and taking the temporary directory
    away is what raised; or the release is there without its archive, because the archive's rename, made in this run, raised
    something that is no OSError, or raised an OSError and so did taking the published tree back. *)
Theorem package_all_or_nothing `{codec : !Json} `{packing : !Packing} in_tree env f boards profiles :
  let '(s, r, k) := package in_tree boards profiles env [] {| rl_files := f; rl_stage := ∅; rl_archive := None |} in
  match r with
  | Ok d => exists version, d = ("dist/firmingo-" +:+ version)%string /\ released in_tree f version boards profiles (rl_files s)
  | Raise e => rl_files s = f \/ unclean in_tree env f boards profiles k e (rl_files s)
  end.
Proof.
  pose proof (package_triple in_tree env f boards profiles _ [] eq_refl) as H. cbn [app] in H.
  destruct (package in_tree boards profiles env [] _) as [[s [d|e]] n]; exact H.
Qed.

(** A build is collected for release only when it is the current one: the board's manifest is the one it was built
    with, its status is "compile-tested", every recorded source is in the tree and unchanged, both memory sizes are
    positive and within the budgets, and the image has the recorded size and digest. *)
Theorem collect_sound `{codec : !Json} in_tree f board profile image report :
  collect in_tree f board profile = Ok (image, report) -> collected in_tree f board profile image report.
Proof. apply collect_Ok. Qed.

(** ** A small release *)
Module Demo.
Definition image : bytes := ascii "UF2".
Definition header : bytes := ascii ("#define FIRMINGO_VERSION " +:+ quote +:+ "0.1.0" +:+ quote).
Definition manifest : dict json :=
  [("board", JStr "raspberry_pi_pico"); ("fqbn", JStr "rp2040:rp2040:rpipico"); ("flash_budget_bytes", JInt 1000);
   ("static_ram_budget_bytes", JInt 500)].
Definition report : dict json :=
  [("status", JStr "compile-tested"); ("firmware", JStr "uart"); ("manifest", JObj manifest);
   ("source_sha256", JObj [("src/core/version.h", JStr (sha header))]); ("flash_bytes", JInt 200);
   ("static_ram_bytes", JInt 500);
   ("artifacts", JObj [("firmingo_uart.ino.uf2", JObj [("sha256", JStr (sha image)); ("bytes", JInt 3)])])].

#[export] Instance codec : Json := {
  json_loads b := if bool_decide (b = ascii "M") then Ok (JObj manifest) else if bool_decide (b = ascii "R") then Ok (JObj report)
                  else Raise (ValueError "Expecting value");
  json_dumps _ := [] }.
#[export] Instance packing : Packing := { json_pretty _ := ascii "index"; zip_file l := concat (snd <$> l) }.

Definition tree : files := list_to_map [
  ("src/core/version.h", header);
  ("library.properties", ascii ("version=0.1.0" +:+ String line_break EmptyString));
  ("boards/raspberry_pi_pico/baseline.json", ascii "M"); ("build/firmware/raspberry_pi_pico/uart/report.json", ascii "R");
  ("build/firmware/raspberry_pi_pico/uart/artifacts/firmingo_uart.ino.uf2", image)].

Definition disk_env : environment disk_ret := fun _ _ => Ok tt.

(** The archive cannot be renamed. *)
Definition full_disk : environment disk_ret := fun _ c =>
  match c with Disk operation path =>
    if bool_decide (operation = "rename") && bool_decide (path = "dist/firmingo-0.1.0.zip") then Raise (OSError "No space left on device")
    else Ok tt
  end.

(** The archive's rename is interrupted, or it fails and so does taking the tree back. *)
Definition fails_at (e : exn) (also : bool) : environment disk_ret := fun _ c =>
  match c with Disk operation path =>
    if bool_decide (operation = "rename") && bool_decide (path = "dist/firmingo-0.1.0.zip") then Raise e
    else if also && bool_decide (operation = "rmtree") && bool_decide (path = "dist/firmingo-0.1.0") then Raise (OSError "Device not configured")
    else Ok tt
  end.

Definition start : release := {| rl_files := tree; rl_stage := ∅; rl_archive := None |}.
End Demo.
#[local] Existing Instances Demo.codec Demo.packing.

Example package_demo :
  let '(s, r, _) := package (fun _ => true) ["raspberry_pi_pico"] ["uart"] Demo.disk_env [] Demo.start in
  r = Ok "dist/firmingo-0.1.0" /\
  rl_files s !! "dist/firmingo-0.1.0/raspberry_pi_pico/uart/firmingo-0.1.0-raspberry_pi_pico-uart.uf2" = Some Demo.image.
Proof. vm_compute. split; reflexivity. Qed.

Example package_undone :
  let '(s, r, _) := package (fun _ => true) ["raspberry_pi_pico"] ["uart"] Demo.full_disk [] Demo.start in
  r = Raise (OSError "No space left on device") /\ bool_decide (rl_files s = Demo.tree) = true.
Proof. vm_compute. split; reflexivity. Qed.

(** Both exceptions happen: the tree stays without an archive. *)
Definition stays_without_archive (env : environment disk_ret) : bool :=
  let '(s, r, _) := package (fun _ => true) ["raspberry_pi_pico"] ["uart"] env [] Demo.start in
  negb (is_ok r) && bool_decide (rl_files s !! "dist/firmingo-0.1.0.zip" = None) &&
  bool_decide (rl_files s !! "dist/firmingo-0.1.0/raspberry_pi_pico/uart/firmingo-0.1.0-raspberry_pi_pico-uart.uf2" = Some Demo.image).

Example package_stranded :
  forallb stays_without_archive [Demo.fails_at (Exn KKeyboardInterrupt "") false; Demo.fails_at (OSError "No space left on device") true] = true.
Proof. vm_compute. reflexivity. Qed.

Lemma collect_sound_witness :
  collected (fun _ => true) Demo.tree "raspberry_pi_pico" "uart"
    "build/firmware/raspberry_pi_pico/uart/artifacts/firmingo_uart.ino.uf2" Demo.report.
Proof. apply collect_sound. vm_compute. reflexivity. Defined.
