(* ===== verification/Dev.v ===== *)
(** * Baselines and flashing: tools/dev.py

    The manifest and sketch a build starts from, and the copy of a verified image to a mounted bootloader.
    Files are a store as in Release.v; the bootloader volume is part of it, and each operation that changes it
    may fail. *)

From stdpp Require Import base tactics list list_numbers strings gmap.
From Stdlib Require Import ZArith Lia Ascii.
From S2P Require Import Prelude.
From S2P Require Import PyBytes.
From S2P Require Import Sha256.
From S2P Require Import PyStr.
From S2P Require Import PyRegex.
From S2P Require Import PyDict.
From S2P Require Import PyJson.
From S2P Require Import Effects.
From S2P Require Import Ipv4.
From S2P Require Import Stateful.
From S2P Require Import Release.

Local Open Scope Z_scope.

Definition REFERENCE_SKETCHES : dict string :=
  [("local-only", "examples/firmingo_local_only"); ("application", "examples/firmingo_application");
   ("uart", "examples/firmingo_uart")].

(** [Path(path).name] *)
Definition path_name (path : string) : string := default "" (last (split_on "/"%char path)).

Definition manifest_path (board : string) : string := "boards/" +:+ board +:+ "/baseline.json".

(** [value[key]] of a JSON value *)
Definition subscript (v : json) (key : string) : result json :=
  match v with JObj d => ditem d key | _ => Raise (TypeError "object is not subscriptable") end.

(** [ROOT / value] *)
Definition as_path (v : json) : result string :=
  match v with JStr s => mret s | _ => Raise (TypeError "unsupported operand type(s) for /") end.

Section Dev.
Context `{codec : !Json}.

Definition load_manifest (f : files) (board : string) : result (dict json) :=
  manifest ← load f (manifest_path board);
  raise_when (negb (py_eq (jget manifest "board") (JStr board))) (RuntimeError "board manifest identity mismatch: expected");;
  mret manifest.

Definition selected_sketch (manifest : dict json) (firmware : string) : result string :=
  match dget REFERENCE_SKETCHES firmware with
  | Some sketch => mret sketch
  | None =>
      if negb (has_key manifest "sketch") then
        _ ← ditem manifest "board"; Raise (RuntimeError "has no preserved baseline firmware")
      else v ← ditem manifest "sketch"; as_path v
  end.

Definition check_baseline (f : files) (manifest : dict json) : result unit :=
  if negb (has_key manifest "sketch") || negb (has_key manifest "sketch_sha256") then mret tt
  else
    v ← ditem manifest "sketch";
    sketch ← as_path v;
    actual ← digest f (sketch +:+ "/RP2040_USB_NCM_POC.ino");
    expected ← ditem manifest "sketch_sha256";
    raise_when (negb (py_eq (JStr actual) expected))
      (RuntimeError "preserved baseline hash changed; review before updating the manifest").

(** ** Flashing *)
Definition flash_source (f : files) (source : string * json) : result unit :=
  let '(name, expected) := source in
  actual ← digest f name;
  raise_when (negb (py_eq (JStr actual) expected)) (RuntimeError "source changed since build; rebuild first").

(** The image of a current build, and the checks before it is copied to [mount] *)
Definition flash_image (board firmware : string) : result string :=
  sketch ← ditem REFERENCE_SKETCHES firmware;
  mret ("build/firmware/" +:+ board +:+ "/" +:+ firmware +:+ "/artifacts/" +:+ path_name sketch +:+ ".ino.uf2").

(** The sources and the image as the report recorded them *)
Definition check_sources_current (f : files) (report : dict json) : result unit :=
  sources ← ditem report "source_sha256";
  sources ← as_dict sources;
  for_each (flash_source f) sources.

Definition check_artifact (f : files) (report : dict json) (image : string) : result unit :=
  actual ← digest f image;
  artifacts ← ditem report "artifacts";
  artifact ← subscript artifacts (path_name image);
  expected ← subscript artifact "sha256";
  raise_when (negb (py_eq (JStr actual) expected)) (RuntimeError "UF2 hash does not match build report").

Definition check_bootloader (f : files) (mount : string) : result unit :=
  info ← read f (mount +:+ "/INFO_UF2.TXT");
  raise_when (negb (contains "Board-ID: RPI-RP2" (PyStr.text info)))
    (RuntimeError "selected volume does not identify an RP2040 ROM bootloader").

Definition flash_checks (f : files) (board firmware mount : string) : result string :=
  check_bootloader f mount;;
  report ← load f ("build/firmware/" +:+ board +:+ "/" +:+ firmware +:+ "/report.json");
  raise_when (negb (py_eq (jget report "status") (JStr "compile-tested")) || negb (py_eq (jget report "firmware") (JStr firmware)))
    (RuntimeError "a successful build report is required");;
  check_sources_current f report;;
  image ← flash_image board firmware;
  check_artifact f report image;;
  mret image.

(** [with image.open('rb') as source, target.open('wb') as target: ...] *)
Abbreviation dev A := (st disk_ret files A).

Definition change (operation path : string) (effect : files -> files) : dev unit :=
  _ ← st_ask (Disk operation path); st_modify effect.

Definition copy_image (image target : string) : dev unit :=
  f ← st_get;
  data ← st_pure (read f image);
  change "open" target <[target := []]>;;
  change "copy" target <[target := data]>;;
  change "flush" target id;;
  change "fsync" target id.

Definition flash (board firmware mount : string) : dev Z :=
  f ← st_get;
  image ← st_pure (flash_checks f board firmware mount);
  copy_image image (mount +:+ "/FIRMINGO.UF2");;
  mret 0.
End Dev.

(** ** Only a verified image reaches the bootloader *)
Section Checks.
Context (f : files).

(** A mounted ROM bootloader *)
Definition bootloader (mount : string) : Prop :=
  exists info, f !! (mount +:+ "/INFO_UF2.TXT")%string = Some info /\ exists g, occurs (Lit "Board-ID: RPI-RP2") (PyStr.text info) g.

(** Every source of a report has the digest that it records. *)
Definition sources_current (report : dict json) : Prop :=
  exists sources, dget report "source_sha256" = Some (JObj sources) /\
    Forall (fun '(name, recorded) => exists source, f !! name = Some source /\ py_eq (JStr (sha source)) recorded = true) sources.

(** The report records the digest of this image. *)
Definition records_image (report : dict json) (image : string) (data : bytes) : Prop :=
  exists artifacts artifact expected, dget report "artifacts" = Some (JObj artifacts) /\
    dget artifacts (path_name image) = Some (JObj artifact) /\ dget artifact "sha256" = Some expected /\
    py_eq (JStr (sha data)) expected = true.

Lemma digest_Ok path actual : digest f path = Ok actual -> exists data, f !! path = Some data /\ actual = sha data.
Proof. unfold digest, read. destruct (f !! path) as [data|]; [|done]. intros [= <-]. eauto. Qed.

Lemma digest_at path data : f !! path = Some data -> digest f path = Ok (sha data).
Proof. intros H. unfold digest, read. by rewrite H. Qed.

Lemma subscript_Ok v key w : subscript v key = Ok w -> exists d, v = JObj d /\ dget d key = Some w.
Proof. destruct v as [| | | | | |d]; try done. intros H%some_or_Ok. eauto. Qed.

Lemma check_bootloader_iff mount : check_bootloader f mount = Ok tt <-> bootloader mount.
Proof.
  unfold check_bootloader, bootloader. rewrite bind_Ok. setoid_rewrite some_or_Ok. setoid_rewrite raise_when_Ok.
  setoid_rewrite negb_false_iff. by setoid_rewrite found_iff.
Qed.

Lemma flash_source_iff name recorded : flash_source f (name, recorded) = Ok tt <->
  exists source, f !! name = Some source /\ py_eq (JStr (sha source)) recorded = true.
Proof.
  unfold flash_source. rewrite bind_Ok. setoid_rewrite raise_when_Ok. setoid_rewrite negb_false_iff. split.
  - intros (h & (data & Hd & ->)%digest_Ok & H). eauto.
  - intros (data & Hd & H). exists (sha data). split; [by apply digest_at|done].
Qed.

Lemma check_sources_current_iff report : check_sources_current f report = Ok tt <-> sources_current report.
Proof.
  unfold check_sources_current, sources_current. split.
  - intros (v & Hv%some_or_Ok & H)%bind_Ok. apply bind_Ok in H as (sources & Hd & H). destruct v as [| | | | | |d]; try done.
    injection Hd as ->. exists sources. split; [done|]. rewrite for_each_Ok in H. eapply Forall_impl; [exact H|].
    intros [name recorded]. apply flash_source_iff.
  - intros (sources & Hs & H). apply bind_Ok. exists (JObj sources). split; [by apply some_or_Ok|]. apply bind_Ok. exists sources.
    split; [done|]. apply for_each_Ok. eapply Forall_impl; [exact H|]. intros [name recorded]. apply flash_source_iff.
Qed.

Lemma check_artifact_iff report image : check_artifact f report image = Ok tt <->
  exists data, f !! image = Some data /\ records_image report image data.
Proof.
  unfold check_artifact, records_image. split.
  - intros (actual & (data & Hd & ->)%digest_Ok & H)%bind_Ok. apply bind_Ok in H as (artifacts & Ha%some_or_Ok & H).
    apply bind_Ok in H as (artifact & (das & -> & Hart)%subscript_Ok & H).
    apply bind_Ok in H as (expected & (da & -> & He)%subscript_Ok & H%raise_when_Ok%negb_false_iff). exists data. eauto 10.
  - intros (data & Hd & artifacts & artifact & expected & Ha & Hart & He & Hx). apply bind_Ok. exists (sha data).
    split; [by apply digest_at|]. apply bind_Ok. exists (JObj artifacts). split; [by apply some_or_Ok|].
    apply bind_Ok. exists (JObj artifact). split; [by apply some_or_Ok|]. apply bind_Ok. exists expected.
    split; [by apply some_or_Ok|]. apply raise_when_Ok. by rewrite Hx.
Qed.
End Checks.

Section Flash.
Context `{codec : !Json} (env : environment disk_ret) (f : files) (board firmware mount : string).

Record verified_flash (data : bytes) : Prop := {
  flash_bootloader : bootloader f mount;
  flash_report : exists report image,
    load f ("build/firmware/" +:+ board +:+ "/" +:+ firmware +:+ "/report.json") = Ok report /\
    jget report "status" = JStr "compile-tested" /\ jget report "firmware" = JStr firmware /\ sources_current f report /\
    flash_image board firmware = Ok image /\ f !! image = Some data /\ records_image report image data }.

Lemma flash_checks_Ok image : flash_checks f board firmware mount = Ok image ->
  exists data, f !! image = Some data /\ verified_flash data.
Proof.
  unfold flash_checks. intros [Hb%check_bootloader_iff H]%bind_unit. apply bind_Ok in H as (report & Hr & H).
  rewrite raise_when_bind in H. destruct H as [[Hs%negb_false_iff%py_eq_str Hf%negb_false_iff%py_eq_str]%orb_false_iff H].
  apply bind_unit in H as [Hc%check_sources_current_iff H]. apply bind_Ok in H as (image' & Him & H).
  apply bind_unit in H as [(data & Hd & Ha)%check_artifact_iff <-%mret_Ok]. exists data. split; [done|]. constructor; [done|].
  exists report, image'. by split_and!.
Qed.

(** What a copy to the bootloader leaves: nothing changed, or only the target, which is empty or holds the image. *)
Definition copied (target : string) (data : bytes) (s : files) (ok : bool) : Prop :=
  if ok then s = <[target := data]> f else s = f \/ s = <[target := []]> f \/ s = <[target := data]> f.

Definition flashed (s : files) (r : result Z) : Prop :=
  let target := (mount +:+ "/FIRMINGO.UF2")%string in
  (s = f /\ exists e, r = Raise e) \/
  exists data, verified_flash data /\
    match r with Ok code => code = 0 /\ s = <[target := data]> f | Raise _ => s = <[target := []]> f \/ s = <[target := data]> f end.

Lemma change_triple (P Q : files -> Prop) operation path effect : (forall s, P s -> Q (effect s)) ->
  triple env [] (fun s _ => P s) (change operation path effect) (fun _ s _ => Q s) (fun _ s _ => P s).
Proof.
  intros HQ. unfold change. eapply triple_bind with (R := fun _ s _ => P s); [|intros _; apply triple_modify; auto].
  apply triple_ask. intros s k Hs. by destruct (env _ _).
Qed.

Lemma copy_image_triple image target data : f !! image = Some data ->
  triple env [] (fun s _ => s = f) (copy_image image target) (fun _ s _ => copied target data s true) (fun _ s _ => copied target data s false).
Proof.
  intros Hd. unfold copy_image. eapply triple_bind with (R := fun g s _ => g = f /\ s = f); [apply triple_get; by intros s k ->|].
  intros g. apply triple_from. intros s k [-> ->].
  eapply triple_bind with (R := fun x s _ => x = data /\ s = f).
  { apply triple_pure. intros s k' [-> _]. unfold read. by rewrite Hd. }
  intros x. apply triple_from. intros s k' [-> ->].
  eapply triple_bind with (R := fun _ s _ => s = <[target := []]> f).
  { eapply triple_weaken; [apply (change_triple (fun s => s = f) (fun s => s = <[target := []]> f)); by intros s ->| |done|].
    - by intros s k3 [-> _].
    - intros e s k3 ->. by left. }
  intros _. eapply triple_bind with (R := fun _ s _ => s = <[target := data]> f).
  { eapply triple_weaken; [apply (change_triple (fun s => s = <[target := []]> f) (fun s => s = <[target := data]> f))|done|done|].
    - intros s ->. apply insert_insert_eq.
    - intros e s k3 ->. right. by left. }
  assert (Hsync : forall operation, triple env [] (fun s _ => s = <[target := data]> f) (change operation target id)
    (fun _ s _ => s = <[target := data]> f) (fun _ s _ => copied target data s false)).
  { intros operation. eapply triple_weaken; [by apply (change_triple (fun s => s = <[target := data]> f) (fun s => s = <[target := data]> f))|done|done|].
    intros e s k3 ->. right. by right. }
  intros _. eapply triple_bind; [apply Hsync|intros u]. apply Hsync.
Qed.

Lemma flash_triple : triple env [] (fun s _ => s = f) (flash board firmware mount) (fun code s _ => flashed s (Ok code))
  (fun e s _ => flashed s (Raise e)).
Proof.
  unfold flash. eapply triple_bind with (R := fun g s _ => g = f /\ s = f); [apply triple_get; by intros s k ->|]. intros g.
  apply triple_from. intros s k [-> ->].
  eapply triple_bind with (R := fun image s _ => s = f /\ flash_checks f board firmware mount = Ok image).
  { apply triple_pure. intros s k' [-> _]. destruct (flash_checks _ _ _ _); [done|]. left. eauto. }
  intros image. apply triple_from. intros s k' [-> (data & Hd & Hv)%flash_checks_Ok].
  eapply triple_bind with (R := fun _ s _ => copied (mount +:+ "/FIRMINGO.UF2") data s true).
  - eapply triple_weaken; [by apply (copy_image_triple image (mount +:+ "/FIRMINGO.UF2") data)|by intros s k2 [-> _]|done|].
    intros e s k2 [Hs|Hs]; [left; by eauto|right; by exists data].
  - intros _. apply triple_ret. intros s k3 Hs. right. by exists data.
Qed.
End Flash.

(** Flashing never puts an unverified image on the bootloader: it either leaves every file as it was and fails, or
    the volume identified itself as an RP2040 bootloader, the current build report covers unchanged sources, and the only
    file that changed is the target; the target then holds exactly the image whose digest the report records, or is
    empty when the disk failed before the copy. *)
Theorem flash_only_verified `{codec : !Json} env f board firmware mount :
  let '(s, r, _) := flash board firmware mount env [] f in flashed f board firmware mount s r.
Proof.
  pose proof (flash_triple env f board firmware mount f [] eq_refl) as H. cbn [app] in H.
  destruct (flash board firmware mount env [] f) as [[s [code|e]] n]; exact H.
Qed.

(** ** A mounted bootloader *)
Definition demo_volume : files :=
  <["/Volumes/RPI-RP2/INFO_UF2.TXT" := ascii "Board-ID: RPI-RP2"]> Demo.tree.
#[local] Existing Instances Demo.codec.

Example flash_demo :
  let '(s, r, _) := flash "raspberry_pi_pico" "uart" "/Volumes/RPI-RP2" Demo.disk_env [] demo_volume in
  r = Ok 0 /\ s !! "/Volumes/RPI-RP2/FIRMINGO.UF2" = Some Demo.image.
Proof. vm_compute. split; reflexivity. Qed.

Example flash_refused :
  let '(s, r, _) := flash "raspberry_pi_pico" "uart" "/Volumes/USB" Demo.disk_env [] (<["/Volumes/USB/INFO_UF2.TXT" := []]> demo_volume) in
  r = Raise (RuntimeError "selected volume does not identify an RP2040 ROM bootloader").
Proof. vm_compute. reflexivity. Qed.
