(* ===== verification/NcmBurst.v ===== *)
(** * The NCM burst check: tools/ncm_burst.py

    One session echoes exact bytes while a second one sends a burst of large invalid requests, so that the
    device's network worker runs out of its budget. The report and the exit code are the state; instants are
    nanoseconds. The two threads of the pool talk to different devices of the bench ([both]); they meet at a
    barrier, before which only the burst thread computes. *)

From stdpp Require Import base tactics list list_numbers strings.
From Stdlib Require Import ZArith Lia.
From S2P Require Import Prelude.
From S2P Require Import PyBytes.
From S2P Require Import Sha256.
From S2P Require Import PyText.
From S2P Require Import PyStr.
From S2P Require Import PyDict.
From S2P Require Import PyJson.
From S2P Require Import Effects.
From S2P Require Import Stateful.
From S2P Require Import Stages.
From S2P Require Import Soak.
From S2P Require Import Sockets.
From S2P Require Import SessionSmoke.
From S2P Require Import Bench.
From S2P Require Import Upload.

Local Open Scope Z_scope.

(** ** The burst *)

(** [{"op":"device.diagnostics","channel_id":1] and the blanks that fill the payload *)
Definition burst_prefix : bytes :=
  ascii "{" ++ quoted "op" ++ ascii ":" ++ quoted "device.diagnostics" ++ ascii "," ++ quoted "channel_id" ++ ascii ":1".
Definition burst_suffix : bytes := ascii "}".
Definition burst_payload (payload_bytes : Z) : bytes :=
  burst_prefix ++ fill Byte.x20 (payload_bytes - blen burst_prefix - blen burst_suffix) ++ burst_suffix.

(** The wire, the request numbers, and the session with the numbers it has used. *)
Definition invalid_diagnostics_frames (p : probe) (count payload_bytes : Z) : result (bytes * list Z * probe) :=
  let request_ids := seqZ (p_next_request p) count in
  frames ← mapM (fun request_id => frame 1 request_id (burst_payload payload_bytes)) request_ids;
  mret (concat frames, request_ids,
        {| p_timeout := p_timeout p; p_next_request := p_next_request p + Z.max 0 count; p_hello := p_hello p |}).

(** The result of the burst; of the responses, the code reports the number. *)
Record burst_result := { br_wire_bytes : Z; br_requests : Z; br_responses : list (Z * json); br_seconds : Z }.

(** The error code of an answer, when it is the one the burst expects. *)
Definition check_answer (expected_id kind actual_id : Z) (payload : json) : result json :=
  code ← match payload with
         | JObj d => error ← as_dict (jget_or d "error" (JObj [])); mret (jget error "code")
         | _ => mret JNull
         end;
  raise_when (negb (kind =? 2) || negb (actual_id =? expected_id)) (RuntimeError "unexpected burst response for request");;
  d ← as_dict payload;
  raise_when (negb (is_bool false (jget d "ok")) || negb (py_eq code (JStr "invalid_argument")))
    (RuntimeError "unexpected burst response for request");;
  mret code.

Section Burst.
Context `{codec : !Json}.

Definition burst_turn (deadline : Z) (responses : list (Z * json)) (expected_id : Z) : sio (list (Z * json)) :=
  header ← _exact 16 deadline;
  ' (kind, actual_id, size) ← io_pure (decode_header header);
  data ← _exact size deadline;
  payload ← io_pure (json_loads data);
  code ← io_pure (check_answer expected_id kind actual_id payload);
  mret (responses ++ [(actual_id, code)]).

(** [send_invalid_burst] after the barrier *)
Definition send_invalid_burst (timeout : Z) (wire : bytes) (request_ids : list Z) : sio burst_result :=
  started ← ask Monotonic;
  _ ← ask (SetTimeout timeout);
  _ ← ask (SendAll wire);
  let deadline := started + timeout in
  responses ← io_fold (burst_turn deadline) [] request_ids;
  now ← ask Monotonic;
  mret {| br_wire_bytes := blen wire; br_requests := blen request_ids; br_responses := responses; br_seconds := now - started |}.
End Burst.

(** Two threads that talk to different devices, awaited by the pool. What a thread sees is the history of
    its own device, so the calls of one may be listed before those of the other. *)
Definition both {R A B} (d1 d2 : device) (m1 : sio A) (m2 : sio B) : io (bench_ret (R := R)) (result A * result B) :=
  fun env h =>
  let '(r1, k1) := m1 (view env h d1) [] in
  let '(r2, k2) := m2 (view env (h ++ tag d1 k1) d2) [] in
  (Ok (r1, r2), tag d1 k1 ++ tag d2 k2).

(** ** The check *)
Record burst_args := {
  u_address : string; u_device_id : string; u_board : string; u_firmware_sha256 : string; u_output : string;
  u_timeout : Z; u_control_frames : Z; u_control_payload : Z; u_echo_bytes : Z }.

Definition check_burst_args (a : burst_args) : result unit :=
  raise_when (negb (fullmatch is_hex_lower 64 (u_firmware_sha256 a)))
    (Exn KSystemExit "firmware SHA-256 must be 64 lowercase hex digits");;
  for_each (fun '(name, value, low, high) =>
      raise_when (negb ((low <=? value) && (value <=? high))) (Exn KSystemExit (name +:+ " must be " +:+ str_int low +:+ ".." +:+ str_int high)))
    [("timeout", u_timeout a, 1, 60); ("control frames", u_control_frames a, 1, 64);
     ("control payload", u_control_payload a, 128, 4096); ("echo bytes", u_echo_bytes a, 1, 262144)].

(** What the report holds: JSON values, and the results of the two threads. *)
Inductive entry := Plain (v : json) | Echoed (e : echo_result) | Bursted (b : burst_result).

(** The state: the report and [exit_code]. *)
Record burst_state := { n_report : dict entry; n_exit : Z }.

Definition burst_report (a : burst_args) (started_utc : string) : dict entry :=
  [("status", Plain (JStr "running"));
   ("purpose", Plain (JStr "single bounded concurrent burst intended to exercise the NCM receive-worker budget path"));
   ("address", Plain (JStr (u_address a))); ("device_id", Plain (JStr (u_device_id a))); ("board", Plain (JStr (u_board a)));
   ("declared_firmware_sha256", Plain (JStr (u_firmware_sha256 a)));
   ("firmware_hash_verified_on_device", Plain (JBool false)); ("control_frames", Plain (JInt (u_control_frames a)));
   ("control_payload_bytes", Plain (JInt (u_control_payload a))); ("echo_bytes", Plain (JInt (u_echo_bytes a)));
   ("started_utc", Plain (JStr started_utc))].

Definition burst_target (version : string) (a : burst_args) : target := {|
  t_address := u_address a; t_device_id := u_device_id a; t_board := u_board a; t_port := 7420; t_version := version;
  t_backend := "application"; t_timeout := u_timeout a * second; t_targets := [] |}.

Definition burst_seed : Z := 0x4E434D34.
Definition channel : dict json := [("channel_id", JInt 1)].

(** The difference of two counters of the diagnostics, which hold integers. *)
Definition count_delta (after before : dict json) (name : string) : result Z :=
  a ← ditem after name;
  b ← ditem before name;
  match a, b with JInt a, JInt b => mret (a - b) | _, _ => Raise (TypeError "unsupported operand type(s) for -") end.

Definition expected_status (echo_bytes : Z) : dict json :=
  [("channel_id", JInt 1); ("backend_rx_bytes", JInt echo_bytes); ("backend_tx_bytes", JInt echo_bytes);
   ("pending_to_backend", JInt 0); ("pending_to_peer", JInt 0)].

Section Check.
Context `{codec : !Json} (randbytes : Z -> Z -> bytes) (fuel : nat).

Abbreviation np A := (st (bench_ret (R := dict entry)) burst_state A).

Definition note (key : string) (v : entry) : np unit :=
  st_modify (fun s => {| n_report := dset (n_report s) key v; n_exit := n_exit s |}).
Definition set_exit (code : Z) : np unit := st_modify (fun s => {| n_report := n_report s; n_exit := code |}).

(** [diagnostics(observer, previous)] *)
Definition read_diagnostics (p : probe) (previous : dict json) : np (dict json * probe) :=
  ' (value, p) ← probe_command Observer p "device.diagnostics" None [];
  d ← st_pure (check_diagnostics value previous);
  mret (d, p).

(** The pool. When the burst cannot be prepared, the echo waits at the barrier for ever: such a run has no
    outcome, which [OutOfFuel] stands for. *)
Definition echo_and_burst (a : burst_args) (owner observer : probe) : np probe :=
  match invalid_diagnostics_frames observer (u_control_frames a) (u_control_payload a) with
  | Raise _ => st_raise OutOfFuel
  | Ok (wire, request_ids, observer) =>
      ' (echoed, bursted) ← st_io (both Nano Observer
        (echo randbytes fuel owner (u_echo_bytes a) true (Some burst_seed) 150000000)
        (send_invalid_burst (p_timeout observer) wire request_ids));
      echoed ← st_pure echoed;
      note "echo" (Echoed echoed);;
      bursted ← st_pure bursted;
      note "control_burst" (Bursted bursted);;
      mret observer
  end.

(** The two sessions up to their end: the diagnostics before and after. *)
Definition burst_exchange (a : burst_args) (owner observer : probe) : np (dict json * dict json) :=
  note "hello" (Plain (JObj (p_hello owner)));;
  st_pure (same_boot "boot ID changed between concurrent connections" owner observer);;
  ' (before, observer) ← read_diagnostics observer [];
  note "initial_diagnostics" (Plain (JObj before));;
  ' (_, owner) ← probe_command Nano owner "serial.open" None channel;
  observer ← echo_and_burst a owner observer;
  ' (status, owner) ← probe_command Nano owner "serial.status" None channel;
  note "backend_status" (Plain (JObj status));;
  st_pure (raise_when (negb (py_eq (JObj status) (JObj (expected_status (u_echo_bytes a)))))
    (RuntimeError "backend status mismatch"));;
  ' (after, observer) ← read_diagnostics observer before;
  note "final_diagnostics" (Plain (JObj after));;
  ' (_, owner) ← probe_command Nano owner "serial.close" None channel;
  dev Nano (finish owner);;
  dev Observer (finish observer);;
  mret (before, after).

(** The verdict on the counters; the result is the exit code it sets. *)
Definition burst_verdict (before after : dict json) : np Z :=
  exhausted ← st_pure (count_delta after before "ncm_budget_exhaustions");
  wakes ← st_pure (count_delta after before "ncm_wake_requests");
  note "counter_delta" (Plain (JObj [("ncm_budget_exhaustions", JInt exhausted); ("ncm_wake_requests", JInt wakes)]));;
  if (exhausted =? 0) && (wakes =? 0) then
    note "status" (Plain (JStr "not_exercised"));;
    note "note" (Plain (JStr "byte/control checks passed, but the NCM budget branch did not run"));;
    set_exit 2;; mret 2
  else
    st_pure (raise_when (negb (exhausted =? wakes)) (RuntimeError "budget/wake counter mismatch"));;
    note "status" (Plain (JStr "passed"));;
    set_exit 0;; mret 0.

Definition burst_body (version : string) (a : burst_args) : np Z :=
  _ ← st_ask (CreateNew (u_output a));
  with_probe Nano (burst_target version a) (fun owner =>
    with_probe Observer (burst_target version a) (fun observer =>
      ' (before, after) ← burst_exchange a owner observer;
      burst_verdict before after)).

Definition burst_failed (e : exn) : np Z :=
  note "status" (Plain (JStr "failed"));;
  note "error" (Plain (JStr (repr_exn e)));;
  mret 1.

Definition burst_finally (a : burst_args) : np unit :=
  finished_utc ← st_ask UtcTime;
  note "finished_utc" (Plain (JStr finished_utc));;
  there ← st_ask (OutputExists (u_output a));
  if (there : bool) then s ← st_get; st_ask (SaveReport (u_output a) (n_report s)) else mret tt.

(** [main] after the arguments are parsed; [version] is FIRMWARE_VERSION of tools/session_smoke.py. *)
Definition ncm_main (version : string) (a : burst_args) : np Z :=
  st_pure (check_burst_args a);;
  started_utc ← st_ask UtcTime;
  st_modify (fun _ => {| n_report := burst_report a started_utc; n_exit := 1 |});;
  _ ← st_finally (st_try (burst_body version a) is_exception burst_failed) (burst_finally a);
  s ← st_get;
  mret (n_exit s).
(** The script kept with the evidence of v4 is a copy of the same file. *)
Definition application_v4_ncm_burst_tool (version : string) (a : burst_args) : np Z := ncm_main version a.
End Check.

(** ** The burst is prepared, sent and answered exactly *)

(** One request of the burst on the wire. *)
Definition burst_frame (payload_bytes request_id : Z) : bytes :=
  header_bytes 1 request_id payload_bytes ++ burst_payload payload_bytes.

Lemma blen_burst_payload payload_bytes : 42 <= payload_bytes -> blen (burst_payload payload_bytes) = payload_bytes.
Proof.
  intros Hp. assert (Hx : blen burst_prefix = 41) by reflexivity. assert (Hs : blen burst_suffix = 1) by reflexivity.
  unfold burst_payload. rewrite !blen_app, blen_fill, Hx, Hs; lia.
Qed.

(** Arguments in range always prepare the burst. *)
Lemma burst_prepared p count payload_bytes :
  0 <= count -> 42 <= payload_bytes <= MAX_PAYLOAD -> 0 <= p_next_request p -> p_next_request p + count <= 2 ^ 32 ->
  let ids := seqZ (p_next_request p) count in
  invalid_diagnostics_frames p count payload_bytes =
    Ok (concat (burst_frame payload_bytes <$> ids), ids,
        {| p_timeout := p_timeout p; p_next_request := p_next_request p + count; p_hello := p_hello p |}).
Proof.
  intros Hc Hb Hn Hm ids. unfold invalid_diagnostics_frames. fold ids.
  assert (E : mapM (fun id => frame 1 id (burst_payload payload_bytes)) ids = Ok (burst_frame payload_bytes <$> ids)).
  { rewrite mapM_Ok, Forall2_fmap_r. apply Forall_Forall2_diag, Forall_forall. intros id Hid%elem_of_seqZ.
    apply frame_Ok; [lia|unfold u32_value; lia|]. unfold burst_frame. rewrite blen_burst_payload by lia. split; [lia|done]. }
  rewrite E. simpl. by rewrite Z.max_r.
Qed.

Lemma burst_wire_length payload_bytes ids : 42 <= payload_bytes ->
  blen (concat (burst_frame payload_bytes <$> ids)) = (16 + payload_bytes) * blen ids.
Proof.
  intros Hp. induction ids as [|id ids IH]; [unfold blen; simpl; lia|].
  rewrite fmap_cons. cbn [concat]. rewrite blen_app, IH. unfold burst_frame at 1.
  rewrite blen_app, blen_header_bytes, blen_burst_payload by done. unfold blen. cbn [length]. lia.
Qed.

(** A response that refuses the request [id] as invalid. *)
Definition refusal `{codec : !Json} (id : Z) (text : bytes) : Prop :=
  exists d error, json_loads text = Ok (JObj d) /\ dget d "ok" = Some (JBool false) /\
    dget d "error" = Some (JObj error) /\ dget error "code" = Some (JStr "invalid_argument").

Lemma check_answer_Ok expected_id kind actual_id payload code : check_answer expected_id kind actual_id payload = Ok code ->
  kind = 2 /\ actual_id = expected_id /\ code = JStr "invalid_argument" /\
  exists d error, payload = JObj d /\ dget d "ok" = Some (JBool false) /\ dget d "error" = Some (JObj error) /\
    dget error "code" = Some (JStr "invalid_argument").
Proof.
  unfold check_answer. intros (c & Hc & H)%bind_Ok. apply raise_when_bind in H as [H1 H].
  apply bind_Ok in H as (d & Hd & H). apply raise_when_bind in H as [H2 H]. apply mret_Ok in H as ->.
  breflect. destruct H1 as [-> ->]. destruct H2 as [Ho%is_bool_true Hcode%py_eq_str].
  destruct payload as [| | | | | |d']; try done. injection Hd as ->. split_and!; [done..|]. exists d.
  apply bind_Ok in Hc as (error & He & [= Hc]%mret_Ok). unfold jget_or in He.
  destruct (dget d "error") as [v|] eqn:Ed; simpl in He.
  - destruct v; try done. injection He as ->. exists error.
    split_and!; [done|by apply jget_dget|done|]. apply jget_dget; [by rewrite Hc|done].
  - injection He as <-. rewrite <- Hc in Hcode. done.
Qed.

Section BurstSent.
Context `{codec : !Json} (env : environment sock_ret) `{!Socket env}.

Definition answer (id : Z) (text : bytes) : bytes := header_bytes 2 id (blen text) ++ text.

Lemma burst_turn_Ok deadline responses id h responses' n :
  runs env h (burst_turn deadline responses id) (Ok responses') n ->
  sent env h n = [] /\ responses' = responses ++ [(id, JStr "invalid_argument")] /\
  exists text, received env h n = answer id text /\ refusal id text.
Proof.
  unfold burst_turn. intros (header & n1 & n2 & H1 & H & ->)%runs_bind_Ok.
  apply (_exact_Ok env) in H1 as (Hr1 & Hs1 & Hl1); [|done..].
  apply runs_bind_Ok in H as ([[kind actual] size] & m1 & m2 & [Hd ->]%runs_pure & H & ->). symmetry in Hd.
  apply decode_header_Ok in Hd as (Hh & _ & _ & Hsz).
  apply runs_bind_Ok in H as (data & m1 & m3 & H2 & H & ->). apply (_exact_Ok env) in H2 as (Hr2 & Hs2 & Hl2); [|done|lia].
  apply runs_bind_Ok in H as (payload & m4 & m5 & [Hj ->]%runs_pure & H & ->).
  apply runs_bind_Ok in H as (code & m4 & m6 & [Hc ->]%runs_pure & [[= ->] ->]%runs_ret & ->).
  symmetry in Hj, Hc. apply check_answer_Ok in Hc as (-> & -> & -> & d & error & -> & Hd).
  cbn [app] in *. rewrite !app_nil_r in *. rewrite sent_app, received_app, Hs1, Hs2, Hr1, Hr2. split_and!; [done..|].
  exists data. split; [unfold answer; by rewrite Hl2, Hh|]. exists d, error. by split_and!; try apply Hd.
Qed.

Lemma burst_turns_Ok deadline ids responses h responses' n :
  runs env h (io_fold (burst_turn deadline) responses ids) (Ok responses') n ->
  sent env h n = [] /\ responses' = responses ++ ((fun id => (id, JStr "invalid_argument")) <$> ids) /\
  exists texts, Forall2 refusal ids texts /\ received env h n = concat (zip_with answer ids texts).
Proof.
  revert responses h n. induction ids as [|id ids IH]; intros responses h n; cbn [io_fold].
  - intros [[= ->] ->]%runs_pure. rewrite app_nil_r. split_and!; [done..|]. exists []. by split.
  - intros (r1 & n1 & n2 & H1 & H2 & ->)%runs_bind_Ok. apply burst_turn_Ok in H1 as (Hs1 & -> & text & Hr1 & Ht).
    apply IH in H2 as (Hs2 & -> & texts & Hts & Hr2). rewrite sent_app, received_app, Hs1, Hs2, Hr1, Hr2.
    split_and!; [done|by rewrite <- app_assoc|]. exists (text :: texts). split; [by constructor|done].
Qed.

Lemma send_invalid_burst_Ok timeout wire ids h res n :
  runs env h (send_invalid_burst timeout wire ids) (Ok res) n ->
  sent env h n = wire /\ br_wire_bytes res = blen wire /\ br_requests res = blen ids /\
  br_responses res = (fun id => (id, JStr "invalid_argument")) <$> ids /\
  exists texts, Forall2 refusal ids texts /\ received env h n = concat (zip_with answer ids texts).
Proof.
  unfold send_invalid_burst. intros (started & n1 & n2 & H1 & H & ->)%runs_bind_Ok.
  apply (runs_ask env h Monotonic) in H1 as [_ ->].
  apply runs_bind_Ok in H as (u & m1 & m2 & H1 & H & ->). apply (runs_ask env _ (SetTimeout _)) in H1 as [_ ->].
  apply runs_bind_Ok in H as (u2 & m1 & m3 & H1 & H & ->). apply (runs_ask env _ (SendAll _)) in H1 as [Hs ->].
  apply runs_bind_Ok in H as (responses & m4 & m5 & H1 & H & ->). apply burst_turns_Ok in H1 as (Hs2 & Hr & texts & Ht & Hx).
  apply runs_bind_Ok in H as (now & m6 & m7 & H1 & [[= ->] ->]%runs_ret & ->). apply (runs_ask env _ Monotonic) in H1 as [_ ->].
  cbn [br_wire_bytes br_requests br_responses]. rewrite Hr.
  calls_norm. cbn [app] in *.
  change (Monotonic :: SetTimeout timeout :: SendAll wire :: m4 ++ [Monotonic])
    with ([Monotonic; SetTimeout timeout] ++ [SendAll wire] ++ m4 ++ [Monotonic]).
  rewrite !sent_app, !received_app, <- !app_assoc. cbn [app]. rewrite Hs2, Hx, !sent_one, !received_one. simpl.
  rewrite <- Hs, !app_nil_r.
  split_and!; [done..|]. by exists texts.
Qed.
End BurstSent.

(** ** What a run that exercised the burst leaves in the calls *)
Section BurstStages.
Context `{codec : !Json} (randbytes : Z -> Z -> bytes) (fuel : nat).
Context (env : environment (bench_ret (R := dict entry))) `{!Bench env}.

Local Abbreviation staged := (staged (S := burst_state)).
Abbreviation nstage := (@stage (bench_call (dict entry))).

(** The owner's session carried exactly the seeded bytes, both ways. *)
Definition owner_echoed (count : Z) : nstage := fun h n =>
  exists k chunks, n = tag Nano k /\
    sent (view env h Nano) [] k = concat (data_frame <$> pieces 2048 (randbytes burst_seed count)) /\
    Forall carried chunks /\ received (view env h Nano) [] k = concat (data_frame <$> chunks) /\
    concat chunks = randbytes burst_seed count.

(** The second session sent the whole burst, and every request was refused, in order. *)
Definition burst_refused (payload_bytes : Z) (ids : list Z) : nstage := fun h n =>
  exists k texts, n = tag Observer k /\ sent (view env h Observer) [] k = concat (burst_frame payload_bytes <$> ids) /\
    Forall2 refusal ids texts /\ received (view env h Observer) [] k = concat (zip_with answer ids texts).

Lemma both_runs {A B} d1 d2 (m1 : sio A) (m2 : sio B) h r n :
  runs env h (both d1 d2 m1 m2) r n -> exists r1 r2 k1 k2, r = Ok (r1, r2) /\ n = tag d1 k1 ++ tag d2 k2 /\
    runs (view env h d1) [] m1 r1 k1 /\ runs (view env (h ++ tag d1 k1) d2) [] m2 r2 k2.
Proof.
  unfold runs, both. destruct (m1 _ []) as [r1 k1]. destruct (m2 _ []) as [r2 k2] eqn:E. intros [= <- <-].
  by exists r1, r2, k1, k2.
Qed.

(** The parts of the two threads, when both succeed. *)
Lemma both_staged {A B} d1 d2 (m1 : sio A) (m2 : sio B) (Q1 : A -> nstage) (Q2 : B -> nstage) :
  (forall h k a, runs (view env h d1) [] m1 (Ok a) k -> Q1 a h (tag d1 k)) ->
  (forall h k b, runs (view env h d2) [] m2 (Ok b) k -> Q2 b h (tag d2 k)) ->
  staged env (st_io (both d1 d2 m1 m2)) (fun '(r1, r2) l => forall a b, r1 = Ok a -> r2 = Ok b -> l = [Q1 a; Q2 b]).
Proof.
  intros H1 H2 h s s' [r1 r2] n. unfold st_io. destruct (both d1 d2 m1 m2 env h) as [r k] eqn:E. intros [= _ -> <-].
  apply both_runs in E as (r1' & r2' & k1 & k2 & [= <- <-] & -> & Hr1 & Hr2).
  destruct r1 as [a|e]; [destruct r2 as [b|e]|].
  2,3: exists []; split; [intros a' b' E1 E2; congruence|apply stages_none].
  exists [Q1 a; Q2 b]. split; [by intros a' b' [= ->] [= ->]|].
  apply (stages_app _ _ _ [_] [_]); apply stages_one; auto.
Qed.

Lemma echo_and_burst_staged a owner observer :
  check_burst_args a = Ok tt -> p_next_request observer = 3 ->
  staged env (echo_and_burst randbytes fuel a owner observer) (fun observer' l =>
    l = [owner_echoed (u_echo_bytes a); burst_refused (u_control_payload a) (seqZ 3 (u_control_frames a))]).
Proof.
  intros Ha Hn. unfold check_burst_args in Ha. apply raise_when_bind in Ha as [_ Ha].
  apply for_each_Ok in Ha. rewrite !Forall_cons in Ha. destruct Ha as (_ & Hf & Hp & _).
  apply raise_when_Ok in Hf, Hp. breflect.
  unfold echo_and_burst. rewrite burst_prepared by (unfold MAX_PAYLOAD; lia). rewrite Hn. cbv zeta.
  eapply staged_bind; [apply both_staged with
    (Q1 := fun _ => owner_echoed (u_echo_bytes a)) (Q2 := fun _ => burst_refused (u_control_payload a) (seqZ 3 (u_control_frames a)))|].
  - intros h k res H. apply (session_echo_Ok (view env h Nano)) in H as (_ & _ & _ & Hs & chunks & Hc & Hr & Hx); [|exact _].
    by exists k, chunks.
  - intros h k res H. apply (send_invalid_burst_Ok (view env h Observer)) in H as (Hs & _ & _ & _ & texts & Ht & Hr).
    by exists k, texts.
  - intros [r1 r2] l1 H1. staged_value x Hx. staged_leave. staged_value y Hy. staged_leave.
    eapply staged_weaken; [apply staged_ret|]. intros ? l2 [_ ->]. rewrite !app_nil_r. by apply (H1 x y).
Qed.

Definition diagnosed (d : device) (value : dict json) : nstage := answered env d "device.diagnostics" None [] value.

Lemma read_diagnostics_staged p previous :
  staged env (read_diagnostics p previous) (fun '(d, p') l =>
    exists value, l = [diagnosed Observer value] /\ check_diagnostics value previous = Ok d /\ p' = next_probe p).
Proof.
  unfold read_diagnostics. eapply staged_bind; [apply (probe_command_numbered env)|]. intros [value p'] l1 [-> ->].
  staged_value d Hd. eapply staged_weaken; [apply staged_ret|]. intros [d' p'] l2 [[= -> ->] ->]. by exists value.
Qed.

(** What the two sessions have done when they end. *)
Definition exchanged (a : burst_args) (owner observer : probe) (before after : dict json) (l : list nstage) : Prop :=
  exists first open1 status last closed,
    py_eq (jget (p_hello observer) "boot_id") (jget (p_hello owner) "boot_id") = true /\
    check_diagnostics first [] = Ok before /\ check_diagnostics last before = Ok after /\
    py_eq (JObj status) (JObj (expected_status (u_echo_bytes a))) = true /\
    l = [diagnosed Observer first; answered env Nano "serial.open" None channel open1; owner_echoed (u_echo_bytes a);
         burst_refused (u_control_payload a) (seqZ 3 (u_control_frames a));
         answered env Nano "serial.status" None channel status; diagnosed Observer last;
         answered env Nano "serial.close" None channel closed].

Lemma burst_exchange_staged a owner observer :
  check_burst_args a = Ok tt -> p_next_request observer = 2 ->
  staged env (burst_exchange randbytes fuel a owner observer) (fun '(before, after) => exchanged a owner observer before after).
Proof.
  intros Ha Hn. unfold burst_exchange. staged_leave. staged_check Hb. apply same_boot_Ok in Hb.
  eapply staged_bind; [apply read_diagnostics_staged|]. intros [before observer1] l1 (first & -> & Hf & ->). staged_leave.
  eapply staged_bind; [apply (probe_command_staged env)|]. intros [open1 owner1] l2 [-> _].
  eapply staged_bind; [apply echo_and_burst_staged; [done|simpl; lia]|]. intros observer2 l3 ->.
  eapply staged_bind; [apply (probe_command_staged env)|]. intros [status owner2] l4 [-> _]. staged_leave.
  staged_check Hs. apply raise_when_Ok, negb_false_iff in Hs.
  eapply staged_bind; [apply read_diagnostics_staged|]. intros [after observer3] l5 (last & -> & Hl & ->). staged_leave.
  eapply staged_bind; [apply (probe_command_staged env)|]. intros [closed owner3] l6 [-> _]. do 2 staged_leave.
  eapply staged_weaken; [apply staged_ret|]. intros [b a'] l7 [[= -> ->] ->].
  exists first, open1, status, last, closed. split_and!; done.
Qed.

(** The code, by the growth of the two counters. *)
Definition verdict (code : Z) (before after : dict json) : Prop :=
  exists exhausted wakes, count_delta after before "ncm_budget_exhaustions" = Ok exhausted /\
    count_delta after before "ncm_wake_requests" = Ok wakes /\
    (code = 2 /\ exhausted = 0 /\ wakes = 0 \/ code = 0 /\ exhausted = wakes /\ 0 < exhausted).

Lemma count_delta_grows value before after name z :
  check_diagnostics value before = Ok after -> name ∈ lifetime -> count_delta after before name = Ok z -> 0 <= z.
Proof.
  intros Hc%check_diagnostics_Ok Hn. unfold count_delta. intros (x & Hx%some_or_Ok & H)%bind_Ok.
  apply bind_Ok in H as (y & Hy%some_or_Ok & H). destruct x; try done. destruct y; try done. apply mret_Ok in H as <-.
  assert (Hp : before <> []) by (intros ->; done).
  destruct (sd_history _ _ Hc Hp) as (_ & _ & _ & Hg). specialize (Hg name). unfold count_of, jget in Hg.
  rewrite Hx, Hy in Hg. simpl in Hg. assert (z1 <= z0); [|lia]. apply Hg; [|by apply bool_decide_eq_true; eauto|done].
  apply has_key_spec, bool_decide_eq_true. eauto.
Qed.

Lemma burst_verdict_staged value before after : check_diagnostics value before = Ok after ->
  staged env (burst_verdict before after) (fun code l => verdict code before after /\ l = []).
Proof.
  intros Hc. unfold burst_verdict. staged_value exhausted He. staged_value wakes Hw. staged_leave.
  destruct (_ && _) eqn:E.
  - do 3 staged_leave. eapply staged_weaken; [apply staged_ret|]. intros code l [-> ->]. breflect.
    split; [|done]. exists exhausted, wakes. split_and!; [done..|]. left. destruct E. lia.
  - staged_check Hx. apply raise_when_Ok in Hx. do 2 staged_leave.
    eapply staged_weaken; [apply staged_ret|]. intros code l [-> ->]. breflect.
    split; [|done]. exists exhausted, wakes. split_and!; [done..|]. right.
    assert (0 <= exhausted) by (apply (count_delta_grows _ _ _ _ _ Hc) in He; [done|in_list]).
    split_and!; [done|done|]. destruct E; lia.
Qed.

(** The stages of a run with exit code [code]. *)
Definition passing_burst (version : string) (a : burst_args) (code : Z) (l : list nstage) : Prop :=
  exists owner observer before after k, exchanged a owner observer before after k /\ verdict code before after /\
    l = opened env Nano (burst_target version a) owner :: opened env Observer (burst_target version a) observer :: k.

Lemma burst_body_staged version a : check_burst_args a = Ok tt ->
  staged env (burst_body randbytes fuel version a) (passing_burst version a).
Proof.
  intros Ha. unfold burst_body. staged_leave. apply (with_probe_fresh env). intros owner _.
  apply (with_probe_fresh env). intros observer (_ & _ & Hn).
  eapply staged_bind; [by apply burst_exchange_staged|]. intros [before after] k Hk.
  destruct Hk as (first & open1 & status & last & closed & Hb & Hf & Hl & Hk).
  eapply staged_weaken; [by eapply burst_verdict_staged|]. intros code l [Hv ->]. rewrite app_nil_r.
  exists owner, observer, before, after, k. split_and!; [|done|done]. exists first, open1, status, last, closed. split_and!; done || apply Hk.
Qed.
End BurstStages.

(** ** The report, the exit code and the evidence *)
(** Run the steps that only touch the state. *)
Ltac run_steps :=
  unfold note, set_exit, st_modify, mbind, st_mbind, st_bind, mret, st_ret, st_pure, raise_when; cbn -[dget dset].

Section BurstOutcome.
Context `{codec : !Json} (randbytes : Z -> Z -> bytes) (fuel : nat).
Context (env : environment (bench_ret (R := dict entry))).

(** Closing a session raised [e]. *)
Definition closing_failed (e : exn) : Prop := exists k d, env k (Dev d CloseSocket) = Raise e.

(** Nothing has been decided yet. *)
Definition undecided (s : burst_state) (_ : list (bench_call (dict entry))) : Prop :=
  n_exit s = 1 /\ dget (n_report s) "error" = None.

(** What the state says when the body returned [code]. *)
Definition decided (code : Z) (s : burst_state) (_ : list (bench_call (dict entry))) : Prop :=
  n_exit s = code /\ dget (n_report s) "error" = None /\
  dget (n_report s) "status" = Some (Plain (JStr (if code =? 0 then "passed" else "not_exercised"))) /\ (code = 0 \/ code = 2).

Definition broken (e : exn) (s : burst_state) (_ : list (bench_call (dict entry))) : Prop :=
  n_exit s = 1 \/ closing_failed e.

Local Abbreviation kept m := (keeps env [] undecided m).

Lemma kept_io {A} (m : io bench_ret A) : kept (st_io m).
Proof. apply triple_io. by intros s k [a|e] n Hs _. Qed.

Lemma kept_note key v : key <> "error" -> kept (note key v).
Proof.
  intros Hk. apply keeps_modify. intros s k [Hx He]. split; [done|]. simpl. rewrite dget_dset. by rewrite decide_False.
Qed.

Lemma burst_exchange_kept a owner observer : kept (burst_exchange randbytes fuel a owner observer).
Proof.
  unfold burst_exchange, echo_and_burst, read_diagnostics, probe_command, dev.
  repeat first [apply kept_io | apply kept_note; done | progress cbn beta iota | keeps_step].
Qed.

Lemma burst_verdict_triple before after :
  triple env [] undecided (burst_verdict before after) decided (fun _ s _ => n_exit s = 1).
Proof.
  unfold burst_verdict.
  eapply triple_bind; [apply triple_pure; intros s k Hs; destruct (count_delta _ _ _); [exact Hs|apply Hs]|]. intros exhausted.
  eapply triple_bind; [apply triple_pure; intros s k Hs; destruct (count_delta _ _ _); [exact Hs|apply Hs]|]. intros wakes.
  apply triple_bind with (R := fun _ => undecided).
  { eapply triple_weaken; [by apply kept_note|done|done|by intros e s k [? _]]. }
  intros _. destruct (_ && _).
  - apply triple_from. intros s0 k0 [Hx He] s k [-> ->]. unfold decided. run_steps.
    rewrite !dget_dset. split_and!; [done..|auto].
  - apply triple_from. intros s0 k0 [Hx He] s k [-> ->]. unfold decided. run_steps.
    destruct (negb _); [done|]. run_steps. rewrite !dget_dset. split_and!; [done..|auto].
Qed.

Lemma closed_triple {A} d a (body : probe -> st bench_ret burst_state A) Q :
  (forall p, triple env [] undecided (body p) Q broken) -> (forall a s k k', Q a s k -> Q a s k') ->
  triple env [] undecided (with_probe d a body) Q broken.
Proof.
  intros Hb HQ. unfold with_probe, dev.
  apply triple_bind with (R := fun _ => undecided).
  { eapply triple_weaken; [apply kept_io|done|done|intros e s k [Hx _]; by left]. }
  intros p. eapply triple_finally; [apply Hb| |].
  - intros b. apply triple_io. intros s k [u|e] n Hs H; [by eapply HQ|]. right.
    apply runs_on in H as (k' & -> & H).
    apply (runs_ask (view env ([] ++ k) d) [] CloseSocket) in H as [H ->]. exists (([] ++ k) ++ []), d. by symmetry.
  - intros e. apply triple_io. intros s k [u|e'] n Hs H; [done|]. right.
    apply runs_on in H as (k' & -> & H).
    apply (runs_ask (view env ([] ++ k) d) [] CloseSocket) in H as [H ->]. exists (([] ++ k) ++ []), d. by symmetry.
Qed.

Lemma burst_body_triple version a : triple env [] undecided (burst_body randbytes fuel version a) decided broken.
Proof.
  unfold burst_body. apply triple_bind with (R := fun _ => undecided).
  { eapply triple_weaken; [apply kept_io|done|done|intros e s k [Hx _]; by left]. }
  intros _. apply closed_triple; [|done]. intros owner. apply closed_triple; [|done]. intros observer.
  apply triple_bind with (R := fun _ => undecided).
  { eapply triple_weaken; [apply burst_exchange_kept|done|done|intros e s k [Hx _]; by left]. }
  intros [before after]. eapply triple_weaken; [apply burst_verdict_triple|done|done|]. intros e s k H. by left.
Qed.

(** The handler and the [finally] clause leave the exit code alone. *)
Definition burst_ended (a : burst_args) (s : burst_state) (n : list (bench_call (dict entry))) (code : Z) : Prop :=
  n_exit s = code /\
  (last n = Some (OutputExists (u_output a)) \/ last n = Some (SaveReport (u_output a) (n_report s))).

Lemma burst_finally_runs a h s s' u n : burst_finally a env h s = (s', Ok u, n) ->
  (exists utc, s' = {| n_report := dset (n_report s) "finished_utc" (Plain (JStr utc)); n_exit := n_exit s |}) /\
  burst_ended a s' n (n_exit s).
Proof.
  unfold burst_finally, st_ask, st_io, ask, st_get. run_steps.
  destruct (env h UtcTime) as [utc|e]; [|done]. cbn -[dset].
  destruct (env ((h ++ [UtcTime]) ++ []) (OutputExists (u_output a))) as [there|e]; [|done]. cbn -[dset].
  destruct there; [|intros [= <- _ <-]; split; [by exists utc|by split; [|left]]].
  destruct (env _ (SaveReport _ _)); [|done]. intros [= <- _ <-]. split; [by exists utc|]. by split; [|right].
Qed.

Lemma guarded_body version a h s s' code n :
  n_exit s = 1 -> dget (n_report s) "error" = None ->
  st_try (burst_body randbytes fuel version a) is_exception burst_failed env h s = (s', Ok code, n) ->
  (decided code s' n /\ burst_body randbytes fuel version a env h s = (s', Ok code, n)) \/
  (exists e, is_exception e = true /\ dget (n_report s') "status" = Some (Plain (JStr "failed")) /\
     dget (n_report s') "error" = Some (Plain (JStr (repr_exn e))) /\ (n_exit s' = 1 \/ closing_failed e)).
Proof.
  intros Hx He. unfold st_try. pose proof (burst_body_triple version a s h (conj Hx He)) as Ht. cbn [app] in Ht.
  destruct (burst_body _ _ _ _ env h s) as [[s1 [c|e]] n1].
  - intros [= <- <- <-]. left. split; [exact Ht|done].
  - destruct (is_exception e) eqn:Ee; [|done]. unfold burst_failed. run_steps. intros [= <- _ _]. right. exists e.
    cbn -[dset dget]. rewrite !dget_dset. done.
Qed.
End BurstOutcome.

(** ** The check ends *)
Section BurstEnds.
Context `{codec : !Json} (randbytes : Z -> Z -> bytes) (fuel : nat).
Context (env : environment (bench_ret (R := dict entry))) `{!Bench env, !EndingBench env}.
Context (Hjson : forall b, json_loads b <> Raise OutOfFuel).

Lemma check_answer_ends expected_id kind actual_id payload :
  raises (fun e => e <> OutOfFuel) (check_answer expected_id kind actual_id payload).
Proof. unfold check_answer, as_dict. raises_tac. Qed.

Lemma burst_turn_ends (denv : environment sock_ret) `{!Socket denv} deadline responses id h :
  ends_at denv h (burst_turn deadline responses id).
Proof.
  unfold burst_turn. apply ends_bind; [by apply _exact_ends|intros header n1 _].
  apply ends_bind; [apply ends_fails, fails_pure, decode_header_ends|intros [[kind actual] size] n2 [Hd _]%runs_pure].
  symmetry in Hd. apply decode_header_Ok in Hd as (_ & _ & _ & Hs).
  apply ends_bind; [apply _exact_ends; [exact _|lia]|intros data n3 _].
  apply ends_bind; [by apply ends_fails, fails_pure, json_ends|intros payload n4 _].
  apply ends_bind; [apply ends_fails, fails_pure, check_answer_ends|intros code n5 _]. apply ends_ret.
Qed.

Lemma send_invalid_burst_ends (denv : environment sock_ret) `{!Socket denv} timeout wire ids h :
  ends_at denv h (send_invalid_burst timeout wire ids).
Proof.
  unfold send_invalid_burst. apply ends_bind; [apply ends_fails; ends_tac|intros started n1 _].
  apply ends_bind; [apply ends_fails; ends_tac|intros u n2 _].
  apply ends_bind; [apply ends_fails; ends_tac|intros u2 n3 _].
  apply ends_bind; [|intros responses n4 _; apply ends_fails; ends_tac].
  generalize (@nil (Z * json)), (((h ++ n1) ++ n2) ++ n3). clear -Hjson Socket0. intros responses h.
  revert responses h. induction ids as [|id ids IH]; intros responses h; cbn [io_fold]; [apply ends_ret|].
  apply ends_bind; [by apply burst_turn_ends|]. intros r n _. apply IH.
Qed.

Lemma both_ends {A B} d1 d2 (m1 : sio A) (m2 : sio B) h s s' r1 r2 n :
  (forall h, ends_at (view env h d1) [] m1) -> (forall h, ends_at (view env h d2) [] m2) ->
  st_io (S := burst_state) (both d1 d2 m1 m2) env h s = (s', Ok (r1, r2), n) ->
  raises (fun e => e <> OutOfFuel) r1 /\ raises (fun e => e <> OutOfFuel) r2.
Proof.
  intros H1 H2. unfold st_io. destruct (both d1 d2 m1 m2 env h) as [r k] eqn:E. intros [= _ -> _].
  apply both_runs in E as (r1' & r2' & k1 & k2 & [= <- <-] & _ & E1 & E2).
  split; intros e -> ->; [by apply H1 in E1|by apply H2 in E2].
Qed.

Lemma echo_and_burst_ends a owner observer h :
  check_burst_args a = Ok tt -> p_next_request observer = 3 -> p_timeout owner = u_timeout a * second ->
  u_timeout a * second + 1 < Z.of_nat fuel ->
  st_ends env h (echo_and_burst randbytes fuel a owner observer).
Proof.
  intros Ha Hn Ht Hf. unfold check_burst_args in Ha. apply raise_when_bind in Ha as [_ Ha].
  apply for_each_Ok in Ha. rewrite !Forall_cons in Ha. destruct Ha as (Hx & Hc & Hp & _).
  apply raise_when_Ok in Hx, Hc, Hp. breflect.
  unfold echo_and_burst. rewrite burst_prepared by (unfold MAX_PAYLOAD; lia).
  apply st_ends_bind_at.
  { intros s s' e n. unfold st_io, both. destruct (echo _ _ _ _ _ _ _ _ _) as [r1 k1]. by destruct (send_invalid_burst _ _ _ _ _). }
  intros [r1 r2] s s1 n Hr. apply both_ends in Hr as [H1 H2].
  - apply st_ends_bind; [by apply st_ends_pure|intros h1 x]. apply st_ends_bind; [apply st_ends_modify|intros h2 u].
    apply st_ends_bind; [by apply st_ends_pure|intros h3 y]. unfold note. st_ends_tac.
  - intros h1. destruct (bench_clock (env := env) h1 Nano) as [t Hclock].
    apply (echo_ends (view env h1 Nano) t); rewrite ?Ht; unfold second in *; lia.
  - intros h1. by apply (send_invalid_burst_ends (view env h1 Observer)).
Qed.

Lemma read_diagnostics_ends p previous h : st_ends env h (read_diagnostics p previous).
Proof.
  unfold read_diagnostics. apply st_ends_bind; [by apply st_ends_probe_command|]. intros h1 [value p'].
  apply st_ends_bind; [apply st_ends_pure, check_diagnostics_ends|]. intros h2 d. apply st_ends_ret.
Qed.

Lemma read_diagnostics_next p previous h s s' d p' n :
  read_diagnostics p previous env h s = (s', Ok (d, p'), n) -> p' = next_probe p.
Proof. intros H. by destruct (read_diagnostics_staged env p previous _ _ _ _ _ H) as (l & (value & _ & _ & ->) & _). Qed.

Lemma probe_command_next d p op expected_error fields h s s' value p' n :
  probe_command (S := burst_state) d p op expected_error fields env h s = (s', Ok (value, p'), n) -> p' = next_probe p.
Proof. intros H. by destruct (probe_command_numbered env d p op expected_error fields _ _ _ _ _ H) as (l & [_ ->] & _). Qed.

Lemma burst_exchange_ends a owner observer h :
  check_burst_args a = Ok tt -> p_next_request observer = 2 -> p_timeout owner = u_timeout a * second ->
  u_timeout a * second + 1 < Z.of_nat fuel -> st_ends env h (burst_exchange randbytes fuel a owner observer).
Proof.
  intros Ha Hn Ht Hf. unfold burst_exchange.
  apply st_ends_bind; [apply st_ends_modify|intros h1 _].
  apply st_ends_bind; [apply st_ends_pure; unfold same_boot; raises_tac|intros h2 _].
  apply st_ends_bind_at; [apply read_diagnostics_ends|]. intros [before observer1] s s1 n ->%read_diagnostics_next.
  apply st_ends_bind; [apply st_ends_modify|intros h3 _].
  apply st_ends_bind_at; [by apply st_ends_probe_command|]. intros [open1 owner1] s2 s3 n2 ->%probe_command_next.
  apply st_ends_bind; [apply echo_and_burst_ends; [done|simpl; lia|done|done]|intros h4 observer2].
  apply st_ends_bind; [by apply st_ends_probe_command|intros h5 [status owner2]].
  apply st_ends_bind; [apply st_ends_modify|intros h6 _].
  apply st_ends_bind; [by apply st_ends_pure, raises_when|intros h7 _].
  apply st_ends_bind; [apply read_diagnostics_ends|intros h8 [after observer3]].
  apply st_ends_bind; [apply st_ends_modify|intros h9 _].
  apply st_ends_bind; [by apply st_ends_probe_command|intros h10 [closed owner3]].
  apply st_ends_bind; [apply st_ends_dev; by apply (finish_ends (view env h10 Nano))|intros h11 _].
  apply st_ends_bind; [apply st_ends_dev; by apply (finish_ends (view env h11 Observer))|intros h12 _]. apply st_ends_ret.
Qed.

Lemma burst_verdict_ends before after h : st_ends env h (burst_verdict before after).
Proof. unfold burst_verdict, note, set_exit, count_delta. st_ends_tac. Qed.

Lemma burst_body_ends version a h : check_burst_args a = Ok tt -> u_timeout a * second + 1 < Z.of_nat fuel ->
  st_ends env h (burst_body randbytes fuel version a).
Proof.
  intros Ha Hf. unfold burst_body. apply st_ends_bind; [refine (st_ends_ask env h (CreateNew (u_output a)) _); intros ? ?; apply bench_real|intros h1 _].
  apply st_ends_with_probe; [exact _|exact Hjson|]. intros owner h2 Ht _. apply st_ends_with_probe; [exact _|exact Hjson|]. intros observer h3 _ Hn.
  apply st_ends_bind; [by apply burst_exchange_ends|]. intros h4 [before after]. apply burst_verdict_ends.
Qed.
End BurstEnds.

(** ** Properties *)

(** C33: When the NCM burst check returns an exit code, the last thing it did is to save its report, unless
    the evidence file was not there. A report with status "passed" comes with code 0, "not_exercised" with
    code 2, and either means that: two sessions of the same boot were open; the owner's connection carried
    exactly the seeded bytes both ways while the second one sent the whole burst and had every request
    refused in order; the device counted exactly those bytes; the diagnostics before and after are sound,
    and the two budget counters both grew, equally, for 0, and did not grow for 2. A report with status
    "failed" carries the exception; its code is 1 unless closing a session is what failed. *)
Theorem ncm_outcome `{codec : !Json} randbytes fuel version a env s s' code n `{!Bench env} :
  ncm_main randbytes fuel version a env [] s = (s', Ok code, n) ->
  burst_ended a s' n code /\
  (dget (n_report s') "error" = None /\
     dget (n_report s') "status" = Some (Plain (JStr (if code =? 0 then "passed" else "not_exercised"))) /\
     (exists l, passing_burst randbytes env version a code l /\ stages [] n l) \/
   (exists e, is_exception e = true /\ dget (n_report s') "status" = Some (Plain (JStr "failed")) /\
     dget (n_report s') "error" = Some (Plain (JStr (repr_exn e))) /\ (code = 1 \/ closing_failed env e))).
Proof.
  unfold ncm_main. intros [(e & _ & [=])|([] & s1 & n1 & n2 & H1 & H & ->)]%st_bind_inv. injection H1 as <- Ha <-.
  apply st_bind_inv in H as [(e & _ & [=])|(utc & s2 & n3 & n4 & H2 & H & ->)].
  unfold st_ask, st_io, ask in H2. injection H2 as <- _ <-.
  apply st_bind_inv in H as [(e & _ & [=])|([] & s3 & n5 & n6 & H3 & H & ->)]. injection H3 as <- <-.
  apply st_bind_inv in H as [(e & _ & [=])|(c & s4 & n7 & n8 & H4 & H & ->)].
  apply st_bind_inv in H as [(e & _ & [=])|(s5 & s6 & n9 & n10 & H5 & H & ->)]. injection H5 as <- <- <-.
  injection H as <- <- <-. unfold st_finally in H4.
  destruct (st_try _ _ _ env _ _) as [[s7 r7] k7] eqn:E7. destruct (burst_finally a env _ s7) as [[s8 [u|e]] k8] eqn:E8; [|done].
  injection H4 as <- -> <-. apply burst_finally_runs in E8 as [[utc' ->] Hend].
  apply guarded_body in E7; [|done..]. rewrite !app_nil_r. cbn [app] in *. split.
  { destruct Hend as [Hx Hl]. split; [done|]. rewrite last_cons, last_app. destruct Hl as [-> | ->]; auto. }
  cbn -[dget dset]. rewrite !dget_dset, !decide_False by done. destruct E7 as [[Hd Hb]|(e & He & Hs & Hr & Hx)].
  - left. destruct Hd as (Hx & He & Hs & _). subst c. split_and!; [done..|].
    destruct (burst_body_staged randbytes fuel env version a Ha _ _ _ _ _ Hb) as (l & Hl & Hst). exists l. split; [done|].
    change (UtcTime :: k7 ++ k8) with ([UtcTime] ++ k7 ++ k8). rewrite app_assoc. apply stages_skip.
    rewrite <- (app_nil_l l). apply (stages_app [] [UtcTime] k7 [] l); [apply stages_none|done].
  - right. by exists e.
Qed.

(** The evidence file is opened for exclusive creation, but when it is there already that failure is
    handled like any other: the report of the failed run is written over the existing evidence. *)
Theorem existing_evidence_overwritten `{codec : !Json} randbytes fuel version a
    (env : environment (bench_ret (R := dict entry))) s (started finished : string) e :
  check_burst_args a = Ok tt -> is_exception e = true ->
  env [] UtcTime = Ok started -> env [UtcTime] (CreateNew (u_output a)) = Raise e ->
  env [UtcTime; CreateNew (u_output a)] UtcTime = Ok finished ->
  env [UtcTime; CreateNew (u_output a); UtcTime] (OutputExists (u_output a)) = Ok true ->
  exists s' report r, ncm_main randbytes fuel version a env [] s =
    (s', r, [UtcTime; CreateNew (u_output a); UtcTime; OutputExists (u_output a); SaveReport (u_output a) report]) /\
    dget report "status" = Some (Plain (JStr "failed")) /\ dget report "error" = Some (Plain (JStr (repr_exn e))).
Proof.
  intros Ha He H1 H2 H3 H4. unfold ncm_main, burst_body, burst_finally, st_finally, st_try, st_ask, st_io, ask, st_get.
  run_steps. rewrite Ha. cbn -[dget dset]. rewrite H1. cbn -[dget dset]. rewrite H2. cbn -[dget dset]. rewrite He.
  unfold burst_failed. run_steps. rewrite H3. cbn -[dget dset]. rewrite H4. cbn -[dget dset].
  destruct (env _ (SaveReport _ _)); (eexists _, _, _; split; [reflexivity|rewrite !dget_dset; done]).
Qed.

(** C34: The check ends: with clocks that advance between readings, and a fuel of one more turn than the
    timeout has nanoseconds, no loop uses its fuel up, and the burst is always prepared, so that the two
    threads never wait for each other at the barrier for ever. *)
Theorem ncm_burst_terminates `{codec : !Json} randbytes fuel version a env s s' r n `{!Bench env, !EndingBench env} :
  (forall b, json_loads b <> Raise OutOfFuel) -> u_timeout a * second + 1 < Z.of_nat fuel ->
  ncm_main randbytes fuel version a env [] s = (s', r, n) -> r <> Raise OutOfFuel.
Proof.
  intros Hjson Hf H ->. revert H. enough (st_ends env [] (ncm_main randbytes fuel version a)) as He by (intros H; by apply He in H).
  unfold ncm_main.
  apply st_ends_bind_at; [apply st_ends_pure; unfold check_burst_args; raises_tac|]. intros [] s1 s2 n1 [= _ Ha _].
  apply st_ends_bind; [refine (st_ends_ask env _ UtcTime _); intros ? ?; apply bench_real|intros h1 started].
  apply st_ends_bind; [apply st_ends_modify|intros h2 _].
  apply st_ends_bind; [|intros h3 code; unfold burst_finally; st_ends_tac].
  apply st_ends_finally; [apply st_ends_try; [by apply burst_body_ends|]|]; intros; unfold burst_failed, burst_finally, note;
    st_ends_tac; intros ? ?; apply bench_real.
Qed.

(** ** A device that answers

    A response names its operation; the diagnostics of the second session grow after the burst; bytes that
    are not a request are echoed. *)
Module BurstDemo.
Definition a : burst_args := {|
  u_address := "192.168.7.1"; u_device_id := "503533303030ABCD"; u_board := "nano_rp2040_connect";
  u_firmware_sha256 := hex (fill Byte.x5a 32); u_output := "burst.json"; u_timeout := 1; u_control_frames := 1;
  u_control_payload := 128; u_echo_bytes := 2 |}.

Definition hello : dict json :=
  [("device_id", JStr "503533303030abcd"); ("board_id", JStr "nano_rp2040_connect");
   ("firmware_version", JStr "0.1.0"); ("protocol_major", JInt 1); ("boot_id", JStr "0123456789abcdef");
   ("max_payload", JInt 4096); ("auth_mode", JStr "open-development"); ("targets", JArr []);
   ("channels", JArr [JObj [("id", JInt 1); ("backend", JStr "application"); ("controls", JArr [])]])].

Definition diagnostics (growth : Z) : dict json :=
  ((fun k => (k, JInt 1)) <$> base_fields) ++
  ((fun k => (k, JInt (if bool_decide (k = "ncm_budget_exhaustions") || bool_decide (k = "ncm_wake_requests") then growth else 0)))
    <$> transport_fields) ++ [("lwip_free", JNull)].

Definition ok (value : dict json) : result json := Ok (JObj [("ok", JBool true); ("result", JObj value)]).

#[local] Instance codec : Json := {
  json_loads b :=
    if bool_decide (b = ascii "hello") then ok hello
    else if bool_decide (b = ascii "serial.status") then ok (expected_status 2)
    else if bool_decide (b = ascii "quiet") then ok (diagnostics 0)
    else if bool_decide (b = ascii "busy") then ok (diagnostics 3)
    else if bool_decide (b = ascii "refused") then
      Ok (JObj [("ok", JBool false); ("error", JObj [("code", JStr "invalid_argument")])])
    else ok [];
  json_dumps d := match dget d "op" with Some (JStr op) => ascii op | _ => [] end }.

Definition respond (request : bytes) (s : string) : bytes :=
  header_bytes 2 (be_val (slice 8 12 request)) (blen (ascii s)) ++ ascii s.

Definition reply (before : list sock_call) (d : bytes) : bytes :=
  if bool_decide (slice 0 6 d = ascii "FMGO" ++ [Byte.x01; Byte.x01]) then
    let op := drop 16 d in
    if bool_decide (op = burst_payload 128) then respond d "refused"
    else if bool_decide (op = ascii "device.diagnostics") then
      respond d (if (length before <? 20)%nat then "quiet" else "busy")
    else respond d (text op)
  else d.

Definition devices (d : device) : environment sock_ret := talk_env true [] reply.
Definition bench_run : environment (bench_ret (R := dict entry)) := bench_env devices false.
Definition first : burst_state := {| n_report := []; n_exit := 0 |}.
Definition randbytes (seed count : Z) : bytes := fill Byte.xa5 count.
Definition program (fuel : nat) : st bench_ret burst_state Z := ncm_main randbytes fuel "0.1.0" a.
End BurstDemo.
#[local] Existing Instance BurstDemo.codec.

Lemma ncm_outcome_witness : exists s' n,
  BurstDemo.program 20 BurstDemo.bench_run [] BurstDemo.first = (s', Ok 0, n) /\
  burst_ended BurstDemo.a s' n 0 /\ exists l, passing_burst BurstDemo.randbytes BurstDemo.bench_run "0.1.0" BurstDemo.a 0 l /\ stages [] n l.
Proof.
  assert (H : (BurstDemo.program 20 BurstDemo.bench_run [] BurstDemo.first).1.2 = Ok 0) by (vm_compute; reflexivity).
  destruct (BurstDemo.program 20 BurstDemo.bench_run [] BurstDemo.first) as [[s' r] n] eqn:E. cbn in H. subst r.
  exists s', n. split; [reflexivity|].
  destruct (ncm_outcome BurstDemo.randbytes 20 "0.1.0" BurstDemo.a BurstDemo.bench_run BurstDemo.first s' 0 n E)
    as [He [(_ & _ & Hl)|(e & _ & Hs & _)]]; [by split|].
  assert (Hp : dget (n_report (BurstDemo.program 20 BurstDemo.bench_run [] BurstDemo.first).1.1) "status" = Some (Plain (JStr "passed")))
    by (vm_compute; reflexivity).
  rewrite E in Hp. cbn in Hp. by rewrite Hp in Hs.
Defined.

(** The same device, and an evidence file from an earlier run. *)
Lemma existing_evidence_overwritten_witness : exists s' report r n,
  BurstDemo.program 0 (bench_env BurstDemo.devices true) [] BurstDemo.first = (s', r, n) /\
  last n = Some (SaveReport "burst.json" report) /\ dget report "status" = Some (Plain (JStr "failed")).
Proof.
  destruct (existing_evidence_overwritten BurstDemo.randbytes 0 "0.1.0" BurstDemo.a (bench_env BurstDemo.devices true)
    BurstDemo.first "" "" (Exn KFileExistsError "File exists")) as (s' & report & r & E & Hs & _); [by vm_compute|done..|].
  exists s', report, r. eexists. split; [exact E|]. split; [reflexivity|exact Hs].
Defined.

Lemma ncm_burst_terminates_witness : exists s' r n,
  BurstDemo.program (Z.to_nat (2 * second)) BurstDemo.bench_run [] BurstDemo.first = (s', r, n) /\ r <> Raise OutOfFuel.
Proof.
  destruct (BurstDemo.program (Z.to_nat (2 * second)) BurstDemo.bench_run [] BurstDemo.first) as [[s' r] n] eqn:E.
  exists s', r, n. split; [reflexivity|].
  assert (Hb : Bench BurstDemo.bench_run) by (apply bench_env_bench; intros d; apply talk_socket).
  assert (He : EndingBench BurstDemo.bench_run).
  { apply bench_env_ending; [intros d; apply talk_socket|]. intros d. exists peer_clock. apply talk_has_clock. }
  apply (ncm_burst_terminates BurstDemo.randbytes (Z.to_nat (2 * second)) "0.1.0" BurstDemo.a BurstDemo.bench_run
    BurstDemo.first s' r n); [|rewrite Z2Nat.id by done; unfold second; simpl; lia|exact E].
  intros b. unfold json_loads, BurstDemo.codec. by repeat case_bool_decide.
Defined.
