(* ===== verification/ManagedSmoke.v ===== *)
(** * The managed smoke test: experiments/managed_sketch/smoke.py

    The byte check of a managed resident: an owner and a second session of the same boot, seeded echoes, the
    console counters of newer residents, the handover of the channel, and a fresh session. The sketch name
    the operator gives is not looked at; what the test prints is its result. *)

From stdpp Require Import base tactics list list_numbers strings.
From Stdlib Require Import ZArith Lia.
From S2P Require Import Prelude.
From S2P Require Import PyBytes.
From S2P Require Import PyText.
From S2P Require Import PyDict.
From S2P Require Import PyJson.
From S2P Require Import Effects.
From S2P Require Import Stateful.
From S2P Require Import Stages.
From S2P Require Import Sockets.
From S2P Require Import SessionSmoke.
From S2P Require Import Bench.
From S2P Require Import PicoPeer.
From S2P Require Import UartPeer.
From S2P Require Import BenchSmoke.

Local Open Scope Z_scope.

(** ** The console counters *)
Definition CONSOLE_COUNTERS : list string := ["sketch_input_discarded"; "sketch_output_discarded"; "sketch_output_rejected"].

Definition check_console_counters (before after : dict json) : result unit :=
  for_each (fun name =>
      raise_when (negb (has_key before name) || negb (has_key after name))
        (RuntimeError "managed console diagnostic is missing");;
      raise_when (negb (py_eq (jget after name) (jget before name)))
        (RuntimeError "managed console counter changed during exact echo")) CONSOLE_COUNTERS;;
  let peak := jget after "sketch_output_peak" in
  raise_when (negb (is_int_instance peak) || negb ((0 <=? int_of peak) && (int_of peak <=? 256)))
    (RuntimeError "managed console output peak is invalid").

(** ** The test *)

(** [TARGET] of fmgo_upload.py *)
Definition UPLOAD_TARGET : json :=
  JObj [("id", JInt 1); ("format", JStr "nano-managed-v1"); ("max_size", JInt 4096); ("max_chunk", JInt 1024);
        ("authorization", JStr "physical-d2-gnd")].

Definition resident_versions : list string :=
  ["m7exp1"; "m7exp2"; "m7exp3"; "m8exp1"; "m8exp2"; "m8exp3"; "m8exp4"; "m9exp1"].

Definition managed_target (current_version address device_id resident_version : string) : target := {|
  t_address := address; t_device_id := device_id; t_board := "nano_rp2040_connect"; t_port := 7420;
  t_version := current_version +:+ "-" +:+ resident_version; t_backend := "application"; t_timeout := 20 * second;
  t_targets := if bool_decide (resident_version = "m9exp1") then [UPLOAD_TARGET] else [] |}.

(** [resident_version.startswith(("m8", "m9"))] *)
Definition has_console (resident_version : string) : bool :=
  String.prefix "m8" resident_version || String.prefix "m9" resident_version.

Section ManagedSmoke.
Context `{codec : !Json} (randbytes : Z -> Z -> bytes) (fuel : nat).

Abbreviation sp A := (bp (R := unit) A).

(** The diagnostics before, when the resident has a console. *)
Definition console_before (resident_version : string) (p : probe) : sp (option (dict json) * probe) :=
  if has_console resident_version then
    ' (d, p) ← probe_command Nano p "device.diagnostics" None [];
    mret (Some d, p)
  else mret (None, p).

(** The part with the second session open. *)
Definition managed_other (before : option (dict json)) (owner second : probe) : sp (dict json * probe) :=
  st_pure (same_boot "boot changed during concurrent session check" owner second);;
  ' (_, second) ← probe_command Observer second "serial.open" (Some "busy") channel_only;
  _ ← probe_echo randbytes fuel Nano owner 16384 false (Some 0x4d375052);
  _ ← probe_echo randbytes fuel Nano owner 4096 true (Some 0x4d375053);
  ' (status, owner) ← probe_command Nano owner "serial.status" None channel_only;
  st_pure (raise_when (byte_counters_wrong status 20480) (RuntimeError "unexpected application byte counts"));;
  ' (diagnostics, owner) ← probe_command Nano owner "device.diagnostics" None [];
  st_pure (match before with Some b => check_console_counters b diagnostics | None => mret tt end);;
  ' (_, owner) ← probe_command Nano owner "serial.close" None channel_only;
  ' (_, second) ← probe_command Observer second "serial.open" None channel_only;
  _ ← probe_echo randbytes fuel Observer second 4096 false (Some 0x4d375054);
  ' (_, second) ← probe_command Observer second "serial.close" None channel_only;
  dev Observer (finish second);;
  mret (diagnostics, owner).

(** [main] after the arguments are parsed: the diagnostics before and after. *)
Definition managed_smoke (current_version address device_id resident_version : string) :
    sp (option (dict json) * dict json) :=
  st_pure (raise_when (negb (fullmatch is_hex 16 device_id))
    (Exn KSystemExit "--device-id must be exactly 16 hexadecimal digits"));;
  let a := managed_target current_version address device_id resident_version in
  ' (identity, before, diagnostics) ← with_probe Nano a (fun probe =>
    ' (_, p) ← probe_command Nano probe "serial.open" None channel_only;
    ' (before, p) ← console_before resident_version p;
    ' (diagnostics, p) ← with_probe Observer a (managed_other before p);
    dev Nano (finish p);;
    mret (probe, before, diagnostics));
  with_probe Nano a (fun reconnected =>
    st_pure (same_boot "boot changed during fresh-session reconnect check" identity reconnected);;
    ' (_, reconnected) ← probe_command Nano reconnected "serial.open" None channel_only;
    _ ← probe_echo randbytes fuel Nano reconnected 4096 false (Some 0x4d375055);
    ' (_, reconnected) ← probe_command Nano reconnected "serial.close" None channel_only;
    dev Nano (finish reconnected));;
  mret (before, diagnostics).
End ManagedSmoke.

(** ** What a passing test has seen *)

(** The console lost nothing: its counters are there and unchanged, and its peak is in range. *)
Definition console_quiet (before after : dict json) : Prop :=
  Forall (fun name => exists x y, dget before name = Some x /\ dget after name = Some y /\ py_eq y x = true) CONSOLE_COUNTERS /\
  exists peak, dget after "sketch_output_peak" = Some peak /\ is_int_instance peak = true /\ 0 <= int_of peak <= 256.

Lemma check_console_counters_iff before after : check_console_counters before after = Ok tt <-> console_quiet before after.
Proof.
  unfold check_console_counters, console_quiet. rewrite bind_unit, for_each_Ok.
  assert (Hn : forall name, (raise_when (negb (has_key before name) || negb (has_key after name))
        (RuntimeError "managed console diagnostic is missing");;
      raise_when (negb (py_eq (jget after name) (jget before name)))
        (RuntimeError "managed console counter changed during exact echo")) = Ok tt <->
    exists x y, dget before name = Some x /\ dget after name = Some y /\ py_eq y x = true).
  { intros name. rewrite raise_when_bind, raise_when_Ok, orb_false_iff, !negb_false_iff. unfold has_key, jget.
    rewrite !bool_decide_eq_true. split.
    - intros [[[x Hx] [y Hy]] H]. rewrite Hx, Hy in H. exists x, y. done.
    - intros (x & y & Hx & Hy & H). rewrite Hx, Hy. split; [split; eauto|done]. }
  rewrite raise_when_Ok. setoid_rewrite Hn. unfold jget. split; intros [H1 H2]; (split; [exact H1|]).
  - destruct (dget after "sketch_output_peak") as [peak|]; [|done]. exists peak. simpl in H2. breflect. split_and!; lia || tauto.
  - destruct H2 as (peak & -> & Hi & Hr). simpl. rewrite Hi. simpl. apply negb_false_iff. breflect. lia.
Qed.

Section ManagedStages.
Context `{codec : !Json} (randbytes : Z -> Z -> bytes) (fuel : nat).
Context (env : environment (bench_ret (R := unit))) `{!Bench env}.

Local Abbreviation staged := (staged (S := bench unit)).
Local Abbreviation echoed := (echoed randbytes env).

(** The second session's part. *)
Definition managed_shared (a : target) (owner : probe) (before : option (dict json)) (diagnostics : dict json)
    (l : list (@stage (bench_call unit))) : Prop :=
  exists other busy status closed open2 closed2,
    py_eq (jget (p_hello other) "boot_id") (jget (p_hello owner) "boot_id") = true /\
    py_eq (jget status "backend_rx_bytes") (JInt 20480) = true /\ py_eq (jget status "backend_tx_bytes") (JInt 20480) = true /\
    (forall b, before = Some b -> console_quiet b diagnostics) /\
    l = [opened env Observer a other; answered env Observer "serial.open" (Some "busy") channel_only busy;
         echoed Nano (Some 0x4d375052) 16384; echoed Nano (Some 0x4d375053) 4096;
         answered env Nano "serial.status" None channel_only status;
         answered env Nano "device.diagnostics" None [] diagnostics;
         answered env Nano "serial.close" None channel_only closed;
         answered env Observer "serial.open" None channel_only open2; echoed Observer (Some 0x4d375054) 4096;
         answered env Observer "serial.close" None channel_only closed2].

Lemma managed_other_staged a before owner :
  staged env (with_probe Observer a (managed_other randbytes fuel before owner))
    (fun '(diagnostics, _) => managed_shared a owner before diagnostics).
Proof.
  apply (with_probe_staged env). intros other _. unfold managed_other. staged_check Hb. apply same_boot_Ok in Hb.
  eapply staged_bind; [apply (probe_command_staged env)|]. intros [busy other1] l1 [-> _].
  eapply staged_bind; [apply probe_echo_staged; exact _|]. intros ? l2 [-> _].
  eapply staged_bind; [apply probe_echo_staged; exact _|]. intros ? l3 [-> _].
  eapply staged_bind; [apply (probe_command_staged env)|]. intros [status owner1] l4 [-> _].
  staged_check Hc. apply raise_when_Ok, byte_counters_right in Hc as [Hc1 Hc2].
  eapply staged_bind; [apply (probe_command_staged env)|]. intros [diagnostics owner2] l5 [-> _].
  staged_value u Hq.
  eapply staged_bind; [apply (probe_command_staged env)|]. intros [closed owner3] l6 [-> _].
  eapply staged_bind; [apply (probe_command_staged env)|]. intros [open2 other2] l7 [-> _].
  eapply staged_bind; [apply probe_echo_staged; exact _|]. intros ? l8 [-> _].
  eapply staged_bind; [apply (probe_command_staged env)|]. intros [closed2 other3] l9 [-> _].
  staged_leave. eapply staged_weaken; [apply staged_ret|]. intros [d o] l10 [[= -> ->] ->].
  exists other, busy, status, closed, open2, closed2. split_and!; try done.
  intros b ->. destruct u. by apply check_console_counters_iff.
Qed.

(** The diagnostics read before, when they are. *)
Definition console_read (resident_version : string) (before : option (dict json)) (l : list (@stage (bench_call unit))) : Prop :=
  if has_console resident_version then exists d, before = Some d /\ l = [answered env Nano "device.diagnostics" None [] d]
  else before = None /\ l = [].

Lemma console_before_staged version p :
  staged env (console_before version p) (fun '(before, p') l => console_read version before l /\ p_hello p' = p_hello p).
Proof.
  unfold console_before, console_read. destruct (has_console version).
  - eapply staged_bind; [apply (probe_command_staged env)|]. intros [d p'] l [-> Hh].
    eapply staged_weaken; [apply staged_ret|]. intros [b q] l' [[= -> ->] ->]. split; [by exists d|done].
  - eapply staged_weaken; [apply staged_ret|]. by intros [b q] l' [[= -> ->] ->].
Qed.

(** The stages of a passing test. *)
Definition passing_managed (version : string) (a : target) (before : option (dict json)) (diagnostics : dict json)
    (l : list (@stage (bench_call unit))) : Prop :=
  exists owner open1 l1 l2 again open2 closed2,
    console_read version before l1 /\ managed_shared a owner before diagnostics l2 /\
    py_eq (jget (p_hello again) "boot_id") (jget (p_hello owner) "boot_id") = true /\
    l = [opened env Nano a owner; answered env Nano "serial.open" None channel_only open1] ++ l1 ++ l2 ++
        [opened env Nano a again; answered env Nano "serial.open" None channel_only open2;
         echoed Nano (Some 0x4d375055) 4096; answered env Nano "serial.close" None channel_only closed2].

Lemma managed_shared_hello a owner owner' before diagnostics l : p_hello owner' = p_hello owner ->
  managed_shared a owner' before diagnostics l -> managed_shared a owner before diagnostics l.
Proof. intros E. unfold managed_shared. by rewrite E. Qed.

Lemma managed_smoke_staged version address device_id resident_version :
  staged env (managed_smoke randbytes fuel version address device_id resident_version) (fun '(before, diagnostics) =>
    passing_managed resident_version (managed_target version address device_id resident_version) before diagnostics).
Proof.
  unfold managed_smoke. set (a := managed_target _ _ _ _). staged_check Hid. clear Hid.
  eapply staged_bind with (Q1 := fun '(owner, before, diagnostics) l => exists open1 l1 l2,
    console_read resident_version before l1 /\ managed_shared a owner before diagnostics l2 /\
    l = [opened env Nano a owner; answered env Nano "serial.open" None channel_only open1] ++ l1 ++ l2).
  { apply (with_probe_staged env). intros owner _.
    eapply staged_bind; [apply (probe_command_staged env)|]. intros [open1 owner1] l1 [-> Hh1].
    eapply staged_bind; [apply console_before_staged|]. intros [before owner2] l2 [Hc Hh2].
    eapply staged_bind; [apply managed_other_staged|]. intros [diagnostics owner3] l3 H3. staged_leave.
    eapply staged_weaken; [apply staged_ret|]. intros [[o b] d] l4 [[= -> -> ->] ->]. exists open1, l2, l3.
    rewrite app_nil_r. split_and!; [done| |done]. eapply managed_shared_hello; [|exact H3]. by rewrite Hh2. }
  intros [[owner before] diagnostics] l (open1 & l1 & l2 & Hc & Hs & ->).
  eapply staged_bind with (Q1 := fun _ l => exists again open2 closed2,
    py_eq (jget (p_hello again) "boot_id") (jget (p_hello owner) "boot_id") = true /\
    l = [opened env Nano a again; answered env Nano "serial.open" None channel_only open2;
         echoed Nano (Some 0x4d375055) 4096; answered env Nano "serial.close" None channel_only closed2]).
  { apply (with_probe_staged env). intros again _. staged_check Hb. apply same_boot_Ok in Hb.
    eapply staged_bind; [apply (probe_command_staged env)|]. intros [open2 p1] l3 [-> _].
    eapply staged_bind; [apply probe_echo_staged; exact _|]. intros ? l4 [-> _].
    eapply staged_bind; [apply (probe_command_staged env)|]. intros [closed2 p2] l5 [-> _].
    eapply staged_weaken; [apply staged_skip|]. intros ? l6 ->. by exists again, open2, closed2. }
  intros ? l3 (again & open2 & closed2 & Hb & ->). eapply staged_weaken; [apply staged_ret|]. intros [b d] l4 [[= -> ->] ->].
  exists owner, open1, l1, l2, again, open2, closed2. split_and!; [done..|]. by rewrite <- ?app_assoc, ?app_nil_r.
Qed.
End ManagedStages.

(** A managed smoke test that passes has done the following, in this order: an owner's session opened
    the channel, and read the diagnostics when the resident has a console; a second session of the same boot
    was refused the channel; the owner's connection carried exactly two seeded texts both ways and the device
    counted their bytes; the console lost nothing meanwhile; ownership was handed over and the second session
    carried a third text; and a fresh session of the same boot opened the channel and carried a fourth one. *)
Theorem managed_smoke_exact `{codec : !Json} randbytes fuel env version address device_id resident_version
    before diagnostics s s' n `{!Bench env} :
  managed_smoke randbytes fuel version address device_id resident_version env [] s = (s', Ok (before, diagnostics), n) ->
  exists l, passing_managed randbytes env resident_version (managed_target version address device_id resident_version)
    before diagnostics l /\ stages [] n l.
Proof. intros H. exact (managed_smoke_staged randbytes fuel env version address device_id resident_version [] s s' _ n H). Qed.
