(* ===== verification/ResidentSource.v ===== *)
(** * Trusted inputs of the resident export: experiments/managed_sketch/export_resident.py, lines 18-75

    Bounded files, JSON objects without duplicate keys, and committed sources. What the operating system
    says about a path ([Machine]) and what git prints ([Git]) are parameters; a path is text in pathlib's
    normal form. *)

From stdpp Require Import base tactics list list_numbers strings.
From Stdlib Require Import ZArith Lia Ascii.
From S2P Require Import Prelude.
From S2P Require Import PyBytes.
From S2P Require Import Sha256.
From S2P Require Import PyText.
From S2P Require Import PyStr.
From S2P Require Import PyDict.
From S2P Require Import PyJson.
From S2P Require Import Ipv4.
From S2P Require Import PyHttp.
From S2P Require Import ExportResident.

Local Open Scope Z_scope.

(** ** Bounded files *)

(** An open descriptor: what [fstat] says before and after the read, and what [read(n)] returns. *)
Record descriptor := { fd_regular : bool; fd_size : Z; fd_read : Z -> bytes; fd_size_after : Z }.

(** [os.open] does not follow a link and does not block. *)
Class Machine := { is_symlink : string -> bool; os_open : string -> result descriptor }.

(** The directories on the way to a path, and [path.parents] *)
Fixpoint directories (seen : string) (s : string) : list string :=
  match s with
  | EmptyString => []
  | String c s =>
      if bool_decide (c = "/"%char) then seen :: directories (seen +:+ "/") s
      else directories (seen +:+ String c "") s
  end.

Definition parents (path : string) : list string :=
  let found := (fun d => if bool_decide (d = "") then "/" else d) <$> reverse (directories "" path) in
  if String.prefix "/" path then found else found ++ ["."].

Example parents_forms : parents "a/b/c" = ["a/b"; "a"; "."] /\ parents "/a/b" = ["/a"; "/"].
Proof. done. Qed.

Definition bounded_file `{!Machine} (path : string) (maximum : Z) : result bytes :=
  for_each (fun p => raise_when (is_symlink p) (ValueError "symlinked resident export input")) (path :: parents path);;
  d ← os_open path;
  let size := fd_size d in
  raise_when (negb (fd_regular d) || negb ((0 <? size) && (size <=? maximum)))
    (ValueError "resident export input is not a bounded regular file");;
  let data := fd_read d (maximum + 1) in
  raise_when (negb (blen data =? size) || negb (fd_size_after d =? size))
    (ValueError "resident export input changed or exceeded its bound");;
  mret data.

(** What was captured: a regular file no part of whose path is a link, whole and within its bound. *)
Record captured `{!Machine} (path : string) (maximum : Z) (data : bytes) : Prop := {
  cp_links : is_symlink path = false /\ Forall (fun p => is_symlink p = false) (parents path);
  cp_size : 0 < blen data <= maximum;
  cp_file : exists d, os_open path = Ok d /\ fd_regular d = true /\ fd_size d = blen data /\
    fd_size_after d = blen data /\ data = fd_read d (maximum + 1) }.

Lemma bounded_file_iff `{!Machine} path maximum data : bounded_file path maximum = Ok data <-> captured path maximum data.
Proof.
  unfold bounded_file. rewrite bind_unit, for_each_Ok, Forall_cons. setoid_rewrite raise_when_Ok. rewrite bind_Ok.
  setoid_rewrite raise_when_bind. setoid_rewrite raise_when_bind. setoid_rewrite mret_Ok.
  setoid_rewrite orb_false_iff. setoid_rewrite negb_false_iff. setoid_rewrite andb_true_iff.
  setoid_rewrite Z.eqb_eq. setoid_rewrite Z.leb_le. setoid_rewrite Z.ltb_lt. split.
  - intros (Hl & d & Ho & (Hr & Hs) & (Hb & Ha) & <-). constructor; [exact Hl|lia|]. exists d. split_and!; done || lia.
  - intros [Hl Hs (d & Ho & Hr & Hz & Ha & ->)]. split; [exact Hl|]. exists d. split_and!; done || lia.
Qed.

(** ** Objects without duplicate keys *)
Definition unique_object (pairs : dict json) : result (dict json) :=
  foldM (fun value '(key, item) =>
    raise_when (has_key value key) (ValueError "duplicate resident report key");; mret (dset value key item)) [] pairs.

(** The hook is called for every object, inner ones first. *)
Fixpoint hooked (v : json) : result json :=
  match v with
  | JArr l => JArr <$> (fix each l := match l with [] => mret [] | x :: l => y ← hooked x; k ← each l; mret (y :: k) end) l
  | JObj pairs =>
      d ← (fix each (d : dict json) : result (dict json) :=
             match d with [] => mret [] | (key, x) :: d => y ← hooked x; k ← each d; mret ((key, y) :: k) end) pairs;
      JObj <$> unique_object d
  | _ => mret v
  end.

(** [json.loads] up to its objects, which are the lists of their pairs *)
Class JsonPairs := { json_pairs : bytes -> result json }.

(** [json.loads(data, object_pairs_hook=unique_object)] *)
Definition json_loads_unique `{!JsonPairs} (data : bytes) : result json := v ← json_pairs data; hooked v.

Lemma unique_object_iff pairs d : unique_object pairs = Ok d <-> d = pairs /\ NoDup (keys pairs).
Proof.
  unfold unique_object. assert (H : forall done rest, NoDup (keys done) ->
    foldM (fun value '(key, item) => raise_when (has_key value key) (ValueError "duplicate resident report key");;
      mret (dset value key item)) done rest = Ok d <-> d = done ++ rest /\ NoDup (keys (done ++ rest))).
  2:{ by rewrite (H [] pairs) by constructor. }
  intros done rest. revert done. induction rest as [|[key item] rest IH]; intros done Hd.
  - simpl. rewrite app_nil_r, Ok_Ok. naive_solver.
  - cbn [foldM]. rewrite bind_Ok. setoid_rewrite raise_when_bind. setoid_rewrite mret_Ok.
    assert (Hk : keys (done ++ (key, item) :: rest) = keys done ++ key :: keys rest) by (unfold keys; by rewrite fmap_app).
    destruct (has_key done key) eqn:E.
    + apply has_key_spec in E. split; [by intros (? & [] & _)|]. rewrite Hk, NoDup_app. intros (_ & _ & Hn & _).
      destruct (Hn key E). left.
    + assert (Hnew : dset done key item = done ++ [(key, item)]).
      { clear -E. induction done as [|[k v] done IH]; [done|]. unfold has_key in *. simpl in *. case_decide.
        - by rewrite bool_decide_true in E by eauto.
        - by rewrite IH. }
      assert (Hn : NoDup (keys (done ++ [(key, item)]))).
      { unfold keys. rewrite fmap_app, NoDup_app. split_and!; [done| |repeat constructor; by intros ?%elem_of_nil].
        intros k Hin ->%list_elem_of_singleton. apply not_true_iff_false in E. by apply E, has_key_spec. }
      split.
      * intros (value & [_ <-] & H). rewrite Hnew in H. apply IH in H; [|done]. by rewrite <- app_assoc in H.
      * intros H. exists (dset done key item). split; [done|]. rewrite Hnew. apply IH; [done|]. by rewrite <- app_assoc.
Qed.

(** The pairs of an object as a dictionary, when its keys are distinct. *)
Lemma hooked_object pairs d : hooked (JObj pairs) = Ok (JObj d) -> keys d = keys pairs /\ NoDup (keys d).
Proof.
  cbn [hooked]. set (each := fix each (d : dict json) : result (dict json) := _). intros (k & Hk & H)%bind_Ok.
  apply fmap_Ok in H as (d' & Hd & [= ->]). apply unique_object_iff in Hd as [-> Hn]. split; [|done].
  clear Hn. revert k Hk. induction pairs as [|[key x] pairs IH]; intros k; cbn [each].
  - by intros [= <-].
  - intros (y & _ & H)%bind_Ok. apply bind_Ok in H as (l & Hl & [= <-]%mret_Ok). simpl. f_equal. by apply IH.
Qed.

(** ** Committed sources *)

(** The standard output of [git] in the checkout, run without locks and replacement objects; a failing or
    slow command raises. *)
Class Git := { git : list string -> result bytes }.

Definition is_path_char (c : Ascii.ascii) : bool :=
  is_digit c || between 65 90 c || between 97 122 c || existsb (fun d => bool_decide (c = d)) ["_"; "."; "/"; "-"]%char.

Definition safe_name (name : string) : bool :=
  negb (bool_decide (name = "")) && string_forallb is_path_char name
  && forallb (fun part => negb (bool_decide (part = "") || bool_decide (part = ".") || bool_decide (part = "..")))
       (split_on "/"%char name).

(** The line of [git ls-tree] for a regular file *)
Definition blob_line (name : string) (tree : bytes) : bool :=
  (bool_decide (slice 0 12 tree = ascii "100644 blob ") || bool_decide (slice 0 12 tree = ascii "100755 blob "))
  && fullmatch is_hex_lower 40 (PyStr.text (slice 12 52 tree))
  && bool_decide (drop 52 tree = [Byte.x09] ++ ascii name ++ [Byte.x0a]).

Definition git_blob `{!Git} (commit name : string) : result bytes :=
  raise_when (negb (safe_name name)) (ValueError "unsafe resident source path");;
  tree ← git ["ls-tree"; commit; "--"; name];
  raise_when (negb (blob_line name tree)) (ValueError "resident source is not a committed regular blob");;
  size ← git ["cat-file"; "-s"; commit +:+ ":" +:+ name];
  n ← py_int size;
  raise_when (negb ((0 <? n) && (n <=? SOURCE_LIMIT))) (ValueError "excessive resident source object");;
  git ["show"; commit +:+ ":" +:+ name].

(** A regular file of the commit, under a path that stays in the checkout. *)
Definition committed `{!Git} (commit name : string) (data : bytes) : Prop :=
  safe_name name = true /\ git ["show"; commit +:+ ":" +:+ name] = Ok data /\
  exists tree size, git ["ls-tree"; commit; "--"; name] = Ok tree /\ blob_line name tree = true /\
    git ["cat-file"; "-s"; commit +:+ ":" +:+ name] = Ok size /\ exists n, py_int size = Ok n /\ 0 < n <= SOURCE_LIMIT.

Lemma git_blob_iff `{!Git} commit name data : git_blob commit name = Ok data <-> committed commit name data.
Proof.
  unfold git_blob, committed. rewrite raise_when_bind, negb_false_iff, bind_Ok. setoid_rewrite raise_when_bind.
  setoid_rewrite bind_Ok. setoid_rewrite bind_Ok. setoid_rewrite raise_when_bind. setoid_rewrite negb_false_iff.
  setoid_rewrite andb_true_iff. setoid_rewrite Z.leb_le. setoid_rewrite Z.ltb_lt. naive_solver.
Qed.

(** A safe name has no component that leaves its directory. *)
Lemma safe_name_parts name : safe_name name = true ->
  name <> "" /\ forall part, part ∈ split_on "/"%char name -> part <> "" /\ part <> "." /\ part <> "..".
Proof.
  unfold safe_name. rewrite !andb_true_iff, negb_true_iff, bool_decide_eq_false. intros [[Hn _] Hp]. split; [done|].
  intros part Hin%list_elem_of_In. rewrite forallb_forall in Hp. apply Hp in Hin.
  rewrite negb_true_iff, !orb_false_iff, !bool_decide_eq_false in Hin. tauto.
Qed.

Example git_names : safe_name "src/core/version.h" = true /\ safe_name "src/../LICENSE" = false /\ safe_name "/etc" = false.
Proof. done. Qed.
