(* ===== verification/ResidentExport.v ===== *)
(** * The resident export: experiments/managed_sketch/export_resident.py, lines 170-315

    [verified_resident] binds a recorded build to a commit and to the checked ELF and UF2,
    [compiler_contract] takes the headers of the same commit, and [export_resident] writes both into a new
    directory. The text formats ([Json], [JsonPairs], [ExportText]), git and the operating system are
    parameters; the output is a store of files whose operations may fail. *)

From stdpp Require Import base tactics list list_numbers strings gmap.
From Stdlib Require Import ZArith Lia Ascii.
From S2P Require Import Prelude.
From S2P Require Import PyBytes.
From S2P Require Import Sha256.
From S2P Require Import PyText.
From S2P Require Import PyStr.
From S2P Require Import PyRegex.
From S2P Require Import PyDict.
From S2P Require Import PyJson.
From S2P Require Import Ipv4.
From S2P Require Import BuildComposite.
From S2P Require Import ExportResident.
From S2P Require Import Effects.
From S2P Require Import Stateful.
From S2P Require Import Release.
From S2P Require Import Dev.
From S2P Require Import ResidentSource.

Local Open Scope Z_scope.

(** [data.decode()] and [json.dumps(value, sort_keys=True, indent=2)] *)
Class ExportText := { utf8_decode : bytes -> result string; json_sorted : dict json -> bytes }.

(** ** Text *)

(** [s.splitlines()] on 8-bit text: [\r\n] is one break, and no line follows the last one. *)
Definition is_break (c : Ascii.ascii) : bool := between 10 13 c || between 28 30 c || between 133 133 c.

Fixpoint split_lines (s : string) : list string :=
  match s with
  | EmptyString => []
  | String c s' =>
      if is_break c then
        match s' with
        | String d s'' => if between 13 13 c && between 10 10 d then "" :: split_lines s'' else "" :: split_lines s'
        | EmptyString => [""]
        end
      else match split_lines s' with [] => [String c ""] | l :: ls => String c l :: ls end
  end.

Example lines_demo : split_lines ("a" +:+ String line_break (String line_break "b")) = ["a"; ""; "b"] /\
  split_lines ("a" +:+ String line_break "") = ["a"].
Proof. done. Qed.

(** [s.endswith(suffix)] *)
Definition ends_with (suffix s : string) : bool :=
  let n := (String.length s - String.length suffix)%nat in
  (String.length suffix <=? String.length s)%nat && bool_decide (String.substring n (String.length suffix) s = suffix).

(** ** The verified resident *)
Definition LIBRARY_SUFFIXES : list string := [".c"; ".cpp"; ".h"; ".hpp"; ".inc"; ".S"; ".s"].

Definition required_sources : list string :=
  ["boards/nano_rp2040_connect/baseline.json"; "experiments/managed_sketch/abi.h"; "src/core/version.h";
   "experiments/managed_sketch/firmingo_managed_resident/firmingo_managed_resident.ino";
   "experiments/managed_sketch/build_resident.py"].

Definition managed_upload_target : json :=
  JObj [("id", JInt 1); ("format", JStr "nano-managed-v1"); ("max_size", JInt 4096); ("max_chunk", JInt 1024);
        ("authorization", JStr "physical-d2-gnd")].

Definition resident_status : string := "compile-tested experimental resident; not flashed".

(** A field of the report that names memory, within its fixed budget *)
Definition budget_wrong (report : dict json) (field budget_field : string) (budget : Z) : bool :=
  negb (int_within 1 budget (jget report field)) || negb (py_eq (jget report budget_field) (JInt budget)).

Definition resident_version_pattern : regex :=
  LineStart ⊙ Lit "#define FIRMINGO_VERSION " ⊙ Lit quote
  ⊙ Group (Many (fun c => is_digit c || between 46 46 c) 1) ⊙ Lit quote ⊙ LineEnd.

Definition resident_suffix : string := "FIRMINGO_VERSION " +:+ quote +:+ "-m9exp1" +:+ quote.

(** The dictionary [resident_elf] returns, as JSON *)
Definition api_json (api : resident_facts) : json :=
  JObj [("apiAddress", JInt (apiAddress api)); ("residentABI", JInt (residentABI api));
        ("apiTableBytes", JInt (apiTableBytes api)); ("apiTableSHA256", JStr (apiTableSHA256 api));
        ("functionAddresses", JArr (JInt <$> functionAddresses api)); ("loadFlags", JInt (loadFlags api))].

Definition MANAGED_INO : string := "firmingo_managed_resident.ino".

Section Verified.
Context `{machine : !Machine} `{repo : !Git} `{pairs : !JsonPairs} `{codec : !Json} `{format : !ExportText}.

(** One entry of the source inventory; the result collects those that are ignored. *)
Definition check_reported (commit : string) (ignored : dict json) (source : string * json) : result (dict json) :=
  let '(name, expected) := source in
  match expected with
  | JStr h =>
      raise_when (negb (fullmatch is_hex_lower 64 h)) (ValueError "invalid resident source hash");;
      if bool_decide (name = "src/.DS_Store") then mret (dset ignored name expected)
      else
        data ← git_blob commit name;
        raise_when (negb (bool_decide (sha data = h))) (ValueError "resident source does not match selected commit");;
        mret ignored
  | _ => Raise (ValueError "invalid resident source hash")
  end.

(** Everything the library compiles from src is in the inventory; [arguments] list the files of the commit. *)
Definition check_library (arguments : list string) (message : string) (sources : dict json) : result unit :=
  output ← git arguments;
  listing ← utf8_decode output;
  raise_when (existsb (fun name => negb (has_key sources name))
      (List.filter (fun name => existsb (fun suffix => ends_with suffix name) LIBRARY_SUFFIXES) (split_lines listing)))
    (ValueError message).

(** The report, its sources and those ignored *)
Definition checked_report (report_bytes : bytes) (commit : string) : result (dict json * dict json * dict json) :=
  value ← json_loads_unique report_bytes;
  report ← match value with JObj d => mret d | _ => Raise (ValueError "resident report must be an object") end;
  raise_when (negb (py_eq (jget report "status") (JStr resident_status))
      || negb (py_eq (jget report "board") (JStr "nano_rp2040_connect"))
      || negb (py_eq (jget report "core") (JStr "rp2040:rp2040@6.0.0")))
    (ValueError "select a successful experimental Nano resident report");;
  sources ← match jget report "source_sha256" with
            | JObj d => raise_when (negb ((1 <=? blen d) && (blen d <=? 256)))
                          (ValueError "resident source inventory missing or excessive");; mret d
            | _ => Raise (ValueError "resident source inventory missing or excessive")
            end;
  raise_when (existsb (fun name => negb (has_key sources name)) required_sources)
    (ValueError "resident report lacks required source identities");;
  check_library ["ls-tree"; "--name-only"; "-r"; commit; "--"; "src"] "resident report omits tracked library build inputs" sources;;
  ignored ← foldM (check_reported commit) [] sources;
  mret (report, sources, ignored).

(** The board, the memory budgets and the version source *)
Definition checked_profile (report : dict json) (commit : string) : result string :=
  board ← git_blob commit "boards/nano_rp2040_connect/baseline.json";
  baseline ← json_loads board;
  fqbn ← subscript baseline "fqbn";
  raise_when (negb (py_eq (jget report "fqbn") fqbn) || negb (py_eq (jget report "upload_target") managed_upload_target))
    (ValueError "resident board/profile requirements differ");;
  raise_when (budget_wrong report "flash_bytes" "flash_budget_bytes" 1048576
      || budget_wrong report "static_ram_bytes" "static_ram_budget_bytes" 196608)
    (ValueError "resident memory budget mismatch");;
  header ← git_blob commit "src/core/version.h";
  sketch ← git_blob commit "experiments/managed_sketch/firmingo_managed_resident/firmingo_managed_resident.ino";
  match search resident_version_pattern (PyStr.text header) with
  | Some [version] =>
      raise_when (negb (contains resident_suffix (PyStr.text sketch))) (ValueError "unsupported experimental resident version source");;
      mret version
  | _ => Raise (ValueError "unsupported experimental resident version source")
  end.

Definition resident_facts_json (commit version : string) (elf uf2 report_bytes tool validator : bytes)
    (api : resident_facts) (compared : Z) (sources ignored : dict json) : dict json :=
  [("schema", JInt 1); ("board", JStr "nano_rp2040_connect"); ("profile", JStr "nano-managed-v1");
   ("backend", JStr "application"); ("firmwareVersion", JStr (version +:+ "-m9exp1")); ("firmwareCommit", JStr commit);
   ("residentELFSHA256", JStr (sha elf)); ("firmwareImageSHA256", JStr (sha uf2)); ("buildReportSHA256", JStr (sha report_bytes));
   ("apiAddress", JInt (apiAddress api)); ("residentABI", JInt 1); ("targetID", JInt 1); ("maximumCapsuleBytes", JInt 4096);
   ("qualification", JStr "experimental"); ("apiTable", api_json api); ("comparedFlashBytes", JInt compared);
   ("sourceSHA256", JObj (List.filter (fun kv => negb (has_key ignored kv.1)) sources));
   ("ignoredHistoricalMetadata", JObj ignored); ("hardwareQualification", JStr "not established by export");
   ("provenanceLimit", JStr "reported project sources match commit; installed core/toolchain inputs are declared, not fully reproduced or inventoried");
   ("exportToolSHA256", JStr (sha tool)); ("exportValidatorSHA256", JStr (sha validator))].

Definition newline_byte : bytes := [Byte.x0a].

(** [tool] and [validator] are the bytes of this tool and of build_composite.py. *)
Definition verified_resident (tool validator : bytes) (resident_dir commit : string) : result (dict bytes) :=
  raise_when (negb (fullmatch is_hex_lower 40 commit)) (ValueError "select an exact lowercase firmware commit");;
  report_bytes ← bounded_file (resident_dir +:+ "/report.json") (256 * 1024);
  ' (report, sources, ignored) ← checked_report report_bytes commit;
  version ← checked_profile report commit;
  elf ← bounded_file (resident_dir +:+ "/artifacts/" +:+ MANAGED_INO +:+ ".elf") ELF_LIMIT;
  uf2 ← bounded_file (resident_dir +:+ "/artifacts/" +:+ MANAGED_INO +:+ ".uf2") UF2_LIMIT;
  raise_when (negb (py_eq (JStr (sha elf)) (jget report "elf_sha256")) || negb (py_eq (JStr (sha uf2)) (jget report "uf2_sha256")))
    (ValueError "resident artifact hashes differ from build report");;
  ' (api, flash) ← resident_elf elf;
  compared ← check_uf2 uf2 flash;
  let facts := resident_facts_json commit version elf uf2 report_bytes tool validator api compared sources ignored in
  mret [("resident.elf", elf); ("resident.uf2", uf2); ("build-report.json", report_bytes);
        ("resident-facts.json", json_sorted facts ++ newline_byte)].
End Verified.

(** ** What a verified resident is *)
Section VerifiedSound.
Context `{machine : !Machine} `{repo : !Git} `{pairs : !JsonPairs} `{codec : !Json} `{format : !ExportText}.

(** A reported source is committed with the reported digest, or is the Finder's file that no build reads. *)
Definition source_bound (commit : string) (source : string * json) : Prop :=
  exists h, source.2 = JStr h /\ (source.1 = "src/.DS_Store" \/ exists data, committed commit source.1 data /\ h = sha data).

(** The inventory has every file that the arguments list and the library compiles. *)
Definition covers_library (arguments : list string) (sources : dict json) : Prop :=
  exists output listing, git arguments = Ok output /\
    utf8_decode output = Ok listing /\
    forall name suffix, name ∈ split_lines listing -> suffix ∈ LIBRARY_SUFFIXES -> ends_with suffix name = true ->
      is_Some (dget sources name).

Record report_bound (commit : string) (report_bytes : bytes) (report sources ignored : dict json) : Prop := {
  rb_parsed : json_loads_unique report_bytes = Ok (JObj report);
  rb_status : dget report "status" = Some (JStr resident_status);
  rb_board : dget report "board" = Some (JStr "nano_rp2040_connect");
  rb_sources : dget report "source_sha256" = Some (JObj sources);
  rb_size : 1 <= blen sources <= 256;
  rb_required : forall name, name ∈ required_sources -> is_Some (dget sources name);
  rb_library : covers_library ["ls-tree"; "--name-only"; "-r"; commit; "--"; "src"] sources;
  rb_bound : Forall (source_bound commit) sources;
  rb_ignored : forall name, is_Some (dget ignored name) -> name = "src/.DS_Store" }.

Lemma missing_false (sources : dict json) l : existsb (fun name => negb (has_key sources name)) l = false ->
  forall name, name ∈ l -> is_Some (dget sources name).
Proof.
  intros H name Hin%list_elem_of_In. destruct (dget sources name) as [v|] eqn:E; [eauto|].
  assert (existsb (fun name => negb (has_key sources name)) l = true); [|congruence].
  apply existsb_exists. exists name. split; [done|]. unfold has_key. rewrite E. reflexivity.
Qed.

Lemma check_library_Ok arguments message sources : check_library arguments message sources = Ok tt -> covers_library arguments sources.
Proof.
  unfold check_library. intros (output & Hg & H)%bind_Ok. apply bind_Ok in H as (listing & Hu & Hlib%raise_when_Ok).
  exists output, listing. split_and!; [done..|]. intros name suffix Hin Hsuf He. eapply missing_false; [exact Hlib|].
  apply list_elem_of_In, filter_In. split; [by apply list_elem_of_In|]. apply existsb_exists. exists suffix.
  split; [by apply list_elem_of_In|done].
Qed.

Lemma check_reported_Ok commit ignored source ignored' : check_reported commit ignored source = Ok ignored' ->
  source_bound commit source /\ (ignored' = ignored \/ ignored' = dset ignored "src/.DS_Store" source.2).
Proof.
  destruct source as [name expected]. unfold check_reported, source_bound. destruct expected as [| | | |h| |]; try done.
  intros [_ H]%raise_when_bind. case_bool_decide as Hn.
  - apply mret_Ok in H as <-. subst name. split; [|by right]. exists h. split; [done|by left].
  - apply bind_Ok in H as (data & Hd%git_blob_iff & H). apply raise_when_bind in H as [He%negb_false_iff%bool_decide_eq_true [= <-]].
    split; [|by left]. exists h. split; [done|]. right. by exists data.
Qed.

Lemma check_sources_bound commit sources ignored ignored' : foldM (check_reported commit) ignored sources = Ok ignored' ->
  (forall name, is_Some (dget ignored name) -> name = "src/.DS_Store") ->
  Forall (source_bound commit) sources /\ (forall name, is_Some (dget ignored' name) -> name = "src/.DS_Store").
Proof.
  revert ignored. induction sources as [|source sources IH]; intros ignored; cbn [foldM].
  - intros [= <-] H. by split.
  - intros (i & [Hs Hi]%check_reported_Ok & H)%bind_Ok Hig. destruct (IH i H) as [Hf Hk]; [|split; [by constructor|done]].
    intros name. destruct Hi as [->| ->]; [apply Hig|]. rewrite dget_dset. case_decide; [done|apply Hig].
Qed.

Lemma checked_report_Ok report_bytes commit report sources ignored :
  checked_report report_bytes commit = Ok (report, sources, ignored) -> report_bound commit report_bytes report sources ignored.
Proof.
  unfold checked_report. intros (value & Hv & H)%bind_Ok. apply bind_Ok in H as (r & Hr & H).
  destruct value as [| | | | | |d]; try done. apply mret_Ok in Hr as ->.
  apply raise_when_bind in H as [H1 H]. rewrite !orb_false_iff, !negb_false_iff in H1. destruct H1 as [[H1 H2] _].
  apply py_eq_str, jget_dget in H1, H2; [|done..].
  apply bind_Ok in H as (s & Hs & H). destruct (jget r "source_sha256") as [| | | | | |d] eqn:E; try done.
  apply raise_when_bind in Hs as [Hn [= ->]]. apply jget_dget in E; [|done].
  apply raise_when_bind in H as [Hreq H]. apply bind_unit in H as [Hlib%check_library_Ok H].
  apply bind_Ok in H as (i & Hi & [= -> -> ->]%mret_Ok).
  apply check_sources_bound in Hi as [Hall Hig]; [|by intros ? [? ?]]. breflect.
  constructor; [done..|lia| |done|done|done]. by apply missing_false.
Qed.

(** Memory use within the fixed budget, which the report names. *)
Definition in_budget (report : dict json) (field budget_field : string) (budget : Z) : Prop :=
  (exists z, dget report field = Some (JInt z) /\ 0 < z <= budget) /\ py_eq (jget report budget_field) (JInt budget) = true.

Lemma budget_wrong_false report field budget_field budget : budget_wrong report field budget_field budget = false ->
  in_budget report field budget_field budget.
Proof.
  unfold budget_wrong, in_budget. rewrite orb_false_iff, !negb_false_iff. intros [(z & Hz & Hr)%int_within_spec Hb].
  split; [|done]. exists z. split; [by apply jget_dget|lia].
Qed.

Record profile_bound (commit : string) (report : dict json) (version : string) : Prop := {
  pb_target : py_eq (jget report "upload_target") managed_upload_target = true;
  pb_flash : in_budget report "flash_bytes" "flash_budget_bytes" 1048576;
  pb_ram : in_budget report "static_ram_bytes" "static_ram_budget_bytes" 196608;
  pb_version : exists header, committed commit "src/core/version.h" header /\
    occurs resident_version_pattern (PyStr.text header) [version];
  pb_sketch : exists sketch, committed commit
      "experiments/managed_sketch/firmingo_managed_resident/firmingo_managed_resident.ino" sketch /\
    exists g, occurs (Lit resident_suffix) (PyStr.text sketch) g }.

Lemma checked_profile_Ok report commit version : checked_profile report commit = Ok version -> profile_bound commit report version.
Proof.
  unfold checked_profile. intros (board & _ & H)%bind_Ok. apply bind_Ok in H as (baseline & _ & H).
  apply bind_Ok in H as (fqbn & _ & H). apply raise_when_bind in H as [[_ Ht%negb_false_iff]%orb_false_iff H].
  apply raise_when_bind in H as [[Hf%budget_wrong_false Hr%budget_wrong_false]%orb_false_iff H].
  apply bind_Ok in H as (header & Hh%git_blob_iff & H). apply bind_Ok in H as (sketch & Hs%git_blob_iff & H).
  destruct (search resident_version_pattern (PyStr.text header)) as [[|v [|]]|] eqn:E; try done.
  apply raise_when_bind in H as [Hc%negb_false_iff [= ->]]. constructor; [done..| |].
  - exists header. split; [done|]. by apply search_sound.
  - exists sketch. split; [done|]. by apply found_iff.
Qed.
End VerifiedSound.

(** Everything a verified resident is checked for, and the files it yields. *)
Definition bound_resident `{machine : !Machine} `{repo : !Git} `{pairs : !JsonPairs} `{codec : !Json}
    `{format : !ExportText} (tool validator : bytes) (resident_dir commit : string) (files : dict bytes) : Prop :=
  exists report_bytes report sources ignored version elf uf2 api flash,
    fullmatch is_hex_lower 40 commit = true /\
    captured (resident_dir +:+ "/report.json") (256 * 1024) report_bytes /\
    report_bound commit report_bytes report sources ignored /\ profile_bound commit report version /\
    captured (resident_dir +:+ "/artifacts/" +:+ MANAGED_INO +:+ ".elf") ELF_LIMIT elf /\
    captured (resident_dir +:+ "/artifacts/" +:+ MANAGED_INO +:+ ".uf2") UF2_LIMIT uf2 /\
    dget report "elf_sha256" = Some (JStr (sha elf)) /\ dget report "uf2_sha256" = Some (JStr (sha uf2)) /\
    resident_elf elf = Ok (api, flash) /\ check_uf2 uf2 flash = Ok (load_bytes flash) /\
    files = [("resident.elf", elf); ("resident.uf2", uf2); ("build-report.json", report_bytes);
      ("resident-facts.json", json_sorted (resident_facts_json commit version elf uf2 report_bytes tool validator api
         (load_bytes flash) sources ignored) ++ newline_byte)].

Lemma verified_resident_Ok `{machine : !Machine} `{repo : !Git} `{pairs : !JsonPairs} `{codec : !Json}
    `{format : !ExportText} tool validator resident_dir commit files :
  verified_resident tool validator resident_dir commit = Ok files -> bound_resident tool validator resident_dir commit files.
Proof.
  unfold verified_resident. intros [Hc%negb_false_iff H]%raise_when_bind.
  apply bind_Ok in H as (report_bytes & Hb%bounded_file_iff & H). apply bind_Ok in H as ([[report sources] ignored] & Hr & H).
  apply checked_report_Ok in Hr. apply bind_Ok in H as (version & Hv%checked_profile_Ok & H).
  apply bind_Ok in H as (elf & He%bounded_file_iff & H). apply bind_Ok in H as (uf2 & Hu%bounded_file_iff & H).
  apply raise_when_bind in H as [[H1%negb_false_iff H2%negb_false_iff]%orb_false_iff H].
  apply bind_Ok in H as ([api flash] & Ha & H). apply bind_Ok in H as (compared & Hx & [= <-]%mret_Ok).
  apply str_eq_jget in H1, H2. assert (compared = load_bytes flash) as -> by by apply check_uf2_iff in Hx as [-> _].
  exists report_bytes, report, sources, ignored, version, elf, uf2, api, flash. split_and!; done.
Qed.

(** ** The compiler contract *)

(** path in the export, source in the repository, role *)
Definition CONTRACT_RESOURCES : list (string * string * string) :=
  [("contract/abi.h", "experiments/managed_sketch/abi.h", "resident-build-input");
   ("contract/image.h", "experiments/managed_sketch/image.h", "resident-build-input");
   ("contract/facade/Arduino.h", "experiments/managed_sketch/facade/Arduino.h", "native-proof-input");
   ("contract/module_entry.cpp", "experiments/managed_sketch/module_entry.cpp", "native-proof-input");
   ("contract/module.ld", "experiments/managed_sketch/module.ld", "native-proof-input");
   ("contract/LICENSE", "LICENSE", "license")].

(** [re.sub(r"//[^\n]*", "", text)] *)
Fixpoint strip_comments (inside : bool) (s : string) : string :=
  match s with
  | EmptyString => ""
  | String c s' =>
      if inside then
        if between 10 10 c then String c (strip_comments false s') else strip_comments true s'
      else match s' with
           | String d s'' =>
               if between 47 47 c && between 47 47 d then strip_comments true s'' else String c (strip_comments false s')
           | EmptyString => String c ""
           end
  end.

(** [re.sub(r"\s+", "", text)] *)
Fixpoint compact (s : string) : string :=
  match s with EmptyString => "" | String c s => if re_space c then compact s else String c (compact s) end.

Definition api_struct_pattern : regex :=
  Lit "struct FirmingoSketchApiV1" ⊙ Many re_space 0 ⊙ Lit "{" ⊙ Group (Many (fun c => negb (between 125 125 c)) 1) ⊙ Lit "};".

(** The expected layout, without its blanks *)
Definition expected_layout : string :=
  compact ("uint32_t magic; uint16_t abi_version; uint16_t table_bytes;"
    +:+ "void (*pin_mode)(uint32_t pin, uint32_t mode);" +:+ "void (*digital_write)(uint32_t pin, uint32_t value);"
    +:+ "uint32_t (*clock_ms)(); void (*delay_ms)(uint32_t milliseconds);"
    +:+ "uint32_t (*console_write)(const uint8_t* data, uint32_t size);"
    +:+ "uint32_t (*console_write_available)(); int32_t (*console_read)();" +:+ "uint32_t (*console_available)();").

Definition constant_pattern (name : string) : regex :=
  Lit "constexpr std::uint" ⊙ (Lit "16" ⊕ Lit "32") ⊙ Lit "_t " ⊙ Lit name ⊙ Many re_space 0 ⊙ Lit "=" ⊙ Many re_space 0
  ⊙ Group (Many (fun c => negb (between 59 59 c)) 1) ⊙ Lit ";".

(** A factor: decimal digits, or for the first one also [0x] and hexadecimal digits *)
Definition hex_value (c : Ascii.ascii) : Z :=
  let n := Z.of_N (N_of_ascii c) in if n <=? 57 then n - 48 else if n <=? 70 then n - 55 else n - 87.
Fixpoint read_hex (acc : Z) (s : string) : Z :=
  match s with EmptyString => acc | String c s => read_hex (16 * acc + hex_value c) s end.

Definition factor (first : bool) (token : string) : option Z :=
  if first && String.prefix "0x" token then
    let digits := String.substring 2 (String.length token - 2) token in
    if negb (bool_decide (digits = "")) && string_forallb is_hex digits then Some (read_hex 0 digits) else None
  else if negb (bool_decide (token = "")) && string_forallb is_digit token then read_digits 0 false token
  else None.

(** The product that [(?:0x[0-9a-fA-F]+|[0-9]+)(?:\s*\*\s*[0-9]+)*] describes: its factors, read from the
    parts between the stars *)
Definition product (value : string) : option Z :=
  match split_on "*"%char (strip_text value) with
  | first :: others =>
      head ← factor true (strip_text first);
      foldr (fun part acc => f ← factor false (strip_text part); z ← acc; Some (f * z)) (Some head) others
  | [] => None
  end.

Example product_forms : product " 4 * 1024 * 1024" = Some 4194304 /\ product "0x10200000" = Some 270532608 /\
  product "4 * 0x10" = None /\ product "4u" = None /\ product "*4" = None.
Proof. by vm_compute. Qed.

Definition constant (image name : string) : result Z :=
  match findall (constant_pattern name) image with
  | [[value]] => some_or (product value) (ValueError "unsupported image source constant")
  | _ => Raise (ValueError "unsupported image source constant")
  end.

Definition image_names : dict string :=
  [("boardTag", "kNanoBoardTag"); ("version", "kAbiVersion"); ("slotAddress", "kSlotAddress"); ("slotBytes", "kSlotBytes");
   ("codeOffset", "kCodeOffset"); ("headerBytes", "kHeaderBytes")].

Definition expected_image : dict Z :=
  [("boardTag", 0x4f4e414e); ("version", 1); ("slotAddress", 0x10200000); ("slotBytes", 4194304); ("codeOffset", 256);
   ("headerBytes", 64)].

Section Contract.
Context `{repo : !Git} `{format : !ExportText}.

Definition contract_files (commit : string) : result (dict bytes) :=
  mapM (fun '(path, source, _) => data ← git_blob commit source; mret (path, data)) CONTRACT_RESOURCES.

(** [facts["sourceSHA256"].get(source)] is the digest of the resource. *)
Definition check_resource (facts : dict json) (files : dict bytes) (resource : string * string * string) : result unit :=
  let '(path, source, role) := resource in
  data ← ditem files path;
  raise_when (65536 <? blen data) (ValueError "excessive contract resource");;
  if bool_decide (role = "resident-build-input") then
    v ← ditem facts "sourceSHA256";
    reported ← as_dict v;
    raise_when (negb (py_eq (jget reported source) (JStr (sha data))))
      (ValueError "contract resident source is absent from actual build report")
  else mret tt.

Definition check_api_layout (abi : string) : result unit :=
  match search api_struct_pattern (strip_comments false abi) with
  | Some [body] =>
      raise_when (negb (bool_decide (compact body = expected_layout))) (ValueError "unsupported resident ABI-one source layout")
  | _ => Raise (ValueError "unsupported resident ABI-one source layout")
  end.

Definition image_constants (image : string) : result (dict Z) :=
  mapM (fun '(key, name) => z ← constant (strip_comments false image) name; mret (key, z)) image_names.

(** The integer a fact holds, for the one subtraction made with it *)
Definition fact_minus (v : json) (z : Z) : result Z :=
  match v with JInt n => mret (n - z) | _ => Raise (TypeError "unsupported operand type(s) for -") end.

Definition contract_json (commit : string) (facts : dict json) (files : dict bytes) (image : dict Z) : result (dict json) :=
  maximum ← ditem facts "maximumCapsuleBytes";
  code ← fact_minus maximum 256;
  board ← ditem facts "board";
  profile ← ditem facts "profile";
  abi ← ditem facts "residentABI";
  table ← ditem facts "apiTable";
  table_bytes ← subscript table "apiTableBytes";
  resources ← mapM (fun '(path, source, role) =>
      data ← ditem files path;
      mret (JObj [("path", JStr path); ("sourcePath", JStr source); ("role", JStr role); ("bytes", JInt (blen data));
                  ("sha256", JStr (sha data))])) CONTRACT_RESOURCES;
  mret [("schema", JInt 1); ("identifier", JStr "firmingo-nano-managed-abi1-v1-experimental"); ("firmwareCommit", JStr commit);
        ("board", board); ("profile", profile); ("residentABI", abi); ("apiTableBytes", table_bytes);
        ("qualification", JStr "experimental source contract; no hardware qualification");
        ("image", JObj (((fun kv => (kv.1, JInt kv.2)) <$> image) ++
           [("magic", JStr "FMS1"); ("maximumCapsuleBytes", maximum); ("maximumCodeBytes", JInt code)]));
        ("compatibility", JStr "exact resident API address required; changed resource bytes require explicit compiler recipe review");
        ("resourceScope", JStr "resident headers are build inputs; facade/entry/linker are native proof references, not a WASM recipe");
        ("resources", JArr resources)].

Definition compiler_contract (commit : string) (facts : dict json) : result (dict bytes) :=
  files ← contract_files commit;
  for_each (check_resource facts files) CONTRACT_RESOURCES;;
  abi_bytes ← ditem files "contract/abi.h";
  abi ← utf8_decode abi_bytes;
  check_api_layout abi;;
  image_bytes ← ditem files "contract/image.h";
  image_text ← utf8_decode image_bytes;
  image ← image_constants image_text;
  raise_when (negb (bool_decide (image = expected_image))) (ValueError "unsupported Nano managed image source layout");;
  contract ← contract_json commit facts files image;
  mret (dset files "contract.json" (json_sorted contract ++ newline_byte)).
End Contract.

(** What the contract of a commit is: committed resources, bounded, and the two headers as the resident was
    built with them. *)
Record contract_bound `{repo : !Git} `{format : !ExportText} (commit : string) (facts : dict json) (files : dict bytes) : Prop := {
  cb_resources : Forall (fun '(path, source, role) => exists data, dget files path = Some data /\ committed commit source data /\
    blen data <= 65536 /\ (role = "resident-build-input" -> exists reported, dget facts "sourceSHA256" = Some (JObj reported) /\
      dget reported source = Some (JStr (sha data)))) CONTRACT_RESOURCES;
  cb_layout : exists abi body, dget files "contract/abi.h" = Some abi /\ (text ← utf8_decode abi; mret (strip_comments false text)) = Ok body /\
    exists layout, occurs api_struct_pattern body [layout] /\ compact layout = expected_layout;
  cb_image : exists image text, dget files "contract/image.h" = Some image /\ utf8_decode image = Ok text /\
    image_constants text = Ok expected_image;
  cb_keys : keys files = (fun r => r.1.1) <$> CONTRACT_RESOURCES ++ [("contract.json", "", "")] }.

Section ContractSound.
Context `{repo : !Git} `{format : !ExportText}.

Lemma contract_files_Ok commit files : contract_files commit = Ok files ->
  Forall2 (fun '(path, source, _) kv => kv.1 = path /\ committed commit source kv.2) CONTRACT_RESOURCES files.
Proof.
  unfold contract_files. intros H%mapM_Ok. eapply Forall2_impl; [exact H|].
  intros [[path source] role] [k data] (d & Hd%git_blob_iff & [= <- <-]%mret_Ok)%bind_Ok. done.
Qed.

Lemma check_resource_Ok facts files path source role : check_resource facts files (path, source, role) = Ok tt ->
  exists data, dget files path = Some data /\ blen data <= 65536 /\
    (role = "resident-build-input" -> exists reported, dget facts "sourceSHA256" = Some (JObj reported) /\
      dget reported source = Some (JStr (sha data))).
Proof.
  unfold check_resource. intros (data & Hd%some_or_Ok & H)%bind_Ok. apply raise_when_bind in H as [Hs%Z.ltb_ge H].
  exists data. split_and!; [done..|]. intros Hr. rewrite bool_decide_true in H by done.
  apply bind_Ok in H as (v & Hv%some_or_Ok & H). apply bind_Ok in H as (reported & Hrep & H%raise_when_Ok%negb_false_iff%py_eq_str).
  destruct v; try done. injection Hrep as ->. exists reported. split; [done|]. by apply jget_dget.
Qed.

Lemma check_api_layout_Ok abi u : check_api_layout abi = Ok u ->
  exists layout, occurs api_struct_pattern (strip_comments false abi) [layout] /\ compact layout = expected_layout.
Proof.
  unfold check_api_layout. destruct (search _ _) as [[|layout [|]]|] eqn:E; try done.
  intros H%raise_when_Ok%negb_false_iff%bool_decide_eq_true. exists layout. split; [by apply search_sound|done].
Qed.

Lemma compiler_contract_Ok commit facts files : compiler_contract commit facts = Ok files -> contract_bound commit facts files.
Proof.
  unfold compiler_contract. intros (l & Hl%contract_files_Ok & H)%bind_Ok. apply bind_unit in H as [Hall%for_each_Ok H].
  apply bind_Ok in H as (abi_bytes & Ha%some_or_Ok & H). apply bind_Ok in H as (abi & Hu & H).
  apply bind_Ok in H as (u & Hlay%check_api_layout_Ok & H). apply bind_Ok in H as (image_bytes & Hi%some_or_Ok & H).
  apply bind_Ok in H as (image_text & Hit & H). apply bind_Ok in H as (image & Him & H).
  apply raise_when_bind in H as [->%negb_false_iff%bool_decide_eq_true H]. apply bind_Ok in H as (contract & _ & [= <-]%mret_Ok).
  assert (Hk : keys l = (fun r => r.1.1) <$> CONTRACT_RESOURCES).
  { clear -Hl. induction Hl as [|[[path source] role] [k d] rs l [Hk _] Hl IH]; [done|]. simpl in *. by rewrite Hk, IH. }
  assert (Hget : forall path, path <> "contract.json" -> dget (dset l "contract.json" (json_sorted contract ++ newline_byte)) path = dget l path).
  { intros path Hp. rewrite dget_dset. by rewrite decide_False. }
  assert (Hn : NoDup (keys l)) by (rewrite Hk; apply (bool_decide_unpack _); vm_compute; exact I).
  constructor.
  - apply Forall_forall. intros [[path source] role] Hin. rewrite Hget; [|intros ->; revert Hin; apply (bool_decide_unpack _); vm_compute; exact I].
    rewrite Forall_forall in Hall. pose proof (Hall _ Hin) as Hc. apply check_resource_Ok in Hc. destruct Hc as (data & Hd & Hs & Hr).
    exists data. split_and!; [done| |done|done].
    apply list_elem_of_lookup_1 in Hin as [i Hat]. destruct (Forall2_lookup_l _ _ _ _ _ Hl Hat) as ([k d] & Hkd%list_elem_of_lookup_2 & Hp & Hcom).
    simpl in *. subst k.
    assert (dget l path = Some d) as E by by apply dget_NoDup. congruence.
  - exists abi_bytes, (strip_comments false abi). rewrite Hget by done. split_and!; [done|by rewrite Hu|done].
  - exists image_bytes, image_text. rewrite Hget by done. done.
  - assert (Hset : forall (d : dict bytes) k v, k ∉ keys d -> keys (dset d k v) = keys d ++ [k]).
    { intros d k v. induction d as [|[k0 v0] d IH]; [done|]. simpl. rewrite not_elem_of_cons. intros [H1 H2].
      rewrite decide_False by done. simpl. by rewrite IH. }
    rewrite Hset, Hk; [by rewrite fmap_app|]. rewrite Hk. apply (bool_decide_unpack _). vm_compute. exact I.
Qed.
End ContractSound.

(** ** Publishing *)

(** [{**files, ...}] and [path.parent] *)
Definition update (files more : dict bytes) : dict bytes := foldl (fun d kv => dset d kv.1 kv.2) files more.
Definition parent (path : string) : string := default "." (head (parents path)).

Definition FileExistsError (message : string) : exn := Exn KFileExistsError message.

Definition export_manifest (commit : string) (files : dict bytes) : dict json :=
  [("schema", JInt 2); ("purpose", JStr "experimental_resident_compiler_export"); ("board", JStr "nano_rp2040_connect");
   ("profile", JStr "nano-managed-v1"); ("firmwareCommit", JStr commit);
   ("files", JArr ((fun kv => JObj [("path", JStr kv.1); ("bytes", JInt (blen kv.2)); ("sha256", JStr (sha kv.2))]) <$> files));
   ("qualification", JStr "experimental structural/source/artifact checks; no installation or hardware qualification")].

(** ** A new directory of files *)

(** [path.open("xb")] and the write *)
Definition write_new (output name : string) (data : bytes) : st disk_ret (gmap string bytes) unit :=
  let target := output +:+ "/" +:+ name in
  change "mkdir" (parent target) id;;
  f ← st_get;
  st_pure (raise_when (exists_path f target) (FileExistsError target));;
  change "open" target <[target := []]>;;
  change "write" target <[target := data]>.

(** [output.mkdir()], and one new file for each item *)
Definition write_all (output : string) (all : dict bytes) : st disk_ret (gmap string bytes) unit :=
  f ← st_get;
  st_pure (raise_when (exists_path f output) (FileExistsError output));;
  change "mkdir" output id;;
  st_fold (fun _ '(name, data) => write_new output name data) tt all.

Section Writing.
Context (env : environment disk_ret) (f : files) (output : string).

Definition written (l : dict bytes) : files := foldl (fun s kv => <[(output +:+ "/" +:+ kv.1)%string := kv.2]> s) f l.

(** A disk that stops on the way has written a prefix of the files, the last of them perhaps empty. *)
Definition partly_written (all : dict bytes) (s : files) : Prop :=
  exists done rest, all = done ++ rest /\
    (s = written done \/ exists name data rest', rest = (name, data) :: rest' /\
       s = <[(output +:+ "/" +:+ name)%string := []]> (written done)).

Lemma written_snoc l name data : written (l ++ [(name, data)]) = <[(output +:+ "/" +:+ name)%string := data]> (written l).
Proof. unfold written. by rewrite foldl_app. Qed.

Lemma write_new_triple all done name data rest : all = done ++ (name, data) :: rest ->
  triple env [] (fun s _ => s = written done) (write_new output name data) (fun _ s _ => s = written (done ++ [(name, data)]))
    (fun _ s _ => partly_written all s).
Proof.
  intros ->. set (target := (output +:+ "/" +:+ name)%string).
  assert (Hdone : partly_written (done ++ (name, data) :: rest) (written done)).
  { exists done, ((name, data) :: rest). split; [done|by left]. }
  assert (Hopen : partly_written (done ++ (name, data) :: rest) (<[target := []]> (written done))).
  { exists done, ((name, data) :: rest). split; [done|]. right. by exists name, data, rest. }
  unfold write_new. fold target. rewrite written_snoc. fold target.
  apply triple_bind with (R := fun _ s _ => s = written done).
  { eapply triple_weaken; [apply (change_triple env (fun s => s = written done) (fun s => s = written done)); done|done|done|].
    by intros e s k ->. }
  intros _. apply triple_bind with (R := fun g s _ => g = s /\ s = written done); [apply triple_get; by intros s k ->|].
  intros g. apply triple_from. intros s k [-> ->].
  apply triple_bind with (R := fun _ s _ => s = written done).
  { apply triple_pure. intros s k' [-> _]. destruct (raise_when _ _); done. }
  intros _. apply triple_bind with (R := fun _ s _ => s = <[target := []]> (written done)).
  { eapply triple_weaken; [apply (change_triple env (fun s => s = written done) (fun s => s = <[target := []]> (written done)));
      by intros s' ->|done|done|]. by intros e s' k' ->. }
  intros _. eapply triple_weaken; [apply (change_triple env (fun s => s = <[target := []]> (written done))
    (fun s => s = <[target := data]> (written done)))|done|done|].
  - intros s' ->. apply insert_insert_eq.
  - by intros e s' k' ->.
Qed.

Lemma write_all_triple all : triple env [] (fun s _ => s = f) (write_all output all)
  (fun _ s _ => exists_path f output = false /\ s = written all)
  (fun e s _ => s = f \/ exists_path f output = false /\ partly_written all s).
Proof.
  unfold write_all. apply triple_bind with (R := fun g s _ => g = f /\ s = f); [apply triple_get; by intros s k ->|].
  intros g. apply triple_from. intros s k [-> ->].
  apply triple_bind with (R := fun _ s _ => s = f /\ exists_path f output = false).
  { apply triple_pure. intros s k2 [-> _]. destruct (exists_path f output); [by left|done]. }
  intros _. apply triple_from. intros s k2 [-> Hnew].
  apply triple_bind with (R := fun _ s _ => s = written []).
  { eapply triple_weaken; [apply (change_triple env (fun s => s = f) (fun s => s = written [])); by intros s ->| |done|].
    - by intros s k3 [-> _].
    - intros e s k3 ->. by left. }
  intros _. eapply triple_weaken with (E' := fun _ s _ => partly_written all s).
  - apply (triple_fold env [] (fun done _ s _ => s = written done)). intros done u [name data] rest E.
    by eapply write_new_triple.
  - done.
  - by intros u s k3 ->.
  - intros e s k3 Hp. by right.
Qed.
End Writing.

Section Exporting.
Context `{machine : !Machine} `{repo : !Git} `{pairs : !JsonPairs} `{codec : !Json} `{format : !ExportText}.
Context (tool validator : bytes) (resident_dir output commit : string).

(** The files of the export, before anything is written: the verified ones and the contract *)
Definition export_files : result (dict bytes) :=
  files ← verified_resident tool validator resident_dir commit;
  data ← ditem files "resident-facts.json";
  value ← json_loads data;
  facts ← match value with JObj d => mret d | _ => Raise (TypeError "object is not subscriptable") end;
  contract ← compiler_contract commit facts;
  mret (update files contract).

Definition export_resident : st disk_ret (gmap string bytes) (dict json) :=
  files ← st_pure export_files;
  let manifest_bytes := json_sorted (export_manifest commit files) ++ newline_byte in
  write_all output (dset files "manifest.json" manifest_bytes);;
  mret [("status", JStr "exported_experimental_resident"); ("manifestSHA256", JStr (sha manifest_bytes));
        ("files", JInt (blen files)); ("firmwareCommit", JStr commit); ("hardwareQualified", JBool false)].
End Exporting.

(** ** Nothing unverified is published *)
Section ExportSound.
Context `{machine : !Machine} `{repo : !Git} `{pairs : !JsonPairs} `{codec : !Json} `{format : !ExportText}.
Context (env : environment disk_ret) (f : files) (tool validator : bytes) (resident_dir output commit : string).

(** The export's files: a bound resident, with the contract of the same commit for the facts it states. *)
Definition exportable (all : dict bytes) : Prop :=
  exists resident facts contract data, bound_resident tool validator resident_dir commit resident /\
    dget resident "resident-facts.json" = Some data /\ json_loads data = Ok (JObj facts) /\
    contract_bound commit facts contract /\
    all = dset (update resident contract) "manifest.json"
            (json_sorted (export_manifest commit (update resident contract)) ++ newline_byte).

Definition exported (s : files) (r : result (dict json)) : Prop :=
  (s = f /\ exists e, r = Raise e) \/
  exists all, exportable all /\ exists_path f output = false /\
    match r with Ok _ => s = written f output all | Raise _ => partly_written f output all s end.

Lemma export_files_Ok all : export_files tool validator resident_dir commit = Ok all ->
  exportable (dset all "manifest.json" (json_sorted (export_manifest commit all) ++ newline_byte)).
Proof.
  unfold export_files. intros (files & Hf%verified_resident_Ok & H)%bind_Ok. apply bind_Ok in H as (data & Hd%some_or_Ok & H).
  apply bind_Ok in H as (value & Hv & H). apply bind_Ok in H as (facts & Hfacts & H).
  destruct value as [| | | | | |d]; try done. apply mret_Ok in Hfacts as ->.
  apply bind_Ok in H as (contract & Hc%compiler_contract_Ok & [= <-]%mret_Ok). by exists files, facts, contract, data.
Qed.

Lemma export_triple : triple env [] (fun s _ => s = f) (export_resident tool validator resident_dir output commit)
  (fun res s _ => exported s (Ok res)) (fun e s _ => exported s (Raise e)).
Proof.
  unfold export_resident. apply triple_bind with (R := fun files s _ =>
    s = f /\ export_files tool validator resident_dir commit = Ok files).
  { apply triple_pure. intros s k ->. destruct (export_files _ _ _ _); [done|]. left. eauto. }
  intros files. apply triple_from. intros s k [-> Hx%export_files_Ok].
  set (all := dset files "manifest.json" _) in *.
  apply triple_bind with (R := fun _ s _ => exists_path f output = false /\ s = written f output all).
  - eapply triple_weaken; [apply (write_all_triple env f output all)|by intros s k' [-> _]|done|].
    intros e s k' [->|[Hn Hp]]; [left; eauto|]. right. by exists all.
  - intros u. apply triple_ret. intros s k' [Hn ->]. right. by exists all.
Qed.
End ExportSound.

(** C35: Exporting a resident publishes nothing unverified: it either changes no file and fails, or the output
    did not exist before and every file written under it is one of the export's files: the ELF, UF2, report
    and facts of a resident that is bound to the commit it names (its report has no duplicate keys and is a
    successful build; its inventory covers the required sources and all of src that the library compiles,
    each committed with the reported digest; memory, version and digests agree; the UF2 programs every LOAD
    byte of an ELF with an API table), the committed headers of the same commit with the layout and
    constants expected, and the manifest with their digests. On success all of them are written; a disk
    that fails leaves a prefix of them, the last one perhaps empty. *)
Theorem export_only_verified `{machine : !Machine} `{repo : !Git} `{pairs : !JsonPairs} `{codec : !Json}
    `{format : !ExportText} env f tool validator resident_dir output commit :
  let '(s, r, _) := export_resident tool validator resident_dir output commit env [] f in
  exported f tool validator resident_dir output commit s r.
Proof.
  pose proof (export_triple env f tool validator resident_dir output commit f [] eq_refl) as H. cbn [app] in H.
  destruct (export_resident _ _ _ _ _ env [] f) as [[s [res|e]] n]; exact H.
Qed.

(** ** A small repository, and the export of its resident *)
Module ExportDemo.
Definition lines (l : list string) : bytes := concat ((fun s => ascii s ++ newline_byte) <$> l).

Definition abi_header : bytes := lines
  ["struct FirmingoSketchApiV1 {  // the table"; "uint32_t magic; uint16_t abi_version; uint16_t table_bytes;";
   "void (*pin_mode)(uint32_t pin, uint32_t mode); void (*digital_write)(uint32_t pin, uint32_t value);";
   "uint32_t (*clock_ms)(); void (*delay_ms)(uint32_t milliseconds);";
   "uint32_t (*console_write)(const uint8_t* data, uint32_t size);";
   "uint32_t (*console_write_available)(); int32_t (*console_read)(); uint32_t (*console_available)();"; "};"].

Definition image_header : bytes := lines
  ["constexpr std::uint32_t kNanoBoardTag = 0x4f4e414e;"; "constexpr std::uint16_t kAbiVersion = 1;";
   "constexpr std::uint32_t kSlotAddress = 0x10200000; // top"; "constexpr std::uint32_t kSlotBytes = 4 * 1024 * 1024;";
   "constexpr std::uint32_t kCodeOffset = 256;"; "constexpr std::uint16_t kHeaderBytes = 64;"].

Definition tree : dict bytes :=
  [("boards/nano_rp2040_connect/baseline.json", ascii "baseline"); ("experiments/managed_sketch/abi.h", abi_header);
   ("src/core/version.h", lines ["#define FIRMINGO_VERSION " +:+ quote +:+ "0.1.0" +:+ quote]);
   ("experiments/managed_sketch/firmingo_managed_resident/firmingo_managed_resident.ino", lines [resident_suffix]);
   ("experiments/managed_sketch/build_resident.py", ascii "build"); ("experiments/managed_sketch/image.h", image_header);
   ("experiments/managed_sketch/facade/Arduino.h", ascii "facade"); ("experiments/managed_sketch/module_entry.cpp", ascii "entry");
   ("experiments/managed_sketch/module.ld", ascii "link"); ("LICENSE", ascii "license")].

Definition commit : string := hex (fill Byte.x5a 20).
Definition baseline : dict json := [("fqbn", JStr "rp2040:rp2040:arduino_nano_connect")].
Definition inventory : dict json := (fun kv => (kv.1, JStr (sha kv.2))) <$> take 6 tree.

Definition report : dict json :=
  [("status", JStr resident_status); ("board", JStr "nano_rp2040_connect"); ("core", JStr "rp2040:rp2040@6.0.0");
   ("source_sha256", JObj inventory); ("fqbn", JStr "rp2040:rp2040:arduino_nano_connect");
   ("upload_target", managed_upload_target); ("flash_bytes", JInt 256); ("flash_budget_bytes", JInt 1048576);
   ("static_ram_bytes", JInt 1); ("static_ram_budget_bytes", JInt 196608); ("elf_sha256", JStr (sha demo_elf));
   ("uf2_sha256", JStr (sha demo_uf2))].

Definition after_colon (spec : string) : string := match partition_at ":"%char spec with Some (_, name) => name | None => "" end.

#[local] Instance repo : Git := { git arguments :=
  match arguments with
  | ["ls-tree"; "--name-only"; "-r"; _; "--"; "src"] => Ok (lines ["src/core/version.h"])
  | ["ls-tree"; _; "--"; name] => Ok (ascii ("100644 blob " +:+ commit) ++ [Byte.x09] ++ ascii name ++ newline_byte)
  | ["cat-file"; "-s"; spec] => (fun b => ascii (str_int (blen b)) ++ newline_byte) <$> ditem tree (after_colon spec)
  | ["show"; spec] => ditem tree (after_colon spec)
  | _ => Raise (ValueError "git")
  end }.

Definition plain (data : bytes) : descriptor := {| fd_regular := true; fd_size := blen data; fd_read := fun _ => data; fd_size_after := blen data |}.

#[local] Instance machine : Machine := {
  is_symlink _ := false;
  os_open path :=
    if ends_with ".json" path then Ok (plain (ascii "report"))
    else if ends_with ".elf" path then Ok (plain demo_elf)
    else if ends_with ".uf2" path then Ok (plain demo_uf2) else Raise (OSError "No such file or directory") }.

#[local] Instance pairs : JsonPairs := { json_pairs _ := Ok (JObj report) }.
#[local] Instance format : ExportText := {
  utf8_decode b := Ok (PyStr.text b);
  json_sorted d := if has_key d "sourceSHA256" then ascii "facts" else ascii "manifest" }.

Definition facts : dict json :=
  resident_facts_json commit "0.1.0" demo_elf demo_uf2 (ascii "report") [] [] demo_facts 256 inventory [].

#[local] Instance codec : Json := {
  json_loads b := if bool_decide (b = ascii "baseline") then Ok (JObj baseline) else Ok (JObj facts);
  json_dumps _ := [] }.

Definition granted : environment disk_ret := fun _ _ => Ok tt.
Definition program : st disk_ret (gmap string bytes) (dict json) := export_resident [] [] "build/managed" "export" commit.

Example export_demo : let '(s, r, _) := program granted [] ∅ in
  is_ok r = true /\ s !! "export/resident.uf2" = Some demo_uf2 /\ s !! "export/contract/abi.h" = Some abi_header /\
  is_Some (s !! "export/manifest.json") /\ map_size s = 12%nat.
Proof. vm_compute. split_and!; try reflexivity. by eexists. Qed.

(** The output directory is never reused. *)
Example export_refused : let s := <["export/old" := []]> ∅ in
  program granted [] s = (s, Raise (FileExistsError "export"), []).
Proof. vm_compute. reflexivity. Qed.
End ExportDemo.
