(* ===== verification/StatefulLayout.v ===== *)
(** * The layout of an FMS2 contract: experiments/managed_sketch/export_stateful.py, [validate_layout]

    The exporter ships a JSON description of the capsule format to compilers. [validate_layout] accepts only
    one description, and the theorem below says that it is the true one: each field it lists is where the FMS2
    writer (BuildStatefulProof) puts it. *)

From stdpp Require Import base tactics list list_numbers strings.
From Stdlib Require Import ZArith Lia Floats.SpecFloat.
From S2P Require Import Prelude.
From S2P Require Import PyBytes.
From S2P Require Import Sha256.
From S2P Require Import PyDict.
From S2P Require Import PyJson.
From S2P Require Import BuildComposite.
From S2P Require Import Elf.
From S2P Require Import ExportResident.
From S2P Require Import BuildStatefulProof.
From S2P Require Import Dev.

Local Open Scope Z_scope.

(** ** The check *)

(** [value.get(key) != expected] for each of some keys *)
Definition differs (d : dict json) (key : string) (expected : json) : bool := negb (py_eq (jget d key) expected).
Definition any_differs (d expected : dict json) : bool := existsb (fun '(key, v) => differs d key v) expected.

Definition contract_identity : dict json :=
  [("schema", JInt 1); ("identifier", JStr "firmingo-nano-managed-abi2-v1-experimental"); ("contractVersion", JInt 1);
   ("board", JStr "nano_rp2040_connect"); ("profile", JStr "nano-managed-v2"); ("residentABI", JInt 2);
   ("apiTableBytes", JInt 52)].

Definition contract_architecture : json :=
  JObj [("family", JStr "armv6-m"); ("cpu", JStr "cortex-m0plus"); ("instructionSet", JStr "thumb");
        ("endianness", JStr "little"); ("pointerBytes", JInt 4); ("floatABI", JStr "soft")].

Definition image_facts : dict json :=
  [("magic", JStr "FMS2"); ("version", JInt 2); ("headerBytes", JInt 128); ("codeOffset", JInt 256);
   ("boardTag", JInt 0x4f4e414e); ("slotAddress", JInt 0x10200000); ("slotBytes", JInt 4194304);
   ("maximumCapsuleBytes", JInt 4096); ("sectionAlignment", JInt 4)].

Definition word_names : list string :=
  ["boardTag"; "apiAddress"; "codeAddress"; "codeBytes"; "setupAddress"; "loopAddress"; "dataAddress"; "dataBytes";
   "bssAddress"; "bssBytes"; "dataLoadOffset"; "imageBytes"; "flags"; "reserved"].

(** name, offset, number of bytes, kind *)
Definition layout_fields : list (string * Z * Z * string) :=
  [("magic", 0, 4, "ascii"); ("version", 4, 2, "uint-le"); ("headerBytes", 6, 2, "uint-le")]
  ++ imap (fun i name => (name, 8 + Z.of_nat i * 4, 4,
       if bool_decide (name = "flags") || bool_decide (name = "reserved") then "zero" else "uint-le")) word_names
  ++ [("payloadSHA256", 64, 32, "sha256"); ("headerSHA256", 96, 32, "sha256"); ("padding", 128, 128, "zero")].

Definition field_json (f : string * Z * Z * string) : json :=
  let '(n, o, b, k) := f in JObj [("name", JStr n); ("offset", JInt o); ("bytes", JInt b); ("kind", JStr k)].

Definition hash_spans : json :=
  JObj [("payloadSHA256", JObj [("start", JInt 256); ("endField", JStr "imageBytes")]);
        ("headerSHA256", JObj [("start", JInt 0); ("end", JInt 96)])].

Definition section_layout : json :=
  JObj [("codeAddress", JStr "slotAddress + codeOffset"); ("dataLoadOffset", JStr "codeOffset + codeBytes");
        ("imageBytes", JStr "dataLoadOffset + dataBytes"); ("dataAddress", JStr "resident stateAddress");
        ("bssAddress", JStr "dataAddress + dataBytes");
        ("stateBound", JStr "dataBytes + bssBytes <= resident stateCapacityBytes");
        ("entryRule", JStr "Thumb entry with at least two bytes in code extent");
        ("inputRule", JStr "exact image span; reject truncation and trailing bytes")].

Definition initialization : json :=
  JObj [("copyData", JBool true); ("clearBSS", JBool true); ("clearUnusedArena", JBool true); ("beforeSetup", JBool true);
        ("repeatEachGeneration", JBool true); ("nonvolatile", JBool false); ("constructors", JBool false);
        ("heap", JBool false); ("sandbox", JBool false); ("rollback", JBool false)].

Definition build_definitions : json :=
  JObj [("cpp", JArr [JStr "FIRMINGO_API_ADDRESS"]);
        ("linker", JArr [JStr "FIRMINGO_STATE_ADDRESS"; JStr "FIRMINGO_STATE_BYTES"])].

Definition signatures : list (string * string) :=
  [("pin_mode", "void(uint32,uint32)"); ("digital_write", "void(uint32,uint32)"); ("clock_ms", "uint32()");
   ("delay_ms", "void(uint32)"); ("console_write", "uint32(const uint8*,uint32)"); ("console_write_available", "uint32()");
   ("console_read", "int32()"); ("console_available", "uint32()")].

Definition api_layout : json :=
  JObj [("magic", JInt 0x49504146); ("version", JInt 2); ("bytes", JInt 52); ("pointerBytes", JInt 4);
        ("endianness", JStr "little");
        ("functions", JArr (imap (fun i '(n, s) =>
           JObj [("name", JStr n); ("offset", JInt (8 + 4 * Z.of_nat i)); ("signature", JStr s)]) signatures));
        ("stateFields", JObj [("stateAddress", JInt 40); ("stateCapacityBytes", JInt 44); ("maximumCapsuleBytes", JInt 48)])].

(** What the contract must say of uploads, from the target the ELF holds *)
Definition upload_facts_of (actual : json) : result (dict json) :=
  id ← subscript actual "id";
  format ← subscript actual "format";
  max_size ← subscript actual "max_size";
  max_chunk ← subscript actual "max_chunk";
  authorization ← subscript actual "authorization";
  timeout ← subscript actual "stagingTimeoutMs";
  mret [("protocolMajor", JInt 1); ("targetID", id); ("format", format); ("maximumCapsuleBytes", max_size);
        ("maximumChunkBytes", max_chunk); ("authorization", authorization); ("stagingTimeoutMs", timeout);
        ("stagingTimeoutError", JStr "io_error"); ("pauseTimeoutMs", JInt 1000)].

Definition check_image (image : dict json) : result unit :=
  raise_when (any_differs image image_facts) (ValueError "unsupported FMS2 image layout");;
  raise_when (differs image "fields" (JArr (field_json <$> layout_fields))) (ValueError "unsupported FMS2 field offsets");;
  raise_when (differs image "hashSpans" hash_spans) (ValueError "unsupported FMS2 hash spans");;
  raise_when (differs image "layout" section_layout) (ValueError "unsupported FMS2 section constraints").

Definition check_upload (upload : json) (expected : dict json) : result unit :=
  for_each (fun '(key, value) =>
    u ← as_dict upload;
    raise_when (differs u key value) (ValueError "contract/upload ELF mismatch")) expected.

Definition validate_layout (value : json) (facts : dict json) : result unit :=
  layout ← as_dict value;
  raise_when (negb (type_is_int (jget layout "schema")) || negb (type_is_int (jget layout "contractVersion")))
    (ValueError "contract schema/version must be integers");;
  raise_when (any_differs layout contract_identity) (ValueError "unsupported FMS2 contract identity");;
  image_value ← ditem layout "image";
  raise_when (differs layout "architecture" contract_architecture) (ValueError "unsupported Nano target architecture");;
  image ← as_dict image_value;
  check_image image;;
  raise_when (differs layout "initialization" initialization) (ValueError "unsupported initialization contract");;
  raise_when (differs layout "buildDefinitions" build_definitions) (ValueError "unsupported compiler/linker definitions");;
  raise_when (negb (py_eq (jget_or layout "api" (JObj [])) api_layout)) (ValueError "unsupported FAPI two language-neutral layout");;
  upload ← ditem layout "upload";
  actual ← ditem facts "uploadTarget";
  expected ← upload_facts_of actual;
  check_upload upload expected.

(** ** What an accepted description says *)

(** A field of the image, as the description lists it *)
Definition described (layout : dict json) (name : string) (offset count : Z) (kind : string) : Prop :=
  exists image fields entry, dget layout "image" = Some (JObj image) /\ dget image "fields" = Some (JArr fields) /\
    JObj entry ∈ fields /\ py_eq (jget entry "name") (JStr name) = true /\ py_eq (jget entry "offset") (JInt offset) = true /\
    py_eq (jget entry "bytes") (JInt count) = true /\ py_eq (jget entry "kind") (JStr kind) = true.

(** What a capsule for the resident [c], with the extents [x], holds under a name *)
Definition field_bytes (c : resident_facts_v2) (x : module_extents) (capsule : bytes) : dict bytes :=
  [("magic", ascii "FMS2"); ("version", le_bytes 2 2); ("headerBytes", le_bytes 2 128); ("boardTag", le_bytes 4 0x4f4e414e);
   ("apiAddress", le_bytes 4 (rc_apiAddress c)); ("codeAddress", le_bytes 4 (0x10200000 + 256));
   ("codeBytes", le_bytes 4 (codeBytes x)); ("setupAddress", le_bytes 4 (setupAddress x));
   ("loopAddress", le_bytes 4 (loopAddress x)); ("dataAddress", le_bytes 4 (rc_stateAddress c));
   ("dataBytes", le_bytes 4 (dataBytes x)); ("bssAddress", le_bytes 4 (rc_stateAddress c + dataBytes x));
   ("bssBytes", le_bytes 4 (bssBytes x)); ("dataLoadOffset", le_bytes 4 (256 + codeBytes x));
   ("imageBytes", le_bytes 4 (blen capsule)); ("flags", le_bytes 4 0); ("reserved", le_bytes 4 0);
   ("payloadSHA256", sha256 (slice 256 (blen capsule) capsule)); ("headerSHA256", sha256 (slice 0 96 capsule));
   ("padding", zeros 128)].

(** ** Equality of JSON values, read back *)
Lemma float_is_inj z w f : float_is z f = true -> float_is w f = true -> z = w.
Proof.
  destruct f as [s| | |s m e]; unfold float_is; [lia|done..|].
  destruct (0 <=? e) eqn:He; [lia|]. intros H1%Z.eqb_eq H2%Z.eqb_eq.
  assert (0 < 2 ^ (- e)) by (apply Z.pow_pos_nonneg; lia). nia.
Qed.

(** Two integers that a value equals are equal. *)
Lemma py_eq_int_inj v z w : py_eq v (JInt z) = true -> py_eq v (JInt w) = true -> z = w.
Proof. destruct v; simpl; try done; rewrite ?Z.eqb_eq; [lia|lia|apply float_is_inj]. Qed.

Lemma py_eq_arr v l : py_eq v (JArr l) = true -> exists k, v = JArr k /\ Forall2 (fun x y => py_eq x y = true) k l.
Proof.
  destruct v as [| | | | |k|]; try done. intros H. exists k. split; [done|]. revert l H.
  induction k as [|x k IH]; intros [|y l]; simpl; try done.
  intros [H1 H2]%andb_true_iff. constructor; [done|]. by apply IH.
Qed.

Lemma py_eq_obj v d : py_eq v (JObj d) = true -> exists e, v = JObj e /\
  forall key x, dget e key = Some x -> exists y, dget d key = Some y /\ py_eq x y = true.
Proof.
  destruct v as [| | | | | |e]; try done. intros [_ H]%andb_true_iff. exists e. split; [done|]. revert H.
  induction e as [|[k x] e IH]; [done|]. intros [H1 H2]%andb_true_iff key x'. simpl. case_decide as Hk.
  - intros [= <-]. subst. destruct (dget d key) as [y|]; [eauto|done].
  - by apply IH.
Qed.

Lemma jget_equal e key v : py_eq (jget e key) v = true -> v <> JNull -> dget e key = Some (jget e key).
Proof.
  unfold jget. destruct (dget e key); simpl; [done|]. destruct v as [| | |f| | |]; try done.
Qed.

(** ** Where the writer puts the fields *)
Lemma slice_of_unpack o (n : nat) (b : bytes) : (o + n <= length b)%nat ->
  slice (Z.of_nat o) (Z.of_nat o + Z.of_nat n) b = le_bytes n (le_val (take n (drop o b))).
Proof.
  intros H. unfold slice. replace (Z.to_nat (Z.of_nat o + Z.of_nat n - Z.of_nat o)) with n by lia. rewrite Nat2Z.id.
  rewrite <- (le_bytes_val (take n (drop o b))) at 1. f_equal. rewrite length_take, length_drop. lia.
Qed.

Lemma slice_word o b v : 0 <= o -> o + 4 <= blen b -> word (Z.to_nat o) b = v -> slice o (o + 4) b = le_bytes 4 v.
Proof.
  intros Ho Hb <-. unfold blen in Hb. rewrite <- (Z2Nat.id o) at 1 2 by done. apply (slice_of_unpack (Z.to_nat o) 4). lia.
Qed.

Lemma slice_half o b v : 0 <= o -> o + 2 <= blen b -> half (Z.to_nat o) b = v -> slice o (o + 2) b = le_bytes 2 v.
Proof.
  intros Ho Hb <-. unfold blen in Hb. rewrite <- (Z2Nat.id o) at 1 2 by done. apply (slice_of_unpack (Z.to_nat o) 2). lia.
Qed.

(** Every field of the table is in the capsule at its offset. *)
Lemma emitted_fields c data capsule x : contract_facts c -> module_capsule data c = Ok (capsule, x) ->
  Forall (fun '(name, offset, count, _) => dget (field_bytes c x capsule) name = Some (slice offset (offset + count) capsule))
    layout_fields.
Proof.
  intros Hc (code & ini & setup & loop & bss & He & -> & (Hn & _ & _ & _ & Hb) & Hst & Hm & [_ Hs] & [_ Hl])%module_capsule_inv.
  pose proof (blen_nonneg ini).
  destruct (emit_fms2_regions (rc_apiAddress c) (rc_stateAddress c) bss setup loop code ini) as (h & E & Hh & Hu).
  { apply fms2_values_exact; try done; lia. }
  rewrite E in He. injection He as <-.
  destruct (regions_slices h code ini Hh) as (Hsz & H96 & Hhs & Hps & Hz & Hp).
  assert (Ed : h ++ drop 64 (fms2_regions h code ini) = fms2_regions h code ini).
  { unfold fms2_regions. by rewrite drop_app_length'. }
  pose proof (Hu (drop 64 (fms2_regions h code ini))) as Hv. rewrite Ed, unpack_fms2 in Hv. unfold fms2_values in Hv.
  set (image := fms2_regions h code ini) in *. clearbody image. clear Ed E Hu Hh.
  injection Hv as Hmagic H4 H6 H8 H12 H16 H20 H24 H28 H32 H36 H40 H44 H48 H52 H56 H60.
  assert (Hf : slice 0 4 image = ascii "FMS2") by exact Hmagic.
  rewrite <- Hsz in Hp, H52.
  let l := eval vm_compute in layout_fields in change layout_fields with l.
  repeat apply Forall_cons_2; try apply Forall_nil_2; cbn [dget field_bytes decide];
    rewrite ?decide_False, decide_True by done; f_equal; symmetry.
  all: first [apply slice_word; [lia|lia|done]|apply slice_half; [lia|lia|done]|idtac].
  - done.
  - rewrite Hp. exact Hps.
  - rewrite H96. exact Hhs.
  - exact Hz.
Qed.

(** A description is accepted only for its integer schema, its identity, its image and its uploads. *)
Record accepted_layout (layout image : dict json) : Prop := {
  al_identity : any_differs layout contract_identity = false;
  al_image : dget layout "image" = Some (JObj image);
  al_facts : any_differs image image_facts = false;
  al_fields : py_eq (jget image "fields") (JArr (field_json <$> layout_fields)) = true }.

Lemma validate_layout_Ok layout facts : validate_layout (JObj layout) facts = Ok tt -> exists image, accepted_layout layout image.
Proof.
  unfold validate_layout. intros (l & [= <-] & H)%bind_Ok. apply raise_when_bind in H as [_ H].
  apply raise_when_bind in H as [Hid H]. apply bind_Ok in H as (v & Hv%some_or_Ok & H).
  apply raise_when_bind in H as [_ H]. apply bind_Ok in H as (image & Hi & H). apply bind_unit in H as [Hc _].
  destruct v as [| | | | | |d]; try done. injection Hi as ->. exists image.
  unfold check_image in Hc. apply raise_when_bind in Hc as [Hf Hc]. apply raise_when_bind in Hc as [Hfields _].
  constructor; [done..|]. by apply negb_false_iff.
Qed.

(** The entries of a list that equals the table are its entries. *)
Lemma field_entry v f : py_eq v (field_json f) = true -> forall entry name offset count kind, v = JObj entry ->
  py_eq (jget entry "name") (JStr name) = true -> py_eq (jget entry "offset") (JInt offset) = true ->
  py_eq (jget entry "bytes") (JInt count) = true -> py_eq (jget entry "kind") (JStr kind) = true -> f = (name, offset, count, kind).
Proof.
  destruct f as [[[n o] b] k]. intros (e & -> & He)%py_eq_obj entry name offset count kind [= ->] Hn Ho Hc Hk.
  assert (Hget : forall key x, py_eq (jget entry key) x = true -> x <> JNull -> exists y,
    dget [("name", JStr n); ("offset", JInt o); ("bytes", JInt b); ("kind", JStr k)] key = Some y /\ py_eq (jget entry key) y = true).
  { intros key x Hx Hnull. by apply He, (jget_equal _ _ x). }
  destruct (Hget _ _ Hn) as (? & [= <-] & H1); [done|]. destruct (Hget _ _ Ho) as (? & [= <-] & H2); [done|].
  destruct (Hget _ _ Hc) as (? & [= <-] & H3); [done|]. destruct (Hget _ _ Hk) as (? & [= <-] & H4); [done|].
  apply py_eq_str in Hn, H1, Hk, H4. rewrite Hn in H1. rewrite Hk in H4. injection H1 as ->. injection H4 as ->.
  by rewrite (py_eq_int_inj _ _ _ H2 Ho), (py_eq_int_inj _ _ _ H3 Hc).
Qed.

Lemma described_in_table layout image name offset count kind : accepted_layout layout image ->
  described layout name offset count kind -> (name, offset, count, kind) ∈ layout_fields.
Proof.
  intros Ha (image' & fields & entry & Hi & Hf & He & Hn & Ho & Hc & Hk).
  rewrite (al_image _ _ Ha) in Hi. injection Hi as <-. pose proof (al_fields _ _ Ha) as Hl.
  unfold jget in Hl. rewrite Hf in Hl. apply py_eq_arr in Hl as (l & [= <-] & Hl).
  apply list_elem_of_lookup_1 in He as [i Hi]. destruct (Forall2_lookup_l _ _ _ _ _ Hl Hi) as (v & Hv & Heq).
  rewrite list_lookup_fmap in Hv. destruct (layout_fields !! i) as [f|] eqn:E; [|done]. injection Hv as <-.
  rewrite <- (field_entry _ f Heq entry name offset count kind) by done. by eapply list_elem_of_lookup_2.
Qed.

(** C2: A contract that is accepted describes the capsules the writer emits: every field it lists has the name
    of a header field, and the listed bytes of every capsule built for a checked resident are that field: the
    magic and the version, the addresses and sizes of code, data and zeroed data, the digests of the payload
    and of the header before it, and zero padding. *)
Theorem layout_describes_capsules layout facts resident c flash data capsule x name offset count kind :
  validate_layout (JObj layout) facts = Ok tt -> resident_contract resident = Ok (c, flash) ->
  module_capsule data c = Ok (capsule, x) -> described layout name offset count kind ->
  dget (field_bytes c x capsule) name = Some (slice offset (offset + count) capsule).
Proof.
  intros [image Ha]%validate_layout_Ok Hr Hm Hd. apply (described_in_table _ image) in Hd; [|done].
  pose proof (emitted_fields c data capsule x) as He. rewrite Forall_forall in He.
  apply (He (proj1 (resident_contract_inv _ _ _ Hr)) Hm _ Hd).
Qed.

(** ** The contract in the repository: experiments/managed_sketch/stateful_contract.json *)
Module LayoutDemo.
Definition listed_fields : list json :=
  [JObj [("name", JStr "magic"); ("offset", JInt 0); ("bytes", JInt 4); ("kind", JStr "ascii")];
   JObj [("name", JStr "version"); ("offset", JInt 4); ("bytes", JInt 2); ("kind", JStr "uint-le")];
   JObj [("name", JStr "headerBytes"); ("offset", JInt 6); ("bytes", JInt 2); ("kind", JStr "uint-le")];
   JObj [("name", JStr "boardTag"); ("offset", JInt 8); ("bytes", JInt 4); ("kind", JStr "uint-le")];
   JObj [("name", JStr "apiAddress"); ("offset", JInt 12); ("bytes", JInt 4); ("kind", JStr "uint-le")];
   JObj [("name", JStr "codeAddress"); ("offset", JInt 16); ("bytes", JInt 4); ("kind", JStr "uint-le")];
   JObj [("name", JStr "codeBytes"); ("offset", JInt 20); ("bytes", JInt 4); ("kind", JStr "uint-le")];
   JObj [("name", JStr "setupAddress"); ("offset", JInt 24); ("bytes", JInt 4); ("kind", JStr "uint-le")];
   JObj [("name", JStr "loopAddress"); ("offset", JInt 28); ("bytes", JInt 4); ("kind", JStr "uint-le")];
   JObj [("name", JStr "dataAddress"); ("offset", JInt 32); ("bytes", JInt 4); ("kind", JStr "uint-le")];
   JObj [("name", JStr "dataBytes"); ("offset", JInt 36); ("bytes", JInt 4); ("kind", JStr "uint-le")];
   JObj [("name", JStr "bssAddress"); ("offset", JInt 40); ("bytes", JInt 4); ("kind", JStr "uint-le")];
   JObj [("name", JStr "bssBytes"); ("offset", JInt 44); ("bytes", JInt 4); ("kind", JStr "uint-le")];
   JObj [("name", JStr "dataLoadOffset"); ("offset", JInt 48); ("bytes", JInt 4); ("kind", JStr "uint-le")];
   JObj [("name", JStr "imageBytes"); ("offset", JInt 52); ("bytes", JInt 4); ("kind", JStr "uint-le")];
   JObj [("name", JStr "flags"); ("offset", JInt 56); ("bytes", JInt 4); ("kind", JStr "zero")];
   JObj [("name", JStr "reserved"); ("offset", JInt 60); ("bytes", JInt 4); ("kind", JStr "zero")];
   JObj [("name", JStr "payloadSHA256"); ("offset", JInt 64); ("bytes", JInt 32); ("kind", JStr "sha256")];
   JObj [("name", JStr "headerSHA256"); ("offset", JInt 96); ("bytes", JInt 32); ("kind", JStr "sha256")];
   JObj [("name", JStr "padding"); ("offset", JInt 128); ("bytes", JInt 128); ("kind", JStr "zero")]].

Definition document_image : dict json :=
  [("magic", JStr "FMS2");
   ("version", JInt 2);
   ("headerBytes", JInt 128);
   ("codeOffset", JInt 256);
   ("boardTag", JInt 1330528590);
   ("slotAddress", JInt 270532608);
   ("slotBytes", JInt 4194304);
   ("maximumCapsuleBytes", JInt 4096);
   ("sectionAlignment", JInt 4);
   ("hashSpans", JObj [("payloadSHA256", JObj [("start", JInt 256); ("endField", JStr "imageBytes")]);
     ("headerSHA256", JObj [("start", JInt 0); ("end", JInt 96)])]);
   ("layout", JObj [("codeAddress", JStr "slotAddress + codeOffset"); ("dataLoadOffset",
     JStr "codeOffset + codeBytes"); ("imageBytes", JStr "dataLoadOffset + dataBytes"); ("dataAddress",
     JStr "resident stateAddress"); ("bssAddress", JStr "dataAddress + dataBytes"); ("stateBound",
     JStr "dataBytes + bssBytes <= resident stateCapacityBytes"); ("entryRule",
     JStr "Thumb entry with at least two bytes in code extent"); ("inputRule",
     JStr "exact image span; reject truncation and trailing bytes")]);
   ("fields", JArr listed_fields)].

Definition document : dict json :=
  [("schema", JInt 1);
   ("identifier", JStr "firmingo-nano-managed-abi2-v1-experimental");
   ("contractVersion", JInt 1);
   ("board", JStr "nano_rp2040_connect");
   ("profile", JStr "nano-managed-v2");
   ("qualification", JStr "experimental; no hardware qualification");
   ("residentABI", JInt 2);
   ("apiTableBytes", JInt 52);
   ("upload", JObj [("protocolMajor", JInt 1); ("targetID", JInt 2); ("format", JStr "nano-managed-v2");
     ("maximumCapsuleBytes", JInt 4096); ("maximumChunkBytes", JInt 1024); ("authorization", JStr "physical-d2-gnd");
     ("stagingTimeoutMs", JInt 30000); ("stagingTimeoutError", JStr "io_error"); ("pauseTimeoutMs", JInt 1000);
     ("commitMeaning", JStr "queued only; no flash in Session callback"); ("installedMeaning",
     JStr "full sector readback and generation initialization completed"); ("bootConfirmedMeaning",
     JStr "the installed generation returned its first loop"); ("disconnectRule",
     JStr "abort accepted/verified; retain committing/terminal status without replay"); ("statusRetention",
     JStr "one latest transaction per boot; IDs never reused in that boot")]);
   ("initialization", JObj [("copyData", JBool true); ("clearBSS", JBool true); ("clearUnusedArena", JBool true);
     ("beforeSetup", JBool true); ("repeatEachGeneration", JBool true); ("nonvolatile", JBool false);
     ("constructors", JBool false); ("heap", JBool false); ("sandbox", JBool false); ("rollback", JBool false)]);
   ("buildDefinitions", JObj [("cpp", JArr [JStr "FIRMINGO_API_ADDRESS"]); ("linker", JArr
     [JStr "FIRMINGO_STATE_ADDRESS"; JStr "FIRMINGO_STATE_BYTES"])]);
   ("compatibility",
     JStr "Exact resident ELF/API/RAM facts and reviewed installed UF2 association required. Hello is not installed-image attestation. Compiler owns recipe/catalogue identities.");
   ("api", JObj [("magic", JInt 1229996358); ("version", JInt 2); ("bytes", JInt 52); ("pointerBytes", JInt 4);
     ("endianness", JStr "little"); ("functions", JArr [JObj [("name", JStr "pin_mode"); ("offset", JInt 8);
     ("signature", JStr "void(uint32,uint32)")]; JObj [("name", JStr "digital_write"); ("offset", JInt 12);
     ("signature", JStr "void(uint32,uint32)")]; JObj [("name", JStr "clock_ms"); ("offset", JInt 16); ("signature",
     JStr "uint32()")]; JObj [("name", JStr "delay_ms"); ("offset", JInt 20); ("signature", JStr "void(uint32)")];
     JObj [("name", JStr "console_write"); ("offset", JInt 24); ("signature", JStr "uint32(const uint8*,uint32)")];
     JObj [("name", JStr "console_write_available"); ("offset", JInt 28); ("signature", JStr "uint32()")]; JObj
     [("name", JStr "console_read"); ("offset", JInt 32); ("signature", JStr "int32()")]; JObj [("name",
     JStr "console_available"); ("offset", JInt 36); ("signature", JStr "uint32()")]]); ("stateFields", JObj
     [("stateAddress", JInt 40); ("stateCapacityBytes", JInt 44); ("maximumCapsuleBytes", JInt 48)])]);
   ("architecture", JObj [("family", JStr "armv6-m"); ("cpu", JStr "cortex-m0plus"); ("instructionSet",
     JStr "thumb"); ("endianness", JStr "little"); ("pointerBytes", JInt 4); ("floatABI", JStr "soft")]);
   ("supportedSurface", JObj [("gpio", JObj [("pinRange", JArr [JInt 0; JInt 29]); ("reservedPins", JArr [JInt
     25]); ("modes", JArr [JInt 1]); ("values", JArr [JInt 0; JInt 1]); ("invalidArguments",
     JStr "ignored by void ABI calls")]); ("timing", JArr [JStr "millis"; JStr "delay"]); ("console",
     JStr "bounded resident binary stream"); ("serialBegin",
     JStr "compatibility no-op; network stream has no UART baud rate"); ("scope",
     JStr "supported facade only; no general Arduino library compatibility")]);
   ("image", JObj document_image)].

Definition target_facts : dict json :=
  [("uploadTarget", JObj [("id", JInt 2); ("format", JStr "nano-managed-v2"); ("max_size", JInt 4096); ("max_chunk", JInt 1024);
     ("authorization", JStr "physical-d2-gnd"); ("stagingTimeoutMs", JInt 30000)])].

Example document_accepted : validate_layout (JObj document) target_facts = Ok tt.
Proof. by vm_compute. Qed.

(** A field that is listed four bytes too late *)
Example moved_field_refused :
  validate_layout (JObj (dset document "image" (JObj (dset document_image "fields" (JArr (drop 1 listed_fields)))))) target_facts
    = Raise (ValueError "unsupported FMS2 field offsets").
Proof. by vm_compute. Qed.

Lemma describes_size : described document "imageBytes" 52 4 "uint-le".
Proof.
  exists document_image, listed_fields, [("name", JStr "imageBytes"); ("offset", JInt 52); ("bytes", JInt 4); ("kind", JStr "uint-le")].
  split_and!; [done..| | | | |]; [by apply list_elem_of_lookup_2 with (i := 14%nat)|by vm_compute..].
Qed.

Lemma describes_hash : described document "headerSHA256" 96 32 "sha256".
Proof.
  exists document_image, listed_fields, [("name", JStr "headerSHA256"); ("offset", JInt 96); ("bytes", JInt 32); ("kind", JStr "sha256")].
  split_and!; [done..| | | | |]; [by apply list_elem_of_lookup_2 with (i := 18%nat)|by vm_compute..].
Qed.
End LayoutDemo.

Lemma layout_describes_capsules_witness :
  slice 52 (52 + 4) demo_fms2 = le_bytes 4 (blen demo_fms2) /\ slice 96 (96 + 32) demo_fms2 = sha256 (slice 0 96 demo_fms2).
Proof.
  assert (H1 : validate_layout (JObj LayoutDemo.document) LayoutDemo.target_facts = Ok tt) by (vm_compute; reflexivity).
  assert (H2 : resident_contract demo_resident_elf = Ok (demo_contract, demo_flash)) by (vm_compute; reflexivity).
  assert (H3 : module_capsule demo_module_elf demo_contract = Ok (demo_fms2, Build_module_extents 16 4 4 0x10200101 0x10200105))
    by (vm_compute; reflexivity).
  assert (Hs : forall a b : bytes, Some a = Some b -> b = a) by (intros a b [= ->]; reflexivity).
  split; apply Hs.
  - exact (layout_describes_capsules _ _ _ _ _ _ _ _ _ _ _ _ H1 H2 H3 LayoutDemo.describes_size).
  - exact (layout_describes_capsules _ _ _ _ _ _ _ _ _ _ _ _ H1 H2 H3 LayoutDemo.describes_hash).
Defined.
