(* ===== verification/StatefulExport.v ===== *)
(** * The stateful export: experiments/managed_sketch/export_stateful.py, [export_stateful]

    [verified_stateful] binds a recorded FMS2 upload build to a commit, to its ELF and UF2, to the sources of the
    compiler contract and to the description of the capsule format; [export_stateful] writes all of them into a
    new directory. Git, the operating system, the text formats and the tool's own checkout are parameters, as in
    ResidentExport. *)

From stdpp Require Import base tactics list list_numbers strings gmap.
From Stdlib Require Import ZArith Lia Ascii.
From S2P Require Import Prelude.
From S2P Require Import PyBytes.
From S2P Require Import Sha256.
From S2P Require Import PyText.
From S2P Require Import PyStr.
From S2P Require Import PyRegex.
From S2P Require Import PyDict.
From S2P Require Import PyJson.
From S2P Require Import BuildComposite.
From S2P Require Import Elf.
From S2P Require Import ExportResident.
From S2P Require Import BuildStatefulProof.
From S2P Require Import Effects.
From S2P Require Import Stateful.
From S2P Require Import Release.
From S2P Require Import Dev.
From S2P Require Import Sockets.
From S2P Require Import SessionSmoke.
From S2P Require Import Upload.
From S2P Require Import ResidentSource.
From S2P Require Import ResidentExport.
From S2P Require Import StatefulLayout.

Local Open Scope Z_scope.

(** ** The inputs *)
Definition MS (name : string) : string := "experiments/managed_sketch/" +:+ name.
Definition FIXTURES (name : string) : string := "tests/fixtures/" +:+ name.

Definition VECTOR_NAMES : list string :=
  ["abort-request"; "aborted-response"; "accepted-response"; "begin-request"; "boot-confirmed-response"; "chunk-response"; "chunk";
   "commit-request"; "committing-response"; "disconnected-response"; "finish-request"; "hello-request"; "hello-response";
   "install-failed-response"; "installed-response"; "old-target-request"; "status-request"; "unauthorized-response";
   "verified-response"; "wrong-target-response"].

(** path in the export, and source in the repository *)
Definition RESOURCES : dict string :=
  [("contract/abi.h", MS "abi.h"); ("contract/stateful_abi.h", MS "stateful_abi.h");
   ("contract/stateful_image.h", MS "stateful_image.h"); ("contract/stateful_image.cpp", MS "stateful_image.cpp");
   ("contract/image.h", MS "image.h"); ("contract/image.cpp", MS "image.cpp");
   ("contract/facade_v2/Arduino.h", MS "facade_v2/Arduino.h"); ("contract/module_entry.cpp", MS "module_entry.cpp");
   ("contract/stateful_module.ld", MS "stateful_module.ld"); ("contract/image-layout.json", MS "stateful_contract.json");
   ("contract/LICENSE", "LICENSE")]
  ++ ((fun name => ("vectors/managed-upload-v2/" +:+ name +:+ ".hex",
         FIXTURES ("protocol-v1/managed-upload-v2/" +:+ name +:+ ".hex"))%string) <$> VECTOR_NAMES)
  ++ [("vectors/managed-upload-v2/README.md", FIXTURES "protocol-v1/managed-upload-v2/README.md");
      ("vectors/stateful-image/initialized.hex", FIXTURES "managed-stateful-v2/initialized.hex");
      ("vectors/stateful-image/provenance.json", FIXTURES "managed-stateful-v2/provenance.json")].

Definition REQUIRED : list string :=
  ["boards/nano_rp2040_connect/baseline.json"; "boards/nano_rp2040_connect/core-lock.json";
   "patches/arduino-pico-6.0.0-usb-startup/manifest.json"; "patches/arduino-pico-6.0.0-usb-startup/deferred-ncm.patch";
   "src/core/version.h"; MS "build_resident.py"; MS "firmingo_managed_resident/firmingo_managed_resident.ino"]
  ++ (MS <$> ["abi.h"; "image.h"; "image.cpp"; "stateful_abi.h"; "stateful_image.h"; "stateful_image.cpp"; "stateful_runtime.h";
        "stateful_runtime.cpp"; "stateful_upload.h"; "stateful_upload.cpp"; "core1_pause.h"; "core1_pause.cpp"]).

Definition VALIDATORS : list string :=
  MS <$> ["export_stateful.py"; "build_stateful_proof.py"; "export_resident.py"; "build_composite.py"].

Definition stateful_target : json :=
  JObj [("id", JInt 2); ("format", JStr "nano-managed-v2"); ("max_size", JInt 4096); ("max_chunk", JInt 1024);
        ("authorization", JStr "physical-d2-gnd")].

Definition stateful_status : string := "compile-tested FMS2 upload candidate; not flashed".

(** The dictionaries [upload_facts] and [resident_contract] return *)
Definition upload_json (u : upload_target) : json :=
  JObj [("id", JInt (u_id u)); ("format", JStr (u_format u)); ("max_size", JInt (u_max_size u)); ("max_chunk", JInt (u_max_chunk u));
        ("authorization", JStr (u_authorization u)); ("stagingTimeoutMs", JInt (u_stagingTimeoutMs u));
        ("tableAddress", JInt (u_tableAddress u)); ("tableSHA256", JStr (u_tableSHA256 u)); ("tableVersion", JInt 1);
        ("tableBytes", JInt 56)].

Definition checkpoint_json (kind : Z) : json :=
  JObj [("after", JStr (if kind =? 1 then "erase" else "first-page")); ("hold_ms", JInt 60000);
        ("expiry", JStr "fail without continuing"); ("chip_busy_interruption", JBool false)].

Definition contract_dict (c : resident_facts_v2) : dict json :=
  let uploads := negb (bool_decide (rc_uploadTarget c = None)) in
  [("schema", JInt 1); ("purpose", JStr "native stateful proof; no deployment descriptor"); ("board", JStr "nano_rp2040_connect");
   ("imageVersion", JInt 2); ("residentABI", JInt 2); ("apiAddress", JInt (rc_apiAddress c)); ("apiTableBytes", JInt 52);
   ("apiTableSHA256", JStr (rc_apiTableSHA256 c)); ("stateAddress", JInt (rc_stateAddress c));
   ("stateCapacityBytes", JInt (rc_stateCapacityBytes c)); ("maximumCapsuleBytes", JInt (rc_maximumCapsuleBytes c));
   ("residentELFSHA256", JStr (rc_residentELFSHA256 c));
   ("linkerBounds", JObj ((fun kv => (kv.1, JInt kv.2)) <$> rc_linkerBounds c));
   ("nominalHeapSpanBytes", JInt (rc_nominalHeapSpanBytes c)); ("runtimeEnabled", JBool (rc_runtimeEnabled c));
   ("networkUploadsEnabled", JBool (rc_networkUploadsEnabled c)); ("fms2NetworkUploadsEnabled", JBool uploads);
   ("uploadTarget", match rc_uploadTarget c with Some u => upload_json u | None => JNull end); ("hardwareTested", JBool false)]
  ++ match rc_flashCheckpoint c with Some kind => [("flashCheckpoint", checkpoint_json kind)] | None => [] end.

(** [re.sub(rb'\s+|//[^\n]*', b'', data)] on 8-bit text: blanks and comments go in one pass. *)
Definition byte_space (c : Ascii.ascii) : bool := between 9 13 c || between 32 32 c.

Fixpoint compact_code (inside : bool) (s : string) : string :=
  match s with
  | EmptyString => ""
  | String c s' =>
      if inside && negb (between 10 10 c) then compact_code true s'
      else if byte_space c then compact_code false s'
      else match s' with
           | String d s'' => if between 47 47 c && between 47 47 d then compact_code true s'' else String c (compact_code false s')
           | EmptyString => String c ""
           end
  end.

Example compact_code_demo : compact_code false ("a b // c" +:+ String line_break "/ /d") = "ab//d" /\ compact_code false "x//y" = "x".
Proof. done. Qed.

Definition struct_pattern (name : string) : regex :=
  Lit "struct " ⊙ Lit name ⊙ Many byte_space 0 ⊙ Lit "{" ⊙ Group (Many (fun c => negb (between 125 125 c)) 1) ⊙ Lit "};".

Definition expected_abi : string :=
  "FirmingoSketchApiV1 calls;uint8_t* state_address;uint32_t state_capacity_bytes;uint32_t maximum_capsule_bytes;".

Definition expected_calls : string :=
  "uint32_t magic; uint16_t abi_version; uint16_t table_bytes;"
  +:+ "void (*pin_mode)(uint32_t pin, uint32_t mode); void (*digital_write)(uint32_t pin, uint32_t value);"
  +:+ "uint32_t (*clock_ms)(); void (*delay_ms)(uint32_t milliseconds);"
  +:+ "uint32_t (*console_write)(const uint8_t* data, uint32_t size);"
  +:+ "uint32_t (*console_write_available)(); int32_t (*console_read)(); uint32_t (*console_available)();".

(** The body of a struct of a committed header is the expected one. *)
Definition check_struct (name expected message : string) (header : bytes) : result unit :=
  match search (struct_pattern name) (PyStr.text header) with
  | Some [body] => raise_when (negb (bool_decide (compact_code false body = compact_code false expected))) (ValueError message)
  | _ => Raise (ValueError message)
  end.

Definition stateful_version_suffix : string := "-statefulupload-exp1".
Definition zero_byte : string := String Ascii.zero "".

(** ** The verified files *)
Section Verified.
Context `{machine : !Machine} `{repo : !Git} `{pairs : !JsonPairs} `{codec : !Json} `{format : !ExportText}.

(** A reported source; the Finder's file is never read. *)
Definition check_stateful_source (commit : string) (source : string * json) : result unit :=
  let '(name, expected) := source in
  match expected with
  | JStr h =>
      raise_when (negb (fullmatch is_hex_lower 64 h)) (ValueError "invalid resident source digest");;
      if bool_decide (name = "src/.DS_Store") then mret tt
      else
        data ← git_blob commit name;
        raise_when (negb (bool_decide (sha data = h))) (ValueError "resident source differs from selected commit")
  | _ => Raise (ValueError "invalid resident source digest")
  end.

Definition listing_arguments (commit : string) : list string := ["ls-tree"; "-r"; "--name-only"; commit; "--"; "src"].

(** The report and its sources *)
Definition stateful_report (report_bytes : bytes) (commit : string) : result (dict json * dict json) :=
  let wrong := ValueError "select the explicit FMS2 upload build, not boot-only/allocation/ABI one" in
  value ← json_loads_unique report_bytes;
  report ← match value with JObj d => mret d | _ => Raise wrong end;
  raise_when (differs report "status" (JStr stateful_status) || differs report "board" (JStr "nano_rp2040_connect")
      || differs report "core" (JStr "rp2040:rp2040@6.0.0") || negb (is_bool true (jget report "stateful_runtime_enabled"))
      || negb (is_bool true (jget report "network_uploads_enabled")) || differs report "upload_target" stateful_target) wrong;;
  sources ← match jget report "source_sha256" with
            | JObj d => raise_when (existsb (fun name => negb (has_key d name)) REQUIRED || (256 <? blen d))
                          (ValueError "incomplete FMS2 resident source inventory");; mret d
            | _ => Raise (ValueError "incomplete FMS2 resident source inventory")
            end;
  check_library (listing_arguments commit) "resident inventory omits committed library inputs" sources;;
  for_each (check_stateful_source commit) sources;;
  mret (report, sources).

(** The committed board and the memory budgets *)
Definition stateful_profile (report : dict json) (commit : string) : result unit :=
  board ← git_blob commit "boards/nano_rp2040_connect/baseline.json";
  baseline ← json_loads board;
  fqbn ← subscript baseline "fqbn";
  raise_when (negb (py_eq (jget report "fqbn") fqbn)) (ValueError "resident FQBN differs from committed Nano pin");;
  raise_when (budget_wrong report "flash_bytes" "flash_budget_bytes" 1048576
      || budget_wrong report "static_ram_bytes" "static_ram_budget_bytes" 196608)
    (ValueError "resident memory budget mismatch").

(** The facts of the ELF, its LOAD bytes and how many of them the UF2 was compared with *)
Definition stateful_facts (report : dict json) (elf uf2 : bytes) : result (resident_facts_v2 * list (Z * bytes) * Z) :=
  raise_when (negb (py_eq (JStr (sha elf)) (jget report "elf_sha256")) || negb (py_eq (JStr (sha uf2)) (jget report "uf2_sha256")))
    (ValueError "resident artifact/report hash mismatch");;
  ' (c, flash) ← resident_contract elf;
  raise_when (negb (bool_decide (rc_flashCheckpoint c = None)))
    (ValueError "flash checkpoint fault images cannot be exported as compiler residents");;
  raise_when (negb (rc_runtimeEnabled c) || bool_decide (rc_uploadTarget c = None)) (ValueError "ELF lacks FMS2 runtime/upload contract");;
  end_ ← ditem (rc_linkerBounds c) "__end__";
  ram ← ditem report "static_ram_bytes";
  raise_when (negb (py_eq (JInt (end_ - 0x20000000)) ram)
      || existsb (fun '(address, data) => 0x10100000 <? address + blen data) flash)
    (ValueError "actual ELF memory extents disagree with budget/report");;
  compared ← check_uf2 uf2 flash;
  mret (c, flash, compared).

(** The committed version, which the ELF must hold as a C string *)
Definition stateful_version (commit : string) (flash : list (Z * bytes)) : result string :=
  header ← git_blob commit "src/core/version.h";
  match search resident_version_pattern (PyStr.text header) with
  | Some [number] =>
      let version := number +:+ stateful_version_suffix in
      raise_when (negb (existsb (fun '(_, data) => contains (version +:+ zero_byte) (PyStr.text data)) flash))
        (ValueError "ELF lacks selected firmware identity");;
      mret version
  | _ => Raise (ValueError "missing committed firmware version")
  end.

Definition stateful_resources (commit : string) : result (dict bytes) :=
  mapM (fun '(name, source) => data ← git_blob commit source; mret (name, data)) RESOURCES.

(** The checked description of the format, and the two headers of the API *)
Definition stateful_layout (resources : dict bytes) (c : resident_facts_v2) : result (dict json) :=
  document ← ditem resources "contract/image-layout.json";
  value ← json_loads_unique document;
  validate_layout value (contract_dict c);;
  layout ← as_dict value;
  v2 ← ditem resources "contract/stateful_abi.h";
  check_struct "FirmingoSketchApiV2" expected_abi "unsupported FAPI two source layout" v2;;
  v1 ← ditem resources "contract/abi.h";
  check_struct "FirmingoSketchApiV1" expected_calls "unsupported FAPI call source signatures" v1;;
  mret layout.

Definition resource_json (item : string * bytes) : json :=
  JObj [("path", JStr item.1); ("sourcePath", match dget RESOURCES item.1 with Some source => JStr source | None => JNull end);
        ("bytes", JInt (blen item.2)); ("sha256", JStr (sha item.2))].

Definition stateful_contract (commit : string) (layout : dict json) (resources : dict bytes) : bytes :=
  json_sorted (dset (dset layout "firmwareCommit" (JStr commit)) "resources" (JArr (resource_json <$> resources))) ++ newline_byte.

(** The digests of the committed validators, which the checkout of the tool must have. [read] reads a file of
    the checkout. *)
Definition validator_hashes (read : string -> result bytes) (commit : string) : result (dict string) :=
  hashes ← mapM (fun name => data ← git_blob commit name; mret (name, sha data)) VALIDATORS;
  for_each (fun '(name, expected) =>
    data ← read name;
    raise_when (negb (bool_decide (sha data = expected))) (ValueError "use the exporter/validators from the selected firmware commit"))
    hashes;;
  mret hashes.

Definition stateful_facts_json (c : resident_facts_v2) (commit version : string) (uf2 report_bytes contract_bytes : bytes)
    (compared : Z) (report sources : dict json) (validators : dict string) : dict json :=
  foldl (fun d '(key, v) => dset d key v) (contract_dict c)
    [("purpose", JStr "experimental FMS2 resident compiler input"); ("firmwareCommit", JStr commit); ("firmwareVersion", JStr version);
     ("profile", JStr "nano-managed-v2"); ("residentUF2SHA256", JStr (sha uf2)); ("buildReportSHA256", JStr (sha report_bytes));
     ("compilerContractSHA256", JStr (sha contract_bytes)); ("elfUF2ComparedBytes", JInt compared);
     ("staticRAMBytes", jget report "static_ram_bytes"); ("flashBytes", jget report "flash_bytes");
     ("sourceSHA256", JObj (List.filter (fun kv => negb (bool_decide (kv.1 = "src/.DS_Store"))) sources));
     ("validatorSHA256", JObj ((fun kv => (kv.1, JStr kv.2)) <$> validators));
     ("qualification", JStr "experimental; hardware not qualified by export");
     ("provenanceLimit", JStr "Committed project sources checked; installed core/toolchain pins declared, not a complete binary supply-chain inventory")].

Definition verified_stateful (read : string -> result bytes) (resident commit : string) : result (dict bytes) :=
  raise_when (negb (fullmatch is_hex_lower 40 commit)) (ValueError "select an exact lowercase firmware commit");;
  report_bytes ← bounded_file (resident +:+ "/report.json") 262144;
  ' (report, sources) ← stateful_report report_bytes commit;
  stateful_profile report commit;;
  elf ← bounded_file (resident +:+ "/artifacts/" +:+ MANAGED_INO +:+ ".elf") ELF_LIMIT;
  uf2 ← bounded_file (resident +:+ "/artifacts/" +:+ MANAGED_INO +:+ ".uf2") UF2_LIMIT;
  ' (c, flash, compared) ← stateful_facts report elf uf2;
  version ← stateful_version commit flash;
  resources ← stateful_resources commit;
  layout ← stateful_layout resources c;
  let contract_bytes := stateful_contract commit layout resources in
  validators ← validator_hashes read commit;
  let facts := stateful_facts_json c commit version uf2 report_bytes contract_bytes compared report sources validators in
  mret (update [("resident.elf", elf); ("resident.uf2", uf2); ("build-report.json", report_bytes);
                ("resident-facts.json", json_sorted facts ++ newline_byte); ("contract.json", contract_bytes)] resources).

Definition stateful_manifest (commit : string) (files : dict bytes) : dict json :=
  [("schema", JInt 3); ("purpose", JStr "experimental_stateful_resident_compiler_export"); ("board", JStr "nano_rp2040_connect");
   ("profile", JStr "nano-managed-v2"); ("firmwareCommit", JStr commit);
   ("files", JArr ((fun kv => JObj [("path", JStr kv.1); ("bytes", JInt (blen kv.2)); ("sha256", JStr (sha kv.2))]) <$> files));
   ("hardwareQualified", JBool false)].

Definition export_stateful (read : string -> result bytes) (resident output commit : string) :
    st disk_ret (gmap string bytes) (dict json) :=
  files ← st_pure (verified_stateful read resident commit);
  let manifest_bytes := json_sorted (stateful_manifest commit files) ++ newline_byte in
  write_all output (dset files "manifest.json" manifest_bytes);;
  mret [("status", JStr "exported_experimental_stateful_resident"); ("firmwareCommit", JStr commit);
        ("manifestSHA256", JStr (sha manifest_bytes)); ("files", JInt (blen files)); ("hardwareQualified", JBool false)].
End Verified.

(** ** What a verified export is *)
Section Sound.
Context `{machine : !Machine} `{repo : !Git} `{pairs : !JsonPairs} `{codec : !Json} `{format : !ExportText}.

Lemma differs_str d key s : differs d key (JStr s) = false -> dget d key = Some (JStr s).
Proof. unfold differs. rewrite negb_false_iff. intros H%py_eq_str. by apply jget_dget. Qed.

(** A successful report of an FMS2 upload build, all of whose sources are committed as reported *)
Record stateful_bound (commit : string) (report_bytes : bytes) (report sources : dict json) : Prop := {
  sb_parsed : json_loads_unique report_bytes = Ok (JObj report);
  sb_status : dget report "status" = Some (JStr stateful_status);
  sb_board : dget report "board" = Some (JStr "nano_rp2040_connect");
  sb_runtime : dget report "stateful_runtime_enabled" = Some (JBool true);
  sb_uploads : dget report "network_uploads_enabled" = Some (JBool true);
  sb_sources : dget report "source_sha256" = Some (JObj sources);
  sb_size : blen sources <= 256;
  sb_required : forall name, name ∈ REQUIRED -> is_Some (dget sources name);
  sb_library : covers_library (listing_arguments commit) sources;
  sb_bound : Forall (source_bound commit) sources;
  sb_flash : in_budget report "flash_bytes" "flash_budget_bytes" 1048576;
  sb_ram : in_budget report "static_ram_bytes" "static_ram_budget_bytes" 196608 }.

Lemma check_stateful_source_Ok commit source : check_stateful_source commit source = Ok tt -> source_bound commit source.
Proof.
  destruct source as [name expected]. unfold check_stateful_source, source_bound. destruct expected as [| | | |h| |]; try done.
  intros [_ H]%raise_when_bind. case_bool_decide as Hn; [subst; exists h; split; [done|by left]|].
  apply bind_Ok in H as (data & Hd%git_blob_iff & H). apply raise_when_Ok, negb_false_iff, bool_decide_eq_true in H.
  exists h. split; [done|]. right. by exists data.
Qed.

Lemma stateful_report_Ok report_bytes commit report sources :
  stateful_report report_bytes commit = Ok (report, sources) -> stateful_profile report commit = Ok tt ->
  stateful_bound commit report_bytes report sources.
Proof.
  unfold stateful_report. intros (value & Hv & H)%bind_Ok Hp. apply bind_Ok in H as (r & Hr & H).
  destruct value as [| | | | | |d]; try done. apply mret_Ok in Hr as ->.
  apply raise_when_bind in H as [H1 H]. rewrite !orb_false_iff, !negb_false_iff, !is_bool_true in H1.
  destruct H1 as [[[[[H1%differs_str H2%differs_str] _] H3] H4] _]. apply jget_dget in H3, H4; [|done..].
  apply bind_Ok in H as (s & Hs & H). destruct (jget r "source_sha256") as [| | | | | |d] eqn:E; try done.
  apply raise_when_bind in Hs as [[Hreq Hn]%orb_false_iff [= ->]]. apply jget_dget in E; [|done].
  apply bind_unit in H as [Hlib%check_library_Ok H]. apply bind_unit in H as [Hall H]. injection H as -> ->.
  unfold stateful_profile in Hp. apply bind_Ok in Hp as (board & _ & Hp). apply bind_Ok in Hp as (baseline & _ & Hp).
  apply bind_Ok in Hp as (fqbn & _ & Hp). apply raise_when_bind in Hp as [_ Hp].
  apply raise_when_Ok in Hp as [Hf%budget_wrong_false Hram%budget_wrong_false]%orb_false_iff.
  rewrite for_each_Ok in Hall. constructor; [done..|lia|by apply missing_false|done| |done|done].
  eapply Forall_impl; [exact Hall|]. intros source. apply check_stateful_source_Ok.
Qed.

(** The artifacts have the reported digests, and the ELF is a resident that runs FMS2 capsules and takes uploads,
    is no fault-test image, stays below its second MiB and has the reported memory end. *)
Record stateful_artifacts (report : dict json) (elf uf2 : bytes) (c : resident_facts_v2) (flash : list (Z * bytes)) : Prop := {
  sa_elf : dget report "elf_sha256" = Some (JStr (sha elf));
  sa_uf2 : dget report "uf2_sha256" = Some (JStr (sha uf2));
  sa_contract : resident_contract elf = Ok (c, flash);
  sa_runtime : rc_runtimeEnabled c = true;
  sa_uploads : is_Some (rc_uploadTarget c);
  sa_checkpoint : rc_flashCheckpoint c = None;
  sa_extent : Forall (fun '(address, data) => address + blen data <= 0x10100000) flash;
  sa_ram : exists end_ ram, dget (rc_linkerBounds c) "__end__" = Some end_ /\ dget report "static_ram_bytes" = Some ram /\
    py_eq (JInt (end_ - 0x20000000)) ram = true;
  sa_compared : check_uf2 uf2 flash = Ok (load_bytes flash) }.

Lemma stateful_facts_Ok report elf uf2 c flash compared : stateful_facts report elf uf2 = Ok (c, flash, compared) ->
  stateful_artifacts report elf uf2 c flash /\ compared = load_bytes flash.
Proof.
  unfold stateful_facts. intros [[H1%negb_false_iff H2%negb_false_iff]%orb_false_iff H]%raise_when_bind.
  apply bind_Ok in H as ([c' fl] & Hc & H). apply raise_when_bind in H as [Hcp%negb_false_iff%bool_decide_eq_true H].
  apply raise_when_bind in H as [[Hrt%negb_false_iff Hup%bool_decide_eq_false]%orb_false_iff H].
  apply bind_Ok in H as (end_ & He%some_or_Ok & H). apply bind_Ok in H as (ram & Hr%some_or_Ok & H).
  apply raise_when_bind in H as [[Hend%negb_false_iff Hext]%orb_false_iff H].
  apply bind_Ok in H as (n & Hu & [= <- <- <-]%mret_Ok).
  assert (n = load_bytes fl) as -> by by apply check_uf2_iff in Hu as [-> _].
  split; [|done]. constructor; [by apply str_eq_jget|by apply str_eq_jget|done|done| |done| |eauto|done].
  - destruct (rc_uploadTarget c'); [eauto|done].
  - apply Forall_forall. intros [address data] Hin%list_elem_of_In. simpl. destruct (Z.leb_spec (address + blen data) 0x10100000); [done|].
    exfalso. assert (existsb (fun '(a, d) => 0x10100000 <? a + blen d) fl = true); [|congruence].
    apply existsb_exists. exists (address, data). split; [done|]. lia.
Qed.

(** The version is committed, and the ELF holds it. *)
Definition version_bound (commit version : string) (flash : list (Z * bytes)) : Prop :=
  exists header number, committed commit "src/core/version.h" header /\ occurs resident_version_pattern (PyStr.text header) [number] /\
    version = (number +:+ stateful_version_suffix)%string /\
    exists load, load ∈ flash /\ exists g, occurs (Lit (version +:+ zero_byte)) (PyStr.text load.2) g.

Lemma stateful_version_Ok commit flash version : stateful_version commit flash = Ok version -> version_bound commit version flash.
Proof.
  unfold stateful_version. intros (header & Hh%git_blob_iff & H)%bind_Ok.
  destruct (search resident_version_pattern (PyStr.text header)) as [[|number [|]]|] eqn:E; try done.
  apply raise_when_bind in H as [Hx%negb_false_iff [= <-]%mret_Ok]. apply existsb_exists in Hx as ([address data] & Hin & Hc).
  exists header, number. split_and!; [done|by apply search_sound|done|]. exists (address, data).
  split; [by apply list_elem_of_In|]. by apply found_iff.
Qed.

(** The resources are the committed files under their paths. *)
Lemma stateful_resources_Ok commit resources : stateful_resources commit = Ok resources ->
  Forall2 (fun resource item => item.1 = resource.1 /\ committed commit resource.2 item.2) RESOURCES resources.
Proof.
  unfold stateful_resources. intros H%mapM_Ok. eapply Forall2_impl; [exact H|]. intros [name source] item Hi. simpl in Hi.
  apply bind_Ok in Hi as (data & Hd%git_blob_iff & [= <-]%mret_Ok). done.
Qed.

(** The compiler contract: the committed description of the capsule format is the one that is checked, and the
    committed API headers have the expected structs. *)
Record stateful_contract_bound (c : resident_facts_v2) (resources : dict bytes) (layout : dict json) : Prop := {
  sc_layout : exists document, dget resources "contract/image-layout.json" = Some document /\
    json_loads_unique document = Ok (JObj layout) /\ validate_layout (JObj layout) (contract_dict c) = Ok tt;
  sc_v2 : exists header body, dget resources "contract/stateful_abi.h" = Some header /\
    occurs (struct_pattern "FirmingoSketchApiV2") (PyStr.text header) [body] /\ compact_code false body = compact_code false expected_abi;
  sc_v1 : exists header body, dget resources "contract/abi.h" = Some header /\
    occurs (struct_pattern "FirmingoSketchApiV1") (PyStr.text header) [body] /\ compact_code false body = compact_code false expected_calls }.

Lemma check_struct_Ok name expected message header : check_struct name expected message header = Ok tt ->
  exists body, occurs (struct_pattern name) (PyStr.text header) [body] /\ compact_code false body = compact_code false expected.
Proof.
  unfold check_struct. destruct (search _ _) as [[|body [|]]|] eqn:E; try done.
  intros H%raise_when_Ok%negb_false_iff%bool_decide_eq_true. exists body. split; [by apply search_sound|done].
Qed.

Lemma stateful_layout_Ok resources c layout : stateful_layout resources c = Ok layout -> stateful_contract_bound c resources layout.
Proof.
  unfold stateful_layout. intros (document & Hdoc%some_or_Ok & H)%bind_Ok. apply bind_Ok in H as (value & Hv & H).
  apply bind_unit in H as [Hl H]. apply bind_Ok in H as (l & Hd & H). destruct value as [| | | | | |d]; try done.
  injection Hd as ->. apply bind_Ok in H as (v2 & H2%some_or_Ok & H). apply bind_unit in H as [[b2 Hb2]%check_struct_Ok H].
  apply bind_Ok in H as (v1 & H1%some_or_Ok & H). apply bind_unit in H as [[b1 Hb1]%check_struct_Ok [= ->]%mret_Ok].
  constructor; [exists document|exists v2, b2; destruct Hb2|exists v1, b1; destruct Hb1]; split_and!; assumption.
Qed.

(** The tool's own validators are the committed ones. *)
Definition validators_bound (read : string -> result bytes) (commit : string) (hashes : dict string) : Prop :=
  Forall2 (fun name item => item.1 = name /\ exists data tool, committed commit name data /\ item.2 = sha data /\
    read name = Ok tool /\ sha tool = sha data) VALIDATORS hashes.

Lemma validator_hashes_Ok read commit hashes : validator_hashes read commit = Ok hashes -> validators_bound read commit hashes.
Proof.
  unfold validator_hashes. intros (h & Hh%mapM_Ok & H)%bind_Ok. apply bind_unit in H as [Hr [= <-]%mret_Ok].
  rewrite for_each_Ok, Forall_forall in Hr. unfold validators_bound. apply Forall2_same_length_lookup_2; [by eapply Forall2_length|].
  intros i name item Hn Hi. destruct (Forall2_lookup_l _ _ _ _ _ Hh Hn) as (x & Hx & Hd). rewrite Hi in Hx. injection Hx as <-.
  apply bind_Ok in Hd as (data & Hd%git_blob_iff & [= <-]%mret_Ok). split; [done|].
  apply list_elem_of_lookup_2, Hr in Hi. apply bind_Ok in Hi as (tool & Ht & Hs).
  apply raise_when_Ok, negb_false_iff, bool_decide_eq_true in Hs. by exists data, tool.
Qed.

(** The files of an export: the captured artifacts of a bound build, the facts, the contract and its resources. *)
Definition stateful_files (read : string -> result bytes) (resident commit : string) (files : dict bytes) : Prop :=
  exists report_bytes report sources elf uf2 c flash version resources layout validators,
    fullmatch is_hex_lower 40 commit = true /\ captured (resident +:+ "/report.json") 262144 report_bytes /\
    stateful_bound commit report_bytes report sources /\
    captured (resident +:+ "/artifacts/" +:+ MANAGED_INO +:+ ".elf") ELF_LIMIT elf /\
    captured (resident +:+ "/artifacts/" +:+ MANAGED_INO +:+ ".uf2") UF2_LIMIT uf2 /\
    stateful_artifacts report elf uf2 c flash /\ version_bound commit version flash /\
    Forall2 (fun resource item => item.1 = resource.1 /\ committed commit resource.2 item.2) RESOURCES resources /\
    stateful_contract_bound c resources layout /\ validators_bound read commit validators /\
    let contract_bytes := stateful_contract commit layout resources in
    files = update [("resident.elf", elf); ("resident.uf2", uf2); ("build-report.json", report_bytes);
      ("resident-facts.json", json_sorted (stateful_facts_json c commit version uf2 report_bytes contract_bytes
         (load_bytes flash) report sources validators) ++ newline_byte); ("contract.json", contract_bytes)] resources.

Lemma verified_stateful_Ok read resident commit files :
  verified_stateful read resident commit = Ok files -> stateful_files read resident commit files.
Proof.
  unfold verified_stateful. intros [Hc%negb_false_iff H]%raise_when_bind.
  apply bind_Ok in H as (report_bytes & Hb%bounded_file_iff & H). apply bind_Ok in H as ([report sources] & Hr & H).
  apply bind_unit in H as [Hp H]. pose proof (stateful_report_Ok _ _ _ _ Hr Hp) as Hbound.
  apply bind_Ok in H as (elf & He%bounded_file_iff & H). apply bind_Ok in H as (uf2 & Hu%bounded_file_iff & H).
  apply bind_Ok in H as ([[c flash] compared] & [Ha ->]%stateful_facts_Ok & H).
  apply bind_Ok in H as (version & Hv%stateful_version_Ok & H). apply bind_Ok in H as (resources & Hres%stateful_resources_Ok & H).
  apply bind_Ok in H as (layout & Hl%stateful_layout_Ok & H).
  apply bind_Ok in H as (validators & Hval%validator_hashes_Ok & [= <-]%mret_Ok).
  exists report_bytes, report, sources, elf, uf2, c, flash, version, resources, layout, validators. by split_and!.
Qed.
End Sound.

(** C15: The stateful export publishes nothing unverified: it changes no file and fails, or its output did not exist
    before, and every file under it is one of these: the ELF, UF2 and report of an FMS2 upload build whose every
    source is committed with the reported digest, whose ELF runs capsules and takes uploads, is no fault-test image,
    stays within the resident's MiB, holds the committed version and agrees byte for byte with the UF2; the facts;
    the committed resources; the compiler contract, whose description of the format and API structs are the checked
    ones; and the manifest. The validators that ran are the committed ones. On success all files are written, and a
    disk that fails leaves a prefix of them, the last one perhaps empty. *)
Theorem stateful_export_only_verified `{machine : !Machine} `{repo : !Git} `{pairs : !JsonPairs} `{codec : !Json}
    `{format : !ExportText} env f read resident output commit :
  let '(s, r, _) := export_stateful read resident output commit env [] f in
  (s = f /\ exists e, r = Raise e) \/
  exists files, stateful_files read resident commit files /\ exists_path f output = false /\
    let all := dset files "manifest.json" (json_sorted (stateful_manifest commit files) ++ newline_byte) in
    match r with Ok _ => s = written f output all | Raise _ => partly_written f output all s end.
Proof.
  assert (H : triple env [] (fun s _ => s = f) (export_stateful read resident output commit)
    (fun _ s _ => exists files, stateful_files read resident commit files /\ exists_path f output = false /\
       s = written f output (dset files "manifest.json" (json_sorted (stateful_manifest commit files) ++ newline_byte)))
    (fun e s _ => s = f \/ exists files, stateful_files read resident commit files /\ exists_path f output = false /\
       partly_written f output (dset files "manifest.json" (json_sorted (stateful_manifest commit files) ++ newline_byte)) s)).
  { unfold export_stateful. apply triple_bind with (R := fun files s _ => s = f /\ verified_stateful read resident commit = Ok files).
    { apply triple_pure. intros s k ->. destruct (verified_stateful _ _ _); [done|by left]. }
    intros files. apply triple_from. intros s k [-> Hx%verified_stateful_Ok]. set (all := dset files "manifest.json" _).
    apply triple_bind with (R := fun _ s _ => exists_path f output = false /\ s = written f output all).
    - eapply triple_weaken; [apply (write_all_triple env f output all)|by intros s k' [-> _]|done|].
      intros e s k' [->|[Hn Hp]]; [by left|]. right. by exists files.
    - intros u. apply triple_ret. intros s k' [Hn ->]. by exists files. }
  specialize (H f [] eq_refl). cbn [app] in H. destruct (export_stateful _ _ _ _ env [] f) as [[s [res|e]] n]; simpl in H.
  - right. exact H.
  - destruct H as [H|H]; [left; eauto|by right].
Qed.

(** ** A small repository with an FMS2 upload build, and its export *)
Module StatefulDemo.
Definition target_table : bytes :=
  le_words [0x32505546] ++ le_bytes 2 1 ++ le_bytes 2 56 ++ le_words [2; 4096; 1024; 30000]
  ++ ascii "nano-managed-v2" ++ zeros 1 ++ ascii "physical-d2-gnd" ++ zeros 1.

Definition rodata : bytes :=
  let b := demo_rodata ++ le_words [1] ++ target_table ++ ascii "0.1.0-statefulupload-exp1" ++ zeros 1 in b ++ zeros (256 - blen b).

Definition symbol_names : list string := demo_resident_names ++ ["firmingo_stateful_boot_mode"; "firmingo_stateful_upload_contract"].

Definition elf : bytes :=
  let secs := [
    null_section;
    bytes_section ".rodata" 1 2 demo_rodata_address rodata;
    bytes_section ".text" 1 6 0x10002000 (fill Byte.x01 256);
    Build_demo_section ".bss" 8 3 demo_state 4096 [] 0 0;
    string_section ".strtab" symbol_names;
    symtab_section 4 symbol_names ([
      (demo_rodata_address, 40, 0x11, 1); (demo_rodata_address + 40, 52, 0x11, 1);
      (demo_state, 4096, 0x11, 3)] ++ ((fun a => (a, 0, 0x10, 3)) <$>
        [demo_state; demo_state + 4096; demo_state + 4096; 0x20040000; 0x20040000; 0x20041000;
         0x20041000; 0x20042000])
      ++ [(demo_rodata_address + 92, 4, 0x11, 1); (demo_rodata_address + 96, 56, 0x11, 1)])] in
  let names := (ds_name <$> secs) ++ [".shstrtab"] in
  make_elf [(1%nat, demo_rodata_address, demo_rodata_address); (2%nat, 0x10002000, 0x10002000)]
    (secs ++ [string_section ".shstrtab" names]).

Definition uf2 : bytes :=
  or_empty (new_block demo_rodata_address 0 2 rodata) ++ or_empty (new_block 0x10002000 1 2 (fill Byte.x01 256)).

(** The committed files: three that the checks read, and for any other one its own name *)
Definition content (name : string) : bytes :=
  if bool_decide (name = MS "abi.h") then ascii ("struct FirmingoSketchApiV1 { " +:+ expected_calls +:+ " };")
  else if bool_decide (name = MS "stateful_abi.h") then ascii ("struct FirmingoSketchApiV2 {" +:+ expected_abi +:+ "};")
  else if bool_decide (name = "src/core/version.h") then ascii ("#define FIRMINGO_VERSION " +:+ quote +:+ "0.1.0" +:+ quote)
  else ascii name.

Definition commit : string := hex (fill Byte.x5a 20).
Definition inventory : dict json := (fun name => (name, JStr (sha (content name)))) <$> REQUIRED.

Definition report : dict json :=
  [("status", JStr stateful_status); ("board", JStr "nano_rp2040_connect"); ("core", JStr "rp2040:rp2040@6.0.0");
   ("stateful_runtime_enabled", JBool true); ("network_uploads_enabled", JBool true); ("upload_target", stateful_target);
   ("source_sha256", JObj inventory); ("fqbn", JStr "rp2040:rp2040:arduino_nano_connect"); ("flash_bytes", JInt 512);
   ("flash_budget_bytes", JInt 1048576); ("static_ram_bytes", JInt (demo_state + 4096 - 0x20000000));
   ("static_ram_budget_bytes", JInt 196608); ("elf_sha256", JStr (sha elf)); ("uf2_sha256", JStr (sha uf2))].

#[local] Instance repo : Git := { git arguments :=
  match arguments with
  | ["ls-tree"; "-r"; "--name-only"; _; "--"; "src"] => Ok (content "src/core/version.h")
  | ["ls-tree"; _; "--"; name] => Ok (ascii ("100644 blob " +:+ commit) ++ [Byte.x09] ++ ascii name ++ newline_byte)
  | ["cat-file"; "-s"; spec] => Ok (ascii "1")
  | ["show"; spec] => Ok (content (ExportDemo.after_colon spec))
  | _ => Raise (ValueError "git")
  end }.

#[local] Instance machine : Machine := {
  is_symlink _ := false;
  os_open path :=
    if ends_with ".json" path then Ok (ExportDemo.plain (ascii "report"))
    else if ends_with ".elf" path then Ok (ExportDemo.plain elf)
    else if ends_with ".uf2" path then Ok (ExportDemo.plain uf2) else Raise (OSError "No such file or directory") }.

#[local] Instance pairs : JsonPairs := {
  json_pairs b := if bool_decide (b = ascii "report") then Ok (JObj report) else Ok (JObj LayoutDemo.document) }.
#[local] Instance format : ExportText := { utf8_decode b := Ok (PyStr.text b); json_sorted _ := ascii "json" }.
#[local] Instance codec : Json := {
  json_loads b := Ok (JObj [("fqbn", JStr "rp2040:rp2040:arduino_nano_connect")]); json_dumps _ := [] }.

Definition granted : environment disk_ret := fun _ _ => Ok tt.
Definition program (read : string -> result bytes) : st disk_ret (gmap string bytes) (dict json) :=
  export_stateful read "build/stateful" "export" commit.

Example stateful_export_demo : let '(s, r, _) := program (fun name => Ok (content name)) granted [] ∅ in
  is_ok r = true /\ s !! "export/resident.elf" = Some elf /\ s !! "export/contract/stateful_abi.h" = Some (content (MS "stateful_abi.h")) /\
  map_size s = 40%nat.
Proof. vm_compute. by split_and!. Qed.

(** A validator that differs from the commit *)
Example stateful_export_refused : program (fun _ => Ok []) granted [] ∅ =
  (∅, Raise (ValueError "use the exporter/validators from the selected firmware commit"), []).
Proof. by vm_compute. Qed.
End StatefulDemo.
