(* ===== verification/Shell.v ===== *)
(** * Files, links and processes: the world of the build tools

    The build tools read and write files, make symbolic links, ask for environment variables and run other
    programs. The state is the store of files, the links the tool made, and the report under construction. An
    operation that changes the disk asks for it first, and has no effect when it is refused. A process may
    leave any store of files behind. Paths are relative to the repository where they lie in it. *)

From stdpp Require Import base tactics list list_numbers strings gmap.
From Stdlib Require Import ZArith Lia Ascii.
From S2P Require Import Prelude.
From S2P Require Import PyBytes.
From S2P Require Import Sha256.
From S2P Require Import PyStr.
From S2P Require Import PyDict.
From S2P Require Import PyJson.
From S2P Require Import Ipv4.
From S2P Require Import Effects.
From S2P Require Import Stateful.
From S2P Require Import Release.

Local Open Scope Z_scope.

(** What a finished process leaves: its return code, what it printed, and the files. *)
Record process := { pr_code : Z; pr_output : string; pr_files : files }.

Inductive shell_call :=
| Op (operation path : string)
| Process (cwd : string) (command : list string) (before : files)
| Environ (name : string)
| Which (name : string).

Definition shell_ret (c : shell_call) : Type :=
  match c with Op _ _ => unit | Process _ _ _ => process | Environ _ | Which _ => option string end.

Record shell := { sh_files : files; sh_links : gmap string string; sh_report : dict json }.

Definition on_files (g : files -> files) (s : shell) : shell :=
  {| sh_files := g (sh_files s); sh_links := sh_links s; sh_report := sh_report s |}.
Definition on_links (g : gmap string string -> gmap string string) (s : shell) : shell :=
  {| sh_files := sh_files s; sh_links := g (sh_links s); sh_report := sh_report s |}.
Definition on_report (g : dict json -> dict json) (s : shell) : shell :=
  {| sh_files := sh_files s; sh_links := sh_links s; sh_report := g (sh_report s) |}.

Abbreviation sh A := (st shell_ret shell A).

(** ** Operations *)

(** An operation on the disk, and its effect when it is granted *)
Definition op (operation path : string) (effect : shell -> shell) : sh unit :=
  _ ← st_ask (Op operation path);
  st_modify effect.

Definition files_now : sh files := s ← st_get; mret (sh_files s).
Definition note (key : string) (v : json) : sh unit := st_modify (on_report (fun d => dset d key v)).

(** [path.exists()], for a file, a link, or a directory that has some *)
Definition there (s : shell) (path : string) : bool :=
  exists_path (sh_files s) path || bool_decide (is_Some (sh_links s !! path))
  || existsb (fun kv => under path kv.1) (map_to_list (sh_links s)).

Definition is_file (f : files) (path : string) : bool := bool_decide (is_Some (f !! path)).

(** [path.mkdir(parents=True, exist_ok=True)]: directories are not recorded on their own. *)
Definition make_dirs (path : string) : sh unit := op "mkdir" path id.

(** [path.mkdir(...)] without [exist_ok] *)
Definition make_new_dir (path : string) : sh unit :=
  s ← st_get;
  st_pure (raise_when (there s path) (Exn KFileExistsError path));;
  make_dirs path.

Definition write_file (path : string) (data : bytes) : sh unit := op "write" path (on_files <[path := data]>).
Definition unlink (path : string) : sh unit := op "unlink" path (on_files (delete path)).

Definition keep_outside {A} (directory : string) (m : gmap string A) : gmap string A :=
  filter (fun kv => under directory kv.1 = false) m.

(** [shutil.rmtree(path)] *)
Definition remove_dir (path : string) : sh unit :=
  op "rmtree" path (fun s => on_files (keep_outside path) (on_links (keep_outside path) s)).

(** [path.symlink_to(target)] *)
Definition symlink (path target : string) : sh unit := op "symlink" path (on_links <[path := target]>).

(** [shutil.copyfile(source, path)] *)
Definition copy_file (source path : string) : sh unit :=
  f ← files_now;
  data ← st_pure (read f source);
  op "copy" path (on_files <[path := data]>).

(** [subprocess.run(command, cwd=cwd, ...)]; the empty path is the repository. *)
Definition run_process (cwd : string) (command : list string) : sh process :=
  f ← files_now;
  p ← st_ask (Process cwd command f);
  st_modify (on_files (fun _ => pr_files p));;
  mret p.

(** [with log.open("w"): subprocess.run(command, stdout=log, ...)] and the log read back *)
Definition run_logged (cwd : string) (command : list string) (log : string) : sh process :=
  write_file log [];;
  f ← files_now;
  p ← st_ask (Process cwd command f);
  st_modify (on_files (fun _ => <[log := ascii (pr_output p)]> (pr_files p)));;
  mret p.

(** [subprocess.run(command, check=True, capture_output=True).stdout] *)
Definition run_checked (command : list string) : sh string :=
  p ← run_process "" command;
  st_pure (raise_when (negb (pr_code p =? 0)) (Exn KCalledProcessError "returned non-zero exit status"));;
  mret (pr_output p).

(** ** Directories *)

(** [path.rglob("*")], the files only; the order in which a file system lists them is not specified. *)
Definition walk (f : files) (directory : string) : list string := List.filter (under directory) (map_to_list f).*1.

(** The names in [path.iterdir()] *)
Definition first_part (path : string) : string := default "" (head (split_on "/"%char path)).
Definition children (f : files) (directory : string) : list string :=
  remove_dups (omap (fun path => first_part <$> after_prefix (directory +:+ "/") path) (map_to_list f).*1).

(** ** Laws *)
Lemma under_keep {A} directory (m : gmap string A) p :
  keep_outside directory m !! p = if under directory p then None else m !! p.
Proof.
  unfold keep_outside. destruct (under directory p) eqn:Hu.
  - apply map_lookup_filter_None. right. intros x _ H. cbn in H. congruence.
  - destruct (m !! p) as [x|] eqn:E; [by apply map_lookup_filter_Some|]. apply map_lookup_filter_None. by left.
Qed.

Lemma walk_spec f directory p : p ∈ walk f directory <-> under directory p = true /\ is_Some (f !! p).
Proof.
  unfold walk. rewrite list_elem_of_In, filter_In, <- list_elem_of_In, list_elem_of_fmap. split.
  - intros [([q data] & -> & Hin%elem_of_map_to_list) Hu]. split; [done|]. by exists data.
  - intros [Hu [data Hd]]. split; [|done]. exists (p, data). split; [done|]. by apply elem_of_map_to_list.
Qed.

Section Triples.
Context (env : environment shell_ret).

(** An operation takes effect, or leaves the state as it was when the disk refuses it. *)
Lemma op_asked (P Q : shell -> list shell_call -> Prop) operation path effect :
  (forall s k, P s k -> Q (effect s) (k ++ [Op operation path])) ->
  forall (E : exn -> shell -> list shell_call -> Prop),
  (forall e s k, P s k -> env k (Op operation path) = Raise e -> E e s (k ++ [Op operation path])) ->
  triple env [] P (op operation path effect) (fun _ => Q) E.
Proof.
  intros HQ E HE. unfold op. eapply triple_bind with (R := fun _ s k => Q (effect s) k).
  - refine (triple_ask env [] P (Op operation path) _ _ _). intros s k Hs. destruct (env _ _) eqn:Ee; auto.
  - intros _. by apply triple_modify.
Qed.

Lemma op_triple (P Q : shell -> list shell_call -> Prop) operation path effect :
  (forall s k, P s k -> Q (effect s) (k ++ [Op operation path])) ->
  forall (E : exn -> shell -> list shell_call -> Prop), (forall e s k, P s k -> E e s (k ++ [Op operation path])) ->
  triple env [] P (op operation path effect) (fun _ => Q) E.
Proof. intros HQ E HE. apply op_asked; [exact HQ|]. intros e s k Hs _. by apply HE. Qed.

Lemma files_triple (P : shell -> list shell_call -> Prop) E :
  triple env [] P files_now (fun f s k => P s k /\ f = sh_files s) E.
Proof.
  unfold files_now. eapply triple_bind with (R := fun g s k => P s k /\ g = s); [by apply triple_get|].
  intros g. apply triple_ret. by intros s k [H ->].
Qed.

(** A process replaces the files, after it was told them. *)
Lemma process_triple (P : shell -> list shell_call -> Prop) cwd command Q (E : exn -> shell -> list shell_call -> Prop) :
  (forall s k p, P s k -> env k (Process cwd command (sh_files s)) = Ok p ->
     Q p (on_files (fun _ => pr_files p) s) (k ++ [Process cwd command (sh_files s)])) ->
  (forall s k e, P s k -> env k (Process cwd command (sh_files s)) = Raise e -> E e s (k ++ [Process cwd command (sh_files s)])) ->
  triple env [] P (run_process cwd command) Q E.
Proof.
  intros HQ HE. unfold run_process. eapply triple_bind; [apply files_triple|]. intros f. apply triple_from. intros s k [Hs ->].
  eapply triple_bind with (R := fun p s' k' => s' = s /\ k' = k ++ [Process cwd command (sh_files s)] /\
    env k (Process cwd command (sh_files s)) = Ok p).
  - refine (triple_ask env [] _ (Process cwd command (sh_files s)) _ _ _). intros s' k' [-> ->]. cbn [app].
    destruct (env k (Process cwd command (sh_files s))) eqn:Ee; [done|]. by apply HE.
  - intros p. eapply triple_bind with (R := fun _ s' k' => s' = on_files (fun _ => pr_files p) s /\
      k' = k ++ [Process cwd command (sh_files s)] /\ env k (Process cwd command (sh_files s)) = Ok p).
    + apply triple_modify. by intros s' k' (-> & -> & Hp).
    + intros _. apply triple_ret. intros s' k' (-> & -> & Hp). by apply HQ.
Qed.

(** A logged process: the log is there even when it could not be run. *)
Lemma logged_triple (P : shell -> list shell_call -> Prop) cwd command log Q (E : exn -> shell -> list shell_call -> Prop) :
  (forall s k p, P s k -> env (k ++ [Op "write" log]) (Process cwd command (<[log := []]> (sh_files s))) = Ok p ->
     Q p (on_files (fun _ => <[log := ascii (pr_output p)]> (pr_files p)) s)
       ((k ++ [Op "write" log]) ++ [Process cwd command (<[log := []]> (sh_files s))])) ->
  (forall s k n e, P s k -> E e s (k ++ n)) -> (forall s k n e, P s k -> E e (on_files <[log := []]> s) (k ++ n)) ->
  triple env [] P (run_logged cwd command log) Q E.
Proof.
  intros HQ HE HL. unfold run_logged. apply triple_from. intros s k Hs.
  eapply triple_bind with (R := fun _ s' k' => s' = on_files <[log := []]> s /\ k' = k ++ [Op "write" log]).
  { unfold write_file. apply op_triple; [by intros s' k' [-> ->]|]. intros e s' k' [-> ->]. by apply HE. }
  intros _. eapply triple_bind with (R := fun f s' k' => (s' = on_files <[log := []]> s /\ k' = k ++ [Op "write" log]) /\ f = sh_files s').
  { apply files_triple. }
  intros f. apply triple_from. intros s' k' [[-> ->] ->].
  set (c := Process cwd command (<[log := []]> (sh_files s))).
  eapply triple_bind with (R := fun p s' k' => s' = on_files <[log := []]> s /\ k' = (k ++ [Op "write" log]) ++ [c] /\
    env (k ++ [Op "write" log]) c = Ok p).
  - refine (triple_ask env [] _ c _ _ _). intros s' k' [-> ->]. cbn [app].
    destruct (env _ c) eqn:Ee; [done|]. rewrite <- app_assoc. by apply HL.
  - intros p. eapply triple_bind with (R := fun _ s' k' => s' = on_files (fun _ => <[log := ascii (pr_output p)]> (pr_files p)) s /\
      k' = (k ++ [Op "write" log]) ++ [c] /\ env (k ++ [Op "write" log]) c = Ok p).
    + apply triple_modify. by intros s' k' (-> & -> & Hp).
    + intros _. apply triple_ret. intros s' k' (-> & -> & Hp). by apply HQ.
Qed.

(** Steps from a state that is known *)
Lemma note_from (s0 : shell) (k0 : list shell_call) key v E : triple env [] (fun s k => s = s0 /\ k = k0) (note key v)
  (fun _ s k => s = on_report (fun d => dset d key v) s0 /\ k = k0) E.
Proof. apply triple_modify. by intros s k [-> ->]. Qed.

Lemma pure_from {A} (s0 : shell) (k0 : list shell_call) (m : result A) (E : exn -> shell -> list shell_call -> Prop) : (forall e, m = Raise e -> E e s0 k0) ->
  triple env [] (fun s k => s = s0 /\ k = k0) (st_pure m) (fun x s k => (s = s0 /\ k = k0) /\ m = Ok x) E.
Proof. intros H. apply triple_pure. intros s k [-> ->]. destruct m; [done|by apply H]. Qed.

Lemma get_from (s0 : shell) (k0 : list shell_call) E : triple env [] (fun s k => s = s0 /\ k = k0) st_get (fun x s k => (s = s0 /\ k = k0) /\ x = s0) E.
Proof. apply triple_get. by intros s k [-> ->]. Qed.
End Triples.

(** ** Commands that are checked *)
Section Printed.
Context (env : environment shell_ret).

(** A command that was run, succeeded and printed [text] *)
Definition printed (command : list string) (text : string) (k : list shell_call) : Prop :=
  exists h before p, Process "" command before ∈ k /\ env h (Process "" command before) = Ok p /\ pr_code p = 0 /\ pr_output p = text.

Lemma printed_more command text k n : printed command text k -> printed command text (k ++ n).
Proof. intros (h & before & p & Hin & H). exists h, before, p. split; [set_solver|exact H]. Qed.

Lemma run_checked_printed (I : shell -> list shell_call -> Prop) command : keeps env [] I (run_checked command) ->
  triple env [] I (run_checked command) (fun text s k => I s k /\ printed command text k) (fun _ => I).
Proof.
  intros HI. eapply triple_weaken; [apply (triple_and env [] I (fun _ _ => True) _ _ (fun text _ k => printed command text k) _ (fun _ _ _ => True) HI)| | |].
  - unfold run_checked. eapply triple_bind with (R := fun p _ k => exists h before, Process "" command before ∈ k /\ env h (Process "" command before) = Ok p).
    { apply process_triple; [|done]. intros s k p _ Hp. exists k, (sh_files s). split; [set_solver|exact Hp]. }
    intros p. eapply triple_bind with (R := fun _ _ k => (exists h before, Process "" command before ∈ k /\ env h (Process "" command before) = Ok p) /\ pr_code p = 0).
    { apply triple_pure. intros s k Hp. destruct (pr_code p =? 0) eqn:E; [|done]. split; [done|lia]. }
    intros u. apply triple_ret. intros s k [(h & before & Hin & Hp) Hc]. by exists h, before, p.
  - done.
  - done.
  - by intros e s k [H _].
Qed.
End Printed.

(** ** A file that is left alone

    [leaves env path]: the programs that are run do not touch [path]. Then [kept] holds at every point of a tool that
    does not write to it either. *)
Definition leaves (env : environment shell_ret) (path : string) : Prop :=
  forall k cwd command f p, env k (Process cwd command f) = Ok p -> pr_files p !! path = f !! path.

Definition kept (path : string) (v : option bytes) (about : dict json -> Prop) (s : shell) (k : list shell_call) : Prop :=
  sh_files s !! path = v /\ about (sh_report s).

Section Kept.
Context (env : environment shell_ret) (path : string) (Hleaves : leaves env path) (v : option bytes) (about : dict json -> Prop).

Abbreviation keeps_file m := (keeps env [] (kept path v about) m).

Lemma ask_kept c : keeps_file (st_ask c).
Proof. by refine (keeps_ask env [] _ c _). Qed.

Lemma op_kept operation p effect :
  (forall s, sh_files (effect s) !! path = sh_files s !! path /\ sh_report (effect s) = sh_report s) -> keeps_file (op operation p effect).
Proof.
  intros He. apply op_triple; [|done]. intros s k [Hs Hr]. destruct (He s) as [Hf Hd]. split; [by rewrite Hf|by rewrite Hd].
Qed.

Lemma files_now_kept : keeps_file files_now.
Proof. unfold files_now. keeps_tac. Qed.

Lemma note_kept key x : (forall d, about d -> about (dset d key x)) -> keeps_file (note key x).
Proof. intros H. unfold note. keeps_tac. destruct H0 as [Hs Hr]. split; [done|]. by apply H. Qed.

Lemma make_dirs_kept p : keeps_file (make_dirs p).
Proof. by apply op_kept. Qed.

Lemma make_new_dir_kept p : keeps_file (make_new_dir p).
Proof. unfold make_new_dir. keeps_tac. apply make_dirs_kept. Qed.

Lemma symlink_kept p target : keeps_file (symlink p target).
Proof. by apply op_kept. Qed.

Lemma write_kept p data : p <> path -> keeps_file (write_file p data).
Proof. intros Hp. apply op_kept. intros s. split; [|done]. cbn. by rewrite lookup_insert_ne. Qed.

Lemma copy_kept source p : p <> path -> keeps_file (copy_file source p).
Proof.
  intros Hp. unfold copy_file. apply keeps_bind; [apply files_now_kept|intros f]. apply keeps_bind; [apply keeps_pure|intros data].
  apply op_kept. intros s. split; [|done]. cbn. by rewrite lookup_insert_ne.
Qed.

Lemma remove_dir_kept p : under p path = false -> keeps_file (remove_dir p).
Proof. intros Hp. apply op_kept. intros s. split; [|done]. cbn. by rewrite under_keep, Hp. Qed.

Lemma process_kept cwd command : keeps_file (run_process cwd command).
Proof.
  apply process_triple; [|done]. intros s k p [Hs Hr] Hp%Hleaves. split; [|done]. by rewrite <- Hs.
Qed.

Lemma checked_kept command : keeps_file (run_checked command).
Proof. unfold run_checked. apply keeps_bind; [apply process_kept|intros p]. keeps_tac. Qed.
End Kept.

#[export] Hint Resolve ask_kept files_now_kept make_dirs_kept make_new_dir_kept symlink_kept process_kept checked_kept : keeps.
#[export] Hint Extern 2 (keeps _ _ (kept _ _ _) (write_file _ _)) => apply write_kept : keeps.
