(* ===== verification/UsbCore.v ===== *)
(** * The USB startup overlay: tools/usb_core.py

    [prepare] makes a copy of an installed core in which everything is a link, except the files a pinned patch
    changes, which are copied; then it runs patch in the copy and compares the digests. The theorem below is what
    the overlay is for: the patch is run while everything outside the destination is as it was, and no patched
    path leads through a link into the installed core. *)

From stdpp Require Import base tactics list list_numbers strings gmap.
From Stdlib Require Import ZArith Lia Ascii.
From S2P Require Import Prelude.
From S2P Require Import PyBytes.
From S2P Require Import Sha256.
From S2P Require Import PyStr.
From S2P Require Import PyDict.
From S2P Require Import PyJson.
From S2P Require Import Ipv4.
From S2P Require Import Effects.
From S2P Require Import Stateful.
From S2P Require Import Release.
From S2P Require Import Dev.
From S2P Require Import ResidentExport.
From S2P Require Import Shell.

Local Open Scope Z_scope.

Definition startup_package : string := "patches/arduino-pico-6.0.0-usb-startup".

(** The names of a diff: what follows a mark at the start of a line *)
Definition diff_targets (mark text : string) : list string := omap (after_prefix mark) (split_lines text).

(** [Path(value)] *)
Definition path_of (v : json) : result string :=
  match v with JStr s => mret s | _ => Raise (TypeError "argument should be a str or an os.PathLike object") end.

(** What the manifest and the configuration select *)
Record overlay_plan := {
  op_manifest : json; op_patch : string; op_data : string; op_version : string; op_files : dict json }.

Definition op_core (o : overlay_plan) : string := op_data o +:+ "/packages/rp2040/hardware/rp2040/" +:+ op_version o.
Definition staged_data (destination : string) : string := destination +:+ "/data".
Definition op_overlay (o : overlay_plan) (destination : string) : string :=
  staged_data destination +:+ "/packages/rp2040/hardware/rp2040/" +:+ op_version o.

Section UsbCore.
Context `{codec : !Json} `{packing : !Packing} `{format : !ExportText} (resolve : string -> string).

(** One file of the manifest against one of its digests *)
Definition check_digest (f : files) (directory which message : string) (item : string * json) : result unit :=
  let '(name, hashes) := item in
  actual ← digest f (directory +:+ "/" +:+ name);
  expected ← subscript hashes which;
  raise_when (negb (py_eq (JStr actual) expected)) (RuntimeError message).

(** Everything that is read before anything is written *)
Definition overlay_checks (f : files) (config : json) : result overlay_plan :=
  manifest_bytes ← read f (startup_package +:+ "/manifest.json");
  manifest ← json_loads manifest_bytes;
  patch_value ← subscript manifest "patch";
  patch_name ← as_path patch_value;
  let patch := startup_package +:+ "/" +:+ patch_name in
  actual ← digest f patch;
  pinned ← subscript manifest "patch_sha256";
  raise_when (negb (py_eq (JStr actual) pinned)) (RuntimeError "USB startup patch hash changed; review and update its manifest");;
  directories ← subscript config "directories";
  data_value ← subscript directories "data";
  data ← path_of data_value;
  version_value ← subscript manifest "core_version";
  version ← as_path version_value;
  files_value ← subscript manifest "files";
  names ← as_dict files_value;
  let o := {| op_manifest := manifest; op_patch := patch; op_data := data; op_version := version; op_files := names |} in
  for_each (check_digest f (op_core o) "upstream_sha256" "USB startup requires clean pinned upstream file: ") names;;
  patch_bytes ← read f patch;
  text ← utf8_decode patch_bytes;
  raise_when (negb (bool_decide (diff_targets "--- " text = (fun n => "a/" +:+ n)%string <$> keys names))
      || negb (bool_decide (diff_targets "+++ " text = (fun n => "b/" +:+ n)%string <$> keys names)))
    (RuntimeError "USB patch target list differs from pinned manifest");;
  mret o.

(** Links to all entries of a directory but one *)
Definition link_entries (source destination skipped : string) : sh unit :=
  f ← files_now;
  st_fold (fun _ name =>
      if bool_decide (name = skipped) then mret tt
      else symlink (destination +:+ "/" +:+ name) (resolve (source +:+ "/" +:+ name)))
    tt (children f source).

(** [mirror]; each turn shortens the modified names, so that their length bounds the depth. *)
Fixpoint mirror (fuel : nat) (source destination : string) (modified : list string) : sh unit :=
  match fuel with
  | O => st_raise OutOfFuel
  | S fuel =>
      make_new_dir destination;;
      f ← files_now;
      st_fold (fun _ name =>
          let entry := source +:+ "/" +:+ name in
          let target := destination +:+ "/" +:+ name in
          if bool_decide (name ∈ modified) then copy_file entry target
          else if existsb (fun n => under name n) modified then
            mirror fuel entry target (omap (after_prefix (name +:+ "/")) modified)
          else symlink target (resolve entry))
        tt (children f source)
  end.

Definition mirror_fuel (modified : list string) : nat := S (max_list_with String.length modified).

(** [if destination.exists(): shutil.rmtree(destination)] *)
Definition clear_away (destination : string) : sh unit :=
  s ← st_get;
  if there s destination then remove_dir destination else mret tt.

(** The directories above the overlay, with links to everything else *)
Definition stage_links (data destination : string) : sh unit :=
  make_new_dir destination;;
  make_new_dir (staged_data destination);;
  link_entries data (staged_data destination) "packages";;
  make_new_dir (staged_data destination +:+ "/packages");;
  link_entries (data +:+ "/packages") (staged_data destination +:+ "/packages") "rp2040";;
  make_new_dir (staged_data destination +:+ "/packages/rp2040");;
  link_entries (data +:+ "/packages/rp2040") (staged_data destination +:+ "/packages/rp2040") "hardware".

Definition apply_patch (o : overlay_plan) (destination : string) : sh unit :=
  p ← run_process (op_overlay o destination)
    ["patch"; "--batch"; "--fuzz=0"; "--no-backup-if-mismatch"; "-p1"; "-i"; resolve (op_patch o)];
  st_pure (raise_when (negb (pr_code p =? 0))
    (RuntimeError "USB startup patch failed in the build overlay; installed sources were not patched")).

(** The patched files of the overlay, and the untouched ones of the core *)
Definition check_patched (f : files) (o : overlay_plan) (destination : string) (item : string * json) : result unit :=
  check_digest f (op_overlay o destination) "patched_sha256" "patched USB file hash mismatch: " item;;
  check_digest f (op_core o) "upstream_sha256" "installed core unexpectedly changed: " item.

(** The configuration that selects the overlay *)
Definition overlay_config (config : json) (destination : string) : result (dict json) :=
  generated ← as_dict config;
  directories_value ← ditem generated "directories";
  directories ← as_dict directories_value;
  mret (dset generated "directories" (JObj (dset directories "data" (JStr (resolve (staged_data destination)))))).

Definition prepare (cli : list string) (config : json) (destination : string) : sh (list string * dict json) :=
  f ← files_now;
  o ← st_pure (overlay_checks f config);
  clear_away destination;;
  stage_links (op_data o) destination;;
  mirror (mirror_fuel (keys (op_files o))) (op_core o) (op_overlay o destination) (keys (op_files o));;
  apply_patch o destination;;
  f ← files_now;
  st_pure (for_each (check_patched f o destination) (op_files o));;
  generated ← st_pure (overlay_config config destination);
  let path := destination +:+ "/arduino-cli.yaml" in
  write_file path (json_pretty generated);;
  tool ← st_pure (some_or (head cli) (IndexError "list index out of range"));
  mret ([tool; "--config-file"; resolve path],
        [("core_path", JStr (resolve (op_core o))); ("overlay_path", JStr (resolve (op_overlay o destination)));
         ("manifest", op_manifest o)]).
End UsbCore.

(** ** Links that a patched path does not meet *)

(** A name that is neither a modified file nor a directory above one *)
Definition clear (q : string) (modified : list string) : Prop := forall n, n ∈ modified -> q <> n /\ under q n = false.

(** Below [destination] there are new files, and new links that are clear of the modified files. *)
Record mirrored (destination : string) (modified : list string) (s0 s : shell) : Prop := {
  mi_files : forall p, under destination p = false -> sh_files s !! p = sh_files s0 !! p;
  mi_links : forall p t, sh_links s !! p = Some t -> sh_links s0 !! p = Some t \/
    exists q, p = (destination +:+ "/" +:+ q)%string /\ clear q modified }.

Lemma mirrored_refl destination modified s : mirrored destination modified s s.
Proof. constructor; [done|]. intros p t H. by left. Qed.

Lemma mirrored_trans destination modified s0 s1 s2 :
  mirrored destination modified s0 s1 -> mirrored destination modified s1 s2 -> mirrored destination modified s0 s2.
Proof.
  intros [F1 L1] [F2 L2]. constructor.
  - intros p Hp. by rewrite F2, F1.
  - intros p t [H|H]%L2; [by apply L1|by right].
Qed.

(** A part of the tree, seen from above *)
Lemma mirrored_below destination a inner modified s0 s :
  (forall r, (a +:+ "/" +:+ r)%string ∈ modified -> r ∈ inner) ->
  mirrored (destination +:+ "/" +:+ a) inner s0 s -> mirrored destination modified s0 s.
Proof.
  intros Hin [F L]. constructor.
  - intros p Hp. apply F. destruct (under (destination +:+ "/" +:+ a) p) eqn:Hu; [|done].
    apply under_inv in Hu as [q ->]. by rewrite !append_assoc, under_app in Hp.
  - intros p t [H|(q & -> & Hq)]%L; [by left|right]. exists (a +:+ "/" +:+ q)%string. split; [by rewrite !append_assoc|].
    intros n Hn. split.
    + intros <-. by apply Hin, Hq in Hn as [].
    + destruct (under (a +:+ "/" +:+ q) n) eqn:Hu; [|done]. apply under_inv in Hu as [r ->].
      rewrite !append_assoc in Hn. apply Hin, Hq in Hn as [_ Hn]. by rewrite under_app in Hn.
Qed.

Lemma link_mirrored destination modified name target s : clear name modified ->
  mirrored destination modified s (on_links <[(destination +:+ "/" +:+ name)%string := target]> s).
Proof.
  intros Hc. constructor; [done|]. intros p t H. cbn [on_links sh_links] in H. apply lookup_insert_Some in H as [[<- _]|[_ H]]; [right; eauto|by left].
Qed.

Lemma file_mirrored destination modified name data s :
  mirrored destination modified s (on_files <[(destination +:+ "/" +:+ name)%string := data]> s).
Proof.
  constructor; [|by left]. intros p Hp. cbn. apply lookup_insert_ne. intros <-. by rewrite under_app in Hp.
Qed.

(** The stores a process was started with *)
Definition started (k : list shell_call) : list files := omap (fun c => match c with Process _ _ f => Some f | _ => None end) k.

Lemma started_op k operation path : started (k ++ [Op operation path]) = started k.
Proof. unfold started. rewrite omap_app. apply app_nil_r. Qed.

(** ** The mirror keeps to its destination *)
Section Mirrored.
Context (env : environment shell_ret) (resolve : string -> string).

Definition steady (destination : string) (modified : list string) (s0 s : shell) (k : list shell_call) : Prop :=
  mirrored destination modified s0 s /\ started k = [].

Abbreviation keeps_steady destination modified m :=
  (forall s0, keeps env [] (steady destination modified s0) m).

Lemma op_steady destination modified s0 operation path effect :
  (forall s, mirrored destination modified s (effect s)) -> keeps env [] (steady destination modified s0) (op operation path effect).
Proof.
  intros He. apply op_triple; intros; unfold steady; rewrite started_op; [|done].
  destruct H as [Hs Hk]. split; [|done]. by eapply mirrored_trans.
Qed.

Lemma make_new_dir_steady destination modified s0 path : keeps env [] (steady destination modified s0) (make_new_dir path).
Proof.
  unfold make_new_dir, make_dirs. keeps_tac. apply op_steady. intros s. apply mirrored_refl.
Qed.

Lemma files_now_steady destination modified s0 : keeps env [] (steady destination modified s0) files_now.
Proof. unfold files_now. keeps_tac. Qed.

Lemma copy_steady destination modified s0 source name :
  keeps env [] (steady destination modified s0) (copy_file source (destination +:+ "/" +:+ name)).
Proof.
  unfold copy_file. apply keeps_bind; [apply files_now_steady|intros f]. apply keeps_bind; [apply keeps_pure|intros data].
  apply op_steady. intros s. apply file_mirrored.
Qed.

Lemma symlink_steady destination modified s0 name target : clear name modified ->
  keeps env [] (steady destination modified s0) (symlink (destination +:+ "/" +:+ name) target).
Proof. intros Hc. apply op_steady. intros s. by apply link_mirrored. Qed.

(** A program for a part of the tree is one for the whole. *)
Lemma steady_below {A} destination a inner modified s0 (m : sh A) :
  (forall r, (a +:+ "/" +:+ r)%string ∈ modified -> r ∈ inner) ->
  keeps_steady (destination +:+ "/" +:+ a)%string inner m -> keeps env [] (steady destination modified s0) m.
Proof.
  intros Hin Hm s k [Hs Hk]. specialize (Hm s s k (conj (mirrored_refl _ _ s) Hk)).
  destruct (m env ([] ++ k) s) as [[s' [x|e]] n]; destruct Hm as [Hm Hn]; (split; [|done]);
    by apply (mirrored_trans _ _ _ s), (mirrored_below _ a inner).
Qed.

Lemma stripped name (modified : list string) r : (name +:+ "/" +:+ r)%string ∈ modified -> r ∈ omap (after_prefix (name +:+ "/")) modified.
Proof. intros H. apply list_elem_of_omap. eexists. split; [exact H|]. apply after_prefix_Some. by rewrite append_assoc. Qed.

Lemma mirror_steady fuel source destination modified s0 :
  keeps env [] (steady destination modified s0) (mirror resolve fuel source destination modified).
Proof.
  revert source destination modified s0. induction fuel as [|fuel IH]; intros source destination modified s0; cbn [mirror]; [apply keeps_pure|].
  apply keeps_bind; [apply make_new_dir_steady|intros _]. apply keeps_bind; [apply files_now_steady|intros f].
  apply keeps_fold. intros u name. case_bool_decide as Hm; [apply copy_steady|].
  destruct (existsb (under name) modified) eqn:Hu.
  - eapply steady_below; [intros r; apply stripped|]. intros s. apply IH.
  - apply symlink_steady. intros n Hn. split; [by intros ->|]. destruct (under name n) eqn:E; [|done].
    assert (existsb (under name) modified = true); [|congruence]. apply existsb_exists. exists n. by rewrite <- list_elem_of_In.
Qed.

(** Names of one part: the directories that lead to the overlay are the only ones that are not linked. *)
Lemma children_part f directory name : name ∈ children f directory -> split_on "/"%char name = [name].
Proof.
  unfold children. rewrite elem_of_remove_dups, list_elem_of_omap. intros (p & _ & H).
  destruct (after_prefix _ p) as [q|]; [|done]. injection H as <-. unfold first_part.
  destruct (split_on "/"%char q) as [|x l] eqn:E; [by apply split_on_nonempty in E|]. apply (split_on_part _ q). rewrite E. left.
Qed.

Lemma part_clear name part (modified : list string) : split_on "/"%char name = [name] -> split_on "/"%char part = [part] -> name <> part ->
  (forall n, n ∈ modified -> exists r, n = (part +:+ "/" +:+ r)%string) -> clear name modified.
Proof.
  intros Hn Hp Hne Hm n [r ->]%Hm. assert (Hs : forall x y, (part +:+ "/" +:+ x)%string <> (name +:+ "/" +:+ y)%string).
  { intros x y E. apply (f_equal (split_on "/"%char)) in E. change ("/" +:+ ?x)%string with (String "/"%char x) in E.
    rewrite !split_on_app in E by done. congruence. }
  split.
  - intros ->. change ("/" +:+ r)%string with (String "/"%char r) in Hn. rewrite split_on_app in Hn by done.
    by destruct (split_on "/"%char r) eqn:E; [apply split_on_nonempty in E|].
  - destruct (under name _) eqn:E; [|done]. apply under_inv in E as [y Hy]. by apply Hs in Hy.
Qed.

(** All entries of a directory but the one that leads on *)
Lemma link_entries_steady destination modified s0 source skipped : split_on "/"%char skipped = [skipped] ->
  (forall n, n ∈ modified -> exists r, n = (skipped +:+ "/" +:+ r)%string) ->
  keeps env [] (steady destination modified s0) (link_entries resolve source destination skipped).
Proof.
  intros Hp Hm. unfold link_entries. apply keeps_bind; [apply files_now_steady|intros f].
  assert (Hall : Forall (fun name => split_on "/"%char name = [name]) (children f source)).
  { apply Forall_forall. intros name. apply children_part. }
  induction Hall as [|name l Hn Hl IH]; cbn [st_fold]; [apply keeps_pure|]. change (st_bind ?m ?g) with (m ≫= g).
  apply keeps_bind; [|intros []; exact IH]. case_bool_decide as Hs; [apply keeps_ret|].
  apply symlink_steady. by apply (part_clear name skipped).
Qed.

(** The modified files as seen from the directories above them *)
Definition led (a : string) (l : list string) : list string := (fun n => a +:+ "/" +:+ n)%string <$> l.
Definition patched_paths (o : overlay_plan) : list string :=
  led "data" (led "packages" (led "rp2040" (led "hardware" (led "rp2040" (led (op_version o) (keys (op_files o))))))).

Lemma steady_led {A} destination a inner s0 (m : sh A) :
  keeps_steady (destination +:+ "/" +:+ a)%string inner m -> keeps env [] (steady destination (led a inner) s0) m.
Proof.
  apply steady_below. intros r (x & E & Hx)%list_elem_of_fmap. apply (inj (fun n => a +:+ "/" +:+ n)%string) in E. by subst.
Qed.

Lemma led_part a l n : n ∈ led a l -> exists r, n = (a +:+ "/" +:+ r)%string.
Proof. intros (r & -> & _)%list_elem_of_fmap. eauto. Qed.

Lemma stage_links_steady o destination s0 :
  keeps env [] (steady destination (patched_paths o) s0) (stage_links resolve (op_data o) destination).
Proof.
  unfold stage_links, patched_paths. do 2 (apply keeps_bind; [apply make_new_dir_steady|intros _]).
  apply keeps_bind; [|intros _].
  { apply steady_led. intros s1. apply link_entries_steady; [done|apply led_part]. }
  apply keeps_bind; [apply make_new_dir_steady|intros _]. apply keeps_bind; [|intros _].
  { apply steady_led. intros s1. apply steady_led. intros s2. apply link_entries_steady; [done|apply led_part]. }
  apply keeps_bind; [apply make_new_dir_steady|intros _].
  apply steady_led. intros s1. apply steady_led. intros s2. apply steady_led. intros s3.
  replace (staged_data destination +:+ "/packages/rp2040")%string
    with (((destination +:+ "/" +:+ "data") +:+ "/" +:+ "packages") +:+ "/" +:+ "rp2040")%string
    by (unfold staged_data; rewrite !append_assoc; done).
  apply link_entries_steady; [done|apply led_part].
Qed.

Lemma overlay_path o destination : op_overlay o destination =
  ((((((destination +:+ "/" +:+ "data") +:+ "/" +:+ "packages") +:+ "/" +:+ "rp2040") +:+ "/" +:+ "hardware") +:+ "/" +:+ "rp2040")
    +:+ "/" +:+ op_version o)%string.
Proof. unfold op_overlay, staged_data. by rewrite !append_assoc. Qed.

Lemma overlay_steady fuel o destination s0 : keeps env [] (steady destination (patched_paths o) s0)
  (mirror resolve fuel (op_core o) (op_overlay o destination) (keys (op_files o))).
Proof.
  rewrite overlay_path. unfold patched_paths. do 6 (apply steady_led; intros ?). apply mirror_steady.
Qed.
End Mirrored.

(** ** The overlay *)
Section Overlay.
Context `{codec : !Json} `{packing : !Packing} `{format : !ExportText} (resolve : string -> string) (env : environment shell_ret).

(** Nothing changed outside a directory *)
Definition unchanged (destination : string) (f g : files) : Prop := forall p, under destination p = false -> g !! p = f !! p.

(** A file with the digest that an entry of the manifest has *)
Definition has_digest (f : files) (path which : string) (hashes : json) : Prop :=
  exists data expected, f !! path = Some data /\ subscript hashes which = Ok expected /\ py_eq (JStr (sha data)) expected = true.

Lemma check_digest_Ok f directory which message name hashes : check_digest f directory which message (name, hashes) = Ok tt ->
  has_digest f (directory +:+ "/" +:+ name) which hashes.
Proof.
  unfold check_digest. intros (actual & (data & Hd & ->)%digest_Ok & H)%bind_Ok. apply bind_Ok in H as (expected & He & H).
  apply raise_when_Ok, negb_false_iff in H. by exists data, expected.
Qed.

(** What the plan was checked for: the pinned patch, clean files of the core, and a patch for exactly these files *)
Record checked_plan (f : files) (o : overlay_plan) : Prop := {
  cl_patch : has_digest f (op_patch o) "patch_sha256" (op_manifest o);
  cl_core : forall name hashes, (name, hashes) ∈ op_files o -> has_digest f (op_core o +:+ "/" +:+ name) "upstream_sha256" hashes;
  cl_targets : exists data text, f !! op_patch o = Some data /\ utf8_decode data = Ok text /\
    diff_targets "--- " text = (fun n => "a/" +:+ n)%string <$> keys (op_files o) /\
    diff_targets "+++ " text = (fun n => "b/" +:+ n)%string <$> keys (op_files o) }.

Lemma overlay_checks_Ok f config o : overlay_checks f config = Ok o -> checked_plan f o.
Proof.
  unfold overlay_checks. intros (mb & _ & H)%bind_Ok. apply bind_Ok in H as (m & _ & H).
  apply bind_Ok in H as (pv & _ & H). apply bind_Ok in H as (pn & _ & H).
  apply bind_Ok in H as (actual & (pd & Hpd & ->)%digest_Ok & H). apply bind_Ok in H as (pinned & Hpin & H).
  apply raise_when_bind in H as [Hpe%negb_false_iff H].
  do 5 (apply bind_Ok in H as (? & _ & H)). apply bind_Ok in H as (fv & _ & H).
  apply bind_Ok in H as (names & _ & H).
  apply bind_unit in H as [Hup H]. apply bind_Ok in H as (pb & Hpb%some_or_Ok & H). apply bind_Ok in H as (text & Ht & H).
  apply raise_when_bind in H as [[Ha%negb_false_iff%bool_decide_eq_true Hb%negb_false_iff%bool_decide_eq_true]%orb_false_iff H].
  injection H as <-. constructor; cbn [op_patch op_manifest op_files].
  - by exists pd, pinned.
  - intros name hashes Hin. rewrite for_each_Ok, Forall_forall in Hup. apply Hup in Hin. by apply check_digest_Ok in Hin.
  - by exists pb, text.
Qed.

(** A real copy in the overlay, with no link on its path *)
Record patched_copy (o : overlay_plan) (destination : string) (s : shell) (name : string) (hashes : json) : Prop := {
  pc_copy : has_digest (sh_files s) (op_overlay o destination +:+ "/" +:+ name) "patched_sha256" hashes;
  pc_links : forall p t, sh_links s !! p = Some t ->
    p <> (op_overlay o destination +:+ "/" +:+ name)%string /\ under p (op_overlay o destination +:+ "/" +:+ name) = false;
  pc_core : under destination (op_core o +:+ "/" +:+ name) = false ->
    has_digest (sh_files s) (op_core o +:+ "/" +:+ name) "upstream_sha256" hashes }.

(** The state at the patch: nothing changed outside, and clear links only *)
Definition staged (destination : string) (o : overlay_plan) (f : files) (s : shell) : Prop :=
  unchanged destination f (sh_files s) /\
  forall p t, sh_links s !! p = Some t -> exists q, p = (destination +:+ "/" +:+ q)%string /\ clear q (patched_paths o).

Lemma patched_path o destination name : name ∈ keys (op_files o) -> exists q, q ∈ patched_paths o /\
  (op_overlay o destination +:+ "/" +:+ name)%string = (destination +:+ "/" +:+ q)%string.
Proof.
  intros Hn. eexists. split; [unfold patched_paths, led; do 6 apply list_elem_of_fmap_2; exact Hn|].
  rewrite overlay_path, !append_assoc. done.
Qed.

Lemma clear_path o destination s name p t : staged destination o (sh_files s) s -> name ∈ keys (op_files o) ->
  sh_links s !! p = Some t ->
  p <> (op_overlay o destination +:+ "/" +:+ name)%string /\ under p (op_overlay o destination +:+ "/" +:+ name) = false.
Proof.
  intros [_ Hl] Hn (q & -> & Hq)%Hl. destruct (patched_path o destination name Hn) as (n & Hin & ->). apply Hq in Hin as [Hne Hu]. split.
  - by intros E%below_inj.
  - destruct (under (destination +:+ "/" +:+ q) _) eqn:E; [|done]. apply under_inv in E as [r E].
    rewrite !append_assoc in E. apply (inj (fun n => destination +:+ "/" +:+ n)%string) in E. subst n. by rewrite under_app in Hu.
Qed.

Lemma write_digest destination s which hashes path data :
  path <> (destination +:+ "/arduino-cli.yaml")%string -> has_digest (sh_files s) path which hashes ->
  has_digest (sh_files (on_files <[(destination +:+ "/arduino-cli.yaml")%string := data]> s)) path which hashes.
Proof. intros Hne (d & e & Hd & H). exists d, e. split; [|done]. cbn. by rewrite lookup_insert_ne. Qed.

Lemma config_apart o destination name : name ∈ keys (op_files o) ->
  (op_overlay o destination +:+ "/" +:+ name)%string <> (destination +:+ "/arduino-cli.yaml")%string.
Proof.
  intros (q & Hq & ->)%(patched_path o destination) E. apply led_part in Hq as [r ->].
  by apply (inj (String.append destination)) in E.
Qed.

(** What a process was told, whatever happened. *)
Definition told_unchanged (destination : string) (f : files) (k : list shell_call) : Prop :=
  Forall (unchanged destination f) (started k).

Definition prepared (destination : string) (f : files) (config : json) (s : shell) : Prop :=
  exists o, overlay_checks f config = Ok o /\ checked_plan f o /\
    forall name hashes, (name, hashes) ∈ op_files o -> patched_copy o destination s name hashes.

Lemma clean_triple destination s0 : (forall p t, sh_links s0 !! p = Some t -> under destination p = true) ->
  triple env [] (fun s k => s = s0 /\ k = []) (clear_away destination)
    (fun _ s k => started k = [] /\ unchanged destination (sh_files s0) (sh_files s) /\ sh_links s = ∅)
    (fun _ s k => started k = []).
Proof.
  intros Hl. unfold clear_away. eapply triple_bind with (R := fun g s k => g = s0 /\ s = s0 /\ k = []); [apply triple_get; by intros s k [-> ->]|].
  intros g. apply triple_from. intros s k (-> & -> & ->). destruct (there s0 destination) eqn:E.
  - apply op_triple; [|by intros e s k [_ ->]]. intros s k [-> ->]. split_and!; [done| |].
    + intros p Hp. cbn. by rewrite under_keep, Hp.
    + apply map_eq. intros p. cbn. rewrite under_keep, lookup_empty. destruct (under destination p) eqn:Hu; [done|].
      destruct (sh_links s0 !! p) as [t|] eqn:Ep; [|done]. apply Hl in Ep. congruence.
  - apply triple_ret. intros s k [-> ->]. split_and!; [done|by intros p|]. apply map_eq. intros p. rewrite lookup_empty.
    destruct (sh_links s0 !! p) as [t|] eqn:Ep; [|done]. pose proof (Hl _ _ Ep) as Hu. unfold there in E.
    apply orb_false_iff in E as [_ E]. assert (existsb (fun kv => under destination kv.1) (map_to_list (sh_links s0)) = true); [|congruence].
    apply existsb_exists. exists (p, t). split; [|done]. by apply list_elem_of_In, elem_of_map_to_list.
Qed.

Lemma staged_from destination o f s1 s : unchanged destination f (sh_files s1) -> sh_links s1 = ∅ ->
  mirrored destination (patched_paths o) s1 s -> staged destination o f s.
Proof.
  intros Hf He [F L]. split.
  - intros p Hp. by rewrite F, Hf.
  - intros p t [H|H]%L; [by rewrite He, lookup_empty in H|done].
Qed.

(** The patch itself, and everything checked after it *)
Lemma finish_triple destination o f config cli : overlay_checks f config = Ok o ->
  triple env [] (fun s k => staged destination o f s /\ started k = [])
    (apply_patch resolve o destination;;
     f ← files_now;
     st_pure (for_each (check_patched f o destination) (op_files o));;
     generated ← st_pure (overlay_config resolve config destination);
     write_file (destination +:+ "/arduino-cli.yaml") (json_pretty generated);;
     tool ← st_pure (some_or (head cli) (IndexError "list index out of range"));
     mret ([tool; "--config-file"; resolve (destination +:+ "/arduino-cli.yaml")],
       [("core_path", JStr (resolve (op_core o))); ("overlay_path", JStr (resolve (op_overlay o destination))); ("manifest", op_manifest o)]))
    (fun _ s k => told_unchanged destination f k /\ prepared destination f config s)
    (fun _ s k => told_unchanged destination f k).
Proof.
  intros Ho. set (linked := fun s : shell => forall p t, sh_links s !! p = Some t ->
    exists q, p = (destination +:+ "/" +:+ q)%string /\ clear q (patched_paths o)).
  apply triple_bind with (R := fun _ s k => told_unchanged destination f k /\ linked s).
  { unfold apply_patch. eapply triple_bind with (R := fun _ s k => told_unchanged destination f k /\ linked s).
    - apply process_triple; intros s k x [[Hf Hl] Hk] _; unfold told_unchanged, started in *; rewrite omap_app, Hk; cbn; auto.
    - intros p. apply triple_pure. intros s k H. destruct (raise_when _ _); [done|apply H]. }
  intros _. eapply triple_bind; [apply files_triple|]. intros g.
  apply triple_bind with (R := fun _ s k => (told_unchanged destination f k /\ linked s) /\
    for_each (check_patched (sh_files s) o destination) (op_files o) = Ok tt).
  { apply triple_pure. intros s k [H ->]. destruct (for_each _ _) as [[]|]; [done|apply H]. }
  intros _. apply triple_bind with (R := fun _ s k => (told_unchanged destination f k /\ linked s) /\
    for_each (check_patched (sh_files s) o destination) (op_files o) = Ok tt).
  { apply triple_pure. intros s k H. destruct (overlay_config _ _ _); [done|apply H]. }
  intros generated. apply triple_bind with (R := fun _ s k => told_unchanged destination f k /\ prepared destination f config s).
  - apply op_triple; [|intros e s k [[H _] _]; unfold told_unchanged; by rewrite started_op].
    intros s k [[Ht Hl] Hc]. unfold told_unchanged. rewrite started_op. split; [done|]. exists o. split; [done|]. split; [by eapply overlay_checks_Ok|].
    intros name hashes Hin. assert (Hn : name ∈ keys (op_files o)) by (apply (list_elem_of_fmap_2 fst _ _ Hin)).
    rewrite for_each_Ok, Forall_forall in Hc. apply Hc in Hin. apply bind_unit in Hin as [Hp%check_digest_Ok Hu%check_digest_Ok].
    constructor.
    + apply write_digest; [by apply config_apart|done].
    + intros p t H. apply (clear_path o destination s name p t); [|done|done]. split; [by intros ?|done].
    + intros Hout. apply write_digest; [|done]. intros E. rewrite E in Hout.
      pose proof (under_app destination "arduino-cli.yaml") as Hu'.
      change ("/" +:+ "arduino-cli.yaml")%string with "/arduino-cli.yaml"%string in Hu'. congruence.
  - intros _. eapply triple_bind with (R := fun _ s k => told_unchanged destination f k /\ prepared destination f config s).
    + apply triple_pure. intros s k H. destruct (some_or _ _); [done|apply H].
    + intros tool. by apply triple_ret.
Qed.

Lemma prepare_triple destination config cli s0 : (forall p t, sh_links s0 !! p = Some t -> under destination p = true) ->
  triple env [] (fun s k => s = s0 /\ k = []) (prepare resolve cli config destination)
    (fun _ s k => told_unchanged destination (sh_files s0) k /\ prepared destination (sh_files s0) config s)
    (fun _ s k => told_unchanged destination (sh_files s0) k).
Proof.
  intros Hl. assert (Hnone : forall k, started k = [] -> told_unchanged destination (sh_files s0) k).
  { intros k Hk. unfold told_unchanged. by rewrite Hk. }
  unfold prepare. eapply triple_bind; [apply files_triple|]. intros f. apply triple_from. intros s k [[-> ->] ->].
  apply triple_bind with (R := fun o s k => (s = s0 /\ k = []) /\ overlay_checks (sh_files s0) config = Ok o).
  { apply triple_pure. intros s k [-> ->]. destruct (overlay_checks _ _); [done|by apply Hnone]. }
  intros o. apply triple_from. intros s k [[-> ->] Ho].
  apply triple_bind with (R := fun _ s k => started k = [] /\ unchanged destination (sh_files s0) (sh_files s) /\ sh_links s = ∅).
  { eapply triple_weaken; [by apply clean_triple|done|done|]. intros e s k. apply Hnone. }
  intros _. apply triple_from. intros s1 k1 (Hk1 & Hf1 & Hl1).
  apply triple_bind with (R := fun _ s k => steady destination (patched_paths o) s1 s k).
  { eapply triple_weaken; [apply (stage_links_steady env resolve o destination s1)| |done|].
    - intros s k [-> ->]. split; [apply mirrored_refl|done].
    - intros e s k [_ Hk]. by apply Hnone. }
  intros _. apply triple_bind with (R := fun _ s k => steady destination (patched_paths o) s1 s k).
  { eapply triple_weaken; [apply (overlay_steady env resolve _ o destination s1)|done|done|]. intros e s k [_ Hk]. by apply Hnone. }
  intros _. eapply triple_weaken; [apply (finish_triple destination o (sh_files s0) config cli Ho)| |done|done].
  intros s k [Hm Hk]. split; [|done]. by apply (staged_from destination o _ s1).
Qed.

(** Each turn of the mirror has shorter names. *)
Lemma mirror_ends fuel source destination modified h : (forall h c e, env h c = Raise e -> e <> OutOfFuel) ->
  Forall (fun n => String.length n < fuel)%nat modified -> (0 < fuel)%nat -> st_ends env h (mirror resolve fuel source destination modified).
Proof.
  intros Henv. revert source destination modified h. induction fuel as [|fuel IH]; intros source destination modified h Hf Hpos; [lia|].
  cbn [mirror]. unfold make_new_dir, make_dirs, op, files_now. st_ends_tac; [by intros ? ?; apply Henv|].
  apply st_ends_fold. intros h' u name Hin.
  case_bool_decide; [unfold copy_file, files_now, op, read; st_ends_tac; intros ? ?; apply Henv|].
  destruct (existsb (under name) modified) eqn:E; [|unfold symlink, op; st_ends_tac; intros ? ?; apply Henv].
  assert (Hlen : forall r : string, (String.length r < String.length ((name +:+ "/") +:+ r)%string)%nat).
  { intros r. rewrite append_assoc, !length_append. simpl. lia. }
  rewrite Forall_forall in Hf. apply IH.
  - apply Forall_forall. intros r (m & Hm & ->%after_prefix_Some)%list_elem_of_omap. apply Hf in Hm. specialize (Hlen r). lia.
  - apply existsb_exists in E as (n & Hn%list_elem_of_In & [q ->]%under_inv). apply Hf in Hn.
    specialize (Hlen q). rewrite append_assoc in Hlen. lia.
Qed.

Lemma mirror_fuel_enough modified : Forall (fun n => String.length n < mirror_fuel modified)%nat modified.
Proof.
  unfold mirror_fuel. apply Forall_forall. induction modified as [|m l IH]; intros n; [by intros ?%elem_of_nil|].
  intros [->|Hn]%elem_of_cons; simpl; [lia|]. apply IH in Hn. lia.
Qed.

Lemma prepare_ends config cli destination h : (forall h c e, env h c = Raise e -> e <> OutOfFuel) ->
  (forall b, json_loads b <> Raise OutOfFuel) -> (forall b, utf8_decode b <> Raise OutOfFuel) ->
  st_ends env h (prepare resolve cli config destination).
Proof.
  intros Henv Hjson Hutf. assert (Hj : forall b, raises (fun e => e <> OutOfFuel) (json_loads b)) by (intros b e He ->; by apply (Hjson b)).
  assert (Hu : forall b, raises (fun e => e <> OutOfFuel) (utf8_decode b)) by (intros b e He ->; by apply (Hutf b)).
  unfold prepare. apply st_ends_bind; [unfold files_now; st_ends_tac|intros h1 f].
  apply st_ends_bind.
  { apply st_ends_pure. unfold overlay_checks, check_digest, digest, read, subscript, as_path, path_of, as_dict. raises_tac. }
  intros h2 o. apply st_ends_bind; [unfold clear_away, remove_dir, op; st_ends_tac; intros ? ?; apply Henv|intros h3 _].
  apply st_ends_bind.
  { unfold stage_links, link_entries, make_new_dir, make_dirs, symlink, op, files_now.
    st_ends_tac; try (apply st_ends_fold; intros; st_ends_tac); intros ? ?; apply Henv. }
  intros h4 _. apply st_ends_bind; [apply mirror_ends; [done|apply mirror_fuel_enough|unfold mirror_fuel; lia]|intros h5 _].
  apply st_ends_bind; [unfold apply_patch, run_process, files_now; st_ends_tac; intros ? ?; apply Henv|intros h6 _].
  apply st_ends_bind; [unfold files_now; st_ends_tac|intros h7 g].
  apply st_ends_bind; [apply st_ends_pure; unfold check_patched, check_digest, digest, read, subscript; raises_tac|intros h8 _].
  apply st_ends_bind; [apply st_ends_pure; unfold overlay_config, as_dict; raises_tac|intros h9 generated].
  unfold write_file, op. st_ends_tac. intros ? ?; apply Henv.
Qed.
(** A file outside the destination, which patch leaves alone, stays as it is at every point. *)
Section Outside.
Context (path : string) (Hleaves : leaves env path) (v : option bytes) (about : dict json -> Prop).

Lemma outside_below destination name : under destination path = false ->
  (destination +:+ "/" +:+ name)%string <> path /\ under (destination +:+ "/" +:+ name) path = false.
Proof.
  intros Hp. split; [intros <-; by rewrite under_app in Hp|]. destruct (under (_ +:+ _) path) eqn:E; [|done].
  apply under_inv in E as [q ->]. by rewrite !append_assoc, under_app in Hp.
Qed.

Lemma mirror_kept fuel source destination modified : under destination path = false ->
  keeps env [] (kept path v about) (mirror resolve fuel source destination modified).
Proof.
  revert source destination modified. induction fuel as [|fuel IH]; intros source destination modified Hp; cbn [mirror]; keeps_tac.
  - apply copy_kept. by apply outside_below.
  - apply IH. by apply outside_below.
Qed.

Lemma clear_away_kept destination : under destination path = false -> keeps env [] (kept path v about) (clear_away destination).
Proof. intros Hp. unfold clear_away. keeps_tac. by apply remove_dir_kept. Qed.

Lemma prepare_kept config cli destination : under destination path = false ->
  keeps env [] (kept path v about) (prepare resolve cli config destination).
Proof.
  intros Hp. unfold prepare. apply keeps_bind; [apply files_now_kept|intros f]. apply keeps_bind; [apply keeps_pure|intros o].
  apply keeps_bind; [by apply clear_away_kept|intros _]. apply keeps_bind; [unfold stage_links, link_entries; keeps_tac|intros _].
  apply keeps_bind; [apply mirror_kept|intros _].
  { unfold op_overlay, staged_data. rewrite !append_assoc. by apply outside_below. }
  unfold apply_patch. keeps_tac. apply write_kept. by apply outside_below.
Qed.
End Outside.

(** A directory that was cleared away has no file left. *)
Lemma clear_away_empty destination (P : shell -> list shell_call -> Prop) (E : exn -> shell -> list shell_call -> Prop) :
  (forall s k, P s k -> P (on_files (keep_outside destination) (on_links (keep_outside destination) s)) (k ++ [Op "rmtree" destination])) ->
  (forall e s k, P s k -> E e s (k ++ [Op "rmtree" destination])) ->
  triple env [] P (clear_away destination)
    (fun _ s k => P s k /\ forall p, under destination p = true -> sh_files s !! p = None) E.
Proof.
  intros HP HE. unfold clear_away. eapply triple_bind with (R := fun g s k => P s k /\ g = s); [by apply triple_get|].
  intros g. apply triple_from. intros s k [Hs ->]. destruct (there s destination) eqn:Et.
  - unfold remove_dir. apply op_triple; intros s1 k1; [|intros k2]; intros [-> ->]; [|by apply HE].
    split; [by apply HP|]. intros p Hp. cbn. by rewrite under_keep, Hp.
  - apply triple_ret. intros s1 k1 [-> ->]. split; [done|]. unfold there in Et. rewrite !orb_false_iff in Et.
    destruct Et as [[Et _] _]. apply exists_path_false in Et as [_ Et]. exact Et.
Qed.
End Overlay.

(** C13: The overlay isolates the patch. When every link there is at the start lies in the destination: the only
    process that is run, patch, finds everything outside the destination as it was before. When [prepare] succeeds,
    the sources of the patch and of the core have the pinned digests, the patch names exactly the files of the
    manifest, and each of these files is a real copy with the patched digest, on a path that meets no link, while the
    installed one still has its own digest. Whatever a core looks like, [prepare] ends: its recursion never runs out
    of fuel. *)
Theorem overlay_isolated `{codec : !Json} `{packing : !Packing} `{format : !ExportText} resolve env config cli destination s :
  (forall h c e, env h c = Raise e -> e <> OutOfFuel) -> (forall b, json_loads b <> Raise OutOfFuel) ->
  (forall b, utf8_decode b <> Raise OutOfFuel) ->
  (forall p t, sh_links s !! p = Some t -> under destination p = true) ->
  let '(s', r, n) := prepare resolve cli config destination env [] s in
  Forall (unchanged destination (sh_files s)) (started n) /\ r <> Raise OutOfFuel /\
  (is_ok r = true -> prepared destination (sh_files s) config s').
Proof.
  intros Henv Hj Hu Hl. pose proof (prepare_triple resolve env destination config cli s Hl s [] (conj eq_refl eq_refl)) as H.
  pose proof (prepare_ends resolve env config cli destination [] Henv Hj Hu) as He. unfold st_ends in He. cbn [app] in H.
  destruct (prepare resolve cli config destination env [] s) as [[s' [x|e]] n] eqn:E.
  - destruct H as [Ht Hp]. by split_and!.
  - split_and!; [done| |done]. intros [= ->]. by apply (He s s' OutOfFuel n).
Qed.

(** ** A core of three files, one of them patched *)
Module CoreDemo.
Definition core : string := "arduino/packages/rp2040/hardware/rp2040/6.0.0".
Definition patch_text : string :=
  "--- a/cores/usb.cpp" +:+ String (ascii_of_nat 10) ("+++ b/cores/usb.cpp" +:+ String (ascii_of_nat 10) "").
Definition manifest : dict json :=
  [("patch", JStr "usb.patch"); ("patch_sha256", JStr (sha (ascii patch_text))); ("core_version", JStr "6.0.0");
   ("files", JObj [("cores/usb.cpp", JObj [("upstream_sha256", JStr (sha (ascii "usb"))); ("patched_sha256", JStr (sha (ascii "new")))])])].
Definition config : json := JObj [("directories", JObj [("data", JStr "arduino")])].

Definition disk : files :=
  <[core +:+ "/cores/usb.cpp" := ascii "usb"]> (<[core +:+ "/cores/main.cpp" := ascii "main"]>
  (<[core +:+ "/boards.txt" := ascii "boards"]> (<["arduino/packages/rp2040/tools/gcc" := ascii "gcc"]>
  (<["arduino/staging/x" := ascii "x"]> (<[startup_package +:+ "/usb.patch" := ascii patch_text]>
  {[startup_package +:+ "/manifest.json" := ascii "manifest"]})))))%string.

#[local] Instance codec : Json := { json_loads b := Ok (JObj manifest); json_dumps _ := [] }.
#[local] Instance packing : Packing := { json_pretty _ := ascii "yaml"; zip_file _ := [] }.
#[local] Instance format : ExportText := { utf8_decode b := Ok (PyStr.text b); json_sorted _ := [] }.

(** A patch program that writes to the path it is told to *)
Definition env : environment shell_ret := fun h c =>
  match c with
  | Op _ _ => Ok tt
  | Process cwd _ before => Ok {| pr_code := 0; pr_output := ""; pr_files := <[cwd +:+ "/cores/usb.cpp" := ascii "new"]>%string before |}
  | Environ _ | Which _ => Ok None
  end.

Definition start : shell := {| sh_files := disk; sh_links := ∅; sh_report := [] |}.
Definition program : sh (list string * dict json) := prepare id ["arduino-cli"] config "overlay".

Example core_mirrored : let '(s, r, _) := program env [] start in
  is_ok r = true /\ sh_files s !! "overlay/data/packages/rp2040/hardware/rp2040/6.0.0/cores/usb.cpp" = Some (ascii "new") /\
  sh_files s !! (core +:+ "/cores/usb.cpp")%string = Some (ascii "usb") /\
  sh_links s !! "overlay/data/packages/rp2040/hardware/rp2040/6.0.0/cores/main.cpp" = Some (core +:+ "/cores/main.cpp")%string /\
  sh_links s !! "overlay/data/packages/rp2040/hardware/rp2040/6.0.0/boards.txt" = Some (core +:+ "/boards.txt")%string /\
  sh_links s !! "overlay/data/packages/rp2040/tools" = Some "arduino/packages/rp2040/tools" /\
  sh_links s !! "overlay/data/staging" = Some "arduino/staging" /\ map_size (sh_links s) = 4%nat.
Proof. vm_compute. by split_and!. Qed.
End CoreDemo.
#[local] Existing Instances CoreDemo.codec CoreDemo.packing CoreDemo.format.

Lemma overlay_isolated_witness : let '(s, r, n) := CoreDemo.program CoreDemo.env [] CoreDemo.start in
  Forall (unchanged "overlay" CoreDemo.disk) (started n) /\ prepared "overlay" CoreDemo.disk CoreDemo.config s.
Proof.
  pose proof (overlay_isolated id CoreDemo.env CoreDemo.config ["arduino-cli"] "overlay" CoreDemo.start) as H.
  assert (Hok : is_ok (CoreDemo.program CoreDemo.env [] CoreDemo.start).1.2 = true) by (vm_compute; reflexivity).
  unfold CoreDemo.program in *. destruct (prepare _ _ _ _ _ _ _) as [[s r] n]. destruct H as (H1 & _ & H2).
  - by intros h [] e.
  - by intros b.
  - by intros b.
  - by intros p t.
  - split; [exact H1|exact (H2 Hok)].
Defined.
