(* ===== verification/DevTools.v ===== *)
(** * The Arduino tools behind tools/dev.py: [tool], [run], [check_arduino], [effective_arduino_config], [doctor], [test]

    The commands run in the repository; what they print is text that may be JSON. *)

From stdpp Require Import base tactics list list_numbers strings gmap.
From Stdlib Require Import ZArith Lia Ascii.
From S2P Require Import Prelude.
From S2P Require Import PyBytes.
From S2P Require Import PyText.
From S2P Require Import PyStr.
From S2P Require Import PyDict.
From S2P Require Import PyJson.
From S2P Require Import Effects.
From S2P Require Import Stateful.
From S2P Require Import Release.
From S2P Require Import Dev.
From S2P Require Import ResidentSource.
From S2P Require Import ResidentExport.
From S2P Require Import Shell.

Local Open Scope Z_scope.

(** [for x in value] *)
Definition items_of (v : json) : result (list json) :=
  match v with
  | JArr l => mret l
  | JObj d => mret (JStr <$> keys d)
  | JStr s => mret ((fun c => JStr (String c "")) <$> String.list_ascii_of_string s)
  | _ => Raise (TypeError "object is not iterable")
  end.

(** [next((p.get("installed_version") for p in platforms if p["id"] == manifest["core"]), None)] *)
Fixpoint installed_version (manifest : dict json) (platforms : list json) : result json :=
  match platforms with
  | [] => mret JNull
  | p :: platforms =>
      id ← subscript p "id";
      core ← ditem manifest "core";
      if py_eq id core then d ← as_dict p; mret (jget d "installed_version") else installed_version manifest platforms
  end.

Section DevTools.
Context `{codec : !Json} (python : string).

Definition tool (name variable : string) : sh string :=
  configured ← st_ask (Environ variable);
  match configured with
  | Some (String c rest) => mret (String c rest)
  | _ =>
      f ← files_now;
      let local := parent python +:+ "/" +:+ name in
      mret (if is_file f local then local else name)
  end.

(** [run(command, capture=True)]; without [capture], nothing uses what was printed. *)
Definition run (command : list string) : sh string :=
  p ← run_process "" command;
  st_pure (raise_when (negb (pr_code p =? 0)) (RuntimeError "command exited; rerun command shown above"));;
  mret (pr_output p).

Definition run_json (command : list string) : sh json :=
  output ← run command;
  st_pure (json_loads (ascii output)).

Definition arduino_command : sh (list string) :=
  cli ← tool "arduino-cli" "ARDUINO_CLI";
  config ← st_ask (Environ "ARDUINO_CONFIG_FILE");
  mret match config with Some (String c rest) => [cli; "--config-file"; String c rest] | _ => [cli] end.

Definition check_arduino (manifest : dict json) : sh (list string) :=
  command ← arduino_command;
  version ← run_json (command ++ ["version"; "--json"]);
  observed ← st_pure (as_dict version);
  required ← st_pure (ditem manifest "arduino_cli_version");
  st_pure (raise_when (negb (py_eq (jget observed "VersionString") required)) (RuntimeError "Arduino CLI required; observed"));;
  cores ← run_json (command ++ ["core"; "list"; "--json"]);
  d ← st_pure (as_dict cores);
  platforms ← st_pure (items_of (jget_or d "platforms" (JArr [])));
  installed ← st_pure (installed_version manifest platforms);
  expected ← st_pure (ditem manifest "core_version");
  st_pure (raise_when (negb (py_eq installed expected)) (RuntimeError "need core; observed"));;
  mret command.

(** One directory that the configuration leaves open is asked for. *)
Definition open_directory (cli : list string) (directories : dict json) (key : string) : sh (dict json) :=
  if has_key directories key then mret directories
  else
    v ← run_json (cli ++ ["config"; "get"; "directories." +:+ key; "--json"]);
    mret (dset directories key v).

Definition effective_arduino_config (cli : list string) : sh json :=
  dump ← run_json (cli ++ ["config"; "dump"; "--json"]);
  value ← st_pure (subscript dump "config");
  config ← st_pure (as_dict value);
  directories ← st_pure (match jget_or config "directories" (JObj []) with
                         | JObj d => mret d | _ => Raise (TypeError "object does not support item assignment") end);
  directories ← st_fold (open_directory cli) directories ["data"; "user"];
  let directories := if py_eq (jget directories "downloads") (JStr "") then ddel directories "downloads" else directories in
  data ← st_pure (ditem directories "data");
  st_pure (raise_when (negb (truthy data)) (RuntimeError "Arduino CLI did not report its data directory"));;
  mret (JObj (dset config "directories" (JObj directories))).

(** ** [doctor] and [test] *)

(** One tool: 1 when it is missing or broken. An output without a line is not among the handled failures. *)
Definition doctor_tool (problems : Z) (command : list string) : sh Z :=
  st_try
    (output ← run command;
     st_pure (raise_when (bool_decide (split_lines output = [])) (IndexError "list index out of range"));;
     mret problems)
    (is_any [KOSError; KRuntimeError; KTimeoutExpired]) (fun _ => mret (problems + 1)).

Definition doctor_tools : sh (list (list string)) :=
  cmake ← tool "cmake" "CMAKE";
  ctest ← tool "ctest" "CTEST";
  cxx ← st_ask (Environ "CXX");
  mret [[cmake; "--version"]; [ctest; "--version"]; [default "c++" cxx; "--version"]; [python; "-m"; "pytest"; "--version"];
        ["patch"; "--version"]].

Definition doctor_build : sh unit :=
  manifests ← st_fold (fun l board => f ← files_now; m ← st_pure (load_manifest f board); mret (l ++ [m])) [] BOARDS;
  st_fold (fun _ m => f ← files_now; st_pure (check_baseline f m)) tt manifests;;
  first ← st_pure (some_or (head manifests) (IndexError "list index out of range"));
  _ ← check_arduino first;
  mret tt.

Definition doctor : sh Z :=
  tools ← doctor_tools;
  problems ← st_fold doctor_tool 0 tools;
  problems ← st_try (doctor_build;; mret problems) (is_any [KOSError; KValueError; KRuntimeError; KTimeoutExpired])
    (fun _ => mret (problems + 1));
  mret (if negb (problems =? 0) then 1 else 0).

Definition test (sanitize : bool) : sh Z :=
  let build := if sanitize then "build/native-sanitize" else "build/native" in
  cmake ← tool "cmake" "CMAKE";
  _ ← run [cmake; "-S"; "."; "-B"; build; "-DCMAKE_BUILD_TYPE=Debug"; "-DFIRMINGO_SANITIZE=" +:+ if sanitize then "ON" else "OFF"];
  _ ← run [cmake; "--build"; build; "--parallel"; "2"];
  ctest ← tool "ctest" "CTEST";
  _ ← run [ctest; "--test-dir"; build; "--output-on-failure"];
  _ ← run [python; "-m"; "pytest"; "tests/host"; "-q"];
  mret 0.
End DevTools.

(** ** None of these tools writes a file itself *)
Section Kept.
Context `{codec : !Json} (python : string) (env : environment shell_ret) (path : string) (Hleaves : leaves env path)
  (v : option bytes) (about : dict json -> Prop).

Abbreviation keeps_file m := (keeps env [] (kept path v about) m).

Lemma run_kept command : keeps_file (run command).
Proof. unfold run. keeps_tac. Qed.

Lemma run_json_kept command : keeps_file (run_json command).
Proof. unfold run_json. apply keeps_bind; [apply run_kept|]. intros output. apply keeps_pure. Qed.

Lemma tool_kept name variable : keeps_file (tool python name variable).
Proof. unfold tool. by keeps_tac. Qed.

Lemma check_arduino_kept manifest : keeps_file (check_arduino python manifest).
Proof.
  unfold check_arduino, arduino_command. keeps_tac; try apply tool_kept; try apply run_json_kept; done.
Qed.

Lemma effective_arduino_config_kept cli : keeps_file (effective_arduino_config cli).
Proof.
  unfold effective_arduino_config, open_directory. keeps_tac; by apply run_json_kept.
Qed.
End Kept.
#[export] Hint Resolve run_kept run_json_kept tool_kept check_arduino_kept effective_arduino_config_kept : keeps.

(** A command that succeeded: its files are what the process left, and only the files have changed. *)
Lemma ran_triple (env : environment shell_ret) (P : shell -> list shell_call -> Prop) command (Q : string -> shell -> list shell_call -> Prop)
    (E : exn -> shell -> list shell_call -> Prop) :
  (forall s k p, P s k -> env k (Process "" command (sh_files s)) = Ok p -> pr_code p = 0 ->
     Q (pr_output p) (on_files (fun _ => pr_files p) s) (k ++ [Process "" command (sh_files s)])) ->
  (forall s k p e, P s k -> env k (Process "" command (sh_files s)) = Ok p ->
     E e (on_files (fun _ => pr_files p) s) (k ++ [Process "" command (sh_files s)])) ->
  (forall s k e, P s k -> env k (Process "" command (sh_files s)) = Raise e -> E e s (k ++ [Process "" command (sh_files s)])) ->
  triple env [] P (run command) Q E.
Proof.
  intros HQ HE HR. unfold run. apply triple_bind with (R := fun p s' k' => exists s k, P s k /\ env k (Process "" command (sh_files s)) = Ok p /\
    s' = on_files (fun _ => pr_files p) s /\ k' = k ++ [Process "" command (sh_files s)]).
  - apply process_triple; [|exact HR]. intros s k p Hs Hp. exists s, k. done.
  - intros p. destruct (pr_code p =? 0) eqn:Hc; cbn [negb raise_when].
    + apply triple_bind with (R := fun _ s' k' => exists s k, P s k /\ env k (Process "" command (sh_files s)) = Ok p /\
        s' = on_files (fun _ => pr_files p) s /\ k' = k ++ [Process "" command (sh_files s)]); [by apply triple_pure|].
      intros _. apply triple_ret. intros s' k' (s & k & Hs & Hp & -> & ->). apply HQ; [done|done|lia].
    + eapply triple_bind with (R := fun _ _ _ => False); [|intros _ s k []]. apply triple_pure.
      intros s' k' (s & k & Hs & Hp & -> & ->). by eapply HE.
Qed.
