(* ===== verification/ManagedProfile.v ===== *)
(** * The managed profile: tools/managed_profile.py

    [verify_outputs] checks a recorded resident build against its artifacts, its sources and the manifest;
    [build_managed] prepares the overlay, runs the build and verifies it, and keeps a receipt that says "failed"
    from before the first step to the end of the last one. *)

From stdpp Require Import base tactics list list_numbers strings gmap.
From Stdlib Require Import ZArith Lia Ascii.
From S2P Require Import Prelude.
From S2P Require Import PyBytes.
From S2P Require Import Sha256.
From S2P Require Import PyText.
From S2P Require Import PyStr.
From S2P Require Import PyDict.
From S2P Require Import PyJson.
From S2P Require Import Ipv4.
From S2P Require Import ExportResident.
From S2P Require Import Effects.
From S2P Require Import Stateful.
From S2P Require Import Release.
From S2P Require Import Dev.
From S2P Require Import ResidentSource.
From S2P Require Import ResidentExport.
From S2P Require Import StatefulLayout.
From S2P Require Import Shell.
From S2P Require Import UsbCore.
From S2P Require Import DevTools.

Local Open Scope Z_scope.

(** ** The outputs of a build *)

(** The operating system, while nobody else changes files *)
Definition quiet (s : shell) : Machine := {|
  is_symlink := fun path => bool_decide (is_Some (sh_links s !! path));
  os_open := fun path => match sh_files s !! path with
    | Some data => Ok {| fd_regular := true; fd_size := blen data; fd_read := fun n => take (Z.to_nat n) data; fd_size_after := blen data |}
    | None => Raise (OSError "No such file or directory")
    end |}.

Definition capture (s : shell) (path : string) (maximum : Z) : result bytes := @bounded_file (quiet s) path maximum.

(** [path.suffix]: from the last dot of the name on, unless it is the first or the last character *)
Fixpoint last_dot (i : nat) (found : option nat) (name : string) : option nat :=
  match name with
  | EmptyString => found
  | String c name => last_dot (S i) (if between 46 46 c then Some i else found) name
  end.
Definition path_suffix (path : string) : string :=
  let name := path_name path in
  match last_dot 0 None name with
  | Some i => if (0 <? i)%nat && (S i <? String.length name)%nat then String.substring i (String.length name - i) name else ""
  | None => ""
  end.

Example path_suffixes : path_suffix "src/a.b.cpp" = ".cpp" /\ path_suffix "src/.h" = "" /\ path_suffix "src/x." = "" /\ path_suffix "a.d/x" = "".
Proof. done. Qed.

(** [f"0x{n:08x}"] of a 32-bit address *)
Definition hex32 (n : Z) : string := "0x" +:+ hex (be_bytes 4 n).

Section Verify.
Context `{pairs : !JsonPairs}.

(** The five comparisons with the selected profile, in order *)
Definition profile_mismatch (report manifest : dict json) : result bool :=
  if differs report "status" (JStr resident_status) then mret true
  else
    board ← ditem manifest "board";
    if differs report "board" board || differs report "core" (JStr "rp2040:rp2040@6.0.0") then mret true
    else
      fqbn ← ditem manifest "fqbn";
      mret (differs report "fqbn" fqbn || differs report "upload_target" managed_upload_target).

(** [type(used) is not int or not 0 < used <= manifest[budget] or report.get(budget) != manifest[budget]] *)
Definition budget_mismatch (report manifest : dict json) (field budget : string) : result bool :=
  let used := jget report field in
  if negb (type_is_int used) || (int_of used <=? 0) then mret true
  else
    limit ← ditem manifest budget;
    within ← py_order false used limit;
    mret (negb within || differs report budget limit).

Definition required_outputs (f : files) : list string :=
  ["boards/nano_rp2040_connect/baseline.json"; "src/core/version.h"; "experiments/managed_sketch/abi.h";
   "experiments/managed_sketch/build_resident.py";
   "experiments/managed_sketch/firmingo_managed_resident/firmingo_managed_resident.ino"]
  ++ List.filter (fun path => bool_decide (path_suffix path ∈ LIBRARY_SUFFIXES)) (walk f "src").

(** One source of the report: a path that stays in the repository, with the recorded digest *)
Definition verify_source (s : shell) (source : string * json) : result unit :=
  let '(name, expected) := source in
  raise_when (String.prefix "/" name
      || existsb (fun part => bool_decide (part = "") || bool_decide (part = ".") || bool_decide (part = "..")) (split_on "/"%char name))
    (ValueError "unsafe managed resident source path");;
  data ← capture s name (2 * 1024 * 1024);
  raise_when (negb (py_eq (JStr (sha data)) expected)) (ValueError "managed resident source changed during build: ").

Definition verify_artifact (s : shell) (resident : string) (report : dict json) (extension : string) (limit : Z) : result bytes :=
  data ← capture s (resident +:+ "/artifacts/" +:+ MANAGED_INO +:+ "." +:+ extension) limit;
  raise_when (negb (py_eq (JStr (sha data)) (jget report (extension +:+ "_sha256"))))
    (ValueError "managed resident artifact hash mismatch: ");;
  mret data.

Definition verify_outputs (s : shell) (resident : string) (manifest : dict json) : result (dict json) :=
  report_bytes ← capture s (resident +:+ "/report.json") (256 * 1024);
  value ← json_loads_unique report_bytes;
  let wrong := ValueError "managed resident report does not match the selected experimental profile" in
  report ← match value with JObj d => mret d | _ => Raise wrong end;
  mismatch ← profile_mismatch report manifest;
  raise_when mismatch wrong;;
  for_each (fun '(field, budget) =>
      over ← budget_mismatch report manifest field budget;
      raise_when over (ValueError "managed resident memory budget mismatch"))
    [("flash_bytes", "flash_budget_bytes"); ("static_ram_bytes", "static_ram_budget_bytes")];;
  sources ← match jget report "source_sha256" with
            | JObj d => raise_when (existsb (fun name => negb (has_key d name)) (required_outputs (sh_files s)) || (256 <? blen d))
                          (ValueError "managed resident source inventory is incomplete");; mret d
            | _ => Raise (ValueError "managed resident source inventory is incomplete")
            end;
  for_each (verify_source s) sources;;
  elf ← verify_artifact s resident report "elf" ELF_LIMIT;
  uf2 ← verify_artifact s resident report "uf2" UF2_LIMIT;
  ' (api, flash) ← resident_elf elf;
  compared ← check_uf2 uf2 flash;
  mret [("resident_report_sha256", JStr (sha report_bytes)); ("resident_elf_sha256", JStr (sha elf));
        ("resident_uf2_sha256", JStr (sha uf2)); ("api_address", JStr (hex32 (apiAddress api)));
        ("resident_abi", JInt (residentABI api)); ("elf_uf2_compared_bytes", JInt compared);
        ("flash_bytes", jget report "flash_bytes"); ("static_ram_bytes", jget report "static_ram_bytes")].
End Verify.

(** ** The build *)
Record build_args := { ba_board : string; ba_firmware : string; ba_subnet_octet : Z; ba_verbose : bool }.

Definition PROFILE_INPUTS : list string :=
  ["tools/dev.py"; "tools/managed_profile.py"; "tools/usb_core.py"; "boards/nano_rp2040_connect/baseline.json";
   "boards/nano_rp2040_connect/core-lock.json"; "patches/arduino-pico-6.0.0-usb-startup/manifest.json"].

Definition first_profile (board : string) : dict json :=
  [("schema", JInt 1); ("firmware", JStr "managed"); ("board", JStr board); ("status", JStr "failed");
   ("qualification", JStr "experimental"); ("production_ready", JBool false); ("hardware_tested", JBool false);
   ("resident_report", JStr "resident/report.json")].

Definition managed_output (board : string) : string := "build/firmware/" +:+ board +:+ "/managed".

Section Build.
Context `{codec : !Json} `{packing : !Packing} `{format : !ExportText} `{pairs : !JsonPairs} (resolve : string -> string) (python : string).

(** [receipt.write_text(json.dumps(profile, indent=2) + "\n")] *)
Definition save_report (path : string) : sh unit :=
  s ← st_get;
  write_file path (json_pretty (sh_report s)).

(** [profile.update(facts)] *)
Definition note_all (facts : dict json) : sh unit := st_modify (on_report (fun d => foldl (fun d kv => dset d kv.1 kv.2) d facts)).

Definition input_digests : sh (dict json) :=
  f ← files_now;
  st_pure (mapM (fun name => h ← digest f name; mret (name, JStr h)) PROFILE_INPUTS).

Definition same_inputs (f : files) (inputs : dict json) : result unit :=
  for_each (fun '(name, expected) =>
    actual ← digest f name;
    raise_when (negb (py_eq (JStr actual) expected)) (ValueError "managed profile input changed during build: ")) inputs.

(** The overlay, the cleared artifacts and the command of the resident build, with the digests of the inputs *)
Definition managed_command (output : string) (manifest : dict json) : sh (dict json * list string) :=
  let resident := output +:+ "/resident" in
  inputs ← input_digests;
  note "source_sha256" (JObj inputs);;
  cli ← check_arduino python manifest;
  config ← effective_arduino_config cli;
  ' (cli, overlay) ← prepare resolve cli config (output +:+ "/usb-toolchain");
  note "usb_startup_overlay" (JObj overlay);;
  clear_away (resident +:+ "/artifacts");;
  first ← st_pure (some_or (head cli) (IndexError "list index out of range"));
  found ← st_ask (Which first);
  executable ← st_pure (some_or found (RuntimeError "selected Arduino CLI executable is no longer available"));
  config_file ← st_pure (some_or (cli !! 2%nat) (IndexError "list index out of range"));
  mret (inputs, [python; "experiments/managed_sketch/build_resident.py"; "--cli"; executable; "--config-file"; config_file;
                 "--output-dir"; resident]).

(** The resident build, and what it left *)
Definition managed_result (output : string) (manifest inputs : dict json) (command : list string) : sh unit :=
  let resident := output +:+ "/resident" in
  _ ← run command;
  s ← st_get;
  facts ← st_pure (verify_outputs s resident manifest);
  note_all facts;;
  f ← files_now;
  st_pure (same_inputs f inputs);;
  note "status" (JStr "compile-tested").

Definition managed_body (output : string) (manifest : dict json) : sh unit :=
  ' (inputs, command) ← managed_command output manifest;
  managed_result output manifest inputs command.

Definition build_managed (a : build_args) (manifest : dict json) : sh Z :=
  st_pure (raise_when (negb (bool_decide (ba_board a = "nano_rp2040_connect")))
    (ValueError "managed firmware is available only for nano_rp2040_connect"));;
  st_pure (raise_when (negb (ba_subnet_octet a =? 77) || ba_verbose a)
    (ValueError "managed currently fixes subnet 77 and uses resident/build.log; omit subnet/verbose overrides"));;
  let output := managed_output (ba_board a) in
  make_dirs output;;
  st_modify (on_report (fun _ => first_profile (ba_board a)));;
  let receipt := output +:+ "/profile-report.json" in
  save_report receipt;;
  let resident := output +:+ "/resident" in
  s ← st_get;
  (if there s (resident +:+ "/report.json") then unlink (resident +:+ "/report.json") else mret tt);;
  st_finally
    (st_try (managed_body output manifest) is_exception (fun e => note "error" (JStr (emsg e));; st_raise e))
    (save_report receipt);;
  mret 0.
End Build.

(** ** What verified outputs are *)
Section Sound.
Context `{pairs : !JsonPairs} (s : shell).

(** A whole file within its bound, with no link on its path *)
Definition stands (path : string) (maximum : Z) (data : bytes) : Prop :=
  sh_files s !! path = Some data /\ 0 < blen data <= maximum /\
  Forall (fun p => sh_links s !! p = None) (path :: parents path).

Lemma unlinked p : @is_symlink (quiet s) p = false -> sh_links s !! p = None.
Proof. intros H%bool_decide_eq_false. by apply eq_None_not_Some. Qed.

Lemma capture_Ok path maximum data : capture s path maximum = Ok data -> stands path maximum data.
Proof.
  intros H%(@bounded_file_iff (quiet s)). destruct H as [[Hl Hp] Hs (d & Hd & _ & Hz & _ & Hr)]. cbn in Hd.
  destruct (sh_files s !! path) as [x|] eqn:E; [|done]. injection Hd as <-. cbn in Hz, Hr. split_and!; [|lia|lia|].
  - rewrite E. f_equal. subst data. unfold blen in Hz, Hs. rewrite length_take in Hz. rewrite firstn_all2; [done|lia].
  - constructor; [by apply unlinked|]. eapply Forall_impl; [exact Hp|]. intros p. apply unlinked.
Qed.

(** A positive memory use within the budget of the manifest, which the report repeats *)
Definition within_budget (report manifest : dict json) (field budget : string) : Prop :=
  exists z limit, dget report field = Some (JInt z) /\ 0 < z /\ dget manifest budget = Some limit /\
    py_order false (JInt z) limit = Ok true /\ py_eq (jget report budget) limit = true.

Lemma budget_mismatch_Ok report manifest field budget : budget_mismatch report manifest field budget = Ok false ->
  within_budget report manifest field budget.
Proof.
  unfold budget_mismatch. destruct (jget report field) as [| |z| | | |] eqn:E; try done. cbn [type_is_int negb int_of orb].
  destruct (z <=? 0) eqn:Hz; [done|]. intros (limit & Hl%some_or_Ok & H)%bind_Ok. apply bind_Ok in H as (within & Hw & [= H]%mret_Ok).
  apply orb_false_iff in H as [Hin%negb_false_iff Hd%negb_false_iff]. subst within. exists z, limit. apply jget_dget in E; [|done].
  split_and!; done || lia.
Qed.

(** A source of the report is a file of the repository, as the build saw it. *)
Definition source_stands (source : string * json) : Prop :=
  String.prefix "/" source.1 = false /\
  Forall (fun part => part <> "" /\ part <> "." /\ part <> "..") (split_on "/"%char source.1) /\
  exists data, stands source.1 (2 * 1024 * 1024) data /\ source.2 = JStr (sha data).

Lemma verify_source_Ok source : verify_source s source = Ok tt -> source_stands source.
Proof.
  destruct source as [name expected]. unfold verify_source. intros [[Hp He]%orb_false_iff H]%raise_when_bind.
  apply bind_Ok in H as (data & Hd%capture_Ok & Hs%raise_when_Ok%negb_false_iff). split_and!; [done| |].
  - apply Forall_forall. intros part Hin%list_elem_of_In.
    assert (Hf : bool_decide (part = "") || bool_decide (part = ".") || bool_decide (part = "..") = false).
    { apply not_true_iff_false. intros Ht. apply not_true_iff_false in He. apply He, existsb_exists. eauto. }
    rewrite !orb_false_iff in Hf. destruct Hf as [[H1%bool_decide_eq_false H2%bool_decide_eq_false] H3%bool_decide_eq_false]. done.
  - exists data. split; [done|]. destruct expected; try done. cbn in Hs. apply bool_decide_eq_true in Hs. cbn. by rewrite Hs.
Qed.

(** Everything a build is checked for, and the facts of it *)
Record outputs (resident : string) (manifest facts : dict json) : Prop := {
  ou_bound : exists report_bytes report sources elf uf2 api flash,
    stands (resident +:+ "/report.json") (256 * 1024) report_bytes /\ json_loads_unique report_bytes = Ok (JObj report) /\
    dget report "status" = Some (JStr resident_status) /\
    within_budget report manifest "flash_bytes" "flash_budget_bytes" /\
    within_budget report manifest "static_ram_bytes" "static_ram_budget_bytes" /\
    dget report "source_sha256" = Some (JObj sources) /\
    (forall name, name ∈ required_outputs (sh_files s) -> is_Some (dget sources name)) /\ Forall source_stands sources /\
    stands (resident +:+ "/artifacts/" +:+ MANAGED_INO +:+ ".elf") ELF_LIMIT elf /\ dget report "elf_sha256" = Some (JStr (sha elf)) /\
    stands (resident +:+ "/artifacts/" +:+ MANAGED_INO +:+ ".uf2") UF2_LIMIT uf2 /\ dget report "uf2_sha256" = Some (JStr (sha uf2)) /\
    resident_elf elf = Ok (api, flash) /\ check_uf2 uf2 flash = Ok (load_bytes flash) /\
    facts = [("resident_report_sha256", JStr (sha report_bytes)); ("resident_elf_sha256", JStr (sha elf));
      ("resident_uf2_sha256", JStr (sha uf2)); ("api_address", JStr (hex32 (apiAddress api))); ("resident_abi", JInt (residentABI api));
      ("elf_uf2_compared_bytes", JInt (load_bytes flash)); ("flash_bytes", jget report "flash_bytes");
      ("static_ram_bytes", jget report "static_ram_bytes")] }.

Lemma verify_artifact_Ok resident report extension limit data : verify_artifact s resident report extension limit = Ok data ->
  stands (resident +:+ "/artifacts/" +:+ MANAGED_INO +:+ "." +:+ extension) limit data /\
  dget report (extension +:+ "_sha256")%string = Some (JStr (sha data)).
Proof.
  unfold verify_artifact. intros (x & Hx%capture_Ok & H)%bind_Ok. apply raise_when_bind in H as [Hs%negb_false_iff%str_eq_jget [= <-]%mret_Ok].
  by split.
Qed.

Lemma profile_mismatch_Ok report manifest : profile_mismatch report manifest = Ok false -> dget report "status" = Some (JStr resident_status).
Proof.
  unfold profile_mismatch, differs. destruct (negb (py_eq (jget report "status") _)) eqn:E; [done|].
  intros _. apply negb_false_iff, py_eq_str in E. by apply jget_dget in E.
Qed.

Lemma verify_outputs_Ok resident manifest facts : verify_outputs s resident manifest = Ok facts -> outputs resident manifest facts.
Proof.
  unfold verify_outputs. intros (rb & Hrb%capture_Ok & H)%bind_Ok. apply bind_Ok in H as (v & Hv & H).
  apply bind_Ok in H as (report & Hr & H). destruct v as [| | | | | |d]; try done. injection Hr as ->.
  apply bind_Ok in H as (mismatch & Hm & H). apply raise_when_bind in H as [-> H]. apply profile_mismatch_Ok in Hm.
  apply bind_unit in H as [Hb H]. rewrite for_each_Ok, !Forall_cons in Hb. destruct Hb as (Hb1 & Hb2 & _).
  apply bind_Ok in Hb1 as (o1 & Hb1 & Ho1%raise_when_Ok), Hb2 as (o2 & Hb2 & Ho2%raise_when_Ok). subst o1 o2.
  apply bind_Ok in H as (sources & Hs & H). destruct (jget report "source_sha256") as [| | | | | |d] eqn:Es; try done.
  apply raise_when_bind in Hs as [[Hreq _]%orb_false_iff [= ->]%mret_Ok]. apply jget_dget in Es; [|done].
  apply bind_unit in H as [Hall H]. apply bind_Ok in H as (elf & [He Hesha]%verify_artifact_Ok & H).
  apply bind_Ok in H as (uf2 & [Hu Husha]%verify_artifact_Ok & H). apply bind_Ok in H as ([api flash] & Ha & H).
  apply bind_Ok in H as (compared & Hx & [= <-]%mret_Ok). assert (compared = load_bytes flash) as -> by by apply check_uf2_iff in Hx as [-> _].
  constructor. exists rb, report, sources, elf, uf2, api, flash.
  apply budget_mismatch_Ok in Hb1, Hb2. split_and!; try assumption || reflexivity; [by apply missing_false|].
  rewrite for_each_Ok in Hall. eapply Forall_impl; [exact Hall|]. intros x. apply verify_source_Ok.
Qed.
End Sound.

(** ** The receipt *)
Section Receipt.
Context `{codec : !Json} `{packing : !Packing} `{format : !ExportText} `{pairs : !JsonPairs} (resolve : string -> string) (python : string)
  (env : environment shell_ret) (manifest : dict json).

Definition nano_output : string := managed_output "nano_rp2040_connect".
Definition nano_receipt : string := nano_output +:+ "/profile-report.json".
Definition nano_resident : string := nano_output +:+ "/resident".
Definition failed_receipt : bytes := json_pretty (first_profile "nano_rp2040_connect").

Context (Hleaves : leaves env nano_receipt).

(** The profile of a build that has not succeeded *)
Definition not_yet (d : dict json) : Prop := jget d "status" = JStr "failed".
Abbreviation pending := (kept nano_receipt (Some failed_receipt) not_yet).

Lemma not_yet_other d key x : key <> "status" -> not_yet d -> not_yet (dset d key x).
Proof. intros Hk Hd. unfold not_yet, jget in *. rewrite dget_dset. by case_decide. Qed.

(** The inputs as digests of a store *)
Definition recorded (f : files) (inputs : dict json) : Prop :=
  inputs = (fun name => (name, JStr (sha (default [] (f !! name))))) <$> PROFILE_INPUTS /\ Forall (fun name => is_Some (f !! name)) PROFILE_INPUTS.

Lemma mapM_digests f l inputs : mapM (fun name => h ← digest f name; mret (name, JStr h)) l = Ok inputs ->
  inputs = (fun name => (name, JStr (sha (default [] (f !! name))))) <$> l /\ Forall (fun name => is_Some (f !! name)) l.
Proof.
  intros H%mapM_Ok. induction H as [|name x l k Hx _ [-> IH]]; [done|]. apply bind_Ok in Hx as (h & Hd & <-%mret_Ok).
  apply digest_Ok in Hd as (data & Hd & ->). rewrite fmap_cons, Hd. split; [done|]. constructor; [eauto|done].
Qed.

(** The same inputs before and after the build *)
Definition inputs_kept (f g : files) : Prop :=
  Forall (fun name => exists before after, f !! name = Some before /\ g !! name = Some after /\ sha before = sha after) PROFILE_INPUTS.

Lemma same_inputs_kept f g inputs : recorded f inputs -> same_inputs g inputs = Ok tt -> inputs_kept f g.
Proof.
  intros [-> Hf] H. unfold same_inputs in H. rewrite for_each_Ok in H. unfold inputs_kept. rewrite Forall_forall in Hf. rewrite Forall_forall in H.
  apply Forall_forall. intros name Hin. destruct (Hf name Hin) as [before Hb]. specialize (H _ (list_elem_of_fmap_2 _ _ _ Hin)). cbn beta iota in H.
  apply bind_Ok in H as (h & (after & Ha & ->)%digest_Ok & H%raise_when_Ok%negb_false_iff). rewrite Hb in H. cbn in H.
  apply bool_decide_eq_true in H. by exists before, after.
Qed.

(** Right before the resident build *)
Definition ready (f : files) (inputs : dict json) (s : shell) (k : list shell_call) : Prop :=
  pending s k /\ recorded f inputs /\ forall p, under (nano_resident +:+ "/artifacts") p = true -> sh_files s !! p = None.

Lemma command_triple f : triple env [] (fun s k => pending s k /\ sh_files s = f)
  (managed_command resolve python nano_output manifest) (fun x => ready f x.1) (fun _ => pending).
Proof.
  unfold managed_command. eapply triple_bind with (R := fun inputs s k => pending s k /\ recorded f inputs).
  { unfold input_digests. eapply triple_bind with (R := fun g s k => pending s k /\ g = f).
    - eapply triple_weaken; [apply (files_triple env (fun s k => pending s k /\ sh_files s = f) (fun _ => pending))|done| |done].
      intros g s k [[Hs <-] ->]. by split.
    - intros g. apply triple_pure. intros s k [Hs ->]. destruct (mapM _ _) eqn:E; [|done]. split; [done|]. by apply mapM_digests. }
  intros inputs. apply triple_from. intros s0 k0 [Hs Hi].
  eapply triple_weaken with (P' := pending) (E' := fun _ => pending) (Q' := fun x s k => pending s k /\ x.1 = inputs /\
    forall p, under (nano_resident +:+ "/artifacts") p = true -> sh_files s !! p = None);
    [|by intros s k [-> ->]|intros x s k (H & Ex & Hc); unfold ready; rewrite Ex; by split_and!|done].
  eapply triple_bind; [apply note_kept; intros d; by apply not_yet_other|intros ?].
  eapply triple_bind; [by apply check_arduino_kept|intros cli].
  eapply triple_bind; [by apply effective_arduino_config_kept|intros config].
  eapply triple_bind; [by apply prepare_kept|intros [cli' overlay]].
  eapply triple_bind; [apply note_kept; intros d; by apply not_yet_other|intros ?].
  eapply triple_bind; [apply (clear_away_empty env _ pending (fun _ => pending))|intros ?].
  { intros s k [Hf Hr]. split; [|done]. cbn. by rewrite under_keep. }
  { done. }
  eapply triple_bind; [apply triple_pure; intros s k H; destruct (some_or _ _); [exact H|apply H]|intros first].
  eapply triple_bind with (R := fun _ s k => pending s k /\ forall p, under (nano_resident +:+ "/artifacts") p = true -> sh_files s !! p = None);
    [refine (triple_ask env [] _ (Which first) _ _ _); intros s k H; destruct (env _ _); [exact H|apply H]|intros found].
  do 2 (eapply triple_bind; [apply triple_pure; intros s k H; destruct (some_or _ _); [exact H|apply H]|intros ?]).
  apply triple_ret. intros s k [H Hc]. by split_and!.
Qed.

(** [d.update(facts)] *)
Lemma dget_updated (d facts : dict json) key : NoDup (keys facts) ->
  dget (foldl (fun d kv => dset d kv.1 kv.2) d facts) key = match dget facts key with Some x => Some x | None => dget d key end.
Proof.
  revert d. induction facts as [|[k x] facts IH]; intros d; cbn [foldl]; [done|]. intros [Hn Hd]%NoDup_cons.
  apply dget_None in Hn. cbn [fst] in Hn. rewrite (IH _ Hd), dget_dset. cbn [dget fst snd]. case_decide as Hk; [|done].
  subst key. by rewrite Hn.
Qed.

Lemma facts_keys v facts : outputs v nano_resident manifest facts -> NoDup (keys facts) /\ dget facts "status" = None.
Proof.
  intros [(? & ? & ? & ? & ? & ? & ? & _ & _ & _ & _ & _ & _ & _ & _ & _ & _ & _ & _ & _ & _ & ->)].
  split; [|done]. apply (bool_decide_unpack _). reflexivity.
Qed.

(** A build that was verified: it left the files that are there now, it started without artifacts, and its inputs
    are those of the first state. *)
Record managed_build (f : files) (s : shell) (k : list shell_call) : Prop := {
  mb_status : jget (sh_report s) "status" = JStr "compile-tested";
  mb_facts : exists facts, outputs s nano_resident manifest facts /\
    forall key x, dget facts key = Some x -> dget (sh_report s) key = Some x;
  mb_inputs : inputs_kept f (sh_files s);
  mb_fresh : exists h command before p, Process "" command before ∈ k /\ env h (Process "" command before) = Ok p /\
    pr_code p = 0 /\ pr_files p = sh_files s /\
    forall path, under (nano_resident +:+ "/artifacts") path = true -> before !! path = None }.

Lemma result_triple f inputs command : triple env [] (ready f inputs) (managed_result nano_output manifest inputs command)
  (fun _ s k => sh_files s !! nano_receipt = Some failed_receipt /\ managed_build f s k) (fun _ => pending).
Proof.
  unfold managed_result.
  set (fresh := fun (s : shell) (k : list shell_call) => exists h command before p, Process "" command before ∈ k /\
    env h (Process "" command before) = Ok p /\ pr_code p = 0 /\ pr_files p = sh_files s /\
    forall path, under (nano_resident +:+ "/artifacts") path = true -> before !! path = None).
  assert (Hrun : forall s k p, ready f inputs s k -> env k (Process "" command (sh_files s)) = Ok p ->
    pending (on_files (fun _ => pr_files p) s) (k ++ [Process "" command (sh_files s)])).
  { intros s k p ([Hf Hr] & _) Hp%Hleaves. split; [|done]. by rewrite <- Hf. }
  eapply triple_bind with (R := fun _ s k => pending s k /\ recorded f inputs /\ fresh s k).
  { apply ran_triple.
    - intros s k p Hs Hp Hc. split_and!; [by apply Hrun|apply Hs|].
      exists k, command, (sh_files s), p. split_and!; try done; [set_solver|apply Hs].
    - intros s k p _ Hs Hp. by apply Hrun.
    - intros s k e Hs _. apply Hs. }
  intros _. eapply triple_bind with (R := fun g s k => (pending s k /\ recorded f inputs /\ fresh s k) /\ g = s);
    [by apply triple_get|]. intros g. apply triple_from. intros s k [(Hs & Hi & Hfr) ->].
  eapply triple_bind with (R := fun facts s' k' => s' = s /\ k' = k /\ outputs s nano_resident manifest facts).
  { apply triple_pure. intros s' k' [-> ->]. destruct (verify_outputs _ _ _) eqn:E; [|done]. by apply verify_outputs_Ok in E. }
  intros facts. apply triple_from. intros s' k' (-> & -> & Ho). destruct (facts_keys s facts Ho) as [Hnd Hst].
  set (d := foldl (fun d kv => dset d kv.1 kv.2) (sh_report s) facts).
  eapply triple_bind with (R := fun _ s' k' => s' = on_report (fun _ => d) s /\ k' = k).
  { apply triple_modify. by intros s' k' [-> ->]. }
  intros _. eapply triple_bind with (R := fun g s' k' => (s' = on_report (fun _ => d) s /\ k' = k) /\ g = sh_files s).
  { eapply triple_weaken; [apply (files_triple env (fun s' k' => s' = on_report (fun _ => d) s /\ k' = k) (fun _ _ _ => False))|done| |done].
    by intros g s' k' [[-> ->] ->]. }
  assert (Hd : not_yet d). { unfold not_yet, jget, d. rewrite dget_updated, Hst by done. apply Hs. }
  intros g. apply triple_from. intros s' k' [[-> ->] ->].
  eapply triple_bind with (R := fun _ s' k' => s' = on_report (fun _ => d) s /\ k' = k /\ same_inputs (sh_files s) inputs = Ok tt).
  { apply triple_pure. intros s' k' [-> ->]. destruct (same_inputs _ _) as [[]|]; [done|]. split; [apply Hs|done]. }
  intros _. unfold note. apply triple_modify. intros s' k' (-> & -> & Hsame). split; [apply Hs|]. constructor.
  - cbn. unfold jget. by rewrite dget_dset, decide_True.
  - exists facts. split; [by destruct Ho; constructor|]. intros key x Hx. cbn. rewrite dget_dset, decide_False by congruence.
    unfold d. by rewrite dget_updated, Hx.
  - by apply (same_inputs_kept f _ inputs).
  - exact Hfr.
Qed.

Lemma managed_build_from f f' s k n : Forall (fun name => f !! name = f' !! name) PROFILE_INPUTS ->
  managed_build f s k -> managed_build f' s (k ++ n).
Proof.
  intros Hf [Hs Hfa Hi (h & command & before & p & Hin & H)]. constructor; [done|done| |].
  - unfold inputs_kept in *. rewrite Forall_forall in Hf. rewrite Forall_forall in Hi. apply Forall_forall. intros name Hn.
    rewrite <- Hf by done. by apply Hi.
  - exists h, command, before, p. split; [set_solver|exact H].
Qed.

(** What a run leaves: a verified build with its receipt; no file changed; or a receipt that says "failed". *)
Definition managed_left (s0 s : shell) (r : result Z) (k : list shell_call) : Prop :=
  match r with
  | Ok code => code = 0 /\ exists v, managed_build (sh_files s0) v k /\ s = on_files <[nano_receipt := json_pretty (sh_report v)]> v
  | Raise _ => sh_files s = sh_files s0 \/ exists d, not_yet d /\ sh_files s !! nano_receipt = Some (json_pretty d)
  end.

Lemma first_not_yet : not_yet (first_profile "nano_rp2040_connect").
Proof. reflexivity. Qed.

Lemma pending_left s0 s k e : pending s k -> managed_left s0 s (Raise e) k.
Proof. intros [Hs _]. right. eexists. split; [apply first_not_yet|exact Hs]. Qed.

Lemma managed_guarded_triple f : triple env [] (fun s k => pending s k /\ sh_files s = f)
  (st_try (managed_body resolve python nano_output manifest) is_exception (fun e => note "error" (JStr (emsg e));; st_raise e))
  (fun _ s k => sh_files s !! nano_receipt = Some failed_receipt /\ managed_build f s k) (fun _ => pending).
Proof.
  eapply triple_try with (R := fun _ => pending); [|done|].
  - unfold managed_body. eapply triple_bind; [apply command_triple|]. intros [inputs command]. apply result_triple.
  - intros e _. eapply triple_bind; [apply (note_kept env nano_receipt); intros d; by apply not_yet_other|].
    intros u. by apply triple_raise.
Qed.

Lemma receipt_triple path (P : shell -> list shell_call -> Prop) (Q : shell -> list shell_call -> Prop) E :
  (forall s k n, P s k -> Q (on_files <[path := json_pretty (sh_report s)]> s) (k ++ n)) ->
  (forall e s k n, P s k -> E e s (k ++ n)) -> triple env [] P (save_report path) (fun _ => Q) E.
Proof.
  intros HQ HE. unfold save_report. eapply triple_bind with (R := fun g s k => P s k /\ g = s); [by apply triple_get|].
  intros g. apply triple_from. intros s k [Hs ->]. unfold write_file. apply op_triple.
  - intros s' k' [-> ->]. by apply HQ.
  - intros e s' k' [-> ->]. by apply HE.
Qed.

Lemma build_managed_triple a s0 : triple env [] (fun s k => s = s0)
  (build_managed resolve python a manifest) (fun code s k => managed_left s0 s (Ok code) k) (fun e s k => managed_left s0 s (Raise e) k).
Proof.
  unfold build_managed.
  assert (Hsame : forall e s k, sh_files s = sh_files s0 -> managed_left s0 s (Raise e) k) by (intros e s k Hs; by left).
  eapply triple_bind with (R := fun _ s k => s = s0 /\ ba_board a = "nano_rp2040_connect").
  { apply triple_pure. intros s k ->. case_bool_decide as Hb; cbn [negb raise_when]; [done|]. by apply Hsame. }
  intros _. apply triple_from. intros s k [-> ->].
  eapply triple_bind with (R := fun _ s k => s = s0); [apply triple_pure; intros s' k' [-> ->]; destruct (raise_when _ _); [done|by apply Hsame]|].
  intros _. fold nano_output. fold nano_receipt. fold nano_resident.
  eapply triple_bind with (R := fun _ s k => s = s0); [unfold make_dirs; apply op_triple; [by intros s' k' ->|intros e s' k' ->; by apply Hsame]|].
  intros _. eapply triple_bind with (R := fun _ s k => s = on_report (fun _ => first_profile "nano_rp2040_connect") s0);
    [apply triple_modify; by intros s' k' ->|].
  intros _. eapply triple_bind with (R := fun _ s k => pending s k /\ sh_files s = <[nano_receipt := failed_receipt]> (sh_files s0)).
  { apply receipt_triple; [|intros e s' k' n ->; by apply Hsame]. intros s' k' n ->. split; [|done]. split; [|done]. apply lookup_insert_eq. }
  intros _. set (ok := fun f : files => Forall (fun name => f !! name = sh_files s0 !! name) PROFILE_INPUTS).
  eapply triple_bind with (R := fun g s k => (pending s k /\ sh_files s = <[nano_receipt := failed_receipt]> (sh_files s0)) /\ g = s);
    [by apply triple_get|]. intros g. apply triple_from. intros s1 k1 [[Hp Hf] ->].
  assert (Hok : ok (sh_files s1)). { rewrite Hf. unfold ok, PROFILE_INPUTS. by repeat constructor; rewrite lookup_insert_ne. }
  eapply triple_bind with (R := fun _ s k => pending s k /\ ok (sh_files s)).
  { destruct (there s1 _); [|apply triple_ret; by intros s' k' [-> ->]]. unfold unlink. apply op_triple; [|intros e s' k' [-> ->]; by apply (pending_left s0 s1 k1)].
    intros s' k' [-> ->]. destruct Hp as [Hp Hr]. split; [split; [|done]|]; cbn.
    - by rewrite lookup_delete_ne.
    - unfold ok, PROFILE_INPUTS in *. repeat (apply Forall_cons in Hok as [? Hok]). by repeat constructor; rewrite lookup_delete_ne. }
  intros _. apply triple_from. intros s2 k2 [Hp2 Hok2].
  eapply triple_bind with (R := fun _ s k => managed_left s0 s (Ok 0) k).
  { eapply triple_finally with (R := fun _ => pending).
    - eapply triple_weaken; [apply (managed_guarded_triple (sh_files s2))| |done|done]. by intros s' k' [-> ->].
    - intros u. apply receipt_triple.
      + intros s' k' n [Hr Hm]. split; [done|]. exists s'. split; [|done]. by apply (managed_build_from (sh_files s2)).
      + intros e s' k' n [Hr _]. right. eexists. split; [apply first_not_yet|exact Hr].
    - intros e. apply receipt_triple.
      + intros s' k' n [_ Hd]. right. exists (sh_report s'). split; [done|]. apply lookup_insert_eq.
      + intros e' s' k' n Hs. by apply (pending_left s0 s' k'). }
  intros _. by apply triple_ret.
Qed.
End Receipt.

(** C10: A managed profile never claims more than it verified. When the programs it runs leave its receipt alone: a
    build that returns has status "compile-tested" in the receipt on disk, which records the facts of outputs that
    passed every check - report, budgets, complete sources, digests of the ELF and UF2, the resident table, and equal
    flash bytes in both images - in the very files that the last process left after it was started without any
    artifact, and the inputs of the profile have the digests they had at the start. A build that fails, in a check, in a
    process or because the disk refuses an operation, has changed no file or leaves a receipt that says "failed". *)
Theorem managed_outcome `{codec : !Json} `{packing : !Packing} `{format : !ExportText} `{pairs : !JsonPairs} resolve python env a manifest s :
  leaves env nano_receipt ->
  let '(s', r, k) := build_managed resolve python a manifest env [] s in managed_left env manifest s s' r k.
Proof.
  intros Hl. pose proof (build_managed_triple resolve python env manifest Hl a s s [] eq_refl) as H. cbn [app] in H.
  destruct (build_managed resolve python a manifest env [] s) as [[s' [code|e]] k]; exact H.
Qed.

(** ** A build of the demonstration resident *)
Module ProfileDemo.
Definition manifest : dict json :=
  [("board", JStr "nano_rp2040_connect"); ("fqbn", JStr "rp2040:rp2040:arduino_nano_connect"); ("arduino_cli_version", JStr "1.2.2");
   ("core", JStr "rp2040:rp2040"); ("core_version", JStr "6.0.0"); ("flash_budget_bytes", JInt 1048576);
   ("static_ram_budget_bytes", JInt 196608)].

(** The repository, with an artifact of an earlier build *)
Definition disk : files :=
  list_to_map ((fun path => (path, ascii path)) <$> take 5 PROFILE_INPUTS) ∪ list_to_map (take 6 ExportDemo.tree) ∪ CoreDemo.disk ∪
  {[nano_resident +:+ "/artifacts/old.uf2" := ascii "old"]}%string.

Definition report : dict json :=
  dset ExportDemo.report "source_sha256"
    (JObj ((fun name => (name, JStr (sha (default [] (disk !! name))))) <$> keys ExportDemo.inventory)).

#[local] Instance pairs : JsonPairs := { json_pairs _ := Ok (JObj report) }.
#[local] Instance codec : Json := {
  json_loads b :=
    if bool_decide (b = ascii "version") then Ok (JObj [("VersionString", JStr "1.2.2")])
    else if bool_decide (b = ascii "cores") then
      Ok (JObj [("platforms", JArr [JObj [("id", JStr "rp2040:rp2040"); ("installed_version", JStr "6.0.0")]])])
    else if bool_decide (b = ascii "config") then
      Ok (JObj [("config", JObj [("directories", JObj [("data", JStr "arduino"); ("user", JStr "sketches")])])])
    else Ok (JObj CoreDemo.manifest);
  json_dumps _ := [] }.
#[local] Instance packing : Packing := {
  json_pretty d := match jget d "status" with JStr s => ascii s | _ => ascii "configuration" end; zip_file _ := [] }.
#[local] Instance format : ExportText := { utf8_decode b := Ok (PyStr.text b); json_sorted _ := [] }.

Definition resident_files : list (string * bytes) :=
  [(nano_resident +:+ "/report.json", ascii "report"); (nano_resident +:+ "/artifacts/" +:+ MANAGED_INO +:+ ".elf", demo_elf);
   (nano_resident +:+ "/artifacts/" +:+ MANAGED_INO +:+ ".uf2", demo_uf2)]%string.

Definition finished (output : string) (f : files) : process := {| pr_code := 0; pr_output := output; pr_files := f |}.

(** The tools answer; patch changes the overlay; the resident build writes its output, or fails. *)
Definition env (works : bool) : environment shell_ret := fun h c =>
  match c with
  | Op _ _ => Ok tt
  | Environ _ => Ok None
  | Which _ => Ok (Some "/usr/bin/arduino-cli")
  | Process cwd command before =>
      if negb (bool_decide (cwd = "")) then
        Ok (finished "" (<[nano_output +:+ "/usb-toolchain/data/packages/rp2040/hardware/rp2040/6.0.0/cores/usb.cpp" := ascii "new"]>%string before))
      else if existsb (String.eqb "version") command then Ok (finished "version" before)
      else if existsb (String.eqb "core") command then Ok (finished "cores" before)
      else if existsb (String.eqb "dump") command then Ok (finished "config" before)
      else if works then Ok (finished "" (foldr (fun kv g => <[kv.1 := kv.2]> g) before resident_files))
      else Ok {| pr_code := 1; pr_output := "error"; pr_files := before |}
  end.

Definition arguments : build_args := {| ba_board := "nano_rp2040_connect"; ba_firmware := "managed"; ba_subnet_octet := 77; ba_verbose := false |}.
Definition start : shell := {| sh_files := disk; sh_links := ∅; sh_report := [] |}.
Definition program : sh Z := build_managed id "python3" arguments manifest.

Example profile_built : let '(s, r, _) := program (env true) [] start in
  r = Ok 0 /\ sh_files s !! nano_receipt = Some (ascii "compile-tested") /\
  jget (sh_report s) "resident_uf2_sha256" = JStr (sha demo_uf2) /\ jget (sh_report s) "api_address" = JStr (hex32 (apiAddress demo_facts)) /\
  sh_files s !! (nano_resident +:+ "/artifacts/old.uf2")%string = None.
Proof. vm_compute. by split_and!. Qed.

Example profile_failed : let '(s, r, _) := program (env false) [] start in
  is_ok r = false /\ sh_files s !! nano_receipt = Some (ascii "failed") /\ sh_files s !! (nano_resident +:+ "/artifacts/old.uf2")%string = None.
Proof. vm_compute. by split_and!. Qed.

Lemma env_leaves works : leaves (env works) nano_receipt.
Proof.
  intros k cwd command f p. cbn [env]. destruct (negb _); [|repeat destruct (existsb _ _); try by intros [= <-]; destruct works]; [|destruct works].
  - intros [= <-]. cbn. by rewrite lookup_insert_ne.
  - intros [= <-]. cbn. by rewrite !lookup_insert_ne.
  - by intros [= <-].
Qed.
End ProfileDemo.
#[local] Existing Instances ProfileDemo.pairs ProfileDemo.codec ProfileDemo.packing ProfileDemo.format.

Lemma managed_outcome_witness : leaves (ProfileDemo.env true) nano_receipt /\
  let '(s, r, k) := build_managed id "python3" ProfileDemo.arguments ProfileDemo.manifest (ProfileDemo.env true) [] ProfileDemo.start in
  managed_left (ProfileDemo.env true) ProfileDemo.manifest ProfileDemo.start s r k.
Proof.
  pose proof (ProfileDemo.env_leaves true) as Hl. split; [exact Hl|].
  pose proof (managed_outcome id "python3" (ProfileDemo.env true) ProfileDemo.arguments ProfileDemo.manifest ProfileDemo.start Hl) as H.
  exact H.
Defined.
