(* ===== verification/Build.v ===== *)
(** * Firmware builds: [build] of tools/dev.py

    The command of a profile, the digests of its sources, the compilation with its log, the exported images and
    the memory summary, in a report that is written whatever happens. Two theorems: what a report on disk means,
    and that [flash] accepts what a build that returned has left. *)

From stdpp Require Import base tactics list list_numbers strings gmap.
From Stdlib Require Import ZArith Lia Ascii.
From S2P Require Import Prelude.
From S2P Require Import PyBytes.
From S2P Require Import Sha256.
From S2P Require Import PyText.
From S2P Require Import PyStr.
From S2P Require Import PyRegex.
From S2P Require Import PyDict.
From S2P Require Import PyJson.
From S2P Require Import Effects.
From S2P Require Import Ipv4.
From S2P Require Import Stateful.
From S2P Require Import Release.
From S2P Require Import Dev.
From S2P Require Import ResidentSource.
From S2P Require Import ResidentExport.
From S2P Require Import Shell.
From S2P Require Import UsbCore.
From S2P Require Import DevTools.
From S2P Require Import ManagedProfile.

Local Open Scope Z_scope.

(** ** What is compiled *)
Definition is_reference (firmware : string) : bool := has_key REFERENCE_SKETCHES firmware.

Definition build_output (board firmware : string) : string :=
  "build/firmware/" +:+ board +:+ if is_reference firmware then "/" +:+ firmware else "".

Definition build_command (cli : list string) (a : build_args) (fqbn out sketch : string) : list string :=
  cli ++ ["compile"; "--fqbn"; fqbn; "--warnings"; "all"; "--build-path"; out +:+ "/work"; "--output-dir"; out +:+ "/artifacts"; sketch]
  ++ (if is_reference (ba_firmware a) then
        ["--library"; "."; "--build-property";
         "compiler.cpp.extra_flags=-DFIRMINGO_NET_C=" +:+ str_int (ba_subnet_octet a)
           +:+ " -DFIRMINGO_USB_DEFERRED_START -DDISABLE_USB_SERIAL"]
      else [])
  ++ if ba_verbose a then ["--verbose"] else [].

(** The files below a directory whose names do not start with a dot *)
Definition visible (f : files) (directory : string) : list string :=
  List.filter (fun path => negb (String.prefix "." (path_name path))) (walk f directory).

Definition build_sources (f : files) (board firmware sketch : string) : list string :=
  visible f sketch
  ++ if is_reference firmware then
       visible f "src" ++ [manifest_path board; "tools/usb_core.py"; "tools/dev.py"] ++ visible f startup_package
     else [].

(** [{name: digest(name) for name in sources}] *)
Definition source_digests (f : files) (sources : list string) : result (dict json) :=
  foldM (fun d name => h ← digest f name; mret (dset d name (JStr h))) [] sources.

Definition first_report (manifest sources : dict json) (a : build_args) (command : list string) (overlay : option (dict json)) : dict json :=
  [("manifest", JObj manifest); ("firmware", JStr (ba_firmware a)); ("source_sha256", JObj sources);
   ("command", JArr (JStr <$> command)); ("status", JStr "failed"); ("artifacts", JObj [])]
  ++ if is_reference (ba_firmware a) then
       [("usb_profile", JStr "ncm-only");
        ("usb_startup_overlay", match overlay with Some d => JObj d | None => JNull end);
        ("board_address", JStr ("192.168." +:+ str_int (ba_subnet_octet a) +:+ ".1"))]
     else [].

(** ** What a compilation left *)

(** [{path.name: {...} for path in artifacts.iterdir() if path.is_file()}] *)
Definition artifact_entries (f : files) (artifacts : string) : dict json :=
  foldl (fun d name => match f !! (artifacts +:+ "/" +:+ name) with
                       | Some data => dset d name (JObj [("sha256", JStr (sha data)); ("bytes", JInt (blen data))])
                       | None => d
                       end) [] (children f artifacts).

Definition flash_pattern : regex := Lit "Sketch uses " ⊙ Group (Many is_digit 1) ⊙ Lit " bytes".
Definition ram_pattern : regex := Lit "Global variables use " ⊙ Group (Many is_digit 1) ⊙ Lit " bytes".

(** Both sizes of the summary *)
Definition sizes (missing : exn) (log : string) : result (Z * Z) :=
  match search flash_pattern log, search ram_pattern log with
  | Some [flash], Some [ram] => flash ← read_int flash; ram ← read_int ram; mret (flash, ram)
  | _, _ => Raise missing
  end.

(** [used > manifest[budget]] *)
Definition exceeds (manifest : dict json) (used : Z) (budget : string) : result bool :=
  limit ← ditem manifest budget; py_order true limit (JInt used).

Definition check_budgets (manifest : dict json) (flash ram : Z) : result unit :=
  over ← exceeds manifest flash "flash_budget_bytes";
  over ← (if over : bool then mret true else exceeds manifest ram "static_ram_budget_bytes");
  raise_when over (RuntimeError "firmware exceeds initial board memory budget").

Section Build.
Context `{codec : !Json} `{packing : !Packing} `{format : !ExportText} `{pairs : !JsonPairs} (resolve : string -> string) (python : string).

(** The compiler, the overlay of the reference profiles, and no artifact of an earlier build *)
Definition build_command_of (a : build_args) (manifest : dict json) (sketch : string) : sh (list string * option (dict json)) :=
  let out := build_output (ba_board a) (ba_firmware a) in
  cli ← check_arduino python manifest;
  make_dirs out;;
  ' (cli, overlay) ← (if is_reference (ba_firmware a) then
                        config ← effective_arduino_config cli;
                        ' (cli, overlay) ← prepare resolve cli config (out +:+ "/usb-toolchain");
                        mret (cli, Some overlay)
                      else mret (cli, None));
  fqbn ← st_pure (ditem manifest "fqbn");
  clear_away (out +:+ "/artifacts");;
  fqbn ← st_pure (as_path fqbn);
  mret (build_command cli a fqbn out sketch, overlay).

(** A compilation, and what the report says of it *)
Definition compile_image (out : string) (failed missing : exn) (command : list string) : sh (Z * Z) :=
  p ← run_logged "" command (out +:+ "/build.log");
  note "exit_code" (JInt (pr_code p));;
  st_pure (raise_when (negb (pr_code p =? 0)) failed);;
  s ← st_get;
  st_pure (raise_when (negb (there s (out +:+ "/artifacts"))) (OSError "No such file or directory"));;
  note "artifacts" (JObj (artifact_entries (sh_files s) (out +:+ "/artifacts")));;
  ' (flash, ram) ← st_pure (sizes missing (pr_output p));
  note "flash_bytes" (JInt flash);;
  note "static_ram_bytes" (JInt ram);;
  mret (flash, ram).

Definition compile (out : string) (manifest : dict json) (command : list string) : sh unit :=
  ' (flash, ram) ← compile_image out (RuntimeError "firmware compilation failed; see build.log")
      (RuntimeError "build completed but size summary unavailable; budgets not verified") command;
  st_pure (check_budgets manifest flash ram);;
  note "status" (JStr "compile-tested").

Definition build (a : build_args) : sh Z :=
  f ← files_now;
  manifest ← st_pure (load_manifest f (ba_board a));
  st_pure (check_baseline f manifest);;
  if bool_decide (ba_firmware a = "managed") then build_managed resolve python a manifest
  else
    let out := build_output (ba_board a) (ba_firmware a) in
    sketch ← st_pure (selected_sketch manifest (ba_firmware a));
    ' (command, overlay) ← build_command_of a manifest sketch;
    f ← files_now;
    sources ← st_pure (source_digests f (build_sources f (ba_board a) (ba_firmware a) sketch));
    st_modify (on_report (fun _ => first_report manifest sources a command overlay));;
    st_finally (compile out manifest command) (save_report (out +:+ "/report.json"));;
    mret 0.
End Build.

(** ** Sources and artifacts *)
Lemma source_digests_Ok f names d : source_digests f names = Ok d ->
  (forall name, name ∈ names <-> is_Some (dget d name)) /\
  Forall (fun kv => exists data, f !! kv.1 = Some data /\ kv.2 = JStr (sha data)) d.
Proof.
  unfold source_digests. intros H.
  apply (foldM_inv (fun seen d => (forall name, name ∈ seen <-> is_Some (dget d name)) /\
    Forall (fun kv => exists data, f !! kv.1 = Some data /\ kv.2 = JStr (sha data)) d)) in H; [done| |].
  - split; [|done]. intros name. split; [by intros ?%elem_of_nil|by intros []].
  - intros seen name d1 d2 [Hk Hd] (h & (data & Hf & ->)%digest_Ok & <-%mret_Ok)%bind_Ok. split.
    + intros x. rewrite elem_of_app, list_elem_of_singleton, Hk, dget_dset. case_decide; naive_solver.
    + apply Forall_dset; [|done]. by exists data.
Qed.

(** A path of one part *)
Definition one_part (name : string) : Prop := split_on "/"%char name = [name].

Lemma children_in f directory name data : one_part name -> f !! (directory +:+ "/" +:+ name)%string = Some data -> name ∈ children f directory.
Proof.
  intros Hn Hf. unfold children. apply elem_of_remove_dups, list_elem_of_omap. exists (directory +:+ "/" +:+ name)%string. split.
  - apply list_elem_of_fmap. exists ((directory +:+ "/" +:+ name)%string, data). split; [done|by apply elem_of_map_to_list].
  - assert (E : after_prefix (directory +:+ "/") (directory +:+ "/" +:+ name) = Some name) by (apply after_prefix_Some; by rewrite append_assoc).
    rewrite E. cbn. unfold first_part. by rewrite Hn.
Qed.

Definition artifact_entry (data : bytes) : json := JObj [("sha256", JStr (sha data)); ("bytes", JInt (blen data))].

(** The report describes exactly the files directly below the directory. *)
Lemma artifact_entries_spec f directory name : one_part name ->
  dget (artifact_entries f directory) name = artifact_entry <$> f !! (directory +:+ "/" +:+ name)%string.
Proof.
  intros Hn. unfold artifact_entries.
  set (step := fun (d : dict json) name => _).
  assert (H : forall l d, dget (foldl step d l) name =
    if decide (name ∈ l) then match f !! (directory +:+ "/" +:+ name)%string with Some data => Some (artifact_entry data) | None => dget d name end
    else dget d name).
  { induction l as [|x l IH]; intros d; cbn [foldl]; [done|]. rewrite IH. unfold step.
    destruct (decide (x = name)) as [->|Hx].
    - rewrite (decide_True (P := name ∈ name :: l)) by left. destruct (f !! (directory +:+ "/" +:+ name)%string); case_decide; try done;
        rewrite dget_dset; by rewrite decide_True.
    - replace (dget (match f !! (directory +:+ "/" +:+ x)%string with Some data => _ | None => d end) name) with (dget d name).
      + repeat case_decide; set_solver.
      + destruct (f !! (directory +:+ "/" +:+ x)%string); [by rewrite dget_dset, decide_False|done]. }
  rewrite H. case_decide as Hin; [by destruct (f !! _)|]. cbn [dget]. destruct (f !! _) as [data|] eqn:E; [|done].
  by apply (children_in f directory name data) in E.
Qed.

Lemma under_prefixed d a b : under (d +:+ "/" +:+ a) (d +:+ "/" +:+ b) = under a b.
Proof.
  apply eq_true_iff_eq. split.
  - intros [q E]%under_inv. rewrite !append_assoc in E. apply (inj (fun n => d +:+ "/" +:+ n)%string) in E. subst b. apply under_app.
  - intros [q ->]%under_inv. change (d +:+ "/" +:+ a +:+ "/" +:+ q)%string with (d +:+ "/" +:+ (a +:+ "/" +:+ q))%string.
    replace (d +:+ "/" +:+ (a +:+ "/" +:+ q))%string with ((d +:+ "/" +:+ a) +:+ "/" +:+ q)%string by by rewrite !append_assoc.
    apply under_app.
Qed.

Lemma exceeds_false manifest used budget : exceeds manifest used budget = Ok false ->
  exists limit, dget manifest budget = Some limit /\ py_order true limit (JInt used) = Ok false.
Proof. intros (limit & Hl%some_or_Ok & H)%bind_Ok. by exists limit. Qed.

Lemma check_budgets_Ok manifest flash ram : check_budgets manifest flash ram = Ok tt ->
  exceeds manifest flash "flash_budget_bytes" = Ok false /\ exceeds manifest ram "static_ram_budget_bytes" = Ok false.
Proof.
  unfold check_budgets. intros (over & Hf & H)%bind_Ok. apply bind_Ok in H as (over' & Hr & ->%raise_when_Ok).
  by destruct over.
Qed.

(** ** What a compilation leaves *)
Section Image.
Context (env : environment shell_ret) (out : string).

Definition report_in : string := out +:+ "/report.json".
Definition log_in : string := out +:+ "/build.log".
Definition artifacts_in : string := out +:+ "/artifacts".

(** A successful compilation from the store [before]: its log gives the sizes, and the report records them and the
    artifacts it left. *)
Record imaged (before : files) (s : shell) (k : list shell_call) (flash ram : Z) : Prop := {
  im_artifacts : dget (sh_report s) "artifacts" = Some (JObj (artifact_entries (sh_files s) artifacts_in));
  im_sizes : dget (sh_report s) "flash_bytes" = Some (JInt flash) /\ dget (sh_report s) "static_ram_bytes" = Some (JInt ram);
  im_process : exists h command p missing, Process "" command (<[log_in := []]> before) ∈ k /\
    env h (Process "" command (<[log_in := []]> before)) = Ok p /\ pr_code p = 0 /\
    sh_files s = <[log_in := ascii (pr_output p)]> (pr_files p) /\ sizes missing (pr_output p) = Ok (flash, ram) }.

Context (Hleaves : leaves env report_in).

Definition image_keys : list string := ["exit_code"; "artifacts"; "flash_bytes"; "static_ram_bytes"].

(** The other entries of a report *)
Definition same_entries (d d' : dict json) : Prop := forall key, key ∉ image_keys -> dget d' key = dget d key.

Lemma same_entries_set d d' key v : key ∈ image_keys -> same_entries d d' -> same_entries d (dset d' key v).
Proof. intros Hk H key' Hn. rewrite dget_dset. case_decide; [by subst|by apply H]. Qed.

Lemma same_not_yet d d' : same_entries d d' -> not_yet d -> not_yet d'.
Proof. intros H Hd. unfold not_yet, jget in *. rewrite H; [done|]. by apply (bool_decide_unpack _). Qed.

Lemma compile_image_triple failed missing command s1 k1 : not_yet (sh_report s1) ->
  triple env [] (fun s k => s = s1 /\ k = k1) (compile_image out failed missing command)
    (fun x s k => sh_files s !! report_in = sh_files s1 !! report_in /\ same_entries (sh_report s1) (sh_report s) /\
       imaged (sh_files s1) s k x.1 x.2)
    (fun _ => kept report_in (sh_files s1 !! report_in) not_yet).
Proof.
  intros Hn. unfold compile_image. set (v := sh_files s1 !! report_in).
  assert (Hlog : log_in <> report_in) by (intros E%(inj (String.append out)); done).
  set (call := Process "" command (<[log_in := []]> (sh_files s1))).
  eapply triple_bind with (R := fun p s k => s = on_files (fun _ => <[log_in := ascii (pr_output p)]> (pr_files p)) s1 /\ call ∈ k /\
    exists h, env h call = Ok p).
  { apply logged_triple.
    - intros s k p [-> ->] Hp. split_and!; [done|set_solver|eauto].
    - intros s k n e [-> ->]. by split.
    - intros s k n e [-> ->]. split; [|done]. cbn. by rewrite lookup_insert_ne. }
  intros p. apply triple_from. intros s k (-> & Hin & h & Hp).
  set (s2 := on_files (fun _ => <[log_in := ascii (pr_output p)]> (pr_files p)) s1).
  assert (Hf2 : sh_files s2 !! report_in = v).
  { cbn. rewrite lookup_insert_ne by done. apply Hleaves in Hp as ->. by rewrite lookup_insert_ne. }
  assert (Hsame : same_entries (sh_report s1) (sh_report s2)) by done.
  assert (Hk : forall g : dict json -> dict json, same_entries (sh_report s1) (g (sh_report s1)) ->
    kept report_in v not_yet (on_report g s2) k) by (intros g Hg; split; [exact Hf2|by apply (same_not_yet (sh_report s1))]).
  assert (Hset : forall key, bool_decide (key ∈ image_keys) = true -> forall d v, same_entries (sh_report s1) d ->
    same_entries (sh_report s1) (dset d key v)) by (intros key Hi%bool_decide_eq_true d x; by apply same_entries_set).
  eapply triple_bind; [apply note_from|intros u1]. eapply triple_bind; [apply pure_from; intros e _; by apply Hk, Hset|intros u2].
  apply triple_from. intros s k' [[-> ->] Hc%raise_when_Ok%negb_false_iff%Z.eqb_eq].
  eapply triple_bind; [apply get_from|intros s]. apply triple_from. intros s' k' [[-> ->] ->].
  eapply triple_bind; [apply pure_from; intros e _; by apply Hk, Hset|intros u3].
  apply triple_from. intros s k' [[-> ->] _].
  eapply triple_bind; [apply note_from|intros u4].
  eapply triple_bind; [apply pure_from; intros e _; by apply (Hk (fun d => dset (dset d _ _) _ _)), Hset, Hset|].
  intros [flash ram]. apply triple_from. intros s k' [[-> ->] Hs].
  eapply triple_bind; [apply note_from|intros u5]. eapply triple_bind; [apply note_from|intros u6].
  apply triple_ret. intros s k' [-> ->]. split_and!; [exact Hf2|repeat (apply Hset; [reflexivity|]); done|].
  constructor; cbn [on_report sh_report sh_files fst snd].
  - by rewrite !dget_dset.
  - split; by rewrite !dget_dset.
  - by exists h, command, p, missing.
Qed.
End Image.

(** ** What a report on disk means *)
Section Outcome.
Context `{codec : !Json} `{packing : !Packing} `{format : !ExportText} `{pairs : !JsonPairs} (resolve : string -> string) (python : string)
  (env : environment shell_ret) (a : build_args).

Definition out_of : string := build_output (ba_board a) (ba_firmware a).
Abbreviation report_of := (report_in out_of).
Abbreviation artifacts_of := (artifacts_in out_of).

(** A compilation within the budgets that the report describes *)
Record compiled (manifest sources : dict json) (before : files) (s : shell) (k : list shell_call) : Prop := {
  cd_status : dget (sh_report s) "status" = Some (JStr "compile-tested");
  cd_inputs : dget (sh_report s) "firmware" = Some (JStr (ba_firmware a)) /\ dget (sh_report s) "manifest" = Some (JObj manifest) /\
    dget (sh_report s) "source_sha256" = Some (JObj sources);
  cd_image : exists flash ram, imaged env out_of before s k flash ram /\
    exceeds manifest flash "flash_budget_bytes" = Ok false /\ exceeds manifest ram "static_ram_budget_bytes" = Ok false }.

Context (Hleaves : leaves env report_of).

Lemma compile_triple manifest sources command overlay s1 k1 :
  sh_report s1 = first_report manifest sources a command overlay ->
  triple env [] (fun s k => s = s1 /\ k = k1) (compile out_of manifest command)
    (fun _ s k => sh_files s !! report_of = sh_files s1 !! report_of /\ compiled manifest sources (sh_files s1) s k)
    (fun _ => kept report_of (sh_files s1 !! report_of) not_yet).
Proof.
  intros Hr1. assert (Hn : not_yet (sh_report s1)) by by rewrite Hr1.
  unfold compile. eapply triple_bind; [by apply compile_image_triple|]. intros [flash ram]. apply triple_from.
  intros s2 k2 (Hf2 & Hsame & Him). cbn [fst snd] in Him.
  eapply triple_bind; [apply pure_from; intros e _; split; [exact Hf2|by apply (same_not_yet (sh_report s1))]|intros []].
  apply triple_from. intros s k [[-> ->] [Hb1 Hb2]%check_budgets_Ok].
  unfold note. apply triple_modify. intros s k [-> ->]. split; [exact Hf2|]. constructor; cbn [on_report sh_report].
  - by rewrite dget_dset.
  - rewrite Hr1 in Hsame. split_and!; rewrite dget_dset, decide_False by done; apply Hsame; by apply (bool_decide_unpack _).
  - exists flash, ram. split_and!; [|done..]. destruct Him as [Ha [Hf Hr] Hp].
    constructor; cbn [on_report sh_report sh_files]; [|split|exact Hp]; by rewrite dget_dset.
Qed.

Definition untouched (f : files) : shell -> list shell_call -> Prop := kept report_of (f !! report_of) (fun _ => True).
Definition cleared (s : shell) : Prop := forall p, under artifacts_of p = true -> sh_files s !! p = None.

Lemma build_command_triple f manifest sketch : triple env [] (untouched f) (build_command_of resolve python a manifest sketch)
  (fun _ s k => untouched f s k /\ cleared s) (fun _ => untouched f).
Proof.
  unfold build_command_of. fold out_of. eapply triple_bind; [by apply check_arduino_kept|intros cli].
  eapply triple_bind; [apply make_dirs_kept|intros u].
  eapply triple_bind with (R := fun _ => untouched f).
  { destruct (is_reference _); [|apply keeps_ret]. eapply triple_bind; [by apply effective_arduino_config_kept|intros config].
    eapply triple_bind; [apply prepare_kept; [done|exact (under_prefixed out_of "usb-toolchain" "report.json")]|]. intros [c o]. by apply triple_ret. }
  intros [c o]. eapply triple_bind; [apply keeps_pure|intros fqbn].
  eapply triple_bind; [apply (clear_away_empty env artifacts_of (untouched f) (fun _ => untouched f))|intros u'].
  { intros s k [Hf Hr]. split; [|done]. cbn [on_files on_links sh_files]. rewrite under_keep. by rewrite (under_prefixed out_of "artifacts" "report.json" : under artifacts_of report_of = false). }
  { done. }
  eapply triple_bind with (R := fun _ s k => untouched f s k /\ cleared s).
  { apply triple_pure. intros s k H. destruct (as_path fqbn); [exact H|apply H]. }
  intros fqbn'. by apply triple_ret.
Qed.

(** The sources that the report lists, with the digests they had before the compilation *)
Definition digested (before : files) (sketch : string) (sources : dict json) : Prop :=
  (forall name, name ∈ build_sources before (ba_board a) (ba_firmware a) sketch <-> is_Some (dget sources name)) /\
  Forall (fun kv => exists data, before !! kv.1 = Some data /\ kv.2 = JStr (sha data)) sources.

(** What a build that returned has left: a compilation without earlier artifacts, and its report. *)
Definition built (f : files) (s : shell) (k : list shell_call) : Prop :=
  exists manifest sketch sources before v, load_manifest f (ba_board a) = Ok manifest /\
    selected_sketch manifest (ba_firmware a) = Ok sketch /\ digested before sketch sources /\
    (forall p, under artifacts_of p = true -> before !! p = None) /\ compiled manifest sources before v k /\
    s = on_files <[report_of := json_pretty (sh_report v)]> v.

Definition build_left (f : files) (s : shell) (r : result Z) (k : list shell_call) : Prop :=
  match r with
  | Ok code => code = 0 /\ built f s k
  | Raise _ => sh_files s !! report_of = f !! report_of \/ exists d, not_yet d /\ sh_files s !! report_of = Some (json_pretty d)
  end.

Lemma compiled_later manifest sources before s k n : compiled manifest sources before s k -> compiled manifest sources before s (k ++ n).
Proof.
  intros [Hs Hi (flash & ram & [Ha Hz (h & command & p & missing & Hin & H)] & Hb)]. constructor; [done..|].
  exists flash, ram. split; [|exact Hb]. constructor; [done..|]. exists h, command, p, missing. split; [set_solver|exact H].
Qed.

(** The compilation and the report that is written in any case *)
Lemma reported_triple f manifest sketch sources command overlay s1 k1 :
  load_manifest f (ba_board a) = Ok manifest -> selected_sketch manifest (ba_firmware a) = Ok sketch ->
  digested (sh_files s1) sketch sources -> cleared s1 -> sh_files s1 !! report_of = f !! report_of ->
  sh_report s1 = first_report manifest sources a command overlay ->
  triple env [] (fun s k => s = s1 /\ k = k1) (st_finally (compile out_of manifest command) (save_report report_of))
    (fun _ s k => built f s k) (fun e s k => build_left f s (Raise e) k).
Proof.
  intros Hm Hsk Hd Hc Hf Hr. eapply triple_finally; [by apply (compile_triple manifest sources command overlay)|intros u|intros e]; apply receipt_triple.
  - intros s k n [_ Hb]. exists manifest, sketch, sources, (sh_files s1), s. split_and!; try done. by apply compiled_later.
  - intros e s k n [Hs _]. left. by rewrite Hs.
  - intros s k n [_ Hn]. right. exists (sh_report s). split; [done|]. apply lookup_insert_eq.
  - intros e' s k n [Hs _]. left. by rewrite Hs.
Qed.

Lemma build_triple f : ba_firmware a <> "managed" ->
  triple env [] (fun s k => sh_files s = f) (build resolve python a) (fun code s k => build_left f s (Ok code) k)
    (fun e s k => build_left f s (Raise e) k).
Proof.
  intros Hfw. assert (Hsame : forall e s k, untouched f s k -> build_left f s (Raise e) k) by (intros e s k [Hs _]; by left).
  unfold build. eapply triple_bind with (R := fun g s k => untouched f s k /\ g = f).
  { eapply triple_weaken; [apply (files_triple env (fun s _ => sh_files s = f) (fun _ _ _ => False))|done| |done]. by intros g s k [<- ->]. }
  intros g. apply triple_from. intros s0 k0 [Hs0 ->]. eapply triple_weaken with (P' := untouched f) (Q' := fun code s k => build_left f s (Ok code) k) (E' := fun e s k => build_left f s (Raise e) k);
    [|by intros s k [-> ->]|done|done].
  eapply triple_bind with (R := fun manifest s k => untouched f s k /\ load_manifest f (ba_board a) = Ok manifest).
  { apply triple_pure. intros s k Hs. destruct (load_manifest _ _) as [m|e]; [by split|]. by apply Hsame. }
  intros manifest. apply triple_from. intros s1 k1 [Hs1 Hm].
  eapply triple_bind; [apply pure_from; intros e _; by apply Hsame|intros u]. rewrite bool_decide_false by done. fold out_of.
  apply triple_from. intros s k [[-> ->] _].
  eapply triple_bind; [apply pure_from; intros e _; by apply Hsame|intros sketch]. apply triple_from. intros s k [[-> ->] Hsk].
  eapply triple_bind with (R := fun _ s k => untouched f s k /\ cleared s).
  { eapply triple_weaken; [apply (build_command_triple f manifest sketch)|by intros s k [-> ->]|done|exact Hsame]. }
  intros [command overlay]. apply triple_from. intros s2 k2 [Hs2 Hc]. unfold files_now.
  eapply triple_bind with (R := fun g s k => (s = s2 /\ k = k2) /\ g = sh_files s2).
  { eapply triple_bind; [apply get_from|]. intros g. apply triple_ret. by intros s k [[-> ->] ->]. }
  intros g. apply triple_from. intros s k [[-> ->] ->].
  eapply triple_bind; [apply pure_from; intros e _; by apply Hsame|intros sources]. apply triple_from. intros s k [[-> ->] Hd%source_digests_Ok].
  set (s3 := on_report (fun _ => first_report manifest sources a command overlay) s2).
  eapply triple_bind with (R := fun _ s k => s = s3 /\ k = k2); [apply triple_modify; by intros s k [-> ->]|intros u'].
  eapply triple_bind with (R := fun _ s k => built f s k); [|intros u2; by apply triple_ret].
  apply (reported_triple f manifest sketch sources command overlay); try done. apply Hs2.
Qed.
End Outcome.

(** C14: A report on disk means what it says. When the programs that are run leave the report alone: a build that returns has
    written a report with status "compile-tested" that describes the last process, which was started without any earlier
    artifact and succeeded: the manifest is the board's, the sources of the profile are listed with the digests they
    had when it started, every file directly among the artifacts with its size and digest, and the sizes its log states
    are within the budgets of the manifest. A build that fails leaves the report of before, or one that says
    "failed". *)
Theorem build_outcome `{codec : !Json} `{packing : !Packing} `{format : !ExportText} `{pairs : !JsonPairs} resolve python env a s :
  ba_firmware a <> "managed" -> leaves env (report_in (out_of a)) ->
  let '(s', r, k) := build resolve python a env [] s in build_left env a (sh_files s) s' r k.
Proof.
  intros Hf Hl. pose proof (build_triple resolve python env a Hl (sh_files s) Hf s [] eq_refl) as H. cbn [app] in H.
  destruct (build resolve python a env [] s) as [[s' [code|e]] k]; exact H.
Qed.

(** ** From a build to a board *)
Section Flashable.
Context `{codec : !Json} `{packing : !Packing} `{format : !ExportText} `{pairs : !JsonPairs} (a : build_args).

Lemma reference_cases : is_reference (ba_firmware a) = true ->
  ba_firmware a = "local-only" \/ ba_firmware a = "application" \/ ba_firmware a = "uart".
Proof.
  intros H%has_key_spec. unfold keys, REFERENCE_SKETCHES in H. cbn in H. rewrite !elem_of_cons, elem_of_nil in H. naive_solver.
Qed.

Lemma split_on_join sep x s : split_on sep (x +:+ String sep s) = split_on sep x ++ split_on sep s.
Proof.
  induction x as [|c x IH]; simpl; [by rewrite bool_decide_true|]. rewrite IH.
  destruct (split_on sep x) as [|y l] eqn:E; [by apply split_on_nonempty in E|]. by case_bool_decide.
Qed.

Lemma path_name_below d name : one_part name -> path_name (d +:+ "/" +:+ name) = name.
Proof.
  intros Hn. unfold path_name. change ("/" +:+ name)%string with (String "/"%char name).
  rewrite split_on_join, Hn. by rewrite last_snoc.
Qed.

(** The sources of a reference profile are not in the build directory. *)
Lemma visible_first f c d name : name ∈ visible f (String c d) -> exists n, name = String c n.
Proof.
  unfold visible. rewrite list_elem_of_In, filter_In, <- list_elem_of_In. intros [[Hu _]%walk_spec _].
  apply under_inv in Hu as [q ->]. by eexists.
Qed.

Lemma sources_outside before manifest sketch name : is_reference (ba_firmware a) = true ->
  selected_sketch manifest (ba_firmware a) = Ok sketch -> name ∈ build_sources before (ba_board a) (ba_firmware a) sketch ->
  under (out_of a) name = false.
Proof.
  intros Hr Hs Hin. destruct (under (out_of a) name) eqn:E; [|done]. apply under_inv in E as [q ->].
  assert (Hsk : exists d, sketch = String "e"%char d).
  { unfold selected_sketch in Hs. destruct (reference_cases Hr) as [Hf|[Hf|Hf]]; rewrite Hf in Hs; injection Hs as <-; by eexists. }
  destruct Hsk as [d ->]. unfold build_sources in Hin. rewrite Hr in Hin. rewrite !elem_of_app, !elem_of_cons in Hin.
  destruct Hin as [[n Hn]%visible_first|[[n Hn]%visible_first|[[Hn|[Hn|[Hn|[]%elem_of_nil]]]|[n Hn]%visible_first]]]; discriminate Hn.
Qed.

Context (Hr : is_reference (ba_firmware a) = true).

Lemma report_path_eq : report_in (out_of a) = ("build/firmware/" +:+ ba_board a +:+ "/" +:+ ba_firmware a +:+ "/report.json")%string.
Proof. unfold report_in, out_of, build_output. by rewrite Hr, !append_assoc. Qed.

(** The image of the profile is one of the artifacts. *)
Lemma image_artifact : exists name, one_part name /\
  flash_image (ba_board a) (ba_firmware a) = Ok (artifacts_in (out_of a) +:+ "/" +:+ name)%string.
Proof.
  unfold flash_image, artifacts_in, out_of, build_output. rewrite Hr.
  destruct (reference_cases Hr) as [Hf|[Hf|Hf]]; rewrite Hf; eexists; (split; [|cbn; rewrite !append_assoc; reflexivity]); reflexivity.
Qed.
End Flashable.

(** The state after a compilation, with its report on disk *)
Section Reported.
Context `{packing : !Packing} (env : environment shell_ret) (out : string) (before : files) (s v : shell) (k : list shell_call) (flash ram : Z)
  (Houtside : forall path, under out path = false -> leaves env path) (Him : imaged env out before v k flash ram)
  (Hs : s = on_files <[report_in out := json_pretty (sh_report v)]> v).

Lemma reported_file : sh_files s !! report_in out = Some (json_pretty (sh_report v)).
Proof. rewrite Hs. apply lookup_insert_eq. Qed.

(** Outside the output directory, files are as they were when the compilation began. *)
Lemma outside_kept name : under out name = false -> sh_files s !! name = before !! name.
Proof.
  intros Ho. destruct (im_process _ _ _ _ _ _ _ Him) as (h & command & p & missing & _ & Hp & _ & Hf & _).
  assert (Hne : forall x, (out +:+ "/" +:+ x)%string <> name) by (intros x <-; by rewrite under_app in Ho).
  rewrite Hs. cbn. rewrite lookup_insert_ne by apply Hne. rewrite Hf, lookup_insert_ne by apply Hne.
  apply (Houtside name Ho) in Hp as ->. by rewrite lookup_insert_ne by apply Hne.
Qed.

Lemma reported_sources sources : dget (sh_report v) "source_sha256" = Some (JObj sources) ->
  Forall (fun kv => exists data, before !! kv.1 = Some data /\ kv.2 = JStr (sha data)) sources ->
  (forall name, name ∈ keys sources -> under out name = false) -> sources_current (sh_files s) (sh_report v).
Proof.
  intros Hsrc Hall Ho. exists sources. split; [done|]. apply Forall_forall. intros [name recorded] Hin.
  rewrite Forall_forall in Hall. destruct (Hall _ Hin) as (data & Hb & Hrec). cbn in Hb, Hrec. subst recorded.
  exists data. split; [|cbn; by rewrite bool_decide_true]. rewrite outside_kept; [done|]. apply Ho. by apply (list_elem_of_fmap_2 fst) in Hin.
Qed.

Lemma reported_image name data : one_part name -> sh_files s !! (artifacts_in out +:+ "/" +:+ name)%string = Some data ->
  records_image (sh_report v) (artifacts_in out +:+ "/" +:+ name) data.
Proof.
  intros Hone Hdata. exists (artifact_entries (sh_files v) (artifacts_in out)), [("sha256", JStr (sha data)); ("bytes", JInt (blen data))], (JStr (sha data)).
  split_and!; [apply Him| |done|cbn; by rewrite bool_decide_true].
  rewrite path_name_below, artifact_entries_spec by done. rewrite Hs in Hdata. cbn in Hdata.
  rewrite lookup_insert_ne in Hdata; [by rewrite Hdata|]. unfold report_in, artifacts_in.
  rewrite append_assoc. intros E%(inj (String.append out)). done.
Qed.
End Reported.

(** A disk that grants everything *)
Lemma copy_granted (disk : environment disk_ret) f image target data : (forall h c, disk h c = Ok tt) -> f !! image = Some data ->
  forall h, exists g n, copy_image image target disk h f = (g, Ok tt, n) /\ g !! target = Some data.
Proof.
  intros Hg Hd h. unfold copy_image, change, mbind, st_mbind, st_bind, st_get, st_pure, st_ask, st_io, st_modify, ask.
  unfold read. rewrite Hd. cbn [some_or]. rewrite !Hg. do 2 eexists. split; [reflexivity|]. cbn. apply lookup_insert_eq.
Qed.

(** C9: What was built can be flashed. When a build of a reference profile returned, the programs it ran left everything outside
    its output directory and the report alone, the volume is a mounted bootloader, and the written report reads
    back as it is: [flash] finds the report current and its sources unchanged, takes the image among the artifacts, and
    on a disk that grants its operations copies exactly this image to the board. *)
Theorem built_then_flashed `{codec : !Json} `{packing : !Packing} `{format : !ExportText} `{pairs : !JsonPairs} resolve python env a s s' k
    mount info image data (disk : environment disk_ret) :
  is_reference (ba_firmware a) = true -> leaves env (report_in (out_of a)) -> (forall path, under (out_of a) path = false -> leaves env path) ->
  build resolve python a env [] s = (s', Ok 0, k) ->
  sh_files s' !! (mount +:+ "/INFO_UF2.TXT")%string = Some info -> contains "Board-ID: RPI-RP2" (PyStr.text info) = true ->
  json_loads (json_pretty (sh_report s')) = Ok (JObj (sh_report s')) ->
  flash_image (ba_board a) (ba_firmware a) = Ok image -> sh_files s' !! image = Some data ->
  (forall h c, disk h c = Ok tt) ->
  let '(g, r, _) := flash (ba_board a) (ba_firmware a) mount disk [] (sh_files s') in
  r = Ok 0 /\ g !! (mount +:+ "/FIRMINGO.UF2")%string = Some data.
Proof.
  intros Hr Hl Ho Hb Hinfo Hid Hjson Him Hdata Hdisk.
  assert (Hf : ba_firmware a <> "managed") by (destruct (reference_cases a Hr) as [E|[E|E]]; by rewrite E).
  pose proof (build_triple resolve python env a Hl (sh_files s) Hf s [] eq_refl) as H. cbn [app] in H. rewrite Hb in H.
  destruct H as [_ (manifest & sketch & sources & before & v & _ & Hsk & [Hn Hd] & _ & [Hst (Hfw & _ & Hsrc) (fl & ram & Hi & _)] & Hs)].
  destruct (image_artifact a Hr) as (name & Hone & E). assert (image = (artifacts_in (out_of a) +:+ "/" +:+ name)%string) as -> by congruence.
  assert (Hsr : sh_report s' = sh_report v) by by rewrite Hs. rewrite Hsr in Hjson.
  assert (Hc : flash_checks (sh_files s') (ba_board a) (ba_firmware a) mount = Ok (artifacts_in (out_of a) +:+ "/" +:+ name)%string).
  { unfold flash_checks. apply bind_unit. split; [apply check_bootloader_iff; exists info; split; [done|by apply found_iff]|].
    apply bind_Ok. exists (sh_report v). split.
    { unfold load, read. rewrite <- (report_path_eq a Hr), (reported_file _ s' v Hs). run_ok. by rewrite Hjson. }
    apply raise_when_bind. split; [apply orb_false_iff; split; apply negb_false_iff, py_eq_str; unfold jget; [by rewrite Hst|by rewrite Hfw]|].
    apply bind_unit. split.
    { apply check_sources_current_iff, (reported_sources env (out_of a) before s' v k fl ram Ho Hi Hs sources Hsrc Hd).
      intros x Hx%has_key_spec. eapply sources_outside; [exact Hr|exact Hsk|]. apply Hn. by apply bool_decide_eq_true in Hx. }
    apply bind_Ok. eexists. split; [exact E|]. apply bind_unit. split; [|done].
    apply check_artifact_iff. exists data. split; [done|]. by apply (reported_image env (out_of a) before s' v k fl ram). }
  unfold flash. unfold mbind at 1 2, st_mbind, st_bind, st_get, st_pure. rewrite Hc.
  destruct (copy_granted disk (sh_files s') _ (mount +:+ "/FIRMINGO.UF2") data Hdisk Hdata []) as (g & n & Hcopy & Hg).
  cbn [app]. unfold mbind, st_bind. rewrite Hcopy. by split.
Qed.

(** ** A UART build for the Nano, and its flashing *)
Module BuildDemo.
Definition arguments : build_args := {| ba_board := "nano_rp2040_connect"; ba_firmware := "uart"; ba_subnet_octet := 77; ba_verbose := false |}.
Definition out : string := out_of arguments.
Definition image : bytes := ascii "image".
Definition image_path : string := out +:+ "/artifacts/firmingo_uart.ino.uf2".

Definition disk : files :=
  list_to_map [("boards/nano_rp2040_connect/baseline.json", ascii "baseline"); ("tools/usb_core.py", ascii "overlay"); ("tools/dev.py", ascii "dev");
    ("examples/firmingo_uart/firmingo_uart.ino", ascii "sketch"); ("examples/firmingo_uart/.DS_Store", ascii "hidden");
    ("src/core/version.h", ascii "version"); (image_path, ascii "old"); ("/Volumes/RPI-RP2/INFO_UF2.TXT", ascii "Board-ID: RPI-RP2")]
  ∪ CoreDemo.disk.

(** A codec that knows the texts of the tools, and one report *)
Definition codec_of (report : dict json) : Json := {|
  json_loads b :=
    if bool_decide (b = ascii "baseline") then Ok (JObj ProfileDemo.manifest)
    else if bool_decide (b = ascii "compile-tested") then Ok (JObj report)
    else @json_loads ProfileDemo.codec b;
  json_dumps _ := [] |}.
#[local] Existing Instances ProfileDemo.pairs ProfileDemo.packing ProfileDemo.format.

Definition log : string := "Sketch uses 1000 bytes (0%). Global variables use 200 bytes (0%).".

(** The compiler exports the image; it fails, or its summary may exceed the budget. *)
Definition env (code : Z) (output : string) : environment shell_ret := fun h c =>
  match c with
  | Op _ _ => Ok tt
  | Environ _ => Ok None
  | Which _ => Ok None
  | Process cwd command before =>
      if negb (bool_decide (cwd = "")) then
        Ok (ProfileDemo.finished "" (<[out +:+ "/usb-toolchain/data/packages/rp2040/hardware/rp2040/6.0.0/cores/usb.cpp" := ascii "new"]>%string before))
      else if existsb (String.eqb "compile") command then Ok {| pr_code := code; pr_output := output; pr_files := <[image_path := image]> before |}
      else if existsb (String.eqb "version") command then Ok (ProfileDemo.finished "version" before)
      else if existsb (String.eqb "core") command then Ok (ProfileDemo.finished "cores" before)
      else Ok (ProfileDemo.finished "config" before)
  end.

Definition start : shell := {| sh_files := disk; sh_links := ∅; sh_report := [] |}.
Definition program (report : dict json) : sh Z := @build (codec_of report) _ _ _ id "python3" arguments.
Definition report : dict json := Eval vm_compute in sh_report (program [] (env 0 log) [] start).1.1.

Example sources_listed : jget report "flash_bytes" = JInt 1000 /\ jget report "firmware" = JStr "uart" /\
  match jget report "source_sha256" with JObj d => length (keys d) = 7%nat /\ has_key d "examples/firmingo_uart/.DS_Store" = false | _ => False end.
Proof. vm_compute. by split_and!. Qed.

Example firmware_built : let '(s, r, _) := program report (env 0 log) [] start in
  r = Ok 0 /\ sh_files s !! image_path = Some image /\ sh_files s !! (out +:+ "/report.json")%string = Some (ascii "compile-tested").
Proof. vm_compute. by split_and!. Qed.

(** A compiler that fails, a log without sizes, and sizes over the budget: the report says "failed". *)
Definition refused (code : Z) (output : string) : bool :=
  let '(s, r, _) := program report (env code output) [] start in
  negb (is_ok r) && bool_decide (sh_files s !! (out +:+ "/report.json")%string = Some (ascii "failed")).

Example firmware_refused : refused 1 log = true /\ refused 0 "done" = true /\
  refused 0 "Sketch uses 1000 bytes (0%). Global variables use 196609 bytes (0%)." = true.
Proof. vm_compute. by split_and!. Qed.

Lemma env_outside code output path : under out path = false -> leaves (env code output) path.
Proof.
  intros Ho. assert (Hne : forall x, under out x = true -> x <> path) by (intros x Hx ->; congruence).
  intros k cwd command f p. cbn [env]. destruct (negb _); [|repeat destruct (existsb _ _); try by intros [= <-]].
  - intros [= <-]. cbn. apply lookup_insert_ne, Hne. reflexivity.
  - intros [= <-]. cbn. apply lookup_insert_ne, Hne. reflexivity.
Qed.

Lemma env_report code output : leaves (env code output) (report_in (out_of arguments)).
Proof.
  intros k cwd command f p. cbn [env]. destruct (negb _); [|repeat destruct (existsb _ _); try by intros [= <-]];
    intros [= <-]; cbn; by apply lookup_insert_ne.
Qed.
End BuildDemo.
#[local] Instance demo_codec : Json := BuildDemo.codec_of BuildDemo.report.
#[local] Existing Instances ProfileDemo.pairs ProfileDemo.packing ProfileDemo.format.

Lemma build_outcome_witness : leaves (BuildDemo.env 0 BuildDemo.log) (report_in (out_of BuildDemo.arguments)) /\
  let '(s, r, k) := build id "python3" BuildDemo.arguments (BuildDemo.env 0 BuildDemo.log) [] BuildDemo.start in
  build_left (BuildDemo.env 0 BuildDemo.log) BuildDemo.arguments BuildDemo.disk s r k.
Proof.
  pose proof (BuildDemo.env_report 0 BuildDemo.log) as Hl. split; [exact Hl|].
  assert (Hf : ba_firmware BuildDemo.arguments <> "managed") by (cbn; congruence).
  pose proof (build_outcome id "python3" (BuildDemo.env 0 BuildDemo.log) BuildDemo.arguments BuildDemo.start Hf Hl) as H.
  exact H.
Defined.

(** The whole run, as its three parts *)
Definition demo_run : shell * result Z * list shell_call :=
  build id "python3" BuildDemo.arguments (BuildDemo.env 0 BuildDemo.log) [] BuildDemo.start.

Lemma built_then_flashed_witness : exists s' k, demo_run = (s', Ok 0, k) /\
  let '(g, r, _) := flash "nano_rp2040_connect" "uart" "/Volumes/RPI-RP2" Demo.disk_env [] (sh_files s') in
  r = Ok 0 /\ g !! ("/Volumes/RPI-RP2" +:+ "/FIRMINGO.UF2")%string = Some BuildDemo.image.
Proof.
  destruct demo_run as [[s' r] k] eqn:E. exists s', k.
  assert (Hs : s' = demo_run.1.1) by by rewrite E. assert (Hr : r = demo_run.1.2) by by rewrite E.
  assert (Hok : demo_run.1.2 = Ok 0) by (vm_compute; reflexivity). rewrite Hok in Hr. subst r. split; [reflexivity|].
  apply (built_then_flashed id "python3" (BuildDemo.env 0 BuildDemo.log) BuildDemo.arguments BuildDemo.start s' k "/Volumes/RPI-RP2"
    (ascii "Board-ID: RPI-RP2") BuildDemo.image_path BuildDemo.image Demo.disk_env).
  - vm_compute. reflexivity.
  - apply BuildDemo.env_report.
  - intros path. apply BuildDemo.env_outside.
  - exact E.
  - rewrite Hs. vm_compute. reflexivity.
  - vm_compute. reflexivity.
  - rewrite Hs. vm_compute. reflexivity.
  - vm_compute. reflexivity.
  - rewrite Hs. vm_compute. reflexivity.
  - reflexivity.
Defined.
