(* ===== verification/ResidentBuild.v ===== *)
(** * The resident build: experiments/managed_sketch/build_resident.py

    [checked_ram_park] reads the symbol and the disassembly of one function; [resident_build] is [main] after its
    arguments: the pinned tools, the compilation, the size budgets, and the report of the variant. The report of before
    is removed first. The last theorem ties this report to the checks of tools/managed_profile.py. *)

From stdpp Require Import base tactics list list_numbers strings gmap sorting.
From Stdlib Require Import ZArith Lia Ascii.
From S2P Require Import Prelude.
From S2P Require Import PyBytes.
From S2P Require Import Sha256.
From S2P Require Import PyText.
From S2P Require Import PyStr.
From S2P Require Import PyRegex.
From S2P Require Import PyDict.
From S2P Require Import PyJson.
From S2P Require Import Ipv4.
From S2P Require Import ExportResident.
From S2P Require Import Effects.
From S2P Require Import Stateful.
From S2P Require Import Release.
From S2P Require Import Dev.
From S2P Require Import ResidentSource.
From S2P Require Import ResidentExport.
From S2P Require Import StatefulLayout.
From S2P Require Import StatefulExport.
From S2P Require Import Shell.
From S2P Require Import UsbCore.
From S2P Require Import DevTools.
From S2P Require Import ManagedProfile.
From S2P Require Import Build.

Local Open Scope Z_scope.

Definition SystemExit (m : string) : exn := Exn KSystemExit m.

(** ** The function that waits on core 1 *)
Definition park_name : string := "firmingo_managed::Core1Pause::park_if_requested()".

(** A global function of the symbol table: its address and its size *)
Definition park_symbol : regex :=
  LineStart ⊙ Group (Many is_hex 1) ⊙ Lit " " ⊙ Group (Many is_hex 1) ⊙ Lit (" T " +:+ park_name) ⊙ LineEnd.

(** A call, or a load from the literal pool *)
Definition helper_or_pool : regex :=
  (WordEdge ⊙ Lit "bl" ⊙ (Lit "x" ⊕ Lit "") ⊙ WordEdge)
  ⊕ (WordEdge ⊙ Lit "ldr" ⊙ Many re_space 1 ⊙ Many re_dot 0 ⊙ Lit "[pc").

Definition pqt_gcc (config : string) : string :=
  parent config +:+ "/data/packages/rp2040/tools/pqt-gcc/5.0.0-9576866/bin".

Definition park_extent (symbols : string) : result (Z * Z) :=
  match findall park_symbol symbols with
  | [[a; n]] =>
      let address := read_hex 0 a in
      let size := read_hex 0 n in
      raise_when ((size =? 0) || negb ((0x20000000 <=? address) && (address <? address + size) && (address + size <=? 0x20042000)))
        (RuntimeError "core-1 park function is not wholly in RP2040 SRAM");;
      mret (address, size)
  | _ => Raise (RuntimeError "expected one core-1 park function in resident ELF")
  end.

Definition check_park_code (disassembly : string) : result unit :=
  raise_when (negb (contains ("<" +:+ park_name +:+ ">:") disassembly)) (RuntimeError "core-1 park disassembly is missing");;
  raise_when (found helper_or_pool disassembly) (RuntimeError "core-1 park function calls a helper or loads from PC").

Definition checked_ram_park (config elf : string) : sh (Z * Z) :=
  let nm := pqt_gcc config +:+ "/arm-none-eabi-nm" in
  let objdump := pqt_gcc config +:+ "/arm-none-eabi-objdump" in
  f ← files_now;
  st_pure (raise_when (negb (is_file f nm) || negb (is_file f objdump))
    (RuntimeError "pinned ARM symbol/disassembly tools are missing"));;
  symbols ← run_checked [nm; "-C"; "-S"; elf];
  ' (address, size) ← st_pure (park_extent symbols);
  disassembly ← run_checked [objdump; "-d"; "-C"; "--start-address=" +:+ str_int address;
                             "--stop-address=" +:+ str_int (address + size); elf];
  st_pure (check_park_code disassembly);;
  mret (address, size).

(** ** The variants *)
Record resident_args := {
  ra_cli : string; ra_config : string; ra_output : string;
  ra_allocation : bool; ra_runtime : bool; ra_upload : bool; ra_checkpoint : option string }.

Definition stateful_runtime (a : resident_args) : bool := ra_runtime a || ra_upload a.
Definition stateful_any (a : resident_args) : bool := ra_allocation a || stateful_runtime a.

Definition checkpoint_number (after : string) : Z := if bool_decide (after = "erase") then 1 else 2.

(** The definitions and the kept symbols that each variant adds *)
Definition added (c : bool) (s : string) : string := if c then s else "".

Definition cpp_flags (a : resident_args) : string :=
  "compiler.cpp.extra_flags=-Iexperiments/managed_sketch -DFIRMINGO_NET_C=77 -DFIRMINGO_USB_DEFERRED_START -DDISABLE_USB_SERIAL"
  +:+ added (stateful_any a) " -DFIRMINGO_STATEFUL_ALLOCATION_PROOF"
  +:+ added (stateful_runtime a) " -DFIRMINGO_STATEFUL_RUNTIME_PROOF"
  +:+ added (ra_upload a) " -DFIRMINGO_STATEFUL_UPLOAD_PROOF"
  +:+ match ra_checkpoint a with
      | Some after => added (ra_upload a) (" -DFIRMINGO_FLASH_CHECKPOINT=" +:+ str_int (checkpoint_number after))
      | None => ""
      end.

Definition elf_flags (a : resident_args) : string :=
  "compiler.c.elf.extra_flags=-Wl,-u,firmingo_sketch_api_v2"
  +:+ added (stateful_runtime a) " -Wl,-u,firmingo_sketch_api -Wl,-u,firmingo_stateful_boot_mode"
  +:+ added (ra_upload a) " -Wl,-u,firmingo_stateful_upload_contract"
  +:+ match ra_checkpoint a with
      | Some _ => added (ra_upload a) " -Wl,-u,firmingo_flash_checkpoint_contract"
      | None => ""
      end.

Definition resident_sketch : string := "experiments/managed_sketch/firmingo_managed_resident".

Definition resident_command (a : resident_args) (fqbn : string) : list string :=
  [ra_cli a; "--config-file"; ra_config a; "compile"; "--fqbn"; fqbn; "--warnings"; "all";
   "--build-path"; ra_output a +:+ "/work"; "--output-dir"; ra_output a +:+ "/artifacts"; resident_sketch;
   "--library"; "."; "--build-property"; cpp_flags a]
  ++ if stateful_any a then ["--build-property"; elf_flags a] else [].

(** [parser.error] for a checkpoint without uploads *)
Definition check_resident_args (a : resident_args) : result unit :=
  raise_when (match ra_checkpoint a with Some _ => negb (ra_upload a) | None => false end)
    (SystemExit "--flash-checkpoint requires --stateful-upload-proof").

(** [{item["id"]: item.get("installed_version") for item in platforms}.get("rp2040:rp2040")] *)
Definition installed_core (platforms : list json) : result json :=
  foldM (fun found item =>
    id ← subscript item "id";
    d ← as_dict item;
    raise_when (is_list id || is_dict id) (TypeError "unhashable type");;
    mret (if py_eq id (JStr "rp2040:rp2040") then jget d "installed_version" else found)) JNull platforms.

(** ** The report *)
Definition path_order (a b : string) : Prop := parts_leb (split_on "/"%char a) (split_on "/"%char b) = true.
#[export] Instance path_order_dec : RelDecision path_order.
Proof. intros a b. unfold path_order. apply _. Defined.

Definition listed_sources : list string :=
  [resident_sketch +:+ "/firmingo_managed_resident.ino"; MS "build_resident.py"; MS "abi.h"; MS "image.h"; MS "image.cpp";
   MS "mailbox.h"; MS "console.h"; MS "core1_pause.h"; MS "core1_pause.cpp"; MS "stage.h"; MS "stage.cpp";
   MS "install.h"; MS "install.cpp"; MS "switch.h"; MS "switch.cpp"; MS "fmgo_upload.h"; MS "fmgo_upload.cpp";
   MS "upload_wire.h"; MS "upload_wire.cpp"; MS "upload_server.h"; MS "upload_server.cpp";
   "boards/nano_rp2040_connect/baseline.json"].

Definition resident_sources (f : files) : list string := merge_sort path_order (listed_sources ++ walk f "src").

Definition elf_path (output : string) : string := output +:+ "/artifacts/" +:+ MANAGED_INO +:+ ".elf".
Definition uf2_path (output : string) : string := output +:+ "/artifacts/" +:+ MANAGED_INO +:+ ".uf2".

Definition base_report (a : resident_args) (f : files) (board : json) (flash ram : Z) (park : Z * Z) : result (dict json) :=
  name ← subscript board "board";
  fqbn ← subscript board "fqbn";
  elf ← digest f (elf_path (ra_output a));
  uf2 ← digest f (uf2_path (ra_output a));
  sources ← source_digests f (resident_sources f);
  mret [("status", JStr resident_status); ("board", name); ("core", JStr "rp2040:rp2040@6.0.0"); ("fqbn", fqbn);
        ("flash_bytes", JInt flash); ("static_ram_bytes", JInt ram); ("flash_budget_bytes", JInt (1024 * 1024));
        ("static_ram_budget_bytes", JInt (192 * 1024)); ("upload_target", managed_upload_target);
        ("elf_sha256", JStr elf); ("uf2_sha256", JStr uf2); ("core1_park_ram_address", JStr (hex32 park.1));
        ("core1_park_bytes", JInt park.2); ("source_sha256", JObj sources)].

(** [report["source_sha256"][name] = sha(name)] *)
Definition add_source (f : files) (report : dict json) (name : string) : result (dict json) :=
  h ← digest f name;
  sources ← ditem report "source_sha256";
  sources ← as_dict sources;
  mret (dset report "source_sha256" (JObj (dset sources name (JStr h)))).

Definition allocation_report (f : files) (report : dict json) : result (dict json) :=
  let report := dset report "status" (JStr "compile-tested stateful allocation candidate; FMS2 runtime disabled; not flashed") in
  target ← ditem report "upload_target";
  let report := dset (ddel report "upload_target") "legacy_upload_target" target in
  add_source f (dset report "stateful_runtime_enabled" (JBool false)) (MS "stateful_abi.h").

Definition runtime_report (f : files) (report : dict json) : result (dict json) :=
  let report := dset report "status" (JStr "compile-tested FMS2 boot runtime candidate; network uploads disabled; not flashed") in
  _ ← ditem report "legacy_upload_target";
  let report := dset (ddel report "legacy_upload_target") "stateful_runtime_enabled" (JBool true) in
  foldM (add_source f) (dset report "network_uploads_enabled" (JBool false))
    [MS "stateful_image.h"; MS "stateful_image.cpp"; MS "stateful_runtime.h"; MS "stateful_runtime.cpp"].

Definition upload_report (f : files) (report : dict json) : result (dict json) :=
  let report := dset report "status" (JStr "compile-tested FMS2 upload candidate; not flashed") in
  let report := dset (dset report "network_uploads_enabled" (JBool true)) "upload_target" stateful_target in
  foldM (add_source f) report
    [MS "stateful_upload.h"; MS "stateful_upload.cpp"; "boards/nano_rp2040_connect/core-lock.json";
     startup_package +:+ "/manifest.json"; startup_package +:+ "/deferred-ncm.patch"].

Definition checkpoint_report (after : string) (report : dict json) : dict json :=
  dset (dset report "status" (JStr "compile-tested FMS2 flash-checkpoint fault candidate; not flashed")) "flash_checkpoint"
    (JObj [("after", JStr after); ("hold_ms", JInt 60000); ("expiry", JStr "fail without continuing");
           ("chip_busy_interruption", JBool false)]).

Definition resident_report (a : resident_args) (f : files) (board : json) (flash ram : Z) (park : Z * Z) : result (dict json) :=
  report ← base_report a f board flash ram park;
  report ← (if stateful_any a then allocation_report f report else mret report);
  report ← (if stateful_runtime a then runtime_report f report else mret report);
  report ← (if ra_upload a then upload_report f report else mret report);
  mret match ra_checkpoint a with Some after => checkpoint_report after report | None => report end.

(** ** [main] *)
Section ResidentBuild.
Context `{codec : !Json} `{packing : !Packing}.

Definition check_tools (a : resident_args) : sh unit :=
  version ← run_checked [ra_cli a; "--config-file"; ra_config a; "version"; "--json"];
  observed ← st_pure (json_loads (ascii version));
  d ← st_pure (as_dict observed);
  st_pure (raise_when (negb (py_eq (jget d "VersionString") (JStr "1.5.1"))) (SystemExit "Arduino CLI 1.5.1 is required"));;
  cores ← run_checked [ra_cli a; "--config-file"; ra_config a; "core"; "list"; "--json"];
  listed ← st_pure (json_loads (ascii cores));
  d ← st_pure (as_dict listed);
  platforms ← st_pure (items_of (jget_or d "platforms" (JArr [])));
  installed ← st_pure (installed_core platforms);
  st_pure (raise_when (negb (py_eq installed (JStr "6.0.0"))) (SystemExit "the selected config must contain Arduino-Pico 6.0.0")).

(** The compilation and its sizes, within the fixed budgets *)
Definition compile_resident (a : resident_args) (command : list string) : sh (Z * Z) :=
  p ← run_logged "" command (ra_output a +:+ "/build.log");
  st_pure (raise_when (negb (pr_code p =? 0)) (SystemExit "resident compile failed; see build.log"));;
  ' (flash, ram) ← st_pure (sizes (SystemExit "resident size summary missing") (pr_output p));
  st_pure (raise_when ((1024 * 1024 <? flash) || (192 * 1024 <? ram))
    (SystemExit "resident exceeds the 1 MiB flash / 192 KiB static-RAM engineering budget"));;
  f ← files_now;
  st_pure (raise_when (negb (is_file f (elf_path (ra_output a))) || negb (is_file f (uf2_path (ra_output a))))
    (SystemExit "resident ELF or UF2 missing"));;
  mret (flash, ram).

Definition resident_build (a : resident_args) : sh (dict json) :=
  st_pure (check_resident_args a);;
  f ← files_now;
  text ← st_pure (read f "boards/nano_rp2040_connect/baseline.json");
  board ← st_pure (json_loads text);
  check_tools a;;
  make_dirs (ra_output a);;
  unlink (ra_output a +:+ "/report.json");;
  fqbn ← st_pure (subscript board "fqbn");
  fqbn ← st_pure (as_path fqbn);
  ' (flash, ram) ← compile_resident a (resident_command a fqbn);
  park ← checked_ram_park (ra_config a) (elf_path (ra_output a));
  f ← files_now;
  report ← st_pure (resident_report a f board flash ram park);
  write_file (ra_output a +:+ "/report.json") (json_pretty report);;
  mret report.
End ResidentBuild.

(** ** What a resident build leaves *)
Section ResidentOutcome.
Context `{codec : !Json} `{packing : !Packing} (env : environment shell_ret) (a : resident_args).

Abbreviation report_path := (report_in (ra_output a)).
Abbreviation log_path := (log_in (ra_output a)).

Context (Hleaves : leaves env report_path).

(** The report of before, and a report that is gone *)
Definition before_report (f : files) : shell -> list shell_call -> Prop := kept report_path (f !! report_path) (fun _ => True).
Definition no_report : shell -> list shell_call -> Prop := kept report_path None (fun _ => True).

Lemma run_checked_kept v command : keeps env [] (kept report_path v (fun _ => True)) (run_checked command).
Proof. by apply checked_kept. Qed.

(** ** Before the report is removed *)
Definition not_begun (k : list shell_call) : Prop := Op "write" log_path ∉ k.

Lemma check_tools_keeps f : keeps env [] (fun s k => before_report f s k /\ not_begun k) (check_tools a).
Proof.
  assert (H1 : keeps env [] (before_report f) (check_tools a)) by (unfold check_tools; keeps_tac; apply run_checked_kept).
  assert (Hrun : forall command, keeps env [] (fun _ k => not_begun k) (run_checked command)).
  { intros command. unfold run_checked, run_process, files_now, not_begun. keeps_tac; set_solver. }
  assert (H2 : keeps env [] (fun _ k => not_begun k) (check_tools a)) by (unfold check_tools; keeps_tac; apply Hrun).
  exact (triple_and env [] _ _ _ _ _ _ _ H1 H2).
Qed.

(** ** The compilation *)
Definition compiled_within (command : list string) (flash ram : Z) (k : list shell_call) : Prop :=
  exists log missing, printed env command log k /\ sizes missing log = Ok (flash, ram) /\ flash <= 1024 * 1024 /\ ram <= 192 * 1024.

Lemma log_apart : log_path <> report_path.
Proof. by intros E%(inj (String.append (ra_output a))). Qed.

Lemma compile_resident_triple command : triple env [] no_report (compile_resident a command)
  (fun x s k => no_report s k /\ compiled_within command x.1 x.2 k) (fun _ => no_report).
Proof.
  unfold compile_resident. eapply triple_bind with (R := fun p s k => no_report s k /\
    exists h before, Process "" command before ∈ k /\ env h (Process "" command before) = Ok p).
  { apply logged_triple.
    - intros s k p [Hs _] Hp. split; [|eexists _, _; split; [|exact Hp]; set_solver]. split; [|done]. cbn.
      rewrite lookup_insert_ne by apply log_apart. apply Hleaves in Hp as ->. by rewrite lookup_insert_ne by apply log_apart.
    - done.
    - intros s k n e [Hs _]. split; [|done]. cbn. by rewrite lookup_insert_ne by apply log_apart. }
  intros p. apply triple_from. intros s k [Hs Hp].
  eapply triple_bind; [by apply pure_from|intros u]. apply triple_from. intros s' k' [[-> ->] Hc%raise_when_Ok%negb_false_iff%Z.eqb_eq].
  eapply triple_bind; [by apply pure_from|intros [flash ram]]. apply triple_from. intros s' k' [[-> ->] Hz].
  eapply triple_bind; [by apply pure_from|intros u2]. apply triple_from. intros s' k' [[-> ->] [Hf Hr]%raise_when_Ok%orb_false_iff].
  unfold files_now. eapply triple_bind with (R := fun _ s' k' => s' = s /\ k' = k).
  { eapply triple_bind; [apply get_from|]. intros g. apply triple_ret. by intros s' k' [H _]. }
  intros g. eapply triple_bind; [by apply pure_from|intros u3]. apply triple_ret. intros s' k' [[-> ->] _]. split; [done|].
  destruct Hp as (h & before & Hin & Hp). exists (pr_output p), (SystemExit "resident size summary missing").
  split_and!; [by exists h, before, p|done|cbn; lia..].
Qed.

(** ** The function that waits on core 1 *)
Definition nm_command (elf : string) : list string := [pqt_gcc (ra_config a) +:+ "/arm-none-eabi-nm"; "-C"; "-S"; elf].
Definition objdump_command (address size : Z) (elf : string) : list string :=
  [pqt_gcc (ra_config a) +:+ "/arm-none-eabi-objdump"; "-d"; "-C"; "--start-address=" +:+ str_int address;
   "--stop-address=" +:+ str_int (address + size); elf].

(** It is in the RAM of the board, wholly, and neither calls a function nor loads from the pool. *)
Record parked (elf : string) (address size : Z) (k : list shell_call) : Prop := {
  pk_symbol : exists symbols a n, printed env (nm_command elf) symbols k /\ findall park_symbol symbols = [[a; n]] /\
    address = read_hex 0 a /\ size = read_hex 0 n;
  pk_ram : size <> 0 /\ 0x20000000 <= address < address + size /\ address + size <= 0x20042000;
  pk_code : exists disassembly, printed env (objdump_command address size elf) disassembly k /\
    (exists g, occurs (Lit ("<" +:+ park_name +:+ ">:")) disassembly g) /\ forall g, ~ occurs helper_or_pool disassembly g }.

Lemma park_extent_Ok symbols address size : park_extent symbols = Ok (address, size) ->
  (exists a n, findall park_symbol symbols = [[a; n]] /\ address = read_hex 0 a /\ size = read_hex 0 n) /\
  size <> 0 /\ 0x20000000 <= address < address + size /\ address + size <= 0x20042000.
Proof.
  unfold park_extent. destruct (findall park_symbol symbols) as [|[|x [|n []]] []] eqn:E; try done.
  intros [[Hz Hr%negb_false_iff]%orb_false_iff [= <- <-]]%raise_when_bind. rewrite !andb_true_iff in Hr. split; [by exists x, n|lia].
Qed.

Lemma check_park_code_Ok disassembly : check_park_code disassembly = Ok tt ->
  (exists g, occurs (Lit ("<" +:+ park_name +:+ ">:")) disassembly g) /\ forall g, ~ occurs helper_or_pool disassembly g.
Proof.
  unfold check_park_code. intros [Hc%negb_false_iff Hf%raise_when_Ok]%raise_when_bind. split; [by apply found_iff|].
  intros g Hg. assert (found helper_or_pool disassembly = true) by (apply found_iff; by exists g). congruence.
Qed.

Lemma park_triple elf : triple env [] no_report (checked_ram_park (ra_config a) elf)
  (fun x s k => no_report s k /\ parked elf x.1 x.2 k) (fun _ => no_report).
Proof.
  unfold checked_ram_park. eapply triple_bind; [apply files_now_kept|intros f].
  eapply triple_bind; [apply keeps_pure|intros u].
  eapply triple_bind; [apply run_checked_printed, run_checked_kept|intros symbols]. apply triple_from. intros s0 k0 [Hs0 Hsym].
  eapply triple_bind with (R := fun x s k => no_report s k /\ k = k0 /\ park_extent symbols = Ok x).
  { apply triple_pure. intros s k [-> ->]. by destruct (park_extent symbols). }
  intros [address size]. apply triple_from. intros s k (Hs & -> & [Hmatch Hram]%park_extent_Ok).
  eapply triple_bind with (R := fun text s k => (no_report s k /\ printed env (objdump_command address size elf) text k) /\ printed env (nm_command elf) symbols k).
  { eapply triple_weaken; [apply (triple_grows env [] _ _ _ _ (printed env (nm_command elf) symbols) (printed_more env _ _)
      (run_checked_printed env no_report _ (run_checked_kept None _)))|by intros s' k' [-> ->]|done|by intros e s' k' [H _]]. }
  intros disassembly. eapply triple_bind with (R := fun _ s k =>
    ((no_report s k /\ printed env (objdump_command address size elf) disassembly k) /\ printed env (nm_command elf) symbols k) /\
    check_park_code disassembly = Ok tt).
  { apply triple_pure. intros s' k' H. destruct (check_park_code disassembly) as [[]|]; [done|apply H]. }
  intros u2. apply triple_ret. intros s' k' [[[Hn Ho] Hm] Hc%check_park_code_Ok]. split; [done|].
  destruct Hmatch as (x & n & Hmatch). constructor; [by exists symbols, x, n|exact Hram|by exists disassembly].
Qed.

(** ** The whole run *)
Record resident_built (f : files) (report : dict json) (v : shell) (k : list shell_call) : Prop := {
  rb_report : exists text board fqbn flash ram address size, f !! "boards/nano_rp2040_connect/baseline.json" = Some text /\
    json_loads text = Ok board /\ subscript board "fqbn" = Ok (JStr fqbn) /\
    compiled_within (resident_command a fqbn) flash ram k /\ parked (elf_path (ra_output a)) address size k /\
    resident_report a (sh_files v) board flash ram (address, size) = Ok report }.

(** A report of this run, or none; the one of before only when no compilation was begun *)
Definition resident_left (f : files) (s : shell) (r : result (dict json)) (k : list shell_call) : Prop :=
  match r with
  | Ok report => exists v, resident_built f report v k /\ s = on_files <[report_path := json_pretty report]> v
  | Raise _ => sh_files s !! report_path = None \/ sh_files s !! report_path = f !! report_path /\ not_begun k
  end.

Lemma resident_build_triple f : triple env [] (fun s k => sh_files s = f /\ k = []) (resident_build a)
  (fun report s k => resident_left f s (Ok report) k) (fun e s k => resident_left f s (Raise e) k).
Proof.
  set (early := fun s k => before_report f s k /\ not_begun k).
  assert (He : forall e s k, early s k -> resident_left f s (Raise e) k) by (intros e s k [[Hs _] Hk]; by right).
  assert (Hg : forall e s k, no_report s k -> resident_left f s (Raise e) k) by (intros e s k [Hs _]; by left).
  unfold resident_build. apply triple_from. intros s0 k0 [Hf ->].
  assert (H0 : early s0 []) by (unfold early, before_report, kept, not_begun; rewrite Hf; split; [done|set_solver]).
  eapply triple_bind; [apply pure_from; intros e _; by apply He|intros u]. apply triple_from. intros s k [[-> ->] _].
  unfold files_now. eapply triple_bind with (R := fun g s k => (s = s0 /\ k = []) /\ g = f).
  { eapply triple_bind; [apply get_from|]. intros g. apply triple_ret. intros s k [H ->]. by split. }
  intros g. apply triple_from. intros s k [[-> ->] ->].
  eapply triple_bind; [apply pure_from; intros e _; by apply He|intros text]. apply triple_from. intros s k [[-> ->] Ht%some_or_Ok].
  eapply triple_bind; [apply pure_from; intros e _; by apply He|intros board]. apply triple_from. intros s k [[-> ->] Hb].
  eapply triple_bind with (R := fun _ => early).
  { eapply triple_weaken; [apply (check_tools_keeps f)|by intros s k [-> ->]|done|exact He]. }
  intros u1. eapply triple_bind with (R := fun _ => early).
  { unfold make_dirs. apply op_triple; [|intros e]; intros s k [Hs Hk]; [|apply He]; (split; [exact Hs|unfold not_begun in *; set_solver]). }
  intros u2. eapply triple_bind with (R := fun _ => no_report).
  { unfold unlink. apply op_triple; [intros s k _; split; [apply lookup_delete_eq|done]|].
    intros e s k [Hs Hk]. apply He. split; [exact Hs|unfold not_begun in *; set_solver]. }
  intros u3. apply triple_from. intros s k Hs.
  eapply triple_bind; [apply pure_from; intros e _; by apply Hg|intros fv]. apply triple_from. intros s' k' [[-> ->] Hfv].
  eapply triple_bind; [apply pure_from; intros e _; by apply Hg|intros fqbn]. apply triple_from. intros s' k' [[-> ->] Hq].
  destruct fv as [| | | |q| |]; try done. injection Hq as ->.
  eapply triple_bind with (R := fun x s k => no_report s k /\ compiled_within (resident_command a fqbn) x.1 x.2 k).
  { eapply triple_weaken; [apply compile_resident_triple|by intros s' k' [-> ->]|done|exact Hg]. }
  intros [flash ram]. eapply triple_bind with (R := fun x s k => (no_report s k /\ parked (elf_path (ra_output a)) x.1 x.2 k) /\
    compiled_within (resident_command a fqbn) flash ram k).
  { eapply triple_weaken; [eapply (triple_grows env [] _ _ _ (fun _ => no_report) (compiled_within (resident_command a fqbn) flash ram)); [|apply park_triple]|done|done|].
    - intros k1 n (log & missing & Hp & H). exists log, missing. split; [by apply printed_more|done].
    - intros e s' k' [H _]. by apply Hg. }
  intros [address size]. apply triple_from. intros s4 k4 [[Hs4 Hpark] Hcomp].
  eapply triple_bind with (R := fun g s k => (s = s4 /\ k = k4) /\ g = sh_files s4).
  { eapply triple_bind; [apply get_from|]. intros g. apply triple_ret. intros s' k' [H ->]. by split. }
  intros g. apply triple_from. intros s' k' [[-> ->] ->].
  eapply triple_bind; [apply pure_from; intros e _; by apply Hg|intros report]. apply triple_from. intros s' k' [[-> ->] Hrep].
  eapply triple_bind with (R := fun _ s k => s = on_files <[report_path := json_pretty report]> s4 /\ exists n, k = k4 ++ n).
  { unfold write_file. apply op_triple; [intros s' k' [-> ->]; by eauto|]. intros e s' k' [-> ->]. apply Hg. exact Hs4. }
  intros u4. apply triple_ret. intros s' k' [-> [n ->]]. exists s4. split; [|done]. constructor.
  exists text, board, fqbn, flash, ram, address, size. split_and!; try done.
  - destruct Hcomp as (log & missing & Hp & H). exists log, missing. split; [by apply printed_more|done].
  - destruct Hpark as [(symbols & x & y & Hp & H) Hr (d & Hd & Hc)]. constructor; [|done|].
    + exists symbols, x, y. split; [by apply printed_more|done].
    + exists d. split; [by apply printed_more|done].
Qed.
End ResidentOutcome.

(** C16: A resident build leaves its own report or none. When the programs it runs leave the report alone: a build that
    returns has written the report of its variant for the artifacts that are there, after a compilation that
    succeeded within 1 MiB of flash and 192 KiB of RAM, and after the disassembly showed that the function which waits
    on core 1 lies wholly in RAM, calls nothing and loads nothing from the pool. A build that fails leaves no report;
    the report of before stays only when no compilation was begun. *)
Theorem resident_build_outcome `{codec : !Json} `{packing : !Packing} env a s : leaves env (report_in (ra_output a)) ->
  let '(s', r, k) := resident_build a env [] s in resident_left env a (sh_files s) s' r k.
Proof.
  intros Hl. pose proof (resident_build_triple env a Hl (sh_files s) s [] (conj eq_refl eq_refl)) as H. cbn [app] in H.
  destruct (resident_build a env [] s) as [[s' [report|e]] k]; exact H.
Qed.

(** ** The report in front of the managed profile *)
Section Verified.
Context `{pairs : !JsonPairs}.

Lemma capture_at s path maximum data : stands s path maximum data -> capture s path maximum = Ok data.
Proof.
  intros (Hf & Hs & Hl). apply (@bounded_file_iff (quiet s)). apply Forall_cons in Hl as [Hp Hps].
  assert (Hq : forall p, sh_links s !! p = None -> @is_symlink (quiet s) p = false).
  { intros p Hn. cbn. rewrite Hn. apply bool_decide_eq_false. by intros []. }
  constructor; [split; [by apply Hq|by eapply Forall_impl]|lia|].
  eexists. cbn. rewrite Hf. split_and!; try reflexivity. cbn. unfold blen in Hs. rewrite firstn_all2; [done|lia].
Qed.

Lemma resident_sources_spec f name : name ∈ resident_sources f <-> name ∈ listed_sources \/ under "src" name = true /\ is_Some (f !! name).
Proof. unfold resident_sources. by rewrite (merge_sort_Permutation path_order), elem_of_app, walk_spec. Qed.

Lemma required_listed f name : is_Some (f !! "src/core/version.h") -> name ∈ required_outputs f -> name ∈ resident_sources f.
Proof.
  intros Hv. unfold required_outputs. rewrite resident_sources_spec, elem_of_app. intros [Hin|Hin].
  - repeat (apply elem_of_cons in Hin as [->|Hin]); [left|right; by split|left..|by apply elem_of_nil in Hin];
      apply (bool_decide_unpack _); reflexivity.
  - apply list_elem_of_In, filter_In in Hin as [Hin _]. apply list_elem_of_In, walk_spec in Hin. by right.
Qed.

(** The variant that the managed profile builds *)
Record plain (a : resident_args) : Prop := {
  pl_output : ra_output a = nano_resident; pl_variant : stateful_any a = false; pl_checkpoint : ra_checkpoint a = None }.

(** What the contents must be like: the report reads back, the sources are small files of safe names with no links
    on their paths, and the ELF and the UF2 of the build pass their own checks. *)
Record presentable `{packing : !Packing} (s : shell) (report : dict json) : Prop := {
  pr_text : stands s (nano_resident +:+ "/report.json") (256 * 1024) (json_pretty report) /\
    json_loads_unique (json_pretty report) = Ok (JObj report);
  pr_sizes : forall field z, field ∈ ["flash_bytes"; "static_ram_bytes"] -> dget report field = Some (JInt z) -> 0 < z;
  pr_sources : forall name, name ∈ resident_sources (sh_files s) -> verify_source s (name, JStr (sha (default [] (sh_files s !! name)))) = Ok tt;
  pr_count : forall sources, dget report "source_sha256" = Some (JObj sources) -> blen sources <= 256;
  pr_version : is_Some (sh_files s !! "src/core/version.h");
  pr_images : exists elf uf2 api flash n, stands s (elf_path nano_resident) ELF_LIMIT elf /\ stands s (uf2_path nano_resident) UF2_LIMIT uf2 /\
    resident_elf elf = Ok (api, flash) /\ check_uf2 uf2 flash = Ok n }.

(** The manifest names the board and the fixed budgets. *)
Record nano_manifest (manifest : dict json) : Prop := {
  nm_board : exists b, dget manifest "board" = Some (JStr b);
  nm_flash : dget manifest "flash_budget_bytes" = Some (JInt (1024 * 1024));
  nm_ram : dget manifest "static_ram_budget_bytes" = Some (JInt (192 * 1024)) }.

Lemma py_eq_str_refl s : py_eq (JStr s) (JStr s) = true.
Proof. by apply py_eq_str. Qed.

(** The report of a build of no stateful variant, whatever its output directory *)
Lemma unmarked_report a f manifest flash ram park report : stateful_any a = false -> ra_checkpoint a = None ->
  resident_report a f (JObj manifest) flash ram park = Ok report ->
  exists name fqbn elf uf2 sources, dget manifest "board" = Some name /\ dget manifest "fqbn" = Some fqbn /\
    f !! elf_path (ra_output a) = Some elf /\ f !! uf2_path (ra_output a) = Some uf2 /\ source_digests f (resident_sources f) = Ok sources /\
    report = [("status", JStr resident_status); ("board", name); ("core", JStr "rp2040:rp2040@6.0.0"); ("fqbn", fqbn);
        ("flash_bytes", JInt flash); ("static_ram_bytes", JInt ram); ("flash_budget_bytes", JInt (1024 * 1024));
        ("static_ram_budget_bytes", JInt (192 * 1024)); ("upload_target", managed_upload_target);
        ("elf_sha256", JStr (sha elf)); ("uf2_sha256", JStr (sha uf2)); ("core1_park_ram_address", JStr (hex32 park.1));
        ("core1_park_bytes", JInt park.2); ("source_sha256", JObj sources)].
Proof.
  intros Hv Hc. pose proof Hv as Hv'. unfold stateful_any in Hv'. apply orb_false_iff in Hv' as [_ Hr].
  pose proof Hr as Hr'. unfold stateful_runtime in Hr'. apply orb_false_iff in Hr' as [_ Hu].
  unfold resident_report. rewrite Hv, Hr, Hu, Hc. cbn [mbind result_bind mret result_ret].
  intros (base & H & H1)%bind_Ok. cbn [mbind result_bind mret result_ret] in H1. injection H1 as <-.
  unfold base_report in H. apply bind_Ok in H as (name & Hn%some_or_Ok & H). apply bind_Ok in H as (fqbn & Hq%some_or_Ok & H).
  apply bind_Ok in H as (? & (elf & He & ->)%digest_Ok & H). apply bind_Ok in H as (? & (uf2 & Hf & ->)%digest_Ok & H).
  apply bind_Ok in H as (sources & Hs & [= <-]%mret_Ok). by exists name, fqbn, elf, uf2, sources.
Qed.

Lemma plain_report a f manifest flash ram park report : plain a -> resident_report a f (JObj manifest) flash ram park = Ok report ->
  exists name fqbn elf uf2 sources, dget manifest "board" = Some name /\ dget manifest "fqbn" = Some fqbn /\
    f !! elf_path nano_resident = Some elf /\ f !! uf2_path nano_resident = Some uf2 /\ source_digests f (resident_sources f) = Ok sources /\
    report = [("status", JStr resident_status); ("board", name); ("core", JStr "rp2040:rp2040@6.0.0"); ("fqbn", fqbn);
        ("flash_bytes", JInt flash); ("static_ram_bytes", JInt ram); ("flash_budget_bytes", JInt (1024 * 1024));
        ("static_ram_budget_bytes", JInt (192 * 1024)); ("upload_target", managed_upload_target);
        ("elf_sha256", JStr (sha elf)); ("uf2_sha256", JStr (sha uf2)); ("core1_park_ram_address", JStr (hex32 park.1));
        ("core1_park_bytes", JInt park.2); ("source_sha256", JObj sources)].
Proof. intros [<- Hv Hc]. by apply unmarked_report. Qed.

(** A stateful variant says so in its status. *)
Definition says_stateful (report : dict json) : Prop :=
  exists text, dget report "status" = Some (JStr text) /\ text <> resident_status.

Lemma status_own report text : text <> resident_status -> says_stateful (dset report "status" (JStr text)).
Proof. intros Hn. exists text. split; [|exact Hn]. by rewrite dget_dset, decide_True. Qed.

Lemma status_other report key v : key <> "status" -> says_stateful report -> says_stateful (dset report key v).
Proof. intros Hk (text & Ht & Hn). exists text. split; [|exact Hn]. by rewrite dget_dset, decide_False. Qed.

Lemma status_kept report key : key <> "status" -> says_stateful report -> says_stateful (ddel report key).
Proof. intros Hk (text & Ht & Hn). exists text. split; [|exact Hn]. by rewrite dget_ddel_other. Qed.

Lemma add_source_status f report name report' : add_source f report name = Ok report' -> says_stateful report -> says_stateful report'.
Proof.
  unfold add_source. intros (h & _ & H)%bind_Ok Hs. apply bind_Ok in H as (v & _ & H). apply bind_Ok in H as (d & _ & [= <-]).
  by apply status_other.
Qed.

Lemma add_sources_status f names report report' : foldM (add_source f) report names = Ok report' -> says_stateful report -> says_stateful report'.
Proof.
  revert report. induction names as [|name names IH]; intros report; [by intros [= <-]|]. cbn [foldM].
  intros (r & Hr & H)%bind_Ok Hs. eapply IH; [exact H|]. by eapply add_source_status.
Qed.

Ltac marked := repeat first [apply status_own; apply (bool_decide_unpack _); reflexivity | apply status_other; [done|] | apply status_kept; [done|]].

Lemma marked_report a f board flash ram park report : stateful_any a = true ->
  resident_report a f board flash ram park = Ok report -> says_stateful report.
Proof.
  intros Hv. unfold resident_report. rewrite Hv. intros (base & _ & H)%bind_Ok. apply bind_Ok in H as (r1 & H1 & H).
  assert (S1 : says_stateful r1).
  { unfold allocation_report in H1. apply bind_Ok in H1 as (target & _ & H1). eapply add_source_status; [exact H1|]. marked. }
  apply bind_Ok in H as (r2 & H2 & H). assert (S2 : says_stateful r2).
  { destruct (stateful_runtime a); [|by injection H2 as <-]. unfold runtime_report in H2. apply bind_Ok in H2 as (target & _ & H2).
    eapply add_sources_status; [exact H2|]. marked. }
  apply bind_Ok in H as (r3 & H3 & [= <-]). assert (S3 : says_stateful r3).
  { destruct (ra_upload a); [|by injection H3 as <-]. unfold upload_report in H3. eapply add_sources_status; [exact H3|]. marked. }
  destruct (ra_checkpoint a); [|exact S3]. unfold checkpoint_report. marked.
Qed.

Lemma build_args_checked `{codec : !Json} `{packing : !Packing} a (env : environment shell_ret) s s' report k :
  resident_build a env [] s = (s', Ok report, k) -> check_resident_args a = Ok tt.
Proof.
  unfold resident_build, st_pure, mbind, st_mbind, st_bind. destruct (check_resident_args a) as [[]|e]; [done|]. by intros [=].
Qed.
End Verified.

(** The checks of the managed profile, on a report of the plain variant *)
Section Accepted.
Context `{packing : !Packing} `{pairs : !JsonPairs} (v : shell) (manifest report : dict json) (flash ram : Z) (park : Z * Z) (a : resident_args)
  (Hplain : plain a) (Hrep : resident_report a (sh_files v) (JObj manifest) flash ram park = Ok report).

Definition s_after : shell := on_files <[report_in (ra_output a) := json_pretty report]> v.
Context (Hm : nano_manifest manifest) (Hp : presentable s_after report).

Lemma after_other path : path <> (nano_resident +:+ "/report.json")%string -> sh_files s_after !! path = sh_files v !! path.
Proof. intros Hne. unfold s_after. rewrite (pl_output a Hplain). apply lookup_insert_ne. intros E. by apply Hne. Qed.

Lemma source_apart name : name ∈ listed_sources \/ under "src" name = true -> name <> (nano_resident +:+ "/report.json")%string.
Proof.
  intros [Hin|[q ->]%under_inv].
  - intros ->. assert (H : bool_decide ((nano_resident +:+ "/report.json")%string ∈ listed_sources) = false) by reflexivity.
    by apply bool_decide_eq_false in H.
  - discriminate.
Qed.

Lemma sources_after name : name ∈ resident_sources (sh_files v) <-> name ∈ resident_sources (sh_files s_after).
Proof.
  rewrite !resident_sources_spec. split; (intros [Hin|[Hu Hf]]; [by left|right; split; [done|]]).
  - rewrite after_other; [done|]. apply source_apart. by right.
  - rewrite after_other in Hf; [done|]. apply source_apart. by right.
Qed.

Lemma inventory_accepted sources : source_digests (sh_files v) (resident_sources (sh_files v)) = Ok sources ->
  existsb (fun name => negb (has_key sources name)) (required_outputs (sh_files s_after)) = false /\
  for_each (verify_source s_after) sources = Ok tt.
Proof.
  intros [Hn Hd]%source_digests_Ok. split.
  - apply not_true_iff_false. intros (name & Hin%list_elem_of_In & Hk%negb_true_iff)%existsb_exists.
    apply (required_listed _ _ (pr_version _ _ Hp)), sources_after, Hn in Hin. unfold has_key in Hk. by apply bool_decide_eq_false in Hk.
  - apply for_each_Ok. rewrite Forall_forall in Hd. apply Forall_forall. intros [name recorded] Hin.
    destruct (Hd _ Hin) as (data & Hf & Hr). cbn in Hf, Hr. subst recorded.
    assert (Hname : name ∈ resident_sources (sh_files v)).
    { apply Hn. destruct (dget sources name) eqn:E; [done|]. apply dget_None in E. exfalso. apply E. by apply (list_elem_of_fmap_2 fst) in Hin. }
    pose proof (pr_sources _ _ Hp name (proj1 (sources_after name) Hname)) as H. rewrite after_other, Hf in H; [exact H|].
    apply source_apart. apply resident_sources_spec in Hname. tauto.
Qed.

Lemma artifact_accepted extension path limit data x : path = (nano_resident +:+ "/artifacts/" +:+ MANAGED_INO +:+ "." +:+ extension)%string ->
  path <> (nano_resident +:+ "/report.json")%string -> stands s_after path limit data -> sh_files v !! path = Some x ->
  jget report (extension +:+ "_sha256") = JStr (sha x) -> verify_artifact s_after nano_resident report extension limit = Ok data.
Proof.
  intros -> Hne Hs Hx Hj. unfold verify_artifact. apply bind_Ok. exists data. split; [by apply capture_at|].
  destruct Hs as [Hf _]. rewrite (after_other _ Hne) in Hf. assert (x = data) as -> by congruence.
  apply raise_when_bind. split; [by rewrite Hj, py_eq_str_refl|done].
Qed.

Lemma budget_accepted field budget used limit : jget report field = JInt used -> 0 < used <= limit ->
  dget manifest budget = Some (JInt limit) -> jget report budget = JInt limit -> budget_mismatch report manifest field budget = Ok false.
Proof.
  intros Hf Hu Hb Hr. unfold budget_mismatch, differs, ditem. rewrite Hf, Hb, Hr. cbn [type_is_int negb int_of orb].
  destruct (used <=? 0) eqn:Hz; [lia|]. run_ok. cbn. unfold z_order. replace (used <=? limit) with true by lia. run_ok.
  by rewrite Z.eqb_refl.
Qed.

Lemma plain_accepted fqbn : flash <= 1024 * 1024 -> ram <= 192 * 1024 -> dget manifest "fqbn" = Some (JStr fqbn) -> exists facts, verify_outputs s_after nano_resident manifest = Ok facts.
Proof.
  intros Hflash Hram Hq. destruct (plain_report a _ _ _ _ _ _ Hplain Hrep) as (name & fqbn' & elf & uf2 & sources & Hn & Hq' & He & Hu & Hs & E).
  assert (fqbn' = JStr fqbn) as -> by congruence. destruct (nm_board _ Hm) as [b Hb]. assert (name = JStr b) as -> by congruence.
  destruct (pr_text _ _ Hp) as [Ht Hj]. destruct (pr_images _ _ Hp) as (ed & ud & api & fl & n & Hed & Hud & Ha & Hc).
  destruct (inventory_accepted sources Hs) as [Hinv Hall].
  assert (Hsrc : dget report "source_sha256" = Some (JObj sources)) by by rewrite E.
  assert (Hfl : 0 < flash) by (eapply (pr_sizes _ _ Hp "flash_bytes"); [left|by rewrite E]).
  assert (Hra : 0 < ram) by (eapply (pr_sizes _ _ Hp "static_ram_bytes"); [right; left|by rewrite E]).
  assert (Hget : forall key v, dget report key = Some v -> jget report key = v) by (intros key x Hx; unfold jget; by rewrite Hx).
  eexists. unfold verify_outputs. apply bind_Ok. eexists. split; [by apply capture_at|]. apply bind_Ok. eexists. split; [exact Hj|].
  apply bind_Ok. eexists. split; [reflexivity|]. apply bind_Ok. exists false. split.
  { unfold profile_mismatch, differs. rewrite (Hget "status" (JStr resident_status)) by (rewrite E; reflexivity).
    rewrite (Hget "board" (JStr b)) by (rewrite E; reflexivity).
    rewrite (Hget "core" (JStr "rp2040:rp2040@6.0.0")) by (rewrite E; reflexivity).
    rewrite (Hget "fqbn" (JStr fqbn)) by (rewrite E; reflexivity).
    rewrite (Hget "upload_target" managed_upload_target) by (rewrite E; reflexivity).
    unfold ditem. rewrite Hb, Hq. run_ok. rewrite !py_eq_str_refl. run_ok. reflexivity. }
  apply raise_when_bind. split; [done|]. apply bind_unit. split.
  { apply for_each_Ok. repeat apply Forall_cons_2; [| |apply Forall_nil_2]; apply bind_Ok; exists false; (split; [|done]).
    - apply (budget_accepted _ _ flash (1024 * 1024)); [by apply Hget; rewrite E|lia|apply Hm|by apply Hget; rewrite E].
    - apply (budget_accepted _ _ ram (192 * 1024)); [by apply Hget; rewrite E|lia|apply Hm|by apply Hget; rewrite E]. }
  apply bind_Ok. exists sources. split.
  { rewrite (Hget _ _ Hsrc), Hinv. pose proof (pr_count _ _ Hp sources Hsrc) as Hcnt. destruct (256 <? blen sources) eqn:Hz; [lia|done]. }
  apply bind_unit. split; [exact Hall|].
  apply bind_Ok. exists ed. split.
  { apply (artifact_accepted "elf" (elf_path nano_resident) ELF_LIMIT ed elf); [reflexivity|done|exact Hed|exact He|by apply Hget; rewrite E]. }
  apply bind_Ok. exists ud. split.
  { apply (artifact_accepted "uf2" (uf2_path nano_resident) UF2_LIMIT ud uf2); [reflexivity|done|exact Hud|exact Hu|by apply Hget; rewrite E]. }
  apply bind_Ok. exists (api, fl). split; [exact Ha|]. apply bind_Ok. exists n. split; [exact Hc|reflexivity].
Qed.
End Accepted.

(** C11: The resident build and the managed profile agree. When a build of the plain variant returned, the manifest it read
    names the board and the fixed budgets, and the contents are presentable - the report reads back as written, the
    sources are bounded files of safe names without links, the ELF and the UF2 pass their own checks - then
    [verify_outputs] accepts what the build left: status, board, core, fqbn, upload target, both budgets, the
    completeness and digests of the inventory, and the digests of both artifacts agree between the two programs. *)
Theorem resident_report_verified `{codec : !Json} `{packing : !Packing} `{pairs : !JsonPairs} env a s s' report k text manifest :
  plain a -> leaves env (report_in (ra_output a)) -> resident_build a env [] s = (s', Ok report, k) ->
  sh_files s !! "boards/nano_rp2040_connect/baseline.json" = Some text -> json_loads text = Ok (JObj manifest) ->
  nano_manifest manifest -> presentable s' report -> exists facts, verify_outputs s' nano_resident manifest = Ok facts.
Proof.
  intros Hpl Hl Hb Ht Hj Hm Hp. pose proof (resident_build_triple env a Hl (sh_files s) s [] (conj eq_refl eq_refl)) as H. cbn [app] in H.
  rewrite Hb in H. destruct H as (v & [(text' & board & fqbn & flash & ram & address & size & Ht' & Hj' & Hq & Hc & _ & Hr)] & ->).
  assert (text' = text) as -> by congruence. assert (board = JObj manifest) as -> by congruence.
  destruct Hc as (log & missing & _ & _ & Hf & Hram). apply some_or_Ok in Hq.
  by apply (plain_accepted v manifest report flash ram (address, size) a Hpl Hr Hm Hp fqbn).
Qed.

(** ** A resident build of the demonstration image *)
Module ResidentDemo.
Definition bin : string := "/overlay/data/packages/rp2040/tools/pqt-gcc/5.0.0-9576866/bin".
Definition arguments : resident_args := {|
  ra_cli := "arduino-cli"; ra_config := "/overlay/arduino-cli.yaml"; ra_output := nano_resident;
  ra_allocation := false; ra_runtime := false; ra_upload := false; ra_checkpoint := None |}.

Definition disk : files :=
  list_to_map ((fun path => (path, ascii path)) <$> listed_sources) ∪
  list_to_map [("src/core/version.h", ascii "version"); (bin +:+ "/arm-none-eabi-nm", ascii "nm"); (bin +:+ "/arm-none-eabi-objdump", ascii "objdump");
    (nano_resident +:+ "/report.json", ascii "old")]%string.

Definition manifest : dict json :=
  [("board", JStr "nano_rp2040_connect"); ("fqbn", JStr "rp2040:rp2040:arduino_nano_connect");
   ("flash_budget_bytes", JInt (1024 * 1024)); ("static_ram_budget_bytes", JInt (192 * 1024))].

#[local] Instance codec : Json := {
  json_loads b :=
    if bool_decide (b = ascii "version") then Ok (JObj [("VersionString", JStr "1.5.1")])
    else if bool_decide (b = ascii "cores") then
      Ok (JObj [("platforms", JArr [JObj [("id", JStr "rp2040:rp2040"); ("installed_version", JStr "6.0.0")]])])
    else Ok (JObj manifest);
  json_dumps _ := [] }.
#[local] Instance packing : Packing := { json_pretty _ := ascii "report"; zip_file _ := [] }.

Definition symbols (address : string) : string := address +:+ " 00000040 T " +:+ park_name +:+ String line_break "20000200 00000010 T other".
Definition listing (code : string) : string := "20000100 <" +:+ park_name +:+ ">:" +:+ String line_break code.

(** A toolchain that prints this symbol table and this disassembly *)
Definition env (address code : string) : environment shell_ret := fun h c =>
  match c with
  | Op _ _ => Ok tt
  | Environ _ | Which _ => Ok None
  | Process cwd command before =>
      if existsb (String.eqb "version") command then Ok (ProfileDemo.finished "version" before)
      else if existsb (String.eqb "core") command then Ok (ProfileDemo.finished "cores" before)
      else if existsb (String.eqb "-S") command then Ok (ProfileDemo.finished (symbols address) before)
      else if existsb (String.eqb "-d") command then Ok (ProfileDemo.finished (listing code) before)
      else Ok (ProfileDemo.finished BuildDemo.log (<[elf_path nano_resident := demo_elf]> (<[uf2_path nano_resident := demo_uf2]> before)))
  end.

Definition start : shell := {| sh_files := disk; sh_links := ∅; sh_report := [] |}.
Definition run (address code : string) : shell * result (dict json) * list shell_call :=
  resident_build arguments (env address code) [] start.

Definition good : shell * result (dict json) * list shell_call := run "20000100" "nop".
Definition report : dict json := Eval vm_compute in match good.1.2 with Ok report => report | Raise _ => [] end.

Example resident_reported : good.1.2 = Ok report /\ jget report "core1_park_ram_address" = JStr "0x20000100" /\
  jget report "core1_park_bytes" = JInt 64 /\ sh_files good.1.1 !! (nano_resident +:+ "/report.json")%string = Some (ascii "report").
Proof. vm_compute. by split_and!. Qed.

(** A function in flash, a call, and a load from the pool: the report of before is gone. *)
Definition refused (address code : string) : bool :=
  negb (is_ok (run address code).1.2) && bool_decide (sh_files (run address code).1.1 !! (nano_resident +:+ "/report.json")%string = None).

Example resident_refused : refused "10000100" "nop" = true /\ refused "20000100" "bl 20000200" = true /\
  refused "20000100" "blx r3" = true /\ refused "20000100" "ldr r3, [pc, #8]" = true.
Proof. vm_compute. by split_and!. Qed.

(** When a requirement fails, the report of before is still there. *)
Definition no_tools : environment shell_ret := fun _ c =>
  match c with Op _ _ => Ok tt | Environ _ | Which _ => Ok None | Process _ _ _ => Raise (OSError "No such file or directory") end.

Example old_report_kept : let '(s, r, _) := resident_build arguments no_tools [] start in
  is_ok r = false /\ sh_files s !! (nano_resident +:+ "/report.json")%string = Some (ascii "old").
Proof. vm_compute. by split. Qed.

Lemma resident_env_leaves address code : leaves (env address code) (report_in nano_resident).
Proof.
  intros k cwd command f p. cbn [env]. repeat destruct (existsb _ _); try by intros [= <-].
  intros [= <-]. cbn. by rewrite !lookup_insert_ne.
Qed.

#[local] Instance pairs : JsonPairs := { json_pairs _ := Ok (JObj report) }.

Lemma good_presentable : presentable good.1.1 report.
Proof.
  constructor.
  - split; [apply capture_Ok; vm_compute; reflexivity|vm_compute; reflexivity].
  - intros field z Hin. apply elem_of_cons in Hin as [->|[->|[]%elem_of_nil]%elem_of_cons]; vm_compute; by intros [= <-].
  - assert (H : forallb (fun name => is_ok (verify_source good.1.1 (name, JStr (sha (default [] (sh_files good.1.1 !! name))))))
      (resident_sources (sh_files good.1.1)) = true) by (vm_compute; reflexivity).
    rewrite forallb_forall in H. intros name Hin%list_elem_of_In. apply H in Hin. by destruct (verify_source _ _) as [[]|].
  - intros sources H. assert (E : dget report "source_sha256" = Some (JObj (match jget report "source_sha256" with JObj d => d | _ => [] end))) by reflexivity.
    rewrite E in H. injection H as <-. vm_compute. discriminate.
  - vm_compute. by eexists.
  - exists demo_elf, demo_uf2, demo_facts, [(demo_page_address, demo_page)], (blen demo_page).
    split_and!; [apply capture_Ok; vm_compute; reflexivity..|vm_compute; reflexivity|vm_compute; reflexivity].
Qed.
End ResidentDemo.
#[local] Existing Instances ResidentDemo.codec ResidentDemo.packing ResidentDemo.pairs.

Lemma resident_build_outcome_witness : leaves (ResidentDemo.env "20000100" "nop") (report_in nano_resident) /\
  let '(s, r, k) := ResidentDemo.good in resident_left (ResidentDemo.env "20000100" "nop") ResidentDemo.arguments ResidentDemo.disk s r k.
Proof.
  pose proof (ResidentDemo.resident_env_leaves "20000100" "nop") as Hl. split; [exact Hl|].
  pose proof (resident_build_outcome (ResidentDemo.env "20000100" "nop") ResidentDemo.arguments ResidentDemo.start Hl) as H.
  unfold ResidentDemo.good, ResidentDemo.run. exact H.
Defined.

Lemma resident_report_verified_witness : exists facts,
  verify_outputs ResidentDemo.good.1.1 nano_resident ResidentDemo.manifest = Ok facts.
Proof.
  destruct ResidentDemo.good as [[s' r] k] eqn:E. assert (Hs : s' = ResidentDemo.good.1.1) by by rewrite E.
  assert (Hr : r = ResidentDemo.good.1.2) by by rewrite E.
  assert (Hok : ResidentDemo.good.1.2 = Ok ResidentDemo.report) by (vm_compute; reflexivity). rewrite Hok in Hr. subst r.
  cbn [fst snd].
  apply (resident_report_verified (ResidentDemo.env "20000100" "nop") ResidentDemo.arguments ResidentDemo.start s' ResidentDemo.report k
    (ascii "boards/nano_rp2040_connect/baseline.json")).
  - constructor; reflexivity.
  - exact (ResidentDemo.resident_env_leaves "20000100" "nop").
  - exact E.
  - vm_compute. reflexivity.
  - vm_compute. reflexivity.
  - constructor; [eexists|..]; reflexivity.
  - rewrite Hs. exact ResidentDemo.good_presentable.
Defined.
