(* ===== verification/FlashInitial.v ===== *)
(** * Initial flashing: experiments/managed_sketch/flash_initial.py

    One composite image is built again, compared with the digest that was reviewed, and installed: through picotool,
    which first has to name the flash of the selected board, or by a copy to a mounted bootloader. The theorem says in
    which order the programs are run and what reaches the board. *)

From stdpp Require Import base tactics list list_numbers strings gmap.
From Stdlib Require Import ZArith Lia Ascii.
From S2P Require Import Prelude.
From S2P Require Import PyBytes.
From S2P Require Import Sha256.
From S2P Require Import PyText.
From S2P Require Import PyStr.
From S2P Require Import PyRegex.
From S2P Require Import PyDict.
From S2P Require Import PyJson.
From S2P Require Import Effects.
From S2P Require Import Ipv4.
From S2P Require Import Stateful.
From S2P Require Import Release.
From S2P Require Import Dev.
From S2P Require Import ResidentSource.
From S2P Require Import ResidentExport.
From S2P Require Import Shell.
From S2P Require Import ResidentBuild.

Local Open Scope Z_scope.

(** ** The ROM flash ID *)
Fixpoint one_char (s : string) : regex :=
  match s with EmptyString => Lit "" | String c EmptyString => Lit (String c "") | String c s => Lit (String c "") ⊕ one_char s end.
Fixpoint times (n : nat) (r : regex) : regex := match n with O => Lit "" | 1%nat => r | S n => r ⊙ times n r end.

Definition flash_id_line : regex :=
  LineStart ⊙ Many re_space 0 ⊙ Lit "flash id:" ⊙ Many re_space 0 ⊙ Lit "0x" ⊙ Group (times 16 (one_char "0123456789abcdefABCDEF"))
  ⊙ Many re_space 0 ⊙ LineEnd.

Example flash_ids : let text := ("Device:" +:+ String line_break "  flash id:  0xE660A4931713AB12" +:+ String line_break "x")%string in
  findall flash_id_line text = [["E660A4931713AB12"]] /\ findall flash_id_line "flash id: 0x123" = [].
Proof. vm_compute. by split. Qed.

Definition check_flash_id (flash_id info : string) : result unit :=
  match findall flash_id_line info with
  | [[observed]] => raise_when (negb (bool_decide (lower observed = flash_id))) (RuntimeError "ROM flash ID does not match selected Nano")
  | _ => Raise (RuntimeError "ROM flash ID does not match selected Nano")
  end.

(** ** The arguments *)
Inductive transport := Mount (path : string) | Picotool (path : string).

Record initial_args := {
  ia_sketch : string; ia_transport : transport; ia_flash_id : option string; ia_expected : string;
  ia_resident : string; ia_module : string; ia_output : string }.

Definition parser_error (m : string) : exn := SystemExit m.

(** The digest and the flash ID in lower case *)
Definition check_initial_args (a : initial_args) : result (string * string) :=
  let expected := lower (ia_expected a) in
  raise_when (negb (fullmatch is_hex_lower 64 expected)) (parser_error "--expected-uf2-sha256 must be 64 hexadecimal digits");;
  let flash_id := lower (default "" (ia_flash_id a)) in
  match ia_transport a with
  | Picotool _ => raise_when (negb (fullmatch is_hex_lower 16 flash_id))
                    (parser_error "--picotool requires --expected-flash-id with 16 hexadecimal digits")
  | Mount _ => raise_when (match ia_flash_id a with Some (String _ _) => true | _ => false end)
                 (parser_error "--expected-flash-id applies only with --picotool")
  end;;
  mret (expected, flash_id).

Section FlashInitial.
Context `{codec : !Json} (resolve : string -> string) (is_mount : string -> bool) (python : string).

(** [path.resolve(strict=True)] *)
Definition resolve_strict (s : shell) (path : string) : result string :=
  raise_when (negb (there s (resolve path))) (OSError "No such file or directory");;
  mret (resolve path).

(** A mounted ROM bootloader *)
Definition check_mount (s : shell) (path : string) : result string :=
  mount ← resolve_strict s path;
  raise_when (is_file (sh_files s) mount || negb (is_mount mount)) (parser_error "--mount must select an existing mounted volume");;
  info ← read (sh_files s) (mount +:+ "/INFO_UF2.TXT");
  raise_when (negb (contains "Board-ID: RPI-RP2" (PyStr.text info)))
    (parser_error "selected volume does not identify an RP2040 ROM bootloader");;
  mret mount.

Definition composite_command (a : initial_args) : list string :=
  [python; "experiments/managed_sketch/build_composite.py"; "--sketch"; ia_sketch a; "--resident-dir"; ia_resident a;
   "--module-dir"; ia_module a; "--output-dir"; ia_output a].

Definition composite_status : string := "ROM-only initial proof image; not flashed or hardware-verified".

Definition composite_image (a : initial_args) : string := resolve (ia_output a) +:+ "/" +:+ ia_sketch a +:+ "-initial-rom-only.uf2".

(** The image as it was reviewed *)
Definition check_reviewed (f : files) (a : initial_args) (expected : string) : result unit :=
  report ← load f (resolve (ia_output a) +:+ "/" +:+ ia_sketch a +:+ "-report.json");
  let wrong := RuntimeError "reviewed SHA-256 does not match the current composite UF2" in
  raise_when (negb (py_eq (jget report "status") (JStr composite_status))
      || negb (py_eq (jget report "board") (JStr "nano_rp2040_connect"))
      || negb (py_eq (jget report "sketch") (JStr (ia_sketch a)))
      || negb (py_eq (jget report "composite_uf2_sha256") (JStr expected))) wrong;;
  actual ← digest f (composite_image a);
  raise_when (negb (bool_decide (actual = expected))) wrong.

Definition check_picotool (tool : string) : result unit :=
  raise_when (negb (bool_decide (path_name tool = "picotool")) || negb (bool_decide (path_name (parent tool) = "5.0.0-9576866"))
      || negb (bool_decide (path_name (parent (parent tool)) = "pqt-picotool")))
    (ValueError "--picotool must select pinned pqt-picotool/5.0.0-9576866").

Definition load_command (tool image : string) : list string := [tool; "load"; "-v"; image; "-t"; "uf2"].
Definition verify_command (tool image : string) : list string := [tool; "verify"; image; "-t"; "uf2"].

Definition install_with_picotool (picotool flash_id image : string) : sh unit :=
  s ← st_get;
  tool ← st_pure (resolve_strict s picotool);
  st_pure (check_picotool tool);;
  info ← run_checked [tool; "info"; "-a"];
  st_pure (check_flash_id flash_id info);;
  _ ← run_checked (load_command tool image);
  _ ← run_checked (verify_command tool image);
  _ ← run_checked [tool; "reboot"];
  mret tt.

Definition copy_to_volume (image target : string) : sh unit :=
  f ← files_now;
  data ← st_pure (read f image);
  op "open" target (on_files <[target := []]>);;
  op "copy" target (on_files <[target := data]>);;
  op "flush" target id;;
  op "fsync" target id.

Definition flash_initial (a : initial_args) : sh unit :=
  ' (expected, flash_id) ← st_pure (check_initial_args a);
  s ← st_get;
  mount ← st_pure (match ia_transport a with Mount path => Some <$> check_mount s path | Picotool _ => mret None end);
  _ ← run_checked (composite_command a);
  f ← files_now;
  st_pure (check_reviewed f a expected);;
  match ia_transport a, mount with
  | Picotool path, _ => install_with_picotool path flash_id (composite_image a)
  | Mount _, Some mount => copy_to_volume (composite_image a) (mount +:+ "/FIRMINGO-M7.UF2")
  | Mount _, None => mret tt
  end.
End FlashInitial.

(** ** What is run, and in which order *)
Definition commands (k : list shell_call) : list (list string) :=
  omap (fun c => match c with Process _ command _ => Some command | _ => None end) k.

Lemma commands_process k cwd command f : commands (k ++ [Process cwd command f]) = commands k ++ [command].
Proof. unfold commands. by rewrite omap_app. Qed.

Lemma commands_op k operation path : commands (k ++ [Op operation path]) = commands k.
Proof. unfold commands. by rewrite omap_app, app_nil_r. Qed.

Section Installed.
Context `{codec : !Json} (resolve : string -> string) (is_mount : string -> bool) (python : string) (env : environment shell_ret) (a : initial_args).

Abbreviation image := (composite_image resolve a).
Definition info_command (tool : string) : list string := [tool; "info"; "-a"].
Definition steps (tool : string) : list (list string) :=
  [composite_command python a; info_command tool; load_command tool image; verify_command tool image; [tool; "reboot"]].

(** The store holds the image that was reviewed. *)
Definition reviewed (f : files) : Prop := exists data, f !! image = Some data /\ sha data = lower (ia_expected a).

(** The tool named exactly one flash, the selected one. *)
Definition identified (tool : string) (k : list shell_call) : Prop :=
  exists h before p observed, Process "" (info_command tool) before ∈ k /\ env h (Process "" (info_command tool) before) = Ok p /\
    findall flash_id_line (pr_output p) = [[observed]] /\ lower observed = lower (default "" (ia_flash_id a)).

(** The stores that the load was started with *)
Definition loads (tool : string) (k : list shell_call) : list files :=
  omap (fun c => match c with
                 | Process _ command before => if decide (command = load_command tool image) then Some before else None
                 | _ => None
                 end) k.

Lemma loads_more tool k command f : loads tool (k ++ [Process "" command f]) =
  loads tool k ++ if decide (command = load_command tool image) then [f] else [].
Proof. unfold loads. rewrite omap_app. f_equal. cbn. by case_decide. Qed.

(** The commands so far are the first ones of the sequence, and a load had the reviewed image and the selected board. *)
Definition in_order (tool : string) (k : list shell_call) : Prop :=
  commands k `prefix_of` steps tool /\
  Forall reviewed (loads tool k) /\ (loads tool k <> [] -> identified tool k).

(** The files of before, or those that the composite build left *)
Definition composite_left (f g : files) : Prop :=
  g = f \/ exists h before p, env h (Process "" (composite_command python a) before) = Ok p /\ pr_files p = g.

(** A copy to the volume changes the target only, and the whole image is the reviewed one. *)
Definition volume_written (f : files) (target : string) (h : files) (complete : bool) : Prop :=
  exists g data, composite_left f g /\ if complete then h = <[target := data]> g /\ sha data = lower (ia_expected a)
    else h = g \/ h = <[target := []]> g \/ h = <[target := data]> g /\ sha data = lower (ia_expected a).

(** What a run does to the board *)
Definition installed (f : files) (s : shell) (r : result unit) (k : list shell_call) : Prop :=
  match ia_transport a with
  | Picotool path => in_order (resolve path) k /\ (r = Ok tt -> commands k = steps (resolve path))
  | Mount path =>
      let target := (resolve path +:+ "/FIRMINGO-M7.UF2")%string in
      commands k `prefix_of` [composite_command python a] /\ volume_written f target (sh_files s) (is_ok r) /\
      (sh_files s <> f -> bootloader f (resolve path) /\ is_mount (resolve path) = true)
  end.

Lemma check_initial_args_Ok expected flash_id : check_initial_args a = Ok (expected, flash_id) ->
  expected = lower (ia_expected a) /\ flash_id = lower (default "" (ia_flash_id a)).
Proof.
  unfold check_initial_args. intros [_ H]%raise_when_bind. apply bind_unit in H as [_ H]. by apply mret_Ok in H as [= -> ->].
Qed.

Lemma check_reviewed_Ok f : check_reviewed resolve f a (lower (ia_expected a)) = Ok tt -> reviewed f.
Proof.
  unfold check_reviewed. intros (report & _ & H)%bind_Ok. apply raise_when_bind in H as [_ H].
  apply bind_Ok in H as (actual & (data & Hd & ->)%digest_Ok & H%raise_when_Ok%negb_false_iff%bool_decide_eq_true). by exists data.
Qed.

Lemma check_flash_id_Ok flash_id info : check_flash_id flash_id info = Ok tt ->
  exists observed, findall flash_id_line info = [[observed]] /\ lower observed = flash_id.
Proof.
  unfold check_flash_id. destruct (findall flash_id_line info) as [|[|x []] []] eqn:E; try done.
  intros H%raise_when_Ok%negb_false_iff%bool_decide_eq_true. by exists x.
Qed.

(** A checked command from a known state *)
Lemma checked_from (s0 : shell) (k0 : list shell_call) command (E : exn -> shell -> list shell_call -> Prop) :
  (forall e s, E e s (k0 ++ [Process "" command (sh_files s0)])) -> triple env [] (fun s k => s = s0 /\ k = k0) (run_checked command)
  (fun text s k => exists p, env k0 (Process "" command (sh_files s0)) = Ok p /\ text = pr_output p /\
     s = on_files (fun _ => pr_files p) s0 /\ k = k0 ++ [Process "" command (sh_files s0)])
  E.
Proof.
  intros HE. unfold run_checked. eapply triple_bind with (R := fun p s k => env k0 (Process "" command (sh_files s0)) = Ok p /\
    s = on_files (fun _ => pr_files p) s0 /\ k = k0 ++ [Process "" command (sh_files s0)]).
  - apply process_triple; [by intros s k p [-> ->] Hp|intros s k e [-> ->] _; apply HE].
  - intros p. apply triple_from. intros s k (Hp & -> & ->). eapply triple_bind; [apply pure_from; intros e _; apply HE|intros u].
    apply triple_ret. intros s k [[-> ->] _]. by exists p.
Qed.

(** One more command of the sequence *)
Lemma in_order_more tool k command f : in_order tool k -> commands k ++ [command] `prefix_of` steps tool ->
  (command = load_command tool image -> reviewed f /\ identified tool k) -> in_order tool (k ++ [Process "" command f]).
Proof.
  intros (Hp & Hr & Hi) Hc Hl. unfold in_order. rewrite commands_process, loads_more. split; [exact Hc|].
  assert (Hid : identified tool k -> identified tool (k ++ [Process "" command f])).
  { intros (h & before & p & observed & Hin & H). exists h, before, p, observed. split; [set_solver|exact H]. }
  case_decide as E; [|rewrite app_nil_r; by auto]. destruct (Hl E). split; [|by auto].
  apply Forall_app. by split; [|apply Forall_singleton].
Qed.

(** Picotool: the four commands after the composite build *)
Lemma install_triple picotool s0 f0 : let tool := resolve picotool in
  (forall h f p, env h (Process "" (info_command tool) f) = Ok p -> pr_files p !! image = f !! image) ->
  reviewed (sh_files s0) ->
  triple env [] (fun s k => s = s0 /\ k = [Process "" (composite_command python a) f0])
    (install_with_picotool resolve picotool (lower (default "" (ia_flash_id a))) image)
    (fun _ s k => in_order tool k /\ commands k = steps tool) (fun _ s k => in_order tool k).
Proof.
  intros tool Hinfo Hrev. unfold install_with_picotool. set (k0 := [Process "" (composite_command python a) f0]).
  assert (H0 : in_order tool k0).
  { apply (in_order_more tool [] (composite_command python a) f0); [|by exists (drop 1 (steps tool))|by intros [=]].
    split; [by exists (steps tool)|done]. }
  eapply triple_bind; [apply get_from|intros s]. apply triple_from. intros s' k [[-> ->] ->].
  eapply triple_bind; [by apply pure_from|intros t]. apply triple_from. intros s k [[-> ->] [_ [= <-]]%raise_when_bind].
  fold tool. eapply triple_bind; [by apply pure_from|intros u]. apply triple_from. intros s k [[-> ->] _].
  assert (H1 : in_order tool (k0 ++ [Process "" (info_command tool) (sh_files s0)])).
  { apply in_order_more; [done|by exists (drop 2 (steps tool))|by intros [=]]. }
  eapply triple_bind; [by apply checked_from|intros info].
  apply triple_from. intros s k (p & Hp & -> & -> & ->). set (k1 := k0 ++ _).
  eapply triple_bind; [by apply pure_from|intros []]. apply triple_from. intros s k [[-> ->] (observed & Hf & Ho)%check_flash_id_Ok].
  set (s1 := on_files (fun _ => pr_files p) s0).
  assert (H2 : in_order tool (k1 ++ [Process "" (load_command tool image) (sh_files s1)])).
  { apply in_order_more; [done|by exists (drop 3 (steps tool))|]. intros _. split.
    - destruct Hrev as (data & Hd & Hs). exists data. split; [|exact Hs]. cbn. apply Hinfo in Hp as ->. exact Hd.
    - exists k0, (sh_files s0), p, observed. split_and!; [set_solver|exact Hp|exact Hf|exact Ho]. }
  eapply triple_bind; [by apply checked_from|intros t2].
  apply triple_from. intros s k (p2 & _ & _ & -> & ->). set (k2 := k1 ++ _). set (s2 := on_files _ s1).
  assert (H3 : in_order tool (k2 ++ [Process "" (verify_command tool image) (sh_files s2)])).
  { apply in_order_more; [done|by exists (drop 4 (steps tool))|by intros [=]]. }
  eapply triple_bind; [by apply checked_from|intros t3].
  apply triple_from. intros s k (p3 & _ & _ & -> & ->). set (k3 := k2 ++ _). set (s3 := on_files _ s2).
  assert (H4 : in_order tool (k3 ++ [Process "" [tool; "reboot"] (sh_files s3)])).
  { apply in_order_more; [done|by exists []|by intros [=]]. }
  eapply triple_bind; [by apply checked_from|intros t4].
  apply triple_ret. intros s k (p4 & _ & _ & -> & ->). by split.
Qed.

Lemma check_mount_Ok s path mount : check_mount resolve is_mount s path = Ok mount ->
  mount = resolve path /\ bootloader (sh_files s) (resolve path) /\ is_mount (resolve path) = true.
Proof.
  unfold check_mount, resolve_strict. intros (m & [_ [= <-]]%raise_when_bind & H)%bind_Ok.
  apply raise_when_bind in H as [[_ Hm%negb_false_iff]%orb_false_iff H]. apply bind_Ok in H as (info & Hi%some_or_Ok & H).
  apply raise_when_bind in H as [Hc%negb_false_iff [= <-]]. split_and!; [done| |done]. exists info. split; [exact Hi|by apply found_iff].
Qed.

(** The four operations of the copy *)
Lemma volume_triple f target s0 k0 : composite_left f (sh_files s0) -> reviewed (sh_files s0) ->
  commands k0 = [composite_command python a] ->
  triple env [] (fun s k => s = s0 /\ k = k0) (copy_to_volume image target)
    (fun _ s k => commands k = [composite_command python a] /\ volume_written f target (sh_files s) true)
    (fun _ s k => commands k = [composite_command python a] /\ volume_written f target (sh_files s) false).
Proof.
  intros Hg (data & Hd & Hs) Hk. unfold copy_to_volume.
  set (at_ := fun (h : files) (s : shell) (k : list shell_call) => commands k = [composite_command python a] /\ sh_files s = h).
  assert (Hop : forall operation effect h h', volume_written f target h false ->
    (forall s, sh_files s = h -> sh_files (effect s) = h') -> triple env [] (at_ h) (op operation target effect) (fun _ => at_ h')
      (fun _ s k => commands k = [composite_command python a] /\ volume_written f target (sh_files s) false)).
  { intros operation effect h h' Hv He. apply op_triple; intros; unfold at_ in *; rewrite commands_op; destruct H as [Hc Hf]; (split; [exact Hc|]).
    - by apply He.
    - by rewrite Hf. }
  unfold files_now. eapply triple_bind with (R := fun g s k => (s = s0 /\ k = k0) /\ g = sh_files s0).
  { eapply triple_bind; [apply get_from|]. intros g. apply triple_ret. intros s k [H ->]. by split. }
  intros g. apply triple_from. intros s k [[-> ->] ->]. unfold read. rewrite Hd.
  eapply triple_bind with (R := fun x s k => x = data /\ at_ (sh_files s0) s k); [by apply triple_pure; intros s k [-> ->]|].
  intros x. apply triple_from. intros s k [-> Hat].
  eapply triple_bind with (R := fun _ => at_ (<[target := []]> (sh_files s0))).
  { eapply triple_weaken; [apply (Hop "open" _ (sh_files s0)); [exists (sh_files s0), data; by auto|intros s' Hs'; cbn; by rewrite Hs']|by intros s' k' [-> ->]|done|done]. }
  intros u1. eapply triple_bind with (R := fun _ => at_ (<[target := data]> (sh_files s0))).
  { apply Hop; [exists (sh_files s0), data; by auto|]. intros s' Hs'. cbn. rewrite Hs'. apply insert_insert_eq. }
  assert (Hfull : volume_written f target (<[target := data]> (sh_files s0)) false) by (exists (sh_files s0), data; by auto).
  intros u2. eapply triple_bind with (R := fun _ => at_ (<[target := data]> (sh_files s0))); [by apply Hop|intros u3].
  eapply triple_weaken; [by apply (Hop "fsync" id (<[target := data]> (sh_files s0)) (<[target := data]> (sh_files s0)))|done| |done].
  intros u s' k' [Hc Hf]. split; [exact Hc|]. exists (sh_files s0), data. by rewrite Hf.
Qed.

(** The whole run *)
Lemma flash_initial_triple s0 :
  (forall path, ia_transport a = Picotool path -> forall h f p, env h (Process "" (info_command (resolve path)) f) = Ok p -> pr_files p !! image = f !! image) ->
  triple env [] (fun s k => s = s0 /\ k = []) (flash_initial resolve is_mount python a)
    (fun u s k => installed (sh_files s0) s (Ok u) k) (fun e s k => installed (sh_files s0) s (Raise e) k).
Proof.
  intros Hinfo. unfold flash_initial. set (c := Process "" (composite_command python a) (sh_files s0)).
  assert (Hnone : forall e, installed (sh_files s0) s0 (Raise e) []).
  { intros e. unfold installed. destruct (ia_transport a); [|split; [|done]].
    - split_and!; [by exists [composite_command python a]| |done]. exists (sh_files s0), []. split; [by left|]. by left.
    - split_and!; [by exists (steps (resolve path))|done|done]. }
  eapply triple_bind; [apply pure_from; intros e _; apply Hnone|intros [expected flash_id]].
  apply triple_from. intros s k [[-> ->] [-> ->]%check_initial_args_Ok].
  eapply triple_bind; [apply get_from|intros s]. apply triple_from. intros s' k [[-> ->] ->].
  eapply triple_bind; [apply pure_from; intros e _; apply Hnone|intros mount]. apply triple_from. intros s k [[-> ->] Hmount].
  assert (Hvolume : forall path, ia_transport a = Mount path -> mount = Some (resolve path) /\ bootloader (sh_files s0) (resolve path) /\ is_mount (resolve path) = true).
  { intros path E. rewrite E in Hmount. apply fmap_Ok in Hmount as (m & (-> & Hb)%check_mount_Ok & ->). done. }
  assert (Hran : forall e s, composite_left (sh_files s0) (sh_files s) -> installed (sh_files s0) s (Raise e) [c]).
  { intros e s Hl. unfold installed. destruct (ia_transport a) as [path|path].
    - split_and!; [by exists []| |intros _; by apply (Hvolume path)]. exists (sh_files s), []. split; [exact Hl|]. by left.
    - split; [|done]. split; [by exists (drop 1 (steps (resolve path)))|]. split; cbn; rewrite decide_False by (intros [=]); done. }
  eapply triple_bind with (R := fun _ s k => k = [c] /\ composite_left (sh_files s0) (sh_files s)).
  { unfold run_checked. eapply triple_bind with (R := fun p s k => env [] c = Ok p /\ s = on_files (fun _ => pr_files p) s0 /\ k = [c]).
    - apply process_triple; [by intros s k p [-> ->] Hp|]. intros s k e [-> ->] _. apply Hran. by left.
    - intros p. apply triple_from. intros s k (Hp & -> & ->).
      assert (Hl : composite_left (sh_files s0) (pr_files p)) by (right; by exists [], (sh_files s0), p).
      eapply triple_bind; [apply pure_from; intros e _; by apply Hran|intros u]. apply triple_ret. by intros s k [[-> ->] _]. }
  intros text. apply triple_from. intros s1 k1 [-> Hl].
  unfold files_now. eapply triple_bind with (R := fun g s k => (s = s1 /\ k = [c]) /\ g = sh_files s1).
  { eapply triple_bind; [apply get_from|]. intros g. apply triple_ret. intros s k [H ->]. by split. }
  intros g. apply triple_from. intros s k [[-> ->] ->].
  eapply triple_bind; [apply pure_from; intros e _; by apply Hran|intros []]. apply triple_from. intros s k [[-> ->] Hrev%check_reviewed_Ok].
  unfold installed. destruct (ia_transport a) as [path|path] eqn:Et.
  - destruct (Hvolume path eq_refl) as (-> & Hb & Hm).
    eapply triple_weaken; [by apply (volume_triple (sh_files s0) (resolve path +:+ "/FIRMINGO-M7.UF2") s1 [c])|done| |];
      intros x s k [Hk Hv]; split_and!; try done; rewrite Hk; by exists [].
  - eapply triple_weaken; [apply (install_triple path s1 (sh_files s0)); [exact (Hinfo path eq_refl)|exact Hrev]|done| |].
    + intros u s k [Ho Hk]. by split.
    + intros e s k Ho. by split.
Qed.
End Installed.

(** C12: Nothing but the reviewed image is installed. Through picotool, which leaves the image file alone while it only
    names the board: the programs run are the first ones of the sequence composite build, info, load, verify, reboot, in
    this order, and all of them when the run returns; the load is started only with an image of exactly the reviewed
    digest, after info named exactly one flash, the selected one. By a copy: only the composite build is run, the
    volume was a mounted bootloader before anything changed, only the target is written, and a run that returns left the image
    with the reviewed digest there. *)
Theorem initial_only_reviewed `{codec : !Json} resolve is_mount python (env : environment shell_ret) a s :
  (forall path, ia_transport a = Picotool path -> forall h f p,
     env h (Process "" (info_command (resolve path)) f) = Ok p -> pr_files p !! composite_image resolve a = f !! composite_image resolve a) ->
  let '(s', r, k) := flash_initial resolve is_mount python a env [] s in
  installed resolve is_mount python env a (sh_files s) s' r k.
Proof.
  intros Hinfo. pose proof (flash_initial_triple resolve is_mount python env a s Hinfo s [] (conj eq_refl eq_refl)) as H. cbn [app] in H.
  destruct (flash_initial _ _ _ a env [] s) as [[s' [u|e]] k]; exact H.
Qed.

(** ** Two installations and three refusals *)
Module InitialDemo.
Definition picotool_path : string := "/tools/pqt-picotool/5.0.0-9576866/picotool".
Definition volume : string := "/Volumes/RPI-RP2".
Definition image_data : bytes := ascii "composite".

Definition arguments (t : transport) (flash_id : option string) (expected : string) : initial_args := {|
  ia_sketch := "blink_a"; ia_transport := t; ia_flash_id := flash_id; ia_expected := expected;
  ia_resident := "resident"; ia_module := "module"; ia_output := "out" |}.

Definition disk : files :=
  <[picotool_path := ascii "picotool"]> {[volume +:+ "/INFO_UF2.TXT" := ascii "Board-ID: RPI-RP2"]}%string.

#[local] Instance codec : Json := {
  json_loads _ := Ok (JObj [("status", JStr composite_status); ("board", JStr "nano_rp2040_connect"); ("sketch", JStr "blink_a");
    ("composite_uf2_sha256", JStr (sha image_data))]);
  json_dumps _ := [] }.

(** The composite build writes its report and image; picotool prints a flash ID. *)
Definition env (id : string) : environment shell_ret := fun h c =>
  match c with
  | Op _ _ => Ok tt
  | Environ _ | Which _ => Ok None
  | Process cwd command before =>
      if existsb (String.eqb "--sketch") command then
        Ok {| pr_code := 0; pr_output := ""; pr_files := <["out/blink_a-report.json" := ascii "report"]> (<["out/blink_a-initial-rom-only.uf2" := image_data]> before) |}
      else Ok {| pr_code := 0; pr_output := "flash id: 0x" +:+ id; pr_files := before |}
  end.

Definition start : shell := {| sh_files := disk; sh_links := ∅; sh_report := [] |}.
Definition run (a : initial_args) : shell * result unit * list shell_call :=
  flash_initial id (fun p => bool_decide (p = volume)) "python3" a (env "E660A4931713AB12") [] start.

Definition by_tool : initial_args := arguments (Picotool picotool_path) (Some "e660a4931713ab12") (sha image_data).
Definition by_copy : initial_args := arguments (Mount volume) None (sha image_data).

Example both_install : (run by_tool).1.2 = Ok tt /\ length (commands (run by_tool).2) = 5%nat /\ (run by_copy).1.2 = Ok tt /\
  sh_files (run by_copy).1.1 !! (volume +:+ "/FIRMINGO-M7.UF2")%string = Some image_data.
Proof. vm_compute. by split_and!. Qed.

(** Another board, another image, and a copy with a flash ID: nothing is loaded. *)
Example installs_refused :
  length (commands (run (arguments (Picotool picotool_path) (Some "0000000000000000") (sha image_data))).2) = 2%nat /\
  length (commands (run (arguments (Picotool picotool_path) (Some "e660a4931713ab12") (sha []))).2) = 1%nat /\
  commands (run (arguments (Mount volume) (Some "e660a4931713ab12") (sha image_data))).2 = [].
Proof. vm_compute. by split_and!. Qed.

Lemma info_leaves id path : path = "out/blink_a-initial-rom-only.uf2" -> forall h f p,
  env id h (Process "" (info_command picotool_path) f) = Ok p -> pr_files p !! path = f !! path.
Proof. intros -> h f p [= <-]. done. Qed.
End InitialDemo.
#[local] Existing Instances InitialDemo.codec.

Lemma initial_only_reviewed_witness : let '(s, r, k) := InitialDemo.run InitialDemo.by_tool in
  installed id (fun p => bool_decide (p = InitialDemo.volume)) "python3" (InitialDemo.env "E660A4931713AB12") InitialDemo.by_tool InitialDemo.disk s r k.
Proof.
  pose proof (initial_only_reviewed id (fun p => bool_decide (p = InitialDemo.volume)) "python3" (InitialDemo.env "E660A4931713AB12")
    InitialDemo.by_tool InitialDemo.start) as H.
  unfold InitialDemo.run. apply H. intros path [= <-]. exact (InitialDemo.info_leaves "E660A4931713AB12" _ eq_refl).
Defined.
