(* ===== verification/PicoFixture.v ===== *)
(** * The Pico UART fixture: tools/pico_peer.py

    The build and the flashing of the test peer, with the same report as the firmware builds: [compile_image] and the
    checks of [flash] are those of Build.v and Dev.v, and so are their lemmas. [run] of this tool is the one of
    tools/dev.py. *)

From stdpp Require Import base tactics list list_numbers strings gmap.
From Stdlib Require Import ZArith Lia Ascii.
From S2P Require Import Prelude.
From S2P Require Import PyBytes.
From S2P Require Import Sha256.
From S2P Require Import PyStr.
From S2P Require Import PyRegex.
From S2P Require Import PyDict.
From S2P Require Import PyJson.
From S2P Require Import Effects.
From S2P Require Import Ipv4.
From S2P Require Import Stateful.
From S2P Require Import Release.
From S2P Require Import Dev.
From S2P Require Import ResidentSource.
From S2P Require Import ResidentExport.
From S2P Require Import Shell.
From S2P Require Import UsbCore.
From S2P Require Import DevTools.
From S2P Require Import ManagedProfile.
From S2P Require Import Build.

Local Open Scope Z_scope.

Definition peer_sketch : string := "tests/hardware/pico_uart_peer".
Definition peer_out : string := "build/hardware/pico_uart_peer".
Definition peer_fqbn : string :=
  "rp2040:rp2040:rpipico:flash=2097152_0,freq=125,opt=Small,rtti=Disabled,exceptions=Disabled,usbstack=picosdk,ipbtstack=ipv4only".
Definition peer_core : string := "rp2040:rp2040".

Definition peer_sources : list string := [peer_sketch +:+ "/pico_uart_peer.ino"; peer_sketch +:+ "/README.md"; "tools/pico_peer.py"].

Definition peer_report (sources : dict json) (command : list string) : dict json :=
  [("fixture", JStr "pico-uart-peer-v2"); ("board", JStr "raspberry_pi_pico"); ("arduino_cli_version", JStr "1.5.1");
   ("core", JStr peer_core); ("core_version", JStr "6.0.0"); ("fqbn", JStr peer_fqbn); ("source_sha256", JObj sources);
   ("command", JArr (JStr <$> command)); ("status", JStr "failed"); ("artifacts", JObj [])].

(** [next((p.get("installed_version") for p in platforms if p.get("id") == CORE), None)] *)
Fixpoint observed_core (platforms : list json) : result json :=
  match platforms with
  | [] => mret JNull
  | p :: platforms =>
      d ← as_dict p;
      if py_eq (jget d "id") (JStr peer_core) then mret (jget d "installed_version") else observed_core platforms
  end.

Section Fixture.
Context `{codec : !Json} `{packing : !Packing}.

Definition cli_command : sh (list string) :=
  cli ← st_ask (Environ "ARDUINO_CLI");
  config ← st_ask (Environ "ARDUINO_CONFIG_FILE");
  mret (default "arduino-cli" cli :: match config with Some (String c rest) => ["--config-file"; String c rest] | _ => [] end).

Definition verify_toolchain (cli : list string) : sh unit :=
  version ← run_json (cli ++ ["version"; "--json"]);
  d ← st_pure (as_dict version);
  st_pure (raise_when (negb (py_eq (jget d "VersionString") (JStr "1.5.1"))) (RuntimeError "Arduino CLI 1.5.1 required"));;
  cores ← run_json (cli ++ ["core"; "list"; "--json"]);
  d ← st_pure (as_dict cores);
  platforms ← st_pure (items_of (jget_or d "platforms" (JArr [])));
  observed ← st_pure (observed_core platforms);
  st_pure (raise_when (negb (py_eq observed (JStr "6.0.0"))) (RuntimeError "rp2040:rp2040@6.0.0 required")).

Definition peer_command (cli : list string) : list string :=
  cli ++ ["compile"; "--fqbn"; peer_fqbn; "--warnings"; "all"; "--build-path"; peer_out +:+ "/work";
          "--output-dir"; peer_out +:+ "/artifacts"; peer_sketch].

Definition compile_peer (command : list string) : sh unit :=
  _ ← compile_image peer_out (RuntimeError "fixture compilation failed; see build.log") (RuntimeError "size summary unavailable") command;
  note "status" (JStr "compile-tested").

Definition peer_build : sh unit :=
  cli ← cli_command;
  verify_toolchain cli;;
  clear_away (peer_out +:+ "/artifacts");;
  make_dirs peer_out;;
  let command := peer_command cli in
  f ← files_now;
  sources ← st_pure (source_digests f peer_sources);
  st_modify (on_report (fun _ => peer_report sources command));;
  st_finally (compile_peer command) (save_report (report_in peer_out)).

(** ** Flashing *)
Definition peer_image : string := peer_out +:+ "/artifacts/pico_uart_peer.ino.uf2".

Definition peer_checks (f : files) (mount : string) : result unit :=
  check_bootloader f mount;;
  report ← load f (report_in peer_out);
  raise_when (negb (py_eq (jget report "status") (JStr "compile-tested"))) (RuntimeError "a successful Pico peer build is required");;
  check_sources_current f report;;
  check_artifact f report peer_image.

Definition peer_flash (mount : string) : st disk_ret files unit :=
  f ← st_get;
  st_pure (peer_checks f mount);;
  copy_image peer_image (mount +:+ "/PICOPEER.UF2").
End Fixture.

(** ** What a build leaves, and that it can be flashed *)
Section Outcome.
Context `{codec : !Json} `{packing : !Packing} (env : environment shell_ret) (Hleaves : leaves env (report_in peer_out)).

(** A compilation without earlier artifacts that the report describes *)
Definition peer_built (s : shell) (k : list shell_call) : Prop :=
  exists sources before v flash ram, source_digests before peer_sources = Ok sources /\
    (forall p, under (artifacts_in peer_out) p = true -> before !! p = None) /\ imaged env peer_out before v k flash ram /\
    jget (sh_report v) "status" = JStr "compile-tested" /\ dget (sh_report v) "source_sha256" = Some (JObj sources) /\
    s = on_files <[report_in peer_out := json_pretty (sh_report v)]> v.

Definition peer_left (f : files) (s : shell) (r : result unit) (k : list shell_call) : Prop :=
  match r with
  | Ok _ => peer_built s k
  | Raise _ => sh_files s !! report_in peer_out = f !! report_in peer_out \/
      exists d, not_yet d /\ sh_files s !! report_in peer_out = Some (json_pretty d)
  end.

Lemma compile_peer_triple sources command s1 k1 : sh_report s1 = peer_report sources command ->
  triple env [] (fun s k => s = s1 /\ k = k1) (compile_peer command)
    (fun _ s k => sh_files s !! report_in peer_out = sh_files s1 !! report_in peer_out /\ (exists flash ram, imaged env peer_out (sh_files s1) s k flash ram) /\
       jget (sh_report s) "status" = JStr "compile-tested" /\ dget (sh_report s) "source_sha256" = Some (JObj sources))
    (fun _ => kept (report_in peer_out) (sh_files s1 !! report_in peer_out) not_yet).
Proof.
  intros Hr. unfold compile_peer. eapply triple_bind; [apply compile_image_triple; [done|by rewrite Hr]|]. intros [flash ram].
  apply triple_modify. intros s k (Hf & Hsame & [Ha [Hz1 Hz2] Hp]). cbn [fst snd] in *. cbn [on_report sh_files sh_report]. rewrite Hr in Hsame. split_and!; [exact Hf| | |].
  - exists flash, ram. constructor; cbn [on_report sh_files sh_report]; [|split|exact Hp]; by rewrite dget_dset.
  - unfold jget. by rewrite dget_dset.
  - rewrite dget_dset, decide_False by done. apply Hsame. by apply (bool_decide_unpack _).
Qed.

Lemma cli_command_kept v about : keeps env [] (kept (report_in peer_out) v about) cli_command.
Proof. unfold cli_command. by keeps_tac. Qed.

Lemma verify_toolchain_kept v about cli : keeps env [] (kept (report_in peer_out) v about) (verify_toolchain cli).
Proof. unfold verify_toolchain. keeps_tac; by apply run_json_kept. Qed.

Lemma peer_build_triple f : triple env [] (fun s k => sh_files s = f) peer_build
  (fun u s k => peer_left f s (Ok u) k) (fun e s k => peer_left f s (Raise e) k).
Proof.
  set (P := kept (report_in peer_out) (f !! report_in peer_out) (fun _ => True)).
  assert (HP : forall e s k, P s k -> peer_left f s (Raise e) k) by (intros e s k [Hs _]; by left).
  eapply triple_weaken with (P' := P) (Q' := fun u s k => peer_left f s (Ok u) k) (E' := fun e s k => peer_left f s (Raise e) k);
    [|by intros s k <-|done|done].
  unfold peer_build. eapply triple_bind with (R := fun _ => P).
  { eapply triple_weaken; [apply (cli_command_kept (f !! report_in peer_out) (fun _ => True))|done|done|exact HP]. }
  intros cli. eapply triple_bind with (R := fun _ => P).
  { eapply triple_weaken; [apply (verify_toolchain_kept (f !! report_in peer_out) (fun _ => True))|done|done|exact HP]. }
  intros u1. eapply triple_bind with (R := fun _ s k => P s k /\ forall p, under (artifacts_in peer_out) p = true -> sh_files s !! p = None).
  { apply (clear_away_empty env (artifacts_in peer_out) P (fun e s k => peer_left f s (Raise e) k)).
    - intros s k [Hs Hr]. split; [|done]. cbn [on_files on_links sh_files]. by rewrite under_keep.
    - intros e s k Hs. by apply HP. }
  intros u2. eapply triple_bind with (R := fun _ s k => P s k /\ forall p, under (artifacts_in peer_out) p = true -> sh_files s !! p = None).
  { unfold make_dirs. apply op_triple; [done|]. intros e s k [Hs _]. by apply HP. }
  intros u3. apply triple_from. intros s0 k0 [Hs Hc]. unfold files_now.
  eapply triple_bind with (R := fun g s k => (s = s0 /\ k = k0) /\ g = sh_files s0).
  { eapply triple_bind; [apply get_from|]. intros g. apply triple_ret. intros s k [H ->]. by split. }
  intros g. apply triple_from. intros s k [[-> ->] ->].
  eapply triple_bind; [apply pure_from; intros e _; by apply HP|intros sources]. apply triple_from. intros s k [[-> ->] Hd].
  set (s1 := on_report (fun _ => peer_report sources (peer_command cli)) s0).
  eapply triple_bind with (R := fun _ s k => s = s1 /\ k = k0); [apply triple_modify; by intros s k [-> ->]|intros u4].
  eapply triple_finally; [by apply (compile_peer_triple sources (peer_command cli) s1 k0)|intros u|intros e]; apply receipt_triple.
  - intros s k n (_ & (flash & ram & [Ha Hz (h & command & p & missing & Hin & H)]) & Hst & Hsrc).
    exists sources, (sh_files s0), s, flash, ram. split_and!; try done. constructor; [done..|].
    exists h, command, p, missing. split; [set_solver|exact H].
  - intros e s k n (Hf & _). left. rewrite Hf. apply Hs.
  - intros s k n [_ Hn]. right. exists (sh_report s). split; [done|]. apply lookup_insert_eq.
  - intros e' s k n [Hf _]. left. rewrite Hf. apply Hs.
Qed.
End Outcome.

(** The fixture that was built is the fixture that is flashed. When the programs that the build runs leave everything
    outside its output directory and the report alone: a build that fails leaves the report of before or one that says
    "failed"; after one that returned, on a mounted bootloader and with a report that reads back as written,
    [peer_flash] finds all sources and the image as recorded and copies exactly the image among the artifacts of that
    compilation, which was begun without any. *)
Theorem peer_built_and_flashed `{codec : !Json} `{packing : !Packing} (env : environment shell_ret) s (disk : environment disk_ret) mount info data :
  leaves env (report_in peer_out) -> (forall path, under peer_out path = false -> leaves env path) ->
  (forall h c, disk h c = Ok tt) ->
  let '(s', r, k) := peer_build env [] s in
  peer_left env (sh_files s) s' r k /\
  (r = Ok tt -> sh_files s' !! (mount +:+ "/INFO_UF2.TXT")%string = Some info -> contains "Board-ID: RPI-RP2" (PyStr.text info) = true ->
   json_loads (json_pretty (sh_report s')) = Ok (JObj (sh_report s')) -> sh_files s' !! peer_image = Some data ->
   let '(g, q, _) := peer_flash mount disk [] (sh_files s') in q = Ok tt /\ g !! (mount +:+ "/PICOPEER.UF2")%string = Some data).
Proof.
  intros Hl Ho Hdisk. pose proof (peer_build_triple env Hl (sh_files s) s [] eq_refl) as H. cbn [app] in H.
  destruct (peer_build env [] s) as [[s' [[]|e]] k]; [|by split]. split; [exact H|]. intros _ Hinfo Hid Hjson Hdata.
  destruct H as (sources & before & v & flash & ram & Hd & _ & Him & Hst & Hsrc & Hs). apply source_digests_Ok in Hd as [Hn Hd].
  assert (Hsr : sh_report s' = sh_report v) by by rewrite Hs. rewrite Hsr in Hjson.
  assert (Hc : peer_checks (sh_files s') mount = Ok tt).
  { unfold peer_checks. apply bind_unit. split; [apply check_bootloader_iff; exists info; split; [done|by apply found_iff]|].
    apply bind_Ok. exists (sh_report v). split; [unfold load, read; rewrite (reported_file peer_out s' v Hs); run_ok; by rewrite Hjson|].
    apply raise_when_bind. split; [apply negb_false_iff, py_eq_str; exact Hst|]. apply bind_unit. split.
    { apply check_sources_current_iff, (reported_sources env peer_out before s' v k flash ram Ho Him Hs sources Hsrc Hd).
      intros name Hk%has_key_spec%bool_decide_eq_true%Hn. repeat (apply elem_of_cons in Hk as [->|Hk]; [reflexivity|]). by apply elem_of_nil in Hk. }
    apply check_artifact_iff. exists data. split; [exact Hdata|].
    by apply (reported_image env peer_out before s' v k flash ram Him Hs "pico_uart_peer.ino.uf2" data). }
  unfold peer_flash. unfold mbind at 1 2, st_mbind, st_bind, st_get, st_pure. rewrite Hc.
  destruct (copy_granted disk (sh_files s') _ (mount +:+ "/PICOPEER.UF2") data Hdisk Hdata []) as (g & n & Hcopy & Hg).
  cbn [app]. rewrite Hcopy. by split.
Qed.

(** ** The fixture, built and flashed *)
Module FixtureDemo.
Definition image : bytes := ascii "peer".
Definition disk : files :=
  list_to_map ((fun path => (path, ascii path)) <$> peer_sources) ∪ {[("/Volumes/RPI-RP2" +:+ "/INFO_UF2.TXT")%string := ascii "Board-ID: RPI-RP2"]}.

Definition codec_of (report : dict json) : Json := {|
  json_loads b :=
    if bool_decide (b = ascii "version") then Ok (JObj [("VersionString", JStr "1.5.1")])
    else if bool_decide (b = ascii "cores") then
      Ok (JObj [("platforms", JArr [JObj [("id", JStr "rp2040:rp2040"); ("installed_version", JStr "6.0.0")]])])
    else Ok (JObj report);
  json_dumps _ := [] |}.
#[local] Existing Instance ProfileDemo.packing.

Definition env : environment shell_ret := fun h c =>
  match c with
  | Op _ _ => Ok tt
  | Environ _ | Which _ => Ok None
  | Process cwd command before =>
      if existsb (String.eqb "compile") command then Ok (ProfileDemo.finished BuildDemo.log (<[peer_image := image]> before))
      else if existsb (String.eqb "version") command then Ok (ProfileDemo.finished "version" before)
      else Ok (ProfileDemo.finished "cores" before)
  end.

Definition start : shell := {| sh_files := disk; sh_links := ∅; sh_report := [] |}.
Definition run (report : dict json) : shell * result unit * list shell_call := @peer_build (codec_of report) _ env [] start.
Definition report : dict json := Eval vm_compute in sh_report (run []).1.1.

Lemma fixture_env_outside path : under peer_out path = false -> leaves env path.
Proof.
  intros Ho k cwd command f p. cbn [env]. repeat destruct (existsb _ _); intros [= <-]; try done. cbn.
  apply lookup_insert_ne. intros <-. discriminate Ho.
Qed.

Lemma fixture_env_report : leaves env (report_in peer_out).
Proof. intros k cwd command f p. cbn [env]. repeat destruct (existsb _ _); intros [= <-]; try done. by apply lookup_insert_ne. Qed.
End FixtureDemo.
#[local] Instance fixture_codec : Json := FixtureDemo.codec_of FixtureDemo.report.
#[local] Existing Instance ProfileDemo.packing.

Lemma peer_built_and_flashed_witness : let '(g, r, _) := peer_flash "/Volumes/RPI-RP2" Demo.disk_env [] (sh_files (FixtureDemo.run FixtureDemo.report).1.1) in
  r = Ok tt /\ g !! ("/Volumes/RPI-RP2" +:+ "/PICOPEER.UF2")%string = Some FixtureDemo.image.
Proof.
  pose proof (peer_built_and_flashed FixtureDemo.env FixtureDemo.start Demo.disk_env "/Volumes/RPI-RP2" (ascii "Board-ID: RPI-RP2")
    FixtureDemo.image FixtureDemo.fixture_env_report FixtureDemo.fixture_env_outside (fun _ _ => eq_refl)) as H.
  assert (Hok : (FixtureDemo.run FixtureDemo.report).1.2 = Ok tt) by (vm_compute; reflexivity).
  assert (Hf : sh_files (FixtureDemo.run FixtureDemo.report).1.1 !! ("/Volumes/RPI-RP2" +:+ "/INFO_UF2.TXT")%string = Some (ascii "Board-ID: RPI-RP2"))
    by (vm_compute; reflexivity).
  assert (Hr : json_loads (json_pretty (sh_report (FixtureDemo.run FixtureDemo.report).1.1)) = Ok (JObj (sh_report (FixtureDemo.run FixtureDemo.report).1.1)))
    by (vm_compute; reflexivity).
  assert (Hi : sh_files (FixtureDemo.run FixtureDemo.report).1.1 !! peer_image = Some FixtureDemo.image) by (vm_compute; reflexivity).
  unfold FixtureDemo.run in *. destruct (peer_build _ _ _) as [[s r] k]. destruct H as [_ H].
  exact (H Hok Hf eq_refl Hr Hi).
Defined.
