(* ===== verification/RomImages.v ===== *)
(** * ROM images on disk: [main] of build_composite.py, compose_initial.py and compose_stateful_initial.py

    The three composers as programs on a store of files: which inputs they bind to which reports or digests, and what
    they write. The composite of build_composite.py goes next to a report that flash_initial.py reads again; the last
    theorem ties the two together. *)

From stdpp Require Import base tactics list list_numbers strings gmap.
From Stdlib Require Import ZArith Lia Strings.Byte.
From S2P Require Import Prelude.
From S2P Require Import PyBytes.
From S2P Require Import Sha256.
From S2P Require Import PyText.
From S2P Require Import PyRegex.
From S2P Require Import PyDict.
From S2P Require Import BuildComposite.
From S2P Require Import ComposeInitial.
From S2P Require Import ExportResident.
From S2P Require Import ComposeStateful.
From S2P Require Import PyJson.
From S2P Require Import Effects.
From S2P Require Import Stateful.
From S2P Require Import Release.
From S2P Require Import Dev.
From S2P Require Import ResidentSource.
From S2P Require Import ResidentExport.
From S2P Require Import Shell.
From S2P Require Import ManagedProfile.
From S2P Require Import ResidentBuild.
From S2P Require Import FlashInitial.

Local Open Scope Z_scope.

(** ** build_composite.py *)
Record composite_args := { ca_sketch : string; ca_resident : string; ca_module : string; ca_output : string }.

(** Files of one sketch *)
Definition capsule_file (module sketch : string) : string := module +:+ "/" +:+ sketch +:+ "/" +:+ sketch +:+ ".fms".
Definition module_report_file (module sketch : string) : string := module +:+ "/" +:+ sketch +:+ "/report.json".
Definition composite_file (output sketch : string) : string := output +:+ "/" +:+ sketch +:+ "-initial-rom-only.uf2".
Definition composite_report_file (output sketch : string) : string := output +:+ "/" +:+ sketch +:+ "-report.json".

Section Composite.
Context `{codec : !Json} `{packing : !Packing} (resolve : string -> string) (in_tree : string -> bool).

(** [json.loads(path.read_text())] *)
Definition json_file (f : files) (path : string) : result json := data ← read f path; json_loads data.

(** One source of a report, inside the repository and unchanged *)
Definition check_unchanged (f : files) (entry : string * json) : result unit :=
  let '(name, expected) := entry in
  raise_when (negb match f !! resolve name with
                   | Some data => in_tree (resolve name) && py_eq (JStr (sha data)) expected
                   | None => false
                   end) (ValueError "source changed since build").

Definition check_report_sources (f : files) (report : json) : result unit :=
  d ← as_dict report;
  sources ← as_dict (jget_or d "source_sha256" (JObj []));
  for_each (check_unchanged f) sources.

(** [report[key] != value] is refused. *)
Definition must_be (report : json) (key value : string) (wrong : exn) : result unit :=
  v ← subscript report key;
  raise_when (negb (py_eq v (JStr value))) wrong.

(** [report[key] != other[key']] is refused. *)
Definition must_agree (report : json) (key : string) (other : json) (key' : string) (wrong : exn) : result unit :=
  v ← subscript report key;
  w ← subscript other key';
  raise_when (negb (py_eq v w)) wrong.

(** The checked inputs: both reports, the resident's blocks and the capsule *)
Definition composite_inputs (f : files) (a : composite_args) : result (json * json * list bytes * bytes) :=
  let resident := resolve (ca_resident a) in
  let module := resolve (ca_module a) in
  resident_report ← json_file f (resident +:+ "/report.json");
  module_report ← json_file f (module_report_file module (ca_sketch a));
  for_each (check_report_sources f) [resident_report; module_report];;
  let unmatched := ValueError "resident report does not match exact artifacts" in
  must_be resident_report "status" resident_status unmatched;;
  elf ← digest f (elf_path resident);
  must_be resident_report "elf_sha256" elf unmatched;;
  uf2 ← digest f (uf2_path resident);
  must_be resident_report "uf2_sha256" uf2 unmatched;;
  capsule ← read f (capsule_file module (ca_sketch a));
  let foreign := ValueError "module was not built for this resident" in
  must_agree module_report "resident_elf_sha256" resident_report "elf_sha256" foreign;;
  must_be module_report "capsule_sha256" (sha capsule) foreign;;
  api_address ← checked_capsule capsule;
  must_be module_report "api_address" (hex32 api_address) (ValueError "module report API address differs from capsule");;
  data ← read f (uf2_path resident);
  blocks ← checked_resident_bytes data;
  mret (resident_report, module_report, blocks, capsule).

(** [len(padded) // 256] *)
Definition sketch_blocks (capsule : bytes) : Z := blen (capsule ++ fill "255"%byte ((- blen capsule) mod 256)) / 256.

Definition composite_result (a : composite_args) (resident_report module_report : json) (written : bytes) (resident sketch : Z)
    : result (dict json) :=
  uf2 ← subscript resident_report "uf2_sha256";
  capsule ← subscript module_report "capsule_sha256";
  mret [("status", JStr composite_status); ("board", JStr "nano_rp2040_connect"); ("sketch", JStr (ca_sketch a));
        ("resident_uf2_sha256", uf2); ("module_capsule_sha256", capsule); ("composite_uf2_bytes", JInt (blen written));
        ("composite_uf2_sha256", JStr (sha written)); ("resident_blocks", JInt resident); ("sketch_blocks", JInt sketch)].

(** [main] *)
Definition composite_main (a : composite_args) : sh (dict json) :=
  f ← files_now;
  ' (resident_report, module_report, blocks, capsule) ← st_pure (composite_inputs f a);
  image ← st_pure (composite blocks capsule);
  let output := resolve (ca_output a) in
  let target := composite_file output (ca_sketch a) in
  make_dirs output;;
  write_file target image;;
  f ← files_now;
  written ← st_pure (read f target);
  result ← st_pure (composite_result a resident_report module_report written (blen blocks) (sketch_blocks capsule));
  write_file (composite_report_file output (ca_sketch a)) (json_pretty result);;
  mret result.
End Composite.

(** ** compose_initial.py and compose_stateful_initial.py *)
Section Pinned.
Context `{packing : !Packing}.

(** [pinned_bytes(path, expected, maximum)]: the digest is read before the file is opened. *)
Definition pinned_file (f : files) (path expected : string) (maximum : Z) : result bytes :=
  raise_when (negb (fullmatch is_hex_lower 64 expected)) (ValueError "expected SHA-256 must be 64 lowercase hexadecimal digits");;
  contents ← read f path;
  pinned_bytes contents expected maximum.

(** A new directory with the image and its report *)
Definition publish_new (output : string) (image : bytes) (report : dict json) : sh (dict json) :=
  make_new_dir output;;
  write_file (output +:+ "/initial.uf2") image;;
  write_file (output +:+ "/report.json") (json_pretty report);;
  mret report.

Record pinned_args := {
  pa_resident : string; pa_resident_sha : string; pa_capsule : string; pa_capsule_sha : string; pa_api : Z; pa_output : string }.

Definition initial_report (api : Z) (resident capsule image : bytes) : dict json :=
  [("schema", JInt 1); ("status", JStr "prepared ROM-only experimental image; not flashed or hardware-qualified");
   ("board", JStr "nano_rp2040_connect"); ("residentUF2SHA256", JStr (sha resident)); ("capsuleSHA256", JStr (sha capsule));
   ("capsuleBytes", JInt (blen capsule)); ("apiAddress", JStr (hex32 api)); ("compositeUF2SHA256", JStr (sha image));
   ("compositeUF2Bytes", JInt (blen image)); ("residentBlocks", JInt (blen resident / 512));
   ("managedSector", JObj [("address", JStr "0x10200000"); ("bytes", JInt SECTOR_BYTES); ("padding", JStr "0xff after capsule")]);
   ("effect", JStr "Replace resident payload regions and initialize first managed sector; other flash remains outside this image");
   ("hardwareQualified", JBool false)].

Definition initial_image (f : files) (a : pinned_args) : result (bytes * dict json) :=
  resident ← pinned_file f (pa_resident a) (pa_resident_sha a) (4 * 1024 * 1024);
  capsule ← pinned_file f (pa_capsule a) (pa_capsule_sha a) SECTOR_BYTES;
  image ← compose resident capsule (pa_api a);
  mret (image, initial_report (pa_api a) resident capsule image).

(** [main] of compose_initial.py *)
Definition initial_main (a : pinned_args) : sh (dict json) :=
  f ← files_now;
  ' (image, report) ← st_pure (initial_image f a);
  publish_new (pa_output a) image report.

Record stateful_args := { sa_pinned : pinned_args; sa_state : Z; sa_capacity : Z; sa_validator : string }.

(** The native checker behind a path: its return code, standard output and standard error for one capsule *)
Context (native_check : string -> bytes -> Z -> Z -> Z -> result (Z * string * string)).

(** [validator.resolve(strict=True)] and the run *)
Definition run_validator (f : files) (validator : string) (capsule : bytes) (api state capacity : Z) : result (Z * string * string) :=
  raise_when (negb (is_file f validator)) (OSError "No such file or directory");;
  native_check validator capsule api state capacity.

Definition stateful_initial_report (a : stateful_args) (resident capsule image : bytes) (validator check : string) : dict json :=
  [("schema", JInt 1); ("status", JStr "prepared FMS2 initial ROM image; not flashed or hardware-qualified");
   ("board", JStr "nano_rp2040_connect"); ("profile", JStr "nano-managed-v2"); ("residentUF2SHA256", JStr (sha resident));
   ("capsuleSHA256", JStr (sha capsule)); ("capsuleBytes", JInt (blen capsule)); ("compositeUF2SHA256", JStr (sha image));
   ("compositeUF2Bytes", JInt (blen image)); ("apiAddress", JInt (pa_api (sa_pinned a))); ("stateAddress", JInt (sa_state a));
   ("stateCapacityBytes", JInt (sa_capacity a)); ("managedSectorAddress", JInt SLOT); ("managedSectorBytes", JInt 4096);
   ("validatorSHA256", JStr validator); ("nativeCheck", JStr check);
   ("effect", JStr "Replace resident payload regions and initialize first managed sector; other flash outside image");
   ("hardwareQualified", JBool false)].

Definition stateful_image (f : files) (a : stateful_args) : result (bytes * dict json) :=
  let p := sa_pinned a in
  resident ← pinned_file f (pa_resident p) (pa_resident_sha p) (4 * 1024 * 1024);
  capsule ← pinned_file f (pa_capsule p) (pa_capsule_sha p) 4096;
  ' (image, check) ← compose_stateful (run_validator f (sa_validator a)) resident capsule (pa_api p) (sa_state a) (sa_capacity a);
  validator ← digest f (sa_validator a);
  mret (image, stateful_initial_report a resident capsule image validator check).

(** [main] of compose_stateful_initial.py *)
Definition stateful_main (a : stateful_args) : sh (dict json) :=
  f ← files_now;
  ' (image, report) ← st_pure (stateful_image f a);
  publish_new (pa_output (sa_pinned a)) image report.
End Pinned.

(** ** What the composer accepts *)
Lemma must_be_iff report key value wrong : must_be (JObj report) key value wrong = Ok tt <-> dget report key = Some (JStr value).
Proof.
  unfold must_be. rewrite bind_Ok. setoid_rewrite raise_when_Ok. setoid_rewrite negb_false_iff. setoid_rewrite py_eq_str. cbn [subscript].
  unfold ditem. setoid_rewrite some_or_Ok. naive_solver.
Qed.

Section Accepted.
Context `{codec : !Json} (resolve : string -> string) (in_tree : string -> bool) (f : files).

Definition unchanged (entry : string * json) : Prop :=
  exists data, f !! resolve entry.1 = Some data /\ in_tree (resolve entry.1) = true /\ entry.2 = JStr (sha data).

(** A recorded build: its report, and its sources as they were *)
Record recorded_in (path : string) (report : dict json) : Prop := {
  ri_report : exists text, f !! path = Some text /\ json_loads text = Ok (JObj report);
  ri_sources : exists sources, jget_or report "source_sha256" (JObj []) = JObj sources /\ Forall unchanged sources }.

(** The resident with its own ELF and UF2 *)
Record resident_bound (directory : string) (report : dict json) (h : string) (uf2 : bytes) : Prop := {
  rc_recorded : recorded_in (directory +:+ "/report.json") report;
  rc_status : dget report "status" = Some (JStr resident_status);
  rc_elf : exists elf, f !! elf_path directory = Some elf /\ h = sha elf /\ dget report "elf_sha256" = Some (JStr h);
  rc_uf2 : f !! uf2_path directory = Some uf2 /\ dget report "uf2_sha256" = Some (JStr (sha uf2)) }.

Definition resident_accepted (directory : string) (report : dict json) (h : string) (uf2 : bytes) (blocks : list bytes) : Prop :=
  resident_bound directory report h uf2 /\ valid_resident uf2 blocks.

(** The capsule that was built for this resident *)
Record module_accepted (directory sketch : string) (report : dict json) (h : string) (capsule : bytes) : Prop := {
  mc_recorded : recorded_in (module_report_file directory sketch) report;
  mc_resident : dget report "resident_elf_sha256" = Some (JStr h);
  mc_capsule : f !! capsule_file directory sketch = Some capsule /\ dget report "capsule_sha256" = Some (JStr (sha capsule));
  mc_api : exists api, valid_capsule capsule api /\ dget report "api_address" = Some (JStr (hex32 api)) }.

Lemma check_unchanged_iff entry : check_unchanged resolve in_tree f entry = Ok tt <-> unchanged entry.
Proof.
  destruct entry as [name expected]. unfold check_unchanged, unchanged. cbn [fst snd]. rewrite raise_when_Ok, negb_false_iff.
  destruct (f !! resolve name) as [data|]; [|split; [done|by intros (? & [=] & _)]]. rewrite andb_true_iff. split.
  - intros [Ht He%py_eq_str_l]. by exists data.
  - intros (d & [= ->] & Ht & ->). split; [done|by apply py_eq_str].
Qed.

Lemma check_report_sources_iff report : check_report_sources resolve in_tree f (JObj report) = Ok tt <->
  exists sources, jget_or report "source_sha256" (JObj []) = JObj sources /\ Forall unchanged sources.
Proof.
  unfold check_report_sources. cbn [as_dict mbind result_bind].
  assert (He : forall l, for_each (check_unchanged resolve in_tree f) l = Ok tt <-> Forall unchanged l).
  { intros l. rewrite for_each_Ok. apply Forall_iff. intros entry. apply check_unchanged_iff. }
  destruct (jget_or report _ _) as [| | | | | |d]; try (split; [done|by intros (? & ? & _)]). cbn [as_dict mbind result_bind].
  rewrite He. naive_solver.
Qed.

Lemma must_agree_iff report key other key' h wrong : dget other key' = Some (JStr h) ->
  must_agree (JObj report) key (JObj other) key' wrong = Ok tt <-> dget report key = Some (JStr h).
Proof.
  intros Ho. unfold must_agree. rewrite bind_Ok. cbn [subscript]. unfold ditem. rewrite Ho. cbn [some_or mbind result_bind].
  setoid_rewrite raise_when_Ok. setoid_rewrite negb_false_iff. setoid_rewrite py_eq_str. setoid_rewrite some_or_Ok. naive_solver.
Qed.

Lemma json_file_object path report : json_file f path = Ok (JObj report) <-> exists text, f !! path = Some text /\ json_loads text = Ok (JObj report).
Proof. unfold json_file, read. rewrite bind_Ok. by setoid_rewrite some_or_Ok. Qed.

(** A report that is no object is refused before anything else is read. *)
Lemma sources_object report : check_report_sources resolve in_tree f report = Ok tt -> exists d, report = JObj d.
Proof. unfold check_report_sources. intros (d & Hd & _)%bind_Ok. exists d. destruct report; try done. by injection Hd as ->. Qed.

(** Of bound inputs only the form of the UF2 is left to check. *)
Lemma composite_inputs_bound a resident module h uf2 capsule :
  resident_bound (resolve (ca_resident a)) resident h uf2 -> module_accepted (resolve (ca_module a)) (ca_sketch a) module h capsule ->
  composite_inputs resolve in_tree f a = blocks ← checked_resident_bytes uf2; Ok (JObj resident, JObj module, blocks, capsule).
Proof.
  intros [[Hr Hrs] Hst (elf & He & -> & Helf) [Hu Huf]] [[Hm Hms] Hag [Hc Hcs] (api & Hapi & Had)]. unfold composite_inputs. cbn zeta.
  rewrite (proj2 (json_file_object _ resident) Hr). cbn [mbind result_bind]. rewrite (proj2 (json_file_object _ module) Hm). cbn [mbind result_bind].
  rewrite (proj2 (for_each_2 _ _ _)) by (by rewrite !check_report_sources_iff). cbn [mbind result_bind].
  rewrite (proj2 (must_be_iff _ _ _ _)) by done. unfold digest, read. rewrite He. cbn [some_or fmap result_fmap mbind result_bind].
  rewrite (proj2 (must_be_iff _ _ _ _)) by done. rewrite Hu. cbn [some_or fmap result_fmap mbind result_bind].
  rewrite (proj2 (must_be_iff _ _ _ _)) by done. rewrite Hc. cbn [some_or mbind result_bind].
  rewrite (proj2 (must_agree_iff _ _ _ _ (sha elf) _ Helf)) by done. cbn [mbind result_bind].
  rewrite (proj2 (must_be_iff _ _ _ _)) by done. cbn [mbind result_bind].
  rewrite (proj2 (checked_capsule_iff _ _) Hapi). cbn [mbind result_bind].
  by rewrite (proj2 (must_be_iff _ _ _ _)) by done.
Qed.

Lemma composite_inputs_iff a rr mr blocks capsule : composite_inputs resolve in_tree f a = Ok (rr, mr, blocks, capsule) <->
  exists resident module h uf2, rr = JObj resident /\ mr = JObj module /\
    resident_accepted (resolve (ca_resident a)) resident h uf2 blocks /\
    module_accepted (resolve (ca_module a)) (ca_sketch a) module h capsule.
Proof.
  split.
  - unfold composite_inputs. cbn zeta. intros (r & Hr & H)%bind_Ok. apply bind_Ok in H as (m & Hm & H). apply bind_unit in H as [[Hrs Hms]%for_each_2 H].
    destruct (sources_object r Hrs) as [resident ->]. destruct (sources_object m Hms) as [module ->].
    apply bind_unit in H as [Hst%must_be_iff H]. apply bind_Ok in H as (h & (elf & He & ->)%digest_Ok & H).
    apply bind_unit in H as [Helf%must_be_iff H]. apply bind_Ok in H as (? & (uf2 & Hu & ->)%digest_Ok & H).
    apply bind_unit in H as [Huf%must_be_iff H]. apply bind_Ok in H as (c & Hc%some_or_Ok & H).
    apply bind_unit in H as [Hag%(must_agree_iff module _ resident _ (sha elf)) H]; [|done].
    apply bind_unit in H as [Hcs%must_be_iff H]. apply bind_Ok in H as (api & Hapi%checked_capsule_iff & H).
    apply bind_unit in H as [Had%must_be_iff H]. apply bind_Ok in H as (data & Hd%some_or_Ok & H). rewrite Hu in Hd. injection Hd as <-.
    apply bind_Ok in H as (bs & Hb%checked_resident_bytes_iff & [= <- <- <- <-]%mret_Ok).
    exists resident, module, (sha elf), uf2. split_and!; [done..|split; [|done]|]; constructor; try done.
    + constructor; [by apply json_file_object|by apply check_report_sources_iff].
    + by exists elf.
    + constructor; [by apply json_file_object|by apply check_report_sources_iff].
    + by exists api.
  - intros (resident & module & h & uf2 & -> & -> & [Hr Hb] & Hm). rewrite (composite_inputs_bound a resident module h uf2 capsule Hr Hm).
    by rewrite (proj2 (checked_resident_bytes_iff _ _) Hb).
Qed.
End Accepted.

(** ** What a run leaves *)
Section ComposedOutcome.
Context `{codec : !Json} `{packing : !Packing} (resolve : string -> string) (in_tree : string -> bool) (env : environment shell_ret) (a : composite_args).

Abbreviation image_file := (composite_file (resolve (ca_output a)) (ca_sketch a)).
Abbreviation report_path := (composite_report_file (resolve (ca_output a)) (ca_sketch a)).
Abbreviation inputs := (composite_inputs resolve in_tree).

(** An image of the accepted inputs: every page of the resident, and then the capsule in its slot *)
Record composed (f : files) (image : bytes) (report : dict json) : Prop := {
  co_inputs : exists rr mr blocks capsule final uf2, inputs f a = Ok (rr, mr, blocks, capsule) /\ f !! uf2_path (resolve (ca_resident a)) = Some uf2 /\
    image = concat final /\ uf2_image final /\ blen final = blen blocks + sketch_blocks capsule /\
    flash_writes image = flash_writes uf2 ++ slot_writes (capsule ++ fill "255"%byte ((- blen capsule) mod 256)) /\
    composite_result a rr mr image (blen blocks) (sketch_blocks capsule) = Ok report }.

Definition all_granted : Prop := forall h operation path, env h (Op operation path) = Ok tt.

Definition composed_left (f : files) (s : shell) (r : result (dict json)) : Prop :=
  match r with
  | Ok report => exists image, composed f image report /\ sh_files s = <[report_path := json_pretty report]> (<[image_file := image]> f)
  | Raise _ => (sh_files s = f \/ exists image report, composed f image report /\ sh_files s = <[image_file := image]> f) /\
      (all_granted -> is_ok (inputs f a) = false)
  end.

Lemma composed_image f rr mr blocks capsule : inputs f a = Ok (rr, mr, blocks, capsule) ->
  exists image report, composite blocks capsule = Ok image /\ composite_result a rr mr image (blen blocks) (sketch_blocks capsule) = Ok report /\
    composed f image report.
Proof.
  intros Hi. pose proof Hi as (resident & module & h & uf2 & -> & -> & [[Hr _ _ [Hu Huf]] Hb] & [Hm _ [Hc Hcs] (api & Hapi & _)])%composite_inputs_iff.
  destruct (composite_succeeds uf2 blocks capsule api) as (image & final & Hcomp & Hi1 & Hi2 & Hi3 & Hi4);
    [by apply checked_resident_bytes_iff|by apply checked_capsule_iff|].
  exists image. eexists. split; [exact Hcomp|]. split; [unfold composite_result; cbn [subscript]; unfold ditem; rewrite Huf, Hcs; reflexivity|].
  constructor. exists (JObj resident), (JObj module), blocks, capsule, final, uf2. split_and!; try done.
  unfold composite_result. cbn [subscript]. unfold ditem. by rewrite Huf, Hcs.
Qed.

Lemma composite_main_triple f : triple env [] (fun s k => sh_files s = f /\ k = []) (composite_main resolve in_tree a)
  (fun report s k => composed_left f s (Ok report)) (fun e s k => composed_left f s (Raise e)).
Proof.
  unfold composite_main, files_now. apply triple_from. intros s0 k0 [Hf ->].
  assert (Hop : forall s k e operation path, sh_files s = f -> env k (Op operation path) = Raise e -> composed_left f s (Raise e)).
  { intros s k e operation path Hs He. split; [by left|]. intros Hg. by rewrite Hg in He. }
  eapply triple_bind with (R := fun g s k => (s = s0 /\ k = []) /\ g = f).
  { eapply triple_bind; [apply get_from|]. intros g. apply triple_ret. intros s k [H ->]. by split. }
  intros g. apply triple_from. intros s k [[-> ->] ->].
  eapply triple_bind; [apply pure_from; intros e He; split; [by left|by rewrite He]|intros [[[rr mr] blocks] capsule]].
  apply triple_from. intros s k [[-> ->] Hi]. destruct (composed_image f rr mr blocks capsule Hi) as (image & report & Hc & Hr & Hco).
  rewrite Hc. eapply triple_bind with (R := fun x s k => (s = s0 /\ k = []) /\ x = image); [by apply triple_pure; intros s k [-> ->]|intros x].
  apply triple_from. intros s k [[-> ->] ->]. cbn zeta.
  assert (Hw : forall s k e operation path, sh_files s = <[image_file := image]> f -> env k (Op operation path) = Raise e -> composed_left f s (Raise e)).
  { intros s k e operation path Hs He. split; [right; by exists image, report|]. intros Hg. by rewrite Hg in He. }
  eapply triple_bind with (R := fun _ s k => sh_files s = f).
  { unfold make_dirs. apply op_asked; [by intros s k [-> ->]|]. intros e s k [-> ->] He. by eapply Hop. }
  intros u1. eapply triple_bind with (R := fun _ s k => sh_files s = <[image_file := image]> f).
  { unfold write_file. apply op_asked; [by intros s k <-|]. intros e s k Hs He. by eapply Hop. }
  intros u2. apply triple_from. intros s1 k1 Hs1.
  eapply triple_bind with (R := fun g s k => (s = s1 /\ k = k1) /\ g = sh_files s1).
  { eapply triple_bind; [apply get_from|]. intros g. apply triple_ret. intros s k [H ->]. by split. }
  intros g. apply triple_from. intros s k [[-> ->] ->]. unfold read. rewrite Hs1, lookup_insert_eq. cbn [some_or].
  eapply triple_bind with (R := fun x s k => (s = s1 /\ k = k1) /\ x = image); [by apply triple_pure; intros s k [-> ->]|intros x].
  apply triple_from. intros s k [[-> ->] ->]. rewrite Hr.
  eapply triple_bind with (R := fun x s k => (s = s1 /\ k = k1) /\ x = report); [by apply triple_pure; intros s k [-> ->]|intros x].
  apply triple_from. intros s k [[-> ->] ->].
  eapply triple_bind with (R := fun _ s k => sh_files s = <[report_path := json_pretty report]> (<[image_file := image]> f)).
  { unfold write_file. apply op_asked; [intros s k [-> ->]; cbn; by rewrite Hs1|]. intros e s k [-> ->] He. by eapply Hw. }
  intros u3. apply triple_ret. intros s k Hs. by exists image.
Qed.
End ComposedOutcome.

Lemma composite_paths_differ output sketch : composite_report_file output sketch <> composite_file output sketch.
Proof.
  unfold composite_report_file, composite_file. intros H%(inj (String.append output))%(inj (String.append "/"))%(inj (String.append sketch)).
  discriminate H.
Qed.

(** The review accepts one digest for an image and its report. *)
Lemma composed_review `{codec : !Json} `{packing : !Packing} resolve in_tree a f image report ia s' expected :
  composed resolve in_tree a f image report -> json_loads (json_pretty report) = Ok (JObj report) ->
  ia_sketch ia = ca_sketch a -> ia_output ia = ca_output a ->
  sh_files s' = <[composite_report_file (resolve (ca_output a)) (ca_sketch a) := json_pretty report]>
    (<[composite_file (resolve (ca_output a)) (ca_sketch a) := image]> f) ->
  check_reviewed resolve (sh_files s') ia expected = Ok tt <-> expected = sha image.
Proof.
  intros [(rr & mr & blocks & capsule & final & uf2 & _ & _ & _ & _ & _ & _ & Hr)] Hj Hsk Hout Hs.
  assert (Hfields : jget report "status" = JStr composite_status /\ jget report "board" = JStr "nano_rp2040_connect" /\
    jget report "sketch" = JStr (ca_sketch a) /\ jget report "composite_uf2_sha256" = JStr (sha image)).
  { unfold composite_result in Hr. apply bind_Ok in Hr as (u & _ & Hr). apply bind_Ok in Hr as (c & _ & <-%mret_Ok). done. }
  destruct Hfields as (H1 & H2 & H3 & H4). unfold check_reviewed, load, digest, read, composite_image. cbn zeta.
  rewrite Hs, Hout, Hsk. change (resolve (ca_output a) +:+ "/" +:+ ca_sketch a +:+ "-report.json")%string with (composite_report_file (resolve (ca_output a)) (ca_sketch a)).
  change (resolve (ca_output a) +:+ "/" +:+ ca_sketch a +:+ "-initial-rom-only.uf2")%string with (composite_file (resolve (ca_output a)) (ca_sketch a)).
  rewrite lookup_insert_eq, lookup_insert_ne, lookup_insert_eq by apply composite_paths_differ.
  cbn [some_or mbind result_bind fmap result_fmap]. rewrite Hj. cbn [as_dict mbind result_bind]. rewrite H1, H2, H3, H4.
  rewrite raise_when_bind, !orb_false_iff, !negb_false_iff, !py_eq_str, raise_when_Ok, negb_false_iff, bool_decide_eq_true. naive_solver.
Qed.

(** C7: The composer and the installer agree. A run of build_composite.py that returns wrote an image with every page of
    the resident and the capsule in its slot, both accepted by their gates and bound to each other and to unchanged
    sources by their reports; one that fails changed nothing or wrote such an image without its report, and on a disk that
    grants everything it fails only for refused inputs. After a run that returned, the review of flash_initial.py accepts
    exactly one digest for the same sketch and output: the digest of that image. *)
Theorem composite_reviewed `{codec : !Json} `{packing : !Packing} resolve in_tree (env : environment shell_ret) a s :
  let '(s', r, _) := composite_main resolve in_tree a env [] s in
  composed_left resolve in_tree env a (sh_files s) s' r /\
  forall report ia, r = Ok report -> json_loads (json_pretty report) = Ok (JObj report) ->
    ia_sketch ia = ca_sketch a -> ia_output ia = ca_output a ->
    exists image, composed resolve in_tree a (sh_files s) image report /\
      forall expected, check_reviewed resolve (sh_files s') ia expected = Ok tt <-> expected = sha image.
Proof.
  pose proof (composite_main_triple resolve in_tree env a (sh_files s) s [] (conj eq_refl eq_refl)) as H. cbn [app] in H.
  destruct (composite_main resolve in_tree a env [] s) as [[s' r] k]. destruct r as [report|e]; [|by split].
  split; [exact H|]. intros ? ia [= <-] Hj Hsk Hout. destruct H as (image & Hco & Hs). exists image. split; [exact Hco|]. intros expected.
  by apply (composed_review resolve in_tree a (sh_files s) image report).
Qed.

(** ** Images in a new directory *)
Section Published.
Context `{packing : !Packing} (env : environment shell_ret) (output : string).

(** Nothing was there; the image comes before its report. *)
Definition published (s0 : shell) (image : bytes) (report : dict json) (s : shell) (r : result (dict json)) : Prop :=
  match r with
  | Ok d => d = report /\ there s0 output = false /\
      sh_files s = <[(output +:+ "/report.json")%string := json_pretty report]> (<[(output +:+ "/initial.uf2")%string := image]> (sh_files s0))
  | Raise _ => sh_files s = sh_files s0 \/ there s0 output = false /\ sh_files s = <[(output +:+ "/initial.uf2")%string := image]> (sh_files s0)
  end.

Lemma publish_triple s0 k0 image report : triple env [] (fun s k => s = s0 /\ k = k0) (publish_new output image report)
  (fun d s k => published s0 image report s (Ok d)) (fun e s k => published s0 image report s (Raise e)).
Proof.
  unfold publish_new, make_new_dir, make_dirs, write_file. eapply triple_bind with (R := fun _ s k => there s0 output = false /\ sh_files s = sh_files s0).
  { eapply triple_bind; [apply get_from|intros s]. apply triple_from. intros s' k [[-> ->] ->].
    eapply triple_bind; [apply pure_from; intros e _; by left|intros u]. apply triple_from. intros s k [[-> ->] Hn%raise_when_Ok].
    apply op_triple; [by intros s k [-> ->]|]. intros e s k [-> ->]. by left. }
  intros u1. eapply triple_bind with (R := fun _ s k => there s0 output = false /\ sh_files s = <[(output +:+ "/initial.uf2")%string := image]> (sh_files s0)).
  { apply op_triple; [by intros s k [Hn <-]|]. intros e s k [Hn Hs]. by left. }
  intros u2. eapply triple_bind with (R := fun _ s k => published s0 image report s (Ok report)).
  { apply op_triple; [|intros e s k [Hn Hs]; by right]. intros s k [Hn Hs]. cbn. rewrite Hs. by split_and!. }
  intros u3. by apply triple_ret.
Qed.

(** A tool that prepares an image from the files and then publishes it *)
Lemma published_triple (m : files -> result (bytes * dict json)) s0 :
  triple env [] (fun s k => s = s0 /\ k = []) (f ← files_now; ' (image, report) ← st_pure (m f); publish_new output image report)
    (fun d s k => exists image report, m (sh_files s0) = Ok (image, report) /\ published s0 image report s (Ok d))
    (fun e s k => m (sh_files s0) = Raise e /\ s = s0 \/ exists image report, m (sh_files s0) = Ok (image, report) /\ published s0 image report s (Raise e)).
Proof.
  unfold files_now. eapply triple_bind with (R := fun g s k => (s = s0 /\ k = []) /\ g = sh_files s0).
  { eapply triple_bind; [apply get_from|]. intros g. apply triple_ret. intros s k [H ->]. by split. }
  intros g. apply triple_from. intros s k [[-> ->] ->].
  eapply triple_bind; [apply pure_from; intros e He; by left|intros [image report]]. apply triple_from. intros s k [[-> ->] Hm].
  eapply triple_weaken; [apply (publish_triple s0 [] image report)|done| |].
  - intros d s k H. by exists image, report.
  - intros e s k H. right. by exists image, report.
Qed.
End Published.

(** What a published image is made of: the two files that were selected by their digests *)
Definition pinned_from (f : files) (a : pinned_args) (resident capsule : bytes) : Prop :=
  f !! pa_resident a = Some resident /\ sha resident = pa_resident_sha a /\ blen resident <= 4 * 1024 * 1024 /\
  f !! pa_capsule a = Some capsule /\ sha capsule = pa_capsule_sha a /\ blen capsule <= SECTOR_BYTES.

Definition in_first_sector (resident capsule image : bytes) : Prop :=
  exists final, image = concat final /\ uf2_image final /\
    flash_writes image = flash_writes resident ++ slot_writes (capsule ++ fill "255"%byte (SECTOR_BYTES - blen capsule)).

Lemma pinned_file_Ok f path expected maximum data : 0 <= maximum -> pinned_file f path expected maximum = Ok data ->
  f !! path = Some data /\ sha data = expected /\ blen data <= maximum.
Proof.
  intros Hm. unfold pinned_file. intros [_ (contents & Hc%some_or_Ok & H)%bind_Ok]%raise_when_bind.
  apply pinned_bytes_correct in H as (-> & Hl & Hs); [done|exact Hm].
Qed.

Lemma initial_image_Ok f a image report : initial_image f a = Ok (image, report) ->
  exists resident capsule, pinned_from f a resident capsule /\ in_first_sector resident capsule image /\
    (exists blocks, valid_resident resident blocks) /\ valid_capsule capsule (pa_api a) /\
    report = initial_report (pa_api a) resident capsule image.
Proof.
  unfold initial_image. intros (resident & (Hr & Hrs & Hrl)%pinned_file_Ok & H)%bind_Ok; [|lia].
  apply bind_Ok in H as (capsule & (Hc & Hcs & Hcl)%pinned_file_Ok & H); [|done].
  apply bind_Ok in H as (img & Hi & [= <- <-]%mret_Ok). exists resident, capsule.
  pose proof Hi as (blocks & Hb & Hv & Hl)%compose_inv. destruct (compose_succeeds _ _ _ _ Hb Hv Hl) as (final & Hf & Hu & _ & Hw).
  rewrite Hi in Hf. injection Hf as ->. split_and!; [done| |by exists blocks|done|done]. by exists final.
Qed.

Lemma stateful_image_Ok check f a image report : stateful_image check f a = Ok (image, report) ->
  exists resident capsule blocks stdout stderr validator, pinned_from f (sa_pinned a) resident capsule /\ in_first_sector resident capsule image /\
    valid_resident resident blocks /\ f !! sa_validator a = Some validator /\
    check (sa_validator a) capsule (pa_api (sa_pinned a)) (sa_state a) (sa_capacity a) = Ok (0, stdout, stderr) /\
    report = stateful_initial_report a resident capsule image (sha validator) (strip_text stdout).
Proof.
  unfold stateful_image. cbn zeta. intros (resident & (Hr & Hrs & Hrl)%pinned_file_Ok & H)%bind_Ok; [|lia].
  apply bind_Ok in H as (capsule & (Hc & Hcs & Hcl)%pinned_file_Ok & H); [|done].
  apply bind_Ok in H as ([img out] & Hi & H). apply bind_Ok in H as (v & (validator & Hv & ->)%digest_Ok & [= <- <-]%mret_Ok).
  apply compose_stateful_inv in Hi as (blocks & table & final & Hb & _ & _ & (stdout & stderr & Hn & ->) & Hcat & Hu & _ & Hw).
  unfold run_validator in Hn. apply raise_when_bind in Hn as [_ Hn].
  exists resident, capsule, blocks, stdout, stderr, validator. split_and!; try done. by exists final.
Qed.

(** C8: The pinned composers prepare what was selected. Whatever the disk answers, compose_initial.py and
    compose_stateful_initial.py write only into a directory that was not there, first the image and then its report, and
    only for a resident and a capsule whose contents have the two selected digests; the image writes every page of the
    resident and the capsule, padded to the first sector, at its slot. The first tool requires a capsule that is bound to the
    selected API address, the second one that the named checker accepted for the selected facts. *)
Theorem prepared_images_selected `{packing : !Packing} check (env : environment shell_ret) a b s :
  let f := sh_files s in
  (let '(s', r, _) := initial_main a env [] s in s' = s /\ is_ok r = false \/
   exists image resident capsule, published (pa_output a) s image (initial_report (pa_api a) resident capsule image) s' r /\
     pinned_from f a resident capsule /\ in_first_sector resident capsule image /\ valid_capsule capsule (pa_api a)) /\
  (let '(s', r, _) := stateful_main check b env [] s in s' = s /\ is_ok r = false \/
   exists image resident capsule validator stdout stderr,
     published (pa_output (sa_pinned b)) s image (stateful_initial_report b resident capsule image (sha validator) (strip_text stdout)) s' r /\
     pinned_from f (sa_pinned b) resident capsule /\ in_first_sector resident capsule image /\ f !! sa_validator b = Some validator /\
     check (sa_validator b) capsule (pa_api (sa_pinned b)) (sa_state b) (sa_capacity b) = Ok (0, stdout, stderr)).
Proof.
  cbn zeta. split.
  - pose proof (published_triple env (pa_output a) (fun f => initial_image f a) s s [] (conj eq_refl eq_refl)) as H. cbn [app] in H.
    unfold initial_main. destruct ((f ← files_now; _) env [] s) as [[s' r] k].
    assert (Hm : (s' = s /\ is_ok r = false) \/ exists image report, initial_image (sh_files s) a = Ok (image, report) /\ published (pa_output a) s image report s' r)
      by (destruct r; [by right|destruct H as [[_ ->]|H]; [by left|by right]]).
    destruct Hm as [Hm|(image & report & Hi & Hp)]; [by left|]. right.
    destruct (initial_image_Ok _ _ _ _ Hi) as (resident & capsule & Hpin & Hsec & _ & Hv & ->). by exists image, resident, capsule.
  - pose proof (published_triple env (pa_output (sa_pinned b)) (fun f => stateful_image check f b) s s [] (conj eq_refl eq_refl)) as H. cbn [app] in H.
    unfold stateful_main. destruct ((f ← files_now; _) env [] s) as [[s' r] k].
    assert (Hm : (s' = s /\ is_ok r = false) \/ exists image report, stateful_image check (sh_files s) b = Ok (image, report) /\ published (pa_output (sa_pinned b)) s image report s' r)
      by (destruct r; [by right|destruct H as [[_ ->]|H]; [by left|by right]]).
    destruct Hm as [Hm|(image & report & Hi & Hp)]; [by left|]. right.
    destruct (stateful_image_Ok _ _ _ _ _ Hi) as (resident & capsule & blocks & stdout & stderr & validator & Hpin & Hsec & _ & Hv & Hc & ->).
    by exists image, resident, capsule, validator, stdout, stderr.
Qed.

(** ** A composite that is reviewed, and one that is refused *)
Module ComposeDemo.
Definition resident_data : bytes := concat demo_resident_blocks.

Definition resident_json : dict json :=
  [("status", JStr resident_status); ("elf_sha256", JStr (sha (ascii "elf"))); ("uf2_sha256", JStr (sha resident_data));
   ("source_sha256", JObj [("abi.h", JStr (sha (ascii "abi")))])].
Definition module_json : dict json :=
  [("resident_elf_sha256", JStr (sha (ascii "elf"))); ("capsule_sha256", JStr (sha demo_capsule)); ("api_address", JStr "0x10001000")].

Definition disk (source : string) : files :=
  list_to_map [("resident/report.json", ascii "resident"); ("module/blink_a/report.json", ascii "module"); ("abi.h", ascii source);
    (elf_path "resident", ascii "elf"); (uf2_path "resident", resident_data); (capsule_file "module" "blink_a", demo_capsule)]%string.

Definition codec_of (report : dict json) : Json := {|
  json_loads b := if bool_decide (b = ascii "resident") then Ok (JObj resident_json)
                  else if bool_decide (b = ascii "module") then Ok (JObj module_json) else Ok (JObj report);
  json_dumps _ := [] |}.
#[local] Instance packing : Packing := {| json_pretty _ := ascii "composite"; zip_file _ := [] |}.

Definition granting : environment shell_ret := fun _ c =>
  match c with Op _ _ => Ok tt | Environ _ | Which _ => Ok None | Process _ _ _ => Raise (OSError "no process") end.

Definition start (source : string) : shell := {| sh_files := disk source; sh_links := ∅; sh_report := [] |}.
Definition arguments : composite_args := {| ca_sketch := "blink_a"; ca_resident := "resident"; ca_module := "module"; ca_output := "out" |}.
Definition run (source : string) (report : dict json) : shell * result (dict json) * list shell_call :=
  @composite_main (codec_of report) _ id (fun _ => true) arguments granting [] (start source).

Definition report := Eval vm_compute in match (run "abi" []).1.2 with Ok d => d | Raise _ => [] end.

Example composite_refused : (run "changed" report).1.2 = Raise (ValueError "source changed since build").
Proof. vm_compute. reflexivity. Qed.

Definition review : initial_args := {|
  ia_sketch := "blink_a"; ia_transport := Mount "/Volumes/RPI-RP2"; ia_flash_id := None; ia_expected := "";
  ia_resident := "resident"; ia_module := "module"; ia_output := "out" |}.
End ComposeDemo.
#[local] Existing Instances ComposeDemo.packing.

Lemma composite_reviewed_witness : exists s' k image, ComposeDemo.run "abi" ComposeDemo.report = (s', Ok ComposeDemo.report, k) /\
  @check_reviewed (ComposeDemo.codec_of ComposeDemo.report) id (sh_files s') ComposeDemo.review (sha image) = Ok tt.
Proof.
  pose proof (@composite_reviewed (ComposeDemo.codec_of ComposeDemo.report) _ id (fun _ => true) ComposeDemo.granting ComposeDemo.arguments
    (ComposeDemo.start "abi")) as H.
  assert (Hr : (ComposeDemo.run "abi" ComposeDemo.report).1.2 = Ok ComposeDemo.report) by (vm_compute; reflexivity).
  unfold ComposeDemo.run in *. destruct (composite_main _ _ _ _ _ _) as [[s' r] k]. cbn [fst snd] in Hr. subst r. destruct H as [_ H].
  destruct (H ComposeDemo.report ComposeDemo.review eq_refl eq_refl eq_refl eq_refl) as (image & _ & Hi).
  exists s', k, image. split; [reflexivity|]. by apply Hi.
Defined.
