(* ===== verification/ModuleBuild.v ===== *)
(** * The module build: [symbol], [run] and [main] of experiments/managed_sketch/build_module.py

    One sketch is compiled against the API table of a resident ELF, linked, and wrapped in a capsule; a report names the
    sources and the resident. The last theorems tie this report to build_composite.py, and the three builds - resident,
    module, composite - to each other, with the resident of every variant and in any output directory. *)

From stdpp Require Import base tactics list list_numbers strings gmap.
From Stdlib Require Import ZArith Lia Strings.Byte.
From S2P Require Import Prelude.
From S2P Require Import PyBytes.
From S2P Require Import Sha256.
From S2P Require Import PyText.
From S2P Require Import PyStr.
From S2P Require Import PyRegex.
From S2P Require Import PyDict.
From S2P Require Import BuildComposite.
From S2P Require Import BuildModule.
From S2P Require Import ExportResident.
From S2P Require Import PyJson.
From S2P Require Import Effects.
From S2P Require Import Ipv4.
From S2P Require Import Stateful.
From S2P Require Import Release.
From S2P Require Import Dev.
From S2P Require Import ResidentSource.
From S2P Require Import ResidentExport.
From S2P Require Import StatefulExport.
From S2P Require Import Shell.
From S2P Require Import ManagedProfile.
From S2P Require Import Build.
From S2P Require Import ResidentBuild.
From S2P Require Import FlashInitial.
From S2P Require Import RomImages.

Local Open Scope Z_scope.

Record module_args := { mo_sketch : string; mo_resident_elf : string; mo_toolchain : string; mo_output : string }.

(** [f"^([0-9a-fA-F]+)\s+[{types}]\s+{name}$"]; the names of the symbols are words. *)
Definition symbol_line (a b name : string) : regex :=
  LineStart ⊙ Group (Many is_hex 1) ⊙ Many re_space 1 ⊙ (Lit a ⊕ Lit b) ⊙ Many re_space 1 ⊙ Lit name ⊙ LineEnd.

Definition symbol_address (a b name text : string) : result Z :=
  match findall (symbol_line a b name) text with
  | [[address]] => mret (read_hex 0 address)
  | _ => Raise (RuntimeError "expected one symbol")
  end.

Example symbols_found : let text := ("10001000 R firmingo_sketch_api" +:+ String line_break "10200101 T firmingo_sketch_setup")%string in
  symbol_address "R" "r" "firmingo_sketch_api" text = Ok 0x10001000 /\ symbol_address "T" "t" "firmingo_sketch_setup" text = Ok 0x10200101 /\
  is_ok (symbol_address "T" "t" "firmingo_sketch_api" text) = false.
Proof. vm_compute. by split_and!. Qed.

Section Module.
Context `{codec : !Json} `{packing : !Packing} (resolve : string -> string).

Definition symbol (nm elf a b name : string) : sh Z :=
  text ← run_checked [nm; "-g"; "--defined-only"; elf];
  st_pure (symbol_address a b name text).

Definition tool_bin (a : module_args) : string := resolve (mo_toolchain a).
Definition compiler (a : module_args) : string := tool_bin a +:+ "/arm-none-eabi-g++".
Definition objcopy (a : module_args) : string := tool_bin a +:+ "/arm-none-eabi-objcopy".
Definition nm (a : module_args) : string := tool_bin a +:+ "/arm-none-eabi-nm".
Definition module_directory (a : module_args) : string := resolve (mo_output a) +:+ "/" +:+ mo_sketch a.
Definition module_file (a : module_args) (suffix : string) : string := resolve (mo_output a) +:+ "/" +:+ mo_sketch a +:+ "/" +:+ mo_sketch a +:+ suffix.

(** The pinned toolchain and the resident, [parser.error] otherwise *)
Definition check_module_tools (f : files) (a : module_args) : result unit :=
  raise_when (negb (bool_decide (path_name (tool_bin a) = "bin"))
      || negb (bool_decide (path_name (parent (tool_bin a)) = "5.0.0-9576866")))
    (SystemExit "--toolchain-bin must be from pqt-gcc/5.0.0-9576866/bin");;
  raise_when (negb (is_file f (compiler a)) || negb (is_file f (objcopy a)) || negb (is_file f (nm a)))
    (SystemExit "pinned compiler, objcopy, or nm is missing");;
  raise_when (negb (is_file f (resolve (mo_resident_elf a)))) (SystemExit "--resident-elf must name an existing ELF").

Definition common_flags (api : Z) : list string :=
  ["-mcpu=cortex-m0plus"; "-mthumb"; "-Os"; "-std=gnu++17"; "-ffreestanding"; "-fno-builtin"; "-fno-exceptions"; "-fno-rtti";
   "-fno-unwind-tables"; "-fno-asynchronous-unwind-tables"; "-fno-stack-protector"; "-ffunction-sections"; "-fdata-sections";
   "-Wall"; "-Wextra"; "-Werror"; "-I" +:+ MS "facade"; "-DFIRMINGO_API_ADDRESS=" +:+ str_int api].

Definition compile_command (a : module_args) (api : Z) (source target : string) : list string :=
  compiler a :: common_flags api ++ ["-x"; "c++"; "-c"; source; "-o"; target].

Definition link_command (a : module_args) (objects : list string) (elf : string) : list string :=
  [compiler a; "-mcpu=cortex-m0plus"; "-mthumb"; "-nostdlib"; "-Wl,--gc-sections"; "-Wl,--no-undefined"; "-Wl,--build-id=none";
   "-Wl,-e,firmingo_sketch_setup"; "-Wl,-T," +:+ MS "module.ld"; "-Wl,-Map," +:+ module_file a ".map"]
  ++ objects ++ ["-lgcc"; "-o"; elf].

Definition sketch_source (a : module_args) : string := MS (mo_sketch a +:+ ".ino").
Definition module_sources (a : module_args) : list string :=
  [sketch_source a; MS "build_module.py"; MS "abi.h"; MS "facade/Arduino.h"; MS "module_entry.cpp"; MS "module.ld"].

Definition module_report (a : module_args) (f : files) (api setup loop : Z) (code capsule : bytes) : result (dict json) :=
  elf ← digest f (resolve (mo_resident_elf a));
  sources ← source_digests f (module_sources a);
  mret [("status", JStr "compile-tested module only; no resident or hardware proof"); ("board", JStr "nano_rp2040_connect");
        ("sketch", JStr (mo_sketch a)); ("image_format", JStr "nano-managed-v1"); ("target_id", JInt 1); ("max_install_bytes", JInt 4096);
        ("api_address", JStr (hex32 api)); ("resident_elf_sha256", JStr elf); ("setup_address", JStr (hex32 setup));
        ("loop_address", JStr (hex32 loop)); ("code_bytes", JInt (blen code)); ("code_sha256", JStr (sha code));
        ("capsule_bytes", JInt (blen capsule)); ("capsule_sha256", JStr (sha capsule)); ("source_sha256", JObj sources);
        ("compiler", JStr (compiler a))].

(** The objects of the sketch and of the entry, and the linked code *)
Definition link_module (a : module_args) (api : Z) : sh bytes :=
  let sketch_object := module_file a ".o" in
  let entry_object := module_directory a +:+ "/module_entry.o" in
  let elf := module_file a ".elf" in
  _ ← run_checked (compile_command a api (sketch_source a) sketch_object);
  _ ← run_checked (compile_command a api (MS "module_entry.cpp") entry_object);
  _ ← run_checked (link_command a [sketch_object; entry_object] elf);
  _ ← run_checked [objcopy a; "-O"; "binary"; elf; module_file a ".bin"];
  f ← files_now;
  st_pure (read f (module_file a ".bin")).

(** The capsule, and then the report about it *)
Definition publish_module (a : module_args) (api : Z) (code : bytes) (setup loop : Z) : sh (dict json) :=
  capsule ← st_pure (pack_capsule api code setup loop);
  write_file (module_file a ".fms") capsule;;
  f ← files_now;
  report ← st_pure (module_report a f api setup loop code capsule);
  write_file (module_report_file (resolve (mo_output a)) (mo_sketch a)) (json_pretty report);;
  mret report.

(** [main] *)
Definition module_main (a : module_args) : sh (dict json) :=
  f ← files_now;
  st_pure (check_module_tools f a);;
  api ← symbol (nm a) (resolve (mo_resident_elf a)) "R" "r" "firmingo_sketch_api";
  st_pure (check_api_address api);;
  make_dirs (module_directory a);;
  code ← link_module a api;
  st_pure (check_code_size code);;
  let elf := module_file a ".elf" in
  setup ← symbol (nm a) elf "T" "t" "firmingo_sketch_setup";
  loop ← symbol (nm a) elf "T" "t" "firmingo_sketch_loop";
  publish_module a api code (Z.lor setup 1) (Z.lor loop 1).
End Module.

(** ** What a module build leaves *)
Section ModuleOutcome.
Context `{codec : !Json} `{packing : !Packing} (resolve : string -> string) (env : environment shell_ret) (a : module_args).

Abbreviation report_path := (module_report_file (resolve (mo_output a)) (mo_sketch a)).
Abbreviation capsule_path := (module_file resolve a ".fms").

(** A symbol that nm printed for a file *)
Definition has_symbol (elf x y name : string) (address : Z) (k : list shell_call) : Prop :=
  exists text, printed env [nm resolve a; "-g"; "--defined-only"; elf] text k /\ symbol_address x y name text = Ok address.

Lemma has_symbol_more elf x y name address k n : has_symbol elf x y name address k -> has_symbol elf x y name address (k ++ n).
Proof. intros (text & Hp & Hs). exists text. split; [by apply printed_more|done]. Qed.

Lemma symbol_triple path v elf x y name : leaves env path ->
  triple env [] (kept path v (fun _ => True)) (symbol (nm resolve a) elf x y name)
    (fun address s k => kept path v (fun _ => True) s k /\ has_symbol elf x y name address k) (fun _ => kept path v (fun _ => True)).
Proof.
  intros Hl. unfold symbol. eapply triple_bind; [by apply run_checked_printed, checked_kept|intros text].
  apply triple_pure. intros s k [Hs Hp]. destruct (symbol_address x y name text) as [address|] eqn:E; [|done]. split; [done|by exists text].
Qed.

Lemma link_kept path v api : leaves env path -> keeps env [] (kept path v (fun _ => True)) (link_module resolve a api).
Proof. intros Hl. unfold link_module. cbn zeta. keeps_tac. Qed.

(** Nothing else is written. *)
Lemma module_main_kept path v : leaves env path -> path <> capsule_path -> path <> report_path ->
  keeps env [] (kept path v (fun _ => True)) (module_main resolve a).
Proof.
  intros Hl Hc Hr. unfold module_main, publish_module, symbol. cbn zeta. keeps_tac. by apply link_kept.
Qed.

(** A capsule for the API table of the resident, with the entries of the linked sketch, and the report about it *)
Record module_built (report : dict json) (v : shell) (k : list shell_call) : Prop := {
  mb_built : exists api setup loop code capsule,
    has_symbol (resolve (mo_resident_elf a)) "R" "r" "firmingo_sketch_api" api k /\
    has_symbol (module_file resolve a ".elf") "T" "t" "firmingo_sketch_setup" setup k /\
    has_symbol (module_file resolve a ".elf") "T" "t" "firmingo_sketch_loop" loop k /\
    sh_files v !! capsule_path = Some capsule /\ valid_capsule capsule api /\ drop 256 capsule = code /\
    module_report resolve a (sh_files v) api (Z.lor setup 1) (Z.lor loop 1) code capsule = Ok report }.

Definition module_left (f : files) (s : shell) (r : result (dict json)) (k : list shell_call) : Prop :=
  match r with
  | Ok report => exists v, module_built report v k /\ s = on_files <[report_path := json_pretty report]> v
  | Raise _ => sh_files s !! report_path = f !! report_path
  end.

Lemma no_report_name sketch : (sketch +:+ ".fms")%string <> "report.json".
Proof. intros H. do 12 (destruct sketch as [|c sketch]; cbn in H; [discriminate H|try discriminate H; injection H as -> H]). Qed.

Lemma paths_apart : capsule_path <> report_path.
Proof.
  unfold module_file, module_report_file. intros H%(inj (String.append _))%(inj (String.append "/"))%(inj (String.append _)).
  change ("/report.json")%string with ("/" +:+ "report.json")%string in H. apply (inj (String.append "/")) in H. by apply no_report_name in H.
Qed.

(** The last two writes, from a state that has the report of before *)
Lemma publish_module_triple (before : option bytes) api code setup loop s2 k2 :
  sh_files s2 !! report_path = before -> check_api_address api = Ok tt -> check_code_size code = Ok tt ->
  triple env [] (fun s k => s = s2 /\ k = k2) (publish_module resolve a api code (Z.lor setup 1) (Z.lor loop 1))
    (fun report s k => (exists n, k = k2 ++ n) /\ exists capsule, valid_capsule capsule api /\ drop 256 capsule = code /\
       module_report resolve a (<[capsule_path := capsule]> (sh_files s2)) api (Z.lor setup 1) (Z.lor loop 1) code capsule = Ok report /\
       s = on_files <[report_path := json_pretty report]> (on_files <[capsule_path := capsule]> s2))
    (fun _ s _ => sh_files s !! report_path = before).
Proof.
  intros Hb Hcheck Hsize. unfold publish_module.
  eapply triple_bind; [by apply pure_from|intros capsule]. apply triple_from. intros s k [[-> ->] Hpack].
  assert (Hcap : assemble_capsule api code setup loop = Ok capsule) by (unfold assemble_capsule; rewrite Hsize; exact Hpack).
  destruct (assembled_capsule _ _ _ _ _ Hcheck Hcap) as (Hv%checked_capsule_iff & _ & Hd).
  set (s3 := on_files <[capsule_path := capsule]> s2).
  assert (H3 : sh_files s3 !! report_path = before) by (cbn; by rewrite lookup_insert_ne by apply paths_apart).
  eapply triple_bind with (R := fun _ s k => s = s3 /\ exists n, k = k2 ++ n).
  { unfold write_file. apply op_triple; [intros s k [-> ->]; eauto|]. by intros e s k [-> ->]. }
  intros u5. apply triple_from. intros s k [-> [n ->]]. unfold files_now.
  eapply triple_bind with (R := fun g s k => (s = s3 /\ k = k2 ++ n) /\ g = sh_files s3).
  { eapply triple_bind; [apply get_from|]. intros g'. apply triple_ret. intros s k [H ->]. by split. }
  intros g'. apply triple_from. intros s k [[-> ->] ->].
  eapply triple_bind; [by apply pure_from|intros report]. apply triple_from. intros s k [[-> ->] Hrep].
  eapply triple_bind with (R := fun _ s k => s = on_files <[report_path := json_pretty report]> s3 /\ exists n, k = k2 ++ n).
  { unfold write_file. apply op_triple; [intros s k [-> ->]; rewrite <- app_assoc; eauto|]. by intros e s k [-> ->]. }
  intros u6. apply triple_ret. intros s k [-> Hk]. split; [exact Hk|]. by exists capsule.
Qed.

Lemma module_main_triple f : leaves env report_path ->
  triple env [] (fun s k => sh_files s = f /\ k = []) (module_main resolve a)
    (fun report s k => module_left f s (Ok report) k) (fun e s k => module_left f s (Raise e) k).
Proof.
  intros Hl. set (I := kept report_path (f !! report_path) (fun _ => True)).
  assert (HI : forall e s k, I s k -> module_left f s (Raise e) k) by by intros e s k [Hs _].
  unfold module_main. cbn zeta. eapply triple_bind with (R := fun _ => I); [apply triple_weaken with (P' := I) (Q' := fun _ => I) (E' := fun _ => I); [apply files_now_kept|by intros s k [<- _]|done|exact HI]|intros g].
  eapply triple_bind with (R := fun _ => I); [apply triple_pure; intros s k Hs; destruct (check_module_tools _ _ _) as [[]|]; [done|by apply HI]|intros u1].
  eapply triple_bind; [eapply triple_weaken; [by apply symbol_triple|done|done|exact HI]|intros api].
  set (api_ok := has_symbol (resolve (mo_resident_elf a)) "R" "r" "firmingo_sketch_api" api).
  eapply triple_bind with (R := fun _ s k => (I s k /\ api_ok k) /\ check_api_address api = Ok tt).
  { apply triple_pure. intros s k H. destruct (check_api_address api) as [[]|]; [done|apply HI, H]. }
  intros u2. apply triple_from. intros s0 k0 [[HI0 Hapi] Hcheck].
  assert (Hmore : forall k n, api_ok k -> api_ok (k ++ n)) by (intros k n; apply has_symbol_more).
  eapply triple_weaken with (P' := fun s k => I s k /\ api_ok k) (Q' := fun report s k => module_left f s (Ok report) k) (E' := fun e s k => module_left f s (Raise e) k);
    [|by intros s k [-> ->]|done|done].
  eapply triple_bind with (R := fun _ s k => I s k /\ api_ok k).
  { eapply triple_weaken; [apply (triple_grows env [] I _ (fun _ => I) (fun _ => I) api_ok Hmore); apply make_dirs_kept|done|done|]. intros e s k [H _]. by apply HI. }
  intros u3. eapply triple_bind with (R := fun _ s k => I s k /\ api_ok k).
  { eapply triple_weaken; [apply (triple_grows env [] I _ (fun _ => I) (fun _ => I) api_ok Hmore); by apply link_kept|done|done|]. intros e s k [H _]. by apply HI. }
  intros code. eapply triple_bind with (R := fun _ s k => (I s k /\ api_ok k) /\ check_code_size code = Ok tt).
  { apply triple_pure. intros s k H. destruct (check_code_size code) as [[]|]; [done|apply HI, H]. }
  intros u4. apply triple_from. intros s1 k1 [[HI1 Hapi1] Hsize].
  set (setup_ok := fun setup => has_symbol (module_file resolve a ".elf") "T" "t" "firmingo_sketch_setup" setup).
  eapply triple_bind with (R := fun setup s k => I s k /\ setup_ok setup k /\ api_ok k).
  { eapply triple_weaken; [apply (triple_grows env [] I _ (fun x s k => I s k /\ setup_ok x k) (fun _ => I) api_ok Hmore); by apply symbol_triple|by intros s k [-> ->]|by intros x s k [[? ?] ?]|].
    intros e s k [H _]. by apply HI. }
  intros setup. eapply triple_bind with (R := fun loop s k => (I s k /\ has_symbol (module_file resolve a ".elf") "T" "t" "firmingo_sketch_loop" loop k) /\ setup_ok setup k /\ api_ok k).
  { eapply triple_weaken; [eapply (triple_grows env [] I _ (fun x s k => I s k /\ has_symbol (module_file resolve a ".elf") "T" "t" "firmingo_sketch_loop" x k) (fun _ => I) (fun k => setup_ok setup k /\ api_ok k)); [|by apply symbol_triple]|done|done|].
    - intros k n [H1 H2]. split; by apply has_symbol_more.
    - intros e s k [H _]. by apply HI. }
  intros loop. apply triple_from. intros s2 k2 [[HI2 Hloop] [Hsetup Hapi2]].
  eapply triple_weaken; [by apply (publish_module_triple (f !! report_path) api code setup loop s2 k2); [apply HI2|..]|done| |done].
  intros report s k ([n ->] & capsule & Hv & Hd & Hrep & ->). eexists. split; [|reflexivity]. constructor.
  exists api, setup, loop, code, capsule. split_and!; [by apply has_symbol_more..| |done|done|exact Hrep]. cbn. apply lookup_insert_eq.
Qed.
End ModuleOutcome.

(** ** The three builds *)
Section Pipeline.
Context `{codec : !Json} `{packing : !Packing} (resolve : string -> string) (in_tree : string -> bool) (env : environment shell_ret).

(** A source of the repository that is where its name says *)
Definition own_source (name : string) : Prop := resolve name = name /\ in_tree name = true.

(** Digests that were taken from one store hold in a later one that has the same sources. *)
Lemma sources_recorded f g names sources report path :
  source_digests f names = Ok sources -> dget report "source_sha256" = Some (JObj sources) ->
  (exists text, g !! path = Some text /\ json_loads text = Ok (JObj report)) ->
  Forall (fun name => own_source name /\ g !! name = f !! name) names -> recorded_in resolve in_tree g path report.
Proof.
  intros [Hn Hd]%source_digests_Ok Hs Hr Hall. constructor; [exact Hr|]. exists sources. split; [unfold jget_or; by rewrite Hs|].
  rewrite Forall_forall in Hall. rewrite Forall_forall in Hd. apply Forall_forall. intros [name v] Hin.
  destruct (Hd _ Hin) as (data & Hdata & Hv). cbn [fst snd] in *.
  assert (Hname : name ∈ names). { apply Hn. destruct (dget sources name) eqn:E; [done|]. apply dget_None in E. destruct E. apply list_elem_of_fmap. by exists (name, v). }
  apply Hall in Hname as [[Hres Htree] Hg]. exists data. cbn [fst snd]. rewrite Hres. split_and!; [by rewrite Hg|done|done].
Qed.

Lemma module_half a report v k :
  module_built resolve env a report v k -> json_loads (json_pretty report) = Ok (JObj report) ->
  let path := (module_report_file (resolve (mo_output a)) (mo_sketch a)) in
  let g := <[path := json_pretty report]> (sh_files v) in
  Forall (fun name => own_source name /\ name <> path) (module_sources a) ->
  exists capsule elf, sh_files v !! resolve (mo_resident_elf a) = Some elf /\
    module_accepted resolve in_tree g (resolve (mo_output a)) (mo_sketch a) report (sha elf) capsule.
Proof.
  intros [(api & setup & loop & code & capsule & _ & _ & _ & Hcap & Hv & _ & Hr)] Hj path g Hsrc.
  unfold module_report in Hr. apply bind_Ok in Hr as (h & (elf & He & ->)%digest_Ok & Hr). apply bind_Ok in Hr as (sources & Hs & Hr). injection Hr as Hr.
  exists capsule, elf. split; [exact He|]. constructor; [|by rewrite <- Hr| |exists api; split; [exact Hv|by rewrite <- Hr]].
  - apply (sources_recorded (sh_files v) g (module_sources a) sources); [done|by rewrite <- Hr| |].
    + exists (json_pretty report). split; [apply lookup_insert_eq|done].
    + eapply Forall_impl; [exact Hsrc|]. intros name [Ho Hn]. split; [exact Ho|]. unfold g. by rewrite lookup_insert_ne.
  - split; [|by rewrite <- Hr]. unfold g. rewrite lookup_insert_ne; [exact Hcap|]. apply not_eq_sym, paths_apart.
Qed.

(** What a module build that returned left for the composer *)
Lemma module_bound a s s' report k elf : leaves env (module_report_file (resolve (mo_output a)) (mo_sketch a)) ->
  module_main resolve a env [] s = (s', Ok report, k) -> json_loads (json_pretty report) = Ok (JObj report) ->
  resolve (mo_resident_elf a) <> module_report_file (resolve (mo_output a)) (mo_sketch a) -> sh_files s' !! resolve (mo_resident_elf a) = Some elf ->
  Forall (fun name => own_source name /\ name <> module_report_file (resolve (mo_output a)) (mo_sketch a)) (module_sources a) ->
  exists capsule, module_accepted resolve in_tree (sh_files s') (resolve (mo_output a)) (mo_sketch a) report (sha elf) capsule.
Proof.
  intros Hl E Hj Hn He Hsrc. pose proof (module_main_triple resolve env a (sh_files s) Hl s [] (conj eq_refl eq_refl)) as Hm. cbn [app] in Hm.
  rewrite E in Hm. destruct Hm as (v & Hbuilt & ->). cbn [on_files sh_files] in *.
  destruct (module_half a report v k Hbuilt Hj Hsrc) as (capsule & elf' & He' & Hma). exists capsule.
  rewrite lookup_insert_ne in He by (by apply not_eq_sym). congruence.
Qed.

(** A composer whose inputs are refused writes nothing. *)
Lemma composite_unwritten a s e : composite_inputs resolve in_tree (sh_files s) a = Raise e ->
  composite_main resolve in_tree a env [] s = (s, Raise e, []).
Proof. intros H. unfold composite_main, files_now, st_get, st_pure, mbind, st_mbind, st_bind, mret, st_ret. cbn. by rewrite H. Qed.

Lemma image_paths out : elf_path out <> report_in out /\ uf2_path out <> report_in out.
Proof. split; intros H%(inj (String.append _)); discriminate H. Qed.

Lemma unmarked_checkpoint a : check_resident_args a = Ok tt -> stateful_any a = false -> ra_checkpoint a = None.
Proof.
  unfold check_resident_args, stateful_any, stateful_runtime. intros H%raise_when_Ok [_ [_ Hu]%orb_false_iff]%orb_false_iff.
  rewrite Hu in H. by destruct (ra_checkpoint a).
Qed.

(** The store of a resident build, as far as a later one still has it *)
Lemma resident_half a s s1 report k g : leaves env (report_in (ra_output a)) -> stateful_any a = false ->
  resident_build a env [] s = (s1, Ok report, k) -> json_loads (json_pretty report) = Ok (JObj report) ->
  let out := ra_output a in
  (forall path, path ∈ [elf_path out; uf2_path out; report_in out] ++ resident_sources (sh_files s1) -> g !! path = sh_files s1 !! path) ->
  Forall (fun name => own_source name /\ name <> report_in out) (resident_sources (sh_files s1)) ->
  exists elf uf2, sh_files s1 !! elf_path out = Some elf /\ sh_files s1 !! uf2_path out = Some uf2 /\
    resident_bound resolve in_tree g out report (sha elf) uf2.
Proof.
  intros Hl Hsa Hb Hj out Hstay Hown. pose proof (build_args_checked a env s s1 report k Hb) as Hargs.
  pose proof (resident_build_triple env a Hl (sh_files s) s [] (conj eq_refl eq_refl)) as H. cbn [app] in H. rewrite Hb in H.
  destruct H as (v & [(text & board & fqbn & flash & ram & address & size & _ & _ & Hq & _ & _ & Hr)] & ->). fold out in Hstay, Hown |- *.
  cbn [on_files sh_files] in *. set (f1 := <[report_in out := json_pretty report]> (sh_files v)) in *.
  assert (Hsame : forall path, path <> report_in out -> f1 !! path = sh_files v !! path) by (intros path Hn; by apply lookup_insert_ne, not_eq_sym).
  destruct (image_paths out) as [Ne Nu]. destruct board as [| | | | | |manifest]; try done.
  apply unmarked_report in Hr as (name & q & elf & uf2 & sources & _ & _ & He & Hu & Hs & Hrd); [|done|by apply unmarked_checkpoint].
  fold out in He, Hu. assert (Hin : forall path, path ∈ resident_sources (sh_files v) -> path ∈ resident_sources f1).
  { intros path [Hlist|[Hund Hsome]]%resident_sources_spec; apply resident_sources_spec; [by left|right; split; [done|]].
    unfold f1. destruct (decide (path = report_in out)) as [->|Hn]; [rewrite lookup_insert_eq; by eexists|by rewrite Hsame]. }
  exists elf, uf2. rewrite !Hsame by done. rewrite Forall_forall in Hown. split_and!; [done..|]. constructor.
  - apply (sources_recorded (sh_files v) g (resident_sources (sh_files v)) sources); [done|by rewrite Hrd| |].
    + exists (json_pretty report). split; [|done]. rewrite Hstay by (right; right; left). apply lookup_insert_eq.
    + apply Forall_forall. intros path Hpath. destruct (Hown path (Hin path Hpath)) as [Ho Hn]. split; [exact Ho|].
      rewrite Hstay by (apply elem_of_app; right; by apply Hin). by apply Hsame.
  - by rewrite Hrd.
  - exists elf. split_and!; [rewrite Hstay by left; by rewrite Hsame|done|by rewrite Hrd].
  - split; [rewrite Hstay by (right; left); by rewrite Hsame|by rewrite Hrd].
Qed.

(** The report of a stateful variant, read back by the composer *)
Lemma stateful_half a ca s s1 report k g : leaves env (report_in (ra_output a)) -> stateful_any a = true -> resolve (ca_resident ca) = ra_output a ->
  resident_build a env [] s = (s1, Ok report, k) -> json_loads (json_pretty report) = Ok (JObj report) ->
  g !! report_in (ra_output a) = sh_files s1 !! report_in (ra_output a) -> is_ok (composite_inputs resolve in_tree g ca) = false.
Proof.
  intros Hl Hsa Hres Hb Hj Hg. pose proof (resident_build_triple env a Hl (sh_files s) s [] (conj eq_refl eq_refl)) as H. cbn [app] in H. rewrite Hb in H.
  destruct H as (v & [(text & board & fqbn & flash & ram & address & size & _ & _ & Hq & _ & _ & Hr)] & ->).
  apply marked_report in Hr as (status & Hst & Hn); [|done]. cbn [on_files sh_files] in Hg. rewrite lookup_insert_eq in Hg.
  destruct (composite_inputs resolve in_tree g ca) as [[[[rr mr] blocks] capsule]|] eqn:E; [|done].
  apply composite_inputs_iff in E as (resident & module & h & uf2 & _ & _ & [[[(text' & Ht & Hl') _] Hs _ _] _] & _). rewrite Hres in Ht.
  change (ra_output a +:+ "/report.json")%string with (report_in (ra_output a)) in Ht. rewrite Hg in Ht. injection Ht as <-.
  rewrite Hj in Hl'. injection Hl' as <-. rewrite Hst in Hs. by injection Hs.
Qed.
End Pipeline.

Lemma module_kept `{codec : !Json} `{packing : !Packing} resolve (env : environment shell_ret) a s s' r k path :
  module_main resolve a env [] s = (s', r, k) -> leaves env path ->
  path ∉ [module_file resolve a ".fms"; module_report_file (resolve (mo_output a)) (mo_sketch a)] -> sh_files s' !! path = sh_files s !! path.
Proof.
  intros H Hl Hn. pose proof (module_main_kept resolve env a path (sh_files s !! path) Hl ltac:(set_solver) ltac:(set_solver) s [] (conj eq_refl I)) as Hk.
  cbn [app] in Hk. rewrite H in Hk. destruct r; apply Hk.
Qed.

(** C6: The resident build, the module build and the composer fit together. When a resident build of any variant returned, and
    then a module build for its ELF; when the programs of the module build leave the resident's outputs and sources alone, and
    it writes none of them itself, the reports read back as written, and the sources lie in the repository under their own
    names; then build_composite.py refuses nothing of a build of no stateful variant but its UF2: when [checked_resident]
    accepts this file, the composer returns on a disk that grants everything, and what it wrote passes the review of
    flash_initial.py under its own digest; when it does not, the composer fails with its error and writes nothing. The build
    of a stateful variant it always refuses, and writes nothing. *)
Theorem built_images_compose `{codec : !Json} `{packing : !Packing} resolve in_tree (env env2 env3 : environment shell_ret) ra ma ca ia s :
  let '(s1, r1, _) := resident_build ra env [] s in
  let '(s2, r2, _) := module_main resolve ma env2 [] s1 in
  let '(s3, r3, _) := composite_main resolve in_tree ca env3 [] s2 in
  let out := ra_output ra in
  let written := [module_file resolve ma ".fms"; module_report_file (resolve (mo_output ma)) (mo_sketch ma)] in
  leaves env (report_in out) -> leaves env2 (module_report_file (resolve (mo_output ma)) (mo_sketch ma)) ->
  resolve (mo_resident_elf ma) = elf_path out -> resolve (ca_resident ca) = out ->
  resolve (ca_module ca) = resolve (mo_output ma) -> ca_sketch ca = mo_sketch ma -> ia_sketch ia = ca_sketch ca -> ia_output ia = ca_output ca ->
  (forall operation path h, env3 h (Op operation path) = Ok tt) ->
  Forall (fun path => leaves env2 path /\ path ∉ written) ([elf_path out; uf2_path out; report_in out] ++ resident_sources (sh_files s1)) ->
  Forall (fun name => own_source resolve in_tree name /\ name ∉ report_in out :: written) (module_sources ma ++ resident_sources (sh_files s1)) ->
  (forall report, Ok report ∈ [r1; r2; r3] -> json_loads (json_pretty report) = Ok (JObj report)) ->
  is_ok r1 = true -> is_ok r2 = true ->
  if stateful_any ra then is_ok r3 = false /\ s3 = s2 else
  exists uf2, sh_files s1 !! uf2_path out = Some uf2 /\
    match checked_resident_bytes uf2 with
    | Ok blocks => exists report image, r3 = Ok report /\ composed resolve in_tree ca (sh_files s2) image report /\
        check_reviewed resolve (sh_files s3) ia (sha image) = Ok tt
    | Raise e => r3 = Raise e /\ s3 = s2
    end.
Proof.
  destruct (resident_build ra env [] s) as [[s1 r1] k1] eqn:E1. destruct (module_main resolve ma env2 [] s1) as [[s2 r2] k2] eqn:E2.
  destruct (composite_main resolve in_tree ca env3 [] s2) as [[s3 r3] k3] eqn:E3. cbn zeta.
  intros Hlr Hlm Helf Hres Hmod Hsk Hia Hiao Hgrant Hkept Hown Hjson Hok1 Hok2.
  destruct r1 as [rr|]; [|done]. destruct r2 as [mr|]; [|done].
  rewrite Forall_forall in Hkept. rewrite Forall_forall in Hown.
  assert (Hstay : forall path, path ∈ [elf_path (ra_output ra); uf2_path (ra_output ra); report_in (ra_output ra)] ++ resident_sources (sh_files s1) ->
    sh_files s2 !! path = sh_files s1 !! path) by (intros path [Hl Hn]%Hkept; by eapply module_kept).
  assert (Hjr : json_loads (json_pretty rr) = Ok (JObj rr)) by (apply Hjson; left).
  destruct (stateful_any ra) eqn:Hsa.
  { pose proof (stateful_half resolve in_tree env ra ca s s1 rr k1 (sh_files s2) Hlr Hsa Hres E1 Hjr (Hstay _ ltac:(right; right; left))) as Hno.
    destruct (composite_inputs resolve in_tree (sh_files s2) ca) as [|e] eqn:Ein; [done|].
    rewrite (composite_unwritten resolve in_tree env3 ca s2 e Ein) in E3. by injection E3 as <- <- <-. }
  destruct (resident_half resolve in_tree env ra s s1 rr k1 (sh_files s2)) as (elf & uf2 & He & Hu & Hra); [done..| |].
  { apply Forall_forall. intros name Hn. destruct (Hown name) as [Ho [Hw _]%not_elem_of_cons]; [apply elem_of_app; by right|]. by split. }
  destruct (module_bound resolve in_tree env2 ma s1 s2 mr k2 elf Hlm E2) as (capsule & Hma); [apply Hjson; right; left| | | |].
  { rewrite Helf. destruct (Hkept (elf_path (ra_output ra))) as [_ [_ [Hn _]%not_elem_of_cons]%not_elem_of_cons]; [left|exact Hn]. }
  { rewrite Helf, Hstay by left. exact He. }
  { apply Forall_forall. intros name Hn. destruct (Hown name) as [Ho [_ [_ [Hw _]%not_elem_of_cons]%not_elem_of_cons]%not_elem_of_cons];
      [apply elem_of_app; by left|]. by split. }
  exists uf2. split; [exact Hu|].
  assert (Hin : composite_inputs resolve in_tree (sh_files s2) ca = blocks ← checked_resident_bytes uf2; Ok (JObj rr, JObj mr, blocks, capsule)).
  { apply (composite_inputs_bound resolve in_tree (sh_files s2) ca rr mr (sha elf)); [by rewrite Hres|by rewrite Hmod, Hsk]. }
  destruct (checked_resident_bytes uf2) as [blocks|e]; cbn [mbind result_bind] in Hin.
  2:{ rewrite (composite_unwritten resolve in_tree env3 ca s2 e Hin) in E3. by injection E3 as <- <- <-. }
  pose proof (composite_main_triple resolve in_tree env3 ca (sh_files s2) s2 [] (conj eq_refl eq_refl)) as Hc. cbn [app] in Hc. rewrite E3 in Hc.
  destruct r3 as [report|e]; [|destruct Hc as [_ Hc]; rewrite Hin in Hc; by specialize (Hc ltac:(by intros ? ? ?))].
  destruct Hc as (image & Hco & Hs3). exists report, image. split_and!; [done|done|].
  apply (composed_review resolve in_tree ca (sh_files s2) image report); [done|apply Hjson; right; right; left|done..].
Qed.

(** ** The three builds of one sketch *)
Module PipelineDemo.
Definition bin : string := "/pqt/5.0.0-9576866/bin".
Definition arguments : module_args := {|
  mo_sketch := "blink_a"; mo_resident_elf := elf_path nano_resident; mo_toolchain := bin; mo_output := "build/managed_sketch" |}.
Definition composition : composite_args := {|
  ca_sketch := "blink_a"; ca_resident := nano_resident; ca_module := "build/managed_sketch"; ca_output := "build/managed_sketch/composite" |}.
Definition installation : initial_args := {|
  ia_sketch := "blink_a"; ia_transport := Mount "/Volumes/RPI-RP2"; ia_flash_id := None; ia_expected := "";
  ia_resident := nano_resident; ia_module := "build/managed_sketch"; ia_output := "build/managed_sketch/composite" |}.

Definition start : shell :=
  {| sh_files := ResidentDemo.disk ∪ list_to_map ((fun path => (path, ascii path)) <$>
       module_sources arguments ++ [(bin +:+ "/arm-none-eabi-g++")%string; (bin +:+ "/arm-none-eabi-objcopy")%string; (bin +:+ "/arm-none-eabi-nm")%string]);
     sh_links := ∅; sh_report := [] |}.

Definition status_of (d : dict json) : bytes := match jget d "status" with JStr s => ascii s | _ => [] end.
#[local] Instance packing : Packing := { json_pretty := status_of; zip_file _ := [] }.

(** The reports that were written are read back; everything else is what the resident build reads. *)
Definition codec_of (reports : list (dict json)) : Json := {|
  json_loads b := match List.find (fun d => bool_decide (status_of d = b)) reports with
                  | Some d => Ok (JObj d)
                  | None => @json_loads ResidentDemo.codec b
                  end;
  json_dumps _ := [] |}.

(** nm names the API table of the resident and the entries of the sketch; objcopy leaves the code. *)
Definition toolchain : environment shell_ret := fun h c =>
  match c with
  | Op _ _ => Ok tt
  | Environ _ | Which _ => Ok None
  | Process cwd command before =>
      if existsb (String.eqb "-g") command then
        Ok (ProfileDemo.finished (if bool_decide (elf_path nano_resident ∈ command) then "10001000 R firmingo_sketch_api"
          else "10200100 T firmingo_sketch_setup" +:+ String line_break "10200102 T firmingo_sketch_loop") before)
      else if existsb (String.eqb "-O") command then
        Ok (ProfileDemo.finished "" (<[module_file id arguments ".bin" := demo_code]> before))
      else Ok (ProfileDemo.finished "" before)
  end.

Definition resident_run (reports : list (dict json)) : shell * result (dict json) * list shell_call :=
  @resident_build (codec_of reports) _ ResidentDemo.arguments (ResidentDemo.env "20000100" "nop") [] start.
Definition module_run (s : shell) : shell * result (dict json) * list shell_call := module_main id arguments toolchain [] s.
Definition composite_run (reports : list (dict json)) (s : shell) : shell * result (dict json) * list shell_call :=
  @composite_main (codec_of reports) _ id (fun _ => true) composition toolchain [] s.

Definition report_of (r : result (dict json)) : dict json := match r with Ok d => d | Raise _ => [] end.
Definition reports := Eval vm_compute in
  let '(s1, r1, _) := resident_run [] in
  let '(s2, r2, _) := module_run s1 in
  let known := [report_of r1; report_of r2] in
  known ++ [report_of (composite_run known s2).1.2].
Definition after_resident : shell := (resident_run reports).1.1.

Lemma toolchain_leaves path : path <> module_file id arguments ".bin" -> leaves toolchain path.
Proof.
  intros Hn k cwd command f p. cbn [toolchain]. repeat destruct (existsb _ _); intros [= <-]; try done. by apply lookup_insert_ne.
Qed.

(** Where the module build writes, and what it must not write *)
Definition written : list string := [module_file id arguments ".fms"; module_report_file "build/managed_sketch" "blink_a"].
Definition apart (path : string) : bool :=
  negb (bool_decide (path = module_file id arguments ".bin")) && negb (existsb (String.eqb path) (report_in nano_resident :: written)).

Lemma sources_apart : forallb apart (module_sources arguments ++ resident_sources (sh_files after_resident)) = true.
Proof. vm_compute. reflexivity. Qed.

Lemma apart_spec path : apart path = true -> leaves toolchain path /\ path ∉ report_in nano_resident :: written.
Proof.
  unfold apart. rewrite andb_true_iff, !negb_true_iff. intros [Hb%bool_decide_eq_false Hw]. split; [by apply toolchain_leaves|].
  intros Hin%list_elem_of_In. apply not_true_iff_false in Hw. apply Hw, existsb_exists. exists path. by rewrite String.eqb_refl.
Qed.
End PipelineDemo.
#[local] Existing Instance PipelineDemo.packing.

Lemma built_images_compose_witness : let codec := PipelineDemo.codec_of PipelineDemo.reports in
  let '(s2, _, _) := PipelineDemo.module_run PipelineDemo.after_resident in
  let '(s3, r3, _) := PipelineDemo.composite_run PipelineDemo.reports s2 in
  exists report image, r3 = Ok report /\ @check_reviewed codec id (sh_files s3) PipelineDemo.installation (sha image) = Ok tt.
Proof.
  pose proof (@built_images_compose (PipelineDemo.codec_of PipelineDemo.reports) _ id (fun _ => true) (ResidentDemo.env "20000100" "nop")
    PipelineDemo.toolchain PipelineDemo.toolchain ResidentDemo.arguments PipelineDemo.arguments PipelineDemo.composition PipelineDemo.installation
    PipelineDemo.start) as H.
  cbn zeta. unfold PipelineDemo.composite_run, PipelineDemo.module_run.
  pose proof PipelineDemo.sources_apart as Hapart.
  assert (Hr1 : (PipelineDemo.resident_run PipelineDemo.reports).1.2 = Ok (default [] (PipelineDemo.reports !! 0%nat))) by (vm_compute; reflexivity).
  assert (Hu : sh_files PipelineDemo.after_resident !! uf2_path nano_resident = Some demo_uf2) by (vm_compute; reflexivity).
  assert (Hr2 : (PipelineDemo.module_run PipelineDemo.after_resident).1.2 = Ok (default [] (PipelineDemo.reports !! 1%nat))) by (vm_compute; reflexivity).
  assert (Hr3 : (PipelineDemo.composite_run PipelineDemo.reports (PipelineDemo.module_run PipelineDemo.after_resident).1.1).1.2 =
    Ok (default [] (PipelineDemo.reports !! 2%nat))) by (vm_compute; reflexivity).
  assert (Hj : Forall (fun d => @json_loads (PipelineDemo.codec_of PipelineDemo.reports) (json_pretty d) = Ok (JObj d)) PipelineDemo.reports)
    by (repeat constructor; vm_compute; reflexivity).
  unfold PipelineDemo.composite_run, PipelineDemo.module_run, PipelineDemo.after_resident, PipelineDemo.resident_run in *.
  destruct (resident_build _ _ _ _) as [[s1 r1] k1]. cbn [fst snd] in *.
  destruct (module_main _ _ _ _ s1) as [[s2 r2] k2]. cbn [fst snd] in *.
  destruct (composite_main _ _ _ _ _ s2) as [[s3 r3] k3]. cbn [fst snd] in *. subst r1 r2 r3.
  rewrite forallb_forall in Hapart. setoid_rewrite <- list_elem_of_In in Hapart.
  destruct H as (uf2 & Hu2 & H); try reflexivity.
  - apply ResidentDemo.resident_env_leaves.
  - by apply PipelineDemo.toolchain_leaves.
  - apply Forall_app. split.
    + repeat constructor; first [by apply PipelineDemo.toolchain_leaves | apply (bool_decide_unpack _); reflexivity].
    + apply Forall_forall. intros path Hp. destruct (PipelineDemo.apart_spec path) as [Hl Hn]; [apply Hapart, elem_of_app; by right|].
      split; [exact Hl|]. by apply not_elem_of_cons in Hn as [_ Hn].
  - apply Forall_forall. intros name Hp. split; [by split|]. by apply PipelineDemo.apart_spec, Hapart.
  - intros report Hin. rewrite Forall_lookup in Hj. rewrite !elem_of_cons, elem_of_nil in Hin. destruct Hin as [[= ->]|[[= ->]|[[= ->]|[]]]];
      [apply (Hj 0%nat)|apply (Hj 1%nat)|apply (Hj 2%nat)]; reflexivity.
  - assert (E : Some uf2 = Some demo_uf2) by (etransitivity; [symmetry; exact Hu2|exact Hu]). injection E as ->.
    change (stateful_any _) with false in H. cbn beta iota in H. set (accepted := checked_resident_bytes demo_uf2) in H. vm_compute in accepted. subst accepted.
    destruct H as (report & image & Hr & _ & Hc). exists report, image. by split.
Defined.
