(* ===== verification/ProofBuild.v ===== *)
(** * The stateful proof build: [main] of experiments/managed_sketch/build_stateful_proof.py

    A resident with the selected runtime is built and checked, a sketch with initialized and zeroed state is linked
    against it, wrapped in an FMS2 capsule, and shown to the native checker, which must accept the capsule and refuse a
    corrupted copy. The report says "failed" from before the first step to the end of the last one. *)

From stdpp Require Import base tactics list list_numbers strings gmap.
From Stdlib Require Import ZArith Lia Strings.Byte.
From S2P Require Import Prelude.
From S2P Require Import PyBytes.
From S2P Require Import Sha256.
From S2P Require Import PyText.
From S2P Require Import PyStr.
From S2P Require Import PyRegex.
From S2P Require Import PyDict.
From S2P Require Import BuildComposite.
From S2P Require Import FirmwareImage.
From S2P Require Import Elf.
From S2P Require Import ExportResident.
From S2P Require Import BuildStatefulProof.
From S2P Require Import PyJson.
From S2P Require Import Effects.
From S2P Require Import Stateful.
From S2P Require Import SessionSmoke.
From S2P Require Import Release.
From S2P Require Import Dev.
From S2P Require Import ResidentSource.
From S2P Require Import ResidentExport.
From S2P Require Import StatefulLayout.
From S2P Require Import StatefulExport.
From S2P Require Import Shell.
From S2P Require Import ManagedProfile.
From S2P Require Import Build.
From S2P Require Import ResidentBuild.
From S2P Require Import RomImages.

Local Open Scope Z_scope.

(** ** The arguments *)
Record proof_args := {
  pf_cli : string; pf_config : string; pf_validator : string; pf_output : string;
  pf_boot : bool; pf_upload : bool; pf_checkpoint : option string }.

Definition check_proof_args (a : proof_args) : result unit :=
  raise_when (pf_boot a && pf_upload a) (SystemExit "select one runtime mode");;
  raise_when (match pf_checkpoint a with Some _ => negb (pf_upload a) | None => false end)
    (SystemExit "--flash-checkpoint requires --upload-runtime").

Definition runtime_enabled (a : proof_args) : bool := pf_boot a || pf_upload a.

Definition first_proof : dict json := [("status", JStr "failed"); ("runtimeEnabled", JBool false); ("hardwareTested", JBool false)].

Definition proof_sources : list string :=
  (MS <$> ["build_stateful_proof.py"; "build_resident.py"; "stateful_abi.h"; "abi.h"; "facade/Arduino.h"; "stateful_counter.ino";
          "module_entry.cpp"; "stateful_module.ld"; "stateful_check.cpp"; "stateful_image.h"; "stateful_image.cpp"; "image.h";
          "image.cpp"; "export_resident.py"; "build_composite.py"; "stateful_runtime.h"; "stateful_runtime.cpp"; "core1_pause.h";
          "core1_pause.cpp"])
  ++ ["CMakeLists.txt"] ++ (MS <$> ["stateful_upload.h"; "stateful_upload.cpp"; "facade_v2/Arduino.h"]).

(** The status of the resident report that each mode requires *)
Definition expected_status (a : proof_args) : string :=
  match pf_checkpoint a with
  | Some _ => "compile-tested FMS2 flash-checkpoint fault candidate; not flashed"
  | None =>
      if pf_upload a then stateful_status
      else if runtime_enabled a then "compile-tested FMS2 boot runtime candidate; network uploads disabled; not flashed"
      else "compile-tested stateful allocation candidate; FMS2 runtime disabled; not flashed"
  end.

Definition checkpoint_value (c : resident_facts_v2) : json :=
  match rc_flashCheckpoint c with Some kind => checkpoint_json kind | None => JNull end.

(** [(contract.get("flashCheckpoint") or {}).get("after")] *)
Definition checkpoint_after (c : resident_facts_v2) : option string :=
  (fun kind => if kind =? 1 then "erase" else "first-page") <$> rc_flashCheckpoint c.

(** [capsule[:-1] + bytes([capsule[-1] ^ 1])] *)
Definition corrupted (capsule : bytes) : result bytes :=
  match last capsule with
  | Some b => mret (take (length capsule - 1) capsule ++ [z2b (Z.lxor (b2z b) 1)])
  | None => Raise (IndexError "index out of range")
  end.

Definition extents_json (x : module_extents) : json :=
  JObj [("codeBytes", JInt (codeBytes x)); ("dataBytes", JInt (dataBytes x)); ("bssBytes", JInt (bssBytes x));
        ("setupAddress", JInt (setupAddress x)); ("loopAddress", JInt (loopAddress x))].

(** The counter of the proof: one initialized word that holds 7, and one zeroed word *)
Definition check_counter (capsule : bytes) (x : module_extents) : result unit :=
  word ← pack LE [u32] (7, tt);
  raise_when (negb (dataBytes x =? 4) || negb (bssBytes x =? 4) || negb (bool_decide (drop (length capsule - 4) capsule = word)))
    (ValueError "counter proof must contain its initialized word and BSS word").

Section Proof.
Context `{codec : !Json} `{packing : !Packing} `{pairs : !JsonPairs} (resolve : string -> string) (python : string).

Definition proof_output (a : proof_args) : string := resolve (pf_output a).
Definition proof_resident (a : proof_args) : string := proof_output a +:+ "/resident".
Definition proof_tools (a : proof_args) : string := pqt_gcc (resolve (pf_config a)).
Definition proof_compiler (a : proof_args) : string := proof_tools a +:+ "/arm-none-eabi-g++".
Definition proof_file (a : proof_args) (name : string) : string := proof_output a +:+ "/" +:+ name.

Definition proof_resident_command (a : proof_args) : list string :=
  [python; MS "build_resident.py"; "--cli"; resolve (pf_cli a); "--config-file"; resolve (pf_config a); "--output-dir"; proof_resident a;
   if pf_upload a then "--stateful-upload-proof" else if pf_boot a then "--stateful-runtime-proof" else "--stateful-allocation-proof"]
  ++ match pf_checkpoint a with Some after => ["--flash-checkpoint"; after] | None => [] end.

Definition proof_compile (a : proof_args) (c : resident_facts_v2) (source object : string) : list string :=
  [proof_compiler a; "-mcpu=cortex-m0plus"; "-mthumb"; "-Os"; "-std=c++11"; "-ffreestanding"; "-fno-builtin"; "-fno-exceptions"; "-fno-rtti";
   "-fno-unwind-tables"; "-fno-asynchronous-unwind-tables"; "-fno-stack-protector"; "-fno-common"; "-ffunction-sections"; "-fdata-sections";
   "-Wall"; "-Wextra"; "-Werror"; "-I" +:+ MS "facade_v2"; "-DFIRMINGO_API_ADDRESS=" +:+ str_int (rc_apiAddress c);
   "-x"; "c++"; "-c"; source; "-o"; object].

Definition proof_link (a : proof_args) (c : resident_facts_v2) : list string :=
  [proof_compiler a; "-mcpu=cortex-m0plus"; "-mthumb"; "-nostdlib"; "-Wl,--gc-sections"; "-Wl,--no-undefined"; "-Wl,--build-id=none";
   "-Wl,-e,firmingo_sketch_setup"; "-Wl,--defsym,FIRMINGO_STATE_ADDRESS=" +:+ str_int (rc_stateAddress c);
   "-Wl,--defsym,FIRMINGO_STATE_BYTES=" +:+ str_int (rc_stateCapacityBytes c); "-Wl,-T," +:+ MS "stateful_module.ld";
   "-Wl,-Map," +:+ proof_file a "stateful_counter.map"; proof_file a "stateful_counter.o"; proof_file a "module_entry.o";
   "-o"; proof_file a "stateful_counter.elf"].

(** The native checker and what it is asked *)
Definition checker_command (validator capsule : string) (c : resident_facts_v2) : list string :=
  [resolve validator; capsule; str_int (rc_apiAddress c); str_int (rc_stateAddress c); str_int (rc_stateCapacityBytes c)].

(** The resident was built in the selected mode. *)
Definition check_resident_report (a : proof_args) (report : dict json) : result unit :=
  raise_when (differs report "status" (JStr (expected_status a)) || negb (is_bool (runtime_enabled a) (jget report "stateful_runtime_enabled"))
      || negb (Bool.eqb (has_key report "upload_target") (pf_upload a))) (ValueError "select explicit candidate allocation build").

(** The contract of its ELF, in the selected mode *)
Definition selected_contract (a : proof_args) (report : dict json) (elf : bytes) : result (resident_facts_v2 * list (Z * bytes)) :=
  ' (c, flash) ← resident_contract elf;
  raise_when (negb (bool_decide (checkpoint_after c = pf_checkpoint a)) || differs report "flash_checkpoint" (checkpoint_value c))
    (ValueError "flash checkpoint differs between selected mode, ELF and report");;
  raise_when (negb (Bool.eqb (rc_runtimeEnabled c) (runtime_enabled a))
      || negb (Bool.eqb (negb (bool_decide (rc_uploadTarget c = None))) (pf_upload a)))
    (ValueError "resident runtime marker differs from selected build mode");;
  mret (c, flash).

(** The contract with what the UF2 was measured to be *)
Definition measured_contract (c : resident_facts_v2) (uf2 : bytes) (compared : Z) : dict json :=
  dset (dset (contract_dict c) "residentUF2SHA256" (JStr (sha uf2))) "elfUF2ComparedBytes" (JInt compared).

(** The report and the artifacts of the resident *)
Definition resident_artifacts (a : proof_args) : sh (dict json * bytes * bytes) :=
  s ← st_get;
  text ← st_pure (capture s (report_in (proof_resident a)) 262144);
  value ← st_pure (json_loads_unique text);
  report ← st_pure (as_dict value);
  st_pure (check_resident_report a report);;
  elf ← st_pure (capture s (elf_path (proof_resident a)) ELF_LIMIT);
  uf2 ← st_pure (capture s (uf2_path (proof_resident a)) UF2_LIMIT);
  let mismatch := ValueError "resident report/artifacts mismatch" in
  st_pure (must_be value "elf_sha256" (sha elf) mismatch);;
  st_pure (must_be value "uf2_sha256" (sha uf2) mismatch);;
  mret (report, elf, uf2).

(** The sources, the tools and the resident build *)
Definition build_candidate (a : proof_args) : sh (dict json * dict json * resident_facts_v2 * dict json) :=
  f ← files_now;
  sources ← st_pure (source_digests f proof_sources);
  note "sourceSHA256" (JObj sources);;
  st_pure (raise_when (negb (is_file f (proof_compiler a)) || negb (is_file f (pf_validator a)))
    (ValueError "pinned ARM compiler or native validator missing"));;
  _ ← run_checked (proof_resident_command a);
  ' (report, elf, uf2) ← resident_artifacts a;
  ' (c, flash) ← st_pure (selected_contract a report elf);
  note "runtimeEnabled" (JBool (runtime_enabled a));;
  note "networkUploadsEnabled" (JBool (negb (runtime_enabled a) || pf_upload a));;
  note "fms2NetworkUploadsEnabled" (JBool (pf_upload a));;
  compared ← st_pure (check_uf2 uf2 flash);
  let contract := measured_contract c uf2 compared in
  write_file (proof_file a "linker-contract.json") (json_pretty contract);;
  mret (sources, report, c, contract).

(** The linked sketch and its capsule *)
Definition build_counter (a : proof_args) (c : resident_facts_v2) : sh (bytes * bytes * module_extents) :=
  _ ← run_checked (proof_compile a c (MS "stateful_counter.ino") (proof_file a "stateful_counter.o"));
  _ ← run_checked (proof_compile a c (MS "module_entry.cpp") (proof_file a "module_entry.o"));
  _ ← run_checked (proof_link a c);
  s ← st_get;
  module ← st_pure (capture s (proof_file a "stateful_counter.elf") ELF_LIMIT);
  ' (capsule, x) ← st_pure (module_capsule module c);
  st_pure (check_counter capsule x);;
  write_file (proof_file a "stateful_counter.fms") capsule;;
  mret (module, capsule, x).

(** The native checker accepts the capsule and refuses a corrupted one; [pr_output] is its error output. *)
Definition check_natively (a : proof_args) (c : resident_facts_v2) (capsule : bytes) : sh unit :=
  _ ← run_checked (checker_command (pf_validator a) (proof_file a "stateful_counter.fms") c);
  corrupt ← st_pure (corrupted capsule);
  write_file (proof_file a "corrupt.fms") corrupt;;
  rejected ← run_process "" (checker_command (pf_validator a) (proof_file a "corrupt.fms") c);
  unlink (proof_file a "corrupt.fms");;
  st_pure (raise_when (negb (pr_code rejected =? 1) || negb (contains "capsule rejected" (pr_output rejected)))
    (ValueError "production validator did not reject corrupt generated capsule")).

(** No source of either build changed. *)
Definition check_proof_sources (f : files) (report sources : dict json) : result unit :=
  v ← ditem report "source_sha256";
  recorded ← match v with JObj d => mret d | _ => Raise (TypeError "object is not a mapping") end;
  for_each (fun '(name, expected) =>
    actual ← digest f name;
    raise_when (negb (py_eq (JStr actual) expected)) (ValueError "proof source changed during build: "))
    (foldl (fun d kv => dset d kv.1 kv.2) recorded sources).

(** The last entries of the report *)
Definition proof_status : string := "native ARM link and host initialization passed; not executed on ARM".

Definition proof_facts (a : proof_args) (report contract : dict json) (module capsule : bytes) (x : module_extents) : sh (dict json) :=
  f ← files_now;
  validator ← st_pure (digest f (pf_validator a));
  flash ← st_pure (ditem report "flash_bytes");
  ram ← st_pure (ditem report "static_ram_bytes");
  resident ← st_pure (digest f (report_in (proof_resident a)));
  compiler ← st_pure (digest f (proof_compiler a));
  text ← run_checked [proof_compiler a; "--version"];
  version ← st_pure (some_or (head (split_lines text)) (IndexError "list index out of range"));
  mret [("status", JStr proof_status); ("contract", JObj contract);
        ("sections", extents_json x); ("capsuleBytes", JInt (blen capsule)); ("capsuleSHA256", JStr (sha capsule));
        ("moduleELFSHA256", JStr (sha module)); ("validatorSHA256", JStr validator); ("corruptCapsuleRejected", JBool true);
        ("flashBytes", flash); ("staticRAMBytes", ram); ("residentReportSHA256", JStr resident); ("compilerSHA256", JStr compiler);
        ("compilerVersion", JStr version)].

(** The last check, and the entries *)
Definition proof_end (a : proof_args) (report sources contract : dict json) (module capsule : bytes) (x : module_extents) : sh unit :=
  f ← files_now;
  st_pure (check_proof_sources f report sources);;
  facts ← proof_facts a report contract module capsule x;
  note_all facts.

Definition proof_body (a : proof_args) : sh unit :=
  ' (sources, report, c, contract) ← build_candidate a;
  ' (module, capsule, x) ← build_counter a c;
  check_natively a c capsule;;
  proof_end a report sources contract module capsule x.

(** [main] *)
Definition proof_main (a : proof_args) : sh unit :=
  st_pure (check_proof_args a);;
  make_new_dir (proof_output a);;
  st_modify (on_report (fun _ => first_proof));;
  save_report (report_in (proof_output a));;
  st_finally (st_try (proof_body a) is_exception (fun e => note "error" (JStr (emsg e));; st_raise e))
    (save_report (report_in (proof_output a))).
End Proof.

(** ** What a run leaves *)
Section ProofOutcome.
Context `{codec : !Json} `{packing : !Packing} `{pairs : !JsonPairs} (resolve : string -> string) (python : string).
Context (env : environment shell_ret) (a : proof_args) (l0 : gmap string string).

Abbreviation report_path := (report_in (proof_output resolve a)).
Abbreviation capsule_path := (proof_file resolve a "stateful_counter.fms").
Abbreviation resident_paths :=
  [report_in (proof_resident resolve a); elf_path (proof_resident resolve a); uf2_path (proof_resident resolve a)].
Abbreviation resident_command := (proof_resident_command resolve python a).

(** Every program but the resident build leaves a path alone. *)
Definition spares (path : string) : Prop :=
  forall k cwd command f p, command <> resident_command -> env k (Process cwd command f) = Ok p -> pr_files p !! path = f !! path.

Context (Hleaves : leaves env report_path) (Hspares : forall path, path ∈ capsule_path :: resident_paths -> spares path).

(** The report still says "failed" and has the entries [d], no link was made, and the files [m] are there. *)
Definition going (d : dict json) (m : list (string * bytes)) (s : shell) (k : list shell_call) : Prop :=
  kept report_path (Some (json_pretty first_proof)) (fun r => not_yet r /\ Forall (fun kv => dget r kv.1 = Some kv.2) d) s k /\
  sh_links s = l0 /\ Forall (fun kv => sh_files s !! kv.1 = Some kv.2) m.

Definition watched (m : list (string * bytes)) : Prop := Forall (fun kv => kv.1 ∈ capsule_path :: resident_paths) m.

Lemma going_start d m s k : going d m s k -> going [] [] s k.
Proof. intros ((Hf & Hn & _) & Hl & _). by repeat split. Qed.

Lemma going_later d m s k n : going d m s k -> going d m s (k ++ n).
Proof. done. Qed.

Lemma going_process d m command s k p : watched m -> (command = resident_command -> m = []) -> going d m s k ->
  env k (Process "" command (sh_files s)) = Ok p -> going d m (on_files (fun _ => pr_files p) s) (k ++ [Process "" command (sh_files s)]).
Proof.
  intros Hw Hc ((Hr & Hd) & Hl & Hm) Hp. split_and!; [split; [|exact Hd]|exact Hl|].
  - cbn. rewrite <- Hr. by apply Hleaves in Hp.
  - destruct (decide (command = resident_command)) as [E|Hn]; [by rewrite Hc|].
    unfold watched in Hw. rewrite Forall_forall in Hw. rewrite Forall_forall in Hm. apply Forall_forall. intros kv Hin. cbn.
    rewrite <- (Hm kv Hin). by apply (Hspares kv.1 (Hw kv Hin)) in Hp.
Qed.

Lemma going_checked d m command : watched m -> (command = resident_command -> m = []) ->
  triple env [] (going d m) (run_checked command) (fun text s k => going d m s k /\ printed env command text k) (fun _ => going [] []).
Proof.
  intros Hw Hc. eapply triple_weaken; [apply (run_checked_printed env (going d m))|done|done|intros e; apply going_start]. unfold run_checked. apply keeps_bind; [|intros p; keeps_tac].
  apply process_triple; [|done]. intros s k p. by apply going_process.
Qed.

(** A new entry of the report *)
Lemma going_noted d m key v : key <> "status" -> key ∉ d.*1 ->
  triple env [] (going d m) (note key v) (fun _ => going ((key, v) :: d) m) (fun _ => going [] []).
Proof.
  intros Hk Hn. apply triple_modify. intros s k ((Hr & Hd & Hall) & H). split; [|exact H]. split; [exact Hr|].
  split; [by apply not_yet_other|]. constructor; cbn; [by rewrite dget_dset, decide_True|].
  rewrite Forall_forall in Hall. apply Forall_forall. intros kv Hin. rewrite dget_dset, decide_False; [by apply Hall|].
  intros ->. apply Hn. by apply list_elem_of_fmap_2.
Qed.

Lemma going_write d m path data : path <> report_path -> path ∉ m.*1 ->
  triple env [] (going d m) (write_file path data) (fun _ => going d ((path, data) :: m)) (fun _ => going [] []).
Proof.
  intros Hr Hm. unfold write_file. apply op_triple; [|intros e; apply going_start]. intros s k ((Hf & Hd) & Hl & Hall). split_and!; [split; [|exact Hd]|exact Hl|].
  - cbn. by rewrite lookup_insert_ne.
  - constructor; [apply lookup_insert_eq|]. rewrite Forall_forall in Hall. apply Forall_forall. intros kv Hin. cbn.
    rewrite lookup_insert_ne; [by apply Hall|]. intros ->. apply Hm. by apply list_elem_of_fmap_2.
Qed.

Lemma going_less d kv m s k : going d (kv :: m) s k -> going d m s k.
Proof. intros (H & Hl & Hm). apply Forall_cons in Hm as [_ Hm]. by split_and!. Qed.

Lemma going_unlink d m path : path <> report_path -> path ∉ m.*1 ->
  triple env [] (going d m) (unlink path) (fun _ => going d m) (fun _ => going [] []).
Proof.
  intros Hr Hm. unfold unlink. apply op_triple; [|intros e; apply going_start]. intros s k ((Hf & Hd) & Hl & Hall). split_and!; [split; [|exact Hd]|exact Hl|].
  - cbn. by rewrite lookup_delete_ne.
  - rewrite Forall_forall in Hall. apply Forall_forall. intros kv Hin. cbn. rewrite lookup_delete_ne; [by apply Hall|].
    intros ->. apply Hm. by apply list_elem_of_fmap_2.
Qed.

(** A pure step that succeeded *)
Lemma pure_bind {A B} (I : shell -> list shell_call -> Prop) (m : result A) (f : A -> sh B) Q (E : exn -> shell -> list shell_call -> Prop) :
  (forall e s k, I s k -> E e s k) -> (forall x, m = Ok x -> triple env [] I (f x) Q E) -> triple env [] I (st_pure m ≫= f) Q E.
Proof.
  intros HE Hf. eapply triple_bind with (R := fun x s k => I s k /\ m = Ok x).
  - apply triple_pure. intros s k Hs. destruct m; [done|by apply HE].
  - intros x s k [Hs Hm]. by apply (Hf x Hm).
Qed.

Lemma going_pure {A B} d m (x : result A) (f : A -> sh B) Q :
  (forall v, x = Ok v -> triple env [] (going d m) (f v) Q (fun _ => going [] [])) ->
  triple env [] (going d m) (st_pure x ≫= f) Q (fun _ => going [] []).
Proof. apply pure_bind. intros e. apply going_start. Qed.

Lemma going_files d m : keeps env [] (going d m) files_now.
Proof. unfold files_now. apply keeps_bind; intros; [apply keeps_get|apply keeps_ret]. Qed.

(** *** The resident *)
Definition resident_files (text elf uf2 : bytes) : list (string * bytes) :=
  [(report_in (proof_resident resolve a), text); (elf_path (proof_resident resolve a), elf); (uf2_path (proof_resident resolve a), uf2)].

(** A report in the selected mode, about these artifacts *)
Record resident_read (text elf uf2 : bytes) (report : dict json) : Prop := {
  rr_report : json_loads_unique text = Ok (JObj report);
  rr_mode : check_resident_report a report = Ok tt;
  rr_elf : dget report "elf_sha256" = Some (JStr (sha elf));
  rr_uf2 : dget report "uf2_sha256" = Some (JStr (sha uf2));
  rr_sizes : 0 < blen text <= 262144 /\ 0 < blen elf <= ELF_LIMIT /\ 0 < blen uf2 <= UF2_LIMIT }.

Lemma resident_artifacts_triple d : triple env [] (going d []) (resident_artifacts resolve a)
  (fun '(report, elf, uf2) s k => exists text, going d (resident_files text elf uf2) s k /\ resident_read text elf uf2 report) (fun _ => going [] []).
Proof.
  unfold resident_artifacts. eapply triple_bind with (R := fun x s k => s = x /\ going d [] s k); [by apply triple_get|].
  intros s0. apply triple_from. intros s k [-> Hs].
  assert (HE' : forall (e : exn) s' k', s' = s0 /\ k' = k -> going [] [] s' k'). { intros _ s' k' [-> _]. by apply (going_start d [] s0 k). }
  apply pure_bind; [exact HE'|intros text (Ht & Hzt & _)%capture_Ok]. apply pure_bind; [exact HE'|intros value Hv].
  apply pure_bind; [exact HE'|intros report Hd]. destruct value; try done. injection Hd as ->.
  apply pure_bind; [exact HE'|intros [] Hc]. apply pure_bind; [exact HE'|intros elf (He & Hze & _)%capture_Ok].
  apply pure_bind; [exact HE'|intros uf2 (Hu & Hzu & _)%capture_Ok].
  apply pure_bind; [exact HE'|intros [] Hse%must_be_iff]. apply pure_bind; [exact HE'|intros [] Hsu%must_be_iff].
  apply triple_ret. intros s' k' [-> ->]. exists text. split; [|by constructor].
  destruct Hs as (Hk & Hl & _). split_and!; [exact Hk|exact Hl|]. by repeat constructor.
Qed.

(** What the proof is about: sources, the resident, its contract *)
Record candidate (sources report contract : dict json) (c : resident_facts_v2) (text elf uf2 : bytes) : Prop := {
  cd_sources : exists f, source_digests f proof_sources = Ok sources;
  cd_read : resident_read text elf uf2 report;
  cd_contract : exists flash compared, selected_contract a report elf = Ok (c, flash) /\ check_uf2 uf2 flash = Ok compared /\
    contract = measured_contract c uf2 compared }.

Definition candidate_entries (sources : dict json) : dict json :=
  [("fms2NetworkUploadsEnabled", JBool (pf_upload a)); ("networkUploadsEnabled", JBool (negb (runtime_enabled a) || pf_upload a));
   ("runtimeEnabled", JBool (runtime_enabled a)); ("sourceSHA256", JObj sources)].

Lemma string_app_assoc (x y z : string) : ((x +:+ y) +:+ z = x +:+ (y +:+ z))%string.
Proof. induction x as [|c x IH]; [done|]. change (String c ((x +:+ y) +:+ z) = String c (x +:+ (y +:+ z)))%string. by rewrite IH. Qed.

Lemma apart (q q' : string) : q <> q' -> (proof_output resolve a +:+ q)%string <> (proof_output resolve a +:+ q')%string.
Proof. intros Hn H%(inj (String.append _)). by apply Hn. Qed.

Lemma resident_names text elf uf2 : (resident_files text elf uf2).*1 =
  String.append (proof_output resolve a) <$> ["/resident/report.json"; "/resident/artifacts/firmingo_managed_resident.ino.elf";
    "/resident/artifacts/firmingo_managed_resident.ino.uf2"].
Proof. cbn. unfold report_in, elf_path, uf2_path, proof_resident. by rewrite !string_app_assoc. Qed.

Lemma watched_resident text elf uf2 : watched (resident_files text elf uf2).
Proof. apply Forall_forall. intros kv Hin. right. exact (list_elem_of_fmap_2 fst _ _ Hin). Qed.

(** A program that is not the resident build, by its first argument or its second *)
Lemma other_command command : command !! 1%nat <> Some (MS "build_resident.py") -> command <> resident_command.
Proof. by intros H ->. Qed.

Lemma build_candidate_triple : triple env [] (going [] []) (build_candidate resolve python a)
  (fun '(sources, report, c, contract) s k => exists text elf uf2, candidate sources report contract c text elf uf2 /\
     going (candidate_entries sources) (resident_files text elf uf2) s k) (fun _ => going [] []).
Proof.
  unfold build_candidate. eapply triple_bind with (R := fun _ => going [] []); [apply going_files|intros f].
  apply going_pure. intros sources Hs.
  eapply triple_bind; [apply going_noted; [done|apply not_elem_of_nil]|intros u1]. apply going_pure. intros u2 _.
  eapply triple_bind; [apply (going_checked _ [] resident_command); [by apply Forall_nil|done]|intros u3].
  eapply triple_bind; [eapply triple_weaken; [apply resident_artifacts_triple|by intros s k [H _]|done|done]|].
  intros [[report elf] uf2]. apply triple_from. intros s0 k0 (text & Hg & Hr).
  eapply triple_weaken with (P' := going [("sourceSHA256", JObj sources)] (resident_files text elf uf2)); [|intros s k [-> ->]; exact Hg|intros x s k H; exact H|intros e s k H; exact H]. clear s0 k0 Hg.
  apply going_pure. intros [c flash] Hc.
  do 3 (eapply triple_bind; [apply going_noted; [done|by apply (bool_decide_unpack _)]|intros ?]).
  fold (candidate_entries sources). apply going_pure. intros compared Hu.
  eapply triple_bind; [apply (going_write _ (resident_files text elf uf2) (proof_file resolve a "linker-contract.json"))|].
  - by apply apart.
  - rewrite resident_names. unfold proof_file. repeat (apply not_elem_of_cons; split; [by apply apart|]). apply not_elem_of_nil.
  - intros u7. apply triple_ret. intros s k H%going_less. exists text, elf, uf2. split; [|exact H].
    constructor; [by exists f|exact Hr|by exists flash, compared].
Qed.

(** *** The counter and its capsule *)

(** A program that was run, on which files and with what result *)
Definition asked (command : list string) (F : files -> process -> Prop) (k : list shell_call) : Prop :=
  exists h before p, Process "" command before ∈ k /\ env h (Process "" command before) = Ok p /\ F before p.

Definition held (m : list (string * bytes)) (f : files) : Prop := Forall (fun kv => f !! kv.1 = Some kv.2) m.

Lemma asked_later command F k n : asked command F k -> asked command F (k ++ n).
Proof. intros (h & f & p & Hin & H). exists h, f, p. split; [set_solver|exact H]. Qed.

Lemma going_asked d m' m command : watched m -> command <> resident_command ->
  triple env [] (going d (m' ++ m)) (run_process "" command)
    (fun p s k => going d m s k /\ asked command (fun f q => q = p /\ held (m' ++ m) f) k) (fun _ => going [] []).
Proof.
  intros Hw Hc. apply process_triple; [|intros s k e H _; by eapply going_start]. intros s k p H Hp.
  assert (Hm : going d m s k) by (destruct H as (H1 & H2 & H3); apply Forall_app in H3 as [_ H3]; by split_and!).
  split; [by apply going_process|]. exists k, (sh_files s), p. split; [set_solver|]. split; [exact Hp|]. split; [done|apply H].
Qed.

Lemma going_ran d m command : watched m -> command <> resident_command ->
  triple env [] (going d m) (run_checked command) (fun _ s k => going d m s k /\ asked command (fun f q => pr_code q = 0 /\ held m f) k) (fun _ => going [] []).
Proof.
  intros Hw Hc. unfold run_checked. eapply triple_bind; [by apply (going_asked d [])|intros p].
  eapply triple_bind with (R := fun _ s k => going d m s k /\ asked command (fun f q => pr_code q = 0 /\ held m f) k); [|intros u; by apply triple_ret].
  apply triple_pure. intros s k [Hg (h & f & q & Hin & He & -> & Hm)]. destruct (pr_code p =? 0) eqn:E; cbn [negb raise_when]; [|by eapply going_start].
  split; [exact Hg|]. exists h, f, p. split_and!; [exact Hin|exact He|lia|exact Hm].
Qed.

Abbreviation with_capsule capsule text elf uf2 := ((capsule_path, capsule) :: resident_files text elf uf2).

Lemma watched_capsule capsule text elf uf2 : watched (with_capsule capsule text elf uf2).
Proof. apply Forall_cons. split; [left|apply watched_resident]. Qed.

(** The sketch that was linked for the contract, and its capsule *)
Definition counter (c : resident_facts_v2) (module capsule : bytes) (x : module_extents) : Prop :=
  module_capsule module c = Ok (capsule, x) /\ check_counter capsule x = Ok tt.

Lemma build_counter_triple d c text elf uf2 :
  triple env [] (going d (resident_files text elf uf2)) (build_counter resolve a c)
    (fun '(module, capsule, x) s k => counter c module capsule x /\ going d (with_capsule capsule text elf uf2) s k) (fun _ => going [] []).
Proof.
  assert (Hc : forall command, command !! 1%nat <> Some (MS "build_resident.py") ->
    triple env [] (going d (resident_files text elf uf2)) (run_checked command) (fun _ => going d (resident_files text elf uf2)) (fun _ => going [] [])).
  { intros command Hn. eapply triple_weaken; [apply (going_checked d (resident_files text elf uf2) command)|done| |done].
    - apply watched_resident.
    - intros ->. by destruct Hn.
    - by intros x s k [H _]. }
  unfold build_counter. do 3 (eapply triple_bind; [by apply Hc|intros ?]).
  eapply triple_bind with (R := fun x s k => s = x /\ going d (resident_files text elf uf2) s k); [by apply triple_get|].
  intros s0. eapply triple_weaken with (P' := going d (resident_files text elf uf2)); [|by intros s k [_ H]|intros x s k H; exact H|intros e s k H; exact H].
  apply going_pure. intros module _. apply going_pure. intros [capsule x] Hm. apply going_pure. intros [] Hk.
  eapply triple_bind; [apply (going_write _ (resident_files text elf uf2) capsule_path)|].
  - by apply apart.
  - rewrite resident_names. unfold proof_file. repeat (apply not_elem_of_cons; split; [by apply apart|]). apply not_elem_of_nil.
  - intros u. by apply triple_ret.
Qed.

(** *** The native checker *)
Abbreviation corrupt_path := (proof_file resolve a "corrupt.fms").

Definition accepted (c : resident_facts_v2) (capsule : bytes) (k : list shell_call) : Prop :=
  asked (checker_command resolve (pf_validator a) capsule_path c) (fun f q => pr_code q = 0 /\ f !! capsule_path = Some capsule) k.

Definition refused (c : resident_facts_v2) (capsule : bytes) (k : list shell_call) : Prop :=
  exists corrupt, corrupted capsule = Ok corrupt /\
    asked (checker_command resolve (pf_validator a) corrupt_path c)
      (fun f q => f !! corrupt_path = Some corrupt /\ pr_code q = 1 /\ contains "capsule rejected" (pr_output q) = true) k.

(** What earlier calls showed is kept along. *)
Lemma grow_bind {A B} (X : list shell_call -> Prop) P (m : sh A) (f : A -> sh B) R Q :
  (forall k n, X k -> X (k ++ n)) -> triple env [] P m R (fun _ => going [] []) ->
  (forall x, triple env [] (fun s k => R x s k /\ X k) (f x) Q (fun _ => going [] [])) ->
  triple env [] (fun s k => P s k /\ X k) (m ≫= f) Q (fun _ => going [] []).
Proof.
  intros HX Hm Hf. eapply triple_bind; [|exact Hf]. eapply triple_weaken; [apply (triple_grows env [] P m R _ X HX Hm)|done|done|].
  by intros e s k [H _].
Qed.

Lemma accepted_later c capsule k n : accepted c capsule k -> accepted c capsule (k ++ n).
Proof. apply asked_later. Qed.

Lemma refused_later c capsule k n : refused c capsule k -> refused c capsule (k ++ n).
Proof. intros (corrupt & Hc & H). exists corrupt. split; [exact Hc|]. by apply asked_later. Qed.

Lemma checker_other name c : checker_command resolve (pf_validator a) name c <> resident_command.
Proof. intros H%(f_equal length). unfold proof_resident_command in H. rewrite length_app in H. cbn in H. lia. Qed.

Lemma check_natively_triple d c capsule text elf uf2 :
  triple env [] (going d (with_capsule capsule text elf uf2)) (check_natively resolve a c capsule)
    (fun _ s k => going d (with_capsule capsule text elf uf2) s k /\ accepted c capsule k /\ refused c capsule k) (fun _ => going [] []).
Proof.
  set (m := with_capsule capsule text elf uf2). assert (Hw : watched m) by apply watched_capsule.
  assert (Hcor : corrupt_path ∉ m.*1).
  { subst m. rewrite fmap_cons, resident_names. unfold proof_file. repeat (apply not_elem_of_cons; split; [by apply apart|]). apply not_elem_of_nil. }
  assert (Hrep : corrupt_path <> report_path) by by apply apart.
  unfold check_natively. eapply triple_bind; [apply (going_ran d m); [exact Hw|apply checker_other]|intros t].
  eapply triple_weaken with (P' := fun s k => going d m s k /\ accepted c capsule k); [|intros s k [Hg (h & f & q & Hin & He & Hq & Hm)]|intros x s k H; exact H|intros e s k H; exact H].
  2: { split; [exact Hg|]. exists h, f, q. apply Forall_cons in Hm as [Hm _]. by split_and!. }
  apply pure_bind; [intros e s k [H _]; by eapply going_start|intros corrupt Hc].
  eapply grow_bind; [apply accepted_later|by apply (going_write d m)|intros u].
  eapply grow_bind; [apply accepted_later|apply (going_asked d [(corrupt_path, corrupt)] m); [exact Hw|apply checker_other]|intros p].
  set (shown := asked (checker_command resolve (pf_validator a) corrupt_path c) (fun f q => q = p /\ f !! corrupt_path = Some corrupt)).
  eapply triple_weaken with (P' := fun s k => going d m s k /\ accepted c capsule k /\ shown k); [| |intros x s k H; exact H|intros e s k H; exact H].
  2: { intros s k [[Hg (h & f & q & Hin & He & Hq & Hm)] Ha]. split_and!; [exact Hg|exact Ha|]. exists h, f, q. apply Forall_cons in Hm as [Hm _]. by split_and!. }
  eapply grow_bind; [intros k n [H1 H2]; split; [by apply accepted_later|by apply asked_later]|by apply (going_unlink d m)|intros v].
  apply triple_pure. intros s k (Hg & Ha & (h & f & q & Hin & He & -> & Hf)).
  destruct (_ || _) eqn:E; cbn [raise_when]; [by eapply going_start|]. apply orb_false_iff in E as [E1%negb_false_iff E2%negb_false_iff].
  split_and!; [exact Hg|exact Ha|]. exists corrupt. split; [exact Hc|]. exists h, f, p. split_and!; [exact Hin|exact He|exact Hf|lia|exact E2].
Qed.

(** *** The report *)
Abbreviation version_command := [proof_compiler resolve a; "--version"].

(** What the report of a proof says of it *)
Definition proof_entries (sources contract : dict json) (text module capsule validator : bytes) (x : module_extents) : dict json :=
  [("status", JStr proof_status); ("contract", JObj contract); ("sections", extents_json x); ("capsuleBytes", JInt (blen capsule));
   ("capsuleSHA256", JStr (sha capsule)); ("moduleELFSHA256", JStr (sha module)); ("validatorSHA256", JStr (sha validator));
   ("corruptCapsuleRejected", JBool true); ("residentReportSHA256", JStr (sha text))] ++ candidate_entries sources.

(** A proof: the resident in the selected mode and its contract, the counter linked for it, the verdicts of the checker
    on the capsule and on its corruption, the sources of both builds unchanged, and the report of all of it *)
Definition proved (v : shell) (k : list shell_call) : Prop :=
  exists sources report contract c text elf uf2 module capsule x validator w h p,
    candidate sources report contract c text elf uf2 /\ counter c module capsule x /\ accepted c capsule k /\ refused c capsule k /\
    held (with_capsule capsule text elf uf2) (sh_files v) /\ sh_links v = l0 /\
    (w !! pf_validator a = Some validator /\ check_proof_sources w report sources = Ok tt /\
     env h (Process "" version_command w) = Ok p /\ sh_files v = pr_files p) /\
    Forall (fun kv => dget (sh_report v) kv.1 = Some kv.2) (proof_entries sources contract text module capsule validator x).

Lemma proof_facts_triple d m report contract module capsule x s0 k0 : watched m -> going d m s0 k0 ->
  triple env [] (fun s k => s = s0 /\ k = k0) (proof_facts resolve a report contract module capsule x)
    (fun facts s k => exists p validator text flash ram compiler version,
       s = on_files (fun _ => pr_files p) s0 /\ k = k0 ++ [Process "" version_command (sh_files s0)] /\
       env k0 (Process "" version_command (sh_files s0)) = Ok p /\
       sh_files s0 !! pf_validator a = Some validator /\ sh_files s0 !! report_in (proof_resident resolve a) = Some text /\
       facts = [("status", JStr proof_status); ("contract", JObj contract);
        ("sections", extents_json x); ("capsuleBytes", JInt (blen capsule)); ("capsuleSHA256", JStr (sha capsule));
        ("moduleELFSHA256", JStr (sha module)); ("validatorSHA256", JStr (sha validator)); ("corruptCapsuleRejected", JBool true);
        ("flashBytes", flash); ("staticRAMBytes", ram); ("residentReportSHA256", JStr (sha text)); ("compilerSHA256", JStr compiler);
        ("compilerVersion", JStr version)])
    (fun _ => going [] []).
Proof.
  intros Hw Hg. unfold proof_facts, files_now.
  assert (HE : forall (e : exn) s k, s = s0 /\ k = k0 -> going [] [] s k) by (intros e s k [-> ->]; by eapply going_start).
  eapply triple_bind with (R := fun f s k => (s = s0 /\ k = k0) /\ f = sh_files s0).
  { eapply triple_bind; [apply get_from|]. intros g. apply triple_ret. intros s k [H ->]. by split. }
  intros f. apply triple_from. intros s k [[-> ->] ->].
  apply pure_bind; [exact HE|intros v (validator & Hv & ->)%digest_Ok]. apply pure_bind; [exact HE|intros flash _].
  apply pure_bind; [exact HE|intros ram _]. apply pure_bind; [exact HE|intros r (text & Ht & ->)%digest_Ok].
  apply pure_bind; [exact HE|intros compiler _]. unfold run_checked.
  set (after := fun p s k => s = on_files (fun _ => pr_files p) s0 /\ k = k0 ++ [Process "" version_command (sh_files s0)] /\
    env k0 (Process "" version_command (sh_files s0)) = Ok p).
  assert (Hafter : forall p s k, after p s k -> going [] [] s k).
  { intros p s k (-> & -> & Hp). eapply going_start, going_process; [exact Hw|by intros H%other_command|exact Hg|exact Hp]. }
  eapply triple_bind with (R := fun _ s k => exists p, after p s k).
  - eapply triple_bind with (R := fun p => after p).
    { apply process_triple; [by intros s k p [-> ->] Hp|]. intros s k e [-> ->] _. by eapply going_start. }
    intros p. apply pure_bind; [intros e; apply Hafter|]. intros u _. apply triple_ret. intros s k H. by exists p.
  - intros out. apply triple_from. intros s k [p Hp]. apply pure_bind; [intros e s' k' [-> ->]; by apply (Hafter p)|].
    intros version _. apply triple_ret. intros s' k' [-> ->]. destruct Hp as (-> & -> & Hp).
    exists p, validator, text, flash, ram, compiler, version. by split_and!.
Qed.

Definition proof_left (s0 s : shell) (r : result unit) (k : list shell_call) : Prop :=
  match r with
  | Ok _ => check_proof_args a = Ok tt /\ there s0 (proof_output resolve a) = false /\
      exists v, proved v k /\ s = on_files <[report_path := json_pretty (sh_report v)]> v
  | Raise _ => sh_files s = sh_files s0 \/ exists d, not_yet d /\ sh_files s !! report_path = Some (json_pretty d)
  end.

Lemma proof_end_triple sources report contract c text elf uf2 module capsule x :
  candidate sources report contract c text elf uf2 -> counter c module capsule x ->
  triple env [] (fun s k => going (candidate_entries sources) (with_capsule capsule text elf uf2) s k /\ accepted c capsule k /\ refused c capsule k)
    (proof_end resolve a report sources contract module capsule x)
    (fun _ s k => proved s k /\ sh_files s !! report_path = Some (json_pretty first_proof)) (fun _ => going [] []).
Proof.
  intros Hcan Hcou. apply triple_from. intros s0 k0 (Hg & Ha & Hr). set (m := with_capsule capsule text elf uf2) in *.
  assert (Hw : watched m) by apply watched_capsule. unfold proof_end, files_now.
  eapply triple_bind with (R := fun f s k => (s = s0 /\ k = k0) /\ f = sh_files s0).
  { eapply triple_bind; [apply get_from|]. intros g. apply triple_ret. intros s k [H ->]. by split. }
  intros f. apply triple_from. intros s k [[-> ->] ->].
  apply pure_bind; [intros e s k [-> ->]; by eapply going_start|intros [] Hsrc].
  eapply triple_bind; [by apply (proof_facts_triple (candidate_entries sources) m)|intros facts].
  unfold note_all. apply triple_modify. intros s k (p & validator & text' & flash & ram & compiler & version & -> & -> & Hp & Hv & Ht & ->).
  assert (text' = text) as ->. { destruct Hg as (_ & _ & Hm). apply Forall_cons in Hm as [_ Hm]. apply Forall_cons in Hm as [Hm _]. cbn in Hm. congruence. }
  assert (Hnext : going (candidate_entries sources) m (on_files (fun _ => pr_files p) s0) (k0 ++ [Process "" version_command (sh_files s0)])).
  { apply going_process; [exact Hw|by intros H%other_command|exact Hg|exact Hp]. }
  destruct Hnext as ((Hf & Hn & Hd) & Hl & Hm). split; [|exact Hf].
  exists sources, report, contract, c, text, elf, uf2, module, capsule, x, validator, (sh_files s0), k0, p.
  split_and!; try done; [by apply accepted_later|by apply refused_later|].
  apply Forall_app. split.
  - repeat (apply Forall_cons; split; [cbn [fst snd on_report on_files sh_report]; rewrite dget_updated by (by apply (bool_decide_unpack _)); reflexivity|]). by apply Forall_nil.
  - eapply Forall_impl; [|intros kv H; exact H]. unfold candidate_entries in *.
    repeat (apply Forall_cons in Hd as [Hkv Hd]; apply Forall_cons; split; [cbn [fst snd on_report on_files sh_report]; rewrite dget_updated by (by apply (bool_decide_unpack _)); exact Hkv|clear Hkv]).
    by apply Forall_nil.
Qed.

Lemma proved_later v k n : proved v k -> proved v (k ++ n).
Proof.
  intros (sources & report & contract & c & text & elf & uf2 & module & capsule & x & validator & w & h & p & H1 & H2 & H3 & H4 & H5).
  exists sources, report, contract, c, text, elf, uf2, module, capsule, x, validator, w, h, p.
  split; [exact H1|]. split; [exact H2|]. split; [by apply accepted_later|]. split; [by apply refused_later|exact H5].
Qed.

Lemma first_proof_not_yet : not_yet first_proof.
Proof. reflexivity. Qed.

Lemma proof_body_triple : triple env [] (going [] []) (proof_body resolve python a)
  (fun _ s k => proved s k /\ sh_files s !! report_path = Some (json_pretty first_proof)) (fun _ => going [] []).
Proof.
  unfold proof_body. eapply triple_bind; [apply build_candidate_triple|]. intros [[[sources report] c] contract].
  apply triple_from. intros s k (text & elf & uf2 & Hcan & Hg).
  eapply triple_weaken with (P' := going (candidate_entries sources) (resident_files text elf uf2)); [|intros s' k' [-> ->]; exact Hg|intros x s' k' H; exact H|intros e s' k' H; exact H].
  clear s k Hg. eapply triple_bind; [apply build_counter_triple|]. intros [[module capsule] x]. apply triple_from. intros s k [Hcou Hg].
  eapply triple_weaken with (P' := going (candidate_entries sources) (with_capsule capsule text elf uf2)); [|intros s' k' [-> ->]; exact Hg|intros y s' k' H; exact H|intros e s' k' H; exact H].
  clear s k Hg. eapply triple_bind; [apply check_natively_triple|]. intros u. by apply proof_end_triple.
Qed.

Lemma proof_main_triple s0 : sh_links s0 = l0 -> triple env [] (fun s k => s = s0 /\ k = []) (proof_main resolve python a)
  (fun _ s k => proof_left s0 s (Ok tt) k) (fun e s k => proof_left s0 s (Raise e) k).
Proof.
  intros Hl. unfold proof_main, make_new_dir, make_dirs.
  assert (HE : forall (e : exn) s k, sh_files s = sh_files s0 -> proof_left s0 s (Raise e) k) by (intros e s k H; by left).
  assert (HE' : forall (e : exn) s k, s = s0 /\ k = [] -> proof_left s0 s (Raise e) k) by (intros e s k [-> _]; by left).
  apply pure_bind; [exact HE'|intros [] Hargs].
  eapply triple_bind with (R := fun _ s k => s = s0 /\ there s0 (proof_output resolve a) = false).
  { eapply triple_bind; [apply get_from|]. intros g. apply triple_from. intros s k [[-> ->] ->].
    apply pure_bind; [exact HE'|intros [] Hnew%raise_when_Ok]. apply op_triple; [by intros s k [-> ->]|]. intros e s k [-> ->]. by apply HE. }
  intros u1. apply triple_from. intros s k [-> Hnew].
  eapply triple_bind with (R := fun _ s k => s = on_report (fun _ => first_proof) s0); [apply triple_modify; by intros s' k' [-> ->]|intros u2].
  eapply triple_bind with (R := fun _ => going [] []).
  { apply receipt_triple.
    - intros s' k' n ->. split_and!; [split; [apply lookup_insert_eq|]|exact Hl|done]. split; [apply first_proof_not_yet|done].
    - intros e s' k' n ->. by apply HE. }
  intros u3. assert (Hgo : forall (e : exn) s k, going [] [] s k -> proof_left s0 s (Raise e) k).
  { intros e s' k' ((Hf & _) & _). right. exists first_proof. split; [apply first_proof_not_yet|exact Hf]. }
  eapply triple_finally with (R := fun _ => going [] []).
  - eapply triple_try with (R := fun _ => going [] []); [apply proof_body_triple|done|]. intros e _.
    eapply triple_bind; [eapply triple_weaken; [apply (going_noted [] [] "error"); [done|apply not_elem_of_nil]|intros s' k' H; exact H|intros y s' k' H; exact (going_start _ _ _ _ H)|intros e' s' k' H; exact H]|].
    intros u4. apply triple_raise. done.
  - intros u4. apply receipt_triple.
    + intros s' k' n [Hp Hf]. split_and!; [exact Hargs|exact Hnew|]. exists s'. split; [by apply proved_later|done].
    + intros e s' k' n [_ Hf]. right. exists first_proof. split; [apply first_proof_not_yet|exact Hf].
  - intros e. apply receipt_triple.
    + intros s' k' n ((_ & Hd & _) & _). right. exists (sh_report s'). split; [exact Hd|apply lookup_insert_eq].
    + intros e' s' k' n H. by apply Hgo.
Qed.
End ProofOutcome.

(** C36: A stateful proof never claims more than it showed. When the programs it runs leave its report alone, and all but the
    resident build leave the capsule and the resident's report, ELF and UF2: a build that returns was asked for one mode, made
    a new directory, and its report says what was proved - the ELF carries the contract of the selected mode and checkpoint,
    the UF2 programs exactly its LOAD bytes, the capsule was cut from the linked counter for that contract, the native checker
    was run on exactly that capsule and accepted it, and was run on the capsule with its last byte changed and refused it, and
    the sources of both builds had their recorded digests after that. Any other build changed no file, or leaves a report that
    says "failed". *)
Theorem proof_outcome `{packing : !Packing} `{pairs : !JsonPairs} resolve python env a s :
  leaves env (report_in (proof_output resolve a)) ->
  (forall path, path ∈ [proof_file resolve a "stateful_counter.fms"; report_in (proof_resident resolve a); elf_path (proof_resident resolve a);
     uf2_path (proof_resident resolve a)] -> spares resolve python env a path) ->
  let '(s', r, k) := proof_main resolve python a env [] s in proof_left resolve env a (sh_links s) s s' r k.
Proof.
  intros Hl Hs. pose proof (proof_main_triple resolve python env a (sh_links s) Hl Hs s eq_refl s [] (conj eq_refl eq_refl)) as H.
  cbn [app] in H. destruct (proof_main resolve python a env [] s) as [[s' [[]|e]] k]; exact H.
Qed.

(** ** A proof of the demonstration resident, with a flash checkpoint *)
Module ProofDemo.
Definition arguments : proof_args := {|
  pf_cli := "arduino-cli"; pf_config := "/overlay/arduino-cli.yaml"; pf_validator := "build/managed_stateful_check";
  pf_output := "build/proof"; pf_boot := false; pf_upload := true; pf_checkpoint := Some "erase" |}.

Definition rodata : bytes :=
  let b := demo_rodata ++ le_words [1] ++ StatefulDemo.target_table ++ ascii "0.1.0-statefulflash-erase-exp1" in
  let marked := b ++ zeros (192 - blen b) ++ le_words [0x31504346; 1; 1; 60000] in
  marked ++ zeros (256 - blen marked).

Definition symbol_names : list string := StatefulDemo.symbol_names ++ ["firmingo_flash_checkpoint_contract"].

Definition elf : bytes :=
  let secs := [
    null_section;
    bytes_section ".rodata" 1 2 demo_rodata_address rodata;
    bytes_section ".text" 1 6 0x10002000 (fill Byte.x01 256);
    Build_demo_section ".bss" 8 3 demo_state 4096 [] 0 0;
    string_section ".strtab" symbol_names;
    symtab_section 4 symbol_names ([
      (demo_rodata_address, 40, 0x11, 1); (demo_rodata_address + 40, 52, 0x11, 1);
      (demo_state, 4096, 0x11, 3)] ++ ((fun a => (a, 0, 0x10, 3)) <$>
        [demo_state; demo_state + 4096; demo_state + 4096; 0x20040000; 0x20040000; 0x20041000;
         0x20041000; 0x20042000])
      ++ [(demo_rodata_address + 92, 4, 0x11, 1); (demo_rodata_address + 96, 56, 0x11, 1); (demo_rodata_address + 192, 16, 0x11, 1)])] in
  let names := (ds_name <$> secs) ++ [".shstrtab"] in
  make_elf [(1%nat, demo_rodata_address, demo_rodata_address); (2%nat, 0x10002000, 0x10002000)]
    (secs ++ [string_section ".shstrtab" names]).

Definition uf2 : bytes :=
  or_empty (new_block demo_rodata_address 0 2 rodata) ++ or_empty (new_block 0x10002000 1 2 (fill Byte.x01 256)).

Definition checker : string := "build/managed_stateful_check".
Definition compiler : string := proof_compiler id arguments.
Definition shared : list string := MS <$> ["build_resident.py"; "abi.h"].
Definition disk : files := list_to_map ((fun path => (path, ascii path)) <$> proof_sources ++ [checker; compiler]).

Definition resident : dict json := Eval vm_compute in
  [("status", JStr "compile-tested FMS2 flash-checkpoint fault candidate; not flashed"); ("stateful_runtime_enabled", JBool true);
   ("upload_target", stateful_target); ("source_sha256", JObj ((fun path => (path, JStr (sha (ascii path)))) <$> shared));
   ("flash_checkpoint", checkpoint_json 1); ("flash_bytes", JInt 512); ("static_ram_bytes", JInt 36864);
   ("elf_sha256", JStr (sha elf)); ("uf2_sha256", JStr (sha uf2))].

Definition status_of (d : dict json) : bytes := match jget d "status" with JStr s => ascii s | _ => [] end.
#[local] Instance packing : Packing := { json_pretty := status_of; zip_file _ := [] }.
Definition pairs_of (reports : list (dict json)) : JsonPairs := {|
  json_pairs b := match List.find (fun d => bool_decide (status_of d = b)) reports with
                  | Some d => Ok (JObj d)
                  | None => Raise (ValueError "not a report")
                  end |}.

(** The resident build leaves its outputs, the linker its module; the checker is the validator of the firmware. *)
Definition verdict (before : files) (path : string) : process :=
  let contract := match resident_contract elf with Ok (c, _) => firmware_contract c | Raise _ => firmware_contract demo_contract end in
  match (validate_stateful (default [] (before !! path)) contract).1 with
  | ok => ProfileDemo.finished "" before
  | _ => {| pr_code := 1; pr_output := "capsule rejected"; pr_files := before |}
  end.

Definition env : environment shell_ret := fun h c =>
  match c with
  | Op _ _ => Ok tt
  | Environ _ | Which _ => Ok None
  | Process cwd command before => Ok (
      if bool_decide (command = proof_resident_command id "python3" arguments) then
        ProfileDemo.finished "" (<[report_in (proof_resident id arguments) := status_of resident]>
          (<[elf_path (proof_resident id arguments) := elf]> (<[uf2_path (proof_resident id arguments) := uf2]> before)))
      else if existsb (String.eqb "-nostdlib") command then
        ProfileDemo.finished "" (<[proof_file id arguments "stateful_counter.elf" := demo_module_elf]> before)
      else match command with
           | [program; path; _; _; _] => if (program =? checker)%string then verdict before path else ProfileDemo.finished "" before
           | _ => ProfileDemo.finished "arm-none-eabi-g++ 14.2.0" before
           end)
  end.

Definition start : shell := {| sh_files := disk; sh_links := ∅; sh_report := [] |}.
Definition run (reports : list (dict json)) : shell * result unit * list shell_call :=
  @proof_main _ (pairs_of reports) id "python3" arguments env [] start.
Definition report : dict json := Eval vm_compute in sh_report (run [resident]).1.1.

Lemma proof_env_leaves path : path <> proof_file id arguments "stateful_counter.elf" ->
  path ∉ [report_in (proof_resident id arguments); elf_path (proof_resident id arguments); uf2_path (proof_resident id arguments)] -> leaves env path.
Proof.
  intros Hm Hr k cwd command f p. cbn [env]. intros [= <-]. apply not_elem_of_cons in Hr as [H1 [H2 [H3 _]%not_elem_of_cons]%not_elem_of_cons].
  case_bool_decide; [cbn; by rewrite !lookup_insert_ne|]. destruct (existsb _ _); [cbn; by rewrite lookup_insert_ne|].
  destruct command as [|program [|path' [|? [|? [|? []]]]]]; try done. destruct (_ =? _)%string; [|done].
  unfold verdict. by destruct (validate_stateful _ _).1.
Qed.

Lemma env_spares path : path <> proof_file id arguments "stateful_counter.elf" -> spares id "python3" env arguments path.
Proof.
  intros Hm k cwd command f p Hc. cbn [env]. intros [= <-]. rewrite bool_decide_eq_false_2 by done.
  destruct (existsb _ _); [cbn; by rewrite lookup_insert_ne|].
  destruct command as [|program [|path' [|? [|? [|? []]]]]]; try done. destruct (_ =? _)%string; [|done].
  unfold verdict. by destruct (validate_stateful _ _).1.
Qed.
End ProofDemo.
#[local] Existing Instance ProofDemo.packing.

Lemma proof_outcome_witness : let '(s', r, k) := ProofDemo.run [ProofDemo.resident] in
  r = Ok tt /\ exists v, proved (pairs := ProofDemo.pairs_of [ProofDemo.resident]) id ProofDemo.env ProofDemo.arguments ∅ v k.
Proof.
  pose proof (@proof_outcome _ (ProofDemo.pairs_of [ProofDemo.resident]) id "python3" ProofDemo.env ProofDemo.arguments ProofDemo.start) as H.
  unfold ProofDemo.run. assert (Hr : (ProofDemo.run [ProofDemo.resident]).1.2 = Ok tt) by (vm_compute; reflexivity). unfold ProofDemo.run in Hr.
  destruct (proof_main _ _ _ _ _ _) as [[s' r] k]. cbn [fst snd] in Hr. subst r. destruct H as (_ & _ & v & Hv & _).
  - apply ProofDemo.proof_env_leaves; [by apply (bool_decide_unpack _)|by apply (bool_decide_unpack _)].
  - intros path Hin. apply ProofDemo.env_spares. repeat (apply elem_of_cons in Hin as [->|Hin]; [by apply (bool_decide_unpack _)|]). by apply elem_of_nil in Hin.
  - split; [done|by exists v].
Defined.
