(* ===== verification/CheckpointProof.v ===== *)
(** * The inputs and the journal of experiments/managed_sketch/checkpoint_flash.py

    Before its single commit the fault test reviews a finished checkpoint proof: both reports, all sources, the exact
    ELF, UF2 and capsule, the contract read again from the ELF, and the native checker, which is asked once more. The proof
    build and this review merge the two records of sources in opposite orders, which the last theorem states. *)

From stdpp Require Import base tactics list list_numbers strings gmap.
From Stdlib Require Import ZArith Lia Strings.Byte.
From S2P Require Import Prelude.
From S2P Require Import PyBytes.
From S2P Require Import Sha256.
From S2P Require Import PyText.
From S2P Require Import PyStr.
From S2P Require Import PyDict.
From S2P Require Import ExportResident.
From S2P Require Import BuildStatefulProof.
From S2P Require Import PyJson.
From S2P Require Import Effects.
From S2P Require Import Stateful.
From S2P Require Import SessionSmoke.
From S2P Require Import Release.
From S2P Require Import Dev.
From S2P Require Import ResidentSource.
From S2P Require Import ResidentExport.
From S2P Require Import StatefulLayout.
From S2P Require Import StatefulExport.
From S2P Require Import Shell.
From S2P Require Import ManagedProfile.
From S2P Require Import Build.
From S2P Require Import ResidentBuild.
From S2P Require Import RomImages.
From S2P Require Import ProofBuild.

Local Open Scope Z_scope.

(** ** The review *)

(** [{**d, **e}] *)
Definition merged (d e : dict json) : dict json := foldl (fun d kv => dset d kv.1 kv.2) d e.

(** An entry that has to be a mapping *)
Definition mapping (d : dict json) (key : string) : result (dict json) :=
  v ← ditem d key;
  match v with JObj e => mret e | _ => Raise (TypeError "object is not a mapping") end.

(** The report of a proof, without what was measured: the facts of the ELF *)
Definition facts_only (contract : dict json) : dict json :=
  List.filter (fun kv => negb ((kv.1 =? "residentUF2SHA256")%string || (kv.1 =? "elfUF2ComparedBytes")%string)) contract.

Section Inputs.
Context `{packing : !Packing} `{pairs : !JsonPairs} (resolve : string -> string).

Definition load (s : shell) (path : string) : result json := data ← capture s path 262144; json_loads_unique data.

Definition check_proof_source (s : shell) (entry : string * json) : result unit :=
  data ← capture s entry.1 (4 * 1024 * 1024);
  raise_when (negb (py_eq (JStr (sha data)) entry.2)) (ValueError ("proof source changed: " +:+ entry.1)).

(** A finished checkpoint proof, and the resident of it *)
Definition selected_proof (s : shell) (proof : string) : result (dict json * dict json) :=
  let resident_report := report_in (proof +:+ "/resident") in
  let unselected := ValueError "select an exact completed flash-checkpoint native proof" in
  v ← load s (report_in proof);
  w ← load s resident_report;
  report ← as_dict v;
  raise_when (differs report "status" (JStr proof_status)) unselected;;
  resident ← as_dict w;
  raise_when (differs resident "status" (JStr "compile-tested FMS2 flash-checkpoint fault candidate; not flashed")) unselected;;
  h ← digest (sh_files s) resident_report;
  raise_when (differs report "residentReportSHA256" (JStr h)) unselected;;
  mret (report, resident).

(** Everything before the native checker is asked *)
Definition reviewed_inputs (s : shell) (proof resident_sha capsule_sha validator : string) : result (bytes * resident_facts_v2) :=
  ' (report, resident) ← selected_proof s proof;
  sources ← mapping report "sourceSHA256";
  recorded ← mapping resident "source_sha256";
  for_each (check_proof_source s) (merged sources recorded);;
  elf ← capture s (elf_path (proof +:+ "/resident")) (8 * 1024 * 1024);
  uf2 ← capture s (uf2_path (proof +:+ "/resident")) (4 * 1024 * 1024);
  capsule ← capture s (proof +:+ "/stateful_counter.fms") 4096;
  let unreviewed := ValueError "reviewed artifacts differ from exact proof" in
  must_be (JObj resident) "elf_sha256" (sha elf) unreviewed;;
  raise_when (negb (sha uf2 =? resident_sha)%string) unreviewed;;
  must_be (JObj resident) "uf2_sha256" resident_sha unreviewed;;
  raise_when (negb (sha capsule =? capsule_sha)%string) unreviewed;;
  must_be (JObj report) "capsuleSHA256" capsule_sha unreviewed;;
  ' (c, flash) ← resident_contract elf;
  check_uf2 uf2 flash;;
  v ← ditem report "contract";
  contract ← as_dict v;
  raise_when (negb (py_eq (JObj (facts_only contract)) (JObj (contract_dict c)))
      || differs resident "flash_checkpoint" (checkpoint_value c) || bool_decide (rc_flashCheckpoint c = None))
    (ValueError "fault selection differs from real resident facts");;
  checker ← capture s validator (8 * 1024 * 1024);
  must_be (JObj report) "validatorSHA256" (sha checker) (ValueError "native checker differs from proof");;
  mret (capsule, c).

(** [checked_inputs(proof, resident_sha, capsule_sha, validator)] *)
Definition checked_inputs (proof resident_sha capsule_sha validator : string) : sh (bytes * resident_facts_v2) :=
  s ← st_get;
  ' (capsule, c) ← st_pure (reviewed_inputs s proof resident_sha capsule_sha validator);
  p ← run_process "" (checker_command resolve validator (resolve (proof +:+ "/stateful_counter.fms")) c);
  st_pure (raise_when (negb (pr_code p =? 0)) (ValueError "independent production FMS2 validation failed"));;
  mret (capsule, c).

(** ** The journal *)
Record fault_args := {
  fa_address : string; fa_device_id : string; fa_proof : string; fa_resident : string; fa_capsule : string;
  fa_validator : string; fa_output : string }.

Definition check_fault_args (a : fault_args) : result unit :=
  raise_when (negb (fullmatch is_hex_lower 16 (fa_device_id a)) || negb (fullmatch is_hex_lower 64 (fa_resident a))
      || negb (fullmatch is_hex_lower 64 (fa_capsule a)))
    (SystemExit "select exact lowercase device ID and artifact SHA-256 values").

(** [f'event-{count:02d}.local.json'] of a one-digit count *)
Definition event_file (output : string) (count : Z) : string := output +:+ "/event-0" +:+ str_int count +:+ ".local.json".

(** [open('x')]: a file that is there already is an error. *)
Definition create_file (path : string) (data : bytes) : sh unit :=
  s ← st_get;
  st_pure (raise_when (there s path) (Exn KFileExistsError path));;
  write_file path data.

(** [save(value)]: at most eight records, each one durable before the next step *)
Definition save_event (output : string) (count : Z) (value : dict json) : sh Z :=
  st_pure (raise_when (8 <=? count) (RuntimeError "journal bound exceeded"));;
  create_file (event_file output count) (json_pretty value);;
  op "fsync" output id;;
  mret (count + 1).

Definition fault_phase (c : resident_facts_v2) : string := default "" (checkpoint_after c).

Definition fault_record (a : fault_args) (phase : string) : dict json :=
  [("kind", JStr "explicit native fault test"); ("phase", JStr phase); ("residentSHA256", JStr (fa_resident a));
   ("capsuleSHA256", JStr (fa_capsule a)); ("chipBusyInterruption", JBool false)].

Definition fault_version (current phase : string) : string :=
  current +:+ if (phase =? "erase")%string then "-statefulflash-erase-exp1" else "-statefulflash-page-exp1".

(** [main] up to the connection: the capsule, the firmware version that has to answer, and the count of the journal *)
Definition fault_prepare (a : fault_args) : sh (bytes * string * Z) :=
  st_pure (check_fault_args a);;
  ' (capsule, c) ← checked_inputs (resolve (fa_proof a)) (fa_resident a) (fa_capsule a) (fa_validator a);
  make_new_dir (fa_output a);;
  f ← files_now;
  current ← st_pure (current_version f);
  count ← save_event (fa_output a) 0 (fault_record a (fault_phase c));
  mret (capsule, fault_version current (fault_phase c), count).
End Inputs.

(** ** Dictionaries *)
Lemma keys_dset (d : dict json) k v : keys (dset d k v) = if bool_decide (k ∈ keys d) then keys d else keys d ++ [k].
Proof.
  induction d as [|[k0 v0] d IH]; [done|]. cbn [dset]. destruct (decide (k0 = k)) as [->|Hn].
  - rewrite bool_decide_eq_true_2 by left. done.
  - change (keys ((k0, v0) :: dset d k v)) with (k0 :: keys (dset d k v)). rewrite IH. change (keys ((k0, v0) :: d)) with (k0 :: keys d).
    destruct (decide (k ∈ keys d)) as [Hin|Hout].
    + rewrite !bool_decide_eq_true_2; [done|by right|done].
    + rewrite !bool_decide_eq_false_2; [done| |done]. by apply not_elem_of_cons.
Qed.

Lemma keys_dset_NoDup (d : dict json) k v : NoDup (keys d) -> NoDup (keys (dset d k v)).
Proof.
  intros Hd. rewrite keys_dset. case_bool_decide; [done|]. apply NoDup_app. split_and!; [done| |apply NoDup_singleton].
  intros x Hx ->%list_elem_of_singleton. done.
Qed.

Lemma merged_NoDup d e : NoDup (keys d) -> NoDup (keys (merged d e)).
Proof. unfold merged. revert d. induction e as [|[k v] e IH]; intros d Hd; [done|]. cbn [foldl]. apply IH. by apply keys_dset_NoDup. Qed.

Lemma keys_merged d e : exists l, keys (merged d e) = keys d ++ l /\ Forall (fun key => key ∉ keys d) l.
Proof.
  unfold merged. revert d. induction e as [|[k v] e IH]; intros d; [exists []; by rewrite app_nil_r|]. cbn [foldl fst snd].
  destruct (IH (dset d k v)) as (l & Hk & Hl). rewrite Hk, keys_dset. rewrite keys_dset in Hl. case_bool_decide as Hin; [by exists l|].
  exists (k :: l). rewrite <- app_assoc. split; [done|]. constructor; [done|]. eapply Forall_impl; [exact Hl|]. intros key Hn Hd. apply Hn, elem_of_app. by left.
Qed.

(** A loop that fails for the bad elements fails for the first of them. *)
Lemma for_each_find {A} (f : A -> result unit) (bad : A -> bool) (wrong : A -> exn) l :
  (forall x, x ∈ l -> f x = if bad x then Raise (wrong x) else Ok tt) ->
  for_each f l = match List.find bad l with Some x => Raise (wrong x) | None => Ok tt end.
Proof.
  unfold for_each. induction l as [|x l IH]; intros H; [done|]. cbn [List.find foldM]. rewrite (H x) by left.
  destruct (bad x); [done|]. apply IH. intros y Hy. apply H. by right.
Qed.

Lemma find_keys (bad : string -> bool) (d : dict json) :
  List.find bad (keys d) = match List.find (fun kv => bad kv.1) d with Some kv => Some kv.1 | None => None end.
Proof. induction d as [|[k v] d IH]; [done|]. cbn. by destruct (bad k). Qed.

Lemma find_front (bad : string -> bool) (l1 l2 : list string) : Forall (fun x => bad x = false) l2 -> List.find bad (l1 ++ l2) = List.find bad l1.
Proof.
  intros H. induction l1 as [|x l1 IH]; cbn; [|by rewrite IH]. induction H as [|x l2 Hx _ IH]; [done|]. cbn. by rewrite Hx.
Qed.

(** A source whose digest the two records state differently *)
Definition disputed (sources recorded : dict json) (name : string) : bool :=
  match dget sources name, dget recorded name with Some x, Some y => negb (py_eq x y) | _, _ => false end.

(** The objects inside an object that was read have no duplicate keys either. *)
Lemma hooked_entry v d key e : hooked v = Ok (JObj d) -> dget d key = Some (JObj e) -> NoDup (keys e).
Proof.
  destruct v as [| | | | |l|pairs]; try done; cbn [hooked].
  { by intros (k & _ & [=])%fmap_Ok. }
  set (each := fix each (d : dict json) : result (dict json) := _). intros (k & Hk & H)%bind_Ok.
  apply fmap_Ok in H as (d' & [-> _]%unique_object_iff & [= ->]). intros Hin%dget_In. revert k Hk Hin.
  induction pairs as [|[name x] pairs IH]; intros k; cbn [each].
  - intros [= <-] Hin. by apply elem_of_nil in Hin.
  - intros (y & Hy & H)%bind_Ok. apply bind_Ok in H as (l & Hl & <-%mret_Ok). intros [[= <- <-]|Hin]%elem_of_cons; [|by eapply IH].
    clear -Hy. destruct x as [| | | | |a|pairs']; try done; cbn [hooked] in Hy; [by apply fmap_Ok in Hy as (? & _ & [=])|].
    change (hooked (JObj pairs') = Ok (JObj e)) in Hy. by apply hooked_object in Hy as [_ Hy].
Qed.

Lemma loads_entry `{!JsonPairs} text d key e : json_loads_unique text = Ok (JObj d) -> dget d key = Some (JObj e) -> NoDup (keys e).
Proof. intros (v & _ & Hv)%bind_Ok. by eapply hooked_entry. Qed.

(** ** The contract of the report is the contract of the ELF *)
Lemma py_eq_object (d : dict json) : NoDup (keys d) -> Forall (fun kv => py_eq kv.2 kv.2 = true) d -> py_eq (JObj d) (JObj d) = true.
Proof.
  intros Hn Hd. cbn [py_eq]. rewrite Nat.eqb_refl, andb_true_l.
  assert (H : Forall (fun kv => dget d kv.1 = Some kv.2) d).
  { apply Forall_forall. intros [k v] Hin. by apply dget_NoDup. }
  set (e := d) at 1. assert (He : Forall (fun kv => dget e kv.1 = Some kv.2) d) by exact H. clearbody e. clear H Hn.
  induction d as [|[k v] d IH]; [done|]. apply Forall_cons in He as [H1 H2]. apply Forall_cons in Hd as [H3 H4]. cbn in H1. rewrite H1.
  cbn in H3. rewrite H3. by apply IH.
Qed.

(** A value that is no number with a fraction and holds no others equals itself. *)
Definition plain_value (v : json) : Prop := match v with JNull | JBool _ | JInt _ | JStr _ => True | _ => False end.

Lemma py_eq_same v : plain_value v -> py_eq v v = true.
Proof. destruct v as [|b|z| |s| |]; try done; intros _; cbn; [by destruct b|apply Z.eqb_refl|by apply bool_decide_eq_true_2]. Qed.

Lemma contract_bounds_keys data c flash : resident_contract data = Ok (c, flash) -> keys (rc_linkerBounds c) = bound_names.
Proof.
  unfold resident_contract. intros ([legacy fl] & _ & H)%bind_Ok.
  apply bind_Ok in H as (elf & _ & H). apply bind_Ok in H as ([address sec] & _ & H).
  apply raise_when_bind in H as [_ H]. apply bind_Ok in H as (table & _ & H). apply bind_Ok in H as (words & _ & H).
  repeat match type of H with (let '(_, _) := ?x in _) = _ => destruct x as [? x] end.
  apply raise_when_bind in H as [_ H].
  apply bind_Ok in H as ([allocation s2] & _ & H). apply raise_when_bind in H as [_ H].
  apply raise_when_bind in H as [_ H]. apply bind_unit in H as [_ H].
  apply bind_Ok in H as (bounds & Hb & H).
  do 8 (apply bind_Ok in H as (? & _ & H)). apply raise_when_bind in H as [_ H].
  apply bind_unit in H as [_ H]. apply bind_Ok in H as (up & _ & H).
  apply raise_when_bind in H as [_ H]. apply bind_Ok in H as (cp & _ & [= <- _]). cbn [rc_linkerBounds].
  unfold linker_bounds in Hb. apply mapM_Ok in Hb. clear -Hb. induction Hb as [|name [key v] names l Hname _ IH]; [done|].
  apply bind_Ok in Hname as ([[[[address a] b] d] e] & _ & [= <- _]). unfold keys in *. cbn [fmap list_fmap fst]. f_equal. exact IH.
Qed.

Lemma contract_keys c : NoDup (keys (contract_dict c)) /\ Forall (fun key => key <> "residentUF2SHA256" /\ key <> "elfUF2ComparedBytes") (keys (contract_dict c)).
Proof. unfold contract_dict. destruct (rc_flashCheckpoint c); split; by apply (bool_decide_unpack _). Qed.

(** The facts of the ELF, read back from the report *)
Lemma contract_read data c flash uf2 compared : resident_contract data = Ok (c, flash) ->
  py_eq (JObj (facts_only (measured_contract c uf2 compared))) (JObj (contract_dict c)) = true.
Proof.
  intros Hc. assert (facts_only (measured_contract c uf2 compared) = contract_dict c) as ->.
  { unfold measured_contract, contract_dict. by destruct (rc_flashCheckpoint c). }
  apply py_eq_object; [apply contract_keys|]. unfold contract_dict. apply Forall_app. split.
  - assert (Hb : py_eq (JObj ((fun kv => (kv.1, JInt kv.2)) <$> rc_linkerBounds c)) (JObj ((fun kv => (kv.1, JInt kv.2)) <$> rc_linkerBounds c)) = true).
    { apply py_eq_object.
      - assert (keys ((fun kv => (kv.1, JInt kv.2)) <$> rc_linkerBounds c) = keys (rc_linkerBounds c)) as ->.
        { unfold keys. rewrite <- list_fmap_compose. by apply list_fmap_ext. }
        rewrite (contract_bounds_keys _ _ _ Hc). by apply (bool_decide_unpack _).
      - apply Forall_fmap, Forall_forall. intros kv _. cbn. apply Z.eqb_refl. }
    assert (Hu : forall u, py_eq (upload_json u) (upload_json u) = true).
    { intros u. apply py_eq_object; [by apply (bool_decide_unpack _)|]. repeat (apply Forall_cons; split; [apply py_eq_same; exact I|]). by apply Forall_nil. }
    repeat (apply Forall_cons; split; [cbn [snd]; first [exact Hb|apply py_eq_same; exact I|by destruct (rc_uploadTarget c)]|]). by apply Forall_nil.
  - destruct (rc_flashCheckpoint c) as [kind|]; [|done]. apply Forall_cons. split; [|done]. cbn [snd]. unfold checkpoint_json.
    apply py_eq_object; [by apply (bool_decide_unpack _)|].
    repeat (apply Forall_cons; split; [apply py_eq_same; exact I|]). by apply Forall_nil.
Qed.

Lemma capsule_size resident c flash data capsule x : resident_contract resident = Ok (c, flash) -> module_capsule data c = Ok (capsule, x) ->
  0 < blen capsule <= 4096.
Proof.
  intros [Hf _]%resident_contract_inv (code & ini & setup & loop & bss & He & -> & Hn & Hcap & Hmax & Hs & Hl)%module_capsule_inv.
  pose proof (blen_nonneg code). pose proof (blen_nonneg ini).
  destruct (emit_fms2_regions (rc_apiAddress c) (rc_stateAddress c) bss setup loop code ini) as (h & He' & Hh & Hu); [apply fms2_values_exact; tauto|].
  destruct Hf as [_ _ _ _ _ _ Hm]. rewrite Hm in Hmax. rewrite He in He'. injection He' as ->.
  destruct (regions_slices h code ini Hh) as (Hbl & _). rewrite Hbl. lia.
Qed.

(** ** The review accepts what the proof build left *)
Section Reviewed.
Context `{packing : !Packing} `{pairs : !JsonPairs} (resolve : string -> string) (env : environment shell_ret) (a : proof_args).

Abbreviation report_path := (report_in (proof_output resolve a)).
Abbreviation resident_report := (report_in (proof_resident resolve a)).
Abbreviation capsule_path := (proof_file resolve a "stateful_counter.fms").
Abbreviation uf2_file := (uf2_path (proof_resident resolve a)).

(** What the review asks of the rest of the store: the report reads back as it was written and is not too long, and neither
    is the checker or a recorded source, none of which is the report itself. *)
Record reviewable (s : shell) : Prop := {
  re_report : json_loads_unique (json_pretty (sh_report s)) = Ok (JObj (sh_report s));
  re_size : 0 < blen (json_pretty (sh_report s)) <= 262144;
  re_checker : pf_validator a <> report_path /\ forall data, sh_files s !! pf_validator a = Some data -> 0 < blen data <= 8 * 1024 * 1024;
  re_sources : forall sources text resident recorded, dget (sh_report s) "sourceSHA256" = Some (JObj sources) ->
    sh_files s !! resident_report = Some text -> json_loads_unique text = Ok (JObj resident) -> dget resident "source_sha256" = Some (JObj recorded) ->
    Forall (fun name => name <> report_path /\ forall data, sh_files s !! name = Some data -> 0 < blen data <= 4 * 1024 * 1024)
      (keys sources ++ keys recorded) }.

(** The sources that the report of the proof and that of its resident record *)
Definition records (s : shell) (sources recorded : dict json) : Prop :=
  exists text resident, dget (sh_report s) "sourceSHA256" = Some (JObj sources) /\
    sh_files s !! resident_report = Some text /\ json_loads_unique text = Ok (JObj resident) /\ dget resident "source_sha256" = Some (JObj recorded).

Lemma capture_free s path maximum data : sh_links s = ∅ -> sh_files s !! path = Some data -> 0 < blen data <= maximum -> capture s path maximum = Ok data.
Proof.
  intros Hl Hf Hs. apply capture_at. split_and!; [done|lia|lia|]. apply Forall_forall. intros p _. rewrite Hl. apply lookup_empty.
Qed.

Lemma differs_same d key v : dget d key = Some v -> py_eq v v = true -> differs d key v = false.
Proof. intros Hd Hv. unfold differs, jget. rewrite Hd. cbn. by rewrite Hv. Qed.

(** The sources, checked by the review after they were checked by the build: the two merge the records in opposite orders,
    so where these differ the review takes the digest that the build did not look at. *)
Lemma sources_reviewed s w sources report recorded :
  sh_links s = ∅ -> (forall name, name <> report_path -> w !! name = sh_files s !! name) ->
  check_proof_sources w report sources = Ok tt -> dget report "source_sha256" = Some (JObj recorded) ->
  NoDup (keys sources) -> NoDup (keys recorded) ->
  Forall (fun name => name <> report_path /\ forall data, sh_files s !! name = Some data -> 0 < blen data <= 4 * 1024 * 1024) (keys sources ++ keys recorded) ->
  for_each (check_proof_source s) (merged sources recorded) =
    match List.find (disputed sources recorded) (keys sources) with
    | Some name => Raise (ValueError ("proof source changed: " +:+ name))
    | None => Ok tt
    end.
Proof.
  intros Hl Hw Hc Hr Hns Hnr Hfit. unfold check_proof_sources, ditem in Hc. rewrite Hr in Hc. cbn [some_or mbind result_bind mret result_ret] in Hc.
  apply for_each_Ok in Hc. rewrite Forall_forall in Hc. rewrite Forall_forall in Hfit.
  rewrite (for_each_find _ (fun kv => disputed sources recorded kv.1) (fun kv => ValueError ("proof source changed: " +:+ kv.1))).
  - destruct (keys_merged sources recorded) as (l & Hkm & Hn). assert (Hlast : Forall (fun key => disputed sources recorded key = false) l).
    { eapply Forall_impl; [exact Hn|]. intros key Hk%dget_None. unfold disputed. by rewrite Hk. }
    rewrite <- (find_front _ _ _ Hlast), <- Hkm, find_keys. by destruct (List.find _ _).
  - intros [name v] Hin%(dget_NoDup _ _ _ (merged_NoDup sources recorded Hns)). unfold merged in Hin. rewrite (dget_updated sources recorded name Hnr) in Hin.
    assert (Hz : forall z, dget (merged recorded sources) name = Some z -> name ∈ keys sources ++ keys recorded ->
      exists data, capture s name (4 * 1024 * 1024) = Ok data /\ z = JStr (sha data)).
    { intros z Hz%dget_In Hkey. specialize (Hc _ Hz). cbn beta iota in Hc. apply bind_Ok in Hc as (h & (data & Hd & ->)%digest_Ok & Hv%raise_when_Ok).
      destruct (Hfit name Hkey) as [Hn Hsize]. rewrite Hw in Hd by done. exists data. split; [apply capture_free; [done|done|by apply Hsize]|].
      by apply negb_false_iff, py_eq_str_l in Hv. }
    unfold merged in Hz. rewrite (dget_updated recorded sources name Hns) in Hz.
    assert (Hkey : forall (d : dict json) x, dget d name = Some x -> name ∈ keys d).
    { intros d x Hx. destruct (decide (name ∈ keys d)) as [|Hn%dget_None]; [done|congruence]. }
    unfold check_proof_source, disputed. cbn [fst snd].
    destruct (dget sources name) as [x|] eqn:Es, (dget recorded name) as [y|] eqn:Er; try done;
      injection Hin as <-; (destruct (Hz _ eq_refl) as (data & Hcap & Hd); [apply elem_of_app; eauto|]);
      rewrite Hcap; cbn [mbind result_bind]; subst; try by rewrite py_eq_str_refl.
    by destruct (py_eq _ _).
Qed.

Lemma outputs_apart : Forall (fun path => path <> report_path) [capsule_path; resident_report; elf_path (proof_resident resolve a); uf2_file].
Proof.
  change (Forall (fun path => path <> report_path) (capsule_path :: (resident_files resolve a [] [] []).*1)). rewrite resident_names.
  repeat (apply Forall_cons; split; [by apply apart|]). by apply Forall_nil.
Qed.

Lemma selected_facts report elf c flash after : selected_contract a report elf = Ok (c, flash) -> check_resident_report a report = Ok tt ->
  pf_checkpoint a = Some after ->
  resident_contract elf = Ok (c, flash) /\ checkpoint_after c = Some after /\ differs report "flash_checkpoint" (checkpoint_value c) = false /\
  differs report "status" (JStr "compile-tested FMS2 flash-checkpoint fault candidate; not flashed") = false.
Proof.
  intros Hs Hm Ha. unfold selected_contract in Hs. apply bind_Ok in Hs as ([c' flash'] & Hc & H).
  apply raise_when_bind in H as [[Hk Hd]%orb_false_iff H]. apply raise_when_bind in H as [_ [= -> ->]].
  apply negb_false_iff, bool_decide_eq_true in Hk. unfold check_resident_report, expected_status in Hm. rewrite Ha in Hm, Hk.
  apply raise_when_Ok in Hm. apply orb_false_iff in Hm as [[Hm _]%orb_false_iff _]. by split_and!.
Qed.

Lemma proof_reviewed after v k :
  proved resolve env a ∅ v k -> pf_checkpoint a = Some after ->
  (forall h w p, env h (Process "" [proof_compiler resolve a; "--version"] w) = Ok p -> pr_files p = w) ->
  let s := on_files <[report_path := json_pretty (sh_report v)]> v in
  reviewable s ->
  exists capsule uf2 c sources recorded, sh_files s !! capsule_path = Some capsule /\ sh_files s !! uf2_file = Some uf2 /\
    checkpoint_after c = Some after /\ records s sources recorded /\
    reviewed_inputs s (proof_output resolve a) (sha uf2) (sha capsule) (pf_validator a) =
      match List.find (disputed sources recorded) (keys sources) with
      | Some name => Raise (ValueError ("proof source changed: " +:+ name))
      | None => Ok (capsule, c)
      end.
Proof.
  intros (sources & report & contract & c & text & elf & uf2 & module & capsule & x & validator & w & h & p & Hcan & [Hmod _] & _ & _ & Hheld & Hl &
    (Hval & Hsrc & Hver & Hfiles) & Hent) Haf Hquiet s [Hread Hsize [Hvn Hvs] Hfit].
  destruct Hcan as [_ [Hr Hmode Hel Huf (Hzt & Hze & Hzu)] (flash & compared & Hsel & Hu & ->)].
  apply Hquiet in Hver. rewrite <- Hfiles in Hver. subst w.
  assert (Hsl : sh_links s = ∅) by exact Hl. change (sh_report s) with (sh_report v) in *.
  assert (Hw : forall name, name <> report_path -> sh_files v !! name = sh_files s !! name) by (intros name Hn; cbn; by rewrite lookup_insert_ne).
  unfold held in Hheld. apply Forall_cons in Hheld as [Hcap [Htext [Help [Hufp _]%Forall_cons]%Forall_cons]%Forall_cons]. cbn [fst snd] in *.
  pose proof outputs_apart as [Na [Nb [Nc [Nd _]%Forall_cons]%Forall_cons]%Forall_cons]%Forall_cons.
  rewrite (Hw _ Na) in Hcap. rewrite (Hw _ Nb) in Htext. rewrite (Hw _ Nc) in Help. rewrite (Hw _ Nd) in Hufp. rewrite (Hw _ Hvn) in Hval.
  destruct (selected_facts report elf c flash after Hsel Hmode Haf) as (Hc & Hafter & Hcheck & Hstatus).
  pose proof (capsule_size _ _ _ _ _ _ Hc Hmod) as Hcs.
  apply Forall_app in Hent as [Hent Hcand]. repeat (apply Forall_cons in Hent as [? Hent]). do 4 (apply Forall_cons in Hcand as [? Hcand]). cbn [fst snd] in *.
  assert (Hmap : exists recorded, dget report "source_sha256" = Some (JObj recorded)).
  { unfold check_proof_sources in Hsrc. apply bind_Ok in Hsrc as (y & Hy%some_or_Ok & Hsrc). destruct y as [| | | | | |recorded]; try done. by exists recorded. }
  destruct Hmap as [recorded Hrec].
  assert (Hsha : dget (sh_report v) "sourceSHA256" = Some (JObj sources)) by assumption.
  exists capsule, uf2, c, sources, recorded. split_and!; [exact Hcap|exact Hufp|exact Hafter|by exists text, report|]. unfold reviewed_inputs.
  assert (Hsel' : selected_proof s (proof_output resolve a) = Ok (sh_report v, report)).
  { unfold selected_proof, load. fold (proof_resident resolve a).
    rewrite (capture_free s report_path 262144 (json_pretty (sh_report v)) Hsl ltac:(apply lookup_insert_eq) Hsize). cbn [mbind result_bind].
    rewrite Hread. cbn [mbind result_bind]. rewrite (capture_free s _ 262144 text Hsl Htext Hzt). cbn [mbind result_bind]. rewrite Hr. cbn [mbind result_bind as_dict].
    rewrite (differs_same (sh_report v) "status" (JStr proof_status)) by (first [assumption|by apply bool_decide_eq_true_2]). cbn [mbind result_bind raise_when as_dict].
    rewrite Hstatus. cbn [mbind result_bind raise_when]. unfold digest, read. rewrite Htext. cbn [some_or fmap result_fmap mbind result_bind].
    by rewrite (differs_same (sh_report v) "residentReportSHA256" (JStr (sha text))) by (first [assumption|by apply bool_decide_eq_true_2]). }
  rewrite Hsel'. cbn [mbind result_bind].
  pose proof (Hfit sources text report recorded Hsha Htext Hr Hrec) as Hall.
  assert (Hm1 : mapping (sh_report v) "sourceSHA256" = Ok sources) by (unfold mapping, ditem; by rewrite Hsha).
  assert (Hm2 : mapping report "source_sha256" = Ok recorded) by (unfold mapping, ditem; by rewrite Hrec).
  rewrite Hm1. cbn [mbind result_bind]. rewrite Hm2. cbn [mbind result_bind].
  rewrite (sources_reviewed s (sh_files v) sources report recorded Hsl Hw Hsrc Hrec (loads_entry _ _ _ _ Hread Hsha) (loads_entry _ _ _ _ Hr Hrec) Hall).
  destruct (List.find _ _) as [name|]; [done|].
  cbn [mbind result_bind]. fold (proof_resident resolve a).
  rewrite (capture_free s _ (8 * 1024 * 1024) elf Hsl Help) by (unfold ELF_LIMIT in Hze; lia). cbn [mbind result_bind].
  rewrite (capture_free s _ (4 * 1024 * 1024) uf2 Hsl Hufp) by (unfold UF2_LIMIT in Hzu; lia). cbn [mbind result_bind].
  change (proof_output resolve a +:+ "/stateful_counter.fms")%string with capsule_path.
  rewrite (capture_free s _ 4096 capsule Hsl Hcap Hcs). cbn [mbind result_bind].
  apply bind_unit. split; [by apply must_be_iff|]. apply raise_when_bind. split; [by rewrite String.eqb_refl|].
  apply bind_unit. split; [by apply must_be_iff|]. apply raise_when_bind. split; [by rewrite String.eqb_refl|].
  apply bind_unit. split; [by apply must_be_iff|]. rewrite Hc. cbn [mbind result_bind]. rewrite Hu. cbn [mbind result_bind].
  apply bind_Ok. exists (JObj (measured_contract c uf2 compared)). split; [by apply some_or_Ok|]. cbn [as_dict mbind result_bind].
  rewrite (contract_read elf c flash uf2 compared Hc), Hcheck. cbn [negb orb].
  apply raise_when_bind. split.
  { apply bool_decide_eq_false. unfold checkpoint_after in Hafter. intros Hnone. by rewrite Hnone in Hafter. }
  rewrite (capture_free s _ (8 * 1024 * 1024) validator Hsl Hval (Hvs _ Hval)). cbn [mbind result_bind].
  apply bind_unit. split; [by apply must_be_iff|done].
Qed.
End Reviewed.

(** After the review the verdict of the native checker decides. *)
Lemma checked_inputs_run `{pairs : !JsonPairs} resolve proof resident_sha capsule_sha validator s (env : environment shell_ret) :
  let '(_, q, k) := checked_inputs resolve proof resident_sha capsule_sha validator env [] s in
  match reviewed_inputs s proof resident_sha capsule_sha validator with
  | Ok (capsule, c) =>
      q = (p ← env [] (Process "" (checker_command resolve validator (resolve (proof +:+ "/stateful_counter.fms")) c) (sh_files s));
           raise_when (negb (pr_code p =? 0)) (ValueError "independent production FMS2 validation failed");; Ok (capsule, c))
  | Raise e => q = Raise e /\ k = []
  end.
Proof.
  unfold checked_inputs, run_process, files_now, st_ask, st_io, ask, st_modify, st_get, st_pure, mbind, st_mbind, st_bind, mret, st_ret, st_pure.
  cbn [app]. destruct (reviewed_inputs _ _ _ _ _) as [[capsule c]|e]; [|done]. cbn [app]. destruct (env [] _) as [p|e]; [|done]. cbn. by destruct (pr_code p =? 0).
Qed.

(** C37: What the fault test accepts of what the proof build left. After a checkpoint proof that returned, when nothing was
    linked, the compiler writes no file when asked for its version, its report reads back as written, and reports, sources and
    checker are within their bounds: [checked_inputs] under the digests of that capsule and that UF2 refuses it for one reason
    only. The build checks the sources under the digests of the proof report first, the review under those of the resident
    report: where the two records differ about a source, the review fails with "proof source changed" for the first of
    these, and asks no checker. Where they agree it refuses nothing: it reaches the native checker with the capsule of the
    proof and the addresses of the contract, its verdict decides, and what it returns is that capsule and that contract,
    with the selected checkpoint. *)
Theorem checkpoint_inputs_accepted `{packing : !Packing} `{pairs : !JsonPairs} resolve python (env env2 : environment shell_ret) a after s :
  leaves env (report_in (proof_output resolve a)) ->
  (forall path, path ∈ [proof_file resolve a "stateful_counter.fms"; report_in (proof_resident resolve a); elf_path (proof_resident resolve a);
     uf2_path (proof_resident resolve a)] -> spares resolve python env a path) ->
  (forall h w p, env h (Process "" [proof_compiler resolve a; "--version"] w) = Ok p -> pr_files p = w) ->
  pf_checkpoint a = Some after -> sh_links s = ∅ ->
  let '(s', r, _) := proof_main resolve python a env [] s in
  r = Ok tt -> reviewable resolve a s' ->
  exists capsule uf2 c sources recorded, sh_files s' !! proof_file resolve a "stateful_counter.fms" = Some capsule /\
    sh_files s' !! uf2_path (proof_resident resolve a) = Some uf2 /\ checkpoint_after c = Some after /\ records resolve a s' sources recorded /\
    let '(_, q, k) := checked_inputs resolve (proof_output resolve a) (sha uf2) (sha capsule) (pf_validator a) env2 [] s' in
    match List.find (disputed sources recorded) (keys sources) with
    | Some name => q = Raise (ValueError ("proof source changed: " +:+ name)) /\ k = []
    | None =>
        q = (p ← env2 [] (Process "" (checker_command resolve (pf_validator a) (resolve (proof_file resolve a "stateful_counter.fms")) c) (sh_files s'));
             raise_when (negb (pr_code p =? 0)) (ValueError "independent production FMS2 validation failed");; Ok (capsule, c))
    end.
Proof.
  intros Hl Hs Hq Ha Hlinks. pose proof (proof_main_triple resolve python env a (sh_links s) Hl Hs s eq_refl s [] (conj eq_refl eq_refl)) as H.
  cbn [app] in H. destruct (proof_main resolve python a env [] s) as [[s' r] k]. intros -> Hre. destruct H as (_ & _ & v & Hv & Hsv). rewrite Hlinks in Hv.
  subst s'. destruct (proof_reviewed resolve env a after v k Hv Ha Hq Hre) as (capsule & uf2 & c & sources & recorded & Hc & Hu & Haf & Hrec & Hr).
  exists capsule, uf2, c, sources, recorded. split_and!; [exact Hc|exact Hu|exact Haf|exact Hrec|].
  pose proof (checked_inputs_run resolve (proof_output resolve a) (sha uf2) (sha capsule) (pf_validator a) (on_files <[report_in (proof_output resolve a) := json_pretty (sh_report v)]> v) env2) as Hrun.
  rewrite Hr in Hrun. destruct (checked_inputs _ _ _ _ _ _ _ _) as [[s2 q] k2]. by destruct (List.find _ _).
Qed.

(** ** The demonstration proof, reviewed *)
#[local] Existing Instance ProofDemo.packing.

Module ReviewDemo.
Definition reports : list (dict json) := [ProofDemo.resident; ProofDemo.report].
#[local] Instance pairs : JsonPairs := ProofDemo.pairs_of reports.

Definition built := Eval vm_compute in (ProofDemo.run reports).1.1.

Lemma built_run : (ProofDemo.run reports).1 = (built, Ok tt).
Proof. vm_cast_no_check (@eq_refl (shell * result unit) (built, Ok tt)). Qed.
Definition sources : dict json := Eval vm_compute in match jget ProofDemo.report "sourceSHA256" with JObj d => d | _ => [] end.
Definition recorded : dict json := Eval vm_compute in match jget ProofDemo.resident "source_sha256" with JObj d => d | _ => [] end.

Definition small (maximum : Z) (path : string) : bool :=
  match sh_files built !! path with Some data => (0 <? blen data) && (blen data <=? maximum) | None => true end.
Definition fits (path : string) : bool := negb (bool_decide (path = report_in (proof_output id ProofDemo.arguments))) && small (4 * 1024 * 1024) path.

Lemma small_spec maximum path : small maximum path = true -> forall data, sh_files built !! path = Some data -> 0 < blen data <= maximum.
Proof. unfold small. intros H data Hd. rewrite Hd in H. apply andb_true_iff in H as [H1%Z.ltb_lt H2%Z.leb_le]. lia. Qed.

(** The two records agree. *)
Lemma undisputed : List.find (disputed sources recorded) (keys sources) = None.
Proof. vm_compute. reflexivity. Qed.

Lemma recorded_sources S R : records id ProofDemo.arguments built S R -> S = sources /\ R = recorded.
Proof.
  intros (text & resident & HS & Ht & HR & Hrec).
  assert (E1 : dget (sh_report built) "sourceSHA256" = Some (JObj sources)) by (vm_compute; reflexivity).
  assert (E2 : sh_files built !! report_in (proof_resident id ProofDemo.arguments) = Some (ProofDemo.status_of ProofDemo.resident)) by (vm_compute; reflexivity).
  assert (E3 : json_loads_unique (ProofDemo.status_of ProofDemo.resident) = Ok (JObj ProofDemo.resident)) by (vm_compute; reflexivity).
  assert (E4 : dget ProofDemo.resident "source_sha256" = Some (JObj recorded)) by (vm_compute; reflexivity).
  rewrite E1 in HS. injection HS as <-. rewrite E2 in Ht. injection Ht as <-. rewrite E3 in HR. injection HR as <-. rewrite E4 in Hrec. injection Hrec as <-. done.
Qed.

Lemma all_fit : forallb fits (keys sources ++ keys recorded) = true.
Proof. vm_compute. reflexivity. Qed.

Lemma built_reviewable : reviewable id ProofDemo.arguments built.
Proof.
  assert (Hr : sh_report built = ProofDemo.report) by (vm_compute; reflexivity). constructor.
  - rewrite Hr. vm_compute. reflexivity.
  - rewrite Hr. vm_compute. by split.
  - split; [by apply (bool_decide_unpack _)|]. apply small_spec. vm_compute. reflexivity.
  - intros S text resident R HS Ht HR Hrec. destruct (recorded_sources S R) as [-> ->]; [by exists text, resident|].
    apply Forall_forall. intros name Hin%list_elem_of_In. pose proof all_fit as Hf. rewrite forallb_forall in Hf. apply Hf in Hin.
    unfold fits in Hin. apply andb_true_iff in Hin as [Hn%negb_true_iff%bool_decide_eq_false Hsm]. split; [exact Hn|]. by apply small_spec.
Qed.

(** A checker that accepts *)
Definition passes : environment shell_ret := fun h c =>
  match c with
  | Op _ _ => Ok tt
  | Environ _ | Which _ => Ok None
  | Process _ _ before => Ok (ProfileDemo.finished "" before)
  end.
End ReviewDemo.

Lemma checkpoint_inputs_accepted_witness : exists capsule uf2 c,
  (@checked_inputs ReviewDemo.pairs id (proof_output id ProofDemo.arguments) (sha uf2) (sha capsule) ProofDemo.checker ReviewDemo.passes [] ReviewDemo.built).1.2 = Ok (capsule, c) /\ checkpoint_after c = Some "erase".
Proof.
  pose proof (@checkpoint_inputs_accepted _ ReviewDemo.pairs id "python3" ProofDemo.env ReviewDemo.passes ProofDemo.arguments "erase" ProofDemo.start) as H.
  pose proof ReviewDemo.built_run as Hr. unfold ProofDemo.run in Hr. unfold ReviewDemo.pairs in H.
  destruct (proof_main _ _ _ _ _ _) as [[s' r] k]. cbn [fst] in Hr. injection Hr as -> ->.
  destruct H as (capsule & uf2 & c & S & R & _ & _ & Hc & Hrec & H); [..|reflexivity|exact ReviewDemo.built_reviewable|].
  - apply ProofDemo.proof_env_leaves; [by apply (bool_decide_unpack _)|by apply (bool_decide_unpack _)].
  - intros path Hin. apply ProofDemo.env_spares. repeat (apply elem_of_cons in Hin as [->|Hin]; [by apply (bool_decide_unpack _)|]). by apply elem_of_nil in Hin.
  - intros h w p [= <-]. reflexivity.
  - reflexivity.
  - reflexivity.
  - apply ReviewDemo.recorded_sources in Hrec as [-> ->]. rewrite ReviewDemo.undisputed in H.
    exists capsule, uf2, c. change (pf_validator ProofDemo.arguments) with ProofDemo.checker in H.
    destruct (checked_inputs _ _ _ _ _ _ _ _) as [[s2 q] k2]. split; [exact H|exact Hc].
Defined.
