(* ===== verification/Overlap.v ===== *)
(** * The overlap checks: docs/evidence/application-v4-overlap-check.py and its later versions

    One thread carries 64 KiB through the board while the main thread fetches a page from the Internet; the check passes
    when the fetch lies within the transfer. The three scripts differ in five constants. The state is the report; the
    transfer thread and the session make their calls on the board's connection, of which they see the history. *)

From stdpp Require Import base tactics list list_numbers strings.
From Stdlib Require Import ZArith Lia.
From S2P Require Import Prelude.
From S2P Require Import PyBytes.
From S2P Require Import PyText.
From S2P Require Import PyStr.
From S2P Require Import PyDict.
From S2P Require Import PyJson.
From S2P Require Import Effects.
From S2P Require Import Stateful.
From S2P Require Import Soak.
From S2P Require Import Sockets.
From S2P Require Import SessionSmoke.

Local Open Scope Z_scope.

(** ** What the scripts differ in *)
Record overlap_release := {
  or_firmware_sha256 : string; or_boot_id : string; or_purpose : string; or_query : string; or_output : string;
  or_not_started : string }.

(** ** The report *)

(** The dictionary [transfer] returns: "passed" with the result of the echo, or "failed" with the exception. *)
Record transfer_result := { tr_begin : Z; tr_outcome : echo_result + exn; tr_end : Z }.

(** A finished command, and the fetch with its two readings of the clock *)
Record finished := { fi_code : Z; fi_output : string; fi_error : string }.
Record fetch_result := { ft_begin : Z; ft_end : Z; ft_process : finished }.

Inductive entry := Plain (v : json) | Moved (t : transfer_result) | Fetched (f : fetch_result) | Echoed (x : echo_result).

Inductive overlap_call :=
| Peer (c : sock_call)
| UtcNow
| Clock
| Nanoseconds
| StartedWait
| Command (command : list string)
| SaveReport (path : string) (report : dict entry).

Definition overlap_ret (c : overlap_call) : Type :=
  match c with
  | Peer c => sock_ret c
  | UtcNow => string
  | Clock | Nanoseconds => Z
  | StartedWait => bool
  | Command _ => finished
  | SaveReport _ _ => unit
  end.

Abbreviation ov A := (st overlap_ret (dict entry) A).

Definition note (key : string) (v : entry) : ov unit := st_modify (fun d => dset d key v).

(** ** The connection of the board *)
Definition on_peer (n : list sock_call) : list overlap_call := Peer <$> n.

Definition peer_view (env : environment overlap_ret) (h : list overlap_call) : environment sock_ret :=
  fun k c => env (h ++ on_peer k) (Peer c).

Definition peer {A} (m : sio A) : io overlap_ret A := fun env h =>
  let '(r, k) := m (peer_view env h) [] in (r, on_peer k).

(** A thread of the pool beside the main thread, which leaves the pool when the thread is done. The thread sees its own
    calls, so they may be listed first. *)
Definition beside {A B} (thread : sio A) (main : io overlap_ret B) : io overlap_ret (result A * result B) := fun env h =>
  let '(r, k) := thread (peer_view env h) [] in
  let '(q, n) := main env (h ++ on_peer k) in
  (Ok (r, q), on_peer k ++ n).

(** ** A recorded check

    The frame of every script: the report says "failed" until the last step of the check, an exception is recorded, and
    the report is saved on every way out. *)
Definition save_finished (output : string) : ov unit :=
  finished_utc ← st_ask UtcNow;
  note "finished_utc" (Plain (JStr finished_utc));;
  d ← st_get;
  st_ask (SaveReport output d).

(** [report["status"] != "passed"] *)
Definition has_passed (d : dict entry) : bool :=
  match dget d "status" with Some (Plain v) => py_eq v (JStr "passed") | _ => false end.

Definition recorded_check (first : string -> dict entry) (body : ov unit) (output : string) : ov unit :=
  started_utc ← st_ask UtcNow;
  st_modify (fun _ => first started_utc);;
  st_finally (st_try body is_exception (fun e => note "error" (Plain (JStr (repr_exn e))))) (save_finished output);;
  d ← st_get;
  st_pure (raise_when (negb (has_passed d)) (Exn KSystemExit "1")).

Section Check.
Context `{codec : !Json} (randbytes : Z -> Z -> bytes) (fuel : nat) (version : string) (c : overlap_release).

Definition address : string := "192.168.77.1".
Definition device_id : string := "a1b2c3d4e5f60718".
Definition board : string := "nano_rp2040_connect".
Definition channel_one : dict json := [("channel_id", JInt 1)].

Definition first_overlap_report (started_utc : string) : dict entry :=
  [("firmware_sha256", Plain (JStr (or_firmware_sha256 c))); ("board", Plain (JStr board)); ("device_id", Plain (JStr device_id));
   ("address", Plain (JStr address)); ("expected_boot_id", Plain (JStr (or_boot_id c))); ("started_utc", Plain (JStr started_utc));
   ("status", Plain (JStr "failed")); ("purpose", Plain (JStr (or_purpose c)))].

(** [subprocess.run(["route", "-n", "get", host], ..., check=True).stdout] *)
Definition route_command (host : string) : list string := ["route"; "-n"; "get"; host].
Definition route (host : string) : ov string :=
  p ← st_ask (Command (route_command host));
  st_pure (raise_when (negb (fi_code p =? 0)) (Exn KCalledProcessError "returned non-zero exit status"));;
  mret (fi_output p).

Definition open_peer : ov probe :=
  st_io (peer (open_probe address device_id board 7420 (20 * second) version "application" [])).

Definition peer_command (p : probe) (op : string) (fields : dict json) : ov (dict json * probe) := st_io (peer (command p op None fields)).

(** [diagnostics(peer, previous)] *)
Definition peer_diagnostics (p : probe) (previous : dict json) : ov (dict json * probe) :=
  ' (value, p) ← peer_command p "device.diagnostics" [];
  d ← st_pure (check_diagnostics value previous);
  mret (d, p).

(** [transfer()] *)
Definition transfer (p : probe) : sio transfer_result :=
  first ← ask Monotonic;
  outcome ← try_except (x ← echo randbytes fuel p 65536 true None 150000000; mret (inl x)) is_exception (fun e => mret (inr e));
  last ← ask Monotonic;
  mret {| tr_begin := first; tr_outcome := outcome; tr_end := last |}.

Definition fetch_command (nanoseconds : Z) : list string :=
  ["curl"; "-4"; "--fail"; "--silent"; "--show-error"; "--max-time"; "10"; "--output"; "/dev/null"; "--write-out";
   "%{http_code} %{remote_ip}"; "https://example.com/?" +:+ or_query c +:+ "=" +:+ str_int nanoseconds].

(** The main thread while the transfer runs *)
Definition fetch : io overlap_ret fetch_result :=
  started ← ask StartedWait;
  io_when (negb (started : bool)) (RuntimeError (or_not_started c));;
  first ← ask Clock;
  nanoseconds ← ask Nanoseconds;
  p ← ask (Command (fetch_command nanoseconds));
  last ← ask Clock;
  mret {| ft_begin := first; ft_end := last; ft_process := p |}.

(** The pool: what the main thread raised comes before what the thread did. *)
Definition overlapped (p : probe) : ov (transfer_result * fetch_result) :=
  ' (work, main) ← st_io (beside (transfer p) fetch);
  f ← st_pure main;
  note "https" (Fetched f);;
  t ← st_pure work;
  note "transfer" (Moved t);;
  mret (t, f).

Definition contained (t : transfer_result) (f : fetch_result) : bool :=
  (tr_begin t <=? ft_begin f) && (ft_begin f <=? ft_end f) && (ft_end f <=? tr_end t).

Definition check_transfer (t : transfer_result) : result echo_result :=
  match tr_outcome t with inr e => Raise (RuntimeError (repr_exn e)) | inl x => mret x end.

Definition check_fetch (t : transfer_result) (f : fetch_result) : result unit :=
  raise_when (negb (fi_code (ft_process f) =? 0) || negb (contained t f)) (RuntimeError "concurrent Internet check failed").

Definition expected_backend : dict json :=
  [("channel_id", JInt 1); ("backend_rx_bytes", JInt 65536); ("backend_tx_bytes", JInt 65536); ("pending_to_backend", JInt 0);
   ("pending_to_peer", JInt 0)].

Definition idle_fields : list string :=
  ["application_rx_pending"; "application_tx_pending"; "application_rx_discarded"; "application_tx_discarded"].

Definition check_idle (d : dict json) (field : string) : result unit :=
  v ← ditem d field;
  raise_when (negb (py_eq v (JInt 0))) (RuntimeError ("unexpected " +:+ field)).

(** [peer.finish()] and the verdict *)
Definition finish_passed (p : probe) : ov unit :=
  st_io (peer (finish p));;
  note "status" (Plain (JStr "passed")).

(** [with Probe(...) as peer: session(peer)] *)
Definition with_peer (session : probe -> ov unit) : ov unit :=
  p ← open_peer;
  st_finally (session p) (st_io (peer close)).

(** The session *)
Definition overlap_session (p : probe) : ov unit :=
  note "hello" (Plain (JObj (p_hello p)));;
  boot ← st_pure (ditem (p_hello p) "boot_id");
  st_pure (raise_when (negb (py_eq boot (JStr (or_boot_id c)))) (RuntimeError "boot ID changed before overlap check"));;
  ' (before, p) ← peer_diagnostics p [];
  note "initial_diagnostics" (Plain (JObj before));;
  ' (_, p) ← peer_command p "serial.open" channel_one;
  ' (t, f) ← overlapped p;
  note "internet_contained_in_transfer" (Plain (JBool (contained t f)));;
  _ ← st_pure (check_transfer t);
  st_pure (check_fetch t f);;
  ' (status, p) ← peer_command p "serial.status" channel_one;
  note "backend_status" (Plain (JObj status));;
  st_pure (raise_when (negb (py_eq (JObj status) (JObj expected_backend))) (RuntimeError "backend status mismatch"));;
  ' (after, p) ← peer_diagnostics p before;
  note "final_diagnostics" (Plain (JObj after));;
  st_pure (for_each (check_idle after) idle_fields);;
  ' (_, p) ← peer_command p "serial.close" channel_one;
  finish_passed p.

Definition overlap_body : ov unit :=
  text ← route "default";
  note "default_route" (Plain (JStr text));;
  text ← route address;
  note "board_route" (Plain (JStr text));;
  with_peer overlap_session.

(** The script *)
Definition overlap_check : ov unit := recorded_check first_overlap_report overlap_body (or_output c).
End Check.

(** ** The three scripts *)
Definition overlap_purpose (release : string) : string :=
  "one unretried " +:+ release +:+ " application-stream transfer overlapping fresh IPv4 Internet access".

Definition not_started : string := "overlap transfer did not start".

Definition v4_overlap : overlap_release := {|
  or_firmware_sha256 := "155521c96f77720ad7abdbfb0d3423a2f41f24b95ebfa87e4a683a48c05e91ba"; or_boot_id := "37a5706bf6ff3abb";
  or_purpose := overlap_purpose "64 KiB v4"; or_query := "firmingo_application_v4"; or_output := "build/application-v4-overlap.json";
  or_not_started := not_started |}.
Definition v5_overlap : overlap_release := {|
  or_firmware_sha256 := "7665d4fc0c23494e8a1954ec95541d64a1ff8d4960a7219d33ba3e3664ae2192"; or_boot_id := "83c59bf30e43f49e";
  or_purpose := overlap_purpose "instrumented 64 KiB v5"; or_query := "firmingo_application_v5"; or_output := "build/application-v5-overlap.json";
  or_not_started := not_started |}.
Definition v6_overlap : overlap_release := {|
  or_firmware_sha256 := "add0366da36c237bb693615911cb0de9ff7d4c8e16908d4386795abba8f94d69"; or_boot_id := "361a3aa4a9f189bd";
  or_purpose := overlap_purpose "instrumented 64 KiB v6"; or_query := "firmingo_application_v6"; or_output := "build/application-v6-overlap.json";
  or_not_started := not_started |}.

Section Scripts.
Context `{codec : !Json} (randbytes : Z -> Z -> bytes) (fuel : nat) (version : string).

Definition application_v4_overlap_check : ov unit := overlap_check randbytes fuel version v4_overlap.
Definition application_v5_overlap_check : ov unit := overlap_check randbytes fuel version v5_overlap.
Definition application_v6_overlap_check : ov unit := overlap_check randbytes fuel version v6_overlap.
End Scripts.

(** ** Recorded checks

    [P] says what the entries of a report and the calls of the check have to do with each other. *)
Abbreviation over_calls := (list overlap_call).

(** Entries of the report *)
Definition holds (d r : dict entry) : Prop := Forall (fun kv => dget r kv.1 = Some kv.2) d.

Definition failing (r : dict entry) (_ : over_calls) : Prop := dget r "status" = Some (Plain (JStr "failed")).

(** The report has the entries [d] and still says "failed", and the calls so far show [X]. *)
Definition at_entries (d : dict entry) (X : over_calls -> Prop) (r : dict entry) (k : over_calls) : Prop :=
  failing r k /\ dget r "error" = None /\ holds d r /\ X k.

(** What stays true of a run *)
Definition lasting (X : over_calls -> Prop) : Prop := forall k n, X k -> X (k ++ n).

(** The keys that the frame of a check writes *)
Definition frame_keys : list string := ["status"; "error"; "finished_utc"].

Lemma holds_dset d r key v : key ∉ d.*1 -> holds d r -> holds d (dset r key v).
Proof.
  intros Hn Hd. unfold holds in *. rewrite Forall_forall in Hd. apply Forall_forall. intros kv Hin. rewrite dget_dset, decide_False; [by apply Hd|].
  intros E. apply Hn. rewrite E. by apply list_elem_of_fmap_2.
Qed.

Lemma given {A} (env : environment overlap_ret) (I : dict entry -> over_calls -> Prop) (P : Prop) (m : ov A) Q E :
  (P -> triple env [] I m Q E) -> triple env [] (fun r k => I r k /\ P) m Q E.
Proof. intros H r k [HI HP]. by apply (H HP). Qed.

Section Recorded.
Context (env : environment overlap_ret).

Lemma at_failing d X (e : exn) r k : at_entries d X r k -> failing r k.
Proof. by intros [H _]. Qed.

Lemma noted_triple d X key v : key <> "status" -> key <> "error" -> key ∉ d.*1 ->
  triple env [] (at_entries d X) (note key v) (fun _ => at_entries ((key, v) :: d) X) (fun _ => failing).
Proof.
  intros Hk He Hn. apply triple_modify. intros r k (Hf & Hx & Hd & HX). split_and!; [| |constructor|exact HX].
  - unfold failing in *. by rewrite dget_dset, decide_False.
  - by rewrite dget_dset, decide_False.
  - cbn. by rewrite dget_dset, decide_True.
  - by apply holds_dset.
Qed.

Lemma calls_triple {A} d X (m : io overlap_ret A) : lasting X ->
  triple env [] (at_entries d X) (st_io m) (fun _ => at_entries d X) (fun _ => failing).
Proof. intros HX. apply triple_io. intros r k [a|e] n (Hf & He & Hd & Hx) _; [|exact Hf]. split_and!; [exact Hf|exact He|exact Hd|by apply HX]. Qed.

Lemma checked_bind {A B} d X (x : result A) (f : A -> ov B) Q :
  (forall v, x = Ok v -> triple env [] (at_entries d X) (f v) Q (fun _ => failing)) ->
  triple env [] (at_entries d X) (st_pure x ≫= f) Q (fun _ => failing).
Proof.
  intros Hf. eapply triple_bind with (R := fun v r k => at_entries d X r k /\ x = Ok v).
  - apply triple_pure. intros r k H. destruct x; [done|by apply (at_failing d X)].
  - intros v r k [H Hv]. by apply (Hf v Hv).
Qed.

Context (P : dict entry -> over_calls -> Prop).
Context (Hlater : forall d, lasting (P d)) (Hkeys : forall d k, P d k -> Forall (fun key => key ∉ frame_keys) d.*1).

Definition shown (r : dict entry) (k : over_calls) : Prop := exists d, P d k /\ holds d r.

(** A session that ends normally *)
Definition completed (r : dict entry) (k : over_calls) : Prop := has_passed r = true /\ dget r "error" = None /\ shown r k.

(** Closing the connection raised [e]. *)
Definition close_failed (e : exn) : Prop := exists h, env h (Peer CloseSocket) = Raise e.

(** The report says "failed", or everything was shown; an error beside "passed" comes from closing the connection. *)
Definition verdict (r : dict entry) (k : over_calls) : Prop :=
  failing r k \/ has_passed r = true /\ shown r k /\
    (dget r "error" = None \/ exists e, dget r "error" = Some (Plain (JStr (repr_exn e))) /\ close_failed e).

Definition broken (e : exn) (r : dict entry) (k : over_calls) : Prop := failing r k \/ completed r k /\ close_failed e.

Lemma shown_later r k n : shown r k -> shown r (k ++ n).
Proof. intros (d & Hd & Hr). exists d. split; [by apply Hlater|exact Hr]. Qed.

Lemma verdict_later r k n : verdict r k -> verdict r (k ++ n).
Proof. intros [H|(Hp & Hs & He)]; [by left|]. right. split_and!; [exact Hp|by apply shown_later|exact He]. Qed.

(** Entries that say nothing about the check *)
Lemma shown_beside r k key v : key ∈ frame_keys -> shown r k -> shown (dset r key v) k.
Proof.
  intros Hk (d & Hd & Hr). exists d. split; [exact Hd|]. apply holds_dset; [|exact Hr]. intros Hin.
  apply Hkeys in Hd. rewrite Forall_forall in Hd. by apply (Hd _ Hin).
Qed.

Lemma passed_beside r key v : key <> "status" -> has_passed (dset r key v) = has_passed r.
Proof. intros Hk. unfold has_passed. by rewrite dget_dset, decide_False. Qed.

Lemma failing_beside r k key v : key <> "status" -> failing r k -> failing (dset r key v) k.
Proof. intros Hk. unfold failing. by rewrite dget_dset, decide_False. Qed.

(** The end of a session that has shown everything *)
Lemma finish_passed_triple p d d0 X : lasting X -> (forall k, X k -> P d k) ->
  triple env [] (at_entries (d ++ d0) X) (finish_passed p) (fun _ => completed) (fun _ => failing).
Proof.
  intros HX Hd. unfold finish_passed. eapply triple_bind; [by apply calls_triple|]. intros u. apply triple_modify.
  intros r k (_ & He & Hh & Hk). apply Forall_app in Hh as [Hh _].
  split; [unfold has_passed; by rewrite dget_dset, decide_True|]. split; [by rewrite dget_dset, decide_False|].
  apply shown_beside; [left|]. exists d. split; [by apply Hd|exact Hh].
Qed.

Context (version : string).

(** The session is closed on every way out. *)
Lemma with_peer_triple `{codec : !Json} d X session : lasting X ->
  (forall p, triple env [] (at_entries d X) (session p) (fun _ => completed) (fun _ => failing)) ->
  triple env [] (at_entries d X) (with_peer version session) (fun _ => completed) broken.
Proof.
  intros HX Hs. unfold with_peer, open_peer. eapply triple_bind with (R := fun _ => at_entries d X).
  { eapply triple_weaken; [by apply (calls_triple d X)|done|done|]. intros e r k H. by left. }
  intros p. eapply triple_finally; [apply Hs| |].
  - intros u3. apply triple_io. intros r k q n (Hp & He & Hsh) Hq.
    assert (Hdone : completed r (k ++ n)) by (split_and!; [exact Hp|exact He|by apply shown_later]).
    destruct q as [u|e]; [exact Hdone|]. right. split; [exact Hdone|]. unfold runs, peer in Hq.
    destruct (close _ []) as [q' k'] eqn:Eq. injection Hq as -> <-. apply (runs_ask (peer_view env ([] ++ k)) [] CloseSocket) in Eq as [Eq ->].
    exists (([] ++ k) ++ on_peer []). by symmetry.
  - intros e. apply triple_io. intros r k q n Hf _. destruct q; left; exact Hf.
Qed.

Lemma guarded_check_triple body : triple env [] (at_entries [] (fun _ => True)) body (fun _ => completed) broken ->
  triple env [] (at_entries [] (fun _ => True)) (st_try body is_exception (fun e => note "error" (Plain (JStr (repr_exn e)))))
    (fun _ => verdict) (fun _ => verdict).
Proof.
  intros Hb. eapply triple_try with (Q := fun _ => verdict) (R := broken).
  - eapply triple_weaken; [apply Hb|done| |done]. intros u r k (Hp & He & Hs). right. split_and!; [exact Hp|exact Hs|by left].
  - intros e _ r k [Hf|[(Hp & He & Hs) _]]; [by left|]. right. split_and!; [exact Hp|exact Hs|by left].
  - intros e _. apply triple_modify. intros r k [Hf|[(Hp & He & Hs) Hc]].
    + left. by apply failing_beside.
    + right. rewrite passed_beside by done. split_and!; [exact Hp|apply shown_beside; [right; left|exact Hs]|]. right. exists e.
      split; [by rewrite dget_dset, decide_True|exact Hc].
Qed.

Lemma save_finished_triple output : triple env [] verdict (save_finished output)
  (fun _ r k => verdict r k /\ last k = Some (SaveReport output r)) (fun _ => verdict).
Proof.
  unfold save_finished, st_ask. eapply triple_bind with (R := fun _ => verdict).
  { apply triple_io. intros r k [a|e] n H _; by apply verdict_later. }
  intros finished_utc. eapply triple_bind with (R := fun _ => verdict).
  { apply triple_modify. intros r k [Hf|(Hp & Hs & He)]; [left; by apply failing_beside|]. right. rewrite passed_beside by done.
    split_and!; [exact Hp|apply shown_beside; [right; right; left|exact Hs]|]. by rewrite dget_dset, decide_False. }
  intros u. eapply triple_bind with (R := fun d r k => verdict r k /\ d = r); [by apply triple_get|].
  intros d. apply triple_io. intros r k q n [H ->] Hq. apply (runs_ask env _ (SaveReport output r)) in Hq as [Hq ->].
  destruct q; [split; [by apply verdict_later|]|by apply verdict_later]. by rewrite last_snoc.
Qed.

(** A script tells what its body showed. *)
Definition told (output : string) (r : dict entry) (q : result unit) (n : over_calls) : Prop :=
  (r = [] \/ verdict r n) /\ (q = Ok tt -> has_passed r = true /\ verdict r n /\ last n = Some (SaveReport output r)).

Lemma recorded_check_told first body output :
  (forall started, dget (first started) "status" = Some (Plain (JStr "failed")) /\ dget (first started) "error" = None) ->
  triple env [] (at_entries [] (fun _ => True)) body (fun _ => completed) broken ->
  let '(r, q, n) := recorded_check first body output env [] [] in told output r q n.
Proof.
  intros Hfirst Hb. enough (triple env [] (fun r k => r = [] /\ k = []) (recorded_check first body output)
    (fun _ r k => has_passed r = true /\ verdict r k /\ last k = Some (SaveReport output r)) (fun _ r k => r = [] \/ verdict r k)) as H.
  { specialize (H [] [] (conj eq_refl eq_refl)). cbn [app] in H. unfold told. destruct (recorded_check _ _ _ env [] []) as [[r [[]|e]] n]; [|by split].
    split; [right; apply H|]. by intros _. }
  unfold recorded_check, st_ask. eapply triple_bind with (R := fun _ _ _ => True).
  { apply triple_io. intros r k [a|e] n [-> ->] _; [done|by left]. }
  intros started. destruct (Hfirst started) as [H1 H2].
  eapply triple_bind with (R := fun _ => at_entries [] (fun _ => True)); [apply triple_modify; intros r k _; split_and!; [exact H1|exact H2|by apply Forall_nil|done]|]. intros u.
  eapply triple_bind with (R := fun _ r k => verdict r k /\ last k = Some (SaveReport output r)).
  { eapply triple_finally; [by apply guarded_check_triple|intros v|intros e].
    - eapply triple_weaken; [apply save_finished_triple|done|done|]. intros e r k H. by right.
    - eapply triple_weaken; [apply save_finished_triple|done|intros v r k [H _]; by right|]. intros e' r k H. by right. }
  intros v. eapply triple_bind with (R := fun d r k => (verdict r k /\ last k = Some (SaveReport output r)) /\ d = r); [by apply triple_get|].
  intros d. apply triple_pure. intros r k [[Hv Hl] ->]. destruct (has_passed r); [done|]. by right.
Qed.
End Recorded.

(** ** What a passing check showed *)
#[local] Opaque echo_pattern.

Section Shown.
Context `{codec : !Json} (randbytes : Z -> Z -> bytes) (fuel : nat) (version : string) (c : overlap_release).
Context (env : environment overlap_ret).

(** The transfer thread carried exactly the pattern, both ways. *)
Definition pattern_carried (k : over_calls) : Prop :=
  exists before calls after chunks, k = before ++ on_peer calls ++ after /\
    sent (peer_view env before) [] calls = concat (data_frame <$> pieces 2048 (echo_pattern 65536)) /\
    Forall carried chunks /\ received (peer_view env before) [] calls = concat (data_frame <$> chunks) /\ concat chunks = echo_pattern 65536.

Lemma pattern_lasting : lasting pattern_carried.
Proof.
  intros k n (before & calls & after & chunks & -> & H). exists before, calls, (after ++ n), chunks. split; [by rewrite <- !app_assoc|exact H].
Qed.

(** The page was fetched within the transfer. *)
Definition fetched_within (t : transfer_result) (f : fetch_result) : Prop :=
  tr_begin t <= ft_begin f <= ft_end f /\ ft_end f <= tr_end t /\ fi_code (ft_process f) = 0.

(** The board has nothing left over. *)
Definition idle (after : dict json) : Prop := Forall (fun field => exists v, dget after field = Some v /\ py_eq v (JInt 0) = true) idle_fields.

(** The page was fetched within the transfer, the board counted exactly these bytes and has nothing left over, and the
    boot is the expected one with sound diagnostics before and after. *)
Definition overlap_shown (d : dict entry) (k : over_calls) : Prop :=
  exists hello first before t x f status last after,
    d = [("final_diagnostics", Plain (JObj after)); ("backend_status", Plain (JObj status));
         ("internet_contained_in_transfer", Plain (JBool true)); ("transfer", Moved t); ("https", Fetched f);
         ("initial_diagnostics", Plain (JObj before)); ("hello", Plain (JObj hello))] /\
    dget hello "boot_id" = Some (JStr (or_boot_id c)) /\
    check_diagnostics first [] = Ok before /\ check_diagnostics last before = Ok after /\
    tr_outcome t = inl x /\ fetched_within t f /\ py_eq (JObj status) (JObj expected_backend) = true /\ idle after /\ pattern_carried k.

Lemma overlap_shown_lasting d : lasting (overlap_shown d).
Proof.
  intros k n (hello & first & before & t & x & f & status & last & after & Hd & H1 & H2 & H3 & H4 & H5 & H6 & H7 & H8).
  exists hello, first, before, t, x, f, status, last, after.
  repeat (apply conj; [assumption|]). by apply pattern_lasting.
Qed.

Lemma overlap_shown_keys d k : overlap_shown d k -> Forall (fun key => key ∉ frame_keys) d.*1.
Proof. intros (hello & first & before & t & x & f & status & last & after & -> & _). cbn. by apply (bool_decide_unpack _). Qed.

Lemma diagnostics_triple d X p previous : lasting X ->
  triple env [] (at_entries d X) (peer_diagnostics p previous)
    (fun '(after, _) r k => at_entries d X r k /\ exists value, check_diagnostics value previous = Ok after) (fun _ => failing).
Proof.
  intros HX. unfold peer_diagnostics, peer_command. eapply triple_bind; [by apply calls_triple|]. intros [value p'].
  apply checked_bind. intros after Ha. apply triple_ret. intros r k H. split; [exact H|by exists value].
Qed.

Lemma runs_beside {A B} (thread : sio A) (main : io overlap_ret B) h r n : runs env h (beside thread main) r n ->
  exists work k q m, r = Ok (work, q) /\ n = on_peer k ++ m /\ runs (peer_view env h) [] thread work k /\ runs env (h ++ on_peer k) main q m.
Proof.
  unfold runs, beside. destruct (thread _ []) as [work k]. destruct (main env _) as [q m] eqn:E. intros [= <- <-]. by exists work, k, q, m.
Qed.

Context (Hsocket : forall h, Socket (peer_view env h)).

Lemma transfer_carried p h t k x : runs (peer_view env h) [] (transfer randbytes fuel p) (Ok t) k -> tr_outcome t = inl x ->
  sent (peer_view env h) [] k = concat (data_frame <$> pieces 2048 (echo_pattern 65536)) /\
  exists chunks, Forall carried chunks /\ received (peer_view env h) [] k = concat (data_frame <$> chunks) /\ concat chunks = echo_pattern 65536.
Proof.
  unfold transfer. intros (first & n1 & n2 & H1 & H & ->)%runs_bind_Ok. apply (runs_ask (peer_view env h) _ Monotonic) in H1 as [_ ->].
  apply runs_bind_Ok in H as (outcome & n3 & n4 & H2 & H & ->).
  apply runs_bind_Ok in H as (last & n5 & n6 & H3 & [[= ->] ->]%runs_ret & ->). apply (runs_ask (peer_view env h) _ Monotonic) in H3 as [_ ->].
  cbn [tr_outcome]. intros ->. apply runs_try in H2 as [[H2 _]|(e & m1 & m2 & _ & _ & [[=] _]%runs_ret & _)].
  apply runs_bind_Ok in H2 as (x' & m1 & m2 & H2 & [_ ->]%runs_ret & ->).
  apply (session_echo_Ok (peer_view env h)) in H2 as (_ & _ & _ & Hs & chunks & Hc & Hr & Hx); [|apply Hsocket].
  rewrite !app_nil_r, !sent_app, !received_app, !sent_one, !received_one. cbn [sent_by received_by app]. rewrite !app_nil_r.
  cbn [app] in Hs, Hr. split; [exact Hs|]. exists chunks. split; [exact Hc|]. split; [exact Hr|exact Hx].
Qed.

Lemma overlapped_triple d p : "https" ∉ d.*1 -> "transfer" ∉ d.*1 ->
  triple env [] (at_entries d (fun _ => True)) (overlapped randbytes fuel c p)
    (fun '(t, f) => at_entries (("transfer", Moved t) :: ("https", Fetched f) :: d) (fun k => forall x, tr_outcome t = inl x -> pattern_carried k))
    (fun _ => failing).
Proof.
  intros Hh Ht. unfold overlapped.
  set (X := fun work k => forall t x, work = Ok t -> tr_outcome t = inl x -> pattern_carried k).
  eapply triple_bind with (R := fun '(work, _) => at_entries d (X work)).
  { apply triple_io. intros r k q n (Hf & He & Hd & _) Hr. apply runs_beside in Hr as (work & k' & main & m & -> & -> & Hw & _).
    split_and!; [exact Hf|exact He|exact Hd|]. intros t x -> Hx. destruct (transfer_carried p ([] ++ k) t k' x Hw Hx) as (Hs & chunks & Hrest).
    destruct Hrest as (Hc & Hrc & Hx'). exists k, k', m, chunks. split; [reflexivity|]. split; [exact Hs|]. split; [exact Hc|]. split; [exact Hrc|exact Hx']. }
  intros [work main]. apply checked_bind. intros f _.
  eapply triple_bind; [by apply noted_triple|]. intros u. apply checked_bind. intros t ->.
  eapply triple_bind; [apply noted_triple; [done|done|cbn; by apply not_elem_of_cons]|]. intros u2. apply triple_ret.
  intros r k (Hf & He & Hd & HX). split_and!; [exact Hf|exact He|exact Hd|]. intros x. by apply HX.
Qed.

Lemma idle_spec after : for_each (check_idle after) idle_fields = Ok tt -> idle after.
Proof.
  intros H%for_each_Ok. eapply Forall_impl; [exact H|]. intros field (v & Hv%some_or_Ok & Hz%raise_when_Ok%negb_false_iff)%bind_Ok. by exists v.
Qed.

Lemma fetch_spec t f : check_fetch t f = Ok tt -> contained t f = true /\ fetched_within t f.
Proof.
  unfold check_fetch. intros [Hcode Hcon]%raise_when_Ok%orb_false_iff. apply negb_false_iff in Hcode, Hcon.
  split; [exact Hcon|]. apply Z.eqb_eq in Hcode. unfold contained in Hcon. apply andb_true_iff in Hcon as [[H1 H2]%andb_true_iff H3].
  split_and!; [lia..|exact Hcode].
Qed.

Lemma transfer_spec t x : check_transfer t = Ok x -> tr_outcome t = inl x.
Proof. unfold check_transfer. destruct (tr_outcome t) as [y|e]; [|done]. by intros [= ->]. Qed.

Lemma carried_lasting t : lasting (fun k => forall x, tr_outcome t = inl x -> pattern_carried k).
Proof. intros k n H x Hx. by apply pattern_lasting, (H x). Qed.

Lemma route_triple d host : triple env [] (at_entries d (fun _ => True)) (route host) (fun _ => at_entries d (fun _ => True)) (fun _ => failing).
Proof.
  unfold route, st_ask. eapply triple_bind; [by apply calls_triple|]. intros p. apply checked_bind. intros u _. by apply triple_ret.
Qed.

Lemma overlap_session_triple d p : d.*1 = ["board_route"; "default_route"] ->
  triple env [] (at_entries d (fun _ => True)) (overlap_session randbytes fuel c p) (fun _ => completed overlap_shown) (fun _ => failing).
Proof.
  intros Hd.
  assert (Hfresh : forall key e, bool_decide (key ∉ e.*1 ++ ["board_route"; "default_route"]) = true -> key ∉ (e ++ d).*1)
    by (intros key e H%bool_decide_eq_true; by rewrite fmap_app, Hd).
  unfold overlap_session.
  eapply triple_bind; [apply noted_triple; [done|done|by apply (Hfresh _ [])]|]. intros u1.
  apply checked_bind. intros boot Hboot%some_or_Ok. apply checked_bind. intros u2 Hb%raise_when_Ok%negb_false_iff%py_eq_str. subst boot.
  eapply triple_bind; [by apply diagnostics_triple|]. intros [before p1]. apply given. intros [first Hfirst].
  eapply triple_bind; [apply noted_triple; [done|done|by apply (Hfresh _ [_])]|]. intros u3.
  eapply triple_bind; [by apply calls_triple|]. intros [opened p2].
  eapply triple_bind; [apply overlapped_triple; [by apply (Hfresh _ [_; _])|by apply (Hfresh _ [_; _])]|]. intros [t f].
  pose proof (carried_lasting t) as HX.
  eapply triple_bind; [apply noted_triple; [done|done|by apply (Hfresh _ [_; _; _; _])]|]. intros u4.
  apply checked_bind. intros x Hx%transfer_spec. apply checked_bind. intros [] [Hcon Hin]%fetch_spec. rewrite Hcon.
  eapply triple_bind; [by apply calls_triple|]. intros [status p3].
  eapply triple_bind; [apply noted_triple; [done|done|by apply (Hfresh _ [_; _; _; _; _])]|]. intros u5.
  apply checked_bind. intros u6 Hst%raise_when_Ok%negb_false_iff.
  eapply triple_bind; [by apply diagnostics_triple|]. intros [after p4]. apply given. intros [last Hlast].
  eapply triple_bind; [apply noted_triple; [done|done|by apply (Hfresh _ [_; _; _; _; _; _])]|]. intros u7.
  apply checked_bind. intros [] Hidle%idle_spec. eapply triple_bind; [by apply calls_triple|]. intros [closed p5].
  apply (finish_passed_triple env overlap_shown overlap_shown_keys p5 [_; _; _; _; _; _; _] d); [exact HX|].
  intros k Hk. exists (p_hello p), first, before, t, x, f, status, last, after. repeat (apply conj; [first [reflexivity|assumption]|]). by apply (Hk x).
Qed.

Lemma overlap_body_triple : triple env [] (at_entries [] (fun _ => True)) (overlap_body randbytes fuel version c)
  (fun _ => completed overlap_shown) (broken env overlap_shown).
Proof.
  assert (HE : forall (e : exn) r k, failing r k -> broken env overlap_shown e r k) by by left.
  unfold overlap_body. eapply triple_bind; [eapply triple_weaken; [apply route_triple|done|done|exact HE]|]. intros default_text.
  eapply triple_bind; [eapply triple_weaken; [apply (noted_triple env [] (fun _ => True) "default_route"); [done|done|by apply (bool_decide_unpack _)]|done|done|exact HE]|]. intros u1.
  eapply triple_bind; [eapply triple_weaken; [apply route_triple|done|done|exact HE]|]. intros board_text.
  eapply triple_bind; [eapply triple_weaken; [apply (noted_triple env [("default_route", Plain (JStr default_text))] (fun _ => True) "board_route"); [done|done|by apply (bool_decide_unpack _)]|done|done|exact HE]|]. intros u2.
  apply (with_peer_triple env overlap_shown overlap_shown_lasting); [done|]. intros p. by apply overlap_session_triple.
Qed.
End Shown.

(** C38: An overlap check exits with success only after an exact transfer around a fetch. Whatever happens, once the report was
    begun it says "failed", or the expected boot was met with sound diagnostics before and after, the page was fetched between
    the two ends of the transfer, whose connection carried exactly the 64 KiB pattern both ways, and the board counted exactly
    these bytes and has nothing pending or discarded; an error beside "passed" comes from closing the connection. A check that
    exits with success has "passed", and the last thing it did was to save that report. *)
Theorem overlap_outcome `{codec : !Json} randbytes fuel version c (env : environment overlap_ret) :
  (forall h, Socket (peer_view env h)) ->
  let '(r, q, n) := overlap_check randbytes fuel version c env [] [] in told env (overlap_shown c env) (or_output c) r q n.
Proof.
  intros Hs. apply (recorded_check_told env (overlap_shown c env) (overlap_shown_lasting c env) (overlap_shown_keys c env)); [done|].
  by apply overlap_body_triple.
Qed.

(** ** A machine without a default route *)
Module OverlapDemo.
#[local] Instance codec : Json := { json_loads _ := Raise (ValueError "not a response"); json_dumps _ := [] }.

Definition env : environment overlap_ret := fun h c =>
  match c with
  | Peer _ => Raise (OSError "no route to host")
  | UtcNow => Ok "2026-01-01T00:00:00Z"
  | Clock | Nanoseconds => Ok 0
  | StartedWait => Ok true
  | Command _ => Ok {| fi_code := 1; fi_output := ""; fi_error := "route: not in table" |}
  | SaveReport _ _ => Ok tt
  end.

Lemma env_socket h : Socket (peer_view env h).
Proof. constructor; unfold peer_view; cbn [env]; [done|done|]. by intros k x e [= <-]. Qed.
End OverlapDemo.
#[local] Existing Instance OverlapDemo.codec.

Lemma overlap_outcome_witness :
  let '(r, q, n) := application_v4_overlap_check (fun _ _ => []) 0 "0.1.0" OverlapDemo.env [] [] in
  verdict OverlapDemo.env (overlap_shown v4_overlap OverlapDemo.env) r n /\ q = Raise (Exn KSystemExit "1") /\ dget r "status" = Some (Plain (JStr "failed")).
Proof.
  pose proof (overlap_outcome (fun _ _ => []) 0 "0.1.0" v4_overlap OverlapDemo.env OverlapDemo.env_socket) as H.
  unfold application_v4_overlap_check.
  assert (Hq : (overlap_check (fun _ _ => []) 0 "0.1.0" v4_overlap OverlapDemo.env [] []).1.2 = Raise (Exn KSystemExit "1")) by reflexivity.
  assert (Hr : dget (overlap_check (fun _ _ => []) 0 "0.1.0" v4_overlap OverlapDemo.env [] []).1.1 "status" = Some (Plain (JStr "failed"))) by reflexivity.
  destruct (overlap_check _ _ _ _ _ _ _) as [[r q] n]. cbn [fst snd] in Hq, Hr. destruct H as [[-> |H] _]; [discriminate Hr|].
  split; [exact H|]. split; [exact Hq|exact Hr].
Defined.
