(* ===== verification/InstallProbes.v ===== *)
(** * The installers of the managed slot

    The commands that open the private upload port: experiments/managed_sketch/upload.py installs a reviewed capsule
    and checks the board afterwards; probe_pause.py and probe_stall.py offer one to a board whose sketch is busy or
    stuck, which must refuse it. The arguments are records; what the tools print is what they return. *)

From stdpp Require Import base tactics list list_numbers strings.
From Stdlib Require Import ZArith Lia.
From S2P Require Import Prelude.
From S2P Require Import PyBytes.
From S2P Require Import Sha256.
From S2P Require Import PyText.
From S2P Require Import PyStr.
From S2P Require Import PyDict.
From S2P Require Import BuildComposite.
From S2P Require Import PyJson.
From S2P Require Import Effects.
From S2P Require Import Ipv4.
From S2P Require Import Stateful.
From S2P Require Import Stages.
From S2P Require Import Sockets.
From S2P Require Import SessionSmoke.
From S2P Require Import Bench.
From S2P Require Import Upload.
From S2P Require Import Dev.
From S2P Require Import ResidentSource.
From S2P Require Import ResidentExport.

Local Open Scope Z_scope.

Abbreviation board_tool A := (st sock_ret unit A).

(** [parser.error] *)
Definition usage (message : string) : exn := Exn KSystemExit message.

(** ** One byte for the sketch: probe_pause.py *)
Definition sketch_control (p : probe) (request expected : Z) : sio unit :=
  wire ← io_pure (frame 3 0 (channel_prefix ++ [z2b request]));
  _ ← ask (SendAll wire);
  now ← ask Monotonic;
  let deadline := now + p_timeout p in
  header ← _exact 16 deadline;
  ' (kind, request_id, size) ← io_pure (decode_header header);
  io_when (negb (bool_decide ((kind, request_id, size) = (3, 0, 5)))) (RuntimeError "unexpected sketch response frame");;
  payload ← _exact size deadline;
  io_when (negb (bool_decide (payload = channel_prefix ++ [z2b expected]))) (RuntimeError "unexpected sketch response byte").

Section Tools.
Context `{codec : !Json} (randbytes : Z -> Z -> bytes) (fuel : nat) (c : checkout) (version : string).

(** [verified_capsule] with its default directories *)
Definition built_capsule (sketch resident_sha capsule_sha : string) : result bytes :=
  verified_capsule c "build/managed_sketch/resident" ("build/managed_sketch/" +:+ sketch) sketch (lower resident_sha) (lower capsule_sha).

(** The block of [with Probe(...) as probe] *)
Definition with_board {A} (address device_id : string) (timeout : Z) (body : probe -> board_tool A) : board_tool A :=
  p ← st_io (open_probe address device_id "nano_rp2040_connect" 7420 timeout (version +:+ "-m7exp3") "application" []);
  st_finally (body p) (st_io close).

(** [probe.command(op, channel_id=1)] *)
Definition serial_request (op : string) (p : probe) : board_tool probe :=
  ' (_, p) ← st_io (command p op None [("channel_id", JInt 1)]);
  mret p.

Definition board_hello (address device_id : string) : board_tool (dict json) := st_io (selected_hello version address device_id).

Definition board_echo (p : probe) (byte_count : Z) (seed : option Z) : board_tool echo_result :=
  st_io (echo randbytes fuel p byte_count false seed 150000000).

(** [if after["boot_id"] != before["boot_id"]: raise] *)
Definition same_boot_hello (message : string) (before after : dict json) : result unit :=
  a ← ditem after "boot_id";
  b ← ditem before "boot_id";
  raise_when (negb (py_eq a b)) (RuntimeError message).

Definition check_device (device_id : string) : result unit :=
  raise_when (negb (fullmatch is_hex_lower 16 (lower device_id))) (usage "--device-id must be 16 hexadecimal digits").
Definition check_sha_argument (digest : string) : result unit :=
  raise_when (negb (fullmatch is_hex 64 digest)) (usage "must be 64 hexadecimal digits").

(** ** upload.py *)
Record install_args := {
  in_address : string; in_device_id : string; in_sketch : string; in_resident_sha : string; in_capsule_sha : string;
  in_install : bool; in_timeout : Z }.
Record install_result := { is_boot_id : json; is_capsule : bytes; is_echo : echo_result }.

Definition install_address (a : install_args) : result string :=
  match IPv4Address (in_address a) with
  | Ok octets =>
      raise_when (bool_decide (str_address octets ∈ ["0.0.0.0"; "255.255.255.255"]) || is_multicast octets)
        (usage "select one unicast board IPv4 address");;
      mret (str_address octets)
  | Raise e => if is_a KValueError e then Raise (usage (emsg e)) else Raise e
  end.

Definition check_install_args (a : install_args) : result string :=
  address ← install_address a;
  check_device (in_device_id a);;
  for_each check_sha_argument [in_resident_sha a; in_capsule_sha a];;
  raise_when (negb ((2 * second <=? in_timeout a) && (in_timeout a <=? 30 * second))) (usage "--timeout must be 2..30 seconds");;
  mret address.

(** The session after the installation: the diagnostic probes get a short echo that does not trigger them. *)
Definition installed_echo (sketch : string) (p : probe) : board_tool echo_result :=
  if bool_decide (sketch ∈ ["pause_probe"; "stall_probe"]) then board_echo p 64 None else board_echo p 4096 (Some 0x4d375550).

Definition install_session (sketch address device_id : string) : board_tool echo_result :=
  with_board address device_id (20 * second) (fun p =>
    p ← serial_request "serial.open" p;
    x ← installed_echo sketch p;
    p ← serial_request "serial.close" p;
    st_io (finish p);;
    mret x).

Definition install_main (a : install_args) : board_tool install_result :=
  address ← st_pure (check_install_args a);
  let device_id := lower (in_device_id a) in
  capsule ← st_pure (built_capsule (in_sketch a) (in_resident_sha a) (in_capsule_sha a));
  before ← board_hello address device_id;
  st_pure (raise_when (negb (in_install a)) (usage "--install is required after reviewing the exact capsule"));;
  _ ← st_io (upload address device_id capsule (in_timeout a) (ascii "K"));
  after ← board_hello address device_id;
  st_pure (raise_when (negb (py_eq (jget after "boot_id") (jget before "boot_id")))
    (RuntimeError "board rebooted during upload; install outcome requires inspection"));;
  x ← install_session (in_sketch a) address device_id;
  boot_id ← st_pure (ditem after "boot_id");
  mret {| is_boot_id := boot_id; is_capsule := capsule; is_echo := x |}.

(** ** probe_pause.py *)
Record pause_args := {
  pa_address : string; pa_device_id : string; pa_resident_sha : string; pa_pause_sha : string; pa_blink_b_sha : string;
  pa_run : bool }.
Record pause_result := { re_response : bytes; re_elapsed : Z; re_echo : echo_result }.

Definition check_pause_args (a : pause_args) : result string :=
  octets ← IPv4Address (pa_address a);
  check_device (pa_device_id a);;
  for_each check_sha_argument [pa_resident_sha a; pa_pause_sha a; pa_blink_b_sha a];;
  raise_when (negb (pa_run a)) (usage "--run is required for the opt-in bounded-pause test");;
  mret (str_address octets).

(** [remaining = triggered_at + 5.3 - time.monotonic(); if remaining > 0: time.sleep(remaining)] *)
Definition wait_until (instant : Z) : sio unit :=
  now ← ask Monotonic;
  if now <? instant then ask (Pause (instant - now)) else mret tt.

Definition pause_trigger (address device_id : string) : board_tool Z :=
  with_board address device_id (10 * second) (fun p =>
    p ← serial_request "serial.open" p;
    st_io (sketch_control p 0xf0 0xf1);;
    triggered_at ← st_ask Monotonic;
    p ← serial_request "serial.close" p;
    st_io (finish p);;
    mret triggered_at).

Definition pause_check (address device_id : string) : board_tool echo_result :=
  with_board address device_id (10 * second) (fun p =>
    p ← serial_request "serial.open" p;
    st_io (sketch_control p 0xf2 0xf3);;
    x ← board_echo p 64 None;
    p ← serial_request "serial.close" p;
    st_io (finish p);;
    mret x).

Definition pause_main (a : pause_args) : board_tool pause_result :=
  address ← st_pure (check_pause_args a);
  let device_id := lower (pa_device_id a) in
  _ ← st_pure (built_capsule "pause_probe" (pa_resident_sha a) (pa_pause_sha a));
  blink_b ← st_pure (built_capsule "blink_b" (pa_resident_sha a) (pa_blink_b_sha a));
  before ← board_hello address device_id;
  triggered_at ← pause_trigger address device_id;
  response ← st_io (upload address device_id blink_b (10 * second) (ascii "T"));
  now ← st_ask Monotonic;
  let elapsed := now - triggered_at in
  st_pure (raise_when (4500000000 <=? elapsed)
    (RuntimeError "pause timeout was observed too late to attribute to the 5 s delay"));;
  st_io (wait_until (triggered_at + 5300000000));;
  x ← pause_check address device_id;
  after ← board_hello address device_id;
  st_pure (same_boot_hello "board rebooted during bounded-pause test" before after);;
  mret {| re_response := response; re_elapsed := elapsed; re_echo := x |}.

(** ** probe_stall.py

    [resolve] is [path.resolve()], with the failure of [strict]; [executable] is [os.access(path, os.X_OK)]. *)
Context (resolve : string -> result string) (executable : string -> bool).

Definition composite_of : string := "build/managed_sketch/composite".
Definition recovery_status : string := "ROM-only initial proof image; not flashed or hardware-verified".

Definition checked_recovery_image (expected : string) : result string :=
  report ← read_report c (composite_of +:+ "/blink_b-report.json");
  let image := composite_of +:+ "/blink_b-initial-rom-only.uf2" in
  let unavailable := RuntimeError "exact Blink B ROM recovery image is unavailable" in
  raise_when (negb (py_eq (jget report "status") (JStr recovery_status))
      || negb (py_eq (jget report "board") (JStr "nano_rp2040_connect"))
      || negb (py_eq (jget report "sketch") (JStr "blink_b"))
      || negb (py_eq (jget report "composite_uf2_sha256") (JStr expected))) unavailable;;
  data ← file c image;
  raise_when (negb (bool_decide (sha data = expected))) unavailable;;
  mret image.

Definition checked_picotool (path : string) : result string :=
  tool ← resolve path;
  raise_when (negb (bool_decide (path_name tool = "picotool")) || negb (bool_decide (path_name (parent tool) = "5.0.0-9576866"))
      || negb (bool_decide (path_name (parent (parent tool)) = "pqt-picotool")) || negb (executable tool))
    (RuntimeError "pinned picotool for ROM recovery is unavailable");;
  mret tool.

Record stall_args := {
  sa_address : string; sa_device_id : string; sa_resident_sha : string; sa_stall_sha : string; sa_blink_b_sha : string;
  sa_recovery_sha : string; sa_picotool : string; sa_run : bool }.
Record stalled := { st_response : bytes; st_elapsed : Z; st_recovery : string; st_picotool : string }.

Definition check_stall_args (a : stall_args) : result string :=
  octets ← IPv4Address (sa_address a);
  check_device (sa_device_id a);;
  for_each check_sha_argument [sa_resident_sha a; sa_stall_sha a; sa_blink_b_sha a; sa_recovery_sha a];;
  raise_when (negb (sa_run a)) (usage "--run is required; this test requires physical ROM recovery");;
  mret (str_address octets).

Definition stall_trigger (address device_id : string) : board_tool Z :=
  with_board address device_id (10 * second) (fun p =>
    p ← serial_request "serial.open" p;
    st_io (sketch_control p 0xf6 0xf7);;
    st_io (sketch_control p 0xf4 0xf5);;
    triggered_at ← st_ask Monotonic;
    p ← serial_request "serial.close" p;
    st_io (finish p);;
    mret triggered_at).

Definition stall_main (a : stall_args) : board_tool stalled :=
  address ← st_pure (check_stall_args a);
  let device_id := lower (sa_device_id a) in
  _ ← st_pure (built_capsule "stall_probe" (sa_resident_sha a) (sa_stall_sha a));
  blink_b ← st_pure (built_capsule "blink_b" (sa_resident_sha a) (sa_blink_b_sha a));
  recovery ← st_pure (checked_recovery_image (lower (sa_recovery_sha a)));
  tool ← st_pure (checked_picotool (sa_picotool a));
  before ← board_hello address device_id;
  triggered_at ← stall_trigger address device_id;
  during ← board_hello address device_id;
  st_pure (same_boot_hello "resident rebooted after the sketch stall; inspect in ROM mode" before during);;
  response ← st_io (upload address device_id blink_b (10 * second) (ascii "T"));
  now ← st_ask Monotonic;
  after ← board_hello address device_id;
  st_pure (same_boot_hello "resident rebooted during stalled-sketch upload; inspect in ROM mode" before after);;
  mret {| st_response := response; st_elapsed := now - triggered_at; st_recovery := recovery; st_picotool := tool |}.
End Tools.

(** ** What the exchanges show *)
Lemma hello_turn_ends env count deadline data `{!Socket env} :
  fails_with env (fun e => e <> OutOfFuel) (hello_turn count deadline data).
Proof. unfold hello_turn. ends_tac. Qed.

#[export] Instance hello_reads env count deadline `{!Socket env} : Reads env count (hello_turn count deadline).
Proof.
  constructor; [|intros; by apply hello_turn_ends].
  intros data h data' n Hlt H. unfold hello_turn in H.
  apply runs_bind_Ok in H as (now & n1 & n2 & H1 & H & ->). apply (runs_ask env h Monotonic) in H1 as [_ ->].
  repeat runs_step. simplify_eq. eapply (chunk_after env h [Monotonic; SetTimeout (deadline - now)]); calls_norm;
    try done. by repeat constructor.
Qed.

Lemma hello_exact_Ok env count deadline h data n `{!Socket env} : 0 <= count ->
  runs env h (hello_exact count deadline) (Ok data) n ->
  received env h n = data /\ sent env h n = [] /\ blen data = count.
Proof.
  intros Hc H. apply (read_all_spec env count (hello_turn count deadline)) in H as [_ H]; [|done].
  by destruct (H _ eq_refl) as (-> & ? & ?).
Qed.

(** A hello was asked for, and this is its result. *)
Definition hello_read `{codec : !Json} (env : environment sock_ret) (hello : dict json) : stage := fun h n =>
  sent env h n = header_bytes 1 1 (blen hello_payload) ++ hello_payload /\
  exists text response, received env h n = header_bytes 2 1 (blen text) ++ text /\ json_loads text = Ok (JObj response) /\
    dget response "ok" = Some (JBool true) /\ dget response "result" = Some (JObj hello).

(** The selected board, with the resident of this release *)
Record selected_board (version device_id : string) (hello : dict json) : Prop := {
  sb_device : dget hello "device_id" = Some (JStr device_id);
  sb_board : dget hello "board_id" = Some (JStr "nano_rp2040_connect");
  sb_version : dget hello "firmware_version" = Some (JStr (version +:+ "-m7exp3")) }.

#[local] Opaque header_bytes.

Section Exchanges.
Context `{codec : !Json} (env : environment sock_ret) `{!Socket env}.

Lemma read_hello_Ok address timeout h hello n :
  runs env h (read_hello address timeout) (Ok hello) n -> hello_read env hello h n.
Proof.
  unfold read_hello. intros (octets & n1 & n2 & [_ ->]%runs_pure & H & ->)%runs_bind_Ok.
  apply runs_bind_Ok in H as ([] & n1 & n3 & [_ ->]%runs_pure & H & ->).
  apply runs_bind_Ok in H as ([] & n1 & n4 & [_ ->]%runs_pure & H & ->).
  apply runs_bind_Ok in H as (now & n1 & n5 & H1 & H & ->). apply (runs_ask env _ Monotonic) in H1 as [_ ->].
  apply runs_bind_Ok in H as (header & n1 & n6 & [Hh ->]%runs_pure & H & ->).
  rewrite pack_header in Hh by (done || unfold u32_value; lia). injection Hh as ->.
  apply runs_bind_Ok in H as (response & n1 & n7 & H1 & H & ->).
  apply with_connection_Ok in H1 as (k & -> & H1). calls_norm.
  apply runs_bind_Ok in H1 as (now2 & k1 & k2 & H2 & H1 & ->). apply (runs_ask env _ Monotonic) in H2 as [_ ->].
  apply runs_bind_Ok in H1 as (u & k1 & k3 & H2 & H1 & ->). apply (runs_ask env _ (SetTimeout _)) in H2 as [_ ->].
  apply runs_bind_Ok in H1 as (u2 & k1 & k4 & H2 & H1 & ->). apply (runs_ask env _ (SendAll _)) in H2 as [Hs ->].
  apply runs_bind_Ok in H1 as (answer & k1 & k5 & H2 & H1 & ->). apply (hello_exact_Ok env) in H2 as (Hr1 & Hs1 & _); [|exact _|done].
  apply runs_bind_Ok in H1 as ([magic [ver [kind [flags [request [size u3]]]]]] & k6 & k7 & [Hu ->]%runs_pure & H1 & ->). symmetry in Hu.
  apply runs_bind_Ok in H1 as ([] & k6 & k8 & [Hw ->]%runs_pure & H1 & ->).
  apply (unpack_exact_iff BE HEADER) in Hu as [Hx Hp].
  symmetry in Hw. apply raise_when_Ok in Hw. breflect. injection Hw as -> -> -> -> ->.
  destruct Hx as (_ & _ & _ & _ & _ & Hz & _). simpl in Hz. change (256 ^ Z.of_nat 4) with (2 ^ 32) in Hz.
  destruct u3. change (pack BE HEADER (header_values 2 1 size) = Ok answer) in Hp.
  rewrite pack_header in Hp by (done || unfold u32_value; lia). injection Hp as <-.
  apply runs_bind_Ok in H1 as ([] & k6 & k9 & [_ ->]%runs_pure & H1 & ->).
  apply runs_bind_Ok in H1 as (text & k10 & k11 & H2 & [Hj ->]%runs_pure & ->).
  apply (hello_exact_Ok env) in H2 as (Hr2 & Hs2 & Hl); [|exact _|lia].
  symmetry in Hj. destruct response as [| | | | | |response]; try (by apply runs_pure in H as [? _]).
  destruct (jget response "result") as [| | | | | |value] eqn:Hv; try (by apply runs_pure in H as [? _]).
  destruct (is_bool true (jget response "ok")) eqn:Hok; [|by apply runs_pure in H as [? _]].
  apply runs_ret in H as [[= ->] ->]. unfold hello_read. calls_norm. unfold sent, received in *.
  cbn [stream sent_by received_by app] in *. rewrite !stream_app. cbn [stream sent_by received_by]. calls_norm.
  rewrite <- Hs, Hs1, Hs2, Hr1, Hr2, ?app_nil_r. cbn [is_ok]. rewrite ?app_nil_r. split; [done|].
  exists text, response. split_and!; [by rewrite Hl|done| |].
  - apply is_bool_true in Hok. unfold jget in Hok. destruct (dget response "ok"); simplify_eq/=; done.
  - unfold jget in Hv. destruct (dget response "result"); simplify_eq/=; done.
Qed.

Lemma selected_hello_Ok version address device_id h hello n :
  runs env h (selected_hello version address device_id) (Ok hello) n ->
  hello_read env hello h n /\ selected_board version device_id hello.
Proof.
  unfold selected_hello. intros (d & n1 & n2 & H1%read_hello_Ok & H & ->)%runs_bind_Ok.
  apply runs_bind_Ok in H as ([] & n3 & n4 & [Hc ->]%runs_pure & [[= ->] ->]%runs_ret & ->).
  symmetry in Hc. apply raise_when_Ok in Hc. rewrite !orb_false_iff, !negb_false_iff in Hc. destruct Hc as [[Hd Hb] Hv].
  rewrite !app_nil_r. split; [done|]. constructor; by apply dget_str.
Qed.

(** One byte for the sketch, and its answer *)
Definition byte_exchanged (request expected : Z) : stage := fun h n =>
  sent env h n = data_frame [z2b request] /\ received env h n = data_frame [z2b expected].

Lemma sketch_control_Ok p request expected h n :
  runs env h (sketch_control p request expected) (Ok tt) n -> byte_exchanged request expected h n.
Proof.
  unfold sketch_control. intros (wire & n1 & n2 & [Hw ->]%runs_pure & H & ->)%runs_bind_Ok.
  symmetry in Hw. apply frame_Ok in Hw as [_ ->]; [|done|done].
  apply runs_bind_Ok in H as (u & n1 & n3 & H1 & H & ->). apply (runs_ask env _ (SendAll _)) in H1 as [Hs ->].
  apply runs_bind_Ok in H as (now & n1 & n4 & H1 & H & ->). apply (runs_ask env _ Monotonic) in H1 as [_ ->].
  apply runs_bind_Ok in H as (header & n1 & n5 & H1 & H & ->). apply (_exact_Ok env) in H1 as (Hr1 & Hs1 & _); [|exact _|done].
  apply runs_bind_Ok in H as ([[k r] size] & m1 & m2 & [Hd ->]%runs_pure & H & ->).
  symmetry in Hd. apply decode_header_Ok in Hd as (-> & _ & _ & _).
  apply runs_bind_Ok in H as ([] & m1 & m3 & [Hc ->]%runs_pure & H & ->). symmetry in Hc.
  apply raise_when_Ok, negb_false_iff, bool_decide_eq_true in Hc. injection Hc as -> -> ->.
  apply runs_bind_Ok in H as (payload & m1 & m4 & H1 & [Hp ->]%runs_pure & ->).
  apply (_exact_Ok env) in H1 as (Hr2 & Hs2 & _); [|exact _|done].
  symmetry in Hp. apply raise_when_Ok, negb_false_iff, bool_decide_eq_true in Hp. rewrite Hp in Hr2.
  unfold byte_exchanged, data_frame. calls_norm. unfold sent, received in *.
  cbn [stream sent_by received_by app] in *. rewrite !stream_app. calls_norm.
  rewrite <- Hs, Hs1, Hs2, Hr1, Hr2. cbn [is_ok]. by rewrite ?app_nil_r.
Qed.

(** A session of the selected board was opened. *)
Definition board_opened (version device_id : string) (p : probe) : stage := fun h n =>
  hello_ok (p_hello p) (lower device_id) "nano_rp2040_connect" (version +:+ "-m7exp3") "application" [] /\
  frame 1 1 (json_dumps [("op", JStr "hello"); ("max_payload", JInt MAX_PAYLOAD)]) = Ok (sent env h n) /\
  hello_received (received env h n) (p_hello p).

(** The request for the channel was accepted. *)
Definition serial_done (op : string) : stage := fun h n =>
  exists request text response value, frame 1 request (json_dumps [("op", JStr op); ("channel_id", JInt 1)]) = Ok (sent env h n) /\
    received env h n = header_bytes 2 request (blen text) ++ text /\ json_loads text = Ok (JObj response) /\
    accepted None response value.

(** A capsule was offered, with this answer. *)
Definition offered (device_id : string) (capsule answer : bytes) : stage := fun h n =>
  received env h n = answer /\
  sent env h n = (ascii "FMSU" ++ [z2b 1; z2b 0; z2b 0; z2b 0] ++ le_bytes 4 (blen capsule) ++ sha256 capsule ++ ascii device_id)
    ++ capsule ++ ascii "GO!!".

(** Exactly these bytes went to the sketch and came back. *)
Definition board_echoed (expected : bytes) : stage := fun h n =>
  sent env h n = concat (data_frame <$> pieces 2048 expected) /\
  exists chunks, Forall carried chunks /\ received env h n = concat (data_frame <$> chunks) /\ concat chunks = expected.

(** The clock was read, or waited on until an instant. *)
Definition clock_read (t : Z) : stage := fun h n => n = [Monotonic] /\ env h Monotonic = Ok t.
Definition waited_until (instant : Z) : stage := fun h n =>
  exists now, env h Monotonic = Ok now /\
    n = Monotonic :: (if now <? instant then [Pause (instant - now)] else []).

(** The steps of the tools, as stages *)
Context (randbytes : Z -> Z -> bytes) (fuel : nat) (version : string).

Lemma board_hello_staged address device_id :
  staged env (board_hello version address device_id)
    (fun hello l => l = [hello_read env hello] /\ selected_board version device_id hello).
Proof. apply staged_io. intros h hello n. apply selected_hello_Ok. Qed.

Lemma sketch_control_staged p request expected :
  staged env (st_io (S := unit) (sketch_control p request expected)) (fun _ l => l = [byte_exchanged request expected] /\ True).
Proof. apply staged_io. intros h [] n H. split; [by eapply sketch_control_Ok|done]. Qed.

Lemma serial_staged op p : staged env (serial_request op p) (fun _ l => l = [serial_done op] /\ True).
Proof.
  unfold serial_request. eapply staged_bind.
  - apply staged_io with (Q := fun _ => serial_done op) (F := fun _ => True). intros h [value p'] n H.
    unfold command in H. apply (request_frame_Ok env) in H as (_ & Hf & text & response & Hr & _ & _ & Hj & Ha).
    split; [|done]. by exists (p_next_request p), text, response, value.
  - intros [value p'] l1 [-> _]. eapply staged_weaken; [apply staged_ret|]. by intros q l [_ ->].
Qed.

Lemma board_echo_staged p byte_count seed :
  staged env (board_echo randbytes fuel p byte_count seed)
    (fun _ l => l = [board_echoed (echo_expected randbytes byte_count seed)] /\ True).
Proof.
  apply staged_io. intros h res n H. apply (session_echo_Ok env) in H as (_ & _ & _ & Hs & Hc); [|exact _].
  split; [|done]. by split.
Qed.

Lemma offered_staged address device_id capsule timeout answer :
  staged env (st_io (S := unit) (upload address device_id capsule timeout answer))
    (fun response l => l = [offered device_id capsule answer] /\ response = answer).
Proof.
  apply staged_io. intros h response n H.
  apply upload_Ok in H as (-> & Hr & header & (-> & _)%upload_header_Ok & Hs). by split.
Qed.

Lemma clock_staged : staged env (st_ask (S := unit) Monotonic) (fun t l => l = [clock_read t] /\ True).
Proof. apply staged_io. intros h t n [H ->]%(runs_ask env h Monotonic). by split. Qed.

Lemma wait_staged instant : staged env (st_io (S := unit) (wait_until instant)) (fun _ l => l = [waited_until instant] /\ True).
Proof.
  apply staged_io. intros h u n H. split; [|done]. unfold wait_until in H.
  apply runs_bind_Ok in H as (now & n1 & n2 & H1 & H & ->). apply (runs_ask env _ Monotonic) in H1 as [H1 ->].
  exists now. split; [done|]. destruct (now <? instant).
  - by apply (runs_ask env _ (Pause _)) in H as [_ ->].
  - by apply runs_ret in H as [_ ->].
Qed.

Lemma with_board_staged {A} address device_id timeout (body : probe -> board_tool A) (Q : A -> list stage -> Prop) :
  (forall p, staged env (body p) (fun a l => Q a (board_opened version device_id p :: l))) ->
  staged env (with_board version address device_id timeout body) Q.
Proof.
  intros Hb. unfold with_board. eapply staged_bind.
  - apply staged_io with (Q := board_opened version device_id) (F := fun _ => True). intros h p n H.
    apply (open_probe_Ok env) in H as (_ & _ & _ & _ & Hs & Hh & Hr). by split_and!.
  - intros p l [-> _]. apply staged_finally. apply Hb.
Qed.
End Exchanges.

(** ** What the tools report *)
Section Outcomes.
Context `{codec : !Json} (randbytes : Z -> Z -> bytes) (fuel : nat) (c : checkout) (version : string).
Context (env : environment sock_ret) `{!Socket env}.

(** The capsule is the one of the recorded build, with the selected digests. *)
Definition recorded (sketch resident_sha capsule_sha : string) (capsule : bytes) : Prop :=
  bound_capsule c "build/managed_sketch/resident" ("build/managed_sketch/" +:+ sketch) sketch (lower resident_sha) (lower capsule_sha) capsule.

Lemma built_capsule_Ok sketch resident_sha capsule_sha capsule :
  built_capsule c sketch resident_sha capsule_sha = Ok capsule -> recorded sketch resident_sha capsule_sha capsule.
Proof. apply verified_capsule_Ok. Qed.

(** Two hellos of the selected board, from one boot *)
Definition same_boot_seen (device_id : string) (before after : dict json) : Prop :=
  selected_board version device_id before /\ selected_board version device_id after /\
  exists boot, dget after "boot_id" = Some boot /\ py_eq boot (jget before "boot_id") = true.

Lemma same_boot_hello_Ok device_id message before after u :
  same_boot_hello message before after = Ok u -> selected_board version device_id before -> selected_board version device_id after ->
  same_boot_seen device_id before after.
Proof.
  unfold same_boot_hello. intros (a & Ha%some_or_Ok & H)%bind_Ok Hb Hc. apply bind_Ok in H as (b & Hd%some_or_Ok & H).
  apply raise_when_Ok, negb_false_iff in H. split_and!; [done..|]. exists a. split; [done|]. unfold jget. by rewrite Hd.
Qed.

(** The bytes that check an installed sketch *)
Definition installed_bytes (sketch : string) : bytes :=
  if bool_decide (sketch ∈ ["pause_probe"; "stall_probe"]) then echo_pattern 64 else randbytes 0x4d375550 4096.

(** An installation: the board took the capsule, did not reboot, and its sketch echoes. *)
Definition install_seen (a : install_args) (x : install_result) (l : list stage) : Prop :=
  let device_id := lower (in_device_id a) in
  exists address before after p,
    check_install_args a = Ok address /\ in_install a = true /\
    recorded (in_sketch a) (in_resident_sha a) (in_capsule_sha a) (is_capsule x) /\ same_boot_seen device_id before after /\
    l = [hello_read env before; offered env device_id (is_capsule x) (ascii "K"); hello_read env after;
         board_opened env version device_id p; serial_done env "serial.open";
         board_echoed env (installed_bytes (in_sketch a)); serial_done env "serial.close"].

(** A refusal while the sketch is busy: within 4.5 seconds of its answer, and the sketch goes on 5.3 seconds after it. *)
Definition pause_seen (a : pause_args) (x : pause_result) (l : list stage) : Prop :=
  let device_id := lower (pa_device_id a) in
  exists pause blink_b before after p q triggered refused,
    pa_run a = true /\ recorded "pause_probe" (pa_resident_sha a) (pa_pause_sha a) pause /\
    recorded "blink_b" (pa_resident_sha a) (pa_blink_b_sha a) blink_b /\
    same_boot_seen device_id before after /\ re_elapsed x = refused - triggered /\ re_elapsed x < 4500000000 /\
    l = [hello_read env before; board_opened env version device_id p; serial_done env "serial.open"; byte_exchanged env 0xf0 0xf1;
         clock_read env triggered; serial_done env "serial.close"; offered env device_id blink_b (ascii "T");
         clock_read env refused; waited_until env (triggered + 5300000000); board_opened env version device_id q;
         serial_done env "serial.open"; byte_exchanged env 0xf2 0xf3; board_echoed env (echo_pattern 64);
         serial_done env "serial.close"; hello_read env after].

(** A refusal while the sketch is stuck, with the means to recover at hand *)
Definition stall_seen (resolve : string -> result string) (executable : string -> bool) (a : stall_args) (x : stalled)
    (l : list stage) : Prop :=
  let device_id := lower (sa_device_id a) in
  exists stall blink_b image before during after p triggered refused,
    sa_run a = true /\ recorded "stall_probe" (sa_resident_sha a) (sa_stall_sha a) stall /\
    recorded "blink_b" (sa_resident_sha a) (sa_blink_b_sha a) blink_b /\
    file c (st_recovery x) = Ok image /\ sha image = lower (sa_recovery_sha a) /\
    checked_picotool resolve executable (sa_picotool a) = Ok (st_picotool x) /\
    same_boot_seen device_id before during /\ same_boot_seen device_id before after /\ st_elapsed x = refused - triggered /\
    l = [hello_read env before; board_opened env version device_id p; serial_done env "serial.open"; byte_exchanged env 0xf6 0xf7;
         byte_exchanged env 0xf4 0xf5; clock_read env triggered; serial_done env "serial.close"; hello_read env during;
         offered env device_id blink_b (ascii "T"); clock_read env refused; hello_read env after].

Ltac staged_by L H := eapply staged_bind; [apply L; try exact _|]; intros ? ? [-> H].

(** The sessions of the three tools *)
Lemma install_session_staged sketch address device_id :
  staged env (install_session randbytes fuel version sketch address device_id) (fun _ l => exists p,
    l = [board_opened env version device_id p; serial_done env "serial.open"; board_echoed env (installed_bytes sketch);
         serial_done env "serial.close"]).
Proof.
  apply with_board_staged; [exact _|]. intros p. staged_by serial_staged H1.
  eapply staged_bind with (Q1 := fun _ l => l = [board_echoed env (installed_bytes sketch)] /\ True).
  { unfold installed_echo, installed_bytes. case_bool_decide; apply board_echo_staged; exact _. }
  intros x l1 [-> _]. staged_by serial_staged H2. staged_leave. eapply staged_weaken; [apply staged_ret|].
  intros y l [_ ->]. by exists p.
Qed.

Lemma pause_trigger_staged address device_id :
  staged env (pause_trigger version address device_id) (fun t l => exists p,
    l = [board_opened env version device_id p; serial_done env "serial.open"; byte_exchanged env 0xf0 0xf1; clock_read env t;
         serial_done env "serial.close"]).
Proof.
  apply with_board_staged; [exact _|]. intros p. staged_by serial_staged H1. staged_by sketch_control_staged H2.
  staged_by clock_staged H3. staged_by serial_staged H4. staged_leave. eapply staged_weaken; [apply staged_ret|].
  intros t l [-> ->]. by exists p.
Qed.

Lemma pause_check_staged address device_id :
  staged env (pause_check randbytes fuel version address device_id) (fun _ l => exists p,
    l = [board_opened env version device_id p; serial_done env "serial.open"; byte_exchanged env 0xf2 0xf3;
         board_echoed env (echo_pattern 64); serial_done env "serial.close"]).
Proof.
  apply with_board_staged; [exact _|]. intros p. staged_by serial_staged H1. staged_by sketch_control_staged H2.
  staged_by board_echo_staged H3. staged_by serial_staged H4. staged_leave. eapply staged_weaken; [apply staged_ret|].
  intros t l [_ ->]. by exists p.
Qed.

Lemma stall_trigger_staged address device_id :
  staged env (stall_trigger version address device_id) (fun t l => exists p,
    l = [board_opened env version device_id p; serial_done env "serial.open"; byte_exchanged env 0xf6 0xf7;
         byte_exchanged env 0xf4 0xf5; clock_read env t; serial_done env "serial.close"]).
Proof.
  apply with_board_staged; [exact _|]. intros p. staged_by serial_staged H1. staged_by sketch_control_staged H2.
  staged_by sketch_control_staged H3. staged_by clock_staged H4. staged_by serial_staged H5. staged_leave.
  eapply staged_weaken; [apply staged_ret|]. intros t l [-> ->]. by exists p.
Qed.

Lemma install_main_staged a : staged env (install_main randbytes fuel c version a) (install_seen a).
Proof.
  unfold install_main. staged_value address Ha. staged_value capsule Hc. apply built_capsule_Ok in Hc.
  staged_by board_hello_staged Hb. staged_check Hi. apply raise_when_Ok, negb_false_iff in Hi.
  staged_by offered_staged Hr. staged_by board_hello_staged Hd.
  staged_check Hs. apply raise_when_Ok, negb_false_iff in Hs.
  eapply staged_bind; [apply install_session_staged|].
  intros x l1 [p ->]. staged_value boot Hboot. apply some_or_Ok in Hboot.
  eapply staged_weaken; [apply staged_ret|]. intros y l [-> ->]. eexists address, _, _, p. cbn [is_capsule is_boot_id].
  split_and!; try done. split_and!; [done..|]. exists boot. split; [done|]. unfold jget in Hs at 1. by rewrite Hboot in Hs.
Qed.

Lemma pause_main_staged a : staged env (pause_main randbytes fuel c version a) (pause_seen a).
Proof.
  unfold pause_main. staged_value address Ha. unfold check_pause_args in Ha.
  apply bind_Ok in Ha as (octets & _ & Ha). apply bind_unit in Ha as [_ Ha]. apply bind_unit in Ha as [_ Ha].
  apply raise_when_bind in Ha as [Hrun%negb_false_iff _].
  staged_value pause Hp. apply built_capsule_Ok in Hp. staged_value blink_b Hc. apply built_capsule_Ok in Hc.
  staged_by board_hello_staged Hb.
  eapply staged_bind; [apply pause_trigger_staged|].
  intros triggered l1 [p ->]. staged_by offered_staged Hr. eapply staged_bind; [apply clock_staged|]. intros refused l2 [-> _].
  staged_check He. apply raise_when_Ok, Z.leb_gt in He. staged_by wait_staged Hw.
  eapply staged_bind; [apply pause_check_staged|].
  intros x l3 [q ->]. staged_by board_hello_staged Hd. staged_check Hs.
  eapply same_boot_hello_Ok in Hs; [|exact Hb|exact Hd].
  eapply staged_weaken; [apply staged_ret|]. intros y l [-> ->]. by eexists pause, blink_b, _, _, p, q, triggered, refused.
Qed.

Lemma checked_recovery_image_Ok expected image : checked_recovery_image c expected = Ok image ->
  exists data, file c image = Ok data /\ sha data = expected.
Proof.
  unfold checked_recovery_image. intros (report & _ & H)%bind_Ok. apply raise_when_bind in H as [_ H].
  apply bind_Ok in H as (data & Hd & H). apply raise_when_bind in H as [Hs%negb_false_iff [= <-]].
  exists data. by apply bool_decide_eq_true in Hs.
Qed.

Lemma stall_main_staged resolve executable a :
  staged env (stall_main c version resolve executable a) (stall_seen resolve executable a).
Proof.
  unfold stall_main. staged_value address Ha. unfold check_stall_args in Ha.
  apply bind_Ok in Ha as (octets & _ & Ha). apply bind_unit in Ha as [_ Ha]. apply bind_unit in Ha as [_ Ha].
  apply raise_when_bind in Ha as [Hrun%negb_false_iff _].
  staged_value stall Hp. apply built_capsule_Ok in Hp. staged_value blink_b Hc. apply built_capsule_Ok in Hc.
  staged_value recovery Hi. apply checked_recovery_image_Ok in Hi as (image & Hi & Hsha). staged_value picotool Ht.
  staged_by board_hello_staged Hb.
  eapply staged_bind; [apply stall_trigger_staged|].
  intros triggered l1 [p ->]. staged_by board_hello_staged Hd. staged_check Hs1. eapply same_boot_hello_Ok in Hs1; [|exact Hb|exact Hd].
  staged_by offered_staged Hr. eapply staged_bind; [apply clock_staged|]. intros refused l2 [-> _].
  staged_by board_hello_staged He. staged_check Hs2. eapply same_boot_hello_Ok in Hs2; [|exact Hb|exact He].
  eapply staged_weaken; [apply staged_ret|]. intros y l [-> ->].
  eexists stall, blink_b, image, _, _, _, p, triggered, refused. split_and!; [done..|exact Hs1|exact Hs2|done|done].
Qed.
End Outcomes.

(** ** What comes before an offer

    A connection to the upload port is an offer: the board may replace its slot. *)
Definition is_offer (call : sock_call) : bool := match call with Connect _ port _ => port =? 7421 | _ => false end.

(** At most one offer was made, after these parts of the run, in order. *)
Definition offered_after (X : list (@stage sock_call) -> Prop) (k : list sock_call) : Prop :=
  (count is_offer k <= 1)%nat /\
  forall n1 call n2, k = n1 ++ call :: n2 -> is_offer call = true -> exists l, X l /\ stages [] n1 l.

Section Quiet.
Context `{codec : !Json} (env : environment sock_ret).
Local Abbreviation quiet := (calls_only env (fun call => is_offer call = false)).

Lemma selected_hello_quiet version address device_id : quiet (selected_hello version address device_id).
Proof. unfold selected_hello, read_hello, with_connection, hello_exact, read_all, hello_turn. calls_tac; done. Qed.

Lemma command_quiet p op expected fields : quiet (command p op expected fields).
Proof. unfold command, request_frame, _exact, read_all, exact_turn. calls_tac; done. Qed.

Lemma open_probe_quiet address device_id board timeout version backend targets :
  quiet (open_probe address device_id board 7420 timeout version backend targets).
Proof.
  unfold open_probe, close. repeat (first [apply command_quiet | calls_step]; cbn beta iota); done.
Qed.

Lemma finish_quiet p : quiet (finish p).
Proof. unfold finish, close. calls_tac; done. Qed.

Lemma close_quiet : quiet close.
Proof. unfold close. calls_tac; done. Qed.

Lemma sketch_control_quiet p request expected : quiet (sketch_control p request expected).
Proof. unfold sketch_control, _exact, read_all, exact_turn. calls_tac; done. Qed.

Lemma echo_quiet randbytes fuel p byte_count slow_read seed read_delay : quiet (echo randbytes fuel p byte_count slow_read seed read_delay).
Proof. unfold echo, echo_transfer, echo_turn, echo_send, echo_receive, nonblocking. calls_tac; done. Qed.

Lemma wait_quiet instant : quiet (wait_until instant).
Proof. unfold wait_until. calls_tac; done. Qed.

Lemma offers_once address device_id capsule timeout answer :
  at_most env is_offer 1 (upload address device_id capsule timeout answer).
Proof.
  unfold upload, with_connection. apply (at_most_bind env is_offer 0 1); [apply at_most_none; calls_tac|]. intros header.
  apply (at_most_bind env is_offer 0 1); [apply at_most_none; calls_tac; done|]. intros now.
  apply (at_most_bind env is_offer 1 0).
  - apply (at_most_bind env is_offer 1 0); [apply (at_most_ask env is_offer (Connect address 7421 timeout))|]. intros u.
    apply at_most_none. unfold send_piece. calls_tac; done.
  - intros response. apply at_most_none. calls_tac.
Qed.
End Quiet.
Create HintDb quiet.
#[export] Hint Resolve selected_hello_quiet command_quiet open_probe_quiet finish_quiet close_quiet sketch_control_quiet
  echo_quiet wait_quiet : quiet.

Section Guarded.
Context `{codec : !Json} (env : environment sock_ret) `{!Socket env}.

(** Nothing has been offered yet, and these parts are done. *)
Definition unoffered (l : list stage) (_ : unit) (k : list sock_call) : Prop := count is_offer k = 0%nat /\ stages [] k l.

Lemma quiet_offered X k n : Forall (fun call => is_offer call = false) n -> offered_after X k -> offered_after X (k ++ n).
Proof.
  intros Hn [Hc Hk]. split; [rewrite count_app, (count_none _ n); by lia || done|]. intros n1 call n2 E Hcall.
  destruct (app_eq_inv _ _ _ _ E) as [(m & -> & E2)|(m & -> & E2)].
  - destruct m as [|c m].
    + simpl in E2. subst n. apply Forall_cons in Hn as [Hn _]. congruence.
    + injection E2 as <- E2. by apply (Hk n1 call m).
  - exfalso. rewrite E2 in Hn. apply Forall_app in Hn as [_ Hn]. apply Forall_cons in Hn as [Hn _]. congruence.
Qed.

(** What stays true while nothing is offered *)
Definition stable (I : list sock_call -> Prop) : Prop :=
  forall k n, Forall (fun call => is_offer call = false) n -> I k -> I (k ++ n).

Definition harmless {A} (m : board_tool A) : Prop := forall I, stable I -> keeps env [] (fun _ => I) m.

Lemma harmless_io {A} (m : sio A) I : stable I -> calls_only env (fun call => is_offer call = false) m ->
  keeps env [] (fun _ => I) (st_io (S := unit) m).
Proof. intros HI Hm. apply triple_io. intros s k r n Hk Hr. apply Hm in Hr. destruct r; by apply HI. Qed.

#[local] Hint Extern 1 (keeps _ _ _ (st_io _)) => apply harmless_io; [eassumption|auto with quiet] : keeps.

Lemma board_hello_harmless version address device_id : harmless (board_hello version address device_id).
Proof. intros I HI. unfold board_hello. keeps_tac. Qed.

Lemma serial_harmless op p : harmless (serial_request op p).
Proof. intros I HI. unfold serial_request. keeps_tac. Qed.

Lemma board_echo_harmless randbytes fuel p byte_count seed : harmless (board_echo randbytes fuel p byte_count seed).
Proof. intros I HI. unfold board_echo. keeps_tac. Qed.

Lemma clock_harmless : harmless (st_ask Monotonic).
Proof. intros I HI. keeps_tac. apply HI; [by repeat constructor|done]. Qed.

Lemma with_board_harmless {A} version address device_id timeout (body : probe -> board_tool A) :
  (forall p, harmless (body p)) -> harmless (with_board version address device_id timeout body).
Proof. intros Hb I HI. unfold with_board. keeps_tac. by apply Hb. Qed.

Lemma harmless_pure {A} (m : result A) : harmless (st_pure m).
Proof. intros I HI. apply keeps_pure. Qed.

Context (randbytes : Z -> Z -> bytes) (fuel : nat) (c : checkout) (version : string).

Lemma install_session_harmless sketch address device_id : harmless (install_session randbytes fuel version sketch address device_id).
Proof.
  apply with_board_harmless. intros p I HI. unfold installed_echo, board_echo, serial_request. keeps_tac.
Qed.

Lemma pause_trigger_harmless address device_id : harmless (pause_trigger version address device_id).
Proof.
  apply with_board_harmless. intros p I HI. unfold serial_request. keeps_tac. apply HI; [by repeat constructor|done].
Qed.

Lemma pause_check_harmless address device_id : harmless (pause_check randbytes fuel version address device_id).
Proof. apply with_board_harmless. intros p I HI. unfold serial_request, board_echo. keeps_tac. Qed.

Lemma stall_trigger_harmless address device_id : harmless (stall_trigger version address device_id).
Proof.
  apply with_board_harmless. intros p I HI. unfold serial_request. keeps_tac. apply HI; [by repeat constructor|done].
Qed.

(** A step before the offer *)
Lemma guarded_step {A B} (m : board_tool A) (f : A -> board_tool B) Q l X :
  staged env m Q -> harmless m ->
  (forall a l', Q a l' -> triple env [] (unoffered (l ++ l')) (f a) (fun _ _ => offered_after X) (fun _ _ => offered_after X)) ->
  triple env [] (unoffered l) (m ≫= f) (fun _ _ => offered_after X) (fun _ _ => offered_after X).
Proof.
  intros Hm Hq Hf. eapply triple_bind with (R := fun a _ k => exists l', Q a l' /\ unoffered (l ++ l') tt k).
  - intros [] k [Hc Hs]. pose proof (Hq (fun k => count is_offer k = 0%nat)) as H.
    assert (HI : stable (fun k => count is_offer k = 0%nat)).
    { intros k1 n Hn Hk. by rewrite count_app, (count_none _ n), Hk. }
    specialize (H HI tt k Hc). destruct (m env ([] ++ k) tt) as [[[] [a|e]] n] eqn:E.
    + destruct (Hm _ _ _ _ _ E) as (l' & HQ & Hl). exists l'. split; [done|]. split; [exact H|]. by apply stages_app.
    + split; [lia|]. intros n1 call n2 Ek Hcall. rewrite Ek, count_app in H. unfold count in H. cbn in H.
      rewrite Hcall in H. simpl in H. lia.
  - intros a. apply triple_from. intros [] k (l' & HQ & Hu). eapply triple_weaken; [apply (Hf a l' HQ)|..]; try done.
    by intros s k0 [-> ->].
Qed.

(** The offer, and what follows *)
Lemma guarded_offer {B} address device_id capsule timeout answer (f : bytes -> board_tool B) l X :
  X l -> (forall response, harmless (f response)) ->
  triple env [] (unoffered l) (st_io (upload address device_id capsule timeout answer) ≫= f)
    (fun _ _ => offered_after X) (fun _ _ => offered_after X).
Proof.
  intros HX Hf. eapply triple_bind with (R := fun _ _ => offered_after X).
  - apply triple_io. intros s k r n [Hc Hs] Hr%offers_once. assert (offered_after X (k ++ n)) as H.
    { split; [rewrite count_app; lia|]. intros n1 call n2 E Hcall.
      destruct (app_eq_inv _ _ _ _ E) as [(m & -> & E2)|(m & -> & E2)].
      - exists l. split; [done|].
        destruct m as [|c' m]; [by rewrite app_nil_r in Hs|]. injection E2 as <- _. rewrite !count_app in Hc.
        unfold count in Hc at 2. cbn in Hc. rewrite Hcall in Hc. simpl in Hc. lia.
      - exists l. split; [done|]. by apply stages_skip. }
    by destruct r.
  - intros response. apply Hf. intros k n Hn. by apply quiet_offered.
Qed.
End Guarded.

Section Offers.
Context `{codec : !Json} (randbytes : Z -> Z -> bytes) (fuel : nat) (c : checkout) (version : string).
Context (env : environment sock_ret) `{!Socket env}.

(** What an installation needs before its offer *)
Definition install_ready (a : install_args) (l : list stage) : Prop :=
  exists before capsule, in_install a = true /\
    recorded c (in_sketch a) (in_resident_sha a) (in_capsule_sha a) capsule /\
    selected_board version (lower (in_device_id a)) before /\ l = [hello_read env before].

(** What the probes need: a sketch that said it would be busy, or stuck *)
Definition pause_ready (a : pause_args) (l : list stage) : Prop :=
  let device_id := lower (pa_device_id a) in
  exists before p triggered blink_b, pa_run a = true /\ recorded c "blink_b" (pa_resident_sha a) (pa_blink_b_sha a) blink_b /\
    selected_board version device_id before /\
    l = [hello_read env before; board_opened env version device_id p; serial_done env "serial.open"; byte_exchanged env 0xf0 0xf1;
         clock_read env triggered; serial_done env "serial.close"].

Definition stall_ready (resolve : string -> result string) (executable : string -> bool) (a : stall_args) (l : list stage) : Prop :=
  let device_id := lower (sa_device_id a) in
  exists before during p triggered blink_b recovery image picotool,
    sa_run a = true /\ recorded c "blink_b" (sa_resident_sha a) (sa_blink_b_sha a) blink_b /\
    file c recovery = Ok image /\ sha image = lower (sa_recovery_sha a) /\
    checked_picotool resolve executable (sa_picotool a) = Ok picotool /\ same_boot_seen version device_id before during /\
    l = [hello_read env before; board_opened env version device_id p; serial_done env "serial.open"; byte_exchanged env 0xf6 0xf7;
         byte_exchanged env 0xf4 0xf5; clock_read env triggered; serial_done env "serial.close"; hello_read env during].

Ltac guarded_pure x H := eapply guarded_step; [apply staged_pure|apply harmless_pure|]; intros x ? [H ->].
Ltac guarded_by L K H := eapply guarded_step; [apply L; try exact _|apply K|]; intros ? ? [-> H].

Lemma install_main_guarded a :
  triple env [] (unoffered []) (install_main randbytes fuel c version a)
    (fun _ _ => offered_after (install_ready a)) (fun _ _ => offered_after (install_ready a)).
Proof.
  unfold install_main. guarded_pure address Ha. guarded_pure capsule Hc. apply built_capsule_Ok in Hc.
  guarded_by board_hello_staged board_hello_harmless Hb. guarded_pure u Hi. apply raise_when_Ok, negb_false_iff in Hi.
  apply guarded_offer; [by eexists _, capsule|]. intros response I HI.
  apply keeps_bind; [by apply board_hello_harmless|]. intros after. apply keeps_bind; [apply keeps_pure|]. intros _.
  apply keeps_bind; [by apply install_session_harmless|]. intros x. keeps_tac.
Qed.

Lemma pause_main_guarded a :
  triple env [] (unoffered []) (pause_main randbytes fuel c version a)
    (fun _ _ => offered_after (pause_ready a)) (fun _ _ => offered_after (pause_ready a)).
Proof.
  unfold pause_main. guarded_pure address Ha. unfold check_pause_args in Ha.
  apply bind_Ok in Ha as (octets & _ & Ha). apply bind_unit in Ha as [_ Ha]. apply bind_unit in Ha as [_ Ha].
  apply raise_when_bind in Ha as [Hrun%negb_false_iff _].
  guarded_pure pause Hp. guarded_pure blink_b Hc. apply built_capsule_Ok in Hc.
  guarded_by board_hello_staged board_hello_harmless Hb.
  eapply guarded_step; [apply pause_trigger_staged; exact _|apply pause_trigger_harmless|]. intros triggered l1 [p ->].
  apply guarded_offer; [by eexists _, p, triggered, blink_b|]. intros response I HI.
  apply keeps_bind; [by apply clock_harmless|]. intros refused. apply keeps_bind; [apply keeps_pure|]. intros _.
  apply keeps_bind; [apply harmless_io; auto with quiet|]. intros _. apply keeps_bind; [by apply pause_check_harmless|]. intros x.
  apply keeps_bind; [by apply board_hello_harmless|]. intros after. keeps_tac.
Qed.

Lemma stall_main_guarded resolve executable a :
  triple env [] (unoffered []) (stall_main c version resolve executable a)
    (fun _ _ => offered_after (stall_ready resolve executable a)) (fun _ _ => offered_after (stall_ready resolve executable a)).
Proof.
  unfold stall_main. guarded_pure address Ha. unfold check_stall_args in Ha.
  apply bind_Ok in Ha as (octets & _ & Ha). apply bind_unit in Ha as [_ Ha]. apply bind_unit in Ha as [_ Ha].
  apply raise_when_bind in Ha as [Hrun%negb_false_iff _].
  guarded_pure stall Hp. guarded_pure blink_b Hc. apply built_capsule_Ok in Hc.
  guarded_pure recovery Hi. apply checked_recovery_image_Ok in Hi as (image & Hi & Hsha). guarded_pure picotool Ht.
  guarded_by board_hello_staged board_hello_harmless Hb.
  eapply guarded_step; [apply stall_trigger_staged; exact _|apply stall_trigger_harmless|]. intros triggered l1 [p ->].
  guarded_by board_hello_staged board_hello_harmless Hd. guarded_pure u Hs. eapply same_boot_hello_Ok in Hs; [|exact Hb|exact Hd].
  apply guarded_offer; [by eexists _, _, p, triggered, blink_b, recovery, image, picotool|]. intros response I HI.
  apply keeps_bind; [by apply clock_harmless|]. intros refused. apply keeps_bind; [by apply board_hello_harmless|]. intros after. keeps_tac.
Qed.
End Offers.

(** ** Properties *)

(** C39: The upload port is opened at most once, and only for a reviewed capsule. Whatever happens, when one of the three tools
    connects to the upload port of a board, the operator asked for it, the capsule on disk is the one of the recorded build
    with the selected digest, and the selected board with this resident had identified itself; the pause probe had heard its
    sketch announce the pause, and the stall probe its sketch announce the stall, a hello of the same boot after it, and a
    recovery image with the selected digest and the pinned tool were at hand. *)
Theorem offers_guarded `{codec : !Json} randbytes fuel c version (env : environment sock_ret) `{!Socket env} :
  (forall a, offered_after (install_ready c version env a) (install_main randbytes fuel c version a env [] tt).2) /\
  (forall a, offered_after (pause_ready c version env a) (pause_main randbytes fuel c version a env [] tt).2) /\
  (forall resolve executable a,
    offered_after (stall_ready c version env resolve executable a) (stall_main c version resolve executable a env [] tt).2).
Proof.
  assert (H0 : unoffered [] tt []) by (split; [done|apply stages_none]). split_and!; intros.
  - pose proof (install_main_guarded randbytes fuel c version env a tt [] H0) as H. by destruct (install_main _ _ _ _ _ _ _ _) as [[? []] ?].
  - pose proof (pause_main_guarded randbytes fuel c version env a tt [] H0) as H. by destruct (pause_main _ _ _ _ _ _ _ _) as [[? []] ?].
  - pose proof (stall_main_guarded c version env resolve executable a tt [] H0) as H. by destruct (stall_main _ _ _ _ _ _ _ _) as [[? []] ?].
Qed.

(** C40: What the three tools report is what the board did, in order. An installation that returns sent exactly the capsule and
    was told that it is installed, met the board before and after in one boot, and exchanged the check bytes with its sketch.
    A pause probe that returns was refused, on the clock less than 4.5 seconds after the sketch announced its pause, and the
    sketch answered and echoed 5.3 seconds after that, in the same boot. A stall probe that returns was refused in the boot
    that had said hello before and after the sketch announced its stall. *)
Theorem reported_as_done `{codec : !Json} randbytes fuel c version (env : environment sock_ret) `{!Socket env} :
  (forall a x n, install_main randbytes fuel c version a env [] tt = (tt, Ok x, n) ->
    exists l, install_seen randbytes c version env a x l /\ stages [] n l) /\
  (forall a x n, pause_main randbytes fuel c version a env [] tt = (tt, Ok x, n) ->
    exists l, pause_seen c version env a x l /\ stages [] n l) /\
  (forall resolve executable a x n, stall_main c version resolve executable a env [] tt = (tt, Ok x, n) ->
    exists l, stall_seen c version env resolve executable a x l /\ stages [] n l).
Proof.
  split_and!; intros *; intros H.
  - by apply install_main_staged in H.
  - by apply pause_main_staged in H.
  - by apply stall_main_staged in H.
Qed.

(** ** A board whose sketch pauses *)
Module PauseDemo.
Definition hello : dict json :=
  [("device_id", JStr "503533303030abcd"); ("board_id", JStr "nano_rp2040_connect");
   ("firmware_version", JStr "0.1.0-m7exp3"); ("protocol_major", JInt 1); ("boot_id", JStr "0123456789abcdef");
   ("max_payload", JInt 4096); ("auth_mode", JStr "open-development"); ("targets", JArr []);
   ("channels", JArr [JObj [("id", JInt 1); ("backend", JStr "application"); ("controls", JArr [])]])].

Definition demo_module_report (sketch : string) : dict json :=
  [("board", JStr "nano_rp2040_connect"); ("sketch", JStr sketch);
   ("status", JStr "compile-tested module only; no resident or hardware proof");
   ("resident_elf_sha256", JStr recorded_sha); ("capsule_sha256", JStr recorded_capsule_sha)].

Definition ok (value : dict json) : result json := Ok (JObj [("ok", JBool true); ("result", JObj value)]).

#[local] Instance codec : Json := {
  json_loads b :=
    if bool_decide (b = ascii "resident") then Ok (JObj [
      ("board", JStr "nano_rp2040_connect"); ("status", JStr "compile-tested experimental resident; not flashed");
      ("uf2_sha256", JStr recorded_sha); ("elf_sha256", JStr recorded_sha)])
    else if bool_decide (b = ascii "pause_probe") then Ok (JObj (demo_module_report "pause_probe"))
    else if bool_decide (b = ascii "blink_b") then Ok (JObj (demo_module_report "blink_b"))
    else if bool_decide (b = ascii "hello") then ok hello
    else ok [];
  json_dumps d := match dget d "op" with Some (JStr op) => ascii op | _ => [] end }.

Definition built : checkout := {|
  file path := Ok (if bool_decide (path = "build/managed_sketch/resident/report.json") then ascii "resident"
                   else if bool_decide (path = "build/managed_sketch/pause_probe/report.json") then ascii "pause_probe"
                   else if bool_decide (path = "build/managed_sketch/blink_b/report.json") then ascii "blink_b"
                   else if bool_decide (path ∈ ["build/managed_sketch/pause_probe/pause_probe.fms"; "build/managed_sketch/blink_b/blink_b.fms"])
                   then recorded_capsule else ascii "image");
  in_tree _ := true |}.

Definition respond (request : bytes) (s : string) : bytes :=
  header_bytes 2 (be_val (slice 8 12 request)) (blen (ascii s)) ++ ascii s.

(** The last connection is to the upload port. *)
Definition uploading (before : list sock_call) : bool :=
  match last (List.filter (fun call => match call with Connect _ _ _ => true | _ => false end) before) with
  | Some call => is_offer call
  | None => false
  end.

Definition reply (before : list sock_call) (d : bytes) : bytes :=
  if uploading before then if bool_decide (drop (length d - 4) d = ascii "GO!!") then ascii "T" else []
  else if bool_decide (slice 0 6 d = ascii "FMGO" ++ [Byte.x01; Byte.x01]) then
    let op := drop 16 d in
    respond d (if bool_decide (op ∈ [hello_payload; ascii "hello"]) then "hello" else "done")
  else if bool_decide (d = data_frame [z2b 0xf0]) then data_frame [z2b 0xf1]
  else if bool_decide (d = data_frame [z2b 0xf2]) then data_frame [z2b 0xf3]
  else d.

Definition board : environment sock_ret := talk_env true [] reply.

Definition arguments : pause_args := {|
  pa_address := "192.168.7.1"; pa_device_id := "503533303030ABCD"; pa_resident_sha := recorded_sha;
  pa_pause_sha := recorded_capsule_sha; pa_blink_b_sha := recorded_capsule_sha; pa_run := true |}.

Abbreviation run := (pause_main (fun _ _ => []) 200 built "0.1.0" arguments board [] tt).
Definition returned := Eval vm_compute in run.1.2.

Lemma run_returned : run.1.2 = returned.
Proof. vm_cast_no_check (eq_refl returned). Qed.
End PauseDemo.
#[local] Existing Instance PauseDemo.codec.

(** The run that is refused makes one offer, after the sketch announced its pause. *)
Lemma offers_guarded_witness : Socket PauseDemo.board /\ (exists x, PauseDemo.run.1.2 = Ok x) /\
  offered_after (pause_ready PauseDemo.built "0.1.0" PauseDemo.board PauseDemo.arguments) PauseDemo.run.2.
Proof.
  split; [exact (talk_socket true [] PauseDemo.reply)|]. split; [rewrite PauseDemo.run_returned; by eexists|].
  exact (proj1 (proj2 (offers_guarded (fun _ _ => []) 200 PauseDemo.built "0.1.0" PauseDemo.board)) PauseDemo.arguments).
Defined.

Lemma reported_as_done_witness : exists x n l,
  PauseDemo.run = (tt, Ok x, n) /\ pause_seen PauseDemo.built "0.1.0" PauseDemo.board PauseDemo.arguments x l /\ stages [] n l.
Proof.
  pose proof PauseDemo.run_returned as H. destruct PauseDemo.run as [[[] r] n] eqn:E. cbn in H. subst r.
  eexists _, n. destruct (proj1 (proj2 (reported_as_done (fun _ _ => []) 200 PauseDemo.built "0.1.0" PauseDemo.board))
    PauseDemo.arguments _ n E) as (l & Hl & Hs).
  exists l. exact (conj eq_refl (conj Hl Hs)).
Defined.
