(* ===== verification/UploadCommand.v ===== *)
(** * The command of the staged upload: experiments/managed_sketch/fmgo_upload.py, [main]

    The two actions over the sessions of FmgoUpload: a transfer of a reviewed capsule, and the status of a retained
    transaction. The parsed arguments are records; what the command prints is what it returns. *)

From stdpp Require Import base tactics list list_numbers strings.
From Stdlib Require Import ZArith Lia.
From S2P Require Import Prelude.
From S2P Require Import PyBytes.
From S2P Require Import Sha256.
From S2P Require Import PyText.
From S2P Require Import PyDict.
From S2P Require Import PyJson.
From S2P Require Import Effects.
From S2P Require Import Sockets.
From S2P Require Import Upload.
From S2P Require Import InstallProbes.
From S2P Require Import FmgoUpload.

Local Open Scope Z_scope.

Record send_args := {
  sn_sketch : string; sn_resident_dir : string; sn_module_dir : string; sn_resident_sha : string; sn_capsule_sha : string;
  sn_install : bool }.
Record status_args := { sq_upload_id : Z; sq_boot_id : string }.
Inductive action := Send (a : send_args) | Status (a : status_args).
Inductive upload_outcome := Sent (x : transfer_result) | Retained (status : dict json).

Section Command.
Context `{codec : !Json} (c : checkout) (fuel : nat).

Definition reviewed_capsule (a : send_args) : result bytes :=
  for_each check_sha_argument [sn_resident_sha a; sn_capsule_sha a];;
  verified_capsule c (sn_resident_dir a) (sn_module_dir a +:+ "/" +:+ sn_sketch a) (sn_sketch a)
    (lower (sn_resident_sha a)) (lower (sn_capsule_sha a)).

(** [if args.install and result["transaction"]["state"] != "boot_confirmed": raise SystemExit(...)] *)
Definition check_installed (install : bool) (x : transfer_result) : result unit :=
  if install then
    state ← ditem (transaction x) "state";
    raise_when (negb (py_eq state (JStr "boot_confirmed"))) (Exn KSystemExit "Installation/run is not confirmed")
  else mret tt.

Definition send_command (a : send_args) : pio upload_outcome :=
  capsule ← io_pure (reviewed_capsule a);
  x ← transfer fuel capsule (sn_install a);
  io_pure (check_installed (sn_install a) x);;
  mret (Sent x).

Definition status_command (a : status_args) : pio upload_outcome :=
  io_when (negb ((1 <=? sq_upload_id a) && (sq_upload_id a <=? 0xffffffff)) || negb (fullmatch is_hex_lower 16 (sq_boot_id a)))
    (usage "--upload-id must be a nonzero u32 and --boot-id 16 lowercase hex digits");;
  with_probe (fun hello =>
    boot ← io_pure (ditem hello "boot_id");
    io_when (negb (py_eq boot (JStr (sq_boot_id a))))
      (RuntimeError "boot changed; retained RAM upload status cannot establish prior install outcome");;
    value ← ask (Command "flash.status" (status_fields (sq_upload_id a)));
    ask Finish;;
    mret (Retained value)).

Definition upload_command (device_id : string) (a : action) : pio upload_outcome :=
  io_when (negb (fullmatch is_hex 16 device_id)) (usage "--device-id must be 16 hex digits");;
  match a with Send a => send_command a | Status a => status_command a end.
End Command.

(** ** What the command commits *)
Section Committed.
Context `{codec : !Json} (c : checkout) (fuel : nat) (env : environment probe_ret).

Lemma status_command_calls a : calls_only env status_only (status_command a).
Proof. unfold status_command, with_probe. calls_tac; done. Qed.

Lemma transfer_commits capsule (install : bool) h r n : runs env h (transfer fuel capsule install) r n ->
  (count is_commit n <= if install then 1 else 0)%nat.
Proof.
  intros [Hn|(hello & r1 & n1 & n2 & _ & H & -> & Hn)]%transfer_runs; [rewrite count_none by done; lia|].
  apply session_commits in H. change (Open :: n1 ++ n2) with ([Open] ++ n1 ++ n2).
  rewrite !count_app, (count_none is_commit n2), (count_none is_commit [Open]) by (done || by repeat constructor). lia.
Qed.

Lemma send_command_runs a h r n : runs env h (send_command c fuel a) r n ->
  (n = [] /\ exists e, r = Raise e) \/ exists capsule q, reviewed_capsule c a = Ok capsule /\ runs env h (transfer fuel capsule (sn_install a)) q n /\
    (forall x, r = Ok x -> exists y, x = Sent y /\ q = Ok y /\ check_installed (sn_install a) y = Ok tt).
Proof.
  unfold send_command. intros [(e & [_ ->]%runs_pure & ->)|(capsule & n1 & n2 & [Hc ->]%runs_pure & H & ->)]%runs_bind;
    [left; by eauto|].
  right. exists capsule. rewrite app_nil_r in H. cbn [app].
  apply runs_bind in H as [(e & H & ->)|(y & n3 & n4 & H & H2 & ->)]; [by exists (Raise e)|].
  exists (Ok y). split; [done|]. apply runs_bind in H2 as [(e & [_ ->]%runs_pure & ->)|([] & n5 & n6 & [Hi ->]%runs_pure & H2 & ->)].
  - by rewrite app_nil_r.
  - apply runs_ret in H2 as [-> ->]. rewrite app_nil_r. split; [done|]. intros x [= <-]. by exists y.
Qed.
End Committed.

(** The command commits only when it is told to install, once, and only a capsule of the recorded build with the selected
    digests; the status action never changes a transaction. A transfer that returns carried that capsule; when it was to
    install, the board confirmed that it booted, and otherwise the stage is gone and the slot untouched. *)
Theorem command_commits_reviewed `{codec : !Json} c fuel device_id a (env : environment probe_ret) h r n :
  runs env h (upload_command c fuel device_id a) r n ->
  match a with
  | Send a =>
      (count is_commit n <= if sn_install a then 1 else 0)%nat /\
      (forall x, r = Ok x -> exists y capsule id, x = Sent y /\
        bound_capsule c (sn_resident_dir a) (sn_module_dir a +:+ "/" +:+ sn_sketch a) (sn_sketch a) (lower (sn_resident_sha a))
          (lower (sn_capsule_sha a)) capsule /\
        selected_status (transaction y) id (sha capsule) (blen capsule) /\
        if sn_install a then jget (transaction y) "state" = JStr "boot_confirmed"
        else jget (transaction y) "state" = JStr "aborted" /\ jget (transaction y) "slot_touched" = JBool false)
  | Status _ => Forall status_only n
  end.
Proof.
  unfold upload_command. intros [(e & [_ ->]%runs_pure & ->)|([] & n1 & n2 & [_ ->]%runs_pure & H & ->)]%runs_bind.
  { destruct a as [a|a]; [|constructor]. split; [destruct (sn_install a); unfold count; simpl; lia|done]. }
  cbn [app]. destruct a as [a|a]; [|by eapply status_command_calls].
  apply send_command_runs in H as [(-> & e & ->)|(capsule & q & Hc & H & Hx)].
  { split; [destruct (sn_install a); unfold count; simpl; lia|done]. }
  split; [by apply transfer_commits in H|]. intros x (y & -> & -> & Hi)%Hx. unfold reviewed_capsule in Hc.
  apply bind_unit in Hc as [_ Hc%verified_capsule_Ok]. apply transfer_Ok in H as (id & _ & Hs & Ha).
  exists y, capsule, id. split_and!; [done..|]. unfold check_installed in Hi. destruct (sn_install a); [|by apply Ha].
  apply bind_Ok in Hi as (state & Hd%some_or_Ok & Hi%raise_when_Ok%negb_false_iff%py_eq_str).
  unfold jget. by rewrite Hd, Hi.
Qed.
