(* ===== verification/VerifyStream.v ===== *)
(** * The stream verifier of the prototype: examples/rp2040_usb_ncm_poc/verify_stream.py

    One hundred records from the record source, each read with the timeout of the connection and compared with
    assertions. tools/smoke.py replaced it; both accept the same records. A [ConnectionError] is its class [OSError]. *)

From stdpp Require Import base tactics list list_numbers strings.
From Stdlib Require Import ZArith Lia.
From S2P Require Import Prelude.
From S2P Require Import PyBytes.
From S2P Require Import PyText.
From S2P Require Import Effects.
From S2P Require Import Sockets.
From S2P Require Import Smoke.

Local Open Scope Z_scope.

Definition stream_turn (size : Z) (data : bytes) : sio bytes :=
  chunk ← ask (Recv (size - blen data));
  io_when (bool_decide (chunk = [])) (OSError "stream ended");;
  mret (data ++ chunk).

(** [receive_exact] *)
Definition stream_exact (size : Z) : sio bytes := read_all (stream_turn size) size.

(** The assertions on one record; the uptime is printed. *)
Definition check_record (record : bytes) (expected_sequence : Z) : result Z :=
  ' (magic, (sequence, (device_ms, (payload_size, (flags, _))))) ← unpack_exact LE record_fields (slice 0 16 record);
  raise_when (negb (bool_decide (magic = ascii "PICO"))) (AssertionError "");;
  raise_when (negb (sequence =? expected_sequence)) (AssertionError "");;
  raise_when (negb (payload_size =? 256)) (AssertionError "");;
  raise_when (negb (flags =? 0)) (AssertionError "");;
  raise_when (negb (bool_decide (drop 16 record = record_pattern sequence))) (AssertionError "bad payload in record");;
  mret device_ms.

Definition stream_seconds : Z := 5000000000.

Definition verify_stream (host : string) : sio unit :=
  with_connection host 5000 stream_seconds
    (_ ← ask (SetTimeout stream_seconds);
     io_fold (fun _ expected_sequence =>
       record ← stream_exact 272;
       _ ← io_pure (check_record record expected_sequence);
       mret tt) tt (range 0 100 1)).

(** ** The two verifiers agree *)
Lemma is_ok_true {A} (m : result A) : is_ok m = true -> exists x, m = Ok x.
Proof. destruct m as [x|]; [by exists x|done]. Qed.

Lemma check_record_iff record sequence : blen record = 272 -> 0 <= sequence < 2 ^ 32 ->
  is_ok (check_record record sequence) = true <-> verify_record record sequence = Ok tt.
Proof.
  intros Hl Hs. unfold check_record, verify_record. rewrite raise_when_bind, negb_false_iff, Z.eqb_eq.
  assert (Hland : Z.land sequence 0xffffffff = sequence).
  { change 0xffffffff with (Z.ones 32). rewrite Z.land_ones by lia. by apply Z.mod_small. }
  destruct (unpack_exact LE record_fields (slice 0 16 record)) as [(magic & observed & uptime & size & flags & [])|e];
    [|cbn; split; [done|intros [_ Hx]; discriminate Hx]].
  cbn [mbind result_bind]. rewrite raise_when_bind, negb_false_iff, bool_decide_eq_true, compare_bytes_iff, Hland.
  split.
  - intros [x E]%is_ok_true. rewrite !raise_when_bind, !negb_false_iff in E.
    destruct E as (Hm & Hq & Hz & Hf & Hp & _). breflect. subst. done.
  - intros (_ & [= -> -> -> ->] & Hp). rewrite Hp, !bool_decide_true, (Z.eqb_refl sequence) by done. done.
Qed.

Lemma stream_turn_ends env size data `{!Socket env} : fails_with env (fun e => e <> OutOfFuel) (stream_turn size data).
Proof. unfold stream_turn. ends_tac. Qed.

#[export] Instance stream_reads env size `{!Socket env} : Reads env size (stream_turn size).
Proof.
  constructor; [|intros; by apply stream_turn_ends].
  intros data h data' n Hlt H. unfold stream_turn in H. repeat runs_step. simplify_eq.
  eapply (chunk_after env h []); calls_norm; try done.
Qed.

Lemma stream_loop env `{!Socket env} l h u n : Forall (fun s => 0 <= s < 2 ^ 32) l ->
  runs env h (io_fold (fun _ expected_sequence =>
    record ← stream_exact 272; _ ← io_pure (check_record record expected_sequence); mret tt) tt l) (Ok u) n ->
  exists uptimes, length uptimes = length l /\ Forall u32_value uptimes /\
    received env h n = concat (zip_with pico_record l uptimes) /\ sent env h n = [].
Proof.
  intros Hall. revert h n. induction Hall as [|x l Hx Hall IH]; intros h n; cbn [io_fold].
  - intros H. runs_step. exists []. split_and!; [done|constructor|done|done].
  - intros ([] & n1 & n2 & H1 & H2 & ->)%runs_bind_Ok. apply IH in H2 as (ups & Hl & Hu & Hr & Hs).
    apply runs_bind_Ok in H1 as (record & m1 & m2 & H1 & H3 & ->).
    apply (read_all_spec env 272 (stream_turn 272)) in H1 as [_ H1]; [|lia]. destruct (H1 _ eq_refl) as (-> & Hlen & Hs1).
    apply runs_bind_Ok in H3 as (ms & k1 & k2 & [Hc ->]%runs_pure & [_ ->]%runs_ret & ->).
    assert (verify_record (received env h m1) x = Ok tt) as (up & Hup & Hrec)%verify_record_iff.
    { apply check_record_iff; [done|done|]. by rewrite <- Hc. }
    rewrite !app_nil_r in *. exists (up :: ups). rewrite received_app, sent_app, Hr, Hs, Hs1, Hrec. simpl.
    split_and!; [by rewrite Hl|by constructor|done|done].
Qed.

(** A stream that is verified was exactly the first hundred records of the source, and nothing was sent. *)
Theorem verified_stream_exact env host h u n `{!Socket env} : runs env h (verify_stream host) (Ok u) n ->
  sent env h n = [] /\ exists uptimes, length uptimes = 100%nat /\ Forall u32_value uptimes /\
    received env h n = concat (zip_with pico_record (range 0 100 1) uptimes).
Proof.
  unfold verify_stream. intros (k & -> & H)%with_connection_Ok.
  apply runs_bind_Ok in H as (v & k1 & k2 & H1 & H & ->). apply (runs_ask env _ (SetTimeout _)) in H1 as [_ ->].
  apply stream_loop in H as (ups & Hl & Hu & Hr & Hs); [|done|].
  2:{ by apply (bool_decide_unpack _). }
  destruct (streams_between env h [Connect host 5000 stream_seconds; SetTimeout stream_seconds] k2 [CloseSocket]) as [E1 E2];
    [by repeat constructor..|]. calls_norm. rewrite E1, E2, Hs, Hr. split; [done|]. by exists ups.
Qed.
