(* ===== verification/SdkContract.v ===== *)
(** * The SDK bundle: experiments/managed_sketch/export_sdk_contract.py

    The protocol and ABI documents and the protocol fixtures, with a manifest of their sizes and digests, in one archive
    that never replaces an existing file. The archive format is the parameter [archive]; paths are relative to the
    repository, and [main] turns an [OSError] into the failure of the command. *)

From stdpp Require Import base tactics list list_numbers strings gmap sorting.
From Stdlib Require Import ZArith Lia.
From S2P Require Import Prelude.
From S2P Require Import PyBytes.
From S2P Require Import Sha256.
From S2P Require Import PyText.
From S2P Require Import PyStr.
From S2P Require Import PyDict.
From S2P Require Import PyJson.
From S2P Require Import Effects.
From S2P Require Import Stateful.
From S2P Require Import Release.
From S2P Require Import Shell.
From S2P Require Import ResidentBuild.
From S2P Require Import CheckpointProof.

Local Open Scope Z_scope.

Definition contract_documents : list string :=
  ["docs/protocol.md"; "docs/integration/managed-sketch-sdk.md"; "experiments/managed_sketch/abi.h";
   "experiments/managed_sketch/image.h"].
Definition contract_fixtures : string := "tests/fixtures/protocol-v1".

(** The keys of an object in Python's order of strings *)
Definition name_le (a b : string * bytes) : Prop := String.leb a.1 b.1 = true.
#[export] Instance name_le_dec : RelDecision name_le.
Proof. intros a b. unfold name_le. apply _. Defined.

Record contract_result := { ex_files : Z; ex_bytes : Z; ex_sha256 : string }.

Section Contract.
Context `{packing : !Packing} (archive : list (string * bytes) -> bytes).

Definition contract_paths (f : files) : list string :=
  merge_sort path_order (contract_documents ++ merge_sort path_order (walk f contract_fixtures)).

(** [contract_files(root)] *)
Definition contract_files (f : files) : result (list (string * bytes)) :=
  mapM (fun path => data ← read f path; mret (path, data)) (contract_paths f).

Definition contract_entry (data : bytes) : json := JObj [("bytes", JInt (blen data)); ("sha256", JStr (sha data))].

Definition contract_manifest (l : list (string * bytes)) : dict json :=
  [("bundle_schema", JInt 1); ("status", JStr "experimental SDK contract and test vectors; no firmware images");
   ("protocol_major", JInt 1); ("reference_resident_version", JStr "0.1.0-m9exp1"); ("fixtures_are_executable", JBool false);
   ("files", JObj (prod_map id contract_entry <$> l))].

(** The members of the archive, by name *)
Definition contract_members (l : list (string * bytes)) : list (string * bytes) :=
  merge_sort name_le (l ++ [("manifest.json", json_pretty (contract_manifest l))]).

(** [export_contract(output)] *)
Definition export_contract (output : string) : sh contract_result :=
  f ← files_now;
  l ← st_pure (contract_files f);
  let data := archive (contract_members l) in
  create_file output data;;
  mret {| ex_files := Z.of_nat (length (contract_members l)); ex_bytes := blen data; ex_sha256 := sha data |}.

(** [main]: an [OSError] is reported, and the command fails. *)
Definition contract_main (output : string) : sh contract_result :=
  st_try (export_contract output) (is_a KOSError) (fun e => st_raise (Exn KSystemExit "1")).

End Contract.

(** ** What a bundle holds *)
Lemma contract_paths_spec f path : path ∈ contract_paths f <->
  path ∈ contract_documents \/ under contract_fixtures path = true /\ is_Some (f !! path).
Proof. unfold contract_paths. by rewrite merge_sort_Permutation, elem_of_app, merge_sort_Permutation, walk_spec. Qed.

Lemma contract_files_read f l : contract_files f = Ok l ->
  l.*1 = contract_paths f /\ Forall (fun kv => f !! kv.1 = Some kv.2) l.
Proof.
  unfold contract_files. intros H%mapM_Ok. induction H as [|path [name data] paths l Hx _ [IH1 IH2]]; [by split|].
  apply bind_Ok in Hx as (d & Hd%some_or_Ok & [= <- <-]). split; [by rewrite fmap_cons, IH1|by constructor].
Qed.

Lemma contract_members_spec `{packing : !Packing} l name data : (name, data) ∈ contract_members l <->
  (name, data) ∈ l \/ name = "manifest.json" /\ data = json_pretty (contract_manifest l).
Proof.
  unfold contract_members. rewrite merge_sort_Permutation, elem_of_app, list_elem_of_singleton. naive_solver.
Qed.

(** A bundle that is exported is a new file, and the only change. It holds the four documents and every fixture with their
    bytes, and a manifest that names each of them with its size and digest; a refused export leaves every file alone. *)
Theorem contract_exported `{packing : !Packing} archive output (env : environment shell_ret) s :
  let '(s', r, _) := contract_main archive output env [] s in
  match r with
  | Ok x => exists l, contract_files (sh_files s) = Ok l /\ there s output = false /\
      sh_files s' = <[output := archive (contract_members l)]> (sh_files s) /\
      ex_bytes x = blen (archive (contract_members l)) /\ ex_sha256 x = sha (archive (contract_members l)) /\
      (forall name data, (name, data) ∈ contract_members l <->
        (name ∈ contract_documents \/ under contract_fixtures name = true) /\ sh_files s !! name = Some data \/
        name = "manifest.json" /\ data = json_pretty (contract_manifest l))
  | Raise e => sh_files s' = sh_files s
  end.
Proof.
  unfold contract_main, export_contract, create_file, files_now, write_file, op, st_try, st_ask, st_io, ask, st_get, st_modify, st_pure, st_raise.
  unfold mbind, st_mbind, st_bind, mret, st_ret. cbn -[is_a contract_files contract_members there raise_when].
  destruct (contract_files (sh_files s)) as [l|e] eqn:Hl; [|by destruct (is_a KOSError e)].
  destruct (there s output) eqn:Ht; [by cbn|]. cbn -[is_a contract_members].
  destruct (env [] (Op "write" output)) as [[]|e]; [|by destruct (is_a KOSError e)].
  exists l. split_and!; [done..|]. intros name data. destruct (contract_files_read _ _ Hl) as [Hn Hf].
  rewrite contract_members_spec. rewrite Forall_forall in Hf. split.
  - intros [Hin|Hin]; [left|by right]. split; [|by apply (Hf _ Hin)].
    assert (name ∈ l.*1) as H by (apply list_elem_of_fmap; by exists (name, data)). rewrite Hn in H.
    apply contract_paths_spec in H as [H|[H _]]; auto.
  - intros [[Hname Hd]|Hin]; [left|by right]. assert (name ∈ l.*1) as ([name' data'] & -> & Hin)%list_elem_of_fmap.
    { rewrite Hn. apply contract_paths_spec. destruct Hname as [H|H]; [by left|right]. split; [done|by exists data]. }
    pose proof (Hf _ Hin) as H. cbn in *. congruence.
Qed.
