(* ===== verification/Coexistence.v ===== *)
(** * The earlier evidence scripts: docs/evidence/application-*-check.py

    Six scripts whose transfer runs beside a fetch, in two forms - the boards with diagnostics of their backend, and the two
    residents before them - and the isolated check of v4. They share the frame, the transfer and the fetch of Overlap. *)

From stdpp Require Import base tactics list list_numbers strings.
From Stdlib Require Import ZArith Lia.
From S2P Require Import Prelude.
From S2P Require Import PyBytes.
From S2P Require Import PyText.
From S2P Require Import PyDict.
From S2P Require Import PyJson.
From S2P Require Import Effects.
From S2P Require Import Stateful.
From S2P Require Import Sockets.
From S2P Require Import SessionSmoke.
From S2P Require Import Soak.
From S2P Require Import Overlap.

Local Open Scope Z_scope.

(** ** What the scripts differ in *)
Definition coexistence_release (firmware_sha256 boot_id query output : string) : overlap_release := {|
  or_firmware_sha256 := firmware_sha256; or_boot_id := boot_id; or_purpose := ""; or_query := query; or_output := output;
  or_not_started := "transfer did not start" |}.

Section Coexistence.
Context `{codec : !Json} (randbytes : Z -> Z -> bytes) (fuel : nat) (version : string) (c : overlap_release).

(** The first report; the numbered attempts say which they are, and why. *)
Definition first_coexistence_report (extra : dict json) (started_utc : string) : dict entry :=
  [("firmware_sha256", Plain (JStr (or_firmware_sha256 c))); ("board", Plain (JStr board)); ("device_id", Plain (JStr device_id));
   ("address", Plain (JStr address)); ("started_utc", Plain (JStr started_utc)); ("status", Plain (JStr "failed"))]
  ++ ((fun kv => (kv.1, Plain kv.2)) <$> extra).

Definition check_boot (p : probe) : result unit :=
  boot ← ditem (p_hello p) "boot_id";
  raise_when (negb (py_eq boot (JStr (or_boot_id c)))) (RuntimeError "unexpected boot ID after soak").

(** [report["backend_status"] = peer.command(...)] and its comparison *)
Definition expect_backend (p : probe) : ov probe :=
  ' (status, p) ← peer_command p "serial.status" channel_one;
  note "backend_status" (Plain (JObj status));;
  st_pure (raise_when (negb (py_eq (JObj status) (JObj expected_backend))) (RuntimeError "backend status mismatch"));;
  mret p.

(** The final diagnostics, with nothing left over *)
Definition expect_idle (p : probe) (before : dict json) : ov probe :=
  ' (after, p) ← peer_diagnostics p before;
  note "final_diagnostics" (Plain (JObj after));;
  st_pure (for_each (check_idle after) idle_fields);;
  mret p.

(** The session of the backend scripts *)
Definition backend_session (p : probe) : ov unit :=
  note "hello" (Plain (JObj (p_hello p)));;
  st_pure (check_boot p);;
  ' (before, p) ← peer_diagnostics p [];
  note "initial_diagnostics" (Plain (JObj before));;
  ' (_, p) ← peer_command p "serial.open" channel_one;
  ' (t, f) ← overlapped randbytes fuel c p;
  note "internet_contained_in_transfer" (Plain (JBool (contained t f)));;
  _ ← st_pure (check_transfer t);
  p ← expect_backend p;
  p ← expect_idle p before;
  st_pure (check_fetch t f);;
  ' (_, p) ← peer_command p "serial.close" channel_one;
  finish_passed p.

(** [status["backend_rx_bytes"] != 65536 or status["backend_tx_bytes"] != 65536] *)
Definition check_counters (status : dict json) : result unit :=
  let mismatch := RuntimeError "backend counters mismatch" in
  received ← ditem status "backend_rx_bytes";
  raise_when (negb (py_eq received (JInt 65536))) mismatch;;
  sent ← ditem status "backend_tx_bytes";
  raise_when (negb (py_eq sent (JInt 65536))) mismatch.

(** The transfer beside the fetch, and the counters, in the scripts before *)
Definition counted_transfer (p : probe) : ov probe :=
  ' (_, p) ← peer_command p "serial.open" channel_one;
  ' (t, f) ← overlapped randbytes fuel c p;
  note "internet_contained_in_transfer" (Plain (JBool (contained t f)));;
  _ ← st_pure (check_transfer t);
  ' (status, p) ← peer_command p "serial.status" channel_one;
  note "backend_status" (Plain (JObj status));;
  st_pure (check_counters status);;
  st_pure (check_fetch t f);;
  mret p.

Definition timers_session (p : probe) : ov unit :=
  note "hello" (Plain (JObj (p_hello p)));;
  p ← counted_transfer p;
  ' (_, p) ← peer_command p "serial.close" channel_one;
  finish_passed p.

Definition diagnostics_session (p : probe) : ov unit :=
  note "hello" (Plain (JObj (p_hello p)));;
  st_pure (check_boot p);;
  ' (before, p) ← peer_command p "device.diagnostics" [];
  note "initial_diagnostics" (Plain (JObj before));;
  p ← counted_transfer p;
  ' (after, p) ← peer_command p "device.diagnostics" [];
  note "final_diagnostics" (Plain (JObj after));;
  ' (_, p) ← peer_command p "serial.close" channel_one;
  finish_passed p.

(** The isolated check: the same bytes without a fetch *)
Definition isolated_session (p : probe) : ov unit :=
  note "hello" (Plain (JObj (p_hello p)));;
  boot ← st_pure (ditem (p_hello p) "boot_id");
  note "boot_id" (Plain boot);;
  ' (before, p) ← peer_diagnostics p [];
  note "initial_diagnostics" (Plain (JObj before));;
  ' (_, p) ← peer_command p "serial.open" channel_one;
  x ← st_io (peer (echo randbytes fuel p 65536 true None 150000000));
  note "transfer" (Echoed x);;
  p ← expect_backend p;
  p ← expect_idle p before;
  ' (_, p) ← peer_command p "serial.close" channel_one;
  finish_passed p.

Definition coexistence_check (extra : dict json) (session : probe -> ov unit) : ov unit :=
  recorded_check (first_coexistence_report extra) (with_peer version session) (or_output c).
End Coexistence.

(** ** The scripts *)
Definition backend_release (output : string) : overlap_release :=
  coexistence_release "6cf40edf7438d9b8c173556f14ac0fbee2799f71cc4399c0b31b8f48e0f97d57" "737993054f7a1daa" "firmingo_application_v2" output.
Definition timers_release : overlap_release :=
  coexistence_release "5672a839ae6ddd558aca846bd688441decd7c15ccef47230851eebef31fb02a5" "" "firmingo_application"
    "docs/evidence/application-timers-coexistence.json".
Definition diagnostics_release : overlap_release :=
  coexistence_release "f553b19b18b2b265e042c38ef33cead60dd0c01244caa48c001c00b0c21850d4" "b10b16d1750787d0" "firmingo_application"
    "build/application-diagnostics-coexistence.json".
Definition isolated_release : overlap_release :=
  coexistence_release "155521c96f77720ad7abdbfb0d3423a2f41f24b95ebfa87e4a683a48c05e91ba" "" "" "build/application-v4-isolated.json".

Section Scripts.
Context `{codec : !Json} (randbytes : Z -> Z -> bytes) (fuel : nat) (version : string).

Definition backend_check (output : string) (extra : dict json) : ov unit :=
  coexistence_check version (backend_release output) extra (backend_session randbytes fuel (backend_release output)).

Definition backend_coexistence_attempt1 : ov unit := backend_check "build/application-backend-coexistence.json" [].
Definition backend_coexistence_failed : ov unit := backend_check "build/application-backend-coexistence.json" [].
Definition backend_coexistence_attempt3 : ov unit :=
  backend_check "build/application-backend-coexistence-attempt3.json"
    [("attempt", JInt 3); ("purpose", JStr "numbered reproduction of concurrent condition after one retained failure and one isolated pass")].
Definition backend_coexistence_attempt7 : ov unit :=
  backend_check "build/application-backend-coexistence-attempt7-captured.json"
    [("attempt", JInt 7); ("purpose", JStr "packet-captured reproduction of unassisted concurrent condition")].
Definition application_coexistence_check : ov unit :=
  coexistence_check version timers_release [] (timers_session randbytes fuel timers_release).
Definition application_diagnostics_coexistence_check : ov unit :=
  coexistence_check version diagnostics_release [] (diagnostics_session randbytes fuel diagnostics_release).
Definition application_v4_isolated_check : ov unit :=
  coexistence_check version isolated_release [("purpose", JStr "one unretried isolated 64 KiB v4 application-stream check")]
    (isolated_session randbytes fuel).
End Scripts.

(** ** What a passing script showed *)
#[local] Opaque echo_pattern.

Section Shown.
Context `{codec : !Json} (randbytes : Z -> Z -> bytes) (fuel : nat) (c : overlap_release).
Context (env : environment overlap_ret) (Hsocket : forall h, Socket (peer_view env h)).

Ltac unnoted := by apply (bool_decide_unpack _).

(** The backend counted the bytes of the transfer, both ways. *)
Definition counted (status : dict json) : Prop :=
  exists a b, dget status "backend_rx_bytes" = Some a /\ dget status "backend_tx_bytes" = Some b /\
    py_eq a (JInt 65536) = true /\ py_eq b (JInt 65536) = true.

Lemma counters_spec status : check_counters status = Ok tt -> counted status.
Proof.
  unfold check_counters. intros (a & Ha%some_or_Ok & H)%bind_Ok. apply raise_when_bind in H as [H1%negb_false_iff H].
  apply bind_Ok in H as (b & Hb%some_or_Ok & H2%raise_when_Ok%negb_false_iff). by exists a, b.
Qed.

Lemma boot_spec p u : check_boot c p = Ok u -> dget (p_hello p) "boot_id" = Some (JStr (or_boot_id c)).
Proof.
  unfold check_boot. intros (boot & Hb%some_or_Ok & H%raise_when_Ok%negb_false_iff%py_eq_str)%bind_Ok. by subst boot.
Qed.

Lemma expect_backend_triple d X p : lasting X -> "backend_status" ∉ d.*1 ->
  triple env [] (at_entries d X) (expect_backend p)
    (fun _ r k => exists status, at_entries (("backend_status", Plain (JObj status)) :: d) X r k /\
      py_eq (JObj status) (JObj expected_backend) = true) (fun _ => failing).
Proof.
  intros HX Hd. unfold expect_backend, peer_command. eapply triple_bind; [by apply calls_triple|]. intros [status p'].
  eapply triple_bind; [by apply noted_triple|]. intros u. apply checked_bind. intros v Hs%raise_when_Ok%negb_false_iff.
  apply triple_ret. intros r k H. by exists status.
Qed.

Lemma expect_idle_triple d X p before : lasting X -> "final_diagnostics" ∉ d.*1 ->
  triple env [] (at_entries d X) (expect_idle p before)
    (fun _ r k => exists after, at_entries (("final_diagnostics", Plain (JObj after)) :: d) X r k /\
      (exists value, check_diagnostics value before = Ok after) /\ idle after) (fun _ => failing).
Proof.
  intros HX Hd. unfold expect_idle. eapply triple_bind; [by apply diagnostics_triple|]. intros [after p']. apply given. intros Hv.
  eapply triple_bind; [by apply noted_triple|]. intros u. apply checked_bind. intros [] Hi%idle_spec.
  apply triple_ret. intros r k H. by exists after.
Qed.

(** A step whose result is known up to a witness *)
Lemma some_triple {A B} (I : A -> dict entry -> over_calls -> Prop) (m : ov B) Q E :
  (forall a, triple env [] (I a) m Q E) -> triple env [] (fun r k => exists a, I a r k) m Q E.
Proof. intros H r k [a Ha]. by apply (H a). Qed.

Lemma backend_session_triple p :
  triple env [] (at_entries [] (fun _ => True)) (backend_session randbytes fuel c p) (fun _ => completed (overlap_shown c env)) (fun _ => failing).
Proof.
  unfold backend_session. eapply triple_bind; [apply noted_triple; [done|done|unnoted]|]. intros u1.
  apply checked_bind. intros u2 Hboot%boot_spec.
  eapply triple_bind; [by apply diagnostics_triple|]. intros [before p1]. apply given. intros [first Hfirst].
  eapply triple_bind; [apply noted_triple; [done|done|unnoted]|]. intros u3.
  eapply triple_bind; [by apply calls_triple|]. intros [opened p2].
  eapply triple_bind; [apply overlapped_triple; [exact Hsocket|unnoted|unnoted]|]. intros [t f]. pose proof (carried_lasting env t) as HX.
  eapply triple_bind; [apply noted_triple; [done|done|unnoted]|]. intros u4. apply checked_bind. intros x Hx%transfer_spec.
  eapply triple_bind; [apply expect_backend_triple; [exact HX|unnoted]|]. intros p3. apply some_triple. intros status. apply given. intros Hst.
  eapply triple_bind; [apply expect_idle_triple; [exact HX|unnoted]|]. intros p4. apply some_triple. intros after. apply given. intros [[last Hlast] Hidle].
  apply checked_bind. intros [] [Hcon Hin]%fetch_spec. rewrite Hcon. eapply triple_bind; [by apply calls_triple|]. intros [closed p5].
  apply (finish_passed_triple env (overlap_shown c env) (overlap_shown_keys c env) p5 [_; _; _; _; _; _; _] []); [exact HX|].
  intros k Hk. exists (p_hello p), first, before, t, x, f, status, last, after. repeat (apply conj; [first [reflexivity|assumption]|]). by apply (Hk x).
Qed.

(** The isolated check: the same without a fetch, on any boot *)
Definition isolated_shown (d : dict entry) (k : over_calls) : Prop :=
  exists hello boot first before x status last after,
    d = [("final_diagnostics", Plain (JObj after)); ("backend_status", Plain (JObj status)); ("transfer", Echoed x);
         ("initial_diagnostics", Plain (JObj before)); ("boot_id", Plain boot); ("hello", Plain (JObj hello))] /\
    dget hello "boot_id" = Some boot /\ check_diagnostics first [] = Ok before /\ check_diagnostics last before = Ok after /\
    py_eq (JObj status) (JObj expected_backend) = true /\ idle after /\ pattern_carried env k.

Lemma isolated_lasting d : lasting (isolated_shown d).
Proof.
  intros k n (hello & boot & first & before & x & status & last & after & H0 & H1 & H2 & H3 & H4 & H5 & H6).
  exists hello, boot, first, before, x, status, last, after. repeat (apply conj; [assumption|]). by apply pattern_lasting.
Qed.

Lemma isolated_keys d k : isolated_shown d k -> Forall (fun key => key ∉ frame_keys) d.*1.
Proof. intros (hello & boot & first & before & x & status & last & after & -> & _). cbn. unnoted. Qed.

Lemma echoed_triple d p : triple env [] (at_entries d (fun _ => True)) (st_io (peer (echo randbytes fuel p 65536 true None 150000000)))
  (fun _ => at_entries d (pattern_carried env)) (fun _ => failing).
Proof.
  apply triple_io. intros r k [x|e] n (Hf & He & Hd & _) Hr; [|exact Hf]. split_and!; [exact Hf|exact He|exact Hd|].
  unfold runs, peer in Hr. destruct (echo _ _ _ _ _ _ _ (peer_view env ([] ++ k)) []) as [q calls] eqn:Eq. injection Hr as -> <-.
  apply (session_echo_Ok (peer_view env ([] ++ k))) in Eq as (_ & _ & _ & Hs & chunks & Hc & Hrc & Hx); [|apply Hsocket].
  exists k, calls, [], chunks. rewrite app_nil_r. split; [reflexivity|]. split; [exact Hs|]. split; [exact Hc|]. split; [exact Hrc|exact Hx].
Qed.

Lemma isolated_session_triple p :
  triple env [] (at_entries [] (fun _ => True)) (isolated_session randbytes fuel p) (fun _ => completed isolated_shown) (fun _ => failing).
Proof.
  unfold isolated_session. eapply triple_bind; [apply noted_triple; [done|done|unnoted]|]. intros u1.
  apply checked_bind. intros boot Hboot%some_or_Ok. eapply triple_bind; [apply noted_triple; [done|done|unnoted]|]. intros u2.
  eapply triple_bind; [by apply diagnostics_triple|]. intros [before p1]. apply given. intros [first Hfirst].
  eapply triple_bind; [apply noted_triple; [done|done|unnoted]|]. intros u3.
  eapply triple_bind; [by apply calls_triple|]. intros [opened p2].
  eapply triple_bind; [apply echoed_triple|]. intros x. pose proof (pattern_lasting env) as HX.
  eapply triple_bind; [apply noted_triple; [done|done|unnoted]|]. intros u4.
  eapply triple_bind; [apply expect_backend_triple; [exact HX|unnoted]|]. intros p3. apply some_triple. intros status. apply given. intros Hst.
  eapply triple_bind; [apply expect_idle_triple; [exact HX|unnoted]|]. intros p4. apply some_triple. intros after. apply given. intros [[last Hlast] Hidle].
  eapply triple_bind; [by apply calls_triple|]. intros [closed p5].
  apply (finish_passed_triple env isolated_shown isolated_keys p5 [_; _; _; _; _; _] []); [exact HX|].
  intros k Hk. exists (p_hello p), boot, first, before, x, status, last, after. repeat (apply conj; [first [reflexivity|assumption]|]). exact Hk.
Qed.

(** The scripts before: the counters of the backend, and in the second of them the expected boot and its diagnostics as
    they were answered *)
Definition timers_entries (hello status : dict json) (t : transfer_result) (f : fetch_result) : dict entry :=
  [("backend_status", Plain (JObj status)); ("internet_contained_in_transfer", Plain (JBool true)); ("transfer", Moved t);
   ("https", Fetched f); ("hello", Plain (JObj hello))].

Definition diagnostics_entries (hello before status after : dict json) (t : transfer_result) (f : fetch_result) : dict entry :=
  [("final_diagnostics", Plain (JObj after)); ("backend_status", Plain (JObj status));
   ("internet_contained_in_transfer", Plain (JBool true)); ("transfer", Moved t); ("https", Fetched f);
   ("initial_diagnostics", Plain (JObj before)); ("hello", Plain (JObj hello))].

Definition counted_shown (with_diagnostics : bool) (d : dict entry) (k : over_calls) : Prop :=
  exists hello before status after t x f,
    d = (if with_diagnostics then diagnostics_entries hello before status after t f else timers_entries hello status t f) /\
    (with_diagnostics = true -> dget hello "boot_id" = Some (JStr (or_boot_id c))) /\
    tr_outcome t = inl x /\ fetched_within t f /\ counted status /\ pattern_carried env k.

Lemma counted_lasting with_diagnostics d : lasting (counted_shown with_diagnostics d).
Proof.
  intros k n (hello & before & status & after & t & x & f & H0 & H1 & H2 & H3 & H4 & H5).
  exists hello, before, status, after, t, x, f. repeat (apply conj; [assumption|]). by apply pattern_lasting.
Qed.

Lemma counted_keys with_diagnostics d k : counted_shown with_diagnostics d k -> Forall (fun key => key ∉ frame_keys) d.*1.
Proof. intros (hello & before & status & after & t & x & f & -> & _). destruct with_diagnostics; cbn; unnoted. Qed.

Lemma counted_transfer_triple d p : "https" ∉ d.*1 -> "transfer" ∉ d.*1 -> "internet_contained_in_transfer" ∉ d.*1 -> "backend_status" ∉ d.*1 ->
  triple env [] (at_entries d (fun _ => True)) (counted_transfer randbytes fuel c p)
    (fun _ r k => exists y : dict json * transfer_result * fetch_result * echo_result, let '(status, t, f, x) := y in
      at_entries (("backend_status", Plain (JObj status)) :: ("internet_contained_in_transfer", Plain (JBool true)) ::
        ("transfer", Moved t) :: ("https", Fetched f) :: d) (pattern_carried env) r k /\
      (tr_outcome t = inl x /\ fetched_within t f /\ counted status)) (fun _ => failing).
Proof.
  intros H1 H2 H3 H4. unfold counted_transfer. eapply triple_bind; [by apply calls_triple|]. intros [opened p2].
  eapply triple_bind; [apply overlapped_triple; [exact Hsocket|exact H1|exact H2]|]. intros [t f]. pose proof (carried_lasting env t) as HX.
  eapply triple_bind; [apply noted_triple; [done|done|cbn; by rewrite !not_elem_of_cons]|]. intros u4. apply checked_bind. intros x Hx%transfer_spec.
  eapply triple_bind; [by apply calls_triple|]. intros [status p3].
  eapply triple_bind; [apply noted_triple; [done|done|cbn; by rewrite !not_elem_of_cons]|]. intros u5.
  apply checked_bind. intros [] Hc%counters_spec. apply checked_bind. intros [] [Hcon Hin]%fetch_spec. rewrite Hcon.
  apply triple_ret. intros r k (Hf & He & Hd & Hk). exists (status, t, f, x). split; [split_and!; [exact Hf|exact He|exact Hd|by apply (Hk x)]|done].
Qed.

Lemma timers_session_triple p :
  triple env [] (at_entries [] (fun _ => True)) (timers_session randbytes fuel c p) (fun _ => completed (counted_shown false)) (fun _ => failing).
Proof.
  unfold timers_session. eapply triple_bind; [apply noted_triple; [done|done|unnoted]|]. intros u1.
  eapply triple_bind; [apply counted_transfer_triple; unnoted|]. intros p1. apply some_triple. intros [[[status t] f] x]. apply given.
  intros (Hx & Hin & Hc). pose proof (pattern_lasting env) as HX. eapply triple_bind; [by apply calls_triple|]. intros [closed p5].
  apply (finish_passed_triple env (counted_shown false) (counted_keys false) p5 (timers_entries (p_hello p) status t f) []); [exact HX|].
  intros k Hk. exists (p_hello p), [], status, [], t, x, f. split; [reflexivity|]. split; [done|]. split_and!; assumption || apply Hin.
Qed.

Lemma diagnostics_session_triple p :
  triple env [] (at_entries [] (fun _ => True)) (diagnostics_session randbytes fuel c p) (fun _ => completed (counted_shown true)) (fun _ => failing).
Proof.
  unfold diagnostics_session. eapply triple_bind; [apply noted_triple; [done|done|unnoted]|]. intros u1.
  apply checked_bind. intros u2 Hboot%boot_spec. eapply triple_bind; [by apply calls_triple|]. intros [before p1].
  eapply triple_bind; [apply noted_triple; [done|done|unnoted]|]. intros u3.
  eapply triple_bind; [apply counted_transfer_triple; unnoted|]. intros p2. apply some_triple. intros [[[status t] f] x]. apply given.
  intros (Hx & Hin & Hc). pose proof (pattern_lasting env) as HX. eapply triple_bind; [by apply calls_triple|]. intros [after p3].
  eapply triple_bind; [apply noted_triple; [done|done|unnoted]|]. intros u5. eapply triple_bind; [by apply calls_triple|]. intros [closed p5].
  apply (finish_passed_triple env (counted_shown true) (counted_keys true) p5 (diagnostics_entries (p_hello p) before status after t f) []); [exact HX|].
  intros k Hk. exists (p_hello p), before, status, after, t, x, f. split; [reflexivity|]. split; [by intros _|]. split_and!; assumption || apply Hin.
Qed.

(** A coexistence script tells what its session showed. *)
Lemma coexistence_told version P extra session : (forall d, lasting (P d)) -> (forall d k, P d k -> Forall (fun key => key ∉ frame_keys) d.*1) ->
  dget extra "status" = None -> dget extra "error" = None ->
  (forall p, triple env [] (at_entries [] (fun _ => True)) (session p) (fun _ => completed P) (fun _ => failing)) ->
  let '(r, q, n) := coexistence_check version c extra session env [] [] in told env P (or_output c) r q n.
Proof.
  intros Hl Hk Hs He Ht. apply (recorded_check_told env P Hl Hk).
  - intros started. split; [reflexivity|]. cbn. clear -He. induction extra as [|[key v] l IH]; [done|].
    cbn [dget fmap list_fmap fst snd] in *. destruct (decide _); [done|by apply IH].
  - by apply (with_peer_triple env P Hl).
Qed.
End Shown.

(** Each of the earlier scripts says what it did. Whatever happens, once its report was begun it says "failed", or everything
    its session looks for was shown - the transfer of exactly the pattern, the fetch within it, the counters, and what it
    asks of the diagnostics - and an error beside "passed" comes from closing the connection; a script that exits with
    success has "passed", and the last thing it did was to save that report. *)
Theorem coexistence_outcome `{codec : !Json} randbytes fuel version (env : environment overlap_ret) :
  (forall h, Socket (peer_view env h)) ->
  (forall output extra, dget extra "status" = None -> dget extra "error" = None ->
    let '(r, q, n) := backend_check randbytes fuel version output extra env [] [] in
    told env (overlap_shown (backend_release output) env) output r q n) /\
  (let '(r, q, n) := application_coexistence_check randbytes fuel version env [] [] in
   told env (counted_shown timers_release env false) (or_output timers_release) r q n) /\
  (let '(r, q, n) := application_diagnostics_coexistence_check randbytes fuel version env [] [] in
   told env (counted_shown diagnostics_release env true) (or_output diagnostics_release) r q n) /\
  (let '(r, q, n) := application_v4_isolated_check randbytes fuel version env [] [] in
   told env (isolated_shown env) (or_output isolated_release) r q n).
Proof.
  intros Hs. split_and!; [intros output extra H1 H2| | |]; apply coexistence_told.
  all: try first [done|apply overlap_shown_lasting|apply counted_lasting|apply isolated_lasting].
  all: try first [apply overlap_shown_keys|apply counted_keys|apply isolated_keys].
  - intros p. by apply backend_session_triple.
  - intros p. by apply timers_session_triple.
  - intros p. by apply diagnostics_session_triple.
  - intros p. by apply isolated_session_triple.
Qed.
