(* ===== verification/DevCommands.v ===== *)
(** * The commands of tools/dev.py that choose another tool

    [smoke] selects a check for a profile, [package] completes the selection of a release, and [main] turns what a command
    raises into an exit code. The parsed arguments are records; the selected checks are those of BenchSmoke and the suite
    under tests/hardware. *)

From stdpp Require Import base tactics list strings gmap.
From Stdlib Require Import ZArith Lia.
From S2P Require Import Prelude.
From S2P Require Import PyStr.
From S2P Require Import PyDict.
From S2P Require Import PyJson.
From S2P Require Import Ipv4.
From S2P Require Import Effects.
From S2P Require Import Stateful.
From S2P Require Import Release.

Local Open Scope Z_scope.

(** ** [smoke] *)
Record smoke_args := {
  sk_board : string; sk_address : string; sk_device_id : option string; sk_legacy : bool; sk_firmware : string }.

Inductive smoke_check :=
| UartSmoke (address device_id board : string)
| ApplicationSmoke (address device_id board : string)
| Suite (command : list string).

(** [not args.device_id] *)
Definition named (device_id : option string) : option string :=
  match device_id with Some d => if (d =? "")%string then None else Some d | None => None end.

Definition selected_smoke (python : string) (a : smoke_args) : result smoke_check :=
  address ← validate_target (sk_address a);
  if bool_decide (sk_firmware a ∈ ["application"; "uart"]) then
    match named (sk_device_id a), sk_legacy a with
    | Some device_id, false => mret ((if (sk_firmware a =? "uart")%string then UartSmoke else ApplicationSmoke) address device_id (sk_board a))
    | _, _ => Raise (RuntimeError "smoke requires --device-id and disallows legacy identity bypass")
    end
  else
    let command := [python; "-m"; "pytest"; "tests/hardware"; "-v"; "-s"; "--board"; sk_board a; "--address"; address] in
    match named (sk_device_id a), sk_legacy a with
    | Some device_id, _ => mret (Suite (command ++ ["--device-id"; device_id]))
    | None, true => mret (Suite (command ++ ["--allow-legacy-no-identity"]))
    | None, false => Raise (RuntimeError "select --device-id for qualification firmware, or --allow-legacy-no-identity for the preserved prototype")
    end.

(** ** [package] *)
Definition package_command `{codec : !Json} `{packing : !Packing} (in_tree : string -> bool) (boards profiles : list string) : st disk_ret release string :=
  package in_tree (if bool_decide (boards = []) then BOARDS else boards)
    (if bool_decide (profiles = []) then ["application"; "uart"] else profiles).

(** ** [main] *)
Definition command_failed (e : exn) : bool := is_any [KOSError; KRuntimeError; KValueError; KTimeoutExpired] e.

(** The exit code; an exception that is not caught is shown with its traceback. *)
Definition main_code (r : result Z) : result Z :=
  match r with Ok code => Ok code | Raise e => if command_failed e then Ok 1 else Raise e end.

(** ** What is selected *)
Lemma named_spec o d : named o = Some d <-> o = Some d /\ d <> "".
Proof.
  unfold named. destruct o as [s|]; [|naive_solver]. destruct (String.eqb_spec s "") as [->|Hn]; naive_solver.
Qed.

(** No check of the FMGO profiles runs without the identity of the board: they are selected for a named device only, and
    never with the legacy bypass; the suite for the other profiles is told the identity, or explicitly that there is none.
    The address is always a numeric unicast one. *)
Theorem smoke_identified python a c : selected_smoke python a = Ok c ->
  validate_target (sk_address a) = Ok (sk_address a) /\
  match c with
  | UartSmoke address d board =>
      sk_firmware a = "uart" /\ address = sk_address a /\ board = sk_board a /\ sk_device_id a = Some d /\ d <> "" /\ sk_legacy a = false
  | ApplicationSmoke address d board =>
      sk_firmware a = "application" /\ address = sk_address a /\ board = sk_board a /\ sk_device_id a = Some d /\ d <> "" /\ sk_legacy a = false
  | Suite command =>
      sk_firmware a ∉ ["application"; "uart"] /\ exists identity,
        command = [python; "-m"; "pytest"; "tests/hardware"; "-v"; "-s"; "--board"; sk_board a; "--address"; sk_address a] ++ identity /\
        ((exists d, sk_device_id a = Some d /\ d <> "" /\ identity = ["--device-id"; d]) \/
         named (sk_device_id a) = None /\ sk_legacy a = true /\ identity = ["--allow-legacy-no-identity"])
  end.
Proof.
  unfold selected_smoke. intros (address & Ha & H)%bind_Ok. pose proof (proj1 (validate_target_exact _ _) Ha) as [-> _]. split; [done|].
  case_bool_decide as Hf; destruct (named (sk_device_id a)) as [d|] eqn:Hd; try (apply named_spec in Hd as [Hd Hn]).
  - destruct (sk_legacy a); [done|]. injection H as <-. destruct (String.eqb_spec (sk_firmware a) "uart") as [Hu|Hu]; split_and!; try done. set_solver.
  - done.
  - injection H as <-. split; [done|]. exists ["--device-id"; d]. split; [done|]. left. by exists d.
  - destruct (sk_legacy a); [|done]. injection H as <-. split; [done|]. exists ["--allow-legacy-no-identity"]. split; [done|]. by right.
Qed.

(** A release of the default selection is that of both boards and both profiles; like every release it is all or nothing,
    but for what Release.unclean says. *)
Theorem package_command_all_or_nothing `{codec : !Json} `{packing : !Packing} in_tree env f boards profiles :
  let '(s, r, k) := package_command in_tree boards profiles env [] {| rl_files := f; rl_stage := ∅; rl_archive := None |} in
  match r with
  | Ok d => exists version boards' profiles', d = ("dist/firmingo-" +:+ version)%string /\
      (boards = [] -> boards' = BOARDS) /\ (boards <> [] -> boards' = boards) /\
      (profiles = [] -> profiles' = ["application"; "uart"]) /\ (profiles <> [] -> profiles' = profiles) /\
      released in_tree f version boards' profiles' (rl_files s)
  | Raise e => rl_files s = f \/ exists boards' profiles', unclean in_tree env f boards' profiles' k e (rl_files s)
  end.
Proof.
  unfold package_command. set (boards' := if bool_decide (boards = []) then BOARDS else boards).
  set (profiles' := if bool_decide (profiles = []) then ["application"; "uart"] else profiles).
  pose proof (package_triple in_tree env f boards' profiles' _ [] eq_refl) as H. cbn [app] in H.
  destruct (package in_tree boards' profiles' env [] _) as [[s [d|e]] n]; [|by destruct H as [H|H]; [left|right; exists boards', profiles']]. destruct H as (version & -> & H).
  exists version, boards', profiles'. split; [done|]. unfold boards', profiles'.
  do 4 (split; [intros Hb; by first [rewrite bool_decide_eq_true_2 by done | rewrite bool_decide_eq_false_2 by done]|]). exact H.
Qed.

Module CommandDemo.
Definition without_identity : smoke_args := {|
  sk_board := "raspberry_pi_pico"; sk_address := "192.168.7.1"; sk_device_id := Some ""; sk_legacy := true; sk_firmware := "uart" |}.

Example identity_required : is_ok (selected_smoke "python3" without_identity) = false.
Proof. vm_compute. reflexivity. Qed.
End CommandDemo.
