(* ===== verification/FaultTest.v ===== *)
(** * The fault test: experiments/managed_sketch/checkpoint_flash.py, [main]

    The review and the journal of CheckpointProof and the transfer of CheckpointFlash in one program, over one host and one
    board: what [transfer] saves through its callback is a numbered record in a new directory. *)

From stdpp Require Import base tactics list list_numbers strings gmap.
From Stdlib Require Import ZArith Lia Strings.Byte.
From S2P Require Import Prelude.
From S2P Require Import PyBytes.
From S2P Require Import PyText.
From S2P Require Import Sha256.
From S2P Require Import PyStr.
From S2P Require Import PyRegex.
From S2P Require Import PyDict.
From S2P Require Import PyJson.
From S2P Require Import Effects.
From S2P Require Import Stateful.
From S2P Require Import Handlers.
From S2P Require Import Release.
From S2P Require Import Dev.
From S2P Require Import ResidentSource.
From S2P Require Import BuildStatefulProof.
From S2P Require Import StatefulExport.
From S2P Require Import Shell.
From S2P Require Import ManagedProfile.
From S2P Require Import Build.
From S2P Require Import ResidentBuild.
From S2P Require Import FmgoUpload.
From S2P Require Import CheckpointFlash.
From S2P Require Import ProofBuild.
From S2P Require Import CheckpointProof.

Local Open Scope Z_scope.

(** ** The host and the board

    [Connect] is [Probe(address, device_id, firmware_version=version, ...)], answered with the hello; [OnBoard] are the
    requests of the connected probe. *)
Inductive fault_call :=
| OnHost (c : shell_call)
| Connect (address device_id version : string)
| OnBoard (c : journal_call).

Definition fault_ret (c : fault_call) : Type :=
  match c with OnHost c => shell_ret c | Connect _ _ _ => dict json | OnBoard c => journal_ret c end.

(** The host, and [count], the records of the journal *)
Record fault := { ft_shell : shell; ft_count : Z }.

Abbreviation ft A := (st fault_ret fault A).

Definition counted (count : Z) (s : fault) : fault := {| ft_shell := ft_shell s; ft_count := count |}.

Definition host_view (env : environment fault_ret) (h : list fault_call) : environment shell_ret :=
  fun k c => env (h ++ (OnHost <$> k)) (OnHost c).

Definition on_host {A} (m : sh A) : ft A := fun env h s =>
  let '(w, r, n) := m (host_view env h) [] (ft_shell s) in
  ({| ft_shell := w; ft_count := ft_count s |}, r, OnHost <$> n).

Section Main.
Context `{packing : !Packing} `{pairs : !JsonPairs} (resolve : string -> string).

(** [save(value)] with its [nonlocal count] *)
Definition save_record (output : string) (record : dict json) : ft unit :=
  s ← st_get;
  count ← on_host (save_event output (ft_count s) record);
  st_modify (counted count).

(** The calls of [transfer]: its callback, and the probe *)
Definition on_journal (output : string) (c : journal_call) : ft (journal_ret c) :=
  match c with
  | Save record => save_record output record
  | Request op fields => st_ask (OnBoard (Request op fields))
  | Chunk upload_id offset data => st_ask (OnBoard (Chunk upload_id offset data))
  | CloseProbe => st_ask (OnBoard CloseProbe)
  end.

(** [main]; the result is what it prints. *)
Definition fault_test (a : fault_args) : ft (dict json) :=
  ' (capsule, version, count) ← on_host (fault_prepare resolve a);
  st_modify (counted count);;
  hello ← st_ask (Connect (fa_address a) (fa_device_id a) version);
  st_handle (on_journal (fa_output a)) (transfer hello capsule).
End Main.

(** ** The calls of a transfer, one by one *)
Definition part_call (upload_id : Z) (capsule : bytes) (offset : Z) : journal_call :=
  Chunk upload_id offset (slice offset (offset + 1024) capsule).

(** Begin, every part in order, finish *)
Definition sent_parts (upload_id : Z) (capsule : bytes) : list journal_call :=
  Request "flash.begin" (begin2_fields capsule (sha capsule)) :: (part_call upload_id capsule <$> range 0 (blen capsule) 1024).
Definition finish_stage (upload_id : Z) : journal_call := Request "flash.finish" (target2_fields upload_id).
Definition staged (upload_id : Z) (capsule : bytes) : list journal_call := sent_parts upload_id capsule ++ [finish_stage upload_id].

Definition first_record (boot : json) (capsule : bytes) : dict json := base_record boot (sha capsule) (blen capsule).

Section Trace.
Context (env : environment journal_ret).

Lemma send_part_calls id digest capsule u offset h r n : runs env h (send_part id digest capsule u offset) r n -> n = [part_call id capsule offset].
Proof. unfold send_part, part_call. intros H. by runs_all. Qed.

Lemma stage_part_Ok capsule base h id n : runs env h (stage_part capsule (sha capsule) base) (Ok id) n ->
  n = Save base :: staged id capsule /\ env h (Save base) = Ok tt /\ 1 <= id <= 0xffffffff /\
  exists reply, env (h ++ Save base :: sent_parts id capsule) (finish_stage id) = Ok reply /\ verified_stage reply id capsule (sha capsule).
Proof.
  unfold stage_part. intros H. repeat runs_step. rewrite ?app_nil_r, ?app_nil_l in *. injection H as ->.
  apply negb_false_iff, int_within_spec in H2 as (z & Hz & Hr). rewrite Hz in *. cbn [int_of] in *.
  apply (runs_fold_calls env _ (part_call z capsule)) in H6 as (k & -> & Hk); [|intros ? ? ? ? ? Hx; by apply send_part_calls in Hx].
  rewrite (Hk eq_refl), firstn_all in *. destruct x. split; [done|]. split; [done|]. split; [done|].
  exists x12. split; [by rewrite <- !app_assoc in H7|]. symmetry in H8. apply snapshot_Ok in H8 as [[= ->] Hsel].
  rewrite H10 in H9. symmetry in H9. by apply (state_differs_Ok _ _ _ _ _ Hsel) in H9 as [Hst Hto].
Qed.

(** What follows the commit request: its reply, or its failure, is saved, and the probe is closed. *)
Definition after_commit (h : list journal_call) (r : result (dict json)) (rest : list journal_call) : Prop :=
  (rest = [CloseProbe] /\ exists e, r = Raise e) \/
  exists b, rest = [Save b; CloseProbe] /\ forall x, r = Ok x -> x = b /\ env h (Save b) = Ok tt /\
    (jget x "state" = JStr "committing" \/ jget x "state" = JStr "outcomeUnknown").

(** The calls of a transfer that reached its commit *)
Definition committed_trace (hello : dict json) (capsule : bytes) (h : list journal_call) (r : result (dict json)) (n : list journal_call) : Prop :=
  exists boot id rest, let base := first_record boot capsule in let intent := intent_record base id in
    dget hello "boot_id" = Some boot /\ 1 <= id <= 0xffffffff /\
    n = Save base :: staged id capsule ++ [Save intent; commit2 id] ++ rest /\
    env h (Save base) = Ok tt /\ env (h ++ Save base :: staged id capsule) (Save intent) = Ok tt /\
    (exists reply, env (h ++ Save base :: sent_parts id capsule) (finish_stage id) = Ok reply /\ verified_stage reply id capsule (sha capsule)) /\
    after_commit (h ++ Save base :: staged id capsule ++ [Save intent; commit2 id]) r rest.

Lemma commit_saved capsule digest base id h r n :
  runs env h (b ← commit_part capsule digest base id; ask (Save b);; mret b) r n ->
  (n = [commit2 id] /\ exists e, r = Raise e) \/
  exists b, n = [commit2 id; Save b] /\ forall x, r = Ok x -> x = b /\ env (h ++ [commit2 id]) (Save b) = Ok tt /\
    (jget x "state" = JStr "committing" \/ jget x "state" = JStr "outcomeUnknown").
Proof.
  intros [(e & [-> _]%commit_part_runs & ->)|(b & n1 & n2 & [-> Hb]%commit_part_runs & H & ->)]%runs_bind; [left; by eauto|].
  right. exists b. apply runs_bind in H as [(e & H & ->)|([] & n3 & n4 & H & H2 & ->)]; apply (runs_ask env _ (Save b)) in H as [H ->]; [done|].
  apply runs_ret in H2 as [-> ->]. split; [done|]. intros x [= <-]. split; [done|]. split; [done|by apply Hb].
Qed.

Lemma transfer_trace hello capsule h r n : runs env h (transfer hello capsule) r n ->
  (no_commit2 n /\ exists e, r = Raise e) \/ committed_trace hello capsule h r n.
Proof.
  unfold transfer. intros (q & r1 & n1 & n2 & H & Hq & -> & Hr)%runs_finally. apply (runs_ask env _ CloseProbe) in Hq as [Hq ->].
  assert (Hfail : (exists e, r1 = Raise e) -> exists e, r = Raise e).
  { intros [e ->]. destruct q as [u|e']; [by exists e|by exists e']. }
  assert (Hclose : no_commit2 n1 -> no_commit2 (n1 ++ [CloseProbe])).
  { intros Hn. apply Forall_app. split; [done|]. by repeat constructor. }
  unfold transfer_body in H. apply runs_bind in H as [(e & [_ ->]%runs_pure & ->)|(boot & m & n0 & [Hboot ->]%runs_pure & H & ->)].
  { left. split; [by apply Hclose; constructor|]. apply Hfail. by exists e. }
  cbn [app] in *. rewrite app_nil_r in *. symmetry in Hboot. apply some_or_Ok in Hboot.
  apply runs_bind in H as [(e & H & ->)|(id & k1 & k2 & H1 & H & ->)].
  { left. split; [apply Hclose; by apply stage_part_calls in H|]. apply Hfail. by exists e. }
  apply stage_part_Ok in H1 as (-> & Hs & Hid & Hv). set (base := base_record boot (sha capsule) (blen capsule)) in *.
  assert (Hfree : no_commit2 (Save base :: staged id capsule)).
  { apply Forall_cons. split; [done|]. apply Forall_app. split; [|by repeat constructor]. apply Forall_cons. split; [done|].
    by apply Forall_fmap, Forall_forall. }
  apply runs_bind in H as [(e & H & ->)|([] & k3 & k4 & H2 & H & ->)].
  { apply (runs_ask env) in H as [_ ->]. left. split; [|apply Hfail; by exists e]. apply Hclose, Forall_app. split; [done|]. by repeat constructor. }
  apply (runs_ask env _ (Save _)) in H2 as [Hi ->]. right. exists boot, id. unfold first_record. fold base.
  rewrite <- app_assoc in H. apply commit_saved in H as [(-> & He)|(b & -> & Hb)].
  - exists [CloseProbe]. split_and!; try done; try lia. { by rewrite <- !app_assoc. } left. split; [done|]. by apply Hfail.
  - exists [Save b; CloseProbe]. split_and!; try done; try lia. { by rewrite <- !app_assoc. } right. exists b. split; [done|]. intros x ->.
    destruct q as [u|]; [|done]. subst r1. destruct (Hb x eq_refl) as (-> & Hs2 & Hst). split; [done|]. split; [|done].
    rewrite <- Hs2. f_equal. by rewrite <- !app_assoc.
Qed.
End Trace.

(** ** The journal on the disk *)
Section Journal.
Context `{packing : !Packing} (output : string) (env : environment fault_ret).

Abbreviation record_file := (event_file output).

(** The calls that one record takes *)
Definition saved_calls (count : Z) : list fault_call := OnHost <$> [Op "write" (record_file count); Op "fsync" output].

Definition saved_state (record : dict json) (s : fault) : fault :=
  {| ft_shell := on_files <[record_file (ft_count s) := json_pretty record]> (ft_shell s); ft_count := ft_count s + 1 |}.

(** A program of the host, from the state of the host *)
Lemma on_host_run {A} (m : sh A) h s (Q : A -> shell -> list shell_call -> Prop) (E : exn -> shell -> list shell_call -> Prop) :
  triple (host_view env h) [] (fun w k => w = ft_shell s /\ k = []) m Q E ->
  exists w r n, on_host m env h s = ({| ft_shell := w; ft_count := ft_count s |}, r, OnHost <$> n) /\
    match r with Ok a => Q a w n | Raise e => E e w n end.
Proof.
  intros H. specialize (H (ft_shell s) [] (conj eq_refl eq_refl)). unfold on_host. cbn [app] in H.
  destruct (m (host_view env h) [] (ft_shell s)) as [[w r] n]. exists w, r, n. split; [done|]. by destruct r.
Qed.

Lemma save_event_triple (host : environment shell_ret) count record w0 k0 :
  triple host [] (fun w k => w = w0 /\ k = k0) (save_event output count record)
    (fun c w k => c = count + 1 /\ sh_files w0 !! record_file count = None /\ w = on_files <[record_file count := json_pretty record]> w0 /\
       k = k0 ++ [Op "write" (record_file count); Op "fsync" output])
    (fun _ w _ => w = w0 \/ sh_files w0 !! record_file count = None /\ w = on_files <[record_file count := json_pretty record]> w0).
Proof.
  intros s k [-> ->]. unfold save_event, create_file, write_file, op, st_ask, st_io, ask, st_modify, st_get, st_pure, mbind, st_mbind, st_bind, mret, st_ret, st_pure.
  destruct (8 <=? count); [by left|]. cbn [raise_when app].
  destruct (there w0 (record_file count)) eqn:Et; [by left|]. cbn [raise_when app].
  rewrite !app_nil_r. destruct (host k0 (Op "write" (record_file count))); [|by left]. cbn [app].
  assert (Hn : sh_files w0 !! record_file count = None).
  { unfold there, exists_path in Et. apply orb_false_iff in Et as [[[H _]%orb_false_iff _]%orb_false_iff _].
    apply bool_decide_eq_false, eq_None_not_Some in H. exact H. }
  destruct (host (k0 ++ [Op "write" (record_file count)]) (Op "fsync" output)); [by split_and!|by right].
Qed.

(** The four records of a fault test are different files. *)
Lemma events_apart : NoDup (record_file <$> [0; 1; 2; 3]).
Proof.
  change (NoDup (String.append output <$> (event_file "" <$> [0; 1; 2; 3]))). apply NoDup_fmap_2; [apply _|]. by apply (bool_decide_unpack _).
Qed.

(** A record that is saved is new, and is on the disk. *)
Lemma saved h record s s1 n : on_journal output (Save record) env h s = (s1, Ok tt, n) ->
  sh_files (ft_shell s) !! record_file (ft_count s) = None /\ s1 = saved_state record s /\ n = saved_calls (ft_count s).
Proof.
  cbn [on_journal]. unfold save_record, mbind, st_mbind, st_bind, st_get, st_modify. rewrite app_nil_r.
  destruct (on_host_run (save_event output (ft_count s) record) h s _ _ (save_event_triple _ _ _ _ _)) as (w & r & m & -> & H).
  destruct r as [c|e]; [|done]. intros [= <- <-]. destruct H as (-> & Hn & -> & ->). split; [done|]. split; [done|]. by rewrite app_nil_r.
Qed.

(** Whether it is saved or not, a record touches no other file, and asks the host only. *)
Lemma saving h record s s1 r n : on_journal output (Save record) env h s = (s1, r, n) ->
  (exists m, n = OnHost <$> m) /\ forall path, path <> record_file (ft_count s) -> sh_files (ft_shell s1) !! path = sh_files (ft_shell s) !! path.
Proof.
  cbn [on_journal]. unfold save_record, mbind, st_mbind, st_bind, st_get, st_modify. rewrite app_nil_r.
  destruct (on_host_run (save_event output (ft_count s) record) h s _ _ (save_event_triple _ _ _ _ _)) as (w & q & m & -> & H).
  destruct q as [c|e]; intros [= <- <- <-]; cbn [ft_shell counted app].
  - destruct H as (-> & _ & -> & ->). rewrite app_nil_r. split; [by eexists|]. intros path Hp. cbn. by rewrite lookup_insert_ne.
  - split; [by eexists|]. intros path Hp. destruct H as [->|[_ ->]]; [done|]. cbn. by rewrite lookup_insert_ne.
Qed.

(** The requests leave the host alone. *)
Definition no_save (c : journal_call) : Prop := match c with Save _ => False | _ => True end.

Lemma requests_handled h s k : Forall no_save k -> handled (on_journal output) env h s k = (s, OnBoard <$> k).
Proof.
  revert h. induction k as [|c k IH]; intros h Hk; [done|]. apply Forall_cons in Hk as [Hc Hk].
  destruct c as [op fields|id offset data| |record]; try done.
  all: cbn [handled on_journal]; unfold st_ask, st_io, ask; by rewrite IH.
Qed.

Lemma event_other a b : a ∈ [0; 1; 2; 3] -> b ∈ [0; 1; 2; 3] -> a <> b -> record_file a <> record_file b.
Proof.
  intros [i Hi]%list_elem_of_lookup [j Hj]%list_elem_of_lookup Hn He. apply Hn.
  assert (i = j) as ->; [|congruence]. eapply NoDup_lookup; [exact events_apart|by rewrite list_lookup_fmap, Hi|]. by rewrite list_lookup_fmap, Hj, He.
Qed.

Abbreviation journal_handled := (handled (on_journal output) env).
Abbreviation journal_view := (handled_view (on_journal output) env).

Lemma saved_step h s before record s1 n1 : journal_handled h s before = (s1, n1) -> journal_view h s before (Save record) = Ok tt ->
  sh_files (ft_shell s1) !! record_file (ft_count s1) = None /\
  journal_handled h s (before ++ [Save record]) = (saved_state record s1, n1 ++ saved_calls (ft_count s1)).
Proof.
  intros H Hv. rewrite (handled_view_at _ _ _ _ _ _ _ _ H) in Hv. rewrite handled_app, H. cbn [handled].
  destruct (on_journal output (Save record) env (h ++ n1) s1) as [[s2 q] n2] eqn:E. cbn [fst snd] in Hv. subst q.
  apply saved in E as (Hn & -> & ->). split; [done|]. by rewrite app_nil_r.
Qed.

Lemma requests_step h s before k s1 n1 : journal_handled h s before = (s1, n1) -> Forall no_save k ->
  journal_handled h s (before ++ k) = (s1, n1 ++ (OnBoard <$> k)).
Proof. intros H Hk. by rewrite handled_app, H, requests_handled. Qed.

Lemma staged_requests id capsule : Forall no_save (staged id capsule).
Proof. apply Forall_app. split; [|by apply Forall_cons]. apply Forall_cons. split; [done|by apply Forall_fmap, Forall_forall]. Qed.

(** *** A transfer that reached its commit, on the disk and on the board *)
Definition before_commit (id : Z) (capsule : bytes) : list fault_call :=
  saved_calls 1 ++ (OnBoard <$> staged id capsule) ++ saved_calls 2.

(** After the commit: at most one more record, and the closing of the probe *)
Definition after_commit_calls (rest : list fault_call) : Prop := exists m, rest = (OnHost <$> m) ++ [OnBoard CloseProbe].

Definition intent_saved (boot : json) (id : Z) (capsule : bytes) (s : fault) : fault :=
  let base := first_record boot capsule in saved_state (intent_record base id) (saved_state base s).

Lemma intent_handled h s boot id capsule : ft_count s = 1 -> let base := first_record boot capsule in
  journal_view h s [] (Save base) = Ok tt -> journal_view h s (Save base :: staged id capsule) (Save (intent_record base id)) = Ok tt ->
  journal_handled h s (Save base :: staged id capsule ++ [Save (intent_record base id); commit2 id]) =
    (intent_saved boot id capsule s, before_commit id capsule ++ [OnBoard (commit2 id)]).
Proof.
  intros Hc base H1 H2. destruct (saved_step h s [] base s [] eq_refl H1) as [_ Ha].
  apply (requests_step h s _ (staged id capsule)) in Ha; [|apply staged_requests].
  destruct (saved_step h s _ _ _ _ Ha H2) as [_ Hb]. apply (requests_step h s _ [commit2 id]) in Hb; [|by apply Forall_cons].
  cbn [app] in Hb. rewrite <- app_assoc in Hb. cbn [app] in Hb. rewrite Hb. cbn [ft_count saved_state]. rewrite Hc.
  unfold before_commit. by rewrite <- !app_assoc.
Qed.

(** What the last record says is what the transfer returned. *)
Definition reported (r : result (dict json)) (s : fault) : Prop := forall x, r = Ok x ->
  sh_files (ft_shell s) !! record_file 3 = Some (json_pretty x) /\ (jget x "state" = JStr "committing" \/ jget x "state" = JStr "outcomeUnknown").

Lemma rest_handled h s before s2 n2 r rest : journal_handled h s before = (s2, n2) -> ft_count s2 = 3 ->
  after_commit (journal_view h s) before r rest ->
  exists s' k, journal_handled h s (before ++ rest) = (s', n2 ++ k) /\ after_commit_calls k /\ reported r s' /\
    forall path, path <> record_file 3 -> sh_files (ft_shell s') !! path = sh_files (ft_shell s2) !! path.
Proof.
  intros H Hc [(-> & e & ->)|(b & -> & Hb)].
  { exists s2, [OnBoard CloseProbe]. split; [by apply (requests_step h s _ [CloseProbe]) in H; [|by apply Forall_cons]|]. split; [by exists []|].
    split; [by intros x|done]. }
  rewrite handled_app, H. cbn [handled]. destruct (on_journal output (Save b) env (h ++ n2) s2) as [[s3 q] n3] eqn:E.
  destruct (saving _ _ _ _ _ _ E) as [[m ->] Hkept]. cbn [on_journal].
  unfold st_ask, st_io, ask. exists s3, ((OnHost <$> m) ++ [OnBoard CloseProbe]). split; [by rewrite app_nil_r|]. split; [by exists m|]. split.
  - intros x (-> & Hs & Hst)%Hb. split; [|done]. rewrite (handled_view_at _ _ _ _ _ _ _ _ H), E in Hs. cbn [fst snd] in Hs. subst q.
    apply saved in E as (_ & -> & _). cbn. rewrite Hc. apply lookup_insert_eq.
  - intros path Hp. apply Hkept. by rewrite Hc.
Qed.

(** The board was not asked to commit. *)
Definition uncommitted (k : list fault_call) : Prop := Forall (fun c => match c with OnBoard c => is_commit2 c = false | _ => True end) k.

Lemma host_uncommitted m : uncommitted (OnHost <$> m).
Proof. by apply Forall_fmap, Forall_forall. Qed.

Lemma handled_uncommitted h s k : no_commit2 k -> uncommitted (journal_handled h s k).2.
Proof.
  revert h s. induction k as [|c k IH]; intros h s Hk; [constructor|]. apply Forall_cons in Hk as [Hc Hk]. cbn [handled].
  destruct (on_journal output c env h s) as [[s1 q] n] eqn:E. specialize (IH (h ++ n) s1 Hk). destruct (journal_handled (h ++ n) s1 k) as [s2 m].
  apply Forall_app. split; [|exact IH]. destruct c as [op fields|id offset data| |record]; [injection E as _ _ <-; by apply Forall_cons..|].
  apply saving in E as [[i ->] _]. apply host_uncommitted.
Qed.

(** A transfer that began with one record in the journal: without a commit it fails; with one, everything before it is known. *)
Lemma journalled_transfer hello capsule h s : ft_count s = 1 ->
  let '(s', r, k) := st_handle (on_journal output) (transfer hello capsule) env h s in
  (uncommitted k /\ exists e, r = Raise e) \/
  exists boot id rest, dget hello "boot_id" = Some boot /\ 1 <= id <= 0xffffffff /\
    k = before_commit id capsule ++ OnBoard (commit2 id) :: rest /\ after_commit_calls rest /\ reported r s' /\
    (exists reply, env (h ++ saved_calls 1 ++ (OnBoard <$> sent_parts id capsule)) (OnBoard (finish_stage id)) = Ok reply /\
      verified_stage reply id capsule (sha capsule)) /\
    forall path, path <> record_file 3 -> sh_files (ft_shell s') !! path = sh_files (ft_shell (intent_saved boot id capsule s)) !! path.
Proof.
  intros Hc. unfold st_handle. destruct (transfer hello capsule (journal_view h s) []) as [r n] eqn:Hr.
  apply transfer_trace in Hr as [[Hn He]|(boot & id & rest & Hboot & Hid & -> & Hs1 & Hs2 & (reply & Hr & Hv) & Ha)].
  { pose proof (handled_uncommitted h s n Hn) as Hk. destruct (journal_handled h s n) as [s' k]. by left. }
  pose proof (intent_handled h s boot id capsule Hc Hs1 Hs2) as Hi.
  destruct (rest_handled h s _ _ _ r rest Hi) as (s' & k & H & Hk & Hrep & Hkept); [by cbn; rewrite Hc|exact Ha|].
  assert (He : forall l, (Save (first_record boot capsule) :: staged id capsule ++ [Save (intent_record (first_record boot capsule) id); commit2 id]) ++ l =
    Save (first_record boot capsule) :: staged id capsule ++ [Save (intent_record (first_record boot capsule) id); commit2 id] ++ l).
  { intros l. cbn [app]. by rewrite <- app_assoc. }
  rewrite He in H. rewrite H. right. exists boot, id, k. split; [done|]. split; [done|]. split; [by rewrite <- app_assoc|]. split; [done|]. split; [done|].
  split; [|exact Hkept]. exists reply. split; [|done].
  destruct (saved_step h s [] (first_record boot capsule) s [] eq_refl Hs1) as [_ Hb].
  apply (requests_step h s _ (sent_parts id capsule)) in Hb; [|apply Forall_cons; split; [done|by apply Forall_fmap, Forall_forall]].
  rewrite (handled_view_at _ _ _ _ _ _ _ _ Hb) in Hr. rewrite Hc in Hr. exact Hr.
Qed.
End Journal.

(** ** Before the board is asked *)
Section Prepared.
Context `{packing : !Packing} `{pairs : !JsonPairs} (resolve : string -> string) (a : fault_args).

Definition checker_call (c : resident_facts_v2) (w : shell) : shell_call :=
  Process "" (checker_command resolve (fa_validator a) (resolve (resolve (fa_proof a) +:+ "/stateful_counter.fms")) c) (sh_files w).

(** What is known when the board is connected: the capsule was reviewed and has the selected digest, the native checker
    accepted it, and the first record is in a directory that was not there. *)
Definition prepared (host : environment shell_ret) (w : shell) (capsule : bytes) (version : string) (w' : shell) (k : list shell_call) : Prop :=
  exists c p current, let checked := on_files (fun _ => pr_files p) w in
    check_fault_args a = Ok tt /\
    reviewed_inputs w (resolve (fa_proof a)) (fa_resident a) (fa_capsule a) (fa_validator a) = Ok (capsule, c) /\
    host [] (checker_call c w) = Ok p /\ pr_code p = 0 /\
    there checked (fa_output a) = false /\
    current_version (pr_files p) = Ok current /\ version = fault_version current (fault_phase c) /\
    w' = on_files <[event_file (fa_output a) 0 := json_pretty (fault_record a (fault_phase c))]> checked /\
    k = [checker_call c w; Op "mkdir" (fa_output a); Op "write" (event_file (fa_output a) 0); Op "fsync" (fa_output a)].

Lemma fault_prepare_run host w : let '(w', r, k) := fault_prepare resolve a host [] w in
  match r with Ok x => let '(capsule, version, count) := x in prepared host w capsule version w' k /\ count = 1 | Raise _ => True end.
Proof.
  unfold fault_prepare. destruct (check_fault_args a) as [[]|e] eqn:Ea; [|done].
  unfold checked_inputs, mbind, st_mbind, st_bind, st_get, st_pure. cbn [app].
  destruct (reviewed_inputs w _ _ _ _) as [[capsule c]|e] eqn:Er; [|done]. unfold run_process, files_now, st_get, st_ask, st_io, ask, st_modify, mbind, st_mbind, st_bind, mret, st_ret, st_pure. cbn [app].
  fold (checker_call c w). destruct (host [] (checker_call c w)) as [p|e] eqn:Ep; [|done]. cbn [app].
  destruct (pr_code p =? 0) eqn:Ecode; [|done]. apply Z.eqb_eq in Ecode. cbn [negb raise_when app].
  set (checked := on_files (fun _ => pr_files p) w). unfold make_new_dir, make_dirs, op, st_get, st_ask, st_io, ask, st_modify, mbind, st_mbind, st_bind, mret, st_ret, st_pure. cbn [app].
  destruct (there checked (fa_output a)) eqn:Et; [done|]. cbn [raise_when app]. destruct (host [checker_call c w] (Op "mkdir" (fa_output a))); [|done]. cbn [app id].
  destruct (current_version (sh_files checked)) as [current|e] eqn:Ev; [|done]. cbn [app].
  pose proof (save_event_triple (fa_output a) host 0 (fault_record a (fault_phase c)) checked [checker_call c w; Op "mkdir" (fa_output a)] checked _ (conj eq_refl eq_refl)) as H.
  cbn [app] in H. destruct (save_event _ _ _ _ _ _) as [[w' [count|e]] k]; [|done]. destruct H as (-> & _ & -> & Hk). split; [|done].
  exists c, p, current. split_and!; try done. cbn [app]. rewrite app_nil_r. exact Hk.
Qed.
End Prepared.

(** What the review says of the artifacts *)
Lemma reviewed_artifacts `{pairs : !JsonPairs} s proof resident_sha capsule_sha validator capsule c :
  reviewed_inputs s proof resident_sha capsule_sha validator = Ok (capsule, c) ->
  sha capsule = capsule_sha /\ capture s (proof +:+ "/stateful_counter.fms") 4096 = Ok capsule /\ rc_flashCheckpoint c <> None /\
  exists uf2, capture s (uf2_path (proof +:+ "/resident")) (4 * 1024 * 1024) = Ok uf2 /\ sha uf2 = resident_sha.
Proof.
  unfold reviewed_inputs. intros ([report resident] & _ & H)%bind_Ok. apply bind_Ok in H as (sources & _ & H). apply bind_Ok in H as (recorded & _ & H).
  apply bind_unit in H as [_ H]. apply bind_Ok in H as (elf & _ & H). apply bind_Ok in H as (uf2 & Hu & H). apply bind_Ok in H as (x & Hx & H).
  apply bind_unit in H as [_ H]. apply raise_when_bind in H as [H1%negb_false_iff%String.eqb_eq H]. apply bind_unit in H as [_ H].
  apply raise_when_bind in H as [H2%negb_false_iff%String.eqb_eq H]. apply bind_unit in H as [_ H]. apply bind_Ok in H as ([c' flash] & _ & H).
  apply bind_Ok in H as (blocks & _ & H). apply bind_Ok in H as (v & _ & H). apply bind_Ok in H as (contract & _ & H).
  apply raise_when_bind in H as [[_ Hn%bool_decide_eq_false]%orb_false_iff H]. apply bind_Ok in H as (checker & _ & H). apply bind_unit in H as [_ [= <- <-]].
  split; [done|]. split; [done|]. split; [done|]. by exists uf2.
Qed.

(** The bytes that the parts of a stage carry *)
Definition staged_bytes (k : list journal_call) : bytes := concat (omap (fun c => match c with Chunk _ _ data => Some data | _ => None end) k).

Lemma staged_exactly id capsule : staged_bytes (staged id capsule) = capsule.
Proof.
  unfold staged_bytes, staged, sent_parts. cbn [app omap list_omap]. rewrite omap_app. cbn [omap list_omap]. rewrite app_nil_r.
  transitivity (concat (pieces 1024 capsule)); [|by apply pieces_concat]. f_equal. unfold pieces.
  induction (range 0 (blen capsule) 1024) as [|o l IH]; [done|]. rewrite !fmap_cons. cbn [part_call omap list_omap]. by rewrite IH.
Qed.

(** C23: The fault test commits only what it reviewed, once, after its intent is on the disk. Either no commit is requested and the
    test fails, or the calls are these and no others: the native checker accepts the reviewed capsule, which has the selected
    digest; a first record goes to a new directory; the board answers under the version of the reviewed checkpoint; its boot is
    recorded; exactly the bytes of the capsule are staged, and the board says that the stage is verified and its slot
    untouched; the intent is recorded; and the commit is requested. At most one more record follows, without a commit, and the
    probe is closed. The records of the run are still on the disk when it ends, and a result that is printed is the last. *)
Theorem fault_test_commits `{packing : !Packing} `{pairs : !JsonPairs} resolve (env : environment fault_ret) a w :
  let '(s', r, n) := fault_test resolve a env [] {| ft_shell := w; ft_count := 0 |} in
  let output := fa_output a in
  (uncommitted n /\ exists e, r = Raise e) \/
  exists capsule version w0 k0 hello boot id rest,
    let connect := Connect (fa_address a) (fa_device_id a) version in let h0 := (OnHost <$> k0) ++ [connect] in
    let base := first_record boot capsule in
    prepared resolve a (host_view env []) w capsule version w0 k0 /\ sha capsule = fa_capsule a /\
    env (OnHost <$> k0) connect = Ok hello /\ dget hello "boot_id" = Some boot /\ 1 <= id <= 0xffffffff /\
    n = h0 ++ before_commit output id capsule ++ OnBoard (commit2 id) :: rest /\ after_commit_calls rest /\
    staged_bytes (staged id capsule) = capsule /\
    (exists reply, env (h0 ++ saved_calls output 1 ++ (OnBoard <$> sent_parts id capsule)) (OnBoard (finish_stage id)) = Ok reply /\
      verified_stage reply id capsule (sha capsule)) /\
    sh_files (ft_shell s') !! event_file output 0 = sh_files w0 !! event_file output 0 /\
    sh_files (ft_shell s') !! event_file output 1 = Some (json_pretty base) /\
    sh_files (ft_shell s') !! event_file output 2 = Some (json_pretty (intent_record base id)) /\
    reported output r s'.
Proof.
  unfold fault_test, mbind at 1, st_mbind at 1, st_bind at 1, on_host. cbn [ft_shell app].
  pose proof (fault_prepare_run resolve a (host_view env []) w) as H.
  destruct (fault_prepare resolve a (host_view env []) [] w) as [[w0 [[[capsule version] count]|e]] k0]; [destruct H as [Hp ->]|left; split; [apply host_uncommitted|by exists e]].
  unfold mbind, st_mbind, st_bind, st_modify, st_ask, st_io, ask, counted. cbn [ft_shell ft_count app]. rewrite app_nil_r.
  destruct (env (OnHost <$> k0) (Connect (fa_address a) (fa_device_id a) version)) as [hello|e] eqn:Eh.
  2: { left. split; [apply Forall_app; split; [apply host_uncommitted|by repeat constructor]|by exists e]. }
  set (h0 := (OnHost <$> k0) ++ [Connect (fa_address a) (fa_device_id a) version]).
  pose proof (journalled_transfer (fa_output a) env hello capsule h0 {| ft_shell := w0; ft_count := 1 |} eq_refl) as H.
  destruct (st_handle _ _ _ _ _) as [[s' r] k].
  destruct H as [[Hn He]|(boot & id & rest & Hboot & Hid & -> & Hrest & Hrep & Hv & Hkept)].
  { left. split; [|done]. apply Forall_app. split; [apply host_uncommitted|by apply Forall_cons]. }
  right. exists capsule, version, w0, k0, hello, boot, id, rest.
  assert (Hsha : sha capsule = fa_capsule a) by (destruct Hp as (c & p & current & _ & Hr & _); by apply reviewed_artifacts in Hr as [Hr _]).
  assert (Hat : forall i, i ∈ [0; 1; 2] -> sh_files (ft_shell s') !! event_file (fa_output a) i =
    sh_files (ft_shell (intent_saved (fa_output a) boot id capsule {| ft_shell := w0; ft_count := 1 |})) !! event_file (fa_output a) i).
  { intros i Hi. apply Hkept, event_other; [set_solver|set_solver|]. intros ->. revert Hi. by apply (bool_decide_unpack (3 ∉ [0; 1; 2])). }
  split; [exact Hp|]. split; [exact Hsha|]. split; [exact Eh|]. split; [exact Hboot|]. split; [exact Hid|].
  split; [unfold h0; by rewrite <- app_assoc|]. split; [exact Hrest|]. split; [apply staged_exactly|]. split; [exact Hv|].
  rewrite !Hat by set_solver. cbn [intent_saved saved_state ft_shell ft_count on_files sh_files].
  split; [rewrite !lookup_insert_ne by (apply event_other; [set_solver|set_solver|lia]); done|].
  split; [rewrite lookup_insert_ne by (apply event_other; [set_solver|set_solver|lia]); apply lookup_insert_eq|].
  split; [apply lookup_insert_eq|exact Hrep].
Qed.

(** ** A board that does not answer its commit *)
#[local] Existing Instance ProofDemo.packing.
#[local] Existing Instance ReviewDemo.pairs.

Module FaultDemo.
Definition start : shell := on_files (fun f => <["src/core/version.h" := Release.Demo.header]>
  (<["library.properties" := ascii ("version=0.1.0" +:+ String line_break EmptyString)]> f)) ReviewDemo.built.

Definition capsule : bytes := Eval vm_compute in default [] (sh_files start !! proof_file id ProofDemo.arguments "stateful_counter.fms").

Definition arguments : fault_args := Eval vm_compute in {|
  fa_address := "192.168.77.1"; fa_device_id := "a1b2c3d4e5f60718"; fa_proof := proof_output id ProofDemo.arguments;
  fa_resident := sha ProofDemo.uf2; fa_capsule := sha capsule; fa_validator := ProofDemo.checker; fa_output := "build/fault" |}.

Definition status (state : string) (received : Z) : result (dict json) :=
  Ok (demo_status state received (blen capsule) (fa_capsule arguments)).

Definition env : environment fault_ret := fun h c =>
  match c with
  | OnHost c => ReviewDemo.passes [] c
  | Connect _ _ _ => Ok demo_hello
  | OnBoard (Request op _) =>
      if (op =? "flash.begin")%string then status "accepted" 0
      else if (op =? "flash.finish")%string then status "verified" (blen capsule)
      else Raise (RuntimeError "FMGO disconnected")
  | OnBoard (Chunk _ offset data) => status "accepted" (offset + blen data)
  | OnBoard CloseProbe | OnBoard (Save _) => Ok tt
  end.

Abbreviation run := (fault_test id arguments env [] {| ft_shell := start; ft_count := 0 |}).

Definition returned : result (dict json) := Eval vm_compute in run.1.2.

Lemma fault_run_returns : run.1.2 = returned.
Proof. vm_cast_no_check (@eq_refl (result (dict json)) returned). Qed.
End FaultDemo.

Lemma fault_test_commits_witness : exists capsule id x, sha capsule = fa_capsule FaultDemo.arguments /\
  OnBoard (commit2 id) ∈ FaultDemo.run.2 /\ FaultDemo.returned = Ok x /\
  sh_files (ft_shell FaultDemo.run.1.1) !! "build/fault/event-03.local.json" = Some (json_pretty x) /\ jget x "state" = JStr "outcomeUnknown".
Proof.
  pose proof (fault_test_commits id FaultDemo.env FaultDemo.arguments FaultDemo.start) as H. pose proof FaultDemo.fault_run_returns as Hr.
  destruct (fault_test _ _ _ _ _) as [[s r] n]. cbn [fst snd] in *. subst r.
  destruct H as [[_ [e [=]]]|(capsule & version & w0 & k0 & hello & boot & id & rest & _ & Hsha & _ & _ & _ & -> & _ & _ & _ & _ & _ & _ & Hrep)].
  eexists capsule, id, _. split; [exact Hsha|]. split; [apply elem_of_app; right; apply elem_of_app; right; left|]. split; [reflexivity|].
  split; [exact (proj1 (Hrep _ eq_refl))|reflexivity].
Defined.
