(* ===== verification/UploadWire.v ===== *)
(** * The staged upload on the wire: experiments/managed_sketch/fmgo_upload.py over tools/session_smoke.py

    FmgoUpload is written against the operations of a probe; here each operation is the method of [Probe] of SessionSmoke,
    on a socket. What holds of the calls then holds of the frames that are sent. *)

From stdpp Require Import base tactics list list_numbers strings.
From Stdlib Require Import ZArith Lia.
From S2P Require Import Prelude.
From S2P Require Import PyBytes.
From S2P Require Import PyText.
From S2P Require Import PyDict.
From S2P Require Import PyJson.
From S2P Require Import Sha256.
From S2P Require Import Effects.
From S2P Require Import Stateful.
From S2P Require Import Handlers.
From S2P Require Import UploadCommand.
From S2P Require Import Sockets.
From S2P Require Import Smoke.
From S2P Require Import SessionSmoke.
From S2P Require Import FmgoUpload.

Local Open Scope Z_scope.

Abbreviation session_probe := SessionSmoke.probe.

(** [TARGET] *)
Definition TARGET : json :=
  JObj [("id", JInt 1); ("format", JStr TARGET_format); ("max_size", JInt TARGET_max_size); ("max_chunk", JInt TARGET_max_chunk);
        ("authorization", JStr "physical-d2-gnd")].

Section Wire.
Context `{codec : !Json} (version address device_id : string).

(** [selected_probe(address, device_id)] *)
Definition selected_probe : sio session_probe :=
  open_probe address device_id "nano_rp2040_connect" 7420 (10 * second) (version +:+ "-m9exp1") "application" [TARGET].

(** A method that uses a request number. No request follows one that raised: the probe is closed then. *)
Definition requesting (m : session_probe -> sio (dict json * session_probe)) : st sock_ret session_probe (dict json) :=
  p ← st_get;
  ' (value, p) ← st_io (m p);
  st_modify (fun _ => p);;
  mret value.

(** The operations of a probe; the state is the probe that is open. *)
Definition on_wire (c : probe_call) : st sock_ret session_probe (probe_ret c) :=
  match c with
  | Open => p ← st_io selected_probe; st_modify (fun _ => p);; mret (p_hello p)
  | Command op fields => requesting (fun p => command p op None fields)
  | UploadChunk upload_id offset data => requesting (fun p => upload_chunk p upload_id offset data)
  | Finish => p ← st_get; st_io (finish p)
  | Close => st_io close
  | Now => st_ask Monotonic
  | Sleep d => st_ask (Pause d)
  end.

(** [transfer(factory, capsule, install)] *)
Definition wire_transfer (fuel : nat) (capsule : bytes) (install : bool) : st sock_ret session_probe transfer_result :=
  st_handle on_wire (transfer fuel capsule install).

(** ** The frame of each operation *)

(** The bytes of an operation are one frame of its request. *)
Definition framed (c : probe_call) (m : bytes) : Prop :=
  match c with
  | Open => frame 1 1 (json_dumps [("op", JStr "hello"); ("max_payload", JInt MAX_PAYLOAD)]) = Ok m
  | Command op fields => exists request, frame 1 request (json_dumps (("op", JStr op) :: fields)) = Ok m
  | UploadChunk upload_id offset data => exists request, frame 4 request (be_bytes 4 upload_id ++ be_bytes 4 offset ++ data) = Ok m
  | Finish | Close | Now | Sleep _ => m = []
  end.

Context (env : environment sock_ret).

(** Calls that send nothing *)
Definition unsent (c : sock_call) : bool := match c with SendAll _ | Send _ => false | _ => true end.

Lemma sent_unsent h n : Forall (fun c => unsent c = true) n -> sent env h n = [].
Proof.
  intros Hn. revert h. unfold sent. induction Hn as [|c n Hc Hn IH]; intros h; [done|]. cbn [stream]. rewrite IH. by destruct c.
Qed.

Lemma exact_unsent count deadline : calls_only env (fun c => unsent c = true) (_exact count deadline).
Proof. unfold _exact, read_all, exact_turn. calls_tac; done. Qed.

Lemma flushed_prefix h d : flushed env h d `prefix_of` d.
Proof. unfold flushed. destruct (env h (Flushed d)) as [k|]; [|apply prefix_nil]. exists (drop (Z.to_nat k) d). by rewrite take_drop. Qed.

(** The first part of a frame, or nothing *)
Definition partly (whole : bytes -> Prop) (m : bytes) : Prop := m = [] \/ exists f, whole f /\ m `prefix_of` f.

Lemma request_frame_sent p kind payload expected h r n : runs env h (request_frame p kind payload expected) r n ->
  frame kind (p_next_request p) payload = Ok (sent env h n) \/
  partly (fun f => frame kind (p_next_request p) payload = Ok f) (sent env h n) /\ exists e, r = Raise e.
Proof.
  unfold request_frame. intros H. apply runs_bind in H as [(e & H & ->)|(now & n1 & n2 & H1 & H & ->)].
  { apply (runs_ask env h Monotonic) in H as [_ ->]. right. split; [by left|by exists e]. }
  apply (runs_ask env h Monotonic) in H1 as [_ ->]. apply runs_bind in H as [(e & H & ->)|(u & n1 & n3 & H1 & H & ->)].
  { apply (runs_ask env _ (SetTimeout _)) in H as [_ ->]. right. split; [by left|by exists e]. }
  apply (runs_ask env _ (SetTimeout _)) in H1 as [_ ->]. apply runs_bind in H as [(e & [_ ->]%runs_pure & ->)|(message & n1 & n4 & [Hf ->]%runs_pure & H & ->)].
  { right. split; [by left|by exists e]. }
  apply runs_bind in H as [(e & H & ->)|(u2 & n1 & n5 & H1 & H & ->)]; [apply (runs_ask env _ (SendAll _)) in H as [Hs ->]|apply (runs_ask env _ (SendAll _)) in H1 as [Hs ->]].
  - right. split; [|by exists e]. right. exists message. split; [done|]. rewrite !sent_app, !sent_one. cbn [sent_by app] in *.
    rewrite app_nil_r in Hs. calls_norm. rewrite <- Hs. apply flushed_prefix.
  - left. assert (Hn : Forall (fun c => unsent c = true) n5).
    { match type of H with runs _ _ ?m _ _ => assert (Hc : calls_only env (fun c => unsent c = true) m) by (calls_tac; apply exact_unsent) end.
      by eapply Hc. }
    rewrite !sent_app, (sent_unsent _ _ Hn), !sent_one. cbn [sent_by app] in *. rewrite !app_nil_r in *. cbn [p_next_request p_timeout] in *. calls_norm. rewrite <- Hs.
    by rewrite ?app_nil_r.
Qed.

Lemma partly_of (P Q : bytes -> Prop) m : (forall f, P f -> Q f) -> partly P m -> partly Q m.
Proof. intros HPQ [->|(f & Hf & Hm)]; [by left|right; eauto]. Qed.

(** What an operation sent: one frame, or the first part of it when it raised *)
Definition sent_frame (c : probe_call) (ok : bool) (m : bytes) : Prop := framed c m \/ partly (framed c) m /\ ok = false.

Lemma requesting_sent (m : session_probe -> sio (dict json * session_probe)) (P : bytes -> Prop) h p p' r n :
  (forall q k, runs env h (m p) q k -> P (sent env h k) \/ partly P (sent env h k) /\ exists e, q = Raise e) ->
  requesting m env h p = (p', r, n) -> P (sent env h n) \/ partly P (sent env h n) /\ is_ok r = false.
Proof.
  intros Hm. unfold requesting, mbind, st_mbind, st_bind, st_get, st_io, st_modify, mret, st_ret, st_pure. rewrite app_nil_r.
  destruct (m p env h) as [q k] eqn:E. specialize (Hm q k E). destruct q as [[value p1]|e]; cbn [app]; intros [= <- <- <-]; rewrite ?app_nil_r.
  - destruct Hm as [Hm|[_ [e [=]]]]. by left.
  - destruct Hm as [Hm|[Hm _]]; [by left|by right].
Qed.

Lemma open_probe_sent h r n : runs env h selected_probe r n -> framed Open (sent env h n) \/ partly (framed Open) (sent env h n) /\ exists e, r = Raise e.
Proof.
  unfold selected_probe, open_probe, command. intros H. apply runs_bind in H as [(e & [_ ->]%runs_pure & ->)|(target & n1 & n2 & [_ ->]%runs_pure & H & ->)]; [right; split; [by left|by eexists]|].
  apply runs_bind in H as [(e & [_ ->]%runs_pure & ->)|([] & n1 & n3 & [_ ->]%runs_pure & H & ->)]; [right; split; [by left|by eexists]|].
  apply runs_bind in H as [(e & H & ->)|(u & n1 & n4 & H1 & H & ->)].
  { apply (runs_ask env _ (Connect _ _ _)) in H as [_ ->]. right. split; [by left|by eexists]. }
  apply (runs_ask env _ (Connect _ _ _)) in H1 as [_ ->]. cbn [app].
  assert (Hs : forall k, sent env h (Connect target 7420 (10 * second) :: k) = sent env (h ++ [Connect target 7420 (10 * second)]) k) by done.
  rewrite Hs. rewrite !app_nil_r in H. clear Hs. set (h1 := h ++ _) in *.
  assert (Hclose : forall e1 h2 q k, runs env h2 (close;; io_raise e1 : sio session_probe) q k -> sent env h2 k = [] /\ exists e, q = Raise e).
  { intros e1 h2 q k [(e & Hc & ->)|(x & k1 & k2 & Hc & [-> ->]%runs_pure & ->)]%runs_bind; apply (runs_ask env _ CloseSocket) in Hc as [_ ->]; by eauto. }
  apply runs_try in H as [[H _]|(e & m1 & m2 & H & _ & Hc & ->)].
  - apply runs_bind in H as [(e & H & ->)|([value p'] & m1 & m2 & H & Hq & ->)]; apply request_frame_sent in H.
    + destruct H as [H|[H _]]; [by left|right; split; [exact H|by eexists]].
    + destruct H as [H|[_ [e [=]]]]. left. rewrite sent_app. cbn [framed].
      assert (m2 = []) as -> by (by apply runs_bind in Hq as [(e & [_ ->]%runs_pure & _)|([] & k1 & k2 & [_ ->]%runs_pure & [_ ->]%runs_ret & ->)]).
      change (sent env (h1 ++ m1) []) with (@nil Byte.byte). rewrite app_nil_r. exact H.
  - apply Hclose in Hc as [Hc He]. rewrite sent_app, Hc, app_nil_r.
    apply runs_bind in H as [(e1 & H & _)|([value p'] & k1 & k2 & H & Hq & ->)]; apply request_frame_sent in H.
    + destruct H as [H|[H _]]; [by left|right; by split].
    + destruct H as [H|[_ [e1 [=]]]]. left. rewrite sent_app.
      assert (k2 = []) as -> by (by apply runs_bind in Hq as [(e1 & [_ ->]%runs_pure & _)|([] & j1 & j2 & [_ ->]%runs_pure & [_ ->]%runs_ret & ->)]).
      change (sent env (h1 ++ k1) []) with (@nil Byte.byte). rewrite app_nil_r. exact H.
Qed.

Lemma upload_chunk_sent p upload_id offset data h r n : runs env h (upload_chunk p upload_id offset data) r n ->
  framed (UploadChunk upload_id offset data) (sent env h n) \/ partly (framed (UploadChunk upload_id offset data)) (sent env h n) /\ exists e, r = Raise e.
Proof.
  unfold upload_chunk. intros [(e & [_ ->]%runs_pure & ->)|([] & n1 & n2 & [Hc ->]%runs_pure & H & ->)]%runs_bind; [right; split; [by left|by eexists]|].
  symmetry in Hc. apply raise_when_Ok in Hc. breflect. destruct Hc as [[[H1 H2] [H3 H4]] H5].
  apply runs_bind in H as [(e & [_ ->]%runs_pure & ->)|(fields & n1 & n3 & [Hp ->]%runs_pure & H & ->)]; [right; split; [by left|by eexists]|].
  rewrite pack_command_fields, Ok_Ok in Hp by done. subst fields. rewrite !app_nil_r in H. cbn [app].
  rewrite <- app_assoc in H. apply request_frame_sent in H as [H|[H He]]; [left; by exists (p_next_request p)|right].
  split; [|exact He]. eapply partly_of; [|exact H]. intros f Hf. exists (p_next_request p). exact Hf.
Qed.

Lemma finish_unsent p : calls_only env (fun c => unsent c = true) (finish p).
Proof. unfold finish, close. calls_tac; done. Qed.

Lemma on_wire_sent c h p p' r n : on_wire c env h p = (p', r, n) -> sent_frame c (is_ok r) (sent env h n).
Proof.
  destruct c as [|op fields|upload_id offset data| | | |d]; unfold sent_frame; cbn [on_wire].
  - unfold mbind, st_mbind, st_bind, st_io, st_modify, mret, st_ret, st_pure. destruct (selected_probe env h) as [q k] eqn:E.
    apply (open_probe_sent h q k) in E. destruct q as [p1|e]; intros [= <- <- <-]; rewrite ?app_nil_r.
    + destruct E as [E|[_ [e [=]]]]. by left.
    + destruct E as [E|[E _]]; [by left|by right].
  - apply (requesting_sent _ (framed (Command op fields))). intros q k [H|[H He]]%request_frame_sent; [left; by eexists|right].
    split; [|exact He]. eapply partly_of; [|exact H]. intros f Hf. exists (p_next_request p). exact Hf.
  - apply (requesting_sent _ (framed (UploadChunk upload_id offset data))). intros q k. apply upload_chunk_sent.
  - unfold mbind, st_mbind, st_bind, st_get, st_io. rewrite app_nil_r. destruct (finish p env h) as [q k] eqn:E. apply (finish_unsent p h) in E.
    destruct q; intros [= <- <- <-]; left; by apply sent_unsent.
  - intros [= <- <- <-]. by left.
  - intros [= <- <- <-]. by left.
  - intros [= <- <- <-]. by left.
Qed.

(** The frames of a run, operation by operation *)
Lemma handled_sent k h p : let '(p', n) := handled on_wire env h p k in exists ms, sent env h n = concat ms /\
  length ms = length k /\ forall i c m, k !! i = Some c -> ms !! i = Some m ->
    sent_frame c (is_ok (handled_view on_wire env h p (take i k) c)) m.
Proof.
  revert h p. induction k as [|c k IH]; intros h p; cbn [handled]; [by exists []|].
  destruct (on_wire c env h p) as [[p1 q] n] eqn:E. specialize (IH (h ++ n) p1).
  destruct (handled on_wire env (h ++ n) p1 k) as [p2 j] eqn:Eh. destruct IH as (ms & Hs & Hl & Hf).
  exists (sent env h n :: ms). split; [cbn [concat]; by rewrite sent_app, Hs|]. split; [cbn; by rewrite Hl|].
  intros [|i] c' m Hc Hm; cbn in Hc, Hm.
  - injection Hc as <-. injection Hm as <-. unfold handled_view. cbn [take handled]. rewrite app_nil_r, E. by eapply on_wire_sent.
  - specialize (Hf i c' m Hc Hm). unfold handled_view in *. cbn [take handled]. rewrite E.
    destruct (handled on_wire env (h ++ n) p1 (take i k)) as [p3 j3]. by rewrite app_assoc.
Qed.

(** The hello of an opened probe *)
Lemma selected_probe_hello h p n : runs env h selected_probe (Ok p) n -> jget (p_hello p) "max_payload" = JInt 4096.
Proof.
  unfold selected_probe, open_probe. intros (target & n1 & n2 & _ & H & ->)%runs_bind_Ok.
  apply runs_bind_Ok in H as ([] & n1' & n3 & _ & H & ->). apply runs_bind_Ok in H as (u & n4 & n5 & _ & H & ->).
  apply runs_try in H as [[H _]|(e & m1 & m2 & _ & _ & H & _)].
  2:{ apply runs_bind_Ok in H as (u' & m3 & m4 & _ & H & _). by runs_step. }
  apply runs_bind_Ok in H as ([value p'] & m1 & m2 & _ & H & ->). apply runs_bind_Ok in H as ([] & m3 & m4 & [Hm _]%runs_pure & [[= ->] _]%runs_ret & ->).
  symmetry in Hm. apply raise_when_Ok, hello_mismatch_false in Hm. destruct Hm. cbn [p_hello]. unfold jget. by rewrite ho_payload.
Qed.
End Wire.

(** ** Programs that stop at the first call that raises *)
Section Answered.
Context {call : Type} {ret : call -> Type} (env : environment ret).

(** When the program returns, every call was answered. *)
Definition answered {A} (m : io ret A) : Prop := forall h a n, runs env h m (Ok a) n ->
  forall i c, n !! i = Some c -> is_ok (env (h ++ take i n) c) = true.

Lemma answered_pure {A} (m : result A) : answered (io_pure m).
Proof. by intros h a n [_ ->]%runs_pure. Qed.

Lemma answered_ask c : answered (ask c).
Proof. intros h a n [Ha ->]%runs_ask [|i] d; [|done]. intros [= <-]. cbn [take]. by rewrite app_nil_r, <- Ha. Qed.

Lemma answered_bind {A B} (m : io ret A) (f : A -> io ret B) : answered m -> (forall a, answered (f a)) -> answered (m ≫= f).
Proof.
  intros Hm Hf h b n (a & n1 & n2 & H1 & H2 & ->)%runs_bind_Ok i c [Hi|[Hl Hi]]%lookup_app_Some.
  - rewrite take_app_le by (apply lookup_lt_Some in Hi; lia). by eapply Hm.
  - rewrite take_app_ge by done. specialize (Hf a _ _ _ H2 _ _ Hi). by rewrite app_assoc.
Qed.

Lemma answered_fold {S X} (f : S -> X -> io ret S) s l : (forall s x, answered (f s x)) -> answered (io_fold f s l).
Proof. intros Hf. revert s. induction l as [|x l IH]; intros s; [apply answered_pure|]. cbn [io_fold]. by apply answered_bind. Qed.
End Answered.

Lemma stage_answered (env : environment probe_ret) capsule digest hello : answered env (stage capsule digest hello).
Proof.
  unfold stage, send_chunk. repeat first [apply answered_pure | apply answered_fold; intros | apply answered_bind; [|intros]].
  all: match goal with |- answered _ (ask ?c) => exact (answered_ask env c) end.
Qed.

Lemma commit_staged (env : environment probe_ret) fuel capsule (install : bool) h r k i c :
  runs env h (transfer fuel capsule install) r k -> k !! i = Some c -> is_commit c = true ->
  install = true /\ exists hello boot id m, env h Open = Ok hello /\ runs env (h ++ [Open]) (stage capsule (sha capsule) hello) (Ok (boot, id)) m /\
    c = commit_call id /\ take i k = Open :: m.
Proof.
  intros [Hn|(hello & r1 & n1 & n2 & Ho & Hs & -> & Hn)]%transfer_runs Hi Hc; [exfalso; by eapply not_in_none|].
  destruct i as [|i]; [by injection Hi as <-|]. cbn in Hi. apply lookup_app_Some in Hi as [Hi|[_ Hi]]; [|exfalso; by eapply not_in_none].
  pose proof (lookup_lt_Some _ _ _ Hi) as Hlt. apply (session_commit _ _ _ _ _ _ _ _ _ _ Hs Hi) in Hc as (-> & boot & id & m & Hst & -> & Ht).
  split; [done|]. exists hello, boot, id, m. split; [done|]. split; [done|]. split; [done|]. cbn [take]. f_equal. rewrite take_app_le by lia. exact Ht.
Qed.

(** C22: The staged upload over sockets, whatever the network does. The bytes it sends are the frames of its operations, one
    frame for each, in order; only an operation that raised may have sent less, a first part of its frame or nothing. At most
    one of them requests a commit, and none without [install]. Before a commit the frames of the hello, of begin, of every
    1024-byte part of the capsule in order and of finish were sent, each once and each answered, and the answer to the last
    says that the stage is verified and the slot untouched. *)
Theorem wire_commits_staged `{codec : !Json} version address device_id (env : environment sock_ret) fuel capsule (install : bool) p0 :
  let '(_, r, n) := wire_transfer version address device_id fuel capsule install env [] p0 in
  let view := handled_view (on_wire version address device_id) env [] p0 in
  exists k ms, runs view [] (transfer fuel capsule install) r k /\
    sent env [] n = concat ms /\ length ms = length k /\
    (forall i c m, k !! i = Some c -> ms !! i = Some m -> sent_frame c (is_ok (view (take i k) c)) m) /\
    (count is_commit k <= if install then 1 else 0)%nat /\
    forall i c, k !! i = Some c -> is_commit c = true -> install = true /\ exists id,
      c = commit_call id /\ 1 <= id <= 0xffffffff /\
      take i k = Open :: stage_calls id 1024 capsule (sha capsule) (range 0 (blen capsule) 1024) /\ uploaded (take i k) = capsule /\
      Forall2 framed (take i k) (take i ms) /\
      exists before reply, take i k = before ++ [Command "flash.finish" (status_fields id)] /\
        view before (Command "flash.finish" (status_fields id)) = Ok reply /\ verified_stage reply id capsule (sha capsule).
Proof.
  unfold wire_transfer, st_handle. set (view := handled_view (on_wire version address device_id) env [] p0).
  destruct (transfer fuel capsule install view []) as [r k] eqn:Hr. pose proof (handled_sent version address device_id env k [] p0) as H.
  destruct (handled (on_wire version address device_id) env [] p0 k) as [p1 n]. destruct H as (ms & Hs & Hl & Hf). fold view in Hf.
  exists k, ms. split; [exact Hr|]. split; [exact Hs|]. split; [exact Hl|].
  split; [exact Hf|].
  split; [by eapply transfer_commits|]. intros i c Hi Hc.
  destruct (commit_staged view fuel capsule install [] r k i c Hr Hi Hc) as (-> & hello & boot & id & m & Ho & Hst & -> & Ht).
  split; [done|]. exists id. pose proof (stage_answered view capsule (sha capsule) hello _ _ _ Hst) as Ha.
  apply stage_Ok in Hst as (_ & Hid & cs & offsets & before & reply & Hcs & Hoffs & Hm & Hb & Hreply & Hv).
  assert (Hpay : jget hello "max_payload" = JInt 4096).
  { unfold view, handled_view in Ho. cbn [handled on_wire app] in Ho. unfold mbind, st_mbind, st_bind, st_io, st_modify, mret, st_ret, st_pure in Ho.
    destruct (selected_probe version address device_id env []) as [[p|e] j] eqn:Ep; [|done]. injection Ho as <-. by eapply selected_probe_hello. }
  unfold chunk_size_of in Hcs. rewrite (ditem_jget _ _ _ Hpay) in Hcs by done. injection Hcs as <-. injection Hoffs as <-.
  change (TARGET_max_chunk `min` (4096 - 8)) with 1024 in Hm.
  split; [done|]. split; [done|]. rewrite <- Hm. split; [exact Ht|].
  split; [rewrite Ht, Hm; exact (uploaded_stage id 1024 capsule (sha capsule) ltac:(lia))|].
  split; [|exists (Open :: before), reply; split; [by rewrite Ht, Hb|by split]].
  apply Forall2_same_length_lookup. split; [by rewrite !length_take, Hl|]. intros j c m' Hj Hj'.
  assert (Hj0 := Hj). assert (j < i)%nat as Hlt by (apply lookup_lt_Some in Hj; rewrite length_take in Hj; lia).
  assert (Hok : is_ok (view (take j k) c) = true).
  { assert (take j k = take j (Open :: m)) as -> by (rewrite <- Ht, take_take; f_equal; lia). rewrite Ht in Hj0.
    destruct j as [|j]; cbn in Hj0; [injection Hj0 as <-; cbn [take]; by rewrite Ho|]. exact (Ha j c Hj0). }
  rewrite lookup_take_lt in Hj by done. rewrite lookup_take_lt in Hj' by done. destruct (Hf j c m' Hj Hj') as [H|[_ H]]; [exact H|congruence].
Qed.

(** ** A board that installs a capsule *)
Module WireDemo.
(** The text of a request is its operation, and the text of an answer names its dictionary. *)
Definition answers : list (string * dict json) :=
  [("hello", [("device_id", JStr "a1b2c3d4e5f60718"); ("board_id", JStr "nano_rp2040_connect"); ("firmware_version", JStr "0.1.0-m9exp1");
      ("protocol_major", JInt 1); ("boot_id", JStr "0123456789abcdef"); ("max_payload", JInt 4096); ("auth_mode", JStr "open-development");
      ("targets", JArr [TARGET]); ("channels", JArr [JObj [("id", JInt 1); ("backend", JStr "application"); ("controls", JArr [])]])]);
   ("flash.begin", demo_status "accepted" 0 257 demo_digest); ("chunk", demo_status "accepted" 257 257 demo_digest);
   ("flash.finish", demo_status "verified" 257 257 demo_digest); ("flash.commit", demo_status "committing" 257 257 demo_digest);
   ("flash.status", demo_status "boot_confirmed" 257 257 demo_digest)].

#[local] Instance codec : Json := {
  json_loads b := match List.find (fun a => bool_decide (ascii a.1 = b)) answers with
                  | Some a => Ok (JObj [("ok", JBool true); ("result", JObj a.2)])
                  | None => Raise (ValueError "Expecting value")
                  end;
  json_dumps d := match d with (_, JStr op) :: _ => ascii op | _ => [] end }.

Definition reply (request : bytes) : bytes :=
  let text := if be_val (slice 5 6 request) =? 4 then ascii "chunk" else drop 16 request in
  header_bytes 2 (be_val (slice 8 12 request)) (blen text) ++ text.

Definition start : session_probe := {| p_timeout := 0; p_next_request := 1; p_hello := [] |}.
Definition board : environment sock_ret := peer_env true [] reply.
Abbreviation run := (@wire_transfer codec "0.1.0" "192.168.7.1" "a1b2c3d4e5f60718" 2 demo_upload true board [] start).
Definition returned := Eval vm_compute in run.1.2.

Lemma wire_run_returns : run.1.2 = returned.
Proof. vm_cast_no_check (@eq_refl (result transfer_result) returned). Qed.
End WireDemo.

Lemma wire_commits_staged_witness : exists x k ms, WireDemo.returned = Ok x /\ jget (transaction x) "state" = JStr "boot_confirmed" /\
  sent WireDemo.board [] WireDemo.run.2 = concat ms /\ length ms = length k /\ (count is_commit k <= 1)%nat.
Proof.
  pose proof (@wire_commits_staged WireDemo.codec "0.1.0" "192.168.7.1" "a1b2c3d4e5f60718" WireDemo.board 2 demo_upload true WireDemo.start) as H.
  pose proof WireDemo.wire_run_returns as Hr. destruct (wire_transfer _ _ _ _ _ _ _ _ _) as [[p r] n] eqn:E. cbn [fst snd] in *. subst r.
  destruct H as (k & ms & _ & Hs & Hl & _ & Hc & _). eexists _, k, ms. split; [reflexivity|]. split; [reflexivity|]. by split_and!.
Defined.
